(* ===== verification/_CoqProject ===== *)
-Q . S2P
Prelude.v
Buffer.v
Common.v
Message.v
Framing.v
Cstring.v
Objects.v
World.v
Util.v
StList.v
StListSpec.v
StListText.v
StListLoad.v
Rc2.v
Cipher.v
Service.v
Session.v
Channel.v
Store.v
Resolve.v
Ft.v
Im.v
Aware.v
Dir.v
Debug.v
Dispatch.v
Frame.v
Owned.v
Delivery.v
Protocol.v
ChannelSpec.v
Secure.v
StoreSpec.v
StoreRecv.v
StoreUnit.v
ResolveSpec.v
ResolveRecv.v
Closing.v
Freeing.v
FtSpec.v
FtDeliver.v
FtEnds.v
FtRuns.v
ImSpec.v
ImProto.v
ImDeliver.v
ImEnds.v
ImRuns.v
Shelf.v
AwareShelf.v
AwareSpec.v
AwareSync.v
AwareTell.v
AwareFaults.v
AwareRuns.v
DirSpec.v
DirAnswers.v
DirRuns.v
Hazards.v
Login.v
Startup.v
