(* ===== verification/Prelude.v ===== *)
(** * Meanwhile: a verified model of the Sametime client library

    Meanwhile is a C library by which an instant-messaging client talks to a
    Sametime server.  A client has one session over one socket.  Bytes from
    the socket go to [mwSession_recv] (src/src/session.c), which cuts them
    into messages; [mwMessage_get] (src/src/message.c, on the types of
    src/src/common.c) parses a message, and a handler in session.c consumes
    it.  Messages that concern a channel go on to src/src/channel.c, and from
    there, decrypted with src/src/cipher.c if need be, to the service that
    owns the channel (src/src/service.c).  What the client sends goes the
    other way: a service calls [mwChannel_send], which encrypts and calls
    [mwSession_send], which renders the message and writes it to the socket.

    ** How the code is modelled

    Memory.  An operation of the C code is a function to [option]; [None]
    stands for an access outside a memory block, a read of a freed object, or
    a loop that does not end.  A theorem that says [Some] thus says that the
    code ends and touches no memory that is not its own.  Failure of an
    allocation is not modelled (glib aborts).

    Integers.  [guint16], [guint32] and [gsize] are integers of [Z], with the
    conversions [u16], [u32], [gsize] where the code narrows or wraps; the
    registers of RC2 are C [int]s ([Rc2.int32]), truncated as gcc does it.
    [gsize] has 64 bits.  Bytes are integers from 0 to 255 in a [list Z].

    Strings.  [mwString] is [char *]: [None] is NULL, [Some l] the bytes
    before the terminating zero.  [mwOpaque] has a length and an optional
    block, which need not agree; only well-formed ones ([opaque_ok]) have
    round trips.

    Uninitialised locals.  The parsers of message.c read some locals that a
    truncated message leaves unset.  The record [Message.Uninit] holds the
    values they happen to have, and every theorem is over any of them.

    State.  [World.world] has the session, and the channels, services and
    ciphers on heaps by address; the structures of the services and of the
    contact list, which point at one another, are blocks of the heap [w_heap]
    ([Objects.object]).  [World.M A] is a computation on it.  Pointers
    are addresses: a function that keeps using a channel after something else
    may have freed it dereferences it again in the model ([deref_channel]),
    and reading a freed one is [None].  [w_log] records what is written to the
    socket and the calls that reach the outside.

    The outside.  [World.Env] is what the library calls and does not contain:
    the functions of the session handler (write, close, notifications), those
    of each service ([ServiceOps]), the integers of the mpi library ([Mpi],
    with its documented laws as the class [Cipher.MpiOk]), the bytes of
    [rand()], the clock, and the order in which a glib hash table lists its
    values.  Handlers and services are arbitrary computations on the world, so
    they may call the library again.  A random source is a function of the
    number of bytes asked for; nothing depends on two draws differing.

    ** The files

    - [Prelude]: widths of integers, memory blocks, lengths, tactics.
    - [Buffer]: common.c lines 31-467.  [mwPutBuffer] grows by doubling,
      [mwGetBuffer] has a sticky error flag; [guint16], [guint32], [gboolean],
      [mwString] and [mwOpaque] are put and got.  [writes] and [reads],
      [safe], [truncates] are the specifications of a writer and of a parser
      from which those of all compound types are assembled.
    - [Common]: common.c lines 470-938.  Login information, privacy lists,
      user status, identities, encryption items.  The class [Wire] is the
      contract between these types and the messages.
    - [Message]: message.c.  The header, the body of each of the message
      types, [mwMessage_get] and [mwMessage_put].
    - [Framing]: session.c lines 694-885, the reassembly, over any owner of
      the session buffer (class [RecvOwner]).  [deframe] is its specification.
    - [World]: the objects, the monad, the environment.
    - [Rc2]: cipher.c lines 37-71 and 226-458, with RFC 2268 as reference
      ([rfc_expand], [rfc_cipher], [cbc], [pkcs5]).
    - [Cipher]: the rest of cipher.c: key agreement, the two ciphers,
      instances.
    - [Service]: the life cycle of service.c; its functions that hand on
      messages are in [Channel].
    - [Session]: session.c but for its input: properties, start, stop,
      sending, the handlers that concern no channel.
    - [Channel]: channel.c.
    - [Dispatch]: session.c lines 518-692, the handlers that find a channel,
      [session_process], and the session as the owner of its buffer.
    - [Frame]: a property of the primitive steps that sequencing keeps is one
      of every operation of the library; proved once over the classes
      [Steps] and [Frame], used for each invariant below.
    - [Delivery], [Protocol], [ChannelSpec], [Secure], [Closing], [Hazards],
      [Login], [Startup]: the theorems about the whole.
    - [Cstring]: what is used of [sscanf], [printf], [strstr], [strrchr].
    - [Objects]: the structures that are blocks of the heap, and the class
      [Object] of the types a block can have.
    - [StList]: st_list.c, the contact list.  [StListSpec] has the abstract
      list (a tree of groups and users) and the operations on it, [StListText]
      the text of a list and its loading, [StListLoad] which texts are safe.
    - [Store]: srvc_store.c, the storage service.  [StoreSpec]: its invariant;
      [StoreRecv]: the answers of the server; [StoreUnit]: units, the accepted
      channel, runs.
    - [Resolve]: srvc_resolve.c, the resolution service.  [ResolveSpec]: its
      table of searches; [ResolveRecv]: searches and their answers.
    - [Util]: mw_util.c, the data of a client with the function that frees it,
      and what the services share.
    - [Ft]: srvc_ft.c, the file transfer service.  [FtSpec]: its invariant, an
      instance of [Owned]; [FtDeliver]: a file from one client to the other;
      [FtEnds]: offers, acknowledgements, freeing; [FtRuns]: runs.
    - [Im]: srvc_im.c, the instant messaging service.  [ImSpec]: its
      invariant; [ImProto]: the formats of a conversation, read as they are
      written; [ImDeliver]: a conversation from one client to the other;
      [ImEnds]: the opening of a conversation, what the server may send,
      freeing; [ImRuns]: runs.
    - [Aware]: srvc_aware.c, the awareness service.  [Shelf]: tables of lists
      that share entries, as a relation; [AwareShelf]: the two such structures
      of the service, its ids and its attributes, as instances of it (class
      [Shelved]); [AwareSpec]: its invariant; [AwareSync]: the server is told
      what is on the lists; [AwareTell]: the client is told what the server
      says; [AwareFaults]: calls that fail; [AwareRuns]: runs.
    - [Dir]: srvc_dir.c, the directory service.  [DirSpec]: its invariant;
      [DirAnswers]: books, the opening of a directory, what never happens;
      [DirRuns]: runs.
    - [Owned]: a service and the blocks it owns: the class [Owned], the
      invariant that the blocks on the heap are those on the list of the
      service, the steps that keep it.  [Freeing]: what stopping such a
      service frees, for any of them.
    - [Debug]: error.c, mw_debug.c: the texts of errors, the hex dump.

    ** What is shown

    Input.  [mwSession_recv] refines [deframe] whatever the chunks
    ([Framing.mwSession_recv_deframes], [mwSession_recv_chunks]); what one
    side sends, cut anyhow, is what the handlers of the other side are run on,
    once each and in order ([Delivery.session_delivery]).

    Codec.  Parsing a written message gives it back up to the normal form
    [mwMessage_norm], which is what the wire can carry ([mwMessage_roundtrip]);
    on any bytes the parser ends within its input
    ([mwMessage_get_memory_safe]); a message cut short raises the error flag
    ([mwMessage_truncated]); without the flag the result does not depend on
    uninitialised locals, with it, it may ([.._uninit_independent],
    [.._uninit_leak]).

    Ciphers.  RC2 is that of RFC 2268 in CBC mode with the padding of PKCS 5,
    keys having 1024 effective bits; decryption inverts encryption, vectors
    included; streams of messages survive ([Cipher.cipher_stream]); both sides
    agree on keys, if the secret they share has the 16 bytes of one
    ([Cipher.RC2_128_keys_agree]); a server recovers the password from a login
    ([Login]).

    Session.  If no function of the handler or of a service changes the state
    of the session itself, the states are a path in the graph
    [Protocol.session_next] and a session is STARTED only after handshake and
    login; each step of the start and the stop does exactly what [Startup]
    says, and the answer to the login runs the start functions of the stopped
    services ([login_ack_spec]).

    Channels.  The table of channels and the heap agree at all times
    ([channels_wf_invariant]); new ids are free; what is queued before a
    channel opens goes out when it does; what is sent encrypted arrives
    decrypted ([Secure.secure_delivery]); closing removes one channel and tells
    the other party ([Closing]).

    Contact list.  The operations act on the pointers as on the abstract list,
    and the getters and searches give what is in it
    ([StListSpec.contact_list_refines]); freeing it frees each block once;
    a list whose strings the text can hold ([list_ok]) is loaded as it was
    written, up to [value_norm] ([contact_list_roundtrip],
    [contact_list_put_get]); loading stays within its blocks exactly on the
    texts of [list_load_safe_iff].

    Storage and resolution.  The functions of a service are those of an
    environment ([Frame.with_service]) in which the library runs, so the
    invariants ([store_invariant], [resolve_invariant]) are over every call of
    the client, every callback and all bytes of the server.  Any bytes are
    taken safely ([store_recv_safe], [resolve_recv_safe]); an answer reaches
    what it is to, with exactly what the server sent ([store_answer],
    [resolve_answer]); one that breaks off drops it in silence
    ([store_truncated_answer], [resolve_truncated_answer]); what waits for the
    channel goes out in order ([store_accept_sends]); a search goes out under
    a new id ([resolve_asks]).

    File transfer.  The transfers on the heap are those on the list of the
    service, and each only moves on ([FtSpec.ft_invariant]); a file sent in
    pieces arrives whole and in order, over an encrypted channel, and is done
    on both sides at once ([FtDeliver.file_transfer_delivers]); what is
    offered is what the peer is told ([offer_received]); stopping frees all
    ([stop_frees_transfers]).

    Instant messaging.  The conversations on the heap are those on the list of
    the service, under every call and all bytes of the server
    ([ImSpec.im_invariant]); what is sent in a conversation, of every kind and
    in pieces if it is long, arrives as it was sent and in order
    ([ImDeliver.im_delivers]); a channel the server opens becomes the
    conversation it asks for or is refused with the code's reason
    ([im_create_decides]), though a refusal leaves a conversation that is
    neither open nor closed ([refused_open_stuck]); any bytes on an open
    conversation are taken safely ([im_recv_safe]), with the exception of a
    handler that frees the conversation while it is told of a piece
    ([recv_frees_unsafe]); stopping frees all
    ([stop_frees_conversations]).

    Awareness.  The tables of the lists, those of the service and the
    memberships of the entries agree at all times ([AwareSpec.aware_invariant]);
    a call that makes a list, or changes what is on one by a list of ids or
    keys, returns, and its messages make the subscriptions of the
    server, as [AwareSync.obey] defines them, the union of what is on the lists
    ([aware_server_agrees]; some of the other calls fail, see [AwareFaults]), and a server that takes the channel is told all of
    it ([accept_tells_all]); a status reaches exactly the lists of its id, in
    their order ([status_told]); which updates are taken safely
    ([update_safe_iff]); attributes are read as they were set
    ([attribute_values]).

    Directory.  The books of the table and the directories that wait are as
    they should be at all times ([DirSpec.dir_invariant]); which lists of books
    are taken ([book_list_decides]); what an opening asks the server
    ([dir_open_asks]), and that nothing comes of it ([directories_never_open],
    [directory_stays_stopping]).

    Where the code fails.  [Hazards], [AwareFaults], and theorems in [Rc2],
    [Cipher], [Common] and [Protocol], give the inputs and calls on which the code leaves
    its memory or does not do what its comments say.

    ** Fuel

    Loops that are not structural recursions run on fuel.  [ensure_buffer]
    doubles at most 64 times since a length stays below 2^64
    ([double_len_fuel], [Buffer.ensure_buffer_grows]).  [mwSession_recv] has one
    more than the bytes of the chunk, as every turn consumes one.
    [mwChannel_newOutgoing] has one more than the entries of the table, so one
    of the ids tried is free ([newOutgoing_fresh]).  The loops of cipher.c have
    one more than the bytes they go through.  Each is shown to end by the
    theorem on its function.  [fetch_line] consumes the text of a contact list;
    the loops that free it have as much fuel as there are entries.  A search
    id is found at the second try at the latest ([search_id_run]); the hex
    dump has a turn for each sixteen bytes ([pretty_print_readable]).
    Stopping file transfer or instant messaging takes one round for each
    entry of the list ([stop_run]).  A long text or HTML is cut into pieces of
    at least one byte, so there are at most as many rounds as bytes; what is
    packed in a piece is not cut again, so two levels are enough.
    The lists that are told of a status are gone through with as many rounds
    as the client's [ac_rounds], which a theorem that uses it compares with the
    lists there are; the loop over an array of attributes does not end with any
    number of turns ([AwareFaults.watch_array_never_ends]); the lists of a
    service that is freed take one round each.

    ** What is not modelled

    The two other services of the protocol (srvc_conf.c, srvc_place.c) are
    clients of [Channel] and are the parameters [ServiceOps] here; they are
    the next to be modelled.  The hash of a string by which glib finds a book
    is a parameter of [Dir].
    Vendored code (mpi/mpi.c) is the parameter [Mpi]; logging and
    the sample programs have no effect on what is modelled.  The order in
    which glib lists a hash table (mw_util.c) is the parameter [e_values].
    Removal functions of client data, which only call a [free] the
    client supplied, are left out.  Not modelled of glib: [g_memdup] copies
    with the length taken modulo 2^32, which differs for blocks of 4 GiB and
    more; the order in which it compares a key with the others of its hash
    ([Dir.slot_insert] goes by the order in which they came); and that a table which is freed
    also frees what a clean-up function of the client puts into it meanwhile
    ([Resolve.searches_destroy]). *)

From stdpp Require Export base list numbers option.
From Stdlib Require Export ZArith Lia.

#[export] Set Default Goal Selector "!".
#[global] Open Scope Z_scope.

Declare Scope mw_scope.
Delimit Scope mw_scope with mw.

(** ** Machine integers *)

(** [guint16], [guint32] and [gsize] are integers of [Z] in the range of
    their width; [u8], [u16], [u32] and [gsize] are the conversions to them. *)
Definition u8 (z : Z) : Z := z mod 2 ^ 8.
Definition u16 (z : Z) : Z := z mod 2 ^ 16.
Definition u32 (z : Z) : Z := z mod 2 ^ 32.
Definition gsize (z : Z) : Z := z mod 2 ^ 64.

Definition is_u8 (z : Z) : Prop := 0 <= z < 2 ^ 8.
Definition is_u16 (z : Z) : Prop := 0 <= z < 2 ^ 16.
Definition is_u32 (z : Z) : Prop := 0 <= z < 2 ^ 32.

#[export] Instance is_u8_dec z : Decision (is_u8 z).
Proof. unfold is_u8. apply _. Defined.
#[export] Instance is_u16_dec z : Decision (is_u16 z).
Proof. unfold is_u16. apply _. Defined.
#[export] Instance is_u32_dec z : Decision (is_u32 z).
Proof. unfold is_u32. apply _. Defined.

Lemma u8_range z : is_u8 (u8 z).
Proof. apply Z.mod_pos_bound. lia. Qed.
Lemma u16_range z : is_u16 (u16 z).
Proof. apply Z.mod_pos_bound. lia. Qed.
Lemma u32_range z : is_u32 (u32 z).
Proof. apply Z.mod_pos_bound. lia. Qed.

Lemma u16_id z : is_u16 z -> u16 z = z.
Proof. apply Z.mod_small. Qed.
Lemma u32_id z : is_u32 z -> u32 z = z.
Proof. apply Z.mod_small. Qed.
Lemma gsize_id z : 0 <= z < 2 ^ 64 -> gsize z = z.
Proof. apply Z.mod_small. Qed.

(** ** Bit operations as arithmetic *)

Lemma land_ones_mod x n : 0 <= n -> Z.land x (Z.ones n) = x mod 2 ^ n.
Proof. intros. by apply Z.land_ones. Qed.

Lemma land_ff x : Z.land x 0xff = x mod 2 ^ 8.
Proof. apply (land_ones_mod x 8). lia. Qed.

(** The bits of [y] below [n] do not meet those of [x] shifted by [n]. *)
Lemma lor_shiftl_add x y n :
  0 <= n -> 0 <= y < 2 ^ n -> Z.lor (Z.shiftl x n) y = x * 2 ^ n + y.
Proof.
  intros Hn Hy. rewrite <- Z.shiftl_mul_pow2 by done.
  assert (Z.land (Z.shiftl x n) y = 0) as H0.
  { apply Z.bits_inj'. intros i Hi. rewrite Z.land_spec, Z.bits_0, Z.shiftl_spec by done.
    destruct (Z.ltb_spec i n).
    - by rewrite (Z.testbit_neg_r _ (i - n)) by lia.
    - rewrite <- (Z.mod_small y (2 ^ n)) by done.
      rewrite Z.mod_pow2_bits_high by lia. apply andb_false_r. }
  rewrite Z.add_nocarry_lxor by done. symmetry. by apply Z.lxor_lor.
Qed.

(** ** Memory blocks *)

(** The length of a list, as the integer the code computes with. *)
Definition zlen {A} (l : list A) : Z := Z.of_nat (length l).

(** The bytes of an optional block, none for NULL. *)
Definition opt_list {A} (o : option (list A)) : list A :=
  match o with Some l => l | None => [] end.

(** [n] bytes from offset [off] of a block; [None] is a read outside it. *)
Definition mem_read (block : list Z) (off n : Z) : option (list Z) :=
  if decide (0 <= off /\ 0 <= n /\ off + n <= zlen block)
  then Some (take (Z.to_nat n) (drop (Z.to_nat off) block))
  else None.

Lemma zlen_nil {A} : zlen (@nil A) = 0.
Proof. reflexivity. Qed.
Lemma zlen_cons {A} (x : A) l : zlen (x :: l) = 1 + zlen l.
Proof. unfold zlen. cbn [length]. lia. Qed.
Lemma zlen_app {A} (l1 l2 : list A) : zlen (l1 ++ l2) = zlen l1 + zlen l2.
Proof. unfold zlen. rewrite length_app. lia. Qed.
Lemma zlen_nonneg {A} (l : list A) : 0 <= zlen l.
Proof. unfold zlen. lia. Qed.
Lemma zlen_drop {A} n (l : list A) :
  zlen (drop n l) = Z.max 0 (zlen l - Z.of_nat n).
Proof. unfold zlen. rewrite length_drop. lia. Qed.
Lemma zlen_take {A} n (l : list A) :
  zlen (take n l) = Z.min (Z.of_nat n) (zlen l).
Proof. unfold zlen. rewrite length_take. lia. Qed.
Lemma zlen_0_nil {A} (l : list A) : zlen l = 0 -> l = [].
Proof. destruct l; [done|]. rewrite zlen_cons. pose proof (zlen_nonneg l). lia. Qed.
Lemma to_nat_zlen {A} (l : list A) : Z.to_nat (zlen l) = length l.
Proof. unfold zlen. lia. Qed.
Lemma zlen_replicate {A} n (x : A) : zlen (replicate n x) = Z.of_nat n.
Proof. unfold zlen. by rewrite length_replicate. Qed.
Lemma zlen_map {A B} (f : A -> B) l : zlen (map f l) = zlen l.
Proof. unfold zlen. by rewrite length_map. Qed.
Lemma zlen_reverse {A} (l : list A) : zlen (reverse l) = zlen l.
Proof. unfold zlen. by rewrite length_reverse. Qed.

Create Rewrite HintDb mw_len.
#[export] Hint Rewrite @zlen_nil @zlen_cons @zlen_app @zlen_drop @zlen_take
  @zlen_replicate @zlen_map @zlen_reverse @to_nat_zlen : mw_len.

Lemma mem_read_prefix l1 l2 : mem_read (l1 ++ l2) 0 (zlen l1) = Some l1.
Proof.
  unfold mem_read. rewrite decide_True.
  - change (Z.to_nat 0) with 0%nat. by rewrite to_nat_zlen, drop_0, take_app_length.
  - rewrite zlen_app. pose proof (zlen_nonneg l1). pose proof (zlen_nonneg l2). lia.
Qed.

Lemma mem_read_all l : mem_read l 0 (zlen l) = Some l.
Proof. pose proof (mem_read_prefix l []) as H. by rewrite app_nil_r in H. Qed.

(** ** Tactics *)

(** Rewrites lengths and calls [lia] with the lengths known non-negative. *)
Ltac pose_zlen :=
  repeat match goal with
  | |- context [zlen ?l] =>
      lazymatch goal with
      | _ : 0 <= zlen l |- _ => fail
      | _ => pose proof (zlen_nonneg l)
      end
  | _ : context [zlen ?l] |- _ =>
      lazymatch goal with
      | _ : 0 <= zlen l |- _ => fail
      | _ => pose proof (zlen_nonneg l)
      end
  end.
Ltac zlen_lia := autorewrite with mw_len in *; pose_zlen; lia.
