(* ===== verification/Buffer.v ===== *)
(** * Put and get buffers, basic types (src/src/common.c, lines 31-467)

    The growing output buffer, the bounds-checked input buffer, and the
    marshalling of the basic types [guint16], [guint32], [gboolean],
    [mwString] and [mwOpaque].  Operations that touch memory return [option]:
    [None] stands for an access outside the memory block or a loop that does
    not end, so a theorem that an operation returns [Some] is a memory-safety
    and termination theorem. *)

From S2P Require Import Prelude.

(** ** The put buffer *)

(** [pb_buf] holds the bytes written from [buf] up to [ptr] ([None] is the NULL
    block of a new buffer), so [ptr] is the offset [zlen] of them; [pb_len]
    and [pb_rem] are the fields [len] and [rem]. *)
Record mwPutBuffer := {
  pb_buf : option (list Z);
  pb_len : Z;
  pb_rem : Z
}.

Definition pb_data (b : mwPutBuffer) : list Z := opt_list (pb_buf b).

Definition Put : Type := mwPutBuffer -> option mwPutBuffer.

Definition pskip : Put := fun b => Some b.
Definition pfail : Put := fun _ => None.
Definition pseq (p q : Put) : Put := fun b => p b ≫= q.

Notation "p >>> q" := (pseq p q) (at level 62, right associativity) : mw_scope.
#[local] Open Scope mw_scope.

Definition BUFFER_USED (b : mwPutBuffer) : Z := gsize (pb_len b - pb_rem b).

(** The loop [while( (len - use) < needed ) len = len << 1], with fuel. *)
Fixpoint double_len (fuel : nat) (len use needed : Z) : option Z :=
  if gsize (len - use) <? needed
  then match fuel with
       | O => None
       | S f => double_len f (gsize (Z.shiftl len 1)) use needed
       end
  else Some len.

(** After 64 doublings [len] is 0 and stays 0. *)
Definition double_len_fuel : nat := 65.

Definition ensure_buffer (needed : Z) : Put := fun b =>
  if pb_rem b <? needed then
    let use := BUFFER_USED b in
    let len := if pb_len b =? 0 then 1024 else pb_len b in
    len ← double_len double_len_fuel len use needed;
    buf ← match pb_buf b with
          | Some old => mem_read old 0 use
          | None => Some []
          end;
    Some {| pb_buf := Some buf; pb_len := len; pb_rem := gsize (len - use) |}
  else Some b.

(** Stores bytes at [ptr] and advances it; [None] when they do not fit in the
    block. *)
Definition pb_store (data : list Z) : Put := fun b =>
  match pb_buf b with
  | Some old =>
      if zlen old + zlen data <=? pb_len b
      then Some {| pb_buf := Some (old ++ data); pb_len := pb_len b; pb_rem := pb_rem b |}
      else None
  | None => None
  end.

Definition pb_sub_rem (n : Z) : Put := fun b =>
  Some {| pb_buf := pb_buf b; pb_len := pb_len b; pb_rem := gsize (pb_rem b - n) |}.

Definition mwPutBuffer_new : mwPutBuffer :=
  {| pb_buf := None; pb_len := 0; pb_rem := 0 |}.

(** [memcpy] reads [len] bytes of the caller's [data]. *)
Definition mwPutBuffer_write (data : list Z) (len : Z) : Put :=
  if len =? 0 then pskip else
  ensure_buffer len >>>
  (fun b => d ← mem_read data 0 len; pb_store d b) >>>
  pb_sub_rem len.

(** ** Opaques *)

(** A length and a pointer to a block, [None] for NULL. *)
Record mwOpaque := { len : Z; data : option (list Z) }.

Definition opaque_zero : mwOpaque := {| len := 0; data := None |}.

(** The [len] bytes an opaque designates; [None] if they are not all in its
    block. *)
Definition opaque_bytes (o : mwOpaque) : option (list Z) :=
  if len o =? 0 then Some [] else
  match data o with
  | Some d => mem_read d 0 (len o)
  | None => None
  end.

(** [g_memdup] of the bytes of a list. *)
Definition opaque_of (l : list Z) : mwOpaque :=
  if zlen l =? 0 then opaque_zero else {| len := zlen l; data := Some l |}.

Definition mwPutBuffer_finalize (from : mwPutBuffer) : mwOpaque :=
  {| len := BUFFER_USED from; data := pb_buf from |}.

(** ** Writing the basic types *)

(** The bytes stored by the macros [MW16_PUT] and [MW32_PUT]. *)
Definition MW16_PUT (val : Z) : list Z :=
  [Z.land (Z.shiftr val 0x08) 0xff; Z.land val 0xff].

Definition MW32_PUT (val : Z) : list Z :=
  [Z.land (Z.shiftr val 0x18) 0xff; Z.land (Z.shiftr val 0x10) 0xff;
   Z.land (Z.shiftr val 0x08) 0xff; Z.land val 0xff].

Definition guint16_buflen : Z := 2.
Definition guint32_buflen : Z := 4.
Definition gboolean_buflen : Z := 1.

Definition guint16_put (val : Z) : Put :=
  ensure_buffer guint16_buflen >>>
  pb_store (MW16_PUT val) >>>
  pb_sub_rem guint16_buflen.

Definition guint32_put (val : Z) : Put :=
  ensure_buffer guint32_buflen >>>
  pb_store (MW32_PUT val) >>>
  pb_sub_rem guint32_buflen.

Definition gboolean_put (val : bool) : Put :=
  ensure_buffer gboolean_buflen >>>
  pb_store [Z.b2z val] >>>
  pb_sub_rem 1.

(** A [char *] is NULL or a C string: the bytes before its NUL. *)
Abbreviation mwString := (option (list Z)).

Definition strlen (s : list Z) : Z := zlen s.

Definition mwString_put (val : mwString) : Put :=
  let len := match val with Some s => strlen s | None => 0 end in
  guint16_put (u16 len) >>>
  (if len =? 0 then pskip else
   ensure_buffer len >>>
   pb_store (opt_list val) >>>
   pb_sub_rem len).

(** [None] is the NULL opaque; an opaque with a length but no data is refused
    by [g_return_if_fail] and nothing is written. *)
Definition mwOpaque_put (o : option mwOpaque) : Put :=
  match o with
  | None => guint32_put 0x00
  | Some o =>
      let len := len o in
      if negb (len =? 0) && bool_decide (data o = None) then pskip else
      guint32_put (u32 len) >>>
      (if len =? 0 then pskip else
       ensure_buffer len >>>
       (fun b => d ← opaque_bytes o; pb_store d b) >>>
       pb_sub_rem len)
  end.

Definition mwOpaque_clear (o : mwOpaque) : mwOpaque := opaque_zero.

(** [None] when [g_memdup] would read outside the block. *)
Definition mwOpaque_clone (from : option mwOpaque) : option mwOpaque :=
  match from with
  | None => Some opaque_zero
  | Some from =>
      if len from =? 0 then Some opaque_zero else
      d ← opaque_bytes from; Some {| len := len from; data := Some d |}
  end.

(** ** The get buffer *)

(** [gb_ptr] is the offset of [ptr] from [buf]; the block of a buffer made
    from an empty opaque is NULL, here the empty block. *)
Record mwGetBuffer := {
  gb_buf : list Z;
  gb_len : Z;
  gb_ptr : Z;
  gb_rem : Z;
  gb_wrap : bool;
  gb_error : bool
}.

Definition Get (A : Type) : Type := mwGetBuffer -> option (A * mwGetBuffer).

Definition gret {A} (a : A) : Get A := fun b => Some (a, b).
Definition gbind {A B} (m : Get A) (k : A -> Get B) : Get B :=
  fun b => match m b with Some (a, b') => k a b' | None => None end.

Notation "'let!' x := m 'in' k" := (gbind m (fun x => k))
  (at level 10, x name, m at level 100, k at level 200) : mw_scope.

Definition set_error (e : bool) (b : mwGetBuffer) : mwGetBuffer :=
  {| gb_buf := gb_buf b; gb_len := gb_len b; gb_ptr := gb_ptr b;
     gb_rem := gb_rem b; gb_wrap := gb_wrap b; gb_error := e |}.
Definition add_ptr (n : Z) (b : mwGetBuffer) : mwGetBuffer :=
  {| gb_buf := gb_buf b; gb_len := gb_len b; gb_ptr := gb_ptr b + n;
     gb_rem := gb_rem b; gb_wrap := gb_wrap b; gb_error := gb_error b |}.
Definition sub_rem (n : Z) (b : mwGetBuffer) : mwGetBuffer :=
  {| gb_buf := gb_buf b; gb_len := gb_len b; gb_ptr := gb_ptr b;
     gb_rem := gsize (gb_rem b - n); gb_wrap := gb_wrap b; gb_error := gb_error b |}.

Definition check_buffer (needed : Z) : Get bool := fun b =>
  let b := if gb_error b then b else set_error (gb_rem b <? needed) b in
  Some (negb (gb_error b), b).

Definition gb_make (wrap : bool) (buf : list Z) (len : Z) : mwGetBuffer :=
  {| gb_buf := buf; gb_len := len; gb_ptr := 0; gb_rem := len;
     gb_wrap := wrap; gb_error := false |}.

(** [mwGetBuffer_new] copies the opaque's bytes, [None] when [g_memdup] would
    read outside the block; [mwGetBuffer_wrap] borrows the block. *)
Definition mwGetBuffer_new (o : option mwOpaque) : option mwGetBuffer :=
  match o with
  | Some o =>
      if len o =? 0 then Some (gb_make false [] 0) else
      d ← opaque_bytes o; Some (gb_make false d (len o))
  | None => Some (gb_make false [] 0)
  end.

Definition mwGetBuffer_wrap (o : option mwOpaque) : mwGetBuffer :=
  match o with
  | Some o =>
      if len o =? 0 then gb_make true [] 0
      else gb_make true (opt_list (data o)) (len o)
  | None => gb_make true [] 0
  end.

(** Reads [len] bytes at [ptr] and advances. *)
Definition gb_load (n : Z) : Get (list Z) := fun b =>
  d ← mem_read (gb_buf b) (gb_ptr b) n; Some (d, add_ptr n b).

(** Returns the bytes copied to the caller and their count. *)
Definition mwGetBuffer_read (len : Z) : Get (list Z * Z) := fun b =>
  if gb_error b then Some (([], 0), b) else
  if len =? 0 then Some (([], 0), b) else
  let len := if gb_rem b <? len then gb_rem b else len in
  match gb_load len b with
  | Some (d, b) => Some ((d, len), sub_rem len b)
  | None => None
  end.

Definition mwGetBuffer_advance (len : Z) : Get Z := fun b =>
  if gb_error b then Some (0, b) else
  if len =? 0 then Some (0, b) else
  let len := if gb_rem b <? len then gb_rem b else len in
  Some (len, sub_rem len (add_ptr len b)).

Definition mwGetBuffer_reset (b : mwGetBuffer) : mwGetBuffer :=
  {| gb_buf := gb_buf b; gb_len := gb_len b; gb_ptr := 0;
     gb_rem := gb_len b; gb_wrap := gb_wrap b; gb_error := false |}.

Definition mwGetBuffer_remaining (b : mwGetBuffer) : Z := gb_rem b.
Definition mwGetBuffer_error (b : mwGetBuffer) : bool := gb_error b.

(** ** Reading the basic types *)

(** A getter that writes through a pointer takes the old value of what it
    points to, which is its result when nothing is read. *)

Definition MW16_GET (x0 x1 : Z) : Z :=
  Z.lor (Z.shiftl (Z.land x0 0xff) 8) (Z.land x1 0xff).

Definition MW32_GET (x0 x1 x2 x3 : Z) : Z :=
  u32 (Z.lor (Z.lor (Z.lor (Z.shiftl (Z.land x0 0xff) 0x18)
                           (Z.shiftl (Z.land x1 0xff) 0x10))
                    (Z.shiftl (Z.land x2 0xff) 0x08))
             (Z.land x3 0xff)).

Definition be16 (l : list Z) : option Z :=
  match l with [x0; x1] => Some (MW16_GET x0 x1) | _ => None end.
Definition be32 (l : list Z) : option Z :=
  match l with [x0; x1; x2; x3] => Some (MW32_GET x0 x1 x2 x3) | _ => None end.

(** The shape shared by the getters of fixed-width values: the error check,
    the check of the remaining space, the read of the bytes at [ptr]. *)
Definition get_fixed {A} (buflen : Z) (conv : list Z -> option A) (val : A) : Get A :=
  fun b =>
  if gb_error b then Some (val, b) else
  match check_buffer buflen b with
  | Some (true, b) =>
      match gb_load buflen b with
      | Some (d, b) => v ← conv d; Some (v, sub_rem buflen b)
      | None => None
      end
  | Some (false, b) => Some (val, b)
  | None => None
  end.

Definition guint16_get (val : Z) : Get Z := get_fixed guint16_buflen be16 val.
Definition guint32_get (val : Z) : Get Z := get_fixed guint32_buflen be32 val.

Definition bool_of (l : list Z) : option bool :=
  match l with [x] => Some (negb (x =? 0)) | _ => None end.
Definition gboolean_get (val : bool) : Get bool := get_fixed gboolean_buflen bool_of val.

(** The peeks read at the head of the buffer for the integers, at [ptr] for the
    boolean. *)
Definition guint16_peek (b : mwGetBuffer) : option Z :=
  if guint16_buflen <=? gb_rem b
  then mem_read (gb_buf b) 0 guint16_buflen ≫= be16 else Some 0.
Definition guint32_peek (b : mwGetBuffer) : option Z :=
  if guint32_buflen <=? gb_rem b
  then mem_read (gb_buf b) 0 guint32_buflen ≫= be32 else Some 0.
Definition gboolean_peek (b : mwGetBuffer) : option bool :=
  if gboolean_buflen <=? gb_rem b
  then mem_read (gb_buf b) (gb_ptr b) gboolean_buflen ≫= bool_of else Some false.

(** The C string at the start of a block: its bytes before the first NUL. *)
Fixpoint cstr (l : list Z) : list Z :=
  match l with
  | [] => []
  | x :: l => if x =? 0 then [] else x :: cstr l
  end.

(** [*val = NULL] first, so the old value is not needed. *)
Definition mwString_get : Get mwString := fun b =>
  if gb_error b then Some (None, b) else
  match guint16_get 0 b with
  | Some (len, b) =>
      match check_buffer len b with
      | Some (true, b) =>
          if len =? 0 then Some (None, b) else
          match gb_load len b with
          | Some (d, b) => Some (Some (cstr d), sub_rem len b)
          | None => None
          end
      | Some (false, b) => Some (None, b)
      | None => None
      end
  | None => None
  end.

Definition mwOpaque_get : Get mwOpaque := fun b =>
  if gb_error b then Some (opaque_zero, b) else
  match guint32_get 0 b with
  | Some (tmp, b) =>
      match check_buffer tmp b with
      | Some (true, b) =>
          if 0 <? tmp then
            match gb_load tmp b with
            | Some (d, b) => Some ({| len := tmp; data := Some d |}, sub_rem tmp b)
            | None => None
            end
          else Some (opaque_zero, b)
      | Some (false, b) => Some (opaque_zero, b)
      | None => None
      end
  | None => None
  end.

(** * Correctness of the put buffer *)

(** ** Invariant and the meaning of a put *)

Definition pb_wf (b : mwPutBuffer) : Prop :=
  match pb_buf b with
  | None => pb_len b = 0 /\ pb_rem b = 0
  | Some d => (exists e, 10 <= e <= 63 /\ pb_len b = 2 ^ e)
              /\ pb_rem b = pb_len b - zlen d /\ 0 <= pb_rem b
  end.

(** The most bytes a buffer is shown to hold. *)
Definition pb_max : Z := 2 ^ 63.

(** [m] terminates, stays inside its block, and appends exactly [e]. *)
Definition writes (m : Put) (e : list Z) : Prop :=
  forall b, pb_wf b -> zlen (pb_data b) + zlen e <= pb_max ->
  exists b', m b = Some b' /\ pb_wf b' /\ pb_data b' = pb_data b ++ e.

Lemma double_len_spec fuel e use needed :
  10 <= e <= 63 -> 0 <= use <= 2 ^ e -> 0 <= needed -> use + needed <= pb_max ->
  63 - e <= Z.of_nat fuel ->
  exists e', e <= e' <= 63 /\ double_len fuel (2 ^ e) use needed = Some (2 ^ e')
    /\ use + needed <= 2 ^ e' /\ (e' = e \/ 2 ^ (e' - 1) < use + needed).
Proof.
  unfold pb_max. revert e. induction fuel as [|f IH]; intros e He Hu Hn Hm Hf.
  - assert (e = 63) as -> by lia. exists 63. cbn [double_len].
    rewrite gsize_id by lia. replace (2 ^ 63 - use <? needed) with false by lia.
    split_and!; [lia..|done|lia|by left].
  - cbn [double_len].
    assert (2 ^ e <= 2 ^ 63) by (apply Z.pow_le_mono_r; lia).
    rewrite gsize_id by lia.
    destruct (Z.ltb_spec (2 ^ e - use) needed) as [Hlt|Hge].
    + assert (e < 63) by (destruct (Z.eq_dec e 63) as [->|]; lia).
      rewrite Z.shiftl_mul_pow2, Z.mul_comm, <- Z.pow_add_r by lia.
      assert (2 ^ (1 + e) <= 2 ^ 63) by (apply Z.pow_le_mono_r; lia).
      assert (2 ^ (1 + e) = 2 * 2 ^ e) by (by rewrite Z.pow_add_r by lia).
      rewrite gsize_id by lia.
      destruct (IH (1 + e)) as (e' & He' & Hd & Hfit & Htight); [lia..|].
      exists e'. split_and!; [lia..|done|done|].
      destruct Htight as [->|]; [|by right]. right.
      replace (1 + e - 1) with e by lia. lia.
    + exists e. split_and!; [lia..|done|lia|by left].
Qed.

Lemma pb_used b : pb_wf b -> zlen (pb_data b) <= pb_max -> BUFFER_USED b = zlen (pb_data b).
Proof.
  unfold pb_wf, pb_data, BUFFER_USED, pb_max. destruct (pb_buf b) as [d|]; cbn [opt_list].
  - intros ((e & He & Hl) & Hr & H0) Hm. rewrite gsize_id; zlen_lia.
  - intros [-> ->] _. done.
Qed.

Lemma ensure_buffer_spec b needed :
  pb_wf b -> 0 <= needed -> zlen (pb_data b) + needed <= pb_max ->
  exists b', ensure_buffer needed b = Some b' /\ pb_wf b' /\ pb_data b' = pb_data b
    /\ needed <= pb_rem b' /\ (0 < needed -> is_Some (pb_buf b')).
Proof.
  intros Hwf Hn Hm. unfold ensure_buffer.
  destruct (Z.ltb_spec (pb_rem b) needed) as [Hlt|Hge].
  - rewrite pb_used by (try done; lia).
    set (len0 := if pb_len b =? 0 then 1024 else pb_len b).
    assert (exists e, 10 <= e <= 63 /\ len0 = 2 ^ e /\ zlen (pb_data b) <= 2 ^ e)
      as (e & He & -> & Hu).
    { revert Hwf. unfold pb_wf, pb_data, len0. destruct (pb_buf b) as [d|]; cbn [opt_list].
      - intros ((e & He & Hl) & Hr & H0). exists e. rewrite Hl in *.
        assert (0 < 2 ^ e) by lia. replace (2 ^ e =? 0) with false by lia.
        split_and!; [lia..|done|lia].
      - intros [-> _]. exists 10. split_and!; [lia..|done|]. zlen_lia. }
    destruct (double_len_spec double_len_fuel e (zlen (pb_data b)) needed)
      as (e' & He' & -> & Hfit & _); [done|zlen_lia|done|done|unfold double_len_fuel; lia|].
    cbn [mbind option_bind].
    assert ((match pb_buf b with Some old => mem_read old 0 (zlen (pb_data b))
            | None => Some [] end) = Some (pb_data b)) as ->.
    { unfold pb_data. destruct (pb_buf b); cbn [opt_list]; [apply mem_read_all|done]. }
    cbn [mbind option_bind]. eexists. split; [done|]. unfold pb_wf, pb_data. cbn.
    assert (2 ^ e' <= 2 ^ 63) by (apply Z.pow_le_mono_r; lia).
    fold (pb_data b). rewrite gsize_id by zlen_lia.
    split_and!; [by exists e'; split; [lia|]|done|zlen_lia|done|zlen_lia|by eexists].
  - exists b. split_and!; [done..|lia|]. intros. revert Hwf. unfold pb_wf.
    destruct (pb_buf b); [by eexists|]. lia.
Qed.

(** ** Composition *)

Lemma writes_skip : writes pskip [].
Proof. intros b Hwf _. exists b. by rewrite app_nil_r. Qed.

Lemma writes_seq m1 m2 e1 e2 : writes m1 e1 -> writes m2 e2 -> writes (m1 >>> m2) (e1 ++ e2).
Proof.
  intros H1 H2 b Hwf Hm. rewrite zlen_app in Hm.
  destruct (H1 b Hwf) as (b1 & E1 & Hwf1 & D1); [zlen_lia|].
  destruct (H2 b1 Hwf1) as (b2 & E2 & Hwf2 & D2); [rewrite D1, zlen_app; lia|].
  exists b2. unfold pseq. rewrite E1. cbn [mbind option_bind].
  by rewrite E2, D2, D1, app_assoc.
Qed.

Lemma writes_seq_nil m1 m2 e : writes m1 e -> writes m2 [] -> writes (m1 >>> m2) e.
Proof. intros H1 H2. rewrite <- (app_nil_r e). by apply writes_seq. Qed.

Lemma writes_if (c : bool) m1 m2 e1 e2 :
  writes m1 e1 -> writes m2 e2 ->
  writes (if c then m1 else m2) (if c then e1 else e2).
Proof. by destruct c. Qed.

(** The sequence every put is made of: make room, store, count. *)
Lemma writes_store (d : list Z) (get : mwPutBuffer -> option (list Z)) n :
  0 < n -> zlen d = n -> (forall b, get b = Some d) ->
  writes (ensure_buffer n >>> (fun b => x ← get b; pb_store x b) >>> pb_sub_rem n) d.
Proof.
  intros Hn Hd Hg b Hwf Hm.
  destruct (ensure_buffer_spec b n Hwf) as (b1 & E1 & Hwf1 & D1 & Hr1 & Hs1); [lia..|].
  destruct (Hs1 Hn) as [old Hold]. revert Hwf1 D1. unfold pb_wf, pb_data at 1. rewrite Hold.
  intros (He & Hr & H0) D1. cbn [opt_list] in D1. subst old.
  unfold pseq. rewrite E1. cbn [mbind option_bind]. rewrite Hg. cbn [mbind option_bind].
  unfold pb_store. rewrite Hold.
  replace (zlen (pb_data b) + zlen d <=? pb_len b1) with true by lia.
  cbn [mbind option_bind]. unfold pb_sub_rem. cbn.
  eexists. split; [done|]. unfold pb_wf, pb_data at 2. cbn.
  destruct He as (e & He & Hl). assert (2 ^ e <= 2 ^ 63) by (apply Z.pow_le_mono_r; lia).
  rewrite gsize_id by zlen_lia.
  split_and!; [by exists e|zlen_lia..|done].
Qed.

Lemma writes_store_const d n :
  0 < n -> zlen d = n -> writes (ensure_buffer n >>> pb_store d >>> pb_sub_rem n) d.
Proof. intros Hn Hd. by apply (writes_store d (fun _ => Some d) n). Qed.

(** ** The basic types *)

Lemma guint16_put_writes v : writes (guint16_put v) (MW16_PUT v).
Proof. by apply writes_store_const. Qed.

Lemma guint32_put_writes v : writes (guint32_put v) (MW32_PUT v).
Proof. by apply writes_store_const. Qed.

Lemma gboolean_put_writes v : writes (gboolean_put v) [Z.b2z v].
Proof. by apply writes_store_const. Qed.

(** The wire format of a string: its 16-bit length and its bytes, no NUL. *)
Definition mwString_enc (val : mwString) : list Z :=
  let s := opt_list val in MW16_PUT (u16 (zlen s)) ++ s.

Lemma mwString_put_writes val : writes (mwString_put val) (mwString_enc val).
Proof.
  unfold mwString_put, mwString_enc, strlen. destruct val as [s|]; cbn [opt_list].
  2:{ apply writes_seq; [apply guint16_put_writes|apply writes_skip]. }
  apply writes_seq; [apply guint16_put_writes|].
  destruct (Z.eqb_spec (zlen s) 0) as [H|H].
  - apply zlen_0_nil in H as ->. apply writes_skip.
  - apply writes_store_const; zlen_lia.
Qed.

(** An opaque whose bytes are all in its block. *)
Definition opaque_ok (o : mwOpaque) : Prop := 0 <= len o /\ is_Some (opaque_bytes o).

Definition opaque_data (o : mwOpaque) : list Z := opt_list (opaque_bytes o).

Definition mwOpaque_enc (o : mwOpaque) : list Z :=
  MW32_PUT (u32 (len o)) ++ opaque_data o.

Lemma opaque_ok_data o : opaque_ok o -> opaque_bytes o = Some (opaque_data o).
Proof. intros [_ [d H]]. unfold opaque_data. by rewrite H. Qed.

Lemma opaque_ok_len o : opaque_ok o -> zlen (opaque_data o) = len o.
Proof.
  intros [H0 [d H]]. unfold opaque_data. rewrite H. cbn. revert H. unfold opaque_bytes.
  destruct (Z.eqb_spec (len o) 0) as [->|Hne]; [by intros [= <-]|].
  destruct (data o) as [blk|]; [|done]. unfold mem_read. case_decide as Hr; [|done].
  intros [= <-]. zlen_lia.
Qed.

#[export] Instance opaque_ok_dec o : Decision (opaque_ok o).
Proof. unfold opaque_ok. apply _. Defined.

Lemma mwOpaque_put_writes o : opaque_ok o -> writes (mwOpaque_put (Some o)) (mwOpaque_enc o).
Proof.
  intros Ho. pose proof (opaque_ok_len o Ho) as Hl. pose proof (opaque_ok_data o Ho) as Hd.
  unfold mwOpaque_put, mwOpaque_enc.
  destruct (Z.eqb_spec (len o) 0) as [H|H]; cbn [negb andb].
  - rewrite H in *. apply zlen_0_nil in Hl. rewrite Hl.
    apply writes_seq; [apply guint32_put_writes|apply writes_skip].
  - rewrite bool_decide_false.
    2:{ intros Hn. revert Hd. unfold opaque_bytes. rewrite Hn.
        by replace (len o =? 0) with false by lia. }
    apply writes_seq; [apply guint32_put_writes|].
    apply (writes_store _ (fun _ => opaque_bytes o)); [zlen_lia|done|done].
Qed.

Lemma mwOpaque_put_null_writes : writes (mwOpaque_put None) (MW32_PUT 0).
Proof. apply guint32_put_writes. Qed.

Lemma mwPutBuffer_write_writes data n :
  0 <= n <= zlen data -> writes (mwPutBuffer_write data n) (take (Z.to_nat n) data).
Proof.
  intros Hn. unfold mwPutBuffer_write. destruct (Z.eqb_spec n 0) as [->|H].
  - apply writes_skip.
  - apply (writes_store _ (fun _ => mem_read data 0 n)); [lia|zlen_lia|].
    intros _. unfold mem_read. rewrite decide_True by lia. done.
Qed.

(** A buffer built from new and finalised gives the opaque of what was written. *)
Lemma finalize_writes m e :
  writes m e -> zlen e <= pb_max ->
  exists b, m mwPutBuffer_new = Some b /\ opaque_ok (mwPutBuffer_finalize b)
    /\ len (mwPutBuffer_finalize b) = zlen e
    /\ opaque_data (mwPutBuffer_finalize b) = e.
Proof.
  intros Hw Hm. destruct (Hw mwPutBuffer_new) as (b & E & Hwf & D); [done|done|].
  cbn in D. exists b. split; [done|].
  assert (BUFFER_USED b = zlen e) as Hu by (rewrite <- D; apply pb_used; [done|by rewrite D]).
  assert (opaque_bytes (mwPutBuffer_finalize b) = Some e) as Hb.
  { unfold opaque_bytes, mwPutBuffer_finalize. cbn [len data]. rewrite Hu.
    destruct (Z.eqb_spec (zlen e) 0) as [H0|H0]; [by apply zlen_0_nil in H0 as ->|].
    revert D. unfold pb_data. destruct (pb_buf b) as [d|]; cbn [opt_list].
    - intros ->. apply mem_read_all.
    - by intros <-. }
  unfold opaque_ok, opaque_data. rewrite Hb. unfold mwPutBuffer_finalize. cbn [len]. rewrite Hu.
  split_and!; [zlen_lia|by eexists|done|done].
Qed.

(** * Correctness of the get buffer *)

Definition gb_wf (b : mwGetBuffer) : Prop :=
  0 <= gb_ptr b /\ 0 <= gb_rem b /\ gb_ptr b + gb_rem b = gb_len b
  /\ gb_len b <= zlen (gb_buf b) /\ gb_len b < 2 ^ 64.

(** The bytes still to be read. *)
Definition gb_view (b : mwGetBuffer) : list Z :=
  take (Z.to_nat (gb_rem b)) (drop (Z.to_nat (gb_ptr b)) (gb_buf b)).

(** Well-formed, no error, [l] remains. *)
Definition gb_ready (b : mwGetBuffer) (l : list Z) : Prop :=
  gb_wf b /\ gb_error b = false /\ gb_view b = l.

(** The same block, read no less far. *)
Definition gb_moved (b b' : mwGetBuffer) : Prop :=
  gb_buf b' = gb_buf b /\ gb_len b' = gb_len b /\ gb_wrap b' = gb_wrap b
  /\ gb_ptr b <= gb_ptr b'.

#[export] Instance gb_moved_preorder : PreOrder gb_moved.
Proof.
  split; [by intros b|]. intros b1 b2 b3 (?&?&?&?) (?&?&?&?).
  split_and!; [congruence..|lia].
Qed.

(** [m] reads exactly [e] and returns [v]. *)
Definition reads {A} (m : Get A) (e : list Z) (v : A) : Prop :=
  forall b rest, gb_ready b (e ++ rest) ->
  exists b', m b = Some (v, b') /\ gb_ready b' rest /\ gb_moved b b'.

(** On any input [m] stays inside the block, keeps the invariant, and does
    nothing on a buffer in error. *)
Definition safe {A} (m : Get A) : Prop :=
  forall b, gb_wf b -> exists a b', m b = Some (a, b') /\ gb_wf b' /\ gb_moved b b'
    /\ (gb_error b = true -> b' = b).

(** On an input that is a strict prefix of [e], [m] raises the error flag. *)
Definition truncates {A} (m : Get A) (e : list Z) : Prop :=
  forall b l k, gb_ready b l -> k <> [] -> e = l ++ k ->
  exists a b', m b = Some (a, b') /\ gb_wf b' /\ gb_error b' = true.

(** The three properties of the getter of a wire format. *)
Definition parses {A} (m : Get A) (e : list Z) (v : A) : Prop :=
  reads m e v /\ truncates m e /\ safe m.

Lemma gb_view_len b : gb_wf b -> zlen (gb_view b) = gb_rem b.
Proof. unfold gb_wf, gb_view. intros. zlen_lia. Qed.

Lemma gb_ready_len b l : gb_ready b l -> gb_rem b = zlen l.
Proof. intros (Hwf & _ & <-). by rewrite gb_view_len. Qed.

(** ** Composition *)

Lemma reads_ret {A} (v : A) : reads (gret v) [] v.
Proof. intros b rest H. by exists b. Qed.

Lemma reads_bind {A B} (m : Get A) (k : A -> Get B) e1 e2 a v :
  reads m e1 a -> reads (k a) e2 v -> reads (gbind m k) (e1 ++ e2) v.
Proof.
  intros H1 H2 b rest Hb. rewrite <- app_assoc in Hb.
  destruct (H1 b _ Hb) as (b1 & E1 & Hb1 & M1).
  destruct (H2 b1 _ Hb1) as (b2 & E2 & Hb2 & M2).
  exists b2. unfold gbind. rewrite E1, E2. split_and!; [done..|by transitivity b1].
Qed.

Lemma safe_ret {A} (a : A) : safe (gret a).
Proof. intros b H. by exists a, b. Qed.

Lemma safe_bind {A B} (m : Get A) (k : A -> Get B) :
  safe m -> (forall a, safe (k a)) -> safe (gbind m k).
Proof.
  intros H1 H2 b Hb. destruct (H1 b Hb) as (a & b1 & E1 & Hb1 & M1 & S1).
  destruct (H2 a b1 Hb1) as (v & b2 & E2 & Hb2 & M2 & S2).
  exists v, b2. unfold gbind. rewrite E1, E2.
  split_and!; [done..|by transitivity b1|]. intros He.
  assert (b1 = b) as -> by auto. auto.
Qed.

Lemma safe_if {A} (c : bool) (m1 m2 : Get A) :
  safe m1 -> safe m2 -> safe (if c then m1 else m2).
Proof. by destruct c. Qed.

Lemma truncates_ret {A} (v : A) : truncates (gret v) [].
Proof. intros b l k _ Hk H. symmetry in H. apply app_eq_nil in H as [_ ?]. done. Qed.

Lemma prefix_split {A} (e1 e2 l k : list A) :
  e1 ++ e2 = l ++ k ->
  (exists k', k' <> [] /\ e1 = l ++ k') \/ (exists l', l = e1 ++ l' /\ e2 = l' ++ k).
Proof.
  revert l. induction e1 as [|x e1 IH]; intros [|y l]; cbn; intros H.
  - right. by exists [].
  - right. by exists (y :: l).
  - left. by exists (x :: e1).
  - injection H as -> H. destruct (IH _ H) as [(k' & ? & ->)|(l' & -> & ->)]; eauto.
Qed.

Lemma truncates_bind {A B} (m : Get A) (k : A -> Get B) e1 e2 a :
  reads m e1 a -> truncates m e1 -> (forall x, safe (k x)) -> truncates (k a) e2 ->
  truncates (gbind m k) (e1 ++ e2).
Proof.
  intros Hr Ht Hs Ht2 b l r Hb Hne He. unfold gbind.
  destruct (prefix_split _ _ _ _ He) as [(k' & Hk' & ->)|(l' & -> & ->)].
  - destruct (Ht b l k' Hb Hk' eq_refl) as (x & b1 & -> & Hb1 & Herr).
    destruct (Hs x b1 Hb1) as (y & b2 & -> & Hb2 & _ & S2).
    exists y, b2. split_and!; [done..|]. by rewrite (S2 Herr).
  - destruct (Hr b l' Hb) as (b1 & -> & Hb1 & _). by apply (Ht2 b1 l' r).
Qed.

Lemma parses_ret {A} (v : A) : parses (gret v) [] v.
Proof. split_and!; [apply reads_ret|apply truncates_ret|apply safe_ret]. Qed.

Lemma parses_bind {A B} (m : Get A) (k : A -> Get B) e1 e2 a v :
  parses m e1 a -> (forall x, safe (k x)) -> parses (k a) e2 v ->
  parses (gbind m k) (e1 ++ e2) v.
Proof.
  intros (R1 & T1 & S1) Hs (R2 & T2 & _). split_and!.
  - by eapply reads_bind.
  - by eapply truncates_bind.
  - by apply safe_bind.
Qed.

Lemma parses_bind_last {A B} (m : Get A) (k : A -> Get B) e a v :
  parses m e a -> (forall x, safe (k x)) -> parses (k a) [] v -> parses (gbind m k) e v.
Proof. intros H1 Hs H2. rewrite <- (app_nil_r e). by eapply parses_bind. Qed.

Lemma parses_safe {A} (m : Get A) e v : parses m e v -> safe m.
Proof. by intros (_ & _ & ?). Qed.

(** ** Loads *)

Lemma check_buffer_ok b n :
  gb_error b = false -> n <= gb_rem b -> check_buffer n b = Some (true, b).
Proof.
  intros He Hn. unfold check_buffer. rewrite He.
  replace (gb_rem b <? n) with false by lia. cbn. rewrite <- He. by destruct b.
Qed.

Lemma check_buffer_short b n :
  gb_error b = false -> gb_rem b < n -> check_buffer n b = Some (false, set_error true b).
Proof.
  intros He Hn. unfold check_buffer. rewrite He. by replace (gb_rem b <? n) with true by lia.
Qed.

Lemma gb_load_spec b n :
  gb_wf b -> 0 <= n <= gb_rem b ->
  gb_load n b = Some (take (Z.to_nat n) (gb_view b), add_ptr n b).
Proof.
  unfold gb_wf, gb_load, gb_view, mem_read. intros. rewrite decide_True by lia.
  cbn [mbind option_bind]. rewrite take_take. by rewrite Nat.min_l by lia.
Qed.

Lemma gb_consume_wf b n :
  gb_wf b -> 0 <= n <= gb_rem b ->
  gb_wf (sub_rem n (add_ptr n b)) /\ gb_moved b (sub_rem n (add_ptr n b))
  /\ gb_error (sub_rem n (add_ptr n b)) = gb_error b
  /\ gb_view (sub_rem n (add_ptr n b)) = drop (Z.to_nat n) (gb_view b).
Proof.
  unfold gb_wf, gb_moved, gb_view, sub_rem, add_ptr. cbn. intros Hb Hn.
  rewrite gsize_id by lia. split_and!; try done; try lia.
  rewrite skipn_firstn_comm, drop_drop. repeat f_equal; lia.
Qed.

(** ** Getters of fixed-width values *)

Section fixed.
Context {A : Type} (n : Z) (conv : list Z -> option A).
Hypothesis n_pos : 0 < n.
Hypothesis conv_total : forall l, zlen l = n -> is_Some (conv l).

Lemma get_fixed_safe old : safe (get_fixed n conv old).
Proof.
  intros b Hb. unfold get_fixed. destruct (gb_error b) eqn:He; [by exists old, b|].
  destruct (decide (n <= gb_rem b)) as [Hn|Hn].
  - rewrite check_buffer_ok, gb_load_spec by (done || lia).
    destruct (gb_consume_wf b n Hb) as (Hwf & Hm & Herr & Hv); [lia|].
    destruct (conv_total (take (Z.to_nat n) (gb_view b))) as [v ->].
    { rewrite zlen_take, gb_view_len by done. lia. }
    cbn [mbind option_bind]. eexists _, _. split; [done|split; [done|split]]; [done|congruence].
  - rewrite check_buffer_short by (done || lia). eexists _, _. split; [done|].
    by split_and!.
Qed.

Lemma get_fixed_parses old e v :
  zlen e = n -> conv e = Some v -> parses (get_fixed n conv old) e v.
Proof.
  intros He Hv. split_and!; [| |apply get_fixed_safe].
  - intros b rest Hb. pose proof (gb_ready_len _ _ Hb) as Hr. destruct Hb as (Hb & Herr & Hview).
    unfold get_fixed. rewrite Herr, check_buffer_ok, gb_load_spec by (done || zlen_lia).
    destruct (gb_consume_wf b n Hb) as (Hwf & Hm & Herr' & Hv'); [zlen_lia|].
    rewrite Hview in *. rewrite <- He, to_nat_zlen, take_app_length in *.
    rewrite Hv. cbn [mbind option_bind]. eexists. split; [done|]. split; [|done].
    split; [done|split]; [by rewrite Herr'|by rewrite Hv', drop_app_length].
  - intros b l k Hb Hk ->. pose proof (gb_ready_len _ _ Hb) as Hr.
    destruct Hb as (Hb & Herr & Hview). unfold get_fixed.
    assert (0 < zlen k) by (destruct k; [done|zlen_lia]).
    rewrite Herr, check_buffer_short by (done || zlen_lia). by eexists _, _.
Qed.
End fixed.

Lemma be16_total l : zlen l = 2 -> is_Some (be16 l).
Proof. destruct l as [|? [|? [|? ?]]]; rewrite ?zlen_cons, ?zlen_nil; try (pose_zlen; lia). by eexists. Qed.
Lemma be32_total l : zlen l = 4 -> is_Some (be32 l).
Proof.
  destruct l as [|? [|? [|? [|? [|? ?]]]]]; rewrite ?zlen_cons, ?zlen_nil; try (pose_zlen; lia).
  by eexists.
Qed.
Lemma bool_of_total l : zlen l = 1 -> is_Some (bool_of l).
Proof. destruct l as [|? [|? ?]]; rewrite ?zlen_cons, ?zlen_nil; try (pose_zlen; lia). by eexists. Qed.

Lemma MW16_GET_add x0 x1 : MW16_GET x0 x1 = (x0 mod 2 ^ 8) * 2 ^ 8 + x1 mod 2 ^ 8.
Proof.
  unfold MW16_GET. rewrite !land_ff. apply lor_shiftl_add; [lia|].
  by apply Z.mod_pos_bound.
Qed.

Lemma MW32_GET_add x0 x1 x2 x3 :
  MW32_GET x0 x1 x2 x3 =
  (x0 mod 2 ^ 8) * 2 ^ 24 + (x1 mod 2 ^ 8) * 2 ^ 16 + (x2 mod 2 ^ 8) * 2 ^ 8 + x3 mod 2 ^ 8.
Proof.
  unfold MW32_GET. rewrite !land_ff.
  pose proof (u8_range x0). pose proof (u8_range x1).
  pose proof (u8_range x2). pose proof (u8_range x3).
  unfold u8, is_u8 in *.
  rewrite <- !Z.lor_assoc.
  rewrite (lor_shiftl_add (x2 mod 2 ^ 8)) by lia.
  rewrite (lor_shiftl_add (x1 mod 2 ^ 8)) by lia.
  rewrite (lor_shiftl_add (x0 mod 2 ^ 8)) by lia.
  rewrite u32_id; unfold is_u32; lia.
Qed.

Lemma MW16_GET_PUT v : be16 (MW16_PUT v) = Some (u16 v).
Proof.
  unfold MW16_PUT, be16. rewrite MW16_GET_add, !land_ff, Z.shiftr_div_pow2, !Z.mod_mod by lia.
  unfold u16. f_equal. change (2 ^ 0x08) with 256. change (2 ^ 8) with 256.
  change (2 ^ 16) with (256 * 256). rewrite Z.rem_mul_r by lia. lia.
Qed.

Lemma MW32_GET_PUT v : be32 (MW32_PUT v) = Some (u32 v).
Proof.
  unfold MW32_PUT, be32. rewrite MW32_GET_add, !land_ff, !Z.shiftr_div_pow2, !Z.mod_mod by lia.
  unfold u32. f_equal.
  change (2 ^ 32) with (2 ^ 24 * 2 ^ 8). rewrite Z.rem_mul_r by lia.
  change (2 ^ 24) with (2 ^ 16 * 2 ^ 8) at 3. rewrite (Z.rem_mul_r _ (2 ^ 16)) by lia.
  change (2 ^ 16) with (2 ^ 8 * 2 ^ 8) at 3. rewrite (Z.rem_mul_r _ (2 ^ 8)) by lia. lia.
Qed.

Lemma MW16_PUT_len v : zlen (MW16_PUT v) = 2.
Proof. done. Qed.
Lemma MW32_PUT_len v : zlen (MW32_PUT v) = 4.
Proof. done. Qed.

Lemma guint16_get_safe old : safe (guint16_get old).
Proof. apply get_fixed_safe; [done|apply be16_total]. Qed.
Lemma guint32_get_safe old : safe (guint32_get old).
Proof. apply get_fixed_safe; [done|apply be32_total]. Qed.
Lemma gboolean_get_safe old : safe (gboolean_get old).
Proof. apply get_fixed_safe; [done|apply bool_of_total]. Qed.

Lemma guint16_get_parses old v : is_u16 v -> parses (guint16_get old) (MW16_PUT v) v.
Proof.
  intros Hv. apply get_fixed_parses; [done|apply be16_total|done|].
  by rewrite MW16_GET_PUT, u16_id.
Qed.
Lemma guint32_get_parses old v : is_u32 v -> parses (guint32_get old) (MW32_PUT v) v.
Proof.
  intros Hv. apply get_fixed_parses; [done|apply be32_total|done|].
  by rewrite MW32_GET_PUT, u32_id.
Qed.
Lemma gboolean_get_parses old v : parses (gboolean_get old) [Z.b2z v] v.
Proof. apply get_fixed_parses; [done|apply bool_of_total|done|]. by destruct v. Qed.

(** ** Strings and opaques *)

(** The body of a length-prefixed read: [n] bytes converted by [f]. *)
Definition get_block {A} (n : Z) (f : list Z -> A) (none : A) : Get A := fun b =>
  match check_buffer n b with
  | Some (true, b) =>
      if n =? 0 then Some (none, b) else
      match gb_load n b with
      | Some (d, b) => Some (f d, sub_rem n b)
      | None => None
      end
  | Some (false, b) => Some (none, b)
  | None => None
  end.

Lemma get_block_safe {A} n (f : list Z -> A) none : 0 <= n -> safe (get_block n f none).
Proof.
  intros Hn b Hb. unfold get_block. destruct (gb_error b) eqn:He.
  { unfold check_buffer. rewrite He. cbn. rewrite He. by exists none, b. }
  destruct (decide (n <= gb_rem b)) as [Hr|Hr].
  - rewrite check_buffer_ok by (done || lia).
    destruct (Z.eqb_spec n 0); [by exists none, b|].
    rewrite gb_load_spec by (done || lia).
    destruct (gb_consume_wf b n Hb) as (Hwf & Hm & Herr & Hv); [lia|].
    eexists _, _. split; [done|split; [done|split]]; [done|congruence].
  - rewrite check_buffer_short by (done || lia). eexists _, _. split; [done|]. by split_and!.
Qed.

Lemma get_block_parses {A} (f : list Z -> A) none e :
  parses (get_block (zlen e) f none) e (if zlen e =? 0 then none else f e).
Proof.
  split_and!; [| |apply get_block_safe; zlen_lia].
  - intros b rest Hb. pose proof (gb_ready_len _ _ Hb) as Hr. destruct Hb as (Hb & Herr & Hview).
    unfold get_block. rewrite check_buffer_ok by (done || zlen_lia).
    destruct (Z.eqb_spec (zlen e) 0) as [H0|H0].
    + apply zlen_0_nil in H0 as ->. exists b. by split_and!.
    + rewrite gb_load_spec by (done || zlen_lia).
      destruct (gb_consume_wf b (zlen e) Hb) as (Hwf & Hm & Herr' & Hv'); [zlen_lia|].
      rewrite Hview in *. rewrite to_nat_zlen, take_app_length in *.
      eexists. split; [done|]. split; [|done]. split; [done|split]; [by rewrite Herr'|].
      by rewrite Hv', drop_app_length.
  - intros b l k Hb Hk ->. pose proof (gb_ready_len _ _ Hb) as Hr.
    destruct Hb as (Hb & Herr & Hview). unfold get_block.
    assert (0 < zlen k) by (destruct k; [done|zlen_lia]).
    rewrite check_buffer_short by (done || zlen_lia). by eexists _, _.
Qed.

(** A length read by a fixed getter from a buffer without error is in range. *)
Lemma be16_range l v : be16 l = Some v -> 0 <= v.
Proof.
  destruct l as [|x [|y [|? ?]]]; try done. intros [= <-]. rewrite MW16_GET_add.
  pose proof (u8_range x). pose proof (u8_range y). unfold u8, is_u8 in *. lia.
Qed.
Lemma be32_range l v : be32 l = Some v -> 0 <= v.
Proof.
  destruct l as [|? [|? [|? [|? [|? ?]]]]]; try done. intros [= <-].
  by apply u32_range.
Qed.

Lemma be32_u32 l v : be32 l = Some v -> is_u32 v.
Proof.
  destruct l as [|? [|? [|? [|? [|? ?]]]]]; try done. intros [= <-]. apply u32_range.
Qed.

(** What is read is in range, when the value there before was. *)
Lemma guint32_get_u32 old b v b' : is_u32 old -> guint32_get old b = Some (v, b') -> is_u32 v.
Proof.
  intros Ho. unfold guint32_get, get_fixed. destruct (gb_error b); [by intros [= <- _]|].
  destruct (check_buffer _ b) as [[[] b1]|]; [|by intros [= <- _]|done].
  destruct (gb_load _ b1) as [[d b2]|]; [|done]. destruct (be32 d) as [x|] eqn:Ex; [|done].
  intros [= <- _]. by apply be32_u32 in Ex.
Qed.

(** The shape of [mwString_get] and [mwOpaque_get]. *)
Definition get_prefixed {A} (m : Get Z) (f : Z -> list Z -> A) (none : A) : Get A := fun b =>
  if gb_error b then Some (none, b) else
  match m b with
  | Some (n, b) => get_block n (f n) none b
  | None => None
  end.

Lemma get_prefixed_safe {A} buflen conv (f : Z -> list Z -> A) none :
  0 < buflen -> (forall l, zlen l = buflen -> is_Some (conv l)) ->
  (forall l v, conv l = Some v -> 0 <= v) ->
  safe (get_prefixed (get_fixed buflen conv 0) f none).
Proof.
  intros Hpos Htot Hrange b Hb. unfold get_prefixed.
  destruct (gb_error b) eqn:He; [by exists none, b|].
  destruct (get_fixed_safe buflen conv Hpos Htot 0 b Hb) as (n & b1 & E & Hb1 & M & _).
  assert (0 <= n) as Hn.
  { revert E. unfold get_fixed. rewrite He.
    destruct (check_buffer buflen b) as [[[] b']|]; [|by intros [= <- _]|done].
    destruct (gb_load buflen b') as [[d b'']|]; [|done].
    destruct (conv d) as [v|] eqn:Hc; cbn; [|done]. intros [= <- _]. by eapply Hrange. }
  rewrite E. destruct (get_block_safe n (f n) none Hn b1 Hb1) as (a & b2 & E2 & Hb2 & M2 & _).
  exists a, b2. split; [done|split; [done|split]]; [by transitivity b1|done].
Qed.

Lemma get_prefixed_parses {A} (m : Get Z) (f : Z -> list Z -> A) none p e :
  parses m p (zlen e) -> safe (get_prefixed m f none) ->
  parses (get_prefixed m f none) (p ++ e) (if zlen e =? 0 then none else f (zlen e) e).
Proof.
  intros (R & T & S) Hsafe. destruct (get_block_parses (f (zlen e)) none e) as (R2 & T2 & S2).
  split_and!; [| |done].
  - intros b rest Hb. unfold get_prefixed. assert (gb_error b = false) as -> by apply Hb.
    rewrite <- app_assoc in Hb. destruct (R b _ Hb) as (b1 & -> & Hb1 & M1).
    destruct (R2 b1 _ Hb1) as (b2 & -> & Hb2 & M2). exists b2.
    split; [done|split]; [done|by transitivity b1].
  - intros b l k Hb Hk He. unfold get_prefixed. assert (gb_error b = false) as -> by apply Hb.
    destruct (prefix_split _ _ _ _ He) as [(k' & Hk' & ->)|(l' & -> & ->)].
    + destruct (T b l k' Hb Hk' eq_refl) as (n & b1 & -> & Hb1 & Herr).
      unfold get_block, check_buffer. rewrite Herr. cbn. rewrite Herr. by eexists _, _.
    + destruct (R b l' Hb) as (b1 & -> & Hb1 & _). by apply (T2 b1 l' k).
Qed.

Lemma mwString_get_eq :
  mwString_get = get_prefixed (guint16_get 0) (fun _ d => Some (cstr d)) None.
Proof. reflexivity. Qed.

(** Lengths are unsigned, so [tmp > 0] is [tmp <> 0]. *)
Lemma mwOpaque_get_eq b :
  gb_wf b -> mwOpaque_get b =
  get_prefixed (guint32_get 0) (fun n d => {| len := n; data := Some d |}) opaque_zero b.
Proof.
  intros Hb. unfold mwOpaque_get, get_prefixed, get_block.
  destruct (gb_error b) eqn:He; [done|].
  destruct (guint32_get 0 b) as [[n b1]|] eqn:E; [|done].
  assert (0 <= n).
  { revert E. unfold guint32_get, get_fixed. rewrite He.
    destruct (check_buffer guint32_buflen b) as [[[] b']|]; [|by intros [= <- _]|done].
    destruct (gb_load guint32_buflen b') as [[d b'']|]; [|done].
    destruct (be32 d) as [v|] eqn:Hc; cbn; [|done]. intros [= <- _]. by eapply be32_range. }
  destruct (check_buffer n b1) as [[[] b2]|]; [|done..].
  destruct (Z.ltb_spec 0 n); destruct (Z.eqb_spec n 0); lia || done.
Qed.

(** A C string whose bytes are not NUL and whose length fits the prefix. *)
Definition mwString_ok (s : mwString) : Prop :=
  Forall (fun x => x <> 0) (opt_list s) /\ zlen (opt_list s) < 2 ^ 16.

(** What is read back: the empty string comes back as NULL. *)
Definition mwString_norm (s : mwString) : mwString :=
  match s with Some [] => None | _ => s end.

Lemma cstr_id l : Forall (fun x => x <> 0) l -> cstr l = l.
Proof.
  induction 1 as [|x l Hx _ IH]; [done|]. cbn. replace (x =? 0) with false by lia. by rewrite IH.
Qed.

Lemma mwString_get_safe : safe mwString_get.
Proof.
  rewrite mwString_get_eq. apply get_prefixed_safe; [done|apply be16_total|apply be16_range].
Qed.

Lemma mwString_get_parses s :
  mwString_ok s -> parses mwString_get (mwString_enc s) (mwString_norm s).
Proof.
  intros [Hnz Hlen]. pose proof mwString_get_safe as Hsafe. rewrite mwString_get_eq in *.
  unfold mwString_enc. rewrite u16_id by (unfold is_u16; zlen_lia).
  replace (mwString_norm s) with
    (if zlen (opt_list s) =? 0 then None else Some (cstr (opt_list s))).
  { apply get_prefixed_parses; [|done]. apply guint16_get_parses. unfold is_u16. zlen_lia. }
  rewrite cstr_id by done. destruct s as [[|x s]|]; cbn; [done| |done].
  rewrite zlen_cons. pose_zlen. by replace (1 + zlen s =? 0) with false by lia.
Qed.

Lemma mwOpaque_get_safe : safe mwOpaque_get.
Proof.
  intros b Hb. rewrite mwOpaque_get_eq by done. revert b Hb.
  apply get_prefixed_safe; [done|apply be32_total|apply be32_range].
Qed.

Lemma mwOpaque_get_parses o :
  opaque_ok o -> is_u32 (len o) -> parses mwOpaque_get (mwOpaque_enc o) (opaque_of (opaque_data o)).
Proof.
  intros Ho Hr. pose proof (opaque_ok_len o Ho) as Hl.
  assert (parses (get_prefixed (guint32_get 0) (fun n d => {| len := n; data := Some d |}) opaque_zero)
    (mwOpaque_enc o) (opaque_of (opaque_data o))) as (R & T & S).
  { unfold mwOpaque_enc, opaque_of. rewrite u32_id by done.
    apply (get_prefixed_parses _ (fun n d => {| len := n; data := Some d |})).
    - rewrite Hl. by apply guint32_get_parses.
    - apply get_prefixed_safe; [done|apply be32_total|apply be32_range]. }
  split_and!; [| |apply mwOpaque_get_safe].
  - intros b rest Hb. rewrite mwOpaque_get_eq by apply Hb. by apply R.
  - intros b l k Hb Hk He. rewrite mwOpaque_get_eq by apply Hb. by apply (T b l k).
Qed.

Lemma opaque_zero_ok : opaque_ok opaque_zero.
Proof. split; [done|by eexists]. Qed.

(** Whatever the input, the opaque read is backed by its block. *)
Lemma mwOpaque_get_result b o b' :
  gb_wf b -> mwOpaque_get b = Some (o, b') -> opaque_ok o /\ len o < 2 ^ 64.
Proof.
  intros Hb. unfold mwOpaque_get. pose proof opaque_zero_ok.
  destruct (gb_error b); [by intros [= <- _]|].
  destruct (guint32_get_safe 0 b Hb) as (n & b1 & -> & Hb1 & _).
  unfold check_buffer. destruct (gb_error b1) eqn:He; cbn; rewrite ?He; [by intros [= <- _]|].
  destruct (Z.ltb_spec (gb_rem b1) n) as [|Hn]; cbn; [by intros [= <- _]|].
  destruct (Z.ltb_spec 0 n) as [H0|]; [|by intros [= <- _]].
  rewrite gb_load_spec by (done || (cbn; lia)). intros [= <- _].
  unfold opaque_ok, opaque_bytes. cbn [len data]. replace (n =? 0) with false by lia.
  pose proof (gb_view_len b1 Hb1) as Hv. unfold gb_wf in Hb1.
  assert (zlen (take (Z.to_nat n) (gb_view b1)) = n) as Hl by (rewrite zlen_take, Hv; lia).
  unfold mem_read. change (gb_view (set_error false b1)) with (gb_view b1).
  rewrite decide_True by (rewrite Hl; lia). split; [split; [lia|by eexists]|lia].
Qed.

(** ** Raw reads and skips *)

Lemma mwGetBuffer_advance_safe n : 0 <= n -> safe (mwGetBuffer_advance n).
Proof.
  intros Hn b Hb. unfold mwGetBuffer_advance.
  destruct (gb_error b) eqn:He; [by exists 0, b|].
  destruct (Z.eqb_spec n 0); [by exists 0, b|].
  set (k := if gb_rem b <? n then gb_rem b else n).
  assert (0 <= k <= gb_rem b).
  { unfold k. destruct Hb as (?&?&?). destruct (Z.ltb_spec (gb_rem b) n); lia. }
  destruct (gb_consume_wf b k Hb) as (Hwf & Hm & Herr & Hv); [done|].
  eexists _, _. split; [done|split; [done|split]]; [done|congruence].
Qed.

Lemma mwGetBuffer_advance_spec n b l :
  gb_ready b l -> 0 <= n ->
  exists b', mwGetBuffer_advance n b = Some (Z.min n (zlen l), b')
    /\ gb_ready b' (drop (Z.to_nat n) l) /\ gb_moved b b'.
Proof.
  intros Hb Hn. pose proof (gb_ready_len _ _ Hb) as Hr. destruct Hb as (Hb & Herr & Hv).
  unfold mwGetBuffer_advance. rewrite Herr.
  destruct (Z.eqb_spec n 0) as [->|].
  { exists b. split; [f_equal; f_equal; zlen_lia|]. by split_and!. }
  rewrite Hr. set (k := if zlen l <? n then zlen l else n).
  assert (k = Z.min n (zlen l)) as Hk by (unfold k; destruct (Z.ltb_spec (zlen l) n); lia).
  destruct (gb_consume_wf b k Hb) as (Hwf & Hm & Herr' & Hv'); [zlen_lia|].
  exists (sub_rem k (add_ptr k b)). split; [by rewrite <- Hk|]. split; [|done].
  split; [done|split]; [by rewrite Herr'|]. rewrite Hv', Hv, Hk.
  destruct (Z.le_ge_cases n (zlen l)).
  - by rewrite Z.min_l by done.
  - rewrite Z.min_r, to_nat_zlen, drop_all by done. rewrite drop_ge; [done|].
    unfold zlen in *. lia.
Qed.

Lemma mwGetBuffer_read_safe n : 0 <= n -> safe (mwGetBuffer_read n).
Proof.
  intros Hn b Hb. unfold mwGetBuffer_read.
  destruct (gb_error b) eqn:He; [by eexists _, b|].
  destruct (Z.eqb_spec n 0); [by eexists _, b|].
  set (k := if gb_rem b <? n then gb_rem b else n).
  assert (0 <= k <= gb_rem b).
  { unfold k. destruct Hb as (?&?&?). destruct (Z.ltb_spec (gb_rem b) n); lia. }
  rewrite gb_load_spec by done.
  destruct (gb_consume_wf b k Hb) as (Hwf & Hm & Herr & Hv); [done|].
  eexists _, _. split; [done|split; [done|split]]; [done|congruence].
Qed.

(** A fresh buffer on the bytes of an opaque is ready to read them. *)
Lemma mwGetBuffer_wrap_ready o :
  opaque_ok o -> len o < 2 ^ 64 -> gb_ready (mwGetBuffer_wrap (Some o)) (opaque_data o).
Proof.
  intros Ho Hmax. pose proof (opaque_ok_data o Ho) as Hd.
  revert Hd. unfold mwGetBuffer_wrap, opaque_bytes.
  destruct (Z.eqb_spec (len o) 0) as [H0|H0]; [by intros [= <-]|].
  destruct (data o) as [blk|]; [|done]. unfold mem_read. case_decide as Hr; [|done].
  intros [= Hd]. unfold gb_ready, gb_wf, gb_view, gb_make. cbn. rewrite <- Hd.
  change (Z.to_nat 0) with 0%nat. rewrite drop_0. split_and!; lia || done.
Qed.

Lemma opaque_of_data l : opaque_ok (opaque_of l) /\ opaque_data (opaque_of l) = l
  /\ len (opaque_of l) = zlen l.
Proof.
  unfold opaque_of. destruct (Z.eqb_spec (zlen l) 0) as [H|H].
  - apply zlen_0_nil in H as ->. split_and!; [|done..]. split; [done|by eexists].
  - assert (opaque_bytes {| len := zlen l; data := Some l |} = Some l) as E.
    { unfold opaque_bytes. cbn [len data]. replace (zlen l =? 0) with false by lia.
      apply mem_read_all. }
    unfold opaque_ok, opaque_data. rewrite E. cbn [len]. split_and!; [zlen_lia|by eexists|done..].
Qed.

(** ** Loops *)

(** [while(count--)] around a getter whose results are put on a list. *)
Fixpoint get_many {A} (m : Get A) (count : nat) : Get (list A) :=
  match count with
  | O => gret []
  | S count => let! a := m in let! l := get_many m count in gret (a :: l)
  end.

Lemma get_many_safe {A} (m : Get A) n : safe m -> safe (get_many m n).
Proof.
  intros Hm. induction n as [|n IH]; cbn [get_many]; [apply safe_ret|].
  apply safe_bind; [done|intros a]. apply safe_bind; [done|intros; apply safe_ret].
Qed.

Lemma get_many_parses {A} (m : Get A) (enc : A -> list Z) (norm : A -> A) l :
  safe m -> Forall (fun a => parses m (enc a) (norm a)) l ->
  parses (get_many m (length l)) (mjoin (enc <$> l)) (norm <$> l).
Proof.
  intros Hs. induction 1 as [|a l Ha Hl IH]; cbn [length get_many]; [apply parses_ret|].
  change (norm <$> a :: l) with (norm a :: (norm <$> l)).
  apply (parses_bind _ _ (enc a) _ (norm a)); [exact Ha| |].
  - intros x. apply safe_bind; [by apply get_many_safe|intros; apply safe_ret].
  - eapply parses_bind_last; [exact IH|intros; apply safe_ret|apply parses_ret].
Qed.

(** As many as [count] says, whatever there is to read. *)
Lemma get_many_length {A} (m : Get A) n b l b' : get_many m n b = Some (l, b') -> length l = n.
Proof.
  revert b l. induction n as [|n IH]; intros b l; cbn [get_many]; [by intros [= <- _]|].
  unfold gbind. destruct (m b) as [[a b1]|]; [|done]. destruct (get_many m n b1) as [[l1 b2]|] eqn:E; [|done].
  intros [= <- <-]. cbn. f_equal. by eapply IH.
Qed.

(** ** Automation *)

Create HintDb mw_codec discriminated.
#[export] Hint Constants Opaque : mw_codec.
#[export] Hint Resolve writes_skip guint16_put_writes guint32_put_writes gboolean_put_writes
  mwString_put_writes mwOpaque_put_writes mwOpaque_put_null_writes : mw_codec.
#[export] Hint Resolve guint16_get_parses guint32_get_parses gboolean_get_parses
  mwString_get_parses mwOpaque_get_parses parses_ret : mw_codec.
#[export] Hint Resolve safe_ret guint16_get_safe guint32_get_safe gboolean_get_safe
  mwString_get_safe mwOpaque_get_safe get_many_safe : mw_codec.

(** [writes_tac] splits a sequence of puts along its encoding; [safe_tac] a
    sequence of gets; [parses_tac] a sequence of gets along what it reads. *)
Ltac writes_tac :=
  lazymatch goal with
  | |- writes (_ >>> _) (_ ++ _) => apply writes_seq; [writes_tac|writes_tac]
  | |- writes (if _ then _ else _) (if _ then _ else _) => apply writes_if; [writes_tac|writes_tac]
  | |- _ => try solve [eauto 2 with mw_codec]
  end.

Ltac safe_tac :=
  cbv beta zeta;
  lazymatch goal with
  | |- safe (gbind _ _) => apply safe_bind; [safe_tac|intros ?; safe_tac]
  | |- safe (if _ then _ else _) => apply safe_if; [safe_tac|safe_tac]
  | |- _ => try solve [eauto 2 with mw_codec]
  end.

Ltac parses_tac :=
  cbv beta iota zeta;
  lazymatch goal with
  | |- parses (gbind _ _) (_ ++ _) _ =>
      eapply parses_bind; [parses_tac|intros ?; safe_tac|parses_tac]
  | |- parses (gbind _ _) _ _ =>
      eapply parses_bind_last; [parses_tac|intros ?; safe_tac|parses_tac]
  | |- parses (gret _) [] _ => apply parses_ret
  | |- _ => try solve [eauto 3 with mw_codec]
  end.

(** ** Properties *)

(** The capacity after the loop is within a factor of two of what is needed. *)
Lemma double_len_least e e' n : 10 <= e' -> e' = e \/ 2 ^ (e' - 1) < n -> 2 ^ e' = 2 ^ e \/ 2 ^ e' < 2 * n.
Proof.
  intros He [->|H]; [by left|]. right. replace (2 ^ e') with (2 * 2 ^ (e' - 1)); [lia|].
  rewrite <- Z.pow_succ_r by lia. f_equal. lia.
Qed.

(** C40: as long as what is used and what is needed are at most the [pb_max]
    bytes that a buffer can hold, making room ends, keeps what was written and
    leaves at least the bytes that are needed; the new capacity is a power of
    two and at most the largest of the old capacity, 1024, and twice the sum
    of what is used and what is needed. *)
Theorem ensure_buffer_grows b needed :
  pb_wf b -> 0 <= needed -> zlen (pb_data b) + needed <= pb_max ->
  exists b', ensure_buffer needed b = Some b' /\ pb_wf b' /\ pb_data b' = pb_data b
    /\ needed <= pb_rem b'
    /\ pb_len b' <= Z.max (Z.max (pb_len b) 1024) (2 * (zlen (pb_data b) + needed)).
Proof.
  intros Hwf Hn Hm. destruct (ensure_buffer_spec b needed Hwf Hn Hm) as (b' & E & Hwf' & Hd & Hr & _).
  exists b'. split_and!; [done..|]. revert E. unfold ensure_buffer.
  destruct (pb_rem b <? needed); [|intros [= <-]; lia].
  rewrite pb_used by (try done; lia). set (len0 := if pb_len b =? 0 then 1024 else pb_len b).
  assert (exists e, 10 <= e <= 63 /\ len0 = 2 ^ e /\ zlen (pb_data b) <= 2 ^ e) as (e & He & Hl0 & Hu).
  { revert Hwf. unfold pb_wf, pb_data, len0. destruct (pb_buf b) as [d|]; cbn [opt_list].
    - intros ((e & He & Hl) & Hrem & H0). exists e. rewrite Hl in *.
      assert (0 < 2 ^ e) by lia. replace (2 ^ e =? 0) with false by lia. split_and!; [lia..|done|lia].
    - intros [-> _]. exists 10. split_and!; [lia..|done|]. zlen_lia. }
  assert (len0 <= Z.max (pb_len b) 1024) by (unfold len0; destruct (Z.eqb_spec (pb_len b) 0); lia).
  rewrite Hl0. destruct (double_len_spec double_len_fuel e (zlen (pb_data b)) needed)
    as (e' & He' & Ed & _ & Hleast); [done|zlen_lia|done|done|unfold double_len_fuel; lia|].
  pose proof (double_len_least e e' _ ltac:(lia) Hleast) as Hcap.
  rewrite Ed. cbn [mbind option_bind].
  destruct (pb_buf b) as [old|]; [destruct (mem_read old 0 _)|]; cbn [mbind option_bind]; try done;
    intros [= <-]; cbn [pb_len]; lia.
Qed.

(** What a fresh buffer is ready to read is at the head of its block. *)
Lemma wrap_head o e rest : gb_ready (mwGetBuffer_wrap (Some o)) (e ++ rest) ->
  exists t, gb_buf (mwGetBuffer_wrap (Some o)) = e ++ t.
Proof.
  intros (_ & _ & Hview). unfold gb_view in Hview.
  assert (gb_ptr (mwGetBuffer_wrap (Some o)) = 0) as H0 by (unfold mwGetBuffer_wrap; by repeat case_match).
  rewrite H0 in Hview. change (Z.to_nat 0) with 0%nat in Hview. rewrite drop_0 in Hview.
  eexists. rewrite <- (take_drop (Z.to_nat (gb_rem (mwGetBuffer_wrap (Some o)))) (gb_buf _)), Hview.
  by rewrite <- app_assoc.
Qed.

(** [guint32_peek] shows the integer at the head of the buffer, wherever
    the reading has got to. *)
Theorem guint32_peek_reads_head o v v' rest :
  opaque_ok o -> len o < 2 ^ 64 -> opaque_data o = MW32_PUT v ++ MW32_PUT v' ++ rest ->
  is_u32 v -> is_u32 v' ->
  exists g, guint32_get 0 (mwGetBuffer_wrap (Some o)) = Some (v, g)
    /\ guint32_peek g = Some v /\ exists g', guint32_get 0 g = Some (v', g').
Proof.
  intros Ho Hl Hd Hv Hv'. pose proof (mwGetBuffer_wrap_ready o Ho Hl) as Hg. rewrite Hd in Hg.
  destruct (guint32_get_parses 0 v Hv) as (R & _ & _). destruct (R _ _ Hg) as (g & E & Hg1 & M & _).
  destruct (guint32_get_parses 0 v' Hv') as (R' & _ & _). destruct (R' _ _ Hg1) as (g' & E' & _).
  exists g. split_and!; [done| |by exists g']. unfold guint32_peek.
  pose proof (gb_ready_len _ _ Hg1) as Hr. rewrite zlen_app, MW32_PUT_len in Hr. pose_zlen.
  replace (guint32_buflen <=? gb_rem g) with true by (unfold guint32_buflen; lia).
  rewrite M. destruct (wrap_head o _ _ Hg) as [t ->].
  change guint32_buflen with (zlen (MW32_PUT v)). rewrite mem_read_prefix. cbn [mbind option_bind].
  by rewrite MW32_GET_PUT, u32_id.
Qed.

(** ** Witnesses *)

Lemma ensure_buffer_grows_witness :
  exists b', ensure_buffer 5000 mwPutBuffer_new = Some b' /\ pb_wf b' /\ pb_data b' = []
    /\ 5000 <= pb_rem b' /\ pb_len b' <= Z.max (Z.max 0 1024) (2 * (zlen (@nil Z) + 5000)).
Proof. apply (ensure_buffer_grows mwPutBuffer_new 5000); [done|lia|discriminate]. Defined.

Lemma guint32_peek_reads_head_witness :
  exists g, guint32_get 0 (mwGetBuffer_wrap (Some (opaque_of [0; 0; 0; 1; 0; 0; 0; 2]))) = Some (1, g)
    /\ guint32_peek g = Some 1 /\ exists g', guint32_get 0 g = Some (2, g').
Proof.
  apply (guint32_peek_reads_head _ 1 2 []); done.
Defined.
