(* ===== verification/Common.v ===== *)
(** * Common structures (src/src/common.c, lines 348-351 and 470-938; mw_common.h)

    The compound types of the protocol with their [put], [get], [clone],
    [clear] and [equal] operations, and the interface [Wire] that states what
    a marshalled type promises to the messages built from it. *)

From S2P Require Import Prelude Buffer.
#[local] Open Scope mw_scope.

(** The first test of every compound getter. *)
Definition unless_error {A} (old : A) (m : Get A) : Get A := fun b =>
  if gb_error b then Some (old, b) else m b.

Definition gfail {A} : Get A := fun _ => None.

(** [g_strdup] copies the string. *)
Definition g_strdup (s : mwString) : mwString := s.

Definition mw_streq (a b : mwString) : bool := bool_decide (a = b).

(** ** 8.2.1 Login info *)

Record mwLoginInfo := {
  li_login_id : mwString;
  li_type : Z;
  li_user_id : mwString;
  li_user_name : mwString;
  li_community : mwString;
  li_full : bool;
  li_desc : mwString;
  li_ip_addr : Z;
  li_server_id : mwString
}.

Definition mwLoginInfo_put (login : mwLoginInfo) : Put :=
  mwString_put (li_login_id login) >>>
  guint16_put (li_type login) >>>
  mwString_put (li_user_id login) >>>
  mwString_put (li_user_name login) >>>
  mwString_put (li_community login) >>>
  gboolean_put (li_full login) >>>
  (if li_full login then
     mwString_put (li_desc login) >>>
     guint32_put (li_ip_addr login) >>>
     mwString_put (li_server_id login)
   else pskip).

Definition mwLoginInfo_get (login : mwLoginInfo) : Get mwLoginInfo :=
  unless_error login (
  let! login_id := mwString_get in
  let! type := guint16_get (li_type login) in
  let! user_id := mwString_get in
  let! user_name := mwString_get in
  let! community := mwString_get in
  let! full := gboolean_get (li_full login) in
  if full then
    let! desc := mwString_get in
    let! ip_addr := guint32_get (li_ip_addr login) in
    let! server_id := mwString_get in
    gret {| li_login_id := login_id; li_type := type; li_user_id := user_id;
            li_user_name := user_name; li_community := community; li_full := full;
            li_desc := desc; li_ip_addr := ip_addr; li_server_id := server_id |}
  else
    gret {| li_login_id := login_id; li_type := type; li_user_id := user_id;
            li_user_name := user_name; li_community := community; li_full := full;
            li_desc := li_desc login; li_ip_addr := li_ip_addr login;
            li_server_id := li_server_id login |}).

(** [memset] to zero. *)
Definition mwLoginInfo_clear (login : mwLoginInfo) : mwLoginInfo :=
  {| li_login_id := None; li_type := 0; li_user_id := None; li_user_name := None;
     li_community := None; li_full := false; li_desc := None; li_ip_addr := 0;
     li_server_id := None |}.

Definition mwLoginInfo_clone (to from : mwLoginInfo) : mwLoginInfo :=
  {| li_login_id := g_strdup (li_login_id from);
     li_type := li_type from;
     li_user_id := g_strdup (li_user_id from);
     li_user_name := g_strdup (li_user_name from);
     li_community := g_strdup (li_community from);
     li_full := li_full from;
     li_desc := if li_full from then g_strdup (li_desc from) else li_desc to;
     li_ip_addr := if li_full from then li_ip_addr from else li_ip_addr to;
     li_server_id := if li_full from then g_strdup (li_server_id from) else li_server_id to |}.

(** ** 8.2.2 Privacy info *)

Record mwUserItem := {
  ui_full : bool;
  ui_id : mwString;
  ui_community : mwString;
  ui_name : mwString
}.

Definition mwUserItem_put (user : mwUserItem) : Put :=
  gboolean_put (ui_full user) >>>
  mwString_put (ui_id user) >>>
  mwString_put (ui_community user) >>>
  (if ui_full user then mwString_put (ui_name user) else pskip).

Definition mwUserItem_get (user : mwUserItem) : Get mwUserItem :=
  unless_error user (
  let! full := gboolean_get (ui_full user) in
  let! id := mwString_get in
  let! community := mwString_get in
  if full then
    let! name := mwString_get in
    gret {| ui_full := full; ui_id := id; ui_community := community; ui_name := name |}
  else
    gret {| ui_full := full; ui_id := id; ui_community := community; ui_name := ui_name user |}).

Definition mwUserItem_clear (user : mwUserItem) : mwUserItem :=
  {| ui_full := false; ui_id := None; ui_community := None; ui_name := None |}.

Definition mwUserItem_clone (from : mwUserItem) : mwUserItem :=
  {| ui_full := ui_full from;
     ui_id := g_strdup (ui_id from);
     ui_community := g_strdup (ui_community from);
     ui_name := if ui_full from then g_strdup (ui_name from) else None |}.

Definition ui_zero : mwUserItem :=
  {| ui_full := false; ui_id := None; ui_community := None; ui_name := None |}.

(** [pi_users] is the array [users], of which [count] items are used. *)
Record mwPrivacyInfo := {
  pi_deny : bool;
  pi_count : Z;
  pi_users : list mwUserItem
}.

(** [for(c = info->count; c--; ) mwUserItem_put(b, info->users + c);] *)
Fixpoint privacy_put_loop (c : nat) (users : list mwUserItem) : Put :=
  match c with
  | O => pskip
  | S c =>
      match users !! c with
      | Some user => mwUserItem_put user >>> privacy_put_loop c users
      | None => pfail
      end
  end.

Definition mwPrivacyInfo_put (info : mwPrivacyInfo) : Put :=
  gboolean_put (pi_deny info) >>>
  guint32_put (pi_count info) >>>
  privacy_put_loop (Z.to_nat (pi_count info)) (pi_users info).

(** [while(c--) mwUserItem_get(b, info->users + c);] *)
Fixpoint privacy_get_loop (c : nat) (users : list mwUserItem) : Get (list mwUserItem) :=
  match c with
  | O => gret users
  | S c =>
      match users !! c with
      | Some user =>
          let! user := mwUserItem_get user in
          privacy_get_loop c (<[c := user]> users)
      | None => gfail
      end
  end.

Definition privacy_get_users (count : Z) (users : list mwUserItem) : Get (list mwUserItem) :=
  if negb (count =? 0) then
    let c := Z.to_nat count in
    privacy_get_loop c (replicate c ui_zero)
  else gret users.

Definition mwPrivacyInfo_get (info : mwPrivacyInfo) : Get mwPrivacyInfo :=
  unless_error info (
  let! deny := gboolean_get (pi_deny info) in
  let! count := guint32_get (pi_count info) in
  let! users := privacy_get_users count (pi_users info) in
  gret {| pi_deny := deny; pi_count := count; pi_users := users |}).

(** [while(c--) mwUserItem_clone(to->users+c, from->users+c);] [None] when
    [from] has fewer users than its count. *)
Fixpoint privacy_clone_loop (c : nat) (to from : list mwUserItem) : option (list mwUserItem) :=
  match c with
  | O => Some to
  | S c =>
      match from !! c with
      | Some user => privacy_clone_loop c (<[c := mwUserItem_clone user]> to) from
      | None => None
      end
  end.

Definition mwPrivacyInfo_clone (from : mwPrivacyInfo) : option mwPrivacyInfo :=
  let c := Z.to_nat (pi_count from) in
  users ← privacy_clone_loop c (replicate c ui_zero) (pi_users from);
  Some {| pi_deny := pi_deny from; pi_count := pi_count from; pi_users := users |}.

(** [deny] is kept. *)
Definition mwPrivacyInfo_clear (info : mwPrivacyInfo) : mwPrivacyInfo :=
  {| pi_deny := pi_deny info; pi_count := 0; pi_users := [] |}.

(** ** 8.2.3 User status *)

Record mwUserStatus := {
  us_status : Z;
  us_time : Z;
  us_desc : mwString
}.

Definition mwUserStatus_put (stat : mwUserStatus) : Put :=
  guint16_put (us_status stat) >>>
  guint32_put (us_time stat) >>>
  mwString_put (us_desc stat).

(** The time read is overwritten with 0. *)
Definition mwUserStatus_get (stat : mwUserStatus) : Get mwUserStatus :=
  unless_error stat (
  let! status := guint16_get (us_status stat) in
  let! time := guint32_get (us_time stat) in
  let! desc := mwString_get in
  gret {| us_status := status; us_time := 0; us_desc := desc |}).

Definition mwUserStatus_clear (stat : mwUserStatus) : mwUserStatus :=
  {| us_status := 0; us_time := 0; us_desc := None |}.

Definition mwUserStatus_clone (from : mwUserStatus) : mwUserStatus :=
  {| us_status := us_status from; us_time := us_time from; us_desc := g_strdup (us_desc from) |}.

(** ** 8.2.4 ID block *)

Record mwIdBlock := { id_user : mwString; id_community : mwString }.

Definition mwIdBlock_put (id : mwIdBlock) : Put :=
  mwString_put (id_user id) >>>
  mwString_put (id_community id).

Definition mwIdBlock_get (id : mwIdBlock) : Get mwIdBlock :=
  unless_error id (
  let! user := mwString_get in
  let! community := mwString_get in
  gret {| id_user := user; id_community := community |}).

Definition mwIdBlock_clear (id : mwIdBlock) : mwIdBlock :=
  {| id_user := None; id_community := None |}.

Definition mwIdBlock_clone (from : mwIdBlock) : mwIdBlock :=
  {| id_user := g_strdup (id_user from); id_community := g_strdup (id_community from) |}.

Definition mwIdBlock_equal (a b : mwIdBlock) : bool :=
  mw_streq (id_user a) (id_user b) && mw_streq (id_community a) (id_community b).

(** ** 8.2.5 Encryption item *)

Record mwEncryptItem := { ei_id : Z; ei_info : mwOpaque }.

Definition ei_zero : mwEncryptItem := {| ei_id := 0; ei_info := opaque_zero |}.

Definition mwEncryptItem_put (ei : mwEncryptItem) : Put :=
  guint16_put (ei_id ei) >>>
  mwOpaque_put (Some (ei_info ei)).

Definition mwEncryptItem_get (ei : mwEncryptItem) : Get mwEncryptItem :=
  unless_error ei (
  let! id := guint16_get (ei_id ei) in
  let! info := mwOpaque_get in
  gret {| ei_id := id; ei_info := info |}).

Definition mwEncryptItem_clear (ei : mwEncryptItem) : mwEncryptItem :=
  {| ei_id := 0x0000; ei_info := mwOpaque_clear (ei_info ei) |}.

(** ** 8.4.2.1 Awareness ID block *)

Record mwAwareIdBlock := { ai_type : Z; ai_user : mwString; ai_community : mwString }.

Definition mwAwareIdBlock_put (idb : mwAwareIdBlock) : Put :=
  guint16_put (ai_type idb) >>>
  mwString_put (ai_user idb) >>>
  mwString_put (ai_community idb).

Definition mwAwareIdBlock_get (idb : mwAwareIdBlock) : Get mwAwareIdBlock :=
  unless_error idb (
  let! type := guint16_get (ai_type idb) in
  let! user := mwString_get in
  let! community := mwString_get in
  gret {| ai_type := type; ai_user := user; ai_community := community |}).

Definition mwAwareIdBlock_clone (from : mwAwareIdBlock) : mwAwareIdBlock :=
  {| ai_type := ai_type from; ai_user := g_strdup (ai_user from);
     ai_community := g_strdup (ai_community from) |}.

Definition mwAwareIdBlock_clear (idb : mwAwareIdBlock) : mwAwareIdBlock :=
  {| ai_type := 0; ai_user := None; ai_community := None |}.

Definition mwAwareIdBlock_equal (a b : mwAwareIdBlock) : bool :=
  (ai_type a =? ai_type b)
  && mw_streq (ai_user a) (ai_user b)
  && mw_streq (ai_community a) (ai_community b).

(** The hashes are those of the user names by GLib's [g_str_hash]. *)
Section hash.
Variable g_str_hash : mwString -> Z.

Definition mwIdBlock_hash (idb : option mwIdBlock) : Z :=
  match idb with Some idb => g_str_hash (id_user idb) | None => 0 end.

Definition mwAwareIdBlock_hash (a : option mwAwareIdBlock) : Z :=
  match a with Some a => g_str_hash (ai_user a) | None => 0 end.
End hash.

(** ** 8.4.2.4 Snapshot *)

Record mwAwareSnapshot := {
  as_id : mwAwareIdBlock;
  as_group : mwString;
  as_online : bool;
  as_alt_id : mwString;
  as_status : mwUserStatus;
  as_name : mwString
}.

(** [uninit] is the value of the uninitialised local [end_of_block]; pointers
    into the buffer are offsets from [buf]. *)
Definition mwAwareSnapshot_get (uninit : Z) (idb : mwAwareSnapshot) : Get mwAwareSnapshot :=
  let! end_of_block := guint32_get uninit in
  let! id := mwAwareIdBlock_get (as_id idb) in
  let! group := mwString_get in
  let! online := gboolean_get (as_online idb) in
  let! idb :=
    (if online then
      let! alt_id := mwString_get in
      let! status := mwUserStatus_get (as_status idb) in
      let! name := mwString_get in
      gret {| as_id := id; as_group := group; as_online := online;
              as_alt_id := alt_id; as_status := status; as_name := name |}
    else
      gret {| as_id := id; as_group := group; as_online := online;
              as_alt_id := as_alt_id idb; as_status := as_status idb; as_name := as_name idb |}) in
  fun b =>
    if gb_ptr b <? end_of_block
    then match mwGetBuffer_advance (end_of_block - gb_ptr b) b with
         | Some (_, b) => Some (idb, b)
         | None => None
         end
    else Some (idb, b).

(** The group is only copied for an online entry. *)
Definition mwAwareSnapshot_clone (to from : mwAwareSnapshot) : mwAwareSnapshot :=
  {| as_id := mwAwareIdBlock_clone (as_id from);
     as_group := if as_online from then g_strdup (as_group from) else as_group to;
     as_online := as_online from;
     as_alt_id := if as_online from then g_strdup (as_alt_id from) else as_alt_id to;
     as_status := if as_online from then mwUserStatus_clone (as_status from) else as_status to;
     as_name := if as_online from then g_strdup (as_name from) else as_name to |}.

Definition mwAwareSnapshot_clear (idb : mwAwareSnapshot) : mwAwareSnapshot :=
  {| as_id := mwAwareIdBlock_clear (as_id idb); as_group := None; as_online := false;
     as_alt_id := None; as_status := mwUserStatus_clear (as_status idb); as_name := None |}.

(** * The interface of a marshalled type *)

(** [wire_enc] is the wire format, [wire_ok] the values that have one, and
    [wire_norm] what a reader obtains: the fields that are not sent are zero
    and the empty strings are NULL. *)
Class Wire (A : Type) := {
  wire_put : A -> Put;
  wire_get : A -> Get A;
  wire_zero : A;
  wire_enc : A -> list Z;
  wire_ok : A -> Prop;
  wire_norm : A -> A;
  wire_put_writes a : wire_ok a -> writes (wire_put a) (wire_enc a);
  wire_get_parses a : wire_ok a -> parses (wire_get wire_zero) (wire_enc a) (wire_norm a);
  wire_get_safe old : safe (wire_get old)
}.

(** ** Wire formats *)

Definition mwLoginInfo_enc (v : mwLoginInfo) : list Z :=
  mwString_enc (li_login_id v) ++ MW16_PUT (li_type v) ++ mwString_enc (li_user_id v) ++
  mwString_enc (li_user_name v) ++ mwString_enc (li_community v) ++ [Z.b2z (li_full v)] ++
  (if li_full v then
     mwString_enc (li_desc v) ++ MW32_PUT (li_ip_addr v) ++ mwString_enc (li_server_id v)
   else []).

Definition mwLoginInfo_ok (v : mwLoginInfo) : Prop :=
  mwString_ok (li_login_id v) /\ is_u16 (li_type v) /\ mwString_ok (li_user_id v) /\
  mwString_ok (li_user_name v) /\ mwString_ok (li_community v) /\
  (li_full v = true ->
   mwString_ok (li_desc v) /\ is_u32 (li_ip_addr v) /\ mwString_ok (li_server_id v)).

Definition li_zero : mwLoginInfo :=
  {| li_login_id := None; li_type := 0; li_user_id := None; li_user_name := None;
     li_community := None; li_full := false; li_desc := None; li_ip_addr := 0;
     li_server_id := None |}.

Definition mwLoginInfo_norm (v : mwLoginInfo) : mwLoginInfo :=
  {| li_login_id := mwString_norm (li_login_id v); li_type := li_type v;
     li_user_id := mwString_norm (li_user_id v);
     li_user_name := mwString_norm (li_user_name v);
     li_community := mwString_norm (li_community v); li_full := li_full v;
     li_desc := if li_full v then mwString_norm (li_desc v) else None;
     li_ip_addr := if li_full v then li_ip_addr v else 0;
     li_server_id := if li_full v then mwString_norm (li_server_id v) else None |}.

Definition mwUserItem_enc (v : mwUserItem) : list Z :=
  [Z.b2z (ui_full v)] ++ mwString_enc (ui_id v) ++ mwString_enc (ui_community v) ++
  (if ui_full v then mwString_enc (ui_name v) else []).

Definition mwUserItem_ok (v : mwUserItem) : Prop :=
  mwString_ok (ui_id v) /\ mwString_ok (ui_community v) /\
  (ui_full v = true -> mwString_ok (ui_name v)).

Definition mwUserItem_norm (v : mwUserItem) : mwUserItem :=
  {| ui_full := ui_full v; ui_id := mwString_norm (ui_id v);
     ui_community := mwString_norm (ui_community v);
     ui_name := if ui_full v then mwString_norm (ui_name v) else None |}.

(** The users are sent last to first. *)
Definition mwPrivacyInfo_enc (v : mwPrivacyInfo) : list Z :=
  [Z.b2z (pi_deny v)] ++ MW32_PUT (pi_count v) ++
  mjoin (mwUserItem_enc <$> reverse (pi_users v)).

Definition mwPrivacyInfo_ok (v : mwPrivacyInfo) : Prop :=
  pi_count v = zlen (pi_users v) /\ is_u32 (pi_count v) /\ Forall mwUserItem_ok (pi_users v).

Definition pi_zero : mwPrivacyInfo := {| pi_deny := false; pi_count := 0; pi_users := [] |}.

Definition mwPrivacyInfo_norm (v : mwPrivacyInfo) : mwPrivacyInfo :=
  {| pi_deny := pi_deny v; pi_count := pi_count v; pi_users := mwUserItem_norm <$> pi_users v |}.

Definition mwUserStatus_enc (v : mwUserStatus) : list Z :=
  MW16_PUT (us_status v) ++ MW32_PUT (us_time v) ++ mwString_enc (us_desc v).

Definition mwUserStatus_ok (v : mwUserStatus) : Prop :=
  is_u16 (us_status v) /\ is_u32 (us_time v) /\ mwString_ok (us_desc v).

Definition us_zero : mwUserStatus := {| us_status := 0; us_time := 0; us_desc := None |}.

Definition mwUserStatus_norm (v : mwUserStatus) : mwUserStatus :=
  {| us_status := us_status v; us_time := 0; us_desc := mwString_norm (us_desc v) |}.

Definition mwIdBlock_enc (v : mwIdBlock) : list Z :=
  mwString_enc (id_user v) ++ mwString_enc (id_community v).

Definition mwIdBlock_ok (v : mwIdBlock) : Prop :=
  mwString_ok (id_user v) /\ mwString_ok (id_community v).

Definition id_zero : mwIdBlock := {| id_user := None; id_community := None |}.

Definition mwIdBlock_norm (v : mwIdBlock) : mwIdBlock :=
  {| id_user := mwString_norm (id_user v); id_community := mwString_norm (id_community v) |}.

Definition mwEncryptItem_enc (v : mwEncryptItem) : list Z :=
  MW16_PUT (ei_id v) ++ mwOpaque_enc (ei_info v).

(** An opaque with a wire format. *)
Definition mwOpaque_ok (o : mwOpaque) : Prop := opaque_ok o /\ is_u32 (len o).

Definition mwOpaque_norm (o : mwOpaque) : mwOpaque := opaque_of (opaque_data o).

Definition mwEncryptItem_ok (v : mwEncryptItem) : Prop :=
  is_u16 (ei_id v) /\ mwOpaque_ok (ei_info v).

Definition mwEncryptItem_norm (v : mwEncryptItem) : mwEncryptItem :=
  {| ei_id := ei_id v; ei_info := mwOpaque_norm (ei_info v) |}.

Definition mwAwareIdBlock_enc (v : mwAwareIdBlock) : list Z :=
  MW16_PUT (ai_type v) ++ mwString_enc (ai_user v) ++ mwString_enc (ai_community v).

Definition mwAwareIdBlock_ok (v : mwAwareIdBlock) : Prop :=
  is_u16 (ai_type v) /\ mwString_ok (ai_user v) /\ mwString_ok (ai_community v).

Definition ai_zero : mwAwareIdBlock := {| ai_type := 0; ai_user := None; ai_community := None |}.

Definition mwAwareIdBlock_norm (v : mwAwareIdBlock) : mwAwareIdBlock :=
  {| ai_type := ai_type v; ai_user := mwString_norm (ai_user v);
     ai_community := mwString_norm (ai_community v) |}.

(** ** Lemmas on the combinators *)

Lemma unless_error_safe {A} (old : A) m : safe m -> safe (unless_error old m).
Proof.
  intros Hs b Hb. unfold unless_error. destruct (gb_error b) eqn:He; [by exists old, b|].
  destruct (Hs b Hb) as (a & b' & E & Hb' & M & _). by exists a, b'.
Qed.

Lemma unless_error_parses {A} (old : A) m e v : parses m e v -> parses (unless_error old m) e v.
Proof.
  intros (R & T & S). split_and!; [| |by apply unless_error_safe].
  - intros b rest Hb. unfold unless_error. assert (gb_error b = false) as -> by apply Hb. by apply R.
  - intros b l k Hb. unfold unless_error. assert (gb_error b = false) as -> by apply Hb. by apply T.
Qed.
#[export] Hint Resolve unless_error_safe unless_error_parses : mw_codec.

Lemma mwOpaque_put_ok o : mwOpaque_ok o -> writes (mwOpaque_put (Some o)) (mwOpaque_enc o).
Proof. intros [? _]. by apply mwOpaque_put_writes. Qed.
Lemma mwOpaque_get_ok o : mwOpaque_ok o -> parses mwOpaque_get (mwOpaque_enc o) (mwOpaque_norm o).
Proof. intros [? ?]. by apply mwOpaque_get_parses. Qed.
#[export] Hint Resolve mwOpaque_put_ok mwOpaque_get_ok : mw_codec.

(** ** Login info *)

Lemma mwLoginInfo_put_writes v : writes (mwLoginInfo_put v) (mwLoginInfo_enc v).
Proof. unfold mwLoginInfo_put, mwLoginInfo_enc. writes_tac. Qed.

Lemma mwLoginInfo_get_safe old : safe (mwLoginInfo_get old).
Proof. apply unless_error_safe. safe_tac. Qed.

Lemma mwLoginInfo_get_parses v :
  mwLoginInfo_ok v -> parses (mwLoginInfo_get li_zero) (mwLoginInfo_enc v) (mwLoginInfo_norm v).
Proof.
  intros (?&?&?&?&?&Hf). apply unless_error_parses.
  unfold mwLoginInfo_enc, mwLoginInfo_norm.
  destruct (li_full v); [destruct Hf as (?&?&?); [done|]|clear Hf]; parses_tac.
Qed.
#[export] Hint Resolve mwLoginInfo_put_writes mwLoginInfo_get_safe mwLoginInfo_get_parses : mw_codec.

(** ** User items and privacy info *)

Lemma mwUserItem_put_writes v : writes (mwUserItem_put v) (mwUserItem_enc v).
Proof. unfold mwUserItem_put, mwUserItem_enc. writes_tac. Qed.

Lemma mwUserItem_get_safe old : safe (mwUserItem_get old).
Proof. apply unless_error_safe. safe_tac. Qed.

Lemma mwUserItem_get_parses v :
  mwUserItem_ok v -> parses (mwUserItem_get ui_zero) (mwUserItem_enc v) (mwUserItem_norm v).
Proof.
  intros (?&?&Hf). apply unless_error_parses. unfold mwUserItem_enc, mwUserItem_norm.
  destruct (ui_full v); [specialize (Hf eq_refl)|clear Hf]; parses_tac.
Qed.
#[export] Hint Resolve mwUserItem_put_writes mwUserItem_get_safe mwUserItem_get_parses : mw_codec.

Lemma reverse_enc_snoc {A} (f : A -> list Z) x l :
  mjoin (f <$> reverse (l ++ [x])) = f x ++ mjoin (f <$> reverse l).
Proof. by rewrite reverse_snoc. Qed.

Lemma privacy_put_loop_writes users l :
  writes (privacy_put_loop (length users) (users ++ l)) (mjoin (mwUserItem_enc <$> reverse users)).
Proof.
  revert l. induction users as [|user users IH] using rev_ind; intros l; [apply writes_skip|].
  rewrite length_app, Nat.add_1_r, reverse_enc_snoc, <- app_assoc. cbn [privacy_put_loop].
  cbn [app]. rewrite list_lookup_middle by done. apply writes_seq; [auto with mw_codec|apply IH].
Qed.

Lemma privacy_get_loop_safe c users : (c <= length users)%nat -> safe (privacy_get_loop c users).
Proof.
  revert users. induction c as [|c IH]; intros users Hc; cbn [privacy_get_loop]; [apply safe_ret|].
  destruct (lookup_lt_is_Some_2 users c) as [u ->]; [lia|].
  apply safe_bind; [auto with mw_codec|]. intros. apply IH. rewrite length_insert. lia.
Qed.

Lemma privacy_get_loop_parses users l :
  Forall mwUserItem_ok users ->
  parses (privacy_get_loop (length users) (replicate (length users) ui_zero ++ l))
    (mjoin (mwUserItem_enc <$> reverse users)) ((mwUserItem_norm <$> users) ++ l).
Proof.
  revert l. induction users as [|user users IH] using rev_ind; intros l Hok; [apply parses_ret|].
  apply Forall_app in Hok as [Hok Hu]. apply Forall_inv in Hu.
  rewrite length_app, Nat.add_1_r, reverse_enc_snoc.
  rewrite replicate_S_end, <- app_assoc, fmap_app, <- app_assoc. cbn [privacy_get_loop].
  cbn [app]. rewrite list_lookup_middle by (by rewrite length_replicate).
  eapply parses_bind; [by auto with mw_codec| |].
  - intros x. apply privacy_get_loop_safe. rewrite length_insert, !length_app, length_replicate. lia.
  - cbv beta. rewrite insert_app_r_alt by (by rewrite length_replicate).
    rewrite length_replicate, Nat.sub_diag. by apply IH.
Qed.

Lemma mwPrivacyInfo_put_writes v :
  mwPrivacyInfo_ok v -> writes (mwPrivacyInfo_put v) (mwPrivacyInfo_enc v).
Proof.
  intros (Hc & _ & _). unfold mwPrivacyInfo_put, mwPrivacyInfo_enc.
  rewrite Hc, to_nat_zlen. writes_tac.
  pose proof (privacy_put_loop_writes (pi_users v) []) as H. by rewrite app_nil_r in H.
Qed.

Lemma privacy_get_users_safe count users : safe (privacy_get_users count users).
Proof.
  apply safe_if; [|apply safe_ret]. apply privacy_get_loop_safe. by rewrite length_replicate.
Qed.

Lemma privacy_get_users_parses users :
  Forall mwUserItem_ok users ->
  parses (privacy_get_users (zlen users) []) (mjoin (mwUserItem_enc <$> reverse users))
    (mwUserItem_norm <$> users).
Proof.
  intros Hok. unfold privacy_get_users. destruct (Z.eqb_spec (zlen users) 0) as [H0|H0]; cbn [negb].
  - apply zlen_0_nil in H0 as ->. apply parses_ret.
  - rewrite to_nat_zlen. pose proof (privacy_get_loop_parses users [] Hok) as H.
    by rewrite !app_nil_r in H.
Qed.
#[export] Hint Resolve privacy_get_users_safe : mw_codec.

Lemma mwPrivacyInfo_get_safe old : safe (mwPrivacyInfo_get old).
Proof. apply unless_error_safe. safe_tac. Qed.

Lemma mwPrivacyInfo_get_parses v :
  mwPrivacyInfo_ok v -> parses (mwPrivacyInfo_get pi_zero) (mwPrivacyInfo_enc v) (mwPrivacyInfo_norm v).
Proof.
  intros (Hc & H32 & Hok). apply unless_error_parses. unfold mwPrivacyInfo_enc, mwPrivacyInfo_norm.
  parses_tac. rewrite Hc. by apply privacy_get_users_parses.
Qed.
#[export] Hint Resolve mwPrivacyInfo_put_writes mwPrivacyInfo_get_safe mwPrivacyInfo_get_parses : mw_codec.

(** ** The other structures *)

Lemma mwUserStatus_put_writes v : writes (mwUserStatus_put v) (mwUserStatus_enc v).
Proof. unfold mwUserStatus_put, mwUserStatus_enc. writes_tac. Qed.
Lemma mwUserStatus_get_safe old : safe (mwUserStatus_get old).
Proof. apply unless_error_safe. safe_tac. Qed.
Lemma mwUserStatus_get_parses v :
  mwUserStatus_ok v -> parses (mwUserStatus_get us_zero) (mwUserStatus_enc v) (mwUserStatus_norm v).
Proof.
  intros (?&?&?). apply unless_error_parses. unfold mwUserStatus_enc, mwUserStatus_norm. parses_tac.
Qed.

Lemma mwIdBlock_put_writes v : writes (mwIdBlock_put v) (mwIdBlock_enc v).
Proof. unfold mwIdBlock_put, mwIdBlock_enc. writes_tac. Qed.
Lemma mwIdBlock_get_safe old : safe (mwIdBlock_get old).
Proof. apply unless_error_safe. safe_tac. Qed.
Lemma mwIdBlock_get_parses v :
  mwIdBlock_ok v -> parses (mwIdBlock_get id_zero) (mwIdBlock_enc v) (mwIdBlock_norm v).
Proof.
  intros (?&?). apply unless_error_parses. unfold mwIdBlock_enc, mwIdBlock_norm. parses_tac.
Qed.

Lemma mwEncryptItem_put_writes v : mwEncryptItem_ok v -> writes (mwEncryptItem_put v) (mwEncryptItem_enc v).
Proof. intros (_ & ?). unfold mwEncryptItem_put, mwEncryptItem_enc. writes_tac. Qed.
Lemma mwEncryptItem_get_safe old : safe (mwEncryptItem_get old).
Proof. apply unless_error_safe. safe_tac. Qed.
Lemma mwEncryptItem_get_parses v :
  mwEncryptItem_ok v -> parses (mwEncryptItem_get ei_zero) (mwEncryptItem_enc v) (mwEncryptItem_norm v).
Proof.
  intros (?&?). apply unless_error_parses. unfold mwEncryptItem_enc, mwEncryptItem_norm. parses_tac.
Qed.

Lemma mwAwareIdBlock_put_writes v : writes (mwAwareIdBlock_put v) (mwAwareIdBlock_enc v).
Proof. unfold mwAwareIdBlock_put, mwAwareIdBlock_enc. writes_tac. Qed.
Lemma mwAwareIdBlock_get_safe old : safe (mwAwareIdBlock_get old).
Proof. apply unless_error_safe. safe_tac. Qed.
Lemma mwAwareIdBlock_get_parses v :
  mwAwareIdBlock_ok v ->
  parses (mwAwareIdBlock_get ai_zero) (mwAwareIdBlock_enc v) (mwAwareIdBlock_norm v).
Proof.
  intros (?&?&?). apply unless_error_parses. unfold mwAwareIdBlock_enc, mwAwareIdBlock_norm. parses_tac.
Qed.

#[export] Hint Resolve mwUserStatus_put_writes mwUserStatus_get_safe mwUserStatus_get_parses
  mwIdBlock_put_writes mwIdBlock_get_safe mwIdBlock_get_parses
  mwEncryptItem_put_writes mwEncryptItem_get_safe mwEncryptItem_get_parses
  mwAwareIdBlock_put_writes mwAwareIdBlock_get_safe mwAwareIdBlock_get_parses : mw_codec.

Lemma mwAwareSnapshot_get_safe uninit old : safe (mwAwareSnapshot_get uninit old).
Proof.
  unfold mwAwareSnapshot_get. do 5 (apply safe_bind; [safe_tac|intros ?]).
  intros b Hb. destruct (Z.ltb_spec (gb_ptr b) a) as [Hlt|Hge]; [|by eexists _, b].
  destruct (mwGetBuffer_advance_safe (a - gb_ptr b)) with (b := b) as (n & b' & -> & ?); [lia|done|].
  by eexists _, b'.
Qed.

(** ** Instances *)

#[export] Instance mwLoginInfo_wire : Wire mwLoginInfo := {|
  wire_put := mwLoginInfo_put; wire_get := mwLoginInfo_get; wire_zero := li_zero;
  wire_enc := mwLoginInfo_enc; wire_ok := mwLoginInfo_ok; wire_norm := mwLoginInfo_norm;
  wire_put_writes a _ := mwLoginInfo_put_writes a;
  wire_get_parses := mwLoginInfo_get_parses; wire_get_safe := mwLoginInfo_get_safe |}.

#[export] Instance mwUserItem_wire : Wire mwUserItem := {|
  wire_put := mwUserItem_put; wire_get := mwUserItem_get; wire_zero := ui_zero;
  wire_enc := mwUserItem_enc; wire_ok := mwUserItem_ok; wire_norm := mwUserItem_norm;
  wire_put_writes a _ := mwUserItem_put_writes a;
  wire_get_parses := mwUserItem_get_parses; wire_get_safe := mwUserItem_get_safe |}.

#[export] Instance mwPrivacyInfo_wire : Wire mwPrivacyInfo := {|
  wire_put := mwPrivacyInfo_put; wire_get := mwPrivacyInfo_get; wire_zero := pi_zero;
  wire_enc := mwPrivacyInfo_enc; wire_ok := mwPrivacyInfo_ok; wire_norm := mwPrivacyInfo_norm;
  wire_put_writes := mwPrivacyInfo_put_writes;
  wire_get_parses := mwPrivacyInfo_get_parses; wire_get_safe := mwPrivacyInfo_get_safe |}.

#[export] Instance mwUserStatus_wire : Wire mwUserStatus := {|
  wire_put := mwUserStatus_put; wire_get := mwUserStatus_get; wire_zero := us_zero;
  wire_enc := mwUserStatus_enc; wire_ok := mwUserStatus_ok; wire_norm := mwUserStatus_norm;
  wire_put_writes a _ := mwUserStatus_put_writes a;
  wire_get_parses := mwUserStatus_get_parses; wire_get_safe := mwUserStatus_get_safe |}.

#[export] Instance mwIdBlock_wire : Wire mwIdBlock := {|
  wire_put := mwIdBlock_put; wire_get := mwIdBlock_get; wire_zero := id_zero;
  wire_enc := mwIdBlock_enc; wire_ok := mwIdBlock_ok; wire_norm := mwIdBlock_norm;
  wire_put_writes a _ := mwIdBlock_put_writes a;
  wire_get_parses := mwIdBlock_get_parses; wire_get_safe := mwIdBlock_get_safe |}.

#[export] Instance mwEncryptItem_wire : Wire mwEncryptItem := {|
  wire_put := mwEncryptItem_put; wire_get := mwEncryptItem_get; wire_zero := ei_zero;
  wire_enc := mwEncryptItem_enc; wire_ok := mwEncryptItem_ok; wire_norm := mwEncryptItem_norm;
  wire_put_writes := mwEncryptItem_put_writes;
  wire_get_parses := mwEncryptItem_get_parses; wire_get_safe := mwEncryptItem_get_safe |}.

#[export] Instance mwAwareIdBlock_wire : Wire mwAwareIdBlock := {|
  wire_put := mwAwareIdBlock_put; wire_get := mwAwareIdBlock_get; wire_zero := ai_zero;
  wire_enc := mwAwareIdBlock_enc; wire_ok := mwAwareIdBlock_ok; wire_norm := mwAwareIdBlock_norm;
  wire_put_writes a _ := mwAwareIdBlock_put_writes a;
  wire_get_parses := mwAwareIdBlock_get_parses; wire_get_safe := mwAwareIdBlock_get_safe |}.

(** ** Consequences of the interface *)

(** Writing to a new buffer, finalising it, and reading the opaque back. *)
Definition wire_send {A} `{Wire A} (a : A) : option mwOpaque :=
  b ← wire_put a mwPutBuffer_new; Some (mwPutBuffer_finalize b).

Definition wire_recv {A} `{Wire A} (o : mwOpaque) : option (A * mwGetBuffer) :=
  wire_get wire_zero (mwGetBuffer_wrap (Some o)).

Lemma wire_send_spec {A} `{Wire A} (a : A) :
  wire_ok a -> zlen (wire_enc a) <= pb_max ->
  exists o, wire_send a = Some o /\ opaque_ok o /\ len o = zlen (wire_enc a)
    /\ opaque_data o = wire_enc a.
Proof.
  intros Hok Hm. destruct (finalize_writes _ _ (wire_put_writes a Hok) Hm) as (b & E & Ho & Hl & Hd).
  exists (mwPutBuffer_finalize b). unfold wire_send. by rewrite E.
Qed.

Lemma wire_recv_spec {A} `{Wire A} (a : A) o rest :
  wire_ok a -> opaque_ok o -> len o < 2 ^ 64 -> opaque_data o = wire_enc a ++ rest ->
  exists g, wire_recv o = Some (wire_norm a, g) /\ gb_ready g rest.
Proof.
  intros Hok Ho Hm Hd. destruct (wire_get_parses a Hok) as (R & _ & _).
  destruct (R (mwGetBuffer_wrap (Some o)) rest) as (g & E & Hg & _).
  { rewrite <- Hd. by apply mwGetBuffer_wrap_ready. }
  by exists g.
Qed.

(** ** Properties *)

(** A value that was written to a new buffer is read back from the opaque it
    was finalised to, and nothing is left; cut anywhere, the same bytes raise
    the error flag. *)
Definition round_trips (A : Type) `{Wire A} : Prop := forall a : A,
  wire_ok a -> zlen (wire_enc a) <= pb_max ->
  exists o, wire_send a = Some o /\
    (exists g, wire_recv o = Some (wire_norm a, g) /\ mwGetBuffer_error g = false
               /\ mwGetBuffer_remaining g = 0)
    /\ forall l k, k <> [] -> opaque_data o = l ++ k ->
       exists r g, wire_recv (A := A) (opaque_of l) = Some (r, g) /\ mwGetBuffer_error g = true.

Lemma wire_round_trips A `{Wire A} : round_trips A.
Proof.
  intros a Hok Hmax. destruct (wire_send_spec a Hok Hmax) as (o & E & Ho & Hl & Hd).
  exists o. split; [done|]. split.
  - destruct (wire_recv_spec a o [] Hok Ho) as (g & Eg & Hg).
    + unfold pb_max in *. lia.
    + by rewrite app_nil_r.
    + exists g. split_and!; [done|apply Hg|]. unfold mwGetBuffer_remaining.
      by rewrite (gb_ready_len _ _ Hg).
  - intros l k Hk Hlk. destruct (wire_get_parses a Hok) as (_ & T & _).
    destruct (opaque_of_data l) as (Hol & Hdl & Hzl).
    assert (zlen l <= zlen (wire_enc a)) as Hle by (rewrite <- Hd, Hlk; zlen_lia).
    destruct (T (mwGetBuffer_wrap (Some (opaque_of l))) l k) as (r & g & Eg & _ & Hg).
    + rewrite <- Hdl at 2. apply mwGetBuffer_wrap_ready; [done|]. rewrite Hzl. unfold pb_max in *. lia.
    + done.
    + by rewrite <- Hd.
    + by exists r, g.
Qed.

(** C39: login information, users, privacy lists, statuses, identities,
    encryption items and awareness identities with numbers in range, strings
    that the length field can hold and as many users as counted are read back,
    with nothing left over, in their normal form: empty strings are NULL, the
    parts that only full login information and full users have are dropped
    from the others, and the time of a status is 0 whatever was sent, since the
    reader overwrites it.  Cut short anywhere, the bytes raise the error
    flag. *)
Theorem community_types_roundtrip :
  round_trips mwLoginInfo /\ round_trips mwUserItem /\ round_trips mwPrivacyInfo
  /\ round_trips mwUserStatus /\ round_trips mwIdBlock /\ round_trips mwEncryptItem
  /\ round_trips mwAwareIdBlock.
Proof. split_and!; apply wire_round_trips. Qed.

(** A string of 65536 bytes or more is written with its length modulo
    65536 and all its bytes: a reader gets the first of them, and takes the
    rest for what follows the string. *)
Theorem mwString_put_wraps s n :
  Forall (fun x => x <> 0) s -> zlen s = 65536 + n -> 0 <= n < 65536 -> zlen s + 2 <= pb_max ->
  exists b g, mwString_put (Some s) mwPutBuffer_new = Some b
    /\ mwString_get (mwGetBuffer_wrap (Some (mwPutBuffer_finalize b)))
       = Some (mwString_norm (Some (take (Z.to_nat n) s)), g)
    /\ mwGetBuffer_error g = false /\ mwGetBuffer_remaining g = 65536.
Proof.
  intros Hs Hlen Hn Hmax.
  assert (zlen (take (Z.to_nat n) s) = n) as Ht by zlen_lia.
  assert (u16 (zlen s) = n) as Hu by (unfold u16; rewrite Hlen; change 65536 with (1 * 2 ^ 16);
    rewrite Z.add_comm, Z_mod_plus_full; apply Z.mod_small; lia).
  destruct (finalize_writes _ _ (mwString_put_writes (Some s))) as (b & Eb & Ho & Hl & Hd).
  { unfold mwString_enc. cbn [opt_list]. rewrite zlen_app, MW16_PUT_len. lia. }
  set (t := Some (take (Z.to_nat n) s)).
  assert (mwString_ok t) as Hok.
  { split; cbn [opt_list t]; [by apply Forall_take|]. rewrite Ht. lia. }
  destruct (mwString_get_parses t Hok) as (R & _ & _).
  destruct (R (mwGetBuffer_wrap (Some (mwPutBuffer_finalize b))) (drop (Z.to_nat n) s)) as (g & Eg & Hg & _).
  { assert (mwString_enc t ++ drop (Z.to_nat n) s = mwString_enc (Some s)) as ->.
    { unfold mwString_enc. cbn [opt_list t]. rewrite Ht, Hu, u16_id by (unfold is_u16; lia).
      by rewrite <- app_assoc, take_drop. }
    rewrite <- Hd. apply mwGetBuffer_wrap_ready; [done|]. rewrite Hl. unfold mwString_enc.
    cbn [opt_list]. rewrite zlen_app, MW16_PUT_len. unfold pb_max in *. lia. }
  exists b, g. split_and!; [done|done|apply Hg|]. unfold mwGetBuffer_remaining.
  rewrite (gb_ready_len _ _ Hg). zlen_lia.
Qed.

(** A status is sent with its time, and read with the time 0. *)
Lemma community_types_roundtrip_witness :
  exists o, wire_send {| us_status := 32; us_time := 77; us_desc := Some [104; 105] |} = Some o
    /\ opaque_data o = [0; 32; 0; 0; 0; 77; 0; 2; 104; 105]
    /\ (exists g, wire_recv o = Some ({| us_status := 32; us_time := 0; us_desc := Some [104; 105] |}, g)
         /\ mwGetBuffer_error g = false /\ mwGetBuffer_remaining g = 0)
    /\ exists r g, wire_recv (A := mwUserStatus) (opaque_of [0; 32; 0; 0; 0; 77; 0; 2; 104]) = Some (r, g)
         /\ mwGetBuffer_error g = true.
Proof.
  destruct community_types_roundtrip as (_ & _ & _ & R & _).
  destruct (R {| us_status := 32; us_time := 77; us_desc := Some [104; 105] |}) as (o & E & G & C).
  - split_and!; [done|done|]. split; [repeat constructor; discriminate|done].
  - vm_compute. discriminate.
  - exists o. assert (opaque_data o = [0; 32; 0; 0; 0; 77; 0; 2; 104; 105]) as Ho.
    { vm_compute in E. injection E as <-. reflexivity. }
    split; [exact E|]. split; [exact Ho|]. split; [exact G|]. by apply (C _ [105]).
Defined.

Lemma mwString_put_wraps_witness :
  let s := replicate (Z.to_nat 65538) 65 in
  exists b g, mwString_put (Some s) mwPutBuffer_new = Some b
    /\ mwString_get (mwGetBuffer_wrap (Some (mwPutBuffer_finalize b))) = Some (Some [65; 65], g)
    /\ mwGetBuffer_error g = false /\ mwGetBuffer_remaining g = 65536.
Proof.
  cbv zeta. apply (mwString_put_wraps (replicate (Z.to_nat 65538) 65) 2).
  - by apply Forall_replicate.
  - vm_compute. reflexivity.
  - lia.
  - vm_compute. discriminate.
Defined.
