(* ===== verification/Message.v ===== *)
(** * Messages (src/src/message.c, mw_message.h)

    The message header, the fifteen message types, and [mwMessage_new],
    [mwMessage_get], [mwMessage_put] and the clearing done by
    [mwMessage_free].  A message is its header and a body; the C code casts
    the message to the structure its header's type names. *)

From S2P Require Import Prelude Buffer Common.
#[local] Open Scope mw_scope.

(** ** Types and options *)

Inductive mwMessageType :=
  | mwMessage_HANDSHAKE | mwMessage_HANDSHAKE_ACK | mwMessage_LOGIN | mwMessage_LOGIN_ACK
  | mwMessage_LOGIN_REDIRECT | mwMessage_LOGIN_CONTINUE
  | mwMessage_CHANNEL_CREATE | mwMessage_CHANNEL_DESTROY | mwMessage_CHANNEL_SEND
  | mwMessage_CHANNEL_ACCEPT
  | mwMessage_SET_USER_STATUS | mwMessage_SET_PRIVACY_LIST | mwMessage_SENSE_SERVICE
  | mwMessage_ADMIN | mwMessage_ANNOUNCE.

#[export] Instance mwMessageType_eq_dec : EqDecision mwMessageType.
Proof. solve_decision. Defined.

Definition mwMessageType_code (t : mwMessageType) : Z :=
  match t with
  | mwMessage_HANDSHAKE => 0x0000
  | mwMessage_HANDSHAKE_ACK => 0x8000
  | mwMessage_LOGIN => 0x0001
  | mwMessage_LOGIN_ACK => 0x8001
  | mwMessage_LOGIN_REDIRECT => 0x0018
  | mwMessage_LOGIN_CONTINUE => 0x0016
  | mwMessage_CHANNEL_CREATE => 0x0002
  | mwMessage_CHANNEL_DESTROY => 0x0003
  | mwMessage_CHANNEL_SEND => 0x0004
  | mwMessage_CHANNEL_ACCEPT => 0x0006
  | mwMessage_SET_USER_STATUS => 0x0009
  | mwMessage_SET_PRIVACY_LIST => 0x000b
  | mwMessage_SENSE_SERVICE => 0x0011
  | mwMessage_ADMIN => 0x0019
  | mwMessage_ANNOUNCE => 0x0022
  end.

Definition all_types : list mwMessageType :=
  [mwMessage_HANDSHAKE; mwMessage_HANDSHAKE_ACK; mwMessage_LOGIN; mwMessage_LOGIN_ACK;
   mwMessage_LOGIN_REDIRECT; mwMessage_LOGIN_CONTINUE; mwMessage_CHANNEL_CREATE;
   mwMessage_CHANNEL_DESTROY; mwMessage_CHANNEL_SEND; mwMessage_CHANNEL_ACCEPT;
   mwMessage_SET_USER_STATUS; mwMessage_SET_PRIVACY_LIST; mwMessage_SENSE_SERVICE;
   mwMessage_ADMIN; mwMessage_ANNOUNCE].

(** The [switch] on a type code. *)
Definition mwMessageType_of (z : Z) : option mwMessageType :=
  list_find (fun t => mwMessageType_code t = z) all_types ≫= fun p => Some p.2.

Definition mwMessageOption_ENCRYPT : Z := 0x4000.
Definition mwMessageOption_HAS_ATTRIBS : Z := 0x8000.

Definition MW_MESSAGE_HAS_OPTION (options opt : Z) : bool := negb (Z.land options opt =? 0).

(** ** Structures *)

Record mwMessageHead := {
  mh_type : Z;
  mh_options : Z;
  mh_channel : Z;
  mh_attribs : mwOpaque
}.

Definition mh_zero : mwMessageHead :=
  {| mh_type := 0; mh_options := 0; mh_channel := 0; mh_attribs := opaque_zero |}.

Record mwMsgHandshake := {
  hs_major : Z; hs_minor : Z; hs_srvrcalc_addr : Z; hs_login_type : Z; hs_loclcalc_addr : Z;
  hs_unknown_a : Z; hs_unknown_b : Z; hs_local_host : mwString
}.

Record mwMsgHandshakeAck := {
  ha_major : Z; ha_minor : Z; ha_srvrcalc_addr : Z; ha_magic : Z; ha_data : mwOpaque
}.

Record mwMsgLogin := {
  lg_login_type : Z; lg_name : mwString; lg_auth_type : Z; lg_auth_data : mwOpaque
}.

Record mwMsgLoginAck := {
  la_login : mwLoginInfo; la_privacy : mwPrivacyInfo; la_status : mwUserStatus
}.

Record mwMsgLoginRedirect := { lr_host : mwString; lr_server_id : mwString }.

(** The list [items] is NULL when empty. *)
Record mwEncryptOffer := {
  eo_mode : Z; eo_items : list mwEncryptItem; eo_extra : Z; eo_flag : bool
}.

Record mwMsgChannelCreate := {
  cc_reserved : Z; cc_channel : Z; cc_target : mwIdBlock; cc_service : Z;
  cc_proto_type : Z; cc_proto_ver : Z; cc_options : Z; cc_addtl : mwOpaque;
  cc_creator_flag : bool; cc_creator : mwLoginInfo; cc_encrypt : mwEncryptOffer
}.

Record mwEncryptAccept := {
  ea_mode : Z; ea_item : option mwEncryptItem; ea_extra : Z; ea_flag : bool
}.

Record mwMsgChannelAccept := {
  ca_service : Z; ca_proto_type : Z; ca_proto_ver : Z; ca_addtl : mwOpaque;
  ca_acceptor_flag : bool; ca_acceptor : mwLoginInfo; ca_encrypt : mwEncryptAccept
}.

Record mwMsgChannelSend := { cs_type : Z; cs_data : mwOpaque }.

Record mwMsgChannelDestroy := { cd_reason : Z; cd_data : mwOpaque }.

Record mwMsgSetUserStatus := { ss_status : mwUserStatus }.

Record mwMsgSetPrivacyList := { sp_privacy : mwPrivacyInfo }.

Record mwMsgSenseService := { sn_service : Z }.

Record mwMsgAdmin := { ad_text : mwString }.

Record mwMsgAnnounce := {
  an_sender_present : bool; an_sender : mwLoginInfo; an_unknown_a : Z;
  an_may_reply : bool; an_text : mwString; an_recipients : list mwString
}.

Inductive mwMsgBody :=
  | HANDSHAKE (m : mwMsgHandshake)
  | HANDSHAKE_ACK (m : mwMsgHandshakeAck)
  | LOGIN (m : mwMsgLogin)
  | LOGIN_ACK (m : mwMsgLoginAck)
  | LOGIN_REDIRECT (m : mwMsgLoginRedirect)
  | LOGIN_CONTINUE
  | CHANNEL_CREATE (m : mwMsgChannelCreate)
  | CHANNEL_DESTROY (m : mwMsgChannelDestroy)
  | CHANNEL_SEND (m : mwMsgChannelSend)
  | CHANNEL_ACCEPT (m : mwMsgChannelAccept)
  | SET_USER_STATUS (m : mwMsgSetUserStatus)
  | SET_PRIVACY_LIST (m : mwMsgSetPrivacyList)
  | SENSE_SERVICE (m : mwMsgSenseService)
  | ADMIN (m : mwMsgAdmin)
  | ANNOUNCE (m : mwMsgAnnounce).

Record mwMessage := { msg_head : mwMessageHead; msg_body : mwMsgBody }.

(** The structure a body is. *)
Definition body_type (m : mwMsgBody) : mwMessageType :=
  match m with
  | HANDSHAKE _ => mwMessage_HANDSHAKE
  | HANDSHAKE_ACK _ => mwMessage_HANDSHAKE_ACK
  | LOGIN _ => mwMessage_LOGIN
  | LOGIN_ACK _ => mwMessage_LOGIN_ACK
  | LOGIN_REDIRECT _ => mwMessage_LOGIN_REDIRECT
  | LOGIN_CONTINUE => mwMessage_LOGIN_CONTINUE
  | CHANNEL_CREATE _ => mwMessage_CHANNEL_CREATE
  | CHANNEL_DESTROY _ => mwMessage_CHANNEL_DESTROY
  | CHANNEL_SEND _ => mwMessage_CHANNEL_SEND
  | CHANNEL_ACCEPT _ => mwMessage_CHANNEL_ACCEPT
  | SET_USER_STATUS _ => mwMessage_SET_USER_STATUS
  | SET_PRIVACY_LIST _ => mwMessage_SET_PRIVACY_LIST
  | SENSE_SERVICE _ => mwMessage_SENSE_SERVICE
  | ADMIN _ => mwMessage_ADMIN
  | ANNOUNCE _ => mwMessage_ANNOUNCE
  end.

(** ** Zeroed structures, as [g_new0] makes them *)

Definition hs_zero : mwMsgHandshake :=
  {| hs_major := 0; hs_minor := 0; hs_srvrcalc_addr := 0; hs_login_type := 0;
     hs_loclcalc_addr := 0; hs_unknown_a := 0; hs_unknown_b := 0; hs_local_host := None |}.
Definition ha_zero : mwMsgHandshakeAck :=
  {| ha_major := 0; ha_minor := 0; ha_srvrcalc_addr := 0; ha_magic := 0; ha_data := opaque_zero |}.
Definition lg_zero : mwMsgLogin :=
  {| lg_login_type := 0; lg_name := None; lg_auth_type := 0; lg_auth_data := opaque_zero |}.
Definition la_zero : mwMsgLoginAck :=
  {| la_login := li_zero; la_privacy := pi_zero; la_status := us_zero |}.
Definition lr_zero : mwMsgLoginRedirect := {| lr_host := None; lr_server_id := None |}.
Definition eo_zero : mwEncryptOffer :=
  {| eo_mode := 0; eo_items := []; eo_extra := 0; eo_flag := false |}.
Definition cc_zero : mwMsgChannelCreate :=
  {| cc_reserved := 0; cc_channel := 0; cc_target := id_zero; cc_service := 0;
     cc_proto_type := 0; cc_proto_ver := 0; cc_options := 0; cc_addtl := opaque_zero;
     cc_creator_flag := false; cc_creator := li_zero; cc_encrypt := eo_zero |}.
Definition ea_zero : mwEncryptAccept :=
  {| ea_mode := 0; ea_item := None; ea_extra := 0; ea_flag := false |}.
Definition ca_zero : mwMsgChannelAccept :=
  {| ca_service := 0; ca_proto_type := 0; ca_proto_ver := 0; ca_addtl := opaque_zero;
     ca_acceptor_flag := false; ca_acceptor := li_zero; ca_encrypt := ea_zero |}.
Definition cs_zero : mwMsgChannelSend := {| cs_type := 0; cs_data := opaque_zero |}.
Definition cd_zero : mwMsgChannelDestroy := {| cd_reason := 0; cd_data := opaque_zero |}.
Definition ss_zero : mwMsgSetUserStatus := {| ss_status := us_zero |}.
Definition sp_zero : mwMsgSetPrivacyList := {| sp_privacy := pi_zero |}.
Definition sn_zero : mwMsgSenseService := {| sn_service := 0 |}.
Definition ad_zero : mwMsgAdmin := {| ad_text := None |}.
Definition an_zero : mwMsgAnnounce :=
  {| an_sender_present := false; an_sender := li_zero; an_unknown_a := 0;
     an_may_reply := false; an_text := None; an_recipients := [] |}.

(** Values of the uninitialised locals of the getters. *)
Record Uninit := {
  u_type : Z; u_options : Z; u_channel : Z;  (* mwMessage_get: head *)
  u_junk : Z;                                (* LOGIN_ACK_get: junk *)
  u_skip : Z;                                (* enc_offer_get, enc_accept_get: skip *)
  u_count : Z                                (* enc_offer_get, ANNOUNCE_get: count *)
}.

(** ** Header *)

Definition mwMessageHead_put (msg : mwMessageHead) : Put :=
  guint16_put (mh_type msg) >>>
  guint16_put (mh_options msg) >>>
  guint32_put (mh_channel msg) >>>
  (if MW_MESSAGE_HAS_OPTION (mh_options msg) mwMessageOption_HAS_ATTRIBS
   then mwOpaque_put (Some (mh_attribs msg)) else pskip).

Definition mwMessageHead_get (msg : mwMessageHead) : Get mwMessageHead :=
  unless_error msg (
  let! type := guint16_get (mh_type msg) in
  let! options := guint16_get (mh_options msg) in
  let! channel := guint32_get (mh_channel msg) in
  if MW_MESSAGE_HAS_OPTION options mwMessageOption_HAS_ATTRIBS then
    let! attribs := mwOpaque_get in
    gret {| mh_type := type; mh_options := options; mh_channel := channel; mh_attribs := attribs |}
  else
    gret {| mh_type := type; mh_options := options; mh_channel := channel;
            mh_attribs := mh_attribs msg |}).

Definition mwMessageHead_clone (from : mwMessageHead) : option mwMessageHead :=
  attribs ← mwOpaque_clone (Some (mh_attribs from));
  Some {| mh_type := mh_type from; mh_options := mh_options from;
          mh_channel := mh_channel from; mh_attribs := attribs |}.

Definition mwMessageHead_clear (msg : mwMessageHead) : mwMessageHead :=
  {| mh_type := mh_type msg; mh_options := mh_options msg; mh_channel := mh_channel msg;
     mh_attribs := mwOpaque_clear (mh_attribs msg) |}.

(** ** Handshake *)

(** The versions that send the last three fields. *)
Definition handshake_long (major minor : Z) : bool := (0x001e <=? major) && (0x001d <=? minor).

Definition HANDSHAKE_put (head : mwMessageHead) (msg : mwMsgHandshake) : Put :=
  guint16_put (hs_major msg) >>>
  guint16_put (hs_minor msg) >>>
  guint32_put (mh_channel head) >>>
  guint32_put (hs_srvrcalc_addr msg) >>>
  guint16_put (hs_login_type msg) >>>
  guint32_put (hs_loclcalc_addr msg) >>>
  (if handshake_long (hs_major msg) (hs_minor msg) then
     guint16_put (hs_unknown_a msg) >>>
     guint32_put (hs_unknown_b msg) >>>
     mwString_put (hs_local_host msg)
   else pskip).

(** The channel read here replaces the one of the header. *)
Definition HANDSHAKE_get (head : mwMessageHead) (msg : mwMsgHandshake)
    : Get (mwMessageHead * mwMsgHandshake) :=
  unless_error (head, msg) (
  let! major := guint16_get (hs_major msg) in
  let! minor := guint16_get (hs_minor msg) in
  let! channel := guint32_get (mh_channel head) in
  let! srvrcalc_addr := guint32_get (hs_srvrcalc_addr msg) in
  let! login_type := guint16_get (hs_login_type msg) in
  let! loclcalc_addr := guint32_get (hs_loclcalc_addr msg) in
  let head := {| mh_type := mh_type head; mh_options := mh_options head;
                 mh_channel := channel; mh_attribs := mh_attribs head |} in
  if handshake_long major minor then
    let! unknown_a := guint16_get (hs_unknown_a msg) in
    let! unknown_b := guint32_get (hs_unknown_b msg) in
    let! local_host := mwString_get in
    gret (head, {| hs_major := major; hs_minor := minor; hs_srvrcalc_addr := srvrcalc_addr;
                   hs_login_type := login_type; hs_loclcalc_addr := loclcalc_addr;
                   hs_unknown_a := unknown_a; hs_unknown_b := unknown_b;
                   hs_local_host := local_host |})
  else
    gret (head, {| hs_major := major; hs_minor := minor; hs_srvrcalc_addr := srvrcalc_addr;
                   hs_login_type := login_type; hs_loclcalc_addr := loclcalc_addr;
                   hs_unknown_a := hs_unknown_a msg; hs_unknown_b := hs_unknown_b msg;
                   hs_local_host := hs_local_host msg |})).

(** "nothing to clean up" *)
Definition HANDSHAKE_clear (msg : mwMsgHandshake) : mwMsgHandshake := msg.

(** ** Handshake ack *)

Definition handshake_ack_long (major minor : Z) : bool := (0x1e <=? major) && (0x18 <? minor).

Definition HANDSHAKE_ACK_get (msg : mwMsgHandshakeAck) : Get mwMsgHandshakeAck :=
  unless_error msg (
  let! major := guint16_get (ha_major msg) in
  let! minor := guint16_get (ha_minor msg) in
  let! srvrcalc_addr := guint32_get (ha_srvrcalc_addr msg) in
  if handshake_ack_long major minor then
    let! magic := guint32_get (ha_magic msg) in
    let! data := mwOpaque_get in
    gret {| ha_major := major; ha_minor := minor; ha_srvrcalc_addr := srvrcalc_addr;
            ha_magic := magic; ha_data := data |}
  else
    gret {| ha_major := major; ha_minor := minor; ha_srvrcalc_addr := srvrcalc_addr;
            ha_magic := ha_magic msg; ha_data := ha_data msg |}).

Definition HANDSHAKE_ACK_put (msg : mwMsgHandshakeAck) : Put :=
  guint16_put (ha_major msg) >>>
  guint16_put (ha_minor msg) >>>
  guint32_put (ha_srvrcalc_addr msg) >>>
  (if handshake_ack_long (ha_major msg) (ha_minor msg) then
     guint32_put (ha_magic msg) >>>
     mwOpaque_put (Some (ha_data msg))
   else pskip).

Definition HANDSHAKE_ACK_clear (msg : mwMsgHandshakeAck) : mwMsgHandshakeAck :=
  {| ha_major := ha_major msg; ha_minor := ha_minor msg; ha_srvrcalc_addr := ha_srvrcalc_addr msg;
     ha_magic := ha_magic msg; ha_data := mwOpaque_clear (ha_data msg) |}.

(** ** Login *)

Definition LOGIN_put (msg : mwMsgLogin) : Put :=
  guint16_put (lg_login_type msg) >>>
  mwString_put (lg_name msg) >>>
  mwOpaque_put (Some (lg_auth_data msg)) >>>
  guint16_put (lg_auth_type msg) >>>
  guint16_put 0x0000.

Definition LOGIN_get (msg : mwMsgLogin) : Get mwMsgLogin :=
  unless_error msg (
  let! login_type := guint16_get (lg_login_type msg) in
  let! name := mwString_get in
  let! auth_data := mwOpaque_get in
  let! auth_type := guint16_get (lg_auth_type msg) in
  gret {| lg_login_type := login_type; lg_name := name; lg_auth_type := auth_type;
          lg_auth_data := auth_data |}).

Definition LOGIN_clear (msg : mwMsgLogin) : mwMsgLogin :=
  {| lg_login_type := lg_login_type msg; lg_name := None; lg_auth_type := lg_auth_type msg;
     lg_auth_data := mwOpaque_clear (lg_auth_data msg) |}.

Definition LOGIN_ACK_get (u : Uninit) (msg : mwMsgLoginAck) : Get mwMsgLoginAck :=
  unless_error msg (
  let! login := mwLoginInfo_get (la_login msg) in
  let! junk := guint16_get (u_junk u) in
  let! privacy := mwPrivacyInfo_get (la_privacy msg) in
  let! status := mwUserStatus_get (la_status msg) in
  gret {| la_login := login; la_privacy := privacy; la_status := status |}).

Definition LOGIN_ACK_clear (msg : mwMsgLoginAck) : mwMsgLoginAck :=
  {| la_login := mwLoginInfo_clear (la_login msg);
     la_privacy := mwPrivacyInfo_clear (la_privacy msg);
     la_status := mwUserStatus_clear (la_status msg) |}.

(** nothing but a message header *)
Definition LOGIN_CONTINUE_put : Put := pskip.
Definition LOGIN_CONTINUE_get : Get unit := gret tt.

Definition LOGIN_REDIRECT_get (msg : mwMsgLoginRedirect) : Get mwMsgLoginRedirect :=
  unless_error msg (
  let! host := mwString_get in
  let! server_id := mwString_get in
  gret {| lr_host := host; lr_server_id := server_id |}).

Definition LOGIN_REDIRECT_put (msg : mwMsgLoginRedirect) : Put :=
  mwString_put (lr_host msg) >>>
  mwString_put (lr_server_id msg).

Definition LOGIN_REDIRECT_clear (msg : mwMsgLoginRedirect) : mwMsgLoginRedirect :=
  {| lr_host := None; lr_server_id := None |}.

(** ** Channel create *)

(** [p = mwPutBuffer_new(); ...; mwPutBuffer_finalize(&o, p); mwOpaque_put(b, &o);] *)
Definition put_nested (m : Put) : Put := fun b =>
  p ← m mwPutBuffer_new; mwOpaque_put (Some (mwPutBuffer_finalize p)) b.

Fixpoint put_items (items : list mwEncryptItem) : Put :=
  match items with
  | [] => pskip
  | ei :: items => mwEncryptItem_put ei >>> put_items items
  end.

Definition enc_offer_put (enc : mwEncryptOffer) : Put :=
  guint16_put (eo_mode enc) >>>
  (match eo_items enc with
   | [] => pskip
   | items =>
       put_nested (
         guint32_put (u32 (zlen items)) >>>
         put_items items >>>
         guint16_put (eo_extra enc) >>>
         gboolean_put (eo_flag enc))
   end).

Definition CHANNEL_CREATE_put (msg : mwMsgChannelCreate) : Put :=
  guint32_put (cc_reserved msg) >>>
  guint32_put (cc_channel msg) >>>
  mwIdBlock_put (cc_target msg) >>>
  guint32_put (cc_service msg) >>>
  guint32_put (cc_proto_type msg) >>>
  guint32_put (cc_proto_ver msg) >>>
  guint32_put (cc_options msg) >>>
  mwOpaque_put (Some (cc_addtl msg)) >>>
  gboolean_put (cc_creator_flag msg) >>>
  (if cc_creator_flag msg then mwLoginInfo_put (cc_creator msg) else pskip) >>>
  enc_offer_put (cc_encrypt msg) >>>
  guint32_put 0x00 >>>
  guint32_put 0x00 >>>
  guint16_put 0x07.

(** [while(count-- && (! mwGetBuffer_error(b)))] *)
Fixpoint get_items (count : nat) (items : list mwEncryptItem) : Get (list mwEncryptItem) :=
  match count with
  | O => gret items
  | S count => fun b =>
      if mwGetBuffer_error b then Some (items, b) else
      (let! ei := mwEncryptItem_get ei_zero in get_items count (items ++ [ei])) b
  end.

Definition enc_offer_get (u : Uninit) (enc : mwEncryptOffer) : Get mwEncryptOffer :=
  unless_error enc (
  let! mode := guint16_get (eo_mode enc) in
  let! skip := guint32_get (u_skip u) in
  if 7 <=? skip then
    let! count := guint32_get (u_count u) in
    let! items := get_items (Z.to_nat count) (eo_items enc) in
    let! extra := guint16_get (eo_extra enc) in
    let! flag := gboolean_get (eo_flag enc) in
    gret {| eo_mode := mode; eo_items := items; eo_extra := extra; eo_flag := flag |}
  else
    gret {| eo_mode := mode; eo_items := eo_items enc; eo_extra := eo_extra enc;
            eo_flag := eo_flag enc |}).

Definition CHANNEL_CREATE_get (u : Uninit) (msg : mwMsgChannelCreate) : Get mwMsgChannelCreate :=
  unless_error msg (
  let! reserved := guint32_get (cc_reserved msg) in
  let! channel := guint32_get (cc_channel msg) in
  let! target := mwIdBlock_get (cc_target msg) in
  let! service := guint32_get (cc_service msg) in
  let! proto_type := guint32_get (cc_proto_type msg) in
  let! proto_ver := guint32_get (cc_proto_ver msg) in
  let! options := guint32_get (cc_options msg) in
  let! addtl := mwOpaque_get in
  let! creator_flag := gboolean_get (cc_creator_flag msg) in
  let! creator := (if creator_flag then mwLoginInfo_get (cc_creator msg) else gret (cc_creator msg)) in
  let! encrypt := enc_offer_get u (cc_encrypt msg) in
  gret {| cc_reserved := reserved; cc_channel := channel; cc_target := target;
          cc_service := service; cc_proto_type := proto_type; cc_proto_ver := proto_ver;
          cc_options := options; cc_addtl := addtl; cc_creator_flag := creator_flag;
          cc_creator := creator; cc_encrypt := encrypt |}).

(** The list of items is freed; its pointer is not reset. *)
Definition CHANNEL_CREATE_clear (msg : mwMsgChannelCreate) : mwMsgChannelCreate :=
  {| cc_reserved := cc_reserved msg; cc_channel := cc_channel msg;
     cc_target := mwIdBlock_clear (cc_target msg); cc_service := cc_service msg;
     cc_proto_type := cc_proto_type msg; cc_proto_ver := cc_proto_ver msg;
     cc_options := cc_options msg; cc_addtl := mwOpaque_clear (cc_addtl msg);
     cc_creator_flag := cc_creator_flag msg; cc_creator := mwLoginInfo_clear (cc_creator msg);
     cc_encrypt := {| eo_mode := eo_mode (cc_encrypt msg); eo_items := [];
                      eo_extra := eo_extra (cc_encrypt msg); eo_flag := eo_flag (cc_encrypt msg) |} |}.

(** ** Channel accept *)

Definition enc_accept_put (enc : mwEncryptAccept) : Put :=
  guint16_put (ea_mode enc) >>>
  (match ea_item enc with
   | None => pskip
   | Some item =>
       put_nested (
         mwEncryptItem_put item >>>
         guint16_put (ea_extra enc) >>>
         gboolean_put (ea_flag enc))
   end).

Definition CHANNEL_ACCEPT_put (msg : mwMsgChannelAccept) : Put :=
  guint32_put (ca_service msg) >>>
  guint32_put (ca_proto_type msg) >>>
  guint32_put (ca_proto_ver msg) >>>
  mwOpaque_put (Some (ca_addtl msg)) >>>
  gboolean_put (ca_acceptor_flag msg) >>>
  (if ca_acceptor_flag msg then mwLoginInfo_put (ca_acceptor msg) else pskip) >>>
  enc_accept_put (ca_encrypt msg) >>>
  guint32_put 0x00 >>>
  guint32_put 0x00 >>>
  guint16_put 0x07.

Definition enc_accept_get (u : Uninit) (enc : mwEncryptAccept) : Get mwEncryptAccept :=
  unless_error enc (
  let! mode := guint16_get (ea_mode enc) in
  let! skip := guint32_get (u_skip u) in
  let! item :=
    (if 6 <=? skip then
       let! item := mwEncryptItem_get ei_zero in gret (Some item)
     else gret (ea_item enc)) in
  if 9 <=? skip then
    let! extra := guint16_get (ea_extra enc) in
    let! flag := gboolean_get (ea_flag enc) in
    gret {| ea_mode := mode; ea_item := item; ea_extra := extra; ea_flag := flag |}
  else
    gret {| ea_mode := mode; ea_item := item; ea_extra := ea_extra enc; ea_flag := ea_flag enc |}).

Definition CHANNEL_ACCEPT_get (u : Uninit) (msg : mwMsgChannelAccept) : Get mwMsgChannelAccept :=
  unless_error msg (
  let! service := guint32_get (ca_service msg) in
  let! proto_type := guint32_get (ca_proto_type msg) in
  let! proto_ver := guint32_get (ca_proto_ver msg) in
  let! addtl := mwOpaque_get in
  let! acceptor_flag := gboolean_get (ca_acceptor_flag msg) in
  let! acceptor := (if acceptor_flag then mwLoginInfo_get (ca_acceptor msg)
                    else gret (ca_acceptor msg)) in
  let! encrypt := enc_accept_get u (ca_encrypt msg) in
  gret {| ca_service := service; ca_proto_type := proto_type; ca_proto_ver := proto_ver;
          ca_addtl := addtl; ca_acceptor_flag := acceptor_flag; ca_acceptor := acceptor;
          ca_encrypt := encrypt |}).

Definition CHANNEL_ACCEPT_clear (msg : mwMsgChannelAccept) : mwMsgChannelAccept :=
  {| ca_service := ca_service msg; ca_proto_type := ca_proto_type msg;
     ca_proto_ver := ca_proto_ver msg; ca_addtl := mwOpaque_clear (ca_addtl msg);
     ca_acceptor_flag := ca_acceptor_flag msg; ca_acceptor := mwLoginInfo_clear (ca_acceptor msg);
     ca_encrypt := {| ea_mode := ea_mode (ca_encrypt msg); ea_item := None;
                      ea_extra := ea_extra (ca_encrypt msg);
                      ea_flag := ea_flag (ca_encrypt msg) |} |}.

(** ** Channel send and destroy *)

Definition CHANNEL_SEND_put (msg : mwMsgChannelSend) : Put :=
  guint16_put (cs_type msg) >>>
  mwOpaque_put (Some (cs_data msg)).

Definition CHANNEL_SEND_get (msg : mwMsgChannelSend) : Get mwMsgChannelSend :=
  unless_error msg (
  let! type := guint16_get (cs_type msg) in
  let! data := mwOpaque_get in
  gret {| cs_type := type; cs_data := data |}).

Definition CHANNEL_SEND_clear (msg : mwMsgChannelSend) : mwMsgChannelSend :=
  {| cs_type := cs_type msg; cs_data := mwOpaque_clear (cs_data msg) |}.

Definition CHANNEL_DESTROY_put (msg : mwMsgChannelDestroy) : Put :=
  guint32_put (cd_reason msg) >>>
  mwOpaque_put (Some (cd_data msg)).

Definition CHANNEL_DESTROY_get (msg : mwMsgChannelDestroy) : Get mwMsgChannelDestroy :=
  unless_error msg (
  let! reason := guint32_get (cd_reason msg) in
  let! data := mwOpaque_get in
  gret {| cd_reason := reason; cd_data := data |}).

Definition CHANNEL_DESTROY_clear (msg : mwMsgChannelDestroy) : mwMsgChannelDestroy :=
  {| cd_reason := cd_reason msg; cd_data := mwOpaque_clear (cd_data msg) |}.

(** ** Status, privacy, sense service, admin *)

Definition SET_USER_STATUS_put (msg : mwMsgSetUserStatus) : Put := mwUserStatus_put (ss_status msg).

Definition SET_USER_STATUS_get (msg : mwMsgSetUserStatus) : Get mwMsgSetUserStatus :=
  unless_error msg (
  let! status := mwUserStatus_get (ss_status msg) in
  gret {| ss_status := status |}).

Definition SET_USER_STATUS_clear (msg : mwMsgSetUserStatus) : mwMsgSetUserStatus :=
  {| ss_status := mwUserStatus_clear (ss_status msg) |}.

Definition SET_PRIVACY_LIST_put (msg : mwMsgSetPrivacyList) : Put :=
  mwPrivacyInfo_put (sp_privacy msg).

Definition SET_PRIVACY_LIST_get (msg : mwMsgSetPrivacyList) : Get mwMsgSetPrivacyList :=
  unless_error msg (
  let! privacy := mwPrivacyInfo_get (sp_privacy msg) in
  gret {| sp_privacy := privacy |}).

Definition SET_PRIVACY_LIST_clear (msg : mwMsgSetPrivacyList) : mwMsgSetPrivacyList :=
  {| sp_privacy := mwPrivacyInfo_clear (sp_privacy msg) |}.

Definition SENSE_SERVICE_put (msg : mwMsgSenseService) : Put := guint32_put (sn_service msg).

Definition SENSE_SERVICE_get (msg : mwMsgSenseService) : Get mwMsgSenseService :=
  unless_error msg (
  let! service := guint32_get (sn_service msg) in
  gret {| sn_service := service |}).

Definition ADMIN_get (msg : mwMsgAdmin) : Get mwMsgAdmin :=
  let! text := mwString_get in
  gret {| ad_text := text |}.

Definition ADMIN_clear (msg : mwMsgAdmin) : mwMsgAdmin := {| ad_text := None |}.

(** ** Announce *)

(** [mwOpaque_get(b, &o); gb = mwGetBuffer_wrap(&o); ...; mwGetBuffer_free(gb);]
    The error flag of [gb] is dropped. *)
Definition get_nested {A} (m : Get A) : Get A := fun b =>
  match mwOpaque_get b with
  | Some (o, b) =>
      match m (mwGetBuffer_wrap (Some o)) with
      | Some (a, _) => Some (a, b)
      | None => None
      end
  | None => None
  end.

(** [while(count--)], each string prepended. *)
Fixpoint get_recipients (count : nat) (recipients : list mwString) : Get (list mwString) :=
  match count with
  | O => gret recipients
  | S count => let! r := mwString_get in get_recipients count (r :: recipients)
  end.

Definition ANNOUNCE_get (u : Uninit) (msg : mwMsgAnnounce) : Get mwMsgAnnounce :=
  let! sender_present := gboolean_get (an_sender_present msg) in
  let! sender := (if sender_present then mwLoginInfo_get (an_sender msg)
                  else gret (an_sender msg)) in
  let! unknown_a := guint16_get (an_unknown_a msg) in
  let! body := get_nested (
    let! may_reply := gboolean_get (an_may_reply msg) in
    let! text := mwString_get in
    gret (may_reply, text)) in
  let! count := guint32_get (u_count u) in
  let! recipients := get_recipients (Z.to_nat count) (an_recipients msg) in
  gret {| an_sender_present := sender_present; an_sender := sender; an_unknown_a := unknown_a;
          an_may_reply := body.1; an_text := body.2; an_recipients := recipients |}.

Fixpoint put_recipients (l : list mwString) : Put :=
  match l with
  | [] => pskip
  | r :: l => mwString_put r >>> put_recipients l
  end.

Definition ANNOUNCE_put (msg : mwMsgAnnounce) : Put :=
  gboolean_put (an_sender_present msg) >>>
  (if an_sender_present msg then mwLoginInfo_put (an_sender msg) else pskip) >>>
  guint16_put (an_unknown_a msg) >>>
  put_nested (
    gboolean_put (an_may_reply msg) >>>
    mwString_put (an_text msg)) >>>
  guint32_put (u32 (zlen (an_recipients msg))) >>>
  put_recipients (an_recipients msg).

Definition ANNOUNCE_clear (msg : mwMsgAnnounce) : mwMsgAnnounce :=
  {| an_sender_present := an_sender_present msg; an_sender := mwLoginInfo_clear (an_sender msg);
     an_unknown_a := an_unknown_a msg; an_may_reply := an_may_reply msg;
     an_text := None; an_recipients := [] |}.

(** ** General functions *)

Definition body_new (t : mwMessageType) : mwMsgBody :=
  match t with
  | mwMessage_HANDSHAKE => HANDSHAKE hs_zero
  | mwMessage_HANDSHAKE_ACK => HANDSHAKE_ACK ha_zero
  | mwMessage_LOGIN => LOGIN lg_zero
  | mwMessage_LOGIN_REDIRECT => LOGIN_REDIRECT lr_zero
  | mwMessage_LOGIN_CONTINUE => LOGIN_CONTINUE
  | mwMessage_LOGIN_ACK => LOGIN_ACK la_zero
  | mwMessage_CHANNEL_CREATE => CHANNEL_CREATE cc_zero
  | mwMessage_CHANNEL_DESTROY => CHANNEL_DESTROY cd_zero
  | mwMessage_CHANNEL_SEND => CHANNEL_SEND cs_zero
  | mwMessage_CHANNEL_ACCEPT => CHANNEL_ACCEPT ca_zero
  | mwMessage_SET_USER_STATUS => SET_USER_STATUS ss_zero
  | mwMessage_SET_PRIVACY_LIST => SET_PRIVACY_LIST sp_zero
  | mwMessage_SENSE_SERVICE => SENSE_SERVICE sn_zero
  | mwMessage_ADMIN => ADMIN ad_zero
  | mwMessage_ANNOUNCE => ANNOUNCE an_zero
  end.

(** [None] is the NULL returned for an unknown type. *)
Definition mwMessage_new (type : Z) : option mwMessage :=
  t ← mwMessageType_of type;
  Some {| msg_head := {| mh_type := type; mh_options := 0; mh_channel := 0;
                         mh_attribs := opaque_zero |};
          msg_body := body_new t |}.

Definition body_get (u : Uninit) (head : mwMessageHead) (t : mwMessageType)
    : Get (mwMessageHead * mwMsgBody) :=
  match t with
  | mwMessage_HANDSHAKE =>
      let! m := HANDSHAKE_get head hs_zero in gret (m.1, HANDSHAKE m.2)
  | mwMessage_HANDSHAKE_ACK =>
      let! m := HANDSHAKE_ACK_get ha_zero in gret (head, HANDSHAKE_ACK m)
  | mwMessage_LOGIN => let! m := LOGIN_get lg_zero in gret (head, LOGIN m)
  | mwMessage_LOGIN_REDIRECT =>
      let! m := LOGIN_REDIRECT_get lr_zero in gret (head, LOGIN_REDIRECT m)
  | mwMessage_LOGIN_CONTINUE =>
      let! m := LOGIN_CONTINUE_get in gret (head, LOGIN_CONTINUE)
  | mwMessage_LOGIN_ACK => let! m := LOGIN_ACK_get u la_zero in gret (head, LOGIN_ACK m)
  | mwMessage_CHANNEL_CREATE =>
      let! m := CHANNEL_CREATE_get u cc_zero in gret (head, CHANNEL_CREATE m)
  | mwMessage_CHANNEL_DESTROY =>
      let! m := CHANNEL_DESTROY_get cd_zero in gret (head, CHANNEL_DESTROY m)
  | mwMessage_CHANNEL_SEND =>
      let! m := CHANNEL_SEND_get cs_zero in gret (head, CHANNEL_SEND m)
  | mwMessage_CHANNEL_ACCEPT =>
      let! m := CHANNEL_ACCEPT_get u ca_zero in gret (head, CHANNEL_ACCEPT m)
  | mwMessage_SET_USER_STATUS =>
      let! m := SET_USER_STATUS_get ss_zero in gret (head, SET_USER_STATUS m)
  | mwMessage_SET_PRIVACY_LIST =>
      let! m := SET_PRIVACY_LIST_get sp_zero in gret (head, SET_PRIVACY_LIST m)
  | mwMessage_SENSE_SERVICE =>
      let! m := SENSE_SERVICE_get sn_zero in gret (head, SENSE_SERVICE m)
  | mwMessage_ADMIN => let! m := ADMIN_get ad_zero in gret (head, ADMIN m)
  | mwMessage_ANNOUNCE => let! m := ANNOUNCE_get u an_zero in gret (head, ANNOUNCE m)
  end.

(** [None] inside is the NULL returned for a bad header or an unknown type. *)
Definition mwMessage_get (u : Uninit) : Get (option mwMessage) :=
  let! head := mwMessageHead_get {| mh_type := u_type u; mh_options := u_options u;
                                    mh_channel := u_channel u; mh_attribs := opaque_zero |} in
  fun b =>
    if mwGetBuffer_error b then Some (None, b) else
    match mwMessageType_of (mh_type head) with
    | None => Some (None, b)
    | Some t =>
        match mwMessageHead_clone head with
        | None => None
        | Some head =>
            (let! m := body_get u head t in
             gret (Some {| msg_head := m.1; msg_body := m.2 |})) b
        end
    end.

(** A message cast to a structure it is not is [pfail]. *)
Definition body_put (head : mwMessageHead) (t : mwMessageType) (body : mwMsgBody) : Put :=
  match t, body with
  | mwMessage_HANDSHAKE, HANDSHAKE m => HANDSHAKE_put head m
  | mwMessage_HANDSHAKE_ACK, HANDSHAKE_ACK m => HANDSHAKE_ACK_put m
  | mwMessage_LOGIN, LOGIN m => LOGIN_put m
  | mwMessage_LOGIN_REDIRECT, LOGIN_REDIRECT m => LOGIN_REDIRECT_put m
  | mwMessage_LOGIN_CONTINUE, LOGIN_CONTINUE => LOGIN_CONTINUE_put
  | mwMessage_CHANNEL_CREATE, CHANNEL_CREATE m => CHANNEL_CREATE_put m
  | mwMessage_CHANNEL_DESTROY, CHANNEL_DESTROY m => CHANNEL_DESTROY_put m
  | mwMessage_CHANNEL_SEND, CHANNEL_SEND m => CHANNEL_SEND_put m
  | mwMessage_CHANNEL_ACCEPT, CHANNEL_ACCEPT m => CHANNEL_ACCEPT_put m
  | mwMessage_SET_USER_STATUS, SET_USER_STATUS m => SET_USER_STATUS_put m
  | mwMessage_SET_PRIVACY_LIST, SET_PRIVACY_LIST m => SET_PRIVACY_LIST_put m
  | mwMessage_SENSE_SERVICE, SENSE_SERVICE m => SENSE_SERVICE_put m
  | mwMessage_ANNOUNCE, ANNOUNCE m => ANNOUNCE_put m
  | (mwMessage_LOGIN_ACK | mwMessage_ADMIN), _ => pskip
  | _, _ => pfail
  end.

Definition mwMessage_put (msg : mwMessage) : Put :=
  mwMessageHead_put (msg_head msg) >>>
  (match mwMessageType_of (mh_type (msg_head msg)) with
   | Some t => body_put (msg_head msg) t (msg_body msg)
   | None => pskip
   end).

(** What [mwMessage_free] clears before it frees the message itself; the
    switch is on the header's type. *)
Definition body_clear (t : mwMessageType) (body : mwMsgBody) : mwMsgBody :=
  match t, body with
  | mwMessage_HANDSHAKE, HANDSHAKE m => HANDSHAKE (HANDSHAKE_clear m)
  | mwMessage_HANDSHAKE_ACK, HANDSHAKE_ACK m => HANDSHAKE_ACK (HANDSHAKE_ACK_clear m)
  | mwMessage_LOGIN, LOGIN m => LOGIN (LOGIN_clear m)
  | mwMessage_LOGIN_REDIRECT, LOGIN_REDIRECT m => LOGIN_REDIRECT (LOGIN_REDIRECT_clear m)
  | mwMessage_LOGIN_ACK, LOGIN_ACK m => LOGIN_ACK (LOGIN_ACK_clear m)
  | mwMessage_CHANNEL_CREATE, CHANNEL_CREATE m => CHANNEL_CREATE (CHANNEL_CREATE_clear m)
  | mwMessage_CHANNEL_DESTROY, CHANNEL_DESTROY m => CHANNEL_DESTROY (CHANNEL_DESTROY_clear m)
  | mwMessage_CHANNEL_SEND, CHANNEL_SEND m => CHANNEL_SEND (CHANNEL_SEND_clear m)
  | mwMessage_CHANNEL_ACCEPT, CHANNEL_ACCEPT m => CHANNEL_ACCEPT (CHANNEL_ACCEPT_clear m)
  | mwMessage_SET_USER_STATUS, SET_USER_STATUS m => SET_USER_STATUS (SET_USER_STATUS_clear m)
  | mwMessage_SET_PRIVACY_LIST, SET_PRIVACY_LIST m => SET_PRIVACY_LIST (SET_PRIVACY_LIST_clear m)
  | mwMessage_ADMIN, ADMIN m => ADMIN (ADMIN_clear m)
  | mwMessage_ANNOUNCE, ANNOUNCE m => ANNOUNCE (ANNOUNCE_clear m)
  | _, body => body
  end.

Definition mwMessage_free_clear (msg : mwMessage) : mwMessage :=
  {| msg_head := mwMessageHead_clear (msg_head msg);
     msg_body := match mwMessageType_of (mh_type (msg_head msg)) with
                 | Some t => body_clear t (msg_body msg)
                 | None => msg_body msg
                 end |}.

(** * Wire formats *)

Definition has_attribs (h : mwMessageHead) : bool :=
  MW_MESSAGE_HAS_OPTION (mh_options h) mwMessageOption_HAS_ATTRIBS.

Definition head_enc (h : mwMessageHead) : list Z :=
  MW16_PUT (mh_type h) ++ MW16_PUT (mh_options h) ++ MW32_PUT (mh_channel h) ++
  (if has_attribs h then mwOpaque_enc (mh_attribs h) else []).

Definition head_ok (h : mwMessageHead) : Prop :=
  is_u16 (mh_type h) /\ is_u16 (mh_options h) /\ is_u32 (mh_channel h) /\
  (has_attribs h = true -> mwOpaque_ok (mh_attribs h)).

Definition head_norm (h : mwMessageHead) : mwMessageHead :=
  {| mh_type := mh_type h; mh_options := mh_options h; mh_channel := mh_channel h;
     mh_attribs := if has_attribs h then mwOpaque_norm (mh_attribs h) else opaque_zero |}.

Definition handshake_enc (h : mwMessageHead) (v : mwMsgHandshake) : list Z :=
  MW16_PUT (hs_major v) ++ MW16_PUT (hs_minor v) ++ MW32_PUT (mh_channel h) ++
  MW32_PUT (hs_srvrcalc_addr v) ++ MW16_PUT (hs_login_type v) ++ MW32_PUT (hs_loclcalc_addr v) ++
  (if handshake_long (hs_major v) (hs_minor v)
   then MW16_PUT (hs_unknown_a v) ++ MW32_PUT (hs_unknown_b v) ++ mwString_enc (hs_local_host v)
   else []).

Definition handshake_ok (v : mwMsgHandshake) : Prop :=
  is_u16 (hs_major v) /\ is_u16 (hs_minor v) /\ is_u32 (hs_srvrcalc_addr v) /\
  is_u16 (hs_login_type v) /\ is_u32 (hs_loclcalc_addr v) /\
  (handshake_long (hs_major v) (hs_minor v) = true ->
   is_u16 (hs_unknown_a v) /\ is_u32 (hs_unknown_b v) /\ mwString_ok (hs_local_host v)).

Definition handshake_norm (v : mwMsgHandshake) : mwMsgHandshake :=
  let long := handshake_long (hs_major v) (hs_minor v) in
  {| hs_major := hs_major v; hs_minor := hs_minor v; hs_srvrcalc_addr := hs_srvrcalc_addr v;
     hs_login_type := hs_login_type v; hs_loclcalc_addr := hs_loclcalc_addr v;
     hs_unknown_a := if long then hs_unknown_a v else 0;
     hs_unknown_b := if long then hs_unknown_b v else 0;
     hs_local_host := if long then mwString_norm (hs_local_host v) else None |}.

Definition handshake_ack_enc (v : mwMsgHandshakeAck) : list Z :=
  MW16_PUT (ha_major v) ++ MW16_PUT (ha_minor v) ++ MW32_PUT (ha_srvrcalc_addr v) ++
  (if handshake_ack_long (ha_major v) (ha_minor v)
   then MW32_PUT (ha_magic v) ++ mwOpaque_enc (ha_data v) else []).

Definition handshake_ack_ok (v : mwMsgHandshakeAck) : Prop :=
  is_u16 (ha_major v) /\ is_u16 (ha_minor v) /\ is_u32 (ha_srvrcalc_addr v) /\
  (handshake_ack_long (ha_major v) (ha_minor v) = true ->
   is_u32 (ha_magic v) /\ mwOpaque_ok (ha_data v)).

Definition handshake_ack_norm (v : mwMsgHandshakeAck) : mwMsgHandshakeAck :=
  let long := handshake_ack_long (ha_major v) (ha_minor v) in
  {| ha_major := ha_major v; ha_minor := ha_minor v; ha_srvrcalc_addr := ha_srvrcalc_addr v;
     ha_magic := if long then ha_magic v else 0;
     ha_data := if long then mwOpaque_norm (ha_data v) else opaque_zero |}.

Definition login_enc (v : mwMsgLogin) : list Z :=
  MW16_PUT (lg_login_type v) ++ mwString_enc (lg_name v) ++ mwOpaque_enc (lg_auth_data v) ++
  MW16_PUT (lg_auth_type v).

Definition login_ok (v : mwMsgLogin) : Prop :=
  is_u16 (lg_login_type v) /\ mwString_ok (lg_name v) /\ mwOpaque_ok (lg_auth_data v) /\
  is_u16 (lg_auth_type v).

Definition login_norm (v : mwMsgLogin) : mwMsgLogin :=
  {| lg_login_type := lg_login_type v; lg_name := mwString_norm (lg_name v);
     lg_auth_type := lg_auth_type v; lg_auth_data := mwOpaque_norm (lg_auth_data v) |}.

Definition login_redirect_enc (v : mwMsgLoginRedirect) : list Z :=
  mwString_enc (lr_host v) ++ mwString_enc (lr_server_id v).

Definition login_redirect_ok (v : mwMsgLoginRedirect) : Prop :=
  mwString_ok (lr_host v) /\ mwString_ok (lr_server_id v).

Definition login_redirect_norm (v : mwMsgLoginRedirect) : mwMsgLoginRedirect :=
  {| lr_host := mwString_norm (lr_host v); lr_server_id := mwString_norm (lr_server_id v) |}.

(** A length-prefixed block of its own. *)
Definition nested_enc (e : list Z) : list Z := MW32_PUT (u32 (zlen e)) ++ e.

Definition items_enc (items : list mwEncryptItem) : list Z := mjoin (mwEncryptItem_enc <$> items).

Definition offer_block (v : mwEncryptOffer) : list Z :=
  MW32_PUT (u32 (zlen (eo_items v))) ++ items_enc (eo_items v) ++
  MW16_PUT (eo_extra v) ++ [Z.b2z (eo_flag v)].

(** What is read of an offer; without items the length read is the first of
    the zero words that close a channel create message. *)
Definition enc_offer_read (v : mwEncryptOffer) : list Z :=
  MW16_PUT (eo_mode v) ++
  (if decide (eo_items v = []) then MW32_PUT 0 else nested_enc (offer_block v)).

Definition enc_offer_ok (v : mwEncryptOffer) : Prop :=
  is_u16 (eo_mode v) /\ is_u16 (eo_extra v) /\ Forall mwEncryptItem_ok (eo_items v) /\
  is_u32 (zlen (offer_block v)).

Definition enc_offer_norm (v : mwEncryptOffer) : mwEncryptOffer :=
  if decide (eo_items v = []) then
    {| eo_mode := eo_mode v; eo_items := []; eo_extra := 0; eo_flag := false |}
  else {| eo_mode := eo_mode v; eo_items := mwEncryptItem_norm <$> eo_items v;
          eo_extra := eo_extra v; eo_flag := eo_flag v |}.

Definition channel_create_enc (v : mwMsgChannelCreate) : list Z :=
  MW32_PUT (cc_reserved v) ++ MW32_PUT (cc_channel v) ++ mwIdBlock_enc (cc_target v) ++
  MW32_PUT (cc_service v) ++ MW32_PUT (cc_proto_type v) ++ MW32_PUT (cc_proto_ver v) ++
  MW32_PUT (cc_options v) ++ mwOpaque_enc (cc_addtl v) ++ [Z.b2z (cc_creator_flag v)] ++
  (if cc_creator_flag v then mwLoginInfo_enc (cc_creator v) else []) ++
  enc_offer_read (cc_encrypt v).

Definition channel_create_ok (v : mwMsgChannelCreate) : Prop :=
  is_u32 (cc_reserved v) /\ is_u32 (cc_channel v) /\ mwIdBlock_ok (cc_target v) /\
  is_u32 (cc_service v) /\ is_u32 (cc_proto_type v) /\ is_u32 (cc_proto_ver v) /\
  is_u32 (cc_options v) /\ mwOpaque_ok (cc_addtl v) /\
  (cc_creator_flag v = true -> mwLoginInfo_ok (cc_creator v)) /\ enc_offer_ok (cc_encrypt v).

Definition channel_create_norm (v : mwMsgChannelCreate) : mwMsgChannelCreate :=
  {| cc_reserved := cc_reserved v; cc_channel := cc_channel v;
     cc_target := mwIdBlock_norm (cc_target v); cc_service := cc_service v;
     cc_proto_type := cc_proto_type v; cc_proto_ver := cc_proto_ver v;
     cc_options := cc_options v; cc_addtl := mwOpaque_norm (cc_addtl v);
     cc_creator_flag := cc_creator_flag v;
     cc_creator := if cc_creator_flag v then mwLoginInfo_norm (cc_creator v) else li_zero;
     cc_encrypt := enc_offer_norm (cc_encrypt v) |}.

Definition accept_block (item : mwEncryptItem) (v : mwEncryptAccept) : list Z :=
  mwEncryptItem_enc item ++ MW16_PUT (ea_extra v) ++ [Z.b2z (ea_flag v)].

Definition enc_accept_read (v : mwEncryptAccept) : list Z :=
  MW16_PUT (ea_mode v) ++
  (match ea_item v with None => MW32_PUT 0 | Some item => nested_enc (accept_block item v) end).

Definition enc_accept_ok (v : mwEncryptAccept) : Prop :=
  is_u16 (ea_mode v) /\ is_u16 (ea_extra v) /\
  match ea_item v with
  | Some item => mwEncryptItem_ok item /\ is_u32 (zlen (accept_block item v))
  | None => True
  end.

Definition enc_accept_norm (v : mwEncryptAccept) : mwEncryptAccept :=
  match ea_item v with
  | None => {| ea_mode := ea_mode v; ea_item := None; ea_extra := 0; ea_flag := false |}
  | Some item => {| ea_mode := ea_mode v; ea_item := Some (mwEncryptItem_norm item);
                    ea_extra := ea_extra v; ea_flag := ea_flag v |}
  end.

Definition channel_accept_enc (v : mwMsgChannelAccept) : list Z :=
  MW32_PUT (ca_service v) ++ MW32_PUT (ca_proto_type v) ++ MW32_PUT (ca_proto_ver v) ++
  mwOpaque_enc (ca_addtl v) ++ [Z.b2z (ca_acceptor_flag v)] ++
  (if ca_acceptor_flag v then mwLoginInfo_enc (ca_acceptor v) else []) ++
  enc_accept_read (ca_encrypt v).

Definition channel_accept_ok (v : mwMsgChannelAccept) : Prop :=
  is_u32 (ca_service v) /\ is_u32 (ca_proto_type v) /\ is_u32 (ca_proto_ver v) /\
  mwOpaque_ok (ca_addtl v) /\
  (ca_acceptor_flag v = true -> mwLoginInfo_ok (ca_acceptor v)) /\ enc_accept_ok (ca_encrypt v).

Definition channel_accept_norm (v : mwMsgChannelAccept) : mwMsgChannelAccept :=
  {| ca_service := ca_service v; ca_proto_type := ca_proto_type v;
     ca_proto_ver := ca_proto_ver v; ca_addtl := mwOpaque_norm (ca_addtl v);
     ca_acceptor_flag := ca_acceptor_flag v;
     ca_acceptor := if ca_acceptor_flag v then mwLoginInfo_norm (ca_acceptor v) else li_zero;
     ca_encrypt := enc_accept_norm (ca_encrypt v) |}.

Definition announce_enc (v : mwMsgAnnounce) : list Z :=
  [Z.b2z (an_sender_present v)] ++
  (if an_sender_present v then mwLoginInfo_enc (an_sender v) else []) ++
  MW16_PUT (an_unknown_a v) ++
  nested_enc ([Z.b2z (an_may_reply v)] ++ mwString_enc (an_text v)) ++
  MW32_PUT (u32 (zlen (an_recipients v))) ++ mjoin (mwString_enc <$> an_recipients v).

Definition announce_ok (v : mwMsgAnnounce) : Prop :=
  (an_sender_present v = true -> mwLoginInfo_ok (an_sender v)) /\ is_u16 (an_unknown_a v) /\
  mwString_ok (an_text v) /\ is_u32 (zlen (an_recipients v)) /\
  Forall mwString_ok (an_recipients v).

(** The recipients come back in reverse order. *)
Definition announce_norm (v : mwMsgAnnounce) : mwMsgAnnounce :=
  {| an_sender_present := an_sender_present v;
     an_sender := if an_sender_present v then mwLoginInfo_norm (an_sender v) else li_zero;
     an_unknown_a := an_unknown_a v; an_may_reply := an_may_reply v;
     an_text := mwString_norm (an_text v);
     an_recipients := reverse (mwString_norm <$> an_recipients v) |}.

Definition login_ack_enc (junk : Z) (v : mwMsgLoginAck) : list Z :=
  mwLoginInfo_enc (la_login v) ++ MW16_PUT junk ++ mwPrivacyInfo_enc (la_privacy v) ++
  mwUserStatus_enc (la_status v).

(** The part of a body that is read back. *)
Definition body_read (h : mwMessageHead) (m : mwMsgBody) : list Z :=
  match m with
  | HANDSHAKE v => handshake_enc h v
  | HANDSHAKE_ACK v => handshake_ack_enc v
  | LOGIN v => login_enc v
  | LOGIN_REDIRECT v => login_redirect_enc v
  | LOGIN_CONTINUE => []
  | CHANNEL_CREATE v => channel_create_enc v
  | CHANNEL_DESTROY v => MW32_PUT (cd_reason v) ++ mwOpaque_enc (cd_data v)
  | CHANNEL_SEND v => MW16_PUT (cs_type v) ++ mwOpaque_enc (cs_data v)
  | CHANNEL_ACCEPT v => channel_accept_enc v
  | SET_USER_STATUS v => mwUserStatus_enc (ss_status v)
  | SET_PRIVACY_LIST v => mwPrivacyInfo_enc (sp_privacy v)
  | SENSE_SERVICE v => MW32_PUT (sn_service v)
  | ANNOUNCE v => announce_enc v
  | LOGIN_ACK _ | ADMIN _ => []
  end.

(** The unread bytes that close some bodies. *)
Definition closing (empty : bool) : list Z :=
  (if empty then [] else MW32_PUT 0) ++ MW32_PUT 0 ++ MW16_PUT 0x07.

Definition body_trail (m : mwMsgBody) : list Z :=
  match m with
  | LOGIN _ => MW16_PUT 0
  | CHANNEL_CREATE v => closing (bool_decide (eo_items (cc_encrypt v) = []))
  | CHANNEL_ACCEPT v => closing (bool_decide (ea_item (ca_encrypt v) = None))
  | _ => []
  end.

(** The bodies [mwMessage_put] can write: not the two types that only the
    server sends. *)
Definition body_ok (m : mwMsgBody) : Prop :=
  match m with
  | HANDSHAKE v => handshake_ok v
  | HANDSHAKE_ACK v => handshake_ack_ok v
  | LOGIN v => login_ok v
  | LOGIN_REDIRECT v => login_redirect_ok v
  | LOGIN_CONTINUE => True
  | CHANNEL_CREATE v => channel_create_ok v
  | CHANNEL_DESTROY v => is_u32 (cd_reason v) /\ mwOpaque_ok (cd_data v)
  | CHANNEL_SEND v => is_u16 (cs_type v) /\ mwOpaque_ok (cs_data v)
  | CHANNEL_ACCEPT v => channel_accept_ok v
  | SET_USER_STATUS v => mwUserStatus_ok (ss_status v)
  | SET_PRIVACY_LIST v => mwPrivacyInfo_ok (sp_privacy v)
  | SENSE_SERVICE v => is_u32 (sn_service v)
  | ANNOUNCE v => announce_ok v
  | LOGIN_ACK _ | ADMIN _ => False
  end.

Definition body_norm (m : mwMsgBody) : mwMsgBody :=
  match m with
  | HANDSHAKE v => HANDSHAKE (handshake_norm v)
  | HANDSHAKE_ACK v => HANDSHAKE_ACK (handshake_ack_norm v)
  | LOGIN v => LOGIN (login_norm v)
  | LOGIN_ACK v => LOGIN_ACK v
  | LOGIN_REDIRECT v => LOGIN_REDIRECT (login_redirect_norm v)
  | LOGIN_CONTINUE => LOGIN_CONTINUE
  | CHANNEL_CREATE v => CHANNEL_CREATE (channel_create_norm v)
  | CHANNEL_DESTROY v =>
      CHANNEL_DESTROY {| cd_reason := cd_reason v; cd_data := mwOpaque_norm (cd_data v) |}
  | CHANNEL_SEND v => CHANNEL_SEND {| cs_type := cs_type v; cs_data := mwOpaque_norm (cs_data v) |}
  | CHANNEL_ACCEPT v => CHANNEL_ACCEPT (channel_accept_norm v)
  | SET_USER_STATUS v => SET_USER_STATUS {| ss_status := mwUserStatus_norm (ss_status v) |}
  | SET_PRIVACY_LIST v => SET_PRIVACY_LIST {| sp_privacy := mwPrivacyInfo_norm (sp_privacy v) |}
  | SENSE_SERVICE v => SENSE_SERVICE v
  | ADMIN v => ADMIN v
  | ANNOUNCE v => ANNOUNCE (announce_norm v)
  end.

Definition mwMessage_enc (m : mwMessage) : list Z :=
  head_enc (msg_head m) ++ body_read (msg_head m) (msg_body m) ++ body_trail (msg_body m).

(** The header names the body, the fields fit their widths, and the whole fits
    in a length-prefixed block. *)
Definition mwMessage_ok (m : mwMessage) : Prop :=
  mh_type (msg_head m) = mwMessageType_code (body_type (msg_body m)) /\
  head_ok (msg_head m) /\ body_ok (msg_body m) /\ is_u32 (zlen (mwMessage_enc m)).

Definition mwMessage_norm (m : mwMessage) : mwMessage :=
  {| msg_head := head_norm (msg_head m); msg_body := body_norm (msg_body m) |}.

(** * Lemmas *)

Lemma put_nested_writes m e :
  writes m e -> zlen e <= pb_max -> writes (put_nested m) (nested_enc e).
Proof.
  intros Hw Hm b. destruct (finalize_writes m e Hw Hm) as (p & E & Ho & Hl & Hd).
  unfold put_nested. rewrite E. cbn [mbind option_bind].
  pose proof (mwOpaque_put_writes _ Ho) as H. unfold mwOpaque_enc in H. rewrite Hl, Hd in H. apply H.
Qed.

Lemma get_nested_safe {A} (m : Get A) : safe m -> safe (get_nested m).
Proof.
  intros Hs b Hb. unfold get_nested.
  destruct (mwOpaque_get_safe b Hb) as (o & b1 & E & Hb1 & M & S). rewrite E.
  destruct (mwOpaque_get_result b o b1 Hb E) as [Ho Hm].
  destruct (mwGetBuffer_wrap_ready o Ho Hm) as (Hw & _).
  destruct (Hs _ Hw) as (a & b2 & -> & _). by exists a, b1.
Qed.

Lemma get_nested_parses {A} (m : Get A) e v :
  parses m e v -> is_u32 (zlen e) -> parses (get_nested m) (nested_enc e) v.
Proof.
  intros (R & T & S) Hl. split_and!; [| |by apply get_nested_safe].
  - intros b rest Hb. destruct (opaque_of_data e) as (Ho & Hd & Hz).
    destruct (mwOpaque_get_ok (opaque_of e)) as (Ro & _ & _); [by split; [|rewrite Hz]|].
    unfold mwOpaque_enc, mwOpaque_norm in Ro. rewrite Hd, Hz in Ro.
    destruct (Ro b rest Hb) as (b1 & E & Hb1 & M). unfold get_nested. rewrite E.
    destruct (R (mwGetBuffer_wrap (Some (opaque_of e))) []) as (b2 & -> & _).
    { rewrite app_nil_r. rewrite <- Hd at 2. apply mwGetBuffer_wrap_ready; [done|].
      rewrite Hz. unfold is_u32 in Hl. lia. }
    by exists b1.
  - intros b l k Hb Hk He.
    destruct (opaque_of_data e) as (Ho & Hd & Hz).
    destruct (mwOpaque_get_ok (opaque_of e)) as (_ & To & _); [by split; [|rewrite Hz]|].
    unfold mwOpaque_enc, mwOpaque_norm in To. rewrite Hd, Hz in To.
    destruct (To b l k Hb Hk He) as (o & b1 & E & Hb1 & Herr). unfold get_nested. rewrite E.
    destruct (mwOpaque_get_result b o b1) as [Ho' Hm']; [by apply Hb|done|].
    destruct (mwGetBuffer_wrap_ready o Ho' Hm') as (Hw & _).
    destruct (S _ Hw) as (a & b2 & -> & _). by exists a, b1.
Qed.

(** ** Header *)

Lemma mwMessageHead_put_writes h : head_ok h -> writes (mwMessageHead_put h) (head_enc h).
Proof.
  intros (_ & _ & _ & Ha). unfold mwMessageHead_put, head_enc, has_attribs in *.
  destruct (MW_MESSAGE_HAS_OPTION _ _); [specialize (Ha eq_refl)|]; writes_tac.
Qed.

Lemma mwMessageHead_get_safe h : safe (mwMessageHead_get h).
Proof. apply unless_error_safe. safe_tac. Qed.

Lemma mwMessageHead_get_parses old h :
  head_ok h -> mh_attribs old = opaque_zero ->
  parses (mwMessageHead_get old) (head_enc h) (head_norm h).
Proof.
  intros (? & ? & ? & Ha) Hold. apply unless_error_parses. unfold head_enc, head_norm, has_attribs in *.
  rewrite Hold.
  destruct (MW_MESSAGE_HAS_OPTION (mh_options h) mwMessageOption_HAS_ATTRIBS) eqn:E;
    [specialize (Ha eq_refl)|clear Ha]; parses_tac; rewrite E; parses_tac.
Qed.

(** ** Simple bodies *)

Lemma HANDSHAKE_put_writes h v : writes (HANDSHAKE_put h v) (handshake_enc h v).
Proof. unfold HANDSHAKE_put, handshake_enc. writes_tac. Qed.

Lemma HANDSHAKE_get_safe h old : safe (HANDSHAKE_get h old).
Proof. apply unless_error_safe. safe_tac. Qed.

Lemma HANDSHAKE_get_parses h v :
  is_u32 (mh_channel h) -> handshake_ok v ->
  parses (HANDSHAKE_get h hs_zero) (handshake_enc h v) (h, handshake_norm v).
Proof.
  intros Hc (?&?&?&?&?&Hl). apply unless_error_parses. unfold handshake_enc, handshake_norm.
  destruct h as [ht ho hc ha].
  destruct (handshake_long (hs_major v) (hs_minor v)) eqn:E;
    [destruct Hl as (?&?&?); [done|]|clear Hl]; parses_tac; rewrite E; parses_tac.
Qed.

Lemma HANDSHAKE_ACK_put_writes v : handshake_ack_ok v -> writes (HANDSHAKE_ACK_put v) (handshake_ack_enc v).
Proof.
  intros (_&_&_&Hl). unfold HANDSHAKE_ACK_put, handshake_ack_enc.
  destruct (handshake_ack_long _ _); [destruct Hl; [done|]|]; writes_tac.
Qed.

Lemma HANDSHAKE_ACK_get_safe old : safe (HANDSHAKE_ACK_get old).
Proof. apply unless_error_safe. safe_tac. Qed.

Lemma HANDSHAKE_ACK_get_parses v :
  handshake_ack_ok v ->
  parses (HANDSHAKE_ACK_get ha_zero) (handshake_ack_enc v) (handshake_ack_norm v).
Proof.
  intros (?&?&?&Hl). apply unless_error_parses. unfold handshake_ack_enc, handshake_ack_norm.
  destruct (handshake_ack_long (ha_major v) (ha_minor v)) eqn:E;
    [destruct Hl as (?&?); [done|]|clear Hl]; parses_tac; rewrite E; parses_tac.
Qed.

Lemma LOGIN_get_safe old : safe (LOGIN_get old).
Proof. apply unless_error_safe. safe_tac. Qed.

Lemma LOGIN_get_parses v : login_ok v -> parses (LOGIN_get lg_zero) (login_enc v) (login_norm v).
Proof. intros (?&?&?&?). apply unless_error_parses. unfold login_enc, login_norm. parses_tac. Qed.

Lemma LOGIN_ACK_get_safe u old : safe (LOGIN_ACK_get u old).
Proof. apply unless_error_safe. safe_tac. Qed.

Lemma LOGIN_REDIRECT_put_writes v : writes (LOGIN_REDIRECT_put v) (login_redirect_enc v).
Proof. unfold LOGIN_REDIRECT_put, login_redirect_enc. writes_tac. Qed.

Lemma LOGIN_REDIRECT_get_safe old : safe (LOGIN_REDIRECT_get old).
Proof. apply unless_error_safe. safe_tac. Qed.

Lemma LOGIN_REDIRECT_get_parses v :
  login_redirect_ok v ->
  parses (LOGIN_REDIRECT_get lr_zero) (login_redirect_enc v) (login_redirect_norm v).
Proof.
  intros (?&?). apply unless_error_parses. unfold login_redirect_enc, login_redirect_norm. parses_tac.
Qed.

Lemma CHANNEL_SEND_get_safe old : safe (CHANNEL_SEND_get old).
Proof. apply unless_error_safe. safe_tac. Qed.
Lemma CHANNEL_DESTROY_get_safe old : safe (CHANNEL_DESTROY_get old).
Proof. apply unless_error_safe. safe_tac. Qed.
Lemma SET_USER_STATUS_get_safe old : safe (SET_USER_STATUS_get old).
Proof. apply unless_error_safe. safe_tac. Qed.
Lemma SET_PRIVACY_LIST_get_safe old : safe (SET_PRIVACY_LIST_get old).
Proof. apply unless_error_safe. safe_tac. Qed.
Lemma SENSE_SERVICE_get_safe old : safe (SENSE_SERVICE_get old).
Proof. apply unless_error_safe. safe_tac. Qed.
Lemma ADMIN_get_safe old : safe (ADMIN_get old).
Proof. unfold ADMIN_get. safe_tac. Qed.

Lemma CHANNEL_SEND_get_parses v :
  is_u16 (cs_type v) /\ mwOpaque_ok (cs_data v) ->
  parses (CHANNEL_SEND_get cs_zero) (MW16_PUT (cs_type v) ++ mwOpaque_enc (cs_data v))
    {| cs_type := cs_type v; cs_data := mwOpaque_norm (cs_data v) |}.
Proof. intros [? ?]. apply unless_error_parses. parses_tac. Qed.
Lemma CHANNEL_DESTROY_get_parses v :
  is_u32 (cd_reason v) /\ mwOpaque_ok (cd_data v) ->
  parses (CHANNEL_DESTROY_get cd_zero) (MW32_PUT (cd_reason v) ++ mwOpaque_enc (cd_data v))
    {| cd_reason := cd_reason v; cd_data := mwOpaque_norm (cd_data v) |}.
Proof. intros [? ?]. apply unless_error_parses. parses_tac. Qed.
Lemma SET_USER_STATUS_get_parses v :
  mwUserStatus_ok (ss_status v) ->
  parses (SET_USER_STATUS_get ss_zero) (mwUserStatus_enc (ss_status v))
    {| ss_status := mwUserStatus_norm (ss_status v) |}.
Proof. intros ?. apply unless_error_parses. cbn [ss_status ss_zero]. parses_tac. Qed.
Lemma SET_PRIVACY_LIST_get_parses v :
  mwPrivacyInfo_ok (sp_privacy v) ->
  parses (SET_PRIVACY_LIST_get sp_zero) (mwPrivacyInfo_enc (sp_privacy v))
    {| sp_privacy := mwPrivacyInfo_norm (sp_privacy v) |}.
Proof. intros ?. apply unless_error_parses. cbn [sp_privacy sp_zero]. parses_tac. Qed.
Lemma SENSE_SERVICE_get_parses v :
  is_u32 (sn_service v) -> parses (SENSE_SERVICE_get sn_zero) (MW32_PUT (sn_service v)) v.
Proof. intros ?. destruct v. apply unless_error_parses. cbn in *. parses_tac. Qed.

#[export] Hint Resolve mwMessageHead_put_writes mwMessageHead_get_safe
  HANDSHAKE_put_writes HANDSHAKE_get_safe HANDSHAKE_get_parses
  HANDSHAKE_ACK_put_writes HANDSHAKE_ACK_get_safe HANDSHAKE_ACK_get_parses
  LOGIN_get_safe LOGIN_get_parses LOGIN_ACK_get_safe
  LOGIN_REDIRECT_put_writes LOGIN_REDIRECT_get_safe LOGIN_REDIRECT_get_parses
  CHANNEL_SEND_get_parses CHANNEL_DESTROY_get_parses SET_USER_STATUS_get_parses
  SET_PRIVACY_LIST_get_parses SENSE_SERVICE_get_parses
  CHANNEL_SEND_get_safe CHANNEL_DESTROY_get_safe SET_USER_STATUS_get_safe
  SET_PRIVACY_LIST_get_safe SENSE_SERVICE_get_safe ADMIN_get_safe : mw_codec.

(** ** Offers and channel create *)

Lemma is_u32_0 : is_u32 0.
Proof. done. Qed.
#[export] Hint Resolve is_u32_0 : mw_codec.

Lemma put_items_writes items :
  Forall mwEncryptItem_ok items -> writes (put_items items) (items_enc items).
Proof.
  induction 1 as [|ei items Hei _ IH]; [apply writes_skip|].
  apply writes_seq; [by auto with mw_codec|apply IH].
Qed.

Lemma get_items_safe count items : safe (get_items count items).
Proof.
  revert items. induction count as [|count IH]; intros items; cbn [get_items]; [apply safe_ret|].
  apply (unless_error_safe items). apply safe_bind; [auto with mw_codec|]. intros; apply IH.
Qed.

Lemma get_items_parses items acc :
  Forall mwEncryptItem_ok items ->
  parses (get_items (length items) acc) (items_enc items) (acc ++ (mwEncryptItem_norm <$> items)).
Proof.
  intros H. revert acc. induction H as [|ei items Hei _ IH]; intros acc; cbn [get_items length].
  - cbn. rewrite app_nil_r. apply parses_ret.
  - apply (unless_error_parses acc). eapply parses_bind.
    + by auto with mw_codec.
    + intros. apply get_items_safe.
    + rewrite fmap_cons, (cons_middle _ acc (_ <$> items)), app_assoc. apply IH.
Qed.
#[export] Hint Resolve put_items_writes get_items_safe get_nested_safe : mw_codec.

Lemma items_enc_cons ei items : items_enc (ei :: items) = mwEncryptItem_enc ei ++ items_enc items.
Proof. done. Qed.

Lemma items_enc_len items :
  Forall mwEncryptItem_ok items -> 6 * zlen items <= zlen (items_enc items).
Proof.
  induction 1 as [|ei items [_ [Hei _]] _ IH]; [done|]. rewrite items_enc_cons.
  unfold mwEncryptItem_enc, mwOpaque_enc. pose proof (opaque_ok_len _ Hei).
  rewrite !zlen_app, MW16_PUT_len, MW32_PUT_len, zlen_cons. pose_zlen. lia.
Qed.

Lemma offer_block_len v :
  Forall mwEncryptItem_ok (eo_items v) -> zlen (offer_block v) >= 7 + 6 * zlen (eo_items v).
Proof.
  intros H. pose proof (items_enc_len _ H). unfold offer_block.
  rewrite !zlen_app, MW16_PUT_len, MW32_PUT_len, zlen_cons, zlen_nil. lia.
Qed.

(** The puts of an offer followed by those that close a message are what is
    read of the offer followed by what is not. *)
Lemma enc_offer_put_writes v :
  enc_offer_ok v ->
  writes (enc_offer_put v >>> guint32_put 0 >>> guint32_put 0 >>> guint16_put 0x07)
    (enc_offer_read v ++ closing (bool_decide (eo_items v = []))).
Proof.
  intros (_ & _ & Hi & Hl). unfold enc_offer_put, enc_offer_read, closing.
  destruct (eo_items v) as [|ei items] eqn:E.
  - rewrite decide_True, bool_decide_true by done. rewrite <- app_assoc, app_nil_l.
    apply (writes_seq (_ >>> pskip)); [|writes_tac].
    apply writes_seq_nil; auto with mw_codec.
  - rewrite decide_False, bool_decide_false by done.
    apply writes_seq; [|writes_tac]. apply writes_seq; [auto with mw_codec|].
    apply put_nested_writes; [|unfold is_u32, pb_max in *; lia].
    unfold offer_block. rewrite E. writes_tac.
Qed.

Lemma enc_offer_get_safe u old : safe (enc_offer_get u old).
Proof. apply unless_error_safe. safe_tac. Qed.

Lemma enc_offer_get_parses u v :
  enc_offer_ok v -> parses (enc_offer_get u eo_zero) (enc_offer_read v) (enc_offer_norm v).
Proof.
  intros (Hm & He & Hi & Hl). apply unless_error_parses. unfold enc_offer_read, enc_offer_norm.
  destruct (decide (eo_items v = [])) as [E|E].
  - parses_tac. change (7 <=? 0) with false. parses_tac.
  - pose proof (offer_block_len v Hi). pose_zlen. unfold nested_enc.
    eapply parses_bind; [by auto with mw_codec|intros; safe_tac|].
    eapply parses_bind; [rewrite u32_id by done; by auto with mw_codec|intros; safe_tac|].
    replace (7 <=? zlen (offer_block v)) with true by lia. unfold offer_block.
    unfold is_u32 in *. rewrite u32_id by (unfold is_u32; lia).
    eapply parses_bind; [apply guint32_get_parses; unfold is_u32; lia|intros; safe_tac|].
    rewrite to_nat_zlen. eapply parses_bind; [by apply get_items_parses|intros; safe_tac|].
    parses_tac.
Qed.
#[export] Hint Resolve enc_offer_get_safe enc_offer_get_parses : mw_codec.

Lemma CHANNEL_CREATE_put_writes v :
  channel_create_ok v ->
  writes (CHANNEL_CREATE_put v)
    (channel_create_enc v ++ closing (bool_decide (eo_items (cc_encrypt v) = []))).
Proof.
  intros (_&_&_&_&_&_&_&?&_&?). unfold CHANNEL_CREATE_put, channel_create_enc.
  rewrite <- !app_assoc. do 10 (apply writes_seq; [by writes_tac|]). by apply enc_offer_put_writes.
Qed.

Lemma CHANNEL_CREATE_get_safe u old : safe (CHANNEL_CREATE_get u old).
Proof. apply unless_error_safe. safe_tac. Qed.

Lemma CHANNEL_CREATE_get_parses u v :
  channel_create_ok v ->
  parses (CHANNEL_CREATE_get u cc_zero) (channel_create_enc v) (channel_create_norm v).
Proof.
  intros (?&?&?&?&?&?&?&?&Hc&?). apply unless_error_parses.
  unfold channel_create_enc, channel_create_norm.
  cbn [cc_target cc_creator cc_encrypt cc_zero].
  destruct (cc_creator_flag v); [specialize (Hc eq_refl)|clear Hc]; parses_tac.
Qed.

(** ** Channel accept *)

Lemma accept_block_len item v : mwEncryptItem_ok item -> 9 <= zlen (accept_block item v).
Proof.
  intros [_ [Hi _]]. unfold accept_block, mwEncryptItem_enc, mwOpaque_enc.
  rewrite !zlen_app, !MW16_PUT_len, MW32_PUT_len, zlen_cons, zlen_nil. pose_zlen. lia.
Qed.

Lemma enc_accept_put_writes v :
  enc_accept_ok v ->
  writes (enc_accept_put v >>> guint32_put 0 >>> guint32_put 0 >>> guint16_put 0x07)
    (enc_accept_read v ++ closing (bool_decide (ea_item v = None))).
Proof.
  intros (_ & _ & Hi). unfold enc_accept_put, enc_accept_read, closing.
  destruct (ea_item v) as [item|] eqn:E.
  - destruct Hi as [Hi Hl]. rewrite bool_decide_false by done.
    apply writes_seq; [|writes_tac]. apply writes_seq; [auto with mw_codec|].
    apply put_nested_writes; [|unfold is_u32, pb_max in *; lia]. unfold accept_block. writes_tac.
  - rewrite bool_decide_true by done. rewrite <- app_assoc, app_nil_l.
    apply (writes_seq (_ >>> pskip)); [|writes_tac]. apply writes_seq_nil; auto with mw_codec.
Qed.

Lemma enc_accept_get_safe u old : safe (enc_accept_get u old).
Proof. apply unless_error_safe. safe_tac. Qed.

Lemma enc_accept_get_parses u v :
  enc_accept_ok v -> parses (enc_accept_get u ea_zero) (enc_accept_read v) (enc_accept_norm v).
Proof.
  intros (Hm & He & Hi). apply unless_error_parses. unfold enc_accept_read, enc_accept_norm.
  destruct (ea_item v) as [item|].
  - destruct Hi as [Hi Hl]. pose proof (accept_block_len item v Hi). unfold nested_enc.
    eapply parses_bind; [by auto with mw_codec|intros; safe_tac|].
    eapply parses_bind; [rewrite u32_id by done; by auto with mw_codec|intros; safe_tac|].
    replace (6 <=? zlen (accept_block item v)) with true by lia.
    replace (9 <=? zlen (accept_block item v)) with true by lia.
    unfold accept_block. parses_tac.
  - parses_tac; change (6 <=? 0) with false; change (9 <=? 0) with false; parses_tac.
Qed.
#[export] Hint Resolve enc_accept_get_safe enc_accept_get_parses : mw_codec.

Lemma CHANNEL_ACCEPT_put_writes v :
  channel_accept_ok v ->
  writes (CHANNEL_ACCEPT_put v)
    (channel_accept_enc v ++ closing (bool_decide (ea_item (ca_encrypt v) = None))).
Proof.
  intros (_&_&_&?&_&?). unfold CHANNEL_ACCEPT_put, channel_accept_enc.
  rewrite <- !app_assoc. do 6 (apply writes_seq; [writes_tac|]). by apply enc_accept_put_writes.
Qed.

Lemma CHANNEL_ACCEPT_get_safe u old : safe (CHANNEL_ACCEPT_get u old).
Proof. apply unless_error_safe. safe_tac. Qed.

Lemma CHANNEL_ACCEPT_get_parses u v :
  channel_accept_ok v ->
  parses (CHANNEL_ACCEPT_get u ca_zero) (channel_accept_enc v) (channel_accept_norm v).
Proof.
  intros (?&?&?&?&Hc&?). apply unless_error_parses.
  unfold channel_accept_enc, channel_accept_norm.
  cbn [ca_acceptor ca_encrypt ca_zero].
  destruct (ca_acceptor_flag v); [specialize (Hc eq_refl)|clear Hc]; parses_tac.
Qed.

(** ** Announce *)

Lemma put_recipients_writes l : writes (put_recipients l) (mjoin (mwString_enc <$> l)).
Proof. induction l as [|r l IH]; [apply writes_skip|]. apply writes_seq; [auto with mw_codec|done]. Qed.

Lemma get_recipients_safe count acc : safe (get_recipients count acc).
Proof.
  revert acc. induction count as [|count IH]; intros acc; [apply safe_ret|].
  apply safe_bind; [auto with mw_codec|]. intros; apply IH.
Qed.

Lemma get_recipients_parses l acc :
  Forall mwString_ok l ->
  parses (get_recipients (length l) acc) (mjoin (mwString_enc <$> l))
    (reverse (mwString_norm <$> l) ++ acc).
Proof.
  intros H. revert acc. induction H as [|r l Hr _ IH]; intros acc; [apply parses_ret|].
  cbn [get_recipients length]. eapply parses_bind; [by auto with mw_codec| |].
  - intros. apply get_recipients_safe.
  - rewrite fmap_cons, reverse_cons, <- app_assoc. apply IH.
Qed.
#[export] Hint Resolve put_recipients_writes get_recipients_safe : mw_codec.

Lemma announce_inner_len v :
  mwString_ok (an_text v) -> is_u32 (zlen ([Z.b2z (an_may_reply v)] ++ mwString_enc (an_text v))).
Proof.
  intros [_ Hl]. unfold mwString_enc, is_u32. rewrite zlen_app, zlen_app, MW16_PUT_len.
  change (zlen [Z.b2z (an_may_reply v)]) with 1. pose_zlen. lia.
Qed.

Lemma ANNOUNCE_put_writes v : announce_ok v -> writes (ANNOUNCE_put v) (announce_enc v).
Proof.
  intros (_ & _ & Ht & _ & _). pose proof (announce_inner_len v Ht).
  unfold ANNOUNCE_put, announce_enc. writes_tac.
  apply put_nested_writes; [writes_tac|unfold is_u32, pb_max in *; lia].
Qed.

Lemma ANNOUNCE_get_safe u old : safe (ANNOUNCE_get u old).
Proof.
  unfold ANNOUNCE_get. safe_tac. apply get_nested_safe. safe_tac.
Qed.

Lemma ANNOUNCE_get_parses u v :
  announce_ok v -> parses (ANNOUNCE_get u an_zero) (announce_enc v) (announce_norm v).
Proof.
  intros (Hs & Hu & Ht & Hn & Hr). pose proof (announce_inner_len v Ht) as Hi.
  unfold announce_enc, announce_norm, ANNOUNCE_get.
  assert (forall x, safe (let! text := mwString_get in gret (x, text))) by (intros; safe_tac).
  assert (parses (get_nested (let! may_reply := gboolean_get (an_may_reply an_zero) in
      let! text := mwString_get in gret (may_reply, text)))
    (nested_enc ([Z.b2z (an_may_reply v)] ++ mwString_enc (an_text v)))
    (an_may_reply v, mwString_norm (an_text v))).
  { apply get_nested_parses; [parses_tac|done]. }
  assert (safe (get_nested (let! may_reply := gboolean_get (an_may_reply an_zero) in
      let! text := mwString_get in gret (may_reply, text)))) by (apply get_nested_safe; safe_tac).
  assert (parses (get_recipients (Z.to_nat (zlen (an_recipients v))) [])
    (mjoin (mwString_enc <$> an_recipients v)) (reverse (mwString_norm <$> an_recipients v))).
  { rewrite to_nat_zlen, <- (app_nil_r (reverse _)). by apply get_recipients_parses. }
  rewrite u32_id by done. cbn [an_sender an_recipients an_zero].
  destruct (an_sender_present v); [specialize (Hs eq_refl)|clear Hs]; parses_tac.
Qed.

#[export] Hint Resolve CHANNEL_CREATE_put_writes CHANNEL_CREATE_get_safe CHANNEL_CREATE_get_parses
  CHANNEL_ACCEPT_put_writes CHANNEL_ACCEPT_get_safe CHANNEL_ACCEPT_get_parses
  ANNOUNCE_put_writes ANNOUNCE_get_safe ANNOUNCE_get_parses : mw_codec.

(** ** The switch *)

Lemma mwMessageType_of_code t : mwMessageType_of (mwMessageType_code t) = Some t.
Proof. by destruct t. Qed.

Lemma mwMessageType_of_Some z t : mwMessageType_of z = Some t -> z = mwMessageType_code t.
Proof.
  unfold mwMessageType_of. destruct (list_find _ _) as [[i t']|] eqn:E; [|done].
  apply list_find_Some in E as (_ & <- & _). by intros [= <-].
Qed.

Lemma mwMessageType_code_u16 t : is_u16 (mwMessageType_code t).
Proof. by destruct t. Qed.

Lemma body_get_safe u h t : safe (body_get u h t).
Proof. destruct t; cbn [body_get]; safe_tac. unfold LOGIN_CONTINUE_get. apply safe_ret. Qed.

Lemma head_norm_ok h : head_ok h -> opaque_ok (mh_attribs (head_norm h)).
Proof.
  intros (_ & _ & _ & Ha). cbn. destruct (has_attribs h); [|apply opaque_zero_ok].
  apply opaque_of_data.
Qed.

Lemma mwOpaque_clone_ok o : opaque_ok o -> is_Some (mwOpaque_clone (Some o)).
Proof.
  intros Ho. cbn. destruct (len o =? 0); [by eexists|]. rewrite (opaque_ok_data o Ho). by eexists.
Qed.

Lemma mwOpaque_clone_of l : mwOpaque_clone (Some (opaque_of l)) = Some (opaque_of l).
Proof.
  destruct (opaque_of_data l) as (Ho & Hd & Hl). cbn. rewrite Hl.
  rewrite (opaque_ok_data _ Ho), Hd. unfold opaque_of.
  by destruct (Z.eqb_spec (zlen l) 0).
Qed.

Lemma mwMessageHead_clone_norm h : mwMessageHead_clone (head_norm h) = Some (head_norm h).
Proof.
  unfold mwMessageHead_clone, head_norm. cbn [mh_attribs mh_type mh_options mh_channel].
  destruct (has_attribs h); [|done]. unfold mwOpaque_norm. by rewrite mwOpaque_clone_of.
Qed.

(** The header read from any input has an opaque its block backs. *)
Lemma mwMessageHead_get_result old b h b' :
  gb_wf b -> mh_attribs old = opaque_zero -> mwMessageHead_get old b = Some (h, b') ->
  opaque_ok (mh_attribs h).
Proof.
  intros Hb Ho. unfold mwMessageHead_get, unless_error.
  destruct (gb_error b); [intros [= <- _]; rewrite Ho; apply opaque_zero_ok|].
  unfold gbind. destruct (guint16_get_safe (mh_type old) b Hb) as (t & b1 & -> & Hb1 & _).
  destruct (guint16_get_safe (mh_options old) b1 Hb1) as (o & b2 & -> & Hb2 & _).
  destruct (guint32_get_safe (mh_channel old) b2 Hb2) as (c & b3 & -> & Hb3 & _).
  destruct (MW_MESSAGE_HAS_OPTION o _).
  - destruct (mwOpaque_get b3) as [[a b4]|] eqn:E; [|done]. intros [= <- _].
    by eapply (mwOpaque_get_result b3).
  - intros [= <- _]. rewrite Ho. apply opaque_zero_ok.
Qed.

Lemma mwMessage_get_safe u : safe (mwMessage_get u).
Proof.
  intros b Hb. unfold mwMessage_get, gbind at 1.
  set (old := {| mh_type := u_type u; mh_options := u_options u; mh_channel := u_channel u;
                 mh_attribs := opaque_zero |}).
  destruct (mwMessageHead_get_safe old b Hb) as (h & b1 & E & Hb1 & M1 & S1). rewrite E.
  unfold mwGetBuffer_error. destruct (gb_error b1) eqn:He; [by eexists _, b1|].
  destruct (mwMessageType_of (mh_type h)) as [t|]; [|by eexists _, b1].
  destruct (mwOpaque_clone_ok (mh_attribs h)) as [a Ha];
    [by eapply (mwMessageHead_get_result old b)|].
  unfold mwMessageHead_clone. rewrite Ha. cbn [mbind option_bind]. unfold gbind.
  match goal with |- context [body_get u ?h' t] =>
    destruct (body_get_safe u h' t b1 Hb1) as (m & b2 & -> & Hb2 & M2 & S2) end.
  eexists _, b2. split; [done|split; [done|split]]; [by transitivity b1|].
  intros Hb0. rewrite (S1 Hb0) in He. congruence.
Qed.

Lemma body_put_writes m :
  body_ok (msg_body m) ->
  writes (body_put (msg_head m) (body_type (msg_body m)) (msg_body m))
    (body_read (msg_head m) (msg_body m) ++ body_trail (msg_body m)).
Proof.
  destruct m as [h [v|v|v|v|v| |v|v|v|v|v|v|v|v|v]];
    cbn [msg_head msg_body body_ok body_type body_put body_read body_trail]; intros Hok;
    rewrite ?app_nil_r; try done; auto with mw_codec.
  - (* LOGIN *) destruct Hok as (?&?&?&?). unfold login_enc, LOGIN_put.
    rewrite <- !app_assoc. writes_tac.
  - apply writes_skip.
  - destruct Hok as (?&?). unfold CHANNEL_DESTROY_put. writes_tac.
  - destruct Hok as (?&?). unfold CHANNEL_SEND_put. writes_tac.
  - unfold SET_USER_STATUS_put. auto with mw_codec.
  - unfold SET_PRIVACY_LIST_put. auto with mw_codec.
  - unfold SENSE_SERVICE_put. auto with mw_codec.
Qed.

Lemma body_get_parses u h m :
  is_u32 (mh_channel h) -> body_ok m ->
  parses (body_get u h (body_type m)) (body_read h m) (h, body_norm m).
Proof.
  intros Hc. destruct m as [v|v|v|v|v| |v|v|v|v|v|v|v|v|v];
    cbn [body_ok body_type body_get body_read body_norm]; intros Hok; try done;
    first
    [ eapply parses_bind_last;
        [solve [eauto with mw_codec]|intros; safe_tac|apply parses_ret]
    | idtac ].
  apply parses_ret.
Qed.

(** * The message codec *)

(** What [mwSession_send] puts on the wire for a message, before the length. *)
Definition message_send (m : mwMessage) : option mwOpaque :=
  b ← mwMessage_put m mwPutBuffer_new; Some (mwPutBuffer_finalize b).

Lemma mwMessage_put_writes m : mwMessage_ok m -> writes (mwMessage_put m) (mwMessage_enc m).
Proof.
  intros (Ht & Hh & Hb & _). unfold mwMessage_put, mwMessage_enc.
  rewrite Ht, mwMessageType_of_code. apply writes_seq; [auto with mw_codec|].
  by apply body_put_writes.
Qed.

Lemma message_send_spec m :
  mwMessage_ok m ->
  exists o, message_send m = Some o /\ opaque_ok o /\ len o = zlen (mwMessage_enc m)
    /\ opaque_data o = mwMessage_enc m.
Proof.
  intros Hok. destruct (finalize_writes _ _ (mwMessage_put_writes m Hok)) as (b & E & Ho & Hl & Hd).
  { destruct Hok as (_ & _ & _ & Hl). unfold is_u32, pb_max in *. lia. }
  exists (mwPutBuffer_finalize b). unfold message_send. by rewrite E.
Qed.

(** [parses_bind] when the continuation itself tests the error flag. *)
Lemma parses_bind_unless {A B} (m : Get A) (k : A -> Get B) e1 e2 a v none :
  parses m e1 a -> (forall x b, gb_error b = true -> k x b = Some (none, b)) ->
  safe (gbind m k) -> parses (k a) e2 v -> parses (gbind m k) (e1 ++ e2) v.
Proof.
  intros (R & T & _) Hk Hs (R2 & T2 & _). split_and!; [by eapply reads_bind| |done].
  intros b l r Hb Hne He. unfold gbind.
  destruct (prefix_split _ _ _ _ He) as [(k' & Hk' & ->)|(l' & -> & ->)].
  - destruct (T b l k' Hb Hk' eq_refl) as (x & b1 & -> & Hb1 & Herr).
    rewrite (Hk x b1 Herr). by exists none, b1.
  - destruct (R b l' Hb) as (b1 & -> & Hb1 & _). by apply (T2 b1 l' r).
Qed.

Lemma mwMessage_get_parses u m :
  mwMessage_ok m ->
  parses (mwMessage_get u) (head_enc (msg_head m) ++ body_read (msg_head m) (msg_body m))
    (Some (mwMessage_norm m)).
Proof.
  intros (Ht & Hh & Hb & _). pose proof (mwMessage_get_safe u) as Hs. revert Hs.
  unfold mwMessage_get. intros Hs.
  eapply (parses_bind_unless _ _ _ _ (head_norm (msg_head m)) _ None);
    [by apply mwMessageHead_get_parses| |exact Hs|].
  { intros x b He. unfold mwGetBuffer_error. by rewrite He. }
  cbv beta. rewrite mwMessageHead_clone_norm. cbn [mh_type head_norm].
  rewrite Ht, mwMessageType_of_code.
  apply (unless_error_parses None). eapply parses_bind_last.
  - replace (body_read (msg_head m) (msg_body m)) with
      (body_read (head_norm (msg_head m)) (msg_body m)) by (by destruct (msg_body m)).
    apply body_get_parses; [|done]. by destruct Hh as (_ & _ & ? & _).
  - intros; safe_tac.
  - apply parses_ret.
Qed.

(** C25: parsing a message that was written gives the message back, up to the
    fields that are not sent, NULL for empty strings and the order of the
    recipients of an announcement, whatever the uninitialised locals held; no
    error is raised and only the closing bytes of the body are left. *)
Theorem mwMessage_roundtrip u m :
  mwMessage_ok m ->
  exists o g, message_send m = Some o
    /\ mwMessage_get u (mwGetBuffer_wrap (Some o)) = Some (Some (mwMessage_norm m), g)
    /\ mwGetBuffer_error g = false
    /\ mwGetBuffer_remaining g = zlen (body_trail (msg_body m)).
Proof.
  intros Hok. destruct (message_send_spec m Hok) as (o & E & Ho & Hl & Hd).
  destruct (mwMessage_get_parses u m Hok) as (R & _ & _).
  destruct (R (mwGetBuffer_wrap (Some o)) (body_trail (msg_body m))) as (g & Eg & Hg & _).
  { rewrite <- app_assoc. change (_ ++ _ ++ _) with (mwMessage_enc m). rewrite <- Hd.
    apply mwGetBuffer_wrap_ready; [done|]. rewrite Hl.
    destruct Hok as (_ & _ & _ & Hz). unfold is_u32 in Hz. lia. }
  exists o, g. split_and!; [done|done|apply Hg|]. by apply (gb_ready_len g).
Qed.

(** C26: on any bytes and whatever the uninitialised locals hold, parsing a
    message ends, reads nothing outside the input, and leaves the read pointer
    inside it. *)
Theorem mwMessage_get_memory_safe u l :
  zlen l < 2 ^ 64 ->
  exists r g, mwMessage_get u (mwGetBuffer_wrap (Some (opaque_of l))) = Some (r, g)
    /\ gb_buf g = l /\ 0 <= gb_ptr g <= zlen l
    /\ mwGetBuffer_remaining g = zlen l - gb_ptr g.
Proof.
  intros Hl. destruct (opaque_of_data l) as (Ho & Hd & Hz).
  destruct (mwGetBuffer_wrap_ready (opaque_of l) Ho) as (Hw & _ & _); [by rewrite Hz|].
  destruct (mwMessage_get_safe u _ Hw) as (r & g & E & Hg & (Mb & Ml & _ & Mp) & _).
  assert (gb_buf (mwGetBuffer_wrap (Some (opaque_of l))) = l
    /\ gb_len (mwGetBuffer_wrap (Some (opaque_of l))) = zlen l) as [Hb Hn].
  { unfold mwGetBuffer_wrap, opaque_of. destruct (Z.eqb_spec (zlen l) 0) as [H0|H0].
    - by apply zlen_0_nil in H0 as ->.
    - cbn [len data]. by replace (zlen l =? 0) with false by lia. }
  exists r, g. unfold gb_wf, mwGetBuffer_remaining in *. rewrite Mb, Ml, Hb, Hn in *.
  split_and!; [done|done|lia..].
Qed.

(** A message cut short anywhere before its closing bytes raises the
    error flag. *)
Theorem mwMessage_truncated u m l k :
  mwMessage_ok m -> k <> [] ->
  head_enc (msg_head m) ++ body_read (msg_head m) (msg_body m) = l ++ k ->
  exists r g, mwMessage_get u (mwGetBuffer_wrap (Some (opaque_of l))) = Some (r, g)
    /\ mwGetBuffer_error g = true.
Proof.
  intros Hok Hk He. destruct (mwMessage_get_parses u m Hok) as (_ & T & _).
  destruct (opaque_of_data l) as (Ho & Hd & Hz).
  destruct (T (mwGetBuffer_wrap (Some (opaque_of l))) l k) as (r & g & E & _ & Hg); [|done..|].
  - rewrite <- Hd at 2. apply mwGetBuffer_wrap_ready; [done|]. rewrite Hz.
    destruct Hok as (_ & _ & _ & Hsz). unfold is_u32, mwMessage_enc in Hsz.
    rewrite app_assoc, He, !zlen_app in Hsz. pose_zlen. lia.
  - by exists r, g.
Qed.

(** ** Uninitialised locals *)

(** Where [m1] ends without error, [m2] does the same. *)
Definition agrees {A} (m1 m2 : Get A) : Prop :=
  forall b a b', gb_wf b -> m1 b = Some (a, b') -> gb_error b' = false -> m2 b = Some (a, b').

Lemma agrees_refl {A} (m : Get A) : agrees m m.
Proof. by intros b a b' _ ?. Qed.

Lemma agrees_bind {A B} (m1 m2 : Get A) (k1 k2 : A -> Get B) :
  agrees m1 m2 -> safe m1 -> (forall a, safe (k1 a)) -> (forall a, agrees (k1 a) (k2 a)) ->
  agrees (gbind m1 k1) (gbind m2 k2).
Proof.
  intros H1 S1 Sk H2 b a b' Hb. unfold gbind.
  destruct (S1 b Hb) as (x & b1 & E1 & Hb1 & _ & _). rewrite E1. intros E2 Herr.
  destruct (Sk x b1 Hb1) as (y & b2 & E2' & _ & _ & Hkeep).
  assert (gb_error b1 = false) as He1.
  { destruct (gb_error b1) eqn:E; [|done]. rewrite E2 in E2'. injection E2' as <- <-.
    rewrite (Hkeep eq_refl), E in Herr. done. }
  rewrite (H1 _ _ _ Hb E1 He1). by apply (H2 x b1).
Qed.

Lemma agrees_unless {A} (o1 o2 : A) m1 m2 :
  agrees m1 m2 -> agrees (unless_error o1 m1) (unless_error o2 m2).
Proof.
  intros H b a b' Hb. unfold unless_error. destruct (gb_error b) eqn:E.
  - intros [= _ <-]. by rewrite E.
  - by apply H.
Qed.

Lemma agrees_fixed {A} n (conv : list Z -> option A) o1 o2 :
  agrees (get_fixed n conv o1) (get_fixed n conv o2).
Proof.
  intros b a b' _. unfold get_fixed. destruct (gb_error b) eqn:E.
  - intros [= _ <-]. by rewrite E.
  - unfold check_buffer. rewrite E. cbn.
    destruct (gb_rem b <? n); cbn; [intros [= _ <-]; done|done].
Qed.

Lemma agrees_if {A} (c : bool) (m1 m2 n1 n2 : Get A) :
  agrees m1 n1 -> agrees m2 n2 -> agrees (if c then m1 else m2) (if c then n1 else n2).
Proof. by destruct c. Qed.

#[export] Hint Resolve agrees_refl agrees_fixed : mw_codec.

Ltac agrees_tac :=
  cbv beta zeta;
  lazymatch goal with
  | |- agrees (gbind _ _) (gbind _ _) =>
      apply agrees_bind; [agrees_tac|safe_tac|intros ?; safe_tac|intros ?; agrees_tac]
  | |- agrees (if _ then _ else _) (if _ then _ else _) => apply agrees_if; [agrees_tac|agrees_tac]
  | |- agrees (unless_error _ _) (unless_error _ _) => apply agrees_unless; agrees_tac
  | |- agrees (get_fixed _ _ _) (get_fixed _ _ _) => apply agrees_fixed
  | |- _ => try solve [auto 2 with mw_codec]
  end.

Lemma guint32_get_agrees o1 o2 : agrees (guint32_get o1) (guint32_get o2).
Proof. apply agrees_fixed. Qed.
Lemma guint16_get_agrees o1 o2 : agrees (guint16_get o1) (guint16_get o2).
Proof. apply agrees_fixed. Qed.
#[export] Hint Resolve guint32_get_agrees guint16_get_agrees : mw_codec.

Lemma body_get_agrees u1 u2 h t : agrees (body_get u1 h t) (body_get u2 h t).
Proof.
  assert (safe (get_nested (let! may_reply := gboolean_get (an_may_reply an_zero) in
      let! text := mwString_get in gret (may_reply, text)))) by (apply get_nested_safe; safe_tac).
  destruct t; cbn [body_get]; try apply agrees_refl;
    (apply agrees_bind; [|safe_tac|intros; safe_tac|intros; apply agrees_refl]);
    unfold LOGIN_ACK_get, CHANNEL_CREATE_get, CHANNEL_ACCEPT_get, ANNOUNCE_get; agrees_tac;
    unfold enc_offer_get, enc_accept_get; agrees_tac.
Qed.

(** The header's fields are all read when there is no error. *)
Lemma mwMessageHead_get_agrees h1 h2 :
  mh_attribs h1 = mh_attribs h2 -> agrees (mwMessageHead_get h1) (mwMessageHead_get h2).
Proof. intros E. unfold mwMessageHead_get. rewrite E. agrees_tac. Qed.

(** The result of a parse that raised no error does not depend on the
    uninitialised locals of the parsers. *)
Theorem mwMessage_get_uninit_independent u1 u2 l r g :
  zlen l < 2 ^ 64 ->
  mwMessage_get u1 (mwGetBuffer_wrap (Some (opaque_of l))) = Some (r, g) ->
  mwGetBuffer_error g = false ->
  mwMessage_get u2 (mwGetBuffer_wrap (Some (opaque_of l))) = Some (r, g).
Proof.
  intros Hl. destruct (opaque_of_data l) as (Ho & Hd & Hz).
  destruct (mwGetBuffer_wrap_ready (opaque_of l) Ho) as (Hw & He0 & _); [by rewrite Hz|].
  revert Hw He0. generalize (mwGetBuffer_wrap (Some (opaque_of l))) as b. intros b Hb He0.
  unfold mwMessage_get, gbind at 1 3, mwGetBuffer_error.
  set (old u := {| mh_type := u_type u; mh_options := u_options u; mh_channel := u_channel u;
                   mh_attribs := opaque_zero |}).
  destruct (mwMessageHead_get_safe (old u1) b Hb) as (h & b1 & E & Hb1 & _).
  change (mwMessageHead_get (old u1) b) with (mwMessageHead_get {| mh_type := u_type u1; 
    mh_options := u_options u1; mh_channel := u_channel u1; mh_attribs := opaque_zero |} b) in E.
  rewrite E. intros E1 Herr.
  destruct (gb_error b1) eqn:He1; [injection E1 as <- <-; congruence|].
  pose proof (mwMessageHead_get_agrees (old u1) (old u2) eq_refl b h b1 Hb E He1) as E2.
  unfold old in E2. rewrite E2, He1.
  destruct (mwMessageType_of (mh_type h)) as [t|]; [|done].
  destruct (mwMessageHead_clone h) as [h'|]; [|done].
  refine (agrees_bind _ _ _ _ (body_get_agrees u1 u2 h' t) (body_get_safe u1 h' t) _ _
    b1 r g Hb1 E1 Herr); intros; [safe_tac|apply agrees_refl].
Qed.

(** A channel accept message cut off just before the length of its encryption
    block. *)
Definition accept_cut : list Z :=
  MW16_PUT 0x0006 ++ MW16_PUT 0 ++ MW32_PUT 1 ++
  MW32_PUT 0 ++ MW32_PUT 0 ++ MW32_PUT 0 ++ MW32_PUT 0 ++ [0] ++ MW16_PUT 0x1000.

Definition uninit_zero : Uninit :=
  {| u_type := 0; u_options := 0; u_channel := 0; u_junk := 0; u_skip := 0; u_count := 0 |}.
Definition uninit_skip : Uninit :=
  {| u_type := 0; u_options := 0; u_channel := 0; u_junk := 0; u_skip := 6; u_count := 0 |}.

(** The encryption item of the message a parse returns. *)
Definition parsed_item (p : option (option mwMessage * mwGetBuffer)) : option (option mwEncryptItem) :=
  match p with
  | Some (Some {| msg_head := _; msg_body := CHANNEL_ACCEPT m |}, _) => Some (ea_item (ca_encrypt m))
  | _ => None
  end.

(** On a truncated message the parser returns a message, error flag set,
    whose content is decided by the uninitialised local [skip]: the same bytes
    give an accept with a cipher or without one. *)
Theorem mwMessage_get_uninit_leak :
  parsed_item (mwMessage_get uninit_zero (mwGetBuffer_wrap (Some (opaque_of accept_cut)))) = Some None
  /\ parsed_item (mwMessage_get uninit_skip (mwGetBuffer_wrap (Some (opaque_of accept_cut))))
     = Some (Some ei_zero).
Proof. by vm_compute. Qed.

(** ** Witnesses *)

Definition send_abc : mwMessage := {|
  msg_head := {| mh_type := mwMessageType_code mwMessage_CHANNEL_SEND; mh_options := 0;
                 mh_channel := 5; mh_attribs := opaque_zero |};
  msg_body := CHANNEL_SEND {| cs_type := 1; cs_data := opaque_of [97; 98; 99] |} |}.

Lemma send_abc_ok : mwMessage_ok send_abc.
Proof. repeat split; try by apply (bool_decide_unpack _). all: by intros [=]. Qed.

Lemma mwMessage_roundtrip_witness :
  exists o g, message_send send_abc = Some o
    /\ mwMessage_get uninit_skip (mwGetBuffer_wrap (Some o)) = Some (Some send_abc, g)
    /\ mwGetBuffer_error g = false /\ mwGetBuffer_remaining g = 0.
Proof. exact (mwMessage_roundtrip uninit_skip send_abc send_abc_ok). Defined.

Lemma mwMessage_get_memory_safe_witness :
  exists r g, mwMessage_get uninit_skip (mwGetBuffer_wrap (Some (opaque_of accept_cut))) = Some (r, g)
    /\ gb_buf g = accept_cut /\ 0 <= gb_ptr g <= zlen accept_cut
    /\ mwGetBuffer_remaining g = zlen accept_cut - gb_ptr g.
Proof. apply (mwMessage_get_memory_safe uninit_skip accept_cut). reflexivity. Defined.

Lemma mwMessage_truncated_witness :
  exists r g, mwMessage_get uninit_zero
      (mwGetBuffer_wrap (Some (opaque_of (take 12 (mwMessage_enc send_abc))))) = Some (r, g)
    /\ mwGetBuffer_error g = true.
Proof.
  apply (mwMessage_truncated uninit_zero send_abc _ (drop 12 (mwMessage_enc send_abc)));
    [exact send_abc_ok|discriminate|reflexivity].
Defined.

Lemma mwMessage_get_uninit_independent_witness :
  exists g, mwMessage_get uninit_zero (mwGetBuffer_wrap (Some (opaque_of (mwMessage_enc send_abc))))
    = Some (Some send_abc, g).
Proof.
  eexists. apply (mwMessage_get_uninit_independent uninit_skip uninit_zero);
    [reflexivity|vm_compute; reflexivity|reflexivity].
Defined.
