(* ===== verification/Framing.v ===== *)
(** * Reassembly of messages from the socket (src/src/session.c, lines 694-885)

    Bytes arrive in chunks of any size; [mwSession_recv] cuts them into
    messages, each with four bytes of length, skips the keep-alive bytes in
    between, and keeps an incomplete message on the session buffer.  The
    development is over any owner of that buffer and any processing of the
    messages; [Session.v] instantiates it. *)

From S2P Require Import Prelude Buffer.

(** ** The session buffer *)

(** [buf], [buf_len] and [buf_used] of [struct mwSession]; [rb_buf] is the part
    of [buf] that has been written. *)
Record recv_buf := {
  rb_buf : list Z;
  rb_len : Z;
  rb_used : Z;
}.

(** [session_buf_free] *)
Definition rb_empty : recv_buf := {| rb_buf := []; rb_len := 0; rb_used := 0 |}.

(** [memcpy(s->buf + s->buf_used, b, n)] without the count of bytes used; [None]
    when it would write past the block. *)
Definition rb_memcpy (r : recv_buf) (b : list Z) : option (list Z) :=
  if decide (0 <= rb_used r /\ rb_used r + zlen b <= rb_len r)
  then Some (take (Z.to_nat (rb_used r)) (rb_buf r) ++ b) else None.

(** [g_malloc(len)] filled with [b]. *)
Definition rb_make (b : list Z) (len : Z) : option recv_buf :=
  if decide (zlen b <= len)
  then Some {| rb_buf := b; rb_len := len; rb_used := zlen b |} else None.

(** The owner of a buffer, and what it does with a message. *)
Class RecvOwner (W : Type) := {
  get_buf : W -> recv_buf;
  set_buf : recv_buf -> W -> W;
  process : list Z -> W -> option W;
}.

Section recv.
Context {W : Type} `{RecvOwner W}.

Definition session_buf_free (s : W) : W := set_buf rb_empty s.

(** [mwGetBuffer_wrap] and [guint32_peek] on the bytes at [b]. *)
Definition peek_length (b : list Z) (n : Z) : option Z :=
  guint32_peek (mwGetBuffer_wrap (Some {| len := n; data := Some b |})).

(** [b] is the input left and [n] its length; the result is the new [n]. *)
Definition session_recv_cont (b : list Z) (s : W) : option (Z * W) :=
  let n := zlen b in
  let r := get_buf s in
  let x := rb_len r - rb_used r in
  if n <? x then
    buf ← rb_memcpy r b;
    Some (0, set_buf {| rb_buf := buf; rb_len := rb_len r; rb_used := rb_used r + n |} s)
  else
    buf ← rb_memcpy r (take (Z.to_nat x) b);
    let s := set_buf {| rb_buf := buf; rb_len := rb_len r; rb_used := rb_used r |} s in
    let b := drop (Z.to_nat x) b in
    let n := n - x in
    if rb_len r =? 4 then
      x ← peek_length buf 4;
      if n <? x then
        hd ← mem_read buf 0 4;
        t ← rb_make (hd ++ b) (x + 4);
        Some (0, set_buf t (session_buf_free s))
      else
        let s := session_buf_free s in
        msg ← mem_read b 0 x;
        s ← process msg s;
        Some (n - x, s)
    else
      msg ← mem_read buf 4 (rb_len r - 4);
      s ← process msg s;
      Some (n, session_buf_free s).

Definition session_recv_empty (b : list Z) (s : W) : option (Z * W) :=
  let n := zlen b in
  if n <? 4 then
    t ← rb_make b 4;
    Some (0, set_buf t s)
  else
    x ← peek_length b n;
    if x =? 0 then Some (n - 4, s) else
    if n <? x + 4 then
      t ← rb_make b (x + 4);
      Some (0, set_buf t s)
    else
      msg ← mem_read b 4 x;
      s ← process msg s;
      Some (n - 4 - x, s).

(** [while(n && ( *b & 0x80))] *)
Fixpoint skip_keepalive (b : list Z) : list Z :=
  match b with
  | x :: b' => if Z.land x 0x80 =? 0 then b else skip_keepalive b'
  | [] => []
  end.

Definition session_recv (b : list Z) (s : W) : option (Z * W) :=
  let b := if rb_len (get_buf s) =? 0 then skip_keepalive b else b in
  if zlen b =? 0 then Some (0, s)
  else if 0 <? rb_len (get_buf s) then session_recv_cont b s
  else session_recv_empty b s.

(** [while(n > 0)]; [None] also when the fuel runs out. *)
Fixpoint recv_loop (fuel : nat) (b : list Z) (s : W) : option W :=
  match fuel with
  | O => None
  | S fuel =>
      if 0 <? zlen b then
        '(remain, s) ← session_recv b s;
        recv_loop fuel (drop (Z.to_nat (zlen b - remain)) b) s
      else Some s
  end.

Definition mwSession_recv (b : list Z) (s : W) : option W :=
  recv_loop (S (length b)) b s.

End recv.

(** ** The stream as messages *)

(** The messages at the front of a stream and the rest, which does not hold a
    whole message. *)
Fixpoint deframe_n (fuel : nat) (l : list Z) : list (list Z) * list Z :=
  match fuel, l with
  | O, _ | _, [] => ([], l)
  | S fuel, b :: l' =>
      if negb (Z.land b 0x80 =? 0) then deframe_n fuel l' else
      match be32 (take 4 l) with
      | None => ([], l)
      | Some x =>
          if zlen l <? x + 4 then ([], l) else
          let p := deframe_n fuel (drop (Z.to_nat (x + 4)) l) in
          (take (Z.to_nat x) (drop 4 l) :: p.1, p.2)
      end
  end.
Definition deframe (l : list Z) : list (list Z) * list Z := deframe_n (length l) l.

(** The buffer that holds an incomplete message. *)
Definition pending (r : list Z) : recv_buf :=
  match r with
  | [] => rb_empty
  | _ => {| rb_buf := r; rb_used := zlen r;
            rb_len := match be32 (take 4 r) with Some x => x + 4 | None => 4 end |}
  end.

(** What the processing may do with the buffer, and that it ignores the empty
    message. *)
Class RecvOwnerOk (W : Type) `{RecvOwner W} := {
  get_set_buf r (s : W) : get_buf (set_buf r s) = r;
  set_get_buf (s : W) : set_buf (get_buf s) s = s;
  set_set_buf r r' (s : W) : set_buf r (set_buf r' s) = set_buf r s;
  process_nil (s : W) : process [] s = Some s;
  process_idle m (s s' : W) :
    get_buf s = rb_empty -> process m s = Some s' -> get_buf s' = rb_empty;
  process_buf m r (s : W) :
    session_buf_free <$> process m (set_buf r s) = session_buf_free <$> process m s;
}.

(** The messages processed in order. *)
Fixpoint process_all {W} `{RecvOwner W} (ms : list (list Z)) (s : W) : option W :=
  match ms with
  | [] => Some s
  | m :: ms => s ← process m s; process_all ms s
  end.

(** * Theory *)

(** ** The first bytes of a stream *)

Lemma be32_take l : 4 <= zlen l -> exists x, be32 (take 4 l) = Some x /\ is_u32 x.
Proof.
  intros Hl. do 4 (destruct l as [|? l]; [rewrite ?zlen_cons, zlen_nil in Hl; lia|]).
  cbn. eexists. split; [done|]. rewrite MW32_GET_add. unfold is_u32.
  pose proof (fun z => Z.mod_pos_bound z (2 ^ 8) ltac:(lia)) as Hm.
  pose proof (Hm z). pose proof (Hm z0). pose proof (Hm z1). pose proof (Hm z2). lia.
Qed.

Lemma be32_short l : zlen l < 4 -> be32 (take 4 l) = None.
Proof.
  intros Hl. do 4 (destruct l as [|? l]; [done|]). pose proof (zlen_nonneg l).
  rewrite !zlen_cons in Hl. lia.
Qed.

Lemma peek_length_take b n : n = zlen b -> 4 <= n -> peek_length b n = be32 (take 4 b).
Proof.
  intros -> Hn. unfold peek_length, mwGetBuffer_wrap, guint32_peek. cbn [len data opt_list].
  destruct (Z.eqb_spec (zlen b) 0); [lia|]. cbn [gb_make gb_rem gb_buf].
  unfold guint32_buflen. destruct (Z.leb_spec 4 (zlen b)); [|lia].
  unfold mem_read. rewrite decide_True by lia. by rewrite drop_0.
Qed.

(** ** Deframing *)

(** The stream is at the length of a message. *)
Definition starts (l : list Z) : Prop :=
  match l with b :: _ => Z.land b 0x80 = 0 | [] => False end.

Lemma deframe_n_fuel n m l :
  (length l <= n)%nat -> (length l <= m)%nat -> deframe_n n l = deframe_n m l.
Proof.
  revert m l. induction n as [|n IH]; intros m l Hn Hm.
  { destruct l; [|cbn in Hn; lia]. by destruct m. }
  destruct l as [|b l]; [by destruct m|]. destruct m as [|m]; [cbn in Hm; lia|].
  cbn [deframe_n length] in *. destruct (negb _); [apply IH; lia|].
  destruct (be32 _) as [x|] eqn:E; [|done]. destruct (_ <? _) eqn:Hx; [done|].
  assert (0 <= x) as H0.
  { destruct (decide (4 <= zlen (b :: l))) as [H4|H4].
    - destruct (be32_take _ H4) as (x' & Hx' & Hu). rewrite Hx' in E. injection E as ->.
      unfold is_u32 in Hu. lia.
    - by rewrite be32_short in E by lia. }
  rewrite (IH m); [done| |]; rewrite length_drop; cbn [length]; lia.
Qed.

Lemma deframe_nil : deframe [] = ([], []).
Proof. done. Qed.

Lemma deframe_keepalive b l : Z.land b 0x80 <> 0 -> deframe (b :: l) = deframe l.
Proof.
  intros Hb. unfold deframe. cbn [length deframe_n].
  destruct (Z.eqb_spec (Z.land b 0x80) 0); [done|]. cbn [negb]. done.
Qed.

Lemma deframe_short l : starts l -> zlen l < 4 -> deframe l = ([], l).
Proof.
  intros Hs Hl. destruct l as [|b l]; [done|]. unfold deframe. cbn [length deframe_n].
  cbn [starts] in Hs. rewrite Hs, be32_short by done. done.
Qed.

Lemma deframe_wait l x :
  starts l -> be32 (take 4 l) = Some x -> zlen l < x + 4 -> deframe l = ([], l).
Proof.
  intros Hs Hx Hl. destruct l as [|b l]; [done|]. unfold deframe. cbn [length deframe_n].
  cbn [starts] in Hs. rewrite Hs, Hx. cbn [Z.eqb negb].
  by destruct (Z.ltb_spec (zlen (b :: l)) (x + 4)); [|lia].
Qed.

Lemma deframe_message l x :
  starts l -> be32 (take 4 l) = Some x -> 0 <= x -> x + 4 <= zlen l ->
  deframe l = (take (Z.to_nat x) (drop 4 l) :: (deframe (drop (Z.to_nat (x + 4)) l)).1,
               (deframe (drop (Z.to_nat (x + 4)) l)).2).
Proof.
  intros Hs Hx H0 Hl. destruct l as [|b l]; [done|]. unfold deframe at 1. cbn [length deframe_n].
  cbn [starts] in Hs. rewrite Hs, Hx. cbn [Z.eqb negb].
  destruct (Z.ltb_spec (zlen (b :: l)) (x + 4)); [lia|].
  rewrite (deframe_n_fuel (length l) (length (drop (Z.to_nat (x + 4)) (b :: l)))); [done| |done].
  rewrite length_drop. cbn [length]. lia.
Qed.

Lemma skip_keepalive_deframe l : deframe (skip_keepalive l) = deframe l.
Proof.
  induction l as [|b l IH]; [done|]. cbn [skip_keepalive].
  destruct (Z.eqb_spec (Z.land b 0x80) 0); [done|]. by rewrite deframe_keepalive.
Qed.

Lemma skip_keepalive_suffix l : exists k, l = k ++ skip_keepalive l.
Proof.
  induction l as [|b l [k IH]]; [by exists []|]. cbn [skip_keepalive].
  destruct (Z.land b 0x80 =? 0); [by exists []|]. exists (b :: k). cbn. by f_equal.
Qed.

Lemma skip_keepalive_starts l : skip_keepalive l = [] \/ starts (skip_keepalive l).
Proof.
  induction l as [|b l IH]; [by left|]. cbn [skip_keepalive].
  destruct (Z.eqb_spec (Z.land b 0x80) 0); [by right|done].
Qed.

(** A rest is an incomplete message or nothing. *)
Inductive incomplete : list Z -> Prop :=
  | incomplete_nil : incomplete []
  | incomplete_len l : starts l -> zlen l < 4 -> incomplete l
  | incomplete_msg l x : starts l -> be32 (take 4 l) = Some x -> 4 <= zlen l < x + 4 -> incomplete l.

Lemma incomplete_deframe l : incomplete l -> deframe l = ([], l).
Proof.
  intros []; [done|by apply deframe_short|]. eapply deframe_wait; [done|done|lia].
Qed.

Lemma starts_app l1 l2 : starts l1 -> starts (l1 ++ l2).
Proof. by destruct l1. Qed.

(** ** One call of [session_recv] *)

Section recv_spec.
Context {W : Type} {RO : RecvOwner W} {ROK : RecvOwnerOk W}.

(** The processing sees an idle buffer and leaves it so. *)
Definition clear (s : W) : W := session_buf_free s.

Lemma clear_set r s : clear (set_buf r s) = clear s.
Proof. apply set_set_buf. Qed.
Lemma get_clear s : get_buf (clear s) = rb_empty.
Proof. apply get_set_buf. Qed.
Lemma clear_idle s : get_buf s = rb_empty -> clear s = s.
Proof. intros E. unfold clear, session_buf_free. rewrite <- E. apply set_get_buf. Qed.

Lemma set_empty_clear s : set_buf rb_empty (clear s) = clear s.
Proof. apply set_set_buf. Qed.

(** What [session_recv] does with [b] when [p] is on the buffer: messages
    [ms], then [rest] is left of the input and [p'] on the buffer. *)
Definition recv_does (p b : list Z) (ms : list (list Z)) (rest p' : list Z) : Prop :=
  (exists k, b = k ++ rest) /\ zlen rest < zlen b
  /\ deframe (p ++ b) = (ms ++ (deframe (p' ++ rest)).1, (deframe (p' ++ rest)).2)
  /\ incomplete p' /\ (p' <> [] -> rest = [])
  /\ forall s : W, get_buf s = pending p ->
       session_recv b s =
       (s' ← process_all ms (clear s); Some (zlen rest, set_buf (pending p') s')).

(** The three ways a call ends: the input is buffered, *)
Lemma recv_does_wait p b :
  b <> [] -> incomplete (p ++ b) ->
  (forall s : W, get_buf s = pending p ->
     session_recv b s = Some (0, set_buf (pending (p ++ b)) s)) ->
  recv_does p b [] [] (p ++ b).
Proof.
  intros Hb Hi Hs. split_and!; [by exists b; rewrite app_nil_r| | |done|done|].
  - rewrite zlen_nil. destruct b; [done|]. rewrite zlen_cons. pose proof (zlen_nonneg b). lia.
  - rewrite app_nil_r. by rewrite incomplete_deframe by done.
  - intros s E. rewrite Hs by done. cbn [process_all mbind option_bind]. unfold clear, session_buf_free.
    by rewrite set_set_buf.
Qed.

(** or a message is processed, *)
Lemma recv_does_message p b k x rest :
  b = k ++ rest -> k <> [] -> starts (p ++ b) -> be32 (take 4 (p ++ b)) = Some x ->
  zlen p + zlen k = x + 4 -> 0 <= x ->
  (forall s : W, get_buf s = pending p ->
     session_recv b s =
     (s' ← process (drop 4 (p ++ k)) (clear s); Some (zlen rest, s'))) ->
  recv_does p b [drop 4 (p ++ k)] rest [].
Proof.
  intros -> Hk Hst Hx Hl H0 Hs. split_and!; [by exists k| | |constructor|done|].
  - rewrite zlen_app. destruct k; [done|]. rewrite zlen_cons. pose proof (zlen_nonneg k). lia.
  - pose proof (zlen_nonneg rest).
    rewrite (deframe_message _ x) by (try done; zlen_lia).
    assert (length (p ++ k) = Z.to_nat (x + 4)) as Hlen by (rewrite length_app; unfold zlen in *; lia).
    rewrite (app_assoc p k rest), <- Hlen, drop_app_length. cbn [app].
    rewrite drop_app_le by lia. rewrite take_app_length'; [done|].
    rewrite length_drop. lia.
  - intros s E. rewrite Hs by done. cbn [process_all].
    destruct (process _ (clear s)) as [s'|] eqn:Ep; [|done]. cbn [mbind option_bind].
    cbn [pending]. rewrite clear_idle at 1; [done|]. by eapply process_idle, Ep; apply get_clear.
Qed.

(** or only keep-alive bytes were there. *)
Lemma recv_does_skip b :
  b <> [] -> skip_keepalive b = [] -> recv_does [] b [] [] [].
Proof.
  intros Hb Hk. split_and!; [by exists b; rewrite app_nil_r| | |constructor|done|].
  - rewrite zlen_nil. destruct b; [done|]. rewrite zlen_cons. pose proof (zlen_nonneg b). lia.
  - cbn [app]. by rewrite <- skip_keepalive_deframe, Hk.
  - intros s E. unfold session_recv. rewrite E. cbn [pending rb_len rb_empty Z.eqb].
    rewrite Hk. cbn [process_all mbind option_bind]. rewrite zlen_nil. cbn [Z.eqb].
    cbn [pending]. by rewrite set_empty_clear, clear_idle.
Qed.

(** Skipped bytes in front make no difference. *)
Lemma recv_does_skipped b ms rest p' :
  recv_does [] (skip_keepalive b) ms rest p' -> starts (skip_keepalive b) ->
  recv_does [] b ms rest p'.
Proof.
  intros ((k & Hk) & Hlt & Hd & Hi & Hr & Hs) Hst.
  destruct (skip_keepalive_suffix b) as [k' Hk'].
  assert (skip_keepalive (skip_keepalive b) = skip_keepalive b) as Hidem.
  { destruct (skip_keepalive b) as [|x l]; [done|]. cbn [starts skip_keepalive] in *. by rewrite Hst. }
  split_and!; try done.
  - exists (k' ++ k). by rewrite <- app_assoc, <- Hk.
  - rewrite Hk' at 1. rewrite zlen_app. pose proof (zlen_nonneg k'). lia.
  - cbn [app] in *. by rewrite <- Hd, skip_keepalive_deframe.
  - intros s E. rewrite <- Hs by done. unfold session_recv. rewrite E.
    cbn [pending rb_len rb_empty Z.eqb]. by rewrite Hidem.
Qed.

Lemma session_recv_idle b s :
  get_buf s = rb_empty -> starts b -> session_recv b s = session_recv_empty b s.
Proof.
  intros E Hst. unfold session_recv. rewrite E. cbn [rb_len rb_empty Z.eqb].
  destruct b as [|x l]; [done|]. cbn [starts skip_keepalive] in *. rewrite Hst. cbn [Z.eqb].
  by destruct (Z.eqb_spec (zlen (x :: l)) 0) as [Hz|]; [apply zlen_0_nil in Hz|].
Qed.

Lemma starts_ne b : starts b -> b <> [].
Proof. by destruct b. Qed.

(** Input at the length of a message and an idle buffer. *)
Lemma recv_idle b : starts b -> exists ms rest p', recv_does [] b ms rest p'.
Proof.
  intros Hst. pose proof (starts_ne b Hst) as Hne.
  destruct (decide (zlen b < 4)) as [H4|H4].
  { exists [], [], b. apply (recv_does_wait []); [done|by apply incomplete_len|]. intros s E.
    rewrite session_recv_idle by done. unfold session_recv_empty.
    destruct (Z.ltb_spec (zlen b) 4); [|lia]. unfold rb_make. rewrite decide_True by lia.
    cbn [mbind option_bind app]. destruct b; [done|]. cbn [pending]. by rewrite be32_short. }
  destruct (be32_take b) as (x & Hx & Hu); [lia|]. unfold is_u32 in Hu.
  destruct (decide (zlen b < x + 4)) as [Hw|Hw].
  { exists [], [], b. apply (recv_does_wait []); [done|apply (incomplete_msg b x); [done|done|lia]|].
    intros s E. rewrite session_recv_idle by done. unfold session_recv_empty.
    rewrite peek_length_take, Hx by (done || lia). cbn [mbind option_bind app].
    destruct (Z.ltb_spec (zlen b) 4), (Z.eqb_spec x 0), (Z.ltb_spec (zlen b) (x + 4)); try lia.
    unfold rb_make. rewrite decide_True by lia. cbn [mbind option_bind].
    destruct b; [done|]. cbn [pending]. by rewrite Hx. }
  exists [drop 4 ([] ++ take (Z.to_nat (x + 4)) b)], (drop (Z.to_nat (x + 4)) b), [].
  apply (recv_does_message [] b _ x); cbn [app]; try done.
  - by rewrite take_drop.
  - intros Hn. apply (f_equal zlen) in Hn. revert Hn. zlen_lia.
  - zlen_lia.
  - lia.
  - intros s E. rewrite session_recv_idle by done. unfold session_recv_empty.
    rewrite peek_length_take, Hx by (done || lia). cbn [mbind option_bind app].
    rewrite zlen_drop. rewrite clear_idle by done.
    destruct (Z.ltb_spec (zlen b) 4), (Z.ltb_spec (zlen b) (x + 4)); try lia.
    destruct (Z.eqb_spec x 0) as [->|Hx0].
    + change (Z.to_nat (0 + 4)) with 4%nat. rewrite skipn_firstn_comm.
      cbn [Nat.sub take]. rewrite process_nil.
      cbn [mbind option_bind]. do 2 f_equal. lia.
    + unfold mem_read. rewrite decide_True by lia. cbn [mbind option_bind].
      change (Z.to_nat 4) with 4%nat. rewrite skipn_firstn_comm.
      replace (Z.to_nat (x + 4) - 4)%nat with (Z.to_nat x) by lia.
      destruct (process _ s); [|done]. cbn [mbind option_bind]. do 2 f_equal. lia.
Qed.

Lemma session_recv_pending p b s :
  get_buf s = pending p -> starts p -> 0 < rb_len (pending p) -> b <> [] ->
  session_recv b s = session_recv_cont b s.
Proof.
  intros E Hst Hl Hb. unfold session_recv. rewrite E.
  destruct (Z.eqb_spec (rb_len (pending p)) 0), (Z.ltb_spec 0 (rb_len (pending p))); try lia.
  destruct (Z.eqb_spec (zlen b) 0) as [Hz|]; [by apply zlen_0_nil in Hz|done].
Qed.

Lemma zlen_pos {A} (l : list A) : l <> [] -> 0 < zlen l.
Proof. destruct l; [done|]. rewrite zlen_cons. pose proof (zlen_nonneg l). lia. Qed.

(** The buffer of an incomplete message. *)
Lemma pending_fields p n :
  starts p -> match be32 (take 4 p) with Some x => x + 4 | None => 4 end = n ->
  pending p = {| rb_buf := p; rb_len := n; rb_used := zlen p |}.
Proof. intros Hst <-. by destruct p. Qed.

Lemma rb_memcpy_at p n b : zlen p + zlen b <= n ->
  rb_memcpy {| rb_buf := p; rb_len := n; rb_used := zlen p |} b = Some (p ++ b).
Proof.
  intros Hn. unfold rb_memcpy. cbn [rb_len rb_used rb_buf]. pose proof (zlen_nonneg p).
  rewrite decide_True by lia. by rewrite to_nat_zlen, firstn_all.
Qed.

(** Input after part of the four bytes of a length. *)
Lemma recv_cont_length p b : starts p -> zlen p < 4 -> b <> [] ->
  exists ms rest p', recv_does p b ms rest p'.
Proof.
  intros Hst Hp Hb. pose proof (zlen_pos b Hb) as Hbl. pose proof (zlen_pos p (starts_ne p Hst)) as Hpl.
  pose proof (pending_fields p 4 Hst) as Hpf. rewrite be32_short in Hpf by done. specialize (Hpf eq_refl).
  assert (forall s : W, get_buf s = pending p -> session_recv b s = session_recv_cont b s) as Hcont.
  { intros s E. apply (session_recv_pending p); try done. rewrite Hpf. cbn. lia. }
  destruct (decide (zlen b < 4 - zlen p)) as [Hw|Hw].
  { assert (zlen (p ++ b) < 4) as Hl by zlen_lia. pose proof (starts_app p b Hst) as Hst'.
    exists [], [], (p ++ b). apply recv_does_wait; [done|by apply incomplete_len|].
    intros s E. rewrite Hcont, (pending_fields (p ++ b) 4), zlen_app
      by (done || by rewrite be32_short).
    unfold session_recv_cont. rewrite E, Hpf. cbn [rb_len rb_used].
    destruct (Z.ltb_spec (zlen b) (4 - zlen p)); [|lia]. by rewrite rb_memcpy_at by lia. }
  set (k := take (Z.to_nat (4 - zlen p)) b). set (b' := drop (Z.to_nat (4 - zlen p)) b).
  assert (b = k ++ b') as Hkb by (symmetry; apply take_drop).
  assert (zlen k = 4 - zlen p) as Hk by (unfold k; zlen_lia).
  assert (zlen b' = zlen b - (4 - zlen p)) as Hb' by (unfold b'; zlen_lia).
  destruct (be32_take (p ++ b)) as (x & Hx & Hu); [zlen_lia|]. unfold is_u32 in Hu.
  assert (length (p ++ k) = 4%nat) as Hl4 by (rewrite length_app; unfold zlen in *; lia).
  assert (take 4 (p ++ b) = p ++ k) as H4 by (rewrite Hkb, app_assoc; by apply take_app_length').
  assert (take 4 (p ++ k) = p ++ k) as H4' by (rewrite <- Hl4; apply firstn_all).
  assert (forall s : W, get_buf s = pending p -> session_recv_cont b s =
    if zlen b' <? x then t ← rb_make ((p ++ k) ++ b') (x + 4); Some (0, set_buf t (clear s))
    else msg ← mem_read b' 0 x; s ← process msg (clear s); Some (zlen b' - x, s)) as Hrun.
  { intros s E. unfold session_recv_cont. rewrite E, Hpf. cbn [rb_len rb_used].
    destruct (Z.ltb_spec (zlen b) (4 - zlen p)); [lia|].
    fold k b'. rewrite rb_memcpy_at by lia. cbn [mbind option_bind Z.eqb Pos.eqb].
    rewrite peek_length_take, H4', <- H4, Hx by (unfold zlen; lia). cbn [mbind option_bind].
    rewrite <- Hb', H4. unfold mem_read at 1. rewrite decide_True by (unfold zlen; lia).
    cbn [Z.to_nat drop]. rewrite drop_0. cbn [mbind option_bind]. unfold session_buf_free.
    change (Z.to_nat 4) with 4%nat. rewrite H4'. by rewrite set_set_buf. }
  pose proof (starts_app p b Hst) as Hst'.
  destruct (decide (zlen b' < x)) as [Hn|Hn].
  - exists [], [], (p ++ b). apply recv_does_wait; [done|apply (incomplete_msg _ x); try done; zlen_lia|].
    intros s E. rewrite Hcont, Hrun, (pending_fields (p ++ b) (x + 4)) by (done || by rewrite Hx).
    destruct (Z.ltb_spec (zlen b') x); [|lia]. rewrite <- app_assoc, <- Hkb.
    unfold rb_make. rewrite decide_True by zlen_lia. cbn [mbind option_bind]. by rewrite <- (set_set_buf _ rb_empty s).
  - exists [drop 4 (p ++ k ++ take (Z.to_nat x) b')], (drop (Z.to_nat x) b'), [].
    apply (recv_does_message p b (k ++ take (Z.to_nat x) b') x); try done.
    + by rewrite <- app_assoc, take_drop.
    + intros He. apply (f_equal zlen) in He. revert He. rewrite zlen_app, Hk. zlen_lia.
    + rewrite zlen_app, Hk, zlen_take. lia.
    + lia.
    + intros s E. rewrite Hcont, Hrun by done. destruct (Z.ltb_spec (zlen b') x); [lia|].
      rewrite app_assoc, drop_app_length' by done. unfold mem_read. rewrite decide_True by lia.
      cbn [mbind option_bind]. rewrite drop_0, zlen_drop.
      destruct (process _ (clear s)); [|done]. cbn [mbind option_bind]. do 2 f_equal. lia.
Qed.

(** Input after the length of a message and part of it. *)
Lemma recv_cont_message p b x :
  starts p -> be32 (take 4 p) = Some x -> 4 <= zlen p < x + 4 -> b <> [] ->
  exists ms rest p', recv_does p b ms rest p'.
Proof.
  intros Hst Hx Hp Hb. pose proof (zlen_pos b Hb) as Hbl.
  pose proof (pending_fields p (x + 4) Hst) as Hpf. rewrite Hx in Hpf. specialize (Hpf eq_refl).
  assert (forall s : W, get_buf s = pending p -> session_recv b s = session_recv_cont b s) as Hcont.
  { intros s E. apply (session_recv_pending p); try done. rewrite Hpf. cbn. lia. }
  pose proof (starts_app p b Hst) as Hst'.
  assert (be32 (take 4 (p ++ b)) = Some x) as Hx'.
  { rewrite take_app_le; [done|]. unfold zlen in Hp. lia. }
  destruct (decide (zlen b < x + 4 - zlen p)) as [Hw|Hw].
  - exists [], [], (p ++ b). apply recv_does_wait; [done|apply (incomplete_msg _ x); try done; zlen_lia|].
    intros s E. rewrite Hcont, (pending_fields (p ++ b) (x + 4)), zlen_app by (done || by rewrite Hx').
    unfold session_recv_cont. rewrite E, Hpf. cbn [rb_len rb_used].
    destruct (Z.ltb_spec (zlen b) (x + 4 - zlen p)); [|lia]. by rewrite rb_memcpy_at by lia.
  - set (k := take (Z.to_nat (x + 4 - zlen p)) b).
    assert (zlen k = x + 4 - zlen p) as Hk by (unfold k; zlen_lia).
    exists [drop 4 (p ++ k)], (drop (Z.to_nat (x + 4 - zlen p)) b), [].
    apply (recv_does_message p b k x); try done.
    + symmetry. apply take_drop.
    + intros He. rewrite He, zlen_nil in Hk. lia.
    + lia.
    + lia.
    + intros s E. rewrite Hcont by done. unfold session_recv_cont. rewrite E, Hpf. cbn [rb_len rb_used].
      destruct (Z.ltb_spec (zlen b) (x + 4 - zlen p)); [lia|].
      fold k. rewrite rb_memcpy_at by lia. cbn [mbind option_bind].
      destruct (Z.eqb_spec (x + 4) 4); [lia|].
      unfold mem_read. rewrite decide_True by zlen_lia. cbn [mbind option_bind].
      change (Z.to_nat 4) with 4%nat. rewrite firstn_all2 by (rewrite length_drop, length_app; unfold zlen in *; lia).
      set (m := drop 4 (p ++ k)). rewrite zlen_drop.
      match goal with |- context [process m (set_buf ?r s)] =>
        pose proof (process_buf m r s) as Hpb; pose proof (process_buf m rb_empty s) as Hpc end.
      rewrite <- Hpc in Hpb. change (set_buf rb_empty s) with (clear s) in Hpb.
      destruct (process m (set_buf _ s)) as [s1|], (process m (clear s)) as [s2|] eqn:E2;
        cbn in Hpb |- *; try done. injection Hpb as ->.
      fold (clear s2). rewrite clear_idle by (by eapply process_idle, E2; apply get_clear).
      do 2 f_equal. lia.
Qed.

Lemma recv_one p b : incomplete p -> b <> [] -> exists ms rest p', recv_does p b ms rest p'.
Proof.
  intros [|? ? ?|? x ? ? ?] Hb.
  - destruct (skip_keepalive_starts b) as [Hk|Hst].
    + exists [], [], []. by apply recv_does_skip.
    + destruct (recv_idle _ Hst) as (ms & rest & p' & Hr). exists ms, rest, p'.
      by apply recv_does_skipped.
  - by apply recv_cont_length.
  - by eapply recv_cont_message.
Qed.

(** ** Whole chunks *)

(** The buffer holds an incomplete message [p] and nothing else. *)
Definition holds (p : list Z) (s : W) : Prop := incomplete p /\ get_buf s = pending p.

Lemma process_all_app ms1 ms2 (s : W) :
  process_all (ms1 ++ ms2) s = s' ← process_all ms1 s; process_all ms2 s'.
Proof.
  revert s. induction ms1 as [|m ms1 IH]; intros s; [done|]. cbn [process_all app].
  destruct (process m s) as [s'|]; [|done]. cbn. apply IH.
Qed.

Lemma process_all_idle ms (s s' : W) :
  get_buf s = rb_empty -> process_all ms s = Some s' -> get_buf s' = rb_empty.
Proof.
  revert s. induction ms as [|m ms IH]; intros s Hs; cbn [process_all]; [by intros [= <-]|].
  destruct (process m s) as [s1|] eqn:E; [|done]. cbn. apply IH. by eapply process_idle.
Qed.

Lemma recv_loop_spec fuel p b (s : W) :
  holds p s -> (length b < fuel)%nat ->
  recv_loop fuel b s =
  s' ← process_all (deframe (p ++ b)).1 (clear s);
  Some (set_buf (pending (deframe (p ++ b)).2) s').
Proof.
  revert p b s. induction fuel as [|fuel IH]; intros p b s [Hi E] Hf; [lia|]. cbn [recv_loop].
  destruct b as [|x b'].
  { rewrite app_nil_r, incomplete_deframe by done. cbn [zlen length Z.of_nat Z.ltb Z.compare].
    cbn [fst snd process_all mbind option_bind]. unfold clear, session_buf_free.
    by rewrite set_set_buf, <- E, set_get_buf. }
  set (b := x :: b') in *. assert (b <> []) as Hb by done. clearbody b.
  destruct (recv_one p b Hi Hb) as (ms & rest & p' & (k & Hk) & Hlt & Hd & Hi' & _ & Hs).
  destruct (Z.ltb_spec 0 (zlen b)); [|pose proof (zlen_pos b Hb); lia].
  rewrite Hs, Hd by done. cbn [fst snd]. rewrite process_all_app.
  destruct (process_all ms (clear s)) as [s'|] eqn:Ep; [|done]. cbn [mbind option_bind].
  replace (drop (Z.to_nat (zlen b - zlen rest)) b) with rest.
  2:{ rewrite Hk, zlen_app. replace (zlen k + zlen rest - zlen rest) with (zlen k) by lia.
      by rewrite to_nat_zlen, drop_app_length. }
  rewrite (IH p' rest).
  - rewrite clear_set, clear_idle; [done|]. eapply process_all_idle, Ep. apply get_clear.
  - split; [done|apply get_set_buf].
  - unfold zlen in Hlt. lia.
Qed.

Lemma mwSession_recv_spec p b (s : W) :
  holds p s ->
  mwSession_recv b s =
  s' ← process_all (deframe (p ++ b)).1 (clear s);
  Some (set_buf (pending (deframe (p ++ b)).2) s').
Proof. intros H. apply recv_loop_spec; [done|lia]. Qed.

Lemma deframe_n_incomplete n l : (length l <= n)%nat -> incomplete (deframe_n n l).2.
Proof.
  revert l. induction n as [|n IH]; intros l Hl.
  { destruct l; [constructor|cbn in Hl; lia]. }
  destruct l as [|b l]; [constructor|]. cbn [deframe_n length] in *.
  destruct (Z.eqb_spec (Z.land b 0x80) 0) as [Hb|Hb]; cbn [negb]; [|apply IH; lia].
  destruct (be32 _) as [x|] eqn:E.
  - destruct (Z.ltb_spec (zlen (b :: l)) (x + 4)).
    + destruct (decide (zlen (b :: l) < 4)); [by apply incomplete_len|].
      cbn [snd]. apply (incomplete_msg _ x); [done|done|lia].
    + cbn [snd]. apply IH. rewrite length_drop. cbn [length].
      destruct (decide (4 <= zlen (b :: l))) as [H4|H4].
      * destruct (be32_take _ H4) as (x' & Hx' & Hu). rewrite Hx' in E. injection E as ->.
        unfold is_u32 in Hu. lia.
      * by rewrite be32_short in E by lia.
  - apply incomplete_len; [done|]. destruct (decide (4 <= zlen (b :: l))) as [H4|H4]; [|cbn [snd]; lia].
    destruct (be32_take _ H4) as (x & Hx & _). congruence.
Qed.

Lemma deframe_incomplete l : incomplete (deframe l).2.
Proof. by apply deframe_n_incomplete. Qed.

(** C2: whatever bytes arrive and however much of a message is on the buffer,
    [mwSession_recv] ends, stays inside its buffers, and hands over exactly
    the messages that the stream so far completes, in order; what is left is
    an incomplete message, kept on the buffer. *)
Theorem mwSession_recv_deframes p b (s : W) :
  holds p s ->
  mwSession_recv b s =
  (s' ← process_all (deframe (p ++ b)).1 (session_buf_free s);
   Some (set_buf (pending (deframe (p ++ b)).2) s')).
Proof. apply mwSession_recv_spec. Qed.

Lemma mwSession_recv_holds p b (s s' : W) :
  holds p s -> mwSession_recv b s = Some s' -> holds (deframe (p ++ b)).2 s'.
Proof.
  intros Hs. rewrite (mwSession_recv_spec p) by done.
  destruct (process_all _ _) as [s1|]; [|done]. cbn. intros [= <-].
  split; [apply deframe_incomplete|apply get_set_buf].
Qed.

End recv_spec.

(** ** Chunking *)

(** Deframing a stream is deframing its beginning and then the rest behind
    what was left over. *)
Lemma deframe_n_app n l1 l2 : (length l1 <= n)%nat ->
  deframe (l1 ++ l2) =
  ((deframe_n n l1).1 ++ (deframe ((deframe_n n l1).2 ++ l2)).1,
   (deframe ((deframe_n n l1).2 ++ l2)).2).
Proof.
  revert l1. induction n as [|n IH]; intros l1 Hl.
  { destruct l1; [|cbn in Hl; lia]. apply surjective_pairing. }
  destruct l1 as [|b l1]; [apply surjective_pairing|]. cbn [deframe_n length] in *.
  destruct (Z.eqb_spec (Z.land b 0x80) 0) as [Hb|Hb]; cbn [negb].
  - destruct (be32 (take 4 (b :: l1))) as [x|] eqn:E.
    + assert (4 <= zlen (b :: l1)) as H4.
      { destruct (decide (4 <= zlen (b :: l1))); [done|]. by rewrite be32_short in E by lia. }
      destruct (be32_take _ H4) as (x' & Hx' & Hu). rewrite Hx' in E. injection E as ->.
      unfold is_u32 in Hu. destruct (Z.ltb_spec (zlen (b :: l1)) (x + 4)) as [Hlt|Hge].
      * cbn [fst snd]. apply surjective_pairing.
      * rewrite (deframe_message _ x).
        -- rewrite (drop_app_le _ _ (Z.to_nat (x + 4))) by (unfold zlen in Hge; lia).
           rewrite (IH (drop (Z.to_nat (x + 4)) (b :: l1)))
             by (rewrite length_drop; cbn [length]; lia).
           rewrite (drop_app_le _ _ 4) by (unfold zlen in H4; lia).
           rewrite take_app_le by (rewrite length_drop; unfold zlen in *; lia). done.
        -- done.
        -- by rewrite take_app_le by (unfold zlen in H4; lia).
        -- lia.
        -- rewrite zlen_app. pose proof (zlen_nonneg l2). lia.
    + cbn [fst snd]. apply surjective_pairing.
  - cbn [app]. rewrite deframe_keepalive by done. apply IH. lia.
Qed.

Lemma deframe_app l1 l2 :
  deframe (l1 ++ l2) =
  ((deframe l1).1 ++ (deframe ((deframe l1).2 ++ l2)).1, (deframe ((deframe l1).2 ++ l2)).2).
Proof. by apply deframe_n_app. Qed.

(** ** What the other side sends *)

(** A message with its length, or a keep-alive byte. *)
Inductive unit_sent :=
  | SentMessage (payload : list Z)
  | SentKeepalive (b : Z).

Definition sent_bytes (u : unit_sent) : list Z :=
  match u with
  | SentMessage payload => MW32_PUT (zlen payload) ++ payload
  | SentKeepalive b => [b]
  end.
Definition sent_payload (u : unit_sent) : list (list Z) :=
  match u with SentMessage payload => [payload] | SentKeepalive _ => [] end.
Definition sent_ok (u : unit_sent) : Prop :=
  match u with
  | SentMessage payload => zlen payload < 2 ^ 31
  | SentKeepalive b => Z.land b 0x80 <> 0
  end.
#[export] Instance sent_ok_dec u : Decision (sent_ok u).
Proof. destruct u; cbn; apply _. Defined.

Lemma starts_put n l : 0 <= n < 2 ^ 31 -> starts (MW32_PUT n ++ l).
Proof.
  intros Hn. unfold MW32_PUT. cbn [app starts]. rewrite <- Z.land_assoc. change (Z.land 0xff 0x80) with 0x80.
  apply Z.bits_inj'. intros i Hi. rewrite Z.bits_0, Z.land_spec, Z.shiftr_spec by done.
  destruct (Z.eqb_spec i 7) as [->|Hne].
  - rewrite <- (Z.mod_small n (2 ^ 31)) by done. by rewrite Z.mod_pow2_bits_high by lia.
  - replace (Z.testbit 128 i) with false; [apply andb_false_r|].
    change 128 with (2 ^ 7). symmetry. apply Z.pow2_bits_false. lia.
Qed.

Lemma deframe_sent us : Forall sent_ok us ->
  deframe (concat (map sent_bytes us)) = (concat (map sent_payload us), []).
Proof.
  induction 1 as [|u us Hu _ IH]; [done|]. cbn [map concat]. destruct u as [m|b]; cbn [sent_bytes sent_payload sent_ok] in *.
  - pose proof (zlen_nonneg m).
    assert (length (MW32_PUT (zlen m)) = 4%nat) as Hl by done.
    rewrite <- app_assoc. rewrite (deframe_message _ (zlen m)).
    + rewrite drop_app_length', take_app_length' by (done || by rewrite to_nat_zlen).
      replace (Z.to_nat (zlen m + 4)) with (length (MW32_PUT (zlen m)) + length m)%nat
        by (rewrite Hl; unfold zlen; lia).
      rewrite (app_assoc _ m), <- length_app, drop_app_length, IH. done.
    + apply starts_put. lia.
    + rewrite take_app_length' by done. rewrite MW32_GET_PUT, u32_id; [done|]. unfold is_u32. lia.
    + done.
    + rewrite !zlen_app, MW32_PUT_len. pose proof (zlen_nonneg (concat (map sent_bytes us))). lia.
  - cbn [app]. by rewrite deframe_keepalive, IH.
Qed.

(** The chunks read from the socket, one call each. *)
Fixpoint recv_chunks {W} `{RecvOwner W} (bs : list (list Z)) (s : W) : option W :=
  match bs with
  | [] => Some s
  | b :: bs => s ← mwSession_recv b s; recv_chunks bs s
  end.

Section delivery.
Context {W : Type} {RO : RecvOwner W} {ROK : RecvOwnerOk W}.

(** How the socket cuts the stream does not matter: two chunks are
    received as their concatenation is. *)
Theorem mwSession_recv_chunks p b1 b2 (s : W) :
  holds p s ->
  mwSession_recv (b1 ++ b2) s = s' ← mwSession_recv b1 s; mwSession_recv b2 s'.
Proof.
  intros Hs. rewrite !(mwSession_recv_spec p) by done.
  rewrite (app_assoc p), deframe_app. cbn [fst snd]. rewrite process_all_app.
  destruct (process_all (deframe (p ++ b1)).1 (clear s)) as [s1|] eqn:E; [|done].
  cbn [mbind option_bind].
  rewrite (mwSession_recv_spec (deframe (p ++ b1)).2); [|split].
  - rewrite clear_set, clear_idle; [done|]. eapply process_all_idle, E. apply get_clear.
  - apply deframe_incomplete.
  - apply get_set_buf.
Qed.

Lemma recv_chunks_concat p bs (s : W) :
  holds p s -> recv_chunks bs s = mwSession_recv (concat bs) s.
Proof.
  revert p s. induction bs as [|b bs IH]; intros p s Hs; cbn [recv_chunks concat].
  - rewrite (mwSession_recv_spec p) by done. destruct Hs as [Hi E]. rewrite app_nil_r, incomplete_deframe by done.
    cbn [fst snd process_all mbind option_bind]. unfold clear, session_buf_free.
    by rewrite set_set_buf, <- E, set_get_buf.
  - rewrite (mwSession_recv_chunks p) by done.
    destruct (mwSession_recv b s) as [s'|] eqn:E; [|done]. cbn [mbind option_bind].
    apply (IH (deframe (p ++ b)).2). by eapply mwSession_recv_holds.
Qed.

(** The messages the other side sends, with keep-alive bytes anywhere
    between them, are processed one by one and in order, for every way of
    cutting the stream into chunks, and the buffer is then idle again. *)
Lemma recv_delivers us bs (s : W) :
  Forall sent_ok us -> get_buf s = rb_empty -> concat bs = concat (map sent_bytes us) ->
  recv_chunks bs s = process_all (concat (map sent_payload us)) s.
Proof.
  intros Hus E Hbs. assert (holds [] s) as Hs by (split; [constructor|done]).
  rewrite (recv_chunks_concat []), Hbs, (mwSession_recv_spec []) by done. cbn [app]. rewrite deframe_sent by done.
  cbn [fst snd pending]. rewrite clear_idle by done.
  destruct (process_all _ s) as [s'|] eqn:Ep; [|done]. cbn [mbind option_bind]. f_equal.
  apply (clear_idle s'). by eapply process_all_idle, Ep.
Qed.

End delivery.

(** ** What every call keeps *)

(** A relation that the processing of a message and the writing of the buffer
    keep is kept by the reception of any bytes. *)
Section preserved.
Context {W : Type} {RO : RecvOwner W} (R : W -> W -> Prop) {HR : PreOrder R}
  (Hbuf : forall r s, R s (set_buf r s))
  (Hproc : forall m s s', process m s = Some s' -> R s s').

Ltac keep_step :=
  match goal with
  | |- match ?o ≫= _ with _ => _ end => destruct o eqn:?; cbn [mbind option_bind]; [|done]
  | |- match (if ?b then _ else _) with _ => _ end => destruct b
  end.

Lemma session_recv_keeps b s :
  match session_recv b s with Some (_, s') => R s s' | None => True end.
Proof.
  unfold session_recv. generalize (if rb_len (get_buf s) =? 0 then skip_keepalive b else b).
  intros b'. destruct (zlen b' =? 0); [reflexivity|].
  destruct (0 <? _).
  - unfold session_recv_cont, session_buf_free. repeat keep_step; eauto.
    + etrans; [|apply Hbuf]. etrans; [|apply Hbuf]. apply Hbuf.
    + etrans; [|by eapply Hproc]. etrans; [|apply Hbuf]. apply Hbuf.
    + etrans; [|apply Hbuf]. etrans; [|by eapply Hproc]. apply Hbuf.
  - unfold session_recv_empty. repeat keep_step; eauto; reflexivity.
Qed.

Lemma mwSession_recv_keeps b s s' : mwSession_recv b s = Some s' -> R s s'.
Proof.
  unfold mwSession_recv. generalize (S (length b)). intros fuel. revert b s.
  induction fuel as [|fuel IH]; intros b s; cbn [recv_loop]; [done|].
  destruct (0 <? zlen b); [|by intros [= <-]].
  pose proof (session_recv_keeps b s) as H. destruct (session_recv b s) as [[n s1]|]; [|done].
  cbn [mbind option_bind]. intros E. etrans; [exact H|]. by eapply IH.
Qed.
End preserved.

(** ** Witnesses *)

(** An owner that keeps the messages it is handed. *)
Record inbox := { ib_buf : recv_buf; ib_msgs : list (list Z) }.

#[export] Instance inbox_owner : RecvOwner inbox := {
  get_buf := ib_buf;
  set_buf r s := {| ib_buf := r; ib_msgs := ib_msgs s |};
  process m s :=
    Some (if decide (m = []) then s
          else {| ib_buf := ib_buf s; ib_msgs := ib_msgs s ++ [m] |});
}.

#[export] Instance inbox_owner_ok : RecvOwnerOk inbox.
Proof.
  split.
  - done.
  - by intros [].
  - done.
  - done.
  - cbn. intros m s s' Hs [= <-]. by case_decide.
  - intros m r s. cbn. f_equal. by case_decide.
Qed.

Definition inbox_new : inbox := {| ib_buf := rb_empty; ib_msgs := [] |}.

Lemma mwSession_recv_deframes_witness :
  mwSession_recv [7; 8; 0x80; 0; 0; 0; 1; 9; 0] {| ib_buf := pending [0; 0; 0; 2]; ib_msgs := [] |}
  = Some {| ib_buf := pending [0]; ib_msgs := [[7; 8]; [9]] |}.
Proof.
  rewrite (mwSession_recv_deframes [0; 0; 0; 2]).
  - vm_compute. reflexivity.
  - split; [|reflexivity]. apply (incomplete_msg _ 2); [reflexivity|reflexivity|].
    split; [discriminate|reflexivity].
Defined.

Lemma mwSession_recv_chunks_witness :
  mwSession_recv ([0; 0; 0] ++ [1; 9]) inbox_new =
  s' ← mwSession_recv [0; 0; 0] inbox_new; mwSession_recv [1; 9] s'.
Proof.
  apply (mwSession_recv_chunks []). split; [constructor|reflexivity].
Defined.

Example recv_delivers_example :
  recv_chunks [[0]; [0; 0; 1; 5; 0x80; 0]; [0; 0; 2; 6; 7; 0xff]] inbox_new
  = Some {| ib_buf := rb_empty; ib_msgs := [[5]; [6; 7]] |}.
Proof.
  rewrite (recv_delivers [SentMessage [5]; SentKeepalive 0x80; SentMessage [6; 7]; SentKeepalive 0xff]).
  - vm_compute. reflexivity.
  - by apply (bool_decide_unpack _).
  - reflexivity.
  - reflexivity.
Qed.
