(* ===== verification/Cstring.v ===== *)
(** * Strings of the C library

    What src/src/st_list.c, error.c and mw_debug.c use of the C library and of
    glib on strings: [sscanf] with the conversions [%u], [%s] and [%c], the
    digits of [%u] and [%x] in [printf], [strstr] and [strrchr].  A string is the list of its
    bytes before the terminating zero; the locale is "C". *)

From Stdlib Require String Ascii.
From S2P Require Import Prelude.

(** The bytes of a string literal. *)
Definition chars (s : String.string) : list Z :=
  map (fun c => Z.of_N (Ascii.N_of_ascii c)) (String.list_ascii_of_string s).

(** ** Characters *)

(** [isspace], and [g_ascii_isspace], which lacks the vertical tab. *)
Definition isspace (c : Z) : bool := (c =? 32) || ((9 <=? c) && (c <=? 13)).
Definition g_ascii_isspace (c : Z) : bool :=
  (c =? 32) || (c =? 9) || (c =? 10) || (c =? 12) || (c =? 13).
Definition isdigit (c : Z) : bool := (48 <=? c) && (c <=? 57).

(** The longest prefix of characters with [p], and the rest. *)
Fixpoint span (p : Z -> bool) (l : list Z) : list Z * list Z :=
  match l with
  | c :: l' => if p c then let '(a, b) := span p l' in (c :: a, b) else ([], l)
  | [] => ([], [])
  end.

Definition skip_space (l : list Z) : list Z := (span isspace l).2.

(** ** [%u] *)

(** The digits of a number below [10 ^ fuel]. *)
Fixpoint digits (fuel : nat) (n : Z) : list Z :=
  match fuel with
  | O => []
  | S fuel => if n <? 10 then [48 + n] else digits fuel (n / 10) ++ [48 + n mod 10]
  end.
(** An [unsigned int] has at most ten. *)
Definition print_u (n : Z) : list Z := digits 10 n.

(** [%02x] and [%08x], of a number of no more digits. *)

Definition hex_digit (d : Z) : Z := if d <? 10 then 48 + d else 87 + d.

(** [n] digits of [v]. *)
Fixpoint print_hex (n : nat) (v : Z) : list Z :=
  match n with
  | O => []
  | S n => print_hex n (v / 16) ++ [hex_digit (v mod 16)]
  end.

Definition digits_value (l : list Z) : Z := fold_left (fun n c => n * 10 + (c - 48)) l 0.

(** [strtoul] on a sign and digits: the value is at most that of the largest
    [unsigned long], and a minus sign negates it. *)
Definition strtoul (minus : bool) (l : list Z) : Z :=
  let n := digits_value l in
  if 2 ^ 64 <=? n then 2 ^ 64 - 1 else if minus then gsize (- n) else n.

(** Whether there is a minus sign, and what follows the sign. *)
Definition scan_sign (l : list Z) : bool * list Z :=
  match l with
  | c :: l' => if c =? 43 then (false, l') else if c =? 45 then (true, l') else (false, l)
  | [] => (false, l)
  end.

(** The number and the rest, [None] when there is no number. *)
Definition scan_u (l : list Z) : option (Z * list Z) :=
  let l := skip_space l in
  let '(minus, l) := scan_sign l in
  match span isdigit l with
  | ([], _) => None
  | (ds, l) => Some (u32 (strtoul minus ds), l)
  end.

(** ** [sscanf] *)

(** [Fmt_s n] stores into a block of [n] bytes. *)
Inductive directive := Lit (c : Z) | Space | Fmt_u | Fmt_s (n : Z) | Fmt_c.
Inductive scanned := ScanU (n : Z) | ScanS (s : list Z) | ScanC (c : Z).

(** The conversions made; [None] when a string does not fit its block. *)
Fixpoint sscanf (l : list Z) (fmt : list directive) : option (list scanned) :=
  match fmt with
  | [] => Some []
  | Lit c :: fmt =>
      match l with
      | c' :: l => if c' =? c then sscanf l fmt else Some []
      | [] => Some []
      end
  | Space :: fmt => sscanf (skip_space l) fmt
  | Fmt_u :: fmt =>
      match scan_u l with
      | Some (n, l) => r ← sscanf l fmt; Some (ScanU n :: r)
      | None => Some []
      end
  | Fmt_s n :: fmt =>
      match span (fun c => negb (isspace c)) (skip_space l) with
      | ([], _) => Some []
      | (s, l) => if n <? zlen s + 1 then None else r ← sscanf l fmt; Some (ScanS s :: r)
      end
  | Fmt_c :: fmt =>
      match l with
      | c :: l => r ← sscanf l fmt; Some (ScanC c :: r)
      | [] => Some []
      end
  end.

(** The [i]-th argument, or what it was before. *)
Definition arg_u (r : list scanned) (i : nat) (old : Z) : Z :=
  match r !! i with Some (ScanU n) => n | _ => old end.
Definition arg_s (r : list scanned) (i : nat) : list Z :=
  match r !! i with Some (ScanS s) => s | _ => [] end.
Definition arg_c (r : list scanned) (i : nat) (old : Z) : Z :=
  match r !! i with Some (ScanC c) => c | _ => old end.

(** ** Searching *)

(** [strstr(s, "::")]: the offset. *)
Fixpoint find_colons (l : list Z) : option nat :=
  match l with
  | x :: ((y :: _) as l') => if (x =? 58) && (y =? 58) then Some O else S <$> find_colons l'
  | _ => None
  end.

(** [strrchr(s, c)]. *)
Fixpoint strrchr (c : Z) (l : list Z) : option nat :=
  match l with
  | [] => None
  | x :: l =>
      match strrchr c l with
      | Some k => Some (S k)
      | None => if x =? c then Some O else None
      end
  end.

Definition str_replace (from to : Z) (s : list Z) : list Z :=
  map (fun c => if c =? from then to else c) s.

(** ** Lemmas *)

Lemma span_all p l r :
  Forall (fun c => p c = true) l -> (forall c, head r = Some c -> p c = false) ->
  span p (l ++ r) = (l, r).
Proof.
  intros Hl Hr. induction Hl as [|c l Hc _ IH]; cbn [app span].
  - destruct r as [|c r]; [done|]. cbn [span]. by rewrite (Hr c).
  - by rewrite Hc, IH.
Qed.

Lemma span_app p l a b : span p l = (a, b) -> l = a ++ b.
Proof.
  revert a b. induction l as [|c l IH]; intros a b; cbn [span]; [by intros [= <- <-]|].
  destruct (p c); [|by intros [= <- <-]].
  destruct (span p l) as [a' b']. intros [= <- <-]. cbn. by rewrite (IH a' b').
Qed.

Lemma skip_space_none l : (forall c, head l = Some c -> isspace c = false) -> skip_space l = l.
Proof.
  intros H. unfold skip_space.
  pose proof (span_all isspace [] l (Forall_nil_2 _) H) as E. cbn [app] in E. by rewrite E.
Qed.

Lemma skip_space_length l : (length (skip_space l) <= length l)%nat.
Proof.
  unfold skip_space. destruct (span isspace l) as [a b] eqn:E. apply span_app in E as ->.
  cbn. rewrite length_app. lia.
Qed.

Lemma digits_isdigit fuel n : 0 <= n -> Forall (fun c => isdigit c = true) (digits fuel n).
Proof.
  revert n. induction fuel as [|fuel IH]; intros n Hn; cbn [digits]; [constructor|].
  pose proof (Z.mod_pos_bound n 10). unfold isdigit at 1.
  destruct (Z.ltb_spec n 10).
  - repeat constructor. lia.
  - apply Forall_app. split; [apply IH, Z.div_pos; lia|]. repeat constructor. unfold isdigit. lia.
Qed.

Lemma digits_value_digits fuel n :
  0 <= n < 10 ^ Z.of_nat fuel -> digits_value (digits fuel n) = n.
Proof.
  unfold digits_value. revert n. induction fuel as [|fuel IH]; intros n Hn; cbn [digits]; [cbn in *; lia|].
  destruct (Z.ltb_spec n 10); [cbn; lia|].
  rewrite fold_left_app, IH; cbn [fold_left].
  - pose proof (Z.div_mod n 10). lia.
  - rewrite Nat2Z.inj_succ, Z.pow_succ_r in Hn by lia.
    split; [apply Z.div_pos; lia|]. apply Z.div_lt_upper_bound; lia.
Qed.

Lemma digits_nonempty fuel n : fuel <> O -> digits fuel n <> [].
Proof. destruct fuel; [done|]. intros _. cbn. destruct (n <? 10); [done|]. by destruct (digits _ _). Qed.

Lemma isdigit_isspace c : isdigit c = true -> isspace c = false.
Proof. unfold isdigit, isspace. lia. Qed.

(** What [printf] writes [sscanf] reads. *)
Lemma scan_u_print n r :
  is_u32 n -> (forall c, head r = Some c -> isdigit c = false) ->
  scan_u (print_u n ++ r) = Some (n, r).
Proof.
  intros Hn Hr. unfold scan_u, print_u.
  pose proof (digits_isdigit 10 n (proj1 Hn)) as Hd.
  pose proof (digits_value_digits 10 n) as Hv.
  pose proof (digits_nonempty 10 n) as Hne.
  destruct (digits 10 n) as [|d ds]; [by destruct Hne|].
  pose proof (Forall_inv Hd) as Hd0. cbn beta in Hd0.
  rewrite skip_space_none by (intros c [= <-]; by apply isdigit_isspace).
  assert (scan_sign ((d :: ds) ++ r) = (false, (d :: ds) ++ r)) as ->.
  { cbn [app scan_sign]. unfold isdigit in Hd0.
    destruct (Z.eqb_spec d 43), (Z.eqb_spec d 45); lia || done. }
  rewrite (span_all _ _ _ Hd Hr). unfold strtoul.
  unfold is_u32 in Hn. rewrite Hv by lia.
  destruct (Z.leb_spec (2 ^ 64) n); [lia|]. by rewrite u32_id.
Qed.

Lemma scan_token n s r fmt :
  Forall (fun c => isspace c = false) s -> s <> [] -> (forall c, head r = Some c -> isspace c = true) ->
  zlen s < n -> sscanf (s ++ r) (Fmt_s n :: fmt) = r' ← sscanf r fmt; Some (ScanS s :: r').
Proof.
  intros Hs Hne Hr Hn. cbn [sscanf].
  rewrite skip_space_none.
  - rewrite (span_all (fun c => negb (isspace c)) s r).
    + destruct s; [done|]. by destruct (Z.ltb_spec n (zlen (z :: s) + 1)); [lia|].
    + eapply Forall_impl; [|exact Hs]. by intros c ->.
    + intros c Hc. by rewrite (Hr c).
  - destruct s as [|c s]; [done|]. intros c' [= <-]. by apply Forall_inv in Hs.
Qed.

Lemma str_replace_length from to s : length (str_replace from to s) = length s.
Proof. apply length_map. Qed.

Lemma str_replace_app from to s1 s2 :
  str_replace from to (s1 ++ s2) = str_replace from to s1 ++ str_replace from to s2.
Proof. apply map_app. Qed.

Lemma str_replace_back a b s : Forall (fun c => c <> b) s -> str_replace b a (str_replace a b s) = s.
Proof.
  intros H. unfold str_replace. rewrite map_map. induction H as [|c s Hc _ IH]; [done|]. cbn [map].
  rewrite IH. f_equal. destruct (Z.eqb_spec c a) as [->|]; [by rewrite Z.eqb_refl|].
  by destruct (Z.eqb_spec c b).
Qed.

(** A string whose conversions all fit: the blocks are longer than what is
    left to read. *)
Definition fits (m : Z) (d : directive) : Prop :=
  match d with Fmt_s n => m < n | _ => True end.

Lemma scan_sign_length l : (length (scan_sign l).2 <= length l)%nat.
Proof. destruct l as [|c l]; [done|]. cbn. destruct (c =? 43), (c =? 45); cbn; lia. Qed.

Lemma scan_u_length l n r : scan_u l = Some (n, r) -> (length r <= length l)%nat.
Proof.
  unfold scan_u. pose proof (skip_space_length l) as Hs.
  pose proof (scan_sign_length (skip_space l)) as Hp.
  destruct (scan_sign (skip_space l)) as [m l2]. cbn in Hp. destruct (span isdigit l2) as [ds l3] eqn:Es.
  apply span_app in Es as ->. rewrite length_app in Hp. destruct ds; [done|]. intros [= _ <-]. cbn in *. lia.
Qed.

Lemma sscanf_fits l fmt : Forall (fits (zlen l)) fmt -> is_Some (sscanf l fmt).
Proof.
  assert (forall (o : option (list scanned)) x, is_Some o -> is_Some (r ← o; Some (x :: r))) as Hs.
  { intros o x [r ->]. by eexists. }
  assert (forall (l l' : list Z) f, (length l' <= length l)%nat -> Forall (fits (zlen l)) f -> Forall (fits (zlen l')) f) as Hw.
  { intros l1 l2 f Hl. apply Forall_impl. intros []; cbn; try done. unfold zlen. lia. }
  revert l. induction fmt as [|[c| | |n|] fmt IH]; intros l H; cbn [sscanf]; [by eexists|..];
    apply Forall_cons_1 in H as [Hd H].
  - destruct l as [|c' l]; [by eexists|]. destruct (c' =? c); [|by eexists].
    apply IH. eapply Hw; [|exact H]. cbn. lia.
  - apply IH. eapply Hw; [|exact H]. apply skip_space_length.
  - destruct (scan_u l) as [[n r]|] eqn:E; [|by eexists]. apply Hs.
    apply IH. eapply Hw; [|exact H]. by eapply scan_u_length.
  - destruct (span _ (skip_space l)) as [s r] eqn:E. apply span_app in E.
    pose proof (skip_space_length l) as Hl. rewrite E, length_app in Hl.
    destruct s as [|c s]; [by eexists|]. cbn [fits] in Hd. unfold zlen in *.
    destruct (Z.ltb_spec n (Z.of_nat (length (c :: s)) + 1)); [lia|].
    apply Hs. apply IH. eapply Hw; [|exact H]. lia.
  - destruct l as [|c l]; [by eexists|]. apply Hs.
    apply IH. eapply Hw; [|exact H]. cbn. lia.
Qed.

Lemma find_colons_none l r :
  find_colons l = None -> (forall s c, l = s ++ [c] -> c <> 58) ->
  find_colons (l ++ 58 :: 58 :: r) = Some (length l).
Proof.
  induction l as [|c [|c2 l] IH]; intros H Hlast; [done|..].
  - pose proof (Hlast [] c eq_refl). cbn. by destruct (Z.eqb_spec c 58).
  - cbn [app find_colons] in *. destruct ((c =? 58) && (c2 =? 58)); [done|].
    rewrite IH; [done| |].
    + by apply fmap_None in H.
    + intros s c' Hs. apply (Hlast (c :: s)). by rewrite Hs.
Qed.

Lemma strrchr_none c s : Forall (fun x => x <> c) s -> strrchr c s = None.
Proof. induction 1 as [|x s Hx _ IH]; [done|]. cbn. rewrite IH. by destruct (Z.eqb_spec x c). Qed.

Lemma strrchr_last c s r :
  Forall (fun x => x <> c) r -> strrchr c (s ++ c :: r) = Some (length s).
Proof.
  intros Hr. induction s as [|x s IH]; cbn [app strrchr length].
  - by rewrite strrchr_none, Z.eqb_refl.
  - by rewrite IH.
Qed.

(** ** Hexadecimal digits *)

Definition hex_value (c : Z) : option Z :=
  if isdigit c then Some (c - 48) else if (97 <=? c) && (c <=? 102) then Some (c - 87) else None.

Definition read_hex (l : list Z) : option Z :=
  foldl (fun n c => n ← n; d ← hex_value c; Some (n * 16 + d)) (Some 0) l.

Lemma hex_digit_value d : 0 <= d < 16 -> hex_value (hex_digit d) = Some d.
Proof.
  intros Hd. unfold hex_value, hex_digit, isdigit. destruct (Z.ltb_spec d 10).
  - replace ((48 <=? 48 + d) && (48 + d <=? 57)) with true by lia. f_equal. lia.
  - replace ((48 <=? 87 + d) && (87 + d <=? 57)) with false by lia.
    replace ((97 <=? 87 + d) && (87 + d <=? 102)) with true by lia. f_equal. lia.
Qed.

Lemma print_hex_length n v : length (print_hex n v) = n.
Proof. revert v. induction n as [|n IH]; intros v; cbn; [done|]. rewrite length_app, IH. cbn. lia. Qed.

Lemma read_print_hex n v : 0 <= v < 16 ^ Z.of_nat n -> read_hex (print_hex n v) = Some v.
Proof.
  unfold read_hex. revert v. induction n as [|n IH]; intros v Hv; cbn [print_hex].
  - cbn. f_equal. change (16 ^ Z.of_nat 0) with 1 in Hv. lia.
  - rewrite Nat2Z.inj_succ, Z.pow_succ_r in Hv by lia.
    rewrite foldl_app, IH by (split; [apply Z.div_pos; lia|apply Z.div_lt_upper_bound; lia]).
    cbn. rewrite hex_digit_value by (apply Z.mod_pos_bound; lia). cbn. f_equal.
    pose proof (Z.div_mod v 16). lia.
Qed.
