(* ===== verification/Objects.v ===== *)
(** * The structures of the services and of the contact list

    What the services keep besides [struct mwService]
    (src/src/srvc_store.c, srvc_resolve.c, srvc_ft.c, srvc_im.c,
    srvc_aware.c, srvc_dir.c) and the contact list of
    src/src/st_list.c.  Each is a block of its own in the C code, reached by
    its address; [object] is the type of such blocks.  A function pointer is
    its address, 0 for NULL, and so is the data a client gives with it. *)

From stdpp Require Export gmap strings.
From S2P Require Import Prelude Buffer Common.

(** ** Contact list *)

Inductive mwSametimeGroupType :=
  | mwSametimeGroup_NORMAL | mwSametimeGroup_DYNAMIC | mwSametimeGroup_UNKNOWN.
Inductive mwSametimeUserType :=
  | mwSametimeUser_NORMAL | mwSametimeUser_EXTERNAL | mwSametimeUser_UNKNOWN.

Record mwSametimeList := {
  stl_ver_major : Z;
  stl_ver_minor : Z;
  stl_ver_micro : Z;
  stl_groups : list Z;
}.

Record mwSametimeGroup := {
  stg_list : Z;
  stg_type : mwSametimeGroupType;
  stg_name : mwString;
  stg_alias : mwString;
  stg_open : bool;
  stg_users : list Z;
}.

Record mwSametimeUser := {
  stu_group : Z;
  stu_type : mwSametimeUserType;
  stu_id : mwIdBlock;
  stu_name : mwString;
  stu_alias : mwString;
}.

(** ** Storage service *)

Inductive storage_action := action_load | action_loaded | action_save | action_saved.

#[export] Instance storage_action_eq_dec : EqDecision storage_action.
Proof. solve_decision. Defined.

Record mwStorageUnit := { su_key : Z; su_data : mwOpaque }.

Record mwStorageReq := {
  sr_id : Z;
  sr_result_code : Z;
  sr_action : storage_action;
  sr_item : Z;
  sr_cb : Z;
  sr_data : Z;
  sr_data_free : Z;
}.

Record mwServiceStorage := {
  st_pending : list Z;
  st_channel : option Z;
  st_id_counter : Z;
}.

(** ** Resolution service *)

Record mw_search := {
  se_service : Z;
  se_id : Z;
  se_handler : Z;
  se_data : Z;
  se_cleanup : Z;
}.

(** [rs_searches] is [None] while there is no table. *)
Record mwServiceResolve := {
  rs_channel : option Z;
  rs_searches : option (gmap Z Z);
  rs_counter : Z;
}.

(** ** File transfer service *)

(** Data of a client, and the function that frees it, or 0. *)
Record mw_datum := { dt_data : Z; dt_clear : Z }.

Inductive mwFileTransferState :=
  | mwFileTransfer_NEW | mwFileTransfer_PENDING | mwFileTransfer_OPEN | mwFileTransfer_CANCEL_LOCAL
  | mwFileTransfer_CANCEL_REMOTE | mwFileTransfer_DONE | mwFileTransfer_ERROR | mwFileTransfer_UNKNOWN.

#[export] Instance mwFileTransferState_eq_dec : EqDecision mwFileTransferState.
Proof. solve_decision. Defined.

Record mwFileTransfer := {
  xf_service : Z;
  xf_channel : option Z;
  xf_who : mwIdBlock;
  xf_state : mwFileTransferState;
  xf_filename : mwString;
  xf_message : mwString;
  xf_size : Z;
  xf_remaining : Z;
  xf_client_data : mw_datum;
}.

(** [fs_handler]: there is one. *)
Record mwServiceFileTransfer := {
  fs_handler : bool;
  fs_transfers : list Z;
}.

(** ** Instant messaging service *)

Inductive mwImSendType :=
  | mwImSend_PLAIN | mwImSend_TYPING | mwImSend_HTML | mwImSend_SUBJECT | mwImSend_MIME | mwImSend_TIMESTAMP.
Inductive mwConversationState :=
  | mwConversation_CLOSED | mwConversation_PENDING | mwConversation_OPEN | mwConversation_UNKNOWN.

#[export] Instance mwImSendType_eq_dec : EqDecision mwImSendType.
Proof. solve_decision. Defined.
#[export] Instance mwConversationState_eq_dec : EqDecision mwConversationState.
Proof. solve_decision. Defined.

(** [cv_multi] is the string gathered from a message in several parts, while
    there is one. *)
Record mwConversation := {
  cv_service : Z;
  cv_channel : option Z;
  cv_target : mwIdBlock;
  cv_ext_id : bool;
  cv_state : mwConversationState;
  cv_features : Z;
  cv_multi : option (list Z);
  cv_multi_type : mwImSendType;
  cv_client_data : mw_datum;
}.

(** [im_handler]: there is one. *)
Record mwServiceIm := {
  im_features : Z;
  im_handler : bool;
  im_convs : list Z;
}.

(** ** Awareness service *)

#[export] Instance mwAwareIdBlock_eq_dec : EqDecision mwAwareIdBlock.
Proof. solve_decision. Defined.
#[export] Instance mwAwareIdBlock_countable : Countable mwAwareIdBlock.
Proof.
  apply (inj_countable' (fun a => (ai_type a, ai_user a, ai_community a))
    (fun a => {| ai_type := a.1.1; ai_user := a.1.2; ai_community := a.2 |})). by intros [].
Defined.

(** A pointer to a hash table: NULL, to one, or to one that was destroyed. *)
Inductive table (T : Type) := TableNull | Table (t : T) | TableGone.
Arguments TableNull {T}.
Arguments Table {T} t.
Arguments TableGone {T}.

(** The keys of the tables of entries are in the entries themselves. *)
Record mwServiceAware := {
  aw_entries : option (gmap mwAwareIdBlock Z);
  aw_attribs : option (gmap Z Z);
  aw_lists : list Z;
  aw_channel : option Z;
}.

(** [al_handler] is an address. *)
Record mwAwareList := {
  al_service : option Z;
  al_entries : table (gmap mwAwareIdBlock Z);
  al_attribs : table (gmap Z Z);
  al_handler : Z;
  al_client_data : mw_datum;
}.

Record mwAwareAttribute := { at_key : Z; at_data : mwOpaque }.

Record attrib_entry := { we_key : Z; we_membership : list Z }.

(** A member is a link of the list: its number, which is its identity, and
    the list of awareness it leads to; [ae_links] links were made so far. *)
Record aware_entry := {
  ae_aware : mwAwareSnapshot;
  ae_membership : list (Z * Z);
  ae_links : Z;
  ae_attribs : gmap Z Z;
}.

(** ** Directory service *)

Inductive mwDirectoryState :=
  | mwDirectory_NEW | mwDirectory_PENDING | mwDirectory_OPEN | mwDirectory_ERROR | mwDirectory_UNKNOWN.

#[export] Instance mwDirectoryState_eq_dec : EqDecision mwDirectoryState.
Proof. solve_decision. Defined.

(** An entry of [ds_books]: the string its key points to, whether that was
    freed since, and the book. *)
Record book_slot := { bs_key : list Z; bs_freed : bool; bs_book : Z }.

(** [ds_handler]: there is one. *)
Record mwServiceDirectory := {
  ds_handler : bool;
  ds_channel : option Z;
  ds_counter : Z;
  ds_requests : gmap Z Z;
  ds_books : option (list book_slot);
}.

(** [ab_freed]: [book_free] has freed the name and the table. *)
Record mwAddressBook := {
  ab_service : Z;
  ab_id : Z;
  ab_name : mwString;
  ab_dirs : gmap Z Z;
  ab_freed : bool;
}.

Record mwDirectory := {
  di_service : Z;
  di_book : Z;
  di_state : mwDirectoryState;
  di_id : Z;
  di_search_id : Z;
  di_handler : Z;
  di_client_data : mw_datum;
}.

(** ** Blocks *)

Inductive object :=
  | ObjList (l : mwSametimeList)
  | ObjGroup (g : mwSametimeGroup)
  | ObjUser (u : mwSametimeUser)
  | ObjStorage (s : mwServiceStorage)
  | ObjStorageReq (r : mwStorageReq)
  | ObjStorageUnit (u : mwStorageUnit)
  | ObjResolve (s : mwServiceResolve)
  | ObjSearch (s : mw_search)
  | ObjFtService (s : mwServiceFileTransfer)
  | ObjFileTransfer (t : mwFileTransfer)
  | ObjImService (s : mwServiceIm)
  | ObjConversation (c : mwConversation)
  | ObjAwareService (s : mwServiceAware)
  | ObjAwareList (l : mwAwareList)
  | ObjAwareEntry (e : aware_entry)
  | ObjAttribute (a : mwAwareAttribute)
  | ObjAttribEntry (e : attrib_entry)
  | ObjDirService (s : mwServiceDirectory)
  | ObjAddressBook (b : mwAddressBook)
  | ObjDirectory (d : mwDirectory).

(** The types a block can have; a pointer of another type is not dereferenced. *)
Class Object (A : Type) := {
  obj_in : A -> object;
  obj_out : object -> option A;
  obj_in_out a : obj_out (obj_in a) = Some a;
  obj_out_in o a : obj_out o = Some a -> o = obj_in a
}.

Ltac object_of inj :=
  lazymatch type of inj with ?A -> object =>
    refine (@Build_Object A inj (fun o => ltac:(destruct o; first [match goal with a : A |- _ => exact (Some a) end | exact None])) _ _) end;
  [done|by intros [] ? [= <-]].

#[export] Instance list_object : Object mwSametimeList.
Proof. object_of ObjList. Defined.
#[export] Instance group_object : Object mwSametimeGroup.
Proof. object_of ObjGroup. Defined.
#[export] Instance user_object : Object mwSametimeUser.
Proof. object_of ObjUser. Defined.
#[export] Instance storage_object : Object mwServiceStorage.
Proof. object_of ObjStorage. Defined.
#[export] Instance storage_req_object : Object mwStorageReq.
Proof. object_of ObjStorageReq. Defined.
#[export] Instance storage_unit_object : Object mwStorageUnit.
Proof. object_of ObjStorageUnit. Defined.
#[export] Instance resolve_object : Object mwServiceResolve.
Proof. object_of ObjResolve. Defined.
#[export] Instance search_object : Object mw_search.
Proof. object_of ObjSearch. Defined.
#[export] Instance ft_service_object : Object mwServiceFileTransfer.
Proof. object_of ObjFtService. Defined.
#[export] Instance file_transfer_object : Object mwFileTransfer.
Proof. object_of ObjFileTransfer. Defined.
#[export] Instance im_service_object : Object mwServiceIm.
Proof. object_of ObjImService. Defined.
#[export] Instance conversation_object : Object mwConversation.
Proof. object_of ObjConversation. Defined.
#[export] Instance aware_service_object : Object mwServiceAware.
Proof. object_of ObjAwareService. Defined.
#[export] Instance aware_list_object : Object mwAwareList.
Proof. object_of ObjAwareList. Defined.
#[export] Instance aware_entry_object : Object aware_entry.
Proof. object_of ObjAwareEntry. Defined.
#[export] Instance attribute_object : Object mwAwareAttribute.
Proof. object_of ObjAttribute. Defined.
#[export] Instance attrib_entry_object : Object attrib_entry.
Proof. object_of ObjAttribEntry. Defined.
#[export] Instance dir_service_object : Object mwServiceDirectory.
Proof. object_of ObjDirService. Defined.
#[export] Instance address_book_object : Object mwAddressBook.
Proof. object_of ObjAddressBook. Defined.
#[export] Instance directory_object : Object mwDirectory.
Proof. object_of ObjDirectory. Defined.
