(* ===== verification/World.v ===== *)
(** * The objects of a client (src/src/session.c, channel.c, mw_service.h, mw_cipher.h)

    One session, its channels, services and ciphers, and the steps that read
    and write them.  Channels, services and ciphers are on a heap, so that an
    access through a pointer to a freed object is an error; the code outside
    the library (the session handler, the functions of the services, the
    multiple-precision integers, the random source and the clock) is a record
    of operations that everything is over. *)

From stdpp Require Export gmap strings.
From S2P Require Import Prelude Buffer Common Message Framing.
From S2P Require Export Objects.
#[local] Open Scope Z_scope.
#[local] Open Scope mw_scope.

(** ** States *)

Inductive mwSessionState :=
  | mwSession_STARTING | mwSession_HANDSHAKE | mwSession_HANDSHAKE_ACK | mwSession_LOGIN
  | mwSession_LOGIN_REDIR | mwSession_LOGIN_ACK | mwSession_STARTED | mwSession_STOPPING
  | mwSession_STOPPED | mwSession_UNKNOWN | mwSession_LOGIN_CONT.

#[export] Instance mwSessionState_eq_dec : EqDecision mwSessionState.
Proof. solve_decision. Defined.

Inductive mwChannelState :=
  | mwChannel_NEW | mwChannel_INIT | mwChannel_WAIT | mwChannel_OPEN | mwChannel_DESTROY
  | mwChannel_ERROR | mwChannel_UNKNOWN.

#[export] Instance mwChannelState_eq_dec : EqDecision mwChannelState.
Proof. solve_decision. Defined.

Inductive mwServiceState :=
  | mwServiceState_STOPPED | mwServiceState_STOPPING | mwServiceState_STARTED
  | mwServiceState_STARTING | mwServiceState_ERROR | mwServiceState_UNKNOWN.

#[export] Instance mwServiceState_eq_dec : EqDecision mwServiceState.
Proof. solve_decision. Defined.

Inductive mwChannelStatField :=
  | mwChannelStat_MSG_SENT | mwChannelStat_MSG_RECV | mwChannelStat_U_BYTES_SENT
  | mwChannelStat_U_BYTES_RECV | mwChannelStat_OPENED_AT | mwChannelStat_CLOSED_AT.

Definition stat_key (f : mwChannelStatField) : Z :=
  match f with
  | mwChannelStat_MSG_SENT => 0 | mwChannelStat_MSG_RECV => 1
  | mwChannelStat_U_BYTES_SENT => 2 | mwChannelStat_U_BYTES_RECV => 3
  | mwChannelStat_OPENED_AT => 4 | mwChannelStat_CLOSED_AT => 5
  end.

Definition mwEncrypt_NONE : Z := 0x0000.
Definition mwEncrypt_WHATEVER : Z := 0x0001.
Definition mwEncrypt_ALL : Z := 0x0002.
Definition mwEncrypt_RC2_40 : Z := 0x1000.
Definition mwEncrypt_RC2_128 : Z := 0x2000.

Definition mwCipher_RC2_40 : Z := 0x0000.
Definition mwCipher_RC2_128 : Z := 0x0001.

Definition mwAuthType_RC2_40 : Z := 0x0002.
Definition mwAuthType_RC2_128 : Z := 0x0004.

Definition ERR_SUCCESS : Z := 0x00000000.
Definition ERR_FAILURE : Z := 0x80000000.
Definition ERR_REQUEST_INVALID : Z := 0x80000001.
Definition ERR_SERVICE_NO_SUPPORT : Z := 0x8000000d.
Definition CONNECTION_BROKEN : Z := 0x80000221.

Definition MW_MASTER_CHANNEL_ID : Z := 0x00000000.
Definition MW_PROTOCOL_VERSION_MAJOR : Z := 0x001e.
Definition MW_PROTOCOL_VERSION_MINOR : Z := 0x001d.
Definition mwLogin_MEANWHILE : Z := 0x1700.

Definition mwChannel_idIsOutgoing (id : Z) : bool := Z.land 0x80000000 id =? 0.
Definition mwChannel_idIsIncoming (id : Z) : bool := negb (mwChannel_idIsOutgoing id).

(** ** Objects *)

(** What a [gpointer] of the session holds: NULL or an integer made a pointer,
    a string, or a string that has been freed. *)
Inductive gpointer :=
  | Word (v : Z)
  | Str (s : list Z)
  | Dangling.

Definition gpointer_string (s : mwString) : gpointer :=
  match s with Some s => Str s | None => Word 0 end.

(** [struct mwCipher]: the part of the type that extends it. *)
Inductive mwCipherData :=
  | Cipher_RC2_40 (session_key : list Z) (ready : bool)
  | Cipher_RC2_128 (private_key : Z) (public_key : mwOpaque).

Record mwCipher := { ciph_type : Z; ciph_data : mwCipherData }.

(** [struct mwCipherInstance], with the pointers to its cipher and channel;
    [incoming_key] and [shared] are both [ci_key]. *)
Record mwCipherInstance := {
  ci_cipher : Z;
  ci_channel : Z;
  ci_key : list Z;
  ci_outgoing_iv : list Z;
  ci_incoming_iv : list Z;
}.

(** [ch_supported] is [None] once destroyed; the messages of
    [ch_incoming_queue] are [struct mwMsgChannelSend]. *)
Record mwChannel := {
  ch_state : mwChannelState;
  ch_user : mwLoginInfo;
  ch_id : Z;
  ch_service : Z;
  ch_proto_type : Z;
  ch_proto_ver : Z;
  ch_options : Z;
  ch_addtl_create : mwOpaque;
  ch_addtl_accept : mwOpaque;
  ch_supported : option (gmap Z mwCipherInstance);
  ch_offered_policy : Z;
  ch_policy : Z;
  ch_cipher : option mwCipherInstance;
  ch_stats : gmap Z Z;
  ch_outgoing_queue : list mwMessage;
  ch_incoming_queue : list (mwMessageHead * mwMsgChannelSend);
  ch_srvc_data : option Z;
}.

(** [sv_session]: the service belongs to the session. *)
Record mwService := {
  sv_type : Z;
  sv_state : mwServiceState;
  sv_session : bool;
}.

(** The channel set is [s_chan_map] (channels by id) and [s_chan_counter];
    the tables hold pointers. *)
Record mwSession := {
  s_state : mwSessionState;
  s_state_info : gpointer;
  s_buf : recv_buf;
  s_login : mwLoginInfo;
  s_status : mwUserStatus;
  s_privacy : mwPrivacyInfo;
  s_chan_map : gmap Z Z;
  s_chan_counter : Z;
  s_services : gmap Z Z;
  s_ciphers : gmap Z Z;
  s_attributes : gmap string gpointer;
}.

(** What crosses the boundary to the session handler, in order. *)
Inductive event :=
  | EvWrite (bytes : list Z) (ret : Z)
  | EvClose
  | EvState (st : mwSessionState).

(** [w_heap] has the structures of the services and of the contact list;
    [w_next] is the next address. *)
Record world := {
  w_session : mwSession;
  w_channels : gmap Z mwChannel;
  w_services : gmap Z mwService;
  w_ciphers : gmap Z mwCipher;
  w_heap : gmap Z object;
  w_next : Z;
  w_log : list event;
}.

(** ** Assignments to fields *)

Definition set_s_state (v : mwSessionState) (r : mwSession) : mwSession :=
  {| s_state := v; s_state_info := s_state_info r; s_buf := s_buf r; s_login := s_login r;
     s_status := s_status r; s_privacy := s_privacy r; s_chan_map := s_chan_map r;
     s_chan_counter := s_chan_counter r; s_services := s_services r;
     s_ciphers := s_ciphers r; s_attributes := s_attributes r |}.
Definition set_s_state_info (v : gpointer) (r : mwSession) : mwSession :=
  {| s_state := s_state r; s_state_info := v; s_buf := s_buf r; s_login := s_login r;
     s_status := s_status r; s_privacy := s_privacy r; s_chan_map := s_chan_map r;
     s_chan_counter := s_chan_counter r; s_services := s_services r;
     s_ciphers := s_ciphers r; s_attributes := s_attributes r |}.
Definition set_s_buf (v : recv_buf) (r : mwSession) : mwSession :=
  {| s_state := s_state r; s_state_info := s_state_info r; s_buf := v; s_login := s_login r;
     s_status := s_status r; s_privacy := s_privacy r; s_chan_map := s_chan_map r;
     s_chan_counter := s_chan_counter r; s_services := s_services r;
     s_ciphers := s_ciphers r; s_attributes := s_attributes r |}.
Definition set_s_login (v : mwLoginInfo) (r : mwSession) : mwSession :=
  {| s_state := s_state r; s_state_info := s_state_info r; s_buf := s_buf r; s_login := v;
     s_status := s_status r; s_privacy := s_privacy r; s_chan_map := s_chan_map r;
     s_chan_counter := s_chan_counter r; s_services := s_services r;
     s_ciphers := s_ciphers r; s_attributes := s_attributes r |}.
Definition set_s_status (v : mwUserStatus) (r : mwSession) : mwSession :=
  {| s_state := s_state r; s_state_info := s_state_info r; s_buf := s_buf r;
     s_login := s_login r; s_status := v; s_privacy := s_privacy r;
     s_chan_map := s_chan_map r; s_chan_counter := s_chan_counter r;
     s_services := s_services r; s_ciphers := s_ciphers r; s_attributes := s_attributes r |}.
Definition set_s_privacy (v : mwPrivacyInfo) (r : mwSession) : mwSession :=
  {| s_state := s_state r; s_state_info := s_state_info r; s_buf := s_buf r;
     s_login := s_login r; s_status := s_status r; s_privacy := v;
     s_chan_map := s_chan_map r; s_chan_counter := s_chan_counter r;
     s_services := s_services r; s_ciphers := s_ciphers r; s_attributes := s_attributes r |}.
Definition set_s_chan_map (v : gmap Z Z) (r : mwSession) : mwSession :=
  {| s_state := s_state r; s_state_info := s_state_info r; s_buf := s_buf r;
     s_login := s_login r; s_status := s_status r; s_privacy := s_privacy r;
     s_chan_map := v; s_chan_counter := s_chan_counter r; s_services := s_services r;
     s_ciphers := s_ciphers r; s_attributes := s_attributes r |}.
Definition set_s_chan_counter (v : Z) (r : mwSession) : mwSession :=
  {| s_state := s_state r; s_state_info := s_state_info r; s_buf := s_buf r;
     s_login := s_login r; s_status := s_status r; s_privacy := s_privacy r;
     s_chan_map := s_chan_map r; s_chan_counter := v; s_services := s_services r;
     s_ciphers := s_ciphers r; s_attributes := s_attributes r |}.
Definition set_s_services (v : gmap Z Z) (r : mwSession) : mwSession :=
  {| s_state := s_state r; s_state_info := s_state_info r; s_buf := s_buf r;
     s_login := s_login r; s_status := s_status r; s_privacy := s_privacy r;
     s_chan_map := s_chan_map r; s_chan_counter := s_chan_counter r; s_services := v;
     s_ciphers := s_ciphers r; s_attributes := s_attributes r |}.
Definition set_s_ciphers (v : gmap Z Z) (r : mwSession) : mwSession :=
  {| s_state := s_state r; s_state_info := s_state_info r; s_buf := s_buf r;
     s_login := s_login r; s_status := s_status r; s_privacy := s_privacy r;
     s_chan_map := s_chan_map r; s_chan_counter := s_chan_counter r;
     s_services := s_services r; s_ciphers := v; s_attributes := s_attributes r |}.
Definition set_s_attributes (v : gmap string gpointer) (r : mwSession) : mwSession :=
  {| s_state := s_state r; s_state_info := s_state_info r; s_buf := s_buf r;
     s_login := s_login r; s_status := s_status r; s_privacy := s_privacy r;
     s_chan_map := s_chan_map r; s_chan_counter := s_chan_counter r;
     s_services := s_services r; s_ciphers := s_ciphers r; s_attributes := v |}.

Definition set_ch_state (v : mwChannelState) (r : mwChannel) : mwChannel :=
  {| ch_state := v; ch_user := ch_user r; ch_id := ch_id r; ch_service := ch_service r;
     ch_proto_type := ch_proto_type r; ch_proto_ver := ch_proto_ver r;
     ch_options := ch_options r; ch_addtl_create := ch_addtl_create r;
     ch_addtl_accept := ch_addtl_accept r; ch_supported := ch_supported r;
     ch_offered_policy := ch_offered_policy r; ch_policy := ch_policy r;
     ch_cipher := ch_cipher r; ch_stats := ch_stats r;
     ch_outgoing_queue := ch_outgoing_queue r; ch_incoming_queue := ch_incoming_queue r;
     ch_srvc_data := ch_srvc_data r |}.
Definition set_ch_user (v : mwLoginInfo) (r : mwChannel) : mwChannel :=
  {| ch_state := ch_state r; ch_user := v; ch_id := ch_id r; ch_service := ch_service r;
     ch_proto_type := ch_proto_type r; ch_proto_ver := ch_proto_ver r;
     ch_options := ch_options r; ch_addtl_create := ch_addtl_create r;
     ch_addtl_accept := ch_addtl_accept r; ch_supported := ch_supported r;
     ch_offered_policy := ch_offered_policy r; ch_policy := ch_policy r;
     ch_cipher := ch_cipher r; ch_stats := ch_stats r;
     ch_outgoing_queue := ch_outgoing_queue r; ch_incoming_queue := ch_incoming_queue r;
     ch_srvc_data := ch_srvc_data r |}.
Definition set_ch_id (v : Z) (r : mwChannel) : mwChannel :=
  {| ch_state := ch_state r; ch_user := ch_user r; ch_id := v; ch_service := ch_service r;
     ch_proto_type := ch_proto_type r; ch_proto_ver := ch_proto_ver r;
     ch_options := ch_options r; ch_addtl_create := ch_addtl_create r;
     ch_addtl_accept := ch_addtl_accept r; ch_supported := ch_supported r;
     ch_offered_policy := ch_offered_policy r; ch_policy := ch_policy r;
     ch_cipher := ch_cipher r; ch_stats := ch_stats r;
     ch_outgoing_queue := ch_outgoing_queue r; ch_incoming_queue := ch_incoming_queue r;
     ch_srvc_data := ch_srvc_data r |}.
Definition set_ch_service (v : Z) (r : mwChannel) : mwChannel :=
  {| ch_state := ch_state r; ch_user := ch_user r; ch_id := ch_id r; ch_service := v;
     ch_proto_type := ch_proto_type r; ch_proto_ver := ch_proto_ver r;
     ch_options := ch_options r; ch_addtl_create := ch_addtl_create r;
     ch_addtl_accept := ch_addtl_accept r; ch_supported := ch_supported r;
     ch_offered_policy := ch_offered_policy r; ch_policy := ch_policy r;
     ch_cipher := ch_cipher r; ch_stats := ch_stats r;
     ch_outgoing_queue := ch_outgoing_queue r; ch_incoming_queue := ch_incoming_queue r;
     ch_srvc_data := ch_srvc_data r |}.
Definition set_ch_proto_type (v : Z) (r : mwChannel) : mwChannel :=
  {| ch_state := ch_state r; ch_user := ch_user r; ch_id := ch_id r;
     ch_service := ch_service r; ch_proto_type := v; ch_proto_ver := ch_proto_ver r;
     ch_options := ch_options r; ch_addtl_create := ch_addtl_create r;
     ch_addtl_accept := ch_addtl_accept r; ch_supported := ch_supported r;
     ch_offered_policy := ch_offered_policy r; ch_policy := ch_policy r;
     ch_cipher := ch_cipher r; ch_stats := ch_stats r;
     ch_outgoing_queue := ch_outgoing_queue r; ch_incoming_queue := ch_incoming_queue r;
     ch_srvc_data := ch_srvc_data r |}.
Definition set_ch_proto_ver (v : Z) (r : mwChannel) : mwChannel :=
  {| ch_state := ch_state r; ch_user := ch_user r; ch_id := ch_id r;
     ch_service := ch_service r; ch_proto_type := ch_proto_type r; ch_proto_ver := v;
     ch_options := ch_options r; ch_addtl_create := ch_addtl_create r;
     ch_addtl_accept := ch_addtl_accept r; ch_supported := ch_supported r;
     ch_offered_policy := ch_offered_policy r; ch_policy := ch_policy r;
     ch_cipher := ch_cipher r; ch_stats := ch_stats r;
     ch_outgoing_queue := ch_outgoing_queue r; ch_incoming_queue := ch_incoming_queue r;
     ch_srvc_data := ch_srvc_data r |}.
Definition set_ch_options (v : Z) (r : mwChannel) : mwChannel :=
  {| ch_state := ch_state r; ch_user := ch_user r; ch_id := ch_id r;
     ch_service := ch_service r; ch_proto_type := ch_proto_type r;
     ch_proto_ver := ch_proto_ver r; ch_options := v; ch_addtl_create := ch_addtl_create r;
     ch_addtl_accept := ch_addtl_accept r; ch_supported := ch_supported r;
     ch_offered_policy := ch_offered_policy r; ch_policy := ch_policy r;
     ch_cipher := ch_cipher r; ch_stats := ch_stats r;
     ch_outgoing_queue := ch_outgoing_queue r; ch_incoming_queue := ch_incoming_queue r;
     ch_srvc_data := ch_srvc_data r |}.
Definition set_ch_addtl_create (v : mwOpaque) (r : mwChannel) : mwChannel :=
  {| ch_state := ch_state r; ch_user := ch_user r; ch_id := ch_id r;
     ch_service := ch_service r; ch_proto_type := ch_proto_type r;
     ch_proto_ver := ch_proto_ver r; ch_options := ch_options r; ch_addtl_create := v;
     ch_addtl_accept := ch_addtl_accept r; ch_supported := ch_supported r;
     ch_offered_policy := ch_offered_policy r; ch_policy := ch_policy r;
     ch_cipher := ch_cipher r; ch_stats := ch_stats r;
     ch_outgoing_queue := ch_outgoing_queue r; ch_incoming_queue := ch_incoming_queue r;
     ch_srvc_data := ch_srvc_data r |}.
Definition set_ch_addtl_accept (v : mwOpaque) (r : mwChannel) : mwChannel :=
  {| ch_state := ch_state r; ch_user := ch_user r; ch_id := ch_id r;
     ch_service := ch_service r; ch_proto_type := ch_proto_type r;
     ch_proto_ver := ch_proto_ver r; ch_options := ch_options r;
     ch_addtl_create := ch_addtl_create r; ch_addtl_accept := v;
     ch_supported := ch_supported r; ch_offered_policy := ch_offered_policy r;
     ch_policy := ch_policy r; ch_cipher := ch_cipher r; ch_stats := ch_stats r;
     ch_outgoing_queue := ch_outgoing_queue r; ch_incoming_queue := ch_incoming_queue r;
     ch_srvc_data := ch_srvc_data r |}.
Definition set_ch_supported (v : option (gmap Z mwCipherInstance)) (r : mwChannel) : mwChannel :=
  {| ch_state := ch_state r; ch_user := ch_user r; ch_id := ch_id r;
     ch_service := ch_service r; ch_proto_type := ch_proto_type r;
     ch_proto_ver := ch_proto_ver r; ch_options := ch_options r;
     ch_addtl_create := ch_addtl_create r; ch_addtl_accept := ch_addtl_accept r;
     ch_supported := v; ch_offered_policy := ch_offered_policy r; ch_policy := ch_policy r;
     ch_cipher := ch_cipher r; ch_stats := ch_stats r;
     ch_outgoing_queue := ch_outgoing_queue r; ch_incoming_queue := ch_incoming_queue r;
     ch_srvc_data := ch_srvc_data r |}.
Definition set_ch_offered_policy (v : Z) (r : mwChannel) : mwChannel :=
  {| ch_state := ch_state r; ch_user := ch_user r; ch_id := ch_id r;
     ch_service := ch_service r; ch_proto_type := ch_proto_type r;
     ch_proto_ver := ch_proto_ver r; ch_options := ch_options r;
     ch_addtl_create := ch_addtl_create r; ch_addtl_accept := ch_addtl_accept r;
     ch_supported := ch_supported r; ch_offered_policy := v; ch_policy := ch_policy r;
     ch_cipher := ch_cipher r; ch_stats := ch_stats r;
     ch_outgoing_queue := ch_outgoing_queue r; ch_incoming_queue := ch_incoming_queue r;
     ch_srvc_data := ch_srvc_data r |}.
Definition set_ch_policy (v : Z) (r : mwChannel) : mwChannel :=
  {| ch_state := ch_state r; ch_user := ch_user r; ch_id := ch_id r;
     ch_service := ch_service r; ch_proto_type := ch_proto_type r;
     ch_proto_ver := ch_proto_ver r; ch_options := ch_options r;
     ch_addtl_create := ch_addtl_create r; ch_addtl_accept := ch_addtl_accept r;
     ch_supported := ch_supported r; ch_offered_policy := ch_offered_policy r;
     ch_policy := v; ch_cipher := ch_cipher r; ch_stats := ch_stats r;
     ch_outgoing_queue := ch_outgoing_queue r; ch_incoming_queue := ch_incoming_queue r;
     ch_srvc_data := ch_srvc_data r |}.
Definition set_ch_cipher (v : option mwCipherInstance) (r : mwChannel) : mwChannel :=
  {| ch_state := ch_state r; ch_user := ch_user r; ch_id := ch_id r;
     ch_service := ch_service r; ch_proto_type := ch_proto_type r;
     ch_proto_ver := ch_proto_ver r; ch_options := ch_options r;
     ch_addtl_create := ch_addtl_create r; ch_addtl_accept := ch_addtl_accept r;
     ch_supported := ch_supported r; ch_offered_policy := ch_offered_policy r;
     ch_policy := ch_policy r; ch_cipher := v; ch_stats := ch_stats r;
     ch_outgoing_queue := ch_outgoing_queue r; ch_incoming_queue := ch_incoming_queue r;
     ch_srvc_data := ch_srvc_data r |}.
Definition set_ch_stats (v : gmap Z Z) (r : mwChannel) : mwChannel :=
  {| ch_state := ch_state r; ch_user := ch_user r; ch_id := ch_id r;
     ch_service := ch_service r; ch_proto_type := ch_proto_type r;
     ch_proto_ver := ch_proto_ver r; ch_options := ch_options r;
     ch_addtl_create := ch_addtl_create r; ch_addtl_accept := ch_addtl_accept r;
     ch_supported := ch_supported r; ch_offered_policy := ch_offered_policy r;
     ch_policy := ch_policy r; ch_cipher := ch_cipher r; ch_stats := v;
     ch_outgoing_queue := ch_outgoing_queue r; ch_incoming_queue := ch_incoming_queue r;
     ch_srvc_data := ch_srvc_data r |}.
Definition set_ch_outgoing_queue (v : list mwMessage) (r : mwChannel) : mwChannel :=
  {| ch_state := ch_state r; ch_user := ch_user r; ch_id := ch_id r;
     ch_service := ch_service r; ch_proto_type := ch_proto_type r;
     ch_proto_ver := ch_proto_ver r; ch_options := ch_options r;
     ch_addtl_create := ch_addtl_create r; ch_addtl_accept := ch_addtl_accept r;
     ch_supported := ch_supported r; ch_offered_policy := ch_offered_policy r;
     ch_policy := ch_policy r; ch_cipher := ch_cipher r; ch_stats := ch_stats r;
     ch_outgoing_queue := v; ch_incoming_queue := ch_incoming_queue r;
     ch_srvc_data := ch_srvc_data r |}.
Definition set_ch_incoming_queue (v : list (mwMessageHead * mwMsgChannelSend)) (r : mwChannel) : mwChannel :=
  {| ch_state := ch_state r; ch_user := ch_user r; ch_id := ch_id r;
     ch_service := ch_service r; ch_proto_type := ch_proto_type r;
     ch_proto_ver := ch_proto_ver r; ch_options := ch_options r;
     ch_addtl_create := ch_addtl_create r; ch_addtl_accept := ch_addtl_accept r;
     ch_supported := ch_supported r; ch_offered_policy := ch_offered_policy r;
     ch_policy := ch_policy r; ch_cipher := ch_cipher r; ch_stats := ch_stats r;
     ch_outgoing_queue := ch_outgoing_queue r; ch_incoming_queue := v;
     ch_srvc_data := ch_srvc_data r |}.
Definition set_ch_srvc_data (v : option Z) (r : mwChannel) : mwChannel :=
  {| ch_state := ch_state r; ch_user := ch_user r; ch_id := ch_id r;
     ch_service := ch_service r; ch_proto_type := ch_proto_type r;
     ch_proto_ver := ch_proto_ver r; ch_options := ch_options r;
     ch_addtl_create := ch_addtl_create r; ch_addtl_accept := ch_addtl_accept r;
     ch_supported := ch_supported r; ch_offered_policy := ch_offered_policy r;
     ch_policy := ch_policy r; ch_cipher := ch_cipher r; ch_stats := ch_stats r;
     ch_outgoing_queue := ch_outgoing_queue r; ch_incoming_queue := ch_incoming_queue r;
     ch_srvc_data := v |}.

Definition set_w_session (v : mwSession) (r : world) : world :=
  {| w_session := v; w_channels := w_channels r; w_services := w_services r;
     w_ciphers := w_ciphers r; w_heap := w_heap r; w_next := w_next r; w_log := w_log r |}.
Definition set_w_channels (v : gmap Z mwChannel) (r : world) : world :=
  {| w_session := w_session r; w_channels := v; w_services := w_services r;
     w_ciphers := w_ciphers r; w_heap := w_heap r; w_next := w_next r; w_log := w_log r |}.
Definition set_w_services (v : gmap Z mwService) (r : world) : world :=
  {| w_session := w_session r; w_channels := w_channels r; w_services := v;
     w_ciphers := w_ciphers r; w_heap := w_heap r; w_next := w_next r; w_log := w_log r |}.
Definition set_w_ciphers (v : gmap Z mwCipher) (r : world) : world :=
  {| w_session := w_session r; w_channels := w_channels r; w_services := w_services r;
     w_ciphers := v; w_heap := w_heap r; w_next := w_next r; w_log := w_log r |}.
Definition set_w_heap (v : gmap Z object) (r : world) : world :=
  {| w_session := w_session r; w_channels := w_channels r; w_services := w_services r;
     w_ciphers := w_ciphers r; w_heap := v; w_next := w_next r; w_log := w_log r |}.
Definition set_w_next (v : Z) (r : world) : world :=
  {| w_session := w_session r; w_channels := w_channels r; w_services := w_services r;
     w_ciphers := w_ciphers r; w_heap := w_heap r; w_next := v; w_log := w_log r |}.
Definition set_w_log (v : list event) (r : world) : world :=
  {| w_session := w_session r; w_channels := w_channels r; w_services := w_services r;
     w_ciphers := w_ciphers r; w_heap := w_heap r; w_next := w_next r; w_log := v |}.

Definition set_sv_state (v : mwServiceState) (r : mwService) : mwService :=
  {| sv_type := sv_type r; sv_state := v; sv_session := sv_session r |}.

Definition set_ci_key (v : list Z) (r : mwCipherInstance) : mwCipherInstance :=
  {| ci_cipher := ci_cipher r; ci_channel := ci_channel r; ci_key := v;
     ci_outgoing_iv := ci_outgoing_iv r; ci_incoming_iv := ci_incoming_iv r |}.
Definition set_ci_outgoing_iv (v : list Z) (r : mwCipherInstance) : mwCipherInstance :=
  {| ci_cipher := ci_cipher r; ci_channel := ci_channel r; ci_key := ci_key r;
     ci_outgoing_iv := v; ci_incoming_iv := ci_incoming_iv r |}.
Definition set_ci_incoming_iv (v : list Z) (r : mwCipherInstance) : mwCipherInstance :=
  {| ci_cipher := ci_cipher r; ci_channel := ci_channel r; ci_key := ci_key r;
     ci_outgoing_iv := ci_outgoing_iv r; ci_incoming_iv := v |}.

(** ** Computations *)

(** [None]: the code reads or writes memory it does not own, or uses a pointer
    as what it is not. *)
Definition M (A : Type) : Type := world -> option (A * world).

Definition ret {A} (a : A) : M A := fun w => Some (a, w).
Definition bind {A B} (m : M A) (k : A -> M B) : M B := fun w =>
  match m w with Some (a, w) => k a w | None => None end.
Definition crash {A} : M A := fun _ => None.
Definition lift {A} (o : option A) : M A := fun w =>
  match o with Some a => Some (a, w) | None => None end.
Definition gets {A} (f : world -> A) : M A := fun w => Some (f w, w).
Definition modify (f : world -> world) : M unit := fun w => Some (tt, f w).

Notation "'let*' x := m 'in' k" := (bind m (fun x => k))
  (at level 10, x pattern, m at level 200, k at level 200) : mw_scope.
Notation "m ;; k" := (bind m (fun _ => k))
  (at level 100, k at level 200, right associativity) : mw_scope.

Fixpoint for_each {A} (f : A -> M unit) (l : list A) : M unit :=
  match l with
  | [] => ret tt
  | x :: l => bind (f x) (fun _ => for_each f l)
  end.

Definition session_get {A} (f : mwSession -> A) : M A := gets (fun w => f (w_session w)).
Definition session_set (f : mwSession -> mwSession) : M unit :=
  modify (fun w => set_w_session (f (w_session w)) w).

Definition deref_channel (p : Z) : M mwChannel := fun w => lift (w_channels w !! p) w.
Definition deref_service (p : Z) : M mwService := fun w => lift (w_services w !! p) w.
Definition deref_cipher (p : Z) : M mwCipher := fun w => lift (w_ciphers w !! p) w.

Definition channel_get {A} (p : Z) (f : mwChannel -> A) : M A := fun w =>
  lift (f <$> w_channels w !! p) w.
Definition channel_set (p : Z) (f : mwChannel -> mwChannel) : M unit := fun w =>
  match w_channels w !! p with
  | Some ch => Some (tt, set_w_channels (<[p := f ch]> (w_channels w)) w)
  | None => None
  end.
Definition service_set (p : Z) (f : mwService -> mwService) : M unit := fun w =>
  match w_services w !! p with
  | Some sv => Some (tt, set_w_services (<[p := f sv]> (w_services w)) w)
  | None => None
  end.
Definition cipher_set (p : Z) (f : mwCipher -> mwCipher) : M unit := fun w =>
  match w_ciphers w !! p with
  | Some c => Some (tt, set_w_ciphers (<[p := f c]> (w_ciphers w)) w)
  | None => None
  end.

(** A block of any type, and one of type [A]. *)
Definition deref_object (p : Z) : M object := fun w => lift (w_heap w !! p) w.
Definition put_object (p : Z) (o : object) : M unit := fun w =>
  match w_heap w !! p with
  | Some _ => Some (tt, set_w_heap (<[p := o]> (w_heap w)) w)
  | None => None
  end.
Definition new_object (o : object) : M Z := fun w =>
  Some (w_next w, set_w_next (w_next w + 1) (set_w_heap (<[w_next w := o]> (w_heap w)) w)).
Definition free_object (p : Z) : M unit := fun w =>
  match w_heap w !! p with
  | Some _ => Some (tt, set_w_heap (delete p (w_heap w)) w)
  | None => None
  end.

(** The rest of a structure whose address is [p] already. *)
Definition attach_object (p : Z) (o : object) : M unit :=
  modify (fun w => set_w_heap (<[p := o]> (w_heap w)) w).

Definition obj_deref {A} `{Object A} (p : Z) : M A :=
  let* o := deref_object p in lift (obj_out o).
Definition obj_get {A B} `{Object A} (p : Z) (f : A -> B) : M B :=
  let* a := obj_deref p in ret (f a).
Definition obj_set {A} `{Object A} (p : Z) (f : A -> A) : M unit :=
  let* a := obj_deref p in put_object p (obj_in (f a)).
Definition obj_new {A} `{Object A} (a : A) : M Z := new_object (obj_in a).

(** *** Runs *)

Lemma bind_run {A B} (m : M A) (k : A -> M B) a w w1 : m w = Some (a, w1) -> bind m k w = k a w1.
Proof. intros H. unfold bind. by rewrite H. Qed.

Lemma bind_none {A B} (m : M A) (k : A -> M B) w : m w = None -> bind m k w = None.
Proof. intros H. unfold bind. by rewrite H. Qed.

Lemma lift_run {A} (o : option A) a w : o = Some a -> lift o w = Some (a, w).
Proof. by intros ->. Qed.
Lemma lift_inv {A} (o : option A) a w w' : lift o w = Some (a, w') -> o = Some a /\ w' = w.
Proof. destruct o; [by intros [= <- <-]|done]. Qed.

Lemma bind_inv {A B} (m : M A) (k : A -> M B) w b w' :
  bind m k w = Some (b, w') -> exists a w1, m w = Some (a, w1) /\ k a w1 = Some (b, w').
Proof. unfold bind. destruct (m w) as [[a w1]|]; [|done]. intros H. by exists a, w1. Qed.

Section objects.
Context {A : Type} `{Object A}.

Lemma obj_deref_run p (a : A) w : w_heap w !! p = Some (obj_in a) -> obj_deref p w = Some (a, w).
Proof. intros E. unfold obj_deref, bind, deref_object. rewrite E. cbn. by rewrite obj_in_out. Qed.
Lemma obj_get_run {B} p (f : A -> B) a w :
  w_heap w !! p = Some (obj_in a) -> obj_get p f w = Some (f a, w).
Proof. intros E. unfold obj_get. by erewrite bind_run by by apply obj_deref_run. Qed.
Lemma obj_set_run p (f : A -> A) a w : w_heap w !! p = Some (obj_in a) ->
  obj_set p f w = Some (tt, set_w_heap (<[p := obj_in (f a)]> (w_heap w)) w).
Proof.
  intros E. unfold obj_set. erewrite bind_run by by apply obj_deref_run.
  unfold put_object. by rewrite E.
Qed.
Lemma obj_new_run (a : A) w : obj_new a w =
  Some (w_next w, set_w_next (w_next w + 1) (set_w_heap (<[w_next w := obj_in a]> (w_heap w)) w)).
Proof. reflexivity. Qed.
End objects.

Lemma free_object_run p o w :
  w_heap w !! p = Some o -> free_object p w = Some (tt, set_w_heap (delete p (w_heap w)) w).
Proof. intros E. unfold free_object. by rewrite E. Qed.

(** *** What a run that ended did *)

Lemma obj_deref_inv {A} `{Object A} p w (a : A) w' :
  obj_deref p w = Some (a, w') -> w' = w /\ w_heap w !! p = Some (obj_in a).
Proof.
  unfold obj_deref, bind, deref_object, lift. destruct (w_heap w !! p) as [o|]; [|done].
  destruct (obj_out o) as [b|] eqn:E; [|done]. intros [= <- <-]. by apply obj_out_in in E as ->.
Qed.
Lemma obj_set_inv {A} `{Object A} p (f : A -> A) w w' : obj_set p f w = Some (tt, w') ->
  exists a, w_heap w !! p = Some (obj_in a) /\ w' = set_w_heap (<[p := obj_in (f a)]> (w_heap w)) w.
Proof.
  unfold obj_set. intros E. unfold bind in E. destruct (obj_deref p w) as [[a w1]|] eqn:Ed; [|done].
  apply obj_deref_inv in Ed as [-> Ha]. exists a. split; [done|]. unfold put_object in E. rewrite Ha in E.
  by injection E as <-.
Qed.
Lemma obj_get_inv {A B} `{Object A} p (f : A -> B) w b w' :
  obj_get p f w = Some (b, w') -> w' = w /\ exists a, w_heap w !! p = Some (obj_in a) /\ b = f a.
Proof.
  unfold obj_get. intros (a & w1 & Ed & Er)%bind_inv. apply obj_deref_inv in Ed as [-> Ha].
  injection Er as <- <-. split; [done|by exists a].
Qed.

Lemma channel_get_inv {A} p (f : mwChannel -> A) w a w' : channel_get p f w = Some (a, w') ->
  w' = w /\ exists ch, w_channels w !! p = Some ch /\ a = f ch.
Proof.
  unfold channel_get. destruct (w_channels w !! p) as [ch|]; [|done]. intros [= <- <-]. split; [done|by exists ch].
Qed.

Lemma free_object_inv p w w' : free_object p w = Some (tt, w') ->
  is_Some (w_heap w !! p) /\ w' = set_w_heap (delete p (w_heap w)) w.
Proof. unfold free_object. destruct (w_heap w !! p); [|done]. by intros [= <-]. Qed.

(** New blocks are really new. *)
Definition heap_below (w : world) : Prop := forall q o, w_heap w !! q = Some o -> q < w_next w.

Definition with_heap (h : gmap Z object) (w : world) : world := set_w_heap h w.

Lemma with_heap_twice h h' w : with_heap h (with_heap h' w) = with_heap h w.
Proof. done. Qed.

Lemma below_fresh w : heap_below w -> w_heap w !! w_next w = None.
Proof. intros B. destruct (w_heap w !! w_next w) eqn:E; [|done]. apply B in E. lia. Qed.

Lemma below_next w o : heap_below w ->
  heap_below (set_w_next (w_next w + 1) (with_heap (<[w_next w := o]> (w_heap w)) w)).
Proof.
  intros B r x. cbn. intros [[<- _]|[_ Hr]]%lookup_insert_Some; [lia|]. apply B in Hr. lia.
Qed.

Lemma below_update w q o n : heap_below w -> is_Some (w_heap w !! q) -> w_next w <= n ->
  heap_below (set_w_next n (with_heap (<[q := o]> (w_heap w)) w)).
Proof.
  intros B [o' Hq] Hn r x. cbn. intros [[<- _]|[_ Hr]]%lookup_insert_Some; [apply B in Hq|apply B in Hr]; lia.
Qed.

Lemma below_sub w (h : gmap Z object) : heap_below w -> (forall q, is_Some (h !! q) -> is_Some (w_heap w !! q)) ->
  heap_below (with_heap h w).
Proof.
  intros B Hs q o Hq. cbn in *. destruct (Hs q) as [o' Hq']; [by eexists|]. by eapply B.
Qed.

Lemma below_insert w q o : heap_below w -> is_Some (w_heap w !! q) ->
  heap_below (set_w_heap (<[q := o]> (w_heap w)) w).
Proof.
  intros B Hq. apply (below_sub w); [done|]. intros r [x [[<- _]|[_ Hr]]%lookup_insert_Some]; [done|by eexists].
Qed.

Definition log (e : event) : M unit := modify (fun w => set_w_log (w_log w ++ [e]) w).

(** ** Outside the library *)

(** The functions of a service, given the pointers to it and to the channel. *)
Record ServiceOps := {
  op_recv_create : option (Z -> Z -> mwMsgChannelCreate -> M unit);
  op_recv_accept : option (Z -> Z -> mwMsgChannelAccept -> M unit);
  op_recv_destroy : option (Z -> Z -> mwMsgChannelDestroy -> M unit);
  op_recv : option (Z -> Z -> Z -> mwOpaque -> M unit);
  op_start : option (Z -> M unit);
  op_stop : option (Z -> M unit);
  op_clear : option (Z -> M unit);
}.

(** Integers of the mpi library, by their value: [mw_mp_read_unsigned_bin],
    [mw_mp_to_unsigned_bin] into a block of [mw_mp_unsigned_bin_size] bytes,
    and [mw_mp_exptmod]. *)
Record Mpi := {
  mp_read : list Z -> Z;
  mp_write : Z -> list Z;
  mp_exptmod : Z -> Z -> Z -> Z;
}.

Record Env := {
  e_io_write : list Z -> M Z;
  e_io_close : M unit;
  e_clear : option (M unit);
  e_on_stateChange : option (mwSessionState -> gpointer -> M unit);
  e_on_setPrivacyInfo : option (M unit);
  e_on_setUserStatus : option (M unit);
  e_on_admin : option (mwString -> M unit);
  e_on_announce : option (mwLoginInfo -> bool -> mwString -> M unit);
  e_service : Z -> ServiceOps;   (* the functions of the service at a pointer *)
  e_values : forall A, gmap Z A -> list A;   (* the order of a hash table *)
  e_uninit : Uninit;
  e_mpi : Mpi;
  e_rand : nat -> list Z;        (* bytes of rand() *)
  e_time : Z;                    (* time(NULL) *)
}.

(** Calls of optional functions. *)
Definition call0 (f : option (M unit)) : M unit :=
  match f with Some m => m | None => ret tt end.

(** ** A concrete environment *)

(** Integers written with the high byte first and no leading zeros. *)
Fixpoint low_bytes (fuel : nat) (n : Z) : list Z :=
  match fuel with
  | O => []
  | S fuel => if n <=? 0 then [] else n mod 256 :: low_bytes fuel (n / 256)
  end.
Definition read_low (l : list Z) : Z := foldr (fun b n => b mod 256 + 256 * n) 0 l.

Definition mpi_Z : Mpi := {|
  mp_read l := read_low (reverse l);
  mp_write n := reverse (low_bytes (Z.to_nat (Z.log2 n + 1)) n);
  mp_exptmod b e p := b ^ e mod p;
|}.

Lemma read_low_nonneg l : 0 <= read_low l.
Proof. induction l as [|b l IH]; cbn [read_low foldr]; [done|]. pose proof (Z.mod_pos_bound b 256). fold (read_low l). lia. Qed.

Lemma read_low_bytes fuel n : 0 <= n < 2 ^ Z.of_nat fuel -> read_low (low_bytes fuel n) = n.
Proof.
  revert n. induction fuel as [|fuel IH]; intros n Hn; cbn [low_bytes]; [cbn in *; lia|].
  destruct (Z.leb_spec n 0); [cbn; lia|]. cbn [read_low foldr].
  rewrite Z.mod_mod by lia. pose proof (Z.div_mod n 256).
  change (foldr _ _ _) with (read_low (low_bytes fuel (n / 256))). rewrite IH; [lia|].
  split; [apply Z.div_pos; lia|]. apply Z.div_lt_upper_bound; [lia|].
  replace (Z.of_nat (S fuel)) with (Z.of_nat fuel + 1) in Hn by lia.
  rewrite Z.pow_add_r in Hn by lia. lia.
Qed.

(** A handler whose writes succeed and that only listens, and services
    without functions of their own. *)
Definition quiet_ops : ServiceOps := {|
  op_recv_create := None; op_recv_accept := None; op_recv_destroy := None;
  op_recv := None; op_start := None; op_stop := None; op_clear := None |}.

Definition quiet_uninit : Uninit :=
  {| u_type := 0; u_options := 0; u_channel := 0; u_junk := 0; u_skip := 0; u_count := 0 |}.

Definition quiet_env (seed : Z) : Env := {|
  e_io_write _ := ret 0;
  e_io_close := ret tt;
  e_clear := None;
  e_on_stateChange := None;
  e_on_setPrivacyInfo := None;
  e_on_setUserStatus := None;
  e_on_admin := None;
  e_on_announce := None;
  e_service _ := quiet_ops;
  e_values A m := (map_to_list m).*2;
  e_uninit := quiet_uninit;
  e_mpi := mpi_Z;
  e_rand n := replicate (n - 1) 0 ++ [seed];
  e_time := 0;
|}.

(** A client that has done nothing. *)
Definition quiet_world : world := {|
  w_session := {|
    s_state := mwSession_STOPPED; s_state_info := Word 0; s_buf := rb_empty; s_login := li_zero;
    s_status := us_zero; s_privacy := pi_zero; s_chan_map := ∅; s_chan_counter := 0; s_services := ∅;
    s_ciphers := ∅; s_attributes := ∅ |};
  w_channels := ∅; w_services := ∅; w_ciphers := ∅; w_heap := ∅; w_next := 1; w_log := [] |}.
