(* ===== verification/Util.v ===== *)
(** * Data with its clean-up (src/src/mw_util.c)

    [struct mw_datum]: what a client attaches to an object of the library, with
    the function that frees it. *)

From S2P Require Import Prelude Buffer Common World.
#[local] Open Scope Z_scope.
#[local] Open Scope mw_scope.

(** [free] calls the function at an address. *)
Definition mw_datum_set (d : mw_datum) (p clear : Z) : mw_datum := {| dt_data := p; dt_clear := clear |}.
Definition mw_datum_new (p clear : Z) : mw_datum := {| dt_data := p; dt_clear := clear |}.
Definition mw_datum_get (d : mw_datum) : Z := dt_data d.
Definition mw_datum_clear (free : Z -> Z -> M unit) (d : mw_datum) : M mw_datum :=
  if dt_clear d =? 0 then ret {| dt_data := 0; dt_clear := 0 |}
  else free (dt_clear d) (dt_data d) ;; ret {| dt_data := 0; dt_clear := 0 |}.

Definition datum_zero : mw_datum := {| dt_data := 0; dt_clear := 0 |}.

(** [g_list_remove]: the first of the elements. *)
Fixpoint g_list_remove (l : list Z) (p : Z) : list Z :=
  match l with
  | [] => []
  | q :: l => if q =? p then l else q :: g_list_remove l p
  end.

(** [g_return_if_fail(p != NULL)] *)
Definition nonnull {A} (p : option Z) (val : A) (f : Z -> M A) : M A :=
  match p with Some p => f p | None => ret val end.

(** [g_return_val_if_fail(c, val)] *)
Definition guard {A} (c : M bool) (val : A) (m : M A) : M A :=
  let* ok := c in if ok then m else ret val.

(** A function of a handler, which may be missing. *)
Definition call1 {A} (f : option (A -> M unit)) (a : A) : M unit :=
  match f with Some f => f a | None => ret tt end.
Definition call2 {A B} (f : option (A -> B -> M unit)) (a : A) (b : B) : M unit :=
  match f with Some f => f a b | None => ret tt end.

(** Places a [mwLoginInfo] into a [mwIdBlock]. *)
Definition login_into_id (from : mwLoginInfo) : mwIdBlock :=
  {| id_user := li_user_id from; id_community := li_community from |}.
