(* ===== verification/StList.v ===== *)
(** * The contact list (src/src/st_list.c)

    A contact list is groups of users, each a block with pointers to its
    parent and its children.  It is stored as a text of lines, one for the
    version, one for each group and one for each user, and loaded from it. *)

From S2P Require Import Prelude Buffer Common Cstring World Util.
#[local] Open Scope Z_scope.
#[local] Open Scope mw_scope.

Definition ST_LIST_MAJOR : Z := 3.
Definition ST_LIST_MINOR : Z := 1.
Definition ST_LIST_MICRO : Z := 3.

(** ** Assignments to fields *)

Definition set_stl_major (v : Z) (l : mwSametimeList) : mwSametimeList :=
  {| stl_ver_major := v; stl_ver_minor := stl_ver_minor l; stl_ver_micro := stl_ver_micro l;
     stl_groups := stl_groups l |}.
Definition set_stl_minor (v : Z) (l : mwSametimeList) : mwSametimeList :=
  {| stl_ver_major := stl_ver_major l; stl_ver_minor := v; stl_ver_micro := stl_ver_micro l;
     stl_groups := stl_groups l |}.
Definition set_stl_micro (v : Z) (l : mwSametimeList) : mwSametimeList :=
  {| stl_ver_major := stl_ver_major l; stl_ver_minor := stl_ver_minor l; stl_ver_micro := v;
     stl_groups := stl_groups l |}.
Definition set_stl_groups (v : list Z) (l : mwSametimeList) : mwSametimeList :=
  {| stl_ver_major := stl_ver_major l; stl_ver_minor := stl_ver_minor l;
     stl_ver_micro := stl_ver_micro l; stl_groups := v |}.
Definition set_stg_alias (v : mwString) (g : mwSametimeGroup) : mwSametimeGroup :=
  {| stg_list := stg_list g; stg_type := stg_type g; stg_name := stg_name g; stg_alias := v;
     stg_open := stg_open g; stg_users := stg_users g |}.
Definition set_stg_open (v : bool) (g : mwSametimeGroup) : mwSametimeGroup :=
  {| stg_list := stg_list g; stg_type := stg_type g; stg_name := stg_name g;
     stg_alias := stg_alias g; stg_open := v; stg_users := stg_users g |}.
Definition set_stg_users (v : list Z) (g : mwSametimeGroup) : mwSametimeGroup :=
  {| stg_list := stg_list g; stg_type := stg_type g; stg_name := stg_name g;
     stg_alias := stg_alias g; stg_open := stg_open g; stg_users := v |}.
Definition set_stu_name (v : mwString) (u : mwSametimeUser) : mwSametimeUser :=
  {| stu_group := stu_group u; stu_type := stu_type u; stu_id := stu_id u; stu_name := v;
     stu_alias := stu_alias u |}.
Definition set_stu_alias (v : mwString) (u : mwSametimeUser) : mwSametimeUser :=
  {| stu_group := stu_group u; stu_type := stu_type u; stu_id := stu_id u; stu_name := stu_name u;
     stu_alias := v |}.

(** ** Freeing *)

Definition user_free (u : Z) : M unit :=
  let* g := obj_get u stu_group in
  obj_set g (fun g => set_stg_users (g_list_remove (stg_users g) u) g) ;;
  free_object u.

Definition mwSametimeUser_free (u : option Z) : M unit := nonnull u tt user_free.

(** [while(g->users) mwSametimeUser_free(g->users->data);] *)
Fixpoint free_users (fuel : nat) (g : Z) : M unit :=
  match fuel with
  | O => crash
  | S fuel =>
      let* users := obj_get g stg_users in
      match users with
      | [] => ret tt
      | u :: _ => mwSametimeUser_free (Some u) ;; free_users fuel g
      end
  end.

Definition group_free (g : Z) : M unit :=
  let* l := obj_get g stg_list in
  obj_set l (fun l => set_stl_groups (g_list_remove (stl_groups l) g) l) ;;
  let* users := obj_get g stg_users in
  free_users (S (length users)) g ;;
  free_object g.

Definition mwSametimeGroup_free (g : option Z) : M unit := nonnull g tt group_free.

Fixpoint free_groups (fuel : nat) (l : Z) : M unit :=
  match fuel with
  | O => crash
  | S fuel =>
      let* groups := obj_get l stl_groups in
      match groups with
      | [] => ret tt
      | g :: _ => mwSametimeGroup_free (Some g) ;; free_groups fuel l
      end
  end.

Definition list_free (l : Z) : M unit :=
  let* groups := obj_get l stl_groups in
  free_groups (S (length groups)) l ;;
  free_object l.

Definition mwSametimeList_free (l : option Z) : M unit := nonnull l tt list_free.

(** ** Lists *)

Definition mwSametimeList_new : M Z :=
  obj_new {| stl_ver_major := ST_LIST_MAJOR; stl_ver_minor := ST_LIST_MINOR;
             stl_ver_micro := ST_LIST_MICRO; stl_groups := [] |}.

Definition mwSametimeList_setMajor (l : option Z) (v : Z) : M unit :=
  nonnull l tt (fun l => obj_set l (set_stl_major v)).
Definition mwSametimeList_getMajor (l : option Z) : M Z :=
  nonnull l 0 (fun l => obj_get l stl_ver_major).
Definition mwSametimeList_setMinor (l : option Z) (v : Z) : M unit :=
  nonnull l tt (fun l => obj_set l (set_stl_minor v)).
Definition mwSametimeList_getMinor (l : option Z) : M Z :=
  nonnull l 0 (fun l => obj_get l stl_ver_minor).
Definition mwSametimeList_setMicro (l : option Z) (v : Z) : M unit :=
  nonnull l tt (fun l => obj_set l (set_stl_micro v)).
Definition mwSametimeList_getMicro (l : option Z) : M Z :=
  nonnull l 0 (fun l => obj_get l stl_ver_micro).
Definition mwSametimeList_getGroups (l : option Z) : M (list Z) :=
  nonnull l [] (fun l => obj_get l stl_groups).

(** [g_return_val_if_fail(name != NULL, NULL)], and that it is not empty. *)
Definition named {A} (name : mwString) (val : A) (f : list Z -> M A) : M A :=
  match name with Some (c :: s) => f (c :: s) | _ => ret val end.

(** [strcmp] takes two strings. *)
Fixpoint find_group (gs : list Z) (name : list Z) : M (option Z) :=
  match gs with
  | [] => ret None
  | g :: gs =>
      let* n := obj_get g stg_name in
      let* n := lift n in
      if bool_decide (n = name) then ret (Some g) else find_group gs name
  end.

Definition mwSametimeList_findGroup (l : option Z) (name : mwString) : M (option Z) :=
  nonnull l None (fun l => named name None (fun name =>
    let* gs := obj_get l stl_groups in find_group gs name)).

(** ** Groups *)

Definition mwSametimeGroup_new (list : option Z) (type : mwSametimeGroupType) (name : mwString)
    : M (option Z) :=
  nonnull list None (fun list => named name None (fun name =>
    let* stg := obj_new {| stg_list := list; stg_type := type; stg_name := g_strdup (Some name);
                           stg_alias := None; stg_open := false; stg_users := [] |} in
    obj_set list (fun l => set_stl_groups (stl_groups l ++ [stg]) l) ;;
    ret (Some stg))).

Definition mwSametimeGroup_getType (g : option Z) : M mwSametimeGroupType :=
  nonnull g mwSametimeGroup_UNKNOWN (fun g => obj_get g stg_type).
Definition mwSametimeGroup_getName (g : option Z) : M mwString :=
  nonnull g None (fun g => obj_get g stg_name).
Definition mwSametimeGroup_setAlias (g : option Z) (alias : mwString) : M unit :=
  nonnull g tt (fun g => obj_set g (set_stg_alias (g_strdup alias))).
Definition mwSametimeGroup_getAlias (g : option Z) : M mwString :=
  nonnull g None (fun g => obj_get g stg_alias).
Definition mwSametimeGroup_setOpen (g : option Z) (open : bool) : M unit :=
  nonnull g tt (fun g => obj_set g (set_stg_open open)).
Definition mwSametimeGroup_isOpen (g : option Z) : M bool :=
  nonnull g false (fun g => obj_get g stg_open).
Definition mwSametimeGroup_getList (g : option Z) : M (option Z) :=
  nonnull g None (fun g => let* l := obj_get g stg_list in ret (Some l)).
Definition mwSametimeGroup_getUsers (g : option Z) : M (list Z) :=
  nonnull g [] (fun g => obj_get g stg_users).

Fixpoint find_user (us : list Z) (user : mwIdBlock) : M (option Z) :=
  match us with
  | [] => ret None
  | u :: us =>
      let* id := obj_get u stu_id in
      if mwIdBlock_equal user id then ret (Some u) else find_user us user
  end.

Definition mwSametimeGroup_findUser (g : option Z) (user : option mwIdBlock) : M (option Z) :=
  nonnull g None (fun g =>
    match user with
    | Some user => let* us := obj_get g stg_users in find_user us user
    | None => ret None
    end).

(** ** Users *)

Definition mwSametimeUser_new (group : option Z) (type : mwSametimeUserType) (id : option mwIdBlock)
    : M (option Z) :=
  nonnull group None (fun group =>
    match id with
    | Some id =>
        let* stu := obj_new {| stu_group := group; stu_type := type; stu_id := mwIdBlock_clone id;
                               stu_name := None; stu_alias := None |} in
        obj_set group (fun g => set_stg_users (stg_users g ++ [stu]) g) ;;
        ret (Some stu)
    | None => ret None
    end).

Definition mwSametimeUser_getGroup (u : option Z) : M (option Z) :=
  nonnull u None (fun u => let* g := obj_get u stu_group in ret (Some g)).
Definition mwSametimeUser_getType (u : option Z) : M mwSametimeUserType :=
  nonnull u mwSametimeUser_UNKNOWN (fun u => obj_get u stu_type).
Definition mwSametimeUser_getUser (u : option Z) : M mwString :=
  nonnull u None (fun u => obj_get u (fun u => id_user (stu_id u))).
Definition mwSametimeUser_getCommunity (u : option Z) : M mwString :=
  nonnull u None (fun u => obj_get u (fun u => id_community (stu_id u))).
Definition mwSametimeUser_setShortName (u : option Z) (name : mwString) : M unit :=
  nonnull u tt (fun u => obj_set u (set_stu_name (g_strdup name))).
Definition mwSametimeUser_getShortName (u : option Z) : M mwString :=
  nonnull u None (fun u => obj_get u stu_name).
Definition mwSametimeUser_setAlias (u : option Z) (alias : mwString) : M unit :=
  nonnull u tt (fun u => obj_set u (set_stu_alias (g_strdup alias))).
Definition mwSametimeUser_getAlias (u : option Z) : M mwString :=
  nonnull u None (fun u => obj_get u stu_alias).

(** ** Storing *)

Definition user_type_to_char (type : mwSametimeUserType) : Z :=
  match type with
  | mwSametimeUser_NORMAL => 49
  | mwSametimeUser_EXTERNAL => 50
  | mwSametimeUser_UNKNOWN => 57
  end.
Definition user_char_to_type (type : Z) : mwSametimeUserType :=
  if type =? 49 then mwSametimeUser_NORMAL
  else if type =? 50 then mwSametimeUser_EXTERNAL
  else mwSametimeUser_UNKNOWN.
Definition group_type_to_char (type : mwSametimeGroupType) : Z :=
  match type with
  | mwSametimeGroup_NORMAL => 50
  | mwSametimeGroup_DYNAMIC => 51
  | mwSametimeGroup_UNKNOWN => 57
  end.
Definition group_char_to_type (type : Z) : mwSametimeGroupType :=
  if type =? 50 then mwSametimeGroup_NORMAL
  else if type =? 51 then mwSametimeGroup_DYNAMIC
  else mwSametimeGroup_UNKNOWN.

(** ' ' and ';' *)
Definition SP : Z := 32.
Definition SEMI : Z := 59.
Definition CRLF : list Z := [13; 10].

(** [printf] of a NULL string is undefined. *)
Definition user_text (u_type : mwSametimeUserType) (u_id u_name u_alias : mwString) : option (list Z) :=
  id ← str_replace SP SEMI <$> u_id;
  let name := str_replace SP SEMI <$> u_name in
  let alias := str_replace SP SEMI <$> u_alias in
  let '(name, alias) := match name, alias with
                        | None, Some alias => (Some alias, None)
                        | _, _ => (name, alias)
                        end in
  Some (chars "U " ++ id ++ [user_type_to_char u_type] ++ chars ":: " ++ default [] name ++
        chars "," ++ default [] alias ++ CRLF).

Definition user_put (str : list Z) (u : Z) : M (list Z) :=
  let* u := obj_deref u in
  let* s := lift (user_text (stu_type u) (id_user (stu_id u)) (stu_name u) (stu_alias u)) in
  ret (str ++ s).

Fixpoint put_each (put : list Z -> Z -> M (list Z)) (str : list Z) (l : list Z) : M (list Z) :=
  match l with
  | [] => ret str
  | p :: l => let* str := put str p in put_each put str l
  end.

Definition group_text (g_type : mwSametimeGroupType) (g_name g_alias : mwString) (g_open : bool)
    : option (list Z) :=
  name ← g_name;
  let alias := str_replace SP SEMI (default name g_alias) in
  let name := str_replace SP SEMI name in
  Some (chars "G " ++ name ++ [group_type_to_char g_type] ++ chars " " ++ alias ++ chars " " ++
        chars (if g_open then "O" else "C") ++ CRLF).

Definition group_put (str : list Z) (g : Z) : M (list Z) :=
  let* g := obj_deref g in
  let* s := lift (group_text (stg_type g) (stg_name g) (stg_alias g) (stg_open g)) in
  put_each user_put (str ++ s) (stg_users g).

Definition version_text (major minor micro : Z) : list Z :=
  chars "Version=" ++ print_u major ++ chars "." ++ print_u minor ++ chars "." ++ print_u micro ++ CRLF.

Definition list_store (l : Z) : M (list Z) :=
  let* l := obj_deref l in
  put_each group_put (version_text (stl_ver_major l) (stl_ver_minor l) (stl_ver_micro l)) (stl_groups l).

Definition mwSametimeList_store (l : option Z) : M mwString :=
  nonnull l None (fun l => let* s := list_store l in ret (Some s)).

Definition mwSametimeList_put (b : mwPutBuffer) (l : option Z) : M mwPutBuffer :=
  nonnull l b (fun l =>
    let* str := list_store l in
    let len := u16 (zlen str) in
    lift ((guint16_put len >>> mwPutBuffer_write str len) b)).

(** ** Loading *)

Definition get_version (line : list Z) (l : Z) : M unit :=
  let* r := lift (sscanf line (map Lit (chars "Version=") ++
                    [Fmt_u; Lit 46; Fmt_u; Lit 46; Fmt_u; Space])) in
  obj_set l (fun l => {| stl_ver_major := arg_u r 0 0; stl_ver_minor := arg_u r 1 0;
                         stl_ver_micro := arg_u r 2 0; stl_groups := stl_groups l |}).

(** [type = name[l]; name[l] = '\0';] for the last [l]; the rest and the type. *)
Definition split_type (name : list Z) (type : Z) : list Z * Z :=
  match reverse name with
  | [] => (name, type)
  | c :: s => (reverse s, c)
  end.

Definition get_group (line : list Z) (l : Z) : M Z :=
  let ret_ := strlen line in
  let* r := lift (sscanf line [Lit 71; Space; Fmt_s ret_; Space; Fmt_s ret_; Space; Fmt_c; Space]) in
  let name := str_replace SEMI SP (arg_s r 0) in
  let alias := str_replace SEMI SP (arg_s r 1) in
  let open := arg_c r 2 79 in
  let '(name, type) := split_type name 50 in
  let* group := obj_new {| stg_list := l; stg_type := group_char_to_type type;
                           stg_name := Some name; stg_alias := Some alias;
                           stg_open := open =? 79; stg_users := [] |} in
  obj_set l (fun l => set_stl_groups (stl_groups l ++ [group]) l) ;;
  ret group.

(** The id up to its type and the colons; [None] when the colons come first,
    where the code reads and writes the byte before the block. *)
Definition split_colons (id : list Z) (type : Z) : option (list Z * Z) :=
  match find_colons id with
  | None => Some (id, type)
  | Some O => None
  | Some (S k) => c ← id !! k; Some (take k id, c)
  end.

(** The name up to its last comma, and the alias after it, if there is one. *)
Definition split_alias (name : list Z) : list Z * mwString :=
  match strrchr 44 name with
  | None => (name, None)
  | Some k => (take k name, match drop (S k) name with [] => None | alias => Some alias end)
  end.

(** A user before any group is put on the list of NULL. *)
Definition get_user (line : list Z) (g : option Z) : M unit :=
  let ret_ := strlen line in
  let* r := lift (sscanf line [Lit 85; Space; Fmt_s ret_; Space; Fmt_s ret_]) in
  let id := str_replace SEMI SP (arg_s r 0) in
  let name := str_replace SEMI SP (arg_s r 1) in
  let* (id, type) := lift (split_colons id 49) in
  let '(name, alias) := split_alias name in
  match g with
  | None => crash
  | Some g =>
      let* user := obj_new {| stu_group := g; stu_type := user_char_to_type type;
                              stu_id := {| id_user := Some id; id_community := None |};
                              stu_name := Some name; stu_alias := alias |} in
      obj_set g (fun g => set_stg_users (stg_users g ++ [user]) g)
  end.

(** The line and what follows it; the code ends the line with a zero in the
    string it reads from. *)
Definition fetch_line (str : list Z) : option (list Z * list Z) :=
  match (span g_ascii_isspace str).2 with
  | [] => None
  | c :: s =>
      let '(line, rest) := span (fun c => negb ((c =? 10) || (c =? 13))) s in
      Some (c :: line, drop 1 rest)
  end.

Fixpoint list_get_loop (fuel : nat) (s : list Z) (l : Z) (g : option Z) : M unit :=
  match fuel with
  | O => crash
  | S fuel =>
      match fetch_line s with
      | None => ret tt
      | Some ([], s) => list_get_loop fuel s l g
      | Some (c :: line', s) =>
          let line := c :: line' in
          if c =? 86 then get_version line l ;; list_get_loop fuel s l g
          else if c =? 71 then let* g := get_group line l in list_get_loop fuel s l (Some g)
          else if c =? 85 then get_user line g ;; list_get_loop fuel s l g
          else list_get_loop fuel s l g
      end
  end.

(** Every line takes a byte at least. *)
Definition list_get (lines : list Z) (l : Z) : M unit :=
  list_get_loop (S (length lines)) lines l None.

Definition mwSametimeList_load (data : mwString) : M (option Z) :=
  match data with
  | None => ret None
  | Some data =>
      let* l := mwSametimeList_new in
      list_get data l ;;
      ret (Some l)
  end.

Definition mwSametimeList_get (b : mwGetBuffer) (l : option Z) : M mwGetBuffer :=
  nonnull l b (fun l =>
    let* (str, b) := lift (mwString_get b) in
    match str with
    | Some str => list_get str l ;; ret b
    | None => ret b
    end).
