(* ===== verification/StListSpec.v ===== *)
(** * The contact list as a tree

    What the blocks of a contact list stand for: a list of groups of users.
    The operations of [StList.v] on the blocks are operations on the tree; the
    text of a list is that of its tree, and loading it gives the tree back. *)

From S2P Require Import Prelude Buffer Common Cstring World Util StList.
#[local] Open Scope Z_scope.
#[local] Open Scope mw_scope.

(** ** Trees, with the address of each node *)

Record user_t := {
  ut_type : mwSametimeUserType; ut_id : mwIdBlock; ut_name : mwString; ut_alias : mwString }.
Record group_t := {
  gt_type : mwSametimeGroupType; gt_name : mwString; gt_alias : mwString; gt_open : bool;
  gt_users : list (Z * user_t) }.
Record list_t := {
  lt_major : Z; lt_minor : Z; lt_micro : Z; lt_groups : list (Z * group_t) }.

Definition user_obj (g : Z) (u : user_t) : mwSametimeUser :=
  {| stu_group := g; stu_type := ut_type u; stu_id := ut_id u; stu_name := ut_name u;
     stu_alias := ut_alias u |}.
Definition group_obj (l : Z) (g : group_t) : mwSametimeGroup :=
  {| stg_list := l; stg_type := gt_type g; stg_name := gt_name g; stg_alias := gt_alias g;
     stg_open := gt_open g; stg_users := (gt_users g).*1 |}.
Definition list_obj (t : list_t) : mwSametimeList :=
  {| stl_ver_major := lt_major t; stl_ver_minor := lt_minor t; stl_ver_micro := lt_micro t;
     stl_groups := (lt_groups t).*1 |}.

Definition user_at (h : gmap Z object) (g : Z) (u : Z * user_t) : Prop :=
  h !! u.1 = Some (ObjUser (user_obj g u.2)).
Definition group_at (h : gmap Z object) (l : Z) (g : Z * group_t) : Prop :=
  h !! g.1 = Some (ObjGroup (group_obj l g.2)) /\ NoDup (gt_users g.2).*1
  /\ Forall (user_at h g.1) (gt_users g.2).
Definition tree_at (h : gmap Z object) (l : Z) (t : list_t) : Prop :=
  h !! l = Some (ObjList (list_obj t)) /\ NoDup (lt_groups t).*1
  /\ Forall (group_at h l) (lt_groups t).

(** The list at [l] is [t]. *)
Definition stores (w : world) (l : Z) (t : list_t) : Prop :=
  heap_below w /\ tree_at (w_heap w) l t.

(** ** Operations on trees *)

Definition set_gt_users (v : list (Z * user_t)) (g : group_t) : group_t :=
  {| gt_type := gt_type g; gt_name := gt_name g; gt_alias := gt_alias g; gt_open := gt_open g;
     gt_users := v |}.
Definition set_lt_groups (v : list (Z * group_t)) (t : list_t) : list_t :=
  {| lt_major := lt_major t; lt_minor := lt_minor t; lt_micro := lt_micro t; lt_groups := v |}.

Definition at_addr {A} (a : Z) (f : A -> A) (x : Z * A) : Z * A :=
  if x.1 =? a then (x.1, f x.2) else x.
Definition map_group (a : Z) (f : group_t -> group_t) (t : list_t) : list_t :=
  set_lt_groups (map (at_addr a f) (lt_groups t)) t.
Definition map_users (f : list (Z * user_t) -> list (Z * user_t)) (g : Z * group_t) : Z * group_t :=
  (g.1, set_gt_users (f (gt_users g.2)) g.2).
Definition map_user (b : Z) (f : user_t -> user_t) (t : list_t) : list_t :=
  set_lt_groups (map (map_users (map (at_addr b f))) (lt_groups t)) t.
Definition without {A} (a : Z) (l : list (Z * A)) : list (Z * A) :=
  filter (fun x => x.1 <> a) l.

Definition add_group (a : Z) (g : group_t) (t : list_t) : list_t :=
  set_lt_groups (lt_groups t ++ [(a, g)]) t.
Definition add_user (a b : Z) (u : user_t) : list_t -> list_t :=
  map_group a (fun g => set_gt_users (gt_users g ++ [(b, u)]) g).
Definition del_user (b : Z) (t : list_t) : list_t :=
  set_lt_groups (map (map_users (without b)) (lt_groups t)) t.
Definition del_group (a : Z) (t : list_t) : list_t :=
  set_lt_groups (without a (lt_groups t)) t.

Definition has_group (a : Z) (t : list_t) : bool := bool_decide (a ∈ (lt_groups t).*1).
Definition has_user (b : Z) (t : list_t) : bool :=
  existsb (fun g => bool_decide (b ∈ (gt_users g.2).*1)) (lt_groups t).

(** ** What a client does with a list *)

Inductive stl_call :=
  | ListMajor (v : Z)
  | ListMinor (v : Z)
  | ListMicro (v : Z)
  | GroupNew (type : mwSametimeGroupType) (name : mwString)
  | GroupAlias (g : Z) (alias : mwString)
  | GroupOpen (g : Z) (open : bool)
  | GroupFree (g : Z)
  | UserNew (g : Z) (type : mwSametimeUserType) (id : mwIdBlock)
  | UserName (u : Z) (name : mwString)
  | UserAlias (u : Z) (alias : mwString)
  | UserFree (u : Z).

Definition run_stl (l : Z) (c : stl_call) : M unit :=
  match c with
  | ListMajor v => mwSametimeList_setMajor (Some l) v
  | ListMinor v => mwSametimeList_setMinor (Some l) v
  | ListMicro v => mwSametimeList_setMicro (Some l) v
  | GroupNew type name => mwSametimeGroup_new (Some l) type name ;; ret tt
  | GroupAlias g alias => mwSametimeGroup_setAlias (Some g) alias
  | GroupOpen g open => mwSametimeGroup_setOpen (Some g) open
  | GroupFree g => mwSametimeGroup_free (Some g)
  | UserNew g type id => mwSametimeUser_new (Some g) type (Some id) ;; ret tt
  | UserName u name => mwSametimeUser_setShortName (Some u) name
  | UserAlias u alias => mwSametimeUser_setAlias (Some u) alias
  | UserFree u => mwSametimeUser_free (Some u)
  end.

(** The same on the tree, with the next address; [None] for a pointer to
    nothing. *)
Definition apply_stl (s : Z * list_t) (c : stl_call) : option (Z * list_t) :=
  let '(n, t) := s in
  match c with
  | ListMajor v => Some (n, {| lt_major := v; lt_minor := lt_minor t; lt_micro := lt_micro t;
                               lt_groups := lt_groups t |})
  | ListMinor v => Some (n, {| lt_major := lt_major t; lt_minor := v; lt_micro := lt_micro t;
                               lt_groups := lt_groups t |})
  | ListMicro v => Some (n, {| lt_major := lt_major t; lt_minor := lt_minor t; lt_micro := v;
                               lt_groups := lt_groups t |})
  | GroupNew type (Some (c :: name)) =>
      Some (n + 1, add_group n {| gt_type := type; gt_name := Some (c :: name); gt_alias := None;
                                  gt_open := false; gt_users := [] |} t)
  | GroupNew _ _ => Some (n, t)
  | GroupAlias g alias =>
      if has_group g t then Some (n, map_group g (fun g => {| gt_type := gt_type g; gt_name := gt_name g;
        gt_alias := alias; gt_open := gt_open g; gt_users := gt_users g |}) t) else None
  | GroupOpen g open =>
      if has_group g t then Some (n, map_group g (fun g => {| gt_type := gt_type g; gt_name := gt_name g;
        gt_alias := gt_alias g; gt_open := open; gt_users := gt_users g |}) t) else None
  | GroupFree g => if has_group g t then Some (n, del_group g t) else None
  | UserNew g type id =>
      if has_group g t
      then Some (n + 1, add_user g n {| ut_type := type; ut_id := id; ut_name := None; ut_alias := None |} t)
      else None
  | UserName u name =>
      if has_user u t then Some (n, map_user u (fun u => {| ut_type := ut_type u; ut_id := ut_id u;
        ut_name := name; ut_alias := ut_alias u |}) t) else None
  | UserAlias u alias =>
      if has_user u t then Some (n, map_user u (fun u => {| ut_type := ut_type u; ut_id := ut_id u;
        ut_name := ut_name u; ut_alias := alias |}) t) else None
  | UserFree u => if has_user u t then Some (n, del_user u t) else None
  end.

Fixpoint apply_all (s : Z * list_t) (cs : list stl_call) : option (Z * list_t) :=
  match cs with [] => Some s | c :: cs => s ← apply_stl s c; apply_all s cs end.

(** ** Addresses *)

Lemma fst_map_at {A} a (f : A -> A) l : (map (at_addr a f) l).*1 = l.*1.
Proof.
  induction l as [|[b x] l IH]; [done|]. cbn. rewrite IH. unfold at_addr. cbn. by destruct (b =? a).
Qed.

Lemma fst_map_users f l : (map (map_users f) l).*1 = l.*1.
Proof. induction l as [|[b x] l IH]; [done|]. cbn. by rewrite IH. Qed.

Lemma NoDup_fst_inj {A} (l : list (Z * A)) a x y :
  NoDup l.*1 -> (a, x) ∈ l -> (a, y) ∈ l -> x = y.
Proof.
  induction l as [|[b z] l IH]; cbn; [intros _ H; by apply elem_of_nil in H|].
  intros [Hb Hl]%NoDup_cons Hx Hy.
  assert (forall x, (a, x) ∈ l -> a ∈ l.*1) as Hin.
  { intros v Hv. apply list_elem_of_fmap. by exists (a, v). }
  apply elem_of_cons in Hx as [Hx|Hx], Hy as [Hy|Hy]; simplify_eq; [done| | |by apply IH];
    by destruct Hb; eapply Hin.
Qed.

Lemma without_cons {A} a b (x : A) l :
  without a ((b, x) :: l) = if b =? a then without a l else (b, x) :: without a l.
Proof.
  unfold without. destruct (Z.eqb_spec b a) as [->|Hne].
  - apply filter_cons_False. cbn. tauto.
  - by apply filter_cons_True.
Qed.

Lemma without_none {A} a (l : list (Z * A)) : a ∉ l.*1 -> without a l = l.
Proof.
  induction l as [|[b x] l IH]; [done|]. cbn [fmap list_fmap fst]. intros [Hne Hl]%not_elem_of_cons.
  rewrite without_cons. destruct (Z.eqb_spec b a); [congruence|]. f_equal. by apply IH.
Qed.

Lemma without_fst {A} a (l : list (Z * A)) : NoDup l.*1 -> (without a l).*1 = g_list_remove l.*1 a.
Proof.
  induction l as [|[b x] l IH]; [done|]. cbn [fmap list_fmap fst g_list_remove]. intros [Hb Hl]%NoDup_cons.
  rewrite without_cons. destruct (Z.eqb_spec b a) as [->|Hne].
  - by rewrite without_none.
  - cbn. f_equal. by apply IH.
Qed.

Lemma without_NoDup {A} a (l : list (Z * A)) : NoDup l.*1 -> NoDup (without a l).*1.
Proof.
  intros H. rewrite without_fst by done. induction H as [|b l' Hb Hl IH]; cbn; [constructor|].
  destruct (Z.eqb_spec b a); [done|]. constructor; [|done].
  intros Hin. apply Hb. clear -Hin. induction l' as [|c l IH]; cbn in *; [done|].
  destruct (c =? a); [by constructor|]. apply elem_of_cons in Hin as [->|]; [by constructor|].
  constructor. auto.
Qed.

Lemma has_group_in a t : has_group a t = true -> exists g, (a, g) ∈ lt_groups t.
Proof.
  unfold has_group. intros H%bool_decide_eq_true. apply list_elem_of_fmap in H as ([b g] & -> & H).
  by exists g.
Qed.

Lemma has_user_in b t :
  has_user b t = true -> exists a g u, (a, g) ∈ lt_groups t /\ (b, u) ∈ gt_users g.
Proof.
  unfold has_user. intros H%existsb_exists. destruct H as ([a g] & Ha & H).
  apply bool_decide_eq_true, list_elem_of_fmap in H as ([c u] & -> & H). exists a, g, u.
  split; [by apply list_elem_of_In|done].
Qed.

(** ** Blocks of a tree *)

Section tree.
Context (h : gmap Z object) (l : Z) (t : list_t) (T : tree_at h l t).

Lemma tree_list : h !! l = Some (ObjList (list_obj t)).
Proof. apply T. Qed.

Lemma tree_group a g : (a, g) ∈ lt_groups t -> group_at h l (a, g).
Proof. destruct T as (_ & _ & H). intros Hin. by eapply Forall_forall in H. Qed.

Lemma tree_user a g b u : (a, g) ∈ lt_groups t -> (b, u) ∈ gt_users g -> user_at h a (b, u).
Proof. intros Ha Hb. destruct (tree_group a g Ha) as (_ & _ & H). by eapply Forall_forall in H. Qed.

Lemma tree_group_addr a g : (a, g) ∈ lt_groups t -> h !! a = Some (ObjGroup (group_obj l g)).
Proof. intros H. apply (tree_group a g H). Qed.
End tree.

(** A group whose blocks are the same in another heap. *)
Lemma group_at_agree h h' l x : group_at h l x ->
  h' !! x.1 = h !! x.1 -> (forall b u, (b, u) ∈ gt_users x.2 -> h' !! b = h !! b) ->
  group_at h' l x.
Proof.
  intros (Hx & Hn & Hu) E Eu. split_and!; [by rewrite E|done|].
  apply Forall_forall. intros [b u] Hin. unfold user_at. cbn. rewrite (Eu b u Hin).
  rewrite Forall_forall in Hu. exact (Hu _ Hin).
Qed.

Lemma map_group_at a f t g : NoDup (lt_groups t).*1 -> (a, g) ∈ lt_groups t ->
  map_group a f t = map_group a (fun _ => f g) t.
Proof.
  intros Hn Hg. unfold map_group. f_equal. apply map_ext_in. intros [b x] Hx. unfold at_addr. cbn.
  destruct (Z.eqb_spec b a) as [->|]; [|done]. do 2 f_equal.
  apply list_elem_of_In in Hx. by eapply NoDup_fst_inj.
Qed.

Lemma tree_replace h h' l t a g' : tree_at h l t -> h' !! l = h !! l ->
  group_at h' l (a, g') -> (forall b g, (b, g) ∈ lt_groups t -> b <> a -> group_at h' l (b, g)) ->
  tree_at h' l (map_group a (fun _ => g') t).
Proof.
  intros (Hl & Hn & Hg) El Ha Ho. split_and!.
  - rewrite El, Hl. unfold list_obj, map_group. cbn. by rewrite fst_map_at.
  - unfold map_group. cbn. by rewrite fst_map_at.
  - apply Forall_forall. intros x Hx. apply list_elem_of_fmap in Hx as ([b g] & -> & Hin).
    unfold at_addr. cbn. destruct (Z.eqb_spec b a) as [->|]; [done|by apply Ho].
Qed.

(** A change to a group that keeps its users. *)
Lemma tree_set_group h l t a f g : tree_at h l t -> (a, g) ∈ lt_groups t ->
  gt_users (f g) = gt_users g ->
  tree_at (<[a := ObjGroup (group_obj l (f g))]> h) l (map_group a f t).
Proof.
  intros T Hg Hu. rewrite (map_group_at a f t g) by (apply T || done).
  pose proof (tree_group_addr h l t T a g Hg) as Ea. pose proof (tree_list h l t T) as El.
  apply (tree_replace h); [done| | |].
  - apply lookup_insert_ne. intros ->. congruence.
  - destruct (tree_group h l t T a g Hg) as (_ & Hn & Hus). split_and!; cbn.
    + apply lookup_insert_eq.
    + by rewrite Hu.
    + rewrite Hu. eapply Forall_impl; [exact Hus|]. intros [b u] Hb. unfold user_at in *. cbn in *.
      rewrite lookup_insert_ne; [done|]. intros ->. congruence.
  - intros b g' Hb Hne. eapply group_at_agree; [by apply (tree_group h l t T)|by apply lookup_insert_ne|].
    intros c u Hc. apply lookup_insert_ne. intros ->. pose proof (tree_user h l t T b g' c u Hb Hc) as Hx.
    unfold user_at in Hx. cbn in Hx. congruence.
Qed.

(** A new user at the end of a group. *)
Lemma tree_add_user h l t a b g u : tree_at h l t -> (a, g) ∈ lt_groups t -> h !! b = None ->
  tree_at (<[a := ObjGroup (group_obj l (set_gt_users (gt_users g ++ [(b, u)]) g))]>
            (<[b := ObjUser (user_obj a u)]> h)) l (add_user a b u t).
Proof.
  intros T Hg Hb. unfold add_user. rewrite (map_group_at a _ t g) by (apply T || done).
  pose proof (tree_group_addr h l t T a g Hg) as Ea. pose proof (tree_list h l t T) as El.
  assert (forall q o, h !! q = Some o -> q <> a ->
    <[a := ObjGroup (group_obj l (set_gt_users (gt_users g ++ [(b, u)]) g))]>
      (<[b := ObjUser (user_obj a u)]> h) !! q = h !! q) as Hq.
  { intros q o Eq Hne. rewrite lookup_insert_ne by done. apply lookup_insert_ne. congruence. }
  apply (tree_replace h); [done| | |].
  - eapply Hq; [exact El|congruence].
  - destruct (tree_group h l t T a g Hg) as (_ & Hn & Hus). split_and!; cbn.
    + apply lookup_insert_eq.
    + rewrite fmap_app. apply NoDup_app. split_and!; [done| |apply NoDup_singleton].
      intros c Hc Hs%list_elem_of_singleton. cbn in Hs. subst c.
      apply list_elem_of_fmap in Hc as ([c u'] & Hcb & Hc). cbn in Hcb. subst b.
      pose proof (tree_user h l t T a g c u' Hg Hc) as Hx. unfold user_at in Hx. cbn in *. congruence.
    + apply Forall_app. split.
      * apply Forall_forall. intros [c u'] Hc. pose proof (tree_user h l t T a g c u' Hg Hc) as Hx.
        unfold user_at in *. cbn in *. rewrite (Hq c _ Hx); [done|]. intros ->. congruence.
      * repeat constructor. unfold user_at. cbn. rewrite lookup_insert_ne by congruence. apply lookup_insert_eq.
  - intros c g' Hc Hne. eapply group_at_agree; [by apply (tree_group h l t T)| |].
    + eapply Hq; [by apply (tree_group_addr h l t T)|done].
    + intros d u' Hd. pose proof (tree_user h l t T c g' d u' Hc Hd) as Hx. unfold user_at in Hx. cbn in Hx.
      eapply Hq; [exact Hx|]. intros ->. congruence.
Qed.

Lemma user_obj_inj a u b v : user_obj a u = user_obj b v -> a = b /\ u = v.
Proof. destruct u, v. unfold user_obj. cbn. intros H. by simplify_eq. Qed.

(** The tree in a heap that has the same blocks at its addresses. *)
Lemma tree_agree h h' l t : tree_at h l t -> h' !! l = h !! l ->
  (forall a g, (a, g) ∈ lt_groups t -> h' !! a = h !! a
     /\ forall b u, (b, u) ∈ gt_users g -> h' !! b = h !! b) -> tree_at h' l t.
Proof.
  intros (Hl & Hn & Hg) El Eg. split_and!; [by rewrite El|done|].
  rewrite Forall_forall in Hg. apply Forall_forall. intros [a g] Hin. destruct (Eg a g Hin) as [Ea Eu].
  by eapply group_at_agree; [apply Hg|..].
Qed.

Section change.
Context (h : gmap Z object) (l : Z) (t : list_t) (T : tree_at h l t).

(** The addresses of a list, a group and a user differ. *)
Lemma group_not_list a g : (a, g) ∈ lt_groups t -> a <> l.
Proof. intros Hg ->. pose proof (tree_list h l t T). apply (tree_group_addr h l t T) in Hg. congruence. Qed.
Lemma user_not_list a g b u : (a, g) ∈ lt_groups t -> (b, u) ∈ gt_users g -> b <> l.
Proof.
  intros Hg Hb ->. pose proof (tree_list h l t T). apply (tree_user h l t T a g) in Hb; [|done].
  unfold user_at in Hb. cbn in Hb. congruence.
Qed.
Lemma user_not_group a g b u a' g' :
  (a, g) ∈ lt_groups t -> (b, u) ∈ gt_users g -> (a', g') ∈ lt_groups t -> b <> a'.
Proof.
  intros Hg Hb Hg' ->. apply (tree_group_addr h l t T) in Hg'. apply (tree_user h l t T a g) in Hb; [|done].
  unfold user_at in Hb. cbn in Hb. congruence.
Qed.
Lemma user_in_one_group a g b u a' g' u' :
  (a, g) ∈ lt_groups t -> (b, u) ∈ gt_users g -> (a', g') ∈ lt_groups t -> (b, u') ∈ gt_users g' ->
  a = a' /\ u = u'.
Proof.
  intros Hg Hb Hg' Hb'. apply (tree_user h l t T a g) in Hb; [|done]. apply (tree_user h l t T a' g') in Hb'; [|done].
  unfold user_at in *. cbn in *. apply user_obj_inj. congruence.
Qed.

(** A change to a user. *)
Lemma tree_set_user a g b u f : (a, g) ∈ lt_groups t -> (b, u) ∈ gt_users g ->
  tree_at (<[b := ObjUser (user_obj a (f u))]> h) l (map_user b f t).
Proof.
  intros Hg Hb. destruct T as (Hl & Hn & Hgs). split_and!.
  - rewrite lookup_insert_ne by exact (user_not_list a g b u Hg Hb). rewrite Hl.
    unfold list_obj, map_user. cbn. by rewrite fst_map_users.
  - unfold map_user. cbn. by rewrite fst_map_users.
  - apply Forall_forall. intros x Hx. apply list_elem_of_fmap in Hx as ([c gc] & -> & Hc).
    destruct (tree_group h l t T c gc Hc) as (Ec & Hnc & Huc). split_and!; cbn in *.
    + rewrite lookup_insert_ne by exact (user_not_group a g b u c gc Hg Hb Hc). rewrite Ec.
      unfold group_obj, set_gt_users. cbn. by rewrite fst_map_at.
    + by rewrite fst_map_at.
    + apply Forall_forall. intros y Hy. apply list_elem_of_fmap in Hy as ([d v] & -> & Hd).
      unfold user_at, at_addr. cbn. destruct (Z.eqb_spec d b) as [->|Hne]; cbn.
      * destruct (user_in_one_group a g b u c gc v Hg Hb Hc Hd) as [-> ->]. apply lookup_insert_eq.
      * rewrite lookup_insert_ne by done. by apply (tree_user h l t T c gc d v).
Qed.

(** A user less. *)
Lemma tree_del_user a g b u : (a, g) ∈ lt_groups t -> (b, u) ∈ gt_users g ->
  tree_at (delete b (<[a := ObjGroup (group_obj l (set_gt_users (without b (gt_users g)) g))]> h)) l
    (del_user b t).
Proof.
  intros Hg Hb. destruct T as (Hl & Hn & Hgs). split_and!.
  - rewrite lookup_delete_ne by exact (user_not_list a g b u Hg Hb).
    rewrite lookup_insert_ne by exact (group_not_list a g Hg). rewrite Hl.
    unfold list_obj, del_user. cbn. by rewrite fst_map_users.
  - unfold del_user. cbn. by rewrite fst_map_users.
  - apply Forall_forall. intros x Hx. apply list_elem_of_fmap in Hx as ([c gc] & -> & Hc).
    destruct (tree_group h l t T c gc Hc) as (Ec & Hnc & Huc). split_and!; cbn in *.
    + rewrite lookup_delete_ne by exact (user_not_group a g b u c gc Hg Hb Hc).
      destruct (decide (c = a)) as [->|Hne].
      * rewrite lookup_insert_eq. by rewrite (NoDup_fst_inj _ _ _ _ Hn Hc Hg).
      * rewrite lookup_insert_ne by done. rewrite Ec. unfold group_obj, set_gt_users. cbn.
        rewrite without_none; [done|]. intros Hin. apply list_elem_of_fmap in Hin as ([d v] & Hd & Hin).
        cbn in Hd. subst d. by destruct (user_in_one_group a g b u c gc v Hg Hb Hc Hin) as [-> _].
    + by apply without_NoDup.
    + apply Forall_forall. intros [d v] Hd. unfold without in Hd. apply list_elem_of_filter in Hd as [Hne Hd].
      unfold user_at. cbn in *. rewrite lookup_delete_ne by done.
      rewrite lookup_insert_ne by exact (not_eq_sym (user_not_group c gc d v a g Hc Hd Hg)).
      by apply (tree_user h l t T c gc d v).
Qed.

(** A new group at the end. *)
Lemma tree_add_group a g : h !! a = None -> gt_users g = [] ->
  tree_at (<[l := ObjList (list_obj (add_group a g t))]> (<[a := ObjGroup (group_obj l g)]> h)) l
    (add_group a g t).
Proof.
  intros Ha Hu. destruct T as (Hl & Hn & Hgs).
  assert (forall q o, h !! q = Some o -> q <> l ->
    <[l := ObjList (list_obj (add_group a g t))]> (<[a := ObjGroup (group_obj l g)]> h) !! q = h !! q) as Hq.
  { intros q o Eq Hne. rewrite lookup_insert_ne by done. apply lookup_insert_ne. congruence. }
  split_and!.
  - apply lookup_insert_eq.
  - unfold add_group. cbn. rewrite fmap_app. apply NoDup_app. split_and!; [done| |apply NoDup_singleton].
    intros c Hc Hs%list_elem_of_singleton. cbn in Hs. subst c.
    apply list_elem_of_fmap in Hc as ([c gc] & Hca & Hc). cbn in Hca. subst c.
    apply (tree_group_addr h l t T) in Hc. congruence.
  - unfold add_group. cbn. apply Forall_app. split.
    + apply Forall_forall. intros [c gc] Hc. apply (group_at_agree h); [by apply (tree_group h l t T)| |].
      * eapply Hq; [by apply (tree_group_addr h l t T)|by eapply group_not_list].
      * intros d v Hd. eapply Hq; [by apply (tree_user h l t T c gc d v)|by eapply user_not_list].
    + repeat constructor; cbn; rewrite ?Hu; [|constructor..].
      rewrite lookup_insert_ne by congruence. apply lookup_insert_eq.
Qed.
End change.

(** ** The operations *)

(** On an orphan group too: the list is not looked at. *)
Lemma user_free_run l a g b u w :
  w_heap w !! b = Some (ObjUser (user_obj a u)) -> w_heap w !! a = Some (ObjGroup (group_obj l g)) ->
  NoDup (gt_users g).*1 ->
  user_free b w = Some (tt, with_heap (delete b
    (<[a := ObjGroup (group_obj l (set_gt_users (without b (gt_users g)) g))]> (w_heap w))) w).
Proof.
  intros Eb Ea Hn. unfold user_free.
  erewrite bind_run by by apply (obj_get_run b stu_group (user_obj a u)).
  erewrite bind_run by by apply (obj_set_run _ _ (group_obj l g)).
  erewrite free_object_run.
  - unfold set_stg_users, group_obj. cbn. by rewrite without_fst.
  - cbn. rewrite lookup_insert_ne; [exact Eb|]. intros ->. congruence.
Qed.

Lemma conj_Forall_ne {A} (P : Z * A -> Prop) b l : b ∉ l.*1 -> Forall P l ->
  Forall (fun x => b <> x.1 /\ P x) l.
Proof.
  intros Hb HP. induction HP as [|x l Hx _ IH]; [constructor|].
  cbn in Hb. apply not_elem_of_cons in Hb as [Hne Hb]. constructor; auto.
Qed.

Lemma free_users_run l a g w : group_at (w_heap w) l (a, g) ->
  exists h', free_users (S (length (gt_users g))) a w = Some (tt, with_heap h' w)
    /\ h' !! a = Some (ObjGroup (group_obj l (set_gt_users [] g)))
    /\ forall q, q <> a ->
         h' !! q = if bool_decide (q ∈ (gt_users g).*1) then None else w_heap w !! q.
Proof.
  destruct g as [ty na al op us]. cbn [gt_users]. revert w.
  induction us as [|[b u] us IH]; intros w (Ha & Hn & Hu); cbn [fst snd gt_users] in *.
  - exists (w_heap w). cbn. erewrite bind_run by by eapply obj_get_run.
    split_and!; [|done|done]. cbn. by destruct w.
  - pose proof (Forall_inv Hu) as Eb. unfold user_at in Eb. cbn in Eb.
    apply Forall_inv_tail in Hu.
    cbn [length free_users]. erewrite bind_run by by eapply obj_get_run.
    cbn [group_obj gt_users fmap list_fmap fst stg_users mwSametimeUser_free nonnull].
    erewrite bind_run by by (eapply (user_free_run l a _ b u)).
    cbn [gt_users]. rewrite without_cons, Z.eqb_refl.
    apply NoDup_cons in Hn as [Hb Hn]. rewrite without_none by done.
    assert (b <> a) as Hba by (intros ->; congruence).
    destruct (IH (with_heap (delete b (<[a := ObjGroup (group_obj l
      {| gt_type := ty; gt_name := na; gt_alias := al; gt_open := op; gt_users := us |})]> (w_heap w))) w))
      as (h' & E & Ea' & Eq).
    { split_and!; cbn.
      - by rewrite lookup_delete_ne, lookup_insert_eq.
      - done.
      - eapply Forall_impl; [exact (conj_Forall_ne _ b us Hb Hu)|]. intros [c v] [Hc Ec].
        unfold user_at in *. cbn in *. rewrite lookup_delete_ne by done.
        rewrite lookup_insert_ne; [done|]. intros ->. congruence. }
    exists h'. split_and!.
    + unfold set_gt_users in *. cbn in E |- *. rewrite E. by rewrite with_heap_twice.
    + done.
    + intros q Hq. rewrite (Eq q Hq). cbn.
      destruct (decide (q = b)) as [->|Hne].
      * rewrite (bool_decide_eq_true_2 (b ∈ b :: us.*1)) by constructor.
        rewrite bool_decide_eq_false_2 by done. by rewrite lookup_delete_eq.
      * rewrite lookup_delete_ne, lookup_insert_ne by done.
        erewrite (bool_decide_ext (q ∈ b :: us.*1) (q ∈ us.*1)); [done|].
        rewrite elem_of_cons. intuition congruence.
Qed.

(** The blocks of a group. *)
Definition group_addrs (x : Z * group_t) : list Z := x.1 :: (gt_users x.2).*1.

Lemma without_in {A} a b (x : A) l : (b, x) ∈ without a l <-> b <> a /\ (b, x) ∈ l.
Proof. unfold without. by rewrite list_elem_of_filter. Qed.

Lemma group_free_run l t a g w : tree_at (w_heap w) l t -> (a, g) ∈ lt_groups t ->
  exists h', group_free a w = Some (tt, with_heap h' w)
    /\ tree_at h' l (del_group a t)
    /\ forall q, q <> l ->
         h' !! q = if bool_decide (q ∈ group_addrs (a, g)) then None else w_heap w !! q.
Proof.
  intros T Hg. pose proof (tree_group_addr _ l t T a g Hg) as Ea. pose proof (tree_list _ l t T) as El.
  pose proof (group_not_list _ l t T a g Hg) as Hal.
  unfold group_free. erewrite bind_run by by apply (obj_get_run a stg_list (group_obj l g)).
  erewrite bind_run by by apply (obj_set_run l _ (list_obj t)).
  set (w1 := set_w_heap _ w).
  assert (group_at (w_heap w1) l (a, g)) as Hg1.
  { eapply group_at_agree; [by apply (tree_group _ l t T)|cbn; by apply lookup_insert_ne|].
    intros b u Hb. apply lookup_insert_ne. apply not_eq_sym. by apply (user_not_list _ l t T a g b u). }
  erewrite bind_run by (apply (obj_get_run a stg_users (group_obj l g)); apply Hg1).
  cbn [group_obj stg_users]. rewrite length_fmap.
  destruct (free_users_run l a g w1 Hg1) as (h' & E & Ea' & Eq).
  erewrite bind_run by exact E. exists (delete a h').
  assert (forall q, q <> l ->
    delete a h' !! q = if bool_decide (q ∈ group_addrs (a, g)) then None else w_heap w !! q) as Hd.
  { intros q Hq. unfold group_addrs. cbn. destruct (decide (q = a)) as [->|Hne].
    - by rewrite lookup_delete_eq, bool_decide_eq_true_2 by constructor.
    - rewrite lookup_delete_ne, Eq by done. cbn. rewrite lookup_insert_ne by done.
      erewrite (bool_decide_ext (q ∈ a :: (gt_users g).*1) (q ∈ (gt_users g).*1)); [done|].
      rewrite elem_of_cons. intuition congruence. }
  split_and!; [|split_and!|done].
  - by erewrite free_object_run.
  - rewrite lookup_delete_ne, Eq by done. rewrite bool_decide_eq_false_2.
    + cbn. rewrite lookup_insert_eq. unfold set_stl_groups, list_obj. cbn.
      rewrite without_fst; [done|apply T].
    + intros Hin. apply list_elem_of_fmap in Hin as ([b u] & Hb & Hin).
      by apply (user_not_list _ l t T a g b u).
  - apply without_NoDup, T.
  - apply Forall_forall. intros [c gc] [Hne Hc]%without_in.
    eapply group_at_agree; [by apply (tree_group _ l t T)|cbn..].
    + rewrite Hd by by eapply group_not_list. rewrite bool_decide_eq_false_2; [done|].
      unfold group_addrs. cbn. intros [|Hin]%elem_of_cons; [done|].
      apply list_elem_of_fmap in Hin as ([b u] & Hb & Hin). by apply (user_not_group _ l t T a g b u c gc).
    + intros d v Hv. rewrite Hd by by eapply user_not_list. rewrite bool_decide_eq_false_2; [done|].
      unfold group_addrs. cbn. intros [Hda|Hin]%elem_of_cons.
      * by apply (user_not_group _ l t T c gc d v a g).
      * apply list_elem_of_fmap in Hin as ([b u] & Hb & Hin). cbn in Hb. subst b.
        destruct (user_in_one_group _ l t T c gc d v a g u) as [-> _]; done.
Qed.

(** All the blocks of a list. *)
Definition list_addrs (l : Z) (t : list_t) : list Z := l :: flat_map group_addrs (lt_groups t).

Lemma free_groups_run l t w : tree_at (w_heap w) l t ->
  exists h', free_groups (S (length (lt_groups t))) l w = Some (tt, with_heap h' w)
    /\ is_Some (h' !! l)
    /\ forall q, q <> l ->
         h' !! q = if bool_decide (q ∈ list_addrs l t) then None else w_heap w !! q.
Proof.
  destruct t as [x y z gs]. cbn [lt_groups]. revert w.
  induction gs as [|[a g] gs IH]; intros w T; pose proof (tree_list _ l _ T) as El; cbn [length free_groups].
  - exists (w_heap w). erewrite bind_run by exact (obj_get_run l stl_groups _ w El). cbn.
    split_and!; [by destruct w|by rewrite El|]. intros q Hq. rewrite bool_decide_eq_false_2; [done|].
    unfold list_addrs. cbn. by intros Hin%list_elem_of_singleton.
  - erewrite bind_run by exact (obj_get_run l stl_groups _ w El).
    cbn [list_obj stl_groups lt_groups fmap list_fmap fst mwSametimeGroup_free nonnull].
    destruct (group_free_run l _ a g w T) as (h1 & E1 & T1 & Q1); [by constructor|].
    erewrite bind_run by exact E1.
    destruct T as (_ & [Ha Hn]%NoDup_cons & _).
    unfold del_group, set_lt_groups in T1. cbn [lt_groups lt_major lt_minor lt_micro] in T1.
    rewrite without_cons, Z.eqb_refl, without_none in T1 by done.
    destruct (IH (with_heap h1 w) T1) as (h' & E & Hl & Q). exists h'. split_and!; [|done|].
    + exact E.
    + intros q Hq. rewrite Q by done. cbn. rewrite Q1 by done.
      unfold list_addrs. cbn [flat_map]. cbn [lt_groups].
      rewrite <- (bool_decide_ext (q ∈ group_addrs (a, g) \/ q ∈ l :: flat_map group_addrs gs)
                (q ∈ l :: group_addrs (a, g) ++ flat_map group_addrs gs))
        by (rewrite !elem_of_cons, elem_of_app; tauto).
      case_bool_decide; case_bool_decide; try case_bool_decide; tauto || done.
Qed.

Lemma list_free_run l t w : tree_at (w_heap w) l t ->
  exists h', list_free l w = Some (tt, with_heap h' w)
    /\ forall q, h' !! q = if bool_decide (q ∈ list_addrs l t) then None else w_heap w !! q.
Proof.
  intros T. unfold list_free. erewrite bind_run by by apply (obj_get_run l stl_groups (list_obj t)), T.
  cbn [list_obj stl_groups]. rewrite length_fmap.
  destruct (free_groups_run l t w T) as (h' & E & [o Hl] & Q). erewrite bind_run by exact E.
  exists (delete l h'). split; [by erewrite free_object_run|].
  intros q. destruct (decide (q = l)) as [->|Hne].
  - by rewrite lookup_delete_eq, bool_decide_eq_true_2 by constructor.
  - rewrite lookup_delete_ne by done. by apply Q.
Qed.

(** ** Calls *)

(** A world that differs from [w] in the heap and the next address only. *)
Definition heap_only (w w' : world) : Prop := w' = set_w_next (w_next w') (with_heap (w_heap w') w).

#[export] Instance heap_only_preorder : PreOrder heap_only.
Proof.
  split; [by intros []|]. unfold heap_only, with_heap. intros [] [] []. unfold set_w_next, set_w_heap. cbn.
  intros [= -> -> -> -> ->] [= -> -> -> -> ->]. done.
Qed.

(** [run_stl] is [apply_stl]. *)
Definition implements (l : Z) (c : stl_call) : Prop :=
  forall w t n' t', stores w l t -> apply_stl (w_next w, t) c = Some (n', t') ->
  exists w', run_stl l c w = Some (tt, w') /\ stores w' l t' /\ w_next w' = n' /\ heap_only w w'.

(** A call that sets a field of a block of the tree. *)
Lemma implements_set {A} `{Object A} l c w t t' q (f : A -> A) a :
  stores w l t -> run_stl l c = obj_set q f -> w_heap w !! q = Some (obj_in a) ->
  tree_at (<[q := obj_in (f a)]> (w_heap w)) l t' ->
  exists w', run_stl l c w = Some (tt, w') /\ stores w' l t' /\ w_next w' = w_next w /\ heap_only w w'.
Proof.
  intros [B T] -> Hq T'. eexists. split; [by apply obj_set_run|]. split_and!; [split; [|exact T']|done|by destruct w].
  apply below_sub; [done|]. cbn. intros r [x [[<- _]|[_ Hr]]%lookup_insert_Some]; by eexists.
Qed.

Lemma implements_group l c w t a f (F : mwSametimeGroup -> mwSametimeGroup) :
  stores w l t -> has_group a t = true -> run_stl l c = obj_set a F ->
  (forall g, gt_users (f g) = gt_users g) -> (forall g, F (group_obj l g) = group_obj l (f g)) ->
  exists w', run_stl l c w = Some (tt, w') /\ stores w' l (map_group a f t) /\ w_next w' = w_next w
    /\ heap_only w w'.
Proof.
  intros S [g Hg]%has_group_in E Hu HF. destruct S as [B T].
  eapply (implements_set (A := mwSametimeGroup)); [by split|exact E|by eapply tree_group_addr|].
  cbn. rewrite HF. by apply tree_set_group.
Qed.

Lemma implements_user l c w t b f (F : mwSametimeUser -> mwSametimeUser) :
  stores w l t -> has_user b t = true -> run_stl l c = obj_set b F ->
  (forall a u, F (user_obj a u) = user_obj a (f u)) ->
  exists w', run_stl l c w = Some (tt, w') /\ stores w' l (map_user b f t) /\ w_next w' = w_next w
    /\ heap_only w w'.
Proof.
  intros S (a & g & u & Hg & Hu)%has_user_in E HF. destruct S as [B T].
  eapply (implements_set (A := mwSametimeUser)); [by split|exact E| |].
  - exact (tree_user _ l t T a g b u Hg Hu).
  - cbn. rewrite HF. by apply (tree_set_user _ _ _ T a g b u f).
Qed.

(** The addresses but [a] that were in use before [n] are as they were. *)
Definition same_but (a n : Z) (w w' : world) : Prop :=
  forall q, q <> a -> q < n -> w_heap w' !! q = w_heap w !! q.

(** A new block, and a pointer to it in the block of its parent. *)
Lemma new_child_run {A B} `{Object A} `{Object B} (child : A) a (f : Z -> B -> B) parent w :
  heap_below w -> w_heap w !! a = Some (obj_in parent) ->
  let w' := set_w_next (w_next w + 1) (with_heap (<[a := obj_in (f (w_next w) parent)]>
              (<[w_next w := obj_in child]> (w_heap w))) w) in
  (let* p := obj_new child in obj_set a (f p) ;; ret p) w = Some (w_next w, w')
  /\ heap_below w' /\ heap_only w w' /\ same_but a (w_next w) w w'.
Proof.
  intros B0 Ea w'. pose proof (B0 _ _ Ea) as Hlt. split_and!.
  - erewrite bind_run by reflexivity. erewrite bind_run; [reflexivity|].
    rewrite (obj_set_run a _ parent); [done|]. cbn. by rewrite lookup_insert_ne by lia.
  - intros q x. cbn. intros [[<- _]|[_ [[<- _]|[_ Hq]]%lookup_insert_Some]]%lookup_insert_Some;
      [|..|apply B0 in Hq]; lia.
  - by destruct w.
  - intros q Hne Hq. cbn. rewrite lookup_insert_ne by done. apply lookup_insert_ne. lia.
Qed.

Lemma new_group_run l t g w : stores w l t -> gt_users g = [] ->
  exists w', (let* p := obj_new (group_obj l g) in
              obj_set l (fun l => set_stl_groups (stl_groups l ++ [p]) l) ;; ret p) w = Some (w_next w, w')
    /\ stores w' l (add_group (w_next w) g t) /\ w_next w' = w_next w + 1 /\ heap_only w w'
    /\ same_but l (w_next w) w w'.
Proof.
  intros [B T] Hg. pose proof (tree_list _ l t T) as El.
  pose proof (new_child_run (group_obj l g) l (fun p l => set_stl_groups (stl_groups l ++ [p]) l) (list_obj t) w B)
    as Hc.
  destruct (Hc El) as (E & B' & H' & S').
  eexists. split_and!; [exact E|split; [done|]|done..].
  pose proof (tree_add_group _ l t T (w_next w) g (below_fresh w B) Hg) as Ht.
  unfold list_obj, add_group, set_stl_groups in *. cbn in *. by rewrite fmap_app in Ht.
Qed.

Lemma new_user_run l t a g u w : stores w l t -> (a, g) ∈ lt_groups t ->
  exists w', (let* p := obj_new (user_obj a u) in
              obj_set a (fun g => set_stg_users (stg_users g ++ [p]) g) ;; ret p) w = Some (w_next w, w')
    /\ stores w' l (add_user a (w_next w) u t) /\ w_next w' = w_next w + 1 /\ heap_only w w'
    /\ same_but a (w_next w) w w'.
Proof.
  intros [B T] Hg. pose proof (tree_group_addr _ l t T a g Hg) as Ea.
  pose proof (new_child_run (user_obj a u) a (fun p g => set_stg_users (stg_users g ++ [p]) g) (group_obj l g) w B)
    as Hc.
  destruct (Hc Ea) as (E & B' & H' & S').
  eexists. split_and!; [exact E|split; [done|]|done..].
  pose proof (tree_add_user _ l t a (w_next w) g u T Hg (below_fresh w B)) as Ht.
  unfold set_stg_users, group_obj in *. cbn in *. by rewrite fmap_app in Ht.
Qed.

(** A call whose new block nobody asks for. *)
Lemma bind_ret_some {B} (m : M Z) (f : Z -> M unit) (k : M B) w p w' :
  (let* p := m in f p ;; ret p) w = Some (p, w') ->
  (let* q := (let* p := m in f p ;; ret (Some p)) in k) w = k w'.
Proof.
  unfold bind, ret. destruct (m w) as [[q w1]|]; [|done]. destruct (f q w1) as [[[] w2]|]; [|done].
  by intros [= _ <-].
Qed.

Lemma implements_GroupNew l type name : implements l (GroupNew type name).
Proof.
  intros w t n' t' S. cbn [apply_stl run_stl].
  destruct name as [[|c name]|]; intros [= <- <-]; [by exists w| |by exists w].
  destruct (new_group_run l t {| gt_type := type; gt_name := Some (c :: name); gt_alias := None;
    gt_open := false; gt_users := [] |} w S eq_refl) as (w' & E & S' & Hn & Hh & _).
  exists w'. split_and!; [|done..]. unfold mwSametimeGroup_new. cbn [nonnull named].
  by erewrite (bind_ret_some _ _ (ret tt)) by exact E.
Qed.

Lemma implements_UserNew l a type id : implements l (UserNew a type id).
Proof.
  intros w t n' t' S. cbn [apply_stl run_stl].
  destruct (has_group a t) eqn:Hg; [|done]. intros [= <- <-]. apply has_group_in in Hg as [g Hg].
  destruct (new_user_run l t a g {| ut_type := type; ut_id := id; ut_name := None; ut_alias := None |} w S Hg)
    as (w' & E & S' & Hn & Hh & _).
  exists w'. split_and!; [|done..]. unfold mwSametimeUser_new. cbn [nonnull].
  destruct id. by erewrite (bind_ret_some _ _ (ret tt)) by exact E.
Qed.

Lemma implements_frees l c (h : gmap Z object) w t t' :
  stores w l t -> run_stl l c w = Some (tt, with_heap h w) -> tree_at h l t' ->
  (forall q, is_Some (h !! q) -> is_Some (w_heap w !! q)) ->
  exists w', run_stl l c w = Some (tt, w') /\ stores w' l t' /\ w_next w' = w_next w /\ heap_only w w'.
Proof.
  intros [B T] E T' Hs. exists (with_heap h w). split_and!; [done|split; [by apply below_sub|done]|done|by destruct w].
Qed.

Lemma tree_set_list h l t t' : tree_at h l t -> lt_groups t' = lt_groups t ->
  tree_at (<[l := ObjList (list_obj t')]> h) l t'.
Proof.
  intros T E. split_and!; rewrite ?E; [apply lookup_insert_eq|apply T|].
  apply Forall_forall. intros [a g] Hg. eapply group_at_agree; [by eapply (tree_group h l t T)|..].
  - apply lookup_insert_ne. apply not_eq_sym. by eapply (group_not_list h l t T).
  - intros b u Hu. apply lookup_insert_ne. apply not_eq_sym. by eapply (user_not_list h l t T).
Qed.

Lemma implements_list l c w t t' (F : mwSametimeList -> mwSametimeList) :
  stores w l t -> run_stl l c = obj_set l F -> F (list_obj t) = list_obj t' ->
  lt_groups t' = lt_groups t ->
  exists w', run_stl l c w = Some (tt, w') /\ stores w' l t' /\ w_next w' = w_next w /\ heap_only w w'.
Proof.
  intros [B T] E HF Hg. eapply (implements_set (A := mwSametimeList)); [by split|exact E|by eapply tree_list|].
  cbn. rewrite HF. by eapply tree_set_list.
Qed.

Lemma run_stl_implements l c : implements l c.
Proof.
  destruct c; [..|by apply implements_GroupNew| | | |by apply implements_UserNew| | |];
    intros w t n' t' S; cbn [apply_stl].
  - intros [= <- <-]. by eapply implements_list.
  - intros [= <- <-]. by eapply implements_list.
  - intros [= <- <-]. by eapply implements_list.
  - destruct (has_group g t) eqn:Hg; [|done]. intros [= <- <-]. by eapply implements_group.
  - destruct (has_group g t) eqn:Hg; [|done]. intros [= <- <-]. by eapply implements_group.
  - destruct (has_group g t) eqn:Hg; [|done]. intros [= <- <-].
    apply has_group_in in Hg as [gt Hg]. destruct (group_free_run l t g gt w (proj2 S) Hg) as (h & E & T' & Q).
    eapply implements_frees; [done|exact E|done|].
    intros q [o Hq]. destruct (decide (q = l)) as [->|Hne].
    + rewrite (tree_list _ l t (proj2 S)). by eexists.
    + rewrite Q in Hq by done. case_bool_decide; [done|by eexists].
  - destruct (has_user u t) eqn:Hu; [|done]. intros [= <- <-]. by eapply implements_user.
  - destruct (has_user u t) eqn:Hu; [|done]. intros [= <- <-]. by eapply implements_user.
  - destruct (has_user u t) eqn:Hu; [|done]. intros [= <- <-].
    apply has_user_in in Hu as (a & g & v & Hg & Hv). destruct S as [B T].
    eapply implements_frees; [by split|cbn [run_stl mwSametimeUser_free nonnull]| |].
    + eapply user_free_run; [by apply (tree_user _ l t T a g u v)|by apply (tree_group_addr _ l t T)|].
      destruct (tree_group _ l t T a g Hg) as (_ & Hn & _). exact Hn.
    + by eapply (tree_del_user _ l t T a g u v).
    + intros q [o [Hne Hq]%lookup_delete_Some].
      apply lookup_insert_Some in Hq as [[<- _]|[_ Hq]]; [|by eexists].
      rewrite (tree_group_addr _ l t T a g Hg). by eexists.
Qed.

(** ** What a client can ask *)

(** The first with [P], or that there is none. *)
Definition first_with {A} (P : A -> Prop) (l : list (Z * A)) (r : option Z) : Prop :=
  match r with
  | Some a => exists before x after, l = before ++ (a, x) :: after /\ P x /\ Forall (fun y => ~ P y.2) before
  | None => Forall (fun y => ~ P y.2) l
  end.

Lemma first_with_next {A} (P : A -> Prop) a x l r : ~ P x -> first_with P l r -> first_with P ((a, x) :: l) r.
Proof.
  intros Hx. destruct r as [b|]; cbn; [|by constructor]. intros (before & y & after & -> & Hy & H).
  exists ((a, x) :: before), y, after. split; [done|]. split; [done|by constructor].
Qed.

(** Groups have names, as [mwSametimeGroup_new] makes them. *)
Definition all_named (t : list_t) : Prop := Forall (fun x => is_Some (gt_name x.2)) (lt_groups t).

Definition user_answers (w : world) (a b : Z) (u : user_t) : Prop :=
  mwSametimeUser_getGroup (Some b) w = Some (Some a, w) /\ mwSametimeUser_getType (Some b) w = Some (ut_type u, w)
  /\ mwSametimeUser_getUser (Some b) w = Some (id_user (ut_id u), w)
  /\ mwSametimeUser_getCommunity (Some b) w = Some (id_community (ut_id u), w)
  /\ mwSametimeUser_getShortName (Some b) w = Some (ut_name u, w)
  /\ mwSametimeUser_getAlias (Some b) w = Some (ut_alias u, w).

Definition group_answers (w : world) (l a : Z) (g : group_t) : Prop :=
  mwSametimeGroup_getType (Some a) w = Some (gt_type g, w) /\ mwSametimeGroup_getName (Some a) w = Some (gt_name g, w)
  /\ mwSametimeGroup_getAlias (Some a) w = Some (gt_alias g, w) /\ mwSametimeGroup_isOpen (Some a) w = Some (gt_open g, w)
  /\ mwSametimeGroup_getList (Some a) w = Some (Some l, w) /\ mwSametimeGroup_getUsers (Some a) w = Some ((gt_users g).*1, w)
  /\ (forall id, exists r, mwSametimeGroup_findUser (Some a) (Some id) w = Some (r, w)
       /\ first_with (fun u => id_user (ut_id u) = id_user id /\ id_community (ut_id u) = id_community id) (gt_users g) r)
  /\ (forall b u, (b, u) ∈ gt_users g -> user_answers w a b u).

(** The functions that read a list say what its tree is; those that look for
    a group by its name or for a user by the id find the first one. *)
Definition answers (w : world) (l : Z) (t : list_t) : Prop :=
  mwSametimeList_getMajor (Some l) w = Some (lt_major t, w) /\ mwSametimeList_getMinor (Some l) w = Some (lt_minor t, w)
  /\ mwSametimeList_getMicro (Some l) w = Some (lt_micro t, w) /\ mwSametimeList_getGroups (Some l) w = Some ((lt_groups t).*1, w)
  /\ (all_named t -> forall name, name <> [] -> exists r, mwSametimeList_findGroup (Some l) (Some name) w = Some (r, w)
       /\ first_with (fun g => gt_name g = Some name) (lt_groups t) r)
  /\ (forall a g, (a, g) ∈ lt_groups t -> group_answers w l a g).

Lemma find_user_first w a id us : Forall (user_at (w_heap w) a) us ->
  exists r, find_user us.*1 id w = Some (r, w)
    /\ first_with (fun u => id_user (ut_id u) = id_user id /\ id_community (ut_id u) = id_community id) us r.
Proof.
  induction 1 as [|[b u] us Hu Hus (r & E & H)]; cbn [fmap list_fmap fst find_user]; [exists None; split; [done|constructor]|].
  erewrite bind_run by (by apply (obj_get_run b stu_id (user_obj a u))). cbn [stu_id user_obj].
  assert (mwIdBlock_equal id (ut_id u) = true <-> id_user (ut_id u) = id_user id /\ id_community (ut_id u) = id_community id) as He.
  { unfold mwIdBlock_equal, mw_streq. rewrite andb_true_iff, !bool_decide_eq_true. split; intros [? ?]; by split. }
  destruct (mwIdBlock_equal id (ut_id u)) eqn:Eq.
  - exists (Some b). split; [done|]. exists [], u, us. split; [done|]. split; [by apply He|constructor].
  - exists r. split; [done|]. apply first_with_next; [|done]. intros Hp%He. congruence.
Qed.

Lemma find_group_first w l name gs : Forall (group_at (w_heap w) l) gs -> Forall (fun x => is_Some (gt_name x.2)) gs ->
  exists r, find_group gs.*1 name w = Some (r, w) /\ first_with (fun g => gt_name g = Some name) gs r.
Proof.
  intros Hgs Hn. induction Hgs as [|[a g] gs Hg Hgs IH]; cbn [fmap list_fmap fst find_group]; [exists None; split; [done|constructor]|].
  apply Forall_cons in Hn as [[n Hna] Hn]. cbn [snd] in Hna. destruct (IH Hn) as (r & E & H).
  erewrite bind_run by (apply (obj_get_run a stg_name (group_obj l g)); apply Hg). cbn [stg_name group_obj]. rewrite Hna.
  erewrite bind_run by (by apply lift_run). case_bool_decide as Hd.
  - exists (Some a). split; [done|]. exists [], g, gs. split; [done|]. split; [by rewrite Hna, Hd|constructor].
  - exists r. split; [done|]. apply first_with_next; [|done]. rewrite Hna. by intros [= ->].
Qed.

Lemma stores_answers w l t : stores w l t -> answers w l t.
Proof.
  intros [_ T]. pose proof (tree_list _ l t T) as El.
  assert (forall B (f : mwSametimeList -> B), obj_get l f w = Some (f (list_obj t), w)) as Hl by (intros; by apply obj_get_run).
  unfold answers, mwSametimeList_getMajor, mwSametimeList_getMinor, mwSametimeList_getMicro, mwSametimeList_getGroups.
  cbn [nonnull]. split_and!; [apply Hl..| |].
  - intros Hn name Hne. unfold mwSametimeList_findGroup. destruct name as [|c name]; [done|]. cbn [nonnull named].
    erewrite bind_run by apply Hl. apply (find_group_first w l); [apply T|done].
  - intros a g Ha. pose proof (tree_group_addr _ l t T a g Ha) as Eg.
    assert (forall B (f : mwSametimeGroup -> B), obj_get a f w = Some (f (group_obj l g), w)) as Hg by (intros; by apply obj_get_run).
    unfold group_answers, mwSametimeGroup_getType, mwSametimeGroup_getName, mwSametimeGroup_getAlias, mwSametimeGroup_isOpen,
      mwSametimeGroup_getList, mwSametimeGroup_getUsers, mwSametimeGroup_findUser. cbn [nonnull]. split_and!; [apply Hg..| | | |].
    + by erewrite bind_run by apply Hg.
    + apply Hg.
    + intros id. erewrite bind_run by apply Hg. apply (find_user_first w a). apply (tree_group _ l t T a g Ha).
    + intros b u Hb. pose proof (tree_user _ l t T a g b u Ha Hb) as Eu. unfold user_at in Eu. cbn [fst snd] in Eu.
      assert (forall B (f : mwSametimeUser -> B), obj_get b f w = Some (f (user_obj a u), w)) as Hu by (intros; by apply obj_get_run).
      unfold user_answers, mwSametimeUser_getGroup. cbn [nonnull]. split_and!; [|apply Hu..]. by erewrite bind_run by apply Hu.
Qed.

(** What a client does keeps the groups named. *)
Lemma apply_stl_named n t c n' t' : apply_stl (n, t) c = Some (n', t') -> all_named t -> all_named t'.
Proof.
  assert (forall f : Z * group_t -> Z * group_t, (forall x, gt_name (f x).2 = gt_name x.2) ->
    all_named t -> all_named (set_lt_groups (map f (lt_groups t)) t)) as Hmap.
  { intros f Hf H. unfold all_named in *. cbn. apply Forall_map. eapply Forall_impl; [exact H|]. intros x. cbn. by rewrite Hf. }
  assert (forall a f, (forall g, gt_name (f g) = gt_name g) -> all_named t -> all_named (map_group a f t)) as Hgrp.
  { intros a f Hf. apply Hmap. intros x. unfold at_addr. destruct (x.1 =? a); [apply Hf|done]. }
  destruct c as [v|v|v|type name|g alias|g open|g|g type id|u name|u alias|u]; cbn [apply_stl]; intros E Hn;
    repeat match type of E with (if ?c then _ else _) = _ => destruct c; [|done] end;
    try (injection E as <- <-; done).
  - destruct name as [[|c name]|]; injection E as <- <-; [done| |done]. unfold all_named. cbn. apply Forall_app. split; [done|].
    repeat constructor. by eexists.
  - injection E as <- <-. by apply Hgrp.
  - injection E as <- <-. by apply Hgrp.
  - injection E as <- <-. unfold all_named, del_group, without in *. cbn. rewrite Forall_forall in Hn |- *. intros x [_ Hx]%list_elem_of_filter. by apply Hn.
  - injection E as <- <-. by apply Hgrp.
  - injection E as <- <-. by apply Hmap.
  - injection E as <- <-. by apply Hmap.
  - injection E as <- <-. by apply Hmap.
Qed.

Lemma apply_all_named cs s n' t' : apply_all s cs = Some (n', t') -> all_named s.2 -> all_named t'.
Proof.
  revert s. induction cs as [|c cs IH]; intros [n t]; cbn [apply_all]; [by intros [= -> ->]|].
  destruct (apply_stl (n, t) c) as [[n1 t1]|] eqn:E; [|done]. cbn. intros Ha Hn. eapply IH; [done|]. by eapply apply_stl_named.
Qed.

(** C5: any calls that set the version of a contact list or make, name, open
    and free its groups and users ([stl_call]), on pointers that are to groups
    and users of the list, end without touching memory that is not its own and
    do to the list what they do to its tree; nothing but the blocks of the
    list changes.  Afterwards every getter gives what is in the tree, and a
    search for a user, or for a group when all have names, gives the first
    match, or NULL when there is none; groups keep having names. *)
Theorem contact_list_refines l cs w t n' t' :
  stores w l t -> apply_all (w_next w, t) cs = Some (n', t') ->
  exists w', for_each (run_stl l) cs w = Some (tt, w') /\ stores w' l t' /\ w_next w' = n'
    /\ heap_only w w' /\ answers w' l t' /\ (all_named t -> all_named t').
Proof.
  intros S Ha. assert (exists w', for_each (run_stl l) cs w = Some (tt, w') /\ stores w' l t' /\ w_next w' = n' /\ heap_only w w')
    as (w' & E & S' & Hn & H').
  { revert w t S Ha. induction cs as [|c cs IH]; intros w t S; cbn [apply_all for_each].
    - intros [= <- <-]. by exists w.
    - destruct (apply_stl (w_next w, t) c) as [[n1 t1]|] eqn:E; [|done]. cbn. intros Ha.
      destruct (run_stl_implements l c w t n1 t1 S E) as (w1 & E1 & S1 & <- & H1).
      destruct (IH w1 t1 S1 Ha) as (w' & E' & S' & Hn & H'). exists w'.
      split_and!; [by erewrite bind_run|done|done|by etrans]. }
  exists w'. split_and!; [done|done|done|done|by apply stores_answers|]. by apply (apply_all_named cs (w_next w, t) n' t').
Qed.

(** Freeing a contact list frees the list, its groups and their users,
    each once, and no other block. *)
Theorem contact_list_freed l t w : stores w l t ->
  exists h, mwSametimeList_free (Some l) w = Some (tt, with_heap h w)
    /\ forall q, h !! q = if bool_decide (q ∈ list_addrs l t) then None else w_heap w !! q.
Proof. intros [_ T]. by apply list_free_run. Qed.
