(* ===== verification/StListText.v ===== *)
(** * The text of a contact list

    [list_store] writes the text of the tree, and [list_get] reads back what
    [list_store] wrote. *)

From S2P Require Import Prelude Buffer Common Cstring World Util StList StListSpec.
#[local] Open Scope Z_scope.
#[local] Open Scope mw_scope.

(** ** Storing *)

Definition user_line (u : Z * user_t) : option (list Z) :=
  user_text (ut_type u.2) (id_user (ut_id u.2)) (ut_name u.2) (ut_alias u.2).
Definition group_lines (g : Z * group_t) : option (list Z) :=
  s ← group_text (gt_type g.2) (gt_name g.2) (gt_alias g.2) (gt_open g.2);
  us ← mapM user_line (gt_users g.2);
  Some (s ++ concat us).
Definition tree_text (t : list_t) : option (list Z) :=
  gs ← mapM group_lines (lt_groups t);
  Some (version_text (lt_major t) (lt_minor t) (lt_micro t) ++ concat gs).

Lemma put_each_run {A} (put : list Z -> Z -> M (list Z)) (f : Z * A -> option (list Z)) l w :
  Forall (fun x => forall str, put str x.1 w = (s ← f x; Some (str ++ s, w))) l ->
  forall str, put_each put str l.*1 w = (ss ← mapM f l; Some (str ++ concat ss, w)).
Proof.
  induction 1 as [|x l Hx _ IH]; intros str; cbn [fmap list_fmap put_each mapM].
  - cbn. by rewrite app_nil_r.
  - unfold bind. rewrite Hx. cbn [mbind option_bind]. destruct (f x) as [s|]; [|done]. cbn.
    rewrite IH. destruct (mapM f l) as [ss|]; [|done]. cbn. by rewrite app_assoc.
Qed.

Lemma list_store_run l t w : tree_at (w_heap w) l t ->
  list_store l w = (s ← tree_text t; Some (s, w)).
Proof.
  intros T. unfold list_store. erewrite bind_run by by eapply (obj_deref_run (A := mwSametimeList)), T.
  cbn [list_obj stl_groups stl_ver_major stl_ver_minor stl_ver_micro].
  rewrite (put_each_run group_put group_lines).
  - unfold tree_text. by destruct (mapM group_lines (lt_groups t)).
  - apply Forall_forall. intros [a g] Hg str. destruct (tree_group _ l t T a g Hg) as (Ea & _ & Hu).
    unfold group_put. cbn [fst] in *. erewrite bind_run by by eapply (obj_deref_run (A := mwSametimeGroup)).
    cbn [group_obj stg_type stg_name stg_alias stg_open stg_users]. unfold group_lines. cbn [snd] in *.
    destruct (group_text _ _ _ _) as [s|]; [|done]. cbn [mbind option_bind]. erewrite bind_run by reflexivity.
    rewrite (put_each_run user_put user_line).
    + destruct (mapM user_line (gt_users g)) as [us|]; [|done]. cbn. by rewrite app_assoc.
    + eapply Forall_impl; [exact Hu|]. intros [b u] Eb str'. unfold user_at in Eb. cbn [fst snd] in *.
      unfold user_put. erewrite bind_run by by eapply (obj_deref_run (A := mwSametimeUser)).
      unfold user_line. cbn. by destruct (user_text _ _ _ _).
Qed.

(** ** Values that have a text *)

(** No zero, no semicolons, and no white space but blanks. *)
Definition clean (s : list Z) : bool :=
  forallb (fun c => negb (c =? 0) && negb (c =? SEMI) && ((c =? SP) || negb (isspace c))) s.
(** Without the character [c]. *)
Definition lacks (c : Z) (s : list Z) : bool := forallb (fun x => negb (x =? c)) s.

Definition user_ok (u : user_t) : bool :=
  match id_user (ut_id u) with
  | Some id => clean id && bool_decide (find_colons id = None)
  | None => false
  end && clean (default [] (ut_name u)) && clean (default [] (ut_alias u)) &&
  lacks 44 (default [] (ut_alias u)).
Definition group_ok (g : group_t) : bool :=
  match gt_name g with
  | Some name => clean name && clean (default name (gt_alias g)) &&
                 negb (bool_decide (default name (gt_alias g) = []))
  | None => false
  end && forallb (fun u => user_ok u.2) (gt_users g).
Definition list_ok (t : list_t) : bool :=
  bool_decide (is_u32 (lt_major t)) && bool_decide (is_u32 (lt_minor t)) &&
  bool_decide (is_u32 (lt_micro t)) && forallb (fun g => group_ok g.2) (lt_groups t).

(** What the text keeps: the community is not written, a user without a name
    goes by the alias, and a group without an alias by its name. *)
Definition user_norm (u : user_t) : user_t :=
  {| ut_type := ut_type u; ut_id := {| id_user := id_user (ut_id u); id_community := None |};
     ut_name := Some (default (default [] (ut_alias u)) (ut_name u));
     ut_alias := match ut_name u, ut_alias u with Some _, Some (c :: a) => Some (c :: a) | _, _ => None end |}.

(** A tree without its addresses. *)
Definition group_value : Type := mwSametimeGroupType * mwString * mwString * bool * list user_t.
Definition value_of (g : group_t) : group_value :=
  (gt_type g, gt_name g, gt_alias g, gt_open g, (gt_users g).*2).
Definition value_norm (g : group_t) : group_value :=
  (gt_type g, gt_name g, Some (default (default [] (gt_name g)) (gt_alias g)), gt_open g,
   map user_norm (gt_users g).*2).
Definition list_value (f : group_t -> group_value) (t : list_t) : Z * Z * Z * list group_value :=
  (lt_major t, lt_minor t, lt_micro t, map f (lt_groups t).*2).

(** ** Characters of a text *)

Definition nospace (s : list Z) : Prop := Forall (fun c => isspace c = false) s.

Lemma clean_replace s : clean s = true -> nospace (str_replace SP SEMI s).
Proof.
  intros H. apply Forall_forall. intros c Hc. apply list_elem_of_fmap in Hc as (x & -> & Hx).
  unfold clean in H. rewrite forallb_forall in H. apply list_elem_of_In, H in Hx.
  unfold SP, SEMI, isspace in *. destruct (Z.eqb_spec x 32); lia.
Qed.

Lemma clean_back s : clean s = true -> str_replace SEMI SP (str_replace SP SEMI s) = s.
Proof.
  intros H. apply str_replace_back. apply Forall_forall. intros c Hc.
  unfold clean in H. rewrite forallb_forall in H. apply list_elem_of_In, H in Hc. unfold SEMI in *. lia.
Qed.

Lemma lacks_Forall c s : lacks c s = true -> Forall (fun x => x <> c) s.
Proof.
  unfold lacks. rewrite forallb_forall. intros H. apply Forall_forall. intros x Hx.
  apply list_elem_of_In, H in Hx. lia.
Qed.

Lemma sscanf_lits s r fmt : sscanf (s ++ r) (map Lit s ++ fmt) = sscanf r fmt.
Proof. induction s as [|c s IH]; [done|]. cbn. by rewrite Z.eqb_refl. Qed.

Lemma skip_blank r : (forall c, head r = Some c -> isspace c = false) -> skip_space (32 :: r) = r.
Proof. intros H. apply (skip_space_none r) in H. unfold skip_space in *. cbn. by destruct (span isspace r). Qed.

(** One token after a blank. *)
Lemma scan_word n s r fmt : nospace s -> s <> [] -> (forall c, head r = Some c -> isspace c = true) ->
  zlen s < n ->
  sscanf (32 :: s ++ r) (Space :: Fmt_s n :: fmt) = r' ← sscanf r fmt; Some (ScanS s :: r').
Proof.
  intros Hs Hne Hr Hn. rewrite <- (scan_token n s r fmt) by done.
  cbn [sscanf]. rewrite skip_blank; [done|]. destruct s as [|c s]; [done|].
  intros c' [= <-]. by apply Forall_inv in Hs.
Qed.

(** ** A line *)

Definition nobreak (s : list Z) : Prop := Forall (fun c => (c =? 10) || (c =? 13) = false) s.

Lemma nospace_nobreak s : nospace s -> nobreak s.
Proof. intros H. eapply Forall_impl; [exact H|]. unfold isspace. intros c. cbn. lia. Qed.

Lemma fetch_line_spec c s r : g_ascii_isspace c = false -> nobreak s ->
  fetch_line (c :: s ++ CRLF ++ r) = Some (c :: s, 10 :: r).
Proof.
  intros Hc Hs. unfold fetch_line. cbn [span]. rewrite Hc. cbn [snd].
  rewrite (span_all _ s (CRLF ++ r)); [done| |by intros ? [= <-]].
  eapply Forall_impl; [exact Hs|]. by intros x ->.
Qed.

Lemma fetch_line_newline s : fetch_line (10 :: s) = fetch_line s.
Proof. unfold fetch_line. cbn [span]. change (g_ascii_isspace 10) with true. cbn. by destruct (span _ s). Qed.

(** ** A user *)

Definition printed_name (u : user_t) : list Z := default (default [] (ut_alias u)) (ut_name u).
Definition printed_alias (u : user_t) : list Z :=
  match ut_name u with Some _ => default [] (ut_alias u) | None => [] end.

(** The line without its end: two words. *)
Definition user_body (u : user_t) (id : list Z) : list Z :=
  32 :: (str_replace SP SEMI id ++ [user_type_to_char (ut_type u); 58; 58]) ++
  32 :: (str_replace SP SEMI (printed_name u) ++ 44 :: str_replace SP SEMI (printed_alias u)).

Lemma user_line_body b u id : id_user (ut_id u) = Some id ->
  user_line (b, u) = Some (85 :: user_body u id ++ CRLF).
Proof.
  intros Hid. unfold user_line, user_text, user_body, printed_name, printed_alias. cbn [snd]. rewrite Hid. cbn [fmap option_fmap option_map mbind option_bind].
  change (chars "U ") with [85; 32]. change (chars ":: ") with [58; 58; 32]. change (chars ",") with [44].
  destruct (ut_name u) as [n|], (ut_alias u) as [a|]; cbn; repeat (rewrite <- ?app_assoc; cbn); done.
Qed.

Lemma find_colons_snoc id c : find_colons id = None -> c <> 58 -> find_colons (id ++ [c]) = None.
Proof.
  intros H Hc. induction id as [|x [|y id] IH]; [done|..].
  - cbn. destruct (Z.eqb_spec c 58); [done|]. by rewrite andb_false_r.
  - cbn [app find_colons] in *. destruct ((x =? 58) && (y =? 58)); [done|].
    apply fmap_None in H. by rewrite IH.
Qed.

Lemma user_type_char t : user_type_to_char t <> 58 /\ isspace (user_type_to_char t) = false
  /\ user_char_to_type (user_type_to_char t) = t /\ user_type_to_char t <> SEMI.
Proof. by destruct t. Qed.

Lemma split_colons_id id t old : find_colons id = None ->
  split_colons (id ++ [user_type_to_char t; 58; 58]) old = Some (id, user_type_to_char t).
Proof.
  intros H. destruct (user_type_char t) as (Ht & _). set (c := user_type_to_char t) in *.
  unfold split_colons.
  pose proof (find_colons_none (id ++ [c]) [] (find_colons_snoc _ _ H Ht)) as Hf.
  rewrite <- app_assoc in Hf. cbn [app] in Hf. rewrite Hf.
  - rewrite length_app. cbn [length]. rewrite Nat.add_1_r.
    rewrite lookup_app_r, Nat.sub_diag by lia. cbn. by rewrite take_app_length.
  - intros s x Hs. apply app_inj_tail in Hs as [_ <-]. done.
Qed.

Lemma split_alias_spec n a : Forall (fun x => x <> 44) a ->
  split_alias (n ++ 44 :: a) = (n, match a with [] => None | _ => Some a end).
Proof.
  intros Ha. unfold split_alias. rewrite strrchr_last by done. rewrite take_app_length.
  replace (drop (S (length n)) (n ++ 44 :: a)) with a; [by destruct a|].
  rewrite drop_app_ge by lia. by replace (S (length n) - length n)%nat with 1%nat by lia.
Qed.

Lemma str_replace_cons from to c s : c <> from -> str_replace from to (c :: s) = c :: str_replace from to s.
Proof. intros H. cbn. by destruct (Z.eqb_spec c from). Qed.

Lemma user_ok_inv u : user_ok u = true -> exists id, id_user (ut_id u) = Some id
  /\ clean id = true /\ find_colons id = None /\ clean (printed_name u) = true
  /\ clean (printed_alias u) = true /\ Forall (fun x => x <> 44) (printed_alias u).
Proof.
  unfold user_ok, printed_name, printed_alias. destruct (id_user (ut_id u)) as [id|]; [|done].
  intros [[[[Hid Hf%bool_decide_eq_true]%andb_true_iff Hn]%andb_true_iff Ha]%andb_true_iff Hl]%andb_true_iff.
  exists id. split_and!; [done|done|done|by destruct (ut_name u)|by destruct (ut_name u)|].
  destruct (ut_name u); [by apply lacks_Forall|constructor].
Qed.

Lemma user_body_nobreak u id : user_ok u = true -> clean id = true -> nobreak (user_body u id).
Proof.
  intros H Hid. destruct (user_ok_inv u H) as (_ & _ & _ & _ & Hn & Ha & _).
  unfold user_body. pose proof (user_type_char (ut_type u)) as (_ & Ht & _).
  assert (nospace [user_type_to_char (ut_type u); 58; 58]) as Hs by by repeat constructor.
  pose proof (clean_replace _ Hid). pose proof (clean_replace _ Hn). pose proof (clean_replace _ Ha).
  constructor; [done|]. apply Forall_app. split; [apply nospace_nobreak; by apply Forall_app|].
  constructor; [done|]. apply nospace_nobreak, Forall_app. split; [done|]. by constructor.
Qed.

Lemma get_user_run u id a w : user_ok u = true -> id_user (ut_id u) = Some id ->
  get_user (85 :: user_body u id) (Some a) w =
  (let* user := obj_new (user_obj a (user_norm u)) in
   obj_set a (fun g => set_stg_users (stg_users g ++ [user]) g)) w.
Proof.
  intros H Hid. destruct (user_ok_inv u H) as (id' & Hid' & Hci & Hf & Hn & Ha & Hl).
  rewrite Hid in Hid'. injection Hid' as <-.
  pose proof (user_type_char (ut_type u)) as (_ & Ht & Hback & Hsemi).
  set (t1 := str_replace SP SEMI id ++ [user_type_to_char (ut_type u); 58; 58]).
  set (t2 := str_replace SP SEMI (printed_name u) ++ 44 :: str_replace SP SEMI (printed_alias u)).
  assert (nospace t1) as Ht1 by (apply Forall_app; split; [by apply clean_replace|by repeat constructor]).
  assert (nospace t2) as Ht2.
  { apply Forall_app. split; [by apply clean_replace|]. constructor; [done|by apply clean_replace]. }
  assert (t1 <> []) as Hne1 by (unfold t1; by destruct (str_replace SP SEMI id)).
  assert (t2 <> []) as Hne2 by (unfold t2; by destruct (str_replace SP SEMI (printed_name u))).
  unfold get_user, user_body. fold t1 t2. set (n := strlen _).
  assert (zlen t1 < n /\ zlen t2 < n) as [Hn1 Hn2] by (unfold n, strlen; split; zlen_lia).
  assert (sscanf (85 :: 32 :: t1 ++ 32 :: t2) [Lit 85; Space; Fmt_s n; Space; Fmt_s n]
          = Some [ScanS t1; ScanS t2]) as ->.
  { change (sscanf (85 :: ?x) (Lit 85 :: ?f)) with (sscanf x f).
    rewrite scan_word by (done || by intros ? [= <-]).
    rewrite <- (app_nil_r t2) at 1. by rewrite scan_word. }
  erewrite bind_run by reflexivity. cbn [arg_s lookup list_lookup].
  unfold t1, t2. rewrite !str_replace_app, !clean_back by done.
  rewrite (str_replace_cons SEMI SP 44), clean_back by done.
  assert (str_replace SEMI SP [user_type_to_char (ut_type u); 58; 58] = [user_type_to_char (ut_type u); 58; 58]) as ->.
  { by rewrite str_replace_cons. }
  rewrite split_colons_id by done. erewrite bind_run by reflexivity. cbn beta iota.
  rewrite split_alias_spec by done. rewrite Hback. unfold user_obj, user_norm. cbn.
  unfold printed_name, printed_alias. rewrite Hid.
  by destruct (ut_name u), (ut_alias u) as [[]|].
Qed.

(** ** A group *)

Definition group_body (g : group_t) (name : list Z) : list Z :=
  32 :: (str_replace SP SEMI name ++ [group_type_to_char (gt_type g)]) ++
  32 :: str_replace SP SEMI (default name (gt_alias g)) ++ [32; if gt_open g then 79 else 67].

Lemma group_text_body g name : gt_name g = Some name ->
  group_text (gt_type g) (gt_name g) (gt_alias g) (gt_open g) = Some (71 :: group_body g name ++ CRLF).
Proof.
  intros ->. unfold group_text, group_body. cbn [mbind option_bind].
  change (chars "G ") with [71; 32]. change (chars " ") with [32].
  destruct (gt_open g); [change (chars "O") with [79]|change (chars "C") with [67]];
    repeat (rewrite <- ?app_assoc; cbn [app]); done.
Qed.

Lemma group_lines_body b g name : gt_name g = Some name ->
  group_lines (b, g) = us ← mapM user_line (gt_users g);
                       Some ((71 :: group_body g name ++ CRLF) ++ concat us).
Proof. intros H. unfold group_lines. cbn [snd]. by rewrite (group_text_body g name H). Qed.

Lemma group_type_char t : isspace (group_type_to_char t) = false
  /\ group_char_to_type (group_type_to_char t) = t /\ group_type_to_char t <> SEMI.
Proof. by destruct t. Qed.

Lemma group_ok_inv g : group_ok g = true -> exists name, gt_name g = Some name
  /\ clean name = true /\ clean (default name (gt_alias g)) = true /\ default name (gt_alias g) <> []
  /\ Forall (fun u => user_ok u.2 = true) (gt_users g).
Proof.
  unfold group_ok. destruct (gt_name g) as [name|]; [|done].
  intros [[[Hn Ha]%andb_true_iff He%negb_true_iff]%andb_true_iff Hu]%andb_true_iff.
  exists name. split_and!; [done..|by apply bool_decide_eq_false in He|].
  rewrite forallb_forall in Hu. apply Forall_forall. intros x Hx. apply Hu. by apply list_elem_of_In.
Qed.

Lemma group_body_nobreak g name : clean name = true -> clean (default name (gt_alias g)) = true ->
  nobreak (group_body g name).
Proof.
  intros Hn Ha. pose proof (group_type_char (gt_type g)) as (Ht & _).
  pose proof (clean_replace _ Hn) as Hn'. pose proof (clean_replace _ Ha) as Ha'.
  unfold group_body. constructor; [done|]. apply Forall_app. split.
  - apply nospace_nobreak, Forall_app. split; [done|]. by repeat constructor.
  - constructor; [done|]. apply Forall_app. split; [by apply nospace_nobreak|].
    destruct (gt_open g); by repeat constructor.
Qed.

(** The group of the line, still without users. *)
Definition group_read (g : group_t) : group_t :=
  {| gt_type := gt_type g; gt_name := gt_name g;
     gt_alias := Some (default (default [] (gt_name g)) (gt_alias g)); gt_open := gt_open g; gt_users := [] |}.

Lemma split_type_snoc s c old : split_type (s ++ [c]) old = (s, c).
Proof. unfold split_type. by rewrite reverse_snoc, reverse_involutive. Qed.

Lemma get_group_run g name l w : group_ok g = true -> gt_name g = Some name ->
  get_group (71 :: group_body g name) l w =
  (let* group := obj_new (group_obj l (group_read g)) in
   obj_set l (fun l => set_stl_groups (stl_groups l ++ [group]) l) ;; ret group) w.
Proof.
  intros H Hname. destruct (group_ok_inv g H) as (name' & Hname' & Hn & Ha & Hne & _).
  rewrite Hname in Hname'. injection Hname' as <-.
  pose proof (group_type_char (gt_type g)) as (Ht & Hback & Hsemi).
  set (t1 := str_replace SP SEMI name ++ [group_type_to_char (gt_type g)]).
  set (t2 := str_replace SP SEMI (default name (gt_alias g))).
  set (o := if gt_open g then 79 else 67).
  assert (nospace t1) as Ht1 by (apply Forall_app; split; [by apply clean_replace|by repeat constructor]).
  assert (nospace t2) as Ht2 by by apply clean_replace.
  assert (t1 <> []) as Hne1 by (unfold t1; by destruct (str_replace SP SEMI name)).
  assert (t2 <> []) as Hne2 by (unfold t2; by destruct (default name (gt_alias g))).
  unfold get_group, group_body. fold t1 t2 o. set (n := strlen _).
  assert (zlen t1 < n /\ zlen t2 < n) as [Hn1 Hn2] by (unfold n, strlen; split; zlen_lia).
  assert (sscanf (71 :: 32 :: t1 ++ 32 :: t2 ++ [32; o])
            [Lit 71; Space; Fmt_s n; Space; Fmt_s n; Space; Fmt_c; Space]
          = Some [ScanS t1; ScanS t2; ScanC o]) as ->.
  { change (sscanf (71 :: ?x) (Lit 71 :: ?f)) with (sscanf x f).
    rewrite scan_word by (done || by intros ? [= <-]).
    rewrite scan_word by (done || by intros ? [= <-]).
    unfold o. by destruct (gt_open g). }
  erewrite bind_run by reflexivity. cbn [arg_s arg_c lookup list_lookup].
  unfold t1, t2. rewrite str_replace_app, !clean_back by done.
  rewrite (str_replace_cons SEMI SP (group_type_to_char (gt_type g)) []) by done.
  change (str_replace SEMI SP []) with (@nil Z). rewrite split_type_snoc, Hback. unfold group_obj, group_read, o. cbn. rewrite Hname. cbn.
  by destruct (gt_open g).
Qed.

(** ** The version *)

Definition version_body (t : list_t) : list Z :=
  (chars "ersion=" ++ print_u (lt_major t) ++ 46 :: print_u (lt_minor t) ++ 46 :: print_u (lt_micro t)).

Lemma version_text_body t :
  version_text (lt_major t) (lt_minor t) (lt_micro t) = 86 :: version_body t ++ CRLF.
Proof.
  unfold version_text, version_body. change (chars "Version=") with (86 :: chars "ersion=").
  change (chars ".") with [46]. cbn [app]. f_equal.
  repeat (rewrite <- ?app_assoc; cbn [app]). done.
Qed.

Lemma print_u_nospace n : 0 <= n -> nospace (print_u n).
Proof.
  intros Hn. eapply Forall_impl; [exact (digits_isdigit 10 n Hn)|]. intros c. apply isdigit_isspace.
Qed.

Lemma version_body_nobreak t : is_u32 (lt_major t) -> is_u32 (lt_minor t) -> is_u32 (lt_micro t) ->
  nobreak (version_body t).
Proof.
  intros [H1 _] [H2 _] [H3 _]. apply nospace_nobreak. unfold version_body.
  apply Forall_app. split; [by repeat constructor|].
  apply Forall_app. split; [by apply print_u_nospace|]. constructor; [done|].
  apply Forall_app. split; [by apply print_u_nospace|]. constructor; [done|]. by apply print_u_nospace.
Qed.

Lemma get_version_run t l w : is_u32 (lt_major t) -> is_u32 (lt_minor t) -> is_u32 (lt_micro t) ->
  get_version (86 :: version_body t) l w =
  obj_set l (fun l => {| stl_ver_major := lt_major t; stl_ver_minor := lt_minor t;
                         stl_ver_micro := lt_micro t; stl_groups := stl_groups l |}) w.
Proof.
  intros H1 H2 H3. unfold get_version, version_body.
  change (86 :: chars "ersion=" ++ ?x) with (chars "Version=" ++ x).
  rewrite sscanf_lits. cbn [sscanf]. rewrite scan_u_print by (done || by intros ? [= <-]).
  cbn [sscanf]. rewrite Z.eqb_refl, scan_u_print by (done || by intros ? [= <-]).
  cbn [sscanf]. rewrite Z.eqb_refl. rewrite <- (app_nil_r (print_u (lt_micro t))).
  by rewrite scan_u_print.
Qed.

(** ** Loading what was stored *)

Lemma bind_ret_tt (m : M Z) (f : Z -> M unit) w p w' :
  (let* p := m in f p ;; ret p) w = Some (p, w') -> (let* p := m in f p) w = Some (tt, w').
Proof.
  unfold bind, ret. destruct (m w) as [[q w1]|]; [|done]. destruct (f q w1) as [[[] w2]|]; [|done].
  by intros [= _ <-].
Qed.

(** The blocks below [n] are as they were. *)
Definition same_below (n : Z) (w w' : world) : Prop := forall q, q < n -> w_heap w' !! q = w_heap w !! q.

#[export] Instance same_below_preorder n : PreOrder (same_below n).
Proof. split; [done|]. intros w1 w2 w3 H1 H2 q Hq. by rewrite H2, H1. Qed.

Lemma same_but_below a m n w w' : same_but a m w w' -> n <= a -> n <= m -> same_below n w w'.
Proof. intros H Ha Hm q Hq. apply H; lia. Qed.

(** What a step of loading the list at [l] does to the world. *)
Record loads (n l : Z) (w : world) (t : list_t) (w' : world) (t' : list_t) : Prop := {
  ld_stores : stores w' l t';
  ld_only : heap_only w w';
  ld_same : same_below n w w';
  ld_next : w_next w <= w_next w';
  ld_version : (lt_major t', lt_minor t', lt_micro t') = (lt_major t, lt_minor t, lt_micro t);
}.

Lemma loads_refl n l w t : stores w l t -> loads n l w t w t.
Proof. intros S. split; done || reflexivity. Qed.
Lemma loads_trans n l w1 t1 w2 t2 w3 t3 :
  loads n l w1 t1 w2 t2 -> loads n l w2 t2 w3 t3 -> loads n l w1 t1 w3 t3.
Proof. intros [] []. split; [done|by etrans|by etrans|lia|congruence]. Qed.

Lemma loop_user fuel u id r l a w : user_ok u = true -> id_user (ut_id u) = Some id ->
  list_get_loop (S fuel) (10 :: (85 :: user_body u id ++ CRLF) ++ r) l (Some a) w =
  (get_user (85 :: user_body u id) (Some a) ;; list_get_loop fuel (10 :: r) l (Some a)) w.
Proof.
  intros H Hid. destruct (user_ok_inv u H) as (id' & Hid' & Hci & _). rewrite Hid in Hid'. injection Hid' as <-.
  cbn [list_get_loop app]. rewrite fetch_line_newline, <- app_assoc, fetch_line_spec; [done|done|].
  by apply user_body_nobreak.
Qed.

Lemma loop_group fuel g name r l a w : group_ok g = true -> gt_name g = Some name ->
  list_get_loop (S fuel) (10 :: (71 :: group_body g name ++ CRLF) ++ r) l a w =
  (let* g := get_group (71 :: group_body g name) l in list_get_loop fuel (10 :: r) l (Some g)) w.
Proof.
  intros H Hn. destruct (group_ok_inv g H) as (name' & Hn' & Hcn & Hca & _). rewrite Hn in Hn'. injection Hn' as <-.
  cbn [list_get_loop app]. rewrite fetch_line_newline, <- app_assoc, fetch_line_spec; [done|done|].
  by apply group_body_nobreak.
Qed.

(** The users of the last group. *)
Lemma load_users n l a us texts : Forall (fun u => user_ok u.2 = true) us -> mapM user_line us = Some texts ->
  forall fuel r w t gs g, stores w l t -> lt_groups t = gs ++ [(a, g)] -> n <= a -> n <= w_next w ->
  (length (10%Z :: concat texts ++ r) < fuel)%nat ->
  exists fuel' w' t' g',
    list_get_loop fuel (10 :: concat texts ++ r) l (Some a) w = list_get_loop fuel' (10 :: r) l (Some a) w'
    /\ (length (10%Z :: r) < fuel')%nat /\ loads n l w t w' t' /\ lt_groups t' = gs ++ [(a, g')]
    /\ g' = set_gt_users (gt_users g') g
    /\ (gt_users g').*2 = (gt_users g).*2 ++ map user_norm us.*2.
Proof.
  intros Hok. revert texts. induction Hok as [|[b u] us Hu _ IH]; intros texts Ht fuel r w t gs g S Hg Hn Hw Hf.
  - injection Ht as <-. exists fuel, w, t, g. split_and!; [done|done|by apply loads_refl|done|by destruct g|].
    cbn. by rewrite app_nil_r.
  - cbn in Hu. destruct (user_ok_inv u Hu) as (id & Hid & _).
    cbn [mapM] in Ht. rewrite (user_line_body b u id Hid) in Ht. cbn [mbind option_bind] in Ht.
    destruct (mapM user_line us) as [us'|]; [|done].
    assert (texts = (85 :: user_body u id ++ CRLF) :: us') as -> by by injection Ht.
    destruct fuel as [|fuel]; [lia|].
    assert ((a, g) ∈ lt_groups t) as Hin by (rewrite Hg; apply elem_of_app; right; by constructor).
    destruct (new_user_run l t a g (user_norm u) w S Hin) as (w1 & E1 & S1 & N1 & H1 & B1).
    pose proof (get_user_run u id a w Hu Hid) as Eu. rewrite (bind_ret_tt _ _ _ _ _ E1) in Eu.
    set (g1 := set_gt_users (gt_users g ++ [(w_next w, user_norm u)]) g).
    assert (lt_groups (add_user a (w_next w) (user_norm u) t) = gs ++ [(a, g1)]) as Hg1.
    { unfold add_user, map_group. cbn. rewrite Hg, map_app. cbn. unfold at_addr at 2. cbn. rewrite Z.eqb_refl.
      f_equal. etrans; [|apply map_id]. apply map_ext_in. intros [c x] Hc. apply list_elem_of_In in Hc. unfold at_addr. cbn.
      destruct (Z.eqb_spec c a) as [->|]; [|done].
      destruct S as [_ (_ & Hnd & _)]. rewrite Hg, fmap_app in Hnd. apply NoDup_app in Hnd as (_ & Hd & _).
      destruct (Hd a); [|by constructor]. apply list_elem_of_fmap. by exists (a, x). }
    destruct (IH us' eq_refl fuel r w1 _ gs g1 S1 Hg1 Hn) as (fuel' & w' & t' & g' & E & Hf' & L & Hg' & He & Hus).
    { lia. }
    { cbn [concat] in Hf. rewrite <- app_assoc in Hf. cbn [length] in *. rewrite !length_app in *.
      cbn [length] in *. rewrite !length_app in Hf. lia. }
    exists fuel', w', t', g'. split_and!; [|done| |done| |].
    + cbn [concat]. rewrite <- app_assoc, loop_user by done. by erewrite bind_run by exact Eu.
    + eapply loads_trans; [|exact L]. split; [done|done| |lia|done].
      by eapply same_but_below; [exact B1|..].
    + rewrite He at 1. done.
    + rewrite Hus. unfold g1. cbn. by rewrite fmap_app, <- app_assoc.
Qed.

Lemma load_groups n l gs texts : Forall (fun g => group_ok g.2 = true) gs -> mapM group_lines gs = Some texts ->
  forall fuel w t a, stores w l t -> n <= l -> n <= w_next w -> (length (10%Z :: concat texts) < fuel)%nat ->
  exists w' t' gs',
    list_get_loop fuel (10 :: concat texts) l a w = Some (tt, w')
    /\ loads n l w t w' t' /\ lt_groups t' = lt_groups t ++ gs'
    /\ map value_of gs'.*2 = map value_norm gs.*2.
Proof.
  intros Hok. revert texts. induction Hok as [|[b g] gs Hg _ IH]; intros texts Ht fuel w t a S Hl Hw Hf.
  - injection Ht as <-. destruct fuel; [cbn in *; lia|]. exists w, t, [].
    split_and!; [done|by apply loads_refl|by rewrite app_nil_r|done].
  - cbn in Hg. destruct (group_ok_inv g Hg) as (name & Hname & _ & _ & _ & Hus).
    cbn [mapM] in Ht. rewrite (group_lines_body b g name Hname) in Ht.
    destruct (mapM user_line (gt_users g)) as [us'|] eqn:Eus; [|done]. cbn [mbind option_bind] in Ht.
    destruct (mapM group_lines gs) as [gs'|]; [|done].
    assert (texts = ((71 :: group_body g name ++ CRLF) ++ concat us') :: gs') as -> by by injection Ht.
    destruct fuel as [|fuel]; [lia|].
    destruct (new_group_run l t (group_read g) w S eq_refl) as (w1 & E1 & S1 & N1 & H1 & B1).
    pose proof (get_group_run g name l w Hg Hname) as Eg. rewrite E1 in Eg.
    destruct (load_users n l (w_next w) (gt_users g) us' Hus Eus fuel (concat gs') w1
      (add_group (w_next w) (group_read g) t) (lt_groups t) (group_read g) S1 eq_refl)
      as (fuel2 & w2 & t2 & g2 & E2 & Hf2 & L2 & Hg2 & He2 & Hu2).
    { done. } { lia. }
    { cbn [concat] in Hf. rewrite !length_cons, !length_app in *. cbn [length] in Hf.
      rewrite !length_app in Hf. lia. }
    destruct (IH gs' eq_refl fuel2 w2 t2 (Some (w_next w)) (ld_stores _ _ _ _ _ _ L2) Hl) as (w' & t' & new & E' & L' & Hg' & Hv).
    { pose proof (ld_next _ _ _ _ _ _ L2). lia. } { done. }
    exists w', t', ((w_next w, g2) :: new). split_and!.
    + cbn [concat]. rewrite <- app_assoc, loop_group by done.
      erewrite bind_run by exact Eg. cbn [app]. by rewrite E2.
    + eapply loads_trans; [|exact L']. eapply loads_trans; [|exact L2]. split; [done|done| |lia|done].
      by eapply same_but_below; [exact B1|..].
    + rewrite Hg', Hg2. by rewrite <- app_assoc.
    + cbn. rewrite Hv. f_equal. rewrite He2. unfold value_of, value_norm. cbn. by rewrite Hu2.
Qed.

Lemma user_lines_some us : Forall (fun u => user_ok u.2 = true) us -> is_Some (mapM user_line us).
Proof.
  induction 1 as [|[b u] us Hu _ [ss IH]]; [by eexists|]. destruct (user_ok_inv u Hu) as (id & Hid & _).
  cbn [mapM]. rewrite (user_line_body b u id Hid). cbn. rewrite IH. by eexists.
Qed.

Lemma group_lines_some gs : Forall (fun g => group_ok g.2 = true) gs -> is_Some (mapM group_lines gs).
Proof.
  induction 1 as [|[b g] gs Hg _ [ss IH]]; [by eexists|].
  destruct (group_ok_inv g Hg) as (name & Hn & _ & _ & _ & Hus).
  cbn [mapM]. rewrite (group_lines_body b g name Hn).
  destruct (user_lines_some _ Hus) as [us ->]. cbn. rewrite IH. by eexists.
Qed.

Lemma list_ok_inv t : list_ok t = true -> is_u32 (lt_major t) /\ is_u32 (lt_minor t) /\ is_u32 (lt_micro t)
  /\ Forall (fun g => group_ok g.2 = true) (lt_groups t).
Proof.
  unfold list_ok. intros [[[H1 H2]%andb_true_iff H3]%andb_true_iff H4]%andb_true_iff.
  split_and!; [by apply bool_decide_eq_true in H1|by apply bool_decide_eq_true in H2|by apply bool_decide_eq_true in H3|].
  rewrite forallb_forall in H4. apply Forall_forall. intros x Hx. by apply H4, list_elem_of_In.
Qed.

(** [list_get] into any list without groups. *)
Lemma list_get_stored n l t0 t s w : list_ok t = true -> tree_text t = Some s ->
  stores w l t0 -> n <= l -> n <= w_next w ->
  exists w' t', list_get s l w = Some (tt, w') /\ stores w' l t' /\ heap_only w w' /\ same_below n w w'
    /\ w_next w <= w_next w'
    /\ list_value value_of t' =
       (lt_major t, lt_minor t, lt_micro t, map value_of (lt_groups t0).*2 ++ map value_norm (lt_groups t).*2).
Proof.
  intros Hok Hs S Hl Hn. destruct (list_ok_inv t Hok) as (H1 & H2 & H3 & Hg).
  unfold tree_text in Hs. destruct (mapM group_lines (lt_groups t)) as [gs|] eqn:Eg; [|done].
  cbn [mbind option_bind] in Hs. rewrite version_text_body in Hs.
  assert (s = 86 :: version_body t ++ CRLF ++ concat gs) as ->.
  { injection Hs as <-. cbn [app]. by rewrite <- app_assoc. }
  unfold list_get. cbn [list_get_loop].
  rewrite fetch_line_spec by (done || by apply version_body_nobreak). cbn [Z.eqb Pos.eqb].
  set (t1 := {| lt_major := lt_major t; lt_minor := lt_minor t; lt_micro := lt_micro t; lt_groups := lt_groups t0 |}).
  pose proof (get_version_run t l w H1 H2 H3) as Ev.
  destruct S as [B T]. pose proof (tree_list _ l t0 T) as El.
  rewrite (obj_set_run l _ (list_obj t0)) in Ev by exact El. erewrite bind_run by exact Ev.
  set (w1 := set_w_heap _ w).
  assert (stores w1 l t1) as S1.
  { split; [|by apply (tree_set_list _ l t0 t1 T)]. apply (below_sub w); [done|].
    intros r [x [[<- _]|[_ Hr]]%lookup_insert_Some]; by eexists. }
  assert (same_below n w w1) as B1 by (intros q Hq; cbn; apply lookup_insert_ne; lia).
  destruct (load_groups n l (lt_groups t) gs Hg Eg (length (86 :: version_body t ++ CRLF ++ concat gs)) w1 t1 None S1 Hl Hn)
    as (w' & t' & new & E & L & Hg' & Hv).
  { cbn [length]. rewrite !length_app. cbn [length CRLF]. lia. }
  exists w', t'. destruct L as [LS LO LB LN LV]. split_and!; [exact E|done| |by etrans|exact LN|].
  - etrans; [|exact LO]. by destruct w.
  - injection LV as E1 E2 E3. unfold list_value. rewrite Hg', fmap_app, map_app, E1, E2, E3. by rewrite <- Hv.
Qed.

(** C32: take a contact list with [list_ok]: version numbers in range, groups
    with names and users with ids, strings without semicolons and control
    characters, ids of users without double colons, aliases of users without commas, group aliases
    that are not empty.  It can be stored, and loading the text gives a new
    list, while the old one is as it was: the same version and groups in the
    same order, each with its users in order, in the normal form
    [value_norm]: users lose their community, a user without a name gets the
    alias for it, or the empty name, and keeps an alias only beside a name and when it is not empty,
    and a group without an alias gets its name. *)
Theorem contact_list_roundtrip l t w : stores w l t -> list_ok t = true ->
  exists s l' w' t', mwSametimeList_store (Some l) w = Some (Some s, w)
    /\ mwSametimeList_load (Some s) w = Some (Some l', w')
    /\ stores w' l' t' /\ list_value value_of t' = list_value value_norm t
    /\ stores w' l t.
Proof.
  intros S Hok. destruct (list_ok_inv t Hok) as (_ & _ & _ & Hg).
  assert (exists s, tree_text t = Some s) as [s Hs].
  { unfold tree_text. destruct (group_lines_some _ Hg) as [gs ->]. by eexists. }
  destruct S as [B T]. pose proof (list_store_run l t w T) as Est. rewrite Hs in Est. cbn in Est.
  set (t0 := {| lt_major := ST_LIST_MAJOR; lt_minor := ST_LIST_MINOR; lt_micro := ST_LIST_MICRO; lt_groups := [] |}).
  set (w0 := set_w_next (w_next w + 1) (set_w_heap (<[w_next w := ObjList (list_obj t0)]> (w_heap w)) w)).
  assert (stores w0 (w_next w) t0) as S0.
  { split; [by apply below_next|]. split_and!; [apply lookup_insert_eq|constructor|constructor]. }
  destruct (list_get_stored (w_next w) (w_next w) t0 t s w0 Hok Hs S0) as (w' & t' & E & S' & _ & Hb & _ & Hv).
  { done. } { cbn. lia. }
  exists s, (w_next w), w', t'. split_and!; [|  |done|exact Hv|].
  - unfold mwSametimeList_store. cbn [nonnull]. by erewrite bind_run by exact Est.
  - unfold mwSametimeList_load. erewrite bind_run by reflexivity. by erewrite bind_run by exact E.
  - destruct S' as [B' T']. split; [done|].
    assert (forall q o, w_heap w !! q = Some o -> w_heap w' !! q = w_heap w !! q) as Hq.
    { intros q o Hq. pose proof (B q o Hq). rewrite (Hb q) by done. cbn. apply lookup_insert_ne. lia. }
    apply (tree_agree (w_heap w)); [done|by eapply Hq, tree_list|].
    intros a g Ha. split; [by eapply Hq, tree_group_addr|]. intros b u Hu.
    eapply Hq. by apply (tree_user _ l t T a g b u).
Qed.
