(* ===== verification/StListLoad.v ===== *)
(** * Loading any text, and the contact list on the wire

    Which texts [mwSametimeList_load] reads without leaving its memory, that
    it builds a well-formed list from them, and the round trip through a put
    and a get buffer. *)

From S2P Require Import Prelude Buffer Common Cstring World Util StList StListSpec StListText.
#[local] Open Scope Z_scope.
#[local] Open Scope mw_scope.

(** ** Texts that are safe to load *)

(** The id of the line does not start with the colons. *)
Definition user_line_safe (line : list Z) : bool :=
  match sscanf line [Lit 85; Space; Fmt_s (strlen line); Space; Fmt_s (strlen line)] with
  | Some r => match find_colons (str_replace SEMI SP (arg_s r 0)) with Some O => false | _ => true end
  | None => false
  end.

(** Every line of a user comes after one of a group. *)
Fixpoint text_safe_loop (fuel : nat) (s : list Z) (group : bool) : bool :=
  match fuel with
  | O => false
  | S fuel =>
      match fetch_line s with
      | None => true
      | Some (line, s) =>
          let c := default 0 (head line) in
          if c =? 71 then text_safe_loop fuel s true
          else if c =? 85 then group && user_line_safe line && text_safe_loop fuel s group
          else text_safe_loop fuel s group
      end
  end.
Definition text_safe (s : list Z) : bool := text_safe_loop (S (length s)) s false.

Lemma find_colons_lt id k : find_colons id = Some k -> (k < length id)%nat.
Proof.
  revert k. induction id as [|x [|y id] IH]; intros k; [done..|].
  change (find_colons (x :: y :: id)) with
    (if (x =? 58) && (y =? 58) then Some O else S <$> find_colons (y :: id)).
  destruct ((x =? 58) && (y =? 58)); [intros [= <-]; cbn; lia|].
  intros (j & Hj & ->)%fmap_Some. specialize (IH j Hj). cbn in *. lia.
Qed.

Lemma split_colons_safe id old :
  match find_colons id with Some O => split_colons id old = None | _ => is_Some (split_colons id old) end.
Proof.
  unfold split_colons. destruct (find_colons id) as [[|k]|] eqn:E; [done| |by eexists].
  apply find_colons_lt in E.
  destruct (lookup_lt_is_Some_2 id k) as [c ->]; [lia|]. by eexists.
Qed.

Lemma words_fit line c : is_Some (sscanf (c :: line)
  [Lit c; Space; Fmt_s (strlen (c :: line)); Space; Fmt_s (strlen (c :: line))]).
Proof.
  cbn [sscanf]. rewrite Z.eqb_refl.
  apply (sscanf_fits line [Space; Fmt_s (strlen (c :: line)); Space; Fmt_s (strlen (c :: line))]).
  unfold strlen. repeat constructor; cbn [fits]; zlen_lia.
Qed.

(** A list and the group the next users go to. *)
Definition loading (w : world) (l : Z) (t : list_t) (g : option Z) : Prop :=
  stores w l t /\ match g with Some a => has_group a t = true | None => True end.

Lemma has_group_add a g t : has_group a (add_group a g t) = true.
Proof.
  unfold has_group, add_group. cbn. apply bool_decide_eq_true_2. rewrite fmap_app. apply elem_of_app.
  right. by constructor.
Qed.

Lemma has_group_map a b f t : has_group a (map_group b f t) = has_group a t.
Proof. unfold has_group, map_group. cbn. by rewrite fst_map_at. Qed.

Lemma get_version_any line l t w g : loading w l t g ->
  exists w' t', get_version (86 :: line) l w = Some (tt, w') /\ loading w' l t' g /\ heap_only w w'.
Proof.
  intros [[B T] Hg]. unfold get_version.
  assert (is_Some (sscanf (86 :: line) (map Lit (chars "Version=") ++ [Fmt_u; Lit 46; Fmt_u; Lit 46; Fmt_u; Space])))
    as [r ->] by by apply sscanf_fits; repeat constructor.
  erewrite bind_run by reflexivity. erewrite (obj_set_run l _ (list_obj t)) by by eapply tree_list.
  set (t' := {| lt_major := arg_u r 0 0; lt_minor := arg_u r 1 0; lt_micro := arg_u r 2 0; lt_groups := lt_groups t |}).
  eexists _, t'. split; [done|]. split; [|by destruct w]. split; [|done].
  split; [|by apply (tree_set_list _ l t t' T)]. apply (below_sub w); [done|].
  pose proof (tree_list _ l t T). intros q [x [[<- _]|[_ Hq]]%lookup_insert_Some]; by eexists.
Qed.

Lemma get_group_any line l t w g : loading w l t g ->
  exists a w' t', get_group (71 :: line) l w = Some (a, w') /\ loading w' l t' (Some a) /\ heap_only w w'.
Proof.
  intros [S _]. unfold get_group.
  assert (is_Some (sscanf (71 :: line) [Lit 71; Space; Fmt_s (strlen (71 :: line)); Space;
    Fmt_s (strlen (71 :: line)); Space; Fmt_c; Space])) as [r ->].
  { cbn [sscanf]. rewrite Z.eqb_refl.
    apply (sscanf_fits line [Space; Fmt_s (strlen (71 :: line)); Space; Fmt_s (strlen (71 :: line)); Space; Fmt_c; Space]).
    unfold strlen. repeat constructor; cbn [fits]; zlen_lia. }
  erewrite bind_run by reflexivity. destruct (split_type _ 50) as [name type].
  destruct (new_group_run l t {| gt_type := group_char_to_type type; gt_name := Some name;
    gt_alias := Some (str_replace SEMI SP (arg_s r 1)); gt_open := arg_c r 2 79 =? 79; gt_users := [] |} w S eq_refl)
    as (w' & E & S' & _ & H & _).
  eexists _, w', _. split; [exact E|]. split; [|done]. split; [done|apply has_group_add].
Qed.

Lemma get_user_any line l t w g : loading w l t g ->
  match g with Some _ => user_line_safe (85 :: line) | None => false end = true ->
  exists w' t', get_user (85 :: line) g w = Some (tt, w') /\ loading w' l t' g /\ heap_only w w'.
Proof.
  intros [S Hg] Hs. destruct g as [a|]; [|done]. unfold user_line_safe, get_user in *.
  destruct (words_fit line 85) as [r E]. rewrite E in *. erewrite bind_run by reflexivity.
  pose proof (split_colons_safe (str_replace SEMI SP (arg_s r 0)) 49) as Hc.
  assert (is_Some (split_colons (str_replace SEMI SP (arg_s r 0)) 49)) as [[id type] ->]
    by by destruct (find_colons _) as [[|k]|].
  erewrite bind_run by reflexivity. destruct (split_alias _) as [name alias].
  pose proof Hg as Hg'. apply has_group_in in Hg' as [gt Hin].
  destruct (new_user_run l t a gt {| ut_type := user_char_to_type type; ut_id := {| id_user := Some id;
    id_community := None |}; ut_name := Some name; ut_alias := alias |} w S Hin) as (w' & Eu & S' & _ & H & _).
  eexists w', _. split; [exact (bind_ret_tt _ _ _ _ _ Eu)|]. split; [|done]. split; [done|].
  unfold add_user. by rewrite has_group_map.
Qed.

Lemma get_user_unsafe line g w :
  match g with Some _ => user_line_safe (85 :: line) | None => false end = false ->
  get_user (85 :: line) g w = None.
Proof.
  intros Hs. unfold user_line_safe, get_user in *. destruct (words_fit line 85) as [r E]. rewrite E in *.
  erewrite bind_run by reflexivity.
  pose proof (split_colons_safe (str_replace SEMI SP (arg_s r 0)) 49) as Hc.
  destruct (split_colons _ 49) as [[id type]|]; [|done].
  erewrite bind_run by reflexivity. destruct (split_alias _) as [name alias].
  destruct g as [a|]; [|done]. destruct (find_colons _) as [[|k]|]; done.
Qed.

Lemma fetch_line_length s line r :
  fetch_line s = Some (line, r) -> exists c line', line = c :: line' /\ (length r < length s)%nat.
Proof.
  unfold fetch_line. destruct (span g_ascii_isspace s) as [a b] eqn:E. apply span_app in E as ->. cbn [snd].
  destruct b as [|c b]; [done|]. destruct (span _ b) as [x y] eqn:Ey. apply span_app in Ey as ->.
  intros [= <- <-]. exists c, x. split; [done|]. rewrite length_drop, !length_app. cbn [length].
  rewrite length_app. lia.
Qed.

Lemma list_get_any fuel s l t w g : loading w l t g -> (length s < fuel)%nat ->
  match list_get_loop fuel s l g w with
  | Some (_, w') => text_safe_loop fuel s (bool_decide (is_Some g)) = true
      /\ exists t', stores w' l t' /\ heap_only w w'
  | None => text_safe_loop fuel s (bool_decide (is_Some g)) = false
  end.
Proof.
  revert s t w g. induction fuel as [|fuel IH]; intros s t w g L Hf; [lia|].
  cbn [list_get_loop text_safe_loop]. destruct (fetch_line s) as [[line r]|] eqn:E.
  2:{ cbn. split; [done|]. exists t. split; [apply L|done]. }
  destruct (fetch_line_length s line r E) as (c & line' & -> & Hr).
  assert (length r < fuel)%nat as Hf' by lia.
  assert (forall w1 t1 g1, heap_only w w1 -> loading w1 l t1 g1 ->
    match list_get_loop fuel r l g1 w1 with
    | Some (_, w') => text_safe_loop fuel r (bool_decide (is_Some g1)) = true
        /\ exists t', stores w' l t' /\ heap_only w w'
    | None => text_safe_loop fuel r (bool_decide (is_Some g1)) = false
    end) as Next.
  { intros w1 t1 g1 H1 L1. pose proof (IH r t1 w1 g1 L1 Hf') as HI.
    destruct (list_get_loop fuel r l g1 w1) as [[[] w']|]; [|done]. destruct HI as (Hs & t' & S' & H').
    split; [done|]. exists t'. split; [done|by etrans]. }
  destruct (Z.eqb_spec c 86) as [->|H86]; [|destruct (Z.eqb_spec c 71) as [->|H71]; [|destruct (Z.eqb_spec c 85) as [->|H85]]].
  - destruct (get_version_any line' l t w g L) as (w1 & t1 & E1 & L1 & H1).
    erewrite bind_run by exact E1. by apply (Next w1 t1).
  - destruct (get_group_any line' l t w g L) as (a & w1 & t1 & E1 & L1 & H1).
    erewrite bind_run by exact E1. by apply (Next w1 t1 (Some a)).
  - destruct (match g with Some _ => user_line_safe (85 :: line') | None => false end) eqn:Es.
    + destruct (get_user_any line' l t w g L Es) as (w1 & t1 & E1 & L1 & H1).
      erewrite bind_run by exact E1.
      assert (bool_decide (is_Some g) && user_line_safe (85 :: line') = true) as -> by by destruct g.
      by apply (Next w1 t1).
    + rewrite bind_none by by apply get_user_unsafe.
      assert (bool_decide (is_Some g) && user_line_safe (85 :: line') = false) as -> by by destruct g.
      done.
  - cbn [head default from_option id]. destruct (Z.eqb_spec c 71), (Z.eqb_spec c 85); try done.
    apply (Next w t g); [done|done].
Qed.

(** ** On the wire *)

Lemma nonzero_replace s : clean s = true -> Forall (fun c => c <> 0) (str_replace SP SEMI s).
Proof.
  intros H. apply Forall_forall. intros c Hc. apply list_elem_of_fmap in Hc as (x & -> & Hx).
  unfold clean in H. rewrite forallb_forall in H. apply list_elem_of_In, H in Hx.
  unfold SP, SEMI in *. destruct (Z.eqb_spec x 32); lia.
Qed.

Lemma user_lines_nonzero us texts : Forall (fun u => user_ok u.2 = true) us ->
  mapM user_line us = Some texts -> Forall (fun c => c <> 0) (concat texts).
Proof.
  intros H. revert texts. induction H as [|[b u] us Hu _ IH]; intros texts Ht; [by injection Ht as <-|].
  destruct (user_ok_inv u Hu) as (id & Hid & Hci & _ & Hn & Ha & _).
  cbn [mapM] in Ht. rewrite (user_line_body b u id Hid) in Ht. cbn [mbind option_bind] in Ht.
  destruct (mapM user_line us) as [us'|]; [|done].
  assert (texts = (85 :: user_body u id ++ CRLF) :: us') as -> by by injection Ht.
  cbn [concat]. apply Forall_app. split; [|by apply IH]. constructor; [done|].
  apply Forall_app. split; [|by repeat constructor]. unfold user_body.
  constructor; [done|]. rewrite <- app_assoc. apply Forall_app. split; [by apply nonzero_replace|].
  apply Forall_app. split; [by destruct (ut_type u); repeat constructor|]. constructor; [done|].
  apply Forall_app. split; [by apply nonzero_replace|]. constructor; [done|by apply nonzero_replace].
Qed.

Lemma group_lines_nonzero gs texts : Forall (fun g => group_ok g.2 = true) gs ->
  mapM group_lines gs = Some texts -> Forall (fun c => c <> 0) (concat texts).
Proof.
  intros H. revert texts. induction H as [|[b g] gs Hg _ IH]; intros texts Ht; [by injection Ht as <-|].
  destruct (group_ok_inv g Hg) as (name & Hname & Hn & Ha & _ & Hus).
  cbn [mapM] in Ht. rewrite (group_lines_body b g name Hname) in Ht.
  destruct (mapM user_line (gt_users g)) as [us'|] eqn:Eus; [|done]. cbn [mbind option_bind] in Ht.
  destruct (mapM group_lines gs) as [gs'|]; [|done].
  assert (texts = ((71 :: group_body g name ++ CRLF) ++ concat us') :: gs') as -> by by injection Ht.
  cbn [concat]. apply Forall_app. split; [|by apply IH].
  apply Forall_app. split; [|by eapply user_lines_nonzero]. constructor; [done|].
  apply Forall_app. split; [|by repeat constructor]. unfold group_body.
  constructor; [done|]. rewrite <- app_assoc. apply Forall_app. split; [by apply nonzero_replace|].
  constructor; [by destruct (gt_type g)|]. constructor; [done|].
  apply Forall_app. split; [by apply nonzero_replace|]. by destruct (gt_open g); repeat constructor.
Qed.

Lemma print_u_nonzero n : 0 <= n -> Forall (fun c => c <> 0) (print_u n).
Proof.
  intros Hn. eapply Forall_impl; [exact (digits_isdigit 10 n Hn)|]. unfold isdigit. intros c Hc. cbn in Hc. lia.
Qed.

Lemma tree_text_nonzero t s : list_ok t = true -> tree_text t = Some s -> Forall (fun c => c <> 0) s.
Proof.
  intros Hok Hs. destruct (list_ok_inv t Hok) as ([H1 _] & [H2 _] & [H3 _] & Hg). unfold tree_text in Hs.
  destruct (mapM group_lines (lt_groups t)) as [gs|] eqn:E; [|done].
  apply (inj Some) in Hs as <-.
  apply Forall_app. split; [|by eapply group_lines_nonzero].
  rewrite version_text_body. constructor; [done|]. apply Forall_app. split; [|by repeat constructor].
  unfold version_body. apply Forall_app. split; [by repeat constructor|].
  apply Forall_app. split; [by apply print_u_nonzero|]. constructor; [done|].
  apply Forall_app. split; [by apply print_u_nonzero|]. constructor; [done|]. by apply print_u_nonzero.
Qed.

(** C33: [mwSametimeList_load] ends on every text. It stays inside its memory,
    and then builds a well-formed list, exactly when every line of a user
    comes after one of a group and no id starts with two colons. *)
Theorem list_load_safe_iff s w : heap_below w ->
  match mwSametimeList_load (Some s) w with
  | Some (r, w') => text_safe s = true /\ exists l t, r = Some l /\ stores w' l t /\ w_heap w !! l = None
  | None => text_safe s = false
  end.
Proof.
  intros B. unfold mwSametimeList_load. erewrite bind_run by reflexivity.
  set (t0 := {| lt_major := ST_LIST_MAJOR; lt_minor := ST_LIST_MINOR; lt_micro := ST_LIST_MICRO; lt_groups := [] |}).
  set (w0 := set_w_next _ _).
  assert (stores w0 (w_next w) t0) as S0.
  { split; [by apply below_next|]. split_and!; [apply lookup_insert_eq|constructor|constructor]. }
  pose proof (list_get_any (S (length s)) s (w_next w) t0 w0 None (conj S0 I)) as H.
  unfold list_get, text_safe, bind. destruct (list_get_loop _ s _ None w0) as [[[] w']|]; [|by apply H; lia].
  destruct H as (Hs & t' & S' & _); [lia|]. split; [exact Hs|].
  exists (w_next w), t'. split_and!; [done|done|by apply below_fresh].
Qed.

(** A contact list written to a put buffer and read from it into an empty
    list comes back, when its text is not longer than a string can be. *)
Theorem contact_list_put_get l l0 t t0 w : stores w l t -> list_ok t = true ->
  stores w l0 t0 -> lt_groups t0 = [] ->
  match tree_text t with Some s => zlen s < 65536 | None => False end ->
  exists b w' t' g, mwSametimeList_put mwPutBuffer_new (Some l) w = Some (b, w)
    /\ mwSametimeList_get (mwGetBuffer_wrap (Some (mwPutBuffer_finalize b))) (Some l0) w = Some (g, w')
    /\ mwGetBuffer_error g = false /\ mwGetBuffer_remaining g = 0
    /\ stores w' l0 t' /\ list_value value_of t' = list_value value_norm t.
Proof.
  intros [B T] Hok S0 Hnil Hlen. destruct (tree_text t) as [s|] eqn:Es; [|done].
  pose proof (list_store_run l t w T) as Est. rewrite Es in Est. cbn in Est.
  pose proof (tree_text_nonzero t s Hok Es) as Hnz. pose proof (zlen_nonneg s) as Hpos.
  destruct (finalize_writes (guint16_put (u16 (zlen s)) >>> mwPutBuffer_write s (zlen s)) (mwString_enc (Some s)))
    as (b & Eb & Ho & Hl & Hd).
  { unfold mwString_enc. apply writes_seq; [apply guint16_put_writes|]. cbn [opt_list].
    pose proof (mwPutBuffer_write_writes s (zlen s)) as Hw. rewrite to_nat_zlen, firstn_all in Hw. apply Hw. lia. }
  { unfold mwString_enc. cbn [opt_list]. rewrite zlen_app, MW16_PUT_len. unfold pb_max. lia. }
  destruct (mwString_get_parses (Some s)) as (R & _ & _); [by split|].
  destruct (R (mwGetBuffer_wrap (Some (mwPutBuffer_finalize b))) []) as (g & Eg & Hg & _).
  { rewrite app_nil_r, <- Hd. apply mwGetBuffer_wrap_ready; [done|]. rewrite Hl.
    unfold mwString_enc. cbn [opt_list]. rewrite zlen_app, MW16_PUT_len. lia. }
  assert (mwString_norm (Some s) = Some s) as Hnorm.
  { unfold tree_text in Es. destruct (mapM _ _); [|done]. rewrite version_text_body in Es. by injection Es as <-. }
  rewrite Hnorm in Eg.
  destruct (list_get_stored (Z.min l0 (w_next w)) l0 t0 t s w Hok Es S0) as (w' & t' & E & S' & _ & _ & _ & Hv).
  { lia. } { lia. }
  exists b, w', t', g. split_and!.
  - unfold mwSametimeList_put. cbn [nonnull]. erewrite bind_run by exact Est.
    rewrite u16_id in Eb |- * by (unfold is_u16; lia). by rewrite Eb.
  - unfold mwSametimeList_get. cbn [nonnull]. unfold bind at 1, lift. rewrite Eg.
    by erewrite bind_run by exact E.
  - apply Hg.
  - exact (gb_ready_len g [] Hg).
  - done.
  - rewrite Hv, Hnil. done.
Qed.

(** ** Witnesses *)

Definition work_list : list_t := {| lt_major := 3; lt_minor := 1; lt_micro := 3; lt_groups := [
  (2, {| gt_type := mwSametimeGroup_DYNAMIC; gt_name := Some (chars "Work Group"); gt_alias := None;
         gt_open := true; gt_users := [
    (3, {| ut_type := mwSametimeUser_EXTERNAL; ut_id := {| id_user := Some (chars "cn=alice"); id_community := None |};
           ut_name := None; ut_alias := Some (chars "Alice B") |})] |})] |}.

(** A list made by calls. *)
Definition work_calls : list stl_call := [
  GroupNew mwSametimeGroup_DYNAMIC (Some (chars "Work Group")); GroupOpen 2 true;
  UserNew 2 mwSametimeUser_EXTERNAL {| id_user := Some (chars "cn=alice"); id_community := None |};
  UserAlias 3 (Some (chars "Alice B")) ].

Definition empty_list : list_t := {| lt_major := 3; lt_minor := 1; lt_micro := 3; lt_groups := [] |}.
Definition list_world : world := set_w_next 2 (set_w_heap {[ 1 := ObjList (list_obj empty_list) ]} quiet_world).
Definition work_world : world := default quiet_world (snd <$> for_each (run_stl 1) work_calls list_world).

Lemma list_world_stores : stores list_world 1 empty_list.
Proof.
  split.
  - intros q o Hq. unfold list_world in Hq. cbn in Hq. apply lookup_singleton_Some in Hq as [<- _]. cbn. lia.
  - split_and!; [done|constructor|constructor].
Qed.

Lemma work_world_stores : stores work_world 1 work_list.
Proof.
  split.
  - intros q o. apply (map_Forall_lookup_1 (fun q _ => q < w_next work_world) (w_heap work_world)).
    apply (bool_decide_unpack _). by vm_compute.
  - split_and!; [by vm_compute|by apply (bool_decide_unpack _); vm_compute|].
    constructor; [|constructor]. split_and!; [by vm_compute|by apply (bool_decide_unpack _); vm_compute|].
    constructor; [|constructor]. by vm_compute.
Qed.

Lemma contact_list_refines_witness :
  exists w', for_each (run_stl 1) work_calls list_world = Some (tt, w') /\ stores w' 1 work_list
    /\ w_next w' = 4 /\ heap_only list_world w' /\ answers w' 1 work_list /\ (all_named empty_list -> all_named work_list).
Proof.
  apply (contact_list_refines 1 work_calls list_world empty_list 4 work_list); [exact list_world_stores|].
  by vm_compute.
Defined.

Lemma contact_list_freed_witness :
  exists h, mwSametimeList_free (Some 1) work_world = Some (tt, with_heap h work_world)
    /\ forall q, h !! q = if bool_decide (q ∈ [1; 2; 3]) then None else w_heap work_world !! q.
Proof. apply (contact_list_freed 1 work_list work_world). exact work_world_stores. Defined.

Lemma contact_list_roundtrip_witness :
  exists s l' w' t', mwSametimeList_store (Some 1) work_world = Some (Some s, work_world)
    /\ mwSametimeList_load (Some s) work_world = Some (Some l', w')
    /\ stores w' l' t' /\ list_value value_of t' = list_value value_norm work_list
    /\ stores w' 1 work_list.
Proof. apply contact_list_roundtrip; [exact work_world_stores|by vm_compute]. Defined.

Lemma list_load_safe_iff_witness :
  match mwSametimeList_load (Some (chars "U lost")) quiet_world with
  | Some (r, w') => text_safe (chars "U lost") = true
      /\ exists l t, r = Some l /\ stores w' l t /\ w_heap quiet_world !! l = None
  | None => text_safe (chars "U lost") = false
  end.
Proof. apply (list_load_safe_iff (chars "U lost") quiet_world). intros q o Hq. cbn in Hq. by apply lookup_empty_Some in Hq. Defined.

Definition two_lists : world :=
  set_w_next 5 (set_w_heap (<[4 := ObjList (list_obj empty_list)]> (w_heap work_world)) work_world).

Lemma two_lists_stores : stores two_lists 1 work_list /\ stores two_lists 4 empty_list.
Proof.
  destruct work_world_stores as [B T]. assert (heap_below two_lists) as B2.
  { intros q o Hq. change (w_heap two_lists) with (<[4 := ObjList (list_obj empty_list)]> (w_heap work_world)) in Hq.
    apply lookup_insert_Some in Hq as [[<- _]|[_ Hq]]; cbn; [lia|]. apply B in Hq.
    change (w_next work_world) with 4 in Hq. lia. }
  split; (split; [done|]).
  - apply (tree_agree (w_heap work_world)); [done|by vm_compute|].
    intros a g [[= -> ->]|Hx%elem_of_nil]%elem_of_cons; [|done]. split; [by vm_compute|].
    intros b u [[= -> ->]|Hx%elem_of_nil]%elem_of_cons; [by vm_compute|done].
  - split_and!; [by vm_compute|constructor|constructor].
Qed.

Lemma contact_list_put_get_witness :
  exists b w' t' g, mwSametimeList_put mwPutBuffer_new (Some 1) two_lists = Some (b, two_lists)
    /\ mwSametimeList_get (mwGetBuffer_wrap (Some (mwPutBuffer_finalize b))) (Some 4) two_lists = Some (g, w')
    /\ mwGetBuffer_error g = false /\ mwGetBuffer_remaining g = 0
    /\ stores w' 4 t' /\ list_value value_of t' = list_value value_norm work_list.
Proof.
  apply (contact_list_put_get 1 4 work_list empty_list two_lists);
    [apply two_lists_stores|by vm_compute|apply two_lists_stores|done|by vm_compute].
Defined.
