(* ===== verification/Rc2.v ===== *)
(** * RC2 (src/src/cipher.c, lines 37-71 and 226-458)

    The key expansion, the block cipher on [int] registers, and the chained
    encryption and decryption of opaques; the reference is RFC 2268 on 16-bit
    words. *)

From S2P Require Import Prelude Buffer.

(** ** The C [int] *)

(** A 32-bit signed integer; sums and left shifts wrap around. *)
Definition int32 (z : Z) : Z := (z + 2 ^ 31) mod 2 ^ 32 - 2 ^ 31.

(** An array read; the indices used are in range. *)
Definition at_ (l : list Z) (i : Z) : Z := nth (Z.to_nat i) l 0.

(** ** Tables *)

(** From RFC2268 *)
Definition PT : list Z := [
  0xD9; 0x78; 0xF9; 0xC4; 0x19; 0xDD; 0xB5; 0xED;
  0x28; 0xE9; 0xFD; 0x79; 0x4A; 0xA0; 0xD8; 0x9D;
  0xC6; 0x7E; 0x37; 0x83; 0x2B; 0x76; 0x53; 0x8E;
  0x62; 0x4C; 0x64; 0x88; 0x44; 0x8B; 0xFB; 0xA2;
  0x17; 0x9A; 0x59; 0xF5; 0x87; 0xB3; 0x4F; 0x13;
  0x61; 0x45; 0x6D; 0x8D; 0x09; 0x81; 0x7D; 0x32;
  0xBD; 0x8F; 0x40; 0xEB; 0x86; 0xB7; 0x7B; 0x0B;
  0xF0; 0x95; 0x21; 0x22; 0x5C; 0x6B; 0x4E; 0x82;
  0x54; 0xD6; 0x65; 0x93; 0xCE; 0x60; 0xB2; 0x1C;
  0x73; 0x56; 0xC0; 0x14; 0xA7; 0x8C; 0xF1; 0xDC;
  0x12; 0x75; 0xCA; 0x1F; 0x3B; 0xBE; 0xE4; 0xD1;
  0x42; 0x3D; 0xD4; 0x30; 0xA3; 0x3C; 0xB6; 0x26;
  0x6F; 0xBF; 0x0E; 0xDA; 0x46; 0x69; 0x07; 0x57;
  0x27; 0xF2; 0x1D; 0x9B; 0xBC; 0x94; 0x43; 0x03;
  0xF8; 0x11; 0xC7; 0xF6; 0x90; 0xEF; 0x3E; 0xE7;
  0x06; 0xC3; 0xD5; 0x2F; 0xC8; 0x66; 0x1E; 0xD7;
  0x08; 0xE8; 0xEA; 0xDE; 0x80; 0x52; 0xEE; 0xF7;
  0x84; 0xAA; 0x72; 0xAC; 0x35; 0x4D; 0x6A; 0x2A;
  0x96; 0x1A; 0xD2; 0x71; 0x5A; 0x15; 0x49; 0x74;
  0x4B; 0x9F; 0xD0; 0x5E; 0x04; 0x18; 0xA4; 0xEC;
  0xC2; 0xE0; 0x41; 0x6E; 0x0F; 0x51; 0xCB; 0xCC;
  0x24; 0x91; 0xAF; 0x50; 0xA1; 0xF4; 0x70; 0x39;
  0x99; 0x7C; 0x3A; 0x85; 0x23; 0xB8; 0xB4; 0x7A;
  0xFC; 0x02; 0x36; 0x5B; 0x25; 0x55; 0x97; 0x31;
  0x2D; 0x5D; 0xFA; 0x98; 0xE3; 0x8A; 0x92; 0xAE;
  0x05; 0xDF; 0x29; 0x10; 0x67; 0x6C; 0xBA; 0xC9;
  0xD3; 0x00; 0xE6; 0xCF; 0xE1; 0x9E; 0xA8; 0x2C;
  0x63; 0x16; 0x01; 0x3F; 0x58; 0xE2; 0x89; 0xA9;
  0x0D; 0x38; 0x34; 0x1B; 0xAB; 0x33; 0xFF; 0xB0;
  0xBB; 0x48; 0x0C; 0x5F; 0xB9; 0xB1; 0xCD; 0x2E;
  0xC5; 0xF3; 0xDB; 0x47; 0xE5; 0xA5; 0x9C; 0x77;
  0x0A; 0xA6; 0x20; 0x68; 0xFE; 0x7F; 0xC1; 0xAD
].

(** [mwIV_init] *)
Definition mwIV_init : list Z := [0x01; 0x23; 0x45; 0x67; 0x89; 0xab; 0xcd; 0xef].

(** ** Key expansion *)

(** [for(i = 0; keylen < 128; i++)]: [tmp] is the part of the array that is
    filled, [keylen] its length. *)
Fixpoint expand_loop (fuel : nat) (i : Z) (tmp : list Z) : list Z :=
  match fuel with
  | O => tmp
  | S fuel =>
      let keylen := zlen tmp in
      if keylen <? 128 then
        expand_loop fuel (i + 1)
          (tmp ++ [at_ PT (Z.land (at_ tmp (keylen - 1) + at_ tmp i) 0xff)])
      else tmp
  end.

(** [ekey[i] = (tmp[j] & 0xff) | (tmp[j+1] << 8); j += 2;] *)
Fixpoint key_words (tmp : list Z) : list Z :=
  match tmp with
  | x0 :: x1 :: tmp => Z.lor (Z.land x0 0xff) (Z.shiftl x1 8) :: key_words tmp
  | _ => []
  end.

Definition key_head (tmp : list Z) : list Z :=
  match tmp with x :: tmp => at_ PT (Z.land x 0xff) :: tmp | [] => [] end.

(** [ekey] is the array passed in, which a refused call leaves alone.  [None]
    when [key] has fewer bytes than are read. *)
Definition mwKeyExpand (ekey : list Z) (key : option (list Z)) (keylen : Z) : option (list Z) :=
  if negb (0 <? keylen) then Some ekey else
  match key with
  | None => Some ekey
  | Some key =>
      let keylen := if 128 <? keylen then 128 else keylen in
      tmp ← mem_read key 0 keylen;
      Some (key_words (key_head (expand_loop 128 0 tmp)))
  end.

(** ** The block cipher *)

Definition regs : Type := Z * Z * Z * Z.

(** [x += ((p & (q ^ 0xffff)) + (r & q) + k); x = (x << s) | (x >> (16 - s) & mask);] *)
Definition enc_step (s mask x p q r k : Z) : Z :=
  let x := int32 (x + int32 (int32 (Z.land p (Z.lxor q 0xffff) + Z.land r q) + k)) in
  Z.lor (int32 (Z.shiftl x s)) (Z.land (Z.shiftr x (16 - s)) mask).

Definition enc_mix (ekey : list Z) (i : Z) (s : regs) : regs :=
  let '(a, b, c, d) := s in
  let j := i * 4 in
  let d := enc_step 1 0x0001 d c a b (at_ ekey j) in
  let c := enc_step 2 0x0003 c b d a (at_ ekey (j + 1)) in
  let b := enc_step 3 0x0007 b a c d (at_ ekey (j + 2)) in
  let a := enc_step 5 0x001f a d b c (at_ ekey (j + 3)) in
  (a, b, c, d).

Definition enc_mash (ekey : list Z) (s : regs) : regs :=
  let '(a, b, c, d) := s in
  let d := int32 (d + at_ ekey (Z.land a 0x003f)) in
  let c := int32 (c + at_ ekey (Z.land d 0x003f)) in
  let b := int32 (b + at_ ekey (Z.land c 0x003f)) in
  let a := int32 (a + at_ ekey (Z.land b 0x003f)) in
  (a, b, c, d).

Definition enc_round (ekey : list Z) (i : Z) (s : regs) : regs :=
  let s := enc_mix ekey i s in
  if (i =? 4) || (i =? 10) then enc_mash ekey s else s.

(** [x = (x << s) | (x >> (16 - s) & mask); x -= (...);] *)
Definition dec_step (s mask x p q r k : Z) : Z :=
  let x := Z.lor (int32 (Z.shiftl x s)) (Z.land (Z.shiftr x (16 - s)) mask) in
  int32 (x - int32 (int32 (Z.land p (Z.lxor q 0xffff) + Z.land r q) + k)).

Definition dec_mix (ekey : list Z) (i : Z) (s : regs) : regs :=
  let '(a, b, c, d) := s in
  let j := i * 4 + 3 in
  let a := dec_step 11 0x07ff a d b c (at_ ekey j) in
  let b := dec_step 13 0x1fff b a c d (at_ ekey (j - 1)) in
  let c := dec_step 14 0x3fff c b d a (at_ ekey (j - 2)) in
  let d := dec_step 15 0x7fff d c a b (at_ ekey (j - 3)) in
  (a, b, c, d).

Definition dec_mash (ekey : list Z) (s : regs) : regs :=
  let '(a, b, c, d) := s in
  let a := int32 (a - at_ ekey (Z.land b 0x003f)) in
  let b := int32 (b - at_ ekey (Z.land c 0x003f)) in
  let c := int32 (c - at_ ekey (Z.land d 0x003f)) in
  let d := int32 (d - at_ ekey (Z.land a 0x003f)) in
  (a, b, c, d).

Definition dec_round (ekey : list Z) (i : Z) (s : regs) : regs :=
  let s := dec_mix ekey i s in
  if (i =? 5) || (i =? 11) then dec_mash ekey s else s.

(** [for(i = 0; i < 16; i++)] and [for(i = 16; i--; )] *)
Definition rounds : list Z := [0; 1; 2; 3; 4; 5; 6; 7; 8; 9; 10; 11; 12; 13; 14; 15].

Definition load_regs (out : list Z) : regs :=
  let w i := Z.lor (Z.shiftl (at_ out (i + 1)) 8) (Z.land (at_ out i) 0xff) in
  (w 6, w 4, w 2, w 0).

Definition store_regs (s : regs) : list Z :=
  let '(a, b, c, d) := s in
  [Z.land d 0xff; Z.land (Z.shiftr d 8) 0xff; Z.land c 0xff; Z.land (Z.shiftr c 8) 0xff;
   Z.land b 0xff; Z.land (Z.shiftr b 8) 0xff; Z.land a 0xff; Z.land (Z.shiftr a 8) 0xff].

(** On the 8 bytes at [out]. *)
Definition mwEncryptBlock (ekey out : list Z) : list Z :=
  store_regs (foldl (fun s i => enc_round ekey i s) (load_regs out) rounds).

Definition mwDecryptBlock (ekey out : list Z) : list Z :=
  store_regs (foldl (fun s i => dec_round ekey i s) (load_regs out) (reverse rounds)).

(** ** Chaining *)

(** [for(y = 8; y--; o[y] ^= iv[y]);] *)
Definition xor_block (o iv : list Z) : list Z := zip_with Z.lxor o iv.

(** The loop over [o] by 8 bytes; [None] when fewer than 8 are left of the
    block, where the code reads and writes outside it.  Returns the output
    and the final [iv]. *)
Fixpoint enc_blocks (fuel : nat) (ekey iv o : list Z) : option (list Z * list Z) :=
  match fuel with
  | O => None
  | S fuel =>
      if zlen o <=? 0 then Some ([], iv) else
      if zlen o <? 8 then None else
      let blk := mwEncryptBlock ekey (xor_block (take 8 o) iv) in
      p ← enc_blocks fuel ekey blk (drop 8 o);
      Some (blk ++ p.1, p.2)
  end.

(** The new [iv] is the block of the input. *)
Fixpoint dec_blocks (fuel : nat) (ekey iv i : list Z) : option (list Z * list Z) :=
  match fuel with
  | O => None
  | S fuel =>
      if zlen i <=? 0 then Some ([], iv) else
      if zlen i <? 8 then None else
      let blk := xor_block (mwDecryptBlock ekey (take 8 i)) iv in
      p ← dec_blocks fuel ekey (take 8 i) (drop 8 i);
      Some (blk ++ p.1, p.2)
  end.

(** The loops count in an [int]; lengths beyond it are [None]. *)
Definition int_max : Z := 2 ^ 31 - 1.

(** Returns [out_data] and the updated [iv]. *)
Definition mwEncryptExpanded (ekey iv : list Z) (in_data : mwOpaque) : option (mwOpaque * list Z) :=
  let i_len := len in_data in
  let o_len := i_len + (8 - i_len mod 8) in
  if int_max <? o_len then None else
  i ← opaque_bytes in_data;
  let y := o_len - i_len in
  let o := i ++ replicate (Z.to_nat y) y in
  p ← enc_blocks (S (length o)) ekey iv o;
  Some ({| len := o_len; data := Some p.1 |}, p.2).

(** The length is shortened by the last byte, in [gsize]; with an empty input
    that byte is before the block. *)
Definition mwDecryptExpanded (ekey iv : list Z) (in_data : mwOpaque) : option (mwOpaque * list Z) :=
  let i_len := len in_data in
  if int_max <? i_len then None else
  i ← opaque_bytes in_data;
  p ← dec_blocks (S (length i)) ekey iv i;
  match reverse p.1 with
  | filler :: _ => Some ({| len := gsize (i_len - filler); data := Some p.1 |}, p.2)
  | [] => None
  end.

(** [int ekey[64]] is on the stack; [stack] is what it holds. *)
Definition mwEncrypt (stack : list Z) (key : option (list Z)) (keylen : Z) (iv : list Z)
    (in_data : mwOpaque) : option (mwOpaque * list Z) :=
  ekey ← mwKeyExpand stack key keylen; mwEncryptExpanded ekey iv in_data.

Definition mwDecrypt (stack : list Z) (key : option (list Z)) (keylen : Z) (iv : list Z)
    (in_data : mwOpaque) : option (mwOpaque * list Z) :=
  ekey ← mwKeyExpand stack key keylen; mwDecryptExpanded ekey iv in_data.

(** * RFC 2268 *)

(** ** 16-bit words *)

Definition rol16 (x s : Z) : Z := Z.lor (u16 (Z.shiftl x s)) (Z.shiftr x (16 - s)).

(** The words of [R] are indexed modulo 4, those of [K] from 0. *)
Definition word (R : list Z) (i : Z) : Z := nth (Z.to_nat (i mod 4)) R 0.

(** "Mix up R[i]" (section 3.1): [s] is 1, 2, 3, 5 for the four words. *)
Definition rfc_shift (i : Z) : Z := nth (Z.to_nat i) [1; 2; 3; 5] 0.
Definition rfc_mix (K : list Z) (R : list Z * Z) (i : Z) : list Z * Z :=
  let '(R, j) := R in
  let x := u16 (word R i + at_ K j + Z.land (word R (i - 1)) (word R (i - 2))
                + Z.land (u16 (Z.lnot (word R (i - 1)))) (word R (i - 3))) in
  (<[Z.to_nat i := rol16 x (rfc_shift i)]> R, j + 1).
Definition rfc_mixing (K : list Z) (R : list Z * Z) : list Z * Z :=
  foldl (rfc_mix K) R [0; 1; 2; 3].

(** "Mash R[i]" (section 3.2). *)
Definition rfc_mash (K : list Z) (R : list Z) (i : Z) : list Z :=
  <[Z.to_nat i := u16 (word R i + at_ K (Z.land (word R (i - 1)) 63))]> R.
Definition rfc_mashing (K : list Z) (R : list Z * Z) : list Z * Z :=
  (foldl (rfc_mash K) R.1 [0; 1; 2; 3], R.2).

(** Five mixing rounds, a mashing round, six mixing rounds, a mashing round,
    five mixing rounds (section 3.3). *)
Definition rfc_cipher (K : list Z) (R : list Z) : list Z :=
  let mix n R := Nat.iter n (rfc_mixing K) R in
  (mix 5%nat (rfc_mashing K (mix 6%nat (rfc_mashing K (mix 5%nat (R, 0)))))).1.

(** Words are read and written with the low byte first. *)
Fixpoint rfc_words (l : list Z) : list Z :=
  match l with
  | x0 :: x1 :: l => x0 + 256 * x1 :: rfc_words l
  | _ => []
  end.
Fixpoint rfc_bytes (l : list Z) : list Z :=
  match l with
  | x :: l => x mod 256 :: x / 256 :: rfc_bytes l
  | [] => []
  end.

(** ** Key expansion (section 2) *)

(** [L[i] = PITABLE[L[i-1] + L[i-T]]] for [i] from [T] to 127. *)
Fixpoint rfc_fill (n : nat) (T : Z) (L : list Z) : list Z :=
  match n with
  | O => L
  | S n => rfc_fill n T (L ++ [at_ PT ((at_ L (zlen L - 1) + at_ L (zlen L - T)) mod 256)])
  end.
(** [L[i] = PITABLE[L[i+1] XOR L[i+T8]]] for [i] down to 0. *)
Fixpoint rfc_limit (i : nat) (T8 : Z) (L : list Z) : list Z :=
  match i with
  | O => L
  | S i =>
      rfc_limit i T8
        (<[i := at_ PT (Z.lxor (at_ L (Z.of_nat i + 1)) (at_ L (Z.of_nat i + T8)))]> L)
  end.
(** [T1] is the effective key length in bits. *)
Definition rfc_expand (T1 : Z) (key : list Z) : list Z :=
  let T := zlen key in
  let T8 := (T1 + 7) / 8 in
  let TM := 255 mod 2 ^ (8 + T1 - 8 * T8) in
  let L := rfc_fill (Z.to_nat (128 - T)) T key in
  let L := <[Z.to_nat (128 - T8) := at_ PT (Z.land (at_ L (128 - T8)) TM)]> L in
  rfc_words (rfc_limit (Z.to_nat (128 - T8)) T8 L).

(** * Theory *)

(** ** 16-bit words as bits *)

Lemma u16_bits x i : 0 <= i -> Z.testbit (u16 x) i = (i <? 16) && Z.testbit x i.
Proof.
  intros Hi. unfold u16. destruct (Z.ltb_spec i 16).
  - by rewrite Z.mod_pow2_bits_low by lia.
  - by rewrite Z.mod_pow2_bits_high by lia.
Qed.

Ltac bit_cases :=
  repeat match goal with
  | |- context [?a <? ?b] => destruct (Z.ltb_spec a b); try lia
  end.

(** Equality of words by their bits. *)
Ltac bits_step :=
  repeat first
    [ rewrite u16_bits by lia | rewrite Z.lor_spec | rewrite Z.land_spec
    | rewrite Z.lxor_spec | rewrite Z.lnot_spec by lia
    | rewrite Z.shiftl_spec by lia | rewrite Z.shiftr_spec by lia
    | rewrite Z.testbit_ones_nonneg by lia ].
Ltac bits16 := apply Z.bits_inj'; intros ? ?; bits_step.

Lemma u16_idem x : u16 (u16 x) = u16 x.
Proof. apply u16_id, u16_range. Qed.
Lemma u16_add x y : u16 (x + y) = u16 (u16 x + u16 y).
Proof. apply Zplus_mod. Qed.
Lemma u16_sub x y : u16 (x - y) = u16 (u16 x - u16 y).
Proof. apply Zminus_mod. Qed.
Lemma u16_sub_l x y : u16 (u16 x - y) = u16 (x - y).
Proof. apply Zminus_mod_idemp_l. Qed.
Lemma u16_sub_r x y : u16 (x - u16 y) = u16 (x - y).
Proof. apply Zminus_mod_idemp_r. Qed.
Lemma u16_land x y : u16 (Z.land x y) = Z.land (u16 x) (u16 y).
Proof. bits16. by destruct (_ <? _), (Z.testbit x _), (Z.testbit y _). Qed.
Lemma u16_lxor_ffff x : u16 (Z.lxor x 0xffff) = u16 (Z.lnot (u16 x)).
Proof.
  change 0xffff with (Z.ones 16). bits16. bit_cases; simpl.
  by destruct (Z.testbit x _).
Qed.
Lemma u16_int32 x : u16 (int32 x) = u16 x.
Proof.
  unfold u16, int32. rewrite Zminus_mod.
  rewrite Z.mod_mod_divide by (by exists (2 ^ 16)).
  rewrite <- Zminus_mod. f_equal. lia.
Qed.

Lemma rol16_bits x s i : is_u16 x -> 0 < s < 16 -> 0 <= i ->
  Z.testbit (rol16 x s) i =
  (i <? 16) && (if i <? s then Z.testbit x (i + (16 - s)) else Z.testbit x (i - s)).
Proof.
  intros Hx Hs Hi. unfold rol16. rewrite <- (u16_id x Hx) at 2. bits_step.
  bit_cases; simpl; rewrite ?(u16_bits x) by lia; bit_cases; simpl;
    rewrite ?orb_false_r; try done.
  - by rewrite (Z.testbit_neg_r x (i - s)) by lia.
Qed.

Lemma rol16_range x s : is_u16 x -> 0 < s < 16 -> is_u16 (rol16 x s).
Proof.
  intros Hx Hs. assert (rol16 x s = u16 (rol16 x s)) as ->; [|apply u16_range].
  apply Z.bits_inj'. intros i Hi. rewrite u16_bits by lia.
  rewrite rol16_bits by done. by destruct (i <? 16).
Qed.

(** A rotation by [s] undone by one by [16 - s]. *)
Lemma rol16_rol16 x s : is_u16 x -> 0 < s < 16 -> rol16 (rol16 x s) (16 - s) = x.
Proof.
  intros Hx Hs. apply Z.bits_inj'. intros i Hi.
  rewrite rol16_bits by (done || lia || by apply rol16_range).
  rewrite <- (u16_id x Hx), (u16_bits x i) by lia. rewrite (u16_id x Hx).
  bit_cases; simpl; try done; rewrite rol16_bits by (done || lia); bit_cases; simpl; f_equal; lia.
Qed.

(** The shifts of an [int] register, seen on its low 16 bits. *)
Lemma rotate_int x s : 0 < s < 16 ->
  u16 (Z.lor (int32 (Z.shiftl x s)) (Z.land (Z.shiftr x (16 - s)) (Z.ones s))) = rol16 (u16 x) s.
Proof.
  intros Hs.
  assert (forall y z, u16 (Z.lor y z) = Z.lor (u16 y) (u16 z)) as Hlor.
  { intros y z. bits16. by destruct (_ <? _). }
  rewrite Hlor, u16_int32. unfold rol16. f_equal.
  - bits16. destruct (n - s <? 0) eqn:E.
    + rewrite !Z.testbit_neg_r by lia. done.
    + rewrite u16_bits by lia. bit_cases; done.
  - bits16. bit_cases; simpl; rewrite ?andb_true_r, ?andb_false_r; done.
Qed.

(** ** The block cipher against the RFC *)

(** What the RFC's words are in the registers: their low 16 bits. *)
Definition words_of (s : regs) : list Z :=
  let '(a, b, c, d) := s in [u16 d; u16 c; u16 b; u16 a].

(** Inner conversions do not change the low 16 bits of a sum: every [int32]
    and [u16] is its argument and a multiple of [2 ^ 16]. *)
Lemma int32_mod x : exists k, int32 x = x + k * 2 ^ 16.
Proof.
  unfold int32. exists (- ((x + 2 ^ 31) / 2 ^ 32) * 2 ^ 16).
  rewrite Z.mod_eq by lia. lia.
Qed.
Lemma u16_mod x : exists k, u16 x = x + k * 2 ^ 16.
Proof. unfold u16. exists (- (x / 2 ^ 16)). rewrite Z.mod_eq by lia. lia. Qed.
Lemma u16_eq x y k : x = y + k * 2 ^ 16 -> u16 x = u16 y.
Proof. intros ->. by apply Z.mod_add. Qed.

Ltac open_mod :=
  repeat match goal with
  | |- context [int32 ?x] =>
      let k := fresh "k" in destruct (int32_mod x) as [k ->]
  end.

Lemma step_sum x p q r k :
  u16 (x + int32 (int32 (Z.land p (Z.lxor q 0xffff) + Z.land r q) + k)) =
  u16 (u16 x + k + Z.land (u16 q) (u16 r) + Z.land (u16 (Z.lnot (u16 q))) (u16 p)).
Proof.
  rewrite <- u16_lxor_ffff, <- !u16_land, (Z.land_comm p), (Z.land_comm r). open_mod.
  destruct (u16_mod x) as [k2 ->], (u16_mod (Z.land q r)) as [k3 ->],
    (u16_mod (Z.land (Z.lxor q 0xffff) p)) as [k4 ->].
  apply (u16_eq _ _ (k0 + k1 - k2 - k3 - k4)). lia.
Qed.

Lemma enc_step_spec s mask x p q r k :
  0 < s < 16 -> mask = Z.ones s ->
  u16 (enc_step s mask x p q r k) =
  rol16 (u16 (u16 x + k + Z.land (u16 q) (u16 r) + Z.land (u16 (Z.lnot (u16 q))) (u16 p))) s.
Proof.
  intros Hs ->. unfold enc_step. rewrite rotate_int by done.
  by rewrite u16_int32, step_sum.
Qed.

Lemma dec_step_spec s mask x p q r k :
  0 < s < 16 -> mask = Z.ones s ->
  u16 (dec_step s mask x p q r k) =
  u16 (rol16 (u16 x) s
       - (k + Z.land (u16 q) (u16 r) + Z.land (u16 (Z.lnot (u16 q))) (u16 p))).
Proof.
  intros Hs ->. unfold dec_step. rewrite u16_int32, u16_sub, rotate_int by done.
  pose proof (step_sum 0 p q r k) as H. rewrite !Z.add_0_l in H. by rewrite H, u16_sub_r.
Qed.

Lemma rfc_mixing_eq K a b c d j :
  rfc_mixing K ([d; c; b; a], j) =
  (let d := rol16 (u16 (d + at_ K j + Z.land a b + Z.land (u16 (Z.lnot a)) c)) 1 in
   let c := rol16 (u16 (c + at_ K (j + 1) + Z.land d a + Z.land (u16 (Z.lnot d)) b)) 2 in
   let b := rol16 (u16 (b + at_ K (j + 1 + 1) + Z.land c d + Z.land (u16 (Z.lnot c)) a)) 3 in
   let a := rol16 (u16 (a + at_ K (j + 1 + 1 + 1) + Z.land b c + Z.land (u16 (Z.lnot b)) d)) 5 in
   ([d; c; b; a], j + 1 + 1 + 1 + 1)).
Proof. reflexivity. Qed.

Lemma enc_mix_rfc K i s :
  rfc_mixing K (words_of s, 4 * i) = (words_of (enc_mix K i s), 4 * (i + 1)).
Proof.
  destruct s as [[[a b] c] d]. unfold words_of, enc_mix. rewrite rfc_mixing_eq. cbv zeta.
  rewrite !enc_step_spec by (done || lia).
  replace (4 * i) with (i * 4) by lia.
  f_equal; [|lia]. rewrite <- !Z.add_assoc. done.
Qed.

Lemma rfc_mashing_eq K a b c d j :
  rfc_mashing K ([d; c; b; a], j) =
  (let d := u16 (d + at_ K (Z.land a 63)) in
   let c := u16 (c + at_ K (Z.land d 63)) in
   let b := u16 (b + at_ K (Z.land c 63)) in
   let a := u16 (a + at_ K (Z.land b 63)) in
   ([d; c; b; a], j)).
Proof. reflexivity. Qed.

Lemma land_63_u16 x : Z.land (u16 x) 63 = Z.land x 63.
Proof. 
  change 63 with (Z.ones 6). bits16. bit_cases; by rewrite ?andb_false_r.
Qed.

Lemma mash_sum K x y :
  u16 (int32 (x + at_ K (Z.land y 63))) = u16 (u16 x + at_ K (Z.land (u16 y) 63)).
Proof. rewrite u16_int32, land_63_u16. symmetry. apply Zplus_mod_idemp_l. Qed.

Lemma enc_mash_rfc K j s :
  rfc_mashing K (words_of s, j) = (words_of (enc_mash K s), j).
Proof.
  destruct s as [[[a b] c] d]. unfold words_of, enc_mash. rewrite rfc_mashing_eq. cbv zeta.
  by rewrite !mash_sum.
Qed.

(** [n] rounds from round [i]. *)
Lemma enc_rounds_rfc K i n s :
  (forall k, (k < n)%nat -> i + Z.of_nat k <> 4 /\ i + Z.of_nat k <> 10) ->
  Nat.iter n (rfc_mixing K) (words_of s, 4 * i) =
  (words_of (foldl (fun s i => enc_round K i s) s (seqZ i (Z.of_nat n))),
   4 * (i + Z.of_nat n)).
Proof.
  revert i s. induction n as [|n IH]; intros i s Hk.
  - cbn [Nat.iter nat_rect]. by rewrite Z.add_0_r.
  - rewrite Nat.iter_succ_r, enc_mix_rfc, seqZ_cons by lia. cbn [foldl].
    unfold enc_round at 2. destruct (Hk 0%nat) as [??]; [lia|].
    destruct (Z.eqb_spec i 4); [lia|]. destruct (Z.eqb_spec i 10); [lia|]. cbn [orb].
    replace (Z.pred (Z.of_nat (S n))) with (Z.of_nat n) by lia.
    replace (i + Z.of_nat (S n)) with (Z.succ i + Z.of_nat n) by lia.
    apply IH. intros k Hlt. specialize (Hk (S k)). lia.
Qed.

Lemma enc_mashed_rfc K i s :
  i = 4 \/ i = 10 ->
  rfc_mashing K (rfc_mixing K (words_of s, 4 * i)) =
  (words_of (enc_round K i s), 4 * (i + 1)).
Proof. intros [-> | ->]; by rewrite enc_mix_rfc, enc_mash_rfc. Qed.

Lemma enc_rfc K s :
  rfc_cipher K (words_of s) =
  words_of (foldl (fun s i => enc_round K i s) s rounds).
Proof.
  unfold rfc_cipher. cbv zeta. change (words_of s, 0) with (words_of s, 4 * 0).
  rewrite (Nat.iter_succ 4 _ _ (words_of s, 4 * 0)), (Nat.iter_succ 5).
  rewrite (enc_rounds_rfc K 0 4), (enc_mashed_rfc K 4) by lia.
  rewrite (enc_rounds_rfc K 5 5), (enc_mashed_rfc K 10) by lia.
  by rewrite (enc_rounds_rfc K 11 5) by lia.
Qed.

(** ** Decryption undoes encryption *)

Lemma step_inverse s x x' p p' q q' r r' k :
  0 < s < 16 ->
  u16 x' = u16 (enc_step s (Z.ones s) x p q r k) ->
  u16 p' = u16 p -> u16 q' = u16 q -> u16 r' = u16 r ->
  u16 (dec_step (16 - s) (Z.ones (16 - s)) x' p' q' r' k) = u16 x.
Proof.
  intros Hs Hx Hp Hq Hr. rewrite dec_step_spec, Hx, enc_step_spec, Hp, Hq, Hr by (done || lia).
  rewrite rol16_rol16 by (done || apply u16_range).
  rewrite u16_sub_l. etrans; [|apply u16_idem]. f_equal. lia.
Qed.

Lemma list4_eq (a b c d a' b' c' d' : Z) :
  d = d' -> c = c' -> b = b' -> a = a' -> [d; c; b; a] = [d'; c'; b'; a'].
Proof. congruence. Qed.

Lemma dec_mix_enc K i s s' :
  words_of s' = words_of (enc_mix K i s) -> words_of (dec_mix K i s') = words_of s.
Proof.
  destruct s as [[[a b] c] d], s' as [[[a' b'] c'] d']. unfold words_of, enc_mix, dec_mix.
  intros [= Hd Hc Hb Ha].
  replace (i * 4 + 3 - 1) with (i * 4 + 2) by lia.
  replace (i * 4 + 3 - 2) with (i * 4 + 1) by lia.
  replace (i * 4 + 3 - 3) with (i * 4) by lia.
  pose proof (step_inverse 5 _ _ _ _ _ _ _ _ _ ltac:(lia) Ha Hd Hb Hc) as Ha'.
  pose proof (step_inverse 3 _ _ _ _ _ _ _ _ _ ltac:(lia) Hb Ha' Hc Hd) as Hb'.
  pose proof (step_inverse 2 _ _ _ _ _ _ _ _ _ ltac:(lia) Hc Hb' Hd Ha') as Hc'.
  pose proof (step_inverse 1 _ _ _ _ _ _ _ _ _ ltac:(lia) Hd Hc' Ha' Hb') as Hd'.
  apply list4_eq; [exact Hd' | exact Hc' | exact Hb' | exact Ha'].
Qed.

Lemma mash_inverse K x x' y y' :
  u16 x' = u16 (int32 (x + at_ K (Z.land y 63))) -> u16 y' = u16 y ->
  u16 (int32 (x' - at_ K (Z.land y' 63))) = u16 x.
Proof.
  rewrite !u16_int32. intros Hx Hy.
  rewrite <- (land_63_u16 y'), Hy, land_63_u16, u16_sub, Hx, <- u16_sub. f_equal. lia.
Qed.

Lemma dec_mash_enc K s s' :
  words_of s' = words_of (enc_mash K s) -> words_of (dec_mash K s') = words_of s.
Proof.
  destruct s as [[[a b] c] d], s' as [[[a' b'] c'] d']. unfold words_of, enc_mash, dec_mash.
  intros [= Hd Hc Hb Ha].
  pose proof (mash_inverse _ _ _ _ _ Ha Hb) as Ha'.
  pose proof (mash_inverse _ _ _ _ _ Hb Hc) as Hb'.
  pose proof (mash_inverse _ _ _ _ _ Hc Hd) as Hc'.
  pose proof (mash_inverse _ _ _ _ _ Hd Ha') as Hd'.
  apply list4_eq; [exact Hd' | exact Hc' | exact Hb' | exact Ha'].
Qed.

Lemma dec_rounds_enc K s s' :
  words_of s' = words_of (foldl (fun s i => enc_round K i s) s rounds) ->
  words_of (foldl (fun s i => dec_round K i s) s' (reverse rounds)) = words_of s.
Proof.
  intros H. unfold rounds. cbn [reverse rev_append foldl].
  unfold dec_round. cbn [Z.eqb Pos.eqb orb].
  repeat (apply dec_mix_enc || apply dec_mash_enc). exact H.
Qed.

(** ** Blocks of bytes *)

Definition is_block (l : list Z) : Prop := length l = 8%nat /\ Forall is_u8 l.

Lemma load_word x0 x1 : is_u8 x0 -> is_u8 x1 ->
  u16 (Z.lor (Z.shiftl x1 8) (Z.land x0 0xff)) = x0 + 256 * x1.
Proof.
  intros H0 H1. unfold is_u8 in *.
  rewrite land_ff, lor_shiftl_add by (try apply Z.mod_pos_bound; lia).
  rewrite Z.mod_small, u16_id by (unfold is_u16; lia). lia.
Qed.

Lemma load_regs_words l : is_block l -> words_of (load_regs l) = rfc_words l.
Proof.
  intros [Hl Hb]. do 9 (destruct l as [|? l]; try done). clear Hl.
  do 8 (apply Forall_cons_1 in Hb as [? Hb]). by apply list4_eq; apply load_word.
Qed.

Lemma store_regs_words s : store_regs s = rfc_bytes (words_of s).
Proof.
  destruct s as [[[a b] c] d]. unfold store_regs, words_of. cbn [rfc_bytes].
  assert (forall x, Z.land x 0xff = u16 x mod 256) as Hl.
  { intros x. rewrite land_ff. symmetry. apply Z.mod_mod_divide. by exists 256. }
  assert (forall x, Z.land (Z.shiftr x 8) 0xff = u16 x / 256) as Hh.
  { intros x. change 256 with (2 ^ 8). rewrite <- Z.shiftr_div_pow2 by lia.
    change 0xff with (Z.ones 8). bits16. bit_cases; by rewrite ?andb_false_r, ?andb_true_r. }
  by rewrite !Hh, !Hl.
Qed.

Lemma store_regs_block s : is_block (store_regs s).
Proof.
  destruct s as [[[a b] c] d]. split; [done|]. unfold store_regs. rewrite !land_ff.
  repeat constructor; apply Z.mod_pos_bound; lia.
Qed.

Lemma rfc_words_store s : rfc_words (store_regs s) = words_of s.
Proof.
  rewrite store_regs_words. destruct s as [[[a b] c] d]. unfold words_of.
  cbn [rfc_bytes rfc_words]. pose proof (fun x => Z.div_mod (u16 x) 256) as H.
  repeat f_equal; rewrite Z.add_comm; symmetry; apply H; lia.
Qed.

Lemma word_low x0 x1 : is_u8 x0 -> (x0 + 256 * x1) mod 256 = x0.
Proof. intros H. rewrite Z.mul_comm, Z.mod_add by lia. by apply Z.mod_small. Qed.
Lemma word_high x0 x1 : is_u8 x0 -> (x0 + 256 * x1) / 256 = x1.
Proof. intros H. rewrite Z.mul_comm, Z.div_add by lia. rewrite Z.div_small; [lia|done]. Qed.

Lemma rfc_bytes_words l : is_block l -> rfc_bytes (rfc_words l) = l.
Proof.
  intros [Hl Hb]. do 9 (destruct l as [|? l]; try done). clear Hl.
  do 8 (apply Forall_cons_1 in Hb as [? Hb]). cbn [rfc_words rfc_bytes].
  by rewrite !word_low, !word_high by done.
Qed.

(** ** Chaining *)

(** A block of ciphertext is the RFC's cipher of the block of plaintext and
    the previous block of ciphertext. *)
Definition rfc_block (K l : list Z) : list Z := rfc_bytes (rfc_cipher K (rfc_words l)).
Fixpoint cbc (E : list Z -> list Z) (iv : list Z) (l : list (list Z)) : list (list Z) :=
  match l with
  | [] => []
  | p :: l => let c := E (xor_block p iv) in c :: cbc E c l
  end.
(** The last block of ciphertext. *)
Definition cbc_iv (iv : list Z) (l : list (list Z)) : list Z := foldl (fun _ c => c) iv l.

(** PKCS 5 padding: 1 to 8 bytes that hold their number. *)
Definition pkcs5 (l : list Z) : list Z :=
  let n := 8 - zlen l mod 8 in l ++ replicate (Z.to_nat n) n.

Lemma encrypt_block_rfc K l : is_block l -> mwEncryptBlock K l = rfc_block K l.
Proof.
  intros H. unfold mwEncryptBlock, rfc_block.
  by rewrite store_regs_words, <- enc_rfc, load_regs_words.
Qed.

Lemma encrypt_block_is_block K l : is_block (mwEncryptBlock K l).
Proof. apply store_regs_block. Qed.
Lemma decrypt_block_is_block K l : is_block (mwDecryptBlock K l).
Proof. apply store_regs_block. Qed.

Lemma decrypt_encrypt_block K l : is_block l -> mwDecryptBlock K (mwEncryptBlock K l) = l.
Proof.
  intros H. unfold mwDecryptBlock, mwEncryptBlock. rewrite store_regs_words.
  rewrite (dec_rounds_enc K (load_regs l)), load_regs_words, rfc_bytes_words; try done.
  set (s := foldl _ _ _). rewrite load_regs_words by apply store_regs_block.
  apply rfc_words_store.
Qed.

Lemma is_u8_lxor x y : is_u8 x -> is_u8 y -> is_u8 (Z.lxor x y).
Proof.
  intros Hx Hy. assert (Z.lxor x y = u8 (Z.lxor x y)) as ->; [|apply u8_range].
  unfold is_u8, u8 in *. apply Z.bits_inj'. intros i Hi.
  destruct (Z.ltb_spec i 8).
  - by rewrite Z.mod_pow2_bits_low by lia.
  - rewrite Z.mod_pow2_bits_high, Z.lxor_spec by lia.
    by rewrite <- (Z.mod_small x (2 ^ 8)), <- (Z.mod_small y (2 ^ 8)),
      !Z.mod_pow2_bits_high by lia.
Qed.

Lemma xor_block_is_block l iv : is_block l -> is_block iv -> is_block (xor_block l iv).
Proof.
  intros [Hl Hb] [Hl' Hb']. split; unfold xor_block.
  - rewrite length_zip_with. lia.
  - apply Forall_lookup_2. intros i z Hz. apply lookup_zip_with_Some in Hz as (x & y & -> & Hx & Hy).
    apply is_u8_lxor; [by eapply Forall_lookup_1 in Hx|by eapply Forall_lookup_1 in Hy].
Qed.

Lemma xor_block_twice l iv : is_block l -> is_block iv -> xor_block (xor_block l iv) iv = l.
Proof.
  intros [Hl _] [Hl' _]. unfold xor_block. revert iv Hl'. rewrite <- Hl. clear Hl.
  induction l as [|x l IH]; intros [|y iv]; cbn; try done. intros [= H].
  rewrite (IH iv H). by rewrite Z.lxor_assoc, Z.lxor_nilpotent, Z.lxor_0_r.
Qed.

#[local] Opaque mwEncryptBlock mwDecryptBlock rfc_block.

(** The blocks a loop of the code goes through. *)
Lemma take_block (b : list Z) l : is_block b -> take 8 (b ++ l) = b.
Proof. intros [H _]. by rewrite take_app_length'. Qed.
Lemma drop_block (b : list Z) l : is_block b -> drop 8 (b ++ l) = l.
Proof. intros [H _]. by rewrite drop_app_length'. Qed.
Lemma block_zlen (b : list Z) : is_block b -> zlen b = 8.
Proof. intros [H _]. unfold zlen. lia. Qed.

Lemma enc_blocks_cbc K iv l fuel :
  Forall is_block l -> is_block iv -> (length l < fuel)%nat ->
  enc_blocks fuel K iv (concat l) =
  Some (concat (cbc (rfc_block K) iv l), cbc_iv iv (cbc (rfc_block K) iv l)).
Proof.
  revert iv l. induction fuel as [|fuel IH]; intros iv l Hl Hiv Hf; [lia|].
  destruct l as [|b l]; [done|]. apply Forall_cons_1 in Hl as [Hb Hl].
  assert (is_block (xor_block b iv)) as Hx by by apply xor_block_is_block.
  cbn [concat enc_blocks cbc length] in *. rewrite zlen_app, (block_zlen b) by done.
  pose proof (zlen_nonneg (concat l)).
  destruct (Z.leb_spec (8 + zlen (concat l)) 0); [lia|].
  destruct (Z.ltb_spec (8 + zlen (concat l)) 8); [lia|].
  rewrite take_block, drop_block, <- (encrypt_block_rfc K) by done.
  rewrite IH by (done || lia || apply encrypt_block_is_block). cbn [mbind option_bind fst snd].
  by rewrite (encrypt_block_rfc K) by done.
Qed.

(** The blocks of a message whose length is a multiple of 8. *)
Lemma split_blocks l n : zlen l = 8 * Z.of_nat n -> Forall is_u8 l ->
  exists bs, l = concat bs /\ Forall is_block bs /\ length bs = n.
Proof.
  revert l. induction n as [|n IH]; intros l Hl Hb.
  - exists []. split_and!; [|by constructor|done]. apply zlen_0_nil. lia.
  - destruct (IH (drop 8 l)) as (bs & E & Hbs & Hn).
    + rewrite zlen_drop. lia.
    + by apply Forall_drop.
    + exists (take 8 l :: bs). cbn [concat length]. rewrite <- E, take_drop.
      split_and!; [done| |lia]. constructor; [|done].
      split; [|by apply Forall_take]. rewrite length_take. unfold zlen in Hl. lia.
Qed.

Lemma dec_blocks_cbc K iv l fuel :
  Forall is_block l -> is_block iv -> (length l < fuel)%nat ->
  let c := cbc (rfc_block K) iv l in
  dec_blocks fuel K iv (concat c) = Some (concat l, cbc_iv iv c).
Proof.
  cbv zeta. revert iv l. induction fuel as [|fuel IH]; intros iv l Hl Hiv Hf; [lia|].
  destruct l as [|b l]; [done|]. apply Forall_cons_1 in Hl as [Hb Hl].
  assert (is_block (xor_block b iv)) as Hx by by apply xor_block_is_block.
  pose proof (encrypt_block_is_block K (xor_block b iv)) as He.
  cbn [concat dec_blocks cbc length] in *. rewrite <- (encrypt_block_rfc K) by done.
  set (c := mwEncryptBlock K (xor_block b iv)) in *. set (cs := cbc _ c l).
  rewrite zlen_app, (block_zlen c) by done.
  pose proof (zlen_nonneg (concat cs)).
  destruct (Z.leb_spec (8 + zlen (concat cs)) 0); [lia|].
  destruct (Z.ltb_spec (8 + zlen (concat cs)) 8); [lia|].
  rewrite take_block, drop_block by done. unfold cs.
  rewrite IH by (done || lia). cbn [mbind option_bind fst snd].
  unfold c at 1. rewrite decrypt_encrypt_block, xor_block_twice by done. done.
Qed.

Lemma pkcs5_blocks l : Forall is_u8 l ->
  exists bs, pkcs5 l = concat bs /\ Forall is_block bs /\ bs <> []
    /\ zlen (pkcs5 l) = 8 * (zlen l / 8) + 8.
Proof.
  intros Hb. pose proof (Z.mod_pos_bound (zlen l) 8). pose proof (Z.div_mod (zlen l) 8).
  pose proof (zlen_nonneg l).
  assert (zlen (pkcs5 l) = 8 * (zlen l / 8) + 8) as Hl by (unfold pkcs5; zlen_lia).
  pose proof (Z.div_pos (zlen l) 8).
  destruct (split_blocks (pkcs5 l) (S (Z.to_nat (zlen l / 8)))) as (bs & E & Hbs & Hn).
  - lia.
  - unfold pkcs5. apply Forall_app_2; [done|]. apply Forall_replicate. unfold is_u8. lia.
  - exists bs. split_and!; try done. by destruct bs.
Qed.

Lemma cbc_blocks E iv l : (forall b, is_block (E b)) -> Forall is_block (cbc E iv l).
Proof.
  intros HE. revert iv. induction l as [|b l IH]; intros iv; cbn [cbc]; constructor; eauto.
Qed.

Lemma concat_blocks_zlen bs : Forall is_block bs -> zlen (concat bs) = 8 * zlen bs.
Proof.
  induction 1 as [|b bs Hb _ IH]; [done|]. cbn [concat].
  rewrite zlen_app, zlen_cons, IH, (block_zlen b Hb). lia.
Qed.

Lemma cbc_length E iv l : length (cbc E iv l) = length l.
Proof. revert iv. induction l as [|b l IH]; intros iv; cbn; auto. Qed.

Lemma rfc_block_is_block K l : is_block l -> is_block (rfc_block K l).
Proof. intros H. rewrite <- encrypt_block_rfc by done. apply encrypt_block_is_block. Qed.

Lemma cbc_rfc_blocks K iv l : is_block iv -> Forall is_block l ->
  Forall is_block (cbc (rfc_block K) iv l).
Proof.
  intros Hiv H. revert iv Hiv. induction H as [|b l Hb _ IH]; intros iv Hiv; cbn [cbc]; constructor.
  - by apply rfc_block_is_block, xor_block_is_block.
  - by apply IH, rfc_block_is_block, xor_block_is_block.
Qed.

Lemma encrypt_expanded_cbc K iv o bs :
  opaque_ok o -> Forall is_u8 (opaque_data o) -> is_block iv -> len o + 8 <= int_max ->
  pkcs5 (opaque_data o) = concat bs -> Forall is_block bs ->
  let c := cbc (rfc_block K) iv bs in
  mwEncryptExpanded K iv o =
  Some ({| len := zlen (concat c); data := Some (concat c) |}, cbc_iv iv c).
Proof.
  intros Ho Hb Hiv Hlen Hp Hbs. cbv zeta.
  pose proof (opaque_ok_len o Ho) as Hl. pose proof (opaque_ok_data o Ho) as Hd.
  pose proof (Z.mod_pos_bound (len o) 8).
  unfold mwEncryptExpanded. cbv zeta.
  destruct (Z.ltb_spec int_max (len o + (8 - len o mod 8))); [lia|].
  rewrite Hd. cbn [mbind option_bind].
  replace (len o + (8 - len o mod 8) - len o) with (8 - len o mod 8) by lia.
  assert (opaque_data o ++ replicate (Z.to_nat (8 - len o mod 8)) (8 - len o mod 8) = concat bs)
    as -> by (rewrite <- Hp; unfold pkcs5; by rewrite Hl).
  pose proof (concat_blocks_zlen bs Hbs) as Hc.
  rewrite enc_blocks_cbc by (try done; unfold zlen in Hc; lia). cbn [mbind option_bind fst snd].
  do 3 f_equal. rewrite concat_blocks_zlen by by apply cbc_rfc_blocks.
  unfold zlen. rewrite cbc_length. fold (zlen bs). rewrite <- Hc, <- Hp. unfold pkcs5.
  rewrite zlen_app, zlen_replicate, Hl. lia.
Qed.

Lemma reverse_last_app (l : list Z) n x : (0 < n)%nat ->
  exists r, reverse (l ++ replicate n x) = x :: r.
Proof.
  intros Hn. destruct n as [|n]; [lia|]. rewrite replicate_S_end, app_assoc, reverse_snoc. by eexists.
Qed.

(** An opaque over the first bytes of a block. *)
Lemma prefix_opaque l1 l2 :
  let o := {| len := zlen l1; data := Some (l1 ++ l2) |} in
  opaque_ok o /\ opaque_data o = l1.
Proof.
  cbv zeta. pose proof (zlen_nonneg l1).
  assert (opaque_bytes {| len := zlen l1; data := Some (l1 ++ l2) |} = Some l1) as H0.
  { unfold opaque_bytes. cbn [len data]. destruct (Z.eqb_spec (zlen l1) 0) as [E|_].
    - by apply zlen_0_nil in E as ->.
    - apply mem_read_prefix. }
  unfold opaque_ok, opaque_data. rewrite H0. cbn [len]. eauto.
Qed.

Lemma block_opaque l :
  let o := {| len := zlen l; data := Some l |} in opaque_ok o /\ opaque_data o = l.
Proof. pose proof (prefix_opaque l []) as H. by rewrite app_nil_r in H. Qed.

(** C27: encryption in the library is RC2 (RFC 2268) in CBC mode with PKCS 5
    padding, and the initialisation vector left behind is the last block of
    the ciphertext. *)
Theorem mwEncryptExpanded_rfc2268 K iv o :
  opaque_ok o -> Forall is_u8 (opaque_data o) -> is_block iv -> len o + 8 <= int_max ->
  exists bs out,
    pkcs5 (opaque_data o) = concat bs /\ Forall is_block bs
    /\ mwEncryptExpanded K iv o = Some (out, cbc_iv iv (cbc (rfc_block K) iv bs))
    /\ opaque_ok out /\ opaque_data out = concat (cbc (rfc_block K) iv bs).
Proof.
  intros Ho Hb Hiv Hlen.
  destruct (pkcs5_blocks (opaque_data o) Hb) as (bs & Hp & Hbs & _).
  exists bs. eexists. split_and!; [done|done|by apply encrypt_expanded_cbc| |];
    apply block_opaque.
Qed.

Lemma cbc_iv_block iv l : is_block iv -> Forall is_block l -> is_block (cbc_iv iv l).
Proof. intros Hiv H. revert iv Hiv. by induction H; cbn; eauto. Qed.

Lemma pkcs5_last l : exists r, reverse (pkcs5 l) = (8 - zlen l mod 8) :: r.
Proof.
  pose proof (Z.mod_pos_bound (zlen l) 8). apply reverse_last_app. lia.
Qed.

Lemma decrypt_encrypt_expanded K iv o :
  opaque_ok o -> Forall is_u8 (opaque_data o) -> is_block iv -> len o + 8 <= int_max ->
  exists out iv' back,
    mwEncryptExpanded K iv o = Some (out, iv')
    /\ mwDecryptExpanded K iv out = Some (back, iv')
    /\ is_block iv' /\ opaque_ok back /\ opaque_data back = opaque_data o.
Proof.
  intros Ho Hb Hiv Hlen. pose proof (opaque_ok_len o Ho) as Hl.
  destruct (pkcs5_blocks (opaque_data o) Hb) as (bs & Hp & Hbs & _ & Hpl).
  pose proof (cbc_rfc_blocks K iv bs Hiv Hbs) as Hc.
  set (c := cbc (rfc_block K) iv bs) in *.
  assert (zlen (concat c) = zlen (pkcs5 (opaque_data o))) as Hz.
  { rewrite Hp, !concat_blocks_zlen by done. unfold zlen, c. by rewrite cbc_length. }
  exists {| len := zlen (concat c); data := Some (concat c) |}, (cbc_iv iv c),
    {| len := len o; data := Some (pkcs5 (opaque_data o)) |}.
  split_and!.
  - by apply encrypt_expanded_cbc.
  - destruct (block_opaque (concat c)) as [Hok Hd]. pose proof (opaque_ok_data _ Hok) as Hd'.
    unfold mwDecryptExpanded. rewrite Hd'. rewrite Hd. cbn [len mbind option_bind].
    pose proof (Z.mod_pos_bound (zlen (opaque_data o)) 8). pose proof (zlen_nonneg (opaque_data o)).
    pose proof (Z.div_mod (zlen (opaque_data o)) 8).
    destruct (Z.ltb_spec int_max (zlen (concat c))); [lia|].
    pose proof (dec_blocks_cbc K iv bs (S (length (concat c))) Hbs Hiv) as Hdec.
    cbv zeta in Hdec. fold c in Hdec. rewrite Hdec.
    2:{ pose proof (concat_blocks_zlen bs Hbs) as Hbz. rewrite <- Hp, <- Hz in Hbz.
        unfold zlen in Hbz. lia. }
    cbn [mbind option_bind fst snd]. rewrite <- Hp.
    destruct (pkcs5_last (opaque_data o)) as [r ->]. do 3 f_equal.
    rewrite gsize_id; unfold int_max in *; lia.
  - by apply cbc_iv_block.
  - rewrite <- Hl. apply prefix_opaque.
  - rewrite <- Hl. apply prefix_opaque.
Qed.

(** C28: what one side encrypts the other decrypts, and both are left with
    the same initialisation vector. *)
Theorem mwDecryptExpanded_mwEncryptExpanded K iv o :
  opaque_ok o -> Forall is_u8 (opaque_data o) -> is_block iv -> len o + 8 <= int_max ->
  exists out iv' back,
    mwEncryptExpanded K iv o = Some (out, iv')
    /\ mwDecryptExpanded K iv out = Some (back, iv')
    /\ is_block iv' /\ opaque_ok back /\ opaque_data back = opaque_data o.
Proof. apply decrypt_encrypt_expanded. Qed.

(** ** Key expansion *)

Lemma zlen_succ {A} (l : list A) x : zlen (l ++ [x]) = zlen l + 1.
Proof. zlen_lia. Qed.

Lemma expand_loop_fill fuel T tmp :
  0 < T -> T <= zlen tmp <= 128 -> 128 - zlen tmp < Z.of_nat fuel ->
  expand_loop fuel (zlen tmp - T) tmp = rfc_fill (Z.to_nat (128 - zlen tmp)) T tmp.
Proof.
  revert tmp. induction fuel as [|fuel IH]; intros tmp HT Ht Hf; [lia|].
  cbn [expand_loop]. destruct (Z.ltb_spec (zlen tmp) 128).
  - replace (Z.to_nat (128 - zlen tmp)) with (S (Z.to_nat (128 - (zlen tmp + 1)))) by lia.
    cbn [rfc_fill]. rewrite land_ff. change (2 ^ 8) with 256. set (x := at_ PT _).
    rewrite <- (zlen_succ tmp x). replace (zlen tmp - T + 1) with (zlen (tmp ++ [x]) - T)
      by (rewrite zlen_succ; lia).
    apply IH; rewrite ?zlen_succ; lia.
  - by replace (Z.to_nat (128 - zlen tmp)) with 0%nat by lia.
Qed.

Lemma rfc_fill_zlen n T L : zlen (rfc_fill n T L) = zlen L + Z.of_nat n.
Proof. revert L. induction n as [|n IH]; intros L; cbn [rfc_fill]; [lia|]. rewrite IH. zlen_lia. Qed.

Lemma Forall_at_ l i : Forall is_u8 l -> is_u8 (at_ l i).
Proof.
  intros H. unfold at_. destruct (nth_in_or_default (Z.to_nat i) l 0) as [Hi| ->]; [|done].
  rewrite List.Forall_forall in H. auto.
Qed.

Lemma PT_u8 : Forall is_u8 PT.
Proof. by apply (bool_decide_unpack _). Qed.

Lemma rfc_fill_u8 n T L : Forall is_u8 L -> Forall is_u8 (rfc_fill n T L).
Proof.
  revert L. induction n as [|n IH]; intros L HL; cbn [rfc_fill]; [done|].
  apply IH, Forall_app_2; [done|]. constructor; [|done]. apply Forall_at_, PT_u8.
Qed.

Lemma key_words_rfc l : Forall is_u8 l -> key_words l = rfc_words l.
Proof.
  revert l. fix IH 1. intros [|x0 [|x1 l]] H; [done|done|].
  apply Forall_cons_1 in H as [H0 H]. apply Forall_cons_1 in H as [H1 H].
  cbn [key_words rfc_words]. f_equal; [|by apply IH]. unfold is_u8 in *.
  rewrite Z.lor_comm, land_ff, lor_shiftl_add by (try apply Z.mod_pos_bound; lia).
  rewrite Z.mod_small; lia.
Qed.

(** C29: the key expansion of the library is the one of RFC 2268 with 1024
    effective bits, on the first 128 bytes of a longer key. *)
Theorem mwKeyExpand_rfc2268 stack key keylen :
  0 < keylen <= zlen key -> Forall is_u8 key ->
  mwKeyExpand stack (Some key) keylen =
  Some (rfc_expand 1024 (take (Z.to_nat (Z.min keylen 128)) key)).
Proof.
  intros Hk Hb. unfold mwKeyExpand. destruct (Z.ltb_spec 0 keylen); [|lia]. cbn [negb].
  replace (if 128 <? keylen then 128 else keylen) with (Z.min keylen 128)
    by (destruct (Z.ltb_spec 128 keylen); lia).
  set (k := Z.min keylen 128). unfold mem_read. rewrite decide_True by lia.
  change (Z.to_nat 0) with 0%nat. rewrite drop_0. cbn [mbind option_bind]. f_equal.
  set (key' := take (Z.to_nat k) key). assert (zlen key' = k) as Hz by (unfold key'; zlen_lia).
  assert (Forall is_u8 key') as Hb' by by apply Forall_take.
  replace 0 with (zlen key' - k) at 1 by lia. rewrite expand_loop_fill by lia.
  unfold rfc_expand. rewrite Hz. change ((1024 + 7) / 8) with 128.
  change (255 mod 2 ^ (8 + 1024 - 8 * 128)) with 255. change (Z.to_nat (128 - 128)) with 0%nat.
  cbn [rfc_limit]. pose proof (rfc_fill_u8 (Z.to_nat (128 - k)) k key' Hb') as Hu.
  destruct (rfc_fill _ _ _) as [|x L]; [done|]. cbn [key_head].
  apply Forall_cons_1 in Hu as [_ Hu].
  rewrite key_words_rfc; [done|]. constructor; [apply Forall_at_, PT_u8|done].
Qed.

(** ** What a peer can send *)

(** The decryption of a mis-sized block leaves the buffer. *)
Lemma dec_blocks_missized fuel K iv l :
  zlen l mod 8 <> 0 -> dec_blocks fuel K iv l = None.
Proof.
  revert iv l. induction fuel as [|fuel IH]; intros iv l Hm; [done|]. cbn [dec_blocks].
  destruct (Z.leb_spec (zlen l) 0).
  { pose proof (zlen_nonneg l). replace (zlen l) with 0 in Hm by lia. done. }
  destruct (Z.ltb_spec (zlen l) 8); [done|]. rewrite IH; [done|].
  rewrite zlen_drop, Z.max_r by lia. rewrite Zminus_mod, Z.mod_same, Z.sub_0_r by lia.
  by rewrite Z.mod_mod by lia.
Qed.

Lemma dec_blocks_total fuel K iv l :
  zlen l mod 8 = 0 -> zlen l < Z.of_nat fuel ->
  exists o iv', dec_blocks fuel K iv l = Some (o, iv') /\ zlen o <= zlen l
    /\ (0 < zlen l -> is_block iv -> o <> []).
Proof.
  revert iv l. induction fuel as [|fuel IH]; intros iv l Hm Hf; [pose proof (zlen_nonneg l); lia|].
  cbn [dec_blocks]. destruct (Z.leb_spec (zlen l) 0).
  { eexists _, _. split_and!; [done|apply zlen_nonneg|lia]. }
  destruct (Z.ltb_spec (zlen l) 8).
  { rewrite Z.mod_small in Hm by lia. lia. }
  destruct (IH (take 8 l) (drop 8 l)) as (o & iv' & E & Hlen & _).
  - rewrite zlen_drop, Z.max_r by lia. rewrite Zminus_mod, Hm. done.
  - rewrite zlen_drop. lia.
  - rewrite E. cbn [mbind option_bind fst snd]. eexists _, _. split_and!; [done| |].
    + rewrite zlen_app, zlen_drop in *.
      enough (zlen (xor_block (mwDecryptBlock K (take 8 l)) iv) <= 8) by lia.
      pose proof (decrypt_block_is_block K (take 8 l)) as [Hb _].
      unfold xor_block, zlen. rewrite length_zip_with. lia.
    + intros _ Hiv Hnil. apply app_eq_nil in Hnil as [Hnil _].
      pose proof (xor_block_is_block _ _ (decrypt_block_is_block K (take 8 l)) Hiv) as [H8 _].
      by rewrite Hnil in H8.
Qed.

Lemma decrypt_expanded_safe K iv o :
  opaque_ok o -> is_block iv -> len o <= int_max ->
  is_Some (mwDecryptExpanded K iv o) <-> len o mod 8 = 0 /\ 0 < len o.
Proof.
  intros Ho Hiv Hlen. pose proof (opaque_ok_len o Ho) as Hl. pose proof (opaque_ok_data o Ho) as Hd.
  unfold mwDecryptExpanded. destruct (Z.ltb_spec int_max (len o)); [lia|].
  rewrite Hd. cbn [mbind option_bind]. rewrite <- Hl. set (l := opaque_data o) in *.
  destruct (decide (zlen l mod 8 = 0)) as [Hm|Hm].
  - destruct (dec_blocks_total (S (length l)) K iv l Hm) as (out & iv' & -> & Hle & Hne);
      [unfold zlen; lia|]. cbn [mbind option_bind fst snd].
    destruct (reverse out) as [|x r] eqn:E.
    + apply (f_equal reverse) in E. rewrite reverse_involutive in E. subst out.
      split; [by intros []|]. intros [_ Hp]. by destruct Hne.
    + split; [|eauto]. intros _. split; [done|]. pose proof (zlen_nonneg out).
      destruct (decide (zlen out = 0)) as [Hz|]; [|lia]. apply zlen_0_nil in Hz. by subst out.
  - rewrite dec_blocks_missized by done. split; [by intros []|tauto].
Qed.

(** The decryption stays inside its buffers exactly on the data whose
    length is a positive multiple of 8; the code warns about other lengths
    and goes on, and does not test for an empty input. *)
Theorem mwDecryptExpanded_safe_iff K iv o :
  opaque_ok o -> is_block iv -> len o <= int_max ->
  is_Some (mwDecryptExpanded K iv o) <-> len o mod 8 = 0 /\ 0 < len o.
Proof. apply decrypt_expanded_safe. Qed.

(** Every block is the decryption of some block of ciphertext. *)
Lemma decrypts_to K iv p : is_block p -> is_block iv ->
  exists c iv', zlen c = 8 /\
    forall fuel, (1 < fuel)%nat -> dec_blocks fuel K iv c = Some (p, iv').
Proof.
  intros Hp Hiv. assert (Forall is_block [p]) as Hl by by constructor.
  exists (concat (cbc (rfc_block K) iv [p])), (cbc_iv iv (cbc (rfc_block K) iv [p])). split.
  - rewrite concat_blocks_zlen by by apply cbc_rfc_blocks. unfold zlen. by rewrite cbc_length.
  - intros fuel Hf. pose proof (dec_blocks_cbc K iv [p] fuel Hl Hiv Hf) as H. cbv zeta in H.
    rewrite H. by rewrite (app_nil_r p : concat [p] = p).
Qed.

(** Whatever the key, there is a block of ciphertext whose decryption
    has a length beyond its buffer: the padding byte is not tested, and the
    length wraps around. *)
Theorem mwDecryptExpanded_underflow K iv :
  is_block iv ->
  exists o out iv', opaque_ok o /\ len o = 8
    /\ mwDecryptExpanded K iv o = Some (out, iv') /\ len out = 2 ^ 64 - 247
    /\ ~ opaque_ok out.
Proof.
  intros Hiv. set (p := replicate 7 0 ++ [255]).
  destruct (decrypts_to K iv p) as (c & iv' & Hc & Hdec); [|done|].
  { split; [done|by apply (bool_decide_unpack _)]. }
  destruct (block_opaque c) as [Hok Hd]. rewrite Hc in Hok, Hd.
  exists {| len := 8; data := Some c |}, {| len := 2 ^ 64 - 247; data := Some p |}, iv'.
  split_and!; [done|done| |done|].
  - unfold mwDecryptExpanded. rewrite (opaque_ok_data _ Hok), Hd. cbn [len].
    rewrite (proj2 (Z.ltb_ge int_max 8)) by done. cbn [mbind option_bind].
    by rewrite Hdec by (unfold zlen in Hc; lia).
  - intros [_ [d Hx]]. unfold opaque_bytes in Hx. cbn [len data] in Hx. done.
Qed.

(** ** Witnesses *)

Definition abc : mwOpaque := {| len := 3; data := Some [97; 98; 99] |}.

Lemma mwEncryptExpanded_rfc2268_witness :
  exists bs out,
    pkcs5 (opaque_data abc) = concat bs /\ Forall is_block bs
    /\ mwEncryptExpanded [] mwIV_init abc = Some (out, cbc_iv mwIV_init (cbc (rfc_block []) mwIV_init bs))
    /\ opaque_ok out /\ opaque_data out = concat (cbc (rfc_block []) mwIV_init bs).
Proof.
  apply (mwEncryptExpanded_rfc2268 [] mwIV_init abc).
  - by apply (bool_decide_unpack _).
  - by apply (bool_decide_unpack _).
  - split; [reflexivity|by apply (bool_decide_unpack _)].
  - done.
Defined.

Lemma mwDecryptExpanded_mwEncryptExpanded_witness :
  exists out iv' back,
    mwEncryptExpanded [] mwIV_init abc = Some (out, iv')
    /\ mwDecryptExpanded [] mwIV_init out = Some (back, iv')
    /\ is_block iv' /\ opaque_ok back /\ opaque_data back = opaque_data abc.
Proof.
  apply (mwDecryptExpanded_mwEncryptExpanded [] mwIV_init abc).
  - by apply (bool_decide_unpack _).
  - by apply (bool_decide_unpack _).
  - split; [reflexivity|by apply (bool_decide_unpack _)].
  - done.
Defined.

Lemma mwKeyExpand_rfc2268_witness :
  mwKeyExpand [] (Some [1; 2; 3; 4; 5]) 5 = Some (rfc_expand 1024 [1; 2; 3; 4; 5]).
Proof.
  apply (mwKeyExpand_rfc2268 [] [1; 2; 3; 4; 5] 5); [done|by apply (bool_decide_unpack _)].
Defined.

Lemma mwDecryptExpanded_safe_iff_witness :
  ~ is_Some (mwDecryptExpanded [] mwIV_init abc).
Proof.
  intros H. apply (mwDecryptExpanded_safe_iff [] mwIV_init abc) in H as [H _].
  - done.
  - by apply (bool_decide_unpack _).
  - split; [reflexivity|by apply (bool_decide_unpack _)].
  - done.
Defined.

Lemma mwDecryptExpanded_underflow_witness :
  exists o out iv', opaque_ok o /\ len o = 8
    /\ mwDecryptExpanded [] mwIV_init o = Some (out, iv') /\ len out = 2 ^ 64 - 247
    /\ ~ opaque_ok out.
Proof.
  apply (mwDecryptExpanded_underflow [] mwIV_init).
  split; [reflexivity|by apply (bool_decide_unpack _)].
Defined.

(** The test vectors of section 5 of the RFC, with 63 and 128 effective bits. *)
Example rfc2268_vector_63 :
  rfc_bytes (rfc_cipher (rfc_expand 63 (replicate 8 0)) (rfc_words (replicate 8 0)))
  = [0xeb; 0xb7; 0x73; 0xf9; 0x93; 0x27; 0x8e; 0xff].
Proof. vm_compute. reflexivity. Qed.

Example rfc2268_vector_128 :
  rfc_bytes (rfc_cipher
    (rfc_expand 128 [0x88; 0xbc; 0xa9; 0x0e; 0x90; 0x87; 0x5a; 0x7f;
                     0x0f; 0x79; 0xc3; 0x84; 0x62; 0x7b; 0xaf; 0xb2])
    (rfc_words (replicate 8 0)))
  = [0x22; 0x69; 0x55; 0x2a; 0xb0; 0xf8; 0x5c; 0xa6].
Proof. vm_compute. reflexivity. Qed.
