(* ===== verification/Cipher.v ===== *)
(** * Ciphers (src/src/cipher.c, lines 70-215 and 462-975)

    The two ciphers of the library and the functions that dispatch to them.
    Key agreement is over the integers of the mpi library. *)

From S2P Require Import Prelude Buffer Common Message Framing World Rc2.
#[local] Open Scope Z_scope.
#[local] Open Scope mw_scope.

(** ** Diffie-Hellman *)

Definition dh_prime : list Z := [
  0xCF; 0x84; 0xAF; 0xCE; 0x86; 0xDD; 0xFA; 0x52;
  0x7F; 0x13; 0x6D; 0x10; 0x35; 0x75; 0x28; 0xEE;
  0xFB; 0xA0; 0xAF; 0xEF; 0x80; 0x8F; 0x29; 0x17;
  0x4E; 0x3B; 0x6A; 0x9E; 0x97; 0x00; 0x01; 0x71;
  0x7C; 0x8F; 0x10; 0x6C; 0x41; 0xC1; 0x61; 0xA6;
  0xCE; 0x91; 0x05; 0x7B; 0x34; 0xDA; 0x62; 0xCB;
  0xB8; 0x7B; 0xFD; 0xC1; 0xB3; 0x5C; 0x1B; 0x91;
  0x0F; 0xEA; 0x72; 0x24; 0x9D; 0x56; 0x6B; 0x9F
].

Definition DH_BASE : Z := 3.

Section dh.
Context (E : Env).
#[local] Abbreviation mpi := (e_mpi E).

Definition mwInitDHPrime : Z := mp_read mpi dh_prime.
Definition mwInitDHBase : Z := DH_BASE.

(** [len] random bytes, the bits above [bits] cleared in the first. *)
Definition mw_mp_set_rand (bits : Z) : Z :=
  match e_rand E (Z.to_nat (bits / 8 + 1)) with
  | b :: buf => mp_read mpi (Z.land b (Z.shiftr 0xff (8 - bits mod 8)) :: buf)
  | [] => mp_read mpi []
  end.

(** The private and the public key. *)
Definition mwDHRandKeypair : Z * Z :=
  let private_key := mw_mp_set_rand 512 in
  (private_key, mp_exptmod mpi mwInitDHBase private_key mwInitDHPrime).

Definition mwDHCalculateShared (remote_key private_key : Z) : Z :=
  mp_exptmod mpi remote_key private_key mwInitDHPrime.

(** [None] when the block is shorter than the length. *)
Definition mwDHImportKey (o : mwOpaque) : option Z := mp_read mpi <$> opaque_bytes o.

Definition mwDHExportKey (key : Z) : mwOpaque :=
  let d := mp_write mpi key in {| len := zlen d; data := Some d |}.

Definition mwKeyRandom (keylen : nat) : list Z := e_rand E keylen.

(** [mwKeyExpand(ekey, sho.data + (sho.len - 16), 16)]; [None] when the
    opaque is shorter and the pointer is before its block. *)
Definition expand_last16 (ekey : list Z) (sho : mwOpaque) : option (list Z) :=
  if len sho <? 16 then None else
  key ← mem_read (opt_list (data sho)) (len sho - 16) 16;
  mwKeyExpand ekey (Some key) 16.

End dh.

(** A C string in memory. *)
Definition c_string (s : mwString) : option (list Z) := (fun l => l ++ [0]) <$> s.

Section ciphers.
Context (E : Env).

(** ** RC2/40 *)

Definition alloc_instance (cipher chan : Z) : mwCipherInstance :=
  {| ci_cipher := cipher; ci_channel := chan; ci_key := replicate 64 0;
     ci_outgoing_iv := mwIV_init; ci_incoming_iv := mwIV_init |}.

(** The session key is the login id of the session, at the first use. *)
Definition new_instance_RC2_40 (cipher chan : Z) : M mwCipherInstance :=
  let* c := deref_cipher cipher in
  match ciph_data c with
  | Cipher_RC2_40 session_key ready =>
      (if ready then ret tt else
       let* info := session_get s_login in
       let* key := lift (mwKeyExpand session_key (c_string (li_login_id info)) 5) in
       cipher_set cipher (fun c => {| ciph_type := ciph_type c; ciph_data := Cipher_RC2_40 key true |})) ;;
      ret (alloc_instance cipher chan)
  | _ => crash
  end.

Definition encrypt_RC2_40 (session_key : list Z) (ci : mwCipherInstance) (d : mwOpaque)
    : option (mwCipherInstance * mwOpaque) :=
  p ← mwEncryptExpanded session_key (ci_outgoing_iv ci) d;
  Some (set_ci_outgoing_iv p.2 ci, p.1).

Definition decrypt_RC2_40 (ci : mwCipherInstance) (d : mwOpaque)
    : option (mwCipherInstance * mwOpaque) :=
  p ← mwDecryptExpanded (ci_key ci) (ci_incoming_iv ci) d;
  Some (set_ci_incoming_iv p.2 ci, p.1).

Definition offer_RC2_40 : mwEncryptItem := {| ei_id := mwCipher_RC2_40; ei_info := opaque_zero |}.

(** The key of the messages received is the login id of the peer. *)
Definition accepted_RC2_40 (ci : mwCipherInstance) : M mwCipherInstance :=
  let* info := channel_get (ci_channel ci) ch_user in
  match li_login_id info with
  | Some _ =>
      let* key := lift (mwKeyExpand (ci_key ci) (c_string (li_login_id info)) 5) in
      ret (set_ci_key key ci)
  | None => ret ci
  end.

Definition accept_RC2_40 (ci : mwCipherInstance) : M (mwCipherInstance * mwEncryptItem) :=
  let* ci := accepted_RC2_40 ci in ret (ci, offer_RC2_40).

(** The address of the new cipher. *)
Definition alloc_cipher (c : mwCipher) : M Z := fun w =>
  Some (w_next w, set_w_next (w_next w + 1) (set_w_ciphers (<[w_next w := c]> (w_ciphers w)) w)).

Definition mwCipher_new_RC2_40 : M Z :=
  alloc_cipher {| ciph_type := mwCipher_RC2_40; ciph_data := Cipher_RC2_40 (replicate 64 0) false |}.

(** ** RC2/128 *)

(** The key is the end of the secret shared with the sender of the item. *)
Definition offered_RC2_128 (private_key : Z) (ci : mwCipherInstance) (item : mwEncryptItem)
    : option mwCipherInstance :=
  remote_key ← mwDHImportKey E (ei_info item);
  let sho := mwDHExportKey E (mwDHCalculateShared E remote_key private_key) in
  key ← expand_last16 (ci_key ci) sho;
  Some (set_ci_key key ci).

Definition offer_RC2_128 (public_key : mwOpaque) : option mwEncryptItem :=
  info ← mwOpaque_clone (Some public_key);
  Some {| ei_id := mwCipher_RC2_128; ei_info := info |}.

Definition encrypt_RC2_128 (ci : mwCipherInstance) (d : mwOpaque)
    : option (mwCipherInstance * mwOpaque) :=
  p ← mwEncryptExpanded (ci_key ci) (ci_outgoing_iv ci) d;
  Some (set_ci_outgoing_iv p.2 ci, p.1).

Definition decrypt_RC2_128 (ci : mwCipherInstance) (d : mwOpaque)
    : option (mwCipherInstance * mwOpaque) :=
  p ← mwDecryptExpanded (ci_key ci) (ci_incoming_iv ci) d;
  Some (set_ci_incoming_iv p.2 ci, p.1).

Definition mwCipher_new_RC2_128 : M Z :=
  let '(private_key, pubkey) := mwDHRandKeypair E in
  alloc_cipher {| ciph_type := mwCipher_RC2_128;
                  ciph_data := Cipher_RC2_128 private_key (mwDHExportKey E pubkey) |}.

(** ** Dispatch *)

Definition mwCipher_getType (cipher : Z) : M Z :=
  let* c := deref_cipher cipher in ret (ciph_type c).

Definition mwCipher_newInstance (cipher chan : Z) : M mwCipherInstance :=
  let* c := deref_cipher cipher in
  match ciph_data c with
  | Cipher_RC2_40 _ _ => new_instance_RC2_40 cipher chan
  | Cipher_RC2_128 _ _ => ret (alloc_instance cipher chan)
  end.

(** RC2/40 has no function for it. *)
Definition mwCipherInstance_offered (ci : mwCipherInstance) (item : mwEncryptItem)
    : M mwCipherInstance :=
  let* c := deref_cipher (ci_cipher ci) in
  match ciph_data c with
  | Cipher_RC2_40 _ _ => ret ci
  | Cipher_RC2_128 private_key _ => lift (offered_RC2_128 private_key ci item)
  end.

Definition mwCipherInstance_offer (ci : mwCipherInstance) : M mwEncryptItem :=
  let* c := deref_cipher (ci_cipher ci) in
  match ciph_data c with
  | Cipher_RC2_40 _ _ => ret offer_RC2_40
  | Cipher_RC2_128 _ public_key => lift (offer_RC2_128 public_key)
  end.

Definition mwCipherInstance_accepted (ci : mwCipherInstance) (item : mwEncryptItem)
    : M mwCipherInstance :=
  let* c := deref_cipher (ci_cipher ci) in
  match ciph_data c with
  | Cipher_RC2_40 _ _ => accepted_RC2_40 ci
  | Cipher_RC2_128 private_key _ => lift (offered_RC2_128 private_key ci item)
  end.

Definition mwCipherInstance_accept (ci : mwCipherInstance) : M (mwCipherInstance * mwEncryptItem) :=
  let* c := deref_cipher (ci_cipher ci) in
  match ciph_data c with
  | Cipher_RC2_40 _ _ => accept_RC2_40 ci
  | Cipher_RC2_128 _ public_key =>
      let* item := lift (offer_RC2_128 public_key) in ret (ci, item)
  end.

(** Without an instance the data is left as it is. *)
Definition mwCipherInstance_encrypt (ci : option mwCipherInstance) (d : mwOpaque)
    : M (option mwCipherInstance * mwOpaque) :=
  match ci with
  | None => ret (None, d)
  | Some ci =>
      let* c := deref_cipher (ci_cipher ci) in
      let* (ci, d) := lift (match ciph_data c with
                             | Cipher_RC2_40 session_key _ => encrypt_RC2_40 session_key ci d
                             | Cipher_RC2_128 _ _ => encrypt_RC2_128 ci d
                             end) in
      ret (Some ci, d)
  end.

Definition mwCipherInstance_decrypt (ci : option mwCipherInstance) (d : mwOpaque)
    : M (option mwCipherInstance * mwOpaque) :=
  match ci with
  | None => ret (None, d)
  | Some ci =>
      let* c := deref_cipher (ci_cipher ci) in
      let* (ci, d) := lift (match ciph_data c with
                             | Cipher_RC2_40 _ _ => decrypt_RC2_40 ci d
                             | Cipher_RC2_128 _ _ => decrypt_RC2_128 ci d
                             end) in
      ret (Some ci, d)
  end.

(** The pointer is dead afterwards. *)
Definition mwCipher_free (cipher : Z) : M unit :=
  deref_cipher cipher ;;
  modify (fun w => set_w_ciphers (delete cipher (w_ciphers w)) w).

End ciphers.

(** * Theory *)

(** ** Messages in sequence *)

Section stream.
Context (E : Env).

(** The messages encrypted one after the other. *)
Fixpoint encrypt_seq (ci : option mwCipherInstance) (ds : list mwOpaque)
    : M (option mwCipherInstance * list mwOpaque) :=
  match ds with
  | [] => ret (ci, [])
  | d :: ds =>
      let* (ci, e) := mwCipherInstance_encrypt ci d in
      let* (ci, es) := encrypt_seq ci ds in ret (ci, e :: es)
  end.
Fixpoint decrypt_seq (ci : option mwCipherInstance) (es : list mwOpaque)
    : M (option mwCipherInstance * list mwOpaque) :=
  match es with
  | [] => ret (ci, [])
  | e :: es =>
      let* (ci, d) := mwCipherInstance_decrypt ci e in
      let* (ci, ds) := decrypt_seq ci es in ret (ci, d :: ds)
  end.

(** The key an instance encrypts with. *)
Definition sending_key (c : mwCipher) (ci : mwCipherInstance) : list Z :=
  match ciph_data c with Cipher_RC2_40 session_key _ => session_key | Cipher_RC2_128 _ _ => ci_key ci end.

(** What can be encrypted: bytes, few enough for an [int]. *)
Definition plain_ok (d : mwOpaque) : Prop :=
  opaque_ok d /\ Forall is_u8 (opaque_data d) /\ len d + 8 <= int_max.
#[export] Instance plain_ok_dec d : Decision (plain_ok d).
Proof. unfold plain_ok, is_u8. apply _. Defined.

Lemma encrypt_step c ci d w :
  w_ciphers w !! ci_cipher ci = Some c ->
  mwCipherInstance_encrypt (Some ci) d w =
  (p ← mwEncryptExpanded (sending_key c ci) (ci_outgoing_iv ci) d;
   Some ((Some (set_ci_outgoing_iv p.2 ci), p.1), w)).
Proof.
  intros Hc. unfold mwCipherInstance_encrypt, bind, deref_cipher. rewrite Hc. cbn.
  unfold sending_key, encrypt_RC2_40, encrypt_RC2_128. destruct (ciph_data c);
    by destruct (mwEncryptExpanded _ _ _).
Qed.

Lemma decrypt_step c ci e w :
  w_ciphers w !! ci_cipher ci = Some c ->
  mwCipherInstance_decrypt (Some ci) e w =
  (p ← mwDecryptExpanded (ci_key ci) (ci_incoming_iv ci) e;
   Some ((Some (set_ci_incoming_iv p.2 ci), p.1), w)).
Proof.
  intros Hc. unfold mwCipherInstance_decrypt, bind, deref_cipher. rewrite Hc. cbn.
  unfold decrypt_RC2_40, decrypt_RC2_128. destruct (ciph_data c);
    by destruct (mwDecryptExpanded _ _ _).
Qed.

Lemma stream_step K ci ci' c c' d w w' :
  w_ciphers w !! ci_cipher ci = Some c -> w_ciphers w' !! ci_cipher ci' = Some c' ->
  sending_key c ci = K -> ci_key ci' = K ->
  is_block (ci_outgoing_iv ci) -> ci_incoming_iv ci' = ci_outgoing_iv ci -> plain_ok d ->
  exists e iv d', mwCipherInstance_encrypt (Some ci) d w = Some ((Some (set_ci_outgoing_iv iv ci), e), w)
    /\ mwCipherInstance_decrypt (Some ci') e w' = Some ((Some (set_ci_incoming_iv iv ci'), d'), w')
    /\ is_block iv /\ opaque_ok d' /\ opaque_data d' = opaque_data d.
Proof.
  intros Hc Hc' Hk Hk' Hb Hiv (Ho & Hu & Hl). rewrite (encrypt_step c ci d w Hc).
  destruct (decrypt_encrypt_expanded K (ci_outgoing_iv ci) d Ho Hu Hb Hl)
    as (e & iv & d' & He & Hd & Hbiv & Hok & Hdata).
  exists e, iv, d'. rewrite (decrypt_step c' ci' e w' Hc'), Hk, Hk', Hiv, He, Hd. done.
Qed.

Lemma stream_spec K c c' w w' ds ci ci' :
  w_ciphers w !! ci_cipher ci = Some c -> w_ciphers w' !! ci_cipher ci' = Some c' ->
  sending_key c ci = K -> ci_key ci' = K ->
  is_block (ci_outgoing_iv ci) -> ci_incoming_iv ci' = ci_outgoing_iv ci ->
  Forall plain_ok ds ->
  exists es ds' ci1 ci1',
    encrypt_seq (Some ci) ds w = Some ((Some ci1, es), w)
    /\ decrypt_seq (Some ci') es w' = Some ((Some ci1', ds'), w')
    /\ map opaque_data ds' = map opaque_data ds /\ Forall opaque_ok ds'.
Proof.
  intros Hc Hc' Hk Hk' Hb Hiv Hds. revert ci ci' Hc Hc' Hk Hk' Hb Hiv.
  induction Hds as [|d ds Hd _ IH]; intros ci ci' Hc Hc' Hk Hk' Hb Hiv.
  { by exists [], [], ci, ci'. }
  destruct (stream_step K ci ci' c c' d w w') as (e & iv & d' & He & Hdec & Hbiv & Hok & Hdata); try done.
  destruct (IH (set_ci_outgoing_iv iv ci) (set_ci_incoming_iv iv ci'))
    as (es & ds' & ci1 & ci1' & Hes & Hds' & Hdatas & Hoks); try done.
  exists (e :: es), (d' :: ds'), ci1, ci1'. cbn [encrypt_seq decrypt_seq map]. unfold bind.
  rewrite He, Hes, Hdec, Hds', Hdata, Hdatas. split_and!; [done|done|done|by constructor].
Qed.

(** A channel's cipher carries any sequence of messages: encrypted one
    after the other by one side's instance and decrypted in the same order by
    an instance of the other side with the same key, all come back. *)
Theorem cipher_stream c c' w w' ds ci ci' :
  w_ciphers w !! ci_cipher ci = Some c -> w_ciphers w' !! ci_cipher ci' = Some c' ->
  ci_key ci' = sending_key c ci ->
  is_block (ci_outgoing_iv ci) -> ci_incoming_iv ci' = ci_outgoing_iv ci ->
  Forall plain_ok ds ->
  exists es ds' ci1 ci1',
    encrypt_seq (Some ci) ds w = Some ((Some ci1, es), w)
    /\ decrypt_seq (Some ci') es w' = Some ((Some ci1', ds'), w')
    /\ map opaque_data ds' = map opaque_data ds /\ Forall opaque_ok ds'.
Proof. intros. by eapply stream_spec. Qed.

(** ** The keys agree *)

Lemma mwKeyExpand_start k k' key n : 0 < n -> mwKeyExpand k (Some key) n = mwKeyExpand k' (Some key) n.
Proof. intros Hn. unfold mwKeyExpand. by destruct (Z.ltb_spec 0 n); [|lia]. Qed.

Lemma mwKeyExpand_some k key n : 0 < n <= zlen key -> is_Some (mwKeyExpand k (Some key) n).
Proof.
  intros Hn. unfold mwKeyExpand. destruct (Z.ltb_spec 0 n); [|lia]. cbn [negb].
  unfold mem_read. rewrite decide_True; [by eexists|]. destruct (Z.ltb_spec 128 n); lia.
Qed.

Lemma mwKeyExpand_short k key n : 0 < n <= 128 -> zlen key < n -> mwKeyExpand k (Some key) n = None.
Proof.
  intros Hn Hk. unfold mwKeyExpand. destruct (Z.ltb_spec 0 n); [|lia]. cbn [negb].
  destruct (Z.ltb_spec 128 n); [lia|]. unfold mem_read. by rewrite decide_False by lia.
Qed.

#[local] Opaque mwKeyExpand.

(** The key with which an instance of RC2/40 decrypts, once its channel is
    accepted, is the one the peer's instance encrypts with: both expand the
    peer's login id.  The ids need four characters. *)
Theorem RC2_40_keys_agree id w1 p1 chan key1 w2 ci2 key2 ready2 ch2 item :
  4 <= zlen id ->
  w_ciphers w1 !! p1 = Some {| ciph_type := mwCipher_RC2_40;
                               ciph_data := Cipher_RC2_40 key1 false |} ->
  li_login_id (s_login (w_session w1)) = Some id ->
  w_ciphers w2 !! ci_cipher ci2 = Some {| ciph_type := mwCipher_RC2_40;
                                          ciph_data := Cipher_RC2_40 key2 ready2 |} ->
  w_channels w2 !! ci_channel ci2 = Some ch2 -> li_login_id (ch_user ch2) = Some id ->
  exists ci1 w1' c1 key,
    mwCipher_newInstance p1 chan w1 = Some (ci1, w1')
    /\ ci_cipher ci1 = p1 /\ ci_outgoing_iv ci1 = mwIV_init
    /\ w_ciphers w1' !! p1 = Some c1 /\ sending_key c1 ci1 = key
    /\ mwCipherInstance_accepted E ci2 item w2 = Some (set_ci_key key ci2, w2).
Proof.
  intros Hid Hc1 Hl1 Hc2 Hch Hl2.
  destruct (mwKeyExpand_some key1 (id ++ [0]) 5) as [key Hkey]; [zlen_lia|].
  eexists _, _, _, key. split_and!.
  - unfold mwCipher_newInstance, new_instance_RC2_40, bind, deref_cipher. rewrite Hc1. cbn.
    rewrite Hc1. cbn. rewrite Hl1. cbn [c_string fmap option_fmap option_map]. rewrite Hkey. cbn.
    unfold cipher_set. by rewrite Hc1.
  - done.
  - done.
  - cbn. by rewrite lookup_insert_eq.
  - done.
  - unfold mwCipherInstance_accepted, accepted_RC2_40, bind, deref_cipher. rewrite Hc2. cbn.
    unfold channel_get. rewrite Hch. cbn. rewrite Hl2. unfold c_string.
    cbn [fmap option_fmap option_map].
    rewrite (mwKeyExpand_start _ key1) by lia. by rewrite Hkey.
Qed.

(** With a login id of fewer than four characters a new instance of RC2/40
    reads past the end of the string. *)
Theorem new_instance_RC2_40_short_id id w1 p1 chan key :
  zlen id < 4 ->
  w_ciphers w1 !! p1 = Some {| ciph_type := mwCipher_RC2_40;
                               ciph_data := Cipher_RC2_40 key false |} ->
  li_login_id (s_login (w_session w1)) = Some id ->
  mwCipher_newInstance p1 chan w1 = None.
Proof.
  intros Hid Hc1 Hl1.
  unfold mwCipher_newInstance, new_instance_RC2_40, bind, deref_cipher. rewrite Hc1. cbn.
  rewrite Hc1. cbn. rewrite Hl1. unfold c_string. cbn [fmap option_fmap option_map].
  by rewrite mwKeyExpand_short by (lia || zlen_lia).
Qed.

End stream.

(** What the mpi library promises: the round trip of integers through bytes,
    and modular exponentiation. *)
Class MpiOk (m : Mpi) := {
  mp_read_nonneg l : 0 <= mp_read m l;
  mp_read_write n : 0 <= n -> mp_read m (mp_write m n) = n;
  mp_exptmod_spec b e p : 0 <= b -> 0 <= e -> 1 < p -> mp_exptmod m b e p = b ^ e mod p;
}.

Section agreement.
Context (EA EB : Env) {Hok : MpiOk (e_mpi EA)} (Hmpi : e_mpi EB = e_mpi EA)
  (Hprime : 1 < mwInitDHPrime EA).

Lemma set_rand_nonneg E bits : MpiOk (e_mpi E) -> 0 <= mw_mp_set_rand E bits.
Proof. intros H. unfold mw_mp_set_rand. destruct (e_rand _ _); apply mp_read_nonneg. Qed.

Lemma export_block n : opaque_bytes (mwDHExportKey EA n) = Some (mp_write (e_mpi EA) n).
Proof.
  unfold opaque_bytes, mwDHExportKey. cbn [len data]. set (d := mp_write _ _).
  destruct (Z.eqb_spec (zlen d) 0) as [Hz|]; [by apply zlen_0_nil in Hz as ->|]. apply mem_read_all.
Qed.

(** The item a cipher offers is read back as its public key. *)
Lemma import_offer n item : 0 <= n ->
  offer_RC2_128 (mwDHExportKey EA n) = Some item -> mwDHImportKey EA (ei_info item) = Some n.
Proof.
  intros Hn. unfold offer_RC2_128, mwOpaque_clone, mwDHImportKey.
  pose proof (export_block n) as Hb. destruct (Z.eqb_spec (len (mwDHExportKey EA n)) 0) as [Hz|Hz].
  - intros [= <-]. cbn. cbn in Hz. apply zlen_0_nil in Hz.
    pose proof (mp_read_write n Hn) as Hr. rewrite Hz in Hr. by rewrite Hr.
  - rewrite Hb. intros [= <-]. cbn [ei_info].
    change (mp_read (e_mpi EA) <$> opaque_bytes (mwDHExportKey EA n) = Some n).
    rewrite Hb. cbn. by rewrite mp_read_write.
Qed.

(** Raising to one key and then the other, modulo the prime. *)
Lemma shared_comm a b p : 0 <= a -> 0 <= b -> 1 < p ->
  (DH_BASE ^ b mod p) ^ a mod p = (DH_BASE ^ a mod p) ^ b mod p.
Proof.
  intros Ha Hb Hp. rewrite !Z.mod_pow_l, <- !Z.pow_mul_r by lia. by rewrite Z.mul_comm.
Qed.

Lemma expand_last16_start k k' o : expand_last16 k o = expand_last16 k' o.
Proof.
  unfold expand_last16. destruct (_ <? _); [done|].
  destruct (mem_read _ _ _); [|reflexivity]. cbn [mbind option_bind]. apply mwKeyExpand_start. lia.
Qed.

(** The key made of a secret of enough bytes is that of its last 16 bytes. *)
Lemma expand_last16_key k n : let secret := mp_write (e_mpi EA) n in
  16 <= zlen secret -> exists key, mwKeyExpand k (Some (drop (length secret - 16) secret)) 16 = Some key
    /\ forall k', expand_last16 k' (mwDHExportKey EA n) = Some key.
Proof.
  intros secret H. assert (zlen (drop (length secret - 16) secret) = 16) as Hl by (unfold zlen in *; rewrite length_drop; lia).
  destruct (mwKeyExpand_some k (drop (length secret - 16) secret) 16) as [key Hkey]; [lia|].
  exists key. split; [done|]. intros k'. unfold expand_last16, mwDHExportKey. cbn [len data opt_list]. fold secret.
  destruct (Z.ltb_spec (zlen secret) 16); [lia|]. unfold mem_read. rewrite decide_True by lia. cbn [mbind option_bind].
  rewrite (mwKeyExpand_start k' k) by lia. rewrite <- Hkey. f_equal. f_equal.
  replace (Z.to_nat (zlen secret - 16)) with (length secret - 16)%nat by (unfold zlen; lia).
  apply take_ge. rewrite length_drop. lia.
Qed.

(** C37: after the exchange of their offers both sides of RC2/128 hold a key
    and it is the same: that of the last 16 bytes of the secret that their two
    private keys determine, whatever these are, provided the secret has as
    many bytes. *)
Theorem RC2_128_keys_agree a pa b pb item_a item_b ci_a ci_b :
  mwDHRandKeypair EA = (a, pa) -> mwDHRandKeypair EB = (b, pb) ->
  offer_RC2_128 (mwDHExportKey EA pa) = Some item_a ->
  offer_RC2_128 (mwDHExportKey EB pb) = Some item_b ->
  let shared := mwDHCalculateShared EA pb a in
  let secret := mp_write (e_mpi EA) shared in
  16 <= zlen secret -> shared = DH_BASE ^ (a * b) mod mwInitDHPrime EA
  /\ exists key, mwKeyExpand (ci_key ci_a) (Some (drop (length secret - 16) secret)) 16 = Some key
    /\ offered_RC2_128 EA a ci_a item_b = Some (set_ci_key key ci_a)
    /\ offered_RC2_128 EB b ci_b item_a = Some (set_ci_key key ci_b).
Proof.
  unfold mwDHRandKeypair. intros [= <- <-] [= <- <-] Ha Hb.
  assert (mwInitDHPrime EB = mwInitDHPrime EA) as Hp by (unfold mwInitDHPrime; by rewrite Hmpi).
  rewrite Hp, Hmpi in *. set (p := mwInitDHPrime EA) in *.
  pose proof (set_rand_nonneg EA 512 Hok) as H0a.
  pose proof (set_rand_nonneg EB 512 ltac:(by rewrite Hmpi)) as H0b.
  set (a := mw_mp_set_rand EA 512) in *. set (b := mw_mp_set_rand EB 512) in *.
  assert (0 <= DH_BASE) as Hbase by done. unfold mwInitDHBase in *.
  rewrite !mp_exptmod_spec in Ha, Hb by done.
  apply import_offer in Ha; [|apply Z.mod_pos_bound; lia].
  assert (mwDHExportKey EB = mwDHExportKey EA) as Hex by (unfold mwDHExportKey; by rewrite Hmpi).
  rewrite Hex in Hb. apply import_offer in Hb; [|apply Z.mod_pos_bound; lia].
  assert (mwDHCalculateShared EA (mp_exptmod (e_mpi EA) DH_BASE b p) a = DH_BASE ^ (a * b) mod p) as Hsh.
  { unfold mwDHCalculateShared. fold p. rewrite (mp_exptmod_spec DH_BASE b p) by done.
    rewrite mp_exptmod_spec by (try done; apply Z.mod_pos_bound; lia).
    by rewrite Z.mod_pow_l, <- Z.pow_mul_r, (Z.mul_comm b) by done. }
  rewrite Hsh. intros H16. split; [done|].
  destruct (expand_last16_key (ci_key ci_a) _ H16) as (key & Hkey & Hexp).
  exists key. split; [exact Hkey|]. unfold offered_RC2_128. rewrite Hb, Hex.
  assert (mwDHImportKey EB (ei_info item_a) = mwDHImportKey EA (ei_info item_a)) as ->
    by (unfold mwDHImportKey; by rewrite Hmpi). rewrite Ha. cbn [mbind option_bind].
  unfold mwDHCalculateShared. rewrite Hp, Hmpi. fold p.
  rewrite !mp_exptmod_spec by (try done; apply Z.mod_pos_bound; lia).
  rewrite shared_comm, Z.mod_pow_l, <- Z.pow_mul_r by done. by rewrite !Hexp.
Qed.

(** A peer whose public key is 0 or 1 makes the code read before the
    block of the shared secret: the secret is shorter than the 16 bytes taken
    from its end. *)
Theorem offered_RC2_128_small_key private_key ci item key :
  0 <= private_key -> mwDHImportKey EA (ei_info item) = Some key -> 0 <= key <= 1 ->
  (forall n, 0 <= n <= 1 -> zlen (mp_write (e_mpi EA) n) < 16) ->
  offered_RC2_128 EA private_key ci item = None.
Proof.
  intros Hpriv Hkey Hk Hsmall. unfold offered_RC2_128. rewrite Hkey. cbn [mbind option_bind].
  unfold expand_last16, mwDHExportKey. cbn [len].
  assert (0 <= mwDHCalculateShared EA key private_key <= 1) as Hs.
  { unfold mwDHCalculateShared. rewrite mp_exptmod_spec by lia.
    assert (0 <= key ^ private_key <= 1) as He.
    { split; [apply Z.pow_nonneg; lia|]. destruct (decide (key = 1)) as [->|].
      - by rewrite Z.pow_1_l.
      - replace key with 0 by lia.
        destruct (decide (private_key = 0)) as [->|]; [done|]. by rewrite Z.pow_0_l by lia. }
    rewrite Z.mod_small; lia. }
  specialize (Hsmall _ Hs). by destruct (Z.ltb_spec (zlen (mp_write (e_mpi EA)
    (mwDHCalculateShared EA key private_key))) 16); [|lia].
Qed.

End agreement.

(** ** Witnesses *)

#[export] Instance mpi_Z_ok : MpiOk mpi_Z.
Proof.
  split.
  - intros l. apply read_low_nonneg.
  - intros n Hn. cbn [mp_read mp_write mpi_Z]. rewrite reverse_involutive. apply read_low_bytes.
    split; [done|]. destruct (decide (n = 0)) as [->|]; [done|].
    pose proof (Z.log2_spec n). pose proof (Z.log2_nonneg n).
    rewrite Z2Nat.id by lia. unfold Z.succ in *. lia.
  - done.
Qed.

Definition cipher_40 (key : list Z) (ready : bool) : mwCipher :=
  {| ciph_type := mwCipher_RC2_40; ciph_data := Cipher_RC2_40 key ready |}.

Definition session_of (login_id : mwString) : mwSession := {|
  s_state := mwSession_STARTED; s_state_info := Word 0; s_buf := rb_empty;
  s_login := {| li_login_id := login_id; li_type := 0; li_user_id := None; li_user_name := None;
                li_community := None; li_full := false; li_desc := None; li_ip_addr := 0;
                li_server_id := None |};
  s_status := us_zero; s_privacy := pi_zero; s_chan_map := ∅; s_chan_counter := 0;
  s_services := ∅; s_ciphers := ∅; s_attributes := ∅ |}.

Definition channel_of (login_id : mwString) : mwChannel := {|
  ch_state := mwChannel_WAIT; ch_user := s_login (session_of login_id); ch_id := 1;
  ch_service := 0; ch_proto_type := 0; ch_proto_ver := 0; ch_options := 0;
  ch_addtl_create := opaque_zero; ch_addtl_accept := opaque_zero; ch_supported := Some ∅;
  ch_offered_policy := 0; ch_policy := 0; ch_cipher := None; ch_stats := ∅;
  ch_outgoing_queue := []; ch_incoming_queue := []; ch_srvc_data := None |}.

(** A session with a login id, a channel at 1 and RC2/40 at 2. *)
Definition world_40 (login_id peer : mwString) (key : list Z) (ready : bool) : world := {|
  w_session := session_of login_id; w_channels := {[ 1 := channel_of peer ]}; w_services := ∅;
  w_ciphers := {[ 2 := cipher_40 key ready ]}; w_heap := ∅; w_next := 3; w_log := [] |}.

Definition id_alice : list Z := [97; 108; 105; 99; 101].

Lemma cipher_stream_witness :
  exists es ds' ci1 ci1',
    encrypt_seq (Some (alloc_instance 2 1)) [abc; abc] (world_40 None None (replicate 64 0) true)
      = Some ((Some ci1, es), world_40 None None (replicate 64 0) true)
    /\ decrypt_seq (Some (alloc_instance 2 1)) es (world_40 None None [] true)
      = Some ((Some ci1', ds'), world_40 None None [] true)
    /\ map opaque_data ds' = [opaque_data abc; opaque_data abc] /\ Forall opaque_ok ds'.
Proof.
  apply (cipher_stream (cipher_40 (replicate 64 0) true) (cipher_40 [] true)).
  - reflexivity.
  - reflexivity.
  - reflexivity.
  - split; [reflexivity|by apply (bool_decide_unpack _)].
  - reflexivity.
  - by apply (bool_decide_unpack _).
Defined.

Lemma RC2_40_keys_agree_witness :
  exists ci1 w1' c1 key,
    mwCipher_newInstance 2 1 (world_40 (Some id_alice) None [] false) = Some (ci1, w1')
    /\ ci_cipher ci1 = 2 /\ ci_outgoing_iv ci1 = mwIV_init
    /\ w_ciphers w1' !! 2 = Some c1 /\ sending_key c1 ci1 = key
    /\ mwCipherInstance_accepted (quiet_env 0) (alloc_instance 2 1) ei_zero
         (world_40 None (Some id_alice) [] false)
       = Some (set_ci_key key (alloc_instance 2 1), world_40 None (Some id_alice) [] false).
Proof.
  apply (RC2_40_keys_agree (quiet_env 0) id_alice _ 2 1 [] _ (alloc_instance 2 1) [] false
           (channel_of (Some id_alice))); reflexivity || (intros H; discriminate H).
Defined.

Lemma new_instance_RC2_40_short_id_witness :
  mwCipher_newInstance 2 1 (world_40 (Some [98; 111; 98]) None [] false) = None.
Proof. apply (new_instance_RC2_40_short_id [98; 111; 98] _ 2 1 []); reflexivity. Defined.

Lemma RC2_128_keys_agree_witness :
  exists item_a item_b,
    offer_RC2_128 (mwDHExportKey (quiet_env 10) (mwDHRandKeypair (quiet_env 10)).2) = Some item_a
    /\ offer_RC2_128 (mwDHExportKey (quiet_env 12) (mwDHRandKeypair (quiet_env 12)).2) = Some item_b
    /\ exists key,
      offered_RC2_128 (quiet_env 10) (mwDHRandKeypair (quiet_env 10)).1 (alloc_instance 2 1) item_b
        = Some (set_ci_key key (alloc_instance 2 1))
      /\ offered_RC2_128 (quiet_env 12) (mwDHRandKeypair (quiet_env 12)).1 (alloc_instance 2 1) item_a
        = Some (set_ci_key key (alloc_instance 2 1)).
Proof.
  eexists _, _. split_and!; [vm_compute; reflexivity|vm_compute; reflexivity|].
  destruct (RC2_128_keys_agree (quiet_env 10) (quiet_env 12) (Hok := mpi_Z_ok) eq_refl ltac:(vm_compute; reflexivity)
    (mwDHRandKeypair (quiet_env 10)).1 (mwDHRandKeypair (quiet_env 10)).2
    (mwDHRandKeypair (quiet_env 12)).1 (mwDHRandKeypair (quiet_env 12)).2
    _ _ (alloc_instance 2 1) (alloc_instance 2 1) ltac:(vm_compute; reflexivity) ltac:(vm_compute; reflexivity)
    ltac:(vm_compute; reflexivity) ltac:(vm_compute; reflexivity) ltac:(vm_compute; discriminate))
    as (_ & key & _ & A & B). exists key. split; [exact A|exact B].
Defined.

Lemma offered_RC2_128_small_key_witness :
  offered_RC2_128 (quiet_env 0) 7 (alloc_instance 2 1)
    {| ei_id := 1; ei_info := {| len := 1; data := Some [1] |} |} = None.
Proof.
  apply (offered_RC2_128_small_key (quiet_env 0) (Hok := mpi_Z_ok)) with (key := 1).
  - vm_compute. reflexivity.
  - lia.
  - vm_compute. reflexivity.
  - lia.
  - intros n Hn. assert (n = 0 \/ n = 1) as [-> | ->] by lia; vm_compute; reflexivity.
Defined.
