(* ===== verification/Service.v ===== *)
(** * Services (src/src/service.c, lines 112-244)

    The life-cycle of a service; the functions that hand it messages are with
    the channels, in [Channel.v]. *)

From S2P Require Import Prelude Buffer Common Message Framing World.
#[local] Open Scope Z_scope.
#[local] Open Scope mw_scope.

Definition MW_SERVICE_IS_STOPPED (s : mwServiceState) : bool :=
  bool_decide (s = mwServiceState_STOPPED).

(** STOPPING or STOPPED *)
Definition MW_SERVICE_IS_DEAD (s : mwServiceState) : bool :=
  bool_decide (s = mwServiceState_STOPPING) || bool_decide (s = mwServiceState_STOPPED).

(** STARTING or STARTED *)
Definition MW_SERVICE_IS_LIVE (s : mwServiceState) : bool :=
  bool_decide (s = mwServiceState_STARTING) || bool_decide (s = mwServiceState_STARTED).

Definition mwService_getType (srvc : Z) : M Z :=
  let* s := deref_service srvc in ret (sv_type s).

Definition mwService_getState (srvc : Z) : M mwServiceState :=
  let* s := deref_service srvc in ret (sv_state s).

(** [g_new0] and [mwService_init], which refuses type 0; the address. *)
Definition mwService_init (type : Z) : M Z := fun w =>
  let s := if type =? 0 then {| sv_type := 0; sv_state := mwServiceState_STOPPED; sv_session := false |}
           else {| sv_type := type; sv_state := mwServiceState_STOPPED; sv_session := true |} in
  Some (w_next w, set_w_next (w_next w + 1) (set_w_services (<[w_next w := s]> (w_services w)) w)).

Section service.
Context (E : Env).

Definition mwService_started (srvc : Z) : M unit :=
  service_set srvc (set_sv_state mwServiceState_STARTED).

Definition mwService_start (srvc : Z) : M unit :=
  let* st := mwService_getState srvc in
  if negb (MW_SERVICE_IS_STOPPED st) then ret tt else
  service_set srvc (set_sv_state mwServiceState_STARTING) ;;
  match op_start (e_service E srvc) with
  | Some start => start srvc
  | None => mwService_started srvc
  end.

Definition mwService_stopped (srvc : Z) : M unit :=
  let* st := mwService_getState srvc in
  if bool_decide (st = mwServiceState_STOPPED) then ret tt
  else service_set srvc (set_sv_state mwServiceState_STOPPED).

Definition mwService_error (srvc : Z) : M unit :=
  let* st := mwService_getState srvc in
  if MW_SERVICE_IS_DEAD st then ret tt else
  service_set srvc (set_sv_state mwServiceState_ERROR) ;;
  match op_stop (e_service E srvc) with
  | Some stop => stop srvc
  | None => mwService_stopped srvc
  end.

Definition mwService_stop (srvc : Z) : M unit :=
  let* st := mwService_getState srvc in
  if MW_SERVICE_IS_DEAD st then ret tt else
  service_set srvc (set_sv_state mwServiceState_STOPPING) ;;
  match op_stop (e_service E srvc) with
  | Some stop => stop srvc
  | None => mwService_stopped srvc
  end.

(** The pointer is dead afterwards. *)
Definition mwService_free (srvc : Z) : M unit :=
  mwService_stop srvc ;;
  match op_clear (e_service E srvc) with Some clear => clear srvc | None => ret tt end ;;
  deref_service srvc ;;
  modify (fun w => set_w_services (delete srvc (w_services w)) w).

End service.
