(* ===== verification/Session.v ===== *)
(** * The session (src/src/session.c, mw_session.h)

    The state of a session, what it sends, and its handlers of the messages
    that do not concern a channel.  The reassembly of its input is in
    [Framing.v] and the dispatch of what arrives in [Dispatch.v]. *)

From S2P Require Import Prelude Buffer Common Message Framing World Rc2 Cipher Service.
#[local] Open Scope Z_scope.
#[local] Open Scope mw_scope.

(** ** Properties *)

Definition mwSession_AUTH_USER_ID : string := "session.auth.user".
Definition mwSession_AUTH_PASSWORD : string := "session.auth.password".
Definition mwSession_CLIENT_HOST : string := "client.host".
Definition mwSession_CLIENT_IP : string := "client.ip".
Definition mwSession_CLIENT_VER_MAJOR : string := "client.version.major".
Definition mwSession_CLIENT_VER_MINOR : string := "client.version.minor".
Definition mwSession_CLIENT_TYPE_ID : string := "client.id".
Definition mwSession_SERVER_VER_MAJOR : string := "server.version.major".
Definition mwSession_SERVER_VER_MINOR : string := "server.version.minor".

(** The macros [GPOINTER] and [GUINT], through 32 bits; the number of a
    pointer to a string is not modelled. *)
Definition GPOINTER (val : Z) : gpointer := Word (u32 val).
Definition GUINT (val : gpointer) : option Z :=
  match val with Word v => Some (u32 v) | _ => None end.
(** Its use as [char *]. *)
Definition as_string (val : gpointer) : option mwString :=
  match val with
  | Str s => Some (Some s)
  | Word v => if v =? 0 then Some None else None
  | Dangling => None
  end.

Definition property_set (key : string) (val : gpointer) : M unit :=
  session_set (fun s => set_s_attributes (<[key := val]> (s_attributes s)) s).

Definition property_get (key : string) : M gpointer :=
  session_get (fun s => default (Word 0) (s_attributes s !! key)).

Definition property_del (key : string) : M unit :=
  session_set (fun s => set_s_attributes (delete key (s_attributes s)) s).

Definition property_uint (key : string) : M Z :=
  let* p := property_get key in lift (GUINT p).
Definition property_string (key : string) : M mwString :=
  let* p := property_get key in lift (as_string p).

Definition session_defaults : M unit :=
  property_set mwSession_CLIENT_VER_MAJOR (GPOINTER MW_PROTOCOL_VERSION_MAJOR) ;;
  property_set mwSession_CLIENT_VER_MINOR (GPOINTER MW_PROTOCOL_VERSION_MINOR) ;;
  property_set mwSession_CLIENT_TYPE_ID (GPOINTER mwLogin_MEANWHILE).

(** [g_new0], with the channel set and the tables. *)
Definition session_zero : mwSession := {|
  s_state := mwSession_STOPPED; s_state_info := Word 0; s_buf := rb_empty;
  s_login := li_zero; s_status := us_zero; s_privacy := pi_zero;
  s_chan_map := ∅; s_chan_counter := 0; s_services := ∅; s_ciphers := ∅; s_attributes := ∅ |}.

Definition mwSession_new : M unit :=
  session_set (fun _ => session_zero) ;; session_defaults.

(** ** State *)

Definition mwSession_isState (st : mwSessionState) : M bool :=
  session_get (fun s => bool_decide (s_state s = st)).

Definition starting (st : mwSessionState) : bool :=
  match st with
  | mwSession_STARTING | mwSession_HANDSHAKE | mwSession_HANDSHAKE_ACK | mwSession_LOGIN
  | mwSession_LOGIN_ACK | mwSession_LOGIN_REDIR | mwSession_LOGIN_CONT => true
  | _ => false
  end.
Definition mwSession_isStarting : M bool := session_get (fun s => starting (s_state s)).
Definition mwSession_isStarted : M bool := mwSession_isState mwSession_STARTED.
Definition mwSession_isStopping : M bool := mwSession_isState mwSession_STOPPING.
Definition mwSession_isStopped : M bool := mwSession_isState mwSession_STOPPED.

(** [int ekey[64]] on the stack of [mwEncrypt]. *)
Definition ekey_stack : list Z := replicate 64 0.

Section session.
Context (E : Env).

Definition io_write (buf : list Z) : M Z :=
  let* r := e_io_write E buf in log (EvWrite buf r) ;; ret r.

Definition io_close : M unit := e_io_close E ;; log EvClose.

Definition state (st : mwSessionState) (info : gpointer) : M unit :=
  let* same := mwSession_isState st in
  if same then ret tt else
  session_set (set_s_state st) ;;
  session_set (set_s_state_info info) ;;
  log (EvState st) ;;
  match e_on_stateChange E with Some f => f st info | None => ret tt end.

(** ** Sending *)

(** A message made by [mwMessage_new] with its fields set. *)
Definition message (channel : Z) (body : mwMsgBody) : mwMessage :=
  {| msg_head := {| mh_type := mwMessageType_code (body_type body); mh_options := 0;
                    mh_channel := channel; mh_attribs := opaque_zero |};
     msg_body := body |}.

Definition SET_USER_STATUS_recv (msg : mwMsgSetUserStatus) : M unit :=
  session_set (fun s => set_s_status (mwUserStatus_clone (ss_status msg)) s) ;;
  call0 (e_on_setUserStatus E).

(** The bytes written for a message: its length and its contents. *)
Definition render (msg : mwMessage) : option (list Z) :=
  o ← message_send msg;
  b ← mwOpaque_put (Some o) mwPutBuffer_new;
  opaque_bytes (mwPutBuffer_finalize b).

Definition mwSession_send (msg : option mwMessage) : M Z :=
  match msg with
  | None => ret 0
  | Some msg =>
      let* bytes := lift (render msg) in
      let* r := io_write bytes in
      (if r =? 0 then
         if mh_type (msg_head msg) =? mwMessageType_code mwMessage_SET_USER_STATUS then
           match msg_body msg with SET_USER_STATUS m => SET_USER_STATUS_recv m | _ => crash end
         else ret tt
       else ret tt) ;;
      ret r
  end.

Definition mwSession_sendKeepalive : M Z := io_write [0x80].

(** ** Stopping and starting *)

Definition mwSession_getServices : M (list Z) := session_get (fun s => e_values E Z (s_services s)).

Definition mwSession_stop (reason : Z) : M unit :=
  let* st := session_get s_state in
  if bool_decide (st = mwSession_STOPPED) || bool_decide (st = mwSession_STOPPING) then ret tt else
  state mwSession_STOPPING (Word reason) ;;
  let* l := mwSession_getServices in
  for_each (mwService_stop E) l ;;
  mwSession_send (Some (message MW_MASTER_CHANNEL_ID
    (CHANNEL_DESTROY {| cd_reason := reason; cd_data := opaque_zero |}))) ;;
  session_set (set_s_buf rb_empty) ;;
  io_close ;;
  state mwSession_STOPPED (Word reason).

(** The handshake, whose versions and addresses are the properties. *)
Definition handshake_msg : M mwMessage :=
  let* major := property_uint mwSession_CLIENT_VER_MAJOR in
  let* minor := property_uint mwSession_CLIENT_VER_MINOR in
  let* login_type := property_uint mwSession_CLIENT_TYPE_ID in
  let* addr := property_uint mwSession_CLIENT_IP in
  let major := u16 major in
  let minor := u16 minor in
  let* host := (if (0x001e <=? major) && (0x001d <=? minor)
                then property_string mwSession_CLIENT_HOST else ret None) in
  ret (message 0 (HANDSHAKE {|
    hs_major := major; hs_minor := minor; hs_srvrcalc_addr := 0; hs_login_type := u16 login_type;
    hs_loclcalc_addr := addr;
    hs_unknown_a := if (0x001e <=? major) && (0x001d <=? minor) then 0x0100 else 0;
    hs_unknown_b := 0; hs_local_host := host |})).

Definition mwSession_start : M unit :=
  let* stopped := mwSession_isStopped in
  if negb stopped then ret tt else
  state mwSession_STARTING (Word 0) ;;
  let* msg := handshake_msg in
  let* r := mwSession_send (Some msg) in
  if negb (r =? 0) then mwSession_stop CONNECTION_BROKEN
  else state mwSession_HANDSHAKE (Word 0).

(** ** Logging in *)

(** The key, and the password encrypted with it. *)
Definition compose_auth_rc2_40 (pass : mwString) : option mwOpaque :=
  pass ← pass;
  let key := mwKeyRandom E 5 in
  let a := {| len := 5; data := Some key |} in
  let z := {| len := zlen pass; data := Some (pass ++ [0]) |} in
  p ← mwEncrypt ekey_stack (Some key) 5 mwIV_init z;
  b ← (mwOpaque_put (Some a) >>> mwOpaque_put (Some p.1)) mwPutBuffer_new;
  Some (mwPutBuffer_finalize b).

(** The public key, and the password encrypted with the shared secret. *)
Definition compose_auth_rc2_128 (pass : mwString) (magic : Z) (rkey : mwOpaque) : option mwOpaque :=
  let '(private, public) := mwDHRandKeypair E in
  remote ← mwDHImportKey E rkey;
  let shared := mwDHCalculateShared E remote private in
  a ← (guint32_put magic >>> mwString_put pass) mwPutBuffer_new;
  let b := mwDHExportKey E shared in
  ekey ← expand_last16 ekey_stack b;
  c ← mwEncryptExpanded ekey mwIV_init (mwPutBuffer_finalize a);
  p ← (guint16_put 0x0001 >>> mwOpaque_put (Some (mwDHExportKey E public)) >>>
       mwOpaque_put (Some c.1)) mwPutBuffer_new;
  Some (mwPutBuffer_finalize p).

Definition HANDSHAKE_ACK_recv (msg : mwMsgHandshakeAck) : M unit :=
  let* st := session_get s_state in
  if negb (bool_decide (st = mwSession_HANDSHAKE) || bool_decide (st = mwSession_LOGIN_CONT))
  then ret tt else
  if bool_decide (st = mwSession_LOGIN_CONT) then
    state mwSession_HANDSHAKE_ACK (Word 0) ;;
    state mwSession_LOGIN (Word 0)
  else
    state mwSession_HANDSHAKE_ACK (Word 0) ;;
    property_set mwSession_SERVER_VER_MAJOR (GPOINTER (ha_major msg)) ;;
    property_set mwSession_SERVER_VER_MINOR (GPOINTER (ha_minor msg)) ;;
    let* login_type := property_uint mwSession_CLIENT_TYPE_ID in
    let* name := property_string mwSession_AUTH_USER_ID in
    let* pw := property_string mwSession_AUTH_PASSWORD in
    let* (auth_type, auth) :=
      (if 64 <=? len (ha_data msg)
       then let* auth := lift (compose_auth_rc2_128 pw (ha_magic msg) (ha_data msg)) in
            ret (mwAuthType_RC2_128, auth)
       else let* auth := lift (compose_auth_rc2_40 pw) in ret (mwAuthType_RC2_40, auth)) in
    let* r := mwSession_send (Some (message 0 (LOGIN {|
      lg_login_type := u16 login_type; lg_name := g_strdup name; lg_auth_type := auth_type;
      lg_auth_data := auth |}))) in
    if r =? 0 then state mwSession_LOGIN (Word 0) else ret tt.

Definition LOGIN_ACK_recv (msg : mwMsgLoginAck) : M unit :=
  let* st := session_get s_state in
  if negb (bool_decide (st = mwSession_LOGIN)) then ret tt else
  session_set (fun s => set_s_login
    (mwLoginInfo_clone (mwLoginInfo_clear (s_login s)) (la_login msg)) s) ;;
  state mwSession_LOGIN_ACK (Word 0) ;;
  let* l := mwSession_getServices in
  for_each (mwService_start E) l ;;
  state mwSession_STARTED (Word 0).

(** [info] is the host of the message. *)
Definition LOGIN_REDIRECT_recv (msg : mwMsgLoginRedirect) : M unit :=
  state mwSession_LOGIN_REDIR (gpointer_string (lr_host msg)).

Definition mwSession_forceLogin : M Z :=
  let* redir := mwSession_isState mwSession_LOGIN_REDIR in
  if negb redir then ret (-1) else
  state mwSession_LOGIN_CONT (Word 0) ;;
  mwSession_send (Some (message 0 LOGIN_CONTINUE)).

(** ** Other messages *)

Definition SET_PRIVACY_LIST_recv (msg : mwMsgSetPrivacyList) : M unit :=
  let* p := lift (mwPrivacyInfo_clone (sp_privacy msg)) in
  session_set (set_s_privacy p) ;;
  call0 (e_on_setPrivacyInfo E).

Definition mwSession_getService (srv : Z) : M (option Z) :=
  session_get (fun s => s_services s !! u32 srv).

Definition SENSE_SERVICE_recv (msg : mwMsgSenseService) : M unit :=
  let* srvc := mwSession_getService (sn_service msg) in
  match srvc with Some srvc => mwService_start E srvc | None => ret tt end.

Definition ADMIN_recv (msg : mwMsgAdmin) : M unit :=
  match e_on_admin E with Some f => f (ad_text msg) | None => ret tt end.

Definition ANNOUNCE_recv (msg : mwMsgAnnounce) : M unit :=
  match e_on_announce E with
  | Some f => f (an_sender msg) (an_may_reply msg) (an_text msg)
  | None => ret tt
  end.

Definition mwSession_sendAnnounce (may_reply : bool) (text : mwString) (recipients : list mwString)
    : M Z :=
  let* started := mwSession_isStarted in
  if negb started then ret (-1) else
  mwSession_send (Some (message 0 (ANNOUNCE {|
    an_sender_present := false; an_sender := li_zero; an_unknown_a := 0;
    an_may_reply := may_reply; an_text := g_strdup text; an_recipients := recipients |}))).

Definition mwSession_setPrivacyInfo (privacy : mwPrivacyInfo) : M Z :=
  let* p := lift (mwPrivacyInfo_clone privacy) in
  mwSession_send (Some (message 0 (SET_PRIVACY_LIST {| sp_privacy := p |}))).

Definition mwSession_setUserStatus (stat : mwUserStatus) : M Z :=
  mwSession_send (Some (message 0 (SET_USER_STATUS {| ss_status := mwUserStatus_clone stat |}))).

(** ** Services and ciphers *)

Definition mwSession_senseService (srvc : Z) : M unit :=
  if u32 srvc =? 0 then ret tt else
  let* started := mwSession_isStarted in
  if negb started then ret tt else
  mwSession_send (Some (message 0 (SENSE_SERVICE {| sn_service := srvc |}))) ;; ret tt.

Definition mwSession_addService (srv : Z) : M bool :=
  let* type := mwService_getType srv in
  let* old := mwSession_getService type in
  match old with
  | Some _ => ret false
  | None =>
      session_set (fun s => set_s_services (<[u32 type := srv]> (s_services s)) s) ;;
      let* started := mwSession_isState mwSession_STARTED in
      (if started then mwSession_senseService type else ret tt) ;;
      ret true
  end.

Definition mwSession_removeService (srv : Z) : M (option Z) :=
  let* svc := mwSession_getService srv in
  match svc with
  | Some _ => session_set (fun s => set_s_services (delete (u32 srv) (s_services s)) s)
  | None => ret tt
  end ;;
  ret svc.

Definition mwSession_getCipher (c : Z) : M (option Z) :=
  session_get (fun s => s_ciphers s !! c).

Definition mwSession_addCipher (c : Z) : M bool :=
  let* type := mwCipher_getType c in
  let* old := mwSession_getCipher type in
  match old with
  | Some _ => ret false
  | None => session_set (fun s => set_s_ciphers (<[type := c]> (s_ciphers s)) s) ;; ret true
  end.

Definition mwSession_removeCipher (c : Z) : M (option Z) :=
  let* ciph := mwSession_getCipher c in
  match ciph with
  | Some _ => session_set (fun s => set_s_ciphers (delete c (s_ciphers s)) s)
  | None => ret tt
  end ;;
  ret ciph.

Definition mwSession_getCiphers : M (list Z) := session_get (fun s => e_values E Z (s_ciphers s)).

End session.
