(* ===== verification/Channel.v ===== *)
(** * Channels (src/src/channel.c, and the message functions of service.c)

    Channels by their address on the heap; the channel set of the session maps
    ids to addresses and owns the channels in it. *)

From S2P Require Import Prelude Buffer Common Message Framing World Rc2 Cipher Service Session.
#[local] Open Scope Z_scope.
#[local] Open Scope mw_scope.

Definition mwChannel_isOutgoing (chan : Z) : M bool :=
  channel_get chan (fun ch => mwChannel_idIsOutgoing (ch_id ch)).
Definition mwChannel_isIncoming (chan : Z) : M bool :=
  channel_get chan (fun ch => mwChannel_idIsIncoming (ch_id ch)).
Definition mwChannel_getState (chan : Z) : M mwChannelState := channel_get chan ch_state.
Definition mwChannel_isState (chan : Z) (st : mwChannelState) : M bool :=
  channel_get chan (fun ch => bool_decide (ch_state ch = st)).

Definition state (chan : Z) (st : mwChannelState) : M unit :=
  let* old := mwChannel_getState chan in
  if bool_decide (old = st) then ret tt else channel_set chan (set_ch_state st).

(** ** Statistics *)

Definition get_stat (chan : Z) (field : mwChannelStatField) : M Z :=
  channel_get chan (fun ch => default 0 (ch_stats ch !! stat_key field)).
Definition set_stat (chan : Z) (field : mwChannelStatField) (val : Z) : M unit :=
  channel_set chan (fun ch => set_ch_stats (<[stat_key field := val]> (ch_stats ch)) ch).
Definition incr_stat (chan : Z) (field : mwChannelStatField) (incr : Z) : M unit :=
  let* v := get_stat chan field in set_stat chan field (v + incr).

(** ** The channel set *)

Definition channel_new (id : Z) : mwChannel := {|
  ch_state := mwChannel_NEW; ch_user := li_zero; ch_id := id; ch_service := 0;
  ch_proto_type := 0; ch_proto_ver := 0; ch_options := 0; ch_addtl_create := opaque_zero;
  ch_addtl_accept := opaque_zero; ch_supported := Some ∅; ch_offered_policy := 0; ch_policy := 0;
  ch_cipher := None; ch_stats := ∅; ch_outgoing_queue := []; ch_incoming_queue := []; ch_srvc_data := None |}.

(** The channel, its ciphers and its queues are gone. *)
Definition channel_free (chan : Z) : M unit :=
  deref_channel chan ;;
  modify (fun w => set_w_channels (delete chan (w_channels w)) w).

Definition mwChannel_find (id : Z) : M (option Z) :=
  session_get (fun s => s_chan_map s !! id).

(** [g_hash_table_insert] and [g_hash_table_remove] free the channel they
    replace or remove. *)
Definition chan_map_insert (id chan : Z) : M unit :=
  let* old := mwChannel_find id in
  session_set (fun s => set_s_chan_map (<[id := chan]> (s_chan_map s)) s) ;;
  match old with Some old => channel_free old | None => ret tt end.
Definition chan_map_remove (id : Z) : M unit :=
  let* old := mwChannel_find id in
  session_set (fun s => set_s_chan_map (delete id (s_chan_map s)) s) ;;
  match old with Some old => channel_free old | None => ret tt end.

Definition alloc_channel (ch : mwChannel) : M Z := fun w =>
  Some (w_next w, set_w_next (w_next w + 1) (set_w_channels (<[w_next w := ch]> (w_channels w)) w)).

Definition mwChannel_newIncoming (id : Z) : M Z :=
  let* chan := alloc_channel (channel_new id) in
  chan_map_insert id chan ;;
  state chan mwChannel_WAIT ;;
  ret chan.

(** [do id = ++cs->counter; while(g_hash_table_lookup(...))] *)
Fixpoint next_id (fuel : nat) : M Z :=
  match fuel with
  | O => crash
  | S fuel =>
      session_set (fun s => set_s_chan_counter (u32 (s_chan_counter s + 1)) s) ;;
      let* id := session_get s_chan_counter in
      let* used := mwChannel_find id in
      match used with Some _ => next_id fuel | None => ret id end
  end.

Definition mwChannel_newOutgoing : M Z :=
  let* n := session_get (fun s => size (s_chan_map s)) in
  let* id := next_id (S n) in
  let* chan := mwChannel_newIncoming id in
  state chan mwChannel_INIT ;;
  ret chan.

Definition mwChannelSet_free : M unit :=
  let* l := session_get (fun s => (map_to_list (s_chan_map s)).*2) in
  session_set (set_s_chan_map ∅) ;;
  for_each channel_free l.

(** ** Setters, in the state INIT *)

Definition set_if_init (chan : Z) (f : mwChannel -> mwChannel) : M unit :=
  let* init := mwChannel_isState chan mwChannel_INIT in
  if init then channel_set chan f else ret tt.

Definition mwChannel_setService (chan srvc : Z) : M unit :=
  let* init := mwChannel_isState chan mwChannel_INIT in
  if negb init then ret tt else
  let* type := mwService_getType srvc in channel_set chan (set_ch_service type).
Definition mwChannel_setProtoType (chan proto_type : Z) : M unit :=
  set_if_init chan (set_ch_proto_type proto_type).
Definition mwChannel_setProtoVer (chan proto_ver : Z) : M unit :=
  set_if_init chan (set_ch_proto_ver proto_ver).
Definition mwChannel_setOptions (chan options : Z) : M unit :=
  set_if_init chan (set_ch_options options).

Definition mwChannel_getService (chan : Z) : M (option Z) :=
  let* id := channel_get chan ch_service in mwSession_getService id.

(** The two fields of a login that name the other end. *)
Definition set_li_target (user community : mwString) (li : mwLoginInfo) : mwLoginInfo :=
  {| li_login_id := li_login_id li; li_type := li_type li; li_user_id := user; li_user_name := li_user_name li;
     li_community := community; li_full := li_full li; li_desc := li_desc li; li_ip_addr := li_ip_addr li;
     li_server_id := li_server_id li |}.

(** The data a service keeps with a channel, which it frees itself: the
    library gives no function with it. *)
Definition mwChannel_getServiceData (chan : Z) : M (option Z) := channel_get chan ch_srvc_data.
Definition mwChannel_setServiceData (chan d : Z) : M unit := channel_set chan (set_ch_srvc_data (Some d)).
Definition mwChannel_removeServiceData (chan : Z) : M unit := channel_set chan (set_ch_srvc_data None).

Section channel.
Context (E : Env).

(** ** Supported ciphers *)

(** A destroyed table is NULL: lookups find nothing. *)
Definition get_supported (ch : mwChannel) (id : Z) : option mwCipherInstance :=
  m ← ch_supported ch; m !! id.

Definition put_supported (chan : Z) (ci : mwCipherInstance) : M unit :=
  let* cid := mwCipher_getType (ci_cipher ci) in
  channel_set chan (fun ch => set_ch_supported ((fun m => <[cid := ci]> m) <$> ch_supported ch) ch).

Definition mwChannel_addSupportedCipherInstance : Z -> mwCipherInstance -> M unit := put_supported.

Definition mwChannel_populateSupportedCipherInstances (chan : Z) : M unit :=
  let* l := mwSession_getCiphers E in
  for_each (fun cipher => let* ci := mwCipher_newInstance cipher chan in put_supported chan ci) l.

Definition mwChannel_getSupportedCipherInstances (chan : Z) : M (list mwCipherInstance) :=
  channel_get chan (fun ch =>
    match ch_supported ch with Some m => e_values E mwCipherInstance m | None => [] end).

(** The policy of a cipher type. *)
Definition cipher_policy (cid : Z) : Z :=
  if cid =? mwCipher_RC2_40 then mwEncrypt_RC2_40
  else if cid =? mwCipher_RC2_128 then mwEncrypt_RC2_128
  else mwEncrypt_WHATEVER.

(** The other instances go with the table. *)
Definition mwChannel_selectCipherInstance (chan : Z) (ci : option mwCipherInstance) : M unit :=
  let* sup := channel_get chan ch_supported in
  match sup with
  | None => ret tt
  | Some _ =>
      channel_set chan (set_ch_cipher ci) ;;
      match ci with
      | Some ci =>
          let* cid := mwCipher_getType (ci_cipher ci) in
          channel_set chan (set_ch_policy (cipher_policy cid))
      | None => channel_set chan (set_ch_policy mwEncrypt_NONE)
      end ;;
      channel_set chan (set_ch_supported None)
  end.

(** ** Closing *)

Definition mwChannel_destroy (chan reason : Z) (info : option mwOpaque) : M Z :=
  state chan (if reason =? 0 then mwChannel_DESTROY else mwChannel_ERROR) ;;
  let* id := channel_get chan ch_id in
  let* d := lift (match info with Some o => mwOpaque_clone (Some o) | None => Some opaque_zero end) in
  chan_map_remove id ;;
  mwSession_send E (Some (message id (CHANNEL_DESTROY {| cd_reason := reason; cd_data := d |}))).

(** ** Handing messages to a service (service.c, lines 33-110) *)

(** The guards on the session and the id, before the function is called. *)
Definition service_guard (srvc chan : Z) (id : option Z) (m : M unit) : M unit :=
  let* s := deref_service srvc in
  let* ch := deref_channel chan in
  if negb (sv_session s) then ret tt else
  match id with Some id => if ch_id ch =? id then m else ret tt | None => m end.

Definition mwService_recvCreate (srvc chan : Z) (msg : mwMsgChannelCreate) : M unit :=
  service_guard srvc chan (Some (cc_channel msg))
    (match op_recv_create (e_service E srvc) with
     | Some f => f srvc chan msg
     | None => mwChannel_destroy chan ERR_FAILURE None ;; ret tt
     end).

Definition mwService_recvAccept (srvc chan : Z) (channel : Z) (msg : mwMsgChannelAccept) : M unit :=
  service_guard srvc chan (Some channel)
    (match op_recv_accept (e_service E srvc) with Some f => f srvc chan msg | None => ret tt end).

Definition mwService_recvDestroy (srvc chan : Z) (channel : Z) (msg : mwMsgChannelDestroy) : M unit :=
  service_guard srvc chan (Some channel)
    (match op_recv_destroy (e_service E srvc) with Some f => f srvc chan msg | None => ret tt end).

(** [msg_type] is a [guint16]. *)
Definition mwService_recv (srvc : option Z) (chan msg_type : Z) (d : mwOpaque) : M unit :=
  match srvc with
  | None => ret tt
  | Some srvc =>
      service_guard srvc chan None
        (match op_recv (e_service E srvc) with
         | Some f => f srvc chan (u16 msg_type) d
         | None => ret tt
         end)
  end.

(** ** Data *)

Definition queue_outgoing (chan : Z) (msg : mwMessage) : M unit :=
  channel_set chan (fun ch => set_ch_outgoing_queue (ch_outgoing_queue ch ++ [msg]) ch).

Definition channel_send (chan : Z) (msg : mwMessage) : M Z :=
  let* st := mwChannel_getState chan in
  if bool_decide (st = mwChannel_OPEN) then mwSession_send E (Some msg)
  else queue_outgoing chan msg ;; ret 0.

Definition mwChannel_sendEncrypted (chan type : Z) (d : option mwOpaque) (encrypt : bool) : M Z :=
  let* ch := deref_channel chan in
  let* d := lift (mwOpaque_clone d) in
  match ch_cipher ch with
  | Some ci =>
      if encrypt then
        let* (ci, d) := mwCipherInstance_encrypt (Some ci) d in
        channel_set chan (set_ch_cipher ci) ;;
        channel_send chan {|
          msg_head := {| mh_type := mwMessageType_code mwMessage_CHANNEL_SEND;
                         mh_options := mwMessageOption_ENCRYPT; mh_channel := ch_id ch;
                         mh_attribs := opaque_zero |};
          msg_body := CHANNEL_SEND {| cs_type := type; cs_data := d |} |}
      else channel_send chan (message (ch_id ch) (CHANNEL_SEND {| cs_type := type; cs_data := d |}))
  | None => channel_send chan (message (ch_id ch) (CHANNEL_SEND {| cs_type := type; cs_data := d |}))
  end.

Definition mwChannel_send (chan type : Z) (d : option mwOpaque) : M Z :=
  mwChannel_sendEncrypted chan type d true.

(** A NULL channel is an error. *)
Definition mwChannel_send_to (chan : option Z) (type : Z) (o : mwOpaque) : M Z :=
  match chan with Some chan => mwChannel_send chan type (Some o) | None => ret (-1) end.

Definition queue_incoming (chan : Z) (head : mwMessageHead) (msg : mwMsgChannelSend) : M unit :=
  let* head := lift (mwMessageHead_clone head) in
  let* d := lift (mwOpaque_clone (Some (cs_data msg))) in
  channel_set chan (fun ch => set_ch_incoming_queue
    (ch_incoming_queue ch ++ [(head, {| cs_type := cs_type msg; cs_data := d |})]) ch).

Definition channel_recv (chan : Z) (head : mwMessageHead) (msg : mwMsgChannelSend) : M unit :=
  let* srvc := mwChannel_getService chan in
  incr_stat chan mwChannelStat_MSG_RECV 1 ;;
  if MW_MESSAGE_HAS_OPTION (mh_options head) mwMessageOption_ENCRYPT then
    let* d := lift (mwOpaque_clone (Some (cs_data msg))) in
    let* ci := channel_get chan ch_cipher in
    let* (ci, d) := mwCipherInstance_decrypt ci d in
    channel_set chan (set_ch_cipher ci) ;;
    mwService_recv srvc chan (cs_type msg) d
  else
    mwService_recv srvc chan (cs_type msg) (cs_data msg).

(** The messages are on the queue while they go out; [l->next] is read from
    the channel's list, so the channel must still be there. *)
Definition flush_channel (chan : Z) : M unit :=
  let* l := channel_get chan ch_incoming_queue in
  for_each (fun m => channel_recv chan m.1 m.2 ;; deref_channel chan ;; ret tt) l ;;
  channel_set chan (set_ch_incoming_queue []) ;;
  let* l := channel_get chan ch_outgoing_queue in
  for_each (fun m => mwSession_send E (Some m) ;; deref_channel chan ;; ret tt) l ;;
  channel_set chan (set_ch_outgoing_queue []).

Definition mwChannel_recv (chan : Z) (head : mwMessageHead) (msg : mwMsgChannelSend) : M unit :=
  let* st := mwChannel_getState chan in
  if bool_decide (st = mwChannel_OPEN) then channel_recv chan head msg
  else queue_incoming chan head msg.

(** ** Opening *)

Definition channel_open (chan : Z) : M unit :=
  state chan mwChannel_OPEN ;;
  set_stat chan mwChannelStat_OPENED_AT (e_time E) ;;
  flush_channel chan.

(** The offers of the supported ciphers, in order. *)
Fixpoint offers (l : list mwCipherInstance) : M (list mwEncryptItem) :=
  match l with
  | [] => ret []
  | ci :: l =>
      let* ei := mwCipherInstance_offer ci in
      let* items := offers l in ret (ei :: items)
  end.

Definition mwChannel_create (chan : Z) : M Z :=
  let* ch := deref_channel chan in
  if negb (bool_decide (ch_state ch = mwChannel_INIT)) then ret (-1) else
  if negb (mwChannel_idIsOutgoing (ch_id ch)) then ret (-1) else
  let* addtl := lift (mwOpaque_clone (Some (ch_addtl_create ch))) in
  let* l := mwChannel_getSupportedCipherInstances chan in
  let* items := offers l in
  let policy := match l with [] => mwEncrypt_NONE | _ => mwEncrypt_WHATEVER end in
  channel_set chan (set_ch_offered_policy policy) ;;
  let* r := mwSession_send E (Some (message 0 (CHANNEL_CREATE {|
    cc_reserved := 0; cc_channel := ch_id ch;
    cc_target := {| id_user := g_strdup (li_user_id (ch_user ch));
                    id_community := g_strdup (li_community (ch_user ch)) |};
    cc_service := ch_service ch; cc_proto_type := ch_proto_type ch; cc_proto_ver := ch_proto_ver ch;
    cc_options := ch_options ch; cc_addtl := addtl; cc_creator_flag := false; cc_creator := li_zero;
    cc_encrypt := {| eo_mode := policy; eo_items := items; eo_extra := policy; eo_flag := false |} |})))
  in
  state chan (if r =? 0 then mwChannel_WAIT else mwChannel_ERROR) ;;
  ret r.

(** The cipher when none was selected. *)
Definition default_cipher (chan : Z) : M (option mwCipherInstance) :=
  let* ch := deref_channel chan in
  if ch_offered_policy ch =? mwEncrypt_NONE then ret None
  else if ch_offered_policy ch =? mwEncrypt_RC2_40 then ret (get_supported ch mwCipher_RC2_40)
  else if ch_offered_policy ch =? mwEncrypt_RC2_128 then ret (get_supported ch mwCipher_RC2_128)
  else let* l := mwChannel_getSupportedCipherInstances chan in ret (head (reverse l)).

Definition mwChannel_accept (chan : Z) : M Z :=
  let* ch := deref_channel chan in
  if negb (mwChannel_idIsIncoming (ch_id ch)) then ret (-1) else
  if negb (bool_decide (ch_state ch = mwChannel_WAIT)) then ret (-1) else
  let* addtl := lift (mwOpaque_clone (Some (ch_addtl_accept ch))) in
  match ch_cipher ch with
  | Some _ => ret tt
  | None => let* ci := default_cipher chan in mwChannel_selectCipherInstance chan ci
  end ;;
  let* ch' := deref_channel chan in
  let* item := (match ch_cipher ch' with
                | Some ci =>
                    let* (ci, item) := mwCipherInstance_accept ci in
                    channel_set chan (set_ch_cipher (Some ci)) ;; ret (Some item)
                | None => ret None
                end) in
  let* r := mwSession_send E (Some (message (ch_id ch) (CHANNEL_ACCEPT {|
    ca_service := ch_service ch; ca_proto_type := ch_proto_type ch; ca_proto_ver := ch_proto_ver ch;
    ca_addtl := addtl; ca_acceptor_flag := false; ca_acceptor := li_zero;
    ca_encrypt := {| ea_mode := ch_policy ch'; ea_item := item;
                     ea_extra := ch_offered_policy ch'; ea_flag := false |} |}))) in
  (if r =? 0 then channel_open chan else state chan mwChannel_ERROR) ;;
  ret r.

(** ** Messages about a channel *)

(** The ciphers offered that the session has. *)
Definition offered_item (chan : Z) (ei : mwEncryptItem) : M unit :=
  let* cipher := mwSession_getCipher (ei_id ei) in
  match cipher with
  | None => ret tt
  | Some cipher =>
      let* ci := mwCipher_newInstance cipher chan in
      let* ci := mwCipherInstance_offered E ci ei in
      mwChannel_addSupportedCipherInstance chan ci
  end.

Definition mwChannel_recvCreate (chan : Z) (msg : mwMsgChannelCreate) : M unit :=
  let* id := channel_get chan ch_id in
  if negb (id =? cc_channel msg) then ret tt else
  if mwChannel_idIsOutgoing id then mwChannel_destroy chan ERR_REQUEST_INVALID None ;; ret tt else
  channel_set chan (set_ch_offered_policy (eo_mode (cc_encrypt msg))) ;;
  for_each (offered_item chan) (eo_items (cc_encrypt msg)) ;;
  channel_set chan (fun ch => set_ch_user (mwLoginInfo_clone (ch_user ch) (cc_creator msg)) ch) ;;
  channel_set chan (set_ch_service (cc_service msg)) ;;
  channel_set chan (set_ch_proto_type (cc_proto_type msg)) ;;
  channel_set chan (set_ch_proto_ver (cc_proto_ver msg)) ;;
  let* srvc := mwSession_getService (cc_service msg) in
  match srvc with
  | Some srvc => mwService_recvCreate srvc chan msg
  | None => mwChannel_destroy chan ERR_SERVICE_NO_SUPPORT None ;; ret tt
  end.

(** The cipher of an accept message; [false] when it was not offered. *)
Definition accept_cipher (chan : Z) (enc : mwEncryptAccept) : M bool :=
  match ea_item enc with
  | Some item =>
      if ea_mode enc =? 0 then mwChannel_selectCipherInstance chan None ;; ret true else
      let* ch := deref_channel chan in
      match get_supported ch (ei_id item) with
      | None => ret false
      | Some ci =>
          let* ci := mwCipherInstance_accepted E ci item in
          mwChannel_selectCipherInstance chan (Some ci) ;; ret true
      end
  | None => mwChannel_selectCipherInstance chan None ;; ret true
  end.

Definition mwChannel_recvAccept (chan channel : Z) (msg : mwMsgChannelAccept) : M unit :=
  let* ch := deref_channel chan in
  if negb (ch_id ch =? channel) then ret tt else
  if mwChannel_idIsIncoming (ch_id ch) then mwChannel_destroy chan ERR_REQUEST_INVALID None ;; ret tt else
  if negb (bool_decide (ch_state ch = mwChannel_WAIT))
  then mwChannel_destroy chan ERR_REQUEST_INVALID None ;; ret tt else
  channel_set chan (fun ch => set_ch_user (mwLoginInfo_clone (ch_user ch) (ca_acceptor msg)) ch) ;;
  let* srvc := mwSession_getService (ch_service ch) in
  match srvc with
  | None => mwChannel_destroy chan ERR_SERVICE_NO_SUPPORT None ;; ret tt
  | Some srvc =>
      channel_set chan (set_ch_policy (ea_mode (ca_encrypt msg))) ;;
      let* ok := accept_cipher chan (ca_encrypt msg) in
      if negb ok then mwChannel_destroy chan ERR_REQUEST_INVALID None ;; ret tt else
      state chan mwChannel_OPEN ;;
      mwService_recvAccept srvc chan channel msg ;;
      let* open := mwChannel_isState chan mwChannel_OPEN in
      if open then channel_open chan else ret tt
  end.

Definition mwChannel_recvDestroy (chan channel : Z) (msg : mwMsgChannelDestroy) : M unit :=
  let* id := channel_get chan ch_id in
  if negb (id =? channel) then ret tt else
  state chan (if cd_reason msg =? 0 then mwChannel_DESTROY else mwChannel_ERROR) ;;
  let* srvc := mwChannel_getService chan in
  match srvc with Some srvc => mwService_recvDestroy srvc chan channel msg | None => ret tt end ;;
  let* id := channel_get chan ch_id in
  chan_map_remove id.

End channel.
