(* ===== verification/Store.v ===== *)
(** * The storage service (src/src/srvc_store.c)

    A client asks for data by a key, or has it kept under one.  Requests wait
    on a list until the server answers; the client is told by the function it
    gave with the request.  A loop over the list of requests that calls out of
    the library expects the list to be the same afterwards: a client that
    changes it from within such a call is outside the model. *)

From S2P Require Import Prelude Buffer Common Message Framing World Rc2 Cipher Service Session Channel.
#[local] Open Scope Z_scope.
#[local] Open Scope mw_scope.

Definition mwService_STORAGE : Z := 0x00000018.
Definition PROTOCOL_TYPE : Z := 0x00000025.
Definition PROTOCOL_VER : Z := 0x00000001.

Definition storage_action_code (a : storage_action) : Z :=
  match a with
  | action_load => 0x0004
  | action_loaded => 0x0005
  | action_save => 0x0006
  | action_saved => 0x0007
  end.

(** ** Assignments to fields *)

Definition set_sr_result_code (v : Z) (r : mwStorageReq) : mwStorageReq :=
  {| sr_id := sr_id r; sr_result_code := v; sr_action := sr_action r; sr_item := sr_item r;
     sr_cb := sr_cb r; sr_data := sr_data r; sr_data_free := sr_data_free r |}.
Definition set_sr_action (v : storage_action) (r : mwStorageReq) : mwStorageReq :=
  {| sr_id := sr_id r; sr_result_code := sr_result_code r; sr_action := v; sr_item := sr_item r;
     sr_cb := sr_cb r; sr_data := sr_data r; sr_data_free := sr_data_free r |}.
Definition clear_sr_data (r : mwStorageReq) : mwStorageReq :=
  {| sr_id := sr_id r; sr_result_code := sr_result_code r; sr_action := sr_action r; sr_item := sr_item r;
     sr_cb := sr_cb r; sr_data := 0; sr_data_free := 0 |}.
Definition set_su_key (v : Z) (u : mwStorageUnit) : mwStorageUnit := {| su_key := v; su_data := su_data u |}.
Definition set_su_data (v : mwOpaque) (u : mwStorageUnit) : mwStorageUnit := {| su_key := su_key u; su_data := v |}.
Definition set_st_pending (v : list Z) (s : mwServiceStorage) : mwServiceStorage :=
  {| st_pending := v; st_channel := st_channel s; st_id_counter := st_id_counter s |}.
Definition set_st_channel (v : option Z) (s : mwServiceStorage) : mwServiceStorage :=
  {| st_pending := st_pending s; st_channel := v; st_id_counter := st_id_counter s |}.
Definition set_st_id_counter (v : Z) (s : mwServiceStorage) : mwServiceStorage :=
  {| st_pending := st_pending s; st_channel := st_channel s; st_id_counter := v |}.

(** ** What the client gives with a request *)

(** [mwStorageCallback] and [GDestroyNotify], by their address. *)
Record StorageClient := {
  sc_cb : Z -> Z -> Z -> Z -> Z -> M unit;   (* function, service, result, item, data *)
  sc_free : Z -> Z -> M unit;                (* function, data *)
}.

(** ** Units *)

Definition unit_zero (key : Z) : mwStorageUnit := {| su_key := key; su_data := opaque_zero |}.

Definition mwStorageUnit_new (key : Z) : M Z := obj_new (unit_zero key).

Definition mwStorageUnit_newOpaque (key : Z) (d : option mwOpaque) : M Z :=
  match d with
  | Some d => let* d := lift (mwOpaque_clone (Some d)) in obj_new {| su_key := key; su_data := d |}
  | None => obj_new (unit_zero key)
  end.

Definition mwStorageUnit_newInteger (key val : Z) : M Z :=
  let* b := lift (guint32_put val mwPutBuffer_new) in
  obj_new {| su_key := key; su_data := mwPutBuffer_finalize b |}.

Definition mwStorageUnit_newBoolean (key : Z) (val : bool) : M Z :=
  mwStorageUnit_newInteger key (Z.b2z val).

Definition mwStorageUnit_newString (key : Z) (str : mwString) : M Z :=
  let* b := lift (mwString_put str mwPutBuffer_new) in
  obj_new {| su_key := key; su_data := mwPutBuffer_finalize b |}.

Definition mwStorageUnit_getKey (item : option Z) : M Z :=
  match item with Some item => obj_get item su_key | None => ret 0 end.

(** The uninitialised local is only used when it was set. *)
Definition mwStorageUnit_asInteger (item : option Z) (val : Z) : M Z :=
  match item with
  | None => ret val
  | Some item =>
      let* d := obj_get item su_data in
      let* (v, b) := lift (guint32_get 0 (mwGetBuffer_wrap (Some d))) in
      ret (if mwGetBuffer_error b then val else v)
  end.

Definition mwStorageUnit_asBoolean (item : option Z) (val : bool) : M bool :=
  let* v := mwStorageUnit_asInteger item (Z.b2z val) in ret (negb (v =? 0)).

Definition mwStorageUnit_asString (item : option Z) : M mwString :=
  match item with
  | None => ret None
  | Some item =>
      let* d := obj_get item su_data in
      let* (c, _) := lift (mwString_get (mwGetBuffer_wrap (Some d))) in ret c
  end.

Definition mwStorageUnit_asOpaque (item : option Z) : M (option mwOpaque) :=
  match item with
  | None => ret None
  | Some item => let* d := obj_get item su_data in ret (Some d)
  end.

(** NULL is 0. *)
Definition mwStorageUnit_free (item : Z) : M unit :=
  if item =? 0 then ret tt else obj_set item (set_su_data opaque_zero) ;; free_object item.

Section storage.
Context (E : Env) (cl : StorageClient).

(** ** Requests *)

(** [count] is what was on the stack when it is not read. *)
Definition request_get (b : mwGetBuffer) (req : Z) : M mwGetBuffer :=
  if mwGetBuffer_error b then ret b else
  let* (_, b) := lift (guint32_get 0 b) in
  let* r := obj_deref req in
  let* (result, b) := lift (guint32_get (sr_result_code r) b) in
  obj_set req (set_sr_result_code result) ;;
  if bool_decide (sr_action r = action_loaded) then
    let* (count, b) := lift (guint32_get (u_count (e_uninit E)) b) in
    if 0 <? count then
      let* (_, b) := lift (guint32_get (u_junk (e_uninit E)) b) in
      let* item := obj_deref (sr_item r) in
      let* (key, b) := lift (guint32_get (su_key item) b) in
      let* (d, b) := lift (mwOpaque_get b) in
      obj_set (sr_item r) (fun _ => {| su_key := key; su_data := d |}) ;;
      ret b
    else ret b
  else ret b.

Definition request_put (r : mwStorageReq) (item : mwStorageUnit) : Put :=
  guint32_put (sr_id r) >>>
  guint32_put 1 >>>
  (if bool_decide (sr_action r = action_save)
   then guint32_put (u32 (20 + len (su_data item))) >>>
        guint32_put (su_key item) >>>
        mwOpaque_put (Some (su_data item))
   else guint32_put (su_key item)).

Definition request_send (chan : option Z) (req : Z) : M Z :=
  let* r := obj_deref req in
  let* item := obj_deref (sr_item r) in
  let* b := lift (request_put r item mwPutBuffer_new) in
  let* res := mwChannel_send_to E chan (storage_action_code (sr_action r)) (mwPutBuffer_finalize b) in
  (if res =? 0 then
     obj_set req (fun r =>
       match sr_action r with
       | action_save => set_sr_action action_saved r
       | action_load => set_sr_action action_loaded r
       | _ => r
       end)
   else ret tt) ;;
  ret res.

Fixpoint find_req (l : list Z) (id : Z) : M (option Z) :=
  match l with
  | [] => ret None
  | p :: l =>
      let* r := obj_deref p in
      if sr_id r =? id then ret (Some p) else find_req l id
  end.

Definition request_find (srvc id : Z) : M (option Z) :=
  let* l := obj_get srvc st_pending in find_req l id.

Definition request_trigger (srvc req : Z) : M unit :=
  let* r := obj_deref req in
  @obj_deref mwStorageUnit _ (sr_item r) ;;
  if sr_cb r =? 0 then ret tt
  else sc_cb cl (sr_cb r) srvc (sr_result_code r) (sr_item r) (sr_data r).

Definition request_free (req : Z) : M unit :=
  let* r := obj_deref req in
  (if sr_data_free r =? 0 then ret tt
   else sc_free cl (sr_data_free r) (sr_data r) ;; obj_set req clear_sr_data) ;;
  let* item := obj_get req sr_item in
  mwStorageUnit_free item ;;
  free_object req.

(** [g_list_remove_all] *)
Definition request_remove (srvc req : Z) : M unit :=
  obj_set srvc (fun s => set_st_pending (filter (fun p => p <> req) (st_pending s)) s) ;;
  request_free req.

(** [for(l = srvc->pending; l; l = l->next) f(l->data);] *)
Fixpoint for_pending (srvc : Z) (f : Z -> M unit) (pending l : list Z) : M unit :=
  match l with
  | [] => ret tt
  | p :: l =>
      f p ;;
      let* now := obj_get srvc st_pending in
      if bool_decide (now = pending) then for_pending srvc f pending l else crash
  end.

Definition each_pending (srvc : Z) (f : Z -> M unit) : M unit :=
  let* l := obj_get srvc st_pending in for_pending srvc f l l.

(** ** The functions of the service *)

Definition make_channel (srvc : Z) : M (option Z) :=
  let* chan := mwChannel_newOutgoing in
  mwChannel_setService chan srvc ;;
  mwChannel_setProtoType chan PROTOCOL_TYPE ;;
  mwChannel_setProtoVer chan PROTOCOL_VER ;;
  let* r := mwChannel_create E chan in
  ret (if r =? 0 then Some chan else None).

Definition start (srvc : Z) : M unit :=
  let* chan := make_channel srvc in
  match chan with
  | Some chan => obj_set srvc (set_st_channel (Some chan))
  | None => mwService_stopped srvc
  end.

(** The requests that wait are dropped. *)
Definition drop_pending (srvc : Z) : M unit :=
  each_pending srvc request_free ;;
  obj_set srvc (fun s => set_st_id_counter 0 (set_st_pending [] s)).

Definition stop (srvc : Z) : M unit :=
  let* chan := obj_get srvc st_channel in
  match chan with
  | Some chan => mwChannel_destroy E chan ERR_SUCCESS None ;; obj_set srvc (set_st_channel None)
  | None => ret tt
  end ;;
  drop_pending srvc ;;
  mwService_stopped srvc.

Definition recv_channelAccept (srvc chan : Z) (msg : mwMsgChannelAccept) : M unit :=
  let* c := obj_get srvc st_channel in
  if negb (bool_decide (c = Some chan)) then ret tt else
  each_pending srvc (fun req =>
    let* r := obj_deref req in
    if bool_decide (sr_action r = action_save) || bool_decide (sr_action r = action_load)
    then request_send (Some chan) req ;; ret tt
    else ret tt) ;;
  mwService_started srvc.

Definition recv_channelDestroy (srvc chan : Z) (msg : mwMsgChannelDestroy) : M unit :=
  let* sv := deref_service srvc in
  if negb (sv_session sv) then ret tt else
  obj_set srvc (set_st_channel None) ;;
  mwService_stop E srvc ;;
  let* type := mwService_getType srvc in
  mwSession_senseService E type.

Definition recv (srvc chan type : Z) (d : mwOpaque) : M unit :=
  let* c := obj_get srvc st_channel in
  if negb (bool_decide (c = Some chan)) then ret tt else
  let b := mwGetBuffer_wrap (Some d) in
  let* id := lift (guint32_peek b) in
  let* req := request_find srvc id in
  match req with
  | None => ret tt
  | Some req =>
      let* r := obj_deref req in
      if negb (storage_action_code (sr_action r) =? type) then ret tt else
      let* b := request_get b req in
      (if mwGetBuffer_error b then ret tt else request_trigger srvc req) ;;
      request_remove srvc req
  end.

Definition clear (srvc : Z) : M unit := drop_pending srvc.

Definition storage_ops : ServiceOps := {|
  op_recv_create := None;
  op_recv_accept := Some recv_channelAccept;
  op_recv_destroy := Some recv_channelDestroy;
  op_recv := Some recv;
  op_start := Some start;
  op_stop := Some stop;
  op_clear := Some clear |}.

Definition mwServiceStorage_new : M Z :=
  let* srvc := mwService_init mwService_STORAGE in
  attach_object srvc (obj_in {| st_pending := []; st_channel := None; st_id_counter := 0 |}) ;;
  ret srvc.

(** ** Requests of the client *)

Definition request_new (srvc item cb d d_free : Z) (action : storage_action) : M Z :=
  obj_set srvc (fun s => set_st_id_counter (u32 (st_id_counter s + 1)) s) ;;
  let* id := obj_get srvc st_id_counter in
  obj_new {| sr_id := id; sr_result_code := 0; sr_action := action; sr_item := item; sr_cb := cb;
             sr_data := d; sr_data_free := d_free |}.

Definition request_start (srvc item cb d d_free : Z) (action : storage_action) : M unit :=
  let* req := request_new srvc item cb d d_free action in
  obj_set srvc (fun s => set_st_pending (st_pending s ++ [req]) s) ;;
  let* st := mwService_getState srvc in
  if bool_decide (st = mwServiceState_STARTED) then
    let* chan := obj_get srvc st_channel in request_send chan req ;; ret tt
  else ret tt.

Definition mwServiceStorage_load (srvc item cb d d_free : Z) : M unit :=
  request_start srvc item cb d d_free action_load.
Definition mwServiceStorage_save (srvc item cb d d_free : Z) : M unit :=
  request_start srvc item cb d d_free action_save.

End storage.
