(* ===== verification/Resolve.v ===== *)
(** * The resolution service (src/src/srvc_resolve.c)

    Names are looked up by the server.  A search waits in a table under its
    id until it is answered or cancelled; the client is told by the function
    it gave with the search, and its data is cleaned up when the search goes. *)

From S2P Require Import Prelude Buffer Common Message Framing World Rc2 Cipher Service Session Channel.
#[local] Open Scope Z_scope.
#[local] Open Scope mw_scope.

Definition mwService_RESOLVE : Z := 0x00000015.
Definition SEARCH_ERROR : Z := 0x00.
Definition PROTOCOL_TYPE : Z := 0x00000015.
Definition PROTOCOL_VER : Z := 0x00000000.
Definition RESOLVE_ACTION : Z := 0x02.

(** ** Results *)

Record mwResolveMatch := { rm_id : mwString; rm_name : mwString; rm_desc : mwString; rm_type : Z }.
Record mwResolveResult := { rr_code : Z; rr_name : mwString; rr_matches : list mwResolveMatch }.

Definition load_match : Get mwResolveMatch :=
  let! id := mwString_get in
  let! name := mwString_get in
  let! desc := mwString_get in
  let! type := guint32_get 0 in
  gret {| rm_id := id; rm_name := name; rm_desc := desc; rm_type := type |}.

Definition load_matches (count : nat) : Get (list mwResolveMatch) := get_many load_match count.

(** ** Assignments to fields *)

Definition set_rs_channel (v : option Z) (s : mwServiceResolve) : mwServiceResolve :=
  {| rs_channel := v; rs_searches := rs_searches s; rs_counter := rs_counter s |}.
Definition set_rs_searches (v : option (gmap Z Z)) (s : mwServiceResolve) : mwServiceResolve :=
  {| rs_channel := rs_channel s; rs_searches := v; rs_counter := rs_counter s |}.
Definition set_rs_counter (v : Z) (s : mwServiceResolve) : mwServiceResolve :=
  {| rs_channel := rs_channel s; rs_searches := rs_searches s; rs_counter := v |}.

(** ** What the client gives with a search

    [mwResolveHandler] and [GDestroyNotify], by their address. *)
Record ResolveClient := {
  rc_handler : Z -> Z -> Z -> Z -> list mwResolveResult -> Z -> M unit; (* function, service, id, code, results, data *)
  rc_cleanup : Z -> Z -> M unit;                                        (* function, data *)
}.

Section resolve.
Context (E : Env) (cl : ResolveClient).

(** The locals are what was on the stack when they are not read. *)
Definition load_result : Get mwResolveResult :=
  let! _ := guint32_get (u_junk (e_uninit E)) in
  let! code := guint32_get 0 in
  let! name := mwString_get in
  let! matches := guint32_get (u_count (e_uninit E)) in
  let! l := load_matches (Z.to_nat matches) in
  gret {| rr_code := code; rr_name := name; rr_matches := l |}.

Definition load_results (count : nat) : Get (list mwResolveResult) := get_many load_result count.

(** ** Searches *)

(** The ids are counted through, but for [SEARCH_ERROR]: at most two tries. *)
Fixpoint search_id (tries : nat) (srvc : Z) : M Z :=
  match tries with
  | O => crash
  | S tries =>
      let* id := obj_get srvc rs_counter in
      obj_set srvc (set_rs_counter (u32 (id + 1))) ;;
      if id =? SEARCH_ERROR then search_id tries srvc else ret id
  end.

Definition search_new (srvc handler d cleanup : Z) : M Z :=
  let* id := search_id 2 srvc in
  obj_new {| se_service := srvc; se_id := id; se_handler := handler; se_data := d; se_cleanup := cleanup |}.

Definition search_free (search : Z) : M unit :=
  let* s := obj_deref search in
  (if se_cleanup s =? 0 then ret tt else rc_cleanup cl (se_cleanup s) (se_data s)) ;;
  free_object search.

(** ** The table: GLib's, with [search_free] for the values

    A value is freed after it has left the table; no table is none of them. *)

Definition searches_clear (srvc : Z) : M unit :=
  let* t := obj_get srvc rs_searches in
  match t with
  | Some t =>
      obj_set srvc (set_rs_searches (Some ∅)) ;;
      for_each search_free (e_values E Z t)
  | None => ret tt
  end.

Definition searches_remove (srvc id : Z) : M unit :=
  let* t := obj_get srvc rs_searches in
  match t ≫= (fun t => t !! id) with
  | Some search =>
      obj_set srvc (fun s => set_rs_searches (delete id <$> rs_searches s) s) ;;
      search_free search
  | None => ret tt
  end.

Definition searches_insert (srvc id search : Z) : M unit :=
  let* t := obj_get srvc rs_searches in
  match t with
  | Some t =>
      obj_set srvc (set_rs_searches (Some (<[id := search]> t))) ;;
      match t !! id with Some old => search_free old | None => ret tt end
  | None => ret tt
  end.

(** [g_hash_table_destroy] *)
Definition searches_destroy (srvc : Z) : M unit :=
  searches_clear srvc ;; obj_set srvc (set_rs_searches None).

(** ** The functions of the service *)

Definition make_channel (srvc : Z) : M (option Z) :=
  let* chan := mwChannel_newOutgoing in
  mwChannel_setService chan srvc ;;
  mwChannel_setProtoType chan PROTOCOL_TYPE ;;
  mwChannel_setProtoVer chan PROTOCOL_VER ;;
  let* r := mwChannel_create E chan in
  ret (if r =? 0 then Some chan else None).

Definition start (srvc : Z) : M unit :=
  let* chan := make_channel srvc in
  match chan with
  | Some chan =>
      obj_set srvc (set_rs_channel (Some chan)) ;;
      obj_set srvc (set_rs_searches (Some ∅))
  | None => mwService_stopped srvc
  end.

Definition stop (srvc : Z) : M unit :=
  let* chan := obj_get srvc rs_channel in
  match chan with
  | Some chan => mwChannel_destroy E chan ERR_SUCCESS None ;; obj_set srvc (set_rs_channel None)
  | None => ret tt
  end ;;
  searches_destroy srvc ;;
  mwService_stopped srvc.

Definition clear (srvc : Z) : M unit := searches_destroy srvc.

Definition recv_create (srvc chan : Z) (msg : mwMsgChannelCreate) : M unit :=
  mwChannel_destroy E chan ERR_FAILURE None ;; ret tt.

Definition recv_accept (srvc chan : Z) (msg : mwMsgChannelAccept) : M unit :=
  let* c := obj_get srvc rs_channel in
  if negb (bool_decide (c = Some chan)) then ret tt else mwService_started srvc.

Definition recv_destroy (srvc chan : Z) (msg : mwMsgChannelDestroy) : M unit :=
  let* c := obj_get srvc rs_channel in
  if negb (bool_decide (c = Some chan)) then ret tt else
  obj_set srvc (set_rs_channel None) ;;
  mwService_stop E srvc ;;
  let* sv := deref_service srvc in
  if negb (sv_session sv) then ret tt else
  let* type := mwService_getType srvc in
  mwSession_senseService E type.

Definition recv (srvc chan type : Z) (d : mwOpaque) : M unit :=
  let* c := obj_get srvc rs_channel in
  if negb (bool_decide (c = Some chan)) then ret tt else
  if negb (type =? RESOLVE_ACTION) then ret tt else
  let u := e_uninit E in
  let* (_, b) := lift (guint32_get (u_junk u) (mwGetBuffer_wrap (Some d))) in
  let* (id, b) := lift (guint32_get (u_junk u) b) in
  let* (code, b) := lift (guint32_get (u_junk u) b) in
  let* (count, b) := lift (guint32_get (u_count u) b) in
  if mwGetBuffer_error b then ret tt else
  let* t := obj_get srvc rs_searches in
  match t ≫= (fun t => t !! id) with
  | Some search =>
      let* (results, b) := lift (load_results (Z.to_nat count) b) in
      (if mwGetBuffer_error b then ret tt else
         let* s := obj_deref search in
         rc_handler cl (se_handler s) srvc id code results (se_data s)) ;;
      searches_remove srvc id
  | None => ret tt
  end.

Definition resolve_ops : ServiceOps := {|
  op_recv_create := Some recv_create;
  op_recv_accept := Some recv_accept;
  op_recv_destroy := Some recv_destroy;
  op_recv := Some recv;
  op_start := Some start;
  op_stop := Some stop;
  op_clear := Some clear |}.

Definition mwServiceResolve_new : M Z :=
  let* srvc := mwService_init mwService_RESOLVE in
  attach_object srvc (obj_in {| rs_channel := None; rs_searches := None; rs_counter := 0 |}) ;;
  ret srvc.

(** ** Calls of the client *)

Definition resolve_put (id : Z) (queries : list mwString) (flags : Z) : Put :=
  guint32_put 0x00 >>>
  guint32_put id >>>
  guint32_put (zlen queries) >>>
  foldr (fun q p => mwString_put q >>> p) (guint32_put flags) queries.

(** A NULL handler is 0. *)
Definition mwServiceResolve_resolve (srvc : Z) (queries : list mwString)
    (flags handler d cleanup : Z) : M Z :=
  if handler =? 0 then ret SEARCH_ERROR else
  if negb (0 <? zlen queries) then ret SEARCH_ERROR else
  let* search := search_new srvc handler d cleanup in
  let* id := obj_get search se_id in
  let* b := lift (resolve_put id queries flags mwPutBuffer_new) in
  let* chan := obj_get srvc rs_channel in
  let* r := mwChannel_send_to E chan RESOLVE_ACTION (mwPutBuffer_finalize b) in
  if r =? 0 then
    searches_insert srvc id search ;;
    obj_get search se_id
  else
    search_free search ;;
    ret SEARCH_ERROR.

Definition mwServiceResolve_cancelResolve (srvc id : Z) : M unit :=
  let* t := obj_get srvc rs_searches in
  match t with Some _ => searches_remove srvc id | None => ret tt end.

End resolve.
