(* ===== verification/Ft.v ===== *)
(** * The file transfer service (src/src/srvc_ft.c)

    A file is offered with the channel that is to carry it; once the other
    side has accepted, the one that offered sends its bytes in chunks and the
    other acknowledges them.  The service keeps the list of its transfers; a
    transfer is found from a message by the data of its channel.  A client is
    told through the functions of its handler.  NULL is [None] where a caller
    may give it. *)

From S2P Require Import Prelude Buffer Common Message Framing World Util Rc2 Cipher Service Session Channel.
#[local] Open Scope Z_scope.
#[local] Open Scope mw_scope.

Definition mwService_FILE_TRANSFER : Z := 0x00000038.
Definition PROTOCOL_TYPE : Z := 0x00000000.
Definition PROTOCOL_VER : Z := 0x00000001.
Definition msg_TRANSFER : Z := 0x0001.
Definition msg_RECEIVED : Z := 0x0002.
Definition mwFileTransfer_SUCCESS : Z := 0x00000000.
Definition mwFileTransfer_REJECTED : Z := 0x08000606.

(** ** Assignments to fields *)

Definition set_xf_channel (v : option Z) (t : mwFileTransfer) : mwFileTransfer :=
  {| xf_service := xf_service t; xf_channel := v; xf_who := xf_who t; xf_state := xf_state t;
     xf_filename := xf_filename t; xf_message := xf_message t; xf_size := xf_size t;
     xf_remaining := xf_remaining t; xf_client_data := xf_client_data t |}.
Definition set_xf_state (v : mwFileTransferState) (t : mwFileTransfer) : mwFileTransfer :=
  {| xf_service := xf_service t; xf_channel := xf_channel t; xf_who := xf_who t; xf_state := v;
     xf_filename := xf_filename t; xf_message := xf_message t; xf_size := xf_size t;
     xf_remaining := xf_remaining t; xf_client_data := xf_client_data t |}.
Definition set_xf_remaining (v : Z) (t : mwFileTransfer) : mwFileTransfer :=
  {| xf_service := xf_service t; xf_channel := xf_channel t; xf_who := xf_who t; xf_state := xf_state t;
     xf_filename := xf_filename t; xf_message := xf_message t; xf_size := xf_size t;
     xf_remaining := v; xf_client_data := xf_client_data t |}.
Definition set_xf_client_data (v : mw_datum) (t : mwFileTransfer) : mwFileTransfer :=
  {| xf_service := xf_service t; xf_channel := xf_channel t; xf_who := xf_who t; xf_state := xf_state t;
     xf_filename := xf_filename t; xf_message := xf_message t; xf_size := xf_size t;
     xf_remaining := xf_remaining t; xf_client_data := v |}.
Definition set_fs_handler (v : bool) (s : mwServiceFileTransfer) : mwServiceFileTransfer :=
  {| fs_handler := v; fs_transfers := fs_transfers s |}.
Definition set_fs_transfers (v : list Z) (s : mwServiceFileTransfer) : mwServiceFileTransfer :=
  {| fs_handler := fs_handler s; fs_transfers := v |}.

(** ** The client *)

Record mwFileTransferHandler := {
  ft_offered : option (Z -> M unit);
  ft_opened : option (Z -> M unit);
  ft_closed : option (Z -> Z -> M unit);
  ft_recv : option (Z -> mwOpaque -> M unit);
  ft_ack : option (Z -> M unit);
  ft_clear : option (Z -> M unit);
  ft_free_data : Z -> Z -> M unit;   (* what is freed with the data of a transfer, by its address *)
}.

(** ** Names and states *)

Definition ft_state_str (st : mwFileTransferState) : string :=
  match st with
  | mwFileTransfer_NEW => "new"
  | mwFileTransfer_PENDING => "pending"
  | mwFileTransfer_OPEN => "open"
  | mwFileTransfer_CANCEL_LOCAL => "cancelled locally"
  | mwFileTransfer_CANCEL_REMOTE => "cancelled remotely"
  | mwFileTransfer_DONE => "done"
  | mwFileTransfer_ERROR => "error"
  | mwFileTransfer_UNKNOWN => "UNKNOWN"
  end.

Definition ft_state (ft : Z) (st : mwFileTransferState) : M unit :=
  let* old := obj_get ft xf_state in
  if bool_decide (old = st) then ret tt else obj_set ft (set_xf_state st).

Definition mwServiceFileTransfer_getTransfers (srvc : option Z) : M (list Z) :=
  nonnull srvc [] (fun srvc => obj_get srvc fs_transfers).
Definition mwFileTransfer_getState (ft : option Z) : M mwFileTransferState :=
  nonnull ft mwFileTransfer_UNKNOWN (fun ft => obj_get ft xf_state).
Definition mwFileTransfer_getUser (ft : option Z) : M (option mwIdBlock) :=
  nonnull ft None (fun ft => let* who := obj_get ft xf_who in ret (Some who)).
Definition mwFileTransfer_getMessage (ft : option Z) : M mwString :=
  nonnull ft None (fun ft => obj_get ft xf_message).
Definition mwFileTransfer_getFileName (ft : option Z) : M mwString :=
  nonnull ft None (fun ft => obj_get ft xf_filename).
Definition mwFileTransfer_getFileSize (ft : option Z) : M Z :=
  nonnull ft 0 (fun ft => obj_get ft xf_size).
Definition mwFileTransfer_getRemaining (ft : option Z) : M Z :=
  nonnull ft 0 (fun ft => obj_get ft xf_remaining).
Definition mwFileTransfer_getSent (ft : option Z) : M Z :=
  let* size := mwFileTransfer_getFileSize ft in
  let* remaining := mwFileTransfer_getRemaining ft in
  ret (u32 (size - remaining)).

Definition mwFileTransfer_isState (ft : Z) (st : mwFileTransferState) : M bool :=
  let* old := mwFileTransfer_getState (Some ft) in ret (bool_decide (old = st)).
Definition mwFileTransfer_isNew (ft : Z) : M bool := mwFileTransfer_isState ft mwFileTransfer_NEW.
Definition mwFileTransfer_isPending (ft : Z) : M bool := mwFileTransfer_isState ft mwFileTransfer_PENDING.
Definition mwFileTransfer_isOpen (ft : Z) : M bool := mwFileTransfer_isState ft mwFileTransfer_OPEN.
Definition mwFileTransfer_isDone (ft : Z) : M bool := mwFileTransfer_isState ft mwFileTransfer_DONE.

(** ** The offer *)

Definition offer_put (t : mwFileTransfer) : Put :=
  guint32_put 0 >>>
  mwString_put (xf_filename t) >>>
  mwString_put (xf_message t) >>>
  guint32_put (xf_size t) >>>
  guint32_put 0 >>>
  guint16_put 0.

(** File name, message and size; the locals are not used when they were not
    read. *)
Definition offer_get : Get (mwString * mwString * Z) :=
  let! _ := guint32_get 0 in
  let! fnm := mwString_get in
  let! txt := mwString_get in
  let! size := guint32_get 0 in
  let! _ := guint32_get 0 in
  gret (fnm, txt, size).

(** A new transfer, in the list of its service. *)
Definition mwFileTransfer_new (srvc : Z) (who : mwIdBlock) (msg filename : mwString) (filesize : Z) : M Z :=
  let* ft := obj_new {|
    xf_service := srvc; xf_channel := None;
    xf_who := mwIdBlock_clone who; xf_state := mwFileTransfer_NEW;
    xf_filename := g_strdup filename; xf_message := g_strdup msg;
    xf_size := filesize; xf_remaining := filesize; xf_client_data := datum_zero |} in
  ft_state ft mwFileTransfer_NEW ;;
  obj_set srvc (fun s => set_fs_transfers (ft :: fs_transfers s) s) ;;
  ret ft.

Section ft.
Context (E : Env) (h : mwFileTransferHandler).

(** ** Closing and freeing *)

(** A transfer has had a service since it was made. *)
Definition mwFileTransfer_close (ft : option Z) (code : Z) : M Z :=
  nonnull ft (-1) (fun ft =>
    let* open := mwFileTransfer_isOpen ft in
    (if open then ft_state ft mwFileTransfer_CANCEL_LOCAL else ret tt) ;;
    let* chan := obj_get ft xf_channel in
    let* r := (match chan with
               | Some chan =>
                   let* r := mwChannel_destroy E chan code None in
                   obj_set ft (set_xf_channel None) ;; ret r
               | None => ret 0
               end) in
    let* srvc := obj_get ft xf_service in
    let* handler := obj_get srvc fs_handler in
    if negb handler then ret r else
    call2 (ft_closed h) ft code ;;
    ret r).

Definition mwFileTransfer_removeClientData (ft : option Z) : M unit :=
  nonnull ft tt (fun ft =>
    let* d := obj_get ft xf_client_data in
    let* d := mw_datum_clear (ft_free_data h) d in
    obj_set ft (set_xf_client_data d)).

Definition mwFileTransfer_setClientData (ft : option Z) (d clean : Z) : M unit :=
  nonnull ft tt (fun ft =>
    obj_set ft (fun t => set_xf_client_data (mw_datum_set (xf_client_data t) d clean) t)).
Definition mwFileTransfer_getClientData (ft : option Z) : M Z :=
  nonnull ft 0 (fun ft => obj_get ft (fun t => mw_datum_get (xf_client_data t))).

Definition mwFileTransfer_free (ft : option Z) : M unit :=
  nonnull ft tt (fun ft =>
    let* srvc := obj_get ft xf_service in
    obj_set srvc (fun s => set_fs_transfers (g_list_remove (fs_transfers s) ft) s) ;;
    let* chan := obj_get ft xf_channel in
    match chan with
    | Some chan =>
        mwChannel_destroy E chan mwFileTransfer_SUCCESS None ;;
        obj_set ft (set_xf_channel None)
    | None => ret tt
    end ;;
    mwFileTransfer_removeClientData (Some ft) ;;
    free_object ft).

(** ** The functions of the service *)

Definition recv_channelCreate (srvc chan : Z) (msg : mwMsgChannelCreate) : M unit :=
  let* handler := obj_get srvc fs_handler in
  if negb handler then ret tt else
  let* (x, b) := lift (offer_get (mwGetBuffer_wrap (Some (cc_addtl msg)))) in
  if mwGetBuffer_error b then mwChannel_destroy E chan ERR_FAILURE None ;; ret tt else
  let '(fnm, txt, size) := x in
  let* login := channel_get chan ch_user in
  let* ft := mwFileTransfer_new srvc (login_into_id login) txt fnm size in
  obj_set ft (set_xf_channel (Some chan)) ;;
  ft_state ft mwFileTransfer_PENDING ;;
  mwChannel_setServiceData chan ft ;;
  call1 (ft_offered h) ft.

Definition recv_channelAccept (srvc chan : Z) (msg : mwMsgChannelAccept) : M unit :=
  let* handler := obj_get srvc fs_handler in
  if negb handler then ret tt else
  let* ft := mwChannel_getServiceData chan in
  nonnull ft tt (fun ft =>
    ft_state ft mwFileTransfer_OPEN ;;
    call1 (ft_opened h) ft).

Definition recv_channelDestroy (srvc chan : Z) (msg : mwMsgChannelDestroy) : M unit :=
  let code := cd_reason msg in
  let* handler := obj_get srvc fs_handler in
  if negb handler then ret tt else
  let* ft := mwChannel_getServiceData chan in
  nonnull ft tt (fun ft =>
    obj_set ft (set_xf_channel None) ;;
    let* done := mwFileTransfer_isDone ft in
    (if done then ret tt else ft_state ft mwFileTransfer_CANCEL_REMOTE) ;;
    mwFileTransfer_close (Some ft) code ;;
    ret tt).

(** [if(! ft->remaining) ft_state(ft, mwFileTransfer_DONE);] *)
Definition done_when_empty (ft : Z) : M unit :=
  let* remaining := obj_get ft xf_remaining in
  if remaining =? 0 then ft_state ft mwFileTransfer_DONE else ret tt.

(** The handler is used without a look at it: NULL is an error.  A length is a
    [gsize]. *)
Definition recv_TRANSFER (ft : Z) (d : mwOpaque) : M unit :=
  let* srvc := obj_get ft xf_service in
  let* handler := obj_get srvc fs_handler in
  guard (mwFileTransfer_isOpen ft) tt (
    let* remaining := obj_get ft xf_remaining in
    if remaining <? gsize (len d) then ret tt else
    obj_set ft (set_xf_remaining (u32 (remaining - gsize (len d)))) ;;
    done_when_empty ft ;;
    if handler then call2 (ft_recv h) ft d else crash).

Definition recv_RECEIVED (ft : Z) (d : mwOpaque) : M unit :=
  let* srvc := obj_get ft xf_service in
  let* handler := obj_get srvc fs_handler in
  done_when_empty ft ;;
  (if handler then call1 (ft_ack h) ft else crash) ;;
  let* remaining := obj_get ft xf_remaining in
  if remaining =? 0 then mwFileTransfer_close (Some ft) mwFileTransfer_SUCCESS ;; ret tt
  else ret tt.

(** Other types are only reported. *)
Definition recv (srvc chan type : Z) (d : mwOpaque) : M unit :=
  let* ft := mwChannel_getServiceData chan in
  nonnull ft tt (fun ft =>
    if type =? msg_TRANSFER then recv_TRANSFER ft d
    else if type =? msg_RECEIVED then recv_RECEIVED ft d
    else ret tt).

Definition clear (srvc : Z) : M unit :=
  let* handler := obj_get srvc fs_handler in
  (if handler then call1 (ft_clear h) srvc else ret tt) ;;
  obj_set srvc (set_fs_handler false).

Definition start (srvc : Z) : M unit := mwService_started srvc.

(** [while(srvc->transfers) mwFileTransfer_free(srvc->transfers->data);] *)
Fixpoint free_transfers (fuel : nat) (srvc : Z) : M unit :=
  let* l := obj_get srvc fs_transfers in
  match l, fuel with
  | [], _ => ret tt
  | ft :: _, S fuel => mwFileTransfer_free (Some ft) ;; free_transfers fuel srvc
  | _, O => crash
  end.

(** One round for each transfer there is: a client that makes new ones while
    its data is freed is outside the model. *)
Definition stop (srvc : Z) : M unit :=
  let* l := obj_get srvc fs_transfers in
  free_transfers (length l) srvc ;;
  mwService_stopped srvc.

Definition ft_ops : ServiceOps := {|
  op_recv_create := Some recv_channelCreate;
  op_recv_accept := Some recv_channelAccept;
  op_recv_destroy := Some recv_channelDestroy;
  op_recv := Some recv;
  op_start := Some start;
  op_stop := Some stop;
  op_clear := Some clear |}.

Definition mwServiceFileTransfer_new : M Z :=
  let* srvc := mwService_init mwService_FILE_TRANSFER in
  attach_object srvc (obj_in {| fs_handler := true; fs_transfers := [] |}) ;;
  ret srvc.

(** ** What the client calls *)

Definition has_channel (ft : Z) : M bool := obj_get ft (fun t => bool_decide (is_Some (xf_channel t))).

Definition mwFileTransfer_accept (ft : option Z) : M Z :=
  nonnull ft (-1) (fun ft =>
    let* chan := obj_get ft xf_channel in
    nonnull chan (-1) (fun chan =>
    guard (mwFileTransfer_isPending ft) (-1) (
    guard (mwChannel_isIncoming chan) (-1) (
    guard (mwChannel_isState chan mwChannel_WAIT) (-1) (
    let* srvc := obj_get ft xf_service in
    guard (obj_get srvc fs_handler) (-1) (
    let* r := mwChannel_accept E chan in
    (if r =? 0 then
       ft_state ft mwFileTransfer_OPEN ;;
       call1 (ft_opened h) ft
     else
       mwFileTransfer_close (Some ft) ERR_FAILURE ;; ret tt) ;;
    ret r)))))).

Definition ft_create_chan (ft : Z) : M unit :=
  guard (mwFileTransfer_isNew ft) tt (
  let* old := has_channel ft in
  if old then ret tt else
  let* srvc := obj_get ft xf_service in
  let* chan := mwChannel_newOutgoing in
  mwChannel_setService chan srvc ;;
  mwChannel_setProtoType chan PROTOCOL_TYPE ;;
  mwChannel_setProtoVer chan PROTOCOL_VER ;;
  mwChannel_populateSupportedCipherInstances E chan ;;
  let* t := obj_deref ft in
  channel_set chan (fun ch => set_ch_user (set_li_target (g_strdup (id_user (xf_who t)))
    (g_strdup (id_community (xf_who t))) (ch_user ch)) ch) ;;
  let* b := lift (offer_put t mwPutBuffer_new) in
  channel_set chan (set_ch_addtl_create (mwPutBuffer_finalize b)) ;;
  let* r := mwChannel_create E chan in
  obj_set ft (set_xf_channel (if r =? 0 then Some chan else None)) ;;
  if r =? 0 then mwChannel_setServiceData chan ft else ret tt).

(** 0 also when the offer failed. *)
Definition mwFileTransfer_offer (ft : option Z) : M Z :=
  nonnull ft (-1) (fun ft =>
    guard (let* old := has_channel ft in ret (negb old)) (-1) (
    guard (mwFileTransfer_isNew ft) (-1) (
    let* srvc := obj_get ft xf_service in
    guard (obj_get srvc fs_handler) (-1) (
    ft_create_chan ft ;;
    let* made := has_channel ft in
    (if made then ft_state ft mwFileTransfer_PENDING
     else
       ft_state ft mwFileTransfer_ERROR ;;
       mwFileTransfer_close (Some ft) ERR_FAILURE ;; ret tt) ;;
    ret 0)))).

Definition mwFileTransfer_reject (ft : option Z) : M Z := mwFileTransfer_close ft mwFileTransfer_REJECTED.
Definition mwFileTransfer_cancel (ft : option Z) : M Z := mwFileTransfer_close ft mwFileTransfer_SUCCESS.

Definition mwFileTransfer_send (ft : option Z) (d : mwOpaque) : M Z :=
  nonnull ft (-1) (fun ft =>
    guard (mwFileTransfer_isOpen ft) (-1) (
    let* chan := obj_get ft xf_channel in
    nonnull chan (-1) (fun chan =>
    guard (mwChannel_isOutgoing chan) (-1) (
    let* remaining := obj_get ft xf_remaining in
    if remaining <? gsize (len d) then ret (-1) else
    let* r := mwChannel_send E chan msg_TRANSFER (Some d) in
    (if r =? 0 then obj_set ft (fun t => set_xf_remaining (u32 (xf_remaining t - gsize (len d))) t) else ret tt) ;;
    ret r)))).

Definition mwFileTransfer_ack (ft : option Z) : M Z :=
  nonnull ft (-1) (fun ft =>
    let* chan := obj_get ft xf_channel in
    nonnull chan (-1) (fun chan =>
    guard (mwChannel_isIncoming chan) (-1) (
    mwChannel_sendEncrypted E chan msg_RECEIVED None false))).

End ft.
