(* ===== verification/Im.v ===== *)
(** * The instant messaging service (src/src/srvc_im.c)

    A conversation is with one other user and has a channel while it is open.
    The service keeps the list of its conversations; a message is for the
    conversation in the data of its channel.  What kinds of message a
    conversation can carry depends on the type of client that the two sides
    agree on when the channel is made; a long message goes in several parts.
    NULL is [None] where a caller may give it. *)

From S2P Require Import Prelude Buffer Common Message Framing World Util Rc2 Cipher Service Session Channel.
#[local] Open Scope Z_scope.
#[local] Open Scope mw_scope.

Definition mwService_IM : Z := 0x00001000.
Definition PROTOCOL_TYPE : Z := 0x00001000.
Definition PROTOCOL_VER : Z := 0x00000003.

Definition mwImAddtlA_NORMAL : Z := 0x00000001.
Definition mwImAddtlB_PRECONF : Z := 0x00000019.
Definition mwImAddtlC_NORMAL : Z := 0x00000002.

Definition msg_MESSAGE : Z := 0x0064.
Definition BREAKUP : Z := 2048.

Definition mwIm_TEXT : Z := 0x00000001.
Definition mwIm_DATA : Z := 0x00000002.

Definition mwImData_TYPING : Z := 0x00000001.
Definition mwImData_SUBJECT : Z := 0x00000003.
Definition mwImData_HTML : Z := 0x00000004.
Definition mwImData_MIME : Z := 0x00000005.
Definition mwImData_TIMESTAMP : Z := 0x00000006.
Definition mwImData_INVITE : Z := 0x0000000a.
Definition mwImData_MULTI_START : Z := 0x00001388.
Definition mwImData_MULTI_STOP : Z := 0x00001389.

(** [enum mwImClientType] is an [unsigned int]: any that the peer names. *)
Definition mwImClient_PLAIN : Z := 0x00000001.
Definition mwImClient_NOTESBUDDY : Z := 0x00033453.
Definition mwImClient_UNKNOWN : Z := 0xffffffff.

Definition mwStatus_BUSY : Z := 0x0080.
Definition ERR_CLIENT_USER_DND : Z := 0x80002001.
Definition ERR_IM_NOT_REGISTERED : Z := 0x80002005.

(** ** Assignments to fields *)

Definition set_cv_channel (v : option Z) (c : mwConversation) : mwConversation :=
  {| cv_service := cv_service c; cv_channel := v; cv_target := cv_target c; cv_ext_id := cv_ext_id c;
     cv_state := cv_state c; cv_features := cv_features c; cv_multi := cv_multi c;
     cv_multi_type := cv_multi_type c; cv_client_data := cv_client_data c |}.
Definition set_cv_target (v : mwIdBlock) (c : mwConversation) : mwConversation :=
  {| cv_service := cv_service c; cv_channel := cv_channel c; cv_target := v; cv_ext_id := cv_ext_id c;
     cv_state := cv_state c; cv_features := cv_features c; cv_multi := cv_multi c;
     cv_multi_type := cv_multi_type c; cv_client_data := cv_client_data c |}.
Definition set_cv_state (v : mwConversationState) (c : mwConversation) : mwConversation :=
  {| cv_service := cv_service c; cv_channel := cv_channel c; cv_target := cv_target c; cv_ext_id := cv_ext_id c;
     cv_state := v; cv_features := cv_features c; cv_multi := cv_multi c;
     cv_multi_type := cv_multi_type c; cv_client_data := cv_client_data c |}.
Definition set_cv_features (v : Z) (c : mwConversation) : mwConversation :=
  {| cv_service := cv_service c; cv_channel := cv_channel c; cv_target := cv_target c; cv_ext_id := cv_ext_id c;
     cv_state := cv_state c; cv_features := v; cv_multi := cv_multi c;
     cv_multi_type := cv_multi_type c; cv_client_data := cv_client_data c |}.
Definition set_cv_multi (v : option (list Z)) (c : mwConversation) : mwConversation :=
  {| cv_service := cv_service c; cv_channel := cv_channel c; cv_target := cv_target c; cv_ext_id := cv_ext_id c;
     cv_state := cv_state c; cv_features := cv_features c; cv_multi := v;
     cv_multi_type := cv_multi_type c; cv_client_data := cv_client_data c |}.
Definition set_cv_multi_type (v : mwImSendType) (c : mwConversation) : mwConversation :=
  {| cv_service := cv_service c; cv_channel := cv_channel c; cv_target := cv_target c; cv_ext_id := cv_ext_id c;
     cv_state := cv_state c; cv_features := cv_features c; cv_multi := cv_multi c;
     cv_multi_type := v; cv_client_data := cv_client_data c |}.
Definition set_cv_client_data (v : mw_datum) (c : mwConversation) : mwConversation :=
  {| cv_service := cv_service c; cv_channel := cv_channel c; cv_target := cv_target c; cv_ext_id := cv_ext_id c;
     cv_state := cv_state c; cv_features := cv_features c; cv_multi := cv_multi c;
     cv_multi_type := cv_multi_type c; cv_client_data := v |}.

Definition set_im_features (v : Z) (s : mwServiceIm) : mwServiceIm :=
  {| im_features := v; im_handler := im_handler s; im_convs := im_convs s |}.
Definition set_im_handler (v : bool) (s : mwServiceIm) : mwServiceIm :=
  {| im_features := im_features s; im_handler := v; im_convs := im_convs s |}.
Definition set_im_convs (v : list Z) (s : mwServiceIm) : mwServiceIm :=
  {| im_features := im_features s; im_handler := im_handler s; im_convs := v |}.

(** ** The client *)

(** [gconstpointer]: a string, or an integer made a pointer. *)
Inductive gconstpointer :=
  | PtrString (s : mwString)
  | PtrInt (v : Z).

(** Reading one as the other is left out, but for NULL. *)
Definition ptr_string (p : gconstpointer) : M mwString :=
  match p with
  | PtrString s => ret s
  | PtrInt v => if v =? 0 then ret None else crash
  end.
Definition ptr_int (p : gconstpointer) : M Z :=
  match p with
  | PtrString (Some _) => crash
  | PtrString None => ret 0
  | PtrInt v => ret v
  end.

Record mwImHandler := {
  imh_opened : option (Z -> M unit);
  imh_closed : option (Z -> Z -> M unit);
  imh_recv : option (Z -> mwImSendType -> gconstpointer -> M unit);
  imh_place_invite : option (Z -> mwString -> mwString -> mwString -> M unit);  (* message, title, name *)
  imh_clear : option (Z -> M unit);
  imh_free_data : Z -> Z -> M unit;   (* what is freed with the data of a conversation, by its address *)
}.

(** ** Conversations *)

Fixpoint find_in (l : list Z) (to : mwIdBlock) : M (option Z) :=
  match l with
  | [] => ret None
  | c :: l =>
      let* target := obj_get c cv_target in
      if mwIdBlock_equal target to then ret (Some c) else find_in l to
  end.

Definition convo_find_by_user (srvc : Z) (to : mwIdBlock) : M (option Z) :=
  let* l := obj_get srvc im_convs in find_in l to.

Definition conv_state_str (st : mwConversationState) : string :=
  match st with
  | mwConversation_CLOSED => "closed"
  | mwConversation_OPEN => "open"
  | mwConversation_PENDING => "pending"
  | mwConversation_UNKNOWN => "UNKNOWN"
  end.

Definition mwConversation_getState (conv : option Z) : M mwConversationState :=
  nonnull conv mwConversation_UNKNOWN (fun c => obj_get c cv_state).
Definition mwConversation_isState (c : Z) (st : mwConversationState) : M bool :=
  let* old := mwConversation_getState (Some c) in ret (bool_decide (old = st)).
Definition mwConversation_isClosed (c : Z) : M bool := mwConversation_isState c mwConversation_CLOSED.
Definition mwConversation_isPending (c : Z) : M bool := mwConversation_isState c mwConversation_PENDING.
Definition mwConversation_isOpen (c : Z) : M bool := mwConversation_isState c mwConversation_OPEN.

Definition convo_set_state (conv : Z) (st : mwConversationState) : M unit :=
  let* old := obj_get conv cv_state in
  if bool_decide (old = st) then ret tt else obj_set conv (set_cv_state st).

Definition mwServiceIm_findConversation (srvc : option Z) (to : option mwIdBlock) : M (option Z) :=
  nonnull srvc None (fun srvc =>
    match to with None => ret None | Some to => convo_find_by_user srvc to end).

(** [g_new0], with its service. *)
Definition convo_zero (srvc : Z) : mwConversation := {|
  cv_service := srvc; cv_channel := None; cv_target := {| id_user := None; id_community := None |};
  cv_ext_id := false; cv_state := mwConversation_CLOSED; cv_features := 0; cv_multi := None;
  cv_multi_type := mwImSend_PLAIN; cv_client_data := datum_zero |}.

Definition mwServiceIm_getConversation (srvc : option Z) (to : option mwIdBlock) : M (option Z) :=
  nonnull srvc None (fun srvc =>
    match to with
    | None => ret None
    | Some to =>
        let* found := convo_find_by_user srvc to in
        match found with
        | Some c => ret (Some c)
        | None =>
            let* c := obj_new (convo_zero srvc) in
            obj_set c (set_cv_target (mwIdBlock_clone to)) ;;
            obj_set c (set_cv_state mwConversation_CLOSED) ;;
            let* features := obj_get srvc im_features in
            obj_set c (set_cv_features features) ;;
            obj_set srvc (fun s => set_im_convs (c :: im_convs s) s) ;;
            ret (Some c)
        end
    end).

(** The additional data of the message that creates a channel. *)
Definition create_put (features : Z) : Put :=
  guint32_put mwImAddtlA_NORMAL >>>
  guint32_put features.

(** That of the message that accepts one. *)
Definition accept_put (features : Z) (stat : mwUserStatus) : Put :=
  guint32_put mwImAddtlA_NORMAL >>>
  guint32_put features >>>
  guint32_put mwImAddtlC_NORMAL >>>
  mwUserStatus_put stat.

(** [g_strndup] of the data of an opaque: up to its first zero. *)
Definition g_strndup (o : mwOpaque) : option mwString :=
  match data o with
  | None => Some None
  | Some _ => l ← opaque_bytes o; Some (Some (cstr l))
  end.

Section im.
Context (E : Env) (h : mwImHandler).

Definition convo_create_chan (c : Z) : M unit :=
  guard (mwConversation_isPending c) tt (
  guard (obj_get c (fun v => negb (bool_decide (is_Some (cv_channel v))))) tt (
  let* srvc := obj_get c cv_service in
  let* chan := mwChannel_newOutgoing in
  mwChannel_setService chan srvc ;;
  mwChannel_setProtoType chan PROTOCOL_TYPE ;;
  mwChannel_setProtoVer chan PROTOCOL_VER ;;
  mwChannel_populateSupportedCipherInstances E chan ;;
  let* target := obj_get c cv_target in
  channel_set chan (fun ch => set_ch_user (set_li_target (g_strdup (id_user target))
    (g_strdup (id_community target)) (ch_user ch)) ch) ;;
  let* features := obj_get c cv_features in
  let* b := lift (create_put features mwPutBuffer_new) in
  channel_set chan (set_ch_addtl_create (mwPutBuffer_finalize b)) ;;
  let* r := mwChannel_create E chan in
  obj_set c (set_cv_channel (if r =? 0 then Some chan else None)) ;;
  if r =? 0 then mwChannel_setServiceData chan c else ret tt)).

Definition mwConversation_open (conv : option Z) : M unit :=
  nonnull conv tt (fun c =>
    guard (mwConversation_isClosed c) tt (
    convo_set_state c mwConversation_PENDING ;;
    convo_create_chan c)).

(** A conversation has had a service since it was made. *)
Definition convo_opened (c : Z) : M unit :=
  convo_set_state c mwConversation_OPEN ;;
  let* srvc := obj_get c cv_service in
  guard (obj_get srvc im_handler) tt (call1 (imh_opened h) c).

Definition mwConversation_removeClientData (conv : option Z) : M unit :=
  nonnull conv tt (fun c =>
    let* d := obj_get c cv_client_data in
    let* d := mw_datum_clear (imh_free_data h) d in
    obj_set c (set_cv_client_data d)).

(** [g_list_remove_all] *)
Definition convo_free (c : Z) : M unit :=
  mwConversation_removeClientData (Some c) ;;
  let* srvc := obj_get c cv_service in
  obj_set srvc (fun s => set_im_convs (filter (fun q => q <> c) (im_convs s)) s) ;;
  free_object c.

(** The handler is asked for after the state, and the channel after the
    handler has run. *)
Definition mwConversation_close (conv : option Z) (reason : Z) : M unit :=
  nonnull conv tt (fun c =>
    convo_set_state c mwConversation_CLOSED ;;
    let* srvc := obj_get c cv_service in
    let* handler := obj_get srvc im_handler in
    (if handler then call2 (imh_closed h) c reason else ret tt) ;;
    let* chan := obj_get c cv_channel in
    nonnull chan tt (fun chan =>
      mwChannel_destroy E chan reason None ;;
      obj_set c (set_cv_channel None))).

Definition mwConversation_free (conv : option Z) : M unit :=
  nonnull conv tt (fun c =>
    let* closed := mwConversation_isClosed c in
    (if closed then ret tt else mwConversation_close (Some c) ERR_SUCCESS) ;;
    convo_free c).

Definition send_accept (c : Z) : M Z :=
  let* chan := obj_get c cv_channel in
  nonnull chan (-1) (fun chan =>
    let* stat := session_get s_status in
    let* features := obj_get c cv_features in
    let* b := lift (accept_put features stat mwPutBuffer_new) in
    channel_set chan (set_ch_addtl_accept (mwPutBuffer_finalize b)) ;;
    mwChannel_accept E chan).

(** ** What comes on a channel *)

(** Whether a channel with the features [y] is accepted, or why it is not. *)
Definition create_verdict (place_invite : bool) (own status x y : Z) : option Z :=
  if negb (x =? mwImAddtlA_NORMAL) then Some ERR_IM_NOT_REGISTERED
  else if y =? mwImAddtlB_PRECONF then (if place_invite then None else Some ERR_IM_NOT_REGISTERED)
  else if negb (y =? mwImClient_PLAIN) && negb (y =? own) then Some ERR_IM_NOT_REGISTERED
  else if status =? mwStatus_BUSY then Some ERR_CLIENT_USER_DND
  else None.

(** The handler is used without a look at it: NULL is an error. *)
Definition place_invite_given (srvc : Z) : M bool :=
  let* handler := obj_get srvc im_handler in
  if handler then ret (bool_decide (is_Some (imh_place_invite h))) else crash.

Definition recv_channelCreate (srvc chan : Z) (msg : mwMsgChannelCreate) : M unit :=
  let* ch := deref_channel chan in
  if negb ((ch_service ch =? mwService_IM) && (ch_proto_type ch =? PROTOCOL_TYPE) && (ch_proto_ver ch =? PROTOCOL_VER))
  then mwChannel_destroy E chan ERR_SERVICE_NO_SUPPORT None ;; ret tt else
  let* (x, b) := lift (guint32_get (ch_service ch) (mwGetBuffer_wrap (Some (cc_addtl msg)))) in
  let* (y, b) := lift (guint32_get (ch_proto_type ch) b) in
  if mwGetBuffer_error b then mwChannel_destroy E chan ERR_FAILURE None ;; ret tt else
  let* own := obj_get srvc im_features in
  let* stat := session_get s_status in
  let* invite := (if (x =? mwImAddtlA_NORMAL) && (y =? mwImAddtlB_PRECONF) then place_invite_given srvc else ret false) in
  match create_verdict invite own (us_status stat) x y with
  | Some code => mwChannel_destroy E chan code None ;; ret tt
  | None =>
      let* login := channel_get chan ch_user in
      let* c := obj_new (convo_zero srvc) in
      obj_set srvc (fun s => set_im_convs (c :: im_convs s) s) ;;
      obj_set c (set_cv_channel (Some chan)) ;;
      obj_set c (set_cv_target (mwIdBlock_clone (login_into_id login))) ;;
      obj_set c (set_cv_features y) ;;
      convo_set_state c mwConversation_PENDING ;;
      mwChannel_setServiceData chan c ;;
      let* r := send_accept c in
      if r =? 0 then convo_opened c else mwConversation_free (Some c)
  end.

Definition recv_channelAccept (srvc chan : Z) (msg : mwMsgChannelAccept) : M unit :=
  let* conv := mwChannel_getServiceData chan in
  match conv with
  | None => mwChannel_destroy E chan ERR_FAILURE None ;; ret tt
  | Some c => convo_opened c
  end.

Definition recv_channelDestroy (srvc chan : Z) (msg : mwMsgChannelDestroy) : M unit :=
  let* conv := mwChannel_getServiceData chan in
  nonnull conv tt (fun c =>
    obj_set c (set_cv_channel None) ;;
    let* error := mwChannel_isState chan mwChannel_ERROR in
    let* features := obj_get c cv_features in
    if error && negb (features =? mwImClient_PLAIN)
         && ((cd_reason msg =? ERR_IM_NOT_REGISTERED) || (cd_reason msg =? ERR_SERVICE_NO_SUPPORT))
    then
      obj_set c (set_cv_features mwImClient_PLAIN) ;;
      convo_create_chan c
    else mwConversation_close (Some c) (cd_reason msg)).

Definition convo_recv (c : Z) (type : mwImSendType) (msg : gconstpointer) : M unit :=
  let* srvc := obj_get c cv_service in
  let* handler := obj_get srvc im_handler in
  if handler then match imh_recv h with Some f => f c type msg | None => ret tt end else ret tt.

Definition convo_multi_start (c : Z) : M unit :=
  let* multi := obj_get c cv_multi in
  match multi with Some _ => ret tt | None => obj_set c (set_cv_multi (Some [])) end.

(** The string that was gathered goes to the client, as far as its first
    zero. *)
Definition convo_multi_stop (c : Z) : M unit :=
  let* v := obj_deref c in
  match cv_multi v with
  | None => ret tt
  | Some str =>
      convo_recv c (cv_multi_type v) (PtrString (Some (cstr str))) ;;
      obj_set c (set_cv_multi None)
  end.

Definition recv_text (chan : Z) (b : mwGetBuffer) : M unit :=
  let* (text, b) := lift (mwString_get b) in
  match text with
  | None => ret tt
  | Some s =>
      let* conv := mwChannel_getServiceData chan in
      nonnull conv tt (fun c =>
        let* multi := obj_get c cv_multi in
        match multi with
        | Some str => obj_set c (set_cv_multi (Some (str ++ s)))
        | None => convo_recv c mwImSend_PLAIN (PtrString (Some s))
        end)
  end.

(** Title, message, name, and whether a login follows; [with_who] is what was
    on the stack when it was not read. *)
Definition invite_get : Get (mwString * mwString * mwString * bool) :=
  let! _ := mwGetBuffer_advance 4 in
  let! title := mwString_get in
  let! msg := mwString_get in
  let! _ := mwGetBuffer_advance 19 in
  let! name := mwString_get in
  let! _ := mwString_get in
  let! _ := mwString_get in
  let! with_who := guint16_get (u_junk (e_uninit E)) in
  gret (title, msg, name, negb (with_who =? 0)).
Definition invite_who_get : Get mwIdBlock :=
  let! user := mwString_get in
  let! _ := mwString_get in
  let! community := mwString_get in
  gret {| id_user := user; id_community := community |}.

Definition convo_invite (c : Z) (o : mwOpaque) : M unit :=
  let* srvc := obj_get c cv_service in
  guard (obj_get srvc im_handler) tt (
  match imh_place_invite h with
  | None => ret tt
  | Some place_invite =>
      let* (x, b) := lift (invite_get (mwGetBuffer_wrap (Some o))) in
      let '(title, msg, name, with_who) := x in
      let* target := obj_get c cv_target in
      let* b := (if with_who && bool_decide (id_user target = None) then
                   let* (who, b) := lift (invite_who_get b) in
                   obj_set c (set_cv_target who) ;; ret b
                 else ret b) in
      if mwGetBuffer_error b then ret tt else place_invite c msg title name
  end).

(** The data of a kind of message that may come in parts. *)
Definition recv_part (c : Z) (type : mwImSendType) (o : mwOpaque) : M unit :=
  let* multi := obj_get c cv_multi in
  match multi with
  | Some str =>
      let* l := lift (opaque_bytes o) in
      obj_set c (set_cv_multi (Some (str ++ l))) ;;
      obj_set c (set_cv_multi_type type)
  | None => let* x := lift (g_strndup o) in convo_recv c type (PtrString x)
  end.

(** One [case] of the [switch]; other types, and timestamps, are only
    reported. *)
Definition recv_data_type (c type subtype : Z) (o : mwOpaque) : M unit :=
  if type =? mwImData_TYPING then convo_recv c mwImSend_TYPING (PtrInt (if subtype =? 0 then 1 else 0))
  else if type =? mwImData_HTML then
    if len o =? 0 then ret tt else recv_part c mwImSend_HTML o
  else if type =? mwImData_SUBJECT then
    let* x := lift (g_strndup o) in convo_recv c mwImSend_SUBJECT (PtrString x)
  else if type =? mwImData_MIME then recv_part c mwImSend_MIME o
  else if type =? mwImData_INVITE then convo_invite c o
  else if type =? mwImData_MULTI_START then convo_multi_start c
  else if type =? mwImData_MULTI_STOP then convo_multi_stop c
  else ret tt.

Definition data_get : Get (Z * Z * mwOpaque) :=
  let! type := guint32_get 0 in
  let! subtype := guint32_get 0 in
  let! o := mwOpaque_get in
  gret (type, subtype, o).

Definition recv_data (chan : Z) (b : mwGetBuffer) : M unit :=
  let* (x, b) := lift (data_get b) in
  if mwGetBuffer_error b then ret tt else
  let '(type, subtype, o) := x in
  let* conv := mwChannel_getServiceData chan in
  nonnull conv tt (fun c => recv_data_type c type subtype o).

Definition recv (srvc chan type : Z) (d : mwOpaque) : M unit :=
  if negb (type =? msg_MESSAGE) then ret tt else
  let* (mt, b) := lift (guint32_get 0 (mwGetBuffer_wrap (Some d))) in
  if mwGetBuffer_error b then ret tt
  else if mt =? mwIm_TEXT then recv_text chan b
  else if mt =? mwIm_DATA then recv_data chan b
  else ret tt.

(** ** The end of the service *)

(** [while(srvc->convs) free(srvc->convs->data);] *)
Fixpoint free_convs (free : Z -> M unit) (fuel : nat) (srvc : Z) : M unit :=
  let* l := obj_get srvc im_convs in
  match l, fuel with
  | [], _ => ret tt
  | c :: _, S fuel => free c ;; free_convs free fuel srvc
  | _, O => crash
  end.

(** One round for each conversation there is: a client that makes new ones
    while these are freed is outside the model. *)
Definition clear (srvc : Z) : M unit :=
  let* l := obj_get srvc im_convs in
  free_convs convo_free (length l) srvc ;;
  let* handler := obj_get srvc im_handler in
  (if handler then call1 (imh_clear h) srvc else ret tt) ;;
  obj_set srvc (set_im_handler false).

Definition start (srvc : Z) : M unit := mwService_started srvc.

Definition stop (srvc : Z) : M unit :=
  let* l := obj_get srvc im_convs in
  free_convs (fun c => mwConversation_free (Some c)) (length l) srvc ;;
  mwService_stopped srvc.

Definition im_ops : ServiceOps := {|
  op_recv_create := Some recv_channelCreate;
  op_recv_accept := Some recv_channelAccept;
  op_recv_destroy := Some recv_channelDestroy;
  op_recv := Some recv;
  op_start := Some start;
  op_stop := Some stop;
  op_clear := Some clear |}.

Definition mwServiceIm_new : M Z :=
  let* srvc := mwService_init mwService_IM in
  attach_object srvc (obj_in {| im_features := mwImClient_PLAIN; im_handler := true; im_convs := [] |}) ;;
  ret srvc.

(** ** What the client sends *)

Definition data_put (type subtype : Z) (d : option mwOpaque) : Put :=
  guint32_put mwIm_DATA >>>
  guint32_put type >>>
  guint32_put subtype >>>
  mwOpaque_put d.

Definition text_put (text : mwString) : Put :=
  guint32_put mwIm_TEXT >>>
  mwString_put text.

Definition convo_send_data (c type subtype : Z) (d : option mwOpaque) : M Z :=
  let* v := obj_deref c in
  nonnull (cv_channel v) (-1) (fun chan =>
    let* b := lift (data_put type subtype d mwPutBuffer_new) in
    mwChannel_sendEncrypted E chan msg_MESSAGE (Some (mwPutBuffer_finalize b)) (negb (cv_ext_id v))).

Definition convo_send_multi_start (c : Z) : M Z := convo_send_data c mwImData_MULTI_START 0x00 None.
Definition convo_send_multi_stop (c : Z) : M Z := convo_send_data c mwImData_MULTI_STOP 0x00 None.

(** The loop over the segments, each closed by a zero while it is sent. *)
Fixpoint send_segments (fuel : nat) (send : list Z -> M Z) (buf : list Z) : M Z :=
  match buf, fuel with
  | [], _ => ret 0
  | _, O => crash
  | _, S fuel =>
      let seg := Z.to_nat (if strlen buf <? BREAKUP then strlen buf else BREAKUP) in
      let* r := send (take seg buf) in
      if r =? 0 then send_segments fuel send (drop seg buf) else ret r
  end.

Definition convo_sendSegmented (c : Z) (message : list Z) (send : list Z -> M Z) : M Z :=
  let* r := convo_send_multi_start c in
  let* r := (if r =? 0 then send_segments (length message) send message else ret r) in
  if r =? 0 then convo_send_multi_stop c else ret r.

Definition convo_sendText (c : Z) (text : mwString) : M Z :=
  let* v := obj_deref c in
  match cv_channel v with
  | None => crash
  | Some chan =>
      let* b := lift (text_put text mwPutBuffer_new) in
      mwChannel_sendEncrypted E chan msg_MESSAGE (Some (mwPutBuffer_finalize b)) (negb (cv_ext_id v))
  end.

Definition convo_sendTyping (c typing : Z) : M Z :=
  convo_send_data c mwImData_TYPING (if typing =? 0 then 1 else 0) None.

(** An opaque over the bytes of a string; [strlen] of NULL is an error. *)
Definition opaque_over (s : mwString) : M mwOpaque :=
  match s with Some s => ret {| len := strlen s; data := Some s |} | None => crash end.

Definition convo_sendSubject (c : Z) (subject : mwString) : M Z :=
  let* o := opaque_over subject in
  convo_send_data c mwImData_SUBJECT 0x00 (Some o).

(** [convo_sendHtml] and [convo_sendMime] call themselves on the segments,
    which are short enough to go out whole. *)
Fixpoint send_long (depth : nat) (type c : Z) (s : mwString) : M Z :=
  match depth with
  | O => crash
  | S depth =>
      let* o := opaque_over s in
      if BREAKUP <? len o
      then convo_sendSegmented c (opt_list s) (fun seg => send_long depth type c (Some seg))
      else convo_send_data c type 0x00 (Some o)
  end.

Definition convo_sendHtml (c : Z) (html : mwString) : M Z := send_long 2 mwImData_HTML c html.
Definition convo_sendMime (c : Z) (mime : mwString) : M Z := send_long 2 mwImData_MIME c mime.

Definition has_channel (c : Z) : M bool := obj_get c (fun v => bool_decide (is_Some (cv_channel v))).

Definition mwConversation_send (conv : option Z) (type : mwImSendType) (msg : gconstpointer) : M Z :=
  nonnull conv (-1) (fun c =>
    guard (mwConversation_isOpen c) (-1) (
    guard (has_channel c) (-1) (
    match type with
    | mwImSend_PLAIN => let* s := ptr_string msg in convo_sendText c s
    | mwImSend_TYPING => let* v := ptr_int msg in convo_sendTyping c v
    | mwImSend_SUBJECT => let* s := ptr_string msg in convo_sendSubject c s
    | mwImSend_HTML => let* s := ptr_string msg in convo_sendHtml c s
    | mwImSend_MIME => let* s := ptr_string msg in convo_sendMime c s
    | mwImSend_TIMESTAMP => ret (-1)
    end))).

(** ** What else the client calls *)

Definition mwServiceIm_getHandler (srvc : option Z) : M bool :=
  nonnull srvc false (fun srvc => obj_get srvc im_handler).

Definition mwServiceIm_supports (srvc : option Z) (type : mwImSendType) : M bool :=
  nonnull srvc false (fun srvc =>
    match type with
    | mwImSend_PLAIN | mwImSend_TYPING => ret true
    | mwImSend_SUBJECT | mwImSend_HTML | mwImSend_MIME | mwImSend_TIMESTAMP =>
        obj_get srvc (fun s => im_features s =? mwImClient_NOTESBUDDY)
    end).

Definition mwServiceIm_setClientType (srvc : option Z) (type : Z) : M unit :=
  nonnull srvc tt (fun srvc => obj_set srvc (set_im_features type)).
Definition mwServiceIm_getClientType (srvc : option Z) : M Z :=
  nonnull srvc mwImClient_UNKNOWN (fun srvc => obj_get srvc im_features).

Definition mwConversation_getService (conv : option Z) : M (option Z) :=
  nonnull conv None (fun c => obj_get c (fun v => Some (cv_service v))).

Definition mwConversation_supports (conv : option Z) (type : mwImSendType) : M bool :=
  nonnull conv false (fun c =>
    match type with
    | mwImSend_PLAIN | mwImSend_TYPING => ret true
    | mwImSend_SUBJECT | mwImSend_HTML | mwImSend_MIME =>
        obj_get c (fun v => cv_features v =? mwImClient_NOTESBUDDY)
    | mwImSend_TIMESTAMP => ret false
    end).

Definition mwConversation_getClientType (conv : option Z) : M Z :=
  nonnull conv mwImClient_UNKNOWN (fun c => obj_get c cv_features).
Definition mwConversation_getTarget (conv : option Z) : M (option mwIdBlock) :=
  nonnull conv None (fun c => obj_get c (fun v => Some (cv_target v))).
Definition mwConversation_getTargetInfo (conv : option Z) : M (option mwLoginInfo) :=
  nonnull conv None (fun c =>
    let* chan := obj_get c cv_channel in
    nonnull chan None (fun chan => channel_get chan (fun ch => Some (ch_user ch)))).

Definition mwConversation_setClientData (conv : option Z) (d clean : Z) : M unit :=
  nonnull conv tt (fun c =>
    obj_set c (fun v => set_cv_client_data (mw_datum_set (cv_client_data v) d clean) v)).
Definition mwConversation_getClientData (conv : option Z) : M Z :=
  nonnull conv 0 (fun c => obj_get c (fun v => mw_datum_get (cv_client_data v))).

End im.
