(* ===== verification/Aware.v ===== *)
(** * The awareness service (src/src/srvc_aware.c)

    A client watches users, groups and servers in lists of its own.  The
    service keeps one entry for each id that is on a list, with its last
    status and its attributes, and the entry knows the lists it is on.  The
    server is told of the ids that come to a list, and of an id when it has
    left the last; attributes are watched in the same way.  NULL is [None]
    where a caller may give it; a list of ids is the values it leads to. *)

From S2P Require Import Prelude Buffer Common Message Framing World Util Rc2 Cipher Service Session Channel.
#[local] Open Scope Z_scope.
#[local] Open Scope mw_scope.

Definition mwService_AWARE : Z := 0x00000011.
Definition mwAware_USER : Z := 0x0002.
Definition mwAware_GROUP : Z := 0x0003.
Definition mwAware_SERVER : Z := 0x0008.

Definition msg_AWARE_ADD : Z := 0x0068.
Definition msg_AWARE_REMOVE : Z := 0x0069.
Definition msg_OPT_DO_SET : Z := 0x00c9.
Definition msg_OPT_DO_UNSET : Z := 0x00ca.
Definition msg_OPT_WATCH : Z := 0x00cb.
Definition msg_AWARE_SNAPSHOT : Z := 0x01f4.
Definition msg_AWARE_UPDATE : Z := 0x01f5.
Definition msg_AWARE_GROUP : Z := 0x01f6.
Definition msg_OPT_GOT_SET : Z := 0x0259.
Definition msg_OPT_GOT_UNSET : Z := 0x025a.

(** ** Assignments to fields *)

Definition set_aw_entries (v : option (gmap mwAwareIdBlock Z)) (s : mwServiceAware) : mwServiceAware :=
  {| aw_entries := v; aw_attribs := aw_attribs s; aw_lists := aw_lists s; aw_channel := aw_channel s |}.
Definition set_aw_attribs (v : option (gmap Z Z)) (s : mwServiceAware) : mwServiceAware :=
  {| aw_entries := aw_entries s; aw_attribs := v; aw_lists := aw_lists s; aw_channel := aw_channel s |}.
Definition set_aw_lists (v : list Z) (s : mwServiceAware) : mwServiceAware :=
  {| aw_entries := aw_entries s; aw_attribs := aw_attribs s; aw_lists := v; aw_channel := aw_channel s |}.
Definition set_aw_channel (v : option Z) (s : mwServiceAware) : mwServiceAware :=
  {| aw_entries := aw_entries s; aw_attribs := aw_attribs s; aw_lists := aw_lists s; aw_channel := v |}.

Definition set_al_service (v : option Z) (l : mwAwareList) : mwAwareList :=
  {| al_service := v; al_entries := al_entries l; al_attribs := al_attribs l; al_handler := al_handler l;
     al_client_data := al_client_data l |}.
Definition set_al_entries (v : table (gmap mwAwareIdBlock Z)) (l : mwAwareList) : mwAwareList :=
  {| al_service := al_service l; al_entries := v; al_attribs := al_attribs l; al_handler := al_handler l;
     al_client_data := al_client_data l |}.
Definition set_al_attribs (v : table (gmap Z Z)) (l : mwAwareList) : mwAwareList :=
  {| al_service := al_service l; al_entries := al_entries l; al_attribs := v; al_handler := al_handler l;
     al_client_data := al_client_data l |}.
Definition set_al_handler (v : Z) (l : mwAwareList) : mwAwareList :=
  {| al_service := al_service l; al_entries := al_entries l; al_attribs := al_attribs l; al_handler := v;
     al_client_data := al_client_data l |}.
Definition set_al_client_data (v : mw_datum) (l : mwAwareList) : mwAwareList :=
  {| al_service := al_service l; al_entries := al_entries l; al_attribs := al_attribs l;
     al_handler := al_handler l; al_client_data := v |}.

Definition set_ae_aware (v : mwAwareSnapshot) (e : aware_entry) : aware_entry :=
  {| ae_aware := v; ae_membership := ae_membership e; ae_links := ae_links e; ae_attribs := ae_attribs e |}.
Definition set_ae_membership (v : list (Z * Z)) (e : aware_entry) : aware_entry :=
  {| ae_aware := ae_aware e; ae_membership := v; ae_links := ae_links e; ae_attribs := ae_attribs e |}.
Definition set_ae_attribs (v : gmap Z Z) (e : aware_entry) : aware_entry :=
  {| ae_aware := ae_aware e; ae_membership := ae_membership e; ae_links := ae_links e; ae_attribs := v |}.

Definition set_at_data (v : mwOpaque) (a : mwAwareAttribute) : mwAwareAttribute :=
  {| at_key := at_key a; at_data := v |}.

Definition set_we_membership (v : list Z) (e : attrib_entry) : attrib_entry :=
  {| we_key := we_key e; we_membership := v |}.

(** [g_list_append(membership, list)], and [g_list_remove]: the first link to
    [list]. *)
Definition append_member (list : Z) (e : aware_entry) : aware_entry :=
  {| ae_aware := ae_aware e; ae_membership := ae_membership e ++ [(ae_links e, list)];
     ae_links := ae_links e + 1; ae_attribs := ae_attribs e |}.
Fixpoint remove_link (l : list (Z * Z)) (p : Z) : list (Z * Z) :=
  match l with
  | [] => []
  | k :: l => if k.2 =? p then l else k :: remove_link l p
  end.
Definition remove_member (list : Z) (e : aware_entry) : aware_entry :=
  set_ae_membership (remove_link (ae_membership e) list) e.

(** [g_new0], with the id cloned. *)
Definition new_entry (id : mwAwareIdBlock) : aware_entry := {|
  ae_aware := {| as_id := mwAwareIdBlock_clone id; as_group := None; as_online := false;
    as_alt_id := None; as_status := us_zero; as_name := None |};
  ae_membership := []; ae_links := 0; ae_attribs := ∅ |}.

(** The tables of a list; a pointer to a table is NULL until there is one. *)
Definition make_entries (l : mwAwareList) : mwAwareList :=
  match al_entries l with TableNull => set_al_entries (Table ∅) l | _ => l end.
Definition insert_entry (id : mwAwareIdBlock) (aware : Z) (l : mwAwareList) : mwAwareList :=
  match al_entries l with Table t => set_al_entries (Table (<[id := aware]> t)) l | _ => l end.
Definition delete_entry (id : mwAwareIdBlock) (l : mwAwareList) : mwAwareList :=
  match al_entries l with Table t => set_al_entries (Table (delete id t)) l | _ => l end.
Definition make_attribs (l : mwAwareList) : mwAwareList :=
  match al_attribs l with TableNull => set_al_attribs (Table ∅) l | _ => l end.
Definition insert_attrib (key watch : Z) (l : mwAwareList) : mwAwareList :=
  match al_attribs l with Table t => set_al_attribs (Table (<[key := watch]> t)) l | _ => l end.
Definition delete_attrib (key : Z) (l : mwAwareList) : mwAwareList :=
  match al_attribs l with Table t => set_al_attribs (Table (delete key t)) l | _ => l end.

(** [g_list_remove_all] *)
Definition g_list_remove_all (l : list Z) (p : Z) : list Z := filter (fun q => q <> p) l.

Definition as_zero : mwAwareSnapshot := {|
  as_id := ai_zero; as_group := None; as_online := false; as_alt_id := None; as_status := us_zero;
  as_name := None |}.

(** ** The client

    The functions of the handler at an address, that which frees the data of
    a list, and the number of lists that may be told of one message, the lists
    that are added meanwhile included. *)
Record AwareClient := {
  ac_on_aware : Z -> option (Z -> mwAwareSnapshot -> M unit);
  ac_on_attrib : Z -> option (Z -> mwAwareIdBlock -> Z -> M unit);
  ac_clear : Z -> option (Z -> M unit);
  ac_free_data : Z -> Z -> M unit;
  ac_rounds : nat;
}.

(** ** Tables *)

(** The order in which a table is listed, for either type of key. *)
Definition id_values (E : Env) (t : gmap mwAwareIdBlock Z) : list Z :=
  e_values E Z (kmap (M2 := gmap Z) (fun k => Zpos (encode k)) t).
Definition table_keys (E : Env) (t : gmap Z Z) : list Z :=
  e_values E Z (map_imap (fun k _ => Some k) t).

(** The hash of an id is that of its user, which must not be NULL. *)
Definition id_lookup (t : gmap mwAwareIdBlock Z) (srch : mwAwareIdBlock) : M (option Z) :=
  match ai_user srch with Some _ => ret (t !! srch) | None => crash end.

Definition aware_find (srvc : Z) (srch : mwAwareIdBlock) : M (option Z) :=
  let* t := obj_get srvc aw_entries in
  match t with Some t => id_lookup t srch | None => ret None end.

Definition list_aware_find (list : Z) (srch : mwAwareIdBlock) : M (option Z) :=
  let* t := obj_get list al_entries in
  match t with Table t => id_lookup t srch | TableNull => ret None | TableGone => crash end.

Section aware.
Context (E : Env) (cl : AwareClient).

(** ** What is freed *)

Definition attrib_free (attrib : Z) : M unit :=
  let* a := @obj_deref mwAwareAttribute _ attrib in
  free_object attrib.

Definition aware_entry_free (ae : Z) : M unit :=
  let* e := obj_deref ae in
  for_each attrib_free (e_values E Z (ae_attribs e)) ;;
  free_object ae.

Definition attrib_entry_free (ae : Z) : M unit :=
  let* e := @obj_deref attrib_entry _ ae in
  free_object ae.

(** ** What is sent *)

Fixpoint put_ids (ids : list mwAwareIdBlock) : Put :=
  match ids with
  | [] => pskip
  | id :: ids => mwAwareIdBlock_put id >>> put_ids ids
  end.
Definition compose_list (ids : list mwAwareIdBlock) : Put :=
  guint32_put (u32 (zlen ids)) >>> put_ids ids.

Definition send_ids (type : Z) (chan : option Z) (ids : list mwAwareIdBlock) : M Z :=
  match chan with
  | Some chan =>
      let* b := lift (compose_list ids mwPutBuffer_new) in
      mwChannel_send E chan type (Some (mwPutBuffer_finalize b))
  | None => ret 0
  end.
Definition send_add : option Z -> list mwAwareIdBlock -> M Z := send_ids msg_AWARE_ADD.
Definition send_rem : option Z -> list mwAwareIdBlock -> M Z := send_ids msg_AWARE_REMOVE.

(** An entry begins with its id, so a list of entries is one of ids. *)
Fixpoint entry_ids (l : list Z) : M (list mwAwareIdBlock) :=
  match l with
  | [] => ret []
  | p :: l =>
      let* a := obj_get p ae_aware in
      let* ids := entry_ids l in
      ret (as_id a :: ids)
  end.

Definition service_live (srvc : Z) : M bool :=
  let* st := mwService_getState srvc in ret (MW_SERVICE_IS_LIVE st).

(** ** Entries without a list *)

Fixpoint collect_dead (l : list Z) : M (list Z) :=
  match l with
  | [] => ret []
  | p :: l =>
      let* ms := obj_get p ae_membership in
      let* dead := collect_dead l in
      ret (match ms with [] => p :: dead | _ :: _ => dead end)
  end.

(** A stolen value leaves the table and is not freed by it. *)
Definition steal_entries (dead : list Z) (t : gmap mwAwareIdBlock Z) : gmap mwAwareIdBlock Z :=
  filter (fun kv => kv.2 ∉ dead) t.

Definition remove_unused (srvc : Z) : M Z :=
  let* t := obj_get srvc aw_entries in
  let* dead :=
    match t with
    | Some t =>
        let* dead := collect_dead (id_values E t) in
        obj_set srvc (fun s => set_aw_entries (steal_entries dead <$> aw_entries s) s) ;;
        ret dead
    | None => ret []
    end in
  match dead with
  | [] => ret 0
  | _ :: _ =>
      let* live := service_live srvc in
      let* r :=
        if live then
          let* chan := obj_get srvc aw_channel in
          let* ids := entry_ids dead in
          let* r := send_rem chan ids in
          ret (Z.b2z (negb (r =? 0)))
        else ret 0 in
      for_each aware_entry_free dead ;;
      ret r
  end.

Definition send_attrib_list (srvc : Z) : M Z :=
  let* chan := obj_get srvc aw_channel in
  match chan with
  | None => ret 0
  | Some chan =>
      let* t := obj_get srvc aw_attribs in
      let l := match t with Some t => table_keys E t | None => [] end in
      let* b := lift ((guint32_put 0x00 >>> guint32_put (u32 (zlen l))
        >>> foldr (fun k p => guint32_put k >>> p) pskip l) mwPutBuffer_new) in
      mwChannel_send E chan msg_OPT_WATCH (Some (mwPutBuffer_finalize b))
  end.

Fixpoint collect_attrib_dead (l : list Z) : M (list Z) :=
  match l with
  | [] => ret []
  | p :: l =>
      let* ms := obj_get p we_membership in
      let* dead := collect_attrib_dead l in
      ret (match ms with [] => p :: dead | _ :: _ => dead end)
  end.

Definition steal_attribs (dead : list Z) (t : gmap Z Z) : gmap Z Z := filter (fun kv => kv.2 ∉ dead) t.

Definition remove_unused_attrib (srvc : Z) : M Z :=
  let* t := obj_get srvc aw_attribs in
  let* dead :=
    match t with
    | Some t =>
        let* dead := collect_attrib_dead (e_values E Z t) in
        obj_set srvc (fun s => set_aw_attribs (steal_attribs dead <$> aw_attribs s) s) ;;
        ret dead
    | None => ret []
    end in
  for_each attrib_entry_free dead ;;
  let* live := service_live srvc in
  if live then send_attrib_list srvc else ret 0.

(** ** Lists *)

(** [list_add], with [watch_add] and [watch_remove] below, is called for a
    list whose service is there. *)
Definition list_service (list : Z) : M Z :=
  let* s := obj_get list al_service in lift s.

Definition list_add (list : Z) (id : mwAwareIdBlock) : M bool :=
  match ai_user id with
  | None => ret false
  | Some [] => ret false
  | Some _ =>
      let* srvc := list_service list in
      obj_set list make_entries ;;
      let* aware := list_aware_find list id in
      match aware with
      | Some _ => ret false
      | None =>
          let* found := aware_find srvc id in
          let* aware :=
            match found with
            | Some aware => ret aware
            | None =>
                let* aware := obj_new (new_entry id) in
                obj_set srvc (fun s => set_aw_entries (<[id := aware]> <$> aw_entries s) s) ;;
                ret aware
            end in
          obj_set aware (append_member list) ;;
          obj_set list (insert_entry id aware) ;;
          ret true
      end
  end.

Fixpoint add_each (list : Z) (ids additions : Datatypes.list mwAwareIdBlock) : M (Datatypes.list mwAwareIdBlock) :=
  match ids with
  | [] => ret additions
  | id :: ids =>
      let* added := list_add list id in
      add_each list ids (if added then id :: additions else additions)
  end.

Definition mwAwareList_addAware (list : option Z) (id_list : Datatypes.list mwAwareIdBlock) : M Z :=
  nonnull list (-1) (fun list =>
  let* srvc := obj_get list al_service in
  nonnull srvc (-1) (fun srvc =>
  let* additions := add_each list id_list [] in
  let* live := service_live srvc in
  if live && negb (bool_decide (additions = [])) then
    let* chan := obj_get srvc aw_channel in
    send_add chan additions
  else ret 0)).

Fixpoint remove_each (list : Z) (ids : Datatypes.list mwAwareIdBlock) : M unit :=
  match ids with
  | [] => ret tt
  | id :: ids =>
      let* aware := list_aware_find list id in
      match aware with
      | None => ret tt
      | Some aware =>
          obj_set aware (remove_member list) ;;
          obj_set list (delete_entry id)
      end ;;
      remove_each list ids
  end.

Definition mwAwareList_removeAware (list : option Z) (id_list : Datatypes.list mwAwareIdBlock) : M Z :=
  nonnull list (-1) (fun list =>
  let* srvc := obj_get list al_service in
  nonnull srvc (-1) (fun srvc =>
  remove_each list id_list ;;
  remove_unused srvc)).

Definition dismember_aware (list aware : Z) : M unit := obj_set aware (remove_member list).

(** The table is destroyed, the pointer to it stays. *)
Definition mwAwareList_removeAllAware (list : option Z) : M Z :=
  nonnull list (-1) (fun list =>
  let* srvc := obj_get list al_service in
  nonnull srvc (-1) (fun srvc =>
  let* t := obj_get list al_entries in
  match t with
  | TableNull => ret tt
  | Table t => for_each (dismember_aware list) (id_values E t) ;; obj_set list (set_al_entries TableGone)
  | TableGone => crash
  end ;;
  remove_unused srvc)).

(** ** Watched attributes *)

Definition watch_lookup (list key : Z) : M (option Z) :=
  let* t := obj_get list al_attribs in
  match t with Table t => ret (t !! key) | TableNull => ret None | TableGone => crash end.

Definition watch_add (list key : Z) : M unit :=
  obj_set list make_attribs ;;
  let* watched := watch_lookup list key in
  match watched with
  | Some _ => ret tt
  | None =>
      let* srvc := list_service list in
      let* t := obj_get srvc aw_attribs in
      let* watch :=
        match t ≫= (fun t => t !! key) with
        | Some watch => ret watch
        | None =>
            let* watch := obj_new {| we_key := key; we_membership := [] |} in
            obj_set srvc (fun s => set_aw_attribs (<[key := watch]> <$> aw_attribs s) s) ;;
            ret watch
        end in
      obj_set list (insert_attrib key watch) ;;
      obj_set watch (fun e => set_we_membership (list :: we_membership e) e)
  end.

Definition watch_remove (list key : Z) : M unit :=
  let* watch := watch_lookup list key in
  match watch with
  | None => ret tt
  | Some watch =>
      obj_set list (delete_attrib key) ;;
      obj_set watch (fun e => set_we_membership (g_list_remove (we_membership e) list) e)
  end.

(** [for(k = *keys; k; keys++)]: the key is never read again. *)
Fixpoint watch_array (turns : nat) (list k : Z) : M unit :=
  if k =? 0 then ret tt else
  match turns with
  | O => crash
  | S turns => watch_add list k ;; watch_array turns list k
  end.

Definition mwAwareList_watchAttributeArray (turns : nat) (list : option Z) (keys : option (Datatypes.list Z)) : M Z :=
  nonnull list (-1) (fun list =>
  let* srvc := obj_get list al_service in
  nonnull srvc (-1) (fun srvc =>
  match keys with
  | None => ret 0
  | Some keys => let* k := lift (head keys) in watch_array turns list k ;; send_attrib_list srvc
  end)).

Definition mwAwareList_unwatchAttributeArray (turns : nat) (list : option Z) (keys : option (Datatypes.list Z)) : M Z :=
  nonnull list (-1) (fun list =>
  let* srvc := obj_get list al_service in
  nonnull srvc (-1) (fun srvc =>
  match keys with
  | None => ret 0
  | Some keys => let* k := lift (head keys) in watch_array turns list k ;; remove_unused_attrib srvc
  end)).

(** The arguments up to the first that is 0. *)
Fixpoint until_zero (keys : list Z) : list Z :=
  match keys with
  | [] => []
  | k :: keys => if k =? 0 then [] else k :: until_zero keys
  end.

Definition mwAwareList_watchAttributes (list : option Z) (keys : Datatypes.list Z) : M Z :=
  nonnull list (-1) (fun list =>
  let* srvc := obj_get list al_service in
  nonnull srvc (-1) (fun srvc =>
  for_each (watch_add list) (until_zero keys) ;;
  send_attrib_list srvc)).

Definition mwAwareList_unwatchAttributes (list : option Z) (keys : Datatypes.list Z) : M Z :=
  nonnull list (-1) (fun list =>
  let* srvc := obj_get list al_service in
  nonnull srvc (-1) (fun srvc =>
  for_each (watch_remove list) (until_zero keys) ;;
  remove_unused_attrib srvc)).

Definition dismember_attrib (list watch : Z) : M unit :=
  obj_set watch (fun e => set_we_membership (g_list_remove (we_membership e) list) e).

Definition mwAwareList_unwatchAllAttributes (list : option Z) : M Z :=
  nonnull list (-1) (fun list =>
  let* t := obj_get list al_attribs in
  match t with
  | TableNull => ret tt
  | Table t => for_each (dismember_attrib list) (e_values E Z t) ;; obj_set list (set_al_attribs TableGone)
  | TableGone => crash
  end ;;
  let* srvc := list_service list in
  remove_unused_attrib srvc).

(** The block, and the offset in it of the pointer that is returned. *)
Definition mwAwareList_getWatchedAttributes (list : option Z) : M (option (Datatypes.list Z * Z)) :=
  nonnull list None (fun list =>
  let* t := obj_get list al_attribs in
  match t with
  | TableNull => ret None
  | Table t => let keys := table_keys E t in ret (Some (keys ++ [0], zlen keys))
  | TableGone => crash
  end).

(** ** The life of a list *)

Definition mwAwareList_new (srvc handler : option Z) : M (option Z) :=
  nonnull srvc None (fun srvc =>
  nonnull handler None (fun handler =>
  let* al := obj_new {| al_service := Some srvc; al_entries := TableNull; al_attribs := TableNull;
    al_handler := handler; al_client_data := datum_zero |} in
  obj_set srvc (fun s => set_aw_lists (al :: aw_lists s) s) ;;
  ret (Some al))).

(** A NULL handler is 0. *)
Definition list_clear (list : Z) : M unit :=
  let* handler := obj_get list al_handler in
  if handler =? 0 then ret tt else
  match ac_clear cl handler with
  | Some clear => clear list ;; obj_set list (set_al_handler 0)
  | None => ret tt
  end.

Definition list_clear_data (list : Z) : M unit :=
  let* d := obj_get list al_client_data in
  let* d := mw_datum_clear (ac_free_data cl) d in
  obj_set list (set_al_client_data d).

Definition mwAwareList_free (list : option Z) : M unit :=
  nonnull list tt (fun list =>
  let* srvc := obj_get list al_service in
  nonnull srvc tt (fun srvc =>
  obj_set srvc (fun s => set_aw_lists (g_list_remove_all (aw_lists s) list) s) ;;
  list_clear list ;;
  list_clear_data list ;;
  mwAwareList_unwatchAllAttributes (Some list) ;;
  mwAwareList_removeAllAware (Some list) ;;
  obj_set list (set_al_service None) ;;
  free_object list)).

Definition mwAwareList_getHandler (list : option Z) : M Z :=
  nonnull list 0 (fun list => obj_get list al_handler).
Definition mwAwareList_setClientData (list : option Z) (d clear : Z) : M unit :=
  nonnull list tt (fun list => obj_set list (set_al_client_data (mw_datum_set datum_zero d clear))).
Definition mwAwareList_getClientData (list : option Z) : M Z :=
  nonnull list 0 (fun list => let* d := obj_get list al_client_data in ret (mw_datum_get d)).
Definition mwAwareList_removeClientData (list : option Z) : M unit := nonnull list tt list_clear_data.

(** ** What the server sends *)

(** The link after number [n]; one that is not there was freed. *)
Fixpoint next_link (n : Z) (l : list (Z * Z)) : option (option (Z * Z)) :=
  match l with
  | [] => None
  | k :: l => if k.1 =? n then Some (head l) else next_link n l
  end.

(** [for(l = aware->membership; l; l = l->next)] *)
Fixpoint each_member (rounds : nat) (aware : Z) (l : option (Z * Z)) (f : Z -> M unit) : M unit :=
  match l, rounds with
  | None, _ => ret tt
  | Some _, O => crash
  | Some (n, list), S rounds =>
      f list ;;
      let* ms := obj_get aware ae_membership in
      let* l := lift (next_link n ms) in
      each_member rounds aware l f
  end.

Definition for_members (aware : Z) (f : Z -> M unit) : M unit :=
  let* ms := obj_get aware ae_membership in
  each_member (ac_rounds cl) aware (head ms) f.

Definition tell_aware (idb : mwAwareSnapshot) (alist : Z) : M unit :=
  let* handler := obj_get alist al_handler in
  if handler =? 0 then ret tt else call2 (ac_on_aware cl handler) alist idb.

Definition status_recv (srvc : Z) (idb : mwAwareSnapshot) : M unit :=
  let* aware := aware_find srvc (as_id idb) in
  match aware with
  | None => ret tt
  | Some aware =>
      obj_set aware (fun e => set_ae_aware (mwAwareSnapshot_clone (mwAwareSnapshot_clear (ae_aware e)) idb) e) ;;
      for_members aware (tell_aware idb)
  end.

Definition tell_attrib (idb : mwAwareIdBlock) (key attrib list : Z) : M unit :=
  let* h := obj_get list al_handler in
  if h =? 0 then ret tt else
  match ac_on_attrib cl h with
  | None => ret tt
  | Some on_attrib =>
      let* watched := watch_lookup list key in
      match watched with Some _ => on_attrib list idb attrib | None => ret tt end
  end.

Definition attrib_recv (srvc : Z) (idb : mwAwareIdBlock) (key : Z) (d : mwOpaque) : M unit :=
  let* aware := aware_find srvc idb in
  match aware with
  | None => ret tt
  | Some aware =>
      let* t := obj_get aware ae_attribs in
      let* old_attrib :=
        match t !! key with
        | Some old_attrib => ret old_attrib
        | None =>
            let* old_attrib := obj_new {| at_key := key; at_data := opaque_zero |} in
            obj_set aware (fun e => set_ae_attribs (<[key := old_attrib]> (ae_attribs e)) e) ;;
            ret old_attrib
        end in
      let* d := lift (mwOpaque_clone (Some d)) in
      obj_set old_attrib (set_at_data d) ;;
      for_members aware (tell_attrib idb key old_attrib)
  end.

(** A member of a group is added to each list of the group. *)
Definition group_member_recv (srvc : Z) (idb : mwAwareSnapshot) : M unit :=
  let gsrch := {| ai_type := mwAware_GROUP; ai_user := as_group idb; ai_community := None |} in
  let* grp := aware_find srvc gsrch in
  match grp with
  | None => ret tt
  | Some grp => for_members grp (fun list => mwAwareList_addAware (Some list) [as_id idb] ;; ret tt)
  end.

Definition in_group (srvc : Z) (snap : mwAwareSnapshot) : M unit :=
  match as_group snap with Some _ => group_member_recv srvc snap | None => ret tt end.

Fixpoint recv_snapshots (count : nat) (srvc : Z) (snap : mwAwareSnapshot) (b : mwGetBuffer) : M unit :=
  match count with
  | O => ret tt
  | S count =>
      let* (snap, b) := lift (mwAwareSnapshot_get (u_junk (e_uninit E)) snap b) in
      if mwGetBuffer_error b then ret tt else
      in_group srvc snap ;;
      status_recv srvc snap ;;
      recv_snapshots count srvc (mwAwareSnapshot_clear snap) b
  end.

Definition recv_SNAPSHOT (srvc : Z) (b : mwGetBuffer) : M unit :=
  let* (count, b) := lift (guint32_get (u_count (e_uninit E)) b) in
  recv_snapshots (Z.to_nat count) srvc as_zero b.

Definition recv_UPDATE (srvc : Z) (b : mwGetBuffer) : M unit :=
  let* (snap, b) := lift (mwAwareSnapshot_get (u_junk (e_uninit E)) as_zero b) in
  in_group srvc snap ;;
  if mwGetBuffer_error b then ret tt else status_recv srvc snap.

Definition recv_GROUP (srvc : Z) (b : mwGetBuffer) : M unit :=
  let* (_, b) := lift (mwAwareIdBlock_get ai_zero b) in ret tt.

(** The id is a local that is left as it was when there is an error before
    it, with pointers that are none. *)
Definition get_local_id (b : mwGetBuffer) : M (mwAwareIdBlock * mwGetBuffer) :=
  if mwGetBuffer_error b then crash else lift (mwAwareIdBlock_get ai_zero b).

Definition recv_OPT_GOT_SET (srvc : Z) (b : mwGetBuffer) : M unit :=
  let u := e_uninit E in
  let* (_, b) := lift (guint32_get (u_junk u) b) in
  let* (idb, b) := get_local_id b in
  let* (_, b) := lift (guint32_get (u_junk u) b) in
  let* (check, b) := lift (guint32_get (u_count u) b) in
  let* (_, b) := lift (guint32_get (u_junk u) b) in
  let* (key, b) := lift (guint32_get (u_junk u) b) in
  let* (d, b) := if check =? 0 then ret (opaque_zero, b) else lift (mwOpaque_get b) in
  attrib_recv srvc idb key d.

Definition recv_OPT_GOT_UNSET (srvc : Z) (b : mwGetBuffer) : M unit :=
  let* (_, b) := lift (guint32_get (u_junk (e_uninit E)) b) in
  let* (idb, b) := get_local_id b in
  let* (key, b) := lift (guint32_get 0 b) in
  attrib_recv srvc idb key opaque_zero.

Definition recv (srvc chan type : Z) (d : mwOpaque) : M unit :=
  let* c := obj_get srvc aw_channel in
  if negb (bool_decide (c = Some chan)) then ret tt else
  let* sv := deref_service srvc in
  deref_channel chan ;;
  if negb (sv_session sv) then ret tt else
  let b := mwGetBuffer_wrap (Some d) in
  if type =? msg_AWARE_SNAPSHOT then recv_SNAPSHOT srvc b
  else if type =? msg_AWARE_UPDATE then recv_UPDATE srvc b
  else if type =? msg_AWARE_GROUP then recv_GROUP srvc b
  else if type =? msg_OPT_GOT_SET then recv_OPT_GOT_SET srvc b
  else if type =? msg_OPT_GOT_UNSET then recv_OPT_GOT_UNSET srvc b
  else ret tt.

(** ** The functions of the service *)

Definition make_blist (srvc : Z) : M (option Z) :=
  let* chan := mwChannel_newOutgoing in
  mwChannel_setService chan srvc ;;
  mwChannel_setProtoType chan 0x00000011 ;;
  mwChannel_setProtoVer chan 0x00030005 ;;
  let* r := mwChannel_create E chan in
  ret (if r =? 0 then Some chan else None).

Definition start (srvc : Z) : M unit :=
  let* chan := make_blist srvc in
  match chan with
  | Some chan => obj_set srvc (set_aw_channel (Some chan))
  | None => mwService_stopped srvc
  end.

Definition stop (srvc : Z) : M unit :=
  let* chan := obj_get srvc aw_channel in
  match chan with
  | Some chan => mwChannel_destroy E chan ERR_SUCCESS None ;; obj_set srvc (set_aw_channel None)
  | None => ret tt
  end ;;
  mwService_stopped srvc.

(** [while(srvc->lists) mwAwareList_free(srvc->lists->data);]  A client that
    makes new lists while it is told of their end is outside the model. *)
Fixpoint free_lists (fuel : nat) (srvc : Z) : M unit :=
  let* l := obj_get srvc aw_lists in
  match l, fuel with
  | [], _ => ret tt
  | al :: _, S fuel => mwAwareList_free (Some al) ;; free_lists fuel srvc
  | _, O => crash
  end.

Definition clear (srvc : Z) : M unit :=
  let* l := obj_get srvc aw_lists in
  free_lists (length l) srvc ;;
  let* t := obj_get srvc aw_entries in
  for_each aware_entry_free (match t with Some t => id_values E t | None => [] end) ;;
  obj_set srvc (set_aw_entries None) ;;
  let* a := obj_get srvc aw_attribs in
  for_each attrib_entry_free (match a with Some a => e_values E Z a | None => [] end) ;;
  obj_set srvc (set_aw_attribs None).

Definition recv_accept (srvc chan : Z) (msg : mwMsgChannelAccept) : M unit :=
  let* c := obj_get srvc aw_channel in
  if negb (bool_decide (c = Some chan)) then ret tt else
  let* st := mwService_getState srvc in
  if bool_decide (st = mwServiceState_STARTING) then
    let* t := obj_get srvc aw_entries in
    let* ids := entry_ids (match t with Some t => id_values E t | None => [] end) in
    send_add (Some chan) ids ;;
    send_attrib_list srvc ;;
    mwService_started srvc
  else mwChannel_destroy E chan ERR_FAILURE None ;; ret tt.

Definition recv_destroy (srvc chan : Z) (msg : mwMsgChannelDestroy) : M unit :=
  obj_set srvc (set_aw_channel None) ;;
  mwService_stop E srvc.

Definition aware_ops : ServiceOps := {|
  op_recv_create := None;
  op_recv_accept := Some recv_accept;
  op_recv_destroy := Some recv_destroy;
  op_recv := Some recv;
  op_start := Some start;
  op_stop := Some stop;
  op_clear := Some clear |}.

Definition mwServiceAware_new : M Z :=
  let* srvc := mwService_init mwService_AWARE in
  attach_object srvc (obj_in
    {| aw_entries := Some ∅; aw_attribs := Some ∅; aw_lists := []; aw_channel := None |}) ;;
  ret srvc.

(** ** Attributes and status of the client *)

Definition mwServiceAware_setAttribute (srvc key : Z) (d : mwOpaque) : M Z :=
  let* b := lift ((guint32_put 0x00 >>> guint32_put (u32 (len d)) >>> guint32_put 0x00
    >>> guint32_put key >>> mwOpaque_put (Some d)) mwPutBuffer_new) in
  let* chan := obj_get srvc aw_channel in
  mwChannel_send_to E chan msg_OPT_DO_SET (mwPutBuffer_finalize b).

Definition mwServiceAware_setAttributeBoolean (srvc key : Z) (val : bool) : M Z :=
  let* b := lift ((gboolean_put false >>> gboolean_put val) mwPutBuffer_new) in
  mwServiceAware_setAttribute srvc key (mwPutBuffer_finalize b).

Definition mwServiceAware_setAttributeInteger (srvc key val : Z) : M Z :=
  let* b := lift (guint32_put val mwPutBuffer_new) in
  mwServiceAware_setAttribute srvc key (mwPutBuffer_finalize b).

Definition mwServiceAware_setAttributeString (srvc key : Z) (str : mwString) : M Z :=
  let* b := lift (mwString_put str mwPutBuffer_new) in
  mwServiceAware_setAttribute srvc key (mwPutBuffer_finalize b).

Definition mwServiceAware_unsetAttribute (srvc key : Z) : M Z :=
  let* b := lift ((guint32_put 0x00 >>> guint32_put key) mwPutBuffer_new) in
  let* chan := obj_get srvc aw_channel in
  mwChannel_send_to E chan msg_OPT_DO_UNSET (mwPutBuffer_finalize b).

Definition mwServiceAware_setStatus (srvc : option Z) (user : option mwAwareIdBlock)
    (stat : option mwUserStatus) : M unit :=
  nonnull srvc tt (fun srvc =>
  match user, stat with
  | Some user, Some stat =>
      status_recv srvc {| as_id := user; as_group := None; as_online := true; as_alt_id := None;
        as_status := stat; as_name := None |}
  | _, _ => ret tt
  end).

Definition mwServiceAware_getAttribute (srvc : option Z) (user : option mwAwareIdBlock) (key : Z) : M (option Z) :=
  nonnull srvc None (fun srvc =>
  match user with
  | None => ret None
  | Some user =>
      if key =? 0 then ret None else
      let* aware := aware_find srvc user in
      match aware with
      | None => ret None
      | Some aware => let* t := obj_get aware ae_attribs in ret (t !! key)
      end
  end).

Definition mwServiceAware_getText (srvc : option Z) (user : option mwAwareIdBlock) : M mwString :=
  nonnull srvc None (fun srvc =>
  match user with
  | None => ret None
  | Some user =>
      let* aware := aware_find srvc user in
      match aware with
      | None => ret None
      | Some aware => let* a := obj_get aware ae_aware in ret (us_desc (as_status a))
      end
  end).

(** ** Values of attributes *)

Definition mwAwareAttribute_getKey (attrib : option mwAwareAttribute) : Z :=
  match attrib with Some a => at_key a | None => 0x00 end.

(** The result of an attribute without data is what the stack holds. *)
Definition mwAwareAttribute_asBoolean (attrib : option mwAwareAttribute) : option bool :=
  match attrib with
  | None => Some false
  | Some a =>
      let b := mwGetBuffer_wrap (Some (at_data a)) in
      let n := len (at_data a) in
      if 4 <=? n then x ← guint32_get 0 b; Some (negb (x.1 =? 0))
      else if 2 <=? n then x ← guint16_get 0 b; Some (negb (x.1 =? 0))
      else if negb (n =? 0) then x ← gboolean_get (negb (u_junk (e_uninit E) =? 0)) b; Some x.1
      else Some (negb (u_junk (e_uninit E) =? 0))
  end.

Definition mwAwareAttribute_asInteger (attrib : option mwAwareAttribute) : option Z :=
  match attrib with
  | None => Some 0x00
  | Some a =>
      let b := mwGetBuffer_wrap (Some (at_data a)) in
      let n := len (at_data a) in
      if 4 <=? n then x ← guint32_get 0 b; Some x.1
      else if n =? 3 then x ← gboolean_get false b; y ← guint16_get 0 x.2; Some y.1
      else if n =? 2 then x ← guint16_get 0 b; Some x.1
      else if negb (n =? 0) then x ← gboolean_get false b; Some (Z.b2z x.1)
      else Some 0x00
  end.

Definition mwAwareAttribute_asString (attrib : option mwAwareAttribute) : option mwString :=
  match attrib with
  | None => Some None
  | Some a => x ← mwString_get (mwGetBuffer_wrap (Some (at_data a))); Some x.1
  end.

Definition mwAwareAttribute_asOpaque (attrib : option mwAwareAttribute) : option mwOpaque := at_data <$> attrib.

End aware.
