(* ===== verification/Dir.v ===== *)
(** * The directory service (src/src/srvc_dir.c)

    The server has address books; a client asks for the list of them and opens
    a directory on one.  The service keeps the books by their names and the
    directories it asked for by the number of the request.  Answers other than
    the list of the books are taken and dropped by the code.  NULL is [None]
    where a caller may give it. *)

From S2P Require Import Prelude Buffer Common Message Framing World Util Rc2 Cipher Service Session Channel.
#[local] Open Scope Z_scope.
#[local] Open Scope mw_scope.

Definition SERVICE_DIRECTORY : Z := 0x0000001a.
Definition PROTOCOL_TYPE : Z := 0x0000001c.
Definition PROTOCOL_VER : Z := 0x00000005.

Definition action_list : Z := 0x0000.
Definition action_open : Z := 0x0001.
Definition action_close : Z := 0x0002.
Definition action_search : Z := 0x0003.

(** ** Assignments to fields *)

Definition set_ds_handler (v : bool) (s : mwServiceDirectory) : mwServiceDirectory :=
  {| ds_handler := v; ds_channel := ds_channel s; ds_counter := ds_counter s; ds_requests := ds_requests s;
     ds_books := ds_books s |}.
Definition set_ds_channel (v : option Z) (s : mwServiceDirectory) : mwServiceDirectory :=
  {| ds_handler := ds_handler s; ds_channel := v; ds_counter := ds_counter s; ds_requests := ds_requests s;
     ds_books := ds_books s |}.
Definition set_ds_counter (v : Z) (s : mwServiceDirectory) : mwServiceDirectory :=
  {| ds_handler := ds_handler s; ds_channel := ds_channel s; ds_counter := v; ds_requests := ds_requests s;
     ds_books := ds_books s |}.
Definition set_ds_requests (v : gmap Z Z) (s : mwServiceDirectory) : mwServiceDirectory :=
  {| ds_handler := ds_handler s; ds_channel := ds_channel s; ds_counter := ds_counter s; ds_requests := v;
     ds_books := ds_books s |}.
Definition set_ds_books (v : option (list book_slot)) (s : mwServiceDirectory) : mwServiceDirectory :=
  {| ds_handler := ds_handler s; ds_channel := ds_channel s; ds_counter := ds_counter s; ds_requests := ds_requests s;
     ds_books := v |}.

Definition set_ab_dirs (v : gmap Z Z) (b : mwAddressBook) : mwAddressBook :=
  {| ab_service := ab_service b; ab_id := ab_id b; ab_name := ab_name b; ab_dirs := v; ab_freed := ab_freed b |}.
Definition set_ab_freed (b : mwAddressBook) : mwAddressBook :=
  {| ab_service := ab_service b; ab_id := ab_id b; ab_name := ab_name b; ab_dirs := ab_dirs b; ab_freed := true |}.

Definition set_di_state (v : mwDirectoryState) (d : mwDirectory) : mwDirectory :=
  {| di_service := di_service d; di_book := di_book d; di_state := v; di_id := di_id d; di_search_id := di_search_id d;
     di_handler := di_handler d; di_client_data := di_client_data d |}.
Definition set_di_search_id (v : Z) (d : mwDirectory) : mwDirectory :=
  {| di_service := di_service d; di_book := di_book d; di_state := di_state d; di_id := di_id d; di_search_id := v;
     di_handler := di_handler d; di_client_data := di_client_data d |}.
Definition set_di_handler (v : Z) (d : mwDirectory) : mwDirectory :=
  {| di_service := di_service d; di_book := di_book d; di_state := di_state d; di_id := di_id d; di_search_id := di_search_id d;
     di_handler := v; di_client_data := di_client_data d |}.
Definition set_di_client_data (v : mw_datum) (d : mwDirectory) : mwDirectory :=
  {| di_service := di_service d; di_book := di_book d; di_state := di_state d; di_id := di_id d; di_search_id := di_search_id d;
     di_handler := di_handler d; di_client_data := v |}.

(** ** The client

    The function of the handler, and that which frees the data of a
    directory. *)
Record DirClient := {
  dc_clear : option (Z -> M unit);
  dc_free_data : Z -> Z -> M unit;
}.

Section dir.
Context (E : Env) (cl : DirClient).

(** GLib's hash of a string. *)
Context (g_str_hash : list Z -> Z).

(** ** The table of the books *)

(** [g_hash_table_insert]: entries are compared if their hashes agree, in the
    order in which they came.  An entry that is there keeps its key, which is
    the name of the book that it loses. *)
Fixpoint slot_insert (name : list Z) (book : Z) (l : list book_slot) : option (list book_slot * option Z) :=
  match l with
  | [] => Some ([{| bs_key := name; bs_freed := false; bs_book := book |}], None)
  | s :: l =>
      if g_str_hash (bs_key s) =? g_str_hash name then
        if bs_freed s then None
        else if decide (bs_key s = name) then
          Some ({| bs_key := bs_key s; bs_freed := true; bs_book := book |} :: l, Some (bs_book s))
        else x ← slot_insert name book l; Some (s :: x.1, x.2)
      else x ← slot_insert name book l; Some (s :: x.1, x.2)
  end.

(** The values, in the order of the table. *)
Definition slot_values (l : list book_slot) : list Z :=
  e_values E Z (list_to_map (zip (seqZ 0 (zlen l)) (bs_book <$> l))).

(** ** Requests, directories, books *)

Definition next_request_id (srvc : Z) : M Z :=
  obj_set srvc (fun s => set_ds_counter (u32 (ds_counter s + 1)) s) ;;
  obj_get srvc ds_counter.

Definition map_request (dir : Z) : M Z :=
  let* srvc := obj_get dir di_service in
  let* id := next_request_id srvc in
  obj_set dir (set_di_search_id id) ;;
  obj_set srvc (fun s => set_ds_requests (<[id := dir]> (ds_requests s)) s) ;;
  ret id.

Definition dir_free (dir : Z) : M unit :=
  let* d := obj_deref dir in
  obj_set (di_service d) (fun s => set_ds_requests (delete (di_search_id d) (ds_requests s)) s) ;;
  free_object dir.

(** The directories of a book whose table was not destroyed. *)
Definition book_dirs (book : Z) : M (gmap Z Z) :=
  let* b := obj_deref book in
  if ab_freed b then crash else ret (ab_dirs b).

(** A value is freed after it has left the table. *)
Definition dir_remove (dir : Z) : M unit :=
  let* d := obj_deref dir in
  let* dirs := book_dirs (di_book d) in
  match dirs !! di_id d with
  | Some old => obj_set (di_book d) (set_ab_dirs (delete (di_id d) dirs)) ;; dir_free old
  | None => ret tt
  end.

Definition dir_new (book id : Z) : M Z :=
  let* srvc := obj_get book ab_service in
  let* dir := obj_new {| di_service := srvc; di_book := book; di_state := mwDirectory_NEW; di_id := id;
    di_search_id := 0; di_handler := 0; di_client_data := datum_zero |} in
  let* dirs := book_dirs book in
  obj_set book (set_ab_dirs (<[id := dir]> dirs)) ;;
  match dirs !! id with Some old => dir_free old | None => ret tt end ;;
  ret dir.

(** The block itself is not freed. *)
Definition book_free (book : Z) : M unit :=
  let* dirs := book_dirs book in
  obj_set book (set_ab_dirs ∅) ;;
  for_each dir_free (e_values E Z dirs) ;;
  obj_set book set_ab_freed.

Definition book_new (srvc : Z) (name : mwString) (id : Z) : M Z :=
  let* book := obj_new {| ab_service := srvc; ab_id := id; ab_name := g_strdup name; ab_dirs := ∅; ab_freed := false |} in
  let* t := obj_get srvc ds_books in
  match t with
  | None => ret book
  | Some l =>
      let* name := lift name in
      let* (l, old) := lift (slot_insert name book l) in
      obj_set srvc (set_ds_books (Some l)) ;;
      match old with Some old => book_free old | None => ret tt end ;;
      ret book
  end.

(** ** The functions of the service *)

Definition make_channel (srvc : Z) : M (option Z) :=
  let* chan := mwChannel_newOutgoing in
  mwChannel_setService chan srvc ;;
  mwChannel_setProtoType chan PROTOCOL_TYPE ;;
  mwChannel_setProtoVer chan PROTOCOL_VER ;;
  let* r := mwChannel_create E chan in
  ret (if r =? 0 then Some chan else None).

Definition start (srvc : Z) : M unit :=
  let* chan := make_channel srvc in
  match chan with
  | Some chan => obj_set srvc (set_ds_channel (Some chan))
  | None => mwService_stopped srvc
  end.

Definition stop (srvc : Z) : M unit :=
  let* chan := obj_get srvc ds_channel in
  match chan with
  | Some chan => mwChannel_destroy E chan ERR_SUCCESS None ;; obj_set srvc (set_ds_channel None)
  | None => ret tt
  end.

Definition clear (srvc : Z) : M unit :=
  let* t := obj_get srvc ds_books in
  match t with
  | Some l => for_each book_free (slot_values l) ;; obj_set srvc (set_ds_books None)
  | None => ret tt
  end ;;
  let* handler := obj_get srvc ds_handler in
  (if handler then match dc_clear cl with Some clear => clear srvc | None => ret tt end else ret tt) ;;
  obj_set srvc (set_ds_handler false).

Definition recv_create (srvc chan : Z) (msg : mwMsgChannelCreate) : M unit :=
  mwChannel_destroy E chan ERR_FAILURE None ;; ret tt.

Definition recv_accept (srvc chan : Z) (msg : mwMsgChannelAccept) : M unit :=
  let* c := obj_get srvc ds_channel in
  if negb (bool_decide (c = Some chan)) then ret tt else
  let* st := mwService_getState srvc in
  if bool_decide (st = mwServiceState_STARTING) then mwService_started srvc
  else mwChannel_destroy E chan ERR_FAILURE None ;; ret tt.

Definition recv_destroy (srvc chan : Z) (msg : mwMsgChannelDestroy) : M unit :=
  obj_set srvc (set_ds_channel None) ;;
  mwService_stop E srvc.

Fixpoint recv_books (count : nat) (srvc : Z) (b : mwGetBuffer) : M unit :=
  match count with
  | O => ret tt
  | S count =>
      if mwGetBuffer_error b then ret tt else
      let* (id, b) := lift (guint32_get (u_junk (e_uninit E)) b) in
      let* (name, b) := lift (mwString_get b) in
      book_new srvc name id ;;
      recv_books count srvc b
  end.

Definition recv_list (srvc : Z) (d : mwOpaque) : M unit :=
  let u := e_uninit E in
  let* (_, b) := lift (guint32_get (u_junk u) (mwGetBuffer_wrap (Some d))) in
  let* (_, b) := lift (guint32_get (u_junk u) b) in
  let* (count, b) := lift (guint32_get (u_count u) b) in
  let* (foo_1, b) := lift (gboolean_get (negb (u_junk u =? 0)) b) in
  let* (foo_2, b) := lift (guint16_get (u_junk u) b) in
  if foo_1 || negb (foo_2 =? 0) then ret tt else
  recv_books (Z.to_nat count) srvc b.

(** [recv_open] and [recv_search] have no body. *)
Definition recv (srvc chan type : Z) (d : mwOpaque) : M unit :=
  let* c := obj_get srvc ds_channel in
  if negb (bool_decide (c = Some chan)) then ret tt else
  if type =? action_list then recv_list srvc d else ret tt.

Definition dir_ops : ServiceOps := {|
  op_recv_create := Some recv_create;
  op_recv_accept := Some recv_accept;
  op_recv_destroy := Some recv_destroy;
  op_recv := Some recv;
  op_start := Some start;
  op_stop := Some stop;
  op_clear := Some clear |}.

Definition mwServiceDirectory_new : M Z :=
  let* srvc := mwService_init SERVICE_DIRECTORY in
  attach_object srvc (obj_in
    {| ds_handler := true; ds_channel := None; ds_counter := 0; ds_requests := ∅; ds_books := Some [] |}) ;;
  ret srvc.

(** ** Calls of the client *)

Definition mwServiceDirectory_getHandler (srvc : option Z) : M bool :=
  nonnull srvc false (fun srvc => obj_get srvc ds_handler).

Definition mwServiceDirectory_refreshAddressBooks (srvc : option Z) : M Z :=
  nonnull srvc (-1) (fun srvc =>
  let* chan := obj_get srvc ds_channel in
  nonnull chan (-1) (fun chan =>
  let* id := next_request_id srvc in
  let* b := lift (guint32_put id mwPutBuffer_new) in
  mwChannel_send E chan action_list (Some (mwPutBuffer_finalize b)))).

Definition mwServiceDirectory_getAddressBooks (srvc : option Z) : M (list Z) :=
  nonnull srvc [] (fun srvc =>
  let* t := obj_get srvc ds_books in
  ret (match t with Some l => slot_values l | None => [] end)).

Fixpoint collect_dirs (books : list Z) : M (list Z) :=
  match books with
  | [] => ret []
  | book :: books =>
      let* dirs := book_dirs book in
      let* l := collect_dirs books in
      ret (e_values E Z dirs ++ l)
  end.

Definition mwServiceDirectory_getDirectories (srvc : option Z) : M (list Z) :=
  nonnull srvc [] (fun srvc =>
  let* t := obj_get srvc ds_books in
  match t with Some l => collect_dirs (slot_values l) | None => ret [] end).

Definition mwAddressBook_getDirectories (book : option Z) : M (list Z) :=
  nonnull book [] (fun book => let* dirs := book_dirs book in ret (e_values E Z dirs)).

Definition book_name (book : Z) : M mwString :=
  let* b := obj_deref book in
  if ab_freed b then crash else ret (ab_name b).

(** The pointer, which is read by the caller. *)
Definition mwAddressBook_getName (book : option Z) : M mwString := nonnull book None book_name.

Definition mwDirectory_new (book : option Z) : M (option Z) :=
  nonnull book None (fun book =>
  let* srvc := obj_get book ab_service in
  let* dir := obj_new {| di_service := srvc; di_book := book; di_state := mwDirectory_NEW; di_id := 0;
    di_search_id := 0; di_handler := 0; di_client_data := datum_zero |} in
  ret (Some dir)).

Definition mwDirectory_getState (dir : option Z) : M mwDirectoryState :=
  nonnull dir mwDirectory_UNKNOWN (fun dir => obj_get dir di_state).

Definition MW_DIRECTORY_IS_STATE (dir : Z) (st : mwDirectoryState) : M bool :=
  let* s := mwDirectory_getState (Some dir) in ret (bool_decide (s = st)).

Definition mwDirectory_setClientData (dir : option Z) (d clear : Z) : M unit :=
  nonnull dir tt (fun dir => obj_set dir (set_di_client_data (mw_datum_set datum_zero d clear))).
Definition mwDirectory_getClientData (dir : option Z) : M Z :=
  nonnull dir 0 (fun dir => let* d := obj_get dir di_client_data in ret (mw_datum_get d)).
Definition mwDirectory_removeClientData (dir : option Z) : M unit :=
  nonnull dir tt (fun dir =>
  let* d := obj_get dir di_client_data in
  let* d := mw_datum_clear (dc_free_data cl) d in
  obj_set dir (set_di_client_data d)).

Definition mwDirectory_getService (dir : option Z) : M (option Z) :=
  nonnull dir None (fun dir =>
  let* book := obj_get dir di_book in
  let* srvc := obj_get book ab_service in ret (Some srvc)).
Definition mwDirectory_getAddressBook (dir : option Z) : M (option Z) :=
  nonnull dir None (fun dir => let* book := obj_get dir di_book in ret (Some book)).

(** The channel of the service of a directory, with a request that [put]
    composes. *)
Definition dir_request (dir type : Z) (put : M Put) : M Z :=
  let* srvc := obj_get dir di_service in
  let* chan := obj_get srvc ds_channel in
  nonnull chan (-1) (fun chan =>
  let* p := put in
  let* b := lift (p mwPutBuffer_new) in
  mwChannel_send E chan type (Some (mwPutBuffer_finalize b))).

Definition open_put (dir : Z) : M Put :=
  let* request := map_request dir in
  let* book := obj_get dir di_book in
  let* id := obj_get book ab_id in
  let* name := book_name book in
  ret (guint32_put request >>> gboolean_put false >>> guint16_put 0x0000 >>> guint32_put id >>> mwString_put name).

Definition dir_open (dir : Z) : M Z := dir_request dir action_open (open_put dir).

(** A NULL callback is 0. *)
Definition mwDirectory_open (dir : option Z) (cb : Z) : M Z :=
  nonnull dir (-1) (fun dir =>
  if cb =? 0 then ret (-1) else
  let* is_new := MW_DIRECTORY_IS_STATE dir mwDirectory_NEW in
  if negb is_new then ret (-1) else
  obj_set dir (set_di_state mwDirectory_PENDING) ;;
  obj_set dir (set_di_handler cb) ;;
  dir_open dir).

(** What the requests for results of an open directory begin with. *)
Definition results_put (dir magic seek : Z) : M Put :=
  let* request := map_request dir in
  let* id := obj_get dir di_id in
  ret (guint32_put request >>> guint32_put id >>> guint16_put magic >>> guint32_put seek).

Definition if_open (dir : option Z) (f : Z -> M Z) : M Z :=
  nonnull dir (-1) (fun dir =>
  let* is_open := MW_DIRECTORY_IS_STATE dir mwDirectory_OPEN in
  if negb is_open then ret (-1) else f dir).

Definition mwDirectory_next (dir : option Z) : M Z :=
  if_open dir (fun dir => dir_request dir action_search (results_put dir 0xffff 0x00000000)).

Definition mwDirectory_previous (dir : option Z) : M Z :=
  if_open dir (fun dir => dir_request dir action_search (results_put dir 0x0061 0x00000001)).

Definition mwDirectory_search (dir : option Z) (query : mwString) : M Z :=
  if_open dir (fun dir =>
  match query with
  | None | Some [] => ret (-1)
  | Some _ =>
      dir_request dir action_search (let* p := results_put dir 0x0061 0x00000008 in ret (p >>> mwString_put query))
  end).

Definition close_put (dir : Z) : M Put :=
  let* srvc := obj_get dir di_service in
  let* request := next_request_id srvc in
  let* id := obj_get dir di_id in
  ret (guint32_put request >>> guint32_put id).

Definition dir_close (dir : Z) : M Z := dir_request dir action_close (close_put dir).

Definition mwDirectory_destroy (dir : option Z) : M Z :=
  nonnull dir (-1) (fun dir =>
  let* is_open := MW_DIRECTORY_IS_STATE dir mwDirectory_OPEN in
  let* is_pending := MW_DIRECTORY_IS_STATE dir mwDirectory_PENDING in
  let* r := if is_open || is_pending then dir_close dir else ret 0 in
  dir_remove dir ;;
  ret r).

End dir.
