(* ===== verification/Debug.v ===== *)
(** * Reports (src/src/error.c, mw_debug.c)

    The text for an error code, and the hex dump of what was not understood. *)

From S2P Require Import Prelude Buffer Common Cstring Message Framing World.
#[local] Open Scope Z_scope.
#[local] Open Scope mw_scope.

(** ** Error codes *)

(** What [sprintf] stores in the block [b] of eleven bytes, up to the zero. *)
Definition err_to_str (code : Z) : option (list Z) :=
  let s := chars "0x" ++ print_hex 8 code in
  if zlen s + 1 <=? 11 then Some s else None.

(** The cases, in their order. *)
Definition error_cases : list (Z * string) := [
  (0x00000000, "Success"); (0x80000000, "General failure"); (0x00000001, "Request delayed");
  (0x80000001, "Request is invalid"); (0x80000003, "Not authorized"); (0x80000006, "User is not online");
  (0x8000000b, "Requested channel is not supported"); (0x8000000c, "Requested channel already exists");
  (0x8000000d, "Requested service is not supported"); (0x8000000e, "Requested protocol is not supported");
  (0x80000010, "Version is not supported"); (0x80000011, "User is invalid or not trusted");
  (0x80000013, "Already initialized"); (0x8000001d, "Encryption method not supported");
  (0x80000021, "No common encryption method");
  (0x80000200, "Version mismatch"); (0x80000209, "Message is too large"); (0x80000221, "Connection broken");
  (0x80000222, "Connection aborted"); (0x80000223, "Connection refused"); (0x80000224, "Connection reset");
  (0x80000225, "Connection timed out"); (0x80000226, "Connection closed");
  (0x80000211, "Incorrect Username/Password"); (0x80000214, "Login verification down or unavailable");
  (0x80000217, "The guest name is currently being used");
  (0x80000227, "Login to two different servers concurrently");
  (0x80000228, "Login to two different servers concurrently"); (0x8000022B, "Server misconfiguration");
  (0x80002000, "User is not online"); (0x80002001, "User is in Do Not Disturb mode");
  (0x80002002, "Already logged in elsewhere");
  (0x80002003, "Cannot register a reserved type"); (0x80002004, "Requested type is already registered");
  (0x80002005, "Requested type is not registered")
]%string.

Fixpoint switch_error (cases : list (Z * string)) (code : Z) : option (list Z) :=
  match cases with
  | (val, str) :: cases => if code =? val then Some (chars str) else switch_error cases code
  | [] => err_to_str code
  end.

Definition mwError (code : Z) : option (list Z) := switch_error error_cases code.

(** ** The hex dump *)

Definition FRMT1 (b : Z) : list Z := print_hex 2 b.

(** [FRMT2], [FRMT4], [FRMT8] and [FRMT16]: pairs of bytes, a blank after each. *)
Fixpoint frmt_pairs (l : list Z) : list Z :=
  match l with
  | a :: b :: l => FRMT1 a ++ FRMT1 b ++ [32] ++ frmt_pairs l
  | [a] => FRMT1 a
  | [] => []
  end.

(** The string, the place in the block, what is left. *)
Record dump := { dp_str : list Z; dp_ptr : Z; dp_len : Z }.

(** [g_string_append_printf] of the next [c] bytes, and [ADVANCE]. *)
Definition print_bytes (buf : list Z) (c : Z) (s : dump) : option dump :=
  l ← mem_read buf (dp_ptr s) c;
  Some {| dp_str := dp_str s ++ frmt_pairs l; dp_ptr := dp_ptr s + c; dp_len := dp_len s - c |}.

Definition print_if (buf : list Z) (c : Z) (s : dump) : option dump :=
  if c <=? dp_len s then print_bytes buf c s else Some s.

Fixpoint pretty_lines (fuel : nat) (buf : list Z) (s : dump) : option dump :=
  if 16 <=? dp_len s then
    match fuel with
    | O => None
    | S fuel =>
        s ← print_bytes buf 16 s;
        pretty_lines fuel buf (if dp_len s =? 0 then s else
          {| dp_str := dp_str s ++ [10]; dp_ptr := dp_ptr s; dp_len := dp_len s |})
    end
  else Some s.

Definition pretty_print (str buf : list Z) (len : Z) : option (list Z) :=
  s ← pretty_lines (Z.to_nat (len / 16)) buf {| dp_str := str; dp_ptr := 0; dp_len := len |};
  s ← print_if buf 8 s;
  s ← print_if buf 4 s;
  s ← print_if buf 2 s;
  s ← print_if buf 1 s;
  Some (dp_str s).

(** [txt] is the message with its arguments, if there is one; what is given to
    [g_debug], or nothing on an early return. *)
Definition mw_debug_datav (buf : option (list Z)) (len : Z) (txt : mwString) : option (option (list Z)) :=
  if bool_decide (buf = None) && negb (len =? 0) then Some None else
  str ← pretty_print (match txt with Some t => t ++ [10] | None => [] end) (opt_list buf) len;
  Some (Some str).

Definition mw_debug_opaquev (o : option mwOpaque) (txt : mwString) : option (option (list Z)) :=
  match o with Some o => mw_debug_datav (data o) (len o) txt | None => Some None end.

(** ** Error codes have a text *)

(** The block of [err_to_str] is long enough, and tells codes apart. *)
Lemma err_to_str_some code : err_to_str code = Some (chars "0x" ++ print_hex 8 code).
Proof.
  unfold err_to_str. assert (zlen (chars "0x" ++ print_hex 8 code) = 10) as ->; [|done].
  unfold zlen. rewrite length_app, print_hex_length. done.
Qed.

(** Every error code has a text: the one that is listed for it, or, for a
    code that is not listed, "0x" and its eight hexadecimal digits, which fit
    the static block of eleven bytes and from which the code can be read
    back. *)
Theorem mwError_text code : is_u32 code ->
  exists s, mwError code = Some s /\
    ((exists text, (code, text) ∈ error_cases /\ s = chars text)
     \/ ((forall text, (code, text) ∉ error_cases) /\ zlen s = 10 /\ take 2 s = chars "0x" /\ read_hex (drop 2 s) = Some code)).
Proof.
  intros Hc. unfold mwError. induction error_cases as [|[val str] cases IH]; cbn [switch_error].
  - rewrite err_to_str_some. eexists. split; [done|]. right. split_and!.
    + intros text. apply not_elem_of_nil.
    + unfold zlen. rewrite length_app, print_hex_length. done.
    + done.
    + change (drop 2 (chars "0x" ++ print_hex 8 code)) with (print_hex 8 code). apply read_print_hex. exact Hc.
  - destruct (Z.eqb_spec code val) as [->|Hne].
    + eexists. split; [done|]. left. exists str. split; [left|done].
    + destruct IH as (s & Hs & [(text & Hin & ->)|(Hno & Hrest)]); exists (chars text) || exists s; (split; [done|]).
      * left. exists text. split; [by right|done].
      * right. split; [|exact Hrest]. intros text [[= E _]|Hin]%elem_of_cons; [done|by apply (Hno text)].
Qed.

Lemma mwError_text_witness :
  exists s, mwError 0x12 = Some s /\
    ((exists text, (0x12, text) ∈ error_cases /\ s = chars text)
     \/ ((forall text, (0x12, text) ∉ error_cases) /\ zlen s = 10 /\ take 2 s = chars "0x" /\ read_hex (drop 2 s) = Some 0x12)).
Proof. apply (mwError_text 0x12). done. Defined.

(** ** The dump can be read *)

(** Without blanks and line feeds, two digits at a time. *)
Fixpoint unhex (l : list Z) : option (list Z) :=
  match l with
  | [] => Some []
  | a :: l' =>
      if (a =? 32) || (a =? 10) then unhex l' else
      match l' with
      | b :: l => x ← hex_value a; y ← hex_value b; r ← unhex l; Some (16 * x + y :: r)
      | [] => None
      end
  end.

Definition is_byte (b : Z) : Prop := 0 <= b < 2 ^ 8.

Lemma unhex_byte b s : is_byte b -> unhex (FRMT1 b ++ s) = (r ← unhex s; Some (b :: r)).
Proof.
  intros Hb. unfold is_byte in Hb. unfold FRMT1. cbn [print_hex app].
  assert (0 <= b / 16 < 16) as Hd by (split; [apply Z.div_pos; lia|apply Z.div_lt_upper_bound; lia]).
  rewrite (Z.mod_small (b / 16)) by lia. cbn [unhex].
  assert (forall d, 0 <= d < 16 -> (hex_digit d =? 32) || (hex_digit d =? 10) = false) as Hblank.
  { intros d Hd'. unfold hex_digit. destruct (d <? 10); lia. }
  rewrite Hblank, !hex_digit_value by (lia || (apply Z.mod_pos_bound; lia)). cbn.
  replace (16 * (b / 16) + b mod 16) with b by (pose proof (Z.div_mod b 16); lia). by destruct (unhex s).
Qed.

Lemma unhex_blank s : unhex (32 :: s) = unhex s /\ unhex (10 :: s) = unhex s.
Proof. done. Qed.

(** By pairs. *)
Lemma frmt_pairs_ind (P : list Z -> Prop) :
  P [] -> (forall a, P [a]) -> (forall a b l, P l -> P (a :: b :: l)) -> forall l, P l.
Proof.
  intros H0 H1 H2 l. assert (P l /\ forall a, P (a :: l)) as [? _]; [|done].
  induction l as [|b l [IH1 IH2]]; [by split|]. split; [apply IH2|]. intros a. by apply H2.
Qed.

Lemma unhex_pairs l s : Forall is_byte l -> unhex (frmt_pairs l ++ s) = (r ← unhex s; Some (l ++ r)).
Proof.
  revert s. induction l as [|a|a b l IH] using frmt_pairs_ind; intros s Hl; cbn [frmt_pairs].
  - cbn. by destruct (unhex s).
  - apply Forall_cons in Hl as [Ha _]. by rewrite unhex_byte.
  - apply Forall_cons in Hl as [Ha [Hb Hl]%Forall_cons]. rewrite <- !app_assoc, !unhex_byte by done.
    change ([32] ++ frmt_pairs l ++ s) with (32 :: (frmt_pairs l ++ s)). rewrite (proj1 (unhex_blank _)), IH by done.
    by destruct (unhex s).
Qed.

(** Where the dump has got to: the bytes before it are in the string. *)
Definition dumped (str buf : list Z) (n : Z) (s : dump) : Prop :=
  0 <= dp_ptr s /\ 0 <= dp_len s /\ dp_ptr s + dp_len s = n
  /\ forall t, exists u, dp_str s = str ++ u
    /\ unhex (u ++ t) = (r ← unhex t; Some (take (Z.to_nat (dp_ptr s)) buf ++ r)).

Section dump.
Context (str buf : list Z) (n : Z) (Hn : n <= zlen buf) (Hb : Forall is_byte buf).

Lemma print_bytes_dumped c s : 0 <= c <= dp_len s -> dumped str buf n s ->
  exists s', print_bytes buf c s = Some s' /\ dumped str buf n s' /\ dp_len s' = dp_len s - c.
Proof.
  intros Hc (Hp & Hl & Hpl & Hs). unfold print_bytes, mem_read. rewrite decide_True by lia. cbn [mbind option_bind].
  eexists. split; [done|]. split; [|done]. split_and!; cbn; try lia. intros t.
  destruct (Hs (frmt_pairs (take (Z.to_nat c) (drop (Z.to_nat (dp_ptr s)) buf)) ++ t)) as (u & Eu & Er).
  eexists. rewrite Eu, <- app_assoc. split; [done|]. rewrite <- app_assoc, Er.
  rewrite unhex_pairs by by apply Forall_take, Forall_drop. destruct (unhex t) as [r|]; cbn [mbind option_bind]; [|done].
  f_equal. rewrite app_assoc. f_equal. replace (Z.to_nat (dp_ptr s + c)) with (Z.to_nat (dp_ptr s) + Z.to_nat c)%nat by lia.
  apply take_take_drop.
Qed.

Lemma print_if_dumped c s : 0 <= c -> dumped str buf n s ->
  exists s', print_if buf c s = Some s' /\ dumped str buf n s'
    /\ dp_len s' = if c <=? dp_len s then dp_len s - c else dp_len s.
Proof.
  intros Hc Hs. unfold print_if. destruct (Z.leb_spec c (dp_len s)); [|by exists s]. by apply print_bytes_dumped.
Qed.

Lemma pretty_lines_dumped fuel s : dp_len s / 16 <= Z.of_nat fuel -> dumped str buf n s ->
  exists s', pretty_lines fuel buf s = Some s' /\ dumped str buf n s' /\ dp_len s' = dp_len s mod 16.
Proof.
  revert s. induction fuel as [|fuel IH]; intros s Hf Hs; cbn [pretty_lines];
    destruct (Z.leb_spec 16 (dp_len s)) as [H16|H16];
    try (exists s; split; [done|]; split; [done|]; destruct Hs as (_ & ? & _); symmetry; apply Z.mod_small; lia).
  - assert (1 <= dp_len s / 16) by (apply Z.div_le_lower_bound; lia). lia.
  - destruct (print_bytes_dumped 16 s ltac:(lia) Hs) as (s1 & -> & Hs1 & Hl1). cbn [mbind option_bind].
    assert (dp_len s1 / 16 <= Z.of_nat fuel) as Hf1.
    { rewrite Hl1. replace (dp_len s - 16) with (dp_len s + (-1) * 16) by lia. rewrite Z.div_add by lia. lia. }
    assert (dp_len s mod 16 = dp_len s1 mod 16) as ->.
    { rewrite Hl1. replace (dp_len s - 16) with (dp_len s + (-1) * 16) by lia. by rewrite Z.mod_add by lia. }
    destruct (dp_len s1 =? 0); [by apply IH|].
    apply (IH {| dp_str := dp_str s1 ++ [10]; dp_ptr := dp_ptr s1; dp_len := dp_len s1 |}); [done|].
    destruct Hs1 as (Hp & Hl & Hpl & Hs1). split_and!; [done..|]. intros t. destruct (Hs1 (10 :: t)) as (u & Eu & Er).
    exists (u ++ [10]). cbn. rewrite Eu, <- !app_assoc. split; [done|]. exact Er.
Qed.

End dump.

(** The dump of a block reads exactly the bytes it is told to, never one
    beyond them, and they can be read back from it, whatever their number;
    the text before it is left as it was. *)
Theorem pretty_print_readable str buf n :
  0 <= n <= zlen buf -> Forall is_byte buf ->
  exists u, pretty_print str buf n = Some (str ++ u) /\ unhex u = Some (take (Z.to_nat n) buf).
Proof.
  intros Hn Hb. unfold pretty_print.
  assert (dumped str buf n {| dp_str := str; dp_ptr := 0; dp_len := n |}) as H0.
  { split_and!; cbn; try lia. intros t. exists []. rewrite app_nil_r. split; [done|]. cbn. by destruct (unhex t). }
  assert (n / 16 <= Z.of_nat (Z.to_nat (n / 16))) as Hf by (pose proof (Z.div_pos n 16 ltac:(lia) ltac:(lia)); lia).
  destruct (pretty_lines_dumped str buf n ltac:(lia) Hb (Z.to_nat (n / 16))
    {| dp_str := str; dp_ptr := 0; dp_len := n |} Hf H0)
    as (s1 & -> & H1 & L1). cbn [mbind option_bind dp_len] in *.
  pose proof (Z.mod_pos_bound n 16 ltac:(lia)).
  destruct (print_if_dumped str buf n ltac:(lia) Hb 8 s1 ltac:(lia) H1) as (s2 & -> & H2 & L2). cbn [mbind option_bind].
  destruct (print_if_dumped str buf n ltac:(lia) Hb 4 s2 ltac:(lia) H2) as (s3 & -> & H3 & L3). cbn [mbind option_bind].
  destruct (print_if_dumped str buf n ltac:(lia) Hb 2 s3 ltac:(lia) H3) as (s4 & -> & H4 & L4). cbn [mbind option_bind].
  destruct (print_if_dumped str buf n ltac:(lia) Hb 1 s4 ltac:(lia) H4) as (s5 & -> & H5 & L5). cbn [mbind option_bind].
  destruct H5 as (Hp & Hl & Hpl & H5). destruct (H5 []) as (u & -> & Er). exists u. split; [done|].
  rewrite app_nil_r in Er. rewrite Er. cbn. rewrite app_nil_r. do 3 f_equal.
  assert (dp_len s5 = 0); [|lia]. revert L2 L3 L4 L5.
  destruct (Z.leb_spec 8 (dp_len s1)), (Z.leb_spec 4 (dp_len s2)), (Z.leb_spec 2 (dp_len s3)), (Z.leb_spec 1 (dp_len s4)); intros; lia.
Qed.

Lemma pretty_print_readable_witness :
  exists u, pretty_print (chars "x") (replicate 40 171) 37 = Some (chars "x" ++ u)
    /\ unhex u = Some (take (Z.to_nat 37) (replicate 40 171)).
Proof. apply (pretty_print_readable (chars "x") (replicate 40 171) 37); [done|]. by apply Forall_replicate. Defined.
