(* ===== verification/Dispatch.v ===== *)
(** * What arrives (src/src/session.c, lines 518-692)

    The handlers that find a channel, the dispatch of a parsed message, and
    the session as the owner of the buffer of [Framing.v]. *)

From S2P Require Import Prelude Buffer Common Message Framing World Rc2 Cipher Service Session Channel.
#[local] Open Scope Z_scope.
#[local] Open Scope mw_scope.

Section dispatch.
Context (E : Env).

Definition CHANNEL_CREATE_recv (msg : mwMsgChannelCreate) : M unit :=
  let* chan := mwChannel_newIncoming (cc_channel msg) in
  mwChannel_recvCreate E chan msg.

Definition CHANNEL_ACCEPT_recv (channel : Z) (msg : mwMsgChannelAccept) : M unit :=
  let* chan := mwChannel_find channel in
  match chan with
  | Some chan => mwChannel_recvAccept E chan channel msg
  | None => ret tt
  end.

(** Destroying the channel 0 stops the session. *)
Definition CHANNEL_DESTROY_recv (channel : Z) (msg : mwMsgChannelDestroy) : M unit :=
  if channel =? MW_MASTER_CHANNEL_ID then mwSession_stop E (cd_reason msg) else
  let* chan := mwChannel_find channel in
  match chan with
  | Some chan => mwChannel_recvDestroy E chan channel msg
  | None => ret tt
  end.

Definition CHANNEL_SEND_recv (head : mwMessageHead) (msg : mwMsgChannelSend) : M unit :=
  let* chan := mwChannel_find (mh_channel head) in
  match chan with
  | Some chan => mwChannel_recv E chan head msg
  | None => ret tt
  end.

(** The switch on the type; the other types have no handler. *)
Definition handle (msg : mwMessage) : M unit :=
  let channel := mh_channel (msg_head msg) in
  match msg_body msg with
  | HANDSHAKE_ACK m => HANDSHAKE_ACK_recv E m
  | LOGIN_REDIRECT m => LOGIN_REDIRECT_recv E m
  | LOGIN_ACK m => LOGIN_ACK_recv E m
  | CHANNEL_CREATE m => CHANNEL_CREATE_recv m
  | CHANNEL_DESTROY m => CHANNEL_DESTROY_recv channel m
  | CHANNEL_SEND m => CHANNEL_SEND_recv (msg_head msg) m
  | CHANNEL_ACCEPT m => CHANNEL_ACCEPT_recv channel m
  | SET_PRIVACY_LIST m => SET_PRIVACY_LIST_recv E m
  | SET_USER_STATUS m => SET_USER_STATUS_recv E m
  | SENSE_SERVICE m => SENSE_SERVICE_recv E m
  | ADMIN m => ADMIN_recv E m
  | ANNOUNCE m => ANNOUNCE_recv E m
  | HANDSHAKE _ | LOGIN _ | LOGIN_CONTINUE => ret tt
  end.

(** [mwMessage_free]: the host of a redirect was the state's information. *)
Definition message_free (msg : mwMessage) : M unit :=
  match msg_body msg with
  | LOGIN_REDIRECT _ =>
      session_set (fun s =>
        match s_state_info s with Str _ => set_s_state_info Dangling s | _ => s end)
  | _ => ret tt
  end.

(** A message that did not parse to its end is handled all the same. *)
Definition session_process (buf : list Z) : M unit :=
  if zlen buf =? 0 then ret tt else
  let b := mwGetBuffer_wrap (Some {| len := zlen buf; data := Some buf |}) in
  let* (msg, b) := lift (mwMessage_get (e_uninit E) b) in
  match msg with
  | None => ret tt
  | Some msg => handle msg ;; message_free msg
  end.

(** The session's buffer, and its processing, for [Framing.v]. *)
#[export] Instance session_owner : RecvOwner world := {
  get_buf w := s_buf (w_session w);
  set_buf r w := set_w_session (set_s_buf r (w_session w)) w;
  process buf w := snd <$> session_process buf w;
}.

Definition mwSession_recv (buf : list Z) : M unit := fun w =>
  (fun w => (tt, w)) <$> Framing.mwSession_recv buf w.

(** Channels, tables and information go; the session itself too. *)
Definition mwSession_free : M unit :=
  call0 (e_clear E) ;;
  session_set (set_s_buf rb_empty) ;;
  mwChannelSet_free ;;
  session_set (set_s_services ∅) ;;
  session_set (set_s_ciphers ∅) ;;
  session_set (set_s_attributes ∅) ;;
  session_set (fun s => set_s_login (mwLoginInfo_clear (s_login s)) s) ;;
  session_set (fun s => set_s_status (mwUserStatus_clear (s_status s)) s) ;;
  session_set (fun s => set_s_privacy (mwPrivacyInfo_clear (s_privacy s)) s).

End dispatch.
