(* ===== verification/Frame.v ===== *)
(** * Properties that every operation of the library has

    A property of computations that the primitive steps have and that
    sequences keep is one of the whole library, when the code outside has it.
    The closure is proved once, over an interface; the instances are the
    independence of the receive buffer, its staying idle, and the session's
    state being left alone by what does not concern it. *)

From S2P Require Import Prelude Buffer Common Message Framing World Rc2 Cipher Service Session.
From S2P Require Import Channel Dispatch.
#[local] Open Scope Z_scope.
#[local] Open Scope mw_scope.

(** ** The interface *)

(** [P] holds of [m]. *)
Definition has (P : forall A, M A -> Prop) {A} (m : M A) : Prop := P A m.

(** The primitive steps, but for those on the session's state and buffer.
    Steps on a channel leave its id alone, and the table of channels and the
    heap change together. *)
Class Frame (P : forall A, M A -> Prop) := {
  fr_ret A (a : A) : has P (ret a);
  fr_bind A B (m : M A) (k : A -> M B) : has P m -> (forall a, has P (k a)) -> has P (bind m k);
  fr_lift A (o : option A) : has P (lift o);
  fr_crash A : has P (@crash A);
  fr_session_get A (f : mwSession -> A) :
    (forall r s, f (set_s_buf r s) = f s) -> has P (session_get f);
  fr_session_set f :
    (forall r s, f (set_s_buf r s) = set_s_buf r (f s)) -> (forall s, s_state (f s) = s_state s) ->
    (forall s, s_buf (f s) = s_buf s) -> (forall s, s_chan_map (f s) = s_chan_map s) ->
    has P (session_set f);
  fr_deref_channel p : has P (deref_channel p);
  fr_deref_service p : has P (deref_service p);
  fr_deref_cipher p : has P (deref_cipher p);
  fr_channel_get A p (f : mwChannel -> A) : has P (channel_get p f);
  fr_channel_set p f : (forall ch, ch_id (f ch) = ch_id ch) -> has P (channel_set p f);
  fr_service_set p f : has P (service_set p f);
  fr_cipher_set p f : has P (cipher_set p f);
  fr_newIncoming id : has P (mwChannel_newIncoming id);
  fr_chan_map_remove id : has P (chan_map_remove id);
  fr_write bytes r : has P (log (EvWrite bytes r));
}.

(** The same for a property that does not concern the channels as a whole. *)
Class Steps (P : forall A, M A -> Prop) := {
  st_ret A (a : A) : has P (ret a);
  st_bind A B (m : M A) (k : A -> M B) : has P m -> (forall a, has P (k a)) -> has P (bind m k);
  st_lift A (o : option A) : has P (lift o);
  st_crash A : has P (@crash A);
  st_session_get A (f : mwSession -> A) :
    (forall r s, f (set_s_buf r s) = f s) -> has P (session_get f);
  st_session_set f :
    (forall r s, f (set_s_buf r s) = set_s_buf r (f s)) -> (forall s, s_state (f s) = s_state s) ->
    (forall s, s_buf (f s) = s_buf s) ->
    has P (session_set f);
  st_deref_channel p : has P (deref_channel p);
  st_deref_service p : has P (deref_service p);
  st_deref_cipher p : has P (deref_cipher p);
  st_channel_get A p (f : mwChannel -> A) : has P (channel_get p f);
  st_channel_set p f : has P (channel_set p f);
  st_service_set p f : has P (service_set p f);
  st_cipher_set p f : has P (cipher_set p f);
  st_set_channels f : has P (modify (fun w => set_w_channels (f (w_channels w)) w));
  st_alloc_channel ch : has P (alloc_channel ch);
  st_write bytes r : has P (log (EvWrite bytes r));
}.

Lemma steps_channel_free P (S : Steps P) p : has P (channel_free p).
Proof. apply st_bind; [apply st_deref_channel|intros _; apply st_set_channels]. Qed.

Lemma steps_find P (S : Steps P) id : has P (mwChannel_find id).
Proof. by apply st_session_get. Qed.

Lemma steps_chan_map_remove P (S : Steps P) id : has P (chan_map_remove id).
Proof.
  apply st_bind; [by apply steps_find|intros old]. apply st_bind; [by apply st_session_set|intros _].
  destruct old; [by apply steps_channel_free|apply st_ret].
Qed.

Lemma steps_chan_map_insert P (S : Steps P) id p : has P (chan_map_insert id p).
Proof.
  apply st_bind; [by apply steps_find|intros old]. apply st_bind; [by apply st_session_set|intros _].
  destruct old; [by apply steps_channel_free|apply st_ret].
Qed.

Lemma steps_newIncoming P (S : Steps P) id : has P (mwChannel_newIncoming id).
Proof.
  apply st_bind; [apply st_alloc_channel|intros p].
  apply st_bind; [by apply steps_chan_map_insert|intros _].
  apply st_bind; [|intros _; apply st_ret].
  apply st_bind; [apply st_channel_get|intros old].
  destruct (bool_decide _); [apply st_ret|apply st_channel_set].
Qed.

Lemma steps_frame P : Steps P -> Frame P.
Proof.
  intros S. split; intros; first
    [ apply st_ret | by apply st_bind | apply st_lift | apply st_crash | by apply st_session_get
    | by apply st_session_set | apply st_deref_channel | apply st_deref_service
    | apply st_deref_cipher | apply st_channel_get | apply st_channel_set | apply st_service_set
    | apply st_cipher_set | by apply steps_newIncoming | by apply steps_chan_map_remove
    | apply st_write ].
Qed.

(** With the session's state and buffer, and closing. *)
Class FullFrame (P : forall A, M A -> Prop) := {
  ff_frame :: Frame P;
  ff_state st : has P (session_set (set_s_state st));
  ff_buf : has P (session_set (set_s_buf rb_empty));
  ff_log e : has P (log e);
}.

(** With the structures of the services, which the rest of the library leaves
    alone. *)
Class HeapFrame (P : forall A, M A -> Prop) := {
  hf_frame :: Frame P;
  hf_deref_object p : has P (deref_object p);
  hf_put_object p o : has P (put_object p o);
  hf_new_object o : has P (new_object o);
  hf_free_object p : has P (free_object p);
  hf_attach_object p o : has P (attach_object p o);
}.

(** The code outside the library has the property. *)
Class EnvFrame (P : forall A, M A -> Prop) (E : Env) := {
  ef_io_write b : has P (e_io_write E b);
  ef_io_close : has P (e_io_close E);
  ef_on_stateChange f st i : e_on_stateChange E = Some f -> has P (f st i);
  ef_on_setPrivacyInfo m : e_on_setPrivacyInfo E = Some m -> has P m;
  ef_on_setUserStatus m : e_on_setUserStatus E = Some m -> has P m;
  ef_on_admin f t : e_on_admin E = Some f -> has P (f t);
  ef_on_announce f a b c : e_on_announce E = Some f -> has P (f a b c);
  ef_recv_create p f b c : op_recv_create (e_service E p) = Some f -> has P (f p b c);
  ef_recv_accept p f b c : op_recv_accept (e_service E p) = Some f -> has P (f p b c);
  ef_recv_destroy p f b c : op_recv_destroy (e_service E p) = Some f -> has P (f p b c);
  ef_recv p f b c d : op_recv (e_service E p) = Some f -> has P (f p b c d);
  ef_start p f : op_start (e_service E p) = Some f -> has P (f p);
  ef_stop p f : op_stop (e_service E p) = Some f -> has P (f p);
}.

Create HintDb mw_frame discriminated.
#[export] Hint Constants Opaque : mw_frame.
#[export] Hint Resolve fr_ret fr_lift fr_crash fr_deref_channel fr_deref_service fr_deref_cipher
  fr_channel_get fr_service_set fr_cipher_set fr_newIncoming fr_chan_map_remove fr_write
  hf_deref_object hf_put_object hf_new_object hf_free_object hf_attach_object
  ef_io_write ef_io_close ff_state ff_buf ff_log : mw_frame.
#[export] Hint Extern 0 (Frame _) => exact _ : mw_frame.
#[export] Hint Extern 0 (HeapFrame _) => exact _ : mw_frame.
#[export] Hint Extern 1 (has _ (session_get _)) => (apply fr_session_get; reflexivity) : mw_frame.
#[export] Hint Extern 1 (has _ (session_set _)) =>
  (apply fr_session_set; [intros ? []|intros []|intros []|intros []]; cbn; try reflexivity;
   case_match; reflexivity) : mw_frame.
#[export] Hint Extern 1 (has _ (channel_set _ _)) => (apply fr_channel_set; reflexivity) : mw_frame.

(** A call out of the library. *)
Ltac frame_call :=
  match goal with
  | H : e_on_stateChange _ = Some _ |- _ => eapply ef_on_stateChange, H
  | H : e_on_setPrivacyInfo _ = Some _ |- _ => eapply ef_on_setPrivacyInfo, H
  | H : e_on_setUserStatus _ = Some _ |- _ => eapply ef_on_setUserStatus, H
  | H : e_on_admin _ = Some _ |- _ => eapply ef_on_admin, H
  | H : e_on_announce _ = Some _ |- _ => eapply ef_on_announce, H
  | H : op_recv_create _ = Some _ |- _ => eapply ef_recv_create, H
  | H : op_recv_accept _ = Some _ |- _ => eapply ef_recv_accept, H
  | H : op_recv_destroy _ = Some _ |- _ => eapply ef_recv_destroy, H
  | H : op_recv _ = Some _ |- _ => eapply ef_recv, H
  | H : op_start _ = Some _ |- _ => eapply ef_start, H
  | H : op_stop _ = Some _ |- _ => eapply ef_stop, H
  end.

(** Takes a computation apart along its binds, tests and matches. *)
Ltac frame_step :=
  lazymatch goal with
  | |- forall _, _ => intro
  | |- has _ (bind _ _) => apply fr_bind
  | |- has _ (if ?b then _ else _) => destruct b
  | |- has _ (match ?x with _ => _ end) => destruct x eqn:?
  | |- has _ (let '_ := ?x in _) => destruct x
  | |- _ => first [ solve [eauto 3 with mw_frame] | frame_call ]
  end.
Ltac frame := repeat frame_step.

Section objects.
Context (P : forall A, M A -> Prop) {F : HeapFrame P} {A : Type} `{Object A}.

Lemma fr_obj_deref p : has P (@obj_deref A _ p).
Proof. unfold obj_deref. frame. Qed.
#[local] Hint Resolve fr_obj_deref : mw_frame.
Lemma fr_obj_get {B} p (f : A -> B) : has P (obj_get p f).
Proof. unfold obj_get. frame. Qed.
Lemma fr_obj_set p (f : A -> A) : has P (obj_set p f).
Proof. unfold obj_set. frame. Qed.
Lemma fr_obj_new (a : A) : has P (obj_new a).
Proof. unfold obj_new. frame. Qed.
End objects.
#[export] Hint Resolve fr_obj_deref fr_obj_get fr_obj_set fr_obj_new : mw_frame.

Section closure.
Context (P : forall A, M A -> Prop) {F : Frame P} (E : Env) {EF : EnvFrame P E}.

Lemma fr_for_each {A} (f : A -> M unit) l : (forall x, has P (f x)) -> has P (for_each f l).
Proof. intros H. induction l; cbn [for_each]; frame. Qed.
#[local] Hint Resolve fr_for_each : mw_frame.

Lemma fr_io_write b : has P (io_write E b).
Proof. unfold io_write. frame. Qed.
#[local] Hint Resolve fr_io_write : mw_frame.
Lemma fr_SET_USER_STATUS_recv m : has P (SET_USER_STATUS_recv E m).
Proof. unfold SET_USER_STATUS_recv, call0. frame. Qed.
#[local] Hint Resolve fr_SET_USER_STATUS_recv : mw_frame.
Lemma fr_mwSession_send m : has P (mwSession_send E m).
Proof. unfold mwSession_send. frame. Qed.
#[local] Hint Resolve fr_mwSession_send : mw_frame.

(** Services *)

Lemma fr_mwService_getType p : has P (mwService_getType p).
Proof. unfold mwService_getType. frame. Qed.
#[local] Hint Resolve fr_mwService_getType : mw_frame.
Lemma fr_mwService_getState p : has P (mwService_getState p).
Proof. unfold mwService_getState. frame. Qed.
#[local] Hint Resolve fr_mwService_getState : mw_frame.
Lemma fr_mwService_started p : has P (mwService_started p).
Proof. unfold mwService_started. frame. Qed.
#[local] Hint Resolve fr_mwService_started : mw_frame.
Lemma fr_mwService_start p : has P (mwService_start E p).
Proof. unfold mwService_start. frame. Qed.
#[local] Hint Resolve fr_mwService_start : mw_frame.
Lemma fr_mwService_stopped p : has P (mwService_stopped p).
Proof. unfold mwService_stopped. frame. Qed.
#[local] Hint Resolve fr_mwService_stopped : mw_frame.
Lemma fr_mwService_stop p : has P (mwService_stop E p).
Proof. unfold mwService_stop. frame. Qed.
#[local] Hint Resolve fr_mwService_stop : mw_frame.

(** The session's tables and properties *)

Lemma fr_property_set k v : has P (property_set k v).
Proof. unfold property_set. frame. Qed.
#[local] Hint Resolve fr_property_set : mw_frame.
Lemma fr_property_get k : has P (property_get k).
Proof. unfold property_get. frame. Qed.
#[local] Hint Resolve fr_property_get : mw_frame.
Lemma fr_property_uint k : has P (property_uint k).
Proof. unfold property_uint. frame. Qed.
#[local] Hint Resolve fr_property_uint : mw_frame.
Lemma fr_property_string k : has P (property_string k).
Proof. unfold property_string. frame. Qed.
#[local] Hint Resolve fr_property_string : mw_frame.
Lemma fr_mwSession_isState st : has P (mwSession_isState st).
Proof. unfold mwSession_isState. frame. Qed.
#[local] Hint Resolve fr_mwSession_isState : mw_frame.
Lemma fr_mwSession_isStarted : has P (mwSession_isStarted).
Proof. unfold mwSession_isStarted. frame. Qed.
#[local] Hint Resolve fr_mwSession_isStarted : mw_frame.
Lemma fr_mwSession_getServices : has P (mwSession_getServices E).
Proof. unfold mwSession_getServices. frame. Qed.
#[local] Hint Resolve fr_mwSession_getServices : mw_frame.
Lemma fr_mwSession_getService i : has P (mwSession_getService i).
Proof. unfold mwSession_getService. frame. Qed.
#[local] Hint Resolve fr_mwSession_getService : mw_frame.
Lemma fr_mwSession_getCipher i : has P (mwSession_getCipher i).
Proof. unfold mwSession_getCipher. frame. Qed.
#[local] Hint Resolve fr_mwSession_getCipher : mw_frame.
Lemma fr_handshake_msg : has P (handshake_msg).
Proof. unfold handshake_msg. frame. Qed.
#[local] Hint Resolve fr_handshake_msg : mw_frame.
Lemma fr_SET_PRIVACY_LIST_recv m : has P (SET_PRIVACY_LIST_recv E m).
Proof. unfold SET_PRIVACY_LIST_recv, call0. frame. Qed.
#[local] Hint Resolve fr_SET_PRIVACY_LIST_recv : mw_frame.
Lemma fr_SENSE_SERVICE_recv m : has P (SENSE_SERVICE_recv E m).
Proof. unfold SENSE_SERVICE_recv. frame. Qed.
#[local] Hint Resolve fr_SENSE_SERVICE_recv : mw_frame.
Lemma fr_ADMIN_recv m : has P (ADMIN_recv E m).
Proof. unfold ADMIN_recv. frame. Qed.
#[local] Hint Resolve fr_ADMIN_recv : mw_frame.
Lemma fr_ANNOUNCE_recv m : has P (ANNOUNCE_recv E m).
Proof. unfold ANNOUNCE_recv. frame. Qed.
#[local] Hint Resolve fr_ANNOUNCE_recv : mw_frame.

(** Ciphers *)

Lemma fr_mwCipher_getType p : has P (mwCipher_getType p).
Proof. unfold mwCipher_getType. frame. Qed.
#[local] Hint Resolve fr_mwCipher_getType : mw_frame.
Lemma fr_new_instance_RC2_40 p c : has P (new_instance_RC2_40 p c).
Proof. unfold new_instance_RC2_40. frame. Qed.
#[local] Hint Resolve fr_new_instance_RC2_40 : mw_frame.
Lemma fr_mwCipher_newInstance p c : has P (mwCipher_newInstance p c).
Proof. unfold mwCipher_newInstance. frame. Qed.
#[local] Hint Resolve fr_mwCipher_newInstance : mw_frame.
Lemma fr_accepted_RC2_40 ci : has P (accepted_RC2_40 ci).
Proof. unfold accepted_RC2_40. frame. Qed.
#[local] Hint Resolve fr_accepted_RC2_40 : mw_frame.
Lemma fr_accept_RC2_40 ci : has P (accept_RC2_40 ci).
Proof. unfold accept_RC2_40. frame. Qed.
#[local] Hint Resolve fr_accept_RC2_40 : mw_frame.
Lemma fr_mwCipherInstance_offered ci i : has P (mwCipherInstance_offered E ci i).
Proof. unfold mwCipherInstance_offered. frame. Qed.
#[local] Hint Resolve fr_mwCipherInstance_offered : mw_frame.
Lemma fr_mwCipherInstance_offer ci : has P (mwCipherInstance_offer ci).
Proof. unfold mwCipherInstance_offer. frame. Qed.
#[local] Hint Resolve fr_mwCipherInstance_offer : mw_frame.
Lemma fr_mwCipherInstance_accepted ci i : has P (mwCipherInstance_accepted E ci i).
Proof. unfold mwCipherInstance_accepted. frame. Qed.
#[local] Hint Resolve fr_mwCipherInstance_accepted : mw_frame.
Lemma fr_mwCipherInstance_accept ci : has P (mwCipherInstance_accept ci).
Proof. unfold mwCipherInstance_accept. frame. Qed.
#[local] Hint Resolve fr_mwCipherInstance_accept : mw_frame.
Lemma fr_mwCipherInstance_encrypt ci d : has P (mwCipherInstance_encrypt ci d).
Proof. unfold mwCipherInstance_encrypt. frame. Qed.
#[local] Hint Resolve fr_mwCipherInstance_encrypt : mw_frame.
Lemma fr_mwCipherInstance_decrypt ci d : has P (mwCipherInstance_decrypt ci d).
Proof. unfold mwCipherInstance_decrypt. frame. Qed.
#[local] Hint Resolve fr_mwCipherInstance_decrypt : mw_frame.

(** Channels *)

Lemma fr_mwChannel_getState p : has P (mwChannel_getState p).
Proof. unfold mwChannel_getState. frame. Qed.
#[local] Hint Resolve fr_mwChannel_getState : mw_frame.
Lemma fr_mwChannel_isState p st : has P (mwChannel_isState p st).
Proof. unfold mwChannel_isState. frame. Qed.
#[local] Hint Resolve fr_mwChannel_isState : mw_frame.
Lemma fr_channel_state p st : has P (Channel.state p st).
Proof. unfold Channel.state. frame. Qed.
#[local] Hint Resolve fr_channel_state : mw_frame.
Lemma fr_get_stat p f : has P (get_stat p f).
Proof. unfold get_stat. frame. Qed.
#[local] Hint Resolve fr_get_stat : mw_frame.
Lemma fr_set_stat p f v : has P (set_stat p f v).
Proof. unfold set_stat. frame. Qed.
#[local] Hint Resolve fr_set_stat : mw_frame.
Lemma fr_incr_stat p f v : has P (incr_stat p f v).
Proof. unfold incr_stat. frame. Qed.
#[local] Hint Resolve fr_incr_stat : mw_frame.
Lemma fr_mwChannel_find i : has P (mwChannel_find i).
Proof. unfold mwChannel_find. frame. Qed.
#[local] Hint Resolve fr_mwChannel_find : mw_frame.
Lemma fr_next_id n : has P (next_id n).
Proof. induction n; cbn [next_id]; frame. Qed.
#[local] Hint Resolve fr_next_id : mw_frame.
Lemma fr_mwChannel_newOutgoing : has P (mwChannel_newOutgoing).
Proof. unfold mwChannel_newOutgoing. frame. Qed.
#[local] Hint Resolve fr_mwChannel_newOutgoing : mw_frame.
Lemma fr_mwChannel_getService p : has P (mwChannel_getService p).
Proof. unfold mwChannel_getService. frame. Qed.
#[local] Hint Resolve fr_mwChannel_getService : mw_frame.
Lemma fr_put_supported p ci : has P (put_supported p ci).
Proof. unfold put_supported. frame. Qed.
#[local] Hint Resolve fr_put_supported : mw_frame.
Lemma fr_mwChannel_getSupportedCipherInstances p : has P (mwChannel_getSupportedCipherInstances E p).
Proof. unfold mwChannel_getSupportedCipherInstances. frame. Qed.
#[local] Hint Resolve fr_mwChannel_getSupportedCipherInstances : mw_frame.
Lemma fr_mwChannel_selectCipherInstance p ci : has P (mwChannel_selectCipherInstance p ci).
Proof. unfold mwChannel_selectCipherInstance. frame. Qed.
#[local] Hint Resolve fr_mwChannel_selectCipherInstance : mw_frame.
Lemma fr_mwChannel_destroy p r i : has P (mwChannel_destroy E p r i).
Proof. unfold mwChannel_destroy. frame. Qed.
#[local] Hint Resolve fr_mwChannel_destroy : mw_frame.
Lemma fr_service_guard s c i m : has P m -> has P (service_guard s c i m).
Proof. intros H. unfold service_guard. frame. Qed.
Lemma fr_mwService_recvCreate s c m : has P (mwService_recvCreate E s c m).
Proof. unfold mwService_recvCreate. apply fr_service_guard. frame. Qed.
#[local] Hint Resolve fr_mwService_recvCreate : mw_frame.
Lemma fr_mwService_recvAccept s c i m : has P (mwService_recvAccept E s c i m).
Proof. unfold mwService_recvAccept. apply fr_service_guard. frame. Qed.
#[local] Hint Resolve fr_mwService_recvAccept : mw_frame.
Lemma fr_mwService_recvDestroy s c i m : has P (mwService_recvDestroy E s c i m).
Proof. unfold mwService_recvDestroy. apply fr_service_guard. frame. Qed.
#[local] Hint Resolve fr_mwService_recvDestroy : mw_frame.
Lemma fr_mwService_recv s c t d : has P (mwService_recv E s c t d).
Proof. unfold mwService_recv. destruct s; [apply fr_service_guard|]; frame. Qed.
#[local] Hint Resolve fr_mwService_recv : mw_frame.
Lemma fr_queue_outgoing p m : has P (queue_outgoing p m).
Proof. unfold queue_outgoing. frame. Qed.
#[local] Hint Resolve fr_queue_outgoing : mw_frame.
Lemma fr_channel_send p m : has P (channel_send E p m).
Proof. unfold channel_send. frame. Qed.
#[local] Hint Resolve fr_channel_send : mw_frame.
Lemma fr_mwChannel_sendEncrypted p t d e : has P (mwChannel_sendEncrypted E p t d e).
Proof. unfold mwChannel_sendEncrypted. frame. Qed.
#[local] Hint Resolve fr_mwChannel_sendEncrypted : mw_frame.
Lemma fr_queue_incoming p h m : has P (queue_incoming p h m).
Proof. unfold queue_incoming. frame. Qed.
#[local] Hint Resolve fr_queue_incoming : mw_frame.
Lemma fr_channel_recv p h m : has P (channel_recv E p h m).
Proof. unfold channel_recv. frame. Qed.
#[local] Hint Resolve fr_channel_recv : mw_frame.
Lemma fr_flush_channel p : has P (flush_channel E p).
Proof. unfold flush_channel. frame; apply fr_for_each; frame. Qed.
#[local] Hint Resolve fr_flush_channel : mw_frame.
Lemma fr_mwChannel_recv p h m : has P (mwChannel_recv E p h m).
Proof. unfold mwChannel_recv. frame. Qed.
#[local] Hint Resolve fr_mwChannel_recv : mw_frame.
Lemma fr_channel_open p : has P (channel_open E p).
Proof. unfold channel_open. frame. Qed.
#[local] Hint Resolve fr_channel_open : mw_frame.
Lemma fr_offers l : has P (offers l).
Proof. induction l; cbn [offers]; frame. Qed.
#[local] Hint Resolve fr_offers : mw_frame.
Lemma fr_mwChannel_create p : has P (mwChannel_create E p).
Proof. unfold mwChannel_create. frame. Qed.
#[local] Hint Resolve fr_mwChannel_create : mw_frame.
Lemma fr_default_cipher p : has P (default_cipher E p).
Proof. unfold default_cipher. frame. Qed.
#[local] Hint Resolve fr_default_cipher : mw_frame.
Lemma fr_mwChannel_accept p : has P (mwChannel_accept E p).
Proof. unfold mwChannel_accept. frame. Qed.
#[local] Hint Resolve fr_mwChannel_accept : mw_frame.
Lemma fr_offered_item p i : has P (offered_item E p i).
Proof. unfold offered_item, mwChannel_addSupportedCipherInstance. frame. Qed.
#[local] Hint Resolve fr_offered_item : mw_frame.
Lemma fr_accept_cipher p e : has P (accept_cipher E p e).
Proof. unfold accept_cipher. frame. Qed.
#[local] Hint Resolve fr_accept_cipher : mw_frame.
Lemma fr_mwChannel_recvCreate p m : has P (mwChannel_recvCreate E p m).
Proof. unfold mwChannel_recvCreate. frame. Qed.
#[local] Hint Resolve fr_mwChannel_recvCreate : mw_frame.
Lemma fr_mwChannel_recvAccept p c m : has P (mwChannel_recvAccept E p c m).
Proof. unfold mwChannel_recvAccept. frame. Qed.
#[local] Hint Resolve fr_mwChannel_recvAccept : mw_frame.
Lemma fr_mwChannel_recvDestroy p c m : has P (mwChannel_recvDestroy E p c m).
Proof. unfold mwChannel_recvDestroy. frame. Qed.
#[local] Hint Resolve fr_mwChannel_recvDestroy : mw_frame.
Lemma fr_CHANNEL_CREATE_recv m : has P (CHANNEL_CREATE_recv E m).
Proof. unfold CHANNEL_CREATE_recv. frame. Qed.
#[local] Hint Resolve fr_CHANNEL_CREATE_recv : mw_frame.
Lemma fr_CHANNEL_ACCEPT_recv c m : has P (CHANNEL_ACCEPT_recv E c m).
Proof. unfold CHANNEL_ACCEPT_recv. frame. Qed.
#[local] Hint Resolve fr_CHANNEL_ACCEPT_recv : mw_frame.
Lemma fr_CHANNEL_SEND_recv h m : has P (CHANNEL_SEND_recv E h m).
Proof. unfold CHANNEL_SEND_recv. frame. Qed.
#[local] Hint Resolve fr_CHANNEL_SEND_recv : mw_frame.
Lemma fr_message_free m : has P (message_free m).
Proof. unfold message_free. frame. Qed.
#[local] Hint Resolve fr_message_free : mw_frame.

End closure.

#[export] Hint Resolve fr_for_each fr_io_write fr_SET_USER_STATUS_recv
  fr_mwSession_send fr_mwService_getType fr_mwService_getState
  fr_mwService_started fr_mwService_start fr_mwService_stopped
  fr_mwService_stop fr_property_set fr_property_get
  fr_property_uint fr_property_string fr_mwSession_isState
  fr_mwSession_isStarted fr_mwSession_getServices fr_mwSession_getService
  fr_mwSession_getCipher fr_handshake_msg fr_SET_PRIVACY_LIST_recv
  fr_SENSE_SERVICE_recv fr_ADMIN_recv fr_ANNOUNCE_recv
  fr_mwCipher_getType fr_new_instance_RC2_40 fr_mwCipher_newInstance
  fr_accepted_RC2_40 fr_accept_RC2_40 fr_mwCipherInstance_offered
  fr_mwCipherInstance_offer fr_mwCipherInstance_accepted fr_mwCipherInstance_accept
  fr_mwCipherInstance_encrypt fr_mwCipherInstance_decrypt fr_mwChannel_getState
  fr_mwChannel_isState fr_channel_state fr_get_stat
  fr_set_stat fr_incr_stat 
  fr_mwChannel_find  fr_chan_map_remove
   fr_next_id fr_mwChannel_newOutgoing
  fr_mwChannel_getService fr_put_supported fr_mwChannel_getSupportedCipherInstances
  fr_mwChannel_selectCipherInstance fr_mwChannel_destroy fr_mwService_recvCreate
  fr_mwService_recvAccept fr_mwService_recvDestroy fr_mwService_recv
  fr_queue_outgoing fr_channel_send fr_mwChannel_sendEncrypted
  fr_queue_incoming fr_channel_recv fr_flush_channel
  fr_mwChannel_recv fr_channel_open fr_offers
  fr_mwChannel_create fr_default_cipher fr_mwChannel_accept
  fr_offered_item fr_accept_cipher fr_mwChannel_recvCreate
  fr_mwChannel_recvAccept fr_mwChannel_recvDestroy fr_CHANNEL_CREATE_recv
  fr_CHANNEL_ACCEPT_recv fr_CHANNEL_SEND_recv fr_message_free : mw_frame.

Section full.
Context (P : forall A, M A -> Prop) {F : FullFrame P} (E : Env) {EF : EnvFrame P E}.

Lemma fr_session_state st i : has P (Session.state E st i).
Proof. unfold Session.state. frame. Qed.
#[local] Hint Resolve fr_session_state : mw_frame.
Lemma fr_io_close : has P (io_close E).
Proof. unfold io_close. frame. Qed.
#[local] Hint Resolve fr_io_close : mw_frame.
Lemma fr_mwSession_stop r : has P (mwSession_stop E r).
Proof. unfold mwSession_stop. frame. Qed.
#[local] Hint Resolve fr_mwSession_stop : mw_frame.
Lemma fr_HANDSHAKE_ACK_recv m : has P (HANDSHAKE_ACK_recv E m).
Proof. unfold HANDSHAKE_ACK_recv. frame. Qed.
#[local] Hint Resolve fr_HANDSHAKE_ACK_recv : mw_frame.
Lemma fr_LOGIN_ACK_recv m : has P (LOGIN_ACK_recv E m).
Proof. unfold LOGIN_ACK_recv. frame. Qed.
#[local] Hint Resolve fr_LOGIN_ACK_recv : mw_frame.
Lemma fr_LOGIN_REDIRECT_recv m : has P (LOGIN_REDIRECT_recv E m).
Proof. unfold LOGIN_REDIRECT_recv. frame. Qed.
#[local] Hint Resolve fr_LOGIN_REDIRECT_recv : mw_frame.
Lemma fr_CHANNEL_DESTROY_recv c m : has P (CHANNEL_DESTROY_recv E c m).
Proof. unfold CHANNEL_DESTROY_recv. frame. Qed.
#[local] Hint Resolve fr_CHANNEL_DESTROY_recv : mw_frame.
Lemma fr_handle m : has P (handle E m).
Proof. unfold handle. frame. Qed.
#[local] Hint Resolve fr_handle : mw_frame.
Lemma fr_session_process b : has P (session_process E b).
Proof. unfold session_process. frame. Qed.
#[local] Hint Resolve fr_session_process : mw_frame.
End full.

(** A handler that only listens, and services without functions. *)
Lemma quiet_env_frame P seed : Frame P -> EnvFrame P (quiet_env seed).
Proof. intros F. split; try done; intros; apply fr_ret. Qed.

(** ** Services of the library *)

(** The same code outside, with the functions of one more service. *)
Definition with_service (srvc : Z) (ops : ServiceOps) (E : Env) : Env := {|
  e_io_write := e_io_write E;
  e_io_close := e_io_close E;
  e_clear := e_clear E;
  e_on_stateChange := e_on_stateChange E;
  e_on_setPrivacyInfo := e_on_setPrivacyInfo E;
  e_on_setUserStatus := e_on_setUserStatus E;
  e_on_admin := e_on_admin E;
  e_on_announce := e_on_announce E;
  e_service p := if p =? srvc then ops else e_service E p;
  e_values := e_values E;
  e_uninit := e_uninit E;
  e_mpi := e_mpi E;
  e_rand := e_rand E;
  e_time := e_time E;
|}.

(** The functions of a service have the property. *)
Class OpsFrame (P : forall A, M A -> Prop) (srvc : Z) (ops : ServiceOps) := {
  of_recv_create f b c : op_recv_create ops = Some f -> has P (f srvc b c);
  of_recv_accept f b c : op_recv_accept ops = Some f -> has P (f srvc b c);
  of_recv_destroy f b c : op_recv_destroy ops = Some f -> has P (f srvc b c);
  of_recv f b c d : op_recv ops = Some f -> has P (f srvc b c d);
  of_start f : op_start ops = Some f -> has P (f srvc);
  of_stop f : op_stop ops = Some f -> has P (f srvc);
}.

Lemma with_service_at srvc ops E : e_service (with_service srvc ops E) srvc = ops.
Proof. cbn. by rewrite Z.eqb_refl. Qed.

Lemma with_service_frame P srvc ops E : EnvFrame P E -> OpsFrame P srvc ops -> EnvFrame P (with_service srvc ops E).
Proof.
  intros F O. split; cbn.
  - apply (ef_io_write (E:=E)).
  - apply (ef_io_close (E:=E)).
  - apply (ef_on_stateChange (E:=E)).
  - apply (ef_on_setPrivacyInfo (E:=E)).
  - apply (ef_on_setUserStatus (E:=E)).
  - apply (ef_on_admin (E:=E)).
  - apply (ef_on_announce (E:=E)).
  - intros p f b c. destruct (Z.eqb_spec p srvc) as [->|_]; [apply of_recv_create|apply ef_recv_create].
  - intros p f b c. destruct (Z.eqb_spec p srvc) as [->|_]; [apply of_recv_accept|apply ef_recv_accept].
  - intros p f b c. destruct (Z.eqb_spec p srvc) as [->|_]; [apply of_recv_destroy|apply ef_recv_destroy].
  - intros p f b c d. destruct (Z.eqb_spec p srvc) as [->|_]; [apply of_recv|apply ef_recv].
  - intros p f. destruct (Z.eqb_spec p srvc) as [->|_]; [apply of_start|apply ef_start].
  - intros p f. destruct (Z.eqb_spec p srvc) as [->|_]; [apply of_stop|apply ef_stop].
Qed.

(** ** Invariants of the structures of the services *)

(** A computation that keeps [I]. *)
Definition kept (I : world -> Prop) (A : Type) (m : M A) : Prop :=
  forall w a w', I w -> m w = Some (a, w') -> I w'.

(** It is about the blocks only. *)
Class HeapOnly (I : world -> Prop) :=
  heap_only w w' : w_heap w' = w_heap w -> w_next w <= w_next w' -> I w -> I w'.

Section kept.
Context (I : world -> Prop) {HI : HeapOnly I}.

#[export] Instance kept_frame : Frame (kept I).
Proof.
  apply steps_frame. split; unfold has, kept.
  - by intros A a w a' w' H [= <- <-].
  - intros A B m k Hm Hk w b w' H. unfold bind. destruct (m w) as [[a w1]|] eqn:E; [|done].
    intros Ek. eapply Hk; [|exact Ek]. by eapply Hm.
  - by intros A [a|] w a' w' H [= <- <-].
  - done.
  - by intros A f _ w a w' H [= <- <-].
  - intros f _ _ _ w a w' H [= <- <-]. by apply (heap_only w).
  - intros p w a w' H. unfold deref_channel, lift. destruct (w_channels w !! p); [by intros [= <- <-]|done].
  - intros p w a w' H. unfold deref_service, lift. destruct (w_services w !! p); [by intros [= <- <-]|done].
  - intros p w a w' H. unfold deref_cipher, lift. destruct (w_ciphers w !! p); [by intros [= <- <-]|done].
  - intros A p f w a w' H. unfold channel_get, lift. destruct (w_channels w !! p); [by intros [= <- <-]|done].
  - intros p f w a w' H. unfold channel_set. destruct (w_channels w !! p); [|done].
    intros [= <- <-]. by apply (heap_only w).
  - intros p f w a w' H. unfold service_set. destruct (w_services w !! p); [|done].
    intros [= <- <-]. by apply (heap_only w).
  - intros p f w a w' H. unfold cipher_set. destruct (w_ciphers w !! p); [|done].
    intros [= <- <-]. by apply (heap_only w).
  - intros f w a w' H [= <- <-]. by apply (heap_only w).
  - intros ch w a w' H [= <- <-]. apply (heap_only w); [done|cbn; lia|done].
  - intros b r w a w' H [= <- <-]. by apply (heap_only w).
Qed.

#[export] Instance kept_full : FullFrame (kept I).
Proof.
  split; [apply _|..]; unfold has, kept.
  - intros st w a w' H [= <- <-]. by apply (heap_only w).
  - intros w a w' H [= <- <-]. by apply (heap_only w).
  - intros e w a w' H [= <- <-]. by apply (heap_only w).
Qed.

Lemma kept_obj_deref {A} `{Object A} p : has (kept I) (@obj_deref A _ p).
Proof. intros w a w' Hi E. by apply obj_deref_inv in E as [-> _]. Qed.
Lemma kept_obj_get {A B} `{Object A} p (f : A -> B) : has (kept I) (obj_get p f).
Proof. intros w a w' Hi E. by apply obj_get_inv in E as [-> _]. Qed.
End kept.
#[export] Hint Resolve kept_obj_deref kept_obj_get : mw_frame.

(** A computation that leaves the blocks alone. *)
Definition heap_same (A : Type) (m : M A) : Prop :=
  forall w a w', m w = Some (a, w') -> w_heap w' = w_heap w /\ w_next w <= w_next w'.

Lemma heap_same_refl w : w_heap w = w_heap w /\ w_next w <= w_next w.
Proof. split; [done|lia]. Qed.

#[export] Instance heap_same_steps : Steps heap_same.
Proof.
  split; unfold has, heap_same.
  - by intros A a w a' w' [= <- <-].
  - intros A B m k Hm Hk w b w' (a & w1 & E1 & E2)%bind_inv.
    apply Hm in E1 as [H1 H2]. apply Hk in E2 as [H3 H4]. split; [congruence|lia].
  - by intros A [a|] w a' w' [= <- <-].
  - done.
  - by intros A f _ w a w' [= <- <-].
  - by intros f _ _ _ w a w' [= <- <-].
  - intros p w a w'. unfold deref_channel, lift. destruct (w_channels w !! p); [by intros [= <- <-]|done].
  - intros p w a w'. unfold deref_service, lift. destruct (w_services w !! p); [by intros [= <- <-]|done].
  - intros p w a w'. unfold deref_cipher, lift. destruct (w_ciphers w !! p); [by intros [= <- <-]|done].
  - intros A p f w a w'. unfold channel_get, lift. destruct (w_channels w !! p); [by intros [= <- <-]|done].
  - intros p f w a w'. unfold channel_set. destruct (w_channels w !! p); [by intros [= <- <-]|done].
  - intros p f w a w'. unfold service_set. destruct (w_services w !! p); [by intros [= <- <-]|done].
  - intros p f w a w'. unfold cipher_set. destruct (w_ciphers w !! p); [by intros [= <- <-]|done].
  - by intros f w a w' [= <- <-].
  - intros ch w a w' [= <- <-]. cbn. split; [done|lia].
  - by intros b r w a w' [= <- <-].
Qed.
#[export] Instance heap_same_frame : Frame heap_same := steps_frame _ _.

(** Sending only writes: the rest of the code outside does not matter. *)
Definition writes_env (E : Env) : Env := {|
  e_io_write := e_io_write E;
  e_io_close := ret tt;
  e_clear := None;
  e_on_stateChange := None;
  e_on_setPrivacyInfo := None;
  e_on_setUserStatus := None;
  e_on_admin := None;
  e_on_announce := None;
  e_service _ := quiet_ops;
  e_values := e_values E;
  e_uninit := e_uninit E;
  e_mpi := e_mpi E;
  e_rand := e_rand E;
  e_time := e_time E;
|}.

Lemma writes_env_frame P E : Frame P -> (forall b, has P (e_io_write E b)) -> EnvFrame P (writes_env E).
Proof. intros F Hw. split; try done; intros; cbn; apply Hw || apply fr_ret. Qed.

(** The session handler's write does not come back into the services. *)
Definition writes_out (E : Env) : Prop := forall b, has heap_same (e_io_write E b).

Lemma send_heap_same E chan type o : writes_out E -> has heap_same (mwChannel_send_to E chan type o).
Proof.
  intros Hw. pose proof (writes_env_frame heap_same E _ Hw).
  destruct chan as [p|]; [|apply fr_ret]. change (has heap_same (mwChannel_sendEncrypted (writes_env E) p type (Some o) true)).
  apply fr_mwChannel_sendEncrypted; apply _.
Qed.

(** A hash table is gone through once, each entry in its turn. *)
Definition lists_tables (E : Env) : Prop := forall A (m : gmap Z A), e_values E A m ≡ₚ (map_to_list m).*2.
