(* ===== verification/Owned.v ===== *)
(** * Services that own blocks

    A service keeps a list of blocks that are its own: transfers,
    conversations.  The blocks on the heap that name the service are those on
    its list, and each is later than it was.  The class states what there is
    to know of such a service and its blocks; the invariant and the steps that
    keep it are shared. *)

From S2P Require Import Prelude Buffer Common Message Framing World Util Rc2 Cipher Service Session.
From S2P Require Import Channel Dispatch Frame.
#[local] Open Scope Z_scope.
#[local] Open Scope mw_scope.

(** [S] is the type of the service and [T] that of its blocks. *)
Class Owned (S T : Type) {OS : Object S} {OT : Object T} := {
  ow_list : S -> list Z;
  ow_service : T -> Z;
  ow_ok : T -> Prop;             (* what holds of a block at all times *)
  ow_later : T -> T -> Prop;     (* what a block may become *)
  ow_later_preorder :: PreOrder ow_later;
  ow_later_service t t' : ow_later t t' -> ow_service t' = ow_service t;
  ow_differ (s : S) (t : T) : obj_in s <> obj_in t;
}.

Section owned.
Context {S T : Type} {OS : Object S} {OT : Object T} {OW : Owned S T}.

(** The list of the service is [L]; its blocks on the heap are [R]. *)
Record owned (srvc : Z) (L R : list Z) (w : world) : Prop := {
  ow_below : heap_below w;
  ow_members : exists s : S, w_heap w !! srvc = Some (obj_in s) /\ ow_list s = L;
  ow_nodup : NoDup R;
  ow_heap p : p ∈ R <-> exists t : T, w_heap w !! p = Some (obj_in t) /\ ow_service t = srvc;
  ow_fine p (t : T) : w_heap w !! p = Some (obj_in t) -> ow_service t = srvc -> ow_ok t;
}.

(** Since [w0]: the blocks of then that are still there have moved on. *)
Record moved (srvc : Z) (w0 w : world) : Prop := {
  mv_next : w_next w0 <= w_next w;
  mv_later p (t' : T) : w_heap w !! p = Some (obj_in t') -> ow_service t' = srvc -> p < w_next w0 ->
    exists t : T, w_heap w0 !! p = Some (obj_in t) /\ ow_later t t';
}.

Definition owned_wf (srvc : Z) (w : world) : Prop := exists L, owned srvc L L w.
Definition owned_inv (srvc : Z) (w0 w : world) : Prop := owned_wf srvc w /\ moved srvc w0 w.

Lemma owned_same srvc L R w w' : w_heap w' = w_heap w -> w_next w <= w_next w' ->
  owned srvc L R w -> owned srvc L R w'.
Proof.
  intros Eh En [H1 H2 H3 H4 H5]. split; rewrite ?Eh; try done.
  intros q o Hq. rewrite Eh in Hq. apply H1 in Hq. lia.
Qed.

Lemma moved_same srvc w0 w w' : w_heap w' = w_heap w -> w_next w <= w_next w' ->
  moved srvc w0 w -> moved srvc w0 w'.
Proof. intros Eh En [H1 H2]. split; [lia|]. by rewrite Eh. Qed.

Lemma moved_refl srvc w : moved srvc w w.
Proof. split; [lia|]. intros p t Hp _ _. by exists t. Qed.

#[export] Instance owned_heap srvc w0 : HeapOnly (owned_inv srvc w0).
Proof.
  intros w w' Eh En [[L H] Hm]. split; [exists L; by eapply owned_same|by eapply moved_same].
Qed.

Lemma obj_in_inj {A} `{Object A} (a b : A) : obj_in a = obj_in b -> a = b.
Proof. intros E. apply (f_equal obj_out) in E. rewrite !obj_in_out in E. by injection E. Qed.

(** ** Steps *)

Section steps.
Context (srvc : Z) (w0 : world).

Lemma owned_update L R w p (t t' : T) : owned srvc L R w -> w_heap w !! p = Some (obj_in t) ->
  ow_service t' = ow_service t -> (ow_ok t -> ow_ok t') ->
  owned srvc L R (set_w_heap (<[p := obj_in t']> (w_heap w)) w).
Proof.
  intros [H1 H2 H3 H4 H5] Hp Hs Hok. split; cbn.
  - apply (below_insert w); [done|by eexists].
  - destruct H2 as (s & Hs2 & HL). exists s. rewrite lookup_insert_ne; [done|].
    intros ->. rewrite Hp in Hs2. injection Hs2 as E. by destruct (ow_differ s t).
  - done.
  - intros q. rewrite H4. split.
    + intros (t1 & Hq & Ht1). destruct (decide (q = p)) as [->|].
      * exists t'. rewrite lookup_insert_eq. split; [done|]. rewrite Hp in Hq. injection Hq as ->%obj_in_inj. congruence.
      * exists t1. by rewrite lookup_insert_ne.
    + intros (t1 & [[<- ->%obj_in_inj]|[_ Hq]]%lookup_insert_Some & Ht1); [exists t; split; [done|congruence]|by exists t1].
  - intros q t1 [[<- <-%obj_in_inj]|[_ Hq]]%lookup_insert_Some Ht1; [|by eapply H5].
    apply Hok. eapply H5; [done|congruence].
Qed.

Lemma moved_update w p (t t' : T) : moved srvc w0 w -> w_heap w !! p = Some (obj_in t) ->
  ow_service t' = ow_service t -> (ow_service t = srvc -> ow_later t t') ->
  moved srvc w0 (set_w_heap (<[p := obj_in t']> (w_heap w)) w).
Proof.
  intros [H1 H2] Hp Hsv Hl. split; [done|]. cbn.
  intros q t1 [[<- <-%obj_in_inj]|[_ Hq]]%lookup_insert_Some Hs Hlt; [|by apply H2].
  destruct (H2 p t Hp) as (t0 & Ht0 & Hl0); [congruence|done|]. exists t0. split; [done|].
  etrans; [exact Hl0|]. apply Hl. congruence.
Qed.

(** A change of a block, under what it is known to have been. *)
Lemma inv_update w p (t t' : T) : owned_inv srvc w0 w -> w_heap w !! p = Some (obj_in t) ->
  ow_service t' = ow_service t -> (ow_ok t -> ow_later t t' /\ ow_ok t') ->
  owned_inv srvc w0 (set_w_heap (<[p := obj_in t']> (w_heap w)) w).
Proof.
  intros [[L I] Hm] Hp Hsv Hok. split.
  - exists L. eapply owned_update; [done..|]. intros Ht. by apply Hok.
  - eapply moved_update; [done..|]. intros Hs. by apply Hok, (ow_fine _ _ _ _ I p).
Qed.

Lemma keeps_set_block p (f : T -> T) : (forall t, ow_later t (f t) /\ (ow_ok t -> ow_ok (f t))) ->
  has (kept (owned_inv srvc w0)) (obj_set p f).
Proof.
  intros Hf w [] w' I E. apply obj_set_inv in E as (t & Ht & ->). destruct (Hf t) as [Hl Hok].
  eapply inv_update; [done|exact Ht|by apply ow_later_service|auto].
Qed.

(** The blocks do not change with the service. *)
Lemma set_service_blocks (h : gmap Z object) p (s s' : S) q (t : T) : h !! p = Some (obj_in s) ->
  <[p := obj_in s']> h !! q = Some (obj_in t) <-> h !! q = Some (obj_in t).
Proof.
  intros Hs. destruct (decide (q = p)) as [->|]; [|by rewrite lookup_insert_ne].
  rewrite lookup_insert_eq, Hs. split; intros [= E]; by apply ow_differ in E.
Qed.

Lemma owned_service L R w f w' : owned srvc L R w -> obj_set srvc f w = Some (tt, w') ->
  exists s : S, ow_list s = L /\ owned srvc (ow_list (f s)) R w'
    /\ w' = set_w_heap (<[srvc := obj_in (f s)]> (w_heap w)) w /\ w_heap w !! srvc = Some (obj_in s).
Proof.
  intros [H1 H2 H3 H4 H5] E. apply obj_set_inv in E as (s & Hs & ->). exists s.
  destruct H2 as (s2 & Hs2 & HL). assert (s2 = s) as -> by (rewrite Hs in Hs2; by injection Hs2 as ->%obj_in_inj).
  split; [done|]. split; [|done]. split; cbn.
  - apply (below_insert w); [done|by eexists].
  - rewrite lookup_insert_eq. by eexists.
  - done.
  - intros q. rewrite H4. by setoid_rewrite (set_service_blocks (w_heap w) srvc s (f s) q).
  - intros q t Hq%(set_service_blocks (w_heap w) srvc s (f s) q t Hs). by apply (H5 q).
Qed.

Lemma moved_service w p (s s' : S) : moved srvc w0 w -> w_heap w !! p = Some (obj_in s) ->
  moved srvc w0 (set_w_heap (<[p := obj_in s']> (w_heap w)) w).
Proof.
  intros [H1 H2] Hs. split; [done|]. cbn. intros q t Hq%(set_service_blocks (w_heap w) p s s' q t Hs). by apply H2.
Qed.

(** What does not touch the list. *)
Lemma keeps_set_service p (f : S -> S) : (forall s, ow_list (f s) = ow_list s) -> has (kept (owned_inv srvc w0)) (obj_set p f).
Proof.
  intros Hf w [] w' [[L [H1 H2 H3 H4 H5]] Hm] E. apply obj_set_inv in E as (s & Hs & ->).
  split; [exists L; split|by eapply moved_service]; cbn.
  - apply (below_insert w); [done|by eexists].
  - destruct H2 as (s2 & Hs2 & HL). destruct (decide (p = srvc)) as [->|].
    + rewrite lookup_insert_eq. rewrite Hs in Hs2. injection Hs2 as <-%obj_in_inj. exists (f s). by rewrite Hf.
    + rewrite lookup_insert_ne by done. by exists s2.
  - done.
  - intros q. rewrite H4. by setoid_rewrite (set_service_blocks (w_heap w) p s (f s) q).
  - intros q t Hq%(set_service_blocks (w_heap w) p s (f s) q t Hs). by apply (H5 q).
Qed.

(** A new block, which the list does not have yet. *)
Lemma owned_new L w (t : T) : owned srvc L L w -> ow_service t = srvc -> ow_ok t ->
  owned srvc L (w_next w :: L)
    (set_w_next (w_next w + 1) (set_w_heap (<[w_next w := obj_in t]> (w_heap w)) w)).
Proof.
  intros [H1 H2 H3 H4 H5] Hs Hok. pose proof (below_fresh w H1) as Hf. set (n := w_next w) in *. split; cbn.
  - by apply below_next.
  - destruct H2 as (s & Hs2 & HL). exists s. rewrite lookup_insert_ne; [done|]. intros <-. congruence.
  - constructor; [|done]. intros (t1 & Ht1 & _)%H4. congruence.
  - intros q. rewrite elem_of_cons, H4. split.
    + intros [->|(t1 & Ht1 & Hs1)]; [exists t; by rewrite lookup_insert_eq|]. exists t1.
      rewrite lookup_insert_ne; [done|]. intros <-. congruence.
    + intros (t1 & [[<- _]|[_ Hq]]%lookup_insert_Some & Hs1); [by left|right; by exists t1].
  - intros q t1 [[<- <-%obj_in_inj]|[_ Hq]]%lookup_insert_Some Hs1; [done|by apply (H5 q)].
Qed.

Lemma moved_new w (t : T) : moved srvc w0 w ->
  moved srvc w0 (set_w_next (w_next w + 1) (set_w_heap (<[w_next w := obj_in t]> (w_heap w)) w)).
Proof.
  intros [H1 H2]. split; cbn; [lia|]. intros q t1 [[<- _]|[_ Hq]]%lookup_insert_Some Hs Hlt; [lia|by apply H2].
Qed.

(** A block leaves the heap. *)
Lemma owned_free L R w p (t : T) : owned srvc L R w -> w_heap w !! p = Some (obj_in t) ->
  owned srvc L (filter (fun q => q <> p) R) (set_w_heap (delete p (w_heap w)) w).
Proof.
  intros [H1 H2 H3 H4 H5] Hp. split; cbn.
  - apply (below_sub w); [done|]. intros q [o [_ Hq]%lookup_delete_Some]. by eexists.
  - destruct H2 as (s & Hs & HL). exists s. rewrite lookup_delete_ne; [done|].
    intros ->. rewrite Hp in Hs. injection Hs as E. by destruct (ow_differ s t).
  - by apply NoDup_filter.
  - intros q. rewrite list_elem_of_filter, H4. split.
    + intros (Hne & t1 & Hq & Ht1). exists t1. by rewrite lookup_delete_ne.
    + intros (t1 & [Hne Hq]%lookup_delete_Some & Ht1). split; [done|by exists t1].
  - intros q t1 [_ Hq]%lookup_delete_Some. by apply (H5 q).
Qed.

Lemma moved_free w p : moved srvc w0 w -> moved srvc w0 (set_w_heap (delete p (w_heap w)) w).
Proof. intros [H1 H2]. split; [done|]. cbn. intros q t [_ Hq]%lookup_delete_Some. by apply H2. Qed.

(** A block that is being freed: off the list, still on the heap. *)
Definition freeing (L : list Z) (p : Z) (w : world) : Prop :=
  owned srvc (filter (fun q => q <> p) L) L w /\ moved srvc w0 w
  /\ exists t : T, w_heap w !! p = Some (obj_in t) /\ ow_service t = srvc.

Lemma freeing_same L p w w' : w_heap w' = w_heap w -> w_next w <= w_next w' -> freeing L p w -> freeing L p w'.
Proof.
  intros Eh En (I & Hm & Ht). split_and!; [by eapply owned_same|by eapply moved_same|by rewrite Eh].
Qed.

Lemma freeing_set L p w (f : T -> T) w' : (forall t, ow_later t (f t) /\ (ow_ok t -> ow_ok (f t))) ->
  freeing L p w -> obj_set p f w = Some (tt, w') -> freeing L p w'.
Proof.
  intros Hf (I & Hm & t & Ht & Hs) (t' & Ht' & ->)%obj_set_inv.
  assert (t' = t) as -> by (rewrite Ht in Ht'; by injection Ht' as ->%obj_in_inj).
  destruct (Hf t) as [Hl Hok]. pose proof (ow_later_service _ _ Hl) as Hsv. split_and!.
  - by eapply owned_update.
  - by eapply moved_update.
  - exists (f t). cbn. rewrite lookup_insert_eq. split; [done|]. by rewrite Hsv.
Qed.

(** The end of it. *)
Lemma freeing_free L p w w' : freeing L p w -> free_object p w = Some (tt, w') ->
  owned_inv srvc w0 w'.
Proof.
  intros (I & Hm & t & Ht & _) [_ ->]%free_object_inv. split; [|by apply moved_free].
  eexists. by eapply owned_free.
Qed.

(** Taking it off the list is the beginning. *)
Lemma freeing_start L p w (f : S -> S) w' : owned srvc L L w -> moved srvc w0 w ->
  (exists t : T, w_heap w !! p = Some (obj_in t) /\ ow_service t = srvc) ->
  (forall s, ow_list s = L -> ow_list (f s) = filter (fun q => q <> p) L) ->
  obj_set srvc f w = Some (tt, w') -> freeing L p w'.
Proof.
  intros I Hm (t & Ht & Hs) Hf E. destruct (owned_service L L w f w' I E) as (s & HL & I' & -> & Hsv).
  rewrite (Hf s HL) in I'. split_and!; [done|by eapply moved_service|]. exists t. cbn.
  rewrite lookup_insert_ne; [done|]. intros ->. rewrite Ht in Hsv. injection Hsv as E'. by destruct (ow_differ s t).
Qed.

(** The blocks of another service are none of this one's. *)
Lemma keeps_other_service p (f : S -> S) : p <> srvc -> has (kept (owned_inv srvc w0)) (obj_set p f).
Proof.
  intros Hne w [] w' [[L [H1 H2 H3 H4 H5]] Hm] E. apply obj_set_inv in E as (s & Hs & ->).
  split; [exists L; split|by eapply moved_service]; cbn.
  - apply (below_insert w); [done|by eexists].
  - by rewrite lookup_insert_ne.
  - done.
  - intros q. rewrite H4. by setoid_rewrite (set_service_blocks (w_heap w) p s (f s) q).
  - intros q t Hq%(set_service_blocks (w_heap w) p s (f s) q t Hs). by apply (H5 q).
Qed.

Lemma free_other w w' p (t : T) : owned_inv srvc w0 w -> w_heap w !! p = Some (obj_in t) ->
  ow_service t <> srvc -> free_object p w = Some (tt, w') -> owned_inv srvc w0 w'.
Proof.
  intros [[L I] Hm] Hp Hne [_ ->]%free_object_inv. split; [|by apply moved_free].
  destruct I as [H1 H2 H3 H4 H5]. exists L. split; cbn.
  - apply (below_sub w); [done|]. intros q [o [_ Hq]%lookup_delete_Some]. by eexists.
  - destruct H2 as (s & Hs & HL). exists s. rewrite lookup_delete_ne; [done|].
    intros ->. rewrite Hp in Hs. injection Hs as E. by destruct (ow_differ s t).
  - done.
  - intros q. rewrite H4. split; intros (t1 & Hq & Ht1).
    + exists t1. split; [|done]. rewrite lookup_delete_ne; [done|]. intros <-.
      rewrite Hp in Hq. injection Hq as ->%obj_in_inj. done.
    + apply lookup_delete_Some in Hq as [_ Hq]. by exists t1.
  - intros q t1 [_ Hq]%lookup_delete_Some. by apply (H5 q).
Qed.

(** A block is taken off the list of its service and freed. *)
Lemma keeps_remove_free p (f : S -> S) : (forall s, ow_list (f s) = filter (fun q => q <> p) (ow_list s)) ->
  has (kept (owned_inv srvc w0)) (let* sv := obj_get p (@ow_service S T _ _ _) in obj_set sv f ;; free_object p).
Proof.
  intros Hf w [] w' [[L I] Hm] E. apply bind_inv in E as (sv & w1 & Eg & E).
  apply obj_get_inv in Eg as [-> (t & Ht & ->)]. apply bind_inv in E as ([] & w1 & Es & E).
  destruct (decide (ow_service t = srvc)) as [Hs|Hs].
  - eapply freeing_free; [|exact E]. rewrite Hs in Es.
    eapply freeing_start; [exact I|done|by exists t| |exact Es]. intros s HL. by rewrite Hf, HL.
  - assert (owned_inv srvc w0 w1) as I1 by (eapply keeps_other_service; [exact Hs| |exact Es]; by split; [exists L|]).
    eapply free_other; [exact I1| |exact Hs|exact E].
    apply obj_set_inv in Es as (s & Hsv & ->). cbn. rewrite lookup_insert_ne; [done|].
    intros Heq. rewrite Heq, Ht in Hsv. injection Hsv as E'. by destruct (ow_differ s t).
Qed.
End steps.
End owned.

(** Taking an element off a list that has it once. *)
Lemma g_list_remove_filter l p : NoDup l -> g_list_remove l p = filter (fun q => q <> p) l.
Proof.
  induction l as [|q l IH]; cbn [g_list_remove]; [done|]. intros [Hq Hl]%NoDup_cons.
  destruct (Z.eqb_spec q p) as [->|Hne].
  - rewrite filter_cons_False by tauto. clear IH Hl. induction l as [|r l IH]; [done|].
    apply not_elem_of_cons in Hq as [Hr Hq]. rewrite filter_cons_True by congruence. by rewrite <- IH.
  - rewrite filter_cons_True by done. by rewrite IH.
Qed.

(** Code outside that only destroys a channel leaves the blocks alone. *)
Lemma destroy_heap_same E p c i : writes_out E -> has heap_same (mwChannel_destroy E p c i).
Proof.
  intros Hw. change (has heap_same (mwChannel_destroy (writes_env E) p c i)).
  apply fr_mwChannel_destroy; [apply _|]. by apply writes_env_frame; [apply _|].
Qed.

(** So do functions that free a client's data and nothing else. *)
Lemma datum_clear_same free d : (forall f x, heap_same unit (free f x)) -> has heap_same (mw_datum_clear free d).
Proof.
  intros Hf. unfold mw_datum_clear. destruct (dt_clear d =? 0); [apply fr_ret|].
  apply fr_bind; [apply Hf|intros _; apply fr_ret].
Qed.
