(* ===== verification/Delivery.v ===== *)
(** * From one session's messages to the other's handlers

    The bytes [mwSession_send] writes, cut anyhow by the socket and given to
    the other side's [mwSession_recv], are its handlers run on the messages,
    one by one and in order. *)

From S2P Require Import Prelude Buffer Common Message Framing World Rc2 Cipher Service Session.
From S2P Require Import Channel Dispatch Frame.
#[local] Open Scope Z_scope.
#[local] Open Scope mw_scope.

(** ** The library and the receive buffer *)

Definition with_buf (r : recv_buf) (w : world) : world :=
  set_w_session (set_s_buf r (w_session w)) w.

(** The same result and, the buffer aside, the same objects. *)
Definition alike {A} (p q : option (A * world)) : Prop :=
  match p, q with
  | Some (a, w1), Some (b, w2) => a = b /\ exists r, w2 = with_buf r w1
  | None, None => True
  | _, _ => False
  end.

(** A computation that does not look at the receive buffer. *)
Definition buf_free (A : Type) (m : M A) : Prop := forall w r, alike (m w) (m (with_buf r w)).

(** A computation that does not fill the receive buffer. *)
Definition idle (A : Type) (m : M A) : Prop :=
  forall w a w', m w = Some (a, w') -> s_buf (w_session w) = rb_empty -> s_buf (w_session w') = rb_empty.

Lemma with_buf_buf r r' w : with_buf r (with_buf r' w) = with_buf r w.
Proof. by destruct w as [[]]. Qed.

Lemma alike_same {A} (a : A) r w : alike (Some (a, w)) (Some (a, with_buf r w)).
Proof. split; [done|]. by exists r. Qed.

#[export] Instance buf_free_frame : Frame buf_free.
Proof.
  apply steps_frame. split; unfold has, buf_free.
  - intros A a w r. apply alike_same.
  - intros A B m k Hm Hk w r. unfold bind. specialize (Hm w r).
    destruct (m w) as [[a w1]|], (m (with_buf r w)) as [[b w2]|]; try done.
    destruct Hm as [-> [r' ->]]. apply Hk.
  - intros A [a|] w r; [apply alike_same|done].
  - done.
  - intros A f Hf w r. unfold session_get, gets. cbn. rewrite Hf. apply alike_same.
  - intros f Hf _ _ w r. unfold session_set, modify. split; [done|]. exists r.
    unfold with_buf. cbn. by rewrite Hf.
  - intros p w r. unfold deref_channel. cbn. destruct (w_channels w !! p); [apply alike_same|done].
  - intros p w r. unfold deref_service. cbn. destruct (w_services w !! p); [apply alike_same|done].
  - intros p w r. unfold deref_cipher. cbn. destruct (w_ciphers w !! p); [apply alike_same|done].
  - intros A p f w r. unfold channel_get. cbn. destruct (w_channels w !! p); [apply alike_same|done].
  - intros p f w r. unfold channel_set. cbn. destruct (w_channels w !! p); [|done]. split; [done|]. by exists r.
  - intros p f w r. unfold service_set. cbn. destruct (w_services w !! p); [|done]. split; [done|]. by exists r.
  - intros p f w r. unfold cipher_set. cbn. destruct (w_ciphers w !! p); [|done]. split; [done|]. by exists r.
  - intros f w r. split; [done|]. by exists r.
  - intros ch w r. split; [done|]. by exists r.
  - intros b r0 w r. split; [done|]. by exists r.
Qed.

#[export] Instance buf_free_heap : HeapFrame buf_free.
Proof.
  split; [apply _|..]; unfold has, buf_free.
  - intros p w r. unfold deref_object. cbn. destruct (w_heap w !! p); [apply alike_same|done].
  - intros p o w r. unfold put_object. cbn. destruct (w_heap w !! p); [|done]. split; [done|]. by exists r.
  - intros o w r. split; [done|]. by exists r.
  - intros p w r. unfold free_object. cbn. destruct (w_heap w !! p); [|done]. split; [done|]. by exists r.
  - intros p o w r. split; [done|]. by exists r.
Qed.

#[export] Instance buf_free_full : FullFrame buf_free.
Proof.
  split; [apply _|..]; unfold has, buf_free.
  - intros st w r. split; [done|]. by exists r.
  - intros w r. split; [done|]. exists rb_empty. by destruct w as [[]].
  - intros e w r. split; [done|]. by exists r.
Qed.

#[export] Instance idle_frame : Frame idle.
Proof.
  apply steps_frame. split; unfold has, idle.
  - by intros A a w a' w' [= <- <-].
  - intros A B m k Hm Hk w b w'. unfold bind. destruct (m w) as [[a w1]|] eqn:E; [|done].
    intros Hkw Hw. eapply Hk; [done|]. by eapply Hm.
  - by intros A [a|] w a' w' [= <- <-].
  - done.
  - by intros A f _ w a w' [= <- <-].
  - intros f _ _ Hf w a w' [= <- <-]. cbn. by rewrite Hf.
  - intros p w a w'. unfold deref_channel, lift. destruct (w_channels w !! p); [by intros [= <- <-]|done].
  - intros p w a w'. unfold deref_service, lift. destruct (w_services w !! p); [by intros [= <- <-]|done].
  - intros p w a w'. unfold deref_cipher, lift. destruct (w_ciphers w !! p); [by intros [= <- <-]|done].
  - intros A p f w a w'. unfold channel_get, lift. destruct (w_channels w !! p); [by intros [= <- <-]|done].
  - intros p f w a w'. unfold channel_set. destruct (w_channels w !! p); [by intros [= <- <-]|done].
  - intros p f w a w'. unfold service_set. destruct (w_services w !! p); [by intros [= <- <-]|done].
  - intros p f w a w'. unfold cipher_set. destruct (w_ciphers w !! p); [by intros [= <- <-]|done].
  - by intros f w a w' [= <- <-].
  - by intros ch w a w' [= <- <-].
  - by intros b r w a w' [= <- <-].
Qed.

#[export] Instance idle_heap : HeapFrame idle.
Proof.
  split; [apply _|..]; unfold has, idle.
  - intros p w a w'. unfold deref_object, lift. destruct (w_heap w !! p); [by intros [= <- <-]|done].
  - intros p o w a w'. unfold put_object. destruct (w_heap w !! p); [by intros [= <- <-]|done].
  - by intros o w a w' [= <- <-].
  - intros p w a w'. unfold free_object. destruct (w_heap w !! p); [by intros [= <- <-]|done].
  - by intros p o w a w' [= <- <-].
Qed.

#[export] Instance idle_full : FullFrame idle.
Proof.
  split; [apply _|..]; unfold has, idle.
  - by intros st w a w' [= <- <-].
  - by intros w a w' [= <- <-].
  - by intros e w a w' [= <- <-].
Qed.

(** What [Framing.v] asks of the session. *)
Lemma session_owner_ok E : EnvFrame buf_free E -> EnvFrame idle E ->
  @RecvOwnerOk world (session_owner E).
Proof.
  intros HB HI. split.
  - done.
  - by intros [[]].
  - by intros r r' [[]].
  - done.
  - intros m w w' Hw. cbn. destruct (session_process E m w) as [[[] w1]|] eqn:Ep; [|done].
    intros [= <-]. exact (fr_session_process idle E m w tt w1 Ep Hw).
  - intros m r w. unfold session_buf_free. cbn [process set_buf session_owner].
    pose proof (fr_session_process buf_free E m w r) as H.
    fold (with_buf r w) in *. destruct (session_process E m w) as [[[] w1]|],
      (session_process E m (with_buf r w)) as [[[] w2]|]; try done.
    destruct H as [_ [r' ->]]. by destruct w1 as [[]].
Qed.

(** ** Sending *)

(** A message that can be sent: its fields fit, and its length is that of a
    message and not of a keep-alive byte. *)
Definition sendable (m : mwMessage) : Prop :=
  mwMessage_ok m /\ zlen (mwMessage_enc m) < 2 ^ 31.

Lemma render_spec m : sendable m ->
  render m = Some (MW32_PUT (zlen (mwMessage_enc m)) ++ mwMessage_enc m).
Proof.
  intros [Hok Hl]. destruct (message_send_spec m Hok) as (o & E & Ho & Hlen & Hd).
  pose proof (zlen_nonneg (mwMessage_enc m)).
  unfold render. rewrite E. cbn [mbind option_bind].
  assert (writes (mwOpaque_put (Some o)) (mwOpaque_enc o)) as Hw by by apply mwOpaque_put_writes.
  destruct (finalize_writes _ _ Hw) as (b & Eb & Hob & Hlb & Hdb).
  { unfold mwOpaque_enc, pb_max. rewrite zlen_app, MW32_PUT_len, Hd. lia. }
  rewrite Eb. cbn [mbind option_bind]. rewrite (opaque_ok_data _ Hob), Hdb.
  unfold mwOpaque_enc. rewrite Hd, Hlen, u32_id; [done|]. unfold is_u32. lia.
Qed.

Lemma mwMessage_enc_nonempty m : 0 < zlen (mwMessage_enc m).
Proof.
  unfold mwMessage_enc, head_enc. rewrite !zlen_app, MW32_PUT_len. pose_zlen. lia.
Qed.

(** What the session processes for the bytes of a message. *)
Lemma session_process_enc E m w : sendable m ->
  session_process E (mwMessage_enc m) w =
  (handle E (mwMessage_norm m) ;; message_free (mwMessage_norm m)) w.
Proof.
  intros [Hok Hl]. unfold session_process. pose proof (mwMessage_enc_nonempty m).
  destruct (Z.eqb_spec (zlen (mwMessage_enc m)) 0); [lia|].
  destruct (mwMessage_get_parses (e_uninit E) m Hok) as (R & _ & _).
  destruct (block_opaque (mwMessage_enc m)) as [Ho Hd].
  destruct (R (mwGetBuffer_wrap (Some {| len := zlen (mwMessage_enc m);
                                         data := Some (mwMessage_enc m) |}))
              (body_trail (msg_body m))) as (g & Eg & _).
  { rewrite <- app_assoc. change (_ ++ _ ++ _) with (mwMessage_enc m). rewrite <- Hd at 3.
    apply mwGetBuffer_wrap_ready; [done|]. cbn [len]. lia. }
  unfold bind at 1. rewrite Eg. reflexivity.
Qed.

(** What a session writes: messages, and keep-alive bytes. *)
Inductive sent := SentMsg (m : mwMessage) | SentAlive.

Definition sent_written (s : sent) : option (list Z) :=
  match s with SentMsg m => render m | SentAlive => Some [0x80] end.
Definition sent_messages (l : list sent) : list mwMessage :=
  omap (fun s => match s with SentMsg m => Some m | SentAlive => None end) l.
Definition sent_sendable (s : sent) : Prop :=
  match s with SentMsg m => sendable m | SentAlive => True end.

(** The handlers on a list of messages. *)
Fixpoint handle_all (E : Env) (ms : list mwMessage) : M unit :=
  match ms with
  | [] => ret tt
  | m :: ms => (handle E m ;; message_free m) ;; handle_all E ms
  end.

(** The chunks read from the socket. *)
Fixpoint recv_all (E : Env) (bs : list (list Z)) : M unit :=
  match bs with
  | [] => ret tt
  | b :: bs => mwSession_recv E b ;; recv_all E bs
  end.

Lemma recv_all_chunks E bs w :
  recv_all E bs w = (fun w => (tt, w)) <$> @recv_chunks world (session_owner E) bs w.
Proof.
  revert w. induction bs as [|b bs IH]; intros w; [done|]. cbn [recv_all recv_chunks].
  unfold bind, mwSession_recv. destruct (Framing.mwSession_recv b w); [|done]. cbn. apply IH.
Qed.

Lemma process_all_handle E ms w : Forall sendable ms ->
  @process_all world (session_owner E) (map mwMessage_enc ms) w =
  snd <$> handle_all E (map mwMessage_norm ms) w.
Proof.
  intros H. revert w. induction H as [|m ms Hm _ IH]; intros w; [done|].
  cbn [map process_all handle_all]. cbn [process session_owner].
  rewrite session_process_enc by done. set (h := (handle E _ ;; message_free _)).
  unfold bind at 1. destruct (h w) as [[[] w1]|]; [|done]. cbn. apply IH.
Qed.

Definition unit_of (s : sent) : unit_sent :=
  match s with SentMsg m => SentMessage (mwMessage_enc m) | SentAlive => SentKeepalive 0x80 end.

Lemma units_ok l : Forall sent_sendable l -> Forall sent_ok (map unit_of l).
Proof.
  intros H. apply Forall_fmap. eapply Forall_impl; [exact H|].
  intros [m|] Hm; cbn; [apply Hm|done].
Qed.

Lemma units_payload l :
  concat (map sent_payload (map unit_of l)) = map mwMessage_enc (sent_messages l).
Proof.
  unfold sent_messages. induction l as [|[m|] l IH]; cbn; [done| |]; by rewrite IH.
Qed.

Lemma messages_sendable l : Forall sent_sendable l -> Forall sendable (sent_messages l).
Proof. unfold sent_messages. induction 1 as [|[m|] l Hm _ IH]; cbn; auto. Qed.

Lemma units_bytes l bytes : Forall sent_sendable l -> map sent_written l = map Some bytes ->
  bytes = map sent_bytes (map unit_of l).
Proof.
  intros H. revert bytes. induction H as [|s l Hs _ IH]; intros [|b bytes]; cbn; try done.
  intros [= Hb Hr]. rewrite (IH bytes Hr). f_equal. destruct s as [m|]; cbn in *.
  - change (render m = Some b) in Hb. rewrite render_spec in Hb by done. by injection Hb as <-.
  - by injection Hb as <-.
Qed.

(** C1: the messages that one side renders, with keep-alive bytes anywhere
    between them, reach the handlers of the other side exactly: however the
    stream is cut into chunks, the receiving session runs its handlers on
    the messages (as the codec normalises them), each once and in the order
    sent, and does nothing else. *)
Theorem session_delivery E l bytes bs w :
  EnvFrame buf_free E -> EnvFrame idle E ->
  Forall sent_sendable l -> map sent_written l = map Some bytes -> concat bs = concat bytes ->
  s_buf (w_session w) = rb_empty ->
  recv_all E bs w = handle_all E (map mwMessage_norm (sent_messages l)) w.
Proof.
  intros HB HI Hl Hby Hbs Hw. pose proof (session_owner_ok E HB HI) as HO.
  rewrite recv_all_chunks, (recv_delivers (map unit_of l)); [|by apply units_ok|done|].
  - rewrite units_payload, process_all_handle by by apply messages_sendable.
    destruct (handle_all E _ w) as [[[] w']|]; done.
  - rewrite Hbs. f_equal. by apply units_bytes.
Qed.

(** ** Witnesses *)

Definition sense_msg : mwMessage := message 0 (SENSE_SERVICE {| sn_service := 0x1000 |}).

Definition destroy_msg : mwMessage :=
  message 0x80000005 (CHANNEL_DESTROY {| cd_reason := 7; cd_data := opaque_zero |}).

Definition started_world : world := {|
  w_session := session_of None; w_channels := ∅; w_services := ∅; w_ciphers := ∅;
  w_heap := ∅; w_next := 1; w_log := [] |}.

Lemma session_delivery_witness :
  recv_all (quiet_env 0)
    [[0; 0; 0]; [12; 0; 0x11; 0; 0; 0; 0; 0; 0; 0; 0; 0x10; 0; 0x80; 0; 0; 0; 16; 0];
     [3; 0; 0; 0x80; 0; 0; 5; 0; 0; 0; 7; 0; 0; 0; 0]] started_world
  = handle_all (quiet_env 0) [mwMessage_norm sense_msg; mwMessage_norm destroy_msg] started_world.
Proof.
  apply (session_delivery (quiet_env 0) [SentMsg sense_msg; SentAlive; SentMsg destroy_msg]
    [[0; 0; 0; 12; 0; 0x11; 0; 0; 0; 0; 0; 0; 0; 0; 0x10; 0]; [0x80];
     [0; 0; 0; 16; 0; 3; 0; 0; 0x80; 0; 0; 5; 0; 0; 0; 7; 0; 0; 0; 0]]).
  - apply quiet_env_frame, _.
  - apply quiet_env_frame, _.
  - repeat constructor; by apply (bool_decide_unpack _).
  - vm_compute. reflexivity.
  - vm_compute. reflexivity.
  - reflexivity.
Defined.
