(* ===== verification/Protocol.v ===== *)
(** * The state machine of a session (src/src/session.c)

    The states a session goes through are a path in a fixed graph, whatever
    the server sends and whatever the client calls, as long as the code
    outside does not itself start, stop or force the session from within a
    call. *)

From S2P Require Import Prelude Buffer Common Message Framing World Rc2 Cipher Service Session.
From S2P Require Import Channel Dispatch Frame Delivery.
#[local] Open Scope Z_scope.
#[local] Open Scope mw_scope.

(** ** The graph *)

Inductive session_next : mwSessionState -> mwSessionState -> Prop :=
  | next_start : session_next mwSession_STOPPED mwSession_STARTING
  | next_handshake : session_next mwSession_STARTING mwSession_HANDSHAKE
  | next_handshake_ack : session_next mwSession_HANDSHAKE mwSession_HANDSHAKE_ACK
  | next_login : session_next mwSession_HANDSHAKE_ACK mwSession_LOGIN
  | next_login_ack : session_next mwSession_LOGIN mwSession_LOGIN_ACK
  | next_started : session_next mwSession_LOGIN_ACK mwSession_STARTED
  | next_redir st : session_next st mwSession_LOGIN_REDIR
  | next_cont : session_next mwSession_LOGIN_REDIR mwSession_LOGIN_CONT
  | next_cont_ack : session_next mwSession_LOGIN_CONT mwSession_HANDSHAKE_ACK
  | next_stopping st :
      st <> mwSession_STOPPED -> st <> mwSession_STOPPING -> session_next st mwSession_STOPPING
  | next_stopped : session_next mwSession_STOPPING mwSession_STOPPED.

Inductive path : mwSessionState -> list mwSessionState -> mwSessionState -> Prop :=
  | path_nil s : path s [] s
  | path_cons s1 s2 l s3 : session_next s1 s2 -> path s2 l s3 -> path s1 (s2 :: l) s3.

(** The states entered so far. *)
Definition trace (w : world) : list mwSessionState :=
  omap (fun e => match e with EvState st => Some st | _ => None end) (w_log w).

Definition cur (w : world) : mwSessionState := s_state (w_session w).

(** From [w] to [w'] the session went along the graph. *)
Definition follows (w w' : world) : Prop :=
  exists tr, trace w' = trace w ++ tr /\ path (cur w) tr (cur w').

Lemma path_app s1 l1 s2 l2 s3 : path s1 l1 s2 -> path s2 l2 s3 -> path s1 (l1 ++ l2) s3.
Proof. induction 1 as [|s1 s2 l s2' Hn _ IH]; [done|]. intros H. econstructor; eauto. Qed.

#[export] Instance follows_preorder : PreOrder follows.
Proof.
  split.
  - intros w. exists []. rewrite app_nil_r. split; [done|constructor].
  - intros w1 w2 w3 (l1 & E1 & P1) (l2 & E2 & P2). exists (l1 ++ l2).
    split; [by rewrite E2, E1, app_assoc|]. by eapply path_app.
Qed.

(** ** Computations that leave the state alone *)

Definition keeps (A : Type) (m : M A) : Prop :=
  forall w a w', m w = Some (a, w') -> cur w' = cur w /\ trace w' = trace w.

#[export] Instance keeps_frame : Frame keeps.
Proof.
  apply steps_frame. split; unfold has, keeps.
  - by intros A a w a' w' [= <- <-].
  - intros A B m k Hm Hk w b w'. unfold bind. destruct (m w) as [[a w1]|] eqn:E; [|done].
    intros Ek. destruct (Hm _ _ _ E) as [<- <-]. by eapply Hk.
  - by intros A [a|] w a' w' [= <- <-].
  - done.
  - by intros A f _ w a w' [= <- <-].
  - intros f _ Hf _ w a w' [= <- <-]. split; [apply Hf|done].
  - intros p w a w'. unfold deref_channel, lift. destruct (w_channels w !! p); [by intros [= <- <-]|done].
  - intros p w a w'. unfold deref_service, lift. destruct (w_services w !! p); [by intros [= <- <-]|done].
  - intros p w a w'. unfold deref_cipher, lift. destruct (w_ciphers w !! p); [by intros [= <- <-]|done].
  - intros A p f w a w'. unfold channel_get, lift. destruct (w_channels w !! p); [by intros [= <- <-]|done].
  - intros p f w a w'. unfold channel_set. destruct (w_channels w !! p); [by intros [= <- <-]|done].
  - intros p f w a w'. unfold service_set. destruct (w_services w !! p); [by intros [= <- <-]|done].
  - intros p f w a w'. unfold cipher_set. destruct (w_ciphers w !! p); [by intros [= <- <-]|done].
  - by intros f w a w' [= <- <-].
  - by intros ch w a w' [= <- <-].
  - intros b r w a w' [= <- <-]. split; [done|]. unfold trace. cbn.
    by rewrite omap_app, app_nil_r.
Qed.

#[export] Instance keeps_heap : HeapFrame keeps.
Proof.
  split; [apply _|..]; unfold has, keeps.
  - intros p w a w'. unfold deref_object, lift. destruct (w_heap w !! p); [by intros [= <- <-]|done].
  - intros p o w a w'. unfold put_object. destruct (w_heap w !! p); [by intros [= <- <-]|done].
  - by intros o w a w' [= <- <-].
  - intros p w a w'. unfold free_object. destruct (w_heap w !! p); [by intros [= <- <-]|done].
  - by intros p o w a w' [= <- <-].
Qed.

(** ** Triples *)

(** From a state in [P] the computation goes along the graph to one in [Q]. *)
Definition triple {A} (P : mwSessionState -> Prop) (m : M A) (Q : A -> mwSessionState -> Prop) : Prop :=
  forall w a w', P (cur w) -> m w = Some (a, w') -> follows w w' /\ Q a (cur w').

Lemma triple_keep {A} P (m : M A) : has keeps m -> triple P m (fun _ => P).
Proof.
  intros Hm w a w' Hp E. destruct (Hm w a w' E) as [Hc Ht]. unfold follows. rewrite Hc, Ht.
  split; [|done]. exists []. rewrite app_nil_r. split; [done|constructor].
Qed.

Lemma triple_bind {A B} P Q R (m : M A) (k : A -> M B) :
  triple P m Q -> (forall a, triple (Q a) (k a) R) -> triple P (bind m k) R.
Proof.
  intros Hm Hk w b w' Hp. unfold bind. destruct (m w) as [[a w1]|] eqn:E; [|done]. intros Ek.
  destruct (Hm _ _ _ Hp E) as [F1 Q1]. destruct (Hk a _ _ _ Q1 Ek) as [F2 R2].
  split; [by transitivity w1|done].
Qed.

Lemma triple_weaken {A} P P' Q Q' (m : M A) :
  triple P m Q -> (forall s, P' s -> P s) -> (forall a s, Q a s -> Q' a s) -> triple P' m Q'.
Proof. intros H HP HQ w a w' Hp E. destruct (H w a w' (HP _ Hp) E). auto. Qed.

Lemma triple_seq {A B} P Q R (m : M A) (k : M B) :
  triple P m (fun _ => Q) -> triple Q k R -> triple P (m ;; k) R.
Proof. intros Hm Hk. eapply triple_bind; [exact Hm|]. done. Qed.

(** A read of the state. *)
Lemma triple_get {B} P (k : mwSessionState -> M B) R :
  (forall s, P s -> triple (eq s) (k s) R) -> triple P (bind (session_get s_state) k) R.
Proof. intros Hk w b w' Hp E. by eapply (Hk (cur w) Hp). Qed.

Lemma triple_ret {A} P (a : A) : triple P (ret a) (fun _ => P).
Proof. apply triple_keep, fr_ret. Qed.

Section machine.
Context (E : Env) {EK : EnvFrame keeps E}.

Lemma triple_state P st i :
  (forall s, P s -> s <> st -> session_next s st) -> triple P (Session.state E st i) (fun _ s => s = st).
Proof.
  intros Hn w [] w' Hp. unfold Session.state, mwSession_isState, bind, session_get, gets.
  case_bool_decide as Hs.
  - intros [= <-]. split; [reflexivity|done].
  - set (w1 := set_w_log (w_log w ++ [EvState st]) (set_w_session
      (set_s_state_info i (set_s_state st (w_session w))) w)).
    intros Ek. assert (cur w' = cur w1 /\ trace w' = trace w1) as [Hc Ht].
    { destruct (e_on_stateChange E) as [f|] eqn:Ef; [|by injection Ek as <-].
      exact (ef_on_stateChange f st i Ef _ _ _ Ek). }
    unfold follows. rewrite Hc, Ht. split; [|done]. exists [st]. split.
    + unfold w1, trace. cbn. by rewrite omap_app.
    + econstructor; [by apply Hn|constructor].
Qed.

Lemma triple_any {A} P (m : M A) : has keeps m -> triple P m (fun _ _ => True).
Proof. intros H. eapply triple_weaken; [by apply (triple_keep P)|done|done]. Qed.

Lemma keeps_io_close : has keeps (io_close E).
Proof.
  unfold io_close. frame. intros ? ? ? [= <- <-]. split; [done|]. unfold trace. cbn.
  by rewrite omap_app, app_nil_r.
Qed.

Lemma keeps_set_buf r : has keeps (session_set (set_s_buf r)).
Proof. by intros w a w' [= <- <-]. Qed.

Lemma keeps_for_each {A} (f : A -> M unit) l : (forall x, has keeps (f x)) -> has keeps (for_each f l).
Proof. apply fr_for_each, _. Qed.

Lemma triple_last P st i :
  (forall s, P s -> s <> st -> session_next s st) -> triple P (Session.state E st i) (fun _ _ => True).
Proof. intros H. eapply triple_weaken; [by apply triple_state|done|done]. Qed.

(** Steps over a computation that keeps the state, or over a change of it. *)
Ltac keep_tac :=
  first [ apply keeps_set_buf | apply keeps_io_close | apply keeps_for_each; frame | frame ].
Ltac t_keep := eapply triple_bind; [apply triple_keep; keep_tac|intros ?; cbv beta].
Ltac t_state := eapply triple_bind; [apply triple_state; intros ? <- _; constructor; congruence|intros ?; cbv beta].
Ltac t_done := first [ by apply triple_any, fr_ret | by apply triple_any; frame
  | apply triple_last; intros ? <- _; constructor; congruence ].

Lemma triple_eq_sym {A} st (m : M A) Q : triple (eq st) m Q -> triple (fun s => s = st) m Q.
Proof. intros H. eapply triple_weaken; [exact H|by intros ? ->|done]. Qed.

Lemma triple_stop P r : triple P (mwSession_stop E r) (fun _ _ => True).
Proof.
  apply triple_get. intros s Hp. case_bool_decide; [t_done|].
  case_bool_decide; cbn [orb]; [t_done|].
  t_state. apply triple_eq_sym. do 5 t_keep. t_done.
Qed.

Lemma triple_is_state {B} P st (k : bool -> M B) R :
  (forall s, P s -> triple (eq s) (k (bool_decide (s = st))) R) ->
  triple P (bind (mwSession_isState st) k) R.
Proof. intros Hk w b w' Hp Ek. by eapply (Hk (cur w) Hp). Qed.

Lemma triple_start P : triple P (mwSession_start E) (fun _ _ => True).
Proof.
  apply triple_is_state. intros s _. case_bool_decide; cbn [negb]; [subst s|t_done].
  t_state. apply triple_eq_sym. do 2 t_keep. destruct (negb _); [apply triple_stop|t_done].
Qed.

Lemma triple_handshake_ack P m : triple P (HANDSHAKE_ACK_recv E m) (fun _ _ => True).
Proof.
  apply triple_get. intros s _.
  case_bool_decide as H1; case_bool_decide as H2; cbn [orb negb]; subst; try done.
  - t_state. apply triple_eq_sym. do 6 t_keep.
    match goal with |- triple _ (let '_ := ?x in _) _ => destruct x end.
    t_keep. destruct (_ =? 0); t_done.
  - t_state. apply triple_eq_sym. t_done.
  - t_done.
Qed.

Lemma triple_login_ack P m : triple P (LOGIN_ACK_recv E m) (fun _ _ => True).
Proof.
  apply triple_get. intros s _. case_bool_decide; cbn [negb]; [subst s|t_done].
  t_keep. t_state. apply triple_eq_sym. do 2 t_keep. t_done.
Qed.

Lemma triple_force_login P : triple P (mwSession_forceLogin E) (fun _ _ => True).
Proof.
  apply triple_is_state. intros s _. case_bool_decide; cbn [negb]; [subst s|t_done].
  t_state. apply triple_any. frame.
Qed.

Lemma triple_redirect P m : triple P (LOGIN_REDIRECT_recv E m) (fun _ _ => True).
Proof. apply triple_last. intros s _ _. constructor. Qed.

Lemma triple_handle P m : triple P (handle E m) (fun _ _ => True).
Proof.
  unfold handle. destruct (msg_body m); try (by apply triple_any; frame).
  - apply triple_handshake_ack.
  - apply triple_login_ack.
  - apply triple_redirect.
  - unfold CHANNEL_DESTROY_recv. destruct (_ =? _); [apply triple_stop|by apply triple_any; frame].
Qed.

Lemma triple_process P b : triple P (session_process E b) (fun _ _ => True).
Proof.
  unfold session_process. destruct (_ =? 0); [t_done|]. t_keep. destruct a as [[msg|] g]; [|t_done].
  eapply triple_bind; [apply triple_handle|intros ?]. apply triple_any. frame.
Qed.

Lemma follows_recv b w w' : @Framing.mwSession_recv world (session_owner E) b w = Some w' -> follows w w'.
Proof.
  apply (mwSession_recv_keeps (RO := session_owner E) follows).
  - intros r s. exists []. rewrite app_nil_r. split; [done|constructor].
  - intros m s s'. cbn. destruct (session_process E m s) as [[[] s1]|] eqn:Ep; [|done].
    intros [= <-]. by apply (triple_process (fun _ => True) m s tt).
Qed.

(** ** Calls of the client *)

Inductive call :=
  | CallStart | CallStop (reason : Z) | CallRecv (bytes : list Z) | CallForceLogin
  | CallSend (msg : mwMessage) | CallKeepalive | CallAnnounce (may_reply : bool) (text : mwString)
    (recipients : list mwString)
  | CallSetPrivacy (p : mwPrivacyInfo) | CallSetStatus (st : mwUserStatus)
  | CallAddService (srv : Z) | CallRemoveService (srv : Z) | CallAddCipher (c : Z)
  | CallNewChannel | CallCreate (chan : Z) | CallAccept (chan : Z)
  | CallDestroy (chan reason : Z) (info : option mwOpaque)
  | CallChannelSend (chan type : Z) (d : option mwOpaque) (encrypt : bool).

Definition run_call (c : call) : M unit :=
  let void {A} (m : M A) : M unit := m ;; ret tt in
  match c with
  | CallStart => mwSession_start E
  | CallStop r => mwSession_stop E r
  | CallRecv b => mwSession_recv E b
  | CallForceLogin => void (mwSession_forceLogin E)
  | CallSend m => void (mwSession_send E (Some m))
  | CallKeepalive => void (mwSession_sendKeepalive E)
  | CallAnnounce r t l => void (mwSession_sendAnnounce E r t l)
  | CallSetPrivacy p => void (mwSession_setPrivacyInfo E p)
  | CallSetStatus st => void (mwSession_setUserStatus E st)
  | CallAddService s => void (mwSession_addService E s)
  | CallRemoveService s => void (mwSession_removeService s)
  | CallAddCipher c => void (mwSession_addCipher c)
  | CallNewChannel => void mwChannel_newOutgoing
  | CallCreate p => void (mwChannel_create E p)
  | CallAccept p => void (mwChannel_accept E p)
  | CallDestroy p r i => void (mwChannel_destroy E p r i)
  | CallChannelSend p t d e => void (mwChannel_sendEncrypted E p t d e)
  end.

Fixpoint run_calls (l : list call) : M unit :=
  match l with [] => ret tt | c :: l => run_call c ;; run_calls l end.

Lemma triple_call P c : triple P (run_call c) (fun _ _ => True).
Proof.
  destruct c; cbn [run_call];
    try (eapply triple_bind; [|intros ?; by apply triple_any, fr_ret]);
    try (by apply triple_any; frame).
  - apply triple_start.
  - apply triple_stop.
  - intros w a w' _ Ec. split; [|done]. revert Ec. unfold mwSession_recv.
    destruct (Framing.mwSession_recv bytes w) as [w1|] eqn:Er; [|done]. intros [= <- <-].
    by eapply follows_recv.
  - apply triple_force_login.
  - unfold mwSession_sendKeepalive. by apply triple_any; frame.
  - unfold mwSession_sendAnnounce. by apply triple_any; frame.
  - unfold mwSession_setPrivacyInfo. by apply triple_any; frame.
  - unfold mwSession_setUserStatus. by apply triple_any; frame.
  - unfold mwSession_addService, mwSession_senseService. by apply triple_any; frame.
  - unfold mwSession_removeService. by apply triple_any; frame.
  - unfold mwSession_addCipher. by apply triple_any; frame.
Qed.

Lemma follows_calls l w w' : run_calls l w = Some (tt, w') -> follows w w'.
Proof.
  revert w. induction l as [|c l IH]; intros w; cbn [run_calls]; [by intros [= <-]|].
  unfold bind. destruct (run_call c w) as [[[] w1]|] eqn:Ec; [|done]. intros El.
  destruct (triple_call (fun _ => True) c w tt w1 I Ec) as [F _].
  transitivity w1; [done|by apply IH].
Qed.
End machine.

(** ** Paths *)

Lemma path_snoc_inv s1 l s3 : path s1 l s3 ->
  l = [] /\ s1 = s3 \/ exists l' s2, l = l' ++ [s3] /\ path s1 l' s2 /\ session_next s2 s3.
Proof.
  induction 1 as [s|s1 s2 l s3 Hn Hp IH]; [by left|right].
  destruct IH as [[-> ->]|(l' & s & -> & Hl & Hs)].
  - exists [], s1. split_and!; [done|constructor|done].
  - exists (s2 :: l'), s. split_and!; [done|by econstructor|done].
Qed.

(** The last step into a state that is not the first. *)
Lemma path_last s1 l s3 : path s1 l s3 -> s1 <> s3 ->
  exists l' s2, l = l' ++ [s3] /\ path s1 l' s2 /\ session_next s2 s3.
Proof. intros H Hne. destruct (path_snoc_inv _ _ _ H) as [[_ ?]|?]; [done|done]. Qed.

Lemma path_to_started l : path mwSession_STOPPED l mwSession_STARTED ->
  exists l', l = l' ++ [mwSession_HANDSHAKE_ACK; mwSession_LOGIN; mwSession_LOGIN_ACK; mwSession_STARTED].
Proof.
  intros H. apply path_last in H as (l1 & s1 & -> & H & N1); [|done]. inversion N1; subst.
  apply path_last in H as (l2 & s2 & -> & H & N2); [|done]. inversion N2; subst.
  apply path_last in H as (l3 & s3 & -> & H & N3); [|done]. inversion N3; subst.
  apply path_last in H as (l4 & s4 & -> & H & N4); [|done].
  exists l4. by rewrite <- !app_assoc.
Qed.

(** C24: as long as neither the handler's functions nor the services change
    the state of the session themselves ([EnvFrame keeps E]), the states it
    enters are a path in the graph, whatever the server sends and whatever
    the client calls.  Without that they need not be:
    [stopped_session_started] is a run in which the start function of a
    service stops the session. *)
Theorem session_state_machine E l w w' :
  EnvFrame keeps E -> run_calls E l w = Some (tt, w') ->
  exists tr, trace w' = trace w ++ tr /\ path (cur w) tr (cur w').
Proof. intros EK. apply follows_calls. done. Qed.

(** A stopped session that is started was logged in: the states it went
    through end with the acknowledged handshake, the login, and the
    acknowledged login. *)
Theorem started_after_login E l w w' :
  EnvFrame keeps E -> run_calls E l w = Some (tt, w') ->
  cur w = mwSession_STOPPED -> cur w' = mwSession_STARTED ->
  exists tr, trace w' = trace w ++ tr ++
    [mwSession_HANDSHAKE_ACK; mwSession_LOGIN; mwSession_LOGIN_ACK; mwSession_STARTED].
Proof.
  intros EK H Hw Hw'. apply follows_calls in H as (tr & Ht & Hp); [|done]. rewrite Hw, Hw' in Hp.
  apply path_to_started in Hp as [l' ->]. by exists l'.
Qed.

(** ** A redirect *)

Definition redirect_msg (channel : Z) (host server_id : mwString) : mwMessage :=
  message channel (LOGIN_REDIRECT {| lr_host := host; lr_server_id := server_id |}).

(** A login redirect is obeyed in every state, a stopped or a started
    session included, and the host it leaves as the information of the state
    is freed when the handler returns: what [mwSession_getStateInfo] gives is a
    dangling pointer. *)
Theorem redirect_dangles seed channel host server_id w :
  sendable (redirect_msg channel (Some host) server_id) -> host <> [] ->
  cur w <> mwSession_LOGIN_REDIR ->
  exists w', session_process (quiet_env seed) (mwMessage_enc (redirect_msg channel (Some host) server_id)) w
      = Some (tt, w')
    /\ cur w' = mwSession_LOGIN_REDIR /\ s_state_info (w_session w') = Dangling.
Proof.
  intros Hs Hh Hw. rewrite session_process_enc by done. unfold redirect_msg, message, mwMessage_norm.
  cbn [msg_body msg_head body_norm]. unfold login_redirect_norm. cbn [lr_host lr_server_id].
  assert (mwString_norm (Some host) = Some host) as -> by by destruct host.
  unfold handle, message_free. cbn [msg_body]. unfold LOGIN_REDIRECT_recv, Session.state.
  unfold bind, mwSession_isState, session_get, gets. unfold cur in Hw.
  rewrite bool_decide_false by done. by eexists.
Qed.

(** ** Stopping from within a call *)

(** A service whose start function stops the session. *)
Definition stopping_env : Env := {|
  e_io_write := e_io_write (quiet_env 0);
  e_io_close := ret tt;
  e_clear := None;
  e_on_stateChange := None;
  e_on_setPrivacyInfo := None;
  e_on_setUserStatus := None;
  e_on_admin := None;
  e_on_announce := None;
  e_service _ := {|
    op_recv_create := None; op_recv_accept := None; op_recv_destroy := None; op_recv := None;
    op_start := Some (fun _ => mwSession_stop (quiet_env 0) 0); op_stop := None; op_clear := None |};
  e_values A m := (map_to_list m).*2;
  e_uninit := quiet_uninit;
  e_mpi := mpi_Z;
  e_rand := e_rand (quiet_env 0);
  e_time := 0;
|}.

(** ** A client that logs in *)

Definition new_world : world := {|
  w_session := session_zero; w_channels := ∅; w_services := ∅; w_ciphers := ∅;
  w_heap := ∅; w_next := 1; w_log := [] |}.

(** [mwSession_new], with a user, a password and a service. *)
Definition client_setup : M unit :=
  mwSession_new ;;
  property_set mwSession_AUTH_USER_ID (Str [98; 111; 98]) ;;
  property_set mwSession_AUTH_PASSWORD (Str [112; 119]) ;;
  let* srvc := mwService_init 0x1000 in
  mwSession_addService (quiet_env 0) srvc ;; ret tt.

Definition client_world : world :=
  match client_setup new_world with Some (_, w) => w | None => new_world end.

(** The server's handshake acknowledgement and login acknowledgement. *)
Definition ack_bytes : list Z :=
  [0; 0; 0; 16; 0x80; 0; 0; 0; 0; 0; 0; 0; 0; 0x1e; 0; 0x17; 0; 0; 0; 0].
Definition login_ack_bytes : list Z :=
  [0; 0; 0; 48; 0x80; 1; 0; 0; 0; 0; 0; 0; 0; 4; 97; 98; 99; 100; 0x17; 0; 0; 0; 0; 0; 0; 0; 0;
   0; 0; 0; 0; 0; 0; 0; 0; 0x20; 0; 0; 0; 0; 0; 0; 0; 0; 0; 0; 0; 0; 0; 0; 0; 0].

Definition login_calls : list call := [CallStart; CallRecv ack_bytes; CallRecv login_ack_bytes].

Definition after_login (E : Env) : world :=
  match run_calls E login_calls client_world with Some (_, w) => w | None => new_world end.

(** A service whose start function stops the session leaves it STARTED
    with its connection closed: the handler of the login acknowledgement does
    not look at the state again after it started the services. *)
Theorem stopped_session_started :
  exists w', run_calls stopping_env login_calls client_world = Some (tt, w')
    /\ cur w' = mwSession_STARTED
    /\ trace w' = [mwSession_STARTING; mwSession_HANDSHAKE; mwSession_HANDSHAKE_ACK;
                   mwSession_LOGIN; mwSession_LOGIN_ACK; mwSession_STOPPING;
                   mwSession_STOPPED; mwSession_STARTED]
    /\ last (w_log w') = Some (EvState mwSession_STARTED) /\ EvClose ∈ w_log w'.
Proof.
  exists (after_login stopping_env). split_and!; [vm_compute; reflexivity..|].
  assert (w_log (after_login stopping_env) !! 9%nat = Some EvClose) as H by (vm_compute; reflexivity).
  by eapply list_elem_of_lookup_2.
Qed.

(** ** Witnesses *)

Lemma session_state_machine_witness :
  exists tr, trace (after_login (quiet_env 0)) = trace client_world ++ tr
    /\ path (cur client_world) tr (cur (after_login (quiet_env 0))).
Proof.
  apply (session_state_machine (quiet_env 0) login_calls).
  - apply quiet_env_frame, _.
  - vm_compute. reflexivity.
Defined.

Lemma started_after_login_witness :
  exists tr, trace (after_login (quiet_env 0)) = trace client_world ++ tr ++
    [mwSession_HANDSHAKE_ACK; mwSession_LOGIN; mwSession_LOGIN_ACK; mwSession_STARTED].
Proof.
  apply (started_after_login (quiet_env 0) login_calls).
  - apply quiet_env_frame, _.
  - vm_compute. reflexivity.
  - vm_compute. reflexivity.
  - vm_compute. reflexivity.
Defined.

Lemma redirect_dangles_witness :
  exists w', session_process (quiet_env 0) (mwMessage_enc (redirect_msg 0 (Some [104]) None)) client_world
      = Some (tt, w')
    /\ cur w' = mwSession_LOGIN_REDIR /\ s_state_info (w_session w') = Dangling.
Proof.
  apply (redirect_dangles 0 0 [104] None client_world).
  - repeat split; try by apply (bool_decide_unpack _). all: vm_compute; congruence.
  - discriminate.
  - vm_compute. discriminate.
Defined.
