(* ===== verification/ChannelSpec.v ===== *)
(** * Channels: what holds of them

    The table of channels and the heap agree at all times; a new id is free;
    what is sent before a channel opens goes out when it does. *)

From S2P Require Import Prelude Buffer Common Message Framing World Rc2 Cipher Service Session.
From S2P Require Import Channel Dispatch Frame Delivery Protocol.
#[local] Open Scope Z_scope.
#[local] Open Scope mw_scope.

(** ** The table and the heap *)

Definition chan_map (w : world) : gmap Z Z := s_chan_map (w_session w).

(** Every channel of the table is on the heap under its id, and the heap has
    no other channels. *)
Record channels_wf (w : world) : Prop := {
  wf_table id p : chan_map w !! id = Some p ->
    exists ch, w_channels w !! p = Some ch /\ ch_id ch = id;
  wf_heap p ch : w_channels w !! p = Some ch -> chan_map w !! ch_id ch = Some p;
  wf_next p ch : w_channels w !! p = Some ch -> p < w_next w;
}.

Definition keeps_wf (A : Type) (m : M A) : Prop :=
  forall w a w', channels_wf w -> m w = Some (a, w') -> channels_wf w'.

(** Worlds with the same table and channels, and no more free addresses. *)
Lemma wf_same w w' : chan_map w' = chan_map w -> w_channels w' = w_channels w ->
  w_next w <= w_next w' -> channels_wf w -> channels_wf w'.
Proof. intros Ht Hh Hn [H1 H2 H3]. split; rewrite ?Ht, ?Hh; [done..|]. intros p ch Hp. apply H3 in Hp. lia. Qed.

Lemma wf_channel_set p f w w' : (forall ch, ch_id (f ch) = ch_id ch) ->
  channels_wf w -> channel_set p f w = Some (tt, w') -> channels_wf w'.
Proof.
  intros Hf [H1 H2 H3]. unfold channel_set. destruct (w_channels w !! p) as [ch0|] eqn:E; [|done].
  intros [= <-]. split; cbn.
  - intros id q Hq. destruct (H1 id q Hq) as (ch & Hch & <-).
    destruct (decide (q = p)) as [->|].
    + rewrite lookup_insert_eq. rewrite E in Hch. injection Hch as <-. by eexists.
    + rewrite lookup_insert_ne by done. by exists ch.
  - intros q ch Hq. apply lookup_insert_Some in Hq as [[<- <-]|[_ Hq]]; [|by apply H2].
    change (chan_map w !! ch_id (f ch0) = Some p). rewrite Hf. by apply H2.
  - intros q ch Hq. apply lookup_insert_Some in Hq as [[<- <-]|[_ Hq]]; by eapply H3.
Qed.

Lemma wf_chan_map_remove id w w' :
  channels_wf w -> chan_map_remove id w = Some (tt, w') ->
  channels_wf w' /\ chan_map w' = delete id (chan_map w) /\
  (forall p, chan_map w !! id = Some p -> w_channels w' !! p = None).
Proof.
  intros [H1 H2 H3]. unfold chan_map_remove, mwChannel_find, bind, session_get, gets.
  destruct (s_chan_map (w_session w) !! id) as [p|] eqn:E.
  - destruct (H1 id p E) as (ch & Hp & Hid). unfold channel_free, bind, deref_channel. cbn. rewrite Hp.
    intros [= <-]. split_and!; [|done|].
    + split; cbn.
      * intros id' q Hq. apply lookup_delete_Some in Hq as [Hne Hq].
        destruct (H1 id' q Hq) as (ch' & Hch' & Hid'). exists ch'. split; [|done].
        rewrite lookup_delete_ne; [done|]. intros ->. rewrite Hp in Hch'. congruence.
      * intros q ch' Hq. apply lookup_delete_Some in Hq as [Hne Hq].
        change (delete id (chan_map w) !! ch_id ch' = Some q). rewrite lookup_delete_ne; [by apply H2|].
        intros ->. pose proof (H2 q ch' Hq) as Hx. unfold chan_map in Hx. congruence.
      * intros q ch' Hq. apply lookup_delete_Some in Hq as [_ Hq]. by eapply H3.
    + cbn. unfold chan_map. rewrite E. intros q [= <-]. apply lookup_delete_eq.
  - intros [= <-]. split_and!; [|done|].
    + split; cbn; [|intros q ch Hq|done].
      * intros id' q Hq. apply lookup_delete_Some in Hq as [_ Hq]. by apply H1.
      * change (delete id (chan_map w) !! ch_id ch = Some q).
        rewrite lookup_delete_ne; [by apply H2|]. intros ->. pose proof (H2 q ch Hq) as Hx. unfold chan_map in Hx. congruence.
    + unfold chan_map. rewrite E. done.
Qed.

Definition drop_old (o : option Z) (h : gmap Z mwChannel) : gmap Z mwChannel :=
  match o with Some p => delete p h | None => h end.

Lemma chan_map_insert_run id n w :
  (forall p, chan_map w !! id = Some p -> is_Some (w_channels w !! p)) ->
  exists w', chan_map_insert id n w = Some (tt, w')
    /\ w_session w' = set_s_chan_map (<[id := n]> (chan_map w)) (w_session w)
    /\ w_channels w' = drop_old (chan_map w !! id) (w_channels w)
    /\ w_next w' = w_next w /\ w_log w' = w_log w /\ w_services w' = w_services w
    /\ w_ciphers w' = w_ciphers w.
Proof.
  intros Hp. unfold chan_map_insert, mwChannel_find, bind, session_get, gets.
  unfold chan_map in *. destruct (s_chan_map (w_session w) !! id) as [p|]; [|by eexists].
  destruct (Hp p eq_refl) as [ch Hch]. unfold channel_free, bind, deref_channel. cbn. rewrite Hch.
  by eexists.
Qed.

Lemma channel_state_run p st ch w : w_channels w !! p = Some ch ->
  exists w', state p st w = Some (tt, w')
    /\ w_channels w' = <[p := set_ch_state st ch]> (w_channels w)
    /\ w_session w' = w_session w /\ w_next w' = w_next w /\ w_log w' = w_log w
    /\ w_services w' = w_services w /\ w_ciphers w' = w_ciphers w.
Proof.
  intros Hp. unfold state, mwChannel_getState, channel_get, bind. rewrite Hp. cbn.
  case_bool_decide as Hst.
  - eexists. split; [done|]. split_and!; try done. rewrite insert_id; [done|].
    rewrite Hp. f_equal. destruct ch. cbn in *. by rewrite Hst.
  - unfold channel_set. rewrite Hp. by eexists.
Qed.

(** A new channel; the channel it replaces is freed. *)
Lemma newIncoming_run id w : channels_wf w ->
  exists w', mwChannel_newIncoming id w = Some (w_next w, w')
    /\ w_session w' = set_s_chan_map (<[id := w_next w]> (chan_map w)) (w_session w)
    /\ w_channels w' = <[w_next w := set_ch_state mwChannel_WAIT (channel_new id)]>
                         (drop_old (chan_map w !! id) (w_channels w))
    /\ w_next w' = w_next w + 1 /\ w_log w' = w_log w /\ w_services w' = w_services w
    /\ w_ciphers w' = w_ciphers w.
Proof.
  intros [H1 H2 H3]. unfold mwChannel_newIncoming, alloc_channel, bind.
  set (w0 := set_w_next _ _). set (n := w_next w).
  destruct (chan_map_insert_run id n w0) as (w1 & -> & Hs & Hc & Hn & Hl & Hsv & Hci).
  { intros p Hp. destruct (H1 id p Hp) as (ch & Hch & _). cbn.
    rewrite lookup_insert_is_Some. destruct (decide (n = p)); [by left|right].
    split; [done|by eexists]. }
  assert (w_channels w1 !! n = Some (channel_new id)) as Hch.
  { rewrite Hc. change (chan_map w0) with (chan_map w). cbn.
    destruct (chan_map w !! id) as [p|] eqn:E; cbn; [|by rewrite lookup_insert_eq].
    rewrite lookup_delete_ne; [by rewrite lookup_insert_eq|]. intros ->.
    destruct (H1 id n E) as (ch & Hx & _). apply H3 in Hx. unfold n in Hx. lia. }
  destruct (channel_state_run n mwChannel_WAIT _ w1 Hch) as (w2 & -> & Hc2 & Hs2 & Hn2 & Hl2 & Hsv2 & Hci2).
  exists w2. split; [done|]. rewrite Hs2, Hs, Hn2, Hn, Hl2, Hl, Hsv2, Hsv, Hci2, Hci.
  split_and!; try done. rewrite Hc2, Hc. change (chan_map w0) with (chan_map w). cbn.
  destruct (chan_map w !! id) as [p|] eqn:E; cbn; [|by rewrite insert_insert_eq].
  assert (p <> n) as Hpn.
  { intros ->. destruct (H1 id n E) as (ch & Hx & _). apply H3 in Hx. unfold n in Hx. lia. }
  rewrite delete_insert_ne by done. by rewrite insert_insert_eq.
Qed.

Lemma wf_newIncoming id p w w' :
  channels_wf w -> mwChannel_newIncoming id w = Some (p, w') -> channels_wf w'.
Proof.
  intros Hwf. destruct (newIncoming_run id w Hwf) as (w1 & E & Hs & Hc & Hn & _). rewrite E.
  intros [= _ <-]. destruct Hwf as [H1 H2 H3]. set (n := w_next w) in *.
  assert (chan_map w1 = <[id := n]> (chan_map w)) as Ht by (unfold chan_map at 1; by rewrite Hs).
  split; rewrite ?Ht, ?Hc, ?Hn.
  - intros id' q Hq. apply lookup_insert_Some in Hq as [[<- <-]|[Hne Hq]].
    + rewrite lookup_insert_eq. by eexists.
    + destruct (H1 id' q Hq) as (ch & Hch & Hid). exists ch. split; [|done].
      assert (q <> n) by (intros ->; apply H3 in Hch; unfold n in Hch; lia).
      rewrite lookup_insert_ne by done. destruct (chan_map w !! id) as [p'|] eqn:E'; cbn; [|done].
      rewrite lookup_delete_ne; [done|]. intros ->. destruct (H1 id q E') as (ch' & Hch' & Hid').
      congruence.
  - intros q ch Hq. apply lookup_insert_Some in Hq as [[<- <-]|[Hne Hq]].
    + cbn. by rewrite lookup_insert_eq.
    + assert (w_channels w !! q = Some ch /\ chan_map w !! id <> Some q) as [Hq' Hold].
      { destruct (chan_map w !! id) as [p'|] eqn:E'; cbn in Hq; [|done].
        apply lookup_delete_Some in Hq as [Hne' Hq]. split; [done|congruence]. }
      rewrite lookup_insert_ne; [by apply H2|]. intros Hid. apply Hold. rewrite Hid. by apply H2.
  - intros q ch Hq. apply lookup_insert_Some in Hq as [[<- <-]|[Hne Hq]]; [unfold n; lia|].
    assert (w_channels w !! q = Some ch) as Hq'.
    { destruct (chan_map w !! id); cbn in Hq; [by apply lookup_delete_Some in Hq as [_ ?]|done]. }
    apply H3 in Hq'. unfold n. lia.
Qed.

#[export] Instance keeps_wf_frame : Frame keeps_wf.
Proof.
  split; unfold has, keeps_wf.
  - by intros A a w a' w' Hw [= <- <-].
  - intros A B m k Hm Hk w b w' Hw. unfold bind. destruct (m w) as [[a w1]|] eqn:E; [|done].
    intros Ek. eapply Hk; [|exact Ek]. by eapply Hm.
  - by intros A [a|] w a' w' Hw [= <- <-].
  - done.
  - by intros A f _ w a w' Hw [= <- <-].
  - intros f _ _ _ Hf w a w' Hw [= <- <-]. apply (wf_same w); try done. apply Hf.
  - intros p w a w' Hw. unfold deref_channel, lift. destruct (w_channels w !! p); [by intros [= <- <-]|done].
  - intros p w a w' Hw. unfold deref_service, lift. destruct (w_services w !! p); [by intros [= <- <-]|done].
  - intros p w a w' Hw. unfold deref_cipher, lift. destruct (w_ciphers w !! p); [by intros [= <- <-]|done].
  - intros A p f w a w' Hw. unfold channel_get, lift. destruct (w_channels w !! p); [by intros [= <- <-]|done].
  - intros p f Hf w [] w' Hw. by apply wf_channel_set.
  - intros p f w a w' Hw. unfold service_set. destruct (w_services w !! p); [|done]. intros [= <- <-]. by apply (wf_same w).
  - intros p f w a w' Hw. unfold cipher_set. destruct (w_ciphers w !! p); [|done]. intros [= <- <-]. by apply (wf_same w).
  - intros id w p w' Hw. by apply wf_newIncoming.
  - intros id w [] w' Hw E. by apply (wf_chan_map_remove id w w').
  - intros b r w a w' Hw [= <- <-]. by apply (wf_same w).
Qed.

#[export] Instance keeps_wf_heap : HeapFrame keeps_wf.
Proof.
  split; [apply _|..]; unfold has, keeps_wf.
  - intros p w a w' Hw. unfold deref_object, lift. destruct (w_heap w !! p); [by intros [= <- <-]|done].
  - intros p o w a w' Hw. unfold put_object. destruct (w_heap w !! p); [|done]. intros [= <- <-]. by apply (wf_same w).
  - intros o w a w' Hw [= <- <-]. apply (wf_same w); try done. cbn. lia.
  - intros p w a w' Hw. unfold free_object. destruct (w_heap w !! p); [|done]. intros [= <- <-]. by apply (wf_same w).
  - intros p o w a w' Hw [= <- <-]. by apply (wf_same w).
Qed.

#[export] Instance keeps_wf_full : FullFrame keeps_wf.
Proof.
  split; [apply _|..]; unfold has, keeps_wf.
  - intros st w a w' Hw [= <- <-]. by apply (wf_same w).
  - intros w a w' Hw [= <- <-]. by apply (wf_same w).
  - intros e w a w' Hw [= <- <-]. by apply (wf_same w).
Qed.

(** ** Whatever happens, the table and the heap agree *)

#[local] Hint Extern 0 (FullFrame _) => eassumption : mw_frame.
#[local] Hint Resolve fr_mwSession_stop fr_session_state : mw_frame.

(** A property of the library is one of every call of the client that does not
    concern the receive buffer. *)
Lemma full_call P E c : FullFrame P -> EnvFrame P E ->
  (forall b, has P (mwSession_recv E b)) -> has P (run_call E c).
Proof.
  intros FP EP Hrecv. destruct c; cbn [run_call];
    try (apply fr_bind; [|intros; apply fr_ret]).
  - unfold mwSession_start, mwSession_isStopped. frame.
  - by apply fr_mwSession_stop.
  - apply Hrecv.
  - unfold mwSession_forceLogin. frame.
  - frame.
  - unfold mwSession_sendKeepalive. frame.
  - unfold mwSession_sendAnnounce. frame.
  - unfold mwSession_setPrivacyInfo. frame.
  - unfold mwSession_setUserStatus. frame.
  - unfold mwSession_addService, mwSession_senseService. frame.
  - unfold mwSession_removeService. frame.
  - unfold mwSession_addCipher. frame.
  - frame.
  - frame.
  - frame.
  - frame.
  - frame.
Qed.

Lemma full_calls P E l : FullFrame P -> EnvFrame P E ->
  (forall b, has P (mwSession_recv E b)) -> has P (run_calls E l).
Proof.
  intros FP EP Hr. induction l as [|c l IH]; cbn [run_calls]; [apply fr_ret|].
  apply fr_bind; [by apply full_call|done].
Qed.

(** Input, one message after the other. *)
Definition step_keeps (I : world -> Prop) (w w' : world) : Prop := I w -> I w'.
#[export] Instance step_keeps_preorder I : PreOrder (step_keeps I).
Proof. split; [intros w; exact id|intros w1 w2 w3 H1 H2 Hw; exact (H2 (H1 Hw))]. Qed.

Lemma kept_recv (I : world -> Prop) E b : FullFrame (kept I) -> EnvFrame (kept I) E ->
  (forall r s, I s -> I (set_w_session (set_s_buf r (w_session s)) s)) -> has (kept I) (mwSession_recv E b).
Proof.
  intros FI EI Hb w a w' Hw. unfold mwSession_recv.
  destruct (@Framing.mwSession_recv world (session_owner E) b w) as [w1|] eqn:Er; [|done].
  intros [= _ <-]. revert Hw. change (step_keeps I w w1).
  apply (mwSession_recv_keeps (RO := session_owner E) (step_keeps I)) in Er; [done|..].
  - exact Hb.
  - intros m s s'. cbn. destruct (session_process E m s) as [[[] s1]|] eqn:Ep; [|done].
    intros [= <-] Hs. by apply (fr_session_process (kept I) E m s tt s1).
Qed.

Lemma wf_recv E b : EnvFrame keeps_wf E -> has keeps_wf (mwSession_recv E b).
Proof.
  intros EW. apply (kept_recv channels_wf E b); [exact keeps_wf_full|exact EW|].
  intros r s Hs. by apply (wf_same s).
Qed.

(** C3: whatever the client calls and whatever bytes the server sends, each id
    of the channel table leads to a live channel of that id, each live channel
    is in the table, once: none is lost and no entry dangles. *)
Theorem channels_wf_invariant E l w w' :
  EnvFrame keeps_wf E -> channels_wf w -> run_calls E l w = Some (tt, w') -> channels_wf w'.
Proof.
  intros EW Hw. apply (full_calls keeps_wf E l); [apply _|done| |done].
  intros b. by apply wf_recv.
Qed.

(** ** The ids of outgoing channels *)

(** The [k]th id that is tried. *)
Definition nth_id (counter : Z) (k : nat) : Z := u32 (counter + 1 + Z.of_nat k).

Lemma nth_id_next c k : nth_id (u32 (c + 1)) k = nth_id c (S k).
Proof.
  unfold nth_id, u32. replace ((c + 1) mod 2 ^ 32 + 1 + Z.of_nat k)
    with ((c + 1) mod 2 ^ 32 + (1 + Z.of_nat k)) by lia.
  rewrite Z.add_mod_idemp_l by lia. f_equal. lia.
Qed.

Lemma nth_id_inj c j k : Z.of_nat j < 2 ^ 32 -> Z.of_nat k < 2 ^ 32 ->
  nth_id c j = nth_id c k -> j = k.
Proof.
  unfold nth_id, u32. intros Hj Hk E.
  assert ((Z.of_nat j - Z.of_nat k) mod 2 ^ 32 = 0) as H.
  { replace (Z.of_nat j - Z.of_nat k) with ((c + 1 + Z.of_nat j) - (c + 1 + Z.of_nat k)) by lia.
    rewrite Zminus_mod, E, Z.sub_diag. done. }
  apply Z.mod_divide in H as [q Hq]; [|lia].
  assert (q = 0) by (destruct (Z.lt_trichotomy q 0) as [|[|]]; lia). lia.
Qed.

(** The first free id among those tried. *)
Definition first_free (m : gmap Z Z) (c : Z) (k : nat) : Prop :=
  (forall j, (j < k)%nat -> is_Some (m !! nth_id c j)) /\ m !! nth_id c k = None.

Lemma first_free_or_all m c n :
  (exists k, (k < n)%nat /\ first_free m c k) \/ (forall j, (j < n)%nat -> is_Some (m !! nth_id c j)).
Proof.
  induction n as [|n [(k & Hk & Hf)|IH]]; [right; lia|left; exists k; split; [lia|done]|].
  destruct (m !! nth_id c n) as [p|] eqn:E.
  - right. intros j Hj. destruct (decide (j = n)) as [->|]; [by eexists|apply IH; lia].
  - left. exists n. split; [lia|]. by split.
Qed.

(** One more id than there are channels: one is free. *)
Lemma first_free_exists m c : Z.of_nat (size m) < 2 ^ 32 ->
  exists k, (k <= size m)%nat /\ first_free m c k.
Proof.
  intros Hm. destruct (first_free_or_all m c (S (size m))) as [(k & Hk & Hf)|Hall].
  { exists k. split; [lia|done]. }
  exfalso. set (l := nth_id c <$> seq 0 (S (size m))).
  assert (NoDup l) as Hl.
  { apply NoDup_fmap_2_strong; [|apply NoDup_seq]. intros j k Hj Hk.
    apply elem_of_seq in Hj, Hk. apply nth_id_inj; lia. }
  assert (l ⊆ elements (dom m)) as Hsub.
  { intros id Hid. apply list_elem_of_fmap in Hid as (j & -> & Hj). apply elem_of_seq in Hj.
    apply elem_of_elements, elem_of_dom, Hall. lia. }
  apply (NoDup_submseteq _ _ Hl), submseteq_length in Hsub.
  unfold l in Hsub. rewrite length_fmap, length_seq in Hsub.
  change (length (elements (dom m))) with (size (dom m)) in Hsub. rewrite size_dom in Hsub. lia.
Qed.

Definition with_counter (c : Z) (w : world) : world :=
  set_w_session (set_s_chan_counter c (w_session w)) w.

Lemma next_id_run k fuel w :
  (k < fuel)%nat -> first_free (chan_map w) (s_chan_counter (w_session w)) k ->
  next_id fuel w = Some (nth_id (s_chan_counter (w_session w)) k,
                         with_counter (nth_id (s_chan_counter (w_session w)) k) w).
Proof.
  revert fuel w. induction k as [|k IH]; intros [|fuel] w Hf [Hall Hfree]; try lia;
    cbn [next_id]; unfold bind at 1; unfold session_set, modify.
  - unfold bind, session_get, gets, mwChannel_find. cbn.
    unfold nth_id in Hfree. rewrite Z.add_0_r in Hfree. unfold chan_map in Hfree. rewrite Hfree.
    unfold nth_id. by rewrite Z.add_0_r.
  - unfold bind, session_get, gets, mwChannel_find. cbn.
    destruct (Hall 0%nat) as [p Hp]; [lia|]. unfold nth_id in Hp. rewrite Z.add_0_r in Hp.
    unfold chan_map in Hp. rewrite Hp. set (w1 := set_w_session _ w).
    rewrite (IH fuel w1); [|lia|].
    + cbn. by rewrite nth_id_next.
    + cbn. split; [|by rewrite nth_id_next].
      intros j Hj. rewrite nth_id_next. apply Hall. lia.
Qed.

(** C36: a new outgoing channel gets an id that no channel has, the first free
    one after the counter; the loop that looks for it ends, and the channels
    there are stay as they were. *)
Theorem newOutgoing_fresh w :
  channels_wf w -> Z.of_nat (size (chan_map w)) < 2 ^ 32 ->
  exists id k w', id = nth_id (s_chan_counter (w_session w)) k
    /\ first_free (chan_map w) (s_chan_counter (w_session w)) k
    /\ mwChannel_newOutgoing w = Some (w_next w, w')
    /\ chan_map w' = <[id := w_next w]> (chan_map w)
    /\ w_channels w' = <[w_next w := set_ch_state mwChannel_INIT (channel_new id)]> (w_channels w)
    /\ s_chan_counter (w_session w') = id /\ w_log w' = w_log w.
Proof.
  intros Hwf Hsize. set (c := s_chan_counter (w_session w)).
  destruct (first_free_exists (chan_map w) c Hsize) as (k & Hk & Hf).
  exists (nth_id c k), k. unfold mwChannel_newOutgoing, bind at 1, session_get, gets.
  unfold bind at 1. rewrite (next_id_run k) by (done || (unfold chan_map in *; lia)).
  fold c. set (w1 := with_counter _ w).
  destruct (newIncoming_run (nth_id c k) w1) as (w2 & E2 & Hs & Hc & Hn & Hl & _); [by apply (wf_same w)|].
  unfold bind at 1. rewrite E2. unfold bind at 1.
  replace (drop_old _ _) with (w_channels w) in Hc
    by (change (chan_map w1) with (chan_map w); by rewrite (proj2 Hf)).
  destruct (channel_state_run (w_next w) mwChannel_INIT
    (set_ch_state mwChannel_WAIT (channel_new (nth_id c k))) w2) as (w3 & E3 & Hc3 & Hs3 & Hn3 & Hl3 & _).
  { rewrite Hc. apply lookup_insert_eq. }
  change (w_next w1) with (w_next w). rewrite E3. exists w3. unfold ret.
  split_and!; [done|done|done| | | |].
  - unfold chan_map at 1. by rewrite Hs3, Hs.
  - rewrite Hc3, Hc. change (w_next w1) with (w_next w). by rewrite insert_insert_eq.
  - by rewrite Hs3, Hs.
  - by rewrite Hl3, Hl.
Qed.

(** ** Sending before the channel is open *)

Definition with_channel (p : Z) (ch : mwChannel) (w : world) : world :=
  set_w_channels (<[p := ch]> (w_channels w)) w.
Definition with_log (es : list event) (w : world) : world := set_w_log (w_log w ++ es) w.
Lemma with_log_nil w : with_log [] w = w.
Proof. unfold with_log. rewrite app_nil_r. by destruct w. Qed.

(** The writes of the session handler only return a result. *)
Definition pure_writes (E : Env) (r : list Z -> Z) : Prop :=
  forall b w, e_io_write E b w = Some (r b, w).

Definition send_msg (id options type : Z) (d : mwOpaque) : mwMessage := {|
  msg_head := {| mh_type := mwMessageType_code mwMessage_CHANNEL_SEND; mh_options := options;
                 mh_channel := id; mh_attribs := opaque_zero |};
  msg_body := CHANNEL_SEND {| cs_type := type; cs_data := d |} |}.

(** The message of a call of [mwChannel_sendEncrypted], and the cipher after it. *)
Definition prepared (cs : gmap Z mwCipher) (id : Z) (ci : option mwCipherInstance)
    (type : Z) (d : option mwOpaque) (encrypt : bool) : option (option mwCipherInstance * mwMessage) :=
  d ← mwOpaque_clone d;
  match ci with
  | Some i =>
      if encrypt then
        c ← cs !! ci_cipher i;
        p ← mwEncryptExpanded (sending_key c i) (ci_outgoing_iv i) d;
        Some (Some (set_ci_outgoing_iv p.2 i), send_msg id mwMessageOption_ENCRYPT type p.1)
      else Some (ci, send_msg id 0 type d)
  | None => Some (ci, send_msg id 0 type d)
  end.

(** A copy is of the bytes. *)
Lemma clone_data o : opaque_ok o -> mwOpaque_clone (Some o) = Some (opaque_of (opaque_data o)).
Proof.
  intros Ho. pose proof (opaque_ok_len o Ho) as Hl. unfold mwOpaque_clone, opaque_of. rewrite Hl.
  destruct (len o =? 0); [done|]. by rewrite (opaque_ok_data o Ho).
Qed.

Lemma with_channel_same p ch w : w_channels w !! p = Some ch -> with_channel p ch w = w.
Proof. intros H. unfold with_channel. rewrite insert_id by done. by destruct w. Qed.

Lemma set_cipher_same ch : set_ch_cipher (ch_cipher ch) ch = ch.
Proof. by destruct ch. Qed.

Lemma wf_with_channel p ch ch' w : w_channels w !! p = Some ch -> ch_id ch' = ch_id ch ->
  channels_wf w -> channels_wf (with_channel p ch' w).
Proof.
  intros Hp Hid [H1 H2 H3]. split; cbn.
  - intros id q Hq. destruct (H1 id q Hq) as (c & Hc & <-). destruct (decide (q = p)) as [->|].
    + exists ch'. rewrite lookup_insert_eq. split; [done|]. congruence.
    + exists c. by rewrite lookup_insert_ne.
  - intros q c Hq. apply lookup_insert_Some in Hq as [[<- <-]|[_ Hq]]; [|by apply H2].
    rewrite Hid. by apply H2.
  - intros q c Hq. apply lookup_insert_Some in Hq as [[<- _]|[_ Hq]]; by eapply H3.
Qed.

Lemma sendEncrypted_run E p ch t d e w : w_channels w !! p = Some ch ->
  mwChannel_sendEncrypted E p t d e w =
  ('(ci, m) ← prepared (w_ciphers w) (ch_id ch) (ch_cipher ch) t d e;
   channel_send E p m (with_channel p (set_ch_cipher ci ch) w)).
Proof.
  intros Hp. unfold mwChannel_sendEncrypted, bind at 1, deref_channel. rewrite Hp.
  unfold prepared. cbn [lift]. unfold bind at 1, lift.
  destruct (mwOpaque_clone d) as [d'|]; cbn [mbind option_bind]; [|done].
  destruct (ch_cipher ch) as [i|] eqn:Ei.
  - destruct e; cbn [mbind option_bind].
    + unfold bind at 1. destruct (w_ciphers w !! ci_cipher i) as [c|] eqn:Ec.
      * rewrite (encrypt_step c i d' w Ec). cbn [mbind option_bind].
        destruct (mwEncryptExpanded _ _ d') as [[o iv]|]; cbn [mbind option_bind fst snd]; [|done].
        unfold bind at 1, channel_set. rewrite Hp. reflexivity.
      * unfold mwCipherInstance_encrypt, bind, deref_cipher. rewrite Ec. reflexivity.
    + rewrite <- Ei, set_cipher_same, with_channel_same by done. reflexivity.
  - cbn [mbind option_bind]. rewrite <- Ei, set_cipher_same, with_channel_same by done. reflexivity.
Qed.

Definition is_send (m : mwMessage) : Prop :=
  mh_type (msg_head m) = mwMessageType_code mwMessage_CHANNEL_SEND.

Lemma prepared_send cs id ci t d e ci' m : prepared cs id ci t d e = Some (ci', m) -> is_send m.
Proof.
  unfold prepared. destruct (mwOpaque_clone d) as [d'|]; cbn [mbind option_bind]; [|done].
  destruct ci as [i|]; [|by intros [= <- <-]]. destruct e; [|by intros [= <- <-]].
  destruct (cs !! ci_cipher i) as [c|]; cbn [mbind option_bind]; [|done].
  destruct (mwEncryptExpanded _ _ _); cbn [mbind option_bind]; [by intros [= <- <-]|done].
Qed.

Lemma session_send_run E r m w : pure_writes E r -> is_send m ->
  mwSession_send E (Some m) w = (b ← render m; Some (r b, with_log [EvWrite b (r b)] w)).
Proof.
  intros Hr Hm. unfold mwSession_send, bind at 1, lift.
  destruct (render m) as [b|]; cbn [mbind option_bind]; [|done].
  unfold io_write, bind. rewrite Hr. unfold log, modify, ret. cbn.
  rewrite Hm. cbn. by destruct (r b =? 0).
Qed.

#[local] Arguments render : simpl never.
#[local] Arguments prepared : simpl never.

Section sends.
Context (E : Env) (r : list Z -> Z) (Hr : pure_writes E r).

(** A call: the type, the data, whether to encrypt. *)
Definition send_args : Type := Z * option mwOpaque * bool.

Definition sends (p : Z) (l : list send_args) : M unit :=
  for_each (fun x => mwChannel_sendEncrypted E p x.1.1 x.1.2 x.2 ;; ret tt) l.

Fixpoint prepared_all (cs : gmap Z mwCipher) (id : Z) (ci : option mwCipherInstance)
    (l : list send_args) : option (option mwCipherInstance * list mwMessage) :=
  match l with
  | [] => Some (ci, [])
  | (t, d, e) :: l =>
      '(ci, m) ← prepared cs id ci t d e;
      '(ci, ms) ← prepared_all cs id ci l;
      Some (ci, m :: ms)
  end.

Definition written (m : mwMessage) : option event := b ← render m; Some (EvWrite b (r b)).

#[local] Arguments written : simpl never.

Fixpoint written_all (ms : list mwMessage) : option (list event) :=
  match ms with
  | [] => Some []
  | m :: ms => e ← written m; es ← written_all ms; Some (e :: es)
  end.

Lemma written_all_app q ms :
  written_all (q ++ ms) = (e1 ← written_all q; e2 ← written_all ms; Some (e1 ++ e2)).
Proof.
  induction q as [|m q IH]; cbn; [by destruct (written_all ms)|].
  destruct (written m); cbn [mbind option_bind]; [|done]. rewrite IH.
  destruct (written_all q); cbn [mbind option_bind]; [|done]. by destruct (written_all ms).
Qed.

Lemma prepared_all_send cs id ci l ci' ms :
  prepared_all cs id ci l = Some (ci', ms) -> Forall is_send ms.
Proof.
  revert ci ms. induction l as [|[[t d] e] l IH]; intros ci ms; cbn; [by intros [= <- <-]|].
  destruct (prepared cs id ci t d e) as [[ci1 m]|] eqn:Ep; cbn; [|done].
  destruct (prepared_all cs id ci1 l) as [[ci2 ms2]|] eqn:Ea; cbn; [|done].
  intros [= <- <-]. constructor; [by eapply prepared_send|by eapply IH].
Qed.

Lemma with_channel_twice p ch ch' w : with_channel p ch (with_channel p ch' w) = with_channel p ch w.
Proof. unfold with_channel. cbn. by rewrite insert_insert_eq. Qed.

Lemma with_log_twice es es' w : with_log es' (with_log es w) = with_log (es ++ es') w.
Proof. unfold with_log. cbn. by rewrite app_assoc. Qed.

(** What is sent on a channel that is not open waits. *)
Lemma sends_waiting p l ch w : w_channels w !! p = Some ch -> ch_state ch <> mwChannel_OPEN ->
  sends p l w =
  ('(ci, ms) ← prepared_all (w_ciphers w) (ch_id ch) (ch_cipher ch) l;
   Some (tt, with_channel p (set_ch_outgoing_queue (ch_outgoing_queue ch ++ ms) (set_ch_cipher ci ch)) w)).
Proof.
  revert ch w. induction l as [|[[t d] e] l IH]; intros ch w Hp Hst.
  { cbn. rewrite app_nil_r. rewrite with_channel_same; [done|]. rewrite Hp. by destruct ch. }
  cbn [sends for_each prepared_all fst snd]. unfold bind at 1 2. rewrite (sendEncrypted_run E p ch) by done.
  destruct (prepared _ _ _ t d e) as [[ci m]|]; cbn [mbind option_bind]; [|done].
  set (ch1 := set_ch_cipher ci ch). set (w1 := with_channel p ch1 w).
  assert (w_channels w1 !! p = Some ch1) as Hp1 by apply lookup_insert_eq.
  unfold channel_send, mwChannel_getState, channel_get, bind at 1. rewrite Hp1. cbn [fmap option_fmap option_map lift].
  rewrite bool_decide_false by done. unfold queue_outgoing, channel_set, bind at 1. rewrite Hp1.
  cbn [ret]. fold (sends p l).
  set (ch2 := set_ch_outgoing_queue _ ch1).
  etrans; [apply (IH ch2); [apply lookup_insert_eq|done]|].
  change (w_ciphers (with_channel p ch2 w1)) with (w_ciphers w).
  change (ch_id ch2) with (ch_id ch). change (ch_cipher ch2) with ci.
  destruct (prepared_all _ _ ci l) as [[ci' ms]|]; cbn [mbind option_bind]; [|done].
  unfold w1, with_channel, ch2, ch1, set_w_channels, set_ch_outgoing_queue, set_ch_cipher. cbn.
  by rewrite !insert_insert_eq, <- app_assoc.
Qed.

(** One message on an open channel. *)
Lemma mwChannel_send_open p ch t d w ci m e : w_channels w !! p = Some ch -> ch_state ch = mwChannel_OPEN ->
  prepared (w_ciphers w) (ch_id ch) (ch_cipher ch) t d true = Some (ci, m) -> written m = Some e ->
  exists b, e = EvWrite b (r b)
    /\ mwChannel_send E p t d w = Some (r b, with_log [e] (with_channel p (set_ch_cipher ci ch) w)).
Proof.
  intros Hp Hst Hm Hw. unfold mwChannel_send. rewrite (sendEncrypted_run E p ch) by done. rewrite Hm.
  cbn [mbind option_bind]. set (ch1 := set_ch_cipher ci ch). set (w1 := with_channel p ch1 w).
  assert (w_channels w1 !! p = Some ch1) as Hp1 by apply lookup_insert_eq.
  unfold channel_send, mwChannel_getState, channel_get, bind at 1. rewrite Hp1. cbn [fmap option_fmap option_map lift].
  rewrite bool_decide_true by done. rewrite (session_send_run E r) by (done || by eapply prepared_send).
  unfold written in Hw. destruct (render m) as [b|]; cbn [mbind option_bind] in *; [|done].
  injection Hw as <-. by exists b.
Qed.

(** What is sent on an open channel is written. *)
Lemma sends_open p l ch w : w_channels w !! p = Some ch -> ch_state ch = mwChannel_OPEN ->
  sends p l w =
  ('(ci, ms) ← prepared_all (w_ciphers w) (ch_id ch) (ch_cipher ch) l;
   es ← written_all ms;
   Some (tt, with_log es (with_channel p (set_ch_cipher ci ch) w))).
Proof.
  revert ch w. induction l as [|[[t d] e] l IH]; intros ch w Hp Hst.
  { cbn. rewrite with_channel_same by by rewrite set_cipher_same. unfold with_log. rewrite app_nil_r. by destruct w. }
  cbn [sends for_each prepared_all fst snd]. unfold bind at 1 2. rewrite (sendEncrypted_run E p ch) by done.
  destruct (prepared _ _ _ t d e) as [[ci m]|] eqn:Ep; cbn [mbind option_bind]; [|done].
  set (ch1 := set_ch_cipher ci ch). set (w1 := with_channel p ch1 w).
  assert (w_channels w1 !! p = Some ch1) as Hp1 by apply lookup_insert_eq.
  unfold channel_send, mwChannel_getState, channel_get, bind at 1. rewrite Hp1. cbn [fmap option_fmap option_map lift].
  rewrite bool_decide_true by done. rewrite (session_send_run E r) by (done || by eapply prepared_send).
  destruct (prepared_all _ _ ci l) as [[ci' ms]|] eqn:Ea; cbn [mbind option_bind].
  - cbn [written_all]. unfold written at 1. destruct (render m) as [b|]; cbn [mbind option_bind]; [|done].
    cbn [ret]. fold (sends p l). rewrite (IH ch1); [|exact Hp1|done].
    change (w_ciphers (with_log _ w1)) with (w_ciphers w). change (ch_id ch1) with (ch_id ch).
    change (ch_cipher ch1) with ci. rewrite Ea. cbn [mbind option_bind].
    destruct (written_all ms) as [es|]; cbn [mbind option_bind]; [|done].
    unfold with_log, with_channel, w1, ch1. cbn. by rewrite insert_insert_eq, <- app_assoc.
  - destruct (render m) as [b|]; cbn [mbind option_bind]; [|done].
    cbn [ret]. fold (sends p l). rewrite (IH ch1); [|exact Hp1|done].
    change (w_ciphers (with_log _ w1)) with (w_ciphers w). change (ch_id ch1) with (ch_id ch).
    change (ch_cipher ch1) with ci. by rewrite Ea.
Qed.

Definition opened (ch : mwChannel) : mwChannel :=
  set_ch_outgoing_queue [] (set_ch_incoming_queue []
    (set_ch_stats (<[stat_key mwChannelStat_OPENED_AT := e_time E]> (ch_stats ch))
      (set_ch_state mwChannel_OPEN ch))).

Lemma flush_outgoing p q w : is_Some (w_channels w !! p) -> Forall is_send q ->
  for_each (fun m => mwSession_send E (Some m) ;; deref_channel p ;; ret tt) q w =
  (es ← written_all q; Some (tt, with_log es w)).
Proof.
  intros [ch Hp] Hq. revert w Hp. induction Hq as [|m q Hm _ IH]; intros w Hp.
  { cbn. unfold with_log. rewrite app_nil_r. by destruct w. }
  cbn [for_each written_all]. unfold bind at 1 2. rewrite (session_send_run E r) by done.
  unfold written at 1. destruct (render m) as [b|]; cbn [mbind option_bind]; [|done].
  set (w1 := with_log _ w). unfold bind at 1, deref_channel.
  change (w_channels w1) with (w_channels w). rewrite Hp. cbn [lift ret].
  etrans; [by apply IH|].
  destruct (written_all q) as [es|]; cbn [mbind option_bind]; [|done].
  unfold w1. by rewrite with_log_twice.
Qed.

Lemma channel_set_run p f ch w :
  w_channels w !! p = Some ch -> channel_set p f w = Some (tt, with_channel p (f ch) w).
Proof. intros H. unfold channel_set. by rewrite H. Qed.

Lemma channel_get_run {A} p (f : mwChannel -> A) ch w :
  w_channels w !! p = Some ch -> channel_get p f w = Some (f ch, w).
Proof. intros H. unfold channel_get. by rewrite H. Qed.

Lemma with_channel_lookup p ch w : w_channels (with_channel p ch w) !! p = Some ch.
Proof. apply lookup_insert_eq. Qed.

Lemma state_run p st ch w : w_channels w !! p = Some ch -> ch_state ch <> st ->
  state p st w = Some (tt, with_channel p (set_ch_state st ch) w).
Proof.
  intros Hp Hst. unfold state, mwChannel_getState.
  rewrite (bind_run _ _ _ _ _ (channel_get_run p _ ch w Hp)), bool_decide_false by done.
  by apply channel_set_run.
Qed.

Lemma channel_open_run p ch w : w_channels w !! p = Some ch -> ch_state ch <> mwChannel_OPEN ->
  ch_incoming_queue ch = [] -> Forall is_send (ch_outgoing_queue ch) ->
  channel_open E p w =
  (es ← written_all (ch_outgoing_queue ch); Some (tt, with_log es (with_channel p (opened ch) w))).
Proof.
  intros Hp Hst Hin Hout. unfold channel_open.
  rewrite (bind_run _ _ _ _ _ (state_run p _ ch w Hp Hst)). unfold set_stat.
  erewrite bind_run by apply channel_set_run, with_channel_lookup. rewrite with_channel_twice.
  unfold flush_channel. erewrite bind_run by apply channel_get_run, with_channel_lookup.
  cbn [ch_incoming_queue set_ch_stats set_ch_state]. rewrite Hin.
  erewrite bind_run by reflexivity.
  erewrite bind_run by apply channel_set_run, with_channel_lookup. rewrite with_channel_twice.
  erewrite bind_run by apply channel_get_run, with_channel_lookup.
  cbn [ch_outgoing_queue set_ch_incoming_queue set_ch_stats set_ch_state].
  unfold bind at 1. rewrite flush_outgoing by (done || (rewrite with_channel_lookup; by eexists)).
  destruct (written_all _) as [es|]; cbn [mbind option_bind]; [|done].
  erewrite channel_set_run by (cbn; apply lookup_insert_eq).
  unfold with_log, with_channel. cbn. by rewrite insert_insert_eq.
Qed.

(** C35: opening a channel is transparent to the sender: what was sent before,
    encrypted or not, goes out when the channel opens as if it had been sent
    then, in the order of the calls, and the channel is left the same. *)
Theorem sends_before_open p l ch w :
  w_channels w !! p = Some ch -> ch_state ch <> mwChannel_OPEN ->
  ch_incoming_queue ch = [] -> Forall is_send (ch_outgoing_queue ch) ->
  (sends p l ;; channel_open E p) w = (channel_open E p ;; sends p l) w.
Proof.
  intros Hp Hst Hin Hout. unfold bind at 1 2. rewrite (sends_waiting p l ch) by done.
  rewrite (channel_open_run p ch) by done.
  destruct (prepared_all _ _ _ l) as [[ci ms]|] eqn:Ea; cbn [mbind option_bind].
  - set (ch1 := set_ch_outgoing_queue _ _).
    rewrite (channel_open_run p ch1); [|apply lookup_insert_eq|done|done|].
    2:{ apply Forall_app. split; [done|by eapply prepared_all_send]. }
    change (ch_outgoing_queue ch1) with (ch_outgoing_queue ch ++ ms). rewrite written_all_app.
    destruct (written_all (ch_outgoing_queue ch)) as [es|]; cbn [mbind option_bind]; [|done].
    rewrite (sends_open p l (opened ch)); [|apply lookup_insert_eq|done].
    change (w_ciphers (with_log _ _)) with (w_ciphers w). change (ch_id (opened ch)) with (ch_id ch).
    change (ch_cipher (opened ch)) with (ch_cipher ch). rewrite Ea. cbn [mbind option_bind].
    destruct (written_all ms) as [es'|]; cbn [mbind option_bind]; [|done].
    unfold with_log, with_channel. cbn. by rewrite !insert_insert_eq, app_assoc.
  - destruct (written_all _) as [es|]; cbn [mbind option_bind]; [|done].
    rewrite (sends_open p l (opened ch)); [|apply lookup_insert_eq|done].
    change (w_ciphers (with_log _ _)) with (w_ciphers w). change (ch_id (opened ch)) with (ch_id ch).
    change (ch_cipher (opened ch)) with (ch_cipher ch). by rewrite Ea.
Qed.
End sends.

(** ** Witnesses *)

(** A session with the channel 1 at the address 1, a service at 4, and RC2/40
    with its key expanded at 2. *)
Definition chan_40 (st : mwChannelState) : mwChannel :=
  set_ch_cipher (Some (alloc_instance 2 1)) (set_ch_state st (channel_new 1)).
Definition service_4 : mwService :=
  {| sv_type := 0; sv_state := mwServiceState_STARTED; sv_session := true |}.
Definition one_channel (ch : mwChannel) : world := {|
  w_session := set_s_services {[0 := 4]} (set_s_chan_map {[1 := 1]} (session_of None));
  w_channels := {[1 := ch]}; w_services := {[4 := service_4]};
  w_ciphers := {[2 := cipher_40 (replicate 64 0) true]}; w_heap := ∅; w_next := 5; w_log := [] |}.

Lemma one_channel_wf ch : ch_id ch = 1 -> channels_wf (one_channel ch).
Proof.
  intros Hid. split; cbn.
  - intros id p H. apply lookup_singleton_Some in H as [<- <-]. exists ch. by rewrite lookup_singleton_eq.
  - intros p c H. apply lookup_singleton_Some in H as [<- <-]. rewrite Hid. apply lookup_singleton_eq.
  - intros p c H. apply lookup_singleton_Some in H as [<- _]. done.
Qed.

Lemma client_world_wf : channels_wf client_world.
Proof.
  assert (w_channels client_world = ∅ /\ chan_map client_world = ∅) as [Hh Ht]
    by (vm_compute; split; reflexivity).
  split; rewrite ?Hh, ?Ht; intros ? ? H; by rewrite lookup_empty in H.
Qed.

(** Two new channels, the first destroyed by the client and the second by the
    server, and one created by the server. *)
Definition channel_calls : list call :=
  [CallNewChannel; CallNewChannel; CallDestroy 2 0 None;
   CallRecv [0; 0; 0; 16; 0; 3; 0; 0; 0; 0; 0; 2; 0; 0; 0; 0; 0; 0; 0; 0]].
Definition after_channel_calls : world :=
  match run_calls (quiet_env 0) channel_calls client_world with Some (_, w) => w | None => client_world end.

Lemma channels_wf_invariant_witness : channels_wf after_channel_calls /\ w_channels after_channel_calls = ∅.
Proof.
  split; [|vm_compute; reflexivity].
  apply (channels_wf_invariant (quiet_env 0) channel_calls client_world).
  - apply quiet_env_frame, _.
  - apply client_world_wf.
  - vm_compute. reflexivity.
Defined.

Lemma newOutgoing_fresh_witness :
  exists id k w', id = nth_id 0 k /\ first_free {[1 := 1]} 0 k
    /\ mwChannel_newOutgoing (one_channel (chan_40 mwChannel_OPEN)) = Some (5, w')
    /\ chan_map w' = <[id := 5]> {[1 := 1]}
    /\ w_channels w' = <[5 := set_ch_state mwChannel_INIT (channel_new id)]> {[1 := chan_40 mwChannel_OPEN]}
    /\ s_chan_counter (w_session w') = id /\ w_log w' = [].
Proof.
  apply (newOutgoing_fresh (one_channel (chan_40 mwChannel_OPEN))); [by apply one_channel_wf|done].
Defined.

Lemma sends_before_open_witness :
  let l := [((1, Some abc), true); ((2, None), false)] in
  let w := one_channel (chan_40 mwChannel_WAIT) in
  (sends (quiet_env 0) 1 l ;; channel_open (quiet_env 0) 1) w
  = (channel_open (quiet_env 0) 1 ;; sends (quiet_env 0) 1 l) w.
Proof.
  cbv zeta. apply (sends_before_open (quiet_env 0) (fun _ => 0)) with (ch := chan_40 mwChannel_WAIT);
    [done|done|done|done|constructor].
Defined.

(** ** Concrete worlds *)

Definition world_after {A} (m : M A) (w : world) : world :=
  match m w with Some (_, w') => w' | None => w end.

Definition open_channel : mwChannel := set_ch_state mwChannel_OPEN (channel_new 1).
