(* ===== verification/Secure.v ===== *)
(** * Encrypted channels, end to end

    Two clients with a channel open between them, whose ciphers are in step:
    what the one sends, the service of the other is given, and the ciphers are
    in step again. *)

From S2P Require Import Prelude Buffer Common Message Framing World Rc2 Cipher Service Session.
From S2P Require Import Channel Dispatch Frame Delivery Protocol ChannelSpec.
#[local] Open Scope Z_scope.
#[local] Open Scope mw_scope.

(** ** Opaques by their bytes *)

(** The two have the same length and bytes, wherever these are. *)
Definition same_bytes (o o' : mwOpaque) : Prop := len o = len o' /\ opaque_bytes o = opaque_bytes o'.

#[export] Instance same_bytes_equiv : Equivalence same_bytes.
Proof.
  split; [by intros o|intros o o' [Hl Hb]; by split|].
  intros o1 o2 o3 [Hl Hb] [Hl' Hb']. split; congruence.
Qed.
#[export] Instance len_proper : Proper (same_bytes ==> eq) len.
Proof. by intros o o' [H _]. Qed.
#[export] Instance opaque_data_proper : Proper (same_bytes ==> eq) opaque_data.
Proof. intros o o' [_ H]. unfold opaque_data. by rewrite H. Qed.
#[export] Instance opaque_ok_proper : Proper (same_bytes ==> iff) opaque_ok.
Proof. intros o o' [Hl Hb]. unfold opaque_ok. by rewrite Hl, Hb. Qed.
#[export] Instance mwDecryptExpanded_proper K iv : Proper (same_bytes ==> eq) (mwDecryptExpanded K iv).
Proof. intros o o' [Hl Hb]. unfold mwDecryptExpanded. by rewrite Hl, Hb. Qed.
#[export] Instance mwEncryptExpanded_proper K iv : Proper (same_bytes ==> eq) (mwEncryptExpanded K iv).
Proof. intros o o' [Hl Hb]. unfold mwEncryptExpanded. by rewrite Hl, Hb. Qed.

Lemma same_bytes_norm o : opaque_ok o -> same_bytes (mwOpaque_norm o) o.
Proof.
  intros Ho. destruct (opaque_of_data (opaque_data o)) as (Ho' & Hd & Hl). unfold mwOpaque_norm. split.
  - by rewrite Hl, opaque_ok_len.
  - by rewrite (opaque_ok_data _ Ho'), (opaque_ok_data _ Ho), Hd.
Qed.

Lemma clone_same_bytes o : opaque_ok o ->
  exists o', mwOpaque_clone (Some o) = Some o' /\ same_bytes o' o.
Proof.
  intros Ho. pose proof (opaque_ok_len o Ho) as Hl. pose proof (opaque_ok_data o Ho) as Hd.
  unfold mwOpaque_clone. destruct (Z.eqb_spec (len o) 0) as [H0|H0].
  - exists opaque_zero. split; [done|]. split; [done|]. unfold opaque_bytes. by rewrite H0.
  - rewrite Hd. cbn [mbind option_bind]. eexists. split; [done|]. split; [done|]. rewrite Hd.
    rewrite <- Hl. destruct (block_opaque (opaque_data o)) as [Hb Hbd].
    by rewrite (opaque_ok_data _ Hb), Hbd.
Qed.

Lemma plain_ok_same o o' : same_bytes o o' -> plain_ok o -> plain_ok o'.
Proof. intros Hs. unfold plain_ok. by rewrite Hs. Qed.

(** ** The two ends *)

(** The ends [p1] and [p2] are open, and what the cipher of [p1] encrypts next
    the cipher of [p2] decrypts next. *)
Record in_step (w1 : world) (p1 : Z) (w2 : world) (p2 : Z) : Prop := {
  step_ends : exists ch1 ch2 ci1 ci2 c1 c2,
    w_channels w1 !! p1 = Some ch1 /\ w_channels w2 !! p2 = Some ch2
    /\ ch_state ch1 = mwChannel_OPEN /\ ch_state ch2 = mwChannel_OPEN
    /\ ch_cipher ch1 = Some ci1 /\ ch_cipher ch2 = Some ci2
    /\ w_ciphers w1 !! ci_cipher ci1 = Some c1 /\ w_ciphers w2 !! ci_cipher ci2 = Some c2
    /\ ci_key ci2 = sending_key c1 ci1
    /\ is_block (ci_outgoing_iv ci1) /\ ci_incoming_iv ci2 = ci_outgoing_iv ci1
}.

(** The message as it arrives: parsed, on the channel of the other end. *)
Definition arrived (m : mwMessage) (id : Z) : mwMessage :=
  let n := mwMessage_norm m in
  {| msg_head := {| mh_type := mh_type (msg_head n); mh_options := mh_options (msg_head n);
                    mh_channel := id; mh_attribs := mh_attribs (msg_head n) |};
     msg_body := msg_body n |}.

Lemma encrypted_len K iv d e iv' : mwEncryptExpanded K iv d = Some (e, iv') ->
  len e = len d + (8 - len d mod 8).
Proof.
  unfold mwEncryptExpanded. destruct (int_max <? _); [done|].
  destruct (opaque_bytes d) as [i|]; cbn [mbind option_bind]; [|done].
  destruct (enc_blocks _ _ _ _); cbn [mbind option_bind]; [|done]. by intros [= <- _].
Qed.

Lemma decrypted_ok K iv e r : 0 <= len e -> mwDecryptExpanded K iv e = Some r -> opaque_ok e.
Proof.
  intros Hl. unfold mwDecryptExpanded. destruct (int_max <? len e); [done|].
  destruct (opaque_bytes e) as [i|] eqn:Eb; cbn [mbind option_bind]; [|done].
  intros _. split; [done|]. rewrite Eb. by eexists.
Qed.

(** One message through the two ciphers. *)
Lemma step_cipher K iv d : is_block iv -> plain_ok d ->
  exists e iv' d', mwEncryptExpanded K iv d = Some (e, iv')
    /\ (forall e', same_bytes e' e -> mwDecryptExpanded K iv e' = Some (d', iv'))
    /\ is_block iv' /\ opaque_ok e /\ 0 < len e <= len d + 8
    /\ opaque_ok d' /\ opaque_data d' = opaque_data d.
Proof.
  intros Hiv (Ho & Hb & Hl).
  destruct (decrypt_encrypt_expanded K iv d Ho Hb Hiv Hl) as (e & iv' & d' & He & Hd & Hiv' & Hok & Hdd).
  exists e, iv', d'. pose proof (encrypted_len _ _ _ _ _ He) as Hle.
  pose proof (Z.mod_pos_bound (len d) 8). pose proof (opaque_ok_len d Ho). pose proof (zlen_nonneg (opaque_data d)).
  split_and!; try done; [|eapply decrypted_ok, Hd; lia|lia..].
  intros e' Hs. by rewrite Hs.
Qed.

Lemma send_msg_sendable id options type e :
  is_u32 id -> is_u16 options -> MW_MESSAGE_HAS_OPTION options mwMessageOption_HAS_ATTRIBS = false ->
  is_u16 type -> opaque_ok e -> len e < 2 ^ 30 -> sendable (send_msg id options type e).
Proof.
  intros Hid Hop Hna Ht He Hl. pose proof (opaque_ok_len e He) as Hle.
  pose proof (zlen_nonneg (opaque_data e)).
  assert (zlen (mwMessage_enc (send_msg id options type e)) = 14 + len e) as Hz.
  { unfold mwMessage_enc, head_enc, has_attribs. cbn [msg_head msg_body send_msg mh_type mh_options mh_channel].
    rewrite Hna. cbn [body_read body_trail cs_type cs_data]. unfold mwOpaque_enc.
    autorewrite with mw_len. rewrite !MW16_PUT_len, !MW32_PUT_len. lia. }
  split; [|rewrite Hz; lia]. split_and!; [done| | |rewrite Hz; unfold is_u32; lia].
  - split_and!; [done|done|done|]. unfold has_attribs. cbn. by rewrite Hna.
  - split; [done|]. split; [done|]. unfold is_u32. cbn. lia.
Qed.

Lemma incr_stat_run p f n ch w : w_channels w !! p = Some ch ->
  incr_stat p f n w = Some (tt, with_channel p
    (set_ch_stats (<[stat_key f := default 0 (ch_stats ch !! stat_key f) + n]> (ch_stats ch)) ch) w).
Proof.
  intros Hp. unfold incr_stat, get_stat, set_stat.
  erewrite bind_run by by apply channel_get_run. by rewrite (channel_set_run p _ ch).
Qed.

Lemma getService_run p ch w : w_channels w !! p = Some ch ->
  mwChannel_getService p w = Some (s_services (w_session w) !! u32 (ch_service ch), w).
Proof. intros Hp. unfold mwChannel_getService. by erewrite bind_run by by apply channel_get_run. Qed.

(** What an open channel does with an encrypted message. *)
Lemma channel_recv_run E p ch ci c head t e d' iv' w :
  w_channels w !! p = Some ch -> ch_cipher ch = Some ci -> w_ciphers w !! ci_cipher ci = Some c ->
  MW_MESSAGE_HAS_OPTION (mh_options head) mwMessageOption_ENCRYPT = true -> opaque_ok e ->
  (forall e', same_bytes e' e -> mwDecryptExpanded (ci_key ci) (ci_incoming_iv ci) e' = Some (d', iv')) ->
  exists stats,
    channel_recv E p head {| cs_type := t; cs_data := e |} w =
    mwService_recv E (s_services (w_session w) !! u32 (ch_service ch)) p t d'
      (with_channel p (set_ch_cipher (Some (set_ci_incoming_iv iv' ci)) (set_ch_stats stats ch)) w).
Proof.
  intros Hp Hci Hc Hopt He Hdec. destruct (clone_same_bytes e He) as (e' & Hcl & Hs).
  eexists. unfold channel_recv.
  erewrite bind_run by by apply getService_run. erewrite bind_run by by apply incr_stat_run.
  rewrite Hopt. cbn [cs_data cs_type]. rewrite Hcl. erewrite bind_run by reflexivity.
  erewrite bind_run by apply channel_get_run, with_channel_lookup.
  cbn [ch_cipher set_ch_stats]. rewrite Hci.
  erewrite bind_run.
  2:{ etrans; [by apply (decrypt_step c)|]. rewrite (Hdec e' Hs). reflexivity. }
  cbn [fst snd]. erewrite bind_run by apply channel_set_run, with_channel_lookup.
  by rewrite with_channel_twice.
Qed.

(** One message: what is written, and what the other end does with it. *)
Lemma secure_send E1 r E2 w1 p1 ch1 w2 p2 ch2 id2 t d :
  pure_writes E1 r -> in_step w1 p1 w2 p2 ->
  w_channels w1 !! p1 = Some ch1 -> is_u32 (ch_id ch1) ->
  chan_map w2 !! id2 = Some p2 -> w_channels w2 !! p2 = Some ch2 ->
  is_u16 t -> plain_ok d -> len d < 2 ^ 29 ->
  exists m b ci1' ci2' stats d',
    let w1' := with_log [EvWrite b (r b)] (with_channel p1 (set_ch_cipher (Some ci1') ch1) w1) in
    let w2' := with_channel p2 (set_ch_cipher (Some ci2') (set_ch_stats stats ch2)) w2 in
    mwChannel_send E1 p1 t (Some d) w1 = Some (r b, w1')
    /\ render m = Some b
    /\ handle E2 (arrived m id2) w2 =
       mwService_recv E2 (s_services (w_session w2) !! u32 (ch_service ch2)) p2 t d' w2'
    /\ opaque_ok d' /\ opaque_data d' = opaque_data d
    /\ in_step w1' p1 w2' p2.
Proof.
  intros Hr [(ch1' & ch2' & ci1 & ci2 & c1 & c2 & Hp1' & Hp2' & Ho1 & Ho2 & Hci1 & Hci2 & Hc1 & Hc2 & Hk & Hiv & Hi)]
    Hp1 Hid Hm2 Hp2 Ht Hd Hlen.
  rewrite Hp1 in Hp1'. injection Hp1' as <-. rewrite Hp2 in Hp2'. injection Hp2' as <-.
  destruct (clone_same_bytes d (proj1 Hd)) as (d0 & Hcl & Hs).
  destruct (step_cipher (sending_key c1 ci1) (ci_outgoing_iv ci1) d0 Hiv)
    as (e & iv & d' & He & Hdec & Hiv' & Hok & Hle & Hok' & Hdd); [by eapply plain_ok_same|].
  assert (len d0 = len d) as Hld by by rewrite Hs.
  set (m := send_msg (ch_id ch1) mwMessageOption_ENCRYPT t e).
  assert (sendable m) as Hsm by (apply send_msg_sendable; done || lia).
  set (b := MW32_PUT (zlen (mwMessage_enc m)) ++ mwMessage_enc m).
  assert (render m = Some b) as Hb by by apply render_spec.
  destruct (channel_recv_run E2 p2 ch2 ci2 c2 (msg_head (arrived m id2)) t (mwOpaque_norm e) d' iv w2)
    as [stats Hrecv]; try done.
  { by rewrite (same_bytes_norm e). }
  { intros e' He'. rewrite Hk, Hi. apply Hdec. by rewrite He', same_bytes_norm. }
  set (ch1n := set_ch_cipher (Some (set_ci_outgoing_iv iv ci1)) ch1).
  exists m, b, (set_ci_outgoing_iv iv ci1), (set_ci_incoming_iv iv ci2), stats, d'. cbv zeta. fold ch1n.
  split_and!; [|done| |done|by rewrite Hdd, Hs|].
  - unfold mwChannel_send. rewrite (sendEncrypted_run E1 p1 ch1) by done. unfold prepared.
    rewrite Hcl, Hci1. cbn [mbind option_bind]. rewrite Hc1. cbn [mbind option_bind]. rewrite He.
    cbn [mbind option_bind fst snd]. fold m ch1n. unfold channel_send, mwChannel_getState.
    erewrite bind_run by apply channel_get_run, with_channel_lookup.
    rewrite bool_decide_true by done. rewrite (session_send_run E1 r) by done. by rewrite Hb.
  - unfold handle. cbn [arrived msg_body msg_head mwMessage_norm m send_msg body_norm].
    unfold CHANNEL_SEND_recv, mwChannel_find. cbn [mh_channel].
    erewrite bind_run by reflexivity. unfold chan_map in Hm2. rewrite Hm2.
    unfold mwChannel_recv, mwChannel_getState.
    erewrite bind_run by by apply channel_get_run. rewrite bool_decide_true by done. apply Hrecv.
  - split. exists ch1n, (set_ch_cipher (Some (set_ci_incoming_iv iv ci2)) (set_ch_stats stats ch2)),
      (set_ci_outgoing_iv iv ci1),
      (set_ci_incoming_iv iv ci2), c1, c2.
    split_and!; try done; [apply (with_channel_lookup p1 ch1n w1)|apply with_channel_lookup].
Qed.

(** C4: what is sent encrypted on one end of an open channel is given to the
    service of the other end, as it was before encryption, and the two ciphers
    are in step again: so are all messages, in their order. *)
Theorem secure_delivery E1 r E2 w1 p1 ch1 w2 p2 ch2 id2 t d :
  pure_writes E1 r -> in_step w1 p1 w2 p2 ->
  w_channels w1 !! p1 = Some ch1 -> is_u32 (ch_id ch1) ->
  chan_map w2 !! id2 = Some p2 -> w_channels w2 !! p2 = Some ch2 ->
  is_u16 t -> plain_ok d -> len d < 2 ^ 29 ->
  exists m b w1' ch2' d',
    mwChannel_send E1 p1 t (Some d) w1 = Some (r b, w1')
    /\ render m = Some b /\ w_log w1' = w_log w1 ++ [EvWrite b (r b)]
    /\ handle E2 (arrived m id2) w2 =
       mwService_recv E2 (s_services (w_session w2) !! u32 (ch_service ch2)) p2 t d'
         (with_channel p2 ch2' w2)
    /\ opaque_ok d' /\ opaque_data d' = opaque_data d
    /\ in_step w1' p1 (with_channel p2 ch2' w2) p2.
Proof.
  intros Hr Hst Hp1 Hid Hm2 Hp2 Ht Hd Hlen.
  destruct (secure_send E1 r E2 w1 p1 ch1 w2 p2 ch2 id2 t d) as (m & b & ci1 & ci2 & stats & d' & Hs & Hb & Hh & Ho & Hdd & Hst');
    [done..|]. by exists m, b, (with_log [EvWrite b (r b)] (with_channel p1 (set_ch_cipher (Some ci1) ch1) w1)),
    (set_ch_cipher (Some ci2) (set_ch_stats stats ch2)), d'.
Qed.

(** Nothing else matters to the two ends. *)
Lemma in_step_same w1 p1 w2 p2 w1' w2' : w_channels w1' = w_channels w1 -> w_ciphers w1' = w_ciphers w1 ->
  w_channels w2' = w_channels w2 -> w_ciphers w2' = w_ciphers w2 -> in_step w1 p1 w2 p2 -> in_step w1' p1 w2' p2.
Proof. intros E1 E2 E3 E4 [H]. split. by rewrite E1, E2, E3, E4. Qed.

(** ** What the services need *)

(** One block of the heap changed. *)
Definition with_object (p : Z) (o : object) (w : world) : world := set_w_heap (<[p := o]> (w_heap w)) w.

Lemma service_guard_run srvc sv c ch i m w : w_services w !! srvc = Some sv -> sv_session sv = true ->
  w_channels w !! c = Some ch -> match i with Some id => ch_id ch = id | None => True end ->
  service_guard srvc c i m w = m w.
Proof.
  intros Hs Hss Hc Hi. unfold service_guard, deref_service, deref_channel.
  erewrite bind_run by (by apply lift_run). erewrite bind_run by (by apply lift_run). rewrite Hss.
  cbn [negb]. destruct i as [id|]; [|done]. by rewrite Hi, Z.eqb_refl.
Qed.

(** The messages of the other end, as they come in. *)
Definition take_messages (E : Env) (id : Z) (ms : list mwMessage) : M unit :=
  for_each (fun m => handle E (arrived m id)) ms.

(** ** Witnesses *)

Lemma secure_delivery_witness :
  let w := one_channel (chan_40 mwChannel_OPEN) in
  exists m b w1' ch2' d',
    mwChannel_send (quiet_env 0) 1 7 (Some abc) w = Some (0, w1')
    /\ render m = Some b /\ w_log w1' = [] ++ [EvWrite b 0]
    /\ handle (quiet_env 0) (arrived m 1) w =
       mwService_recv (quiet_env 0) (Some 4) 1 7 d' (with_channel 1 ch2' w)
    /\ opaque_ok d' /\ opaque_data d' = [97; 98; 99]
    /\ in_step w1' 1 (with_channel 1 ch2' w) 1.
Proof.
  cbv zeta.
  apply (secure_delivery (quiet_env 0) (fun _ => 0) (quiet_env 0)
    (one_channel (chan_40 mwChannel_OPEN)) 1 (chan_40 mwChannel_OPEN)
    (one_channel (chan_40 mwChannel_OPEN)) 1 (chan_40 mwChannel_OPEN) 1 7 abc); try done; try by apply (bool_decide_unpack _).
  split. exists (chan_40 mwChannel_OPEN), (chan_40 mwChannel_OPEN), (alloc_instance 2 1), (alloc_instance 2 1).
  do 2 eexists. split_and!; try reflexivity. by apply (bool_decide_unpack _).
Defined.

(** ** Messages on an open channel without a cipher *)

Definition plain_chan (p id : Z) (w : world) : Prop :=
  exists ch, w_channels w !! p = Some ch /\ ch_state ch = mwChannel_OPEN /\ ch_cipher ch = None /\ ch_id ch = id /\ is_u32 id.

(** What is written for a message of these bytes. *)
Definition plain_event (id type : Z) (e : list Z) : option event := written (fun _ => 0) (send_msg id 0 type (opaque_of e)).

Lemma send_put_run E p id type put e w : pure_writes E (fun _ => 0) -> plain_chan p id w -> is_u16 type ->
  writes put e -> zlen e < 2 ^ 30 ->
  exists ev, plain_event id type e = Some ev
    /\ (let* b := lift (put mwPutBuffer_new) in mwChannel_send E p type (Some (mwPutBuffer_finalize b))) w = Some (0, with_log [ev] w).
Proof.
  intros Hw (ch & Hch & Hst & Hci & Hid & Hu) Ht Hp Hf.
  destruct (finalize_writes _ _ Hp) as (b & Eb & Hob & _ & Hdb); [unfold pb_max; lia|].
  destruct (opaque_of_data e) as (Ho & Hd & Hl).
  assert (sendable (send_msg id 0 type (opaque_of e))) as Hs by (apply send_msg_sendable; try done; by rewrite Hl).
  assert (exists ev, plain_event id type e = Some ev) as [ev He].
  { unfold plain_event, written. rewrite (render_spec _ Hs). by eexists. }
  exists ev. split; [exact He|]. erewrite bind_run by (apply lift_run, Eb).
  destruct (mwChannel_send_open E (fun _ => 0) Hw p ch type (Some (mwPutBuffer_finalize b)) w None
    (send_msg id 0 type (opaque_of e)) ev Hch Hst) as (bs & Hbs & Es).
  - unfold prepared. rewrite (clone_data _ Hob), Hdb, Hci, Hid. done.
  - exact He.
  - rewrite Es. rewrite <- Hci at 1. by rewrite set_cipher_same, with_channel_same.
Qed.
