(* ===== verification/StoreSpec.v ===== *)
(** * The storage service: its invariant and its answers

    The requests on the heap are those on the list of the service, each with a
    unit of its own, whatever the client calls and the server sends; and an
    answer of the server reaches the request it is to, and no other. *)

From S2P Require Import Prelude Buffer Common Message Framing World Rc2 Cipher Service Session.
From S2P Require Import Channel Store Dispatch Frame Delivery Protocol ChannelSpec.
#[local] Open Scope Z_scope.
#[local] Open Scope mw_scope.

(** ** The invariant *)

(** The list of the service is [L]; the requests on the heap are [R]. *)
Record requests (srvc : Z) (L R : list Z) (w : world) : Prop := {
  rq_below : heap_below w;
  rq_list : exists s, w_heap w !! srvc = Some (ObjStorage s) /\ st_pending s = L;
  rq_nodup : NoDup R;
  rq_heap p : p ∈ R <-> exists r, w_heap w !! p = Some (ObjStorageReq r);
  rq_item p r : w_heap w !! p = Some (ObjStorageReq r) ->
    exists u, w_heap w !! sr_item r = Some (ObjStorageUnit u);
  rq_own p q r r' : w_heap w !! p = Some (ObjStorageReq r) -> w_heap w !! q = Some (ObjStorageReq r') ->
    sr_item r = sr_item r' -> p = q;
}.

Definition store_inv (srvc : Z) (w : world) : Prop := exists L, requests srvc L L w.

(** A computation that keeps it. *)
Definition keeps_store (srvc : Z) : forall A, M A -> Prop := kept (store_inv srvc).
#[export] Hint Unfold keeps_store : mw_frame.

Lemma requests_same srvc L R w w' : w_heap w' = w_heap w -> w_next w <= w_next w' ->
  requests srvc L R w -> requests srvc L R w'.
Proof.
  intros Eh En [H1 H2 H3 H4 H5 H6]. split; rewrite ?Eh; try done.
  intros q o Hq. rewrite Eh in Hq. apply H1 in Hq. lia.
Qed.

#[export] Instance store_heap srvc : HeapOnly (store_inv srvc).
Proof. intros w w' Eh En [L H]. exists L. by eapply requests_same. Qed.

(** ** Steps on the blocks *)

(** What the invariant looks at in a block. *)
Definition shape (o : object) : option (option Z) :=
  match o with
  | ObjStorageReq r => Some (Some (sr_item r))
  | ObjStorageUnit _ => Some None
  | _ => None
  end.

Lemma shape_req o i : shape o = Some (Some i) -> exists r, o = ObjStorageReq r /\ sr_item r = i.
Proof. destruct o; cbn; try done. intros [= <-]. by eexists. Qed.
Lemma shape_unit o : shape o = Some None -> exists u, o = ObjStorageUnit u.
Proof. destruct o; cbn; try done. by eexists. Qed.

(** Two heaps in which the requests and units are the same. *)
Lemma requests_shape srvc L R L' w w' : requests srvc L R w -> heap_below w' ->
  (forall q, shape <$> (w_heap w' !! q) = shape <$> (w_heap w !! q)) ->
  (exists s, w_heap w' !! srvc = Some (ObjStorage s) /\ st_pending s = L') ->
  requests srvc L' R w'.
Proof.
  intros [H1 H2 H3 H4 H5 H6] B Hs Hsrv.
  assert (forall p r, w_heap w' !! p = Some (ObjStorageReq r) ->
    exists r', w_heap w !! p = Some (ObjStorageReq r') /\ sr_item r' = sr_item r) as Hreq.
  { intros p r Hp. pose proof (Hs p) as E. rewrite Hp in E. cbn in E.
    destruct (w_heap w !! p) as [o|]; [|done]. cbn in E. injection E as E. symmetry in E.
    apply shape_req in E as (r' & -> & Hr). by exists r'. }
  split; [done|done|done| | |].
  - intros p. rewrite H4. split; intros [r Hp].
    + pose proof (Hs p) as E. rewrite Hp in E. cbn in E. destruct (w_heap w' !! p) as [o|]; [|done].
      cbn in E. injection E as E. apply shape_req in E as (r' & -> & _). by exists r'.
    + destruct (Hreq p r Hp) as (r' & Hr & _). by exists r'.
  - intros p r Hp. destruct (Hreq p r Hp) as (r' & Hr & Hi). destruct (H5 p r' Hr) as [u Hu]. rewrite Hi in Hu.
    pose proof (Hs (sr_item r)) as E. rewrite Hu in E. cbn in E. destruct (w_heap w' !! sr_item r) as [o|]; [|done].
    cbn in E. injection E as E. apply shape_unit in E as [v ->]. by exists v.
  - intros p q r r' Hp Hq Hi. destruct (Hreq p r Hp) as (r1 & Hr1 & Hi1). destruct (Hreq q r' Hq) as (r2 & Hr2 & Hi2).
    eapply H6; [exact Hr1|exact Hr2|congruence].
Qed.

Lemma shape_insert (h : gmap Z object) q o o' r : h !! q = Some o -> shape o' = shape o ->
  shape <$> (<[q := o']> h !! r) = shape <$> (h !! r).
Proof.
  intros Hq Hs. destruct (decide (r = q)) as [->|]; [|by rewrite lookup_insert_ne].
  rewrite lookup_insert_eq, Hq. cbn. by rewrite Hs.
Qed.

Section invariant.
Context (srvc : Z).

(** A block keeps its shape, and the service its list. *)
Lemma keeps_obj_set {A} `{Object A} p (f : A -> A) :
  (forall a, shape (obj_in (f a)) = shape (obj_in a)) ->
  (forall a s, obj_in a = ObjStorage s -> exists s', obj_in (f a) = ObjStorage s' /\ st_pending s' = st_pending s) ->
  has (keeps_store srvc) (obj_set p f).
Proof.
  intros Hs Hl w [] w' [L I]. unfold obj_set, obj_deref, bind, deref_object, lift.
  destruct (w_heap w !! p) as [o|] eqn:E; [|done]. destruct (obj_out o) as [a|] eqn:Eo; [|done].
  apply obj_out_in in Eo as ->. unfold put_object. rewrite E. intros [= <-]. exists L.
  eapply requests_shape; [exact I|apply below_insert; [apply I|by eexists]| |].
  - intros q. by eapply shape_insert.
  - cbn. destruct (rq_list _ _ _ _ I) as (s & Hsv & HL). destruct (decide (p = srvc)) as [->|Hne].
    + rewrite lookup_insert_eq. rewrite E in Hsv. injection Hsv as Hsv.
      destruct (Hl a s Hsv) as (s' & -> & Hs'). exists s'. split; [done|congruence].
    + rewrite lookup_insert_ne by done. by exists s.
Qed.

Lemma keeps_set_req p f : (forall r, sr_item (f r) = sr_item r) ->
  has (keeps_store srvc) (@obj_set mwStorageReq _ p f).
Proof. intros Hf. apply keeps_obj_set; [|done]. intros r. change (Some (Some (sr_item (f r))) = Some (Some (sr_item r))). by rewrite Hf. Qed.
Lemma keeps_set_unit p f : has (keeps_store srvc) (@obj_set mwStorageUnit _ p f).
Proof. by apply keeps_obj_set. Qed.
Lemma keeps_set_storage p f : (forall s, st_pending (f s) = st_pending s) ->
  has (keeps_store srvc) (@obj_set mwServiceStorage _ p f).
Proof. intros Hf. apply keeps_obj_set; [done|]. intros s s' [= <-]. eexists. split; [done|]. by rewrite Hf. Qed.

(** A unit that no request has. *)
Definition unit_free (item : Z) (w : world) : Prop :=
  (exists u, w_heap w !! item = Some (ObjStorageUnit u))
  /\ forall p r, w_heap w !! p = Some (ObjStorageReq r) -> sr_item r <> item.

(** A new block that is not a request. *)
Lemma keeps_obj_new {A} `{Object A} (a : A) w : (forall r, obj_in a <> ObjStorageReq r) ->
  store_inv srvc w -> exists p w', obj_new a w = Some (p, w') /\ store_inv srvc w'
    /\ w_heap w' = <[p := obj_in a]> (w_heap w) /\ w_heap w !! p = None.
Proof.
  intros Ha [L [H1 H2 H3 H4 H5 H6]]. pose proof (below_fresh w H1) as Hn.
  eexists _, _. split; [reflexivity|]. split; [|done]. exists L.
  assert (forall p r, <[w_next w := obj_in a]> (w_heap w) !! p = Some (ObjStorageReq r) <->
            w_heap w !! p = Some (ObjStorageReq r)) as Hr.
  { intros p r. split.
    - intros [[<- E]|[_ Hp]]%lookup_insert_Some; [by destruct (Ha r)|done].
    - intros Hp. rewrite lookup_insert_ne; [done|]. intros <-. congruence. }
  split; [by apply below_next| |done|..]; cbn.
  - destruct H2 as (s & Hs & HL). exists s. rewrite lookup_insert_ne; [done|]. intros <-. congruence.
  - intros p. rewrite H4. by setoid_rewrite Hr.
  - intros p r Hp%Hr. destruct (H5 p r Hp) as [u Hu]. exists u. rewrite lookup_insert_ne; [done|].
    intros E. rewrite <- E in Hu. congruence.
  - intros p q r r' Hp%Hr Hq%Hr. by eapply H6.
Qed.
End invariant.

(** ** Requests come and go *)

(** What a client gives with its requests: the callbacks keep the invariant,
    and the functions that free its data do not touch the library. *)
Record client_ok (srvc : Z) (cl : StorageClient) : Prop := {
  co_cb f s c i d : has (keeps_store srvc) (sc_cb cl f s c i d);
  co_free f d : heap_same unit (sc_free cl f d);
}.

Lemma elem_of_without p q (R : list Z) : q ∈ filter (fun p' => p' <> p) R <-> q <> p /\ q ∈ R.
Proof. by rewrite list_elem_of_filter. Qed.

Lemma without_id p (R : list Z) : p ∉ R -> filter (fun p' => p' <> p) R = R.
Proof.
  induction R as [|q R IH]; [done|]. intros [Hne Hin]%not_elem_of_cons.
  rewrite filter_cons_True by congruence. by rewrite IH.
Qed.
Lemma without_head p (R : list Z) : NoDup (p :: R) -> filter (fun p' => p' <> p) (p :: R) = R.
Proof. intros [Hp _]%NoDup_cons. rewrite filter_cons_False by tauto. by apply without_id. Qed.

(** Freeing a request, with its unit. *)
Lemma requests_free srvc L R w p r : requests srvc L R w -> w_heap w !! p = Some (ObjStorageReq r) ->
  forall w', w_next w' = w_next w ->
  (w_heap w' = delete p (w_heap w) \/ w_heap w' = delete p (delete (sr_item r) (w_heap w))) ->
  requests srvc L (filter (fun p' => p' <> p) R) w'.
Proof.
  intros [H1 H2 H3 H4 H5 H6] Hp w' Hn Hh.
  assert (forall q o, w_heap w' !! q = Some o -> q <> p /\ w_heap w !! q = Some o) as Hsub.
  { intros q o Hq. destruct Hh as [Hh|Hh]; rewrite Hh in Hq.
    - apply lookup_delete_Some in Hq as [? ?]. done.
    - apply lookup_delete_Some in Hq as [? [_ ?]%lookup_delete_Some]. done. }
  assert (forall q o, q <> p -> q <> sr_item r -> w_heap w !! q = Some o -> w_heap w' !! q = Some o) as Hin.
  { intros q o Hqp Hqi Hq. destruct Hh as [Hh|Hh]; rewrite Hh.
    - by rewrite lookup_delete_ne.
    - by rewrite !lookup_delete_ne. }
  assert (forall q r', q <> p -> w_heap w !! q = Some (ObjStorageReq r') -> w_heap w' !! q = Some (ObjStorageReq r')) as Hreq.
  { intros q r' Hne Hq. apply Hin; [done| |done]. intros ->. destruct (H5 p r Hp) as [u Hu]. congruence. }
  split.
  - intros q o Hq. apply Hsub in Hq as [_ Hq]. apply H1 in Hq. lia.
  - destruct H2 as (s & Hs & HL). exists s. split; [|done]. apply Hin; [congruence| |done].
    intros ->. destruct (H5 p r Hp) as [u Hu]. congruence.
  - by apply NoDup_filter.
  - intros q. rewrite elem_of_without, H4. split.
    + intros [Hne [r' Hr]]. exists r'. by apply Hreq.
    + intros [r' Hr]. apply Hsub in Hr as [Hne Hr]. split; [done|by exists r'].
  - intros q r' Hq. apply Hsub in Hq as [Hne Hq]. destruct (H5 q r' Hq) as [u Hu]. exists u.
    apply Hin; [congruence| |done]. intros E. apply Hne. by eapply H6.
  - intros q q' r1 r2 Hq Hq'. apply Hsub in Hq as [_ Hq]. apply Hsub in Hq' as [_ Hq']. by eapply H6.
Qed.

Section frees.
Context (srvc : Z) (cl : StorageClient) (CL : client_ok srvc cl).

Lemma request_free_inv L R w req w' : requests srvc L R w -> request_free cl req w = Some (tt, w') ->
  requests srvc L (filter (fun p => p <> req) R) w'.
Proof.
  intros I. unfold request_free.
  intros (r & w1 & Ed & E)%bind_inv. apply obj_deref_inv in Ed as [-> Hr].
  apply bind_inv in E as ([] & w2 & Ef & E).
  assert (exists r2, requests srvc L R w2 /\ w_heap w2 !! req = Some (ObjStorageReq r2)) as (r2 & I2 & Hr2).
  { destruct (sr_data_free r =? 0); [injection Ef as <-; by exists r|].
    apply bind_inv in Ef as ([] & w3 & E3 & Es). apply (co_free _ _ CL) in E3 as [Eh En].
    apply (requests_same srvc L R w w3 Eh En) in I. apply obj_set_inv in Es as (r3 & Hr3 & ->).
    eexists. split; [|cbn; apply lookup_insert_eq].
    eapply requests_shape; [exact I|apply below_insert; [apply I|by eexists]| |].
    - intros q. eapply shape_insert; [exact Hr3|done].
    - destruct (rq_list _ _ _ _ I) as (s & Hs & HL). exists s. cbn. rewrite lookup_insert_ne; [done|].
      intros ->. cbn in Hr3. congruence. }
  clear I Hr Ef. apply bind_inv in E as (item & w3 & Eg & E). apply obj_get_inv in Eg as [-> (r3 & Hr3 & ->)].
  cbn in Hr3. rewrite Hr2 in Hr3. injection Hr3 as <-.
  apply bind_inv in E as ([] & w4 & Eu & E). apply free_object_inv in E as [_ ->].
  eapply requests_free; [exact I2|exact Hr2|..].
  - unfold mwStorageUnit_free in Eu. destruct (sr_item r2 =? 0); [by injection Eu as <-|].
    apply bind_inv in Eu as ([] & w5 & E5 & Ef). apply obj_set_inv in E5 as (u & Hu & ->).
    by apply free_object_inv in Ef as [_ ->].
  - unfold mwStorageUnit_free in Eu. destruct (sr_item r2 =? 0); [left; by injection Eu as <-|right].
    apply bind_inv in Eu as ([] & w5 & E5 & Ef). apply obj_set_inv in E5 as (u & Hu & ->).
    apply free_object_inv in Ef as [_ ->]. cbn. by rewrite delete_insert_eq.
Qed.

(** The list changes, the requests do not. *)
Lemma requests_list L R w (f : mwServiceStorage -> mwServiceStorage) w' : requests srvc L R w ->
  obj_set srvc f w = Some (tt, w') ->
  exists s, st_pending s = L /\ requests srvc (st_pending (f s)) R w'.
Proof.
  intros I E. apply obj_set_inv in E as (s & Hs & ->). cbn in Hs. exists s.
  destruct (rq_list _ _ _ _ I) as (s' & Hs' & HL). assert (s' = s) as -> by congruence. split; [done|].
  eapply requests_shape; [exact I|apply below_insert; [apply I|by eexists]| |].
  - intros q. by eapply shape_insert.
  - exists (f s). cbn. by rewrite lookup_insert_eq.
Qed.

Lemma keeps_request_remove req : has (keeps_store srvc) (request_remove cl srvc req).
Proof.
  intros w [] w' [L I] E. unfold request_remove in E. apply bind_inv in E as ([] & w1 & Es & E).
  apply (requests_list L L) in Es as (s & HL & I1); [|done]. cbn in I1. rewrite HL in I1.
  eexists. by eapply request_free_inv.
Qed.

Lemma for_pending_free L l w w' : requests srvc L l w ->
  for_pending srvc (request_free cl) L l w = Some (tt, w') -> requests srvc L [] w'.
Proof.
  revert w. induction l as [|p l IH]; intros w I; cbn [for_pending]; [by intros [= <-]|].
  intros ([] & w1 & Ef & E)%bind_inv. apply (request_free_inv L (p :: l)) in Ef; [|done].
  apply bind_inv in E as (now & w2 & Eg & E). apply obj_get_inv in Eg as [-> _].
  destruct (bool_decide _); [|done]. eapply IH; [|exact E].
  by rewrite without_head in Ef by apply (rq_nodup _ _ _ _ I).
Qed.

Lemma keeps_drop_pending : has (keeps_store srvc) (drop_pending cl srvc).
Proof.
  intros w [] w' [L I] E. unfold drop_pending in E. apply bind_inv in E as ([] & w1 & Ee & E).
  unfold each_pending in Ee. apply bind_inv in Ee as (l & w2 & Eg & Ee). apply obj_get_inv in Eg as [-> (s & Hs & ->)].
  destruct (rq_list _ _ _ _ I) as (s' & Hs' & HL). cbn in Hs. assert (s' = s) as -> by congruence. rewrite HL in Ee.
  apply for_pending_free in Ee; [|done]. apply (requests_list L []) in E as (s1 & _ & I1); [|done]. by exists [].
Qed.
End frees.

(** ** The functions of the service *)

#[export] Hint Resolve keeps_set_unit : mw_frame.
#[export] Hint Extern 1 (has (keeps_store _) (obj_set _ _)) =>
  (apply keeps_set_req; intros ?; try case_match; reflexivity) : mw_frame.
#[export] Hint Extern 1 (has (keeps_store _) (obj_set _ _)) => (apply keeps_set_storage; reflexivity) : mw_frame.

Section handlers.
Context (srvc : Z) (E : Env) (cl : StorageClient).
Context {EF : EnvFrame (keeps_store srvc) E} (CL : client_ok srvc cl).


Lemma keeps_request_get b req : has (keeps_store srvc) (request_get E b req).
Proof. unfold request_get. frame. Qed.
#[local] Hint Resolve keeps_request_get : mw_frame.

Lemma keeps_request_send chan req : has (keeps_store srvc) (request_send E chan req).
Proof. unfold request_send, mwChannel_send_to, mwChannel_send. frame. Qed.
#[local] Hint Resolve keeps_request_send : mw_frame.

Lemma keeps_request_find id : has (keeps_store srvc) (request_find srvc id).
Proof.
  unfold request_find. apply fr_bind; [apply kept_obj_get|intros l].
  induction l as [|p l IH]; cbn [find_req]; frame.
Qed.
#[local] Hint Resolve keeps_request_find : mw_frame.

Lemma keeps_request_trigger req : has (keeps_store srvc) (request_trigger cl srvc req).
Proof. unfold request_trigger. frame. apply (co_cb _ _ CL). Qed.
#[local] Hint Resolve keeps_request_trigger keeps_request_remove keeps_drop_pending : mw_frame.

Lemma keeps_for_pending f l l' : (forall p, has (keeps_store srvc) (f p)) -> has (keeps_store srvc) (for_pending srvc f l l').
Proof. intros Hf. induction l' as [|p l' IH]; cbn [for_pending]; frame. Qed.

Lemma keeps_accept c m : has (keeps_store srvc) (recv_channelAccept E srvc c m).
Proof.
  unfold recv_channelAccept, each_pending. frame. apply keeps_for_pending. intros p. frame.
Qed.

Lemma keeps_destroy c m : has (keeps_store srvc) (recv_channelDestroy E srvc c m).
Proof. unfold recv_channelDestroy, mwSession_senseService. frame. Qed.

Lemma keeps_recv c t d : has (keeps_store srvc) (recv E cl srvc c t d).
Proof. unfold recv. frame. Qed.

Lemma keeps_start : has (keeps_store srvc) (start E srvc).
Proof.
  unfold start, make_channel, mwChannel_setService, mwChannel_setProtoType, mwChannel_setProtoVer, set_if_init.
  frame.
Qed.

Lemma keeps_stop : has (keeps_store srvc) (stop E cl srvc).
Proof. unfold stop. frame. Qed.

#[export] Instance storage_ops_frame : OpsFrame (keeps_store srvc) srvc (storage_ops E cl).
Proof.
  split; cbn; try done.
  - intros f c m [= <-]. apply keeps_accept.
  - intros f c m [= <-]. apply keeps_destroy.
  - intros f c t d [= <-]. apply keeps_recv.
  - intros f [= <-]. apply keeps_start.
  - intros f [= <-]. apply keeps_stop.
Qed.

(** *** New requests *)

Lemma request_new_inv item cb d df action w req w' : store_inv srvc w -> unit_free item w ->
  request_new srvc item cb d df action w = Some (req, w') ->
  exists L, requests srvc L (L ++ [req]) w'.
Proof.
  intros [L I] [[u Hu] Hfree] E0. unfold request_new in E0.
  apply bind_inv in E0 as ([] & w1 & Es & E0). apply bind_inv in E0 as (id & w2 & Eg & E0).
  apply obj_get_inv in Eg as [-> _]. injection E0 as Er Ew.
  destruct (obj_set_inv _ _ _ _ Es) as (s & Hs & Hw1). apply (requests_list srvc L L) in Es as (s' & HL & I1); [|done].
  cbn in I1. rewrite HL in I1. assert (w_heap w1 !! item = Some (ObjStorageUnit u)) as Hu1.
  { rewrite Hw1. cbn. rewrite lookup_insert_ne; [done|]. intros <-. cbn in Hs. congruence. }
  assert (forall p r, w_heap w1 !! p = Some (ObjStorageReq r) -> sr_item r <> item) as Hf1.
  { intros p r. rewrite Hw1. cbn. intros [[_ ?]|[_ ?]]%lookup_insert_Some; [done|by eapply Hfree]. }
  clear Hw1 Hs HL. destruct I1 as [H1 H2 H3 H4 H5 H6]. exists L. rewrite <- Er, <- Ew.
  pose proof (below_fresh w1 H1) as Hn. set (r := {| sr_id := id |}).
  assert (forall p o, w_heap w1 !! p = Some o -> <[w_next w1 := ObjStorageReq r]> (w_heap w1) !! p = Some o) as Hk.
  { intros p o Hp. rewrite lookup_insert_ne; [done|]. intros <-. congruence. }
  split; [by apply below_next|..]; cbn.
  - destruct H2 as (s2 & Hs2 & HL2). exists s2. split; [by apply Hk|done].
  - apply NoDup_app. split_and!; [done| |apply NoDup_singleton].
    intros q [r' Hq]%H4 ->%list_elem_of_singleton. congruence.
  - intros p. rewrite elem_of_app, list_elem_of_singleton, H4. split.
    + intros [[r' Hp]| ->]; [exists r'; by apply Hk|exists r; apply lookup_insert_eq].
    + intros [r' [[<- _]|[_ Hp]]%lookup_insert_Some]; [by right|left; by exists r'].
  - intros p r' [[<- [= <-]]|[_ Hp]]%lookup_insert_Some.
    + exists u. by apply Hk.
    + destruct (H5 p r' Hp) as [v Hv]. exists v. by apply Hk.
  - intros p q r1 r2 [[<- [= <-]]|[_ Hp]]%lookup_insert_Some [[<- [= <-]]|[_ Hq]]%lookup_insert_Some Hi.
    + done.
    + destruct (Hf1 q r2 Hq). done.
    + destruct (Hf1 p r1 Hp). done.
    + by eapply H6.
Qed.

Lemma request_start_inv item cb d df action w w' : store_inv srvc w -> unit_free item w ->
  request_start E srvc item cb d df action w = Some (tt, w') -> store_inv srvc w'.
Proof.
  intros I Hf E0. unfold request_start in E0. apply bind_inv in E0 as (req & w1 & En & E0).
  apply request_new_inv in En as [L I1]; [|done..]. apply bind_inv in E0 as ([] & w2 & Es & E0).
  apply (requests_list srvc L (L ++ [req])) in Es as (s & HL & I2); [|done]. cbn in I2. rewrite HL in I2.
  revert E0. apply (fun H : has (keeps_store srvc) _ => H w2 tt w'); [|by eexists]. frame.
Qed.
End handlers.

(** ** The library with the service *)

(** Code outside that knows the functions of the service, which are of the
    same library. *)
Definition storage_env (srvc : Z) (cl : StorageClient) (E : Env) : Env :=
  with_service srvc (storage_ops (with_service srvc (storage_ops E cl) E) cl) E.

(** The functions found in the table run with the table they are found in. *)
Lemma storage_env_closed srvc cl E :
  let E' := storage_env srvc cl E in
  stop E' cl srvc = stop (with_service srvc (storage_ops E cl) E) cl srvc
  /\ (forall c m, recv_channelDestroy E' srvc c m = recv_channelDestroy (with_service srvc (storage_ops E cl) E) srvc c m)
  /\ (forall c m, recv_channelAccept E' srvc c m = recv_channelAccept (with_service srvc (storage_ops E cl) E) srvc c m)
  /\ (forall c t d, recv E' cl srvc c t d = recv (with_service srvc (storage_ops E cl) E) cl srvc c t d)
  /\ start E' srvc = start (with_service srvc (storage_ops E cl) E) srvc.
Proof.
  cbn zeta. unfold storage_env. split_and!; try reflexivity. intros c m.
  assert (forall ops ops', op_stop ops = op_stop ops' ->
    mwService_stop (with_service srvc ops E) srvc = mwService_stop (with_service srvc ops' E) srvc) as Hs.
  { intros ops ops' Ho. unfold mwService_stop. rewrite (with_service_at srvc ops), (with_service_at srvc ops').
    by rewrite Ho. }
  unfold recv_channelDestroy. rewrite (Hs _ (storage_ops E cl)) by reflexivity. reflexivity.
Qed.

Lemma storage_env_frame srvc cl E : EnvFrame (keeps_store srvc) E -> client_ok srvc cl ->
  EnvFrame (keeps_store srvc) (storage_env srvc cl E).
Proof.
  intros EF CL. apply with_service_frame; [done|].
  apply storage_ops_frame; [|done]. by apply with_service_frame; [|apply storage_ops_frame].
Qed.

(** What may happen: a call of the session's interface, bytes from the server
    among them, a unit made, and a request. *)
Inductive store_step (srvc : Z) (cl : StorageClient) (E : Env) : world -> world -> Prop :=
| step_call c w w' : run_call (storage_env srvc cl E) c w = Some (tt, w') -> store_step srvc cl E w w'
| step_unit u p w w' : @obj_new mwStorageUnit _ u w = Some (p, w') -> store_step srvc cl E w w'
| step_load item cb d df w w' : unit_free item w ->
    mwServiceStorage_load (storage_env srvc cl E) srvc item cb d df w = Some (tt, w') -> store_step srvc cl E w w'
| step_save item cb d df w w' : unit_free item w ->
    mwServiceStorage_save (storage_env srvc cl E) srvc item cb d df w = Some (tt, w') -> store_step srvc cl E w w'
| step_clear w w' : clear cl srvc w = Some (tt, w') -> store_step srvc cl E w w'.

(** C21: the storage service never loses a request, never frees one twice and
    never has two requests share a unit: whatever the client asks, whatever
    its callbacks do and whatever bytes the server sends, the requests in the
    heap are exactly those on the pending list, each once, each with a live
    unit of its own. *)
Theorem store_invariant srvc cl E w w' :
  EnvFrame (keeps_store srvc) E -> client_ok srvc cl -> store_inv srvc w ->
  rtc (store_step srvc cl E) w w' -> store_inv srvc w'.
Proof.
  intros EF CL I R. pose proof (storage_env_frame srvc cl E EF CL) as EF'.
  induction R as [w|w w1 w2 S R IH]; [done|]. apply IH. clear R IH. destruct S as [c w w' H|u p w w' H|??????? H|??????? H|w w' H].
  - revert H. apply (full_call (keeps_store srvc)); [apply _|done| |done].
    intros b. apply (kept_recv (store_inv srvc)); [apply _|done|]. intros r s. by apply heap_only.
  - destruct (keeps_obj_new srvc u w) as (q & w3 & E3 & I3 & _); [done..|]. rewrite E3 in H. by injection H as _ <-.
  - by eapply request_start_inv.
  - by eapply request_start_inv.
  - revert H. by apply keeps_drop_pending.
Qed.
