(* ===== verification/StoreRecv.v ===== *)
(** * The storage service: the answers of the server

    Any bytes that come on the service's channel are taken safely; an answer
    that can be parsed reaches the request it is to, with what it says; one
    that cannot drops its request. *)

From S2P Require Import Prelude Buffer Common Message Framing World Rc2 Cipher Service Session.
From S2P Require Import Channel Store Dispatch Frame Delivery Protocol ChannelSpec StoreSpec.
#[local] Open Scope Z_scope.
#[local] Open Scope mw_scope.

Lemma guint32_peek_safe b : gb_wf b -> is_Some (guint32_peek b).
Proof.
  intros (Hp & Hr & Hl & Hb & _). unfold guint32_peek, guint32_buflen.
  destruct (Z.leb_spec 4 (gb_rem b)); [|by eexists]. unfold mem_read. rewrite decide_True by lia.
  cbn [mbind option_bind]. apply be32_total. zlen_lia.
Qed.

(** The client's functions return, and a callback lets the requests be. *)
Record client_total (srvc : Z) (cl : StorageClient) : Prop := {
  ct_cb f s c i d w : store_inv srvc w -> exists w', sc_cb cl f s c i d w = Some (tt, w') /\ store_inv srvc w'
    /\ forall p r, w_heap w !! p = Some (ObjStorageReq r) -> w_heap w' !! p = Some (ObjStorageReq r);
  ct_free f d w : exists w', sc_free cl f d w = Some (tt, w') /\ w_heap w' = w_heap w /\ w_next w <= w_next w';
}.

Lemma client_total_ok srvc cl : client_total srvc cl -> client_ok srvc cl.
Proof.
  intros [Hc Hf]. split.
  - intros f s c i d w [] w' I E. destruct (Hc f s c i d w I) as (w1 & E1 & I1 & _). congruence.
  - intros f d w [] w' E. destruct (Hf f d w) as (w1 & E1 & H1 & H2). split; congruence || (by rewrite E1 in E; injection E as <-).
Qed.

Section answers.
Context (srvc : Z) (E : Env) (cl : StorageClient).

Definition no_id (w : world) (id : Z) (l : list Z) : Prop :=
  forall p r, p ∈ l -> w_heap w !! p = Some (ObjStorageReq r) -> sr_id r <> id.

(** The first request with the id. *)
Definition found (w : world) (l : list Z) (id : Z) (o : option Z) : Prop :=
  match o with
  | Some p => exists l1 l2 r, l = l1 ++ p :: l2 /\ no_id w id l1
      /\ w_heap w !! p = Some (ObjStorageReq r) /\ sr_id r = id
  | None => no_id w id l
  end.

Lemma find_req_run l id w :
  (forall p, p ∈ l -> exists r, w_heap w !! p = Some (ObjStorageReq r)) ->
  exists o, find_req l id w = Some (o, w) /\ found w l id o.
Proof.
  induction l as [|p l IH]; intros Hl; cbn [find_req]; [by exists None; split; [|intros ? ? ?%not_elem_of_nil]|].
  destruct (Hl p) as [r Hr]; [left|]. erewrite bind_run by (by apply obj_deref_run).
  destruct (Z.eqb_spec (sr_id r) id) as [Hid|Hid]; [exists (Some p); split; [done|by exists [], l, r; split_and!; [|intros ? ? ?%not_elem_of_nil| |]]|].
  destruct IH as (o & Eo & Ho). { intros q Hq. apply Hl. by right. } exists o. split; [done|].
  assert (forall l1, no_id w id l1 -> no_id w id (p :: l1)) as Hcons.
  { intros l1 Hn q r' [->|Hq]%elem_of_cons Hq'; [congruence|by eapply Hn]. }
  destruct o as [q|]; [|by apply Hcons]. destruct Ho as (l1 & l2 & r' & -> & Hn & Hq & Hi).
  exists (p :: l1), l2, r'. split_and!; [done|by apply Hcons|done..].
Qed.

Lemma request_find_run L w id : requests srvc L L w ->
  exists o, request_find srvc id w = Some (o, w) /\ found w L id o.
Proof.
  intros I. destruct (rq_list _ _ _ _ I) as (s & Hs & HL). unfold request_find.
  erewrite bind_run by (by apply obj_get_run). rewrite HL. apply find_req_run. intros p. apply (rq_heap _ _ _ _ I).
Qed.

(** The request gets a result, and its unit data. *)
Definition answered (req : Z) (r : mwStorageReq) (res : Z) (u : mwStorageUnit) (w : world) : world :=
  set_w_heap (<[sr_item r := ObjStorageUnit u]> (<[req := ObjStorageReq (set_sr_result_code res r)]> (w_heap w))) w.

Lemma answered_req w req r u res v : w_heap w !! req = Some (ObjStorageReq r) ->
  w_heap w !! sr_item r = Some (ObjStorageUnit u) ->
  w_heap (answered req r res v w) !! req = Some (ObjStorageReq (set_sr_result_code res r)).
Proof. intros Hr Hu. cbn. rewrite lookup_insert_ne by congruence. apply lookup_insert_eq. Qed.

(** ** What is read *)

(** The result, and the first item. *)
Definition reply_get (loaded : bool) (res key : Z) : Get (Z * option (Z * mwOpaque)) :=
  let! _ := guint32_get 0 in
  let! res := guint32_get res in
  if loaded then
    let! count := guint32_get (u_count (e_uninit E)) in
    if 0 <? count then
      let! _ := guint32_get (u_junk (e_uninit E)) in
      let! key := guint32_get key in
      let! d := mwOpaque_get in
      gret (res, Some (key, d))
    else gret (res, None)
  else gret (res, None).

Lemma reply_get_safe loaded res key : safe (reply_get loaded res key).
Proof. unfold reply_get. safe_tac. Qed.

Definition item_unit (o : option (Z * mwOpaque)) (u : mwStorageUnit) : mwStorageUnit :=
  match o with Some (key, d) => {| su_key := key; su_data := d |} | None => u end.

(** [request_get] is that, and the two assignments. *)
Lemma request_get_run w req r u b : gb_wf b -> gb_error b = false ->
  w_heap w !! req = Some (ObjStorageReq r) -> w_heap w !! sr_item r = Some (ObjStorageUnit u) ->
  exists res o b', gb_wf b'
    /\ reply_get (bool_decide (sr_action r = action_loaded)) (sr_result_code r) (su_key u) b = Some (res, o, b')
    /\ request_get E b req w = Some (b', answered req r res (item_unit o u) w).
Proof.
  intros Hb He Hr Hu. assert (sr_item r <> req) as Hne by congruence. unfold request_get, reply_get, gbind.
  unfold mwGetBuffer_error. rewrite He. destruct (guint32_get_safe 0 b Hb) as (x & b1 & Eb1 & Hb1 & _). rewrite Eb1.
  erewrite bind_run by reflexivity. cbn beta iota. erewrite bind_run by (by apply obj_deref_run).
  destruct (guint32_get_safe (sr_result_code r) b1 Hb1) as (res & b2 & Eb2 & Hb2 & _). rewrite Eb2.
  erewrite bind_run by reflexivity. cbn beta iota. erewrite bind_run by (by eapply obj_set_run).
  change (obj_in (set_sr_result_code res r)) with (ObjStorageReq (set_sr_result_code res r)).
  set (w1 := set_w_heap _ w).
  assert (w_heap w1 !! sr_item r = Some (ObjStorageUnit u)) as Hu1 by (cbn; by rewrite lookup_insert_ne).
  assert (answered req r res u w = w1) as Hsame.
  { unfold answered, w1. f_equal. apply insert_id. by rewrite lookup_insert_ne. }
  case_bool_decide; [|exists res, None, b2; cbn [item_unit]; by rewrite Hsame].
  destruct (guint32_get_safe (u_count (e_uninit E)) b2 Hb2) as (n & b3 & Eb3 & Hb3 & _). rewrite Eb3.
  erewrite bind_run by reflexivity. cbn beta iota.
  destruct (0 <? n); [|exists res, None, b3; cbn [item_unit]; by rewrite Hsame].
  destruct (guint32_get_safe (u_junk (e_uninit E)) b3 Hb3) as (? & b4 & Eb4 & Hb4 & _). rewrite Eb4.
  erewrite bind_run by reflexivity. cbn beta iota. erewrite bind_run by (by apply obj_deref_run).
  destruct (guint32_get_safe (su_key u) b4 Hb4) as (key & b5 & Eb5 & Hb5 & _). rewrite Eb5.
  erewrite bind_run by reflexivity. cbn beta iota.
  destruct (mwOpaque_get_safe b5 Hb5) as (d & b6 & Eb6 & Hb6 & _). rewrite Eb6.
  erewrite bind_run by reflexivity. cbn beta iota. erewrite bind_run by (by eapply obj_set_run).
  by exists res, (Some (key, d)), b6.
Qed.

(** ** Blocks are freed *)

Lemma unit_free_run item u w : w_heap w !! item = Some (ObjStorageUnit u) ->
  mwStorageUnit_free item w = Some (tt, if item =? 0 then w else set_w_heap (delete item (w_heap w)) w).
Proof.
  intros Hu. unfold mwStorageUnit_free. destruct (item =? 0); [done|].
  erewrite bind_run by (by eapply obj_set_run). unfold free_object. cbn. rewrite lookup_insert_eq.
  by rewrite delete_insert_eq.
Qed.

(** Neither the request nor its unit. *)
Definition without_request (req : Z) (r : mwStorageReq) (h : gmap Z object) : gmap Z object :=
  delete req (if sr_item r =? 0 then h else delete (sr_item r) h).

(** The library's part of freeing a request; the client frees its data. *)
Lemma request_free_run L R w req r : (forall f d w, exists w', sc_free cl f d w = Some (tt, w')
    /\ w_heap w' = w_heap w /\ w_next w <= w_next w') ->
  requests srvc L R w -> w_heap w !! req = Some (ObjStorageReq r) ->
  exists w', request_free cl req w = Some (tt, w')
    /\ w_heap w' = without_request req r (w_heap w).
Proof.
  intros Hf I Hr. destruct (rq_item _ _ _ _ I req r Hr) as [u Hu]. assert (sr_item r <> req) as Hne by congruence.
  unfold request_free. erewrite bind_run by (by apply obj_deref_run).
  assert (exists w1 r1, (if sr_data_free r =? 0 then ret tt
     else sc_free cl (sr_data_free r) (sr_data r) ;; obj_set req clear_sr_data) w = Some (tt, w1)
     /\ w_heap w1 = <[req := ObjStorageReq r1]> (w_heap w) /\ sr_item r1 = sr_item r) as (w1 & r1 & E1 & Hw1 & Hi).
  { destruct (sr_data_free r =? 0).
    { exists w, r. split_and!; [done| |done]. by rewrite insert_id. }
    destruct (Hf (sr_data_free r) (sr_data r) w) as (w1 & E1 & H1 & _). erewrite bind_run by exact E1.
    erewrite obj_set_run by (rewrite H1; exact Hr). cbn. rewrite H1. by eexists _, _. }
  erewrite bind_run by exact E1. erewrite bind_run by (apply obj_get_run; rewrite Hw1; apply lookup_insert_eq).
  rewrite Hi. erewrite bind_run by (apply (unit_free_run _ u); by rewrite Hw1, lookup_insert_ne).
  unfold free_object, without_request. destruct (sr_item r =? 0); cbn.
  - rewrite Hw1, lookup_insert_eq, delete_insert_eq. by eexists.
  - rewrite Hw1, lookup_delete_ne, lookup_insert_eq by done. eexists. split; [done|]. cbn.
    rewrite delete_insert_ne by done. by rewrite delete_insert_eq.
Qed.

Lemma request_remove_run L w req r : (forall f d w, exists w', sc_free cl f d w = Some (tt, w')
    /\ w_heap w' = w_heap w /\ w_next w <= w_next w') ->
  requests srvc L L w -> w_heap w !! req = Some (ObjStorageReq r) ->
  exists s w', w_heap w !! srvc = Some (ObjStorage s) /\ request_remove cl srvc req w = Some (tt, w')
    /\ w_heap w' = without_request req r (<[srvc := ObjStorage (set_st_pending (filter (fun p => p <> req) L) s)]> (w_heap w)).
Proof.
  intros Hf I Hr. destruct (rq_list _ _ _ _ I) as (s & Hs & HL). unfold request_remove.
  assert (obj_set srvc (fun s => set_st_pending (filter (fun p => p <> req) (st_pending s)) s) w
    = Some (tt, set_w_heap (<[srvc := ObjStorage (set_st_pending (filter (fun p => p <> req) L) s)]> (w_heap w)) w)) as Es.
  { erewrite obj_set_run by exact Hs. by rewrite HL. }
  destruct (requests_list srvc L L w _ _ I Es) as (s1 & _ & I1). rewrite (bind_run _ _ _ _ _ Es).
  destruct (request_free_run _ L _ req r Hf I1) as (w' & E' & Hw').
  { cbn. rewrite lookup_insert_ne; [done|]. congruence. }
  exists s, w'. split_and!; [done|exact E'|exact Hw'].
Qed.

(** ** Any bytes are taken safely *)

(** Whatever bytes come on the channel of the service, under whatever
    type, taking them uses only live requests and units and frees each block
    once; the service is well-formed afterwards. *)
Theorem store_recv_safe w chan type d :
  EnvFrame (keeps_store srvc) E -> client_total srvc cl -> store_inv srvc w ->
  opaque_ok d -> len d < 2 ^ 64 ->
  exists w', recv E cl srvc chan type d w = Some (tt, w') /\ store_inv srvc w'.
Proof.
  intros EF CT I Hd Hl. cut (exists w', recv E cl srvc chan type d w = Some (tt, w')).
  { intros [w' E']. exists w'. split; [done|]. exact (keeps_recv srvc E cl (client_total_ok _ _ CT) chan type d w tt w' I E'). }
  destruct I as [L I]. destruct (rq_list _ _ _ _ I) as (s & Hs & HL). unfold recv.
  erewrite bind_run by (by apply obj_get_run). case_bool_decide; [|by eexists]. cbn [negb].
  pose proof (mwGetBuffer_wrap_ready d Hd Hl) as (Hb & He & _). cbn zeta.
  destruct (guint32_peek_safe _ Hb) as [id Hid]. erewrite bind_run by (apply lift_run, Hid).
  destruct (request_find_run L w id I) as (o & Eo & Ho). erewrite bind_run by exact Eo.
  destruct o as [req|]; [|by eexists]. destruct Ho as (l1 & l2 & r & _ & _ & Hr & _).
  erewrite bind_run by (by apply obj_deref_run). destruct (_ =? type); [|by eexists]. cbn [negb].
  destruct (rq_item _ _ _ _ I req r Hr) as [u Hu].
  destruct (request_get_run w req r u _ Hb He Hr Hu) as (res & o & b1 & _ & _ & E1).
  set (w1 := answered _ _ _ _ _) in E1. set (r1 := set_sr_result_code res r).
  assert (w_heap w1 !! req = Some (ObjStorageReq r1)) as Hr1 by (apply (answered_req w req r u res); done).
  assert (store_inv srvc w1) as [L1 I1].
  { refine (keeps_request_get srvc E _ req w b1 w1 _ E1). by exists L. }
  erewrite bind_run by exact E1.
  assert (exists w2 r2, (if mwGetBuffer_error b1 then ret tt else request_trigger cl srvc req) w1 = Some (tt, w2)
    /\ store_inv srvc w2 /\ w_heap w2 !! req = Some (ObjStorageReq r2)) as (w2 & r2 & E2 & [L2 I2] & Hr2).
  { destruct (mwGetBuffer_error b1); [exists w1, r1; split_and!; [done|by exists L1|done]|].
    unfold request_trigger. erewrite bind_run by (by apply obj_deref_run).
    destruct (rq_item _ _ _ _ I1 req r1 Hr1) as [u1 Hu1]. erewrite bind_run by (by apply obj_deref_run).
    destruct (sr_cb r1 =? 0); [exists w1, r1; split_and!; [done|by exists L1|done]|].
    destruct (ct_cb _ _ CT (sr_cb r1) srvc (sr_result_code r1) (sr_item r1) (sr_data r1) w1) as (w2 & E2 & I2 & Hk);
      [by exists L1|]. exists w2, r1. split_and!; [done..|by apply Hk]. }
  erewrite bind_run by exact E2.
  destruct (request_remove_run L2 w2 req r2 (ct_free _ _ CT) I2 Hr2) as (_ & w' & _ & E' & _). by exists w'.
Qed.

(** ** What an answer does *)

(** The answers of the server: a unit was saved; a load found nothing, or found
    items, of which the first is looked at. *)
Inductive answer :=
| ans_saved
| ans_none
| ans_item (count junk key : Z) (d : mwOpaque).

Definition answer_action (a : answer) : storage_action :=
  match a with ans_saved => action_saved | _ => action_loaded end.

Definition answer_enc (id res : Z) (a : answer) : list Z :=
  MW32_PUT id ++ MW32_PUT res ++
  match a with
  | ans_saved => []
  | ans_none => MW32_PUT 0
  | ans_item count junk key d => MW32_PUT count ++ MW32_PUT junk ++ MW32_PUT key ++ mwOpaque_enc d
  end.

Definition answer_ok (a : answer) : Prop :=
  match a with
  | ans_item count junk key d => is_u32 count /\ 0 < count /\ is_u32 junk /\ is_u32 key /\ mwOpaque_ok d
  | _ => True
  end.

Definition answer_item (a : answer) : option (Z * mwOpaque) :=
  match a with ans_item _ _ key d => Some (key, mwOpaque_norm d) | _ => None end.

Lemma reply_get_parses id res a old key : is_u32 id -> is_u32 res -> answer_ok a ->
  parses (reply_get (bool_decide (answer_action a = action_loaded)) old key) (answer_enc id res a) (res, answer_item a).
Proof.
  intros Hid Hres Ha. unfold reply_get, answer_enc. destruct a as [| |count junk k d]; cbn [answer_action answer_item].
  - rewrite bool_decide_eq_false_2 by done. parses_tac.
  - rewrite bool_decide_eq_true_2 by done.
    do 2 (eapply parses_bind; [by apply guint32_get_parses|intros ?; safe_tac|]).
    eapply parses_bind_last; [by apply guint32_get_parses|intros ?; safe_tac|apply parses_ret].
  - rewrite bool_decide_eq_true_2 by done. destruct Ha as (Hc & Hc0 & Hj & Hk & Hd).
    do 3 (eapply parses_bind; [by apply guint32_get_parses|intros ?; safe_tac|]).
    replace (0 <? count) with true by lia. parses_tac.
Qed.

(** Ids tell the requests that wait apart. *)
Definition distinct_ids (w : world) (L : list Z) : Prop :=
  forall p q r r', p ∈ L -> q ∈ L -> w_heap w !! p = Some (ObjStorageReq r) -> w_heap w !! q = Some (ObjStorageReq r') ->
    sr_id r = sr_id r' -> p = q.

Lemma request_find_id w L req r : requests srvc L L w -> distinct_ids w L ->
  w_heap w !! req = Some (ObjStorageReq r) -> request_find srvc (sr_id r) w = Some (Some req, w).
Proof.
  intros I Hd Hr. assert (req ∈ L) as Hin by (apply (rq_heap _ _ _ _ I); by exists r).
  destruct (request_find_run L w (sr_id r) I) as ([p|] & Eo & Ho).
  - destruct Ho as (l1 & l2 & r' & -> & _ & Hp & Hid). assert (p = req) as ->; [|done].
    eapply Hd; [|done|done..]. apply elem_of_app. right. left.
  - by destruct (Ho req r Hin Hr).
Qed.

(** The head of the data is the id that [guint32_peek] shows. *)
Lemma peek_head d id rest : opaque_ok d -> len d < 2 ^ 64 -> is_u32 id ->
  opaque_data d = MW32_PUT id ++ rest -> guint32_peek (mwGetBuffer_wrap (Some d)) = Some id.
Proof.
  intros Hd Hl Hid Ed. pose proof (mwGetBuffer_wrap_ready d Hd Hl) as Hg.
  pose proof (gb_ready_len _ _ Hg) as Hr. rewrite Ed in Hg, Hr.
  rewrite zlen_app, MW32_PUT_len in Hr. pose_zlen. unfold guint32_peek.
  replace (guint32_buflen <=? _) with true by (unfold guint32_buflen; lia).
  destruct (wrap_head d _ _ Hg) as [t ->].
  change guint32_buflen with (zlen (MW32_PUT id)). rewrite mem_read_prefix. cbn [mbind option_bind].
  by rewrite MW32_GET_PUT, u32_id.
Qed.

Lemma peek_answer d id res a rest : opaque_ok d -> len d < 2 ^ 64 -> is_u32 id ->
  opaque_data d = answer_enc id res a ++ rest -> guint32_peek (mwGetBuffer_wrap (Some d)) = Some id.
Proof. unfold answer_enc. rewrite <- app_assoc. apply peek_head. Qed.

Lemma peek_truncated d id res a k : opaque_ok d -> len d < 2 ^ 64 -> 4 <= len d -> is_u32 id ->
  answer_enc id res a = opaque_data d ++ k -> guint32_peek (mwGetBuffer_wrap (Some d)) = Some id.
Proof.
  intros Hd Hl H4 Hid Ed. pose proof (opaque_ok_len d Hd) as Hlen. unfold answer_enc in Ed.
  apply (f_equal (take 4)) in Ed. rewrite take_app_le in Ed by (change (length (MW32_PUT id)) with 4%nat; lia).
  rewrite take_app_le in Ed by (unfold zlen in Hlen; lia). apply (peek_head d id (drop 4 (opaque_data d))); [done..|].
  rewrite <- (take_drop 4 (opaque_data d)) at 1. rewrite <- Ed. done.
Qed.

(** What is left when an answered request is removed. *)
Lemma answered_remove L w req r u v s res w2 :
  (forall f x w, exists w', sc_free cl f x w = Some (tt, w') /\ w_heap w' = w_heap w /\ w_next w <= w_next w') ->
  requests srvc L L w -> w_heap w !! srvc = Some (ObjStorage s) ->
  w_heap w !! req = Some (ObjStorageReq r) -> w_heap w !! sr_item r = Some (ObjStorageUnit u) -> sr_item r <> 0 ->
  w_heap w2 = w_heap (answered req r res v w) -> w_next w <= w_next w2 ->
  exists w', request_remove cl srvc req w2 = Some (tt, w')
    /\ w_heap w' = delete req (delete (sr_item r)
         (<[srvc := ObjStorage (set_st_pending (filter (fun p => p <> req) L) s)]> (w_heap w))).
Proof.
  intros Hf I Hs Hr Hu Hnz Hw2 Hn2.
  assert (sr_item r <> req /\ sr_item r <> srvc /\ req <> srvc) as (Hne & Hne1 & Hne2) by (split_and!; congruence).
  pose proof (answered_req w req r u res v Hr Hu) as Hr2. rewrite <- Hw2 in Hr2.
  assert (requests srvc L L w2) as I2.
  { eapply (requests_same _ _ _ (answered req r res v w)); [done|exact Hn2|]. eapply requests_shape; [exact I|..].
    - apply (below_sub w); [apply I|]. cbn. intros q [o Hq].
      apply lookup_insert_Some in Hq as [[<- _]|[_ Hq]]; [by eexists|].
      apply lookup_insert_Some in Hq as [[<- _]|[_ Hq]]; by eexists.
    - intros q. cbn. rewrite (shape_insert _ _ (ObjStorageUnit u)); [by eapply shape_insert| |done].
      by rewrite lookup_insert_ne.
    - exists s. cbn. rewrite !lookup_insert_ne by done. split; [done|].
      destruct (rq_list _ _ _ _ I) as (s' & Hs' & HL). congruence. }
  destruct (request_remove_run L w2 req _ Hf I2 Hr2) as (s2 & w' & Hs2 & E' & Hw').
  exists w'. split; [exact E'|]. rewrite Hw', Hw2. unfold without_request. cbn.
  replace (sr_item r =? 0) with false by lia. assert (s2 = s) as ->.
  { rewrite Hw2 in Hs2. cbn in Hs2. rewrite !lookup_insert_ne in Hs2 by done. congruence. }
  rewrite (insert_insert_ne _ srvc (sr_item r)), (insert_insert_ne _ srvc req) by done.
  rewrite delete_insert_eq. rewrite (delete_insert_ne _ (sr_item r) req) by done. by rewrite delete_insert_eq.
Qed.

(** The request an answer is to, as [recv] finds it. *)
Lemma recv_found L w chan req r s d id : requests srvc L L w -> distinct_ids w L ->
  w_heap w !! srvc = Some (ObjStorage s) -> st_channel s = Some chan -> w_heap w !! req = Some (ObjStorageReq r) ->
  guint32_peek (mwGetBuffer_wrap (Some d)) = Some id -> sr_id r = id ->
  recv E cl srvc chan (storage_action_code (sr_action r)) d w =
  (let* b := request_get E (mwGetBuffer_wrap (Some d)) req in
   (if mwGetBuffer_error b then ret tt else request_trigger cl srvc req) ;;
   request_remove cl srvc req) w.
Proof.
  intros I Hids Hs Hchan Hr Hp <-. unfold recv. erewrite bind_run by (by apply obj_get_run).
  rewrite bool_decide_eq_true_2 by done. cbn [negb]. cbn zeta. erewrite bind_run by exact (lift_run _ _ w Hp).
  erewrite bind_run by exact (request_find_id w L req r I Hids Hr). cbn iota.
  erewrite bind_run by (by apply obj_deref_run). by rewrite Z.eqb_refl.
Qed.

(** C22: an answer reaches its request.  If a request [req] waits that has the
    id of the answer and has been sent as a load (a save), then its callback is
    called, once, with the answer's result and the request's unit, which by
    then holds the key and the bytes of the answer; afterwards exactly the
    request and its unit are gone, from the heap and from the list. *)
Theorem store_answer L w chan req r u s res a d rest w2 :
  (forall f x w, exists w', sc_free cl f x w = Some (tt, w') /\ w_heap w' = w_heap w /\ w_next w <= w_next w') ->
  requests srvc L L w -> distinct_ids w L ->
  w_heap w !! srvc = Some (ObjStorage s) -> st_channel s = Some chan ->
  w_heap w !! req = Some (ObjStorageReq r) -> w_heap w !! sr_item r = Some (ObjStorageUnit u) -> sr_item r <> 0 ->
  sr_action r = answer_action a -> is_u32 (sr_id r) -> is_u32 res -> answer_ok a ->
  opaque_ok d -> len d < 2 ^ 64 -> opaque_data d = answer_enc (sr_id r) res a ++ rest ->
  let w1 := answered req r res (item_unit (answer_item a) u) w in
  sr_cb r <> 0 -> sc_cb cl (sr_cb r) srvc res (sr_item r) (sr_data r) w1 = Some (tt, w2) ->
  w_heap w2 = w_heap w1 -> w_next w <= w_next w2 ->
  exists w', recv E cl srvc chan (storage_action_code (sr_action r)) d w = Some (tt, w')
    /\ w_heap w' = delete req (delete (sr_item r)
         (<[srvc := ObjStorage (set_st_pending (filter (fun p => p <> req) L) s)]> (w_heap w))).
Proof.
  intros Hf I Hids Hs Hchan Hr Hu Hnz Hact Hid Hres Ha Hd Hl Ed w1 Hcb Ecb Hw2 Hn2.
  rewrite (recv_found L w chan req r s d (sr_id r)); [|done..|by eapply peek_answer|done].
  pose proof (mwGetBuffer_wrap_ready d Hd Hl) as Hg. rewrite Ed in Hg.
  destruct (request_get_run w req r u _ (proj1 Hg) (proj1 (proj2 Hg)) Hr Hu) as (res' & o & b & _ & Ep & Eg).
  destruct (reply_get_parses (sr_id r) res a (sr_result_code r) (su_key u) Hid Hres Ha) as (Rd & _ & _).
  destruct (Rd _ _ Hg) as (b' & Ep' & (_ & Hb & _) & _). rewrite Hact, Ep' in Ep. injection Ep as <- <- <-.
  erewrite bind_run by exact Eg. fold w1. unfold mwGetBuffer_error. rewrite Hb.
  assert (request_trigger cl srvc req w1 = Some (tt, w2)) as Et.
  { unfold request_trigger. erewrite bind_run by (apply obj_deref_run; by eapply answered_req).
    erewrite bind_run by (apply obj_deref_run, lookup_insert_eq). cbn. by replace (sr_cb r =? 0) with false by lia. }
  erewrite bind_run by exact Et. by eapply answered_remove.
Qed.

End answers.

(** An answer that breaks off anywhere after its id and before its end
    drops the request it is to: the request and its unit are freed and leave
    the list, and the client is not told -- the outcome is the same whatever
    its callback would do. *)
Theorem store_truncated_answer srvc E sc_free L w chan req r u s res a d k :
  (forall f x w, exists w', sc_free f x w = Some (tt, w') /\ w_heap w' = w_heap w /\ w_next w <= w_next w') ->
  requests srvc L L w -> distinct_ids w L ->
  w_heap w !! srvc = Some (ObjStorage s) -> st_channel s = Some chan ->
  w_heap w !! req = Some (ObjStorageReq r) -> w_heap w !! sr_item r = Some (ObjStorageUnit u) -> sr_item r <> 0 ->
  sr_action r = answer_action a -> is_u32 (sr_id r) -> is_u32 res -> answer_ok a ->
  opaque_ok d -> len d < 2 ^ 64 -> 4 <= len d -> k <> [] -> answer_enc (sr_id r) res a = opaque_data d ++ k ->
  exists w',
    (forall cb, recv E {| sc_cb := cb; sc_free := sc_free |} srvc chan (storage_action_code (sr_action r)) d w
      = Some (tt, w'))
    /\ w_heap w' = delete req (delete (sr_item r)
         (<[srvc := ObjStorage (set_st_pending (filter (fun p => p <> req) L) s)]> (w_heap w))).
Proof.
  intros Hf I Hids Hs Hchan Hr Hu Hnz Hact Hid Hres Ha Hd Hl Hl4 Hk Ed.
  pose proof (mwGetBuffer_wrap_ready d Hd Hl) as Hg.
  destruct (request_get_run E w req r u _ (proj1 Hg) (proj1 (proj2 Hg)) Hr Hu) as (res' & o & b & _ & Ep & Eg).
  destruct (reply_get_parses E (sr_id r) res a (sr_result_code r) (su_key u) Hid Hres Ha) as (_ & Tr & _).
  destruct (Tr _ _ k Hg Hk Ed) as (x & b' & Ep' & _ & Hb). rewrite Hact, Ep' in Ep. injection Ep as -> ->.
  destruct (answered_remove srvc {| sc_cb _ _ _ _ _ := crash; sc_free := sc_free |} L w req r u (item_unit o u) s res'
    (answered req r res' (item_unit o u) w)) as (w' & E' & Hw'); try done.
  exists w'. split; [|exact Hw']. intros cb.
  rewrite (recv_found srvc E _ L w chan req r s d (sr_id r)); [|done..|by eapply peek_truncated|done].
  erewrite bind_run by exact Eg. unfold mwGetBuffer_error. rewrite Hb. erewrite bind_run by reflexivity. exact E'.
Qed.
