(* ===== verification/StoreUnit.v ===== *)
(** * The storage service: units, and the requests that wait for a channel

    What is put into a unit is what is got from it; when the channel is
    accepted the requests that wait are sent, in their order.  Concrete runs
    of the service. *)

From S2P Require Import Prelude Buffer Common Message Framing World Rc2 Cipher Service Session.
From S2P Require Import Channel Store Dispatch Frame Delivery Protocol ChannelSpec Secure StoreSpec StoreRecv.
#[local] Open Scope Z_scope.
#[local] Open Scope mw_scope.

(** ** Units *)

(** What is put into a new buffer, stored in a unit and read again. *)
Lemma unit_run {A} (put : Put) (m : Get A) e v key w : writes put e -> parses m e v -> zlen e <= pb_max ->
  exists p b d, put mwPutBuffer_new = Some b
    /\ obj_new {| su_key := key; su_data := mwPutBuffer_finalize b |} w
       = Some (p, set_w_next (w_next w + 1) (set_w_heap (<[p := ObjStorageUnit {| su_key := key; su_data := d |}]> (w_heap w)) w))
    /\ exists b', m (mwGetBuffer_wrap (Some d)) = Some (v, b') /\ mwGetBuffer_error b' = false.
Proof.
  intros Hw Hp Hm. destruct (finalize_writes _ _ Hw Hm) as (b & Eb & Ho & Hl & Hd).
  exists (w_next w), b, (mwPutBuffer_finalize b). split_and!; [done|done|].
  pose proof (mwGetBuffer_wrap_ready (mwPutBuffer_finalize b) Ho ltac:(unfold pb_max in *; lia)) as Hg.
  rewrite Hd, <- (app_nil_r e) in Hg. destruct Hp as (R & _ & _). destruct (R _ _ Hg) as (b' & E' & (_ & He & _) & _).
  by exists b'.
Qed.

(** A value that is put into a storage unit is the value the unit gives:
    an integer, a boolean, a string (the empty one comes back as NULL) and a
    block of bytes; and a unit whose data is too short for an integer gives
    the default instead. *)
Theorem storage_units_roundtrip key w :
  (forall v dflt, is_u32 v -> exists p w', mwStorageUnit_newInteger key v w = Some (p, w')
    /\ mwStorageUnit_asInteger (Some p) dflt w' = Some (v, w'))
  /\ (forall v dflt, exists p w', mwStorageUnit_newBoolean key v w = Some (p, w')
    /\ mwStorageUnit_asBoolean (Some p) dflt w' = Some (v, w'))
  /\ (forall s, mwString_ok s -> exists p w', mwStorageUnit_newString key s w = Some (p, w')
    /\ mwStorageUnit_asString (Some p) w' = Some (mwString_norm s, w'))
  /\ (forall d, opaque_ok d -> exists p w' d', mwStorageUnit_newOpaque key (Some d) w = Some (p, w')
    /\ mwStorageUnit_asOpaque (Some p) w' = Some (Some d', w') /\ opaque_data d' = opaque_data d)
  /\ (forall d dflt, opaque_ok d -> len d < 4 -> exists p w', mwStorageUnit_newOpaque key (Some d) w = Some (p, w')
    /\ mwStorageUnit_asInteger (Some p) dflt w' = Some (dflt, w')).
Proof.
  assert (forall v dflt, is_u32 v -> exists p w', mwStorageUnit_newInteger key v w = Some (p, w')
    /\ mwStorageUnit_asInteger (Some p) dflt w' = Some (v, w')) as Hint.
  { intros v dflt Hv. destruct (unit_run (guint32_put v) (guint32_get 0) (MW32_PUT v) v key w)
      as (p & b & d & Eb & En & b' & Eg & He); [apply guint32_put_writes|by apply guint32_get_parses|done|].
    eexists p, _. unfold mwStorageUnit_newInteger. erewrite bind_run by (by apply lift_run). split; [exact En|].
    unfold mwStorageUnit_asInteger. erewrite bind_run by (apply obj_get_run, lookup_insert_eq). cbn [su_data].
    erewrite bind_run by (by apply lift_run). cbn beta iota. by rewrite He. }
  split_and!; [exact Hint|..].
  - intros v dflt. destruct (Hint (Z.b2z v) (Z.b2z dflt)) as (p & w' & En & Eg); [by destruct v|].
    exists p, w'. split; [exact En|]. unfold mwStorageUnit_asBoolean. rewrite (bind_run _ _ _ _ _ Eg). by destruct v.
  - intros s Hs. destruct (unit_run (mwString_put s) mwString_get (mwString_enc s) (mwString_norm s) key w)
      as (p & b & d & Eb & En & b' & Eg & He); [apply mwString_put_writes|by apply mwString_get_parses|..].
    { destruct Hs as [_ Hs]. unfold mwString_enc, pb_max. rewrite zlen_app, MW16_PUT_len. lia. }
    eexists p, _. unfold mwStorageUnit_newString. erewrite bind_run by (by apply lift_run). split; [exact En|].
    unfold mwStorageUnit_asString. erewrite bind_run by (apply obj_get_run, lookup_insert_eq). cbn [su_data].
    by erewrite bind_run by (by apply lift_run).
  - intros d Hd. destruct (clone_same_bytes d Hd) as (d' & Hcl & Hl' & Hb'). eexists _, _, d'.
    unfold mwStorageUnit_newOpaque. erewrite bind_run by (by apply lift_run). split; [reflexivity|].
    unfold mwStorageUnit_asOpaque. erewrite bind_run by (apply obj_get_run, lookup_insert_eq). cbn.
    split; [done|]. unfold opaque_data. by rewrite Hb'.
  - intros d dflt Hd Hl. destruct (clone_same_bytes d Hd) as (d' & Hcl & Hl' & Hb'). eexists _, _.
    unfold mwStorageUnit_newOpaque. erewrite bind_run by (by apply lift_run). split; [reflexivity|].
    unfold mwStorageUnit_asInteger. erewrite bind_run by (apply obj_get_run, lookup_insert_eq). cbn [su_data].
    assert (opaque_ok d') as Hd' by (destruct Hd; split; [lia|by rewrite Hb']).
    destruct (mwGetBuffer_wrap_ready d' Hd' ltac:(lia)) as (Hwf & He & Hv).
    assert (gb_rem (mwGetBuffer_wrap (Some d')) = len d') as Hr by (rewrite <- (gb_view_len _ Hwf), Hv; by apply opaque_ok_len).
    erewrite bind_run; [|apply lift_run; unfold guint32_get, get_fixed; rewrite He, check_buffer_short; [reflexivity|done|]].
    + done.
    + change guint32_buflen with 4. lia.
Qed.

(** ** The channel is accepted *)

(** A request that was sent. *)
Definition sent (o : object) : object :=
  match o with
  | ObjStorageReq r =>
      ObjStorageReq (match sr_action r with
                     | action_save => set_sr_action action_saved r
                     | action_load => set_sr_action action_loaded r
                     | _ => r
                     end)
  | _ => o
  end.

(** The request at [p] waits to be sent, by the call [x] on the channel. *)
Definition to_send (h : gmap Z object) (p : Z) (x : send_args) : Prop :=
  exists r u b, h !! p = Some (ObjStorageReq r) /\ h !! sr_item r = Some (ObjStorageUnit u)
    /\ (sr_action r = action_save \/ sr_action r = action_load)
    /\ request_put r u mwPutBuffer_new = Some b
    /\ x = (storage_action_code (sr_action r), Some (mwPutBuffer_finalize b), true).

Section accept.
Context (E : Env) (r : list Z -> Z) (Hr : pure_writes E r) (Hok : forall b, r b = 0).

Lemma request_send_run chan ch req x w ci m e : to_send (w_heap w) req x ->
  w_channels w !! chan = Some ch -> ch_state ch = mwChannel_OPEN ->
  prepared (w_ciphers w) (ch_id ch) (ch_cipher ch) x.1.1 x.1.2 x.2 = Some (ci, m) -> written r m = Some e ->
  request_send E (Some chan) req w
  = Some (0, set_w_heap (alter sent req (w_heap w)) (with_log [e] (with_channel chan (set_ch_cipher ci ch) w))).
Proof.
  intros (rq & u & b & Hreq & Hu & Hact & Eb & ->) Hc Hst Hp Hw. cbn [fst snd] in Hp. unfold request_send.
  erewrite bind_run by (by apply obj_deref_run). erewrite bind_run by (by apply obj_deref_run).
  erewrite bind_run by (by apply lift_run). cbn [mwChannel_send_to]. destruct (mwChannel_send_open E r Hr chan ch _ _ w ci m e Hc Hst Hp Hw) as (bs & _ & Es).
  erewrite bind_run by (exact Es). rewrite Hok.
  change (0 =? 0) with true. cbn iota.
  erewrite bind_run by (apply (obj_set_run _ _ rq); exact Hreq). unfold ret. do 2 f_equal.
  assert (alter sent req (w_heap w) = <[req := sent (ObjStorageReq rq)]> (w_heap w)) as ->; [|done].
  apply map_eq. intros q. destruct (decide (q = req)) as [->|].
  - by rewrite lookup_alter_eq, Hreq, lookup_insert_eq.
  - by rewrite lookup_alter_ne, lookup_insert_ne by done.
Qed.

(** The requests [l] were sent. *)
Definition all_sent (l : list Z) (h : gmap Z object) : gmap Z object := foldl (fun h p => alter sent p h) h l.

Lemma to_send_alter h p q x : q <> p -> to_send h q x -> to_send (alter sent p h) q x.
Proof.
  intros Hne (rq & u & b & Hreq & Hu & Hrest). exists rq, u, b. split; [by rewrite lookup_alter_ne|split; [|exact Hrest]].
  destruct (decide (sr_item rq = p)) as [<-|]; [|by rewrite lookup_alter_ne]. by rewrite lookup_alter_eq, Hu.
Qed.

Lemma to_send_others h p l calls : p ∉ l -> Forall2 (to_send h) l calls -> Forall2 (to_send (alter sent p h)) l calls.
Proof.
  intros Hp H. induction H as [|q x l calls Hx H IH]; [done|]. apply not_elem_of_cons in Hp as [Hne Hp].
  constructor; [by apply to_send_alter|by apply IH].
Qed.

Lemma accept_loop srvc chan pending l calls w ch ci ms es :
  (exists s, w_heap w !! srvc = Some (ObjStorage s) /\ st_pending s = pending) -> NoDup l ->
  Forall2 (to_send (w_heap w)) l calls ->
  w_channels w !! chan = Some ch -> ch_state ch = mwChannel_OPEN ->
  prepared_all (w_ciphers w) (ch_id ch) (ch_cipher ch) calls = Some (ci, ms) -> written_all r ms = Some es ->
  for_pending srvc (fun req =>
    let* rq := obj_deref req in
    if bool_decide (sr_action rq = action_save) || bool_decide (sr_action rq = action_load)
    then request_send E (Some chan) req ;; ret tt else ret tt) pending l w
  = Some (tt, set_w_heap (all_sent l (w_heap w)) (with_log es (with_channel chan (set_ch_cipher ci ch) w))).
Proof.
  intros Hs Hnd Hl Hc Hst. revert w ch ci ms es Hs Hc Hst Hl.
  revert calls. induction l as [|p l IH]; intros calls w ch ci ms es Hs Hc Hst Hl Hp Hw.
  { apply Forall2_nil_inv_l in Hl as ->. cbn in Hp. injection Hp as <- <-. injection Hw as <-. cbn.
    rewrite set_cipher_same, with_channel_same by done. unfold with_log. rewrite app_nil_r. by destruct w. }
  apply Forall2_cons_inv_l in Hl as (x & calls' & Hx & Hl & ->). apply NoDup_cons in Hnd as [Hnin Hnd].
  destruct x as [[t d] enc]. cbn [prepared_all] in Hp.
  destruct (prepared _ _ _ t d enc) as [[ci1 m]|] eqn:Ep; cbn [mbind option_bind] in Hp; [|done].
  destruct (prepared_all _ _ ci1 calls') as [[ci2 ms']|] eqn:Ea; cbn [mbind option_bind] in Hp; [|done].
  injection Hp as <- <-. cbn [written_all] in Hw. destruct (written r m) as [e|] eqn:Em; cbn [mbind option_bind] in Hw; [|done].
  destruct (written_all r ms') as [es'|] eqn:Ew; cbn [mbind option_bind] in Hw; [|done]. injection Hw as <-.
  cbn [for_pending]. pose proof Hx as (rq & u & b & Hreq & Hu & Hact & _).
  set (w1 := set_w_heap (alter sent p (w_heap w)) (with_log [e] (with_channel chan (set_ch_cipher ci1 ch) w))).
  assert ((let* rq := obj_deref p in
    if bool_decide (sr_action rq = action_save) || bool_decide (sr_action rq = action_load)
    then request_send E (Some chan) p ;; ret tt else ret tt) w = Some (tt, w1)) as E1.
  { erewrite bind_run by (by apply obj_deref_run).
    replace (_ || _) with true by (symmetry; by destruct Hact as [-> | ->]).
    by erewrite bind_run by (by eapply request_send_run). }
  erewrite bind_run by exact E1. destruct Hs as (s & Hs & HL).
  assert (w_heap w1 !! srvc = Some (ObjStorage s)) as Hs1.
  { cbn. rewrite lookup_alter_ne by congruence. done. }
  erewrite bind_run by (by apply obj_get_run). rewrite bool_decide_eq_true_2 by done.
  etrans; [apply (IH Hnd calls' w1 (set_ch_cipher ci1 ch) ci2 ms' es'); cbn; [by exists s|apply lookup_insert_eq|done
    |by apply to_send_others|done..]|].
  unfold w1, with_log, with_channel. cbn. by rewrite insert_insert_eq, <- app_assoc.
Qed.

(** C23: when the server accepts the channel of the service, every request that
    waits is sent over it, each once and in the order the client made them;
    each is marked as sent, and the service has started.  [calls] are the
    requests' messages, [ms] what the channel's cipher makes of them and [es]
    their writes. *)
Theorem store_accept_sends srvc chan msg L calls w ch s sv ci ms es :
  requests srvc L L w -> w_heap w !! srvc = Some (ObjStorage s) -> st_channel s = Some chan ->
  w_services w !! srvc = Some sv -> Forall2 (to_send (w_heap w)) L calls ->
  w_channels w !! chan = Some ch -> ch_state ch = mwChannel_OPEN ->
  prepared_all (w_ciphers w) (ch_id ch) (ch_cipher ch) calls = Some (ci, ms) -> written_all r ms = Some es ->
  exists w', recv_channelAccept E srvc chan msg w = Some (tt, w')
    /\ w_log w' = w_log w ++ es
    /\ w_heap w' = all_sent L (w_heap w)
    /\ w_channels w' = <[chan := set_ch_cipher ci ch]> (w_channels w)
    /\ sv_state <$> (w_services w' !! srvc) = Some mwServiceState_STARTED.
Proof.
  intros I Hs Hchan Hsv Hl Hc Hst Hp Hw. destruct (rq_list _ _ _ _ I) as (s' & Hs' & HL).
  assert (s' = s) as -> by congruence. unfold recv_channelAccept.
  erewrite bind_run by (by apply obj_get_run). rewrite bool_decide_eq_true_2 by done. cbn [negb].
  assert (each_pending srvc (fun req =>
    let* rq := obj_deref req in
    if bool_decide (sr_action rq = action_save) || bool_decide (sr_action rq = action_load)
    then request_send E (Some chan) req ;; ret tt else ret tt) w
    = Some (tt, set_w_heap (all_sent L (w_heap w)) (with_log es (with_channel chan (set_ch_cipher ci ch) w)))) as E1.
  { unfold each_pending. erewrite bind_run by (by apply obj_get_run). rewrite HL.
    eapply accept_loop; [by exists s|apply (rq_nodup _ _ _ _ I)|done..]. }
  erewrite bind_run by exact E1. unfold mwService_started, service_set. cbn. rewrite Hsv.
  eexists. split; [reflexivity|]. cbn. split_and!; [done..|]. by rewrite lookup_insert_eq.
Qed.
End accept.

(** ** Concrete runs *)

(** A new service has no request that waits. *)
Lemma storage_new_inv w srvc w' : heap_below w -> (forall p r, w_heap w !! p <> Some (ObjStorageReq r)) ->
  mwServiceStorage_new w = Some (srvc, w') -> store_inv srvc w'.
Proof.
  intros Hb Hr E. unfold mwServiceStorage_new in E. apply bind_inv in E as (p & w1 & Ei & E).
  unfold mwService_init in Ei. cbn in Ei. injection Ei as <- <-.
  apply bind_inv in E as ([] & w2 & Ea & E). injection E as <- <-. unfold attach_object in Ea. injection Ea as <-.
  exists []. split; cbn.
  - intros q o. cbn. intros [[<- _]|[_ Hq]]%lookup_insert_Some; [cbn; lia|]. apply Hb in Hq. cbn. lia.
  - eexists. by rewrite lookup_insert_eq.
  - constructor.
  - intros q. split; [by intros ?%not_elem_of_nil|]. intros [r [[_ ?]|[_ Hq]]%lookup_insert_Some]; [done|by destruct (Hr q r)].
  - intros q r [[_ ?]|[_ Hq]]%lookup_insert_Some; [done|by destruct (Hr q r)].
  - intros q q' r r' [[_ ?]|[_ Hq]]%lookup_insert_Some; [done|by destruct (Hr q r)].
Qed.

Definition silent_client : StorageClient := {| sc_cb _ _ _ _ _ := ret tt; sc_free _ _ := ret tt |}.

(** A service at 1 whose channel is at 9, a unit at 2 and a load that waits. *)
Definition new_service : world := world_after mwServiceStorage_new quiet_world.
Definition unit_made : world := world_after (mwStorageUnit_new 5) new_service.
Definition asked : world := world_after (mwServiceStorage_load (quiet_env 0) 1 2 7 0 0) unit_made.
Definition waiting : world :=
  world_after (obj_set 1 (set_st_channel (Some 9))) (set_w_channels {[9 := open_channel]} asked).
Definition answer_awaited : world :=
  world_after (recv_channelAccept (quiet_env 0) 1 9 ca_zero) waiting.

#[local] Instance quiet_store_env : EnvFrame (keeps_store 1) (quiet_env 0).
Proof. apply quiet_env_frame, _. Qed.

Lemma silent_ok : client_ok 1 silent_client.
Proof. split; [intros; apply fr_ret|]. by intros f d w [] w' [= <-]. Qed.

Lemma new_service_inv : store_inv 1 new_service.
Proof. apply (storage_new_inv quiet_world); [intros p o Hp|intros p r Hp|reflexivity]; vm_compute in Hp; discriminate Hp. Qed.

Lemma unit_made_inv : store_inv 1 unit_made.
Proof.
  destruct (keeps_obj_new 1 (unit_zero 5) new_service) as (p & w' & E & I & _); [done|exact new_service_inv|].
  unfold unit_made, world_after, mwStorageUnit_new. by rewrite E.
Qed.

Lemma unit_made_free : unit_free 2 unit_made.
Proof.
  split; [eexists; vm_compute; reflexivity|]. intros p r Hp. exfalso.
  change (w_heap unit_made) with (<[2 := ObjStorageUnit (unit_zero 5)]>
    {[1 := ObjStorage {| st_pending := []; st_channel := None; st_id_counter := 0 |}]} : gmap Z object) in Hp.
  apply lookup_insert_Some in Hp as [[_ ?]|[_ Hp]]; [done|]. by apply lookup_singleton_Some in Hp as [_ ?].
Qed.

Lemma asked_inv : store_inv 1 asked.
Proof.
  apply (request_start_inv 1 (quiet_env 0) 2 7 0 0 action_load unit_made asked);
    [exact unit_made_inv|exact unit_made_free|vm_compute; reflexivity].
Qed.

Lemma waiting_inv : store_inv 1 waiting.
Proof.
  assert (has (keeps_store 1) (obj_set 1 (set_st_channel (Some 9)))) as K by by apply keeps_set_storage.
  apply (K (set_w_channels {[9 := open_channel]} asked) tt waiting); [|vm_compute; reflexivity].
  destruct asked_inv as [L I]. exists L. by eapply (requests_same _ _ _ asked).
Qed.

Lemma answer_awaited_inv : store_inv 1 answer_awaited.
Proof.
  apply (keeps_accept 1 (quiet_env 0) 9 ca_zero waiting tt answer_awaited waiting_inv). vm_compute. reflexivity.
Qed.

(** Which requests there are can be read off the list. *)
Lemma requests_of srvc w s : store_inv srvc w -> w_heap w !! srvc = Some (ObjStorage s) ->
  requests srvc (st_pending s) (st_pending s) w.
Proof. intros [L I] Hs. destruct (rq_list _ _ _ _ I) as (s' & Hs' & HL). by assert (s' = s) as -> by congruence; subst L. Qed.

(** ** Witnesses *)

Lemma store_invariant_witness : store_inv 1 asked.
Proof.
  apply (store_invariant 1 silent_client (quiet_env 0) new_service asked).
  - exact quiet_store_env.
  - exact silent_ok.
  - exact new_service_inv.
  - eapply rtc_l; [eapply step_unit; vm_compute; reflexivity|].
    eapply rtc_l; [|apply rtc_refl]. eapply (step_load _ _ _ 2 7 0 0); [exact unit_made_free|vm_compute; reflexivity].
Defined.

Lemma silent_total : client_total 1 silent_client.
Proof.
  split; [intros f s c i d w I; exists w; by split_and!|].
  intros f d w. exists w. by split_and!.
Qed.

Lemma store_recv_safe_witness :
  exists w', recv (quiet_env 0) silent_client 1 9 5 (opaque_of [0; 0; 0; 1; 255]) answer_awaited = Some (tt, w')
    /\ store_inv 1 w'.
Proof.
  apply (store_recv_safe 1 (quiet_env 0) silent_client answer_awaited 9 5 (opaque_of [0; 0; 0; 1; 255])).
  - exact quiet_store_env.
  - exact silent_total.
  - exact answer_awaited_inv.
  - apply opaque_of_data.
  - done.
Defined.

Definition awaited_req : mwStorageReq :=
  {| sr_id := 1; sr_result_code := 0; sr_action := action_loaded; sr_item := 2; sr_cb := 7; sr_data := 0; sr_data_free := 0 |}.
Definition awaited_service : mwServiceStorage := {| st_pending := [3]; st_channel := Some 9; st_id_counter := 1 |}.
Definition found_item : answer := ans_item 1 0 5 (opaque_of [97; 98]).

Lemma single_id w p : distinct_ids w [p].
Proof. by intros q q' r r' ->%list_elem_of_singleton ->%list_elem_of_singleton. Qed.

Lemma store_answer_witness :
  exists w', recv (quiet_env 0) silent_client 1 9 5 (opaque_of (answer_enc 1 0 found_item)) answer_awaited = Some (tt, w')
    /\ w_heap w' = delete 3 (delete 2 (<[1 := ObjStorage (set_st_pending [] awaited_service)]> (w_heap answer_awaited))).
Proof.
  apply (store_answer 1 (quiet_env 0) silent_client [3] answer_awaited 9 3 awaited_req (unit_zero 5) awaited_service 0
    found_item (opaque_of (answer_enc 1 0 found_item)) []
    (answered 3 awaited_req 0 {| su_key := 5; su_data := opaque_of [97; 98] |} answer_awaited));
    try (vm_compute; reflexivity || discriminate).
  - intros f x w. exists w. by split_and!.
  - apply (requests_of 1 answer_awaited awaited_service answer_awaited_inv). vm_compute. reflexivity.
  - apply single_id.
  - done.
  - done.
  - by split_and!.
  - apply opaque_of_data.
Defined.

Lemma store_truncated_answer_witness :
  exists w',
    (forall cb, recv (quiet_env 0) {| sc_cb := cb; sc_free _ _ := ret tt |} 1 9 5 (opaque_of [0; 0; 0; 1; 0; 0]) answer_awaited
      = Some (tt, w'))
    /\ w_heap w' = delete 3 (delete 2 (<[1 := ObjStorage (set_st_pending [] awaited_service)]> (w_heap answer_awaited))).
Proof.
  apply (store_truncated_answer 1 (quiet_env 0) (fun _ _ => ret tt) [3] answer_awaited 9 3 awaited_req (unit_zero 5)
    awaited_service 0 ans_none (opaque_of [0; 0; 0; 1; 0; 0]) [0; 0; 0; 0; 0; 0]);
    try (vm_compute; reflexivity || discriminate).
  - intros f x w. exists w. by split_and!.
  - apply (requests_of 1 answer_awaited awaited_service answer_awaited_inv). vm_compute. reflexivity.
  - apply single_id.
  - done.
  - done.
  - apply opaque_of_data.
Defined.

Definition waiting_req : mwStorageReq := set_sr_action action_load awaited_req.
Definition load_bytes : mwPutBuffer :=
  default mwPutBuffer_new (request_put waiting_req (unit_zero 5) mwPutBuffer_new).
Definition load_call : send_args := (4, Some (mwPutBuffer_finalize load_bytes), true).

Lemma store_accept_sends_witness :
  exists w', recv_channelAccept (quiet_env 0) 1 9 ca_zero waiting = Some (tt, w')
    /\ w_log w' = w_log waiting ++ [EvWrite [0; 0; 0; 26; 0; 4; 0; 0; 0; 0; 0; 1; 0; 4; 0; 0; 0; 12; 0; 0; 0;
            1; 0; 0; 0; 1; 0; 0; 0; 5] 0]
    /\ w_heap w' = all_sent [3] (w_heap waiting)
    /\ w_channels w' = <[9 := set_ch_cipher None open_channel]> (w_channels waiting)
    /\ sv_state <$> (w_services w' !! 1) = Some mwServiceState_STARTED.
Proof.
  eapply (store_accept_sends (quiet_env 0) (fun _ => 0)) with (s := awaited_service) (L := [3])
    (calls := [load_call]) (ms := [send_msg 1 0 4 (mwPutBuffer_finalize load_bytes)]); try done.
  - apply (requests_of 1 waiting awaited_service waiting_inv). vm_compute. reflexivity.
  - constructor; [|constructor]. exists waiting_req, (unit_zero 5), load_bytes.
    split; [|split; [|split; [|split]]]; [vm_compute; reflexivity..|by right|vm_compute; reflexivity|reflexivity].
Defined.

(** ** A callback that stops the service

    The request is freed with the others that wait, and then again. *)
Definition stopping_client : StorageClient := {|
  sc_cb _ srvc _ _ _ := stop (quiet_env 0) silent_client srvc;
  sc_free _ _ := ret tt |}.

Lemma stopping_callback_unsafe :
  recv (quiet_env 0) stopping_client 1 9 5 (opaque_of (answer_enc 1 0 found_item)) answer_awaited = None.
Proof. vm_compute. reflexivity. Qed.
