(* ===== verification/ResolveSpec.v ===== *)
(** * The resolution service: its table of searches and its answers

    Every entry of the table leads to a live search of that id, whatever the
    client does and the server sends; an answer reaches the search it is to. *)

From S2P Require Import Prelude Buffer Common Message Framing World Rc2 Cipher Service Session.
From S2P Require Import Channel Resolve Dispatch Frame Delivery Protocol ChannelSpec.
#[local] Open Scope Z_scope.
#[local] Open Scope mw_scope.

(** ** What an answer holds *)

Definition match_enc (m : mwResolveMatch) : list Z :=
  mwString_enc (rm_id m) ++ mwString_enc (rm_name m) ++ mwString_enc (rm_desc m) ++ MW32_PUT (rm_type m).
Definition match_ok (m : mwResolveMatch) : Prop :=
  mwString_ok (rm_id m) /\ mwString_ok (rm_name m) /\ mwString_ok (rm_desc m) /\ is_u32 (rm_type m).
Definition match_norm (m : mwResolveMatch) : mwResolveMatch :=
  {| rm_id := mwString_norm (rm_id m); rm_name := mwString_norm (rm_name m);
     rm_desc := mwString_norm (rm_desc m); rm_type := rm_type m |}.

(** The first word of a result is not looked at. *)
Definition result_enc (r : mwResolveResult) : list Z :=
  MW32_PUT 0 ++ MW32_PUT (rr_code r) ++ mwString_enc (rr_name r)
  ++ MW32_PUT (zlen (rr_matches r)) ++ mjoin (match_enc <$> rr_matches r).
Definition result_ok (r : mwResolveResult) : Prop :=
  is_u32 (rr_code r) /\ mwString_ok (rr_name r) /\ is_u32 (zlen (rr_matches r)) /\ Forall match_ok (rr_matches r).
Definition result_norm (r : mwResolveResult) : mwResolveResult :=
  {| rr_code := rr_code r; rr_name := mwString_norm (rr_name r); rr_matches := match_norm <$> rr_matches r |}.

Definition results_enc (rs : list mwResolveResult) : list Z := mjoin (result_enc <$> rs).

Lemma load_match_safe : safe load_match.
Proof. unfold load_match. safe_tac. Qed.
Lemma load_match_parses m : match_ok m -> parses load_match (match_enc m) (match_norm m).
Proof. intros (?&?&?&?). unfold load_match, match_enc. parses_tac. Qed.

Lemma load_matches_parses l : Forall match_ok l ->
  parses (load_matches (length l)) (mjoin (match_enc <$> l)) (match_norm <$> l).
Proof.
  intros Hl. apply get_many_parses; [apply load_match_safe|].
  eapply Forall_impl; [exact Hl|]. apply load_match_parses.
Qed.

Section results.
Context (E : Env).

Lemma load_result_safe : safe (load_result E).
Proof. unfold load_result, load_matches. pose proof load_match_safe. safe_tac. Qed.

Lemma load_result_parses r : result_ok r -> parses (load_result E) (result_enc r) (result_norm r).
Proof.
  intros (Hc & Hn & Hl & Hm). unfold load_result, result_enc. pose proof load_match_safe as Hs.
  eapply parses_bind; [by apply guint32_get_parses|intros; unfold load_matches; safe_tac|].
  eapply parses_bind; [by apply guint32_get_parses|intros; unfold load_matches; safe_tac|].
  eapply parses_bind; [by apply mwString_get_parses|intros; unfold load_matches; safe_tac|].
  eapply parses_bind; [by apply guint32_get_parses|intros; unfold load_matches; safe_tac|].
  replace (Z.to_nat (zlen (rr_matches r))) with (length (rr_matches r)) by (unfold zlen; lia).
  eapply parses_bind_last; [by apply load_matches_parses|intros; apply safe_ret|apply parses_ret].
Qed.

Lemma load_results_parses rs : Forall result_ok rs ->
  parses (load_results E (length rs)) (results_enc rs) (result_norm <$> rs).
Proof.
  intros Hl. apply get_many_parses; [apply load_result_safe|].
  eapply Forall_impl; [exact Hl|]. apply load_result_parses.
Qed.
End results.

(** ** The table *)

(** Each entry is a live search of that id, which is not [SEARCH_ERROR]. *)
Definition entries_ok (t : gmap Z Z) (h : gmap Z object) : Prop :=
  forall id p, t !! id = Some p -> id <> SEARCH_ERROR /\ exists q, h !! p = Some (ObjSearch q) /\ se_id q = id.

Record table_ok (srvc : Z) (w : world) : Prop := {
  tb_below : heap_below w;
  tb_service : exists s, w_heap w !! srvc = Some (ObjResolve s)
    /\ forall t, rs_searches s = Some t -> entries_ok t (w_heap w);
}.

#[export] Instance table_heap srvc : HeapOnly (table_ok srvc).
Proof.
  intros w w' Eh En [H1 H2]. split; rewrite ?Eh; [|done].
  intros q o Hq. rewrite Eh in Hq. apply H1 in Hq. lia.
Qed.

Definition keeps_table (srvc : Z) : forall A, M A -> Prop := kept (table_ok srvc).
#[export] Hint Unfold keeps_table : mw_frame.

(** An assignment to the service that adds no entry. *)
Lemma keeps_set_resolve srvc f :
  (forall s t, rs_searches (f s) = Some t -> forall id p, t !! id = Some p ->
    exists t', rs_searches s = Some t' /\ t' !! id = Some p) ->
  has (keeps_table srvc) (obj_set srvc f).
Proof.
  intros Hf w [] w' [B (s & Hs & Ht)] E. apply obj_set_inv in E as (s' & Hs' & ->).
  assert (s' = s) as -> by (cbn in Hs'; congruence). split; [apply below_insert; [done|by eexists]|].
  exists (f s). cbn. rewrite lookup_insert_eq. split; [done|]. intros t Et id p Hp.
  destruct (Hf s t Et id p Hp) as (t' & Et' & Hp'). destruct (Ht t' Et' id p Hp') as (Hid & q & Hq & Hqi).
  split; [done|]. exists q. rewrite lookup_insert_ne; [done|]. intros <-. congruence.
Qed.

(** What a client gives: handlers that keep the table as it should be, and
    functions that free its data and nothing else. *)
Record rclient_ok (srvc : Z) (cl : ResolveClient) : Prop := {
  ro_handler f s i c rs d : has (keeps_table srvc) (rc_handler cl f s i c rs d);
  ro_cleanup f d : heap_same unit (rc_cleanup cl f d);
}.

(** No entry for [p]. *)
Definition no_entry (srvc p : Z) (w : world) : Prop :=
  forall s t id, w_heap w !! srvc = Some (ObjResolve s) -> rs_searches s = Some t -> t !! id <> Some p.

Section table.
Context (srvc : Z) (E : Env) (cl : ResolveClient) (CL : rclient_ok srvc cl).

Lemma search_free_keeps p w w' : table_ok srvc w -> no_entry srvc p w ->
  search_free cl p w = Some (tt, w') ->
  table_ok srvc w' /\ w_heap w' = delete p (w_heap w) /\ w_heap w !! srvc = w_heap w' !! srvc.
Proof.
  intros I Hn E0. unfold search_free in E0. apply bind_inv in E0 as (q & w1 & Ed & E0). apply obj_deref_inv in Ed as [-> Hq].
  apply bind_inv in E0 as ([] & w2 & Ec & E0). apply free_object_inv in E0 as [_ ->].
  assert (w_heap w2 = w_heap w /\ w_next w <= w_next w2) as [Eh En].
  { destruct (se_cleanup q =? 0); [injection Ec as <-; apply heap_same_refl|by apply (ro_cleanup _ _ CL) in Ec]. }
  apply (heap_only w w2 Eh En) in I as [B (s & Hs & Ht)]. cbn in Hq. rewrite <- Eh in Hq.
  assert (p <> srvc) as Hne by congruence. cbn. rewrite Eh. split; [|by rewrite lookup_delete_ne].
  split; cbn.
  - apply (below_sub w2); [done|]. intros r. rewrite <- Eh. intros [o [_ Ho]%lookup_delete_Some]. by eexists.
  - exists s. rewrite <- Eh, lookup_delete_ne by done. split; [done|]. intros t Et id p' Hp'.
    destruct (Ht t Et id p' Hp') as (Hid & q' & Hq' & Hqi). split; [done|]. exists q'. rewrite lookup_delete_ne; [done|].
    intros ->. rewrite Eh in Hs. by apply (Hn s t id Hs Et).
Qed.

Lemma keeps_search_id n : has (keeps_table srvc) (search_id n srvc).
Proof.
  induction n as [|n IH]; cbn [search_id]; frame. apply keeps_set_resolve. intros s t Et id p Hp. by exists t.
Qed.

Lemma keeps_searches_remove id : has (keeps_table srvc) (searches_remove cl srvc id).
Proof.
  intros w [] w' I E0. unfold searches_remove in E0. apply bind_inv in E0 as (t & w1 & Eg & E0).
  apply obj_get_inv in Eg as [-> (s & Hs & ->)]. cbn in Hs.
  destruct (rs_searches s ≫= _) as [p|] eqn:Ep; [|by injection E0 as <-].
  destruct (rs_searches s) as [t|] eqn:Et; [|done]. cbn in Ep.
  apply bind_inv in E0 as ([] & w1 & Es & E0). pose proof I as [B (s' & Hs' & Ht)].
  assert (s' = s) as -> by congruence. destruct (Ht t Et id p Ep) as (_ & q & Hq & Hqi).
  destruct (obj_set_inv _ _ _ _ Es) as (s'' & Hs'' & Hw1). cbn in Hs''. assert (s'' = s) as -> by congruence.
  eapply search_free_keeps; [|intros s2 t2 id2 Hs2 Et2 Hp2|exact E0].
  - refine (keeps_set_resolve srvc _ _ w tt w1 I Es). intros s2 t2 Et2 id2 p2 Hp2. cbn in Et2.
    apply fmap_Some in Et2 as (t3 & Et3 & ->). exists t3. split; [done|]. by apply lookup_delete_Some in Hp2 as [_ ?].
  - rewrite Hw1 in Hs2. cbn in Hs2. rewrite lookup_insert_eq in Hs2. injection Hs2 as <-. cbn in Et2. rewrite Et in Et2.
    injection Et2 as <-. apply lookup_delete_Some in Hp2 as [Hne Hp2].
    destruct (Ht t Et id2 p Hp2) as (_ & q2 & Hq2 & Hqi2). congruence.
Qed.

(** While the table is empty, any search can be freed. *)
Definition table_empty (w : world) : Prop :=
  exists s, w_heap w !! srvc = Some (ObjResolve s) /\ forall t, rs_searches s = Some t -> t = ∅.

Lemma free_all l w w' : table_ok srvc w -> table_empty w ->
  for_each (search_free cl) l w = Some (tt, w') -> table_ok srvc w'.
Proof.
  revert w. induction l as [|p l IH]; intros w I He E0; cbn [for_each] in E0; [by injection E0 as <-|].
  apply bind_inv in E0 as ([] & w1 & Ef & E0). destruct He as (s & Hs & He).
  apply search_free_keeps in Ef as (I1 & _ & Hs1); [|done|].
  - eapply IH; [exact I1| |exact E0]. exists s. by rewrite <- Hs1.
  - intros s2 t id Hs2 Et. assert (s2 = s) as -> by congruence. by rewrite (He t Et), lookup_empty.
Qed.

Lemma keeps_searches_clear : has (keeps_table srvc) (searches_clear E cl srvc).
Proof.
  intros w [] w' I E0. unfold searches_clear in E0. apply bind_inv in E0 as (t & w1 & Eg & E0).
  apply obj_get_inv in Eg as [-> (s & Hs & ->)]. destruct (rs_searches s) as [t|]; [|by injection E0 as <-].
  apply bind_inv in E0 as ([] & w1 & Es & E0). destruct (obj_set_inv _ _ _ _ Es) as (s' & Hs' & Hw1).
  eapply free_all; [| |exact E0].
  - refine (keeps_set_resolve srvc _ _ w tt w1 I Es). intros s2 t2 [= <-] id p. by rewrite lookup_empty.
  - exists (set_rs_searches (Some ∅) s'). rewrite Hw1. cbn. rewrite lookup_insert_eq. split; [done|]. by intros t' [= <-].
Qed.

Lemma keeps_set_channel v : has (keeps_table srvc) (obj_set srvc (set_rs_channel v)).
Proof. apply keeps_set_resolve. intros s t Et id p Hp. by exists t. Qed.
Lemma keeps_no_searches : has (keeps_table srvc) (obj_set srvc (set_rs_searches None)).
Proof. by apply keeps_set_resolve. Qed.
Lemma keeps_new_searches : has (keeps_table srvc) (obj_set srvc (set_rs_searches (Some ∅))).
Proof. apply keeps_set_resolve. intros s t [= <-] id p. by rewrite lookup_empty. Qed.
#[local] Hint Resolve keeps_searches_remove keeps_searches_clear keeps_set_channel keeps_no_searches keeps_new_searches : mw_frame.

(** *** The functions of the service *)

Context {EF : EnvFrame (keeps_table srvc) E}.

Lemma keeps_destroy_searches : has (keeps_table srvc) (searches_destroy E cl srvc).
Proof. unfold searches_destroy. frame. Qed.
#[local] Hint Resolve keeps_destroy_searches : mw_frame.

#[export] Instance resolve_ops_frame : OpsFrame (keeps_table srvc) srvc (resolve_ops E cl).
Proof.
  split; cbn; intros ?.
  - intros c m [= <-]. unfold recv_create. frame.
  - intros c m [= <-]. unfold recv_accept. frame.
  - intros c m [= <-]. unfold recv_destroy, mwSession_senseService. frame.
  - intros c t d [= <-]. unfold recv. frame. apply (ro_handler _ _ CL).
  - intros [= <-]. unfold start, make_channel, mwChannel_setService, mwChannel_setProtoType, mwChannel_setProtoVer, set_if_init.
    frame.
  - intros [= <-]. unfold stop. frame.
Qed.
End table.
