(* ===== verification/ResolveRecv.v ===== *)
(** * The resolution service: searches and answers

    The table keeps its invariant whatever happens; a search goes out with a
    new id; the answer to it reaches it. *)

From S2P Require Import Prelude Buffer Common Message Framing World Rc2 Cipher Service Session.
From S2P Require Import Channel Resolve Dispatch Frame Delivery Protocol ChannelSpec ResolveSpec.
#[local] Open Scope Z_scope.
#[local] Open Scope mw_scope.

(** ** New searches *)

(** The id that the counter gives, and the counter after it. *)
Definition next_search (c : Z) : Z := if c =? SEARCH_ERROR then u32 (c + 1) else c.

Lemma search_id_run srvc s w : is_u32 (rs_counter s) -> w_heap w !! srvc = Some (ObjResolve s) ->
  let id := next_search (rs_counter s) in
  id <> SEARCH_ERROR /\
  search_id 2 srvc w = Some (id, set_w_heap (<[srvc := ObjResolve (set_rs_counter (u32 (id + 1)) s)]> (w_heap w)) w).
Proof.
  intros Hc Hs id. unfold next_search in id. cbn [search_id]. erewrite bind_run by (by apply obj_get_run).
  erewrite bind_run by (by apply (obj_set_run srvc _ s)).
  destruct (Z.eqb_spec (rs_counter s) SEARCH_ERROR) as [H0|H0]; [|done]. subst id. rewrite H0.
  change (u32 (SEARCH_ERROR + 1)) with 1. split; [done|].
  erewrite bind_run by (apply obj_get_run; apply lookup_insert_eq). cbn [rs_counter set_rs_counter].
  erewrite bind_run by (apply (obj_set_run srvc _ (set_rs_counter 1 s)); apply lookup_insert_eq).
  change (1 =? SEARCH_ERROR) with false. unfold ret. do 2 f_equal. cbn. by rewrite insert_insert_eq.
Qed.

Section asking.
Context (srvc : Z) (E : Env) (cl : ResolveClient) (CL : rclient_ok srvc cl).

(** A search that is not in the table yet. *)
Definition new_search (p : Z) (w : world) : Prop :=
  table_ok srvc w /\ no_entry srvc p w /\ exists q, w_heap w !! p = Some (ObjSearch q) /\ se_id q <> SEARCH_ERROR.

Lemma new_search_same p w w' : w_heap w' = w_heap w -> w_next w <= w_next w' -> new_search p w -> new_search p w'.
Proof.
  intros Eh En (I & Hn & Hq). split_and!; [by eapply heap_only| |by rewrite Eh].
  intros s t id. rewrite Eh. apply Hn.
Qed.

Lemma search_id_nonzero n w id w' : search_id n srvc w = Some (id, w') -> id <> SEARCH_ERROR.
Proof.
  revert w. induction n as [|n IH]; intros w; cbn [search_id]; [done|].
  intros (i & w1 & _ & ([] & w2 & _ & E2)%bind_inv)%bind_inv.
  destruct (Z.eqb_spec i SEARCH_ERROR) as [|Hi]; [by eapply IH|]. by injection E2 as <- <-.
Qed.

Lemma search_new_spec h d c w p w' : table_ok srvc w -> search_new srvc h d c w = Some (p, w') -> new_search p w'.
Proof.
  intros I E0. unfold search_new in E0. apply bind_inv in E0 as (id & w1 & Ei & E0).
  pose proof (keeps_search_id srvc 2 w id w1 I Ei) as [B (s & Hs & Ht)]. apply search_id_nonzero in Ei.
  injection E0 as <- <-. pose proof (below_fresh w1 B) as Hf.
  assert (forall q o, w_heap w1 !! q = Some o -> q <> w_next w1) as Hne by (intros q o Hq ->; congruence).
  split_and!.
  - split; [by apply below_next|]. exists s. cbn. rewrite lookup_insert_ne by (by apply not_eq_sym, (Hne _ _ Hs)).
    split; [done|]. intros t Et i p Hp. destruct (Ht t Et i p Hp) as (Hi & q & Hq & Hqi). split; [done|]. exists q.
    rewrite lookup_insert_ne by (by apply not_eq_sym, (Hne _ _ Hq)). done.
  - intros s2 t i. cbn. rewrite lookup_insert_ne by (by apply not_eq_sym, (Hne _ _ Hs)). intros Hs2 Et Hp.
    assert (s2 = s) as -> by congruence. destruct (Ht t Et i _ Hp) as (_ & q & Hq & _). by apply (Hne _ _ Hq).
  - eexists. cbn. rewrite lookup_insert_eq. split; [done|]. exact Ei.
Qed.

Lemma searches_insert_keeps p q w w' : table_ok srvc w -> no_entry srvc p w ->
  w_heap w !! p = Some (ObjSearch q) -> se_id q <> SEARCH_ERROR ->
  searches_insert cl srvc (se_id q) p w = Some (tt, w') -> table_ok srvc w'.
Proof.
  intros I Hn Hq Hid E0. unfold searches_insert in E0. apply bind_inv in E0 as (t & w1 & Eg & E0).
  apply obj_get_inv in Eg as [-> (s & Hs & ->)]. cbn in Hs.
  destruct (rs_searches s) as [t|] eqn:Et; [|by injection E0 as <-].
  apply bind_inv in E0 as ([] & w1 & Es & E0). apply obj_set_inv in Es as (s' & Hs' & Hw1).
  cbn in Hs'. assert (s' = s) as -> by congruence. pose proof I as [B (s' & Hs2 & Ht)].
  assert (s' = s) as -> by congruence. specialize (Ht t Et). assert (p <> srvc) as Hne by congruence.
  assert (table_ok srvc w1) as I1.
  { rewrite Hw1. split; [apply below_insert; [done|by eexists]|]. eexists. cbn. rewrite lookup_insert_eq. split; [done|].
    intros t' [= <-] i p' [[<- <-]|[Hni Hp']]%lookup_insert_Some.
    - split; [done|]. exists q. by rewrite lookup_insert_ne.
    - destruct (Ht i p' Hp') as (Hi & q' & Hq' & Hqi). split; [done|]. exists q'. rewrite lookup_insert_ne; [done|]. congruence. }
  destruct (t !! se_id q) as [old|] eqn:Eo; [|by injection E0 as <-].
  apply (search_free_keeps srvc cl CL) in E0 as [? _]; [done..|]. intros s2 t2 i Hs3 Et2 Hp. rewrite Hw1 in Hs3. cbn in Hs3.
  rewrite lookup_insert_eq in Hs3. injection Hs3 as <-. injection Et2 as <-.
  destruct (Ht _ _ Eo) as (_ & q' & Hq' & Hqi). apply lookup_insert_Some in Hp as [[_ ->]|[Hni Hp]].
  - by apply (Hn s t (se_id q)).
  - destruct (Ht i old Hp) as (_ & q2 & Hq2 & Hqi2). congruence.
Qed.

Lemma keeps_resolve qs fl h d c : writes_out E -> has (keeps_table srvc) (mwServiceResolve_resolve E cl srvc qs fl h d c).
Proof.
  intros Hw w id w' I E0. unfold mwServiceResolve_resolve in E0. destruct (h =? 0); [by injection E0 as _ <-|].
  destruct (negb _); [by injection E0 as _ <-|]. apply bind_inv in E0 as (p & w1 & En & E0).
  apply search_new_spec in En; [|done]. apply bind_inv in E0 as (i & w2 & Ei & E0).
  apply obj_get_inv in Ei as [-> (q' & Hq' & Hi)]. apply bind_inv in E0 as (b & w2 & Eb & E0).
  unfold lift in Eb. destruct (resolve_put _ _ _ _) as [b'|]; [|done]. injection Eb as <- <-.
  apply bind_inv in E0 as (ch & w2 & Eg & E0). apply obj_get_inv in Eg as [-> _].
  apply bind_inv in E0 as (r & w2 & Es & E0). destruct (send_heap_same E _ _ _ Hw _ _ _ Es) as [Eh Hnx].
  assert (w_heap w2 !! p = Some (ObjSearch q')) as Hq2 by (rewrite Eh; exact Hq').
  apply (new_search_same p w1 w2) in En as (I2 & Hn2 & q & Hq & Hid); [|done..].
  assert (q' = q) as -> by congruence. subst i. destruct (r =? 0).
  - apply bind_inv in E0 as ([] & w3 & E3 & E0). apply obj_get_inv in E0 as [-> _]. by eapply searches_insert_keeps.
  - apply bind_inv in E0 as ([] & w3 & E3 & E0). injection E0 as _ <-. by apply (search_free_keeps srvc cl CL) in E3 as [? _].
Qed.

Lemma keeps_cancel id : has (keeps_table srvc) (mwServiceResolve_cancelResolve cl srvc id).
Proof. unfold mwServiceResolve_cancelResolve. frame. by apply keeps_searches_remove. Qed.
End asking.

(** ** The library with the service *)

Definition resolve_env (srvc : Z) (cl : ResolveClient) (E : Env) : Env :=
  with_service srvc (resolve_ops (with_service srvc (resolve_ops E cl) E) cl) E.

Lemma resolve_env_frame srvc cl E : EnvFrame (keeps_table srvc) E -> rclient_ok srvc cl ->
  EnvFrame (keeps_table srvc) (resolve_env srvc cl E).
Proof.
  intros EF CL. apply with_service_frame; [done|].
  apply resolve_ops_frame; [done|]. apply with_service_frame; [done|]. by apply resolve_ops_frame.
Qed.

(** What may happen: a call of the session's interface, bytes from the server
    among them, a search, a cancelled one, and the end. *)
Inductive resolve_step (srvc : Z) (cl : ResolveClient) (E : Env) : world -> world -> Prop :=
| rstep_call c w w' : run_call (resolve_env srvc cl E) c w = Some (tt, w') -> resolve_step srvc cl E w w'
| rstep_resolve qs fl h d c id w w' :
    mwServiceResolve_resolve (resolve_env srvc cl E) cl srvc qs fl h d c w = Some (id, w') -> resolve_step srvc cl E w w'
| rstep_cancel id w w' : mwServiceResolve_cancelResolve cl srvc id w = Some (tt, w') -> resolve_step srvc cl E w w'
| rstep_clear w w' : clear (resolve_env srvc cl E) cl srvc w = Some (tt, w') -> resolve_step srvc cl E w w'.

(** C31: whatever is searched for and cancelled, whatever the handlers do and
    whatever bytes the server sends, every entry of the table of searches
    leads to a live search of that id, never to a freed one, and no entry has
    the id that stands for an error. *)
Theorem resolve_invariant srvc cl E w w' :
  EnvFrame (keeps_table srvc) E -> writes_out E -> rclient_ok srvc cl -> table_ok srvc w ->
  rtc (resolve_step srvc cl E) w w' -> table_ok srvc w'.
Proof.
  intros EF Hw CL I R. pose proof (resolve_env_frame srvc cl E EF CL) as EF'.
  induction R as [w|w w1 w2 S R IH]; [done|]. apply IH. clear R IH.
  destruct S as [c w w' H|qs fl h d c id w w' H|id w w' H|w w' H].
  - revert H. apply (full_call (keeps_table srvc)); [apply _|done| |done].
    intros b. apply (kept_recv (table_ok srvc)); [apply _|done|]. intros r s. by apply heap_only.
  - revert H. by apply keeps_resolve.
  - revert H. by apply keeps_cancel.
  - revert H. by apply keeps_destroy_searches.
Qed.

(** ** Any bytes are taken safely *)

(** The client's functions return. *)
Record rclient_total (srvc : Z) (cl : ResolveClient) : Prop := {
  rt_ok : rclient_ok srvc cl;
  rt_handler f s i c rs d w : table_ok srvc w -> exists w', rc_handler cl f s i c rs d w = Some (tt, w');
  rt_cleanup f d w : exists w', rc_cleanup cl f d w = Some (tt, w');
}.

Section answers.
Context (srvc : Z) (E : Env) (cl : ResolveClient) (CT : rclient_total srvc cl).
Let CL : rclient_ok srvc cl := rt_ok _ _ CT.

Lemma search_free_run p q w : w_heap w !! p = Some (ObjSearch q) ->
  exists w', search_free cl p w = Some (tt, w') /\ w_heap w' = delete p (w_heap w).
Proof.
  intros Hq. unfold search_free. erewrite bind_run by (by apply obj_deref_run).
  assert (exists w1, (if se_cleanup q =? 0 then ret tt else rc_cleanup cl (se_cleanup q) (se_data q)) w = Some (tt, w1)
    /\ w_heap w1 = w_heap w) as (w1 & E1 & H1).
  { destruct (se_cleanup q =? 0); [by exists w|]. destruct (rt_cleanup _ _ CT (se_cleanup q) (se_data q) w) as [w1 E1].
    exists w1. split; [done|]. by apply (ro_cleanup _ _ CL) in E1 as [? _]. }
  erewrite bind_run by exact E1. erewrite free_object_run by (rewrite H1; exact Hq). eexists. split; [done|]. cbn. by rewrite H1.
Qed.

Lemma searches_remove_run id s w : table_ok srvc w -> w_heap w !! srvc = Some (ObjResolve s) ->
  exists w', searches_remove cl srvc id w = Some (tt, w')
    /\ w_heap w' = match rs_searches s ≫= (fun t => t !! id) with
                   | Some p => delete p (<[srvc := ObjResolve (set_rs_searches (delete id <$> rs_searches s) s)]> (w_heap w))
                   | None => w_heap w
                   end.
Proof.
  intros [B (s' & Hs' & Ht)] Hs. assert (s' = s) as -> by congruence. unfold searches_remove.
  erewrite bind_run by (by apply obj_get_run). destruct (rs_searches s) as [t|] eqn:Et; cbn [mbind option_bind]; [|by exists w].
  destruct (t !! id) as [p|] eqn:Ep; [|by exists w]. destruct (Ht t eq_refl id p Ep) as (_ & q & Hq & _).
  erewrite bind_run by (by apply (obj_set_run srvc _ s)).
  match goal with |- context [search_free cl p ?w1] => destruct (search_free_run p q w1) as (w' & E' & Hw') end.
  - cbn. rewrite lookup_insert_ne; [done|]. congruence.
  - exists w'. split; [exact E'|]. rewrite Hw'. cbn. by rewrite Et.
Qed.

(** Any bytes that come on the channel of the service, under whatever
    type, are taken without touching a search that was freed, even when the
    handler cancels its own search or stops the service. *)
Theorem resolve_recv_safe w chan type d :
  EnvFrame (keeps_table srvc) E -> table_ok srvc w -> opaque_ok d -> len d < 2 ^ 64 ->
  exists w', recv E cl srvc chan type d w = Some (tt, w') /\ table_ok srvc w'.
Proof.
  intros EF I Hd Hl. cut (exists w', recv E cl srvc chan type d w = Some (tt, w')).
  { intros [w' E']. exists w'. split; [done|]. pose proof (resolve_ops_frame srvc E cl CL) as [_ _ _ Hr _ _].
    exact (Hr (recv E cl) chan type d eq_refl w tt w' I E'). }
  pose proof I as [B (s & Hs & Ht)]. unfold recv.
  erewrite bind_run by (by apply obj_get_run). case_bool_decide; [|by eexists]. cbn [negb].
  destruct (type =? RESOLVE_ACTION); [|by eexists]. cbn [negb]. cbn zeta.
  pose proof (mwGetBuffer_wrap_ready d Hd Hl) as (Hb & _ & _).
  destruct (guint32_get_safe (u_junk (e_uninit E)) _ Hb) as (? & b1 & E1 & Hb1 & _).
  erewrite bind_run by (apply lift_run, E1). cbn beta iota.
  destruct (guint32_get_safe (u_junk (e_uninit E)) _ Hb1) as (id & b2 & E2 & Hb2 & _).
  erewrite bind_run by (apply lift_run, E2). cbn beta iota.
  destruct (guint32_get_safe (u_junk (e_uninit E)) _ Hb2) as (code & b3 & E3 & Hb3 & _).
  erewrite bind_run by (apply lift_run, E3). cbn beta iota.
  destruct (guint32_get_safe (u_count (e_uninit E)) _ Hb3) as (count & b4 & E4 & Hb4 & _).
  erewrite bind_run by (apply lift_run, E4). cbn beta iota. destruct (mwGetBuffer_error b4); [by eexists|].
  erewrite bind_run by (by apply obj_get_run). destruct (rs_searches s ≫= _) as [p|] eqn:Ep; [|by eexists].
  destruct (rs_searches s) as [t|] eqn:Et; [|done]. destruct (Ht t eq_refl id p Ep) as (_ & q & Hq & _).
  destruct (get_many_safe _ (Z.to_nat count) (load_result_safe E) _ Hb4) as (rs & b5 & E5 & Hb5 & _).
  erewrite bind_run by (apply lift_run, E5). cbn beta iota.
  assert (exists w1, (if mwGetBuffer_error b5 then ret tt else
    let* s := obj_deref p in rc_handler cl (se_handler s) srvc id code rs (se_data s)) w = Some (tt, w1)
    /\ table_ok srvc w1) as (w1 & Eh & I1).
  { destruct (mwGetBuffer_error b5); [by exists w|]. erewrite bind_run by (by apply obj_deref_run).
    destruct (rt_handler _ _ CT (se_handler q) srvc id code rs (se_data q) w I) as [w1 Eh].
    exists w1. split; [done|]. by apply (ro_handler _ _ CL) in Eh. }
  erewrite bind_run by exact Eh. pose proof I1 as [_ (s1 & Hs1 & _)].
  destruct (searches_remove_run id s1 w1 I1 Hs1) as (w' & E' & _). by exists w'.
Qed.

(** ** What an answer does *)

Definition reply_enc (id code : Z) (rs : list mwResolveResult) : list Z :=
  MW32_PUT 0 ++ MW32_PUT id ++ MW32_PUT code ++ MW32_PUT (zlen rs) ++ results_enc rs.

(** The head of an answer, as [recv] reads it. *)
Lemma reply_head id code count d rest : is_u32 id -> is_u32 code -> is_u32 count ->
  opaque_ok d -> len d < 2 ^ 64 ->
  opaque_data d = MW32_PUT 0 ++ MW32_PUT id ++ MW32_PUT code ++ MW32_PUT count ++ rest ->
  exists b1 b2 b3 b4, let u := e_uninit E in
    guint32_get (u_junk u) (mwGetBuffer_wrap (Some d)) = Some (0, b1) /\ guint32_get (u_junk u) b1 = Some (id, b2)
    /\ guint32_get (u_junk u) b2 = Some (code, b3) /\ guint32_get (u_count u) b3 = Some (count, b4) /\ gb_ready b4 rest.
Proof.
  intros Hid Hcode Hcount Hd Hl Ed. pose proof (mwGetBuffer_wrap_ready d Hd Hl) as Hg. rewrite Ed in Hg. cbn zeta.
  destruct (guint32_get_parses (u_junk (e_uninit E)) 0 ltac:(done)) as (R1 & _ & _). destruct (R1 _ _ Hg) as (b1 & E1 & Hb1 & _).
  destruct (guint32_get_parses (u_junk (e_uninit E)) id Hid) as (R2 & _ & _). destruct (R2 _ _ Hb1) as (b2 & E2 & Hb2 & _).
  destruct (guint32_get_parses (u_junk (e_uninit E)) code Hcode) as (R3 & _ & _). destruct (R3 _ _ Hb2) as (b3 & E3 & Hb3 & _).
  destruct (guint32_get_parses (u_count (e_uninit E)) count Hcount) as (R4 & _ & _). destruct (R4 _ _ Hb3) as (b4 & E4 & Hb4 & _).
  by exists b1, b2, b3, b4.
Qed.

(** A search that waits, and what comes for it. *)
Definition awaits (w : world) (chan id p : Z) (s : mwServiceResolve) (q : mw_search) : Prop :=
  table_ok srvc w /\ w_heap w !! srvc = Some (ObjResolve s) /\ rs_channel s = Some chan
  /\ (rs_searches s ≫= (fun t => t !! id)) = Some p /\ w_heap w !! p = Some (ObjSearch q).

Lemma recv_awaited w chan id p s q code count d rest : awaits w chan id p s q ->
  is_u32 id -> is_u32 code -> is_u32 count -> opaque_ok d -> len d < 2 ^ 64 ->
  opaque_data d = MW32_PUT 0 ++ MW32_PUT id ++ MW32_PUT code ++ MW32_PUT count ++ rest ->
  exists b, gb_ready b rest /\ recv E cl srvc chan RESOLVE_ACTION d w =
    (let* (results, b) := lift (load_results E (Z.to_nat count) b) in
     (if mwGetBuffer_error b then ret tt else
        let* s := obj_deref p in rc_handler cl (se_handler s) srvc id code results (se_data s)) ;;
     searches_remove cl srvc id) w.
Proof.
  intros (I & Hs & Hc & Hp & Hq) Hid Hcode Hcount Hd Hl Ed.
  destruct (reply_head id code count d rest Hid Hcode Hcount Hd Hl Ed) as (b1 & b2 & b3 & b4 & E1 & E2 & E3 & E4 & Hb4).
  exists b4. split; [done|]. unfold recv. erewrite bind_run by (by apply obj_get_run).
  rewrite bool_decide_eq_true_2 by done. rewrite Z.eqb_refl. cbn [negb]. cbn zeta.
  erewrite bind_run by (apply lift_run, E1). cbn beta iota. erewrite bind_run by (apply lift_run, E2). cbn beta iota.
  erewrite bind_run by (apply lift_run, E3). cbn beta iota. erewrite bind_run by (apply lift_run, E4). cbn beta iota.
  replace (mwGetBuffer_error b4) with false by (symmetry; apply Hb4).
  erewrite bind_run by (by apply obj_get_run). by rewrite Hp.
Qed.

(** C30: the answer to a search reaches its handler: it is called once, with
    the id, the code and exactly the results and matches that the server sent
    (empty strings as NULL); then the search is out of the table, and freed if
    the handler has not done so. *)
Theorem resolve_answer w chan id p s q code rs d rest w1 s1 :
  awaits w chan id p s q -> is_u32 id -> is_u32 code -> is_u32 (zlen rs) -> Forall result_ok rs ->
  opaque_ok d -> len d < 2 ^ 64 -> opaque_data d = reply_enc id code rs ++ rest ->
  rc_handler cl (se_handler q) srvc id code (result_norm <$> rs) (se_data q) w = Some (tt, w1) ->
  w_heap w1 !! srvc = Some (ObjResolve s1) ->
  exists w', recv E cl srvc chan RESOLVE_ACTION d w = Some (tt, w')
    /\ w_heap w' = match rs_searches s1 ≫= (fun t => t !! id) with
                   | Some p => delete p (<[srvc := ObjResolve (set_rs_searches (delete id <$> rs_searches s1) s1)]> (w_heap w1))
                   | None => w_heap w1
                   end.
Proof.
  intros Ha Hid Hcode Hn Hrs Hd Hl Ed Eh Hs1. pose proof Ha as (I & Hs & Hc & Hp & Hq).
  unfold reply_enc in Ed. rewrite <- !app_assoc in Ed.
  destruct (recv_awaited w chan id p s q code (zlen rs) d _ Ha Hid Hcode Hn Hd Hl Ed) as (b & Hb & ->).
  replace (Z.to_nat (zlen rs)) with (length rs) by (unfold zlen; lia).
  destruct (load_results_parses E rs Hrs) as (R & _ & _). destruct (R _ _ Hb) as (b' & E' & (_ & He & _) & _).
  erewrite bind_run by (apply lift_run, E'). cbn beta iota. unfold mwGetBuffer_error. rewrite He.
  erewrite bind_run; [|erewrite bind_run by (by apply obj_deref_run); exact Eh].
  apply searches_remove_run; [|done]. by apply (ro_handler _ _ CL) in Eh.
Qed.

End answers.

(** An answer that breaks off after its head drops the search it is to: it
    leaves the table and is freed, and its handler is not called -- the outcome
    is the same whatever it would do. *)
Theorem resolve_truncated_answer srvc E cl w chan id p s q code rs d l k :
  rclient_total srvc cl -> awaits srvc w chan id p s q ->
  is_u32 id -> is_u32 code -> is_u32 (zlen rs) -> Forall result_ok rs ->
  opaque_ok d -> len d < 2 ^ 64 -> k <> [] -> results_enc rs = l ++ k ->
  opaque_data d = MW32_PUT 0 ++ MW32_PUT id ++ MW32_PUT code ++ MW32_PUT (zlen rs) ++ l ->
  exists w',
    (forall handler, recv E {| rc_handler := handler; rc_cleanup := rc_cleanup cl |} srvc chan RESOLVE_ACTION d w
      = Some (tt, w'))
    /\ w_heap w' = delete p (<[srvc := ObjResolve (set_rs_searches (delete id <$> rs_searches s) s)]> (w_heap w)).
Proof.
  intros CT Ha Hid Hcode Hn Hrs Hd Hl Hk El Ed. pose proof Ha as (I & Hs & Hc & Hp & Hq).
  destruct (load_results_parses E rs Hrs) as (_ & T & _).
  destruct (searches_remove_run srvc cl CT id s w I Hs) as (w' & E' & Hw'). rewrite Hp in Hw'.
  exists w'. split; [|exact Hw']. intros handler.
  destruct (recv_awaited srvc E {| rc_handler := handler; rc_cleanup := rc_cleanup cl |}
    w chan id p s q code (zlen rs) d _ Ha Hid Hcode Hn Hd Hl Ed) as (b & Hb & ->).
  replace (Z.to_nat (zlen rs)) with (length rs) by (unfold zlen; lia).
  destruct (T _ _ _ Hb Hk El) as (x & b' & Eb' & _ & He). erewrite bind_run by (apply lift_run, Eb'). cbn beta iota.
  unfold mwGetBuffer_error. rewrite He. by erewrite bind_run by reflexivity.
Qed.

(** The loops run as often as the message says, even when there is nothing
    left to read: a short message can ask for a list of any length. *)
Lemma results_as_told E n b : gb_wf b -> exists l b', load_results E n b = Some (l, b') /\ length l = n.
Proof.
  intros Hb. destruct (get_many_safe _ n (load_result_safe E) b Hb) as (l & b' & E' & _).
  exists l, b'. split; [done|]. by eapply get_many_length.
Qed.

(** ** A search goes out *)

Definition resolve_enc (id : Z) (queries : list mwString) (flags : Z) : list Z :=
  MW32_PUT 0x00 ++ MW32_PUT id ++ MW32_PUT (zlen queries) ++ mjoin (mwString_enc <$> queries) ++ MW32_PUT flags.

Lemma resolve_put_writes id qs fl : writes (resolve_put id qs fl) (resolve_enc id qs fl).
Proof.
  unfold resolve_put, resolve_enc. repeat (apply writes_seq; [apply guint32_put_writes|]).
  induction qs as [|q qs IH]; cbn [foldr]; [apply guint32_put_writes|].
  change (mjoin (mwString_enc <$> q :: qs)) with (mwString_enc q ++ mjoin (mwString_enc <$> qs)).
  rewrite <- app_assoc. apply writes_seq; [apply mwString_put_writes|exact IH].
Qed.

(** A search on an open channel is sent at once, as one message with the
    queries and the flags, under an id that is not the one for errors; the
    client gets that id, and under it the search waits with the handler, the
    data and the clean-up function it gave. *)
Theorem resolve_asks srvc E r cl w s chan ch t qs flags h d c ci m bs :
  pure_writes E r -> table_ok srvc w -> w_heap w !! srvc = Some (ObjResolve s) ->
  is_u32 (rs_counter s) -> rs_searches s = Some t -> rs_channel s = Some chan ->
  w_channels w !! chan = Some ch -> ch_state ch = mwChannel_OPEN ->
  h <> 0 -> qs <> [] ->
  let id := next_search (rs_counter s) in
  zlen (resolve_enc id qs flags) <= pb_max -> t !! id = None ->
  (forall o, opaque_ok o -> opaque_data o = resolve_enc id qs flags ->
    prepared (w_ciphers w) (ch_id ch) (ch_cipher ch) RESOLVE_ACTION (Some o) true = Some (ci, m)) ->
  written r m = Some (EvWrite bs 0) ->
  id <> SEARCH_ERROR /\
  exists p w', mwServiceResolve_resolve E cl srvc qs flags h d c w = Some (id, w')
    /\ w_log w' = w_log w ++ [EvWrite bs 0]
    /\ w_heap w' !! p = Some (ObjSearch {| se_service := srvc; se_id := id; se_handler := h; se_data := d; se_cleanup := c |})
    /\ w_heap w' !! srvc = Some (ObjResolve {| rs_channel := Some chan; rs_searches := Some (<[id := p]> t);
         rs_counter := u32 (id + 1) |}).
Proof.
  intros Hr I Hs Hcnt Et Hchan Hch Hst Hh Hqs id Hsz Hfree Hprep Hwr.
  destruct (search_id_run srvc s w Hcnt Hs) as [Hid Ei]. split; [done|]. fold id in Ei.
  set (s1 := set_rs_counter (u32 (id + 1)) s) in *. pose proof I as [B _].
  set (w1 := set_w_heap _ w) in Ei.
  assert (heap_below w1) as B1 by (apply below_insert; [done|by eexists]).
  set (q := {| se_service := srvc; se_id := id; se_handler := h; se_data := d; se_cleanup := c |}).
  set (w2 := set_w_next (w_next w1 + 1) (set_w_heap (<[w_next w1 := ObjSearch q]> (w_heap w1)) w1)).
  assert (w_heap w2 !! w_next w1 = Some (ObjSearch q)) as Hq by apply lookup_insert_eq.
  assert (w_next w1 <> srvc) as Hne.
  { intros E0. pose proof (below_fresh w1 B1) as Hf. rewrite E0 in Hf. cbn in Hf. by rewrite lookup_insert_eq in Hf. }
  assert (w_heap w2 !! srvc = Some (ObjResolve s1)) as Hs2 by (cbn; by rewrite lookup_insert_ne, lookup_insert_eq).
  destruct (finalize_writes _ _ (resolve_put_writes id qs flags) Hsz) as (b & Eb & Hob & _ & Hdb).
  destruct (mwChannel_send_open E r Hr chan ch RESOLVE_ACTION (Some (mwPutBuffer_finalize b)) w2 ci m (EvWrite bs 0)) as (bs' & Hbs & Es);
    [done|done|by apply Hprep|done|]. injection Hbs as <- Hr0.
  exists (w_next w1). unfold mwServiceResolve_resolve. replace (h =? 0) with false by lia.
  replace (0 <? zlen qs) with true by (destruct qs; [done|rewrite zlen_cons; pose_zlen; lia]). cbn [negb].
  erewrite bind_run by (unfold search_new; erewrite bind_run by exact Ei; reflexivity). fold w2.
  erewrite bind_run by (by apply (obj_get_run _ _ q)). change (se_id q) with id. erewrite bind_run by (apply lift_run, Eb).
  erewrite bind_run by (by apply (obj_get_run _ _ s1)). change (rs_channel s1) with (rs_channel s). rewrite Hchan.
  cbn [mwChannel_send_to]. erewrite bind_run by exact Es. rewrite <- Hr0. change (0 =? 0) with true. cbn iota.
  set (w3 := with_log _ _). assert (w_heap w3 = w_heap w2) as H3 by done.
  assert (searches_insert cl srvc id (w_next w1) w3
    = Some (tt, set_w_heap (<[srvc := ObjResolve (set_rs_searches (Some (<[id := w_next w1]> t)) s1)]> (w_heap w3)) w3)) as E3.
  { unfold searches_insert. erewrite bind_run by (by apply (obj_get_run _ _ s1)). change (rs_searches s1) with (rs_searches s).
    rewrite Et. erewrite bind_run by (by apply (obj_set_run _ _ s1)). by rewrite Hfree. }
  erewrite bind_run by exact E3. eexists. split;
    [refine (obj_get_run (w_next w1) se_id q _ _); cbn; rewrite lookup_insert_ne by (by apply not_eq_sym); exact Hq|].
  cbn. rewrite lookup_insert_ne by (by apply not_eq_sym). rewrite !lookup_insert_eq.
  split_and!; [done..|]. unfold set_rs_searches, s1. cbn. by rewrite Hchan.
Qed.

(** ** Witnesses *)

#[local] Instance quiet_table_env : EnvFrame (keeps_table 1) (quiet_env 0).
Proof. apply quiet_env_frame, _. Qed.

Definition silent_resolver : ResolveClient := {| rc_handler _ _ _ _ _ _ := ret tt; rc_cleanup _ _ := ret tt |}.

Lemma silent_resolver_total srvc : rclient_total srvc silent_resolver.
Proof.
  split; [split; [intros; apply fr_ret|by intros f d w [] w' [= <-]]|intros; by eexists|intros; by eexists].
Qed.

(** A service at 1 with an open channel at 9. *)
Definition resolving : world := set_w_channels {[9 := open_channel]} (world_after
  (mwServiceResolve_new ;; obj_set 1 (set_rs_channel (Some 9)) ;; obj_set 1 (set_rs_searches (Some ∅))) quiet_world).
Definition resolving_service : mwServiceResolve := {| rs_channel := Some 9; rs_searches := Some ∅; rs_counter := 0 |}.

Lemma resolving_ok : table_ok 1 resolving.
Proof.
  assert (w_heap resolving = {[1 := ObjResolve resolving_service]}) as Eh by (vm_compute; reflexivity).
  split.
  - intros q o. rewrite Eh. intros [<- _]%lookup_singleton_Some. vm_compute. reflexivity.
  - exists resolving_service. rewrite Eh. split; [apply lookup_singleton_eq|]. intros t [= <-] id p. by rewrite lookup_empty.
Qed.

Definition bob : list mwString := [Some [98; 111; 98]].
Definition searching : world :=
  world_after (mwServiceResolve_resolve (quiet_env 0) silent_resolver 1 bob 1 7 8 0) resolving.
Definition bob_search : mw_search := {| se_service := 1; se_id := 1; se_handler := 7; se_data := 8; se_cleanup := 0 |}.
Definition searching_service : mwServiceResolve :=
  {| rs_channel := Some 9; rs_searches := Some {[1 := 2]}; rs_counter := 2 |}.

Lemma quiet_writes_out : writes_out (quiet_env 0).
Proof. intros b w a w' [= <- <-]. apply heap_same_refl. Qed.

Lemma searching_ok : table_ok 1 searching.
Proof.
  refine (keeps_resolve 1 (quiet_env 0) silent_resolver (rt_ok _ _ (silent_resolver_total 1)) bob 1 7 8 0 quiet_writes_out
    resolving 1 searching resolving_ok _). vm_compute. reflexivity.
Qed.

Lemma resolve_invariant_witness : table_ok 1 searching.
Proof.
  apply (resolve_invariant 1 silent_resolver (quiet_env 0) resolving searching).
  - exact quiet_table_env.
  - exact quiet_writes_out.
  - apply silent_resolver_total.
  - exact resolving_ok.
  - eapply rtc_l; [|apply rtc_refl]. apply (rstep_resolve _ _ _ bob 1 7 8 0 1). vm_compute. reflexivity.
Defined.

Lemma resolve_recv_safe_witness :
  exists w', recv (quiet_env 0) silent_resolver 1 9 2 (opaque_of [0; 0; 0; 0; 0; 0; 0; 1; 255]) searching = Some (tt, w')
    /\ table_ok 1 w'.
Proof.
  apply (resolve_recv_safe 1 (quiet_env 0) silent_resolver (silent_resolver_total 1) searching 9 2
    (opaque_of [0; 0; 0; 0; 0; 0; 0; 1; 255]) quiet_table_env searching_ok); [apply opaque_of_data|done].
Defined.

Definition one_result : list mwResolveResult :=
  [{| rr_code := 0; rr_name := Some [98]; rr_matches :=
      [{| rm_id := Some [98; 47]; rm_name := Some []; rm_desc := None; rm_type := 1 |}] |}].
Definition bob_reply : mwOpaque := opaque_of (reply_enc 1 0 one_result).

Lemma one_result_ok : Forall result_ok one_result.
Proof. by repeat (constructor; try done). Qed.

Lemma searching_awaits : awaits 1 searching 9 1 2 searching_service bob_search.
Proof. split; [exact searching_ok|]. split_and!; vm_compute; reflexivity. Qed.

Lemma resolve_answer_witness :
  exists w', recv (quiet_env 0) silent_resolver 1 9 2 bob_reply searching = Some (tt, w')
    /\ w_heap w' = delete 2 (<[1 := ObjResolve {| rs_channel := Some 9; rs_searches := Some ∅; rs_counter := 2 |}]> (w_heap searching)).
Proof.
  apply (resolve_answer 1 (quiet_env 0) silent_resolver (silent_resolver_total 1) searching 9 1 2 searching_service bob_search 0
    one_result bob_reply [] searching searching_service searching_awaits);
    [done|done|done|exact one_result_ok|apply opaque_of_data|done|done|done|vm_compute; reflexivity].
Defined.

Lemma resolve_truncated_answer_witness :
  exists w',
    (forall handler, recv (quiet_env 0) {| rc_handler := handler; rc_cleanup := rc_cleanup silent_resolver |} 1 9 2
       (opaque_of (take 21 (reply_enc 1 0 one_result))) searching = Some (tt, w'))
    /\ w_heap w' = delete 2 (<[1 := ObjResolve {| rs_channel := Some 9; rs_searches := Some ∅; rs_counter := 2 |}]> (w_heap searching)).
Proof.
  apply (resolve_truncated_answer 1 (quiet_env 0) silent_resolver searching 9 1 2 searching_service bob_search 0
    one_result (opaque_of (take 21 (reply_enc 1 0 one_result))) (take 5 (results_enc one_result)) (drop 5 (results_enc one_result))
    (silent_resolver_total 1) searching_awaits);
    [done|done|done|exact one_result_ok|apply opaque_of_data|done|done|done|done].
Defined.

Lemma resolve_asks_witness :
  1 <> SEARCH_ERROR /\
  exists p w', mwServiceResolve_resolve (quiet_env 0) silent_resolver 1 bob 1 7 8 0 resolving = Some (1, w')
    /\ w_log w' = w_log resolving ++ [EvWrite [0; 0; 0; 35; 0; 4; 0; 0; 0; 0; 0; 1; 0; 2; 0; 0; 0; 21; 0; 0; 0; 0; 0; 0; 0; 1;
         0; 0; 0; 1; 0; 3; 98; 111; 98; 0; 0; 0; 1] 0]
    /\ w_heap w' !! p = Some (ObjSearch bob_search)
    /\ w_heap w' !! 1 = Some (ObjResolve {| rs_channel := Some 9; rs_searches := Some {[1 := p]}; rs_counter := 2 |}).
Proof.
  eapply (resolve_asks 1 (quiet_env 0) (fun _ => 0) silent_resolver resolving resolving_service 9 open_channel ∅ bob 1 7 8 0
    None (send_msg 1 0 2 (opaque_of (resolve_enc 1 bob 1)))); try done.
  - exact resolving_ok.
  - intros o Ho Ed. unfold prepared. rewrite (clone_data o Ho), Ed. reflexivity.
Defined.
