(* ===== verification/Closing.v ===== *)
(** * Channels: closing them

    Destroying a channel, from either side, takes it off the table and the
    heap, and tells the server or the service. *)

From S2P Require Import Prelude Buffer Common Message Framing World Rc2 Cipher Service Session.
From S2P Require Import Channel Dispatch Frame Delivery Protocol ChannelSpec Secure.
#[local] Open Scope Z_scope.
#[local] Open Scope mw_scope.

#[local] Arguments render : simpl never.

(** ** Removing a channel *)

(** The world without the channel. *)
Definition without_channel (id p : Z) (w : world) : world :=
  set_w_channels (delete p (w_channels w))
    (set_w_session (set_s_chan_map (delete id (chan_map w)) (w_session w)) w).

Lemma chan_map_remove_run id p w :
  chan_map w !! id = Some p -> is_Some (w_channels w !! p) ->
  chan_map_remove id w = Some (tt, without_channel id p w).
Proof.
  intros Hm [ch Hp]. unfold chan_map_remove, mwChannel_find. erewrite bind_run by reflexivity.
  unfold chan_map in Hm. rewrite Hm. erewrite bind_run by reflexivity.
  unfold channel_free. unfold bind, deref_channel. cbn. by rewrite Hp.
Qed.

Lemma state_set p st ch w : w_channels w !! p = Some ch ->
  state p st w = Some (tt, with_channel p (set_ch_state st ch) w).
Proof.
  intros Hp. destruct (decide (ch_state ch = st)) as [Hst|Hst]; [|by apply state_run].
  unfold state, mwChannel_getState. erewrite bind_run by by apply channel_get_run.
  rewrite bool_decide_true by done. rewrite with_channel_same; [done|].
  rewrite Hp. f_equal. destruct ch. cbn in *. by rewrite Hst.
Qed.

Lemma without_with id p ch w : without_channel id p (with_channel p ch w) = without_channel id p w.
Proof. unfold without_channel, with_channel. cbn. by rewrite delete_insert_eq. Qed.

Definition destroy_message (id reason : Z) : mwMessage :=
  message id (CHANNEL_DESTROY {| cd_reason := reason; cd_data := opaque_zero |}).

Lemma destroy_message_sendable id reason : is_u32 id -> is_u32 reason -> sendable (destroy_message id reason).
Proof.
  intros Hid Hr. assert (zlen (mwMessage_enc (destroy_message id reason)) = 16) as Hz by done.
  split; [|rewrite Hz; lia]. split_and!; [done| | |rewrite Hz; unfold is_u32; lia].
  - split_and!; [done|done|done|]. by intros [=].
  - split; [done|]. split; [|done]. split; [done|by eexists].
Qed.

Definition message_bytes (m : mwMessage) : list Z := MW32_PUT (zlen (mwMessage_enc m)) ++ mwMessage_enc m.

Lemma session_send_sendable E r m w : pure_writes E r -> sendable m ->
  mh_type (msg_head m) <> mwMessageType_code mwMessage_SET_USER_STATUS ->
  mwSession_send E (Some m) w =
  Some (r (message_bytes m), with_log [EvWrite (message_bytes m) (r (message_bytes m))] w).
Proof.
  intros Hr Hm Ht. unfold mwSession_send. erewrite bind_run by by rewrite render_spec.
  fold (message_bytes m). unfold io_write, bind. rewrite Hr. unfold log, modify, ret.
  generalize (message_bytes m) as b. intros b. apply Z.eqb_neq in Ht. cbn in Ht |- *. rewrite Ht.
  by destruct (r b =? 0).
Qed.

Lemma destroy_run E r p ch reason w :
  pure_writes E r -> w_channels w !! p = Some ch -> chan_map w !! ch_id ch = Some p ->
  is_u32 (ch_id ch) -> is_u32 reason ->
  let b := message_bytes (destroy_message (ch_id ch) reason) in
  mwChannel_destroy E p reason None w =
  Some (r b, with_log [EvWrite b (r b)] (without_channel (ch_id ch) p w)).
Proof.
  intros Hr Hp Hm Hid Hre b. unfold mwChannel_destroy.
  erewrite bind_run by by apply state_set. erewrite bind_run by apply channel_get_run, with_channel_lookup.
  erewrite bind_run by reflexivity. cbn [ch_id set_ch_state].
  erewrite bind_run by (apply chan_map_remove_run; [exact Hm|rewrite with_channel_lookup; by eexists]).
  rewrite without_with. by apply session_send_sendable; [|apply destroy_message_sendable|].
Qed.

(** Destroying a channel removes it, and only it, and sends the server one
    message with its id and the reason. *)
Theorem channel_destroy_spec E r p ch reason w :
  pure_writes E r -> channels_wf w -> w_channels w !! p = Some ch ->
  is_u32 (ch_id ch) -> is_u32 reason ->
  exists b w', render (destroy_message (ch_id ch) reason) = Some b
    /\ mwChannel_destroy E p reason None w = Some (r b, w')
    /\ w_log w' = w_log w ++ [EvWrite b (r b)]
    /\ chan_map w' = delete (ch_id ch) (chan_map w) /\ w_channels w' = delete p (w_channels w).
Proof.
  intros Hr [_ Hh _] Hp Hid Hre. do 2 eexists.
  split; [by apply render_spec, destroy_message_sendable|].
  split; [by apply destroy_run; auto|]. done.
Qed.

(** When the server destroys a channel its service is told first, with the
    channel in the state DESTROY or ERROR as the reason is zero or not; then
    the channel is removed. A service that destroyed the channel itself makes
    the code read the freed channel. *)
Theorem recv_destroy_spec E p ch srvc msg w :
  channels_wf w -> w_channels w !! p = Some ch -> ch_id ch <> MW_MASTER_CHANNEL_ID ->
  s_services (w_session w) !! u32 (ch_service ch) = Some srvc ->
  let st := if cd_reason msg =? 0 then mwChannel_DESTROY else mwChannel_ERROR in
  let w1 := with_channel p (set_ch_state st ch) w in
  forall w2, mwService_recvDestroy E srvc p (ch_id ch) msg w1 = Some (tt, w2) ->
  (forall ch2, w_channels w2 !! p = Some ch2 -> chan_map w2 !! ch_id ch2 = Some p ->
     handle E (message (ch_id ch) (CHANNEL_DESTROY msg)) w = Some (tt, without_channel (ch_id ch2) p w2))
  /\ (w_channels w2 !! p = None -> handle E (message (ch_id ch) (CHANNEL_DESTROY msg)) w = None).
Proof.
  intros [_ Hh _] Hp Hid Hs st w1 w2 Ht.
  assert (handle E (message (ch_id ch) (CHANNEL_DESTROY msg)) w =
    (let* id := channel_get p ch_id in chan_map_remove id) w2) as ->.
  { unfold handle. cbn [msg_body msg_head message mh_channel]. unfold CHANNEL_DESTROY_recv.
    apply Z.eqb_neq in Hid. rewrite Hid. unfold mwChannel_find. erewrite bind_run by reflexivity.
    pose proof (Hh p ch Hp) as Hm. unfold chan_map in Hm. rewrite Hm. unfold mwChannel_recvDestroy.
    erewrite bind_run by by apply channel_get_run. rewrite Z.eqb_refl. cbn [negb].
    erewrite bind_run by by apply state_set. fold st w1.
    erewrite bind_run by apply getService_run, with_channel_lookup.
    change (s_services (w_session w1)) with (s_services (w_session w)).
    cbn [ch_service set_ch_state]. rewrite Hs. by rewrite (bind_run _ _ _ _ _ Ht). }
  split.
  - intros ch2 Hp2 Hm2. erewrite bind_run by by apply channel_get_run.
    apply chan_map_remove_run; [done|by eexists].
  - intros Hn. apply bind_none. unfold channel_get. by rewrite Hn.
Qed.

(** ** Witnesses *)

Lemma channel_destroy_spec_witness :
  exists b w', render (destroy_message 1 7) = Some b
    /\ mwChannel_destroy (quiet_env 0) 1 7 None (one_channel (chan_40 mwChannel_OPEN)) = Some (0, w')
    /\ w_log w' = [] ++ [EvWrite b 0] /\ chan_map w' = delete 1 {[1 := 1]}
    /\ w_channels w' = delete 1 {[1 := chan_40 mwChannel_OPEN]}.
Proof.
  apply (channel_destroy_spec (quiet_env 0) (fun _ => 0) 1 (chan_40 mwChannel_OPEN) 7
    (one_channel (chan_40 mwChannel_OPEN))); try done. by apply one_channel_wf.
Defined.

Lemma recv_destroy_spec_witness :
  exists w', handle (quiet_env 0) (message 1 (CHANNEL_DESTROY {| cd_reason := 7; cd_data := opaque_zero |}))
    (one_channel (chan_40 mwChannel_OPEN)) = Some (tt, w') /\ w_channels w' = ∅.
Proof.
  eexists. split.
  - refine (proj1 (recv_destroy_spec (quiet_env 0) 1 (chan_40 mwChannel_OPEN) 4
      {| cd_reason := 7; cd_data := opaque_zero |} (one_channel (chan_40 mwChannel_OPEN)) _ _ _ _ _ _) _ _ _).
    + by apply one_channel_wf.
    + reflexivity.
    + done.
    + reflexivity.
    + reflexivity.
    + reflexivity.
    + reflexivity.
  - reflexivity.
Defined.
