(* ===== verification/Freeing.v ===== *)
(** * Services that own blocks: stopping

    A service that stops frees its blocks one after the other, each with its
    channel, until its list is empty.  What it takes to free one block is
    given; then the loop ends after as many rounds as there are blocks, and
    nothing but them and their channels is gone. *)

From S2P Require Import Prelude Buffer Common Message Framing World Util Rc2 Cipher Service Session.
From S2P Require Import Channel Dispatch Frame Owned Delivery Protocol ChannelSpec Secure Closing.
#[local] Open Scope Z_scope.
#[local] Open Scope mw_scope.

(** The blocks, channels and services are the same. *)
Record same_objects (w w' : world) : Prop := {
  sa_heap : w_heap w' = w_heap w;
  sa_next : w_next w <= w_next w';
  sa_channels : w_channels w' = w_channels w;
  sa_chan_map : chan_map w' = chan_map w;
  sa_services : w_services w' = w_services w;
}.

(** A function of the client that returns and leaves the library alone. *)
Definition harmless (m : M unit) : Prop := forall w, exists w', m w = Some (tt, w') /\ same_objects w w'.

Lemma same_objects_refl w : same_objects w w.
Proof. by split. Qed.

Lemma datum_clear_run free d w : (forall f x, harmless (free f x)) ->
  exists d' w', mw_datum_clear free d w = Some (d', w') /\ same_objects w w'.
Proof.
  intros Hf. unfold mw_datum_clear. destruct (_ =? 0).
  - exists {| dt_data := 0; dt_clear := 0 |}, w. split; [done|apply same_objects_refl].
  - destruct (Hf (dt_clear d) (dt_data d) w) as (w' & E & Hw'). exists {| dt_data := 0; dt_clear := 0 |}, w'.
    split; [by erewrite bind_run by exact E|done].
Qed.

Definition drop_channel (c : option Z) (m : gmap Z mwChannel) : gmap Z mwChannel :=
  match c with Some c => delete c m | None => m end.

(** A channel that is there, under its id. *)
Definition listed_channel (w : world) (c : Z) : Prop :=
  exists ch, w_channels w !! c = Some ch /\ chan_map w !! ch_id ch = Some c /\ is_u32 (ch_id ch).

Section stop.
Context {S T : Type} {OS : Object S} {OT : Object T} {OW : Owned S T}.
Context (chan : T -> option Z) (set_list : list Z -> S -> S) (srvc : Z).
Context (Hlist : forall l s, ow_list (set_list l s) = l).

(** The channel of the block, if it has one, is there. *)
Definition attached (w : world) (t : T) : Prop := forall c, chan t = Some c -> listed_channel w c.

(** The list of the service: live blocks, each with a channel of its own, if
    it has one. *)
Record stoppable (L : list Z) (w : world) : Prop := {
  sp_service : exists s : S, w_heap w !! srvc = Some (obj_in s) /\ ow_list s = L;
  sp_nodup : NoDup L;
  sp_live p : p ∈ L -> exists t : T, w_heap w !! p = Some (obj_in t) /\ ow_service t = srvc /\ attached w t;
  sp_own p q (t t' : T) c : p ∈ L -> q ∈ L -> w_heap w !! p = Some (obj_in t) ->
    w_heap w !! q = Some (obj_in t') -> chan t = Some c -> chan t' = Some c -> p = q;
}.

(** One block freed: it is off the heap and the list, its channel is gone. *)
Record freed (p : Z) (t : T) (s : S) (w w' : world) : Prop := {
  fd_heap : w_heap w' = delete p (<[srvc := obj_in (set_list (filter (fun q => q <> p) (ow_list s)) s)]> (w_heap w));
  fd_channels : w_channels w' = drop_channel (chan t) (w_channels w);
  fd_chan_map id c : chan_map w !! id = Some c -> chan t <> Some c -> chan_map w' !! id = Some c;
  fd_services : w_services w' = w_services w;
}.

Definition frees (free : Z -> M unit) : Prop := forall p t s w,
  w_heap w !! p = Some (obj_in t) -> ow_service t = srvc -> w_heap w !! srvc = Some (obj_in s) ->
  NoDup (ow_list s) -> attached w t -> exists w', free p w = Some (tt, w') /\ freed p t s w w'.

(** All of them. *)
Record all_freed (L : list Z) (w w' : world) : Prop := {
  af_service : exists s : S, w_heap w' !! srvc = Some (obj_in s) /\ ow_list s = [];
  af_heap q : q <> srvc -> w_heap w' !! q = if bool_decide (q ∈ L) then None else w_heap w !! q;
  af_gone p (t : T) c : p ∈ L -> w_heap w !! p = Some (obj_in t) -> chan t = Some c -> w_channels w' !! c = None;
  af_kept c : (forall p (t : T), p ∈ L -> w_heap w !! p = Some (obj_in t) -> chan t <> Some c) ->
    w_channels w' !! c = w_channels w !! c;
  af_services : w_services w' = w_services w;
}.

Fixpoint free_all (free : Z -> M unit) (fuel : nat) : M unit :=
  let* l := obj_get srvc (@ow_list S T _ _ _) in
  match l, fuel with
  | [], _ => ret tt
  | p :: _, Datatypes.S fuel => free p ;; free_all free fuel
  | _, O => crash
  end.

Lemma service_not_block w (s : S) p (t : T) : w_heap w !! srvc = Some (obj_in s) ->
  w_heap w !! p = Some (obj_in t) -> p <> srvc.
Proof. intros Hs Ht ->. rewrite Ht in Hs. injection Hs as E. by destruct (ow_differ s t). Qed.

Lemma filter_head (p : Z) (L : list Z) : p ∉ L -> filter (fun q => q <> p) (p :: L) = L.
Proof.
  intros Hp. rewrite filter_cons_False by tauto. induction L as [|q L IH]; [done|].
  apply not_elem_of_cons in Hp as [Hq Hp]. rewrite filter_cons_True by congruence. by rewrite IH.
Qed.

(** The blocks that are left are as they were. *)
Lemma freed_others p (L : list Z) w w' (t : T) (s : S) q (t' : T) : freed p t s w w' -> w_heap w !! srvc = Some (obj_in s) ->
  p ∉ L -> q ∈ L -> w_heap w !! q = Some (obj_in t') <-> w_heap w' !! q = Some (obj_in t').
Proof.
  intros [Hh _ _ _] Hs Hp Hq. rewrite Hh, lookup_delete_ne by (by intros ->).
  destruct (decide (q = srvc)) as [->|]; [|by rewrite lookup_insert_ne].
  rewrite lookup_insert_eq, Hs. split; intros [= E]; by destruct (ow_differ _ _ E).
Qed.

Lemma stoppable_tail p L w (t : T) (s : S) w' : stoppable (p :: L) w -> w_heap w !! p = Some (obj_in t) ->
  w_heap w !! srvc = Some (obj_in s) -> ow_list s = p :: L -> freed p t s w w' -> stoppable L w'.
Proof.
  intros [_ [Hp Hn]%NoDup_cons Hl Ho] Ht Hs HL F. pose proof F as [Hh Hc Hm _].
  pose proof (service_not_block w s p t Hs Ht) as Hps. split; [|done|..].
  - eexists. split; [rewrite Hh, lookup_delete_ne by done; apply lookup_insert_eq|]. rewrite Hlist, HL. by apply filter_head.
  - intros q Hq. destruct (Hl q) as (t' & Ht' & Hs' & Hat); [by right|]. exists t'.
    split_and!; [by apply (freed_others p L w w' t s)|done|].
    intros c Ec. destruct (Hat c Ec) as (ch & Hch & Hcm & Hid). exists ch.
    assert (chan t <> Some c) as Hne.
    { intros Ec'. apply Hp. by rewrite (Ho p q t t' c) by (by left || by right || done). }
    split_and!; [|by apply Hm|done]. rewrite Hc. destruct (chan t) as [c0|]; [|done]. cbn.
    rewrite lookup_delete_ne; [done|]. congruence.
  - intros q q' t1 t2 c Hq Hq' H1 H2.
    apply (Ho q q' t1 t2 c); [by right|by right|by apply (freed_others p L w w' t s)|by apply (freed_others p L w w' t s)].
Qed.

(** The loop ends with all freed, in as many rounds as there are blocks. *)
Lemma free_all_run free L w : frees free -> stoppable L w ->
  exists w', free_all free (length L) w = Some (tt, w') /\ all_freed L w w'.
Proof.
  intros HF. revert w. induction L as [|p L IH]; intros w St; cbn [length free_all];
    destruct (sp_service _ _ St) as (s & Hs & HL); erewrite bind_run by (by apply obj_get_run); rewrite HL.
  { exists w. split; [done|]. split; try done; [by exists s|]. by intros p t c ?%not_elem_of_nil. }
  destruct (sp_live _ _ St p) as (t & Ht & Hts & Hat); [left|].
  pose proof (sp_nodup _ _ St) as HN. rewrite <- HL in HN.
  destruct (HF p t s w Ht Hts Hs HN Hat) as (w1 & E1 & F). erewrite bind_run by exact E1.
  destruct (IH w1 (stoppable_tail p L w t s w1 St Ht Hs HL F)) as (w' & E' & [A1 A2 A3 A4 A5]).
  exists w'. split; [done|]. assert (p ∉ L) as Hp by (pose proof (sp_nodup _ _ St) as [? _]%NoDup_cons; done).
  pose proof (fun q t' => freed_others p L w w1 t s q t' F Hs Hp) as Hq1. pose proof F as [Hh Hc _ Hsv].
  split; [done|..|by rewrite A5].
  - intros q Hq. rewrite A2 by done. destruct (decide (q = p)) as [->|Hqp].
    + rewrite bool_decide_false, bool_decide_true by (done || left). by rewrite Hh, lookup_delete_eq.
    + rewrite (bool_decide_ext _ (q ∈ p :: L)) by (rewrite elem_of_cons; tauto). case_bool_decide; [done|].
      by rewrite Hh, lookup_delete_ne, lookup_insert_ne.
  - intros q t' c [->|Hq]%elem_of_cons Hqt Ec.
    + rewrite Ht in Hqt. injection Hqt as <-%obj_in_inj. rewrite A4; [rewrite Hc, Ec; apply lookup_delete_eq|].
      intros q t' Hq Hqt' Ec'. apply Hp. apply (Hq1 q t' Hq) in Hqt'.
      by rewrite (sp_own _ _ St p q t t' c) by (by left || by right || done).
    + eapply A3; [exact Hq|by apply Hq1|done].
  - intros c Hkc. rewrite A4.
    + rewrite Hc. pose proof (Hkc p t (list_elem_of_here _ _) Ht). destruct (chan t) as [c0|]; [|done]. cbn.
      rewrite lookup_delete_ne; [done|]. congruence.
    + intros q t' Hq Hqt. apply (Hkc q t'); [by right|by apply Hq1].
Qed.

(** Then the service is stopped. *)
Lemma stop_run free L w sv : frees free -> stoppable L w -> w_services w !! srvc = Some sv ->
  exists w1 w', (free_all free (length L) ;; mwService_stopped srvc) w = Some (tt, w')
    /\ all_freed L w w1 /\ w_heap w' = w_heap w1 /\ w_channels w' = w_channels w1
    /\ w_services w' !! srvc = Some (set_sv_state mwServiceState_STOPPED sv).
Proof.
  intros HF St Hsv. destruct (free_all_run free L w HF St) as (w1 & E1 & A). exists w1.
  erewrite bind_run by exact E1. unfold mwService_stopped, mwService_getState, deref_service.
  rewrite <- (af_services _ _ _ A) in Hsv. erewrite bind_run by (erewrite bind_run by (by apply lift_run); reflexivity).
  case_bool_decide as Hst.
  - exists w1. split_and!; try done. rewrite Hsv. f_equal. destruct sv. cbn in *. by rewrite Hst.
  - unfold service_set. rewrite Hsv. eexists. split; [done|]. split_and!; try done. apply lookup_insert_eq.
Qed.
End stop.

(** ** A channel destroyed on the way *)

Lemma destroy_listed E r c w reason : pure_writes E r -> listed_channel w c -> is_u32 reason ->
  exists n w', mwChannel_destroy E c reason None w = Some (n, w') /\ w_heap w' = w_heap w
    /\ w_channels w' = delete c (w_channels w) /\ w_services w' = w_services w
    /\ (forall id c', chan_map w !! id = Some c' -> c' <> c -> chan_map w' !! id = Some c').
Proof.
  intros HW (ch & Hch & Hm & Hid) Hr. eexists _, _. split; [by apply (destroy_run E r c ch)|]. split_and!; try done.
  intros id c' Hm' Hne. cbn. rewrite lookup_delete_ne; [done|]. intros <-. congruence.
Qed.
