(* ===== verification/FtSpec.v ===== *)
(** * The file transfer service: its invariant

    The transfers on the heap are those on the list of the service, and a
    transfer only moves on: it keeps what was offered, never has more left
    than before, and is done only with nothing left. *)

From S2P Require Import Prelude Buffer Common Message Framing World Util Rc2 Cipher Service Session.
From S2P Require Import Channel Ft Dispatch Frame Owned Delivery Protocol ChannelSpec.
#[local] Open Scope Z_scope.
#[local] Open Scope mw_scope.

(** ** Transfers *)

Record transfer_ok (t : mwFileTransfer) : Prop := {
  to_left : 0 <= xf_remaining t <= xf_size t;
  to_size : is_u32 (xf_size t);
  to_new : xf_state t = mwFileTransfer_NEW -> xf_remaining t = xf_size t;
  to_done : xf_state t = mwFileTransfer_DONE -> xf_remaining t = 0;
}.

(** The same transfer later. *)
Record later (t t' : mwFileTransfer) : Prop := {
  la_service : xf_service t' = xf_service t;
  la_who : xf_who t' = xf_who t;
  la_filename : xf_filename t' = xf_filename t;
  la_message : xf_message t' = xf_message t;
  la_size : xf_size t' = xf_size t;
  la_remaining : xf_remaining t' <= xf_remaining t;
  la_new : xf_state t' = mwFileTransfer_NEW -> xf_state t = mwFileTransfer_NEW;
}.

#[export] Instance later_preorder : PreOrder later.
Proof.
  split; [intros t; split; done || lia|].
  intros t1 t2 t3 [] []. split; try congruence; [lia|auto].
Qed.

#[export] Instance ft_owned : Owned mwServiceFileTransfer mwFileTransfer := {
  ow_list := fs_transfers;
  ow_service := xf_service;
  ow_ok := transfer_ok;
  ow_later := later;
  ow_later_service t t' H := la_service t t' H;
  ow_differ s t := ltac:(done);
}.

(** The transfers on the heap are those on the list. *)
Definition ft_wf : Z -> world -> Prop := owned_wf (S := mwServiceFileTransfer) (T := mwFileTransfer).
(** The transfers of [w0] have moved on. *)
Definition ft_moved : Z -> world -> world -> Prop := moved (T := mwFileTransfer).
Definition ft_inv (srvc : Z) (w0 w : world) : Prop := ft_wf srvc w /\ ft_moved srvc w0 w.

Definition keeps_ft (srvc : Z) (w0 : world) : forall A, M A -> Prop := kept (ft_inv srvc w0).
#[export] Hint Unfold keeps_ft : mw_frame.

#[export] Instance ft_heap srvc w0 : HeapOnly (ft_inv srvc w0) := owned_heap srvc w0.

(** ** Steps on a transfer and on the list *)

Section steps.
Context (srvc : Z) (w0 : world).

Lemma keeps_set_transfer p f : (forall t, later t (f t) /\ (transfer_ok t -> transfer_ok (f t))) ->
  has (keeps_ft srvc w0) (@obj_set mwFileTransfer _ p f).
Proof. exact (keeps_set_block (S := mwServiceFileTransfer) srvc w0 p f). Qed.

Lemma ft_inv_update w p t t' : ft_inv srvc w0 w -> w_heap w !! p = Some (ObjFileTransfer t) ->
  xf_service t' = xf_service t -> (transfer_ok t -> later t t' /\ transfer_ok t') ->
  ft_inv srvc w0 (set_w_heap (<[p := ObjFileTransfer t']> (w_heap w)) w).
Proof. exact (inv_update (S := mwServiceFileTransfer) srvc w0 w p t t'). Qed.

Lemma keeps_set_handler p v : has (keeps_ft srvc w0) (obj_set p (set_fs_handler v)).
Proof. by apply (keeps_set_service (T := mwFileTransfer) srvc w0 p). Qed.

(** A new transfer. *)
Lemma keeps_new who msg fnm size w ft w' : is_u32 size -> ft_inv srvc w0 w ->
  mwFileTransfer_new srvc who msg fnm size w = Some (ft, w') ->
  ft_inv srvc w0 w' /\ exists t, w_heap w' !! ft = Some (ObjFileTransfer t) /\ xf_service t = srvc
    /\ xf_state t = mwFileTransfer_NEW.
Proof.
  intros Hsz [[L I] Hm] E. unfold mwFileTransfer_new in E.
  set (t := {| xf_service := srvc |}) in E.
  assert (transfer_ok t) as Hok by (split; cbn; try done; unfold is_u32 in Hsz; lia).
  apply (owned_new srvc _ _ t) in I; [|done..]. apply (moved_new srvc w0 w t) in Hm.
  apply bind_inv in E as (p & w1 & En & E). injection En as <- <-.
  set (n := w_next w) in *. set (w1 := set_w_next _ _) in I, Hm.
  assert (w_heap w1 !! n = Some (ObjFileTransfer t)) as Hn by apply lookup_insert_eq.
  apply bind_inv in E as ([] & w2 & Es & E). assert (w2 = w1) as ->.
  { unfold ft_state in Es. erewrite bind_run in Es by (by apply obj_get_run).
    rewrite bool_decide_true in Es by done. by injection Es as <-. }
  apply bind_inv in E as ([] & w3 & El & E). injection E as <- <-.
  apply (owned_service srvc _ _ _ _ _ I) in El as (s & HL & I3 & -> & Hs). cbn in HL, I3. rewrite HL in I3 |- *.
  split; [split; [by exists (n :: L)|by eapply moved_service]|].
  exists t. split; [|done]. cbn. rewrite lookup_insert_ne; [done|]. intros ->. rewrite Hn in Hs. by injection Hs.
Qed.
End steps.

(** ** Freeing *)

(** What the client gives: functions that keep the invariant, and functions
    that free its data and nothing else. *)
Record fh_ok (srvc : Z) (w0 : world) (h : mwFileTransferHandler) : Prop := {
  fo_offered f p : ft_offered h = Some f -> has (keeps_ft srvc w0) (f p);
  fo_opened f p : ft_opened h = Some f -> has (keeps_ft srvc w0) (f p);
  fo_closed f p c : ft_closed h = Some f -> has (keeps_ft srvc w0) (f p c);
  fo_recv f p d : ft_recv h = Some f -> has (keeps_ft srvc w0) (f p d);
  fo_ack f p : ft_ack h = Some f -> has (keeps_ft srvc w0) (f p);
  fo_clear f p : ft_clear h = Some f -> has (keeps_ft srvc w0) (f p);
  fo_free f d : heap_same unit (ft_free_data h f d);
}.

Section frees.
Context (srvc : Z) (w0 : world) (E : Env) (h : mwFileTransferHandler) (HW : writes_out E) (HO : fh_ok srvc w0 h).

Lemma later_channel t c : later t (set_xf_channel c t) /\ (transfer_ok t -> transfer_ok (set_xf_channel c t)).
Proof. split; [by split|]. intros []. by split. Qed.
Lemma later_client_data t d : later t (set_xf_client_data d t) /\ (transfer_ok t -> transfer_ok (set_xf_client_data d t)).
Proof. split; [by split|]. intros []. by split. Qed.
Lemma later_state t st : st <> mwFileTransfer_NEW -> (st = mwFileTransfer_DONE -> xf_remaining t = 0) ->
  later t (set_xf_state st t) /\ (transfer_ok t -> transfer_ok (set_xf_state st t)).
Proof. intros H1 H2. split; [by split|]. intros []. by split. Qed.

Lemma keeps_free p w w' : ft_inv srvc w0 w ->
  (exists t, w_heap w !! p = Some (ObjFileTransfer t) /\ xf_service t = srvc) ->
  mwFileTransfer_free E h (Some p) w = Some (tt, w') -> ft_inv srvc w0 w'.
Proof.
  intros [[L I] Hm] (t & Ht & Hs) E0. cbn [mwFileTransfer_free nonnull] in E0.
  apply bind_inv in E0 as (sv & w1 & Eg & E0). apply obj_get_inv in Eg as [-> (t' & Ht' & ->)]. cbn in Ht'.
  assert (t' = t) as -> by congruence. rewrite Hs in E0. clear Ht'.
  apply bind_inv in E0 as ([] & w1 & El & E0).
  eapply (freeing_start srvc w0 L p) in El as F; [|done..|by exists t|].
  2:{ intros s HL. cbn in HL |- *. rewrite HL. apply g_list_remove_filter, (ow_nodup _ _ _ _ I). }
  clear El I Hm Ht Hs.
  apply bind_inv in E0 as (c & w2 & Eg & E0). apply obj_get_inv in Eg as [-> _].
  apply bind_inv in E0 as ([] & w2 & Ec & E0). assert (freeing srvc w0 L p w2) as F2.
  { destruct c as [c|]; [|by injection Ec as <-]. apply bind_inv in Ec as (r & w3 & Ed & Es).
    apply (destroy_heap_same E c _ _ HW) in Ed as [Eh En].
    eapply freeing_set; [apply (fun t => later_channel t None)| |exact Es]. by eapply freeing_same. }
  apply bind_inv in E0 as ([] & w3 & Ec3 & E0). assert (freeing srvc w0 L p w3) as F3.
  { cbn [mwFileTransfer_removeClientData nonnull] in Ec3. apply bind_inv in Ec3 as (d & w4 & Eg & Ec3).
    apply obj_get_inv in Eg as [-> _]. apply bind_inv in Ec3 as (d' & w4 & Ed & Es).
    apply (datum_clear_same _ d (fo_free _ _ _ HO)) in Ed as [Eh En].
    eapply freeing_set; [apply (fun t => later_client_data t d')| |exact Es]. by eapply freeing_same. }
  by eapply freeing_free.
Qed.
End frees.

(** ** The functions *)

Lemma keeps_ft_set_channel srvc w0 p c : has (keeps_ft srvc w0) (obj_set p (set_xf_channel c)).
Proof. apply keeps_set_transfer. intros t. apply later_channel. Qed.
Lemma keeps_set_client_data srvc w0 p d : has (keeps_ft srvc w0) (obj_set p (set_xf_client_data d)).
Proof. apply keeps_set_transfer. intros t. apply later_client_data. Qed.

(** A state other than the first and the one of success. *)
Lemma keeps_ft_state srvc w0 p st : st <> mwFileTransfer_NEW -> st <> mwFileTransfer_DONE ->
  has (keeps_ft srvc w0) (ft_state p st).
Proof. intros H1 H2. unfold ft_state. frame. apply keeps_set_transfer. intros t. by apply later_state. Qed.

(** Success, with nothing left. *)
Lemma keeps_done srvc w0 p : has (keeps_ft srvc w0) (done_when_empty p).
Proof.
  intros w [] w' I E. unfold done_when_empty in E. apply bind_inv in E as (r & w1 & Eg & E).
  apply obj_get_inv in Eg as [-> (t & Ht & ->)]. cbn in Ht. destruct (Z.eqb_spec (xf_remaining t) 0) as [H0|]; [|by injection E as <-].
  unfold ft_state in E. erewrite bind_run in E by (by apply obj_get_run).
  case_bool_decide; [by injection E as <-|]. apply obj_set_inv in E as (t' & Ht' & ->). cbn in Ht'.
  assert (t' = t) as -> by congruence. destruct (later_state t mwFileTransfer_DONE) as [Hl Hok]; [done..|].
  eapply ft_inv_update; [done|exact Ht|apply Hl|auto].
Qed.

(** Less is left. *)
Lemma keeps_less srvc w0 p n f w w' t : ft_inv srvc w0 w -> w_heap w !! p = Some (ObjFileTransfer t) ->
  0 <= n <= xf_remaining t -> xf_state t = mwFileTransfer_OPEN ->
  f t = set_xf_remaining (u32 (xf_remaining t - n)) t ->
  obj_set p f w = Some (tt, w') -> ft_inv srvc w0 w'.
Proof.
  intros I Ht Hn Hst Hf (t' & Ht' & ->)%obj_set_inv. cbn in Ht'. assert (t' = t) as -> by congruence. rewrite Hf.
  eapply ft_inv_update; [done|exact Ht|done|]. intros [Hl Hs _ _].
  rewrite u32_id by (unfold is_u32 in *; lia). split; split; cbn; try done; [lia..|congruence|congruence].
Qed.

Lemma gsize_nonneg n : 0 <= gsize n.
Proof. apply Z.mod_pos_bound. lia. Qed.

#[export] Hint Resolve keeps_ft_set_channel keeps_set_client_data keeps_set_handler : mw_frame.
#[export] Hint Extern 1 (has (keeps_ft _ _) (ft_state _ _)) => (by apply keeps_ft_state) : mw_frame.

Section handlers.
Context (srvc : Z) (w0 : world) (E : Env) (h : mwFileTransferHandler).
Context {EF : EnvFrame (keeps_ft srvc w0) E} (HW : writes_out E) (HO : fh_ok srvc w0 h).

Lemma keeps_isState p st : has (keeps_ft srvc w0) (mwFileTransfer_isState p st).
Proof. unfold mwFileTransfer_isState, mwFileTransfer_getState, nonnull. frame. Qed.
#[local] Hint Resolve keeps_isState : mw_frame.
#[local] Hint Extern 1 (has _ (mwFileTransfer_isOpen _)) => (unfold mwFileTransfer_isOpen) : mw_frame.
#[local] Hint Extern 1 (has _ (mwFileTransfer_isDone _)) => (unfold mwFileTransfer_isDone) : mw_frame.

Lemma keeps_close p c : has (keeps_ft srvc w0) (mwFileTransfer_close E h p c).
Proof.
  destruct p as [p|]; [|apply fr_ret]. cbn [mwFileTransfer_close nonnull]. unfold call2. frame.
  by eapply (fo_closed _ _ _ HO).
Qed.
#[local] Hint Resolve keeps_close : mw_frame.

Lemma keeps_ft_accept c m : has (keeps_ft srvc w0) (recv_channelAccept h srvc c m).
Proof. unfold recv_channelAccept, mwChannel_getServiceData, nonnull, call1. frame. by eapply (fo_opened _ _ _ HO). Qed.

Lemma keeps_ft_destroy c m : has (keeps_ft srvc w0) (recv_channelDestroy E h srvc c m).
Proof. unfold recv_channelDestroy, mwChannel_getServiceData, nonnull. frame. Qed.

(** The size that was read. *)
Lemma offer_get_size b fnm txt size b' : offer_get b = Some (fnm, txt, size, b') -> is_u32 size.
Proof.
  unfold offer_get, gbind. destruct (guint32_get 0 b) as [[? b1]|]; [|done].
  destruct (mwString_get b1) as [[? b2]|]; [|done]. destruct (mwString_get b2) as [[? b3]|]; [|done].
  destruct (guint32_get 0 b3) as [[n b4]|] eqn:En; [|done]. destruct (guint32_get 0 b4) as [[? b5]|]; [|done].
  intros [= _ _ <- _]. by apply guint32_get_u32 in En.
Qed.

Lemma keeps_create c m : has (keeps_ft srvc w0) (recv_channelCreate E h srvc c m).
Proof.
  unfold recv_channelCreate. apply fr_bind; [frame|intros handler]. destruct (negb handler); [apply fr_ret|].
  intros w [] w' I E0. apply bind_inv in E0 as ([[[fnm txt] size] b] & w1 & Eo & E0).
  destruct (offer_get _) as [x|] eqn:Eg; [|done]. injection Eo as -> <-. apply offer_get_size in Eg as Hsz.
  revert E0 I. cbn iota. destruct (mwGetBuffer_error b).
  { intros E0 I. revert I E0. apply (fun H : has (keeps_ft srvc w0) _ => H w tt w'). frame. }
  intros (login & w1 & Eu & E0)%bind_inv I.
  apply channel_get_inv in Eu as [-> _].
  apply bind_inv in E0 as (ft & w1 & En & E0). apply (keeps_new _ _ _ _ _ _ _ _ _ Hsz I) in En as [I1 _].
  revert I1 E0. apply (fun H : has (keeps_ft srvc w0) _ => H w1 tt w').
  unfold mwChannel_setServiceData, call1. frame. by eapply (fo_offered _ _ _ HO).
Qed.

Lemma keeps_TRANSFER p d : has (keeps_ft srvc w0) (recv_TRANSFER h p d).
Proof.
  unfold recv_TRANSFER. apply fr_bind; [frame|intros sv]. apply fr_bind; [frame|intros handler].
  intros w [] w' I E0. unfold guard, mwFileTransfer_isOpen, mwFileTransfer_isState, mwFileTransfer_getState, nonnull in E0.
  apply bind_inv in E0 as (ok & w1 & Eo & E0). apply bind_inv in Eo as (st & w2 & Eg & Eo).
  apply obj_get_inv in Eg as [-> (t & Ht & ->)]. cbn in Ht. injection Eo as <- <-. case_bool_decide as Hst; [|by injection E0 as <-].
  apply bind_inv in E0 as (r & w2 & Eg & E0). apply obj_get_inv in Eg as [-> (t' & Ht' & ->)]. cbn in Ht'.
  assert (t' = t) as -> by congruence. clear Ht'. destruct (Z.ltb_spec (xf_remaining t) (gsize (len d))); [by injection E0 as <-|].
  apply bind_inv in E0 as ([] & w2 & Es & E0). assert (ft_inv srvc w0 w2) as I2.
  { eapply keeps_less; [done|exact Ht|split; [apply gsize_nonneg|done]|done|done|exact Es]. }
  revert I2 E0. apply (fun H : has (keeps_ft srvc w0) _ => H w2 tt w').
  pose proof keeps_done. unfold call2. frame. by eapply (fo_recv _ _ _ HO).
Qed.
#[local] Hint Resolve keeps_TRANSFER keeps_done : mw_frame.

Lemma keeps_RECEIVED p d : has (keeps_ft srvc w0) (recv_RECEIVED E h p d).
Proof. unfold recv_RECEIVED, call1. frame. by eapply (fo_ack _ _ _ HO). Qed.
#[local] Hint Resolve keeps_RECEIVED : mw_frame.

Lemma keeps_ft_recv c t d : has (keeps_ft srvc w0) (recv E h srvc c t d).
Proof. unfold recv, mwChannel_getServiceData, nonnull. frame. Qed.

Lemma keeps_clear : has (keeps_ft srvc w0) (clear h srvc).
Proof. unfold clear, call1. frame. by eapply (fo_clear _ _ _ HO). Qed.

Lemma keeps_free_transfers n : has (keeps_ft srvc w0) (free_transfers E h n srvc).
Proof.
  induction n as [|n IH]; intros w [] w' I E0; cbn [free_transfers] in E0;
    apply bind_inv in E0 as (l & w1 & Eg & E0); apply obj_get_inv in Eg as [-> (s & Hs & ->)];
    destruct (fs_transfers s) as [|p l] eqn:El; try (by injection E0 as <-); [done|].
  apply bind_inv in E0 as ([] & w1 & Ef & E0). eapply IH; [|exact E0]. eapply (keeps_free srvc w0 E h HW HO); [exact I| |exact Ef].
  destruct I as [[L I] _]. destruct (ow_members _ _ _ _ I) as (s' & Hs' & HL). cbn in Hs, Hs', HL. assert (s' = s) as -> by congruence.
  apply (ow_heap _ _ _ _ I). rewrite <- HL, El. by left.
Qed.

Lemma keeps_ft_stop : has (keeps_ft srvc w0) (stop E h srvc).
Proof. unfold stop. pose proof keeps_free_transfers. frame. Qed.

#[export] Instance ft_ops_frame : OpsFrame (keeps_ft srvc w0) srvc (ft_ops E h).
Proof.
  split; cbn.
  - intros f c m [= <-]. apply keeps_create.
  - intros f c m [= <-]. apply keeps_ft_accept.
  - intros f c m [= <-]. apply keeps_ft_destroy.
  - intros f c t d [= <-]. apply keeps_ft_recv.
  - intros f [= <-]. apply fr_mwService_started, _.
  - intros f [= <-]. apply keeps_ft_stop.
Qed.

(** *** What the client calls *)

Lemma keeps_accepts p : has (keeps_ft srvc w0) (mwFileTransfer_accept E h p).
Proof.
  unfold mwFileTransfer_accept, nonnull, guard, mwFileTransfer_isPending, mwChannel_isIncoming, call1. frame.
  by eapply (fo_opened _ _ _ HO).
Qed.

Lemma keeps_populate c : has (keeps_ft srvc w0) (mwChannel_populateSupportedCipherInstances E c).
Proof.
  unfold mwChannel_populateSupportedCipherInstances, mwSession_getCiphers. frame. apply fr_for_each; [apply _|]. frame.
Qed.
#[local] Hint Resolve keeps_populate : mw_frame.

Lemma keeps_offer p : has (keeps_ft srvc w0) (mwFileTransfer_offer E h p).
Proof.
  unfold mwFileTransfer_offer, ft_create_chan, nonnull, guard, mwFileTransfer_isNew, has_channel,
    mwChannel_setService, mwChannel_setProtoType, mwChannel_setProtoVer, set_if_init, mwChannel_setServiceData. frame.
Qed.

Lemma keeps_send p d w r w' : ft_inv srvc w0 w -> mwFileTransfer_send E p d w = Some (r, w') -> ft_inv srvc w0 w'.
Proof.
  intros I E0. destruct p as [p|]; [|by injection E0 as _ <-]. cbn [mwFileTransfer_send nonnull] in E0.
  unfold guard, mwFileTransfer_isOpen, mwFileTransfer_isState, mwFileTransfer_getState, nonnull in E0.
  apply bind_inv in E0 as (ok & w1 & Eo & E0). apply bind_inv in Eo as (st & w2 & Eg & Eo).
  apply obj_get_inv in Eg as [-> (t & Ht & ->)]. cbn in Ht. injection Eo as <- <-. case_bool_decide as Hst; [|by injection E0 as _ <-].
  apply bind_inv in E0 as (c & w2 & Eg & E0). apply obj_get_inv in Eg as [-> _]. destruct c as [c|]; [|by injection E0 as _ <-].
  apply bind_inv in E0 as (out & w2 & Eg & E0). apply channel_get_inv in Eg as [-> _]. destruct out; [|by injection E0 as _ <-].
  apply bind_inv in E0 as (rem & w2 & Eg & E0). apply obj_get_inv in Eg as [-> (t' & Ht' & ->)]. cbn in Ht'.
  assert (t' = t) as -> by congruence. destruct (Z.ltb_spec (xf_remaining t) (gsize (len d))); [by injection E0 as _ <-|].
  apply bind_inv in E0 as (r' & w2 & Es & E0). apply (send_heap_same E (Some c) _ d HW) in Es as [Eh En].
  apply bind_inv in E0 as ([] & w3 & Er & E0). injection E0 as _ <-. apply (heap_only w w2 Eh En) in I. rewrite <- Eh in Ht.
  destruct (r' =? 0); [|by injection Er as <-].
  refine (keeps_less srvc w0 p (gsize (len d)) _ w2 w3 t I Ht _ Hst _ Er); [|done]. split; [apply gsize_nonneg|done].
Qed.

Lemma keeps_ack p : has (keeps_ft srvc w0) (mwFileTransfer_ack E p).
Proof. unfold mwFileTransfer_ack, nonnull, guard, mwChannel_isIncoming. frame. Qed.

Lemma keeps_setClientData p d c : has (keeps_ft srvc w0) (mwFileTransfer_setClientData p d c).
Proof.
  unfold mwFileTransfer_setClientData, nonnull. frame. apply keeps_set_transfer. intros t. apply later_client_data.
Qed.

Lemma keeps_removeClientData p : has (keeps_ft srvc w0) (mwFileTransfer_removeClientData h p).
Proof.
  unfold mwFileTransfer_removeClientData, nonnull. frame. unfold mw_datum_clear. frame.
  intros w [] w' I Ef. apply (fo_free _ _ _ HO) in Ef as [Eh En]. by eapply heap_only.
Qed.
End handlers.

(** ** The library with the service *)

Definition ft_env (srvc : Z) (h : mwFileTransferHandler) (E : Env) : Env := with_service srvc (ft_ops E h) E.

Lemma ft_env_frame srvc w0 h E : EnvFrame (keeps_ft srvc w0) E -> writes_out E -> fh_ok srvc w0 h ->
  EnvFrame (keeps_ft srvc w0) (ft_env srvc h E).
Proof. intros EF HW HO. apply with_service_frame; [done|]. by apply ft_ops_frame. Qed.

(** What may happen: a call of the session's interface, bytes from the server
    among them, and a call of the service's interface, on a transfer that the
    client has not freed. *)
Inductive ft_step (srvc : Z) (h : mwFileTransferHandler) (E : Env) : world -> world -> Prop :=
| fts_call c w w' : run_call (ft_env srvc h E) c w = Some (tt, w') -> ft_step srvc h E w w'
| fts_new who msg fnm size p w w' : is_u32 size ->
    mwFileTransfer_new srvc who msg fnm size w = Some (p, w') -> ft_step srvc h E w w'
| fts_offer p r w w' : mwFileTransfer_offer (ft_env srvc h E) h p w = Some (r, w') -> ft_step srvc h E w w'
| fts_accept p r w w' : mwFileTransfer_accept (ft_env srvc h E) h p w = Some (r, w') -> ft_step srvc h E w w'
| fts_close p c r w w' : mwFileTransfer_close (ft_env srvc h E) h p c w = Some (r, w') -> ft_step srvc h E w w'
| fts_send p d r w w' : mwFileTransfer_send (ft_env srvc h E) p d w = Some (r, w') -> ft_step srvc h E w w'
| fts_ack p r w w' : mwFileTransfer_ack (ft_env srvc h E) p w = Some (r, w') -> ft_step srvc h E w w'
| fts_free p t w w' : w_heap w !! p = Some (ObjFileTransfer t) -> xf_service t = srvc ->
    mwFileTransfer_free (ft_env srvc h E) h (Some p) w = Some (tt, w') -> ft_step srvc h E w w'
| fts_set p d c w w' : mwFileTransfer_setClientData p d c w = Some (tt, w') -> ft_step srvc h E w w'
| fts_unset p w w' : mwFileTransfer_removeClientData h p w = Some (tt, w') -> ft_step srvc h E w w'
| fts_clear w w' : clear h srvc w = Some (tt, w') -> ft_step srvc h E w w'.

Lemma keeps_ft_step srvc h E w0 w w' :
  EnvFrame (keeps_ft srvc w0) E -> writes_out E -> fh_ok srvc w0 h ->
  ft_step srvc h E w w' -> ft_inv srvc w0 w -> ft_inv srvc w0 w'.
Proof.
  intros EF HW HO S I. pose proof (ft_env_frame srvc w0 h E EF HW HO) as EF'.
  assert (writes_out (ft_env srvc h E)) as HW' by exact HW.
  destruct S as [c w w' H|who msg fnm size p w w' Hs H|p r w w' H|p r w w' H|p c r w w' H|p d r w w' H|p r w w' H
    |p t w w' Hp Ht H|p d c w w' H|p w w' H|w w' H].
  - revert I H. apply (full_call (keeps_ft srvc w0)); [apply _|done|].
    intros b. apply (kept_recv (ft_inv srvc w0)); [apply _|done|]. intros r s. by apply heap_only.
  - by apply (keeps_new _ _ _ _ _ _ _ _ _ Hs I) in H as [? _].
  - revert I H. by apply keeps_offer.
  - revert I H. by apply keeps_accepts.
  - revert I H. by apply keeps_close.
  - by eapply keeps_send.
  - revert I H. by apply keeps_ack.
  - eapply (keeps_free srvc w0 (ft_env srvc h E)); [done..|by exists t|done].
  - revert I H. by apply keeps_setClientData.
  - revert I H. by apply keeps_removeClientData.
  - revert I H. by apply keeps_clear.
Qed.

(** C20: whatever the client calls and whatever bytes the server sends, the
    transfers on the heap are exactly those on the list of the service, each
    once; and a transfer only moves on: its peer, file name, message and size
    stay what was offered, no more bytes are left than before and never more
    than its size, it is not new again, and it is done only when no byte is
    left. *)
Theorem ft_invariant srvc h E w0 w :
  EnvFrame (keeps_ft srvc w0) E -> writes_out E -> fh_ok srvc w0 h ->
  ft_wf srvc w0 -> rtc (ft_step srvc h E) w0 w -> ft_wf srvc w /\ ft_moved srvc w0 w.
Proof.
  intros EF HW HO I R. change (ft_inv srvc w0 w).
  assert (ft_inv srvc w0 w0) as I0 by (split; [done|apply moved_refl]). clear I. revert I0.
  enough (forall w1, rtc (ft_step srvc h E) w1 w -> ft_inv srvc w0 w1 -> ft_inv srvc w0 w) as Hall by eauto.
  clear R. intros w1 R. induction R as [w|w1 w2 w S R IH]; [done|]. intros I. apply IH. by eapply keeps_ft_step.
Qed.
