(* ===== verification/FtDeliver.v ===== *)
(** * The file transfer service: files arrive

    The chunks that one side sends over an encrypted channel are given to the
    client of the other, in order and complete; an offer arrives as it was
    made; and what the service does at the end of a transfer. *)

From S2P Require Import Prelude Buffer Common Message Framing World Util Rc2 Cipher Service Session.
From S2P Require Import Channel Ft Dispatch Frame Delivery Protocol ChannelSpec Secure Closing FtSpec.
#[local] Open Scope Z_scope.
#[local] Open Scope mw_scope.

#[local] Arguments render : simpl never.
#[local] Arguments prepared : simpl never.

(** ** Steps on transfers *)

Lemma isState_run p t st w : w_heap w !! p = Some (ObjFileTransfer t) ->
  mwFileTransfer_isState p st w = Some (bool_decide (xf_state t = st), w).
Proof.
  intros Ht. unfold mwFileTransfer_isState, mwFileTransfer_getState, nonnull.
  by erewrite bind_run by (by apply obj_get_run).
Qed.

Lemma guard_state_run {A} p t st w (v : A) m : w_heap w !! p = Some (ObjFileTransfer t) -> xf_state t = st ->
  guard (mwFileTransfer_isState p st) v m w = m w.
Proof.
  intros Ht Hst. unfold guard. erewrite bind_run by (by apply isState_run). by rewrite bool_decide_true.
Qed.

Lemma ft_state_run p t st w : w_heap w !! p = Some (ObjFileTransfer t) ->
  ft_state p st w = Some (tt, with_object p (ObjFileTransfer (set_xf_state st t)) w).
Proof.
  intros Ht. unfold ft_state. erewrite bind_run by (by apply obj_get_run). case_bool_decide as Hst.
  - unfold with_object. rewrite insert_id; [by destruct w|]. rewrite Ht, <- Hst. by destruct t.
  - by erewrite obj_set_run by exact Ht.
Qed.

(** ** The sender *)

Lemma transfer_send_run E p t c ch d w w1 :
  w_heap w !! p = Some (ObjFileTransfer t) -> xf_state t = mwFileTransfer_OPEN -> xf_channel t = Some c ->
  w_channels w !! c = Some ch -> mwChannel_idIsOutgoing (ch_id ch) = true ->
  0 <= len d <= xf_remaining t -> is_u32 (xf_remaining t) ->
  mwChannel_send E c msg_TRANSFER (Some d) w = Some (0, w1) -> w_heap w1 = w_heap w ->
  mwFileTransfer_send E (Some p) d w =
    Some (0, with_object p (ObjFileTransfer (set_xf_remaining (xf_remaining t - len d) t)) w1).
Proof.
  intros Ht Hst Hc Hch Hout Hl Hr Hs Hh. cbn [mwFileTransfer_send nonnull]. unfold mwFileTransfer_isOpen.
  rewrite (guard_state_run p t) by done. erewrite bind_run by (by apply obj_get_run). rewrite Hc.
  cbn [nonnull]. unfold guard, mwChannel_isOutgoing. erewrite bind_run by (by apply channel_get_run). rewrite Hout.
  erewrite bind_run by (by apply obj_get_run). unfold is_u32 in Hr. rewrite gsize_id by lia.
  destruct (Z.ltb_spec (xf_remaining t) (len d)); [lia|]. erewrite bind_run by exact Hs.
  cbn [Z.eqb]. erewrite bind_run by (refine (obj_set_run p _ t _ _); by rewrite Hh).
  cbv beta. rewrite u32_id by (unfold is_u32; lia). unfold with_object. done.
Qed.

(** ** The receiver *)

(** What the client does with a chunk shows as one event. *)
Definition notes (h : mwFileTransferHandler) (note : list Z -> event) : Prop :=
  exists f, ft_recv h = Some f /\
    forall p d w, opaque_ok d -> f p d w = Some (tt, with_log [note (opaque_data d)] w).

Definition left_state (n : Z) : mwFileTransferState :=
  if n =? 0 then mwFileTransfer_DONE else mwFileTransfer_OPEN.

(** With less left. *)
Definition received (n : Z) (t : mwFileTransfer) : mwFileTransfer :=
  set_xf_state (left_state n) (set_xf_remaining n t).

Lemma recv_TRANSFER_run h note p t s d w : notes h note ->
  w_heap w !! p = Some (ObjFileTransfer t) -> xf_state t = mwFileTransfer_OPEN ->
  w_heap w !! xf_service t = Some (ObjFtService s) -> fs_handler s = true ->
  opaque_ok d -> 0 <= len d <= xf_remaining t -> is_u32 (xf_remaining t) ->
  recv_TRANSFER h p d w =
    Some (tt, with_log [note (opaque_data d)]
      (with_object p (ObjFileTransfer (received (xf_remaining t - len d) t)) w)).
Proof.
  intros (f & Hf & Hn) Ht Hst Hs Hh Hd Hl Hr. unfold recv_TRANSFER, mwFileTransfer_isOpen.
  erewrite bind_run by (by apply obj_get_run). erewrite bind_run by (by apply obj_get_run).
  rewrite (guard_state_run p t) by done. erewrite bind_run by (by apply obj_get_run).
  unfold is_u32 in Hr. rewrite gsize_id by lia. destruct (Z.ltb_spec (xf_remaining t) (len d)); [lia|].
  rewrite u32_id by (unfold is_u32; lia). erewrite bind_run by (by eapply obj_set_run).
  set (n := xf_remaining t - len d). set (w1 := set_w_heap _ w).
  assert (w_heap w1 !! p = Some (ObjFileTransfer (set_xf_remaining n t))) as H1 by apply lookup_insert_eq.
  assert (done_when_empty p w1 = Some (tt, with_object p (ObjFileTransfer (received n t)) w)) as E1.
  { unfold done_when_empty. erewrite bind_run by (by apply obj_get_run). cbn [xf_remaining set_xf_remaining].
    unfold received, left_state. destruct (n =? 0).
    - rewrite (ft_state_run _ _ _ _ H1). unfold with_object, w1. cbn. by rewrite insert_insert_eq.
    - unfold ret, with_object, w1. do 3 f_equal. rewrite <- Hst. by destruct t. }
  erewrite bind_run by exact E1. rewrite Hh, Hf. cbn [call2]. by apply Hn.
Qed.

(** ** A file over a channel *)

(** The transfer [f1] of the one side and [f2] of the other are of the same
    file, with as much left, and their channels are the ends of one. *)
Record linked (srvc : Z) (w1 : world) (f1 : Z) (t1 : mwFileTransfer) (p1 : Z)
    (w2 : world) (f2 : Z) (t2 : mwFileTransfer) (p2 id2 : Z) : Prop := {
  ln_step : in_step w1 p1 w2 p2;
  ln_sender : w_heap w1 !! f1 = Some (ObjFileTransfer t1) /\ xf_state t1 = mwFileTransfer_OPEN
    /\ xf_channel t1 = Some p1;
  ln_outgoing : exists ch1, w_channels w1 !! p1 = Some ch1 /\ is_u32 (ch_id ch1)
    /\ mwChannel_idIsOutgoing (ch_id ch1) = true;
  ln_receiver : w_heap w2 !! f2 = Some (ObjFileTransfer t2) /\ xf_state t2 = left_state (xf_remaining t2)
    /\ xf_service t2 = srvc;
  ln_left : xf_remaining t2 = xf_remaining t1 /\ is_u32 (xf_remaining t1);
  ln_service : exists s sv, w_heap w2 !! srvc = Some (ObjFtService s) /\ fs_handler s = true
    /\ w_services w2 !! srvc = Some sv /\ sv_session sv = true;
  ln_incoming : exists ch2, chan_map w2 !! id2 = Some p2 /\ w_channels w2 !! p2 = Some ch2
    /\ ch_srvc_data ch2 = Some f2 /\ s_services (w_session w2) !! u32 (ch_service ch2) = Some srvc;
}.

(** A chunk that can be sent. *)
Definition chunk_ok (d : mwOpaque) : Prop := plain_ok d /\ 0 < len d < 2 ^ 29.

Definition total (ds : list mwOpaque) : Z := foldr (fun d n => len d + n) 0 ds.

(** What the sender calls. *)
Definition send_chunks (E : Env) (f : Z) (ds : list mwOpaque) : M unit :=
  for_each (fun d => let* r := mwFileTransfer_send E (Some f) d in
                     if r =? 0 then ret tt else crash) ds.

Section carry.
Context (srvc : Z) (E1 E2 : Env) (h : mwFileTransferHandler) (note : list Z -> event).
Context (HW : pure_writes E1 (fun _ => 0)) (HN : notes h note).
Context (HE : exists E, e_service E2 srvc = ft_ops E h).

Lemma chunk_step w1 f1 t1 p1 w2 f2 t2 p2 id2 d :
  linked srvc w1 f1 t1 p1 w2 f2 t2 p2 id2 -> chunk_ok d -> len d <= xf_remaining t1 ->
  let n := xf_remaining t1 - len d in
  exists m b w1' w2',
    mwFileTransfer_send E1 (Some f1) d w1 = Some (0, w1')
    /\ render m = Some b /\ w_log w1' = w_log w1 ++ [EvWrite b 0]
    /\ handle E2 (arrived m id2) w2 = Some (tt, w2')
    /\ w_log w2' = w_log w2 ++ [note (opaque_data d)]
    /\ linked srvc w1' f1 (set_xf_remaining n t1) p1 w2' f2 (received n t2) p2 id2.
Proof.
  intros [Hst (Ht1 & Ho1 & Hc1) (ch1 & Hp1 & Hid1 & Hout) (Ht2 & Ho2 & Hsv2) [Hrem Hu]
    (s & sv & Hs & Hh & Hsv & Hss) (ch2 & Hm2 & Hp2 & Hd2 & Hs2)] [Hd Hl] Hn n.
  assert (is_u32 n) as Hun by (unfold is_u32, n in *; lia).
  destruct (secure_send E1 (fun _ => 0) E2 w1 p1 ch1 w2 p2 ch2 id2 msg_TRANSFER d)
    as (m & b & ci1 & ci2 & stats & d' & Hsend & Hb & Hhandle & Hok' & Hdd & Hst'); [done..|lia|].
  set (w1a := with_log _ _) in *. set (ch2' := set_ch_cipher (Some ci2) _) in *. set (w2a := with_channel p2 ch2' w2) in *.
  assert (len d' = len d) as Hld.
  { rewrite <- (opaque_ok_len d'), <- (opaque_ok_len d) by (done || apply Hd). by rewrite Hdd. }
  exists m, b, (with_object f1 (ObjFileTransfer (set_xf_remaining n t1)) w1a),
    (with_log [note (opaque_data d)] (with_object f2 (ObjFileTransfer (received n t2)) w2a)).
  assert (xf_state t2 = mwFileTransfer_OPEN) as Hopen.
  { rewrite Ho2, Hrem. unfold left_state. destruct (Z.eqb_spec (xf_remaining t1) 0); [lia|done]. }
  split_and!; [|done|done| |done|].
  - by apply (transfer_send_run E1 f1 t1 p1 ch1); try done; lia.
  - rewrite Hhandle, Hs2. destruct HE as [E HE2]. unfold mwService_recv.
    rewrite (service_guard_run srvc sv p2 ch2') by (done || apply with_channel_lookup).
    rewrite HE2. cbn [op_recv ft_ops]. unfold recv, mwChannel_getServiceData.
    erewrite bind_run by apply channel_get_run, with_channel_lookup. cbn [ch_srvc_data ch2' set_ch_cipher set_ch_stats].
    rewrite Hd2. cbn [nonnull]. change (u16 msg_TRANSFER =? msg_TRANSFER) with true. cbv iota.
    rewrite (recv_TRANSFER_run h note f2 t2 s); try done; rewrite ?Hsv2, ?Hrem, ?Hld, ?Hdd; try done. lia.
  - split.
    + by apply (in_step_same w1a p1 w2a p2).
    + cbn. rewrite lookup_insert_eq. by rewrite Ho1, Hc1.
    + exists (set_ch_cipher (Some ci1) ch1). split; [apply with_channel_lookup|done].
    + cbn. rewrite lookup_insert_eq. by rewrite Hsv2.
    + done.
    + exists s, sv. split_and!; [|done..]. cbn. rewrite lookup_insert_ne; [done|]. congruence.
    + exists ch2'. split_and!; [done|apply with_channel_lookup|done..].
Qed.

(** C19: a file that is sent in chunks over an encrypted channel arrives: every
    call of [mwFileTransfer_send] succeeds and writes one message; the other
    side, given these messages, calls its client with exactly the chunks, in
    their order; both transfers have as much less left as was sent, and the
    receiving one is done exactly when nothing is left. *)
Theorem file_transfer_delivers w1 f1 t1 p1 w2 f2 t2 p2 id2 ds :
  linked srvc w1 f1 t1 p1 w2 f2 t2 p2 id2 -> Forall chunk_ok ds -> total ds <= xf_remaining t1 ->
  let n := xf_remaining t1 - total ds in
  exists ms bs w1' w2',
    send_chunks E1 f1 ds w1 = Some (tt, w1')
    /\ mapM render ms = Some bs /\ w_log w1' = w_log w1 ++ ((fun b => EvWrite b 0) <$> bs)
    /\ take_messages E2 id2 ms w2 = Some (tt, w2')
    /\ w_log w2' = w_log w2 ++ (note ∘ opaque_data <$> ds)
    /\ w_heap w1' !! f1 = Some (ObjFileTransfer (set_xf_remaining n t1))
    /\ w_heap w2' !! f2 = Some (ObjFileTransfer (received n t2)).
Proof.
  intros L Hds. revert w1 t1 w2 t2 L. induction Hds as [|d ds Hd Hds IH]; intros w1 t1 w2 t2 L Hn n.
  { exists [], [], w1, w2. cbn in n. pose proof L as [_ (Ht1 & _) _ (Ht2 & Ho2 & _) [Hrem _] _ _].
    assert (n = xf_remaining t1) as -> by (unfold n; lia). split_and!; try done; cbn; rewrite ?app_nil_r; try done.
    - rewrite Ht1. by destruct t1.
    - rewrite Ht2. unfold received. rewrite <- Hrem, <- Ho2. by destruct t2. }
  assert (0 <= total ds) as Ht0.
  { clear -Hds. induction Hds as [|d ds [_ Hd] _ IH]; cbn; [done|]. fold (total ds). lia. }
  cbn [total foldr] in Hn, n. fold (total ds) in Hn, n.
  destruct (chunk_step w1 f1 t1 p1 w2 f2 t2 p2 id2 d L Hd) as (m & b & w1a & w2a & Es & Eb & El1 & Eh & El2 & L'); [lia|].
  apply IH in L' as (ms & bs & w1' & w2' & Es' & Ebs & El1' & Eh' & El2' & Hf1 & Hf2); [|cbn; lia].
  cbn [xf_remaining set_xf_remaining] in Hf1, Hf2.
  exists (m :: ms), (b :: bs), w1', w2'. split_and!.
  - unfold send_chunks. cbn [for_each]. by erewrite bind_run by (erewrite bind_run by exact Es; reflexivity).
  - cbn [mapM]. rewrite Eb. cbn [mbind option_bind]. by rewrite Ebs.
  - rewrite El1', El1, <- app_assoc. done.
  - unfold take_messages. cbn [for_each]. by erewrite bind_run by exact Eh.
  - rewrite El2', El2, <- app_assoc. done.
  - rewrite Hf1. unfold n. do 2 f_equal. unfold set_xf_remaining. cbn. f_equal. lia.
  - rewrite Hf2. unfold n, received, set_xf_state, set_xf_remaining. cbn.
    replace (xf_remaining t1 - len d - total ds) with (xf_remaining t1 - (len d + total ds)) by lia. done.
Qed.
End carry.
