(* ===== verification/FtEnds.v ===== *)
(** * The file transfer service: offers and ends

    What becomes of an offer that arrives, whatever its bytes are; the last
    acknowledgement; and the service as it stops. *)

From S2P Require Import Prelude Buffer Common Message Framing World Util Rc2 Cipher Service Session.
From S2P Require Import Channel Ft Dispatch Frame Delivery Protocol ChannelSpec Secure Closing Freeing Owned FtSpec FtDeliver.
#[local] Open Scope Z_scope.
#[local] Open Scope mw_scope.

#[local] Arguments render : simpl never.

(** ** Offers *)

(** What is read of an offer; it ends with two more bytes. *)
Definition offer_enc (fnm txt : mwString) (size : Z) : list Z :=
  MW32_PUT 0 ++ mwString_enc fnm ++ mwString_enc txt ++ MW32_PUT size ++ MW32_PUT 0.

Lemma offer_put_writes t :
  writes (offer_put t) (offer_enc (xf_filename t) (xf_message t) (xf_size t) ++ MW16_PUT 0).
Proof. unfold offer_put, offer_enc. rewrite <- !app_assoc. writes_tac. Qed.

Lemma offer_get_safe : safe offer_get.
Proof. unfold offer_get. safe_tac. Qed.

Lemma offer_get_parses fnm txt size : mwString_ok fnm -> mwString_ok txt -> is_u32 size ->
  parses offer_get (offer_enc fnm txt size) (mwString_norm fnm, mwString_norm txt, size).
Proof. intros. assert (is_u32 0) by done. unfold offer_get, offer_enc. parses_tac. Qed.

(** The transfer of an offer. *)
Definition offered_transfer (srvc chan : Z) (login : mwLoginInfo) (fnm txt : mwString) (size : Z) : mwFileTransfer := {|
  xf_service := srvc; xf_channel := Some chan; xf_who := login_into_id login;
  xf_state := mwFileTransfer_PENDING; xf_filename := fnm; xf_message := txt;
  xf_size := size; xf_remaining := size; xf_client_data := datum_zero |}.

(** The world with it: on the heap, first of the list, the data of its
    channel. *)
Definition with_transfer (srvc : Z) (s : mwServiceFileTransfer) (chan : Z) (ch : mwChannel) (t : mwFileTransfer)
    (w : world) : world :=
  let ft := w_next w in
  with_channel chan (set_ch_srvc_data (Some ft) ch)
    (set_w_next (ft + 1)
      (set_w_heap (<[ft := ObjFileTransfer t]> (<[srvc := ObjFtService (set_fs_transfers (ft :: fs_transfers s) s)]>
        (w_heap w))) w)).

Lemma new_run srvc s who txt fnm size w : heap_below w -> w_heap w !! srvc = Some (ObjFtService s) ->
  let ft := w_next w in
  let t := {| xf_service := srvc; xf_channel := None; xf_who := mwIdBlock_clone who; xf_state := mwFileTransfer_NEW;
              xf_filename := g_strdup fnm; xf_message := g_strdup txt; xf_size := size; xf_remaining := size;
              xf_client_data := datum_zero |} in
  mwFileTransfer_new srvc who txt fnm size w =
    Some (ft, set_w_next (ft + 1) (set_w_heap (<[ft := ObjFileTransfer t]>
      (<[srvc := ObjFtService (set_fs_transfers (ft :: fs_transfers s) s)]> (w_heap w))) w)).
Proof.
  intros B Hs ft t. pose proof (below_fresh w B) as Hn. assert (ft <> srvc) as Hne by (unfold ft; congruence).
  unfold mwFileTransfer_new. erewrite bind_run by reflexivity. fold ft t. cbn zeta. set (w1 := set_w_next _ _).
  assert (w_heap w1 !! ft = Some (ObjFileTransfer t)) as Ht by apply lookup_insert_eq.
  erewrite bind_run by (unfold ft_state; erewrite bind_run by (by apply obj_get_run); by rewrite bool_decide_true).
  erewrite bind_run by (refine (obj_set_run srvc _ s w1 _); cbn; by rewrite lookup_insert_ne).
  unfold ret. do 2 f_equal. unfold w1, set_w_heap, set_w_next. cbn. f_equal. by rewrite insert_insert_ne.
Qed.

(** An offer that arrives, whatever its bytes: when they hold a file name,
    a message and a size, a pending transfer of these from the peer of the
    channel is on the list of the service and belongs to the channel, and the
    client is told of it; when they break off before that, the channel is
    destroyed and no transfer made. *)
Theorem offer_received E h srvc s chan ch msg fnm txt size w :
  heap_below w -> w_heap w !! srvc = Some (ObjFtService s) -> fs_handler s = true ->
  w_channels w !! chan = Some ch ->
  mwString_ok fnm -> mwString_ok txt -> is_u32 size ->
  opaque_ok (cc_addtl msg) -> len (cc_addtl msg) < 2 ^ 64 ->
  (forall rest, opaque_data (cc_addtl msg) = offer_enc fnm txt size ++ rest ->
     recv_channelCreate E h srvc chan msg w =
     call1 (ft_offered h) (w_next w)
       (with_transfer srvc s chan ch
          (offered_transfer srvc chan (ch_user ch) (mwString_norm fnm) (mwString_norm txt) size) w))
  /\ (forall rest, rest <> [] -> offer_enc fnm txt size = opaque_data (cc_addtl msg) ++ rest ->
     recv_channelCreate E h srvc chan msg w =
     (mwChannel_destroy E chan ERR_FAILURE None ;; ret tt) w).
Proof.
  intros B Hs Hh Hch Hf Ht Hsz Ho Hl. pose proof (mwGetBuffer_wrap_ready (cc_addtl msg) Ho Hl) as Hg.
  destruct (offer_get_parses fnm txt size Hf Ht Hsz) as (Rd & Tr & _).
  unfold recv_channelCreate. erewrite bind_run by (by apply obj_get_run). rewrite Hh. cbn [negb].
  split; intros rest.
  - intros Ed. rewrite Ed in Hg. destruct (Rd _ _ Hg) as (b & Eb & (_ & Hb & _) & _).
    erewrite bind_run by (apply lift_run, Eb). cbn beta iota. unfold mwGetBuffer_error. rewrite Hb.
    erewrite bind_run by (by apply channel_get_run).
    erewrite bind_run by (by apply (new_run srvc s)). cbn zeta. set (ft := w_next w). set (w1 := set_w_next _ _).
    erewrite bind_run by (refine (obj_set_run ft _ _ w1 _); apply lookup_insert_eq).
    set (w2 := set_w_heap _ w1). erewrite bind_run by (apply ft_state_run, lookup_insert_eq).
    set (w3 := with_object _ _ w2).
    erewrite bind_run by (by apply (channel_set_run chan _ ch)). f_equal.
    unfold with_transfer, w3, w2, w1, with_object, with_channel. cbn. rewrite !insert_insert_eq. done.
  - intros Hr Ed. destruct (Tr _ _ rest Hg Hr Ed) as (x & b & Eb & _ & Hb).
    erewrite bind_run by (apply lift_run, Eb). cbn beta iota. unfold mwGetBuffer_error. by rewrite Hb.
Qed.

(** ** Closing *)

(** A transfer as it is closed from this side. *)
Definition closed_transfer (t : mwFileTransfer) : mwFileTransfer :=
  set_xf_channel None
    (if bool_decide (xf_state t = mwFileTransfer_OPEN) then set_xf_state mwFileTransfer_CANCEL_LOCAL t else t).

Section ends.
Context (srvc : Z) (E : Env) (h : mwFileTransferHandler) (r : list Z -> Z) (HW : pure_writes E r).

(** What is written when a channel is destroyed. *)
Definition destroyed (id code : Z) : event :=
  let b := message_bytes (destroy_message id code) in EvWrite b (r b).

Lemma close_run p t s c ch code w : w_heap w !! p = Some (ObjFileTransfer t) ->
  w_heap w !! xf_service t = Some (ObjFtService s) -> fs_handler s = true ->
  xf_channel t = Some c -> w_channels w !! c = Some ch -> chan_map w !! ch_id ch = Some c ->
  is_u32 (ch_id ch) -> is_u32 code ->
  mwFileTransfer_close E h (Some p) code w =
  (call2 (ft_closed h) p code ;; ret (r (message_bytes (destroy_message (ch_id ch) code))))
    (with_object p (ObjFileTransfer (closed_transfer t))
      (with_log [destroyed (ch_id ch) code] (without_channel (ch_id ch) c w))).
Proof.
  intros Ht Hs Hh Hc Hch Hm Hid Hcode. cbn [mwFileTransfer_close nonnull]. unfold mwFileTransfer_isOpen.
  erewrite bind_run by (by apply isState_run).
  set (t1 := if bool_decide (xf_state t = mwFileTransfer_OPEN) then set_xf_state mwFileTransfer_CANCEL_LOCAL t else t).
  assert ((if bool_decide (xf_state t = mwFileTransfer_OPEN) then ft_state p mwFileTransfer_CANCEL_LOCAL else ret tt) w
    = Some (tt, with_object p (ObjFileTransfer t1) w)) as E1.
  { unfold t1. case_bool_decide; [by apply ft_state_run|]. unfold with_object. rewrite insert_id by done. by destruct w. }
  erewrite bind_run by exact E1. set (w1 := with_object p _ w).
  assert (w_heap w1 !! p = Some (ObjFileTransfer t1)) as Ht1 by apply lookup_insert_eq.
  assert (xf_channel t1 = Some c /\ xf_service t1 = xf_service t) as [Hc1 Hs1] by (unfold t1; by destruct (bool_decide _)).
  erewrite bind_run by (by apply obj_get_run). rewrite Hc1.
  set (w2 := with_object p (ObjFileTransfer (set_xf_channel None t1))
    (with_log [destroyed (ch_id ch) code] (without_channel (ch_id ch) c w))).
  erewrite bind_run.
  2:{ erewrite bind_run by (by apply (destroy_run E r c ch)).
      erewrite bind_run by (refine (obj_set_run p _ t1 _ _); apply lookup_insert_eq). cbn beta.
      replace (set_w_heap _ _) with w2; [reflexivity|].
      unfold w2, with_object, w1, set_w_heap. cbn. by rewrite insert_insert_eq. }
  cbn beta iota. erewrite bind_run by (apply obj_get_run, lookup_insert_eq).
  cbn [xf_service set_xf_channel]. rewrite Hs1.
  erewrite bind_run by (apply obj_get_run; cbn; rewrite lookup_insert_ne by congruence; exact Hs).
  rewrite Hh. done.
Qed.

(** A client that notes that it was told. *)
Definition acks (ea : Z -> event) : Prop :=
  exists f, ft_ack h = Some f /\ forall p w, f p w = Some (tt, with_log [ea p] w).
Definition closes (ec : Z -> Z -> event) : Prop :=
  exists f, ft_closed h = Some f /\ forall p c w, f p c w = Some (tt, with_log [ec p c] w).

(** An acknowledgement reaches the client; the one that comes when all has
    been sent also makes the transfer done, closes its channel with the code
    for success and tells the client that it is closed, in this order. *)
Theorem received_acks ea ec p t s c ch d w : acks ea -> closes ec ->
  w_heap w !! p = Some (ObjFileTransfer t) -> xf_state t = mwFileTransfer_OPEN ->
  w_heap w !! xf_service t = Some (ObjFtService s) -> fs_handler s = true ->
  xf_channel t = Some c -> w_channels w !! c = Some ch -> chan_map w !! ch_id ch = Some c -> is_u32 (ch_id ch) ->
  (xf_remaining t <> 0 -> recv_RECEIVED E h p d w = Some (tt, with_log [ea p] w))
  /\ (xf_remaining t = 0 -> exists w', recv_RECEIVED E h p d w = Some (tt, w')
      /\ w_log w' = w_log w ++ [ea p; destroyed (ch_id ch) 0; ec p mwFileTransfer_SUCCESS]
      /\ w_heap w' = <[p := ObjFileTransfer (set_xf_channel None (set_xf_state mwFileTransfer_DONE t))]> (w_heap w)
      /\ w_channels w' = delete c (w_channels w) /\ chan_map w' = delete (ch_id ch) (chan_map w)).
Proof.
  intros (fa & Ha & Hfa) (fc & Hc & Hfc) Ht Hst Hs Hh Hxc Hch Hm Hid. unfold recv_RECEIVED.
  erewrite bind_run by (by apply obj_get_run). erewrite bind_run by (by apply obj_get_run). rewrite Hh, Ha. cbn [call1].
  split; intros Hrem.
  - erewrite bind_run.
    2:{ unfold done_when_empty. erewrite bind_run by (by apply obj_get_run).
        destruct (Z.eqb_spec (xf_remaining t) 0); [done|reflexivity]. }
    erewrite bind_run by apply Hfa. erewrite bind_run by (by apply obj_get_run).
    destruct (Z.eqb_spec (xf_remaining t) 0); [done|reflexivity].
  - erewrite bind_run.
    2:{ unfold done_when_empty. erewrite bind_run by (by apply obj_get_run). rewrite Hrem. cbn [Z.eqb].
        by apply ft_state_run. }
    erewrite bind_run by apply Hfa. set (t1 := set_xf_state mwFileTransfer_DONE t).
    set (w1 := with_log [ea p] _).
    assert (w_heap w1 !! p = Some (ObjFileTransfer t1)) as Ht1 by apply lookup_insert_eq.
    erewrite bind_run by (by apply obj_get_run). cbn [xf_remaining t1 set_xf_state]. rewrite Hrem. cbn [Z.eqb].
    erewrite bind_run.
    2:{ rewrite (close_run p t1 s c ch); try done.
        - rewrite Hc. cbn [call2]. by erewrite bind_run by apply Hfc.
        - change (xf_service t1) with (xf_service t). cbn. rewrite lookup_insert_ne by congruence. done. }
    eexists. split; [done|]. split_and!.
    + cbn. by rewrite <- !app_assoc.
    + cbn. by rewrite insert_insert_eq.
    + done.
    + done.
Qed.

(** A client that frees the transfer from within its acknowledgement makes the
    code look at it again. *)
Theorem ack_frees_unsafe f p t s d w w1 : ft_ack h = Some f ->
  w_heap w !! p = Some (ObjFileTransfer t) -> xf_remaining t <> 0 ->
  w_heap w !! xf_service t = Some (ObjFtService s) -> fs_handler s = true ->
  f p w = Some (tt, w1) -> w_heap w1 !! p = None -> recv_RECEIVED E h p d w = None.
Proof.
  intros Hf Ht Hrem Hs Hh Ef Hp. unfold recv_RECEIVED.
  erewrite bind_run by (by apply obj_get_run). erewrite bind_run by (by apply obj_get_run). rewrite Hh, Hf. cbn [call1].
  erewrite bind_run.
  2:{ unfold done_when_empty. erewrite bind_run by (by apply obj_get_run).
      destruct (Z.eqb_spec (xf_remaining t) 0); [done|reflexivity]. }
  erewrite bind_run by exact Ef. apply bind_none. unfold obj_get. apply bind_none. unfold obj_deref.
  apply bind_none. unfold deref_object. by rewrite Hp.
Qed.

(** ** Stopping *)

(** The functions that free the client's data return, and do nothing else. *)
Definition frees_only : Prop := forall f d, harmless (ft_free_data h f d).
Context (HF : frees_only).

Lemma free_run : frees xf_channel set_fs_transfers srvc (fun p => mwFileTransfer_free E h (Some p)).
Proof.
  intros p t s w Ht Hts Hs HN Hat. cbn in Ht, Hts, Hs. cbn [mwFileTransfer_free nonnull].
  erewrite bind_run by (by apply obj_get_run). rewrite Hts.
  erewrite bind_run by (by apply (obj_set_run _ _ s)). set (h1 := <[srvc := _]> (w_heap w)).
  set (w1 := set_w_heap _ w). assert (w_heap w1 = h1) as Hh1 by done.
  assert (h1 !! p = Some (ObjFileTransfer t)) as Ht1 by (unfold h1; rewrite lookup_insert_ne by congruence; done).
  erewrite bind_run by (by apply obj_get_run).
  assert (exists w2 t2, (match xf_channel t with
     | Some chan => mwChannel_destroy E chan mwFileTransfer_SUCCESS None ;; obj_set p (set_xf_channel None)
     | None => ret tt end) w1 = Some (tt, w2)
     /\ w_heap w2 = <[p := ObjFileTransfer t2]> h1 /\ w_channels w2 = drop_channel (xf_channel t) (w_channels w)
     /\ (forall id c, chan_map w !! id = Some c -> xf_channel t <> Some c -> chan_map w2 !! id = Some c)
     /\ w_services w2 = w_services w) as (w2 & t2 & E2 & Hh2 & Hc2 & Hm2 & Hs2).
  { destruct (xf_channel t) as [c|] eqn:Ec.
    - destruct (destroy_listed E r c w1 mwFileTransfer_SUCCESS HW (Hat c Ec)) as (n & w2 & E2 & Eh & Ech & Es & Em); [done|].
      erewrite bind_run by exact E2. rewrite Hh1 in Eh. erewrite obj_set_run by (rewrite Eh; exact Ht1).
      eexists _, _. split; [done|]. cbn. rewrite Eh, Ech, Es. split_and!; try done.
      intros id c' Hm' Hne. apply Em; [done|congruence].
    - exists w1, t. split_and!; try done. by rewrite insert_id. }
  erewrite bind_run by exact E2. cbn [mwFileTransfer_removeClientData nonnull].
  assert (w_heap w2 !! p = Some (ObjFileTransfer t2)) as Ht2 by (rewrite Hh2; apply lookup_insert_eq).
  destruct (datum_clear_run (ft_free_data h) (xf_client_data t2) w2 HF) as (d & w3 & E3 & [Hh3 _ Hc3 Hm3 Hs3]).
  erewrite bind_run.
  2:{ erewrite bind_run by (by apply obj_get_run). erewrite bind_run by exact E3. apply (obj_set_run p _ t2). by rewrite Hh3. }
  rewrite Hh3, Hh2. unfold free_object. cbn. rewrite !lookup_insert_eq. eexists. split; [done|].
  split; cbn; rewrite ?Hc3, ?Hs3; try done.
  - rewrite insert_insert_eq, delete_insert_eq. by rewrite <- g_list_remove_filter.
  - intros id c Hm Hne. change (chan_map w3 !! id = Some c). rewrite Hm3. by apply Hm2.
Qed.

Lemma free_transfers_loop n w :
  free_transfers E h n srvc w =
  free_all (S := mwServiceFileTransfer) (T := mwFileTransfer) srvc (fun p => mwFileTransfer_free E h (Some p)) n w.
Proof.
  revert w. induction n as [|n IH]; intros w; cbn [free_transfers free_all]; unfold bind; [done|].
  cbn [ow_list ft_owned]. destruct (obj_get srvc fs_transfers w) as [[[|p l] w1]|]; [done| |done].
  destruct (mwFileTransfer_free E h (Some p) w1) as [[[] w2]|]; [apply IH|done].
Qed.

(** Stopping the service ends, and frees every transfer once: none is left
    on its list or on the heap, the other blocks are untouched, exactly the
    channels of the transfers are gone, and the service is stopped. *)
Theorem stop_frees_transfers L w sv :
  stoppable (S := mwServiceFileTransfer) xf_channel srvc L w -> w_services w !! srvc = Some sv ->
  exists w' s, stop E h srvc w = Some (tt, w')
    /\ w_heap w' !! srvc = Some (ObjFtService s) /\ fs_transfers s = []
    /\ (forall q, q <> srvc -> w_heap w' !! q = if bool_decide (q ∈ L) then None else w_heap w !! q)
    /\ (forall p t c, p ∈ L -> w_heap w !! p = Some (ObjFileTransfer t) -> xf_channel t = Some c -> w_channels w' !! c = None)
    /\ (forall c, (forall p t, p ∈ L -> w_heap w !! p = Some (ObjFileTransfer t) -> xf_channel t <> Some c) ->
          w_channels w' !! c = w_channels w !! c)
    /\ w_services w' !! srvc = Some (set_sv_state mwServiceState_STOPPED sv).
Proof.
  intros St Hsv. destruct (sp_service _ _ _ _ St) as (s & Hs & HL). cbn in Hs, HL.
  destruct (stop_run (S := mwServiceFileTransfer) (T := mwFileTransfer) xf_channel set_fs_transfers srvc
      ltac:(done) _ L w sv free_run St Hsv)
    as (w1 & w' & E1 & [(s1 & Hs1 & Hl1) Hh Hd Hk _] & Eh & Ec & Es).
  exists w', s1. rewrite Eh, Ec. split_and!; try done. unfold stop.
  erewrite bind_run by (by apply obj_get_run). rewrite HL. rewrite <- E1. unfold bind. by rewrite free_transfers_loop.
Qed.
End ends.
