(* ===== verification/FtRuns.v ===== *)
(** * The file transfer service: runs

    Concrete clients and files: the theorems of the service at work, and what
    becomes of data that comes before a transfer is accepted. *)

From S2P Require Import Prelude Buffer Common Message Framing World Util Rc2 Cipher Service Session.
From S2P Require Import Channel Ft Dispatch Frame Delivery Protocol ChannelSpec Secure Closing Freeing FtSpec FtDeliver FtEnds.
#[local] Open Scope Z_scope.
#[local] Open Scope mw_scope.

(** ** A client that writes down what it is told *)

Definition note_chunk (bytes : list Z) : event := EvWrite bytes 1.
Definition note_ack (p : Z) : event := EvWrite [] 2.
Definition note_closed (p code : Z) : event := EvWrite [] 3.

Definition writing_handler : mwFileTransferHandler := {|
  ft_offered := None;
  ft_opened := None;
  ft_closed := Some (fun p c => log (note_closed p c));
  ft_recv := Some (fun p d => log (note_chunk (opaque_data d)));
  ft_ack := Some (fun p => log (note_ack p));
  ft_clear := None;
  ft_free_data _ _ := ret tt |}.

Lemma writing_ok srvc w0 : fh_ok srvc w0 writing_handler.
Proof.
  split; cbn; try done; try (intros * [= <-]; apply (ff_log (P := keeps_ft srvc w0))).
  intros f d w a w' [= _ <-]. split; [done|lia].
Qed.

Lemma quiet_ft_env srvc w0 : EnvFrame (keeps_ft srvc w0) (quiet_env 0).
Proof. apply quiet_env_frame, _. Qed.

Lemma quiet_writes : writes_out (quiet_env 0).
Proof. intros b. apply fr_ret. Qed.

(** ** Two clients in the middle of a transfer *)

Definition transfer_of (srvc chan : Z) (st : mwFileTransferState) (size remaining : Z) : mwFileTransfer := {|
  xf_service := srvc; xf_channel := Some chan; xf_who := {| id_user := Some [98; 111; 98]; id_community := None |};
  xf_state := st; xf_filename := Some [120]; xf_message := None; xf_size := size; xf_remaining := remaining;
  xf_client_data := datum_zero |}.

Definition ft_service (l : list Z) : object := ObjFtService {| fs_handler := true; fs_transfers := l |}.

(** The service is at 4, the transfer at 12, the channel at 1. *)
Definition transferring (t : mwFileTransfer) : world :=
  set_w_next 13 (set_w_heap {[4 := ft_service [12]; 12 := ObjFileTransfer t]}
    (one_channel (set_ch_srvc_data (Some 12) (chan_40 mwChannel_OPEN)))).

Definition open_transfer (n : Z) : mwFileTransfer := transfer_of 4 1 mwFileTransfer_OPEN 6 n.

Lemma transferring_linked : linked 4 (transferring (open_transfer 6)) 12 (open_transfer 6) 1
  (transferring (open_transfer 6)) 12 (open_transfer 6) 1 1.
Proof.
  split; try done.
  - split. exists (set_ch_srvc_data (Some 12) (chan_40 mwChannel_OPEN)), (set_ch_srvc_data (Some 12) (chan_40 mwChannel_OPEN)),
      (alloc_instance 2 1), (alloc_instance 2 1). do 2 eexists. split_and!; try reflexivity. by apply (bool_decide_unpack _).
  - by exists (set_ch_srvc_data (Some 12) (chan_40 mwChannel_OPEN)).
  - by exists {| fs_handler := true; fs_transfers := [12] |}, service_4.
  - by exists (set_ch_srvc_data (Some 12) (chan_40 mwChannel_OPEN)).
Qed.

Lemma abc_chunk : chunk_ok abc.
Proof. split; [by apply (bool_decide_unpack _)|done]. Qed.

Lemma file_transfer_delivers_witness :
  let w := transferring (open_transfer 6) in
  exists ms bs w1' w2',
    send_chunks (quiet_env 0) 12 [abc; abc] w = Some (tt, w1')
    /\ mapM render ms = Some bs /\ w_log w1' = [] ++ ((fun b => EvWrite b 0) <$> bs)
    /\ take_messages (ft_env 4 writing_handler (quiet_env 0)) 1 ms w = Some (tt, w2')
    /\ w_log w2' = [] ++ [note_chunk [97; 98; 99]; note_chunk [97; 98; 99]]
    /\ w_heap w1' !! 12 = Some (ObjFileTransfer (open_transfer 0))
    /\ w_heap w2' !! 12 = Some (ObjFileTransfer (transfer_of 4 1 mwFileTransfer_DONE 6 0)).
Proof.
  apply (file_transfer_delivers 4 (quiet_env 0) (ft_env 4 writing_handler (quiet_env 0)) writing_handler note_chunk)
    with (t1 := open_transfer 6) (t2 := open_transfer 6) (p1 := 1) (p2 := 1) (ds := [abc; abc]).
  - done.
  - eexists. split; [done|]. done.
  - by exists (quiet_env 0).
  - exact transferring_linked.
  - repeat constructor; apply abc_chunk.
  - done.
Defined.

Definition offer_message (d : list Z) : mwMsgChannelCreate := {|
  cc_reserved := 0; cc_channel := 1; cc_target := {| id_user := None; id_community := None |};
  cc_service := 0; cc_proto_type := 0; cc_proto_ver := 1; cc_options := 0; cc_addtl := opaque_of d;
  cc_creator_flag := false; cc_creator := li_zero; cc_encrypt := eo_zero |}.
Definition offer_bytes : list Z := offer_enc (Some [120]) (Some [104; 105]) 6.
Definition idle_service : world := set_w_next 5 (set_w_heap {[4 := ft_service []]} (one_channel (chan_40 mwChannel_WAIT))).

Lemma idle_below : heap_below idle_service.
Proof.
  intros q o Hq. change (({[4 := ft_service []]} : gmap Z object) !! q = Some o) in Hq.
  by apply lookup_singleton_Some in Hq as [<- _].
Qed.

Lemma offer_received_witness :
  recv_channelCreate (quiet_env 0) writing_handler 4 1 (offer_message (offer_bytes ++ [0; 0])) idle_service =
    Some (tt, with_transfer 4 {| fs_handler := true; fs_transfers := [] |} 1 (chan_40 mwChannel_WAIT)
      (offered_transfer 4 1 li_zero (Some [120]) (Some [104; 105]) 6) idle_service)
  /\ recv_channelCreate (quiet_env 0) writing_handler 4 1 (offer_message (take 9 offer_bytes)) idle_service =
     (mwChannel_destroy (quiet_env 0) 1 ERR_FAILURE None ;; ret tt) idle_service.
Proof.
  split.
  - apply (offer_received (quiet_env 0) writing_handler 4 {| fs_handler := true; fs_transfers := [] |} 1
      (chan_40 mwChannel_WAIT) (offer_message (offer_bytes ++ [0; 0])) (Some [120]) (Some [104; 105]) 6)
      with (rest := [0; 0]); try done; first [exact idle_below|apply opaque_of_data|by apply (bool_decide_unpack _)].
  - apply (offer_received (quiet_env 0) writing_handler 4 {| fs_handler := true; fs_transfers := [] |} 1
      (chan_40 mwChannel_WAIT) (offer_message (take 9 offer_bytes)) (Some [120]) (Some [104; 105]) 6)
      with (rest := drop 9 offer_bytes); try done; first [exact idle_below|apply opaque_of_data|by apply (bool_decide_unpack _)].
Defined.

Lemma writing_acks : acks writing_handler note_ack.
Proof. by eexists. Qed.
Lemma writing_closes : closes writing_handler note_closed.
Proof. by eexists. Qed.

Lemma received_acks_witness :
  exists w', recv_RECEIVED (quiet_env 0) writing_handler 12 opaque_zero (transferring (open_transfer 0)) = Some (tt, w')
    /\ w_log w' = [] ++ [note_ack 12; destroyed (fun _ => 0) 1 0; note_closed 12 0]
    /\ w_heap w' = <[12 := ObjFileTransfer (set_xf_channel None (transfer_of 4 1 mwFileTransfer_DONE 6 0))]>
         (w_heap (transferring (open_transfer 0)))
    /\ w_channels w' = delete 1 (w_channels (transferring (open_transfer 0)))
    /\ chan_map w' = delete 1 (chan_map (transferring (open_transfer 0))).
Proof.
  apply (received_acks (quiet_env 0) writing_handler (fun _ => 0) ltac:(done) note_ack note_closed 12 (open_transfer 0)
    {| fs_handler := true; fs_transfers := [12] |} 1 (set_ch_srvc_data (Some 12) (chan_40 mwChannel_OPEN)) opaque_zero
    (transferring (open_transfer 0)) writing_acks writing_closes); done.
Defined.

Lemma transferring_stoppable n :
  stoppable (S := mwServiceFileTransfer) xf_channel 4 [12] (transferring (open_transfer n)).
Proof.
  split.
  - by eexists.
  - apply NoDup_singleton.
  - intros p ->%list_elem_of_singleton. exists (open_transfer n). split_and!; [done|done|]. intros c [= <-].
    by exists (set_ch_srvc_data (Some 12) (chan_40 mwChannel_OPEN)).
  - by intros p q t t' c ->%list_elem_of_singleton ->%list_elem_of_singleton.
Qed.

Lemma writing_frees : frees_only writing_handler.
Proof. intros f d w. exists w. split; [done|apply same_objects_refl]. Qed.

Lemma stop_frees_transfers_witness :
  exists w' s, stop (quiet_env 0) writing_handler 4 (transferring (open_transfer 6)) = Some (tt, w')
    /\ w_heap w' !! 4 = Some (ObjFtService s) /\ fs_transfers s = []
    /\ w_heap w' !! 12 = None /\ w_channels w' !! 1 = None
    /\ w_services w' !! 4 = Some (set_sv_state mwServiceState_STOPPED service_4).
Proof.
  destruct (stop_frees_transfers 4 (quiet_env 0) writing_handler (fun _ => 0) ltac:(done) writing_frees [12]
    (transferring (open_transfer 6)) service_4 (transferring_stoppable 6) eq_refl)
    as (w' & s & E & Hs & Hl & Hh & Hc & _ & Hsv).
  exists w', s. split_and!; [exact E|exact Hs|exact Hl| | |exact Hsv].
  - by rewrite (Hh 12).
  - by apply (Hc 12 (open_transfer 6) 1); [left|..].
Defined.

(** *** From a new service on *)

Definition new_ft : world := world_after mwServiceFileTransfer_new quiet_world.
Definition bob : mwIdBlock := {| id_user := Some [98; 111; 98]; id_community := None |}.
Definition one_transfer : world := world_after (mwFileTransfer_new 1 bob None (Some [120]) 6) new_ft.
Definition one_closed : world :=
  world_after (mwFileTransfer_cancel (ft_env 1 writing_handler (quiet_env 0)) writing_handler (Some 2)) one_transfer.

Lemma new_ft_wf : ft_wf 1 new_ft.
Proof.
  assert (w_heap new_ft = {[1 := ft_service []]}) as Eh by done. exists []. split; rewrite ?Eh.
  - intros q o. rewrite Eh. by intros [<- _]%lookup_singleton_Some.
  - by eexists.
  - constructor.
  - intros p. split; [by intros ?%not_elem_of_nil|]. by intros (t & [_ ?]%lookup_singleton_Some & _).
  - by intros p t [_ ?]%lookup_singleton_Some.
Qed.

Lemma ft_invariant_witness : ft_wf 1 one_closed /\ ft_moved 1 new_ft one_closed.
Proof.
  apply (ft_invariant 1 writing_handler (quiet_env 0)).
  - apply quiet_ft_env.
  - exact quiet_writes.
  - apply writing_ok.
  - exact new_ft_wf.
  - eapply rtc_l; [eapply (fts_new _ _ _ bob None (Some [120]) 6); [done|vm_compute; reflexivity]|].
    eapply rtc_l; [eapply (fts_close _ _ _ (Some 2) 0); vm_compute; reflexivity|]. apply rtc_refl.
Defined.

(** ** Data before the transfer is accepted *)

Definition incoming : Z := 0x80000001.
Definition incoming_offer : mwMsgChannelCreate := {|
  cc_reserved := 0; cc_channel := incoming; cc_target := {| id_user := None; id_community := None |};
  cc_service := 0; cc_proto_type := 0; cc_proto_ver := 1; cc_options := 0;
  cc_addtl := opaque_of (offer_enc (Some [120]) None 3 ++ [0; 0]);
  cc_creator_flag := false; cc_creator := li_zero; cc_encrypt := eo_zero |}.

(** An offer of three bytes, and the three bytes. *)
Definition early_data : M unit :=
  handle (ft_env 4 writing_handler (quiet_env 0)) (message 0 (CHANNEL_CREATE incoming_offer)) ;;
  handle (ft_env 4 writing_handler (quiet_env 0))
    (message incoming (CHANNEL_SEND {| cs_type := msg_TRANSFER; cs_data := abc |})).

(** A chunk that comes before the transfer is accepted is kept on the channel,
    but lost when it is accepted: the channel hands it over while the transfer
    is still pending, and the service takes data only once it is open.  The
    transfer then waits for bytes that have come already. *)
Theorem early_chunk_lost :
  exists w1 w2 ch, early_data idle_service = Some (tt, w1)
    /\ w_channels w1 !! 5 = Some ch /\ length (ch_incoming_queue ch) = 1%nat
    /\ mwFileTransfer_accept (ft_env 4 writing_handler (quiet_env 0)) writing_handler (Some 6) w1 = Some (0, w2)
    /\ (ch_incoming_queue <$> w_channels w2 !! 5) = Some []
    /\ (exists t, w_heap w2 !! 6 = Some (ObjFileTransfer t) /\ xf_state t = mwFileTransfer_OPEN /\ xf_remaining t = 3)
    /\ note_chunk [97; 98; 99] ∉ w_log w2.
Proof.
  set (w1 := world_after early_data idle_service).
  set (w2 := world_after (mwFileTransfer_accept (ft_env 4 writing_handler (quiet_env 0)) writing_handler (Some 6)) w1).
  exists w1, w2. eexists. split; [vm_compute; reflexivity|]. split; [vm_compute; reflexivity|].
  split; [reflexivity|]. split; [vm_compute; reflexivity|]. split; [vm_compute; reflexivity|].
  split; [eexists; split; [vm_compute; reflexivity|done]|].
  assert (Forall (fun e => match e with EvWrite _ 1 => False | _ => True end) (w_log w2)) as H by (vm_compute; repeat constructor).
  intros Hin. by eapply Forall_forall in H; [|exact Hin].
Qed.
