(* ===== verification/ImSpec.v ===== *)
(** * The instant messaging service: its invariant

    The conversations on the heap are those on the list of the service; each
    keeps its peer once it is known, its messages are encrypted, and its
    features are those it was made with until it falls back to plain text. *)

From S2P Require Import Prelude Buffer Common Message Framing World Util Rc2 Cipher Service Session.
From S2P Require Import Channel Im Dispatch Frame Owned Delivery Protocol ChannelSpec.
#[local] Open Scope Z_scope.
#[local] Open Scope mw_scope.

(** ** Conversations *)

(** The same conversation later. *)
Record convo_later (c c' : mwConversation) : Prop := {
  cl_service : cv_service c' = cv_service c;
  cl_ext_id : cv_ext_id c' = cv_ext_id c;
  cl_target : id_user (cv_target c) <> None -> cv_target c' = cv_target c;
  cl_features : cv_features c = 0 \/ cv_features c' = cv_features c \/ cv_features c' = mwImClient_PLAIN;
}.

#[export] Instance convo_later_preorder : PreOrder convo_later.
Proof.
  split; [intros c; split; auto|].
  intros c1 c2 c3 [S1 E1 T1 F1] [S2 E2 T2 F2]. split; [congruence..| |].
  - intros H. rewrite T2, T1; [done..|]. by rewrite T1.
  - destruct F1 as [F1|[F1|F1]], F2 as [F2|[F2|F2]]; rewrite ?F1 in F2; auto. discriminate F2.
Qed.

#[export] Instance im_owned : Owned mwServiceIm mwConversation := {
  ow_list := im_convs;
  ow_service := cv_service;
  ow_ok c := cv_ext_id c = false;
  ow_later := convo_later;
  ow_later_service c c' H := cl_service c c' H;
  ow_differ s c := ltac:(done);
}.

(** The conversations on the heap are those on the list. *)
Definition im_wf : Z -> world -> Prop := owned_wf (S := mwServiceIm) (T := mwConversation).
(** The conversations of [w0] have moved on. *)
Definition im_moved : Z -> world -> world -> Prop := moved (T := mwConversation).
Definition im_inv (srvc : Z) (w0 w : world) : Prop := im_wf srvc w /\ im_moved srvc w0 w.

Definition keeps_im (srvc : Z) (w0 : world) : forall A, M A -> Prop := kept (im_inv srvc w0).
#[export] Hint Unfold keeps_im : mw_frame.

#[export] Instance im_heap srvc w0 : HeapOnly (im_inv srvc w0) := owned_heap srvc w0.

(** ** Steps on a conversation and on the service *)

Section steps.
Context (srvc : Z) (w0 : world).

Lemma keeps_set_convo p f : (forall c, convo_later c (f c) /\ (cv_ext_id c = false -> cv_ext_id (f c) = false)) ->
  has (keeps_im srvc w0) (@obj_set mwConversation _ p f).
Proof. exact (keeps_set_block (S := mwServiceIm) srvc w0 p f). Qed.

(** The fields a step may change at any time. *)
Lemma later_convo_channel c v : convo_later c (set_cv_channel v c).
Proof. split; auto. Qed.
Lemma later_convo_state c v : convo_later c (set_cv_state v c).
Proof. split; auto. Qed.
Lemma later_convo_multi c v : convo_later c (set_cv_multi v c).
Proof. split; auto. Qed.
Lemma later_convo_multi_type c v : convo_later c (set_cv_multi_type v c).
Proof. split; auto. Qed.
Lemma later_convo_client_data c v : convo_later c (set_cv_client_data v c).
Proof. split; auto. Qed.
Lemma later_convo_plain c : convo_later c (set_cv_features mwImClient_PLAIN c).
Proof. split; auto. Qed.

Lemma keeps_cv_channel p v : has (keeps_im srvc w0) (obj_set p (set_cv_channel v)).
Proof. apply keeps_set_convo. split; [apply later_convo_channel|done]. Qed.
Lemma keeps_cv_state p v : has (keeps_im srvc w0) (obj_set p (set_cv_state v)).
Proof. apply keeps_set_convo. split; [apply later_convo_state|done]. Qed.
Lemma keeps_cv_multi p v : has (keeps_im srvc w0) (obj_set p (set_cv_multi v)).
Proof. apply keeps_set_convo. split; [apply later_convo_multi|done]. Qed.
Lemma keeps_cv_multi_type p v : has (keeps_im srvc w0) (obj_set p (set_cv_multi_type v)).
Proof. apply keeps_set_convo. split; [apply later_convo_multi_type|done]. Qed.
Lemma keeps_cv_client_data p v : has (keeps_im srvc w0) (obj_set p (set_cv_client_data v)).
Proof. apply keeps_set_convo. split; [apply later_convo_client_data|done]. Qed.
Lemma keeps_cv_plain p : has (keeps_im srvc w0) (obj_set p (set_cv_features mwImClient_PLAIN)).
Proof. apply keeps_set_convo. split; [apply later_convo_plain|done]. Qed.

Lemma keeps_im_handler p v : has (keeps_im srvc w0) (obj_set p (set_im_handler v)).
Proof. by apply (keeps_set_service (T := mwConversation) srvc w0 p). Qed.
Lemma keeps_im_features p v : has (keeps_im srvc w0) (obj_set p (set_im_features v)).
Proof. by apply (keeps_set_service (T := mwConversation) srvc w0 p). Qed.

(** A peer becomes known. *)
Lemma keeps_cv_target p who w w' c : im_inv srvc w0 w -> w_heap w !! p = Some (ObjConversation c) ->
  id_user (cv_target c) = None -> obj_set p (set_cv_target who) w = Some (tt, w') -> im_inv srvc w0 w'.
Proof.
  intros I Hc Hn (c' & Hc' & ->)%obj_set_inv. cbn in Hc'. assert (c' = c) as -> by congruence.
  refine (inv_update (S := mwServiceIm) srvc w0 w p c (set_cv_target who c) I Hc eq_refl _).
  intros Hok. split; [|done]. by split; auto.
Qed.

(** The features of a conversation that has none yet. *)
Lemma keeps_cv_features p v w w' c : im_inv srvc w0 w -> w_heap w !! p = Some (ObjConversation c) ->
  cv_features c = 0 -> obj_set p (set_cv_features v) w = Some (tt, w') -> im_inv srvc w0 w'.
Proof.
  intros I Hc Hn (c' & Hc' & ->)%obj_set_inv. cbn in Hc'. assert (c' = c) as -> by congruence.
  refine (inv_update (S := mwServiceIm) srvc w0 w p c (set_cv_features v c) I Hc eq_refl _).
  intros Hok. split; [|done]. by split; auto.
Qed.
End steps.

#[export] Hint Resolve keeps_cv_channel keeps_cv_state keeps_cv_multi keeps_cv_multi_type keeps_cv_client_data
  keeps_cv_plain keeps_im_handler keeps_im_features : mw_frame.

(** ** What the client gives *)

(** Functions that keep the invariant, and functions that free its data and
    nothing else. *)
Record imh_ok (srvc : Z) (w0 : world) (h : mwImHandler) : Prop := {
  io_opened f p : imh_opened h = Some f -> has (keeps_im srvc w0) (f p);
  io_closed f p c : imh_closed h = Some f -> has (keeps_im srvc w0) (f p c);
  io_recv f p t m : imh_recv h = Some f -> has (keeps_im srvc w0) (f p t m);
  io_place_invite f p m t n : imh_place_invite h = Some f -> has (keeps_im srvc w0) (f p m t n);
  io_clear f p : imh_clear h = Some f -> has (keeps_im srvc w0) (f p);
  io_free f d : heap_same unit (imh_free_data h f d);
}.

Section functions.
Context (srvc : Z) (w0 : world) (E : Env) (h : mwImHandler).
Context {EF : EnvFrame (keeps_im srvc w0) E} (HO : imh_ok srvc w0 h).

Lemma keeps_conv_isState p st : has (keeps_im srvc w0) (mwConversation_isState p st).
Proof. unfold mwConversation_isState, mwConversation_getState, nonnull. frame. Qed.
#[local] Hint Resolve keeps_conv_isState : mw_frame.
#[local] Hint Extern 1 (has _ (mwConversation_isOpen _)) => (unfold mwConversation_isOpen) : mw_frame.
#[local] Hint Extern 1 (has _ (mwConversation_isPending _)) => (unfold mwConversation_isPending) : mw_frame.
#[local] Hint Extern 1 (has _ (mwConversation_isClosed _)) => (unfold mwConversation_isClosed) : mw_frame.

Lemma keeps_convo_set_state p st : has (keeps_im srvc w0) (convo_set_state p st).
Proof. unfold convo_set_state. frame. Qed.
#[local] Hint Resolve keeps_convo_set_state : mw_frame.

Lemma keeps_im_populate c : has (keeps_im srvc w0) (mwChannel_populateSupportedCipherInstances E c).
Proof.
  unfold mwChannel_populateSupportedCipherInstances, mwSession_getCiphers. frame. apply fr_for_each; [apply _|]. frame.
Qed.
#[local] Hint Resolve keeps_im_populate : mw_frame.

Lemma keeps_create_chan p : has (keeps_im srvc w0) (convo_create_chan E p).
Proof.
  unfold convo_create_chan, guard, mwChannel_setService, mwChannel_setProtoType, mwChannel_setProtoVer,
    set_if_init, mwChannel_setServiceData. frame.
Qed.
#[local] Hint Resolve keeps_create_chan : mw_frame.

Lemma keeps_im_open p : has (keeps_im srvc w0) (mwConversation_open E p).
Proof. unfold mwConversation_open, nonnull, guard. frame. Qed.

Lemma keeps_opened p : has (keeps_im srvc w0) (convo_opened h p).
Proof. unfold convo_opened, guard, call1. frame. by eapply (io_opened _ _ _ HO). Qed.
#[local] Hint Resolve keeps_opened : mw_frame.

Lemma keeps_im_removeClientData p : has (keeps_im srvc w0) (mwConversation_removeClientData h p).
Proof.
  unfold mwConversation_removeClientData, nonnull. frame. unfold mw_datum_clear. frame.
  intros w [] w' I Ef. apply (io_free _ _ _ HO) in Ef as [Eh En]. by eapply heap_only.
Qed.
#[local] Hint Resolve keeps_im_removeClientData : mw_frame.

Lemma keeps_convo_free p : has (keeps_im srvc w0) (convo_free h p).
Proof.
  unfold convo_free. apply fr_bind; [frame|intros _].
  exact (keeps_remove_free (S := mwServiceIm) (T := mwConversation) srvc w0 p
    (fun s => set_im_convs (filter (fun q => q <> p) (im_convs s)) s) (fun s => eq_refl)).
Qed.
#[local] Hint Resolve keeps_convo_free : mw_frame.

Lemma keeps_im_close p r : has (keeps_im srvc w0) (mwConversation_close E h p r).
Proof. unfold mwConversation_close, nonnull, call2. frame. by eapply (io_closed _ _ _ HO). Qed.
#[local] Hint Resolve keeps_im_close : mw_frame.

Lemma keeps_im_free p : has (keeps_im srvc w0) (mwConversation_free E h p).
Proof. unfold mwConversation_free, nonnull. frame. Qed.
#[local] Hint Resolve keeps_im_free : mw_frame.

Lemma keeps_send_accept p : has (keeps_im srvc w0) (send_accept E p).
Proof. unfold send_accept, nonnull. frame. Qed.
#[local] Hint Resolve keeps_send_accept : mw_frame.

(** ** The functions of the service *)

Lemma keeps_im_accept c m : has (keeps_im srvc w0) (recv_channelAccept E h srvc c m).
Proof. unfold recv_channelAccept, mwChannel_getServiceData. frame. Qed.

Lemma keeps_im_destroy c m : has (keeps_im srvc w0) (recv_channelDestroy E h srvc c m).
Proof. unfold recv_channelDestroy, mwChannel_getServiceData, nonnull. frame. Qed.

Lemma keeps_convo_recv p t m : has (keeps_im srvc w0) (convo_recv h p t m).
Proof. unfold convo_recv. frame. by eapply (io_recv _ _ _ HO). Qed.
#[local] Hint Resolve keeps_convo_recv : mw_frame.

Lemma keeps_recv_text c b : has (keeps_im srvc w0) (recv_text h c b).
Proof. unfold recv_text, mwChannel_getServiceData, nonnull. frame. Qed.

(** The peer is set only when it is not known. *)
Lemma keeps_invite_target {A} p (b : bool) (who : Get mwIdBlock) (buf : mwGetBuffer) (k : mwGetBuffer -> M A) :
  (forall b, has (keeps_im srvc w0) (k b)) ->
  has (keeps_im srvc w0) (
    let* target := obj_get p cv_target in
    let* buf := (if b && bool_decide (id_user target = None) then
                   let* (who, buf) := lift (who buf) in
                   obj_set p (set_cv_target who) ;; ret buf
                 else ret buf) in k buf).
Proof.
  intros Hk w a w' I (target & w1 & Eg & E0)%bind_inv. apply obj_get_inv in Eg as [-> (c & Hc & ->)]. cbn in Hc.
  apply bind_inv in E0 as (b1 & w1 & Es & E0). refine (Hk b1 w1 a w' _ E0). clear E0.
  destruct b; cbn [andb] in Es; [case_bool_decide as Hn|]; try by injection Es as _ <-.
  apply bind_inv in Es as ([x b2] & w2 & El & Es). destruct (who buf); [|done]. injection El as -> <-.
  apply bind_inv in Es as ([] & w2 & Es & E2). injection E2 as _ <-. by eapply keeps_cv_target.
Qed.

Lemma keeps_convo_invite p o : has (keeps_im srvc w0) (convo_invite E h p o).
Proof.
  unfold convo_invite, guard. apply fr_bind; [frame|intros sv]. apply fr_bind; [frame|intros []]; [|frame].
  destruct (imh_place_invite h) as [f|] eqn:Hf; [|frame].
  apply fr_bind; [frame|intros [[[[title msg] name] b] buf]]. apply keeps_invite_target.
  frame. by eapply (io_place_invite _ _ _ HO).
Qed.
#[local] Hint Resolve keeps_convo_invite : mw_frame.

Lemma keeps_recv_data c b : has (keeps_im srvc w0) (recv_data E h c b).
Proof.
  unfold recv_data, mwChannel_getServiceData, nonnull, recv_data_type, recv_part, convo_multi_start, convo_multi_stop.
  frame.
Qed.
#[local] Hint Resolve keeps_recv_text keeps_recv_data : mw_frame.

Lemma keeps_im_recv c t d : has (keeps_im srvc w0) (recv E h srvc c t d).
Proof. unfold recv. frame. Qed.

Lemma keeps_free_convs free n : (forall c, has (keeps_im srvc w0) (free c)) ->
  has (keeps_im srvc w0) (free_convs free n srvc).
Proof. intros Hf. induction n as [|n IH]; cbn [free_convs]; frame. Qed.

Lemma keeps_im_clear : has (keeps_im srvc w0) (clear h srvc).
Proof. unfold clear, call1. pose proof keeps_free_convs. frame. by eapply (io_clear _ _ _ HO). Qed.

Lemma keeps_im_stop : has (keeps_im srvc w0) (stop E h srvc).
Proof. unfold stop. pose proof keeps_free_convs. frame. Qed.

(** A conversation that has just been made is put on the list; nothing else
    happens in between. *)
Lemma keeps_listed w w1 w2 c v : im_inv srvc w0 w -> cv_service v = srvc -> cv_ext_id v = false ->
  obj_new v w = Some (c, w1) ->
  obj_set srvc (fun s => set_im_convs (c :: im_convs s) s) w1 = Some (tt, w2) ->
  im_inv srvc w0 w2 /\ w_heap w2 !! c = Some (ObjConversation v).
Proof.
  intros [[L I] Hm] Hv He En Es. injection En as <- <-.
  apply (owned_new srvc _ _ v) in I; [|done..]. apply (moved_new srvc w0 w v) in Hm.
  apply (owned_service srvc _ _ _ _ _ I) in Es as (s & HL & I3 & -> & Hs). cbn in HL, I3, Hs. rewrite HL in I3 |- *.
  split; [split; [by exists (w_next w :: L)|by eapply moved_service]|].
  cbn. rewrite lookup_insert_ne; [by rewrite lookup_insert_eq|]. intros ->. rewrite lookup_insert_eq in Hs. by injection Hs.
Qed.

Lemma keeps_im_create c m : has (keeps_im srvc w0) (recv_channelCreate E h srvc c m).
Proof.
  unfold recv_channelCreate. apply fr_bind; [frame|intros ch]. destruct (negb _); [frame|].
  apply fr_bind; [frame|intros [x b]]. apply fr_bind; [frame|intros [y b']]. destruct (mwGetBuffer_error b'); [frame|].
  apply fr_bind; [frame|intros own]. apply fr_bind; [frame|intros stat].
  apply fr_bind; [unfold place_invite_given; frame|intros invite]. destruct (create_verdict _ _ _ _ _); [frame|].
  apply fr_bind; [frame|intros login]. intros w a w' I (cv & w1 & En & E0)%bind_inv.
  apply bind_inv in E0 as ([] & w2 & El & E0). destruct (keeps_listed _ _ _ _ (convo_zero srvc) I eq_refl eq_refl En El) as [I2 H2].
  clear En El I. apply bind_inv in E0 as ([] & w3 & Es & E0). apply (keeps_cv_channel srvc w0) in Es as I3; [|exact I2].
  apply obj_set_inv in Es as (v & Hv & ->). assert (v = convo_zero srvc) as -> by (cbn in Hv; congruence). clear Hv H2 I2.
  apply bind_inv in E0 as ([] & w4 & Es & E0).
  eapply (keeps_cv_target srvc w0) in Es as I4; [|exact I3|apply lookup_insert_eq|done].
  apply obj_set_inv in Es as (v & Hv & ->). cbn in Hv. rewrite lookup_insert_eq in Hv. injection Hv as <-. clear I3.
  apply bind_inv in E0 as ([] & w5 & Es & E0).
  eapply (keeps_cv_features srvc w0) in Es as I5; [|exact I4|apply lookup_insert_eq|done]. clear Es I4.
  revert I5 E0. apply (fun H : has (keeps_im srvc w0) _ => H w5 a w'). unfold mwChannel_setServiceData. frame.
Qed.

#[export] Instance im_ops_frame : OpsFrame (keeps_im srvc w0) srvc (im_ops E h).
Proof.
  split; cbn.
  - intros f c m [= <-]. apply keeps_im_create.
  - intros f c m [= <-]. apply keeps_im_accept.
  - intros f c m [= <-]. apply keeps_im_destroy.
  - intros f c t d [= <-]. apply keeps_im_recv.
  - intros f [= <-]. apply fr_mwService_started, _.
  - intros f [= <-]. apply keeps_im_stop.
Qed.

(** *** What the client calls *)

Lemma keeps_find_in l to : has (keeps_im srvc w0) (find_in l to).
Proof. induction l as [|c l IH]; cbn [find_in]; frame. Qed.
#[local] Hint Resolve keeps_find_in : mw_frame.

(** A field of a block that has just been made could have been given with it. *)
Lemma new_set_inv (v : mwConversation) f w n w1 w2 : obj_new v w = Some (n, w1) ->
  obj_set n f w1 = Some (tt, w2) -> obj_new (f v) w = Some (n, w2).
Proof.
  intros [= <- <-] (v' & Hv & ->)%obj_set_inv. cbn in Hv. rewrite lookup_insert_eq in Hv. injection Hv as <-.
  unfold obj_new, new_object. do 2 f_equal. unfold set_w_heap, set_w_next. cbn. by rewrite insert_insert_eq.
Qed.

Lemma keeps_getConversation to : has (keeps_im srvc w0) (mwServiceIm_getConversation (Some srvc) to).
Proof.
  cbn [mwServiceIm_getConversation nonnull]. destruct to as [to|]; [|frame].
  apply fr_bind; [unfold convo_find_by_user; frame|intros [c|]]; [frame|].
  intros w r w' I (c & w1 & En & E0)%bind_inv.
  apply bind_inv in E0 as ([] & w2 & Es & E0). eapply new_set_inv in En; [|exact Es]. clear Es.
  apply bind_inv in E0 as ([] & w3 & Es & E0). eapply new_set_inv in En; [|exact Es]. clear Es.
  apply bind_inv in E0 as (features & w4 & Eg & E0). apply obj_get_inv in Eg as [-> _].
  apply bind_inv in E0 as ([] & w4 & Es & E0). eapply new_set_inv in En; [|exact Es]. clear Es.
  apply bind_inv in E0 as ([] & w5 & El & E0). injection E0 as _ <-.
  by refine (proj1 (keeps_listed w w4 w5 c _ I _ _ En El)).
Qed.

Lemma keeps_send_data p t s d : has (keeps_im srvc w0) (convo_send_data E p t s d).
Proof. unfold convo_send_data, nonnull. frame. Qed.
#[local] Hint Resolve keeps_send_data : mw_frame.

Lemma keeps_send_segments n send s : (forall l, has (keeps_im srvc w0) (send l)) ->
  has (keeps_im srvc w0) (send_segments n send s).
Proof. intros Hs. revert s. induction n as [|n IH]; intros [|x s]; cbn [send_segments]; frame. Qed.

Lemma keeps_send_long n t p s : has (keeps_im srvc w0) (send_long E n t p s).
Proof.
  revert s. induction n as [|n IH]; intros s; cbn [send_long]; [frame|].
  unfold opaque_over, convo_sendSegmented, convo_send_multi_start, convo_send_multi_stop.
  pose proof keeps_send_segments. frame.
Qed.
#[local] Hint Resolve keeps_send_long : mw_frame.

Lemma keeps_im_send p t m : has (keeps_im srvc w0) (mwConversation_send E p t m).
Proof.
  unfold mwConversation_send, nonnull, guard, has_channel, ptr_string, ptr_int, convo_sendText, convo_sendTyping,
    convo_sendSubject, opaque_over, convo_sendHtml, convo_sendMime. frame.
Qed.

Lemma keeps_im_setClientData p d c : has (keeps_im srvc w0) (mwConversation_setClientData p d c).
Proof. unfold mwConversation_setClientData, nonnull. frame. apply keeps_set_convo. split; [apply later_convo_client_data|done]. Qed.

Lemma keeps_setClientType p v : has (keeps_im srvc w0) (mwServiceIm_setClientType p v).
Proof. unfold mwServiceIm_setClientType, nonnull. frame. Qed.
End functions.

(** ** The library with the service *)

Definition im_env (srvc : Z) (h : mwImHandler) (E : Env) : Env := with_service srvc (im_ops E h) E.

Lemma im_env_frame srvc w0 h E : EnvFrame (keeps_im srvc w0) E -> imh_ok srvc w0 h ->
  EnvFrame (keeps_im srvc w0) (im_env srvc h E).
Proof. intros EF HO. apply with_service_frame; [done|]. by apply im_ops_frame. Qed.

(** What may happen: a call of the session's interface, bytes from the server
    among them, and a call of the service's interface. *)
Inductive im_step (srvc : Z) (h : mwImHandler) (E : Env) : world -> world -> Prop :=
| ims_call c w w' : run_call (im_env srvc h E) c w = Some (tt, w') -> im_step srvc h E w w'
| ims_get to r w w' : mwServiceIm_getConversation (Some srvc) to w = Some (r, w') -> im_step srvc h E w w'
| ims_open p w w' : mwConversation_open (im_env srvc h E) p w = Some (tt, w') -> im_step srvc h E w w'
| ims_close p r w w' : mwConversation_close (im_env srvc h E) h p r w = Some (tt, w') -> im_step srvc h E w w'
| ims_send p t m r w w' : mwConversation_send (im_env srvc h E) p t m w = Some (r, w') -> im_step srvc h E w w'
| ims_free p w w' : mwConversation_free (im_env srvc h E) h p w = Some (tt, w') -> im_step srvc h E w w'
| ims_set p d c w w' : mwConversation_setClientData p d c w = Some (tt, w') -> im_step srvc h E w w'
| ims_unset p w w' : mwConversation_removeClientData h p w = Some (tt, w') -> im_step srvc h E w w'
| ims_type v w w' : mwServiceIm_setClientType (Some srvc) v w = Some (tt, w') -> im_step srvc h E w w'
| ims_clear w w' : clear h srvc w = Some (tt, w') -> im_step srvc h E w w'.

Lemma keeps_im_step srvc h E w0 w w' : EnvFrame (keeps_im srvc w0) E -> imh_ok srvc w0 h ->
  im_step srvc h E w w' -> im_inv srvc w0 w -> im_inv srvc w0 w'.
Proof.
  intros EF HO S I. pose proof (im_env_frame srvc w0 h E EF HO) as EF'.
  destruct S as [c w w' H|to r w w' H|p w w' H|p r w w' H|p t m r w w' H|p w w' H|p d c w w' H|p w w' H|v w w' H|w w' H];
    revert I H.
  - apply (full_call (keeps_im srvc w0)); [apply _|done|].
    intros b. apply (kept_recv (im_inv srvc w0)); [apply _|done|]. intros r s. by apply heap_only.
  - exact (keeps_getConversation srvc w0 (im_env srvc h E) h HO to w r w').
  - exact (keeps_im_open srvc w0 (im_env srvc h E) p w tt w').
  - exact (keeps_im_close srvc w0 (im_env srvc h E) h HO p r w tt w').
  - exact (keeps_im_send srvc w0 (im_env srvc h E) p t m w r w').
  - exact (keeps_im_free srvc w0 (im_env srvc h E) h HO p w tt w').
  - exact (keeps_im_setClientData srvc w0 p d c w tt w').
  - exact (keeps_im_removeClientData srvc w0 h HO p w tt w').
  - exact (keeps_setClientType srvc w0 (Some srvc) v w tt w').
  - exact (keeps_im_clear srvc w0 h HO w tt w').
Qed.

(** C7: whatever the client calls and whatever bytes the server sends, the
    conversations on the heap are exactly those on the list of the service,
    each once and each with encryption asked for; a conversation keeps its
    peer from when it is known, and its features but for the fall back to
    plain text. *)
Theorem im_invariant srvc h E w0 w :
  EnvFrame (keeps_im srvc w0) E -> imh_ok srvc w0 h ->
  im_wf srvc w0 -> rtc (im_step srvc h E) w0 w -> im_wf srvc w /\ im_moved srvc w0 w.
Proof.
  intros EF HO I R. change (im_inv srvc w0 w).
  assert (im_inv srvc w0 w0) as I0 by (split; [done|apply moved_refl]). clear I. revert I0.
  enough (forall w1, rtc (im_step srvc h E) w1 w -> im_inv srvc w0 w1 -> im_inv srvc w0 w) as Hall by eauto.
  clear R. intros w1 R. induction R as [w|w1 w2 w S R IH]; [done|]. intros I. apply IH. by eapply keeps_im_step.
Qed.
