(* ===== verification/ImProto.v ===== *)
(** * The instant messaging protocol

    What a message of a client is on the wire, and what the other side makes
    of it, as functions on packets: a message is one packet or, when it is
    long, a start, its segments and a stop; the receiver gathers the segments.
    [ImDeliver] shows that the service does this. *)

From S2P Require Import Prelude Buffer Common Message Framing World Util Channel Im.
#[local] Open Scope Z_scope.
#[local] Open Scope mw_scope.

(** ** Packets *)

Inductive packet :=
  | PkText (s : list Z)
  | PkData (type subtype : Z) (d : list Z).

Definition packet_enc (pk : packet) : list Z :=
  match pk with
  | PkText s => MW32_PUT mwIm_TEXT ++ mwString_enc (Some s)
  | PkData type subtype d =>
      MW32_PUT mwIm_DATA ++ MW32_PUT type ++ MW32_PUT subtype ++ MW32_PUT (u32 (zlen d)) ++ d
  end.

(** The bytes of a C string, short enough for all lengths to fit. *)
Definition chars (s : list Z) : Prop := Forall (fun x => is_u8 x /\ x <> 0) s /\ zlen s < 2 ^ 28.

Definition packet_ok (pk : packet) : Prop :=
  match pk with
  | PkText s => chars s /\ zlen s < 2 ^ 16
  | PkData type subtype d => chars d /\ is_u32 type /\ is_u32 subtype /\ type <> mwImData_INVITE
  end.

(** ** What the receiver does *)

(** What has been gathered of a message in parts, and its type. *)
Definition gather : Type := option (list Z) * mwImSendType.

Definition strndup (d : list Z) : mwString := match d with [] => None | _ => Some (cstr d) end.

Definition take_part (st : gather) (type : mwImSendType) (d : list Z) : gather * list (mwImSendType * gconstpointer) :=
  match st.1 with
  | Some str => ((Some (str ++ d), type), [])
  | None => (st, [(type, PtrString (strndup d))])
  end.

(** The state after a packet, and what the client is told. *)
Definition take_packet (st : gather) (pk : packet) : gather * list (mwImSendType * gconstpointer) :=
  match pk with
  | PkText [] => (st, [])
  | PkText s =>
      match st.1 with
      | Some str => ((Some (str ++ s), st.2), [])
      | None => (st, [(mwImSend_PLAIN, PtrString (Some s))])
      end
  | PkData type subtype d =>
      if type =? mwImData_TYPING then (st, [(mwImSend_TYPING, PtrInt (if subtype =? 0 then 1 else 0))])
      else if type =? mwImData_HTML then
        match d with [] => (st, []) | _ => take_part st mwImSend_HTML d end
      else if type =? mwImData_SUBJECT then (st, [(mwImSend_SUBJECT, PtrString (strndup d))])
      else if type =? mwImData_MIME then take_part st mwImSend_MIME d
      else if type =? mwImData_MULTI_START then
        match st.1 with Some _ => (st, []) | None => ((Some [], st.2), []) end
      else if type =? mwImData_MULTI_STOP then
        match st.1 with
        | Some str => ((None, st.2), [(st.2, PtrString (Some (cstr str)))])
        | None => (st, [])
        end
      else (st, [])
  end.

Fixpoint take_packets (st : gather) (pks : list packet) : gather * list (mwImSendType * gconstpointer) :=
  match pks with
  | [] => (st, [])
  | pk :: pks =>
      let '(st, es) := take_packet st pk in
      let '(st, es') := take_packets st pks in (st, es ++ es')
  end.

Lemma take_packets_app st p1 p2 : take_packets st (p1 ++ p2) =
  (let '(st1, e1) := take_packets st p1 in let '(st2, e2) := take_packets st1 p2 in (st2, e1 ++ e2)).
Proof.
  revert st. induction p1 as [|pk p1 IH]; intros st; cbn [take_packets app].
  - by destruct (take_packets st p2).
  - destruct (take_packet st pk) as [st1 e1]. rewrite IH. destruct (take_packets st1 p1) as [st2 e2].
    destruct (take_packets st2 p2) as [st3 e3]. by rewrite app_assoc.
Qed.

(** ** What the sender does *)

(** The segments of a long message, at most as many as it has bytes. *)
Fixpoint segments (fuel : nat) (s : list Z) : list (list Z) :=
  match s, fuel with
  | [], _ => []
  | _, O => [s]
  | _, S fuel => take (Z.to_nat BREAKUP) s :: segments fuel (drop (Z.to_nat BREAKUP) s)
  end.

Definition long_packets (type : Z) (s : list Z) : list packet :=
  if BREAKUP <? zlen s
  then PkData mwImData_MULTI_START 0 [] :: (PkData type 0 <$> segments (length s) s) ++ [PkData mwImData_MULTI_STOP 0 []]
  else [PkData type 0 s].

Definition message_packets (m : mwImSendType * gconstpointer) : list packet :=
  match m with
  | (mwImSend_PLAIN, PtrString s) => [PkText (opt_list s)]
  | (mwImSend_TYPING, PtrInt v) => [PkData mwImData_TYPING (if v =? 0 then 1 else 0) []]
  | (mwImSend_SUBJECT, PtrString s) => [PkData mwImData_SUBJECT 0 (opt_list s)]
  | (mwImSend_HTML, PtrString s) => long_packets mwImData_HTML (opt_list s)
  | (mwImSend_MIME, PtrString s) => long_packets mwImData_MIME (opt_list s)
  | _ => []
  end.

(** What a client may send: text may be NULL and has a length of 16 bits. *)
Definition message_ok (m : mwImSendType * gconstpointer) : Prop :=
  match m with
  | (mwImSend_PLAIN, PtrString s) => chars (opt_list s) /\ zlen (opt_list s) < 2 ^ 16
  | (mwImSend_TYPING, PtrInt v) => True
  | ((mwImSend_SUBJECT | mwImSend_HTML | mwImSend_MIME), PtrString (Some s)) => chars s
  | _ => False
  end.

(** What the client of the other side is told: empty text and empty HTML do
    not arrive, an empty subject and empty MIME arrive as NULL. *)
Definition delivered (m : mwImSendType * gconstpointer) : list (mwImSendType * gconstpointer) :=
  match m with
  | ((mwImSend_PLAIN | mwImSend_HTML) as type, PtrString s) =>
      match opt_list s with [] => [] | s => [(type, PtrString (Some s))] end
  | (mwImSend_TYPING, PtrInt v) => [(mwImSend_TYPING, PtrInt (if v =? 0 then 0 else 1))]
  | ((mwImSend_SUBJECT | mwImSend_MIME) as type, PtrString s) => [(type, PtrString (mwString_norm s))]
  | _ => []
  end.

(** ** The two agree *)

Lemma chars_cstr s : chars s -> cstr s = s.
Proof. intros [H _]. apply cstr_id. by eapply Forall_impl; [exact H|intros x [_ ?]]. Qed.
Lemma chars_strndup s : chars s -> strndup s = mwString_norm (Some s).
Proof. intros H. destruct s as [|x s]; [done|]. cbn [strndup mwString_norm]. by rewrite chars_cstr. Qed.

Lemma segments_concat n s : (length s <= n)%nat -> concat (segments n s) = s.
Proof.
  revert s. induction n as [|n IH]; intros [|x s] Hl; cbn [segments concat]; try done; [cbn in Hl; lia|].
  rewrite IH; [by rewrite take_drop|]. rewrite length_drop. cbn [length] in *. unfold BREAKUP. lia.
Qed.

Lemma segments_nonempty n s : Forall (fun l => l <> []) (segments n s).
Proof.
  revert s. induction n as [|n IH]; intros [|x s]; cbn [segments]; constructor; try done.

Qed.

Lemma segments_chars n s : chars s -> Forall (fun l => chars l /\ zlen l <= BREAKUP) (segments n s) \/ (n < length s)%nat.
Proof.
  revert s. induction n as [|n IH]; intros [|x s] [Hc Hl]; cbn [segments]; [left; constructor|right; cbn; lia|left; constructor|].
  set (k := Z.to_nat BREAKUP). destruct (IH (drop k (x :: s))) as [H|H].
  - split; [by apply Forall_drop|]. zlen_lia.
  - left. constructor; [|done]. split; [split; [by apply Forall_take|zlen_lia]|].
    unfold k, BREAKUP. zlen_lia.
  - right. rewrite length_drop in H. cbn [length] in *. unfold k, BREAKUP in H. lia.
Qed.

Lemma chars_segments s : chars s -> Forall (fun l => chars l /\ zlen l <= BREAKUP) (segments (length s) s).
Proof. intros H. destruct (segments_chars (length s) s H); [done|lia]. Qed.

Lemma long_nonempty (s : list Z) : BREAKUP < zlen s -> s <> [].
Proof. by intros H ->. Qed.

(** The parts of a message, gathered. *)
Lemma take_segments type t str mt segs :
  (type, t) = (mwImData_HTML, mwImSend_HTML) \/ (type, t) = (mwImData_MIME, mwImSend_MIME) ->
  Forall (fun l => l <> []) segs ->
  take_packets (Some str, mt) (PkData type 0 <$> segs) =
    ((Some (str ++ concat segs), match segs with [] => mt | _ => t end), []).
Proof.
  intros Ht H. revert str mt. induction H as [|l segs Hl _ IH]; intros str mt.
  { cbn. by rewrite app_nil_r. }
  cbn [fmap list_fmap take_packets].
  assert (take_packet (Some str, mt) (PkData type 0 l) = ((Some (str ++ l), t), [])) as ->.
  { destruct Ht as [[= -> ->]|[= -> ->]]; cbn; [by destruct l|done]. }
  cbv iota. rewrite IH. cbn [concat]. rewrite app_assoc. cbn [app]. f_equal. f_equal. by destruct segs.
Qed.

(** A long message, whole: it arrives as one. *)
Lemma take_long type t mt s :
  (type, t) = (mwImData_HTML, mwImSend_HTML) \/ (type, t) = (mwImData_MIME, mwImSend_MIME) ->
  chars s -> BREAKUP < zlen s ->
  take_packets (None, mt) (long_packets type s) = ((None, t), [(t, PtrString (Some s))]).
Proof.
  intros Ht Hs Hl. unfold long_packets. destruct (Z.ltb_spec BREAKUP (zlen s)); [|lia].
  cbn [take_packets]. change (take_packet (None, mt) (PkData mwImData_MULTI_START 0 [])) with ((Some ([] : list Z), mt), @nil (mwImSendType * gconstpointer)).
  cbv iota. rewrite take_packets_app. rewrite (take_segments type t) by (done || apply segments_nonempty).
  rewrite segments_concat by lia. cbv iota. cbn [app].
  assert (match segments (length s) s with [] => mt | _ => t end = t) as ->.
  { destruct s; [by apply long_nonempty in Hl|done]. }
  cbn [take_packets]. change (take_packet (Some s, t) (PkData mwImData_MULTI_STOP 0 []))
    with ((@None (list Z), t), [(t, PtrString (Some (cstr s)))]). cbn. by rewrite chars_cstr.
Qed.

(** The receiver is ready for the next message, and has told its client of
    this one. *)
Lemma take_message mt m : message_ok m ->
  exists mt', take_packets (None, mt) (message_packets m) = ((None, mt'), delivered m).
Proof.
  destruct m as [t p]. destruct t, p as [s|v]; cbn [message_ok]; try done.
  - intros _. exists mt. cbn. by destruct (opt_list s).
  - intros _. exists mt. cbn. by destruct (v =? 0).
  - destruct s as [s|]; [|done]. intros Hs. cbn [message_packets delivered opt_list].
    destruct (Z.ltb_spec BREAKUP (zlen s)) as [Hl|Hl].
    + exists mwImSend_HTML. rewrite (take_long _ mwImSend_HTML) by (auto; done).
      destruct s; [by apply long_nonempty in Hl|done].
    + exists mt. unfold long_packets. destruct (Z.ltb_spec BREAKUP (zlen s)); [lia|].
      destruct s as [|x s]; [done|].
      transitivity ((@None (list Z), mt), [(mwImSend_HTML, PtrString (strndup (x :: s)))]); [done|].
      by rewrite chars_strndup.
  - destruct s as [s|]; [|done]. intros Hs. exists mt. cbn [message_packets delivered opt_list].
    by rewrite <- chars_strndup.
  - destruct s as [s|]; [|done]. intros Hs. cbn [message_packets delivered opt_list].
    destruct (Z.ltb_spec BREAKUP (zlen s)) as [Hl|Hl].
    + exists mwImSend_MIME. rewrite (take_long _ mwImSend_MIME) by (auto; done).
      destruct s; [by apply long_nonempty in Hl|done].
    + exists mt. unfold long_packets. destruct (Z.ltb_spec BREAKUP (zlen s)); [lia|].
      rewrite <- chars_strndup by done. done.
Qed.

Lemma take_messages_app mt ms : Forall message_ok ms ->
  exists mt', take_packets (None, mt) (concat (message_packets <$> ms)) = ((None, mt'), concat (delivered <$> ms)).
Proof.
  intros H. revert mt. induction H as [|m ms Hm _ IH]; intros mt; cbn [fmap list_fmap concat]; [by exists mt|].
  destruct (take_message mt m Hm) as [mt1 E1]. destruct (IH mt1) as [mt2 E2]. exists mt2.
  by rewrite take_packets_app, E1, E2.
Qed.

(** The packets of a message fit. *)
Lemma chars_nil : chars [].
Proof. by split. Qed.

Lemma message_packets_ok m : message_ok m -> Forall packet_ok (message_packets m).
Proof.
  pose proof chars_nil as Hn. assert (forall pk, packet_ok pk -> Forall packet_ok [pk]) as H1 by (intros; by constructor).
  assert (forall type s, is_u32 type -> type <> mwImData_INVITE -> chars s -> Forall packet_ok (long_packets type s)) as Hlong.
  { intros type s Ht Hi Hs. unfold long_packets. destruct (BREAKUP <? zlen s); [|by apply H1].
    apply Forall_cons. split; [done|]. apply Forall_app. split; [|by apply H1].
    apply Forall_fmap. eapply Forall_impl; [by apply chars_segments|]. by intros l [Hl _]. }
  destruct m as [t p]. destruct t, p as [s|v]; cbn [message_ok message_packets]; try done.
  - intros ?. by apply H1.
  - intros _. apply H1. by destruct (v =? 0).
  - destruct s as [s|]; [|done]. intros Hs. by apply Hlong.
  - destruct s as [s|]; [|done]. intros Hs. by apply H1.
  - destruct s as [s|]; [|done]. intros Hs. by apply Hlong.
Qed.

(** The type of a message in parts is that of the last one that had parts of
    HTML or MIME: plain text in parts, which other clients send, is then told
    as HTML. *)
Theorem multi_text_mislabelled s : s <> [] -> chars s ->
  take_packets (None, mwImSend_HTML) [PkData mwImData_MULTI_START 0 []; PkText s; PkData mwImData_MULTI_STOP 0 []]
  = ((None, mwImSend_HTML), [(mwImSend_HTML, PtrString (Some s))]).
Proof.
  intros Hs Hc. destruct s as [|x s]; [done|].
  transitivity ((@None (list Z), mwImSend_HTML), [(mwImSend_HTML, PtrString (Some (cstr (x :: s))))]); [done|].
  by rewrite chars_cstr.
Qed.
