(* ===== verification/ImDeliver.v ===== *)
(** * The instant messaging service: messages arrive

    What the service sends for a message are the packets of [ImProto], and
    what it does with packets is what is said there; so the messages of one
    client are told to the other, in order, whatever their length. *)

From S2P Require Import Prelude Buffer Common Message Framing World Util Rc2 Cipher Service Session.
From S2P Require Import Channel Im Dispatch Frame Delivery Protocol ChannelSpec Secure ImProto.
#[local] Open Scope Z_scope.
#[local] Open Scope mw_scope.

#[local] Arguments render : simpl never.

(** ** Writing a packet *)

Lemma land_ff_u8 x : is_u8 (Z.land x 0xff).
Proof. rewrite land_ff. apply Z.mod_pos_bound. lia. Qed.
Lemma MW16_PUT_u8 x : Forall is_u8 (MW16_PUT x).
Proof. unfold MW16_PUT. repeat constructor; apply land_ff_u8. Qed.
Lemma MW32_PUT_u8 x : Forall is_u8 (MW32_PUT x).
Proof. unfold MW32_PUT. repeat constructor; apply land_ff_u8. Qed.

Lemma text_put_writes s : writes (text_put (Some s)) (packet_enc (PkText s)).
Proof. unfold text_put, packet_enc. writes_tac. Qed.

Lemma text_put_null_writes : writes (text_put None) (packet_enc (PkText [])).
Proof. unfold text_put, packet_enc. change (mwString_enc (Some [])) with (mwString_enc None). writes_tac. Qed.

Lemma data_put_writes t st o : opaque_ok o ->
  writes (data_put t st (Some o)) (packet_enc (PkData t st (opaque_data o))).
Proof.
  intros Ho. unfold data_put, packet_enc. rewrite (opaque_ok_len o) by done.
  repeat (apply writes_seq; [apply guint32_put_writes|]). by apply mwOpaque_put_writes.
Qed.

Lemma data_put_null_writes t st : writes (data_put t st None) (packet_enc (PkData t st [])).
Proof.
  unfold data_put, packet_enc. rewrite app_nil_r. repeat (apply writes_seq; [apply guint32_put_writes|]). apply guint32_put_writes.
Qed.

(** The opaque that is given holds the bytes, or is NULL. *)
Definition opaque_bytes_are (o : option mwOpaque) (d : list Z) : Prop :=
  match o with Some o => opaque_ok o /\ opaque_data o = d | None => d = [] end.

Lemma block_over s : opaque_ok {| len := strlen s; data := Some s |} /\ opaque_data {| len := strlen s; data := Some s |} = s.
Proof. apply block_opaque. Qed.

(** ** Reading one *)

Lemma opaque_of_strndup d : g_strndup (opaque_of d) = Some (strndup d).
Proof.
  destruct (opaque_of_data d) as (Ho & Hd & _). pose proof (opaque_ok_data _ Ho) as Hb. unfold g_strndup.
  destruct d as [|x d]; [done|]. rewrite Hb, Hd. done.
Qed.

Lemma opaque_of_bytes d : opaque_bytes (opaque_of d) = Some d.
Proof. destruct (opaque_of_data d) as (Ho & Hd & _). by rewrite opaque_ok_data, Hd. Qed.

Lemma data_get_reads t st d : is_u32 t -> is_u32 st -> chars d ->
  reads data_get (MW32_PUT t ++ MW32_PUT st ++ MW32_PUT (u32 (zlen d)) ++ d) (t, st, opaque_of d).
Proof.
  intros Ht Hst [_ Hd]. destruct (opaque_of_data d) as (Ho & Hdd & Hl).
  assert (mwOpaque_enc (opaque_of d) = MW32_PUT (u32 (zlen d)) ++ d) as <- by (unfold mwOpaque_enc; by rewrite Hl, Hdd).
  destruct (mwOpaque_get_parses (opaque_of d) Ho) as (R & _); [rewrite Hl; unfold is_u32; zlen_lia|]. rewrite Hdd in R.
  unfold data_get. eapply reads_bind; [by apply guint32_get_parses|]. eapply reads_bind; [by apply guint32_get_parses|].
  rewrite <- (app_nil_r (mwOpaque_enc _)). eapply reads_bind; [exact R|apply reads_ret].
Qed.

(** ** The receiver *)

(** What the client is told shows as one event. *)
Definition im_notes (h : mwImHandler) (note : mwImSendType -> gconstpointer -> event) : Prop :=
  exists f, imh_recv h = Some f /\ forall p t m w, f p t m w = Some (tt, with_log [note t m] w).

(** A conversation that has gathered this much. *)
Definition gathered (st : gather) (c : mwConversation) : mwConversation :=
  set_cv_multi_type st.2 (set_cv_multi st.1 c).

Lemma with_object_id p o w : w_heap w !! p = Some o -> with_object p o w = w.
Proof. intros H. unfold with_object. rewrite insert_id by done. by destruct w. Qed.

Section receiver.
Context (srvc : Z) (h : mwImHandler) (note : mwImSendType -> gconstpointer -> event) (HN : im_notes h note).
Context (c : Z) (v : mwConversation) (Hv : cv_service v = srvc).

(** The service is there with its handler, the conversation has gathered
    [st]. *)
Definition receiving (st : gather) (w : world) : Prop :=
  w_heap w !! c = Some (ObjConversation (gathered st v))
  /\ exists s, w_heap w !! srvc = Some (ObjImService s) /\ im_handler s = true.

(** What the receiver does with a packet. *)
Definition taken (st : gather) (pk : packet) (w : world) : world :=
  with_log (uncurry note <$> (take_packet st pk).2)
    (with_object c (ObjConversation (gathered (take_packet st pk).1 v)) w).

Lemma taken_nothing st pk w : receiving st w -> take_packet st pk = (st, []) -> taken st pk w = w.
Proof.
  intros [Hc _] E. unfold taken. rewrite E. cbn [fst snd fmap list_fmap]. by rewrite with_log_nil, with_object_id.
Qed.
Lemma taken_told st pk t m w : receiving st w -> take_packet st pk = (st, [(t, m)]) -> taken st pk w = with_log [note t m] w.
Proof.
  intros [Hc _] E. unfold taken. rewrite E. cbn [fst snd fmap list_fmap uncurry]. by rewrite with_object_id.
Qed.
Lemma taken_kept st st' pk w : take_packet st pk = (st', []) ->
  taken st pk w = with_object c (ObjConversation (gathered st' v)) w.
Proof. intros E. unfold taken. rewrite E. apply with_log_nil. Qed.

Lemma convo_recv_run st t m w : receiving st w -> convo_recv h c t m w = Some (tt, with_log [note t m] w).
Proof.
  intros (Hc & s & Hs & Hh). destruct HN as (f & Hf & Hn). unfold convo_recv.
  erewrite bind_run by (by apply obj_get_run). cbn [cv_service gathered set_cv_multi set_cv_multi_type]. rewrite Hv.
  erewrite bind_run by (by apply obj_get_run). rewrite Hh, Hf. apply Hn.
Qed.

Lemma set_multi_run str st w : receiving st w ->
  obj_set c (set_cv_multi str) w = Some (tt, with_object c (ObjConversation (gathered (str, st.2) v)) w).
Proof. intros (Hc & _). by erewrite obj_set_run by exact Hc. Qed.

Lemma recv_part_run st t d w : receiving st w ->
  recv_part h c t (opaque_of d) w =
  Some (tt, with_log (uncurry note <$> (take_part st t d).2)
    (with_object c (ObjConversation (gathered (take_part st t d).1 v)) w)).
Proof.
  intros Hr. pose proof Hr as (Hc & _). unfold recv_part, take_part. erewrite bind_run by (by apply obj_get_run).
  cbn [cv_multi gathered set_cv_multi set_cv_multi_type]. destruct st.1 as [str|] eqn:Hst.
  - erewrite bind_run by (apply lift_run, opaque_of_bytes). erewrite bind_run by (by apply (set_multi_run _ st)).
    cbn [fst snd fmap list_fmap]. rewrite with_log_nil. erewrite obj_set_run by apply lookup_insert_eq.
    unfold with_object, set_w_heap. cbn. by rewrite insert_insert_eq.
  - erewrite bind_run by (apply lift_run, opaque_of_strndup). erewrite convo_recv_run by done.
    cbn [fst snd fmap list_fmap uncurry]. by rewrite with_object_id.
Qed.

Lemma recv_data_type_run E st t u d w : receiving st w -> t <> mwImData_INVITE ->
  recv_data_type E h c t u (opaque_of d) w = Some (tt, taken st (PkData t u d) w).
Proof.
  intros Hr Ht. pose proof Hr as (Hc & _). unfold recv_data_type. destruct (t =? mwImData_TYPING) eqn:E1.
  { rewrite (convo_recv_run st) by done. erewrite taken_told; [done..|]. cbn [take_packet]. by rewrite E1. }
  destruct (t =? mwImData_HTML) eqn:E2.
  { destruct (opaque_of_data d) as (_ & _ & Hl). rewrite Hl. destruct d as [|x d].
    - rewrite taken_nothing; [done..|]. cbn [take_packet]. by rewrite E1, E2.
    - change (zlen (x :: d) =? 0) with false. cbv iota. rewrite (recv_part_run st) by done.
      unfold taken. cbn [take_packet]. by rewrite E1, E2. }
  destruct (t =? mwImData_SUBJECT) eqn:E3.
  { erewrite bind_run by (apply lift_run, opaque_of_strndup). rewrite (convo_recv_run st) by done.
    erewrite taken_told; [done..|]. cbn [take_packet]. by rewrite E1, E2, E3. }
  destruct (t =? mwImData_MIME) eqn:E4.
  { rewrite (recv_part_run st) by done. unfold taken. cbn [take_packet]. by rewrite E1, E2, E3, E4. }
  destruct (Z.eqb_spec t mwImData_INVITE); [done|]. destruct (t =? mwImData_MULTI_START) eqn:E5.
  { unfold convo_multi_start. erewrite bind_run by (by apply obj_get_run).
    cbn [cv_multi gathered set_cv_multi set_cv_multi_type]. destruct st.1 as [str|] eqn:Hst.
    - rewrite taken_nothing; [done..|]. cbn [take_packet]. by rewrite E1, E2, E3, E4, E5, Hst.
    - rewrite (set_multi_run _ st) by done. erewrite taken_kept; [done|]. cbn [take_packet].
      by rewrite E1, E2, E3, E4, E5, Hst. }
  destruct (t =? mwImData_MULTI_STOP) eqn:E6.
  { unfold convo_multi_stop. erewrite bind_run by (by apply obj_deref_run).
    cbn [cv_multi cv_multi_type gathered set_cv_multi set_cv_multi_type]. destruct st.1 as [str|] eqn:Hst.
    - erewrite bind_run by (by apply (convo_recv_run st)). rewrite (set_multi_run _ st) by done.
      unfold taken. cbn [take_packet]. by rewrite E1, E2, E3, E4, E5, E6, Hst.
    - rewrite taken_nothing; [done..|]. cbn [take_packet]. by rewrite E1, E2, E3, E4, E5, E6, Hst. }
  rewrite taken_nothing; [done..|]. cbn [take_packet]. by rewrite E1, E2, E3, E4, E5, E6.
Qed.

Lemma recv_packet_run E st pk chan ch d w : receiving st w -> packet_ok pk ->
  w_channels w !! chan = Some ch -> ch_srvc_data ch = Some c ->
  opaque_ok d -> opaque_data d = packet_enc pk ->
  recv E h srvc chan msg_MESSAGE d w = Some (tt, taken st pk w).
Proof.
  intros Hr Hpk Hch Hsd Hd He. pose proof Hr as (Hc & _).
  assert (zlen (packet_enc pk) < 2 ^ 64) as Hlen.
  { destruct pk as [s|t u b]; cbn [packet_enc packet_ok] in *.
    - destruct Hpk as [_ Hs]. unfold mwString_enc. cbn [opt_list]. rewrite !zlen_app, MW32_PUT_len, MW16_PUT_len. lia.
    - destruct Hpk as ([_ Hs] & _). rewrite !zlen_app, !MW32_PUT_len. lia. }
  pose proof (mwGetBuffer_wrap_ready d Hd) as Hg. rewrite <- (opaque_ok_len d Hd), He in Hg. specialize (Hg Hlen).
  unfold recv. change (negb (msg_MESSAGE =? msg_MESSAGE)) with false. cbv iota. destruct pk as [s|t u b]; cbn [packet_enc] in Hg.
  - destruct (guint32_get_parses 0 mwIm_TEXT) as (R & _); [done|].
    destruct (R _ _ Hg) as (g1 & E1 & Hg1 & _). erewrite bind_run by (apply lift_run, E1). cbn beta iota.
    unfold mwGetBuffer_error. rewrite (proj1 (proj2 Hg1)). change (mwIm_TEXT =? mwIm_TEXT) with true. cbv iota.
    unfold recv_text. destruct Hpk as [Hs Hs16].
    destruct (mwString_get_parses (Some s)) as (R2 & _).
    { split; [|done]. destruct Hs as [Hs _]. eapply Forall_impl; [exact Hs|by intros x [_ ?]]. }
    rewrite <- (app_nil_r (mwString_enc _)) in Hg1. destruct (R2 _ _ Hg1) as (g2 & E2 & _).
    erewrite bind_run by (apply lift_run, E2). cbn beta iota. destruct s as [|x s]; cbn [mwString_norm].
    { by rewrite taken_nothing. }
    unfold mwChannel_getServiceData. erewrite bind_run by (by apply channel_get_run). rewrite Hsd. cbn [nonnull].
    erewrite bind_run by (by apply obj_get_run). cbn [cv_multi gathered set_cv_multi set_cv_multi_type].
    destruct st as [[str|] mt]; cbn [fst snd] in *.
    + by rewrite (set_multi_run _ (Some str, mt)), (taken_kept _ (Some (str ++ x :: s), mt)).
    + rewrite (convo_recv_run (None, mt)) by done. by erewrite taken_told.
  - destruct (guint32_get_parses 0 mwIm_DATA) as (R & _); [done|].
    destruct (R _ _ Hg) as (g1 & E1 & Hg1 & _). erewrite bind_run by (apply lift_run, E1). cbn beta iota.
    unfold mwGetBuffer_error. rewrite (proj1 (proj2 Hg1)).
    change (mwIm_DATA =? mwIm_TEXT) with false. change (mwIm_DATA =? mwIm_DATA) with true. cbv iota.
    destruct Hpk as (Hb & Ht & Hu & Hi). unfold recv_data.
    rewrite <- (app_nil_r (MW32_PUT t ++ _)) in Hg1.
    destruct (data_get_reads t u b Ht Hu Hb _ _ Hg1) as (g2 & E2 & Hg2 & _).
    erewrite bind_run by (apply lift_run, E2). cbn beta iota. unfold mwGetBuffer_error. rewrite (proj1 (proj2 Hg2)).
    unfold mwChannel_getServiceData. erewrite bind_run by (by apply channel_get_run). rewrite Hsd. cbn [nonnull].
    by apply recv_data_type_run.
Qed.
End receiver.

(** ** Two clients in conversation *)

(** The conversation [c1] of the one side is open, and its channel is the
    other end of that of [c2], which has gathered [st]. *)
Record chatting (srvc : Z) (w1 : world) (c1 : Z) (v1 : mwConversation) (p1 : Z)
    (w2 : world) (c2 : Z) (v2 : mwConversation) (p2 id2 : Z) (st : gather) : Prop := {
  ct_step : in_step w1 p1 w2 p2;
  ct_sender : w_heap w1 !! c1 = Some (ObjConversation v1) /\ cv_state v1 = mwConversation_OPEN
    /\ cv_channel v1 = Some p1 /\ cv_ext_id v1 = false;
  ct_outgoing : exists ch1, w_channels w1 !! p1 = Some ch1 /\ is_u32 (ch_id ch1);
  ct_receiver : receiving srvc c2 v2 st w2 /\ cv_service v2 = srvc;
  ct_service : exists sv, w_services w2 !! srvc = Some sv /\ sv_session sv = true;
  ct_incoming : exists ch2, chan_map w2 !! id2 = Some p2 /\ w_channels w2 !! p2 = Some ch2
    /\ ch_srvc_data ch2 = Some c2 /\ s_services (w_session w2) !! u32 (ch_service ch2) = Some srvc;
}.

Section carry.
Context (srvc : Z) (E1 E2 : Env) (h : mwImHandler) (note : mwImSendType -> gconstpointer -> event).
Context (HW : pure_writes E1 (fun _ => 0)) (HN : im_notes h note).
Context (HE : exists E, e_service E2 srvc = im_ops E h).
Context (c1 : Z) (v1 : mwConversation) (p1 c2 : Z) (v2 : mwConversation) (p2 id2 : Z).

Definition chat (w1 w2 : world) (st : gather) : Prop := chatting srvc w1 c1 v1 p1 w2 c2 v2 p2 id2 st.

(** [m] writes messages that the other side takes as the packets [pks]. *)
Definition sends (m : M Z) (pks : list packet) : Prop :=
  forall w1 w2 st, chat w1 w2 st ->
  exists ms bs w1' w2',
    m w1 = Some (0, w1')
    /\ mapM render ms = Some bs /\ w_log w1' = w_log w1 ++ ((fun b => EvWrite b 0) <$> bs)
    /\ take_messages E2 id2 ms w2 = Some (tt, w2')
    /\ w_log w2' = w_log w2 ++ (uncurry note <$> (take_packets st pks).2)
    /\ chat w1' w2' (take_packets st pks).1.

Lemma sends_nothing : sends (ret 0) [].
Proof. intros w1 w2 st H. exists [], [], w1, w2. split_and!; try done; by rewrite app_nil_r. Qed.

Lemma take_messages_run_app ms1 ms2 w w1 w2 : take_messages E2 id2 ms1 w = Some (tt, w1) ->
  take_messages E2 id2 ms2 w1 = Some (tt, w2) -> take_messages E2 id2 (ms1 ++ ms2) w = Some (tt, w2).
Proof.
  revert w. induction ms1 as [|m ms1 IH]; intros w; cbn [take_messages for_each app]; [by intros [= ->]|].
  intros ([] & w3 & E & Es)%bind_inv Er. erewrite bind_run by exact E. by apply IH.
Qed.

Lemma mapM_render_app ms1 ms2 bs1 bs2 : mapM render ms1 = Some bs1 -> mapM render ms2 = Some bs2 ->
  mapM render (ms1 ++ ms2) = Some (bs1 ++ bs2).
Proof.
  revert bs1. induction ms1 as [|m ms1 IH]; intros bs1; cbn [mapM app]; [by intros [= <-]|].
  destruct (render m) as [b|]; cbn [mbind option_bind]; [|done]. destruct (mapM render ms1) as [bs|]; cbn [mbind option_bind]; [|done].
  intros [= <-] Er. by rewrite (IH bs).
Qed.

Lemma sends_then m1 m2 q1 q2 : sends m1 q1 -> sends m2 q2 ->
  sends (let* r := m1 in if r =? 0 then m2 else ret r) (q1 ++ q2).
Proof.
  intros H1 H2 w1 w2 st (ms1 & bs1 & wa & wb & Ea & Er1 & El1 & Eb & El2 & Hc)%H1.
  rewrite take_packets_app. destruct (take_packets st q1) as [st1 es1]. cbn [fst snd] in *.
  apply H2 in Hc as (ms2 & bs2 & wa' & wb' & Ea' & Er2 & El1' & Eb' & El2' & Hc').
  destruct (take_packets st1 q2) as [st2 es2]. cbn [fst snd] in *. exists (ms1 ++ ms2), (bs1 ++ bs2), wa', wb'. split_and!.
  - erewrite bind_run by exact Ea. done.
  - by apply mapM_render_app.
  - by rewrite El1', El1, fmap_app, app_assoc.
  - by eapply take_messages_run_app.
  - by rewrite El2', El2, fmap_app, app_assoc.
  - done.
Qed.

Lemma sends_same m m' q : (forall w, m w = m' w) -> sends m' q -> sends m q.
Proof. intros Hm H w1 w2 st Hc. rewrite Hm. by apply H. Qed.

(** One packet. *)
Lemma sends_packet pk (m : M Z) : packet_ok pk ->
  (forall w1, w_heap w1 !! c1 = Some (ObjConversation v1) -> cv_channel v1 = Some p1 -> cv_ext_id v1 = false ->
     exists o, opaque_ok o /\ opaque_data o = packet_enc pk /\ m w1 = mwChannel_send E1 p1 msg_MESSAGE (Some o) w1) ->
  sends m [pk].
Proof.
  intros Hpk Hm w1 w2 st [Hst (Hc1 & Hop & Hch & Hx) (ch1 & Hp1 & Hid) [Hr Hv2] (sv & Hsv & Hss) (ch2 & Hm2 & Hp2 & Hd2 & Hs2)].
  destruct (Hm w1 Hc1 Hch Hx) as (o & Ho & He & Es).
  assert (Forall is_u8 (packet_enc pk) /\ zlen (packet_enc pk) < 2 ^ 29) as [Hb Hl].
  { destruct pk as [s|t u d]; cbn [packet_enc packet_ok] in *.
    - destruct Hpk as ([Hs _] & Hs16). unfold mwString_enc. cbn [opt_list]. split.
      + apply Forall_app; split; [apply MW32_PUT_u8|]. apply Forall_app; split; [apply MW16_PUT_u8|].
        eapply Forall_impl; [exact Hs|by intros x [? _]].
      + rewrite !zlen_app, MW32_PUT_len, MW16_PUT_len. lia.
    - destruct Hpk as ([Hs Hl] & _). split.
      + repeat (apply Forall_app; split; [apply MW32_PUT_u8|]). eapply Forall_impl; [exact Hs|by intros x [? _]].
      + rewrite !zlen_app, !MW32_PUT_len. lia. }
  pose proof (opaque_ok_len o Ho) as Hol. rewrite He in Hol.
  destruct (secure_send E1 (fun _ => 0) E2 w1 p1 ch1 w2 p2 ch2 id2 msg_MESSAGE o)
    as (ms & b & ci1 & ci2 & stats & d' & Hsend & Hbm & Hhandle & Hok' & Hdd & Hst'); try done; [|lia|].
  { split; [done|]. rewrite He. split; [done|]. unfold int_max. lia. }
  set (w1a := with_log _ _) in *. set (ch2' := set_ch_cipher (Some ci2) _) in *. set (w2a := with_channel p2 ch2' w2) in *.
  destruct HE as [E HE2].
  assert (receiving srvc c2 v2 st w2a) as Hra by exact Hr.
  exists [ms], [b], w1a, (taken note c2 v2 st pk w2a). cbn [take_packets]. destruct (take_packet st pk) as [st' es] eqn:Et.
  cbn [fst snd]. rewrite app_nil_r. split_and!.
  - by rewrite Es.
  - cbn [mapM]. by rewrite Hbm.
  - done.
  - unfold take_messages. cbn [for_each]. erewrite bind_run; [reflexivity|]. rewrite Hhandle, Hs2. unfold mwService_recv.
    rewrite (service_guard_run srvc sv p2 ch2') by (done || apply with_channel_lookup). rewrite HE2. cbn [op_recv im_ops].
    change (u16 msg_MESSAGE) with msg_MESSAGE.
    apply (recv_packet_run srvc h note HN c2 v2 Hv2 E st pk p2 ch2'); try done; [apply with_channel_lookup|by rewrite Hdd].
  - unfold taken. by rewrite Et.
  - unfold taken. rewrite Et. cbn [fst snd]. split; cbn [w_log].
    + by apply (in_step_same w1a p1 w2a p2).
    + done.
    + exists (set_ch_cipher (Some ci1) ch1). split; [apply with_channel_lookup|done].
    + split; [|done]. destruct Hr as (Hc2 & s & Hs & Hh). split; [apply lookup_insert_eq|].
      exists s. split; [|done]. cbn. rewrite lookup_insert_ne; [done|]. congruence.
    + by exists sv.
    + exists ch2'. split_and!; [done|apply with_channel_lookup|done..].
Qed.
(** ** The sender *)

Lemma sends_data t u o d : opaque_bytes_are o d -> packet_ok (PkData t u d) ->
  sends (convo_send_data E1 c1 t u o) [PkData t u d].
Proof.
  intros Ho Hpk. apply sends_packet; [done|]. intros w1 Hc Hch Hx.
  assert (writes (data_put t u o) (packet_enc (PkData t u d))) as Hw.
  { destruct o as [o|]; cbn in Ho; [destruct Ho as [Ho <-]; by apply data_put_writes|subst d; apply data_put_null_writes]. }
  destruct (finalize_writes _ _ Hw) as (b & Eb & Hok & _ & Hd).
  { destruct Hpk as ([_ Hl] & _). cbn [packet_enc]. rewrite !zlen_app, !MW32_PUT_len. unfold pb_max. lia. }
  exists (mwPutBuffer_finalize b). split_and!; [done..|]. unfold convo_send_data.
  erewrite bind_run by (by apply obj_deref_run). rewrite Hch. cbn [nonnull].
  erewrite bind_run by (apply lift_run, Eb). by rewrite Hx.
Qed.

Lemma sends_text s : packet_ok (PkText (opt_list s)) -> sends (convo_sendText E1 c1 s) [PkText (opt_list s)].
Proof.
  intros Hpk. apply sends_packet; [done|]. intros w1 Hc Hch Hx.
  assert (writes (text_put s) (packet_enc (PkText (opt_list s)))) as Hw.
  { destruct s as [s|]; [apply text_put_writes|apply text_put_null_writes]. }
  destruct (finalize_writes _ _ Hw) as (b & Eb & Hok & _ & Hd).
  { destruct Hpk as ([_ Hl] & _). cbn [packet_enc]. unfold mwString_enc. cbn [opt_list].
    rewrite !zlen_app, MW32_PUT_len, MW16_PUT_len. unfold pb_max. lia. }
  exists (mwPutBuffer_finalize b). split_and!; [done..|]. unfold convo_sendText.
  erewrite bind_run by (by apply obj_deref_run). rewrite Hch.
  erewrite bind_run by (apply lift_run, Eb). by rewrite Hx.
Qed.

(** The loop over the segments ends with as many rounds as there are bytes. *)
Lemma sends_segments send t n s : (length s <= n)%nat ->
  Forall (fun l => sends (send l) [PkData t 0 l]) (segments n s) ->
  sends (send_segments n send s) (PkData t 0 <$> segments n s).
Proof.
  revert s. induction n as [|n IH]; intros [|x s] Hl Hs; cbn [send_segments segments fmap list_fmap] in *;
    [apply sends_nothing|cbn in Hl; lia|apply sends_nothing|].
  apply Forall_cons in Hs as [H1 Hs].
  set (k := Z.to_nat (if strlen (x :: s) <? BREAKUP then strlen (x :: s) else BREAKUP)).
  assert (take k (x :: s) = take (Z.to_nat BREAKUP) (x :: s) /\ drop k (x :: s) = drop (Z.to_nat BREAKUP) (x :: s)) as [Et Ed].
  { unfold k, strlen. destruct (Z.ltb_spec (zlen (x :: s)) BREAKUP) as [Hlt|]; [|done].
    assert (length (x :: s) <= Z.to_nat (zlen (x :: s)))%nat by (unfold zlen; lia).
    assert (length (x :: s) <= Z.to_nat BREAKUP)%nat by (unfold zlen in Hlt; lia).
    by rewrite !take_ge, !drop_ge. }
  apply (sends_then _ _ [_]); [by rewrite Et|]. rewrite Ed. apply IH; [|done].
  rewrite length_drop. cbn [length] in *. unfold BREAKUP. lia.
Qed.

Definition data_type (t : Z) : Prop := is_u32 t /\ t <> mwImData_INVITE.

(** A string that is short enough goes out whole. *)
Lemma sends_short n t s : data_type t -> chars s -> zlen s <= BREAKUP ->
  sends (send_long E1 (S n) t c1 (Some s)) [PkData t 0 s].
Proof.
  intros [Ht Hi] Hs Hl. apply sends_same with (convo_send_data E1 c1 t 0 (Some {| len := strlen s; data := Some s |})).
  - intros w. cbn [send_long opaque_over]. erewrite bind_run by reflexivity. cbn [len]. unfold strlen.
    destruct (Z.ltb_spec BREAKUP (zlen s)); [lia|done].
  - apply sends_data; [apply block_over|done].
Qed.

Lemma sends_long t s : data_type t -> chars s -> sends (send_long E1 2 t c1 (Some s)) (long_packets t s).
Proof.
  intros Ht Hs. unfold long_packets. destruct (Z.ltb_spec BREAKUP (zlen s)) as [Hl|Hl]; [|by apply sends_short].
  apply sends_same with (
    let* r := (let* r := convo_send_multi_start E1 c1 in
               if r =? 0 then send_segments (length s) (fun seg => send_long E1 1 t c1 (Some seg)) s else ret r) in
    if r =? 0 then convo_send_multi_stop E1 c1 else ret r).
  - intros w. cbn [send_long opaque_over]. erewrite bind_run by reflexivity. cbn [len]. unfold strlen.
    destruct (Z.ltb_spec BREAKUP (zlen s)); [|lia]. unfold convo_sendSegmented, bind.
    cbn [opt_list]. by destruct (convo_send_multi_start E1 c1 w) as [[r w']|].
  - assert (packet_ok (PkData mwImData_MULTI_START 0 []) /\ packet_ok (PkData mwImData_MULTI_STOP 0 [])) as [P1 P2] by done.
    apply (sends_then _ _ (PkData mwImData_MULTI_START 0 [] :: (PkData t 0 <$> segments (length s) s))).
    + apply (sends_then _ _ [_]); [by apply sends_data|]. apply sends_segments; [done|].
      eapply Forall_impl; [by apply chars_segments|]. intros l [Hc Hll]. by apply sends_short.
    + by apply sends_data.
Qed.

(** A message of the client. *)
Lemma sends_message t p : message_ok (t, p) -> sends (mwConversation_send E1 (Some c1) t p) (message_packets (t, p)).
Proof.
  intros Hm. assert (data_type mwImData_HTML /\ data_type mwImData_MIME) as [Hh Hmi] by done.
  assert (forall k q, sends k q -> sends (guard (mwConversation_isOpen c1) (-1) (guard (has_channel c1) (-1) k)) q) as Hg.
  { intros k q Hk w1 w2 st Hc. pose proof Hc as [_ (Hc1 & Hop & Hch & _) _ _ _ _]. unfold guard, mwConversation_isOpen,
      mwConversation_isState, mwConversation_getState, has_channel, nonnull.
    assert ((let* ok := (let* old := obj_get c1 cv_state in ret (bool_decide (old = mwConversation_OPEN))) in
      if ok then let* ok := obj_get c1 (fun v => bool_decide (is_Some (cv_channel v))) in if ok then k else ret (-1) else ret (-1)) w1 = k w1) as ->.
    { erewrite bind_run by (erewrite bind_run by (by apply obj_get_run); reflexivity). rewrite bool_decide_true by done.
      erewrite bind_run by (by apply obj_get_run). rewrite bool_decide_true; [done|]. rewrite Hch. by eexists. }
    by apply Hk. }
  pose proof (message_packets_ok _ Hm) as Hok.
  cbn [mwConversation_send nonnull]. apply Hg. destruct t, p as [s|v]; cbn [message_ok message_packets] in *; try done.
  - apply (sends_text s). by apply Forall_inv in Hok.
  - apply sends_data; [done|]. by apply Forall_inv in Hok.
  - destruct s as [s|]; [|done]. by apply sends_long.
  - destruct s as [s|]; [|done]. apply sends_data; [apply block_over|]. by apply Forall_inv in Hok.
  - destruct s as [s|]; [|done]. by apply sends_long.
Qed.

Definition send_messages (ms : list (mwImSendType * gconstpointer)) : M unit :=
  for_each (fun m => let* r := mwConversation_send E1 (Some c1) m.1 m.2 in if r =? 0 then ret tt else crash) ms.

Lemma send_messages_run ms w1 w2 st : Forall message_ok ms -> chat w1 w2 st ->
  exists l bs w1' w2',
    send_messages ms w1 = Some (tt, w1')
    /\ mapM render l = Some bs /\ w_log w1' = w_log w1 ++ ((fun b => EvWrite b 0) <$> bs)
    /\ take_messages E2 id2 l w2 = Some (tt, w2')
    /\ w_log w2' = w_log w2 ++ (uncurry note <$> (take_packets st (concat (message_packets <$> ms))).2)
    /\ chat w1' w2' (take_packets st (concat (message_packets <$> ms))).1.
Proof.
  intros Hms. revert w1 w2 st. induction Hms as [|[t p] ms Hm _ IH]; intros w1 w2 st Hc.
  { exists [], [], w1, w2. split_and!; try done; by rewrite app_nil_r. }
  destruct (sends_message t p Hm w1 w2 st Hc) as (l1 & bs1 & wa & wb & Ea & Er1 & El1 & Eb & El2 & Hc1).
  cbn [fmap list_fmap concat]. rewrite take_packets_app. destruct (take_packets st (message_packets (t, p))) as [st1 es1].
  cbn [fst snd] in *. destruct (IH wa wb st1 Hc1) as (l2 & bs2 & wa' & wb' & Ea' & Er2 & El1' & Eb' & El2' & Hc2).
  destruct (take_packets st1 _) as [st2 es2]. cbn [fst snd] in *. exists (l1 ++ l2), (bs1 ++ bs2), wa', wb'. split_and!.
  - unfold send_messages. cbn [for_each]. erewrite bind_run; [exact Ea'|]. cbn [fst snd]. by erewrite bind_run by exact Ea.
  - by apply mapM_render_app.
  - by rewrite El1', El1, fmap_app, app_assoc.
  - by eapply take_messages_run_app.
  - by rewrite El2', El2, fmap_app, app_assoc.
  - done.
Qed.

(** C6: what a client sends on an open, encrypted conversation, the client at
    the other end is told: every call of [mwConversation_send] succeeds; the
    other side, given what was written, calls its client once for each message
    and in their order, with the type and all the bytes of the message,
    however long; only empty text and empty HTML are not told, and an empty
    subject or MIME message is told as NULL.  Both are then ready for more. *)
Theorem im_delivers w1 w2 mt ms : chat w1 w2 (None, mt) -> Forall message_ok ms ->
  exists l bs w1' w2' mt',
    send_messages ms w1 = Some (tt, w1')
    /\ mapM render l = Some bs /\ w_log w1' = w_log w1 ++ ((fun b => EvWrite b 0) <$> bs)
    /\ take_messages E2 id2 l w2 = Some (tt, w2')
    /\ w_log w2' = w_log w2 ++ (uncurry note <$> concat (delivered <$> ms))
    /\ chat w1' w2' (None, mt').
Proof.
  intros Hc Hms. destruct (send_messages_run ms w1 w2 _ Hms Hc) as (l & bs & w1' & w2' & H).
  destruct (take_messages_app mt ms Hms) as [mt' Et]. rewrite Et in H. cbn [fst snd] in H.
  by exists l, bs, w1', w2', mt'.
Qed.
End carry.
