(* ===== verification/ImEnds.v ===== *)
(** * The instant messaging service: channels that come and go

    Which incoming channels become conversations, and what is done with the
    others; any bytes on a channel; a channel that is refused; the service as
    it stops. *)

From S2P Require Import Prelude Buffer Common Message Framing World Util Rc2 Cipher Service Session.
From S2P Require Import Channel Im Dispatch Frame Owned Delivery Protocol ChannelSpec Secure Closing Freeing ImSpec.
#[local] Open Scope Z_scope.
#[local] Open Scope mw_scope.

#[local] Arguments render : simpl never.

(** ** Steps on conversations *)

Lemma conv_isState_run p c st w : w_heap w !! p = Some (ObjConversation c) ->
  mwConversation_isState p st w = Some (bool_decide (cv_state c = st), w).
Proof.
  intros Hc. unfold mwConversation_isState, mwConversation_getState, nonnull.
  by erewrite bind_run by (by apply obj_get_run).
Qed.

Lemma convo_set_state_run p c st w : w_heap w !! p = Some (ObjConversation c) ->
  convo_set_state p st w = Some (tt, with_object p (ObjConversation (set_cv_state st c)) w).
Proof.
  intros Hc. unfold convo_set_state. erewrite bind_run by (by apply obj_get_run). case_bool_decide as Hst.
  - unfold with_object. rewrite insert_id; [by destruct w|]. rewrite Hc, <- Hst. by destruct c.
  - by erewrite obj_set_run by exact Hc.
Qed.

(** ** Incoming channels *)

Definition new_convo (srvc chan : Z) (login : mwLoginInfo) (features : Z) : mwConversation := {|
  cv_service := srvc; cv_channel := Some chan; cv_target := login_into_id login; cv_ext_id := false;
  cv_state := mwConversation_PENDING; cv_features := features; cv_multi := None;
  cv_multi_type := mwImSend_PLAIN; cv_client_data := datum_zero |}.

(** The world with it: on the heap, first of the list, the data of its
    channel. *)
Definition with_convo (srvc : Z) (s : mwServiceIm) (chan : Z) (ch : mwChannel) (v : mwConversation) (w : world) : world :=
  let c := w_next w in
  with_channel chan (set_ch_srvc_data (Some c) ch)
    (set_w_next (c + 1)
      (set_w_heap (<[c := ObjConversation v]> (<[srvc := ObjImService (set_im_convs (c :: im_convs s) s)]> (w_heap w))) w)).

(** What is read of the additional data. *)
Definition create_enc (x y : Z) : list Z := MW32_PUT x ++ MW32_PUT y.

Lemma create_get_parses a b x y : is_u32 x -> is_u32 y ->
  parses (let! x := guint32_get a in let! y := guint32_get b in gret (x, y)) (create_enc x y) (x, y).
Proof.
  intros. unfold create_enc. eapply parses_bind; [by apply guint32_get_parses|intros ?; safe_tac|].
  eapply parses_bind_last; [by apply guint32_get_parses|intros ?; safe_tac|apply parses_ret].
Qed.

Lemma two_words_short a b g l : gb_ready g l -> zlen l < 8 ->
  exists x g1 y g2, guint32_get a g = Some (x, g1) /\ guint32_get b g1 = Some (y, g2) /\ gb_error g2 = true.
Proof.
  intros Hg Hl. pose proof (gb_ready_len _ _ Hg) as Hr. pose proof Hg as (Hwf & He & Hv).
  assert (forall old g, gb_error g = false -> gb_rem g < 4 ->
    exists x g', guint32_get old g = Some (x, g') /\ gb_error g' = true) as Hshort.
  { intros old g' He' Hr'. unfold guint32_get, get_fixed. rewrite He', check_buffer_short by done. by eexists _, _. }
  destruct (decide (gb_rem g < 4)) as [H4|H4].
  - destruct (Hshort a g He H4) as (x & g1 & E1 & He1). exists x, g1, b, g1. split_and!; [done| |done].
    unfold guint32_get, get_fixed. by rewrite He1.
  - destruct (gb_consume_wf g 4 Hwf) as (Hwf1 & _ & Herr1 & Hv1); [lia|].
    destruct (be32_total (take (Z.to_nat 4) l)) as [x Ex]; [zlen_lia|].
    exists x, (sub_rem 4 (add_ptr 4 g)). pose proof (gb_view_len _ Hwf1) as Hr1. rewrite Hv1, Hv in Hr1.
    destruct (Hshort b (sub_rem 4 (add_ptr 4 g))) as (y & g2 & E2 & He2); [by rewrite Herr1|rewrite <- Hr1; zlen_lia|].
    exists y, g2. split_and!; [|done|done]. unfold guint32_get, get_fixed.
    change guint32_buflen with 4. rewrite He, check_buffer_ok, gb_load_spec by (done || lia). rewrite Hv. by rewrite Ex.
Qed.

Section create.
Context (E : Env) (h : mwImHandler).

Definition refuse (chan code : Z) : M unit := mwChannel_destroy E chan code None ;; ret tt.

(** What is done with a channel that is taken. *)
Definition accept_convo (c : Z) : M unit :=
  let* r := send_accept E c in if r =? 0 then convo_opened h c else mwConversation_free E h (Some c).

(** The verdict on an incoming channel. *)
Lemma create_by_verdict srvc s chan ch msg w :
  heap_below w -> w_heap w !! srvc = Some (ObjImService s) -> im_handler s = true ->
  w_channels w !! chan = Some ch -> opaque_ok (cc_addtl msg) -> len (cc_addtl msg) < 2 ^ 64 ->
  let ours := ch_service ch = mwService_IM /\ ch_proto_type ch = PROTOCOL_TYPE /\ ch_proto_ver ch = PROTOCOL_VER in
  let status := us_status (s_status (w_session w)) in
  let invite := bool_decide (is_Some (imh_place_invite h)) in
  (~ ours -> recv_channelCreate E h srvc chan msg w = refuse chan ERR_SERVICE_NO_SUPPORT w)
  /\ (ours -> zlen (opaque_data (cc_addtl msg)) < 8 -> recv_channelCreate E h srvc chan msg w = refuse chan ERR_FAILURE w)
  /\ (ours -> forall x y rest, is_u32 x -> is_u32 y -> opaque_data (cc_addtl msg) = create_enc x y ++ rest ->
      recv_channelCreate E h srvc chan msg w =
      match create_verdict (if y =? mwImAddtlB_PRECONF then invite else false) (im_features s) status x y with
      | Some code => refuse chan code w
      | None => accept_convo (w_next w) (with_convo srvc s chan ch (new_convo srvc chan (ch_user ch) y) w)
      end).
Proof.
  intros B Hs Hh Hch Ho Hl ours status invite. pose proof (mwGetBuffer_wrap_ready (cc_addtl msg) Ho Hl) as Hg.
  unfold recv_channelCreate. assert (forall A (k : mwChannel -> M A), (let* ch := deref_channel chan in k ch) w = k ch w) as Hd.
  { intros A k. unfold deref_channel. by erewrite bind_run by (by apply lift_run). }
  rewrite Hd. assert (((ch_service ch =? mwService_IM) && (ch_proto_type ch =? PROTOCOL_TYPE) &&
    (ch_proto_ver ch =? PROTOCOL_VER)) = bool_decide ours) as ->.
  { symmetry. unfold ours. destruct (Z.eqb_spec (ch_service ch) mwService_IM), (Z.eqb_spec (ch_proto_type ch) PROTOCOL_TYPE),
      (Z.eqb_spec (ch_proto_ver ch) PROTOCOL_VER); cbn [andb]; first [by apply bool_decide_true|apply bool_decide_false; tauto]. }
  split_and!.
  - intros Hn. by rewrite bool_decide_false.
  - intros Hy Hlen. rewrite bool_decide_true by done. cbn [negb].
    destruct (two_words_short (ch_service ch) (ch_proto_type ch) _ _ Hg Hlen) as (x & g1 & y & g2 & E1 & E2 & He).
    erewrite bind_run by (apply lift_run, E1). cbn beta iota. erewrite bind_run by (apply lift_run, E2). cbn beta iota.
    unfold mwGetBuffer_error. by rewrite He.
  - intros Hy x y rest Hx Hyy Ed. rewrite bool_decide_true by done. cbn [negb]. rewrite Ed in Hg.
    unfold create_enc in Hg. rewrite <- app_assoc in Hg.
    destruct (guint32_get_parses (ch_service ch) x Hx) as (R1 & _). destruct (R1 _ _ Hg) as (g1 & E1 & Hg1 & _).
    destruct (guint32_get_parses (ch_proto_type ch) y Hyy) as (R2 & _). destruct (R2 _ _ Hg1) as (g2 & E2 & (_ & He & _) & _).
    erewrite bind_run by (apply lift_run, E1). cbn beta iota. erewrite bind_run by (apply lift_run, E2). cbn beta iota.
    unfold mwGetBuffer_error. rewrite He. erewrite bind_run by (by apply obj_get_run). erewrite bind_run by reflexivity.
    assert ((if (x =? mwImAddtlA_NORMAL) && (y =? mwImAddtlB_PRECONF) then place_invite_given h srvc else ret false) w
      = Some ((x =? mwImAddtlA_NORMAL) && (y =? mwImAddtlB_PRECONF) && invite, w)) as Ei.
    { destruct (_ && _); [|done]. unfold place_invite_given. erewrite bind_run by (by apply obj_get_run). by rewrite Hh. }
    erewrite bind_run by exact Ei. change (us_status (s_status (w_session w))) with status.
    assert (create_verdict ((x =? mwImAddtlA_NORMAL) && (y =? mwImAddtlB_PRECONF) && invite) (im_features s) status x y =
      create_verdict (if y =? mwImAddtlB_PRECONF then invite else false) (im_features s) status x y) as ->.
    { unfold create_verdict. destruct (x =? mwImAddtlA_NORMAL); [cbn [negb andb]|done].
      by destruct (y =? mwImAddtlB_PRECONF). }
    destruct (create_verdict _ _ _ _ _); [done|].
    erewrite bind_run by (by apply channel_get_run). erewrite bind_run by reflexivity.
    pose proof (below_fresh w B) as Hn. set (c := w_next w) in *. assert (c <> srvc) as Hne by congruence.
    set (w1 := set_w_next _ _). assert (w_heap w1 !! c = Some (ObjConversation (convo_zero srvc))) as Hc by apply lookup_insert_eq.
    erewrite bind_run by (refine (obj_set_run srvc _ s w1 _); cbn; by rewrite lookup_insert_ne).
    erewrite bind_run by (refine (obj_set_run c _ (convo_zero srvc) _ _); cbn; rewrite lookup_insert_ne by done; exact Hc).
    erewrite bind_run by (refine (obj_set_run c _ _ _ _); apply lookup_insert_eq).
    erewrite bind_run by (refine (obj_set_run c _ _ _ _); apply lookup_insert_eq).
    erewrite bind_run by (refine (convo_set_state_run c _ _ _ _); apply lookup_insert_eq).
    erewrite bind_run by (refine (channel_set_run chan _ ch _ _); exact Hch). cbv beta.
    unfold accept_convo, with_convo. f_equal. unfold w1, with_object, with_channel. cbn. fold c.
    rewrite !insert_insert_eq, (insert_insert_ne (w_heap w) srvc c) by done. rewrite insert_insert_eq.
    unfold set_w_heap, set_w_next. cbn. by do 4 f_equal.
Qed.

(** C8: an incoming channel, whatever its additional data.  On another service
    or protocol it is refused as not supported; with data that breaks off, as
    a failure.  Otherwise the data begin with two numbers: when they are not
    the usual one and an invitation to a place that the client handles, a
    plain conversation, or one with the features of the service, it is
    refused as not registered; a conversation, unlike an invitation, is
    refused while the user does not want to be disturbed.  All others get a
    new pending conversation with their creator, which is on the list of the
    service and is the data of the channel, and the channel is accepted. *)
Theorem im_create_decides srvc s chan ch msg w :
  heap_below w -> w_heap w !! srvc = Some (ObjImService s) -> im_handler s = true ->
  w_channels w !! chan = Some ch -> opaque_ok (cc_addtl msg) -> len (cc_addtl msg) < 2 ^ 64 ->
  let ours := ch_service ch = mwService_IM /\ ch_proto_type ch = PROTOCOL_TYPE /\ ch_proto_ver ch = PROTOCOL_VER in
  let busy := us_status (s_status (w_session w)) = mwStatus_BUSY in
  (~ ours -> recv_channelCreate E h srvc chan msg w = refuse chan ERR_SERVICE_NO_SUPPORT w)
  /\ (ours -> zlen (opaque_data (cc_addtl msg)) < 8 -> recv_channelCreate E h srvc chan msg w = refuse chan ERR_FAILURE w)
  /\ (ours -> forall x y rest, is_u32 x -> is_u32 y -> opaque_data (cc_addtl msg) = create_enc x y ++ rest ->
      let invitation := y = mwImAddtlB_PRECONF in
      let known := x = mwImAddtlA_NORMAL /\
        (invitation /\ is_Some (imh_place_invite h) \/ ~ invitation /\ (y = mwImClient_PLAIN \/ y = im_features s)) in
      (~ known -> recv_channelCreate E h srvc chan msg w = refuse chan ERR_IM_NOT_REGISTERED w)
      /\ (known -> ~ invitation -> busy -> recv_channelCreate E h srvc chan msg w = refuse chan ERR_CLIENT_USER_DND w)
      /\ (known -> invitation \/ ~ busy -> recv_channelCreate E h srvc chan msg w =
            accept_convo (w_next w) (with_convo srvc s chan ch (new_convo srvc chan (ch_user ch) y) w))).
Proof.
  intros B Hs Hh Hch Ho Hl ours busy. destruct (create_by_verdict srvc s chan ch msg w B Hs Hh Hch Ho Hl) as (H1 & H2 & H3).
  split; [exact H1|]. split; [exact H2|]. intros Hy x y rest Hx Hyy Ed invitation known.
  rewrite (H3 Hy x y rest Hx Hyy Ed). clear H1 H2 H3. unfold create_verdict, known, invitation, busy.
  destruct (Z.eqb_spec x mwImAddtlA_NORMAL), (Z.eqb_spec y mwImAddtlB_PRECONF), (Z.eqb_spec y mwImClient_PLAIN),
    (Z.eqb_spec y (im_features s)), (Z.eqb_spec (us_status (s_status (w_session w))) mwStatus_BUSY),
    (bool_decide_reflect (is_Some (imh_place_invite h))); cbn [negb andb];
    (split; [|split]); intros; first [reflexivity|exfalso; tauto].
Qed.

(** ** A channel that is refused *)

(** When the other side refuses a conversation that is not in plain text,
    an open conversation is left as it is, without a channel and without a word
    to the client: [mwConversation_send] then fails, and
    [mwConversation_open] does nothing. *)
Theorem refused_open_stuck srvc chan ch c v msg w :
  w_channels w !! chan = Some ch -> ch_srvc_data ch = Some c -> ch_state ch = mwChannel_ERROR ->
  w_heap w !! c = Some (ObjConversation v) -> cv_state v = mwConversation_OPEN ->
  cv_features v <> mwImClient_PLAIN -> cd_reason msg = ERR_IM_NOT_REGISTERED \/ cd_reason msg = ERR_SERVICE_NO_SUPPORT ->
  let w' := with_object c (ObjConversation (set_cv_features mwImClient_PLAIN (set_cv_channel None v))) w in
  recv_channelDestroy E h srvc chan msg w = Some (tt, w')
  /\ (forall t m, mwConversation_send E (Some c) t m w' = Some (-1, w'))
  /\ mwConversation_open E (Some c) w' = Some (tt, w').
Proof.
  intros Hch Hd Hst Hc Hop Hf Hr w'. set (v' := set_cv_features _ _) in w'.
  assert (w_heap w' !! c = Some (ObjConversation v')) as Hc' by apply lookup_insert_eq. split_and!.
  - unfold recv_channelDestroy, mwChannel_getServiceData. erewrite bind_run by (by apply channel_get_run). rewrite Hd.
    cbn [nonnull]. erewrite bind_run by (by apply (obj_set_run c _ v)).
    unfold mwChannel_isState. erewrite bind_run by (by apply channel_get_run).
    erewrite bind_run by (apply obj_get_run, lookup_insert_eq). cbn [cv_features set_cv_channel].
    rewrite bool_decide_true by done. destruct (Z.eqb_spec (cv_features v) mwImClient_PLAIN); [done|]. cbn [negb andb].
    replace ((cd_reason msg =? ERR_IM_NOT_REGISTERED) || (cd_reason msg =? ERR_SERVICE_NO_SUPPORT)) with true
      by (destruct Hr as [-> | ->]; done).
    erewrite bind_run by (refine (obj_set_run c _ _ _ _); apply lookup_insert_eq).
    unfold convo_create_chan, guard, mwConversation_isPending.
    erewrite bind_run by (refine (conv_isState_run c v' _ _ _); apply lookup_insert_eq).
    rewrite bool_decide_false by (cbn; congruence). unfold ret, w', with_object, set_w_heap. cbn. by rewrite insert_insert_eq.
  - intros t m. cbn [mwConversation_send nonnull]. unfold guard at 1, mwConversation_isOpen.
    erewrite bind_run by (by apply conv_isState_run). rewrite bool_decide_true by done.
    unfold guard, has_channel. by erewrite bind_run by (by apply obj_get_run).
  - cbn [mwConversation_open nonnull]. unfold guard, mwConversation_isClosed.
    erewrite bind_run by (by apply conv_isState_run). by rewrite bool_decide_false by (cbn; congruence).
Qed.

(** ** Any bytes *)

(** A function of the client that returns and does not free the conversation. *)
Definition returns (c : Z) (m : M unit) : Prop := forall w v, w_heap w !! c = Some (ObjConversation v) ->
  exists w' v', m w = Some (tt, w') /\ w_heap w' !! c = Some (ObjConversation v').

Record client_returns (c : Z) : Prop := {
  cr_recv f t m : imh_recv h = Some f -> returns c (f c t m);
  cr_invite f m t n : imh_place_invite h = Some f -> returns c (f c m t n);
}.

Section safe.
Context (c : Z) (HC : client_returns c).

(** The conversation is there and so is its service. *)
Definition served (w : world) : Prop := exists v s, w_heap w !! c = Some (ObjConversation v)
  /\ w_heap w !! cv_service v = Some (ObjImService s).

Lemma convo_recv_returns t m w : served w -> exists w', convo_recv h c t m w = Some (tt, w')
  /\ exists v', w_heap w' !! c = Some (ObjConversation v').
Proof.
  intros (v & s & Hv & Hs). unfold convo_recv. erewrite bind_run by (by apply obj_get_run).
  erewrite bind_run by (by apply obj_get_run). destruct (im_handler s); [|by exists w; split; [|exists v]].
  destruct (imh_recv h) as [f|] eqn:Hf; [|by exists w; split; [|exists v]].
  destruct (cr_recv _ HC f t m Hf w v Hv) as (w' & v' & E1 & H). by exists w'; split; [|exists v'].
Qed.

Lemma set_returns f w v : w_heap w !! c = Some (ObjConversation v) ->
  exists w', @obj_set mwConversation _ c f w = Some (tt, w').
Proof. intros Hv. eexists. by apply (obj_set_run c f v). Qed.

Lemma strndup_total o : opaque_ok o -> exists x, g_strndup o = Some x.
Proof. intros Ho. unfold g_strndup. rewrite (opaque_ok_data o Ho). destruct (data o); by eexists. Qed.

Lemma recv_part_returns t o w : opaque_ok o -> served w -> exists w', recv_part h c t o w = Some (tt, w').
Proof.
  intros Ho Hs. pose proof Hs as (v & s & Hv & _). unfold recv_part. erewrite bind_run by (by apply obj_get_run).
  destruct (cv_multi v) as [str|].
  - erewrite bind_run by (apply lift_run, opaque_ok_data, Ho).
    erewrite bind_run by (by apply (obj_set_run c _ v)). eapply set_returns, lookup_insert_eq.
  - destruct (strndup_total o Ho) as [x Ex]. erewrite bind_run by (by apply lift_run).
    destruct (convo_recv_returns t (PtrString x) w Hs) as (w' & E1 & _). by exists w'.
Qed.

Lemma invite_get_safe : safe (invite_get E).
Proof.
  unfold invite_get. apply safe_bind; [by apply mwGetBuffer_advance_safe|intros _].
  apply safe_bind; [safe_tac|intros ?]. apply safe_bind; [safe_tac|intros ?].
  apply safe_bind; [by apply mwGetBuffer_advance_safe|intros _]. safe_tac.
Qed.
Lemma invite_who_get_safe : safe invite_who_get.
Proof. unfold invite_who_get. safe_tac. Qed.

Lemma convo_invite_returns o w : opaque_ok o -> len o < 2 ^ 64 -> served w -> exists w', convo_invite E h c o w = Some (tt, w').
Proof.
  intros Ho Hl (v & s & Hv & Hs). unfold convo_invite, guard. erewrite bind_run by (by apply obj_get_run).
  erewrite bind_run by (by apply obj_get_run). destruct (im_handler s); [|by exists w].
  destruct (imh_place_invite h) as [f|] eqn:Hf; [|by exists w].
  destruct (mwGetBuffer_wrap_ready o Ho Hl) as (Hwf & _).
  destruct (invite_get_safe _ Hwf) as ([[[title msg] name] who] & b & Eb & Hb & _).
  erewrite bind_run by (apply lift_run, Eb). cbn beta iota. erewrite bind_run by (by apply obj_get_run).
  assert (exists b' w1 v1, (if who && bool_decide (id_user (cv_target v) = None) then
      let* (who, b) := lift (invite_who_get b) in obj_set c (set_cv_target who) ;; ret b else ret b) w = Some (b', w1)
      /\ w_heap w1 !! c = Some (ObjConversation v1)) as (b' & w1 & v1 & E1 & Hv1).
  { destruct (who && _); [|by exists b, w, v]. destruct (invite_who_get_safe b Hb) as (id & b2 & E2 & _).
    erewrite bind_run by (apply lift_run, E2). cbn beta iota. erewrite bind_run by (by apply (obj_set_run c _ v)).
    eexists b2, _, _. split; [done|apply lookup_insert_eq]. }
  erewrite bind_run by exact E1. destruct (mwGetBuffer_error b'); [by exists w1|].
  destruct (cr_invite _ HC f msg title name Hf w1 v1 Hv1) as (w' & _ & E2 & _). by exists w'.
Qed.

Lemma recv_data_type_returns t u o w : opaque_ok o -> len o < 2 ^ 64 -> served w ->
  exists w', recv_data_type E h c t u o w = Some (tt, w').
Proof.
  intros Ho Hl Hs. pose proof Hs as (v & s & Hv & _). destruct (strndup_total o Ho) as [x Ex].
  assert (forall t m, exists w', convo_recv h c t m w = Some (tt, w')) as Hr.
  { intros t' m. destruct (convo_recv_returns t' m w Hs) as (w' & E1 & _). by exists w'. }
  unfold recv_data_type. repeat (case_match; [|]); try done; try by exists w.
  - by apply recv_part_returns.
  - erewrite bind_run by (by apply lift_run). done.
  - by apply recv_part_returns.
  - by apply convo_invite_returns.
  - unfold convo_multi_start. erewrite bind_run by (by apply obj_get_run). destruct (cv_multi v); [by exists w|by eapply set_returns].
  - unfold convo_multi_stop. erewrite bind_run by (by apply obj_deref_run). destruct (cv_multi v) as [str|]; [|by exists w].
    destruct (convo_recv_returns (cv_multi_type v) (PtrString (Some (cstr str))) w Hs) as (w1 & E1 & v1 & Hv1).
    erewrite bind_run by exact E1. by eapply set_returns.
Qed.

(** C9: whatever bytes come for a conversation, the service stays within its
    memory and returns, as long as the client does and does not free the
    conversation it is being told about. *)
Theorem im_recv_safe srvc chan ch type d w : opaque_ok d -> len d < 2 ^ 64 ->
  w_channels w !! chan = Some ch -> ch_srvc_data ch = Some c -> served w ->
  exists w', recv E h srvc chan type d w = Some (tt, w').
Proof.
  intros Ho Hl Hch Hd Hs. pose proof Hs as (v & s & Hv & _). unfold recv. destruct (negb _); [by exists w|].
  destruct (mwGetBuffer_wrap_ready d Ho Hl) as (Hwf & _).
  destruct (guint32_get_safe 0 _ Hwf) as (mt & b & Eb & Hb & _). erewrite bind_run by (apply lift_run, Eb). cbn beta iota.
  destruct (mwGetBuffer_error b); [by exists w|]. destruct (mt =? mwIm_TEXT); [|destruct (mt =? mwIm_DATA); [|by exists w]].
  - unfold recv_text. destruct (mwString_get_safe b Hb) as (text & b2 & E2 & _).
    erewrite bind_run by (apply lift_run, E2). cbn beta iota. destruct text as [str|]; [|by exists w].
    unfold mwChannel_getServiceData. erewrite bind_run by (by apply channel_get_run). rewrite Hd. cbn [nonnull].
    erewrite bind_run by (by apply obj_get_run). destruct (cv_multi v); [by eapply set_returns|].
    destruct (convo_recv_returns mwImSend_PLAIN (PtrString (Some str)) w Hs) as (w' & E1 & _). by exists w'.
  - unfold recv_data, data_get, gbind.
    destruct (guint32_get_safe 0 _ Hb) as (t & b1 & E1 & Hb1 & _).
    destruct (guint32_get_safe 0 _ Hb1) as (u & b2 & E2 & Hb2 & _).
    destruct (mwOpaque_get_safe _ Hb2) as (o & b3 & E3 & Hb3 & _). pose proof E3 as [Hoo Hol]%mwOpaque_get_result; [|done].
    erewrite bind_run by (apply lift_run; rewrite E1, E2, E3; reflexivity). cbn beta iota.
    destruct (mwGetBuffer_error b3); [by exists w|].
    unfold mwChannel_getServiceData. erewrite bind_run by (by apply channel_get_run). rewrite Hd. cbn [nonnull].
    by apply recv_data_type_returns.
Qed.
End safe.
End create.

(** ** Stopping *)

Section stop.
Context (srvc : Z) (E : Env) (h : mwImHandler) (r : list Z -> Z) (HW : pure_writes E r).

(** The client does no more than note that a conversation is closed, and frees
    its own data. *)
Record lets_go : Prop := {
  lg_closed f p c : imh_closed h = Some f -> harmless (f p c);
  lg_free f d : harmless (imh_free_data h f d);
}.
Context (HL : lets_go).

(** The channel that goes with a conversation: a closed one keeps none. *)
Definition convo_channel (v : mwConversation) : option Z :=
  if bool_decide (cv_state v = mwConversation_CLOSED) then None else cv_channel v.

Lemma harmless_call2 c code w : exists w', call2 (imh_closed h) c code w = Some (tt, w') /\ same_objects w w'.
Proof.
  destruct (imh_closed h) as [f|] eqn:Hf; [by apply (lg_closed HL f)|].
  exists w. split; [done|apply same_objects_refl].
Qed.

(** The conversation closed: its channel is gone. *)
Lemma im_close_run c v s w : w_heap w !! c = Some (ObjConversation v) -> cv_service v = srvc ->
  w_heap w !! srvc = Some (ObjImService s) -> (forall p, cv_channel v = Some p -> listed_channel w p) ->
  exists w' v', mwConversation_close E h (Some c) ERR_SUCCESS w = Some (tt, w')
    /\ w_heap w' = <[c := ObjConversation v']> (w_heap w) /\ cv_service v' = srvc
    /\ w_channels w' = drop_channel (cv_channel v) (w_channels w)
    /\ (forall id p, chan_map w !! id = Some p -> cv_channel v <> Some p -> chan_map w' !! id = Some p)
    /\ w_services w' = w_services w.
Proof.
  intros Hc Hv Hs Hch. cbn [mwConversation_close nonnull]. erewrite bind_run by (by apply convo_set_state_run).
  set (v1 := set_cv_state _ v). set (w1 := with_object c _ w).
  assert (w_heap w1 !! c = Some (ObjConversation v1)) as Hc1 by apply lookup_insert_eq.
  erewrite bind_run by (by apply obj_get_run). cbn [cv_service v1 set_cv_state]. rewrite Hv.
  assert (w_heap w1 !! srvc = Some (ObjImService s)) as Hs1 by (cbn; rewrite lookup_insert_ne; [done|congruence]).
  erewrite bind_run by (by apply obj_get_run).
  assert (exists w2, (if im_handler s then call2 (imh_closed h) c ERR_SUCCESS else ret tt) w1 = Some (tt, w2) /\ same_objects w1 w2)
    as (w2 & E2 & [Sh _ Sc Sm Ss]).
  { destruct (im_handler s); [apply harmless_call2|]. exists w1. split; [done|apply same_objects_refl]. }
  erewrite bind_run by exact E2. erewrite bind_run by (apply obj_get_run; rewrite Sh; exact Hc1).
  cbn [cv_channel v1 set_cv_state]. destruct (cv_channel v) as [p|] eqn:Ep; cbn [nonnull].
  - destruct (destroy_listed E r p w2 ERR_SUCCESS HW) as (n & w3 & E3 & Eh & Ec & Es & Em); [|done|].
    { destruct (Hch p eq_refl) as (ch & ? & ? & ?). exists ch. by rewrite Sc, Sm. }
    erewrite bind_run by exact E3.
    assert (w_heap w3 !! c = Some (ObjConversation v1)) as Hc3 by (rewrite Eh, Sh; exact Hc1).
    erewrite obj_set_run by exact Hc3. eexists _, _. split; [done|]. cbn. rewrite Eh, Sh, Ec, Sc, Es, Ss.
    split_and!; [cbn; by rewrite insert_insert_eq|done|done| |done].
    intros id p' Hm Hne. apply Em; [by rewrite Sm|congruence].
  - exists w2, v1. split_and!; [done|by rewrite Sh|done|by rewrite Sc| |by rewrite Ss]. intros id p Hm _. by rewrite Sm.
Qed.

Lemma convo_free_run c v s w : w_heap w !! c = Some (ObjConversation v) -> cv_service v = srvc ->
  w_heap w !! srvc = Some (ObjImService s) ->
  exists w', convo_free h c w = Some (tt, w')
    /\ w_heap w' = delete c (<[srvc := ObjImService (set_im_convs (filter (fun q => q <> c) (im_convs s)) s)]> (w_heap w))
    /\ w_channels w' = w_channels w /\ chan_map w' = chan_map w /\ w_services w' = w_services w.
Proof.
  intros Hc Hv Hs. unfold convo_free. cbn [mwConversation_removeClientData nonnull].
  destruct (datum_clear_run (imh_free_data h) (cv_client_data v) w (lg_free HL)) as (d & w1 & E1 & [Sh _ Sc Sm Ss]).
  erewrite bind_run.
  2:{ erewrite bind_run by (by apply obj_get_run). erewrite bind_run by exact E1. apply (obj_set_run c _ v). by rewrite Sh. }
  rewrite Sh. set (w2 := set_w_heap _ w1).
  erewrite bind_run by (apply obj_get_run, lookup_insert_eq). cbn [cv_service set_cv_client_data]. rewrite Hv.
  assert (c <> srvc) as Hne by congruence.
  erewrite bind_run by (refine (obj_set_run srvc _ s w2 _); cbn; by rewrite lookup_insert_ne).
  unfold free_object. cbn. rewrite lookup_insert_ne, lookup_insert_eq by done. eexists. split; [done|]. cbn.
  split_and!; [|done..]. by rewrite (insert_insert_ne _ srvc c), delete_insert_eq by done.
Qed.

Lemma mwConversation_frees : frees convo_channel set_im_convs srvc (fun c => mwConversation_free E h (Some c)).
Proof.
  intros c v s w Hc Hv Hs _ Hat. cbn in Hc, Hv, Hs. cbn [mwConversation_free nonnull]. unfold mwConversation_isClosed.
  erewrite bind_run by (by apply conv_isState_run). unfold attached, convo_channel in Hat.
  case_bool_decide as Hcl.
  - destruct (convo_free_run c v s w Hc Hv Hs) as (w' & E1 & Eh & Ec & Em & Es). exists w'.
    split; [by erewrite bind_run by reflexivity|]. split; [done| | |done].
    + by rewrite Ec; unfold convo_channel; rewrite bool_decide_true.
    + intros id p Hm _. by rewrite Em.
  - destruct (im_close_run c v s w Hc Hv Hs Hat) as (w1 & v1 & E1 & Eh1 & Hv1 & Ec1 & Em1 & Es1).
    erewrite bind_run by exact E1. assert (c <> srvc) as Hne by congruence.
    destruct (convo_free_run c v1 s w1) as (w' & E2 & Eh & Ec & Em & Es);
      [rewrite Eh1; apply lookup_insert_eq|done|by rewrite Eh1, lookup_insert_ne|].
    exists w'. split; [done|]. split.
    + rewrite Eh, Eh1. by rewrite (insert_insert_ne _ srvc c), delete_insert_eq by done.
    + rewrite Ec, Ec1. unfold convo_channel. by rewrite bool_decide_false.
    + intros id p Hm. unfold convo_channel. rewrite bool_decide_false by done. intros Hp. rewrite Em. by apply Em1.
    + by rewrite Es.
Qed.

Lemma free_convs_loop free n w :
  free_convs free n srvc w = free_all (S := mwServiceIm) (T := mwConversation) srvc free n w.
Proof.
  revert w. induction n as [|n IH]; intros w; cbn [free_convs free_all]; unfold bind; [done|].
  cbn [ow_list im_owned]. destruct (obj_get srvc im_convs w) as [[[|p l] w1]|]; [done| |done].
  destruct (free p w1) as [[[] w2]|]; [apply IH|done].
Qed.

(** C10: stopping the service ends, and frees every conversation once: none is
    left on its list or on the heap, the other blocks are untouched, exactly
    the channels of the conversations that were not closed are gone, and the
    service is stopped. *)
Theorem stop_frees_conversations L w sv :
  stoppable (S := mwServiceIm) convo_channel srvc L w -> w_services w !! srvc = Some sv ->
  exists w' s, stop E h srvc w = Some (tt, w')
    /\ w_heap w' !! srvc = Some (ObjImService s) /\ im_convs s = []
    /\ (forall q, q <> srvc -> w_heap w' !! q = if bool_decide (q ∈ L) then None else w_heap w !! q)
    /\ (forall c v p, c ∈ L -> w_heap w !! c = Some (ObjConversation v) -> convo_channel v = Some p -> w_channels w' !! p = None)
    /\ (forall p, (forall c v, c ∈ L -> w_heap w !! c = Some (ObjConversation v) -> convo_channel v <> Some p) ->
          w_channels w' !! p = w_channels w !! p)
    /\ w_services w' !! srvc = Some (set_sv_state mwServiceState_STOPPED sv).
Proof.
  intros St Hsv. destruct (sp_service _ _ _ _ St) as (s & Hs & Hl). cbn in Hs, Hl.
  destruct (stop_run (S := mwServiceIm) (T := mwConversation) convo_channel set_im_convs srvc
      ltac:(done) _ L w sv mwConversation_frees St Hsv)
    as (w1 & w' & E1 & [(s1 & Hs1 & Hl1) Hh Hd Hk _] & Eh & Ec & Es).
  exists w', s1. rewrite Eh, Ec. split_and!; try done. unfold stop.
  erewrite bind_run by (by apply obj_get_run). rewrite Hl. rewrite <- E1. unfold bind. by rewrite free_convs_loop.
Qed.
End stop.
