(* ===== verification/ImRuns.v ===== *)
(** * The instant messaging service: runs

    Concrete clients and messages: the theorems of the service at work, and
    clients that make it fail. *)

From S2P Require Import Prelude Buffer Common Message Framing World Util Rc2 Cipher Service Session.
From S2P Require Import Channel Im Dispatch Frame Owned Delivery Protocol ChannelSpec Secure Closing Freeing.
From S2P Require Import ImSpec ImProto ImDeliver ImEnds.
#[local] Open Scope Z_scope.
#[local] Open Scope mw_scope.

(** ** A client that writes down what it is told *)

Definition type_code (t : mwImSendType) : Z :=
  match t with
  | mwImSend_PLAIN => 0 | mwImSend_TYPING => 1 | mwImSend_HTML => 2 | mwImSend_SUBJECT => 3
  | mwImSend_MIME => 4 | mwImSend_TIMESTAMP => 5
  end.
Definition note_message (t : mwImSendType) (m : gconstpointer) : event :=
  EvWrite (match m with PtrString s => opt_list s | PtrInt v => [v] end) (type_code t).

Definition writing_im : mwImHandler := {|
  imh_opened := None;
  imh_closed := Some (fun c code => log (EvWrite [] 6));
  imh_recv := Some (fun c t m => log (note_message t m));
  imh_place_invite := None;
  imh_clear := None;
  imh_free_data _ _ := ret tt |}.

Lemma writing_im_ok srvc w0 : imh_ok srvc w0 writing_im.
Proof.
  split; cbn; try done; try (intros * [= <-]; apply (ff_log (P := keeps_im srvc w0))).
  intros f d w a w' [= _ <-]. split; [done|lia].
Qed.

Lemma writing_im_notes : im_notes writing_im note_message.
Proof. eexists. split; [done|]. done. Qed.

Lemma writing_im_returns c : client_returns writing_im c.
Proof. split; [|done]. intros f t m [= <-] w v Hv. by exists (with_log [note_message t m] w), v. Qed.

Lemma log_harmless e : harmless (log e).
Proof. intros w. eexists. split; [done|]. by split. Qed.

Lemma writing_im_lets_go : lets_go writing_im.
Proof.
  split; [intros f p c [= <-]; apply log_harmless|]. intros f d w. exists w. split; [done|apply same_objects_refl].
Qed.

Lemma quiet_im_env srvc w0 : EnvFrame (keeps_im srvc w0) (quiet_env 0).
Proof. apply quiet_env_frame, _. Qed.

(** ** Two clients in conversation *)

Definition convo_of (srvc chan : Z) (st : mwConversationState) (features : Z) : mwConversation := {|
  cv_service := srvc; cv_channel := Some chan; cv_target := {| id_user := Some [98; 111; 98]; id_community := None |};
  cv_ext_id := false; cv_state := st; cv_features := features; cv_multi := None; cv_multi_type := mwImSend_PLAIN;
  cv_client_data := datum_zero |}.

Definition im_service (l : list Z) : mwServiceIm :=
  {| im_features := mwImClient_NOTESBUDDY; im_handler := true; im_convs := l |}.

(** The service is at 4, the conversation at 12, the channel at 1. *)
Definition talking_chan : mwChannel := set_ch_srvc_data (Some 12) (chan_40 mwChannel_OPEN).
Definition open_convo : mwConversation := convo_of 4 1 mwConversation_OPEN mwImClient_NOTESBUDDY.
Definition talking : world :=
  set_w_next 13 (set_w_heap {[4 := ObjImService (im_service [12]); 12 := ObjConversation open_convo]} (one_channel talking_chan)).

Lemma talking_chat : chat 4 12 open_convo 1 12 open_convo 1 1 talking talking (None, mwImSend_PLAIN).
Proof.
  split; try done.
  - split. exists talking_chan, talking_chan, (alloc_instance 2 1), (alloc_instance 2 1). do 2 eexists.
    split_and!; try reflexivity. by apply (bool_decide_unpack _).
  - by exists talking_chan.
  - split; [|done]. split; [done|]. by exists (im_service [12]).
  - by exists service_4.
  - by exists talking_chan.
Qed.

Lemma chars_replicate n x : is_u8 x -> x <> 0 -> Z.of_nat n < 2 ^ 28 -> chars (replicate n x).
Proof. intros Hx H0 Hn. split; [by apply Forall_replicate|]. unfold zlen. rewrite length_replicate. lia. Qed.

(** A word, and five thousand letters of HTML. *)
Definition greeting : list (mwImSendType * gconstpointer) :=
  [(mwImSend_TYPING, PtrInt 1); (mwImSend_PLAIN, PtrString (Some [104; 105]));
   (mwImSend_HTML, PtrString (Some (replicate 5000 97)))].

Lemma greeting_ok : Forall message_ok greeting.
Proof.
  apply Forall_cons; split; [done|]. apply Forall_cons; split; [by apply (bool_decide_unpack _)|].
  apply Forall_singleton. by apply (chars_replicate 5000 97).
Qed.

Lemma im_delivers_witness :
  exists l bs w1' w2' mt',
    send_messages (quiet_env 0) 12 greeting talking = Some (tt, w1')
    /\ mapM render l = Some bs /\ w_log w1' = [] ++ ((fun b => EvWrite b 0) <$> bs)
    /\ take_messages (im_env 4 writing_im (quiet_env 0)) 1 l talking = Some (tt, w2')
    /\ w_log w2' = [] ++ [EvWrite [1] 1; EvWrite [104; 105] 0; EvWrite (replicate 5000 97) 2]
    /\ chat 4 12 open_convo 1 12 open_convo 1 1 w1' w2' (None, mt').
Proof.
  apply (im_delivers 4 (quiet_env 0) (im_env 4 writing_im (quiet_env 0)) writing_im note_message ltac:(done)
    writing_im_notes ltac:(by exists (quiet_env 0)) 12 open_convo 1 12 open_convo 1 1 talking talking mwImSend_PLAIN greeting
    talking_chat greeting_ok).
Defined.

(** *** Any bytes *)

Lemma im_recv_safe_witness :
  exists w', recv (quiet_env 0) writing_im 4 1 msg_MESSAGE (opaque_of [0; 0; 0; 2; 0; 0; 19; 137]) talking = Some (tt, w').
Proof.
  apply (im_recv_safe (quiet_env 0) writing_im 12 (writing_im_returns 12) 4 1 talking_chan); try done.
  by exists open_convo, (im_service [12]).
Defined.

(** A client that frees the conversation when it is told of a message in
    several parts makes the code look at it again. *)
Definition freeing_im : mwImHandler := {|
  imh_opened := None; imh_closed := None;
  imh_recv := Some (fun c t m => mwConversation_free (quiet_env 0) writing_im (Some c));
  imh_place_invite := None; imh_clear := None; imh_free_data _ _ := ret tt |}.

Definition talking_multi : world :=
  set_w_heap (<[12 := ObjConversation (set_cv_multi (Some [97]) open_convo)]> (w_heap talking)) talking.

(** The message that ends one in several parts. *)
Definition stop_message : mwOpaque :=
  opaque_of (packet_enc (PkData mwImData_MULTI_STOP 0 [])).
Definition text_message : mwOpaque := opaque_of (packet_enc (PkText [97])).

Theorem recv_frees_unsafe :
  recv (quiet_env 0) freeing_im 4 1 msg_MESSAGE stop_message talking_multi = None
  /\ is_Some (recv (quiet_env 0) freeing_im 4 1 msg_MESSAGE text_message talking).
Proof. split; [vm_compute; reflexivity|]. vm_compute. by eexists. Qed.

(** ** Channels *)

Definition im_channel (st : mwChannelState) : mwChannel :=
  set_ch_proto_ver PROTOCOL_VER (set_ch_proto_type PROTOCOL_TYPE (set_ch_service mwService_IM (chan_40 st))).
Definition im_message (d : list Z) : mwMsgChannelCreate := {|
  cc_reserved := 0; cc_channel := 1; cc_target := {| id_user := None; id_community := None |};
  cc_service := mwService_IM; cc_proto_type := PROTOCOL_TYPE; cc_proto_ver := PROTOCOL_VER; cc_options := 0;
  cc_addtl := opaque_of d; cc_creator_flag := false; cc_creator := li_zero; cc_encrypt := eo_zero |}.
Definition idle_im : world :=
  set_w_next 5 (set_w_heap {[4 := ObjImService (im_service [])]} (one_channel (im_channel mwChannel_WAIT))).

Lemma idle_im_below : heap_below idle_im.
Proof.
  intros q o Hq. change (({[4 := ObjImService (im_service [])]} : gmap Z object) !! q = Some o) in Hq.
  by apply lookup_singleton_Some in Hq as [<- _].
Qed.

Definition busy_im : world :=
  set_w_session (set_s_status {| us_status := mwStatus_BUSY; us_time := 0; us_desc := None |} (w_session idle_im)) idle_im.

Lemma im_create_decides_witness :
  recv_channelCreate (quiet_env 0) writing_im 4 1 (im_message [0; 0; 0; 1; 0; 0; 0; 2]) idle_im
    = refuse (quiet_env 0) 1 ERR_IM_NOT_REGISTERED idle_im
  /\ recv_channelCreate (quiet_env 0) writing_im 4 1 (im_message [0; 0; 0; 1; 0; 0; 0; 1]) busy_im
    = refuse (quiet_env 0) 1 ERR_CLIENT_USER_DND busy_im
  /\ recv_channelCreate (quiet_env 0) writing_im 4 1 (im_message [0; 0; 0; 1; 0; 0; 0; 1; 5]) idle_im
    = accept_convo (quiet_env 0) writing_im 5 (with_convo 4 (im_service []) 1 (im_channel mwChannel_WAIT)
        (new_convo 4 1 li_zero mwImClient_PLAIN) idle_im).
Proof.
  split; [|split].
  - destruct (im_create_decides (quiet_env 0) writing_im 4 (im_service []) 1 (im_channel mwChannel_WAIT)
      (im_message [0; 0; 0; 1; 0; 0; 0; 2]) idle_im idle_im_below eq_refl eq_refl eq_refl
      ltac:(by apply (bool_decide_unpack _)) eq_refl) as (_ & _ & H).
    destruct (H ltac:(done) 1 2 [] ltac:(done) ltac:(done) eq_refl) as (R & _). apply R.
    by intros (_ & [[? _]|[_ [?|?]]]).
  - destruct (im_create_decides (quiet_env 0) writing_im 4 (im_service []) 1 (im_channel mwChannel_WAIT)
      (im_message [0; 0; 0; 1; 0; 0; 0; 1]) busy_im idle_im_below eq_refl eq_refl eq_refl
      ltac:(by apply (bool_decide_unpack _)) eq_refl) as (_ & _ & H).
    destruct (H ltac:(done) 1 1 [] ltac:(done) ltac:(done) eq_refl) as (_ & R & _). apply R; [|done|done].
    split; [done|]. right. split; [done|by left].
  - destruct (im_create_decides (quiet_env 0) writing_im 4 (im_service []) 1 (im_channel mwChannel_WAIT)
      (im_message [0; 0; 0; 1; 0; 0; 0; 1; 5]) idle_im idle_im_below eq_refl eq_refl eq_refl
      ltac:(by apply (bool_decide_unpack _)) eq_refl) as (_ & _ & H).
    destruct (H ltac:(done) 1 1 [5] ltac:(done) ltac:(done) eq_refl) as (_ & _ & R). apply R; [|by right].
    split; [done|]. right. split; [done|by left].
Defined.

Definition refused_chan : mwChannel := set_ch_srvc_data (Some 12) (chan_40 mwChannel_ERROR).
Definition refused : world :=
  set_w_next 13 (set_w_heap {[4 := ObjImService (im_service [12]); 12 := ObjConversation open_convo]} (one_channel refused_chan)).

Lemma refused_open_stuck_witness :
  let w' := with_object 12 (ObjConversation (set_cv_features mwImClient_PLAIN (set_cv_channel None open_convo))) refused in
  recv_channelDestroy (quiet_env 0) writing_im 4 1 {| cd_reason := ERR_IM_NOT_REGISTERED; cd_data := opaque_zero |} refused
    = Some (tt, w')
  /\ (forall t m, mwConversation_send (quiet_env 0) (Some 12) t m w' = Some (-1, w'))
  /\ mwConversation_open (quiet_env 0) (Some 12) w' = Some (tt, w').
Proof.
  apply (refused_open_stuck (quiet_env 0) writing_im 4 1 refused_chan 12 open_convo
    {| cd_reason := ERR_IM_NOT_REGISTERED; cd_data := opaque_zero |} refused); try done. by left.
Defined.

(** ** Stopping *)

Lemma talking_stoppable : stoppable (S := mwServiceIm) convo_channel 4 [12] talking.
Proof.
  split.
  - by eexists.
  - apply NoDup_singleton.
  - intros p ->%list_elem_of_singleton. exists open_convo. split_and!; [done|done|]. intros c [= <-].
    by exists talking_chan.
  - by intros p q t t' c ->%list_elem_of_singleton ->%list_elem_of_singleton.
Qed.

Lemma stop_frees_conversations_witness :
  exists w' s, stop (quiet_env 0) writing_im 4 talking = Some (tt, w')
    /\ w_heap w' !! 4 = Some (ObjImService s) /\ im_convs s = []
    /\ w_heap w' !! 12 = None /\ w_channels w' !! 1 = None
    /\ w_services w' !! 4 = Some (set_sv_state mwServiceState_STOPPED service_4).
Proof.
  destruct (stop_frees_conversations 4 (quiet_env 0) writing_im (fun _ => 0) ltac:(done) writing_im_lets_go [12]
    talking service_4 talking_stoppable eq_refl)
    as (w' & s & E & Hs & Hl & Hh & Hc & _ & Hsv).
  exists w', s. split_and!; [exact E|exact Hs|exact Hl| | |exact Hsv].
  - by rewrite (Hh 12).
  - by apply (Hc 12 open_convo 1); [left|..].
Defined.

(** *** From a new service on *)

Definition new_im : world := world_after (mwServiceIm_new) quiet_world.
Definition bob : mwIdBlock := {| id_user := Some [98; 111; 98]; id_community := None |}.
Definition one_convo : world := world_after (mwServiceIm_getConversation (Some 1) (Some bob)) new_im.
Definition one_opened : world := world_after (mwConversation_open (im_env 1 writing_im (quiet_env 0)) (Some 2)) one_convo.

Lemma new_im_wf : im_wf 1 new_im.
Proof.
  assert (w_heap new_im = {[1 := ObjImService {| im_features := mwImClient_PLAIN; im_handler := true; im_convs := [] |}]}) as Eh by done.
  exists []. split; rewrite ?Eh.
  - intros q o. rewrite Eh. by intros [<- _]%lookup_singleton_Some.
  - by eexists.
  - constructor.
  - intros p. split; [by intros ?%not_elem_of_nil|]. by intros (t & [_ ?]%lookup_singleton_Some & _).
  - by intros p t [_ ?]%lookup_singleton_Some.
Qed.

Lemma im_invariant_witness : im_wf 1 one_opened /\ im_moved 1 new_im one_opened.
Proof.
  apply (im_invariant 1 writing_im (quiet_env 0)).
  - apply quiet_im_env.
  - apply writing_im_ok.
  - exact new_im_wf.
  - eapply rtc_l; [eapply (ims_get _ _ _ (Some bob)); vm_compute; reflexivity|].
    eapply rtc_l; [eapply (ims_open _ _ _ (Some 2)); vm_compute; reflexivity|]. apply rtc_refl.
Defined.
