(* ===== verification/Shelf.v ===== *)
(** * Lists that share entries

    Several lists hold entries by key; the entries are shared over all lists
    of a service, which has a table of them, and each knows the lists it is
    on.  This is the relation between the three, apart from how they are laid
    out in memory: [vt] are the tables of the services, [vl] the lists with the
    service of each, [vn] the entries with their key and the lists they are on.
    Entries that were taken out of a table to be freed, and are on no list, are
    [D]. *)

From S2P Require Import Prelude.
From stdpp Require Import gmap.
#[local] Open Scope Z_scope.

Section shelf.
Context {K : Type} `{Countable K}.

Record shelf (D : list Z) (vt : Z -> option (gmap K Z)) (vl : Z -> option (option Z * gmap K Z))
    (vn : Z -> option (K * list Z)) : Prop := {
  sh_node srvc T k p : vt srvc = Some T -> T !! k = Some p ->
    exists ms, vn p = Some (k, ms) /\ NoDup ms
      /\ forall L, L ∈ ms <-> exists t, vl L = Some (Some srvc, t) /\ t !! k = Some p;
  sh_one s1 s2 T1 T2 k1 k2 p : vt s1 = Some T1 -> T1 !! k1 = Some p -> vt s2 = Some T2 -> T2 !! k2 = Some p -> s1 = s2;
  sh_list L os t k p : vl L = Some (os, t) -> t !! k = Some p ->
    exists srvc T, os = Some srvc /\ vt srvc = Some T /\ T !! k = Some p;
  sh_nodup : NoDup D;
  sh_stolen p : p ∈ D -> (exists k, vn p = Some (k, [])) /\ forall srvc T k, vt srvc = Some T -> T !! k <> Some p;
}.

Section steps.
Context (D : list Z) (vt : Z -> option (gmap K Z)) (vl : Z -> option (option Z * gmap K Z)) (vn : Z -> option (K * list Z)).
Context (S : shelf D vt vl vn).

Lemma shelf_ext vt' vl' vn' : (forall q, vt' q = vt q) -> (forall q, vl' q = vl q) -> (forall q, vn' q = vn q) ->
  shelf D vt' vl' vn'.
Proof.
  intros Et El En. destruct S as [S1 S2 S3 S4 S5]. split.
  - intros srvc T k p. rewrite Et, En. setoid_rewrite El. apply S1.
  - intros s1 s2 T1 T2 k1 k2 p. rewrite !Et. apply S2.
  - intros L os t k p. rewrite El. setoid_rewrite Et. apply S3.
  - done.
  - intros p. rewrite En. setoid_rewrite Et. apply S5.
Qed.

(** The key of an entry is the one it has in the tables. *)
Lemma shelf_key srvc T k k' p ms : vt srvc = Some T -> T !! k = Some p -> vn p = Some (k', ms) -> k' = k.
Proof. intros Ht Hk Hn. destruct (sh_node _ _ _ _ S _ _ _ _ Ht Hk) as (ms' & Hn' & _). congruence. Qed.

Lemma shelf_new_node srvc T k p vt' vn' : vt srvc = Some T -> T !! k = None -> vn p = None ->
  (forall q, vn' q = if decide (q = p) then Some (k, []) else vn q) ->
  (forall s, vt' s = if decide (s = srvc) then Some (<[k := p]> T) else vt s) ->
  shelf D vt' vl vn'.
Proof.
  intros Ht Hk Hp En Et. destruct S as [S1 S2 S3 S4 S5].
  assert (forall s T' k', vt s = Some T' -> T' !! k' <> Some p) as Hno.
  { intros s T' k' H1 H2. destruct (S1 _ _ _ _ H1 H2) as (ms & Hn & _). congruence. }
  assert (forall s T' k' q, vt' s = Some T' -> T' !! k' = Some q ->
    (s = srvc /\ k' = k /\ q = p) \/ (q <> p /\ exists T0, vt s = Some T0 /\ T0 !! k' = Some q)) as Hold.
  { intros s T' k' q. rewrite Et. destruct (decide (s = srvc)) as [->|].
    - intros [= <-] [[<- <-]|[Hne Hq]]%lookup_insert_Some; [by left|right].
      split; [intros ->; by apply (Hno _ _ _ Ht Hq)|by exists T].
    - intros H1 H2. right. split; [intros ->; by apply (Hno _ _ _ H1 H2)|by exists T']. }
  split.
  - intros s T' k' q H1 H2. rewrite En. destruct (Hold _ _ _ _ H1 H2) as [(-> & -> & ->)|(Hne & T0 & H3 & H4)].
    + rewrite decide_True by done. exists []. split_and!; [done|constructor|]. intros L. split; [by intros ?%not_elem_of_nil|].
      intros (t & Hl & Hkt). destruct (S3 _ _ _ _ _ Hl Hkt) as (s' & T0 & [= <-] & H3 & H4). by destruct (Hno _ _ _ H3 H4).
    + rewrite decide_False by done. by apply S1 with T0.
  - intros s1 s2 T1 T2 k1 k2 q H1 H2 H3 H4.
    destruct (Hold _ _ _ _ H1 H2) as [(-> & _ & Hq)|(Hne & Ta & Ha & Ha')],
      (Hold _ _ _ _ H3 H4) as [(-> & _ & Hq')|(Hne' & Tb & Hb & Hb')]; [done|congruence|congruence|by eapply S2].
  - intros L os t k' q Hl Hkt. destruct (S3 _ _ _ _ _ Hl Hkt) as (s & T0 & -> & H3 & H4). exists s.
    rewrite Et. destruct (decide (s = srvc)) as [->|]; [|by exists T0].
    assert (T0 = T) as -> by congruence. eexists. split_and!; [done..|].
    rewrite lookup_insert_ne; [done|]. congruence.
  - done.
  - intros q Hq. destruct (S5 q Hq) as [(kq & Hn) Hnt]. split.
    + rewrite En, decide_False by congruence. by exists kq.
    + intros s T' k' H1 H2. destruct (Hold _ _ _ _ H1 H2) as [(_ & _ & ->)|(Hne & T0 & H3 & H4)]; [congruence|].
      by apply (Hnt s T0 k' H3).
Qed.

(** A list takes an entry. *)
Lemma shelf_join srvc T L t k p ms ms' vl' vn' : vt srvc = Some T -> T !! k = Some p ->
  vl L = Some (Some srvc, t) -> t !! k = None -> vn p = Some (k, ms) -> ms' ≡ₚ L :: ms ->
  (forall q, vn' q = if decide (q = p) then Some (k, ms') else vn q) ->
  (forall q, vl' q = if decide (q = L) then Some (Some srvc, <[k := p]> t) else vl q) ->
  shelf D vt vl' vn'.
Proof.
  intros Ht Hk Hl Hkt Hp Hms En El. destruct S as [S1 S2 S3 S4 S5]. split.
  - intros s T' k' q H1 H2. destruct (S1 _ _ _ _ H1 H2) as (ms0 & Hn & Hnd & Hm). rewrite En.
    destruct (decide (q = p)) as [->|Hne].
    + assert (s = srvc) as -> by eauto. assert (k' = k /\ ms0 = ms) as [-> ->] by (by split; congruence).
      exists ms'. split_and!; [done| |].
      * rewrite Hms. constructor; [|done]. intros (t' & Hl' & Hk')%Hm. congruence.
      * intros M. rewrite Hms, elem_of_cons, Hm, El. destruct (decide (M = L)) as [->|HM].
        -- split; [intros _; eexists; split; [done|by rewrite lookup_insert_eq]|by left].
        -- split; [intros [->|?]; done|by right].
    + exists ms0. split_and!; [done..|]. intros M. rewrite Hm, El. destruct (decide (M = L)) as [->|HM]; [|done].
      split; intros (t' & Hl' & Hk').
      * rewrite Hl in Hl'. injection Hl' as <- <-. eexists. split; [done|].
        rewrite lookup_insert_ne; [done|]. intros <-. congruence.
      * injection Hl' as <- <-. apply lookup_insert_Some in Hk' as [[_ ->]|[_ Hk']]; [done|by exists t].
  - done.
  - intros M os t' k' q. rewrite El. destruct (decide (M = L)) as [->|]; [|apply S3].
    intros [= <- <-] [[<- <-]|[_ Hq]]%lookup_insert_Some; [by exists srvc, T|by eapply S3].
  - done.
  - intros q Hq. destruct (S5 q Hq) as [(k' & Hn) Hnt]. split; [|done]. rewrite En, decide_False; [by exists k'|].
    intros ->. by apply (Hnt _ _ k Ht).
Qed.

(** A list leaves an entry. *)
Lemma shelf_leave srvc L t k p ms ms' vl' vn' : vl L = Some (Some srvc, t) -> t !! k = Some p ->
  vn p = Some (k, ms) -> ms ≡ₚ L :: ms' ->
  (forall q, vn' q = if decide (q = p) then Some (k, ms') else vn q) ->
  (forall q, vl' q = if decide (q = L) then Some (Some srvc, delete k t) else vl q) ->
  shelf D vt vl' vn'.
Proof.
  intros Hl Hkt Hp Hms En El. destruct S as [S1 S2 S3 S4 S5].
  destruct (S3 _ _ _ _ _ Hl Hkt) as (srvc' & T & [= <-] & Ht & Hk). split.
  - intros s T' k' q H1 H2. destruct (S1 _ _ _ _ H1 H2) as (ms0 & Hn & Hnd & Hm). rewrite En.
    destruct (decide (q = p)) as [->|Hne].
    + assert (s = srvc) as -> by eauto. assert (k' = k /\ ms0 = ms) as [-> ->] by (by split; congruence).
      rewrite Hms in Hnd. apply NoDup_cons in Hnd as [HL Hnd]. exists ms'. split_and!; [done|done|].
      intros M. rewrite El. setoid_rewrite Hms in Hm. setoid_rewrite elem_of_cons in Hm. destruct (decide (M = L)) as [->|HM].
      * split; [done|]. intros (t' & [= <-] & Hk'). by rewrite lookup_delete_eq in Hk'.
      * rewrite <- Hm. tauto.
    + exists ms0. split_and!; [done..|]. intros M. rewrite Hm, El. destruct (decide (M = L)) as [->|HM]; [|done].
      split; intros (t' & Hl' & Hk').
      * rewrite Hl in Hl'. injection Hl' as <- <-. eexists. split; [done|].
        rewrite lookup_delete_ne; [done|]. intros <-. congruence.
      * injection Hl' as <- <-. apply lookup_delete_Some in Hk' as [_ Hk']. by exists t.
  - done.
  - intros M os t' k' q. rewrite El. destruct (decide (M = L)) as [->|]; [|apply S3].
    intros [= <- <-] [_ Hq]%lookup_delete_Some. by eapply S3.
  - done.
  - intros q Hq. destruct (S5 q Hq) as [(k' & Hn) Hnt]. split; [|done]. rewrite En, decide_False; [by exists k'|].
    intros ->. by apply (Hnt _ _ k Ht).
Qed.

(** Entries that are on no list are taken out of their table. *)
Lemma shelf_steal srvc T dead vt' : vt srvc = Some T -> NoDup dead ->
  (forall p, p ∈ dead -> (exists k, T !! k = Some p) /\ exists k, vn p = Some (k, [])) ->
  (forall s, vt' s = if decide (s = srvc) then Some (filter (fun kv => kv.2 ∉ dead) T) else vt s) ->
  shelf (dead ++ D) vt' vl vn.
Proof.
  intros Ht Hnd Hdead Et. destruct S as [S1 S2 S3 S4 S5].
  assert (forall s T' k q, vt' s = Some T' -> T' !! k = Some q ->
    exists T0, vt s = Some T0 /\ T0 !! k = Some q /\ q ∉ dead) as Hold.
  { intros s T' k q. rewrite Et. destruct (decide (s = srvc)) as [->|Hne].
    - intros [= <-] [H1 H2]%map_lookup_filter_Some. by exists T.
    - intros H1 H2. exists T'. split_and!; [done..|]. intros Hq. apply Hne. destruct (Hdead q Hq) as [(k' & Hk') _]. by eapply S2. }
  split.
  - intros s T' k q H1 H2. destruct (Hold _ _ _ _ H1 H2) as (T0 & H3 & H4 & _). by eapply S1.
  - intros s1 s2 T1 T2 k1 k2 q H1 H2 H3 H4. destruct (Hold _ _ _ _ H1 H2) as (? & ? & ? & _), (Hold _ _ _ _ H3 H4) as (? & ? & ? & _).
    by eapply S2.
  - intros L os t k q Hl Hk. destruct (S3 _ _ _ _ _ Hl Hk) as (s & T0 & -> & H3 & H4). exists s. rewrite Et.
    destruct (decide (s = srvc)) as [->|]; [|by exists T0]. assert (T0 = T) as -> by congruence. eexists. split_and!; [done..|].
    apply map_lookup_filter_Some. split; [done|]. cbn. intros (_ & k' & Hn)%Hdead.
    destruct (S1 _ _ _ _ H3 H4) as (ms & Hn' & _ & Hm). rewrite Hn in Hn'. injection Hn' as _ <-.
    apply (not_elem_of_nil L). apply Hm. by exists t.
  - apply NoDup_app. split_and!; [done| |done]. intros q (( k & Hk) & _)%Hdead Hq. by apply (proj2 (S5 q Hq) _ _ _ Ht Hk).
  - intros q [Hq|Hq]%elem_of_app.
    + destruct (Hdead q Hq) as [_ ?]. split; [done|]. intros s T' k H1 H2. by destruct (Hold _ _ _ _ H1 H2) as (? & _ & _ & ?).
    + destruct (S5 q Hq) as [? Hnt]. split; [done|]. intros s T' k H1 H2. destruct (Hold _ _ _ _ H1 H2) as (? & H3 & H4 & _).
      by eapply Hnt.
Qed.

(** A list without entries is changed, made or freed. *)
Lemma shelf_set_list L v vl' : (forall os t, vl L = Some (os, t) -> t = ∅) ->
  (forall os t, v = Some (os, t) -> t = ∅) -> (forall q, vl' q = if decide (q = L) then v else vl q) ->
  shelf D vt vl' vn.
Proof.
  intros H1 H2 El. destruct S as [S1 S2 S3 S4 S5]. split; try done.
  - intros s T k p Ht Hk. destruct (S1 _ _ _ _ Ht Hk) as (ms & Hn & Hnd & Hm). exists ms. split_and!; [done..|].
    intros M. rewrite Hm, El. destruct (decide (M = L)) as [->|]; [|done].
    split; intros (t & Hl & Hkt); [apply H1 in Hl|apply H2 in Hl]; subst t; by rewrite lookup_empty in Hkt.
  - intros M os t k p. rewrite El. destruct (decide (M = L)) as [->|]; [|apply S3].
    intros ->%H2 Hk. by rewrite lookup_empty in Hk.
Qed.
End steps.

(** An entry that was taken out is freed. *)
Lemma shelf_free p D vt vl vn vn' : shelf (p :: D) vt vl vn ->
  (forall q, vn' q = if decide (q = p) then None else vn q) -> shelf D vt vl vn'.
Proof.
  intros [S1 S2 S3 S4 S5] En. apply NoDup_cons in S4 as [Hp S4]. split; try done.
  - intros s T k q Ht Hk. destruct (S1 _ _ _ _ Ht Hk) as (ms & Hn & Hm). exists ms. split; [|done].
    rewrite En, decide_False; [done|]. intros ->. destruct (S5 p ltac:(left)) as [_ Hnt]. by apply (Hnt _ _ _ Ht Hk).
  - intros q Hq. destruct (S5 q ltac:(by right)) as [(k & Hn) Hnt]. split; [|done]. exists k.
    rewrite En, decide_False; [done|]. congruence.
Qed.

(** A new service, with an empty table. *)
Lemma shelf_new_service srvc D vt vl vn vt' : shelf D vt vl vn -> vt srvc = None ->
  (forall s, vt' s = if decide (s = srvc) then Some ∅ else vt s) -> shelf D vt' vl vn.
Proof.
  intros [S1 S2 S3 S4 S5] Hs Et.
  assert (forall s T k p, vt' s = Some T -> T !! k = Some p -> vt s = Some T) as Hold.
  { intros s T k p. rewrite Et. destruct (decide (s = srvc)); [|done]. intros [= <-]. by rewrite lookup_empty. }
  split; try done.
  - intros s T k p Ht Hk. apply (Hold _ _ _ _ Ht) in Hk as Ht'. by eapply S1.
  - intros s1 s2 T1 T2 k1 k2 p H1 H2 H3 H4. apply (Hold _ _ _ _ H1) in H2 as H1'. apply (Hold _ _ _ _ H3) in H4 as H3'. by eapply S2.
  - intros L os t k p Hl Hk. destruct (S3 _ _ _ _ _ Hl Hk) as (s & T & -> & H1 & H2). exists s, T. split_and!; [done| |done].
    rewrite Et, decide_False; [done|]. congruence.
  - intros p Hp. destruct (S5 p Hp) as [? Hnt]. split; [done|]. intros s T k H1 H2. apply (Hold _ _ _ _ H1) in H2 as H1'. by eapply Hnt.
Qed.
End shelf.
