(* ===== verification/AwareShelf.v ===== *)
(** * The awareness service: its shelves in the memory

    The entries of a service are shared by its lists, and so are the entries
    of the attributes that are watched: both are shelves ([Shelf]).  What the
    invariant of the service says of the blocks, and the steps on them that
    keep it. *)

From S2P Require Import Prelude Buffer Common Message Framing World Util Rc2 Cipher Service Session.
From S2P Require Import Channel Aware Dispatch Frame Delivery Protocol ChannelSpec Shelf.
#[local] Open Scope Z_scope.
#[local] Open Scope mw_scope.

(** ** What there is of a block *)

Definition view {A B} `{Object A} (f : A -> B) (h : gmap Z object) (p : Z) : option B :=
  f <$> (h !! p ≫= obj_out).

Section view.
Context {A B : Type} `{OA : Object A} (f : A -> B).

Lemma view_some h p a : h !! p = Some (obj_in a) -> view f h p = Some (f a).
Proof. intros Hp. unfold view. rewrite Hp. cbn. by rewrite obj_in_out. Qed.

Lemma view_inv h p b : view f h p = Some b -> exists a, h !! p = Some (obj_in a) /\ b = f a.
Proof.
  unfold view. intros (a & Ha & ->)%fmap_Some. apply bind_Some in Ha as (o & Ho & Ha).
  apply obj_out_in in Ha as ->. by exists a.
Qed.

Lemma view_insert h p o q : view f (<[p := o]> h) q = if decide (q = p) then f <$> obj_out o else view f h q.
Proof.
  unfold view. destruct (decide (q = p)) as [->|Hne]; [by rewrite lookup_insert_eq|by rewrite lookup_insert_ne by done].
Qed.

Lemma view_delete h p q : view f (delete p h) q = if decide (q = p) then None else view f h q.
Proof.
  unfold view. destruct (decide (q = p)) as [->|Hne]; [by rewrite lookup_delete_eq|by rewrite lookup_delete_ne by done].
Qed.

Lemma view_at h p o : h !! p = Some o -> view f h p = f <$> obj_out o.
Proof. intros Hp. unfold view. by rewrite Hp. Qed.

Lemma view_none h p : h !! p = None -> view f h p = None.
Proof. intros Hp. unfold view. by rewrite Hp. Qed.

(** A block replaced by one that looks the same. *)
Lemma view_same h p o o' q : h !! p = Some o -> f <$> obj_out o' = f <$> obj_out o ->
  view f (<[p := o']> h) q = view f h q.
Proof. intros Hp E. rewrite view_insert. destruct (decide (q = p)) as [->|]; [|done]. by rewrite (view_at _ _ _ Hp). Qed.
End view.

(** ** Shelves in the memory *)

(** [K] are the keys of the entries [N]. *)
Class Shelved (K N : Type) `{Countable K} {ON : Object N} := {
  sv_key : N -> K;
  sv_members : N -> list Z;
  sv_table : mwServiceAware -> option (gmap K Z);
  sv_own : mwAwareList -> table (gmap K Z);
  sv_not_service n : @obj_out mwServiceAware _ (obj_in n) = None;
  sv_not_list n : @obj_out mwAwareList _ (obj_in n) = None;
  sv_service_not (s : mwServiceAware) : @obj_out N _ (obj_in s) = None;
  sv_list_not (l : mwAwareList) : @obj_out N _ (obj_in l) = None;
}.

#[export] Instance entry_shelved : Shelved mwAwareIdBlock aware_entry := {
  sv_key e := as_id (ae_aware e); sv_members e := (ae_membership e).*2; sv_table := aw_entries; sv_own := al_entries;
  sv_not_service n := eq_refl; sv_not_list n := eq_refl; sv_service_not s := eq_refl; sv_list_not l := eq_refl }.
#[export] Instance watch_shelved : Shelved Z attrib_entry := {
  sv_key := we_key; sv_members := we_membership; sv_table := aw_attribs; sv_own := al_attribs;
  sv_not_service n := eq_refl; sv_not_list n := eq_refl; sv_service_not s := eq_refl; sv_list_not l := eq_refl }.

Definition own {K} `{Countable K} (t : table (gmap K Z)) : gmap K Z := match t with Table t => t | _ => ∅ end.

Section shelved.
Context (K N : Type) `{SV : Shelved K N}.

Definition table_of (s : mwServiceAware) : gmap K Z := default ∅ (sv_table s).
Definition list_of (l : mwAwareList) : option Z * gmap K Z := (al_service l, own (sv_own l)).
Definition node_of (n : N) : K * list Z := (sv_key n, sv_members n).

Definition shelved (D : list Z) (h : gmap Z object) : Prop :=
  shelf D (view table_of h) (view list_of h) (view node_of h).
End shelved.

(** The attributes of an entry are its own. *)
Record attrs_ok (h : gmap Z object) : Prop := {
  ao_key p t k q : view ae_attribs h p = Some t -> t !! k = Some q -> view at_key h q = Some k;
  ao_one p p' t t' k k' q : view ae_attribs h p = Some t -> t !! k = Some q ->
    view ae_attribs h p' = Some t' -> t' !! k' = Some q -> p' = p;
}.

Definition has_tables (s : mwServiceAware) : bool :=
  bool_decide (is_Some (aw_entries s)) && bool_decide (is_Some (aw_attribs s)).

(** No service has destroyed its tables. *)
Definition tables_ok (h : gmap Z object) : Prop := forall p b, view has_tables h p = Some b -> b = true.

Lemma tables_ok_ext h h' : (forall q, view has_tables h' q = view has_tables h q) -> tables_ok h -> tables_ok h'.
Proof. intros E H p b. rewrite E. apply H. Qed.

(** [D] and [D2] are the entries that are being freed; attributes are freed
    with nothing in between. *)
Record aware_inv2 (D D2 : list Z) (w : world) : Prop := {
  ai_below : heap_below w;
  ai_entries : shelved mwAwareIdBlock aware_entry D (w_heap w);
  ai_attribs : shelved Z attrib_entry D2 (w_heap w);
  ai_attrs : attrs_ok (w_heap w);
  ai_tables : tables_ok (w_heap w);
}.
Definition aware_inv (D : list Z) : world -> Prop := aware_inv2 D [].

#[export] Instance aware_heap D : HeapOnly (aware_inv D).
Proof.
  intros w w' Eh En [H1 H2 H3 H4 H5]. split; rewrite ?Eh; try done.
  intros q o Hq. rewrite Eh in Hq. apply H1 in Hq. lia.
Qed.

(** Whatever is being freed meanwhile. *)
Definition keeps_aware (A : Type) (m : M A) : Prop := forall D, kept (aware_inv D) A m.

#[export] Instance keeps_aware_frame : Frame keeps_aware.
Proof.
  split; intros; intros D; first
    [ apply fr_ret | by apply fr_bind; [|intros x; specialize (H0 x)] | apply fr_lift | apply fr_crash
    | by apply fr_session_get | by apply fr_session_set | apply fr_deref_channel | apply fr_deref_service
    | apply fr_deref_cipher | apply fr_channel_get | by apply fr_channel_set | apply fr_service_set
    | apply fr_cipher_set | apply fr_newIncoming | apply fr_chan_map_remove | apply fr_write | idtac ].
  apply fr_bind; [apply H|intros x; apply H0].
Qed.
#[export] Instance keeps_aware_full : FullFrame keeps_aware.
Proof.
  split; [apply _|intros st D|intros D|intros e D]; [apply ff_state|apply ff_buf|apply ff_log].
Qed.

Lemma keeps_aware_deref {A} `{Object A} p : has keeps_aware (@obj_deref A _ p).
Proof. intros D. apply kept_obj_deref. Qed.
Lemma keeps_aware_get {A B} `{Object A} p (f : A -> B) : has keeps_aware (obj_get p f).
Proof. intros D. apply kept_obj_get. Qed.
#[export] Hint Resolve keeps_aware_deref keeps_aware_get : mw_frame.
#[export] Hint Unfold keeps_aware : mw_frame.

(** ** Steps that change nothing of this *)

(** All that the invariant is about in a block. *)
Definition look (o : object) :=
  (table_of mwAwareIdBlock aware_entry <$> obj_out o, list_of mwAwareIdBlock aware_entry <$> obj_out o,
   node_of mwAwareIdBlock aware_entry <$> obj_out o,
   (table_of Z attrib_entry <$> obj_out o, list_of Z attrib_entry <$> obj_out o, node_of Z attrib_entry <$> obj_out o),
   (ae_attribs <$> obj_out o, at_key <$> obj_out o, has_tables <$> obj_out o)).

Lemma attrs_ok_ext h h' : (forall q, view ae_attribs h' q = view ae_attribs h q) ->
  (forall q, view at_key h' q = view at_key h q) -> attrs_ok h -> attrs_ok h'.
Proof. intros Ea Ek [H1 H2]. split; intros *; rewrite !Ea, ?Ek; eauto. Qed.

Lemma inv_same_look D w p o o' : aware_inv D w -> w_heap w !! p = Some o -> look o' = look o ->
  aware_inv D (set_w_heap (<[p := o']> (w_heap w)) w).
Proof.
  intros [H1 H2 H3 H4 H5] Hp [= E1 E2 E3 E4 E5 E6 E7 E8 E9]. split; cbn.
  - apply (below_insert w); [done|by eexists].
  - apply (shelf_ext _ _ _ _ H2); intros q; by eapply view_same.
  - apply (shelf_ext _ _ _ _ H3); intros q; by eapply view_same.
  - eapply attrs_ok_ext; [intros q; by eapply view_same..|done].
  - eapply tables_ok_ext; [intros q; by eapply view_same|done].
Qed.

Lemma keeps_same_look {A} `{Object A} p (f : A -> A) :
  (forall a, look (obj_in (f a)) = look (obj_in a)) -> has keeps_aware (obj_set p f).
Proof.
  intros Hf D w [] w' I (a & Ha & ->)%obj_set_inv. by eapply inv_same_look.
Qed.

Lemma keeps_aw_lists p f : has keeps_aware (obj_set p (fun s => set_aw_lists (f s) s)).
Proof. by apply keeps_same_look. Qed.
Lemma keeps_aw_channel p v : has keeps_aware (obj_set p (set_aw_channel v)).
Proof. by apply keeps_same_look. Qed.
Lemma keeps_al_handler p v : has keeps_aware (obj_set p (set_al_handler v)).
Proof. by apply keeps_same_look. Qed.
Lemma keeps_al_client_data p v : has keeps_aware (obj_set p (set_al_client_data v)).
Proof. by apply keeps_same_look. Qed.
Lemma keeps_at_data p v : has keeps_aware (obj_set p (set_at_data v)).
Proof. by apply keeps_same_look. Qed.
(** A table is made for a list that has none. *)
Lemma keeps_make_entries p : has keeps_aware (obj_set p make_entries).
Proof. apply keeps_same_look. intros []. unfold make_entries. cbn. by destruct al_entries. Qed.
Lemma keeps_make_attribs p : has keeps_aware (obj_set p make_attribs).
Proof. apply keeps_same_look. intros []. unfold make_attribs. cbn. by destruct al_attribs. Qed.
#[export] Hint Resolve keeps_aw_lists keeps_aw_channel keeps_al_handler keeps_al_client_data keeps_at_data
  keeps_make_entries keeps_make_attribs : mw_frame.

(** ** Steps on a shelf *)

Section steps.
Context {K N : Type} `{SV : Shelved K N}.
Context (D : list Z) (h : gmap Z object) (I : shelved K N D h).

Lemma list_not_node p (l : mwAwareList) (n : N) q :
  h !! p = Some (ObjAwareList l) -> h !! q = Some (obj_in n) -> p <> q.
Proof.
  intros Hp Hq ->. rewrite Hp in Hq. injection Hq as E. pose proof (sv_list_not l) as Ho.
  change (obj_in l) with (ObjAwareList l) in Ho. by rewrite E, obj_in_out in Ho.
Qed.

Lemma node_as_service (n : N) : table_of K N <$> obj_out (obj_in n) = None.
Proof. by rewrite sv_not_service. Qed.
Lemma node_as_list (n : N) : list_of K N <$> obj_out (obj_in n) = None.
Proof. by rewrite sv_not_list. Qed.
Lemma node_as_node (n : N) : node_of K N <$> obj_out (obj_in n) = Some (node_of K N n).
Proof. by rewrite obj_in_out. Qed.
Lemma list_as_list l : list_of K N <$> obj_out (ObjAwareList l) = Some (list_of K N l).
Proof. done. Qed.
Lemma list_as_service l : table_of K N <$> obj_out (ObjAwareList l) = None.
Proof. done. Qed.
Lemma list_as_node l : node_of K N <$> obj_out (ObjAwareList l) = None.
Proof. pose proof (sv_list_not l) as E. cbn in E. by rewrite E. Qed.
Lemma service_as_service s : table_of K N <$> obj_out (ObjAwareService s) = Some (table_of K N s).
Proof. done. Qed.
Lemma service_as_list s : list_of K N <$> obj_out (ObjAwareService s) = None.
Proof. done. Qed.
Lemma service_as_node s : node_of K N <$> obj_out (ObjAwareService s) = None.
Proof. pose proof (sv_service_not s) as E. cbn in E. by rewrite E. Qed.

(** The views after an assignment. *)
Ltac views :=
  let q := fresh "q" in intros q; rewrite ?view_insert, ?view_delete;
  repeat (case_decide; subst);
  rewrite ?node_as_service, ?node_as_list, ?node_as_node, ?list_as_list, ?list_as_service, ?list_as_node,
    ?service_as_service, ?service_as_list, ?service_as_node;
  repeat match goal with
    | H : ?h !! ?p = Some _ |- context [view _ ?h ?p] => rewrite (view_at _ _ _ _ H)
    end;
  rewrite ?node_as_service, ?node_as_list, ?node_as_node, ?list_as_list, ?list_as_service, ?list_as_node,
    ?service_as_service, ?service_as_list, ?service_as_node; try done; try congruence.

Lemma shelved_join srvc s t L l l' k p n n' :
  h !! srvc = Some (ObjAwareService s) -> table_of K N s !! k = Some p ->
  h !! L = Some (ObjAwareList l) -> list_of K N l = (Some srvc, t) -> t !! k = None ->
  list_of K N l' = (Some srvc, <[k := p]> t) ->
  h !! p = Some (obj_in n) -> sv_key n' = sv_key n -> sv_members n' ≡ₚ L :: sv_members n ->
  shelved K N D (<[L := ObjAwareList l']> (<[p := obj_in n']> h)).
Proof.
  intros Hs Hk HL Hl Ht Hl' Hp Hkey Hms.
  pose proof (view_some (table_of K N) h srvc s Hs) as Vt. pose proof (view_some (list_of K N) h L l HL) as Vl.
  pose proof (view_some (node_of K N) h p n Hp) as Vn. pose proof (list_not_node L l n p HL Hp) as HLp.
  assert (sv_key n = k) as Hn by exact (shelf_key _ _ _ _ I _ _ _ _ _ _ Vt Hk Vn). rewrite Hl in Vl.
  assert (node_of K N n = (k, sv_members n)) as En by (unfold node_of; by rewrite Hn). rewrite En in Vn.
  refine (shelf_ext _ _ _ _ (shelf_join _ _ _ _ I srvc _ L t k p (sv_members n) (sv_members n')
    (fun q => if decide (q = L) then Some (Some srvc, <[k := p]> t) else view (list_of K N) h q)
    (fun q => if decide (q = p) then Some (k, sv_members n') else view (node_of K N) h q)
    Vt Hk Vl Ht Vn Hms (fun q => eq_refl) (fun q => eq_refl)) _ _ _ _ _ _); views.
  unfold node_of. by rewrite Hkey.
Qed.

Lemma shelved_leave srvc t L l l' k p n n' :
  h !! L = Some (ObjAwareList l) -> list_of K N l = (Some srvc, t) -> t !! k = Some p ->
  list_of K N l' = (Some srvc, delete k t) ->
  h !! p = Some (obj_in n) -> sv_key n' = sv_key n -> sv_members n ≡ₚ L :: sv_members n' ->
  shelved K N D (<[L := ObjAwareList l']> (<[p := obj_in n']> h)).
Proof.
  intros HL Hl Ht Hl' Hp Hkey Hms. pose proof (view_some (list_of K N) h L l HL) as Vl.
  pose proof (view_some (node_of K N) h p n Hp) as Vn. pose proof (list_not_node L l n p HL Hp) as HLp. rewrite Hl in Vl.
  destruct (sh_list _ _ _ _ I _ _ _ _ _ Vl Ht) as (srvc' & T & [= <-] & Vt & Hk).
  assert (sv_key n = k) as Hn by exact (shelf_key _ _ _ _ I _ _ _ _ _ _ Vt Hk Vn).
  assert (node_of K N n = (k, sv_members n)) as En by (unfold node_of; by rewrite Hn). rewrite En in Vn.
  refine (shelf_ext _ _ _ _ (shelf_leave _ _ _ _ I srvc L t k p (sv_members n) (sv_members n')
    (fun q => if decide (q = L) then Some (Some srvc, delete k t) else view (list_of K N) h q)
    (fun q => if decide (q = p) then Some (k, sv_members n') else view (node_of K N) h q)
    Vl Ht Vn Hms (fun q => eq_refl) (fun q => eq_refl)) _ _ _ _ _ _); views.
  unfold node_of. by rewrite Hkey.
Qed.

Lemma shelved_new_node srvc s s' k p n :
  h !! srvc = Some (ObjAwareService s) -> table_of K N s !! k = None -> h !! p = None ->
  node_of K N n = (k, []) -> table_of K N s' = <[k := p]> (table_of K N s) ->
  shelved K N D (<[srvc := ObjAwareService s']> (<[p := obj_in n]> h)).
Proof.
  intros Hs Hk Hp En Hs'. pose proof (view_some (table_of K N) h srvc s Hs) as Vt. assert (srvc <> p) as Hne by congruence.
  assert (view (node_of K N) h p = None) as Vn by (unfold view; by rewrite Hp).
  refine (shelf_ext _ _ _ _ (shelf_new_node _ _ _ _ I srvc (table_of K N s) k p
    (fun q => if decide (q = srvc) then Some (<[k := p]> (table_of K N s)) else view (table_of K N) h q)
    (fun q => if decide (q = p) then Some (k, []) else view (node_of K N) h q)
    Vt Hk Vn (fun q => eq_refl) (fun q => eq_refl)) _ _ _ _ _ _); views.
  - unfold view. by rewrite Hp.
  - unfold view. by rewrite Hp.
Qed.

Lemma shelved_steal srvc s s' dead : h !! srvc = Some (ObjAwareService s) -> NoDup dead ->
  (forall p, p ∈ dead -> (exists k, table_of K N s !! k = Some p) /\ exists k, view (node_of K N) h p = Some (k, [])) ->
  table_of K N s' = filter (fun kv => kv.2 ∉ dead) (table_of K N s) ->
  shelved K N (dead ++ D) (<[srvc := ObjAwareService s']> h).
Proof.
  intros Hs Hnd Hdead Hs'. pose proof (view_some (table_of K N) h srvc s Hs) as Vt.
  refine (shelf_ext _ _ _ _ (shelf_steal _ _ _ _ I srvc (table_of K N s) dead
    (fun q => if decide (q = srvc) then Some (filter (fun kv => kv.2 ∉ dead) (table_of K N s)) else view (table_of K N) h q)
    Vt Hnd Hdead (fun q => eq_refl)) _ _ _ _ _ _); views.
Qed.

(** The lists in a block, which may be none. *)
Lemma shelved_set_list L l' : (forall o, h !! L = Some o -> exists l, o = ObjAwareList l /\ own (sv_own l) = ∅) ->
  own (sv_own l') = ∅ -> shelved K N D (<[L := ObjAwareList l']> h).
Proof.
  intros H1 H2.
  refine (shelf_ext _ _ _ _ (shelf_set_list _ _ _ _ I L (Some (list_of K N l'))
    (fun q => if decide (q = L) then Some (list_of K N l') else view (list_of K N) h q) _ _ (fun q => eq_refl)) _ _ _ _ _ _).
  - intros os t (l & Hl & [= -> ->])%view_inv. destruct (H1 _ Hl) as (l1 & [= <-] & E). done.
  - intros os t [= <- <-]. done.
  - views. unfold view. destruct (h !! L) as [o|]; [|done]. by destruct (H1 o eq_refl) as (l & -> & _).
  - views.
  - views. unfold view. destruct (h !! L) as [o|]; [|done]. destruct (H1 o eq_refl) as (l & -> & _). cbn [mbind option_bind].
    by rewrite list_as_node.
Qed.

Lemma shelved_free_list L l : h !! L = Some (ObjAwareList l) -> own (sv_own l) = ∅ -> shelved K N D (delete L h).
Proof.
  intros H1 H2. refine (shelf_ext _ _ _ _ (shelf_set_list _ _ _ _ I L None
    (fun q => if decide (q = L) then None else view (list_of K N) h q) _ _ (fun q => eq_refl)) _ _ _ _ _ _).
  - intros os t (l1 & Hl & [= -> ->])%view_inv. cbn in Hl. congruence.
  - done.
  - views.
  - views.
  - views.
Qed.
End steps.

Lemma shelved_free {K N} `{SV : Shelved K N} D h p n : shelved K N (p :: D) h -> h !! p = Some (obj_in n) ->
  shelved K N D (delete p h).
Proof.
  intros I Hp. refine (shelf_ext _ _ _ _ (shelf_free p _ _ _ _ (fun q => if decide (q = p) then None else view (node_of K N) h q) I
    (fun q => eq_refl)) _ _ _ _ _ _); intros q; rewrite view_delete; destruct (decide (q = p)) as [->|]; try done;
    rewrite (view_at _ _ _ _ Hp); by rewrite ?node_as_service, ?node_as_list.
Qed.

(** ** Steps of the service *)

(** The rest of what there is to see. *)
Ltac same_views :=
  let q := fresh "q" in intros q; rewrite ?view_insert, ?view_delete; repeat (case_decide; subst);
  repeat match goal with
    | H : ?h !! ?p = Some _ |- context [view _ ?h ?p] => rewrite (view_at _ _ _ _ H)
    | H : ?h !! ?p = None |- context [view _ ?h ?p] => rewrite (view_none _ _ _ H)
    end; try done.

Ltac rest_same :=
  lazymatch goal with
  | H : shelved ?K ?N ?D _ |- shelved ?K ?N ?D _ => apply (shelf_ext _ _ _ _ H); same_views
  | |- attrs_ok _ => eapply attrs_ok_ext; [..|eassumption]; same_views
  | |- tables_ok _ => eapply tables_ok_ext; [|eassumption]; same_views
  end.

(** No block but those that were there. *)
Ltac below_same :=
  apply below_sub; [done|]; intros ?;
  rewrite ?lookup_insert_is_Some, ?lookup_delete_is_Some; intros;
  repeat match goal with H : _ \/ _ |- _ => destruct H | H : _ /\ _ |- _ => destruct H end; subst; by eauto.

Lemma remove_link_perm l p : p ∈ l.*2 -> l.*2 ≡ₚ p :: (remove_link l p).*2.
Proof.
  induction l as [|[n q] l IH]; cbn [fmap list_fmap remove_link snd]; [by intros ?%not_elem_of_nil|].
  destruct (Z.eqb_spec q p) as [->|Hne]; [done|]. intros [->|Hp]%elem_of_cons; [done|]. cbn [fmap list_fmap snd].
  rewrite (IH Hp) at 1. constructor.
Qed.

Lemma g_list_remove_perm l p : p ∈ l -> l ≡ₚ p :: g_list_remove l p.
Proof.
  induction l as [|q l IH]; cbn [g_list_remove]; [by intros ?%not_elem_of_nil|].
  destruct (Z.eqb_spec q p) as [->|Hne]; [done|]. intros [->|Hp]%elem_of_cons; [done|].
  rewrite (IH Hp) at 1. constructor.
Qed.

Section service.
Context (D : list Z) (w : world) (I : aware_inv D w).

Lemma entry_join srvc s L l t k p e :
  w_heap w !! srvc = Some (ObjAwareService s) -> aw_entries s ≫= (.!! k) = Some p ->
  w_heap w !! L = Some (ObjAwareList l) -> al_service l = Some srvc -> al_entries l = Table t -> t !! k = None ->
  w_heap w !! p = Some (ObjAwareEntry e) ->
  aware_inv D (set_w_heap (<[L := ObjAwareList (set_al_entries (Table (<[k := p]> t)) l)]>
    (<[p := ObjAwareEntry (append_member L e)]> (w_heap w))) w).
Proof.
  intros Hs Hk HL Hls Hlt Ht Hp. destruct I as [H1 H2 H3 H4 H5]. assert (L <> p) as Hne by congruence. split; cbn [w_heap set_w_heap].
  - below_same.
  - refine (shelved_join (N := aware_entry) D _ H2 srvc s t L l _ k p e (append_member L e) Hs _ HL _ Ht _ Hp eq_refl _).
    + unfold table_of. cbn. destruct (aw_entries s); [done|by cbn in Hk].
    + unfold list_of. cbn. by rewrite Hls, Hlt.
    + unfold list_of. cbn. by rewrite Hls.
    + cbn. rewrite fmap_app. cbn. by rewrite Permutation_app_comm.
  - rest_same.
  - rest_same.
  - rest_same.
Qed.

Lemma entry_leave L l t k p :
  w_heap w !! L = Some (ObjAwareList l) -> own (al_entries l) = t -> t !! k = Some p ->
  exists e, w_heap w !! p = Some (ObjAwareEntry e)
    /\ aware_inv D (set_w_heap (<[L := ObjAwareList (set_al_entries (Table (delete k t)) l)]>
      (<[p := ObjAwareEntry (remove_member L e)]> (w_heap w))) w).
Proof.
  intros HL Hlt Ht. destruct I as [H1 H2 H3 H4 H5].
  pose proof (view_some (list_of mwAwareIdBlock aware_entry) _ L l HL) as Vl. unfold list_of in Vl. cbn in Vl. rewrite Hlt in Vl.
  destruct (sh_list _ _ _ _ H2 _ _ _ _ _ Vl Ht) as (srvc & T & Hls & Vt & Hk). rewrite Hls in Vl.
  destruct (sh_node _ _ _ _ H2 _ _ _ _ Vt Hk) as (ms & Vn & _ & Hm). apply view_inv in Vn as (e & Hp & [= -> ->]).
  cbn in Hp. exists e. split; [done|]. assert (L <> p) as Hne by congruence. split; cbn [w_heap set_w_heap].
  - below_same.
  - refine (shelved_leave (N := aware_entry) D _ H2 srvc t L l _ _ p e (remove_member L e) HL _ Ht _ Hp eq_refl _).
    + unfold list_of. cbn. by rewrite Hls, Hlt.
    + unfold list_of. cbn. by rewrite Hls.
    + cbn. apply remove_link_perm. apply Hm. by exists t.
  - rest_same.
  - rest_same.
  - rest_same.
Qed.

(** A block that is new, with the service that leads to it. *)
Lemma below_new srvc s' o : heap_below w -> is_Some (w_heap w !! srvc) ->
  heap_below (set_w_heap (<[srvc := s']> (<[w_next w := o]> (w_heap w))) (set_w_next (w_next w + 1) w)).
Proof.
  intros B Hs. apply (below_sub (set_w_next (w_next w + 1) (with_heap (<[w_next w := o]> (w_heap w)) w))); [by apply below_next|].
  intros q. cbn [w_heap set_w_next with_heap set_w_heap]. rewrite !lookup_insert_is_Some. intros [<-|[_ Hq]]; [|done].
  destruct (decide (w_next w = srvc)); [by left|by right].
Qed.

Lemma clone_id id : mwAwareIdBlock_clone id = id.
Proof. by destruct id. Qed.

Lemma entry_new srvc s id :
  w_heap w !! srvc = Some (ObjAwareService s) -> aw_entries s ≫= (.!! id) = None ->
  aware_inv D (set_w_heap (<[srvc := ObjAwareService (set_aw_entries (<[id := w_next w]> <$> aw_entries s) s)]>
    (<[w_next w := ObjAwareEntry (new_entry id)]> (w_heap w))) (set_w_next (w_next w + 1) w)).
Proof.
  intros Hs Hk. destruct I as [H1 H2 H3 H4 H5]. pose proof (below_fresh w H1) as Hp. assert (srvc <> w_next w) as Hne by congruence.
  pose proof (H5 srvc _ (view_some has_tables _ _ s Hs)) as Hts. apply andb_true_iff in Hts as [Hte _].
  apply bool_decide_eq_true in Hte as [te Hte].
  split; cbn [w_heap set_w_heap set_w_next].
  - by apply below_new; [|eexists].
  - refine (shelved_new_node (N := aware_entry) D _ H2 srvc s _ id (w_next w) (new_entry id) Hs _ Hp _ _).
    + unfold table_of. cbn. by rewrite Hte in Hk |- *.
    + unfold node_of, new_entry. cbn. by rewrite clone_id.
    + unfold table_of. cbn. by rewrite Hte.
  - rest_same.
  - destruct H4 as [A1 A2].
    assert (forall q t', view ae_attribs (<[srvc := ObjAwareService (set_aw_entries (<[id := w_next w]> <$> aw_entries s) s)]>
      (<[w_next w := ObjAwareEntry (new_entry id)]> (w_heap w))) q = Some t' -> forall k r, t' !! k = Some r ->
      view ae_attribs (w_heap w) q = Some t') as Hva.
    { intros q t'. rewrite !view_insert. destruct (decide (q = srvc)); [done|]. destruct (decide (q = w_next w)); [|done].
      intros [= <-] k r. cbn. by rewrite lookup_empty. }
    split.
    + intros q t' k r Hq Hr. pose proof (A1 _ _ _ _ (Hva _ _ Hq _ _ Hr) Hr) as Hk'. rewrite !view_insert.
      destruct (decide (r = srvc)) as [->|]; [by rewrite (view_at _ _ _ _ Hs) in Hk'|].
      destruct (decide (r = w_next w)) as [->|]; [|done]. by rewrite (view_none _ _ _ Hp) in Hk'.
    + intros q q' t1 t2 k1 k2 r Hq Hr Hq' Hr'. by eapply (A2 _ _ _ _ _ _ _ (Hva _ _ Hq _ _ Hr) Hr (Hva _ _ Hq' _ _ Hr')).
  - eapply tables_ok_ext with (<[srvc := ObjAwareService s]> (w_heap w)); [|by rewrite insert_id].
    intros q. rewrite !view_insert. destruct (decide (q = srvc)) as [->|].
    + cbn. unfold has_tables. cbn. by rewrite Hte.
    + destruct (decide (q = w_next w)) as [->|]; [|done]. by rewrite (view_none _ _ _ Hp).
Qed.

(** The same for attributes. *)

Lemma watch_join srvc s L l t k p e :
  w_heap w !! srvc = Some (ObjAwareService s) -> aw_attribs s ≫= (.!! k) = Some p ->
  w_heap w !! L = Some (ObjAwareList l) -> al_service l = Some srvc -> al_attribs l = Table t -> t !! k = None ->
  w_heap w !! p = Some (ObjAttribEntry e) ->
  aware_inv D (set_w_heap (<[L := ObjAwareList (set_al_attribs (Table (<[k := p]> t)) l)]>
    (<[p := ObjAttribEntry (set_we_membership (L :: we_membership e) e)]> (w_heap w))) w).
Proof.
  intros Hs Hk HL Hls Hlt Ht Hp. destruct I as [H1 H2 H3 H4 H5]. assert (L <> p) as Hne by congruence. split; cbn [w_heap set_w_heap].
  - below_same.
  - rest_same.
  - refine (shelved_join (N := attrib_entry) [] _ H3 srvc s t L l _ k p e (set_we_membership (L :: we_membership e) e) Hs _ HL _ Ht _ Hp eq_refl _).
    + unfold table_of. cbn. destruct (aw_attribs s); [done|by cbn in Hk].
    + unfold list_of. cbn. by rewrite Hls, Hlt.
    + unfold list_of. cbn. by rewrite Hls.
    + done.
  - rest_same.
  - rest_same.
Qed.

Lemma watch_leave L l t k p :
  w_heap w !! L = Some (ObjAwareList l) -> own (al_attribs l) = t -> t !! k = Some p ->
  exists e, w_heap w !! p = Some (ObjAttribEntry e)
    /\ aware_inv D (set_w_heap (<[L := ObjAwareList (set_al_attribs (Table (delete k t)) l)]>
      (<[p := ObjAttribEntry (set_we_membership (g_list_remove (we_membership e) L) e)]> (w_heap w))) w).
Proof.
  intros HL Hlt Ht. destruct I as [H1 H2 H3 H4 H5].
  pose proof (view_some (list_of Z attrib_entry) _ L l HL) as Vl. unfold list_of in Vl. cbn in Vl. rewrite Hlt in Vl.
  destruct (sh_list _ _ _ _ H3 _ _ _ _ _ Vl Ht) as (srvc & T & Hls & Vt & Hk). rewrite Hls in Vl.
  destruct (sh_node _ _ _ _ H3 _ _ _ _ Vt Hk) as (ms & Vn & _ & Hm). apply view_inv in Vn as (e & Hp & [= -> ->]).
  cbn in Hp. exists e. split; [done|]. assert (L <> p) as Hne by congruence. split; cbn [w_heap set_w_heap].
  - below_same.
  - rest_same.
  - refine (shelved_leave (N := attrib_entry) [] _ H3 srvc t L l _ _ p e
      (set_we_membership (g_list_remove (we_membership e) L) e) HL _ Ht _ Hp eq_refl _).
    + unfold list_of. cbn. by rewrite Hls, Hlt.
    + unfold list_of. cbn. by rewrite Hls.
    + cbn. apply g_list_remove_perm. apply Hm. by exists t.
  - rest_same.
  - rest_same.
Qed.

Lemma watch_new srvc s k :
  w_heap w !! srvc = Some (ObjAwareService s) -> aw_attribs s ≫= (.!! k) = None ->
  aware_inv D (set_w_heap (<[srvc := ObjAwareService (set_aw_attribs (<[k := w_next w]> <$> aw_attribs s) s)]>
    (<[w_next w := ObjAttribEntry {| we_key := k; we_membership := [] |}]> (w_heap w))) (set_w_next (w_next w + 1) w)).
Proof.
  intros Hs Hk. destruct I as [H1 H2 H3 H4 H5]. pose proof (below_fresh w H1) as Hp. assert (srvc <> w_next w) as Hne by congruence.
  pose proof (H5 srvc _ (view_some has_tables _ _ s Hs)) as Hts. apply andb_true_iff in Hts as [_ Hte].
  apply bool_decide_eq_true in Hte as [te Hte].
  split; cbn [w_heap set_w_heap set_w_next].
  - by apply below_new; [|eexists].
  - rest_same.
  - refine (shelved_new_node (N := attrib_entry) [] _ H3 srvc s _ k (w_next w) {| we_key := k; we_membership := [] |} Hs _ Hp eq_refl _).
    + unfold table_of. cbn. by rewrite Hte in Hk |- *.
    + unfold table_of. cbn. by rewrite Hte.
  - rest_same.
  - eapply tables_ok_ext; [|exact H5]; same_views. cbn. unfold has_tables. cbn. by rewrite Hte.
Qed.

(** A new attribute of an entry, with an entry that leads to it. *)
Lemma attrib_new p e k d : w_heap w !! p = Some (ObjAwareEntry e) -> ae_attribs e !! k = None ->
  aware_inv D (set_w_heap (<[p := ObjAwareEntry (set_ae_attribs (<[k := w_next w]> (ae_attribs e)) e)]>
    (<[w_next w := ObjAttribute {| at_key := k; at_data := d |}]> (w_heap w))) (set_w_next (w_next w + 1) w)).
Proof.
  intros Hp Hk. destruct I as [H1 H2 H3 H4 H5]. pose proof (below_fresh w H1) as Hn. assert (p <> w_next w) as Hne by congruence.
  split; cbn [w_heap set_w_heap set_w_next].
  - by apply below_new; [|eexists].
  - rest_same.
  - rest_same.
  - destruct H4 as [A1 A2]. pose proof (view_some ae_attribs _ p e Hp) as Vp.
    assert (forall q t r k', view ae_attribs (w_heap w) q = Some t -> t !! k' = Some r -> r <> w_next w) as Hnew.
    { intros q t r k' Hq Hr ->. apply (A1 _ _ _ _ Hq) in Hr. by rewrite (view_none _ _ _ Hn) in Hr. }
    assert (forall q t r k', view ae_attribs (<[p := ObjAwareEntry (set_ae_attribs (<[k := w_next w]> (ae_attribs e)) e)]>
      (<[w_next w := ObjAttribute {| at_key := k; at_data := d |}]> (w_heap w))) q = Some t -> t !! k' = Some r ->
      (q = p /\ k' = k /\ r = w_next w) \/ (r <> w_next w /\ exists t0, view ae_attribs (w_heap w) q = Some t0 /\ t0 !! k' = Some r)) as Hold.
    { intros q t r k'. rewrite !view_insert. destruct (decide (q = p)) as [->|].
      - intros [= <-]. cbn. intros [[<- <-]|[_ Hr]]%lookup_insert_Some; [by left|right]. split; [by eapply Hnew|]. by exists (ae_attribs e).
      - destruct (decide (q = w_next w)); [done|]. intros Hq Hr. right. split; [by eapply Hnew|]. by exists t. }
    split.
    + intros q t k' r Hq Hr. rewrite !view_insert. destruct (Hold _ _ _ _ Hq Hr) as [(-> & -> & ->)|(Hr1 & t0 & Hq0 & Hr0)].
      * rewrite decide_False, decide_True by done. done.
      * pose proof (A1 _ _ _ _ Hq0 Hr0) as Hv. destruct (decide (r = p)) as [->|]; [by rewrite (view_at _ _ _ _ Hp) in Hv|].
        by rewrite decide_False.
    + intros q q' t t' k1 k2 r Hq Hr Hq' Hr'.
      destruct (Hold _ _ _ _ Hq Hr) as [(-> & _ & ->)|(Hr1 & t0 & Hq0 & Hr0)],
        (Hold _ _ _ _ Hq' Hr') as [(-> & _ & Hr2)|(Hr2 & t0' & Hq0' & Hr0')]; [done|done|done|].
      by eapply (A2 _ _ _ _ _ _ _ Hq0 Hr0 Hq0' Hr0').
  - rest_same.
Qed.

(** An attribute goes, and its entry forgets it. *)
Lemma attrib_drop p e k q : w_heap w !! p = Some (ObjAwareEntry e) -> ae_attribs e !! k = Some q ->
  (exists a, w_heap w !! q = Some (ObjAttribute a))
  /\ aware_inv D (set_w_heap (<[p := ObjAwareEntry (set_ae_attribs (delete k (ae_attribs e)) e)]> (delete q (w_heap w))) w).
Proof.
  intros Hp Hk. destruct I as [H1 H2 H3 H4 H5]. pose proof H4 as [A1 A2]. pose proof (view_some ae_attribs _ p e Hp) as Vp.
  pose proof (A1 _ _ _ _ Vp Hk) as Vq. apply view_inv in Vq as (a & Hq & Ea). cbn in Hq. split; [by exists a|].
  assert (p <> q) as Hne by congruence. split; cbn [w_heap set_w_heap].
  - apply below_sub; [done|]. intros r. rewrite lookup_insert_is_Some, lookup_delete_is_Some. intros [<-|[_ [_ Hr]]]; by eauto.
  - rest_same.
  - rest_same.
  - assert (forall r t k' q', view ae_attribs (<[p := ObjAwareEntry (set_ae_attribs (delete k (ae_attribs e)) e)]>
      (delete q (w_heap w))) r = Some t -> t !! k' = Some q' ->
      q' <> q /\ exists t0, view ae_attribs (w_heap w) r = Some t0 /\ t0 !! k' = Some q') as Hold.
    { intros r t k' q'. rewrite view_insert, view_delete. destruct (decide (r = p)) as [->|].
      - intros [= <-]. cbn. intros [Hk' Hr]%lookup_delete_Some. split; [|by exists (ae_attribs e)]. intros ->.
        pose proof (A1 _ _ _ _ Vp Hk). pose proof (A1 _ _ _ _ Vp Hr). congruence.
      - destruct (decide (r = q)); [done|]. intros Hr Hq'. split; [|by exists t]. intros ->.
        by pose proof (A2 _ _ _ _ _ _ _ Vp Hk Hr Hq'). }
    split.
    + intros r t k' q' Hr Hq'. destruct (Hold _ _ _ _ Hr Hq') as (Hne' & t0 & Hr0 & Hq0).
      pose proof (A1 _ _ _ _ Hr0 Hq0) as Hv. rewrite view_insert, view_delete.
      destruct (decide (q' = p)) as [->|]; [by rewrite (view_at _ _ _ _ Hp) in Hv|]. by rewrite decide_False.
    + intros r r' t t' k1 k2 q' Hr Hq1 Hr' Hq2. destruct (Hold _ _ _ _ Hr Hq1) as (_ & t0 & Hr0 & Hq0),
        (Hold _ _ _ _ Hr' Hq2) as (_ & t1 & Hr1 & Hq1'). by eapply (A2 _ _ _ _ _ _ _ Hr0 Hq0 Hr1 Hq1').
  - rest_same.
Qed.
End service.

(** ** Going through a table *)

Lemma values_cons {K} `{Countable K} (t : gmap K Z) q vs : q :: vs ≡ₚ (map_to_list t).*2 ->
  exists k, t !! k = Some q /\ vs ≡ₚ (map_to_list (delete k t)).*2.
Proof.
  intros Hp. assert (q ∈ (map_to_list t).*2) as Hq by (rewrite <- Hp; left).
  apply list_elem_of_fmap in Hq as ([k q'] & -> & Hk%elem_of_map_to_list). exists k. split; [done|].
  rewrite <- (insert_id t k q' Hk), <- insert_delete_eq, map_to_list_insert in Hp by apply lookup_delete_eq.
  cbn in Hp. by apply Permutation_cons_inv in Hp.
Qed.

Lemma values_nil {K} `{Countable K} (t : gmap K Z) : [] ≡ₚ (map_to_list t).*2 -> t = ∅.
Proof.
  intros Hp%Permutation_nil. apply fmap_nil_inv in Hp. by apply map_to_list_empty_iff in Hp.
Qed.

(** The world in which the table in the block [X] is smaller than it is. *)
Definition virt (X : Z) (o : object) (w : world) : world := set_w_heap (<[X := o]> (w_heap w)) w.

(** A function is called on the values of a table in the block [X], which
    itself does not change; after each the world is as if the value had left
    the table. *)
Lemma drain {K} `{Countable K} (J : world -> Prop) X o (mk : gmap K Z -> object) (f : Z -> M unit) :
  (forall t k q w w', w_heap w !! X = Some o -> J (virt X (mk t) w) -> t !! k = Some q -> f q w = Some (tt, w') ->
    w_heap w' !! X = Some o /\ J (virt X (mk (delete k t)) w')) ->
  forall vs t w w', vs ≡ₚ (map_to_list t).*2 -> w_heap w !! X = Some o -> J (virt X (mk t) w) ->
  for_each f vs w = Some (tt, w') -> w_heap w' !! X = Some o /\ J (virt X (mk ∅) w').
Proof.
  intros Hf vs. induction vs as [|q vs IH]; intros t w w' Hvs HX HJ E; cbn [for_each] in E.
  - injection E as <-. apply values_nil in Hvs as ->. done.
  - apply bind_inv in E as ([] & w1 & Eq & E). apply values_cons in Hvs as (k & Hk & Hvs).
    destruct (Hf _ _ _ _ _ HX HJ Hk Eq) as [HX1 HJ1]. by eapply IH.
Qed.

Lemma kmap_values {K} `{Countable K} (f : K -> Z) `{!Inj (=) (=) f} (t : gmap K Z) :
  (map_to_list (kmap (M2 := gmap Z) f t)).*2 ≡ₚ (map_to_list t).*2.
Proof.
  rewrite (map_to_list_kmap (M1 := gmap K) (M2 := gmap Z) f t). rewrite <- list_fmap_compose. done.
Qed.

Lemma id_values_perm E t : lists_tables E -> id_values E t ≡ₚ (map_to_list t).*2.
Proof.
  intros HE. etrans; [apply HE|]. apply kmap_values. intros a b Hab. by apply (inj encode); injection Hab.
Qed.
