(* ===== verification/AwareSpec.v ===== *)
(** * The awareness service: its invariant

    Whatever the client and the server do, the tables of the lists, that of
    the service and the memberships in the entries agree. *)

From S2P Require Import Prelude Buffer Common Message Framing World Util Rc2 Cipher Service Session.
From S2P Require Import Channel Aware Dispatch Frame Owned Delivery Protocol ChannelSpec Shelf AwareShelf.
#[local] Open Scope Z_scope.
#[local] Open Scope mw_scope.

(** ** The functions of the service *)

Lemma list_service_inv L w srvc w' : list_service L w = Some (srvc, w') ->
  w' = w /\ exists l, w_heap w !! L = Some (ObjAwareList l) /\ al_service l = Some srvc.
Proof.
  unfold list_service. intros (s & w1 & (-> & l & Hl & ->)%obj_get_inv & El)%bind_inv.
  destruct (al_service l) as [s|] eqn:Es; [|done]. injection El as -> ->. split; [done|by exists l].
Qed.

Lemma id_lookup_inv t id w r w' : id_lookup t id w = Some (r, w') -> w' = w /\ r = t !! id.
Proof. unfold id_lookup. destruct (ai_user id); [|done]. by intros [= <- <-]. Qed.

Lemma aware_find_inv srvc id w r w' : aware_find srvc id w = Some (r, w') ->
  w' = w /\ exists s, w_heap w !! srvc = Some (ObjAwareService s) /\ r = aw_entries s ≫= (.!! id).
Proof.
  unfold aware_find. intros (t & w1 & (-> & s & Hs & ->)%obj_get_inv & El)%bind_inv.
  destruct (aw_entries s) as [t|] eqn:Et.
  - apply id_lookup_inv in El as [-> ->]. split; [done|]. exists s. by rewrite Et.
  - injection El as <- <-. split; [done|]. exists s. by rewrite Et.
Qed.

Lemma list_aware_find_inv L id w r w' : list_aware_find L id w = Some (r, w') ->
  w' = w /\ exists l, w_heap w !! L = Some (ObjAwareList l) /\
    ((al_entries l = TableNull /\ r = None) \/ exists t, al_entries l = Table t /\ r = t !! id).
Proof.
  unfold list_aware_find. intros (t & w1 & (-> & l & Hl & ->)%obj_get_inv & El)%bind_inv.
  destruct (al_entries l) as [|t|] eqn:Et; [| |done].
  - injection El as <- <-. split; [done|]. exists l. eauto.
  - apply id_lookup_inv in El as [-> ->]. split; [done|]. exists l. eauto.
Qed.

Lemma watch_lookup_inv L k w r w' : watch_lookup L k w = Some (r, w') ->
  w' = w /\ exists l, w_heap w !! L = Some (ObjAwareList l) /\
    ((al_attribs l = TableNull /\ r = None) \/ exists t, al_attribs l = Table t /\ r = t !! k).
Proof.
  unfold watch_lookup. intros (t & w1 & (-> & l & Hl & ->)%obj_get_inv & El)%bind_inv.
  destruct (al_attribs l) as [|t|] eqn:Et; injection El as <- <- || done; (split; [done|]; exists l; eauto).
Qed.

(** What a table of a service leads to. *)
Lemma inv_entry D w srvc s k p : aware_inv D w -> w_heap w !! srvc = Some (ObjAwareService s) ->
  aw_entries s ≫= (.!! k) = Some p -> exists e, w_heap w !! p = Some (ObjAwareEntry e) /\ as_id (ae_aware e) = k.
Proof.
  intros [_ H2 _ _ _] Hs Hk. pose proof (view_some (table_of mwAwareIdBlock aware_entry) _ srvc s Hs) as Vt.
  destruct (sh_node _ _ _ _ H2 srvc (table_of mwAwareIdBlock aware_entry s) k p Vt) as (ms & Vn & _).
  { unfold table_of. cbn. destruct (aw_entries s); [done|by cbn in Hk]. }
  apply view_inv in Vn as (e & Hp & [= Ek _]). by exists e.
Qed.
Lemma inv_watch D w srvc s k p : aware_inv D w -> w_heap w !! srvc = Some (ObjAwareService s) ->
  aw_attribs s ≫= (.!! k) = Some p -> exists e, w_heap w !! p = Some (ObjAttribEntry e) /\ we_key e = k.
Proof.
  intros [_ _ H3 _ _] Hs Hk. pose proof (view_some (table_of Z attrib_entry) _ srvc s Hs) as Vt.
  destruct (sh_node _ _ _ _ H3 srvc (table_of Z attrib_entry s) k p Vt) as (ms & Vn & _).
  { unfold table_of. cbn. destruct (aw_attribs s); [done|by cbn in Hk]. }
  apply view_inv in Vn as (e & Hp & [= Ek _]). by exists e.
Qed.

(** A new id comes to a list. *)
Lemma join_list D w L l t id srvc s p w1 w2 : aware_inv D w -> w_heap w !! L = Some (ObjAwareList l) ->
  al_service l = Some srvc -> al_entries l = Table t -> t !! id = None ->
  w_heap w !! srvc = Some (ObjAwareService s) -> aw_entries s ≫= (.!! id) = Some p ->
  obj_set p (append_member L) w = Some (tt, w1) ->
  obj_set L (insert_entry id p) w1
    = Some (tt, w2) -> aware_inv D w2.
Proof.
  intros I HL Hls Hlt Ht Hs Hk (e & Hp & ->)%obj_set_inv (l' & HL' & ->)%obj_set_inv. cbn in Hp, HL'.
  assert (L <> p) as Hne by congruence. rewrite lookup_insert_ne in HL' by done. assert (l' = l) as -> by congruence.
  unfold insert_entry. rewrite Hlt. exact (entry_join D w I srvc s L l t id p e Hs Hk HL Hls Hlt Ht Hp).
Qed.

Lemma keeps_list_add L id : has keeps_aware (list_add L id).
Proof.
  unfold list_add. destruct (ai_user id) as [[|x u]|]; [apply fr_ret| |apply fr_ret].
  intros D w a w' I (srvc & w1 & (-> & l0 & HL0 & Hls0)%list_service_inv & E0)%bind_inv.
  apply bind_inv in E0 as ([] & w1 & Es & E0). pose proof (keeps_make_entries L D w tt w1 I Es) as I1.
  apply obj_set_inv in Es as (l1 & HL1 & ->). assert (l1 = l0) as -> by (cbn in HL1; congruence). clear HL1 I.
  set (w1 := set_w_heap _ _) in *.
  apply bind_inv in E0 as (r & w2 & (-> & l & HL & Hr)%list_aware_find_inv & E0).
  assert (al_service l = Some srvc /\ exists t, al_entries l = Table t /\ r = t !! id) as (Hls & t & Hlt & ->).
  { assert (l = make_entries l0) as ->.
    { unfold w1 in HL. cbn in HL. rewrite lookup_insert_eq in HL. by injection HL as <-. }
    unfold make_entries in *. destruct (al_entries l0) eqn:El; (split; [done|]); destruct Hr as [[? _]|Hr]; try done; congruence. }
  destruct (t !! id) as [p|] eqn:Ht; [by injection E0 as _ <-|]. clear Hr.
  apply bind_inv in E0 as (found & w2 & (-> & s & Hs & ->)%aware_find_inv & E0). clearbody w1. clear HL0 Hls0 l0.
  destruct (aw_entries s ≫= _) as [p|] eqn:Hk.
  - apply bind_inv in E0 as (p' & w2 & [= <- <-] & E0). apply bind_inv in E0 as ([] & w2 & Ea & E0).
    apply bind_inv in E0 as ([] & w3 & El & E0). injection E0 as _ <-.
    by eapply (join_list D w1 L l t id srvc s p w2 w3).
  - apply bind_inv in E0 as (p & w2 & Ep & E0). apply bind_inv in Ep as (p' & w3 & [= <- <-] & Ep).
    apply bind_inv in Ep as ([] & w3 & Es & [= <- <-]). apply obj_set_inv in Es as (s' & Hs' & ->). cbn in Hs'.
    pose proof (ai_below _ _ _ I1) as B. pose proof (below_fresh w1 B) as Hfresh.
    rewrite lookup_insert_ne in Hs' by congruence. assert (s' = s) as -> by congruence. clear Hs'.
    pose proof (entry_new D w1 I1 srvc s id Hs Hk) as I2.
    apply bind_inv in E0 as ([] & w2 & Ea & E0). apply bind_inv in E0 as ([] & w3 & El & E0). injection E0 as _ <-.
    pose proof (ai_tables _ _ _ I1 srvc _ (view_some has_tables _ _ s Hs)) as Hts. apply andb_true_iff in Hts as [Hte _].
    apply bool_decide_eq_true in Hte as [te Hte]. assert (L <> srvc) as HLs by congruence. assert (L <> w_next w1) as HLn by congruence.
    refine (join_list D _ L l t id srvc _ (w_next w1) w2 w3 I2 _ Hls Hlt Ht _ _ Ea El); cbn.
    + by rewrite !lookup_insert_ne.
    + by rewrite lookup_insert_eq.
    + cbn. rewrite Hte. cbn. by rewrite lookup_insert_eq.
Qed.
#[export] Hint Resolve keeps_list_add : mw_frame.

Lemma keeps_add_each L ids acc : has keeps_aware (add_each L ids acc).
Proof. revert acc. induction ids as [|id ids IH]; intros acc; cbn [add_each]; frame. Qed.
#[export] Hint Resolve keeps_add_each : mw_frame.

(** Attributes watched by a list. *)
Lemma join_watch D w L l t k srvc s p w1 w2 : aware_inv D w -> w_heap w !! L = Some (ObjAwareList l) ->
  al_service l = Some srvc -> al_attribs l = Table t -> t !! k = None ->
  w_heap w !! srvc = Some (ObjAwareService s) -> aw_attribs s ≫= (.!! k) = Some p ->
  obj_set L (insert_attrib k p) w
    = Some (tt, w1) ->
  obj_set p (fun e => set_we_membership (L :: we_membership e) e) w1 = Some (tt, w2) -> aware_inv D w2.
Proof.
  intros I HL Hls Hlt Ht Hs Hk (l' & HL' & ->)%obj_set_inv (e & Hp & ->)%obj_set_inv. cbn in Hp, HL'.
  assert (l' = l) as -> by congruence. unfold insert_attrib in *. rewrite Hlt in Hp |- *.
  destruct (decide (p = L)) as [->|Hne]; [by rewrite lookup_insert_eq in Hp|]. rewrite lookup_insert_ne in Hp by done.
  cbn. rewrite insert_insert_ne by done. exact (watch_join D w I srvc s L l t k p e Hs Hk HL Hls Hlt Ht Hp).
Qed.

Lemma keeps_watch_add L k : has keeps_aware (watch_add L k).
Proof.
  unfold watch_add. intros D w a w' I E0. apply bind_inv in E0 as ([] & w1 & Es & E0).
  pose proof (keeps_make_attribs L D w tt w1 I Es) as I1. apply obj_set_inv in Es as (l0 & HL0 & ->).
  set (w1 := set_w_heap _ _) in *.
  apply bind_inv in E0 as (r & w2 & (-> & l & HL & Hr)%watch_lookup_inv & E0).
  assert (exists t, al_attribs l = Table t /\ r = t !! k) as (t & Hlt & ->).
  { assert (l = make_attribs l0) as ->.
    { unfold w1 in HL. cbn in HL. rewrite lookup_insert_eq in HL. by injection HL as <-. }
    unfold make_attribs in *. destruct (al_attribs l0) eqn:El; destruct Hr as [[? _]|Hr]; try done; congruence. }
  destruct (t !! k) as [p|] eqn:Ht; [by injection E0 as _ <-|]. clear Hr.
  apply bind_inv in E0 as (srvc & w2 & (-> & l' & HL' & Hls)%list_service_inv & E0). assert (l' = l) as -> by congruence.
  apply bind_inv in E0 as (a0 & w2 & (-> & s & Hs & ->)%obj_get_inv & E0). change (w_heap w1 !! srvc = Some (ObjAwareService s)) in Hs. clearbody w1. clear HL0 HL'. destruct a.
  destruct (aw_attribs s ≫= _) as [p|] eqn:Hk.
  - apply bind_inv in E0 as (p' & w2 & [= <- <-] & E0). apply bind_inv in E0 as ([] & w2 & Ea & E0).
    by eapply (join_watch D w1 L l t k srvc s p w2 w').
  - apply bind_inv in E0 as (p & w2 & Ep & E0). apply bind_inv in Ep as (p' & w3 & [= <- <-] & Ep).
    apply bind_inv in Ep as ([] & w3 & Es & [= <- <-]). apply obj_set_inv in Es as (s' & Hs' & ->). cbn in Hs'.
    pose proof (ai_below _ _ _ I1) as B. pose proof (below_fresh w1 B) as Hfresh.
    rewrite lookup_insert_ne in Hs' by congruence. assert (s' = s) as -> by congruence. clear Hs'.
    pose proof (watch_new D w1 I1 srvc s k Hs Hk) as I2. apply bind_inv in E0 as ([] & w2 & Ea & E0).
    pose proof (ai_tables _ _ _ I1 srvc _ (view_some has_tables _ _ s Hs)) as Hts. apply andb_true_iff in Hts as [_ Hte].
    apply bool_decide_eq_true in Hte as [te Hte]. assert (L <> srvc) as HLs by congruence. assert (L <> w_next w1) as HLn by congruence.
    refine (join_watch D _ L l t k srvc _ (w_next w1) w2 w' I2 _ Hls Hlt Ht _ _ Ea E0); cbn.
    + by rewrite !lookup_insert_ne.
    + by rewrite lookup_insert_eq.
    + cbn. rewrite Hte. cbn. by rewrite lookup_insert_eq.
Qed.
#[export] Hint Resolve keeps_watch_add : mw_frame.

Lemma keeps_watch_remove L k : has keeps_aware (watch_remove L k).
Proof.
  unfold watch_remove. intros D w a w' I E0. apply bind_inv in E0 as (r & w1 & (-> & l & HL & Hr)%watch_lookup_inv & E0).
  destruct r as [p|]; [|by injection E0 as _ <-]. destruct Hr as [[_ ?]|(t & Hlt & Ht)]; [done|].
  apply bind_inv in E0 as ([] & w1 & (l' & HL' & ->)%obj_set_inv & E0). destruct a. cbn in HL'. assert (l' = l) as -> by congruence.
  apply obj_set_inv in E0 as (e & Hp & ->). unfold delete_attrib in *. rewrite Hlt in Hp |- *. cbn in Hp.
  destruct (decide (p = L)) as [->|Hne]; [by rewrite lookup_insert_eq in Hp|]. rewrite lookup_insert_ne in Hp by done.
  destruct (watch_leave D w I L l t k p HL) as (e' & Hp' & I'); [by rewrite Hlt|done|].
  assert (e' = e) as -> by congruence. cbn. by rewrite insert_insert_ne.
Qed.
#[export] Hint Resolve keeps_watch_remove : mw_frame.

Lemma keeps_remove_each L ids : has keeps_aware (remove_each L ids).
Proof.
  induction ids as [|id ids IH]; cbn [remove_each]; [apply fr_ret|].
  intros D w a w' I E0. apply bind_inv in E0 as (r & w1 & (-> & l & HL & Hr)%list_aware_find_inv & E0).
  apply bind_inv in E0 as ([] & w1 & Es & E0). apply (IH D w1 a w'); [|exact E0]. clear E0.
  destruct r as [p|]; [|by injection Es as <-]. destruct Hr as [[_ ?]|(t & Hlt & Ht)]; [done|].
  apply bind_inv in Es as ([] & w2 & (e & Hp & ->)%obj_set_inv & (l' & HL' & ->)%obj_set_inv). cbn in Hp, HL'.
  assert (L <> p) as Hne by congruence. rewrite lookup_insert_ne in HL' by done. assert (l' = l) as -> by congruence. clear HL'.
  destruct (entry_leave D w I L l t id p HL) as (e' & Hp' & I'); [by rewrite Hlt|done|].
  assert (e' = e) as -> by congruence. cbn. unfold delete_entry. by rewrite Hlt.
Qed.
#[export] Hint Resolve keeps_remove_each : mw_frame.

(** ** What is freed *)

Lemma attrib_free_inv q w w' : attrib_free q w = Some (tt, w') ->
  (exists a, w_heap w !! q = Some (ObjAttribute a)) /\ w' = set_w_heap (delete q (w_heap w)) w.
Proof.
  unfold attrib_free. intros (a & w1 & (-> & Hq)%obj_deref_inv & Ef)%bind_inv. apply free_object_inv in Ef as [_ ->]. by eauto.
Qed.

Lemma virt_self D X o w : w_heap w !! X = Some o -> aware_inv D w -> aware_inv D (virt X o w).
Proof. intros HX I. unfold virt. rewrite (insert_id _ _ _ HX). by destruct w. Qed.

Section frees.
Context (E : Env) (HE : lists_tables E).

(** An entry that was taken out of the table goes with its attributes. *)
Lemma aware_entry_free_inv D p w w' : aware_inv (p :: D) w -> aware_entry_free E p w = Some (tt, w') -> aware_inv D w'.
Proof.
  intros I E0. unfold aware_entry_free in E0. apply bind_inv in E0 as (e & w1 & (-> & Hp)%obj_deref_inv & E0). cbn in Hp.
  apply bind_inv in E0 as ([] & w1 & Ea & E0). apply free_object_inv in E0 as [_ ->].
  destruct (drain (aware_inv (p :: D)) p (ObjAwareEntry e) (fun t => ObjAwareEntry (set_ae_attribs t e)) attrib_free) with
    (vs := e_values E Z (ae_attribs e)) (t := ae_attribs e) (w := w) (w' := w1) as [Hp1 I1]; [|apply HE|done| |done|].
  - clear. intros t k q w w' Hp I Hk [(a & Hq) ->]%attrib_free_inv. assert (p <> q) as Hne by congruence.
    cbn. rewrite lookup_delete_ne by done. split; [done|].
    destruct (attrib_drop _ _ I p (set_ae_attribs t e) k q) as [_ I']; [apply lookup_insert_eq|done|].
    unfold virt in I'. cbn in I'. unfold virt. cbn. by rewrite delete_insert_ne, insert_insert_eq in I' by done.
  - apply virt_self; [by destruct e|done].
  - destruct I1 as [H1 H2 H3 H4 H5]. cbn in *. split; cbn.
    + apply below_sub; [|by intros q Hq%lookup_delete_is_Some; apply Hq].
      intros q o Hq. cbn. destruct (decide (q = p)) as [->|Hne]; [apply (H1 p _ ltac:(apply lookup_insert_eq))|].
      apply (H1 q o). cbn. by rewrite lookup_insert_ne.
    + eapply shelved_free in H2; [|apply lookup_insert_eq]. by rewrite delete_insert_eq in H2.
    + rewrite <- (delete_insert_eq (w_heap w1) p (ObjAwareEntry (set_ae_attribs ∅ e))).
      apply (shelf_ext _ _ _ _ H3); intros q; rewrite view_delete; destruct (decide (q = p)) as [->|]; try done;
        by rewrite view_insert, decide_True.
    + rewrite <- (delete_insert_eq (w_heap w1) p (ObjAwareEntry (set_ae_attribs ∅ e))). destruct H4 as [A1 A2].
      assert (forall q t, view ae_attribs (delete p (<[p := ObjAwareEntry (set_ae_attribs ∅ e)]> (w_heap w1))) q = Some t ->
        view ae_attribs (<[p := ObjAwareEntry (set_ae_attribs ∅ e)]> (w_heap w1)) q = Some t) as Hv.
      { intros q t. rewrite view_delete. by destruct (decide (q = p)). }
      split.
      * intros q t k r Hq%Hv Hr. pose proof (A1 _ _ _ _ Hq Hr) as Hk. rewrite view_delete. destruct (decide (r = p)) as [->|]; [|done].
        by rewrite view_insert, decide_True in Hk.
      * intros q q' t t' k k' r Hq%Hv Hr Hq'%Hv Hr'. by eapply (A2 _ _ _ _ _ _ _ Hq Hr Hq' Hr').
    + intros q b Hq. apply (H5 q b). rewrite view_insert. rewrite view_delete in Hq. by destruct (decide (q = p)).
Qed.

Lemma free_dead D dead w w' : aware_inv (dead ++ D) w -> for_each (aware_entry_free E) dead w = Some (tt, w') -> aware_inv D w'.
Proof.
  revert w. induction dead as [|p dead IH]; intros w I E0; cbn [for_each] in E0; [by injection E0 as <-|].
  apply bind_inv in E0 as ([] & w1 & Ep & E0). eapply IH; [|exact E0]. by eapply aware_entry_free_inv.
Qed.
End frees.

(** The entries without a list, in the order they were gone through. *)
Lemma collect_dead_inv l w dead w' : collect_dead l w = Some (dead, w') ->
  w' = w /\ dead `sublist_of` l
  /\ forall p, p ∈ dead -> exists e, w_heap w !! p = Some (ObjAwareEntry e) /\ ae_membership e = [].
Proof.
  revert dead. induction l as [|p l IH]; intros dead; cbn [collect_dead].
  - intros [= <- <-]. split_and!; [done..|]. by intros p ?%not_elem_of_nil.
  - intros (ms & w1 & (-> & e & Hp & ->)%obj_get_inv & (d & w2 & Ed & [= <- <-])%bind_inv)%bind_inv.
    destruct (IH _ Ed) as (-> & Hs & Hd). split; [done|]. destruct (ae_membership e) as [|k ms] eqn:Em.
    + split; [by constructor|]. intros q [->|Hq]%elem_of_cons; [by exists e|by apply Hd].
    + split; [by constructor|done].
Qed.

Lemma collect_attrib_dead_inv l w dead w' : collect_attrib_dead l w = Some (dead, w') ->
  w' = w /\ dead `sublist_of` l
  /\ forall p, p ∈ dead -> exists e, w_heap w !! p = Some (ObjAttribEntry e) /\ we_membership e = [].
Proof.
  revert dead. induction l as [|p l IH]; intros dead; cbn [collect_attrib_dead].
  - intros [= <- <-]. split_and!; [done..|]. by intros p ?%not_elem_of_nil.
  - intros (ms & w1 & (-> & e & Hp & ->)%obj_get_inv & (d & w2 & Ed & [= <- <-])%bind_inv)%bind_inv.
    destruct (IH _ Ed) as (-> & Hs & Hd). split; [done|]. destruct (we_membership e) as [|k ms] eqn:Em.
    + split; [by constructor|]. intros q [->|Hq]%elem_of_cons; [by exists e|by apply Hd].
    + split; [by constructor|done].
Qed.

(** The values of a table are different entries. *)
Lemma table_nodup {K N} `{SV : Shelved K N} D h srvc s : shelved K N D h ->
  h !! srvc = Some (ObjAwareService s) -> NoDup (map_to_list (table_of K N s)).*2.
Proof.
  intros I Hs. pose proof (view_some (table_of K N) h srvc s Hs) as Vt.
  apply NoDup_fmap_2_strong; [|apply NoDup_map_to_list]. intros [k1 p1] [k2 p2] H1%elem_of_map_to_list H2%elem_of_map_to_list E.
  cbn in E. subst p2. f_equal. destruct (sh_node _ _ _ _ I _ _ _ _ Vt H1) as (ms & Vn & _).
  by eapply (shelf_key _ _ _ _ I).
Qed.

Lemma table_values_in {K N} `{SV : Shelved K N} (s : mwServiceAware) vs p :
  vs ≡ₚ (map_to_list (table_of K N s)).*2 -> p ∈ vs -> exists k, table_of K N s !! k = Some p.
Proof.
  intros Hv. rewrite Hv. intros ([k q] & -> & Hk%elem_of_map_to_list)%list_elem_of_fmap. by exists k.
Qed.

(** ** What the client gives *)

Record acl_ok (cl : AwareClient) : Prop := {
  ac_aware_ok h f l s : ac_on_aware cl h = Some f -> has keeps_aware (f l s);
  ac_attrib_ok h f l i a : ac_on_attrib cl h = Some f -> has keeps_aware (f l i a);
  ac_clear_ok h f l : ac_clear cl h = Some f -> has keeps_aware (f l);
  ac_free_ok f d : has keeps_aware (ac_free_data cl f d);
}.

Section functions.
Context (E : Env) (HE : lists_tables E) {EF : EnvFrame keeps_aware E}.

(** The entries without a list leave the table; freeing them is what is left. *)
Lemma steal_entries_inv D srvc t w dead w1 w2 : aware_inv D w ->
  (exists s, w_heap w !! srvc = Some (ObjAwareService s) /\ aw_entries s = Some t) ->
  collect_dead (id_values E t) w = Some (dead, w1) ->
  obj_set srvc (fun s => set_aw_entries (steal_entries dead <$> aw_entries s) s) w1 = Some (tt, w2) ->
  aware_inv (dead ++ D) w2.
Proof.
  intros I (s & Hs & Hst) (-> & Hsub & Hd)%collect_dead_inv (s' & Hs' & ->)%obj_set_inv. cbn in Hs'.
  assert (s' = s) as -> by congruence. destruct I as [H1 H2 H3 H4 H5].
  assert (table_of mwAwareIdBlock aware_entry s = t) as Et by (unfold table_of; cbn; by rewrite Hst).
  pose proof (id_values_perm E t HE) as Hv. rewrite <- Et in Hv.
  split; cbn [w_heap set_w_heap].
  - below_same.
  - eapply (shelved_steal D _ H2); [exact Hs| | |].
    + rewrite Et in Hv. eapply sublist_NoDup; [|exact Hsub]. rewrite Hv, <- Et. by eapply (table_nodup (N := aware_entry)).
    + intros p Hp. split.
      * eapply (table_values_in (N := aware_entry)); [exact Hv|]. rewrite Et. by eapply elem_of_sublist.
      * destruct (Hd p Hp) as (e & He & Hm). exists (as_id (ae_aware e)).
        erewrite (view_some (node_of mwAwareIdBlock aware_entry)) by exact He. unfold node_of. cbn. by rewrite Hm.
    + unfold table_of. cbn. by rewrite Hst.
  - rest_same.
  - rest_same.
  - rest_same. cbn. unfold has_tables. cbn. by rewrite Hst.
Qed.

Lemma keeps_entry_ids l : has keeps_aware (entry_ids l).
Proof. induction l as [|p l IH]; cbn [entry_ids]; frame. Qed.
Lemma keeps_service_live p : has keeps_aware (service_live p).
Proof. unfold service_live. frame. Qed.
Lemma keeps_send_ids type chan ids : has keeps_aware (send_ids E type chan ids).
Proof. unfold send_ids, mwChannel_send. frame. Qed.
#[local] Hint Resolve keeps_entry_ids keeps_service_live keeps_send_ids : mw_frame.

Lemma keeps_remove_unused srvc : has keeps_aware (remove_unused E srvc).
Proof.
  intros D w a w' I E0. unfold remove_unused in E0.
  apply bind_inv in E0 as (t0 & w1 & (-> & s & Hs & ->)%obj_get_inv & E0). cbn in Hs.
  apply bind_inv in E0 as (dead & w1 & Ed & E0).
  assert (aware_inv (dead ++ D) w1) as I1.
  { destruct (aw_entries s) as [t|] eqn:Hst; [|by injection Ed as <- <-].
    apply bind_inv in Ed as (d & w2 & Ec & Ed). apply bind_inv in Ed as ([] & w3 & Es & [= <- <-]).
    eapply steal_entries_inv; [exact I|by exists s|exact Ec|exact Es]. }
  clear Ed I Hs. destruct dead as [|p dead]; [by injection E0 as _ <-|].
  apply bind_inv in E0 as (live & w2 & El & E0). pose proof (keeps_service_live srvc _ _ _ _ I1 El) as I2.
  apply bind_inv in E0 as (r & w3 & Er & E0).
  assert (aware_inv ((p :: dead) ++ D) w3) as I3.
  { revert I2 Er. apply (fun H : has keeps_aware _ => H _ w2 r w3). unfold send_rem. frame. }
  apply bind_inv in E0 as ([] & w4 & Ef & [= _ <-]). by eapply free_dead.
Qed.
#[local] Hint Resolve keeps_remove_unused : mw_frame.

Lemma keeps_send_attrib_list srvc : has keeps_aware (send_attrib_list E srvc).
Proof. unfold send_attrib_list, mwChannel_send. frame. Qed.
#[local] Hint Resolve keeps_send_attrib_list : mw_frame.

(** An entry of an attribute goes. *)
Lemma attrib_entry_free_inv p w w' : attrib_entry_free p w = Some (tt, w') ->
  (exists e, w_heap w !! p = Some (ObjAttribEntry e)) /\ w' = set_w_heap (delete p (w_heap w)) w.
Proof.
  unfold attrib_entry_free. intros (a & w1 & (-> & Hq)%obj_deref_inv & Ef)%bind_inv.
  apply free_object_inv in Ef as [_ ->]. by eauto.
Qed.

Lemma free_attrib_dead D dead w w' : aware_inv2 D dead w -> for_each attrib_entry_free dead w = Some (tt, w') -> aware_inv D w'.
Proof.
  revert w. induction dead as [|p dead IH]; intros w [H1 H2 H3 H4 H5] E0; cbn [for_each] in E0; [by injection E0 as <-|].
  apply bind_inv in E0 as ([] & w1 & [(e & Hp) ->]%attrib_entry_free_inv & E0). eapply IH; [|exact E0]. split; cbn.
  - apply below_sub; [done|]. by intros q [_ Hq]%lookup_delete_is_Some.
  - rest_same.
  - by eapply shelved_free in H3.
  - rest_same.
  - rest_same.
Qed.

Lemma steal_attribs_inv D srvc t w dead w1 w2 : aware_inv D w ->
  (exists s, w_heap w !! srvc = Some (ObjAwareService s) /\ aw_attribs s = Some t) ->
  collect_attrib_dead (e_values E Z t) w = Some (dead, w1) ->
  obj_set srvc (fun s => set_aw_attribs (steal_attribs dead <$> aw_attribs s) s) w1 = Some (tt, w2) ->
  aware_inv2 D dead w2.
Proof.
  intros I (s & Hs & Hst) (-> & Hsub & Hd)%collect_attrib_dead_inv (s' & Hs' & ->)%obj_set_inv. cbn in Hs'.
  assert (s' = s) as -> by congruence. destruct I as [H1 H2 H3 H4 H5].
  assert (table_of Z attrib_entry s = t) as Et by (unfold table_of; cbn; by rewrite Hst).
  assert (e_values E Z t ≡ₚ (map_to_list (table_of Z attrib_entry s)).*2) as Hv by (rewrite Et; apply HE).
  split; cbn [w_heap set_w_heap].
  - below_same.
  - rest_same.
  - rewrite <- (app_nil_r dead). eapply (shelved_steal [] _ H3); [exact Hs| | |].
    + eapply sublist_NoDup; [|exact Hsub]. rewrite Hv. by eapply (table_nodup (N := attrib_entry)).
    + intros p Hp. split.
      * eapply (table_values_in (N := attrib_entry)); [exact Hv|]. by eapply elem_of_sublist.
      * destruct (Hd p Hp) as (e & He & Hm). exists (we_key e).
        erewrite (view_some (node_of Z attrib_entry)) by exact He. unfold node_of. cbn. by rewrite Hm.
    + unfold table_of. cbn. by rewrite Hst, app_nil_r.
  - rest_same.
  - rest_same. cbn. unfold has_tables. cbn. by rewrite Hst.
Qed.

Lemma keeps_remove_unused_attrib srvc : has keeps_aware (remove_unused_attrib E srvc).
Proof.
  unfold remove_unused_attrib. intros D w a w' I E0.
  apply bind_inv in E0 as (t0 & w1 & (-> & s & Hs & ->)%obj_get_inv & E0). cbn in Hs.
  apply bind_inv in E0 as (dead & w1 & Ed & E0). apply bind_inv in E0 as ([] & w2 & Ef & E0).
  assert (aware_inv2 D dead w1) as I1.
  { destruct (aw_attribs s) as [t|] eqn:Hst; [|by injection Ed as <- <-].
    apply bind_inv in Ed as (d & w3 & Ec & Ed). apply bind_inv in Ed as ([] & w4 & Es & [= <- <-]).
    eapply steal_attribs_inv; [exact I|by exists s|exact Ec|exact Es]. }
  pose proof (free_attrib_dead _ _ _ _ I1 Ef) as I2. revert I2 E0. apply (fun H : has keeps_aware _ => H D w2 a w'). frame.
Qed.
#[local] Hint Resolve keeps_remove_unused_attrib : mw_frame.

(** *** Lists that give up their tables *)

Definition at_list (L : Z) (l : mwAwareList) (w : world) : Prop := w_heap w !! L = Some (ObjAwareList l).
#[local] Instance at_list_heap L l : HeapOnly (at_list L l).
Proof. intros w w' Eh _. unfold at_list. by rewrite Eh. Qed.

Lemma at_list_set {A} `{Object A} L l p (f : A -> A) : (forall a : A, @obj_out mwAwareList _ (obj_in a) = None) ->
  has (kept (at_list L l)) (obj_set p f).
Proof.
  intros Hf w [] w' HL (a & Hp & ->)%obj_set_inv. unfold at_list in *. cbn. rewrite lookup_insert_ne; [done|].
  intros ->. rewrite HL in Hp. injection Hp as E'. specialize (Hf a). by rewrite <- E' in Hf.
Qed.

Lemma heap_same_kept (J : world -> Prop) {HJ : HeapOnly J} A (m : M A) : heap_same A m -> kept J A m.
Proof. intros Hm w a w' Hw (Eh & En)%Hm. by apply (heap_only w). Qed.

(** The list a pointer leads to is not changed by what is freed of others. *)
Context (HW : writes_out E).

Lemma at_list_send L l chan type o : has (kept (at_list L l)) (mwChannel_send E chan type o).
Proof.
  apply heap_same_kept; [apply _|]. destruct o as [o|].
  - apply (send_heap_same E (Some chan) type o HW).
  - intros w a w'. pose proof (writes_env_frame heap_same E _ HW).
    apply (fr_mwChannel_sendEncrypted heap_same (writes_env E) chan type None true).
Qed.
#[local] Hint Resolve at_list_send : mw_frame.

Lemma at_list_free_each L l dead : has (kept (at_list L l)) (for_each (aware_entry_free E) dead).
Proof.
  apply fr_for_each; [apply _|]. intros p w a w' HL E0. unfold aware_entry_free in E0.
  apply bind_inv in E0 as (e & w1 & (-> & Hp)%obj_deref_inv & E0). apply bind_inv in E0 as ([] & w1 & Ea & E0).
  assert (has (kept (at_list L l)) (for_each attrib_free (e_values E Z (ae_attribs e)))) as Hf.
  { apply fr_for_each; [apply _|]. intros q w2 [] w3 HL2 [(b & Hq) ->]%attrib_free_inv. unfold at_list in *. cbn.
    rewrite lookup_delete_ne; [done|]. congruence. }
  apply Hf in Ea; [|done]. destruct a. apply free_object_inv in E0 as [Hp1 ->]. unfold at_list in *. cbn.
  rewrite lookup_delete_ne; [done|]. intros ->. cbn in Hp. congruence.
Qed.

Lemma at_list_collect_dead L l vs : has (kept (at_list L l)) (collect_dead vs).
Proof. induction vs as [|p vs IH]; cbn [collect_dead]; frame. Qed.
Lemma at_list_collect_attrib_dead L l vs : has (kept (at_list L l)) (collect_attrib_dead vs).
Proof. induction vs as [|p vs IH]; cbn [collect_attrib_dead]; frame. Qed.
Lemma at_list_entry_ids L l vs : has (kept (at_list L l)) (entry_ids vs).
Proof. induction vs as [|p vs IH]; cbn [entry_ids]; frame. Qed.
#[local] Hint Resolve at_list_free_each at_list_collect_dead at_list_collect_attrib_dead at_list_entry_ids : mw_frame.

Lemma at_list_unused L l srvc : has (kept (at_list L l)) (remove_unused E srvc).
Proof.
  unfold remove_unused, service_live, send_rem, send_ids. frame. by apply at_list_set.
Qed.

Lemma at_list_unused_attrib L l srvc : has (kept (at_list L l)) (remove_unused_attrib E srvc).
Proof.
  unfold remove_unused_attrib, service_live, send_attrib_list. frame; [by apply at_list_set|].
  apply fr_for_each; [apply _|]. intros q w2 [] w3 HL2 [(b & Hq) ->]%attrib_entry_free_inv. unfold at_list in *. cbn.
  rewrite lookup_delete_ne; [done|]. congruence.
Qed.

(** After the entries were told, the table can go. *)
Lemma gone_inv D L l o w : w_heap w !! L = Some (ObjAwareList l) -> aware_inv D (virt L o w) ->
  forall o', look o' = look o -> aware_inv D (set_w_heap (<[L := o']> (w_heap w)) w).
Proof.
  intros HL I o' Ho. pose proof (inv_same_look D (virt L o w) L o o' I (lookup_insert_eq _ _ _) Ho) as I'.
  unfold virt in I'. cbn in I'. by rewrite insert_insert_eq in I'.
Qed.

Lemma dismember_entries D L l t vs w w' : aware_inv D w -> w_heap w !! L = Some (ObjAwareList l) ->
  al_entries l = Table t -> vs ≡ₚ (map_to_list t).*2 -> for_each (dismember_aware L) vs w = Some (tt, w') ->
  w_heap w' !! L = Some (ObjAwareList l) /\ aware_inv D (virt L (ObjAwareList (set_al_entries (Table ∅) l)) w').
Proof.
  intros I HL Hlt Hvs E0.
  refine (drain (aware_inv D) L (ObjAwareList l) (fun t => ObjAwareList (set_al_entries (Table t) l)) (dismember_aware L) _
    vs t w w' Hvs HL _ E0).
  - clear. intros t k q w w' HL I Hk (e & Hq & ->)%obj_set_inv. cbn in Hq. assert (L <> q) as Hne by congruence.
    destruct (entry_leave D _ I L (set_al_entries (Table t) l) t k q) as (e' & Hq' & I'); [apply lookup_insert_eq|done|done|].
    unfold virt in Hq', I'. cbn in Hq', I'. rewrite lookup_insert_ne in Hq' by done. assert (e' = e) as -> by congruence.
    cbn. rewrite lookup_insert_ne by done. split; [done|]. unfold virt. cbn.
    by rewrite (insert_insert_ne _ q L) in I' by done; rewrite insert_insert_eq in I'.
  - apply virt_self; [|done]. rewrite HL, <- Hlt. by destruct l.
Qed.

Lemma dismember_watches D L l t vs w w' : aware_inv D w -> w_heap w !! L = Some (ObjAwareList l) ->
  al_attribs l = Table t -> vs ≡ₚ (map_to_list t).*2 -> for_each (dismember_attrib L) vs w = Some (tt, w') ->
  w_heap w' !! L = Some (ObjAwareList l) /\ aware_inv D (virt L (ObjAwareList (set_al_attribs (Table ∅) l)) w').
Proof.
  intros I HL Hlt Hvs E0.
  refine (drain (aware_inv D) L (ObjAwareList l) (fun t => ObjAwareList (set_al_attribs (Table t) l)) (dismember_attrib L) _
    vs t w w' Hvs HL _ E0).
  - clear. intros t k q w w' HL I Hk (e & Hq & ->)%obj_set_inv. cbn in Hq. assert (L <> q) as Hne by congruence.
    destruct (watch_leave D _ I L (set_al_attribs (Table t) l) t k q) as (e' & Hq' & I'); [apply lookup_insert_eq|done|done|].
    unfold virt in Hq', I'. cbn in Hq', I'. rewrite lookup_insert_ne in Hq' by done. assert (e' = e) as -> by congruence.
    cbn. rewrite lookup_insert_ne by done. split; [done|]. unfold virt. cbn.
    by rewrite (insert_insert_ne _ q L) in I' by done; rewrite insert_insert_eq in I'.
  - apply virt_self; [|done]. rewrite HL, <- Hlt. by destruct l.
Qed.

Lemma removeAll_inv D L r w w' : aware_inv D w -> mwAwareList_removeAllAware E (Some L) w = Some (r, w') ->
  aware_inv D w' /\ forall l, w_heap w !! L = Some (ObjAwareList l) ->
    exists l', w_heap w' !! L = Some (ObjAwareList l') /\ al_attribs l' = al_attribs l /\ own (al_entries l') = ∅
      /\ (forall srvc t, al_service l = Some srvc -> al_entries l = Table t -> l' = set_al_entries TableGone l).
Proof.
  intros I E0. cbn [mwAwareList_removeAllAware nonnull] in E0.
  apply bind_inv in E0 as (os & w1 & (-> & l & HL & ->)%obj_get_inv & E0). cbn in HL.
  destruct (al_service l) as [srvc|] eqn:Hls; cbn [nonnull] in E0.
  2:{ injection E0 as _ <-. split; [done|]. intros l' HL'. assert (l' = l) as -> by congruence. exists l. split_and!; [done..| |by intros s t ?; congruence].
    apply map_empty. intros k. destruct (own (al_entries l) !! k) as [p|] eqn:Hk; [|done]. exfalso.
    pose proof (view_some (list_of mwAwareIdBlock aware_entry) _ L l HL) as Vl. unfold list_of in Vl. cbn in Vl.
    destruct (sh_list _ _ _ _ (ai_entries _ _ _ I) _ _ _ _ _ Vl Hk) as (s & T & Hs & _). congruence. }
  apply bind_inv in E0 as (t0 & w1 & (-> & l1 & HL1 & ->)%obj_get_inv & E0). assert (l1 = l) as -> by (cbn in HL1; congruence).
  apply bind_inv in E0 as ([] & w1 & Et & E0).
  assert (aware_inv D w1 /\ exists l', w_heap w1 !! L = Some (ObjAwareList l') /\ al_attribs l' = al_attribs l /\ own (al_entries l') = ∅
      /\ (forall s t, Some srvc = Some s -> al_entries l = Table t -> l' = set_al_entries TableGone l)) as (I1 & l' & HL' & Ha & Ho & Hg).
  { destruct (al_entries l) as [|t|] eqn:Hlt; [|apply bind_inv in Et as ([] & w2 & Ef & Es)|done].
    - injection Et as <-. split; [done|]. exists l. by rewrite Hlt.
    - destruct (dismember_entries D L l t _ w w2 I HL Hlt (id_values_perm E t HE) Ef) as [HL2 I2].
      apply obj_set_inv in Es as (l2 & HL2' & ->). assert (l2 = l) as -> by (cbn in HL2'; congruence). split.
      + by eapply gone_inv.
      + exists (set_al_entries TableGone l). cbn. by rewrite lookup_insert_eq. }
  split; [by eapply keeps_remove_unused|]. intros l2 HL2. assert (l2 = l) as -> by congruence. exists l'.
  rewrite Hls. split; [|done]. by apply (at_list_unused L l' srvc _ _ _ HL' E0).
Qed.

Lemma unwatchAll_inv D L r w w' : aware_inv D w -> mwAwareList_unwatchAllAttributes E (Some L) w = Some (r, w') ->
  aware_inv D w' /\ exists l', w_heap w' !! L = Some (ObjAwareList l') /\ own (al_attribs l') = ∅.
Proof.
  intros I E0. cbn [mwAwareList_unwatchAllAttributes nonnull] in E0.
  apply bind_inv in E0 as (t0 & w1 & (-> & l & HL & ->)%obj_get_inv & E0). cbn in HL.
  apply bind_inv in E0 as ([] & w1 & Et & E0).
  assert (aware_inv D w1 /\ exists l', w_heap w1 !! L = Some (ObjAwareList l') /\ own (al_attribs l') = ∅)
    as (I1 & l' & HL' & Ho).
  { destruct (al_attribs l) as [|t|] eqn:Hlt; [|apply bind_inv in Et as ([] & w2 & Ef & Es)|done].
    - injection Et as <-. split; [done|]. exists l. by rewrite Hlt.
    - destruct (dismember_watches D L l t _ w w2 I HL Hlt (HE Z t) Ef) as [HL2 I2].
      apply obj_set_inv in Es as (l2 & HL2' & ->). assert (l2 = l) as -> by (cbn in HL2'; congruence). split.
      + by eapply gone_inv.
      + exists (set_al_attribs TableGone l). cbn. by rewrite lookup_insert_eq. }
  apply bind_inv in E0 as (srvc & w2 & (-> & _)%list_service_inv & E0).
  split; [by eapply keeps_remove_unused_attrib|]. exists l'. split; [|done]. by apply (at_list_unused_attrib L l' srvc _ _ _ HL' E0).
Qed.

#[local] Hint Resolve keeps_send_attrib_list keeps_service_live keeps_entry_ids keeps_send_ids keeps_remove_unused
  keeps_remove_unused_attrib : mw_frame.

Lemma keeps_removeAll L : has keeps_aware (mwAwareList_removeAllAware E L).
Proof. destruct L as [L|]; [|apply fr_ret]. intros D w r w' I E0. by eapply removeAll_inv. Qed.
Lemma keeps_unwatchAll L : has keeps_aware (mwAwareList_unwatchAllAttributes E L).
Proof. destruct L as [L|]; [|apply fr_ret]. intros D w r w' I E0. by eapply unwatchAll_inv. Qed.

(** *** The life of a list *)

Context (cl : AwareClient) (CL : acl_ok cl).

Lemma keeps_new_list srvc h : has keeps_aware (mwAwareList_new srvc h).
Proof.
  unfold mwAwareList_new. destruct srvc as [srvc|], h as [h|]; cbn [nonnull]; try apply fr_ret.
  apply fr_bind; [|frame]. intros D w a w' I [= <- <-]. destruct I as [H1 H2 H3 H4 H5].
  pose proof (below_fresh w H1) as Hn. split; cbn.
  - by apply below_next.
  - apply (shelved_set_list (N := aware_entry) D _ H2); [|done]. intros o Ho. by rewrite Hn in Ho.
  - apply (shelved_set_list (N := attrib_entry) [] _ H3); [|done]. intros o Ho. by rewrite Hn in Ho.
  - rest_same.
  - rest_same.
Qed.

Lemma keeps_list_clear L : has keeps_aware (list_clear cl L).
Proof. unfold list_clear. frame. by eapply (ac_clear_ok _ CL). Qed.
Lemma keeps_list_clear_data L : has keeps_aware (list_clear_data cl L).
Proof. unfold list_clear_data, mw_datum_clear. frame. apply (ac_free_ok _ CL). Qed.
#[local] Hint Resolve keeps_list_clear keeps_list_clear_data : mw_frame.

Lemma keeps_list_free L : has keeps_aware (mwAwareList_free E cl L).
Proof.
  unfold mwAwareList_free. destruct L as [L|]; cbn [nonnull]; [|apply fr_ret]. apply fr_bind; [frame|intros [srvc|]]; cbn [nonnull]; [|frame].
  apply fr_bind; [frame|intros _]. apply fr_bind; [frame|intros _]. apply fr_bind; [frame|intros _].
  intros D w a w' I E0. apply bind_inv in E0 as (r1 & w1 & Eu & E0).
  destruct (unwatchAll_inv D L r1 w w1 I Eu) as (I1 & l1 & HL1 & Ho1). clear I Eu.
  apply bind_inv in E0 as (r2 & w2 & Er & E0). destruct (removeAll_inv D L r2 w1 w2 I1 Er) as (I2 & Hl2).
  destruct (Hl2 l1 HL1) as (l2 & HL2 & Ha2 & Ho2 & _). clear I1 Er Hl2. rewrite <- Ha2 in Ho1.
  apply bind_inv in E0 as ([] & w3 & (l & HL & ->)%obj_set_inv & E0). destruct a. apply free_object_inv in E0 as [_ ->].
  cbn. rewrite delete_insert_eq. destruct I2 as [H1 H2 H3 H4 H5]. split; cbn.
  - apply (below_sub w2); [done|]. by intros q [_ Hq]%lookup_delete_is_Some.
  - by eapply (shelved_free_list (N := aware_entry) D _ H2).
  - by eapply (shelved_free_list (N := attrib_entry) [] _ H3).
  - rest_same.
  - intros q b. rewrite view_delete. destruct (decide (q = L)); [done|]. apply H5.
Qed.

(** *** What the server sends *)

Lemma keeps_each_member n p l f : (forall L, has keeps_aware (f L)) -> has keeps_aware (each_member n p l f).
Proof.
  intros Hf. revert l. induction n as [|n IH]; intros [[k L]|]; cbn [each_member]; frame.
Qed.
Lemma keeps_for_members p f : (forall L, has keeps_aware (f L)) -> has keeps_aware (for_members cl p f).
Proof. intros Hf. unfold for_members. frame. by apply keeps_each_member. Qed.

Lemma keeps_status_recv srvc idb : has keeps_aware (status_recv cl srvc idb).
Proof.
  unfold status_recv. intros D w a w' I E0. apply bind_inv in E0 as (r & w1 & (-> & s & Hs & ->)%aware_find_inv & E0).
  destruct (aw_entries s ≫= _) as [p|] eqn:Hk; [|by injection E0 as _ <-].
  destruct (inv_entry D w srvc s (as_id idb) p I Hs Hk) as (e & Hp & Hid).
  apply bind_inv in E0 as ([] & w1 & Es & E0).
  assert (aware_inv D w1) as I1.
  { apply obj_set_inv in Es as (e' & Hp' & ->). cbn in Hp'. assert (e' = e) as -> by congruence.
    eapply inv_same_look; [exact I|exact Hp|]. destruct e as [aw ms n t]. cbn in Hid. unfold look, node_of. cbn.
    by rewrite clone_id, Hid. }
  revert I1 E0. apply (keeps_for_members p (tell_aware cl idb)). intros L. unfold tell_aware, call2. frame.
  by eapply (ac_aware_ok _ CL).
Qed.
#[local] Hint Resolve keeps_status_recv : mw_frame.

Lemma keeps_attrib_recv srvc idb k d : has keeps_aware (attrib_recv cl srvc idb k d).
Proof.
  assert (forall p old, has keeps_aware (for_members cl p (tell_attrib cl idb k old))) as Hm.
  { intros p old. apply keeps_for_members. intros L. unfold tell_attrib, watch_lookup. frame. by eapply (ac_attrib_ok _ CL). }
  unfold attrib_recv, aware_find, id_lookup. apply fr_bind; [frame|intros [p|]]; [|frame].
  intros D w a w' I E0. apply bind_inv in E0 as (t & w1 & (-> & e & Hp & ->)%obj_get_inv & E0). cbn in Hp.
  apply bind_inv in E0 as (old & w1 & Eo & E0).
  assert (aware_inv D w1) as I1.
  { destruct (ae_attribs e !! k) as [q|] eqn:Hk; [by injection Eo as <- <-|].
    apply bind_inv in Eo as (q & w2 & [= <- <-] & Eo). apply bind_inv in Eo as ([] & w3 & Es & [= <- <-]).
    apply obj_set_inv in Es as (e' & Hp' & ->). cbn in Hp'. pose proof (below_fresh w (ai_below _ _ _ I)) as Hn.
    rewrite lookup_insert_ne in Hp' by congruence. assert (e' = e) as -> by congruence.
    exact (attrib_new D w I p e k opaque_zero Hp Hk). }
  clear Eo I Hp. revert I1 E0. apply (fun H : has keeps_aware _ => H D w1 a w'). frame.
Qed.
#[local] Hint Resolve keeps_attrib_recv : mw_frame.

Lemma keeps_addAware L ids : has keeps_aware (mwAwareList_addAware E L ids).
Proof. unfold mwAwareList_addAware, nonnull, send_add. frame. Qed.
Lemma keeps_removeAware L ids : has keeps_aware (mwAwareList_removeAware E L ids).
Proof. unfold mwAwareList_removeAware, nonnull. frame. Qed.
#[local] Hint Resolve keeps_addAware : mw_frame.

Lemma keeps_in_group srvc snap : has keeps_aware (in_group E cl srvc snap).
Proof.
  unfold in_group, group_member_recv, aware_find, id_lookup. frame. apply keeps_for_members. frame.
Qed.
#[local] Hint Resolve keeps_in_group : mw_frame.

Lemma keeps_recv_snapshots n srvc snap b : has keeps_aware (recv_snapshots E cl n srvc snap b).
Proof. revert snap b. induction n as [|n IH]; intros snap b; cbn [recv_snapshots]; frame. Qed.
#[local] Hint Resolve keeps_recv_snapshots : mw_frame.

(** *** The functions of the service *)

#[export] Instance aware_ops_frame srvc : OpsFrame keeps_aware srvc (aware_ops E cl).
Proof.
  split; cbn; [done|..].
  - intros f c m [= <-]. unfold recv_accept, send_add. frame.
  - intros f c m [= <-]. unfold recv_destroy. frame.
  - intros f c t d [= <-].
    unfold recv, recv_SNAPSHOT, recv_UPDATE, recv_GROUP, recv_OPT_GOT_SET, recv_OPT_GOT_UNSET, get_local_id. frame.
  - intros f [= <-].
    unfold start, make_blist, mwChannel_setService, mwChannel_setProtoType, mwChannel_setProtoVer, set_if_init. frame.
  - intros f [= <-]. unfold stop. frame.
Qed.

(** *** What the client calls *)

Lemma keeps_watch_array n L k : has keeps_aware (watch_array n L k).
Proof. induction n as [|n IH]; cbn [watch_array]; frame. Qed.
#[local] Hint Resolve keeps_watch_array : mw_frame.

Lemma keeps_watchArray n L ks : has keeps_aware (mwAwareList_watchAttributeArray E n L ks).
Proof. unfold mwAwareList_watchAttributeArray, nonnull. frame. Qed.
Lemma keeps_unwatchArray n L ks : has keeps_aware (mwAwareList_unwatchAttributeArray E n L ks).
Proof. unfold mwAwareList_unwatchAttributeArray, nonnull. frame. Qed.
Lemma keeps_watchAttributes L ks : has keeps_aware (mwAwareList_watchAttributes E L ks).
Proof. unfold mwAwareList_watchAttributes, nonnull. frame. Qed.
Lemma keeps_unwatchAttributes L ks : has keeps_aware (mwAwareList_unwatchAttributes E L ks).
Proof. unfold mwAwareList_unwatchAttributes, nonnull. frame. Qed.
Lemma keeps_setStatus srvc u st : has keeps_aware (mwServiceAware_setStatus cl srvc u st).
Proof. unfold mwServiceAware_setStatus, nonnull. frame. Qed.
Lemma keeps_setAttribute srvc k d : has keeps_aware (mwServiceAware_setAttribute E srvc k d).
Proof. unfold mwServiceAware_setAttribute, mwChannel_send_to, mwChannel_send. frame. Qed.
Lemma keeps_unsetAttribute srvc k : has keeps_aware (mwServiceAware_unsetAttribute E srvc k).
Proof. unfold mwServiceAware_unsetAttribute, mwChannel_send_to, mwChannel_send. frame. Qed.
Lemma keeps_al_setClientData L d c : has keeps_aware (mwAwareList_setClientData L d c).
Proof. unfold mwAwareList_setClientData, nonnull. frame. Qed.
Lemma keeps_al_removeClientData L : has keeps_aware (mwAwareList_removeClientData cl L).
Proof. unfold mwAwareList_removeClientData, nonnull. frame. Qed.
End functions.

(** ** The library with the service *)

Definition aware_env (srvc : Z) (cl : AwareClient) (E : Env) : Env := with_service srvc (aware_ops E cl) E.

Lemma aware_env_frame srvc cl E : EnvFrame keeps_aware E -> lists_tables E -> writes_out E -> acl_ok cl ->
  EnvFrame keeps_aware (aware_env srvc cl E).
Proof. intros EF HE HW CL. apply with_service_frame; [done|]. by apply aware_ops_frame. Qed.

Lemma keeps_at D E : EnvFrame keeps_aware E -> EnvFrame (kept (aware_inv D)) E.
Proof.
  intros EF. assert (forall A (m : M A), has keeps_aware m -> has (kept (aware_inv D)) m) as K by (intros A m H; apply H).
  split; intros; apply K; first [apply ef_io_write | apply ef_io_close | frame_call].
Qed.

(** What may happen: a call of the session's interface, bytes from the server
    among them, and a call of the service's interface. *)
Inductive aware_step (srvc : Z) (cl : AwareClient) (E : Env) : world -> world -> Prop :=
| aws_call c w w' : run_call (aware_env srvc cl E) c w = Some (tt, w') -> aware_step srvc cl E w w'
| aws_list h r w w' : mwAwareList_new (Some srvc) h w = Some (r, w') -> aware_step srvc cl E w w'
| aws_free L w w' : mwAwareList_free (aware_env srvc cl E) cl L w = Some (tt, w') -> aware_step srvc cl E w w'
| aws_add L ids r w w' : mwAwareList_addAware (aware_env srvc cl E) L ids w = Some (r, w') -> aware_step srvc cl E w w'
| aws_remove L ids r w w' : mwAwareList_removeAware (aware_env srvc cl E) L ids w = Some (r, w') -> aware_step srvc cl E w w'
| aws_removeAll L r w w' : mwAwareList_removeAllAware (aware_env srvc cl E) L w = Some (r, w') -> aware_step srvc cl E w w'
| aws_watch L ks r w w' : mwAwareList_watchAttributes (aware_env srvc cl E) L ks w = Some (r, w') -> aware_step srvc cl E w w'
| aws_unwatch L ks r w w' : mwAwareList_unwatchAttributes (aware_env srvc cl E) L ks w = Some (r, w') -> aware_step srvc cl E w w'
| aws_unwatchAll L r w w' : mwAwareList_unwatchAllAttributes (aware_env srvc cl E) L w = Some (r, w') -> aware_step srvc cl E w w'
| aws_watchArray n L ks r w w' : mwAwareList_watchAttributeArray (aware_env srvc cl E) n L ks w = Some (r, w') -> aware_step srvc cl E w w'
| aws_unwatchArray n L ks r w w' : mwAwareList_unwatchAttributeArray (aware_env srvc cl E) n L ks w = Some (r, w') -> aware_step srvc cl E w w'
| aws_set L d c w w' : mwAwareList_setClientData L d c w = Some (tt, w') -> aware_step srvc cl E w w'
| aws_unset L w w' : mwAwareList_removeClientData cl L w = Some (tt, w') -> aware_step srvc cl E w w'
| aws_status u s w w' : mwServiceAware_setStatus cl (Some srvc) u s w = Some (tt, w') -> aware_step srvc cl E w w'
| aws_attrib k d r w w' : mwServiceAware_setAttribute (aware_env srvc cl E) srvc k d w = Some (r, w') -> aware_step srvc cl E w w'
| aws_unattrib k r w w' : mwServiceAware_unsetAttribute (aware_env srvc cl E) srvc k w = Some (r, w') -> aware_step srvc cl E w w'.

Lemma keeps_aware_step srvc cl E w w' : EnvFrame keeps_aware E -> lists_tables E -> writes_out E -> acl_ok cl ->
  aware_step srvc cl E w w' -> aware_inv [] w -> aware_inv [] w'.
Proof.
  intros EF HE HW CL S I. pose proof (aware_env_frame srvc cl E EF HE HW CL) as EF'.
  assert (lists_tables (aware_env srvc cl E)) as HE' by exact HE. assert (writes_out (aware_env srvc cl E)) as HW' by exact HW.
  destruct S as [c w w' H|h r w w' H|L w w' H|L ids r w w' H|L ids r w w' H|L r w w' H|L ks r w w' H|L ks r w w' H
    |L r w w' H|n L ks r w w' H|n L ks r w w' H|L d c w w' H|L w w' H|u s w w' H|k d r w w' H|k r w w' H]; revert I H.
  - pose proof (keeps_at [] _ EF'). apply (full_call (kept (aware_inv []))); [apply _|done|].
    intros b. apply (kept_recv (aware_inv [])); [apply _|done|]. intros r s. by apply heap_only.
  - exact (keeps_new_list (Some srvc) h [] w r w').
  - exact (keeps_list_free (aware_env srvc cl E) HE' HW' cl CL L [] w tt w').
  - exact (keeps_addAware (aware_env srvc cl E) L ids [] w r w').
  - exact (keeps_removeAware (aware_env srvc cl E) HE' L ids [] w r w').
  - exact (keeps_removeAll (aware_env srvc cl E) HE' HW' L [] w r w').
  - exact (keeps_watchAttributes (aware_env srvc cl E) L ks [] w r w').
  - exact (keeps_unwatchAttributes (aware_env srvc cl E) HE' L ks [] w r w').
  - exact (keeps_unwatchAll (aware_env srvc cl E) HE' HW' L [] w r w').
  - exact (keeps_watchArray (aware_env srvc cl E) n L ks [] w r w').
  - exact (keeps_unwatchArray (aware_env srvc cl E) HE' n L ks [] w r w').
  - exact (keeps_al_setClientData L d c [] w tt w').
  - exact (keeps_al_removeClientData cl CL L [] w tt w').
  - exact (keeps_setStatus cl CL (Some srvc) u s [] w tt w').
  - exact (keeps_setAttribute (aware_env srvc cl E) srvc k d [] w r w').
  - exact (keeps_unsetAttribute (aware_env srvc cl E) srvc k [] w r w').
Qed.

(** C12: whatever the client calls and whatever bytes the server sends, the
    lists of awareness, the tables of the service and the entries agree: an
    entry is in the table of the service under its own id, it knows exactly the
    lists that have it, each once, and a list has only entries of its service
    under their ids; the same holds of watched attributes, and the attributes
    of an entry are its own. *)
Theorem aware_invariant srvc cl E w0 w :
  EnvFrame keeps_aware E -> lists_tables E -> writes_out E -> acl_ok cl ->
  aware_inv [] w0 -> rtc (aware_step srvc cl E) w0 w -> aware_inv [] w.
Proof.
  intros EF HE HW CL I R. induction R as [w|w1 w2 w S R IH]; [done|]. apply IH. by eapply keeps_aware_step.
Qed.
