(* ===== verification/AwareSync.v ===== *)
(** * The awareness service: the server keeps step with the lists

    What a client puts on its lists is what the server watches for it.  The
    state of the lists is a map to sets of ids and of attributes; each call has
    the effect on it that its name says, and the commands that are sent make
    the subscriptions of the server the union of the lists. *)

From S2P Require Import Prelude Buffer Common Message Framing World Util Rc2 Cipher Service Session.
From S2P Require Import Channel Aware Dispatch Frame Owned Delivery Protocol ChannelSpec Secure Shelf AwareShelf AwareSpec.
#[local] Open Scope Z_scope.
#[local] Open Scope mw_scope.

(** ** What the server is told *)

Inductive command :=
  | CmdAdd (ids : list mwAwareIdBlock)
  | CmdRemove (ids : list mwAwareIdBlock)
  | CmdWatch (keys : list Z).

Definition ids_enc (ids : list mwAwareIdBlock) : list Z :=
  MW32_PUT (u32 (zlen ids)) ++ mjoin (mwAwareIdBlock_enc <$> ids).
Definition keys_enc (keys : list Z) : list Z :=
  MW32_PUT 0 ++ MW32_PUT (u32 (zlen keys)) ++ mjoin (MW32_PUT <$> keys).

Definition cmd_type (c : command) : Z :=
  match c with CmdAdd _ => msg_AWARE_ADD | CmdRemove _ => msg_AWARE_REMOVE | CmdWatch _ => msg_OPT_WATCH end.
Definition cmd_enc (c : command) : list Z :=
  match c with CmdAdd ids | CmdRemove ids => ids_enc ids | CmdWatch keys => keys_enc keys end.

(** The command as it is written, on a channel without a cipher. *)
Definition cmd_event (chid : Z) (c : command) : option event :=
  plain_event chid (cmd_type c) (cmd_enc c).

(** What the server watches for the client. *)
Record subscriptions := { sub_ids : gset mwAwareIdBlock; sub_keys : gset Z }.

Definition obey (s : subscriptions) (c : command) : subscriptions :=
  match c with
  | CmdAdd ids => {| sub_ids := list_to_set ids ∪ sub_ids s; sub_keys := sub_keys s |}
  | CmdRemove ids => {| sub_ids := sub_ids s ∖ list_to_set ids; sub_keys := sub_keys s |}
  | CmdWatch keys => {| sub_ids := sub_ids s; sub_keys := list_to_set keys |}
  end.
Definition obey_all : subscriptions -> list command -> subscriptions := foldl obey.

Lemma put_ids_writes ids : writes (put_ids ids) (mjoin (mwAwareIdBlock_enc <$> ids)).
Proof.
  induction ids as [|id ids IH]; cbn [put_ids]; [apply writes_skip|].
  apply writes_seq; [apply mwAwareIdBlock_put_writes|exact IH].
Qed.
Lemma compose_list_writes ids : writes (compose_list ids) (ids_enc ids).
Proof. apply writes_seq; [apply guint32_put_writes|apply put_ids_writes]. Qed.

Lemma put_keys_writes l : writes (foldr (fun k p => guint32_put k >>> p) pskip l) (mjoin (MW32_PUT <$> l)).
Proof.
  induction l as [|k l IH]; cbn [foldr]; [apply writes_skip|]. apply writes_seq; [apply guint32_put_writes|exact IH].
Qed.
Definition keys_put (l : list Z) : Put :=
  guint32_put 0x00 >>> guint32_put (u32 (zlen l)) >>> foldr (fun k p => guint32_put k >>> p) pskip l.
Lemma keys_put_writes l : writes (keys_put l) (keys_enc l).
Proof. do 2 (apply writes_seq; [apply guint32_put_writes|]). apply put_keys_writes. Qed.

(** *** Sets and lists *)

Section sets.
Context {A : Type} `{Countable A}.
Implicit Types (x : A) (l adds : list A) (X S : gset A).

Lemma set_has x X : x ∈ X -> {[x]} ∪ X = X.
Proof. intros Hx. by apply subseteq_union_1_L, singleton_subseteq_l. Qed.
Lemma set_add_cons x l X : list_to_set l ∪ ({[x]} ∪ X) = list_to_set (x :: l) ∪ X.
Proof. set_solver. Qed.
Lemma set_remove_cons x l X : (X ∖ {[x]}) ∖ list_to_set l = X ∖ list_to_set (x :: l).
Proof. set_solver. Qed.
Lemma set_remove_skip x l X : x ∉ X -> X ∖ list_to_set l = X ∖ list_to_set (x :: l).
Proof. set_solver. Qed.

(** What is new on a list, added to what all have. *)
Lemma set_add_new adds l X S : X ⊆ S -> (forall x, x ∈ adds <-> x ∈ l /\ x ∉ X) ->
  list_to_set adds ∪ S = list_to_set l ∪ S.
Proof.
  intros HX Hin. apply set_eq. intros x. rewrite !elem_of_union, !elem_of_list_to_set, (Hin x). pose proof (HX x).
  destruct (decide (x ∈ X)); tauto.
Qed.
End sets.

(** ** A client whose service is alive *)

Section sync.
Context (E : Env) {EF : EnvFrame keeps_aware E} (Hw : pure_writes E (fun _ => 0)) (HE : lists_tables E).
Context (srvc chan chid : Z).

(** The channel is open and has no cipher. *)
Record linked (w : world) : Prop := {
  lk_service : exists sv, w_services w !! srvc = Some sv /\ MW_SERVICE_IS_LIVE (sv_state sv) = true;
  lk_channel : plain_chan chan chid w;
}.

Definition fits (c : command) : Prop := zlen (cmd_enc c) < 2 ^ 30.

Lemma send_cmd_run c put w : linked w -> writes put (cmd_enc c) -> fits c ->
  exists e, cmd_event chid c = Some e
    /\ (let* b := lift (put mwPutBuffer_new) in
        mwChannel_send E chan (cmd_type c) (Some (mwPutBuffer_finalize b))) w = Some (0, with_log [e] w).
Proof.
  intros [_ Hc] Hp Hf.
  unfold fits in Hf. unfold cmd_event. assert (is_u16 (cmd_type c)) as Ht by by destruct c.
  exact (send_put_run E chan chid (cmd_type c) put (cmd_enc c) w Hw Hc Ht Hp Hf).
Qed.

(** ** The state of the lists *)

(** A list that can be used: its tables were not destroyed. *)
Definition usable {K} `{Countable K} (t : table (gmap K Z)) : bool := match t with TableGone => false | _ => true end.

(** What is on a list of the service, if the list can be used. *)
Definition list_state (l : mwAwareList) : option (option (gset mwAwareIdBlock * gset Z)) :=
  if bool_decide (al_service l = Some srvc) then
    Some (if usable (al_entries l) && usable (al_attribs l)
      then Some (dom (own (al_entries l)), dom (own (al_attribs l))) else None)
  else None.

Definition service_state (s : mwServiceAware) := (aw_entries s, aw_attribs s, aw_channel s).

(** The lists are [A], by their address, and all can be used; the tables of the service have the
    ids [S] and the attributes [W]. *)
Record holds (A : gmap Z (gset mwAwareIdBlock * gset Z)) (S : gset mwAwareIdBlock) (W : gset Z) (w : world) : Prop := {
  ho_inv : aware_inv [] w;
  ho_service : exists T Wt, view service_state (w_heap w) srvc = Some (Some T, Some Wt, Some chan) /\ dom T = S /\ dom Wt = W;
  ho_lists L : Some <$> A !! L = mjoin (view list_state (w_heap w) L);
}.

(** Nothing but the blocks has changed. *)
Record same_rest (w w' : world) : Prop := {
  sr_session : w_session w' = w_session w;
  sr_channels : w_channels w' = w_channels w;
  sr_services : w_services w' = w_services w;
  sr_ciphers : w_ciphers w' = w_ciphers w;
  sr_log : w_log w' = w_log w;
}.
#[local] Instance same_rest_preorder : PreOrder same_rest.
Proof. split; [intros w; by split|]. intros w1 w2 w3 [] []. split; congruence. Qed.

Lemma linked_same w w' : same_rest w w' -> linked w -> linked w'.
Proof. intros [_ Hc Hs _ _] [H1 H2]. split; [by rewrite Hs|unfold plain_chan; by rewrite Hc]. Qed.

Lemma holds_service A S W w : holds A S W w -> exists s T Wt, w_heap w !! srvc = Some (ObjAwareService s)
  /\ aw_entries s = Some T /\ aw_attribs s = Some Wt /\ aw_channel s = Some chan /\ dom T = S /\ dom Wt = W.
Proof.
  intros [_ (T & Wt & V & HT & HWt) _]. apply view_inv in V as (s & Hs & [= E1 E2 E3]). exists s, T, Wt. by split_and!.
Qed.

Lemma holds_list A S W w L X : holds A S W w -> A !! L = Some X -> exists l, w_heap w !! L = Some (ObjAwareList l)
  /\ al_service l = Some srvc /\ usable (al_entries l) = true /\ usable (al_attribs l) = true
  /\ X = (dom (own (al_entries l)), dom (own (al_attribs l))).
Proof.
  intros [_ _ HL] HX. specialize (HL L). rewrite HX in HL. destruct (view list_state (w_heap w) L) as [x|] eqn:V; [|done].
  cbn in HL. subst x. apply view_inv in V as (l & Hl & E0). exists l. split; [done|]. unfold list_state in E0.
  destruct (bool_decide (al_service l = Some srvc)) eqn:E1; [|done]. apply bool_decide_eq_true in E1.
  destruct (usable (al_entries l)), (usable (al_attribs l)); try done. by injection E0 as ->.
Qed.

Lemma list_state_of l : al_service l = Some srvc -> usable (al_entries l) = true -> usable (al_attribs l) = true ->
  list_state l = Some (Some (dom (own (al_entries l)), dom (own (al_attribs l)))).
Proof. intros H1 H2 H3. unfold list_state. by rewrite bool_decide_true, H2, H3. Qed.

(** The views of a list and of the service are those of their blocks. *)
Lemma holds_set_list A S W w L l l' X : holds A S W w -> w_heap w !! L = Some (ObjAwareList l) ->
  aware_inv [] (set_w_heap (<[L := ObjAwareList l']> (w_heap w)) w) -> list_state l' = Some (Some X) ->
  holds (<[L := X]> A) S W (set_w_heap (<[L := ObjAwareList l']> (w_heap w)) w).
Proof.
  intros [_ (T & Wt & V & HT & HWt) HL] Hl I HX. split; [done| |].
  - exists T, Wt. split; [|done]. cbn. rewrite view_insert. destruct (decide (srvc = L)) as [<-|]; [|done].
    by rewrite (view_at _ _ _ _ Hl) in V.
  - intros M. cbn. rewrite view_insert. destruct (decide (M = L)) as [->|Hne].
    + rewrite lookup_insert_eq. cbn. by rewrite HX.
    + by rewrite lookup_insert_ne.
Qed.

(** A block that is neither a list nor the service. *)
Lemma holds_other A S W w p o : holds A S W w -> (forall o', w_heap w !! p = Some o' ->
    service_state <$> obj_out o' = None /\ list_state <$> obj_out o' = None) ->
  service_state <$> obj_out o = None -> list_state <$> obj_out o = None ->
  forall w', w_heap w' = <[p := o]> (w_heap w) -> aware_inv [] w' -> holds A S W w'.
Proof.
  intros [_ (T & Wt & V & HT & HWt) HL] Hp Ho1 Ho2 w' Eh I. split; [done| |].
  - exists T, Wt. split; [|done]. rewrite Eh, view_insert. destruct (decide (srvc = p)) as [->|]; [|done].
    apply view_inv in V as (s & Hs & _). destruct (Hp _ Hs) as [? _]. by rewrite obj_in_out in H.
  - intros M. rewrite Eh, view_insert. destruct (decide (M = p)) as [->|]; [|done]. rewrite Ho2, HL.
    assert (view list_state (w_heap w) p = None) as ->; [|done]. unfold view.
    destruct (w_heap w !! p) as [o'|] eqn:Ep; [|done]. exact (proj2 (Hp _ eq_refl)).
Qed.

(** ** Adding *)

Definition id_ok (id : mwAwareIdBlock) : Prop := exists x u, ai_user id = Some (x :: u).

Lemma make_entries_table l : usable (al_entries l) = true ->
  al_entries (make_entries l) = Table (own (al_entries l)) /\ al_service (make_entries l) = al_service l
  /\ al_attribs (make_entries l) = al_attribs l.
Proof. unfold make_entries. by destruct (al_entries l) eqn:El; rewrite ?El. Qed.

Lemma id_lookup_run t id w : id_ok id -> id_lookup t id w = Some (t !! id, w).
Proof. intros (x & u & Hid). unfold id_lookup. by rewrite Hid. Qed.

Lemma list_aware_find_run L l t id w : w_heap w !! L = Some (ObjAwareList l) -> al_entries l = Table t -> id_ok id ->
  list_aware_find L id w = Some (t !! id, w).
Proof.
  intros Hl Ht Hid. unfold list_aware_find. erewrite bind_run by (by apply (obj_get_run _ _ l)). rewrite Ht.
  by apply id_lookup_run.
Qed.

Lemma aware_find_run s T id w : w_heap w !! srvc = Some (ObjAwareService s) -> aw_entries s = Some T -> id_ok id ->
  aware_find srvc id w = Some (T !! id, w).
Proof.
  intros Hs Ht Hid. unfold aware_find. erewrite bind_run by (by apply (obj_get_run _ _ s)). rewrite Ht.
  by apply id_lookup_run.
Qed.

(** The end of [list_add], when the entry is there. *)
Lemma list_join_run A S W w L l t id p s T Wt e : holds A S W w -> w_heap w !! L = Some (ObjAwareList l) ->
  al_service l = Some srvc -> al_entries l = Table t -> usable (al_attribs l) = true -> t !! id = None ->
  w_heap w !! srvc = Some (ObjAwareService s) -> service_state s = (Some T, Some Wt, Some chan) -> T !! id = Some p ->
  w_heap w !! p = Some (ObjAwareEntry e) ->
  exists w', (obj_set p (append_member L) ;; obj_set L (insert_entry id p) ;; ret true) w = Some (true, w')
    /\ same_rest w w' /\ holds (<[L := ({[id]} ∪ dom t, dom (own (al_attribs l)))]> A) S W w'.
Proof.
  intros H Hl Hls Ht Hu Htid Hs Es HT Hp. assert (L <> p) as Hne by congruence. injection Es as Es1 Es2 Es3.
  erewrite bind_run by (by apply (obj_set_run _ _ e)).
  erewrite bind_run by (apply (obj_set_run _ _ l); cbn; rewrite lookup_insert_ne by done; exact Hl).
  eexists. split; [reflexivity|]. split; [done|]. cbn.
  assert (insert_entry id p l = set_al_entries (Table (<[id := p]> t)) l) as -> by (unfold insert_entry; by rewrite Ht).
  pose proof H as [I (T0 & Wt0 & V & HT0 & HWt0) HL].
  assert (aw_entries s ≫= (.!! id) = Some p) as Hk by (by rewrite Es1).
  split.
  - exact (entry_join [] w I srvc s L l t id p e Hs Hk Hl Hls Ht Htid Hp).
  - exists T0, Wt0. split; [|done]. cbn. rewrite !view_insert. rewrite !decide_False by congruence. done.
  - intros M. cbn. rewrite !view_insert. destruct (decide (M = L)) as [->|].
    + rewrite lookup_insert_eq. cbn. rewrite list_state_of by done. cbn. by rewrite dom_insert_L.
    + rewrite lookup_insert_ne by done. destruct (decide (M = p)) as [->|]; [|done]. by rewrite HL, (view_at _ _ _ _ Hp).
Qed.

Lemma list_add_run A S W w L X id : holds A S W w -> A !! L = Some X -> id_ok id ->
  exists w', list_add L id w = Some (bool_decide (id ∉ X.1), w') /\ same_rest w w'
    /\ holds (<[L := ({[id]} ∪ X.1, X.2)]> A) ({[id]} ∪ S) W w'.
Proof.
  intros H HX Hid. pose proof (ho_inv _ _ _ _ H) as I.
  destruct (holds_list _ _ _ _ _ _ H HX) as (l & Hl & Hls & Hu1 & Hu2 & ->). cbn [fst snd].
  destruct (make_entries_table l Hu1) as (Ht & Hls1 & Ha1). set (t := own (al_entries l)) in *.
  unfold list_add. destruct Hid as (x & u & Hu). rewrite Hu. assert (id_ok id) as Hid by by exists x, u.
  erewrite bind_run by (unfold list_service; erewrite bind_run by (by apply (obj_get_run _ _ l)); rewrite Hls; reflexivity).
  assert (obj_set L make_entries w = Some (tt, set_w_heap (<[L := ObjAwareList (make_entries l)]> (w_heap w)) w)) as Em
    by exact (obj_set_run L make_entries l w Hl).
  erewrite bind_run by exact Em. pose proof (keeps_make_entries L [] w tt _ I Em) as I1.
  apply (holds_set_list _ _ _ _ L l _ (dom t, dom (own (al_attribs l))) H Hl) in I1 as H1.
  2:{ rewrite list_state_of; by rewrite ?Hls1, ?Ht, ?Ha1. }
  rewrite (insert_id A) in H1 by done. set (w1 := set_w_heap _ w) in *.
  assert (w_heap w1 !! L = Some (ObjAwareList (make_entries l))) as HL1 by apply lookup_insert_eq.
  assert (same_rest w w1) as R1 by done. clearbody w1. clear Em H.
  destruct (holds_service _ _ _ _ H1) as (s & T & Wt & Hs & HT & HWt & Hch & HdT & HdWt).
  erewrite bind_run by (by apply (list_aware_find_run L (make_entries l) t)). rewrite <- HdT.
  destruct (t !! id) as [p|] eqn:Htid.
  - exists w1. assert (id ∈ dom t) as Hdom by by apply elem_of_dom; eexists. rewrite bool_decide_false by tauto. split_and!; [done..|].
    rewrite (set_has id (dom t) Hdom), insert_id by done.
    assert ({[id]} ∪ dom T = dom T) as ->; [|by rewrite HdT].
    pose proof (view_some (list_of mwAwareIdBlock aware_entry) _ L _ HL1) as Vl. unfold list_of in Vl. cbn in Vl.
    rewrite Hls1, Ht in Vl. cbn in Vl.
    destruct (sh_list _ _ _ _ (ai_entries _ _ _ I1) _ _ _ _ _ Vl Htid) as (s' & T' & [= <-]%(eq_trans (eq_sym Hls)) & Vt & Hk).
    apply view_inv in Vt as (s' & Hs' & ->). assert (s' = s) as -> by (cbn in Hs'; congruence).
    unfold table_of in Hk. cbn in Hk. rewrite HT in Hk. cbn in Hk. apply set_has, elem_of_dom. by eexists.
  - assert (id ∉ dom t) as Hdom by by apply not_elem_of_dom. rewrite bool_decide_true by done.
    erewrite bind_run by (by apply (aware_find_run s T)). destruct (T !! id) as [p|] eqn:HTid.
    + erewrite bind_run by reflexivity.
      destruct (inv_entry [] w1 srvc s id p I1 Hs) as (e & Hp & _); [by rewrite HT|].
      destruct (list_join_run A S W w1 L (make_entries l) t id p s T Wt e H1 HL1) as (w' & Er & R2 & H2); try done.
      { by rewrite Hls1. } { by rewrite Ha1. } { unfold service_state. by rewrite HT, HWt, Hch. }
      exists w'. split; [exact Er|]. split; [by etrans|]. rewrite Ha1 in H2.
      assert ({[id]} ∪ dom T = dom T) as ->; [|by rewrite HdT].
      apply set_has, elem_of_dom. by eexists.
    + pose proof (below_fresh w1 (ai_below _ _ _ I1)) as Hn. assert (srvc <> w_next w1) as Hne by congruence.
      assert (L <> w_next w1) as HLn by congruence. assert (L <> srvc) as HLs by congruence.
      set (s2 := set_aw_entries (<[id := w_next w1]> <$> aw_entries s) s).
      set (w2 := set_w_heap (<[srvc := ObjAwareService s2]> (<[w_next w1 := ObjAwareEntry (new_entry id)]> (w_heap w1)))
        (set_w_next (w_next w1 + 1) w1)).
      erewrite (bind_run _ _ (w_next w1) w1 w2).
      2:{ erewrite bind_run by reflexivity.
        erewrite bind_run by (apply (obj_set_run _ _ s); cbn; rewrite lookup_insert_ne by done; exact Hs). done. }
      assert (aware_inv [] w2) as I2 by (apply (entry_new [] w1 I1 srvc s id Hs); by rewrite HT).
      assert (holds A ({[id]} ∪ S) W w2) as H2.
      { destruct H1 as [_ (T0 & Wt0 & V & HT0 & HWt0) HL]. split; [done| |].
        - exists (<[id := w_next w1]> T), Wt. cbn. rewrite view_insert, decide_True by done. cbn. unfold service_state. cbn.
          rewrite HT, HWt, Hch. split; [done|]. by rewrite dom_insert_L, HdT.
        - intros M. cbn. rewrite HL, !view_insert. destruct (decide (M = srvc)) as [->|]; [by rewrite (view_at _ _ _ _ Hs)|].
          destruct (decide (M = w_next w1)) as [->|]; [|done]. by rewrite (view_none _ _ _ Hn). }
      destruct (list_join_run A ({[id]} ∪ S) W w2 L (make_entries l) t id (w_next w1) s2 (<[id := w_next w1]> T) Wt (new_entry id) H2)
        as (w' & Er & R2 & H3); try done.
      { cbn. by rewrite !lookup_insert_ne. } { by rewrite Hls1. } { by rewrite Ha1. } { apply lookup_insert_eq. }
      { unfold service_state, s2. cbn. by rewrite HT, HWt, Hch. } { apply lookup_insert_eq. }
      { cbn. rewrite lookup_insert_ne by done. apply lookup_insert_eq. }
      exists w'. split; [exact Er|]. split; [etrans; [exact R1|]; etrans; [|exact R2]; done|]. rewrite Ha1 in H3. by rewrite HdT.
Qed.

(** A list has only what the service has. *)
Lemma holds_sub A S W w L X : holds A S W w -> A !! L = Some X -> X.1 ⊆ S /\ X.2 ⊆ W.
Proof.
  intros H HX. destruct (holds_list _ _ _ _ _ _ H HX) as (l & Hl & Hls & _ & _ & ->).
  destruct (holds_service _ _ _ _ H) as (s & T & Wt & Hs & HT & HWt & _ & <- & <-). pose proof (ho_inv _ _ _ _ H) as I. cbn.
  split; intros k (p & Hp)%elem_of_dom.
  - pose proof (view_some (list_of mwAwareIdBlock aware_entry) _ L l Hl) as Vl. unfold list_of in Vl. cbn in Vl.
    destruct (sh_list _ _ _ _ (ai_entries _ _ _ I) _ _ _ _ _ Vl Hp) as (s' & T' & Es & Vt & Hk).
    assert (s' = srvc) as -> by congruence. apply view_inv in Vt as (s' & Hs' & ->). assert (s' = s) as -> by (cbn in Hs'; congruence).
    unfold table_of in Hk. cbn in Hk. rewrite HT in Hk. apply elem_of_dom. by exists p.
  - pose proof (view_some (list_of Z attrib_entry) _ L l Hl) as Vl. unfold list_of in Vl. cbn in Vl.
    destruct (sh_list _ _ _ _ (ai_attribs _ _ _ I) _ _ _ _ _ Vl Hp) as (s' & T' & Es & Vt & Hk).
    assert (s' = srvc) as -> by congruence. apply view_inv in Vt as (s' & Hs' & ->). assert (s' = s) as -> by (cbn in Hs'; congruence).
    unfold table_of in Hk. cbn in Hk. rewrite HWt in Hk. apply elem_of_dom. by exists p.
Qed.

Lemma add_each_run A S W w L X ids acc : holds A S W w -> A !! L = Some X -> Forall id_ok ids ->
  exists adds w', add_each L ids acc w = Some (adds ++ acc, w') /\ same_rest w w'
    /\ holds (<[L := (list_to_set ids ∪ X.1, X.2)]> A) (list_to_set ids ∪ S) W w'
    /\ NoDup adds /\ forall id, id ∈ adds <-> id ∈ ids /\ id ∉ X.1.
Proof.
  revert A S w X acc. induction ids as [|id ids IH]; intros A S w X acc H HX Hok; cbn [add_each].
  - exists [], w. split_and!; [done..| |constructor|intros id; split; [by intros ?%not_elem_of_nil|by intros [?%not_elem_of_nil _]]]. cbn [list_to_set].
    rewrite !(left_id_L ∅ (∪)), insert_id; [done|]. by destruct X.
  - apply Forall_cons in Hok as [Hid Hok]. destruct (list_add_run A S W w L X id H HX Hid) as (w1 & E1 & R1 & H1).
    erewrite bind_run by exact E1. set (acc1 := if bool_decide (id ∉ X.1) then id :: acc else acc).
    destruct (IH _ _ w1 _ acc1 H1 (lookup_insert_eq _ _ _) Hok) as (adds & w' & E2 & R2 & H2 & Hnd & Hin). cbn [fst snd] in *.
    rewrite insert_insert_eq in H2.
    rewrite !set_add_cons in H2.
    exists (if bool_decide (id ∉ X.1) then adds ++ [id] else adds), w'. split_and!.
    + rewrite E2. unfold acc1. case_bool_decide; [|done]. by rewrite <- app_assoc.
    + by etrans.
    + done.
    + case_bool_decide; [|done]. apply NoDup_app. split_and!; [done| |apply NoDup_singleton].
      intros i Hi ->%list_elem_of_singleton. apply Hin in Hi as [_ Hi]. apply Hi, elem_of_union_l, elem_of_singleton_2. done.
    + intros i. clear - Hin. case_bool_decide; rewrite ?elem_of_app, ?list_elem_of_singleton, Hin, elem_of_cons, elem_of_union, elem_of_singleton; [|naive_solver].
      destruct (decide (i = id)); naive_solver.
Qed.

Definition told (w w' : world) (cmds : list command) : Prop :=
  exists es, mapM (cmd_event chid) cmds = Some es /\ w_log w' = w_log w ++ es
    /\ w_channels w' = w_channels w /\ w_services w' = w_services w.

Lemma told_rest w w' : same_rest w w' -> told w w' [].
Proof. intros [_ Hc Hs _ Hl]. exists []. split_and!; [done| |done..]. by rewrite app_nil_r. Qed.

Lemma told_trans w w1 w2 c1 c2 : told w w1 c1 -> told w1 w2 c2 -> told w w2 (c1 ++ c2).
Proof.
  intros (e1 & E1 & L1 & Hc1 & Hs1) (e2 & E2 & L2 & Hc2 & Hs2). exists (e1 ++ e2). split_and!; [|by rewrite L2, L1, app_assoc|congruence..].
  clear L1. revert e1 E1. induction c1 as [|c c1 IH]; intros e1 E1; cbn [mapM app] in *; [by injection E1 as <-|].
  destruct (cmd_event chid c) as [e|]; cbn in *; [|done]. destruct (mapM (cmd_event chid) c1) as [e1'|] eqn:Em; cbn in *; [|done].
  injection E1 as <-. by rewrite (IH e1' eq_refl).
Qed.

Lemma told_linked w w' cmds : told w w' cmds -> linked w -> linked w'.
Proof. intros (es & _ & _ & Hc & Hs) [H1 H2]. split; [by rewrite Hs|unfold plain_chan; by rewrite Hc]. Qed.

Lemma told_one w c e : cmd_event chid c = Some e -> told w (with_log [e] w) [c].
Proof. intros He. exists [e]. split; [|done]. cbn [mapM]. by rewrite He. Qed.

Lemma holds_log A S W w es : holds A S W w -> holds A S W (with_log es w).
Proof. intros [I V HL]. split; [|done..]. by apply (heap_only w). Qed.

(** What can be told: the ids and attributes of a client are finitely many. *)
Context (U : gset mwAwareIdBlock) (KU : gset Z).
Context (HU : zlen (ids_enc (elements U)) < 2 ^ 30) (HKU : zlen (keys_enc (elements KU)) < 2 ^ 30).
Context (HUok : forall id, id ∈ U -> id_ok id).

Lemma zlen_mjoin_sub {A} (f : A -> list Z) l l' : l ⊆+ l' -> zlen (mjoin (f <$> l)) <= zlen (mjoin (f <$> l')).
Proof.
  induction 1 as [|x l l' _ IH|x y l|x l l' _ IH|l1 l2 l3 _ IH1 _ IH2]; cbn [fmap list_fmap]; [done|..].
  - change (zlen (f x ++ mjoin (f <$> l)) <= zlen (f x ++ mjoin (f <$> l'))). rewrite !zlen_app. lia.
  - change (zlen (f y ++ f x ++ mjoin (f <$> l)) <= zlen (f x ++ f y ++ mjoin (f <$> l))). rewrite !zlen_app. lia.
  - change (zlen (mjoin (f <$> l)) <= zlen (f x ++ mjoin (f <$> l'))). rewrite zlen_app. pose proof (zlen_nonneg (f x)). lia.
  - lia.
Qed.

Lemma sub_elements {A} `{Countable A} (X : gset A) l : NoDup l -> (forall x, x ∈ l -> x ∈ X) -> l ⊆+ elements X.
Proof. intros Hnd Hl. apply NoDup_submseteq; [done|]. intros x Hx. apply elem_of_elements. by apply Hl. Qed.

Lemma fits_ids c ids : (c = CmdAdd ids \/ c = CmdRemove ids) -> NoDup ids -> (forall id, id ∈ ids -> id ∈ U) -> fits c.
Proof.
  intros Hc Hnd Hin. assert (cmd_enc c = ids_enc ids) as E0 by by destruct Hc as [-> | ->]. unfold fits. rewrite E0. unfold ids_enc in *.
  rewrite zlen_app, MW32_PUT_len in *. pose proof (zlen_mjoin_sub mwAwareIdBlock_enc _ _ (sub_elements U ids Hnd Hin)). lia.
Qed.
Lemma fits_keys ks : NoDup ks -> (forall k, k ∈ ks -> k ∈ KU) -> fits (CmdWatch ks).
Proof.
  intros Hnd Hin. unfold fits. cbn [cmd_enc]. unfold keys_enc in *. rewrite !zlen_app, !MW32_PUT_len in *.
  pose proof (zlen_mjoin_sub MW32_PUT _ _ (sub_elements KU ks Hnd Hin)). lia.
Qed.

(** *** Calls and what they do *)

Definition subs (S : gset mwAwareIdBlock) (W : gset Z) : subscriptions := {| sub_ids := S; sub_keys := W |}.

(** The call returns, the lists become [A'], and what it tells the server makes
    its subscriptions those of the service. *)
Definition acts {R} (m : M R) A S W A' S' W' : Prop := forall w, linked w -> holds A S W w ->
  exists r cmds w', m w = Some (r, w') /\ told w w' cmds /\ holds A' S' W' w'
    /\ obey_all (subs S W) cmds = subs S' W'.

Lemma acts_bind {R R'} (m : M R) (k : R -> M R') A S W A1 S1 W1 A2 S2 W2 :
  acts m A S W A1 S1 W1 -> (forall r, acts (k r) A1 S1 W1 A2 S2 W2) -> acts (bind m k) A S W A2 S2 W2.
Proof.
  intros Hm Hk w Hl H. destruct (Hm w Hl H) as (r & c1 & w1 & E1 & T1 & H1 & O1).
  destruct (Hk r w1 (told_linked _ _ _ T1 Hl) H1) as (r2 & c2 & w2 & E2 & T2 & H2 & O2).
  exists r2, (c1 ++ c2), w2. split_and!; [by erewrite bind_run by exact E1|by eapply told_trans|done|].
  unfold obey_all in *. by rewrite foldl_app, O1.
Qed.

(** A call that tells nothing. *)
Lemma acts_quiet {R} (m : M R) A S W A' : (forall w, holds A S W w -> exists r w', m w = Some (r, w') /\ same_rest w w' /\ holds A' S W w') ->
  acts m A S W A' S W.
Proof.
  intros Hm w _ H. destruct (Hm w H) as (r & w' & E1 & R1 & H1). exists r, [], w'. split_and!; [done|by apply told_rest|done..].
Qed.

Lemma service_live_run w : linked w -> service_live srvc w = Some (true, w).
Proof.
  intros [(sv & Hsv & Hl) _]. unfold service_live, mwService_getState, deref_service, bind, lift. rewrite Hsv. cbn. by rewrite Hl.
Qed.

Lemma list_service_run w A S W L X : holds A S W w -> A !! L = Some X -> obj_get L al_service w = Some (Some srvc, w).
Proof.
  intros H HX. destruct (holds_list _ _ _ _ _ _ H HX) as (l & Hl & Hls & _). rewrite <- Hls. by apply (obj_get_run _ _ l).
Qed.

Lemma service_chan_run w A S W : holds A S W w -> obj_get srvc aw_channel w = Some (Some chan, w).
Proof.
  intros H. destruct (holds_service _ _ _ _ H) as (s & T & Wt & Hs & _ & _ & <- & _). by apply (obj_get_run _ _ s).
Qed.

Lemma send_ids_run c type ids w : linked w -> cmd_type c = type -> cmd_enc c = ids_enc ids -> fits c ->
  exists e, cmd_event chid c = Some e /\ send_ids E type (Some chan) ids w = Some (0, with_log [e] w).
Proof.
  intros Hl <- He Hf. apply (send_cmd_run c (compose_list ids) w Hl); [|done]. rewrite He. apply compose_list_writes.
Qed.

Lemma addAware_acts A S W L X ids : A !! L = Some X -> (forall id, id ∈ ids -> id ∈ U) ->
  acts (mwAwareList_addAware E (Some L) ids) A S W
    (<[L := (list_to_set ids ∪ X.1, X.2)]> A) (list_to_set ids ∪ S) W.
Proof.
  intros HX Hids w Hl H. cbn [mwAwareList_addAware nonnull].
  erewrite bind_run by (by eapply list_service_run). cbn [nonnull].
  destruct (add_each_run A S W w L X ids [] H HX) as (adds & w1 & E1 & R1 & H1 & Hnd & Hin).
  { apply Forall_forall. intros id Hid. by apply HUok, Hids. }
  rewrite app_nil_r in E1. erewrite bind_run by exact E1. pose proof (linked_same _ _ R1 Hl) as Hl1.
  erewrite bind_run by (by apply service_live_run). cbn [andb]. destruct (holds_sub _ _ _ _ _ _ H HX) as [HXS _].
  case_bool_decide as Ha; cbn [negb].
  - subst adds. exists 0, [], w1. split_and!; [done|by apply told_rest|done|]. unfold obey_all, subs. cbn [foldl]. f_equal.
    rewrite <- (set_add_new [] ids X.1 S HXS Hin). cbn. by rewrite (left_id_L ∅ (∪)).
  - erewrite bind_run by (by eapply service_chan_run).
    destruct (send_ids_run (CmdAdd adds) msg_AWARE_ADD adds w1 Hl1) as (e & He & Es); [done|done| |].
    { apply (fits_ids _ adds); [by left|done|]. intros id Hid. apply Hids. by apply Hin. }
    exists 0, [CmdAdd adds], (with_log [e] w1). split_and!.
    + exact Es.
    + apply (told_trans w w1 _ [] _); [by apply told_rest|by apply told_one].
    + by apply holds_log.
    + unfold obey_all, subs. cbn [foldl obey sub_ids sub_keys]. f_equal. by apply (set_add_new adds ids X.1).
Qed.

(** ** Removing *)

Lemma remove_each_run A S W w L X ids : holds A S W w -> A !! L = Some X -> Forall id_ok ids ->
  exists w', remove_each L ids w = Some (tt, w') /\ same_rest w w'
    /\ holds (<[L := (X.1 ∖ list_to_set ids, X.2)]> A) S W w'.
Proof.
  revert A w X. induction ids as [|id ids IH]; intros A w X H HX Hok; cbn [remove_each].
  - exists w. split_and!; [done..|]. cbn [list_to_set]. rewrite difference_empty_L, insert_id; [done|]. by destruct X.
  - apply Forall_cons in Hok as [Hid Hok]. pose proof (ho_inv _ _ _ _ H) as I.
    destruct (holds_list _ _ _ _ _ _ H HX) as (l & Hl & Hls & Hu1 & Hu2 & EX).
    destruct (al_entries l) as [|t|] eqn:Ht; [| |done].
    + unfold list_aware_find. erewrite bind_run by (erewrite bind_run by (by apply (obj_get_run _ _ l)); rewrite Ht; reflexivity).
      erewrite bind_run by reflexivity. destruct (IH A w X H HX Hok) as (w' & E1 & R1 & H1). exists w'. split_and!; [done..|].
      subst X. cbn [fst snd own] in *. rewrite dom_empty_L in *.
      by rewrite <- set_remove_skip by apply not_elem_of_empty.
    + erewrite bind_run by (by apply (list_aware_find_run L l t)). destruct (t !! id) as [p|] eqn:Hp.
      * destruct (entry_leave [] w I L l t id p Hl) as (e & He & I'); [by rewrite Ht|done|].
        assert (L <> p) as Hne by congruence.
        erewrite bind_run.
        2:{ erewrite bind_run by (by apply (obj_set_run _ _ e)).
          apply (obj_set_run L (delete_entry id) l). cbn. by rewrite lookup_insert_ne. }
        assert (delete_entry id l = set_al_entries (Table (delete id t)) l) as Ed by (unfold delete_entry; by rewrite Ht).
        rewrite Ed. cbn [w_heap set_w_heap].
        set (w1 := set_w_heap (<[L := obj_in _]> _) _). change (aware_inv [] w1) in I'.
        assert (holds (<[L := (X.1 ∖ {[id]}, X.2)]> A) S W w1) as H1.
        { destruct H as [_ (T & Wt & V & HT & HWt) HL]. split; [done| |].
          - exists T, Wt. split; [|done]. cbn. rewrite !view_insert.
            destruct (decide (srvc = L)) as [<-|]; [by rewrite (view_at _ _ _ _ Hl) in V|].
            destruct (decide (srvc = p)) as [<-|]; [by rewrite (view_at _ _ _ _ He) in V|done].
          - intros M. cbn. rewrite !view_insert. destruct (decide (M = L)) as [->|].
            + rewrite lookup_insert_eq. cbn. rewrite list_state_of by done. cbn. subst X. cbn. by rewrite dom_delete_L.
            + rewrite lookup_insert_ne by done. destruct (decide (M = p)) as [->|]; [|done]. by rewrite HL, (view_at _ _ _ _ He). }
        destruct (IH _ w1 _ H1 (lookup_insert_eq _ _ _) Hok) as (w' & E1 & R1 & H2). exists w'. split; [exact E1|].
        split; [etrans; [|exact R1]; done|]. cbn [fst snd] in H2. rewrite insert_insert_eq in H2.
        by rewrite set_remove_cons in H2.
      * erewrite bind_run by reflexivity. destruct (IH A w X H HX Hok) as (w' & E1 & R1 & H1). exists w'. split_and!; [done..|].
        rewrite <- set_remove_skip; [done|]. subst X. cbn. by apply not_elem_of_dom.
Qed.

(** *** What is freed *)

(** The lists and the service are the same. *)
Record same_lists (w w' : world) : Prop := {
  sl_rest : same_rest w w';
  sl_service q : view service_state (w_heap w') q = view service_state (w_heap w) q;
  sl_lists q : view list_state (w_heap w') q = view list_state (w_heap w) q;
}.
#[local] Instance same_lists_preorder : PreOrder same_lists.
Proof.
  split; [intros w; by split|]. intros w1 w2 w3 [R1 V1 L1] [R2 V2 L2].
  split; [by etrans|intros q; by rewrite V2|intros q; by rewrite L2].
Qed.

Lemma holds_same A S W w w' : holds A S W w -> same_lists w w' -> aware_inv [] w' -> holds A S W w'.
Proof.
  intros [_ (T & Wt & V & HT) HL] [_ Hs Hll] I. split; [done|exists T, Wt; by rewrite Hs|]. intros L. by rewrite Hll.
Qed.

(** A block that is neither goes, or changes. *)
Lemma same_lists_delete w p o : w_heap w !! p = Some o ->
  service_state <$> obj_out o = None -> list_state <$> obj_out o = None ->
  same_lists w (set_w_heap (delete p (w_heap w)) w).
Proof.
  intros Hp H1 H2. split; [done|..]; intros q; cbn; rewrite view_delete; destruct (decide (q = p)) as [->|]; try done;
    by rewrite (view_at _ _ _ _ Hp).
Qed.

Lemma attrib_free_run q a w : w_heap w !! q = Some (ObjAttribute a) ->
  attrib_free q w = Some (tt, set_w_heap (delete q (w_heap w)) w).
Proof.
  intros Hq. unfold attrib_free. erewrite bind_run by (by apply (obj_deref_run q a)). by apply (free_object_run q (ObjAttribute a)).
Qed.

Lemma entry_attribs_run D p e w : aware_inv (p :: D) w -> w_heap w !! p = Some (ObjAwareEntry e) ->
  exists w', for_each attrib_free (e_values E Z (ae_attribs e)) w = Some (tt, w')
    /\ w_heap w' !! p = Some (ObjAwareEntry e) /\ same_lists w w'.
Proof.
  intros I Hp.
  enough (forall vs t w1, vs ≡ₚ (map_to_list t).*2 -> w_heap w1 !! p = Some (ObjAwareEntry e) ->
    aware_inv (p :: D) (virt p (ObjAwareEntry (set_ae_attribs t e)) w1) ->
    exists w', for_each attrib_free vs w1 = Some (tt, w') /\ w_heap w' !! p = Some (ObjAwareEntry e) /\ same_lists w1 w') as Hall.
  { apply (Hall _ (ae_attribs e)); [apply HE|done|]. apply virt_self; [by destruct e|done]. }
  clear I Hp w. intros vs. induction vs as [|q vs IH]; intros t w Hvs Hp I; cbn [for_each].
  - by exists w.
  - apply values_cons in Hvs as (k & Hk & Hvs).
    destruct (attrib_drop _ _ I p (set_ae_attribs t e) k q) as [(a & Hq) I']; [apply lookup_insert_eq|done|].
    unfold virt in Hq, I'. cbn in Hq, I'.
    assert (p <> q) as Hne by (intros ->; rewrite lookup_insert_eq in Hq; done). rewrite lookup_insert_ne in Hq by done.
    erewrite bind_run by (by eapply attrib_free_run). set (w1 := set_w_heap (delete q (w_heap w)) w).
    rewrite delete_insert_ne, insert_insert_eq in I' by done.
    destruct (IH (delete k t) w1 Hvs) as (w' & E1 & Hp' & R1); [cbn; by rewrite lookup_delete_ne|exact I'|].
    exists w'. split_and!; [done..|]. etrans; [|exact R1]. by eapply same_lists_delete.
Qed.

Lemma aware_entry_free_run D p w : aware_inv (p :: D) w ->
  exists w', aware_entry_free E p w = Some (tt, w') /\ same_lists w w' /\ aware_inv D w'.
Proof.
  intros I. destruct (sh_stolen _ _ _ _ (ai_entries _ _ _ I) p ltac:(left)) as [(k & Vn) _].
  apply view_inv in Vn as (e & Hp & _). cbn in Hp. destruct (entry_attribs_run D p e w I Hp) as (w1 & E1 & Hp1 & R1).
  assert (aware_entry_free E p w = Some (tt, set_w_heap (delete p (w_heap w1)) w1)) as Er.
  { unfold aware_entry_free. erewrite bind_run by (by apply (obj_deref_run p e)). erewrite bind_run by exact E1.
    by eapply free_object_run. }
  eexists. split; [exact Er|]. split; [etrans; [exact R1|]; by eapply same_lists_delete|]. by eapply aware_entry_free_inv.
Qed.

Lemma free_dead_run dead w : aware_inv dead w ->
  exists w', for_each (aware_entry_free E) dead w = Some (tt, w') /\ same_lists w w' /\ aware_inv [] w'.
Proof.
  revert w. induction dead as [|p dead IH]; intros w I; cbn [for_each]; [by exists w|].
  destruct (aware_entry_free_run dead p w I) as (w1 & E1 & R1 & I1). destruct (IH w1 I1) as (w' & E2 & R2 & I2).
  exists w'. split_and!; [by erewrite bind_run by exact E1|by etrans|done].
Qed.

(** *** Entries without a list *)

Definition is_dead (h : gmap Z object) (p : Z) : bool :=
  match h !! p with Some (ObjAwareEntry e) => bool_decide (ae_membership e = []) | _ => false end.
Definition id_at (h : gmap Z object) (p : Z) : mwAwareIdBlock :=
  match h !! p with Some (ObjAwareEntry e) => as_id (ae_aware e) | _ => ai_zero end.

Lemma collect_dead_run vs w : (forall p, p ∈ vs -> exists e, w_heap w !! p = Some (ObjAwareEntry e)) ->
  collect_dead vs w = Some (filter (fun p => is_dead (w_heap w) p = true) vs, w).
Proof.
  induction vs as [|p vs IH]; intros Hvs; cbn [collect_dead]; [done|].
  destruct (Hvs p ltac:(left)) as (e & He). erewrite bind_run by (by apply (obj_get_run p _ e)).
  erewrite bind_run by (apply IH; intros q Hq; apply Hvs; by right). rewrite filter_cons.
  assert (is_dead (w_heap w) p = bool_decide (ae_membership e = [])) as -> by (unfold is_dead; by rewrite He).
  destruct (ae_membership e); [by rewrite decide_True|by rewrite decide_False].
Qed.

Lemma entry_ids_run vs w : (forall p, p ∈ vs -> exists e, w_heap w !! p = Some (ObjAwareEntry e)) ->
  entry_ids vs w = Some (id_at (w_heap w) <$> vs, w).
Proof.
  induction vs as [|p vs IH]; intros Hvs; cbn [entry_ids fmap list_fmap]; [done|].
  destruct (Hvs p ltac:(left)) as (e & He). erewrite bind_run by (by apply (obj_get_run p _ e)).
  erewrite bind_run by (apply IH; intros q Hq; apply Hvs; by right). assert (id_at (w_heap w) p = as_id (ae_aware e)) as -> by (unfold id_at; by rewrite He). done.
Qed.

Definition all_ids (A : gmap Z (gset mwAwareIdBlock * gset Z)) : gset mwAwareIdBlock := ⋃ (fst <$> (map_to_list A).*2).
Definition all_keys (A : gmap Z (gset mwAwareIdBlock * gset Z)) : gset Z := ⋃ (snd <$> (map_to_list A).*2).

Lemma elem_of_all_ids A id : id ∈ all_ids A <-> exists L X, A !! L = Some X /\ id ∈ X.1.
Proof.
  unfold all_ids. rewrite elem_of_union_list. setoid_rewrite list_elem_of_fmap. setoid_rewrite list_elem_of_fmap. split.
  - intros (Y & (X & -> & ([L X'] & -> & HL)) & Hid). apply elem_of_map_to_list in HL. by exists L, X'.
  - intros (L & X & HL & Hid). exists X.1. split; [|done]. exists X. split; [done|]. exists (L, X). split; [done|].
    by apply elem_of_map_to_list.
Qed.
Lemma elem_of_all_keys A k : k ∈ all_keys A <-> exists L X, A !! L = Some X /\ k ∈ X.2.
Proof.
  unfold all_keys. rewrite elem_of_union_list. setoid_rewrite list_elem_of_fmap. setoid_rewrite list_elem_of_fmap. split.
  - intros (Y & (X & -> & ([L X'] & -> & HL)) & Hid). apply elem_of_map_to_list in HL. by exists L, X'.
  - intros (L & X & HL & Hid). exists X.2. split; [|done]. exists X. split; [done|]. exists (L, X). split; [done|].
    by apply elem_of_map_to_list.
Qed.

Lemma holds_any_list A S W w L l : holds A S W w -> w_heap w !! L = Some (ObjAwareList l) -> al_service l = Some srvc ->
  A !! L = Some (dom (own (al_entries l)), dom (own (al_attribs l))).
Proof.
  intros H Hl Hs. pose proof (ho_lists _ _ _ _ H L) as HL. erewrite (view_some list_state) in HL by exact Hl.
  unfold list_state in HL. rewrite bool_decide_true in HL by done. cbn in HL. destruct (A !! L) as [X|]; [|done].
  destruct (usable (al_entries l) && usable (al_attribs l)); [|done]. injection HL as ->. done.
Qed.

(** An entry has a list exactly if a list has its id. *)
Lemma entry_listed A S W w s T id p : holds A S W w -> w_heap w !! srvc = Some (ObjAwareService s) ->
  aw_entries s = Some T -> T !! id = Some p -> is_dead (w_heap w) p = false <-> id ∈ all_ids A.
Proof.
  intros H Hs HT Hp. pose proof (ho_inv _ _ _ _ H) as I.
  pose proof (view_some (table_of mwAwareIdBlock aware_entry) _ srvc s Hs) as Vt. unfold table_of in Vt. cbn in Vt. rewrite HT in Vt.
  cbn in Vt. destruct (sh_node _ _ _ _ (ai_entries _ _ _ I) _ _ _ _ Vt Hp) as (ms & Vn & _ & Hm).
  apply view_inv in Vn as (e & He & [= Hid ->]). cbn in He, Hm. rewrite elem_of_all_ids. unfold is_dead. rewrite He.
  rewrite bool_decide_eq_false. split.
  - intros Hne. destruct (ae_membership e) as [|k ms] eqn:Em; [done|]. destruct (proj1 (Hm k.2)) as (t & Vl & Ht); [left|].
    apply view_inv in Vl as (l & Hl & El). unfold list_of in El. cbn in El. injection El as E1 E2. cbn in Hl.
    exists k.2, (dom (own (al_entries l)), dom (own (al_attribs l))). split; [by eapply holds_any_list|]. cbn.
    rewrite <- E2. apply elem_of_dom. by eexists.
  - intros (L & X & HX & HidX) Hnil. destruct (holds_list _ _ _ _ _ _ H HX) as (l & Hl & Hls & _ & _ & ->). cbn in HidX.
    apply elem_of_dom in HidX as (q & Hq). pose proof (view_some (list_of mwAwareIdBlock aware_entry) _ L l Hl) as Vl.
    unfold list_of in Vl. cbn in Vl.
    destruct (sh_list _ _ _ _ (ai_entries _ _ _ I) _ _ _ _ _ Vl Hq) as (s' & T' & Es & Vt' & Hk).
    assert (s' = srvc) as -> by congruence. injection (eq_trans (eq_sym Vt) Vt') as <-. assert (q = p) as -> by congruence.
    assert (L ∈ (ae_membership e).*2) as HLm by (apply Hm; exists (own (al_entries l)); by rewrite <- Hls).
    rewrite Hnil in HLm. by apply not_elem_of_nil in HLm.
Qed.

(** What leaves the table, and what stays. *)
Lemma entry_value T p : p ∈ id_values E T <-> exists id, T !! id = Some p.
Proof.
  rewrite (id_values_perm E T HE), list_elem_of_fmap. split.
  - intros ([id q] & -> & Hq%elem_of_map_to_list). by exists id.
  - intros [id Hq]. exists (id, p). split; [done|by apply elem_of_map_to_list].
Qed.

Lemma service_entry A S W w s T id p : holds A S W w -> w_heap w !! srvc = Some (ObjAwareService s) ->
  aw_entries s = Some T -> T !! id = Some p ->
  exists e, w_heap w !! p = Some (ObjAwareEntry e) /\ id_at (w_heap w) p = id.
Proof.
  intros H Hs HT Hp. destruct (inv_entry [] w srvc s id p (ho_inv _ _ _ _ H) Hs) as (e & He & Hid); [by rewrite HT|].
  exists e. unfold id_at. by rewrite He.
Qed.

Lemma steal_dom A S W w s T : holds A S W w -> w_heap w !! srvc = Some (ObjAwareService s) -> aw_entries s = Some T -> dom T = S ->
  let dead := filter (fun p => is_dead (w_heap w) p = true) (id_values E T) in
  dom (steal_entries dead T) = all_ids A
  /\ NoDup (id_at (w_heap w) <$> dead)
  /\ forall id, id ∈ (id_at (w_heap w) <$> dead) <-> id ∈ S /\ id ∉ all_ids A.
Proof.
  intros H Hs HT HdT dead. assert (all_ids A ⊆ S) as Hsub.
  { intros id (L & X & HX & Hid)%elem_of_all_ids. by apply (holds_sub _ _ _ _ _ _ H HX). }
  assert (forall id p, T !! id = Some p -> p ∈ dead <-> id ∉ all_ids A) as Hd.
  { intros id p Hp. unfold dead. rewrite list_elem_of_filter, entry_value, <- (entry_listed A S W w s T id p H Hs HT Hp).
    destruct (is_dead (w_heap w) p); split; [by intros [_ ?]|intros _; split; [done|by exists id]|by intros [? _]|done]. }
  split_and!.
  - apply set_eq. intros id. rewrite elem_of_dom. unfold steal_entries. split.
    + intros [p [Hp Hn]%map_lookup_filter_Some]. cbn in Hn. rewrite (Hd _ _ Hp) in Hn. by destruct (decide (id ∈ all_ids A)).
    + intros Hid. pose proof (Hsub _ Hid) as HidT. rewrite <- HdT in HidT. apply elem_of_dom in HidT as [p Hp]. exists p.
      apply map_lookup_filter_Some. split; [done|]. cbn. rewrite (Hd _ _ Hp). tauto.
  - apply NoDup_fmap_2_strong.
    + intros p q Hp Hq. apply list_elem_of_filter in Hp as [_ Hp], Hq as [_ Hq]. apply entry_value in Hp as [k Hp], Hq as [k' Hq].
      destruct (service_entry _ _ _ _ _ _ _ _ H Hs HT Hp) as (_ & _ & ->).
      destruct (service_entry _ _ _ _ _ _ _ _ H Hs HT Hq) as (_ & _ & ->). congruence.
    + apply NoDup_filter. rewrite (id_values_perm E T HE). pose proof (ai_entries _ _ _ (ho_inv _ _ _ _ H)) as Ie.
      pose proof (table_nodup [] _ srvc s Ie Hs) as Hn. unfold table_of in Hn. cbn in Hn. by rewrite HT in Hn.
  - intros id. rewrite list_elem_of_fmap. split.
    + intros (p & -> & Hp). pose proof Hp as Hp'. apply list_elem_of_filter in Hp as [_ Hp]. apply entry_value in Hp as [k Hp].
      destruct (service_entry _ _ _ _ _ _ _ _ H Hs HT Hp) as (_ & _ & ->). split; [|by apply (Hd k p Hp)].
      rewrite <- HdT. apply elem_of_dom. by exists p.
    + intros [HidS Hn]. rewrite <- HdT in HidS. apply elem_of_dom in HidS as [p Hp]. exists p. split; [|by apply (Hd id p Hp)].
      by destruct (service_entry _ _ _ _ _ _ _ _ H Hs HT Hp) as (_ & _ & ->).
Qed.

Lemma remove_unused_acts A S W : S ⊆ U -> acts (remove_unused E srvc) A S W A (all_ids A) W.
Proof.
  intros HSU w Hl H. destruct (holds_service _ _ _ _ H) as (s & T & Wt & Hs & HT & HWt & Hch & HdT & HdWt).
  destruct (steal_dom A S W w s T H Hs HT HdT) as (Hdom & Hnd & Hids). set (dead := filter _ _) in *.
  assert (forall p, p ∈ id_values E T -> exists e, w_heap w !! p = Some (ObjAwareEntry e)) as Hvs.
  { intros p [id Hp]%entry_value. destruct (service_entry _ _ _ _ _ _ _ _ H Hs HT Hp) as (e & He & _). by exists e. }
  set (s1 := set_aw_entries (steal_entries dead <$> aw_entries s) s).
  set (w1 := set_w_heap (<[srvc := ObjAwareService s1]> (w_heap w)) w).
  assert (collect_dead (id_values E T) w = Some (dead, w)) as Ec by by apply collect_dead_run.
  assert (obj_set srvc (fun s => set_aw_entries (steal_entries dead <$> aw_entries s) s) w = Some (tt, w1)) as Es
    by exact (obj_set_run srvc _ s w Hs).
  pose proof (steal_entries_inv E HE [] srvc T w dead w w1 (ho_inv _ _ _ _ H) (ex_intro _ s (conj Hs HT)) Ec Es) as I1.
  rewrite app_nil_r in I1.
  assert (forall w2 w', w_heap w2 = w_heap w1 -> same_lists w2 w' -> aware_inv [] w' -> holds A (all_ids A) W w') as Hfin.
  { intros w2 w' Eh R I. destruct H as [_ _ HL]. split; [done| |].
    - exists (steal_entries dead T), Wt. rewrite (sl_service _ _ R), Eh. cbn. rewrite view_insert, decide_True by done. cbn.
      unfold service_state, s1. cbn. by rewrite HT, HWt, Hch, Hdom.
    - intros L. rewrite HL, (sl_lists _ _ R), Eh. cbn. rewrite view_insert. destruct (decide (L = srvc)) as [->|]; [|done].
      by rewrite (view_at _ _ _ _ Hs). }
  assert (obj_get srvc aw_entries w = Some (Some T, w)) as Eg by (rewrite <- HT; by apply (obj_get_run _ _ s)).
  unfold remove_unused. erewrite bind_run by exact Eg.
  erewrite (bind_run _ _ dead w w1).
  2:{ erewrite bind_run by exact Ec. by erewrite bind_run by exact Es. }
  assert (linked w1) as Hl1 by by apply (linked_same w).
  destruct (free_dead_run dead w1 I1) as (w' & Ef & Rf & If). pose proof (Hfin w1 w' eq_refl Rf If) as H'.
  destruct dead as [|p dead'] eqn:Hdead.
  - cbn in Ef. injection Ef as <-. exists 0, [], w1. split_and!; [done|by apply told_rest|done|].
    unfold obey_all, subs. cbn. f_equal. apply set_eq. intros id. specialize (Hids id). cbn in Hids.
    assert (id ∈ all_ids A -> id ∈ S) as Hsub.
    { intros (L & X & HX & Hid)%elem_of_all_ids. by apply (holds_sub _ _ _ _ _ _ H HX). }
    pose proof (not_elem_of_nil id). destruct (decide (id ∈ all_ids A)); tauto.
  - rewrite <- Hdead in *. erewrite bind_run by (by apply service_live_run). cbn iota.
    assert (obj_get srvc aw_channel w1 = Some (Some chan, w1)) as Eh.
    { assert (w_heap w1 !! srvc = Some (ObjAwareService s1)) as Hs1 by apply lookup_insert_eq. rewrite <- Hch.
      exact (obj_get_run srvc aw_channel s1 w1 Hs1). }
    assert (entry_ids dead w1 = Some (id_at (w_heap w) <$> dead, w1)) as Ei.
    { rewrite (entry_ids_run dead w1).
      - f_equal. f_equal. apply list_fmap_ext. intros i q Hq. unfold id_at. cbn. rewrite lookup_insert_ne; [done|].
        intros <-. assert (srvc ∈ dead) as [_ Hq']%list_elem_of_filter by by eapply list_elem_of_lookup_2.
        destruct (Hvs _ Hq') as [e He]. congruence.
      - intros q [_ Hq]%list_elem_of_filter. destruct (Hvs _ Hq) as [e He]. exists e. cbn. rewrite lookup_insert_ne; [done|].
        intros <-. congruence. }
    set (ids := id_at (w_heap w) <$> dead) in *.
    destruct (send_ids_run (CmdRemove ids) msg_AWARE_REMOVE ids w1 Hl1) as (e & He & Er); [done|done| |].
    { apply (fits_ids _ ids); [by right|done|]. intros id [Hid _]%Hids. by apply HSU. }
    destruct (free_dead_run dead (with_log [e] w1)) as (w2 & Ef2 & Rf2 & If2); [by apply (heap_only w1)|].
    exists 0, [CmdRemove ids], w2. split_and!.
    + erewrite bind_run; [by erewrite bind_run by exact Ef2|]. erewrite bind_run by exact Eh. erewrite bind_run by exact Ei.
      unfold send_rem. by erewrite bind_run by exact Er.
    + apply (told_trans w w1 _ [] _); [by apply told_rest|].
      apply (told_trans w1 (with_log [e] w1) _ [_] []); [by apply told_one|by apply told_rest, (sl_rest _ _ Rf2)].
    + by apply (Hfin (with_log [e] w1)).
    + unfold obey_all, subs. cbn. f_equal. apply set_eq. intros id. rewrite elem_of_difference, elem_of_list_to_set, Hids.
      assert (id ∈ all_ids A -> id ∈ S) as Hsub.
      { intros (L & X & HX & Hid)%elem_of_all_ids. by apply (holds_sub _ _ _ _ _ _ H HX). }
      destruct (decide (id ∈ all_ids A)); tauto.
Qed.

Lemma removeAware_acts A S W L X ids : A !! L = Some X -> S ⊆ U -> Forall id_ok ids ->
  let A' := <[L := (X.1 ∖ list_to_set ids, X.2)]> A in
  acts (mwAwareList_removeAware E (Some L) ids) A S W A' (all_ids A') W.
Proof.
  intros HX HS Hok A' w Hl H. cbn [mwAwareList_removeAware nonnull].
  destruct (remove_each_run A S W w L X ids H HX Hok) as (w1 & E1 & R1 & H1).
  destruct (remove_unused_acts A' S W HS w1 (linked_same _ _ R1 Hl) H1) as (r & cmds & w2 & E2 & T2 & H2 & O2).
  exists r, cmds, w2. split_and!; [|by apply (told_trans w w1 _ []); [apply told_rest|]|done..].
  erewrite bind_run by (by eapply list_service_run). cbn [nonnull]. by erewrite bind_run by exact E1.
Qed.

(** ** Watched attributes *)

Lemma make_attribs_table l : usable (al_attribs l) = true ->
  al_attribs (make_attribs l) = Table (own (al_attribs l)) /\ al_service (make_attribs l) = al_service l
  /\ al_entries (make_attribs l) = al_entries l.
Proof. unfold make_attribs. by destruct (al_attribs l) eqn:El; rewrite ?El. Qed.

Lemma watch_lookup_run L l k w : w_heap w !! L = Some (ObjAwareList l) -> usable (al_attribs l) = true ->
  watch_lookup L k w = Some (own (al_attribs l) !! k, w).
Proof.
  intros Hl Hu. unfold watch_lookup. erewrite bind_run by (by apply (obj_get_run _ _ l)). by destruct (al_attribs l).
Qed.

Lemma watch_join_run A S W w L l t k p s T Wt e : holds A S W w -> w_heap w !! L = Some (ObjAwareList l) ->
  al_service l = Some srvc -> al_attribs l = Table t -> usable (al_entries l) = true -> t !! k = None ->
  w_heap w !! srvc = Some (ObjAwareService s) -> service_state s = (Some T, Some Wt, Some chan) -> Wt !! k = Some p ->
  w_heap w !! p = Some (ObjAttribEntry e) ->
  exists w', (obj_set L (insert_attrib k p) ;; obj_set p (fun e => set_we_membership (L :: we_membership e) e)) w = Some (tt, w')
    /\ same_rest w w' /\ holds (<[L := (dom (own (al_entries l)), {[k]} ∪ dom t)]> A) S W w'.
Proof.
  intros H Hl Hls Ht Hu Htk Hs Es HT Hp. assert (L <> p) as Hne by congruence. injection Es as Es1 Es2 Es3.
  erewrite bind_run by (by apply (obj_set_run _ _ l)).
  rewrite (obj_set_run p _ e) by (cbn; by rewrite lookup_insert_ne).
  eexists. split; [reflexivity|]. split; [done|]. cbn.
  assert (insert_attrib k p l = set_al_attribs (Table (<[k := p]> t)) l) as -> by (unfold insert_attrib; by rewrite Ht).
  pose proof H as [I (T0 & Wt0 & V & HT0 & HWt0) HL].
  assert (aw_attribs s ≫= (.!! k) = Some p) as Hk by (by rewrite Es2). rewrite (insert_insert_ne _ p L) by done.
  split.
  - exact (watch_join [] w I srvc s L l t k p e Hs Hk Hl Hls Ht Htk Hp).
  - exists T0, Wt0. split; [|done]. cbn. rewrite !view_insert. rewrite !decide_False by congruence. done.
  - intros M. cbn. rewrite !view_insert. destruct (decide (M = L)) as [->|].
    + rewrite lookup_insert_eq. cbn. rewrite list_state_of by done. cbn. by rewrite dom_insert_L.
    + rewrite lookup_insert_ne by done. destruct (decide (M = p)) as [->|]; [|done]. by rewrite HL, (view_at _ _ _ _ Hp).
Qed.

Lemma list_key A S W w L l k p : holds A S W w -> w_heap w !! L = Some (ObjAwareList l) -> al_service l = Some srvc ->
  own (al_attribs l) !! k = Some p -> k ∈ W.
Proof.
  intros H Hl Hs Hk. apply (holds_sub _ _ _ _ L _ H (holds_any_list _ _ _ _ _ _ H Hl Hs)). cbn. apply elem_of_dom. by exists p.
Qed.

Lemma watch_add_run A S W w L X k : holds A S W w -> A !! L = Some X ->
  exists w', watch_add L k w = Some (tt, w') /\ same_rest w w' /\ holds (<[L := (X.1, {[k]} ∪ X.2)]> A) S ({[k]} ∪ W) w'.
Proof.
  intros H HX. pose proof (ho_inv _ _ _ _ H) as I.
  destruct (holds_list _ _ _ _ _ _ H HX) as (l & Hl & Hls & Hu1 & Hu2 & ->). cbn [fst snd].
  destruct (make_attribs_table l Hu2) as (Ht & Hls1 & Ha1). set (t := own (al_attribs l)) in *. unfold watch_add.
  assert (obj_set L make_attribs w = Some (tt, set_w_heap (<[L := ObjAwareList (make_attribs l)]> (w_heap w)) w)) as Em
    by exact (obj_set_run L make_attribs l w Hl).
  erewrite bind_run by exact Em. pose proof (keeps_make_attribs L [] w tt _ I Em) as I1.
  apply (holds_set_list _ _ _ _ L l _ (dom (own (al_entries l)), dom t) H Hl) in I1 as H1.
  2:{ rewrite list_state_of; by rewrite ?Hls1, ?Ht, ?Ha1. }
  rewrite (insert_id A) in H1 by done. set (w1 := set_w_heap _ w) in *.
  assert (w_heap w1 !! L = Some (ObjAwareList (make_attribs l))) as HL1 by apply lookup_insert_eq.
  assert (same_rest w w1) as R1 by done. clearbody w1. clear Em H.
  destruct (holds_service _ _ _ _ H1) as (s & T & Wt & Hs & HT & HWt & Hch & HdT & HdWt).
  erewrite bind_run by (apply (watch_lookup_run L _ k w1 HL1); by rewrite Ht). rewrite Ht. cbn [own].
  destruct (t !! k) as [p|] eqn:Htk.
  - exists w1. assert (k ∈ dom t) as Hdom by by apply elem_of_dom; eexists. split_and!; [done..|].
    assert (k ∈ W) as HkW by (apply (list_key A S W w1 L (make_attribs l) k p H1 HL1); [by rewrite Hls1|by rewrite Ht]).
    rewrite (subseteq_union_1_L {[k]} (dom t)), (subseteq_union_1_L {[k]} W) by by apply singleton_subseteq_l. by rewrite insert_id.
  - erewrite bind_run by (unfold list_service; erewrite bind_run by (by apply (obj_get_run _ _ (make_attribs l))); rewrite Hls1, Hls; reflexivity).
    erewrite bind_run by (by apply (obj_get_run _ _ s)). rewrite HWt. cbn [mbind option_bind].
    destruct (Wt !! k) as [p|] eqn:HWk.
    + erewrite bind_run by reflexivity.
      destruct (inv_watch [] w1 srvc s k p I1 Hs) as (e & Hp & _); [by rewrite HWt|].
      destruct (watch_join_run A S W w1 L (make_attribs l) t k p s T Wt e H1 HL1) as (w' & Er & R2 & H2); try done.
      { by rewrite Hls1. } { by rewrite Ha1. } { unfold service_state. by rewrite HT, HWt, Hch. }
      exists w'. split; [exact Er|]. split; [by etrans|]. rewrite Ha1 in H2.
      rewrite (subseteq_union_1_L {[k]} W); [done|]. apply singleton_subseteq_l. rewrite <- HdWt. apply elem_of_dom. by exists p.
    + pose proof (below_fresh w1 (ai_below _ _ _ I1)) as Hn. assert (srvc <> w_next w1) as Hne by congruence.
      assert (L <> w_next w1) as HLn by congruence. assert (L <> srvc) as HLs by congruence.
      set (s2 := set_aw_attribs (<[k := w_next w1]> <$> aw_attribs s) s). set (e := {| we_key := k; we_membership := [] |}).
      set (w2 := set_w_heap (<[srvc := ObjAwareService s2]> (<[w_next w1 := ObjAttribEntry e]> (w_heap w1)))
        (set_w_next (w_next w1 + 1) w1)).
      erewrite (bind_run _ _ (w_next w1) w1 w2).
      2:{ erewrite bind_run by reflexivity.
        erewrite bind_run by (apply (obj_set_run _ _ s); cbn; rewrite lookup_insert_ne by done; exact Hs). done. }
      assert (aware_inv [] w2) as I2 by (apply (watch_new [] w1 I1 srvc s k Hs); by rewrite HWt).
      assert (holds A S ({[k]} ∪ W) w2) as H2.
      { destruct H1 as [_ (T0 & Wt0 & V & HT0 & HWt0) HL]. split; [done| |].
        - exists T, (<[k := w_next w1]> Wt). cbn. rewrite view_insert, decide_True by done. cbn. unfold service_state. cbn.
          rewrite HT, HWt, Hch. split; [done|]. by rewrite dom_insert_L, HdWt.
        - intros M. cbn. rewrite HL, !view_insert. destruct (decide (M = srvc)) as [->|]; [by rewrite (view_at _ _ _ _ Hs)|].
          destruct (decide (M = w_next w1)) as [->|]; [|done]. by rewrite (view_none _ _ _ Hn). }
      destruct (watch_join_run A S ({[k]} ∪ W) w2 L (make_attribs l) t k (w_next w1) s2 T (<[k := w_next w1]> Wt) e H2)
        as (w' & Er & R2 & H3); try done.
      { cbn. by rewrite !lookup_insert_ne. } { by rewrite Hls1. } { by rewrite Ha1. } { apply lookup_insert_eq. }
      { unfold service_state, s2. cbn. by rewrite HT, HWt, Hch. } { apply lookup_insert_eq. }
      { cbn. rewrite lookup_insert_ne by done. apply lookup_insert_eq. }
      exists w'. split; [exact Er|]. split; [etrans; [exact R1|]; etrans; [|exact R2]; done|]. by rewrite Ha1 in H3.
Qed.

Lemma watch_each_run A S W w L X ks : holds A S W w -> A !! L = Some X ->
  exists w', for_each (watch_add L) ks w = Some (tt, w') /\ same_rest w w'
    /\ holds (<[L := (X.1, list_to_set ks ∪ X.2)]> A) S (list_to_set ks ∪ W) w'.
Proof.
  revert A W w X. induction ks as [|k ks IH]; intros A W w X H HX; cbn [for_each list_to_set].
  - exists w. split_and!; [done..|]. rewrite !(left_id_L ∅ (∪)), insert_id; [done|]. by destruct X.
  - destruct (watch_add_run A S W w L X k H HX) as (w1 & E1 & R1 & H1). erewrite bind_run by exact E1.
    destruct (IH _ _ w1 _ H1 (lookup_insert_eq _ _ _)) as (w' & E2 & R2 & H2). cbn [fst snd] in H2. rewrite insert_insert_eq in H2.
    exists w'. split_and!; [done|by etrans|].
    by rewrite !(union_comm_L {[k]} (list_to_set ks)), <- !(assoc_L (∪) (list_to_set ks)).
Qed.

Lemma watch_remove_run A S W w L X k : holds A S W w -> A !! L = Some X ->
  exists w', watch_remove L k w = Some (tt, w') /\ same_rest w w' /\ holds (<[L := (X.1, X.2 ∖ {[k]})]> A) S W w'.
Proof.
  intros H HX. pose proof (ho_inv _ _ _ _ H) as I. destruct (holds_list _ _ _ _ _ _ H HX) as (l & Hl & Hls & Hu1 & Hu2 & EX).
  unfold watch_remove. erewrite bind_run by (by apply (watch_lookup_run L l k w Hl)).
  destruct (own (al_attribs l) !! k) as [p|] eqn:Hp.
  - destruct (al_attribs l) as [|t|] eqn:Ht; [done| |done]. cbn [own] in Hp.
    destruct (watch_leave [] w I L l t k p Hl) as (e & He & I'); [by rewrite Ht|done|]. assert (L <> p) as Hne by congruence.
    erewrite bind_run by (by apply (obj_set_run _ _ l)). rewrite (obj_set_run p _ e) by (cbn; by rewrite lookup_insert_ne).
    assert (delete_attrib k l = set_al_attribs (Table (delete k t)) l) as -> by (unfold delete_attrib; by rewrite Ht).
    eexists. split; [reflexivity|]. split; [done|]. cbn. rewrite (insert_insert_ne _ p L) by done.
    destruct H as [_ (T & Wt & V & HT & HWt) HL]. split; [done| |].
    + exists T, Wt. split; [|done]. cbn. rewrite !view_insert.
      destruct (decide (srvc = L)) as [<-|]; [by rewrite (view_at _ _ _ _ Hl) in V|].
      destruct (decide (srvc = p)) as [<-|]; [by rewrite (view_at _ _ _ _ He) in V|done].
    + intros M. cbn. rewrite !view_insert. destruct (decide (M = L)) as [->|].
      * rewrite lookup_insert_eq. cbn. rewrite list_state_of by done. cbn. subst X. cbn. by rewrite dom_delete_L.
      * rewrite lookup_insert_ne by done. destruct (decide (M = p)) as [->|]; [|done]. by rewrite HL, (view_at _ _ _ _ He).
  - exists w. split_and!; [done..|]. assert (k ∉ X.2) as Hn by (subst X; cbn; by apply not_elem_of_dom).
    rewrite (difference_disjoint_L X.2 {[k]}) by by apply disjoint_singleton_r. rewrite insert_id; [done|]. by destruct X.
Qed.

Lemma unwatch_each_run A S W w L X ks : holds A S W w -> A !! L = Some X ->
  exists w', for_each (watch_remove L) ks w = Some (tt, w') /\ same_rest w w'
    /\ holds (<[L := (X.1, X.2 ∖ list_to_set ks)]> A) S W w'.
Proof.
  revert A w X. induction ks as [|k ks IH]; intros A w X H HX; cbn [for_each list_to_set].
  - exists w. split_and!; [done..|]. rewrite difference_empty_L, insert_id; [done|]. by destruct X.
  - destruct (watch_remove_run A S W w L X k H HX) as (w1 & E1 & R1 & H1). erewrite bind_run by exact E1.
    destruct (IH _ w1 _ H1 (lookup_insert_eq _ _ _)) as (w' & E2 & R2 & H2). cbn [fst snd] in H2. rewrite insert_insert_eq in H2.
    exists w'. split_and!; [done|by etrans|]. by rewrite <- difference_difference_l_L.
Qed.

Lemma table_keys_perm t : table_keys E t ≡ₚ (map_to_list t).*1.
Proof.
  unfold table_keys. rewrite (HE Z (map_imap (fun k _ => Some k) t)). induction t as [|k p t Hk IH] using map_ind; [done|].
  rewrite map_imap_insert. rewrite !map_to_list_insert by (rewrite ?map_lookup_imap, ?Hk; done). cbn. by rewrite IH.
Qed.

(** The whole list of attributes is told, each time. *)
Lemma send_attrib_list_run A S W w : linked w -> holds A S W w -> W ⊆ KU ->
  exists r ks w', send_attrib_list E srvc w = Some (r, w') /\ told w w' [CmdWatch ks] /\ holds A S W w' /\ list_to_set ks = W.
Proof.
  intros Hl H HW. destruct (holds_service _ _ _ _ H) as (s & T & Wt & Hs & HT & HWt & Hch & HdT & HdWt).
  set (ks := table_keys E Wt). pose proof (table_keys_perm Wt) as Hp. fold ks in Hp.
  assert (list_to_set ks = W) as Hks.
  { rewrite <- HdWt. apply set_eq. intros k. rewrite elem_of_list_to_set, Hp, list_elem_of_fmap, elem_of_dom. split.
    - intros ([k' p] & -> & Hk%elem_of_map_to_list). by exists p.
    - intros [p Hk]. exists (k, p). by rewrite elem_of_map_to_list. }
  destruct (send_cmd_run (CmdWatch ks) (keys_put ks) w Hl (keys_put_writes ks)) as (e & He & Es).
  { apply fits_keys; [rewrite Hp; apply NoDup_fst_map_to_list|]. intros k Hk. apply HW. rewrite <- Hks. by apply elem_of_list_to_set. }
  exists 0, ks, (with_log [e] w). split_and!; [|by apply told_one|by apply holds_log|done].
  unfold send_attrib_list. erewrite bind_run by (by eapply service_chan_run).
  assert (obj_get srvc aw_attribs w = Some (Some Wt, w)) as Eg by (rewrite <- HWt; exact (obj_get_run srvc aw_attribs s w Hs)).
  cbn beta iota. erewrite bind_run by exact Eg. exact Es.
Qed.

(** *** Attributes without a list *)

Definition is_idle (h : gmap Z object) (p : Z) : bool :=
  match h !! p with Some (ObjAttribEntry e) => bool_decide (we_membership e = []) | _ => false end.

Lemma collect_attrib_dead_run vs w : (forall p, p ∈ vs -> exists e, w_heap w !! p = Some (ObjAttribEntry e)) ->
  collect_attrib_dead vs w = Some (filter (fun p => is_idle (w_heap w) p = true) vs, w).
Proof.
  induction vs as [|p vs IH]; intros Hvs; cbn [collect_attrib_dead]; [done|].
  destruct (Hvs p ltac:(left)) as (e & He). erewrite bind_run by (by apply (obj_get_run p _ e)).
  erewrite bind_run by (apply IH; intros q Hq; apply Hvs; by right). rewrite filter_cons.
  assert (is_idle (w_heap w) p = bool_decide (we_membership e = [])) as -> by (unfold is_idle; by rewrite He).
  destruct (we_membership e); [by rewrite decide_True|by rewrite decide_False].
Qed.

Lemma watch_listed A S W w s Wt k p : holds A S W w -> w_heap w !! srvc = Some (ObjAwareService s) ->
  aw_attribs s = Some Wt -> Wt !! k = Some p -> is_idle (w_heap w) p = false <-> k ∈ all_keys A.
Proof.
  intros H Hs HT Hp. pose proof (ho_inv _ _ _ _ H) as I.
  pose proof (view_some (table_of Z attrib_entry) _ srvc s Hs) as Vt. unfold table_of in Vt. cbn in Vt. rewrite HT in Vt.
  cbn in Vt. destruct (sh_node _ _ _ _ (ai_attribs _ _ _ I) _ _ _ _ Vt Hp) as (ms & Vn & _ & Hm).
  apply view_inv in Vn as (e & He & [= Hid ->]). cbn in He, Hm. rewrite elem_of_all_keys. unfold is_idle. rewrite He.
  rewrite bool_decide_eq_false. split.
  - intros Hne. destruct (we_membership e) as [|q ms] eqn:Em; [done|]. destruct (proj1 (Hm q)) as (t & Vl & Ht); [left|].
    apply view_inv in Vl as (l & Hl & El). unfold list_of in El. cbn in El. injection El as E1 E2. cbn in Hl.
    exists q, (dom (own (al_entries l)), dom (own (al_attribs l))). split; [by eapply holds_any_list|]. cbn.
    rewrite <- E2. apply elem_of_dom. by eexists.
  - intros (L & X & HX & HkX) Hnil. destruct (holds_list _ _ _ _ _ _ H HX) as (l & Hl & Hls & _ & _ & ->). cbn in HkX.
    apply elem_of_dom in HkX as (q & Hq). pose proof (view_some (list_of Z attrib_entry) _ L l Hl) as Vl.
    unfold list_of in Vl. cbn in Vl.
    destruct (sh_list _ _ _ _ (ai_attribs _ _ _ I) _ _ _ _ _ Vl Hq) as (s' & T' & Es & Vt' & Hk).
    assert (s' = srvc) as -> by congruence. injection (eq_trans (eq_sym Vt) Vt') as <-. assert (q = p) as -> by congruence.
    assert (L ∈ we_membership e) as HLm by (apply Hm; exists (own (al_attribs l)); by rewrite <- Hls).
    rewrite Hnil in HLm. by apply not_elem_of_nil in HLm.
Qed.

Lemma free_watches_run dead w : aware_inv2 [] dead w ->
  exists w', for_each attrib_entry_free dead w = Some (tt, w') /\ same_lists w w' /\ aware_inv [] w'.
Proof.
  intros I. enough (exists w', for_each attrib_entry_free dead w = Some (tt, w') /\ same_lists w w') as (w' & Ef & R).
  { exists w'. split_and!; [done..|]. by eapply free_attrib_dead. }
  pose proof (sh_nodup _ _ _ _ (ai_attribs _ _ _ I)) as Hnd.
  assert (forall p, p ∈ dead -> exists e, w_heap w !! p = Some (ObjAttribEntry e)) as Hd.
  { intros p Hp. destruct (sh_stolen _ _ _ _ (ai_attribs _ _ _ I) p Hp) as [(k & Vn) _]. apply view_inv in Vn as (e & He & _). by exists e. }
  clear I. revert w Hd. induction Hnd as [|p dead Hn _ IH]; intros w Hd; cbn [for_each]; [by exists w|].
  destruct (Hd p ltac:(left)) as (e & He). set (w1 := set_w_heap (delete p (w_heap w)) w).
  destruct (IH w1) as (w' & E1 & R1).
  { intros q Hq. destruct (Hd q ltac:(by right)) as (e' & He'). exists e'. cbn. rewrite lookup_delete_ne; [done|]. by intros <-. }
  exists w'. split; [|etrans; [|exact R1]; by eapply same_lists_delete]. erewrite bind_run; [exact E1|].
  unfold attrib_entry_free. erewrite bind_run by (by apply (obj_deref_run p e)). by eapply free_object_run.
Qed.

Lemma watch_value (t : gmap Z Z) p : p ∈ e_values E Z t <-> exists k, t !! k = Some p.
Proof.
  rewrite (HE Z t), list_elem_of_fmap. split.
  - intros ([k q] & -> & Hq%elem_of_map_to_list). by exists k.
  - intros [k Hq]. exists (k, p). split; [done|by apply elem_of_map_to_list].
Qed.

Lemma keys_sub A S W w : holds A S W w -> all_keys A ⊆ W.
Proof. intros H k (L & X & HX & Hk)%elem_of_all_keys. by apply (holds_sub _ _ _ _ _ _ H HX). Qed.
Lemma ids_sub A S W w : holds A S W w -> all_ids A ⊆ S.
Proof. intros H id (L & X & HX & Hid)%elem_of_all_ids. by apply (holds_sub _ _ _ _ _ _ H HX). Qed.

Lemma steal_watches_dom A S W w s Wt : holds A S W w -> w_heap w !! srvc = Some (ObjAwareService s) ->
  aw_attribs s = Some Wt -> dom Wt = W ->
  dom (steal_attribs (filter (fun p => is_idle (w_heap w) p = true) (e_values E Z Wt)) Wt) = all_keys A.
Proof.
  intros H Hs HT HdW. set (dead := filter _ _).
  assert (forall k p, Wt !! k = Some p -> p ∈ dead <-> k ∉ all_keys A) as Hd.
  { intros k p Hp. unfold dead. rewrite list_elem_of_filter, watch_value, <- (watch_listed A S W w s Wt k p H Hs HT Hp).
    destruct (is_idle (w_heap w) p); split; [by intros [_ ?]|intros _; split; [done|by exists k]|by intros [? _]|done]. }
  apply set_eq. intros k. rewrite elem_of_dom. unfold steal_attribs. split.
  - intros [p [Hp Hn]%map_lookup_filter_Some]. cbn in Hn. rewrite (Hd _ _ Hp) in Hn. by destruct (decide (k ∈ all_keys A)).
  - intros Hk. pose proof (keys_sub _ _ _ _ H _ Hk) as HkT. rewrite <- HdW in HkT. apply elem_of_dom in HkT as [p Hp]. exists p.
    apply map_lookup_filter_Some. split; [done|]. cbn. rewrite (Hd _ _ Hp). tauto.
Qed.

Lemma remove_unused_attrib_run A S W w : linked w -> holds A S W w -> W ⊆ KU ->
  exists r ks w', remove_unused_attrib E srvc w = Some (r, w') /\ told w w' [CmdWatch ks]
    /\ holds A S (all_keys A) w' /\ list_to_set ks = all_keys A.
Proof.
  intros Hl H HW. destruct (holds_service _ _ _ _ H) as (s & T & Wt & Hs & HT & HWt & Hch & HdT & HdWt).
  pose proof (steal_watches_dom A S W w s Wt H Hs HWt HdWt) as Hdom. pose proof (keys_sub _ _ _ _ H) as Hsub.
  set (dead := filter _ _) in *. set (s1 := set_aw_attribs (steal_attribs dead <$> aw_attribs s) s).
  set (w1 := set_w_heap (<[srvc := ObjAwareService s1]> (w_heap w)) w).
  assert (collect_attrib_dead (e_values E Z Wt) w = Some (dead, w)) as Ec.
  { apply collect_attrib_dead_run. intros p [k Hp]%watch_value.
    destruct (inv_watch [] w srvc s k p (ho_inv _ _ _ _ H) Hs) as (e & He & _); [by rewrite HWt|]. by exists e. }
  assert (obj_set srvc (fun s => set_aw_attribs (steal_attribs dead <$> aw_attribs s) s) w = Some (tt, w1)) as Es
    by exact (obj_set_run srvc _ s w Hs).
  pose proof (steal_attribs_inv E HE [] srvc Wt w dead w w1 (ho_inv _ _ _ _ H) (ex_intro _ s (conj Hs HWt)) Ec Es) as I1.
  destruct (free_watches_run dead w1 I1) as (w2 & Ef & Rf & If).
  assert (holds A S (all_keys A) w2) as H2.
  { destruct H as [_ _ HL]. split; [done| |].
    - exists T, (steal_attribs dead Wt). rewrite (sl_service _ _ Rf). cbn. rewrite view_insert, decide_True by done. cbn.
      unfold service_state, s1. cbn. by rewrite HT, HWt, Hch, Hdom.
    - intros L. rewrite HL, (sl_lists _ _ Rf). cbn. rewrite view_insert. destruct (decide (L = srvc)) as [->|]; [|done].
      by rewrite (view_at _ _ _ _ Hs). }
  assert (same_rest w w2) as R2 by (etrans; [|exact (sl_rest _ _ Rf)]; done). pose proof (linked_same _ _ R2 Hl) as Hl2.
  destruct (send_attrib_list_run A S _ w2 Hl2 H2) as (r & ks & w' & Er & Tr & H' & Hks); [by etrans|].
  exists r, ks, w'. split_and!; [|by apply (told_trans w w2 _ []); [apply told_rest|]|done..].
  unfold remove_unused_attrib.
  assert (obj_get srvc aw_attribs w = Some (Some Wt, w)) as Eg by (rewrite <- HWt; exact (obj_get_run srvc aw_attribs s w Hs)).
  erewrite bind_run by exact Eg. erewrite (bind_run _ _ dead w w1).
  2:{ erewrite bind_run by exact Ec. by erewrite bind_run by exact Es. }
  erewrite bind_run by exact Ef. by erewrite bind_run by (by apply service_live_run).
Qed.

(** A client gives its attributes up to the first that is 0. *)
Lemma watchAttributes_acts A S W L X ks : A !! L = Some X -> W ⊆ KU -> (forall k, k ∈ until_zero ks -> k ∈ KU) ->
  acts (mwAwareList_watchAttributes E (Some L) ks) A S W
    (<[L := (X.1, list_to_set (until_zero ks) ∪ X.2)]> A) S (list_to_set (until_zero ks) ∪ W).
Proof.
  intros HX HW Hks w Hl H. cbn [mwAwareList_watchAttributes nonnull].
  destruct (watch_each_run A S W w L X (until_zero ks) H HX) as (w1 & E1 & R1 & H1).
  destruct (send_attrib_list_run _ _ _ w1 (linked_same _ _ R1 Hl) H1) as (r & l & w' & E2 & T2 & H2 & Hset).
  { intros k [Hk%elem_of_list_to_set|Hk]%elem_of_union; [by apply Hks|by apply HW]. }
  exists r, [CmdWatch l], w'. split_and!; [|by apply (told_trans w w1 _ []); [apply told_rest|]|done|].
  - erewrite bind_run by (by eapply list_service_run). cbn [nonnull]. by erewrite bind_run by exact E1.
  - unfold obey_all, subs. cbn. by rewrite Hset.
Qed.

Lemma unwatchAttributes_acts A S W L X ks : A !! L = Some X -> W ⊆ KU ->
  let A' := <[L := (X.1, X.2 ∖ list_to_set (until_zero ks))]> A in
  acts (mwAwareList_unwatchAttributes E (Some L) ks) A S W A' S (all_keys A').
Proof.
  intros HX HW A' w Hl H. cbn [mwAwareList_unwatchAttributes nonnull].
  destruct (unwatch_each_run A S W w L X (until_zero ks) H HX) as (w1 & E1 & R1 & H1).
  destruct (remove_unused_attrib_run _ _ _ w1 (linked_same _ _ R1 Hl) H1 HW) as (r & l & w' & E2 & T2 & H2 & Hset).
  exists r, [CmdWatch l], w'. split_and!; [|by apply (told_trans w w1 _ []); [apply told_rest|]|done|].
  - erewrite bind_run by (by eapply list_service_run). cbn [nonnull]. by erewrite bind_run by exact E1.
  - unfold obey_all, subs. cbn. by rewrite Hset.
Qed.

(** A new list is empty. *)
Lemma new_list_run A S W w h : holds A S W w ->
  exists L w', mwAwareList_new (Some srvc) (Some h) w = Some (Some L, w') /\ same_rest w w' /\ A !! L = None
    /\ holds (<[L := (∅, ∅)]> A) S W w'.
Proof.
  intros H. destruct (holds_service _ _ _ _ H) as (s & T & Wt & Hs & HT & HWt & Hch & HdT & HdWt).
  pose proof (below_fresh w (ai_below _ _ _ (ho_inv _ _ _ _ H))) as Hn. assert (srvc <> w_next w) as Hne by congruence.
  set (l := {| al_service := Some srvc; al_entries := TableNull; al_attribs := TableNull; al_handler := h; al_client_data := datum_zero |}).
  set (s' := set_aw_lists (w_next w :: aw_lists s) s).
  set (w' := set_w_heap (<[srvc := ObjAwareService s']> (<[w_next w := ObjAwareList l]> (w_heap w))) (set_w_next (w_next w + 1) w)).
  assert (mwAwareList_new (Some srvc) (Some h) w = Some (Some (w_next w), w')) as Er.
  { cbn [mwAwareList_new nonnull]. erewrite bind_run by reflexivity.
    erewrite bind_run by (apply (obj_set_run _ _ s); cbn; rewrite lookup_insert_ne by done; exact Hs). done. }
  assert (A !! w_next w = None) as HA.
  { pose proof (ho_lists _ _ _ _ H (w_next w)) as HL. rewrite (view_none _ _ _ Hn) in HL. by destruct (A !! w_next w). }
  exists (w_next w), w'. split_and!; [done..|].
  pose proof (keeps_new_list (Some srvc) (Some h) [] _ _ _ (ho_inv _ _ _ _ H) Er) as I'.
  destruct H as [_ _ HL]. split; [done| |].
  - exists T, Wt. cbn. rewrite view_insert, decide_True by done. cbn. unfold service_state, s'. cbn. by rewrite HT, HWt, Hch.
  - intros M. cbn. rewrite !view_insert. destruct (decide (M = srvc)) as [->|HMs].
    + rewrite lookup_insert_ne by done. cbn. rewrite HL. by rewrite (view_at _ _ _ _ Hs).
    + destruct (decide (M = w_next w)) as [->|HMn]; [|by rewrite lookup_insert_ne].
      rewrite lookup_insert_eq. cbn. rewrite list_state_of by done. cbn. by rewrite !dom_empty_L.
Qed.

(** ** The calls *)

Inductive list_call :=
  | CallNew (handler : Z)
  | CallAdd (L : Z) (ids : list mwAwareIdBlock)
  | CallRemove (L : Z) (ids : list mwAwareIdBlock)
  | CallWatch (L : Z) (keys : list Z)
  | CallUnwatch (L : Z) (keys : list Z).

Definition list_call_run (c : list_call) : M unit :=
  match c with
  | CallNew handler => mwAwareList_new (Some srvc) (Some handler) ;; ret tt
  | CallAdd L ids => mwAwareList_addAware E (Some L) ids ;; ret tt
  | CallRemove L ids => mwAwareList_removeAware E (Some L) ids ;; ret tt
  | CallWatch L keys => mwAwareList_watchAttributes E (Some L) keys ;; ret tt
  | CallUnwatch L keys => mwAwareList_unwatchAttributes E (Some L) keys ;; ret tt
  end.

(** What a call does to the lists, as its name says. *)
Inductive list_change : list_call -> gmap Z (gset mwAwareIdBlock * gset Z) -> gmap Z (gset mwAwareIdBlock * gset Z) -> Prop :=
  | change_new h L A : A !! L = None -> list_change (CallNew h) A (<[L := (∅, ∅)]> A)
  | change_add L ids X A : A !! L = Some X ->
      list_change (CallAdd L ids) A (<[L := (list_to_set ids ∪ X.1, X.2)]> A)
  | change_remove L ids X A : A !! L = Some X ->
      list_change (CallRemove L ids) A (<[L := (X.1 ∖ list_to_set ids, X.2)]> A)
  | change_watch L ks X A : A !! L = Some X ->
      list_change (CallWatch L ks) A (<[L := (X.1, list_to_set (until_zero ks) ∪ X.2)]> A)
  | change_unwatch L ks X A : A !! L = Some X ->
      list_change (CallUnwatch L ks) A (<[L := (X.1, X.2 ∖ list_to_set (until_zero ks))]> A).

(** The list is one of the service, and what is given is of the client's. *)
Definition list_call_ok (A : gmap Z (gset mwAwareIdBlock * gset Z)) (c : list_call) : Prop :=
  match c with
  | CallNew _ => True
  | CallAdd L ids => is_Some (A !! L) /\ forall id, id ∈ ids -> id ∈ U
  | CallRemove L ids => is_Some (A !! L) /\ Forall id_ok ids
  | CallWatch L ks => is_Some (A !! L) /\ forall k, k ∈ until_zero ks -> k ∈ KU
  | CallUnwatch L ks => is_Some (A !! L)
  end.

(** The service is up, its lists are [A], and the server watches what is on
    them. *)
Record agrees (A : gmap Z (gset mwAwareIdBlock * gset Z)) (s : subscriptions) (w : world) : Prop := {
  ag_linked : linked w;
  ag_holds : holds A (all_ids A) (all_keys A) w;
  ag_server : s = subs (all_ids A) (all_keys A);
  ag_ids : all_ids A ⊆ U;
  ag_keys : all_keys A ⊆ KU;
}.

Lemma list_ids A L X : A !! L = Some X -> X.1 ⊆ all_ids A.
Proof. intros HL id Hid. apply elem_of_all_ids. by exists L, X. Qed.
Lemma list_keys A L X : A !! L = Some X -> X.2 ⊆ all_keys A.
Proof. intros HL k Hk. apply elem_of_all_keys. by exists L, X. Qed.

Lemma all_ids_insert A L X X' : A !! L = Some X -> X.1 ⊆ X'.1 -> all_ids (<[L := X']> A) = X'.1 ∪ all_ids A.
Proof.
  intros HL Hs. apply set_eq. intros id. rewrite elem_of_union, !elem_of_all_ids. setoid_rewrite lookup_insert_Some. split.
  - intros (M & Y & [[<- <-]|[_ HM]] & Hid); [by left|right; by exists M, Y].
  - intros [Hid|(M & Y & HM & Hid)]; [exists L, X'; by auto|]. destruct (decide (L = M)) as [<-|Hne].
    + exists L, X'. split; [by auto|]. apply Hs. by assert (X = Y) as -> by congruence.
    + exists M, Y. by auto.
Qed.
Lemma all_keys_insert A L X X' : A !! L = Some X -> X.2 ⊆ X'.2 -> all_keys (<[L := X']> A) = X'.2 ∪ all_keys A.
Proof.
  intros HL Hs. apply set_eq. intros k. rewrite elem_of_union, !elem_of_all_keys. setoid_rewrite lookup_insert_Some. split.
  - intros (M & Y & [[<- <-]|[_ HM]] & Hid); [by left|right; by exists M, Y].
  - intros [Hid|(M & Y & HM & Hid)]; [exists L, X'; by auto|]. destruct (decide (L = M)) as [<-|Hne].
    + exists L, X'. split; [by auto|]. apply Hs. by assert (X = Y) as -> by congruence.
    + exists M, Y. by auto.
Qed.

Lemma all_ids_same A L X K : A !! L = Some X -> all_ids (<[L := (X.1, K)]> A) = all_ids A.
Proof. intros HL. rewrite (all_ids_insert A L X) by done. by apply subseteq_union_1_L, (list_ids A L X). Qed.
Lemma all_keys_same A L X Y : A !! L = Some X -> all_keys (<[L := (Y, X.2)]> A) = all_keys A.
Proof. intros HL. rewrite (all_keys_insert A L X) by done. by apply subseteq_union_1_L, (list_keys A L X). Qed.
Lemma all_ids_add A L X Y K : A !! L = Some X -> all_ids (<[L := (Y ∪ X.1, K)]> A) = Y ∪ all_ids A.
Proof.
  intros HL. rewrite (all_ids_insert A L X) by (done || apply union_subseteq_r). cbn.
  rewrite <- (assoc_L (∪)), (subseteq_union_1_L X.1); [done|by eapply list_ids].
Qed.
Lemma all_keys_add A L X Y K : A !! L = Some X -> all_keys (<[L := (Y, K ∪ X.2)]> A) = K ∪ all_keys A.
Proof.
  intros HL. rewrite (all_keys_insert A L X) by (done || apply union_subseteq_r). cbn.
  rewrite <- (assoc_L (∪)), (subseteq_union_1_L X.2); [done|by eapply list_keys].
Qed.

(** A list that loses something leaves the rest in place. *)
Lemma all_ids_shrink A L X X' : A !! L = Some X -> X'.1 ⊆ X.1 -> all_ids (<[L := X']> A) ⊆ all_ids A.
Proof.
  intros HL Hs id. rewrite !elem_of_all_ids. intros (M & Y & [[<- <-]|[_ HM]]%lookup_insert_Some & Hid); [|by exists M, Y].
  exists L, X. split; [done|by apply Hs].
Qed.
Lemma all_keys_shrink A L X X' : A !! L = Some X -> X'.2 ⊆ X.2 -> all_keys (<[L := X']> A) ⊆ all_keys A.
Proof.
  intros HL Hs id. rewrite !elem_of_all_keys. intros (M & Y & [[<- <-]|[_ HM]]%lookup_insert_Some & Hid); [|by exists M, Y].
  exists L, X. split; [done|by apply Hs].
Qed.
Lemma all_ids_new A L : A !! L = None -> all_ids (<[L := (∅, ∅)]> A) = all_ids A.
Proof. intros HL. unfold all_ids. rewrite map_to_list_insert by done. cbn. by rewrite (left_id_L ∅ (∪)). Qed.
Lemma all_keys_new A L : A !! L = None -> all_keys (<[L := (∅, ∅)]> A) = all_keys A.
Proof. intros HL. unfold all_keys. rewrite map_to_list_insert by done. cbn. by rewrite (left_id_L ∅ (∪)). Qed.

(** A call that acts in the right way is one that agrees. *)
Lemma acts_agrees {R} (m : M R) c A A' s w : agrees A s w -> list_change c A A' -> list_call_run c = (m ;; ret tt) ->
  all_ids A' ⊆ U -> all_keys A' ⊆ KU ->
  acts m A (all_ids A) (all_keys A) A' (all_ids A') (all_keys A') ->
  exists A' cmds w', list_call_run c w = Some (tt, w') /\ list_change c A A' /\ told w w' cmds /\ agrees A' (obey_all s cmds) w'.
Proof.
  intros [Hl H -> _ _] Hc -> Hi Hk Hm. destruct (Hm w Hl H) as (r & cmds & w' & E1 & T1 & H1 & O1). exists A', cmds, w'.
  split_and!; [by erewrite bind_run by exact E1|done..|]. split; [by eapply told_linked|done..].
Qed.

(** C11: while the service is up and the server watches the union of what is
    on the lists, a call that makes a list, adds or removes ids given as a
    list, or watches or unwatches keys returns; it changes the list as its
    name says, and the messages it writes tell the server just what it must
    watch from then on, the union of what is on the lists.  The ids and keys
    are those of the finite sets [U] and [KU], and the list is one of the
    service's ([list_call_ok]).  Emptying a list with
    [mwAwareList_removeAllAware] or [mwAwareList_unwatchAllAttributes],
    freeing one, and the calls with arrays are not among these calls. *)
Theorem aware_server_agrees A s w c : agrees A s w -> list_call_ok A c ->
  exists A' cmds w', list_call_run c w = Some (tt, w') /\ list_change c A A' /\ told w w' cmds /\ agrees A' (obey_all s cmds) w'.
Proof.
  intros Hag Hok. pose proof (ag_ids _ _ _ Hag) as Hi. pose proof (ag_keys _ _ _ Hag) as Hk.
  destruct c as [h|L ids|L ids|L ks|L ks]; cbn [list_call_ok] in Hok.
  - destruct Hag as [Hl H -> _ _]. destruct (new_list_run A _ _ w h H) as (L & w' & E1 & R1 & HL & H1).
    pose proof (all_ids_new A L HL) as Ei. pose proof (all_keys_new A L HL) as Ek.
    exists (<[L := (∅, ∅)]> A), [], w'. split_and!; [cbn; by erewrite bind_run by exact E1|by constructor|by apply told_rest|].
    split; rewrite ?Ei, ?Ek; try done. by eapply linked_same.
  - destruct Hok as [[X HX] Hids]. eapply acts_agrees; [done|by constructor|done|..]; rewrite ?(all_ids_add A L X), ?all_keys_same by done.
    + apply union_subseteq. split; [|done]. intros id. rewrite elem_of_list_to_set. apply Hids.
    + done.
    + by apply addAware_acts.
  - destruct Hok as [[X HX] Hids]. eapply acts_agrees; [done|by constructor|done|..]; rewrite ?all_keys_same by done.
    + etrans; [by eapply all_ids_shrink, subseteq_difference_l|done].
    + done.
    + by apply removeAware_acts.
  - destruct Hok as [[X HX] Hks]. eapply acts_agrees; [done|by constructor|done|..]; rewrite ?all_ids_same, ?(all_keys_add A L X) by done.
    + done.
    + apply union_subseteq. split; [|done]. intros k. rewrite elem_of_list_to_set. apply Hks.
    + by apply watchAttributes_acts.
  - destruct Hok as [X HX]. eapply acts_agrees; [done|by constructor|done|..]; rewrite ?all_ids_same by done.
    + done.
    + etrans; [by eapply all_keys_shrink, subseteq_difference_l|done].
    + by apply unwatchAttributes_acts.
Qed.

(** *** The first answer of the server *)

Lemma table_ids_run T w A S W s : holds A S W w -> w_heap w !! srvc = Some (ObjAwareService s) -> aw_entries s = Some T -> dom T = S ->
  exists ids, entry_ids (id_values E T) w = Some (ids, w) /\ NoDup ids /\ list_to_set ids = S.
Proof.
  intros H Hs HT HdT. exists (id_at (w_heap w) <$> id_values E T). split_and!.
  - apply entry_ids_run. intros p [id Hp]%entry_value. destruct (service_entry _ _ _ _ _ _ _ _ H Hs HT Hp) as (e & He & _). by exists e.
  - apply NoDup_fmap_2_strong.
    + intros p q [k Hp]%entry_value [k' Hq]%entry_value. destruct (service_entry _ _ _ _ _ _ _ _ H Hs HT Hp) as (_ & _ & ->).
      destruct (service_entry _ _ _ _ _ _ _ _ H Hs HT Hq) as (_ & _ & ->). congruence.
    + rewrite (id_values_perm E T HE). pose proof (ai_entries _ _ _ (ho_inv _ _ _ _ H)) as Ie.
      pose proof (table_nodup [] _ srvc s Ie Hs) as Hn. unfold table_of in Hn. cbn in Hn. by rewrite HT in Hn.
  - rewrite <- HdT. apply set_eq. intros id. rewrite elem_of_list_to_set, list_elem_of_fmap, elem_of_dom. split.
    + intros (p & -> & [k Hp]%entry_value). destruct (service_entry _ _ _ _ _ _ _ _ H Hs HT Hp) as (_ & _ & ->). by exists p.
    + intros [p Hp]. exists p. split; [|apply entry_value; by exists id].
      by destruct (service_entry _ _ _ _ _ _ _ _ H Hs HT Hp) as (_ & _ & ->).
Qed.

(** C13: a server that has no subscriptions, and takes the channel that the
    service asked for, is told all that is on the lists by then; the service
    is started. *)
Theorem accept_tells_all A w msg sv : linked w -> holds A (all_ids A) (all_keys A) w -> all_ids A ⊆ U -> all_keys A ⊆ KU ->
  w_services w !! srvc = Some sv -> sv_state sv = mwServiceState_STARTING ->
  exists cmds w1, recv_accept E srvc chan msg w
      = Some (tt, set_w_services (<[srvc := set_sv_state mwServiceState_STARTED sv]> (w_services w)) w1)
    /\ told w w1 cmds /\ agrees A (obey_all (subs ∅ ∅) cmds) w1.
Proof.
  intros Hl H Hi Hk Hsv Hst. destruct (holds_service _ _ _ _ H) as (s & T & Wt & Hs & HT & HWt & Hch & HdT & HdWt).
  destruct (table_ids_run T w A _ _ s H Hs HT HdT) as (ids & Ei & Hnd & Hids).
  destruct (send_ids_run (CmdAdd ids) msg_AWARE_ADD ids w Hl) as (e & He & Es); [done|done| |].
  { apply (fits_ids _ ids); [by left|done|]. intros id Hid. apply Hi. rewrite <- Hids. by apply elem_of_list_to_set. }
  assert (told w (with_log [e] w) [CmdAdd ids]) as T1 by by apply told_one.
  destruct (send_attrib_list_run _ _ _ _ (told_linked _ _ _ T1 Hl) (holds_log _ _ _ _ [e] H) Hk) as (r & ks & w1 & Ea & T2 & H1 & Hks).
  pose proof (told_trans _ _ _ _ _ T1 T2) as T3. exists [CmdAdd ids; CmdWatch ks], w1. split_and!; [|done|].
  - unfold recv_accept. erewrite bind_run by (by eapply service_chan_run). cbn beta iota. rewrite bool_decide_true by done. cbn [negb].
    assert (mwService_getState srvc w = Some (mwServiceState_STARTING, w)) as Eg.
    { unfold mwService_getState, deref_service, bind, lift. rewrite Hsv. cbn. by rewrite Hst. }
    erewrite bind_run by exact Eg. rewrite bool_decide_true by done.
    assert (obj_get srvc aw_entries w = Some (Some T, w)) as Et by (rewrite <- HT; exact (obj_get_run srvc aw_entries s w Hs)).
    erewrite bind_run by exact Et. erewrite bind_run by exact Ei. unfold send_add. erewrite bind_run by exact Es.
    erewrite bind_run by exact Ea. destruct T3 as (_ & _ & _ & _ & Hsrv). unfold mwService_started, service_set. by rewrite Hsrv, Hsv.
  - split; [by eapply told_linked|done| |done..]. unfold obey_all, subs. cbn. by rewrite Hids, Hks, (right_id_L ∅ (∪)).
Qed.
End sync.
