(* ===== verification/AwareTell.v ===== *)
(** * The awareness service: what the client is told

    A status that comes from the server is kept with the entry of its id and
    told to the lists the id is on; the values of attributes are read as they
    are written. *)

From S2P Require Import Prelude Buffer Common Message Framing World Util Rc2 Cipher Service Session.
From S2P Require Import Channel Aware Dispatch Frame Owned Delivery Protocol ChannelSpec Shelf AwareShelf AwareSpec.
#[local] Open Scope Z_scope.
#[local] Open Scope mw_scope.

(** ** The links of an entry *)

(** The numbers of the links tell them apart. *)
Definition links_ok (e : aware_entry) : Prop :=
  NoDup (ae_membership e).*1 /\ forall n, n ∈ (ae_membership e).*1 -> n < ae_links e.

Lemma links_new id : links_ok (new_entry id).
Proof. split; [constructor|by intros n ?%not_elem_of_nil]. Qed.

Lemma links_append L e : links_ok e -> links_ok (append_member L e).
Proof.
  intros [Hn Hl]. unfold links_ok, append_member. cbn. rewrite fmap_app. split.
  - apply NoDup_app. split_and!; [done| |apply NoDup_singleton]. cbn. intros n Hin ->%list_elem_of_singleton. apply Hl in Hin. lia.
  - intros n [Hin| ->%list_elem_of_singleton]%elem_of_app; [apply Hl in Hin|cbn]; lia.
Qed.

Lemma remove_link_sub l L : (remove_link l L).*1 `sublist_of` l.*1.
Proof.
  induction l as [|k l IH]; cbn [remove_link]; [done|]. destruct (k.2 =? L); by constructor.
Qed.
Lemma links_remove L e : links_ok e -> links_ok (remove_member L e).
Proof.
  intros [Hn Hl]. pose proof (remove_link_sub (ae_membership e) L) as Hs. split; cbn.
  - by eapply sublist_NoDup.
  - intros n Hin. apply Hl. by eapply elem_of_sublist.
Qed.

(** ** Each list in turn *)

Lemma next_link_at (l1 : list (Z * Z)) n L l2 : n ∉ l1.*1 -> next_link n (l1 ++ (n, L) :: l2) = Some (head l2).
Proof.
  induction l1 as [|k l1 IH]; cbn [app next_link fmap list_fmap].
  - intros _. cbn. by rewrite Z.eqb_refl.
  - intros [Hk Hn]%not_elem_of_cons. rewrite (proj2 (Z.eqb_neq k.1 n)) by done. by apply IH.
Qed.

Section tell.
Context (f : Z -> M unit) (tells : Z -> list event) (h : gmap Z object) (p : Z) (e : aware_entry).
Context (Hp : h !! p = Some (ObjAwareEntry e)) (Hl : links_ok e).

(** A function of a list that only writes to the log, in worlds whose blocks
    are [h]. *)
Hypothesis Hf : forall L w, L ∈ (ae_membership e).*2 -> w_heap w = h -> f L w = Some (tt, with_log (tells L) w).

Lemma each_member_run l1 l2 rounds w : w_heap w = h -> ae_membership e = l1 ++ l2 -> (length l2 <= rounds)%nat ->
  each_member rounds p (head l2) f w = Some (tt, with_log (mjoin (tells <$> l2.*2)) w).
Proof.
  revert l1 l2 w. induction rounds as [|rounds IH]; intros l1 [|[n L] l2] w Hw E Hlen; cbn in Hlen; try lia; cbn [each_member head].
  - by rewrite with_log_nil.
  - by rewrite with_log_nil.
  - erewrite bind_run by (apply Hf; [|done]; rewrite E, fmap_app; apply elem_of_app; right; left).
    erewrite bind_run by (apply (obj_get_run _ _ e); cbn; by rewrite Hw).
    assert (n ∉ l1.*1) as Hn.
    { destruct Hl as [Hnd _]. rewrite E, fmap_app in Hnd. apply NoDup_app in Hnd as (_ & Hd & _). intros Hin. apply (Hd n Hin). left. }
    erewrite bind_run by (apply lift_run; rewrite E; by apply next_link_at).
    rewrite (IH (l1 ++ [(n, L)]) l2); [|done|by rewrite <- app_assoc|lia].
    cbn [fmap list_fmap mjoin list_join]. by rewrite with_log_twice.
Qed.

Lemma for_members_run cl w : w_heap w = h -> (length (ae_membership e) <= ac_rounds cl)%nat ->
  for_members cl p f w = Some (tt, with_log (mjoin (tells <$> (ae_membership e).*2)) w).
Proof.
  intros Hw Hr. unfold for_members. erewrite bind_run by (apply (obj_get_run _ _ e); cbn; by rewrite Hw).
  by apply (each_member_run []).
Qed.
End tell.

(** ** A status *)

Section status.
Context (cl : AwareClient) (note : Z -> Z -> mwAwareSnapshot -> event).
Hypothesis Hcl : forall a f L s w, ac_on_aware cl a = Some f -> f L s w = Some (tt, with_log [note a L s] w).

(** What the list at [L] is told. *)
Definition status_note (h : gmap Z object) (s : mwAwareSnapshot) (L : Z) : list event :=
  match h !! L with
  | Some (ObjAwareList l) => if al_handler l =? 0 then [] else
      match ac_on_aware cl (al_handler l) with Some _ => [note (al_handler l) L s] | None => [] end
  | _ => []
  end.

Lemma tell_aware_run h s L l w : w_heap w = h -> h !! L = Some (ObjAwareList l) ->
  tell_aware cl s L w = Some (tt, with_log (status_note h s L) w).
Proof.
  intros Hw Hl. unfold tell_aware, status_note. rewrite Hl. erewrite bind_run by (apply (obj_get_run _ _ l); by rewrite Hw).
  destruct (al_handler l =? 0); [by rewrite with_log_nil|]. unfold call2. destruct (ac_on_aware cl (al_handler l)) as [g|] eqn:Eg.
  - by apply Hcl.
  - by rewrite with_log_nil.
Qed.

(** The list at [L] is one of the service, with this id on it. *)
Definition list_has (h : gmap Z object) (srvc L : Z) (id : mwAwareIdBlock) : Prop :=
  exists l t p, h !! L = Some (ObjAwareList l) /\ al_service l = Some srvc /\ al_entries l = Table t /\ t !! id = Some p.

Lemma entry_members w srvc s T id p : aware_inv [] w -> w_heap w !! srvc = Some (ObjAwareService s) ->
  aw_entries s = Some T -> T !! id = Some p ->
  exists e, w_heap w !! p = Some (ObjAwareEntry e) /\ as_id (ae_aware e) = id /\ NoDup (ae_membership e).*2
    /\ forall L, L ∈ (ae_membership e).*2 <-> list_has (w_heap w) srvc L id.
Proof.
  intros I Hs HT Hp.
  pose proof (view_some (table_of mwAwareIdBlock aware_entry) _ srvc s Hs) as Vt. unfold table_of in Vt. cbn in Vt. rewrite HT in Vt.
  cbn in Vt. destruct (sh_node _ _ _ _ (ai_entries _ _ _ I) _ _ _ _ Vt Hp) as (ms & Vn & Hnd & Hm).
  apply view_inv in Vn as (e & He & [= Hid ->]). cbn in He, Hm, Hnd. exists e. split_and!; [done..|]. intros L. rewrite Hm. split.
  - intros (t & Vl & Ht). apply view_inv in Vl as (l & Hl & El). unfold list_of in El. cbn in El. injection El as E1 E2. cbn in Hl.
    exists l, t, p. split_and!; try done. destruct (al_entries l); cbn in E2; subst; [by rewrite lookup_empty in Ht|done|by rewrite lookup_empty in Ht].
  - intros (l & t & q & Hl & Hls & Hlt & Ht). exists t.
    pose proof (view_some (list_of mwAwareIdBlock aware_entry) _ L l Hl) as Vl. unfold list_of in Vl. cbn in Vl. rewrite Hls, Hlt in Vl. cbn in Vl.
    split; [done|]. destruct (sh_list _ _ _ _ (ai_entries _ _ _ I) _ _ _ _ _ Vl Ht) as (s' & T' & Es & Vt' & Hk).
    injection Es as <-. injection (eq_trans (eq_sym Vt) Vt') as <-. congruence.
Qed.

Lemma aware_found srvc s T id w : w_heap w !! srvc = Some (ObjAwareService s) -> aw_entries s = Some T ->
  ai_user id <> None -> aware_find srvc id w = Some (T !! id, w).
Proof.
  intros Hs HT Hu. unfold aware_find. erewrite bind_run by (by apply (obj_get_run _ _ s)). rewrite HT. unfold id_lookup.
  by destruct (ai_user id).
Qed.

(** The status of an id that is on a list. *)
Lemma status_entry srvc s T idb p w : aware_inv [] w -> w_heap w !! srvc = Some (ObjAwareService s) -> aw_entries s = Some T ->
  ai_user (as_id idb) <> None -> T !! as_id idb = Some p ->
  exists e, w_heap w !! p = Some (ObjAwareEntry e)
    /\ NoDup (ae_membership e).*2 /\ (forall L, L ∈ (ae_membership e).*2 <-> list_has (w_heap w) srvc L (as_id idb))
    /\ (links_ok e -> (length (ae_membership e) <= ac_rounds cl)%nat ->
      status_recv cl srvc idb w = Some (tt, with_log (mjoin (status_note (w_heap w) idb <$> (ae_membership e).*2))
        (set_w_heap (<[p := ObjAwareEntry (set_ae_aware (mwAwareSnapshot_clone (mwAwareSnapshot_clear (ae_aware e)) idb) e)]> (w_heap w)) w))).
Proof.
  intros I Hs HT Hu Hp.
  destruct (entry_members w srvc s T (as_id idb) p I Hs HT Hp) as (e & He & Hid & Hnd & Hm).
  exists e. split_and!; [done..|]. intros Hl Hr. set (e' := set_ae_aware _ e).
  unfold status_recv. rewrite (bind_run _ _ _ _ _ (aware_found srvc s T (as_id idb) w Hs HT Hu)), Hp.
  erewrite bind_run by (by apply (obj_set_run _ _ e)). fold e'. set (w1 := set_w_heap _ w).
  assert (forall L, status_note (w_heap w1) idb L = status_note (w_heap w) idb L) as Hn.
  { intros L. unfold status_note. cbn. destruct (decide (L = p)) as [->|Hne]; [by rewrite lookup_insert_eq, He|by rewrite lookup_insert_ne]. }
  rewrite <- (list_fmap_ext (status_note (w_heap w1) idb) (status_note (w_heap w) idb) _ (fun _ L _ => Hn L)).
  assert (w_heap w1 !! p = Some (ObjAwareEntry e')) as Hp1 by apply lookup_insert_eq.
  apply (for_members_run _ (status_note (w_heap w1) idb) (w_heap w1) p e' Hp1); [exact Hl| |done|exact Hr].
  intros L w2 HL Hw2. apply Hm in HL as (l & t & q & HL & _). apply (tell_aware_run _ _ _ l); [done|]. cbn.
  rewrite lookup_insert_ne; [done|congruence].
Qed.

(** C14: the status of an id that no list has is dropped.  That of another is
    kept with its entry, and told exactly to the lists that have the id, to
    each once and in the order they took it. *)
Theorem status_told srvc s T idb w : aware_inv [] w -> w_heap w !! srvc = Some (ObjAwareService s) -> aw_entries s = Some T ->
  ai_user (as_id idb) <> None ->
  match T !! as_id idb with
  | None => status_recv cl srvc idb w = Some (tt, w)
  | Some p => exists e, w_heap w !! p = Some (ObjAwareEntry e)
      /\ NoDup (ae_membership e).*2 /\ (forall L, L ∈ (ae_membership e).*2 <-> list_has (w_heap w) srvc L (as_id idb))
      /\ (links_ok e -> (length (ae_membership e) <= ac_rounds cl)%nat ->
        status_recv cl srvc idb w = Some (tt, with_log (mjoin (status_note (w_heap w) idb <$> (ae_membership e).*2))
          (set_w_heap (<[p := ObjAwareEntry (set_ae_aware (mwAwareSnapshot_clone (mwAwareSnapshot_clear (ae_aware e)) idb) e)]> (w_heap w)) w)))
  end.
Proof.
  intros I Hs HT Hu. destruct (T !! as_id idb) as [p|] eqn:Hp; [by apply (status_entry srvc s T)|].
  unfold status_recv. by rewrite (bind_run _ _ _ _ _ (aware_found srvc s T (as_id idb) w Hs HT Hu)), Hp.
Qed.

(** ** An update of the server *)

(** The service takes messages from the channel. *)
Definition hears (srvc chan : Z) (s : mwServiceAware) (w : world) : Prop :=
  w_heap w !! srvc = Some (ObjAwareService s) /\ aw_channel s = Some chan /\ is_Some (w_channels w !! chan)
  /\ exists sv, w_services w !! srvc = Some sv /\ sv_session sv = true.

Lemma recv_update_run E srvc chan s d w : hears srvc chan s w ->
  recv E cl srvc chan msg_AWARE_UPDATE d w = recv_UPDATE E cl srvc (mwGetBuffer_wrap (Some d)) w.
Proof.
  intros (Hs & Hc & [ch Hch] & sv & Hsv & Hse). unfold recv.
  assert (obj_get srvc aw_channel w = Some (Some chan, w)) as Eg by (rewrite <- Hc; exact (obj_get_run srvc aw_channel s w Hs)).
  rewrite (bind_run _ _ _ _ _ Eg). rewrite bool_decide_true by done. cbn [negb].
  erewrite bind_run by (unfold deref_service, lift; rewrite Hsv; reflexivity).
  erewrite bind_run by (unfold deref_channel, lift; rewrite Hch; reflexivity). by rewrite Hse.
Qed.

(** C15: an update that is not about a member of a group, whole or cut short,
    makes the service leave memory if and only if it is a whole one without a
    user: then the service reads from NULL.  The lists that are told only note
    what they are told ([Hcl]), the links of an entry have different numbers
    ([links_ok]), and an entry is on at most [ac_rounds] lists. *)
Theorem update_safe_iff E srvc chan s T d snap b w : aware_inv [] w -> hears srvc chan s w -> aw_entries s = Some T ->
  (forall p e, w_heap w !! p = Some (ObjAwareEntry e) -> links_ok e /\ (length (ae_membership e) <= ac_rounds cl)%nat) ->
  mwAwareSnapshot_get (u_junk (e_uninit E)) as_zero (mwGetBuffer_wrap (Some d)) = Some (snap, b) -> as_group snap = None ->
  recv E cl srvc chan msg_AWARE_UPDATE d w = None <-> mwGetBuffer_error b = false /\ ai_user (as_id snap) = None.
Proof.
  intros I Hh HT Hr Hb Hg. rewrite (recv_update_run E srvc chan s d w Hh). destruct Hh as (Hs & _).
  unfold recv_UPDATE. erewrite bind_run by (apply lift_run, Hb). cbn beta iota. unfold in_group. rewrite Hg.
  erewrite bind_run by reflexivity. destruct (mwGetBuffer_error b); [by split; [|intros [? _]]|].
  destruct (ai_user (as_id snap)) as [u|] eqn:Hu.
  - split; [|by intros [_ ?]]. intros E0. exfalso. assert (aware_find srvc (as_id snap) w = Some (T !! as_id snap, w)) as Ef.
    { apply (aware_found srvc s); [done..|by rewrite Hu]. }
    destruct (T !! as_id snap) as [p|] eqn:Hp.
    + destruct (status_entry srvc s T snap p w I Hs HT) as (e & He & _ & _ & Er); [by rewrite Hu|done|].
      destruct (Hr p e He) as [Hl Hlen]. by rewrite (Er Hl Hlen) in E0.
    + unfold status_recv in E0. by rewrite (bind_run _ _ _ _ _ Ef) in E0.
  - split; [done|]. intros _. unfold status_recv, aware_find.
    erewrite bind_none; [done|]. erewrite bind_run by (by apply (obj_get_run _ _ s)). rewrite HT. unfold id_lookup. by rewrite Hu.
Qed.
End status.

(** ** Values of attributes *)

(** What is sent as the value of an attribute, with [put] for the value. *)
Definition sets_attribute (E : Env) (srvc key : Z) (m : M Z) (d : mwOpaque) : Prop :=
  forall w, m w = mwServiceAware_setAttribute E srvc key d w.

Definition attribute (key : Z) (d : mwOpaque) : option mwAwareAttribute := Some {| at_key := key; at_data := d |}.

Lemma put_value {A} (put : Put) e (m : Get A) v : writes put e -> zlen e < 2 ^ 20 -> parses m e v ->
  exists b, put mwPutBuffer_new = Some b /\ len (mwPutBuffer_finalize b) = zlen e
    /\ exists g, m (mwGetBuffer_wrap (Some (mwPutBuffer_finalize b))) = Some (v, g).
Proof.
  intros Hp Hl (R & _). destruct (finalize_writes put e Hp) as (b & Eb & Ho & Hlen & Hd); [unfold pb_max; lia|].
  exists b. split_and!; [done..|]. pose proof (mwGetBuffer_wrap_ready _ Ho ltac:(lia)) as Hg. rewrite Hd, <- (app_nil_r e) in Hg.
  destruct (R _ _ Hg) as (g & E & _). by exists g.
Qed.

(** A boolean, an integer or a text that is set as an attribute is read
    back from its value as it was, the empty text as none. *)
Theorem attribute_values E srvc key :
  (forall v : bool, exists d, sets_attribute E srvc key (mwServiceAware_setAttributeBoolean E srvc key v) d
    /\ mwAwareAttribute_asBoolean E (attribute key d) = Some v)
  /\ (forall v, is_u32 v -> exists d, sets_attribute E srvc key (mwServiceAware_setAttributeInteger E srvc key v) d
    /\ mwAwareAttribute_asInteger (attribute key d) = Some v)
  /\ (forall s, mwString_ok s -> exists d, sets_attribute E srvc key (mwServiceAware_setAttributeString E srvc key s) d
    /\ mwAwareAttribute_asString (attribute key d) = Some (mwString_norm s)).
Proof.
  split_and!.
  - intros v. destruct (put_value (gboolean_put false >>> gboolean_put v) (MW16_PUT (Z.b2z v)) (guint16_get 0) (Z.b2z v))
      as (b & Eb & Hl & g & Eg).
    + replace (MW16_PUT (Z.b2z v)) with ([Z.b2z false] ++ [Z.b2z v]) by by destruct v.
      apply writes_seq; apply gboolean_put_writes.
    + by destruct v.
    + apply guint16_get_parses. by destruct v.
    + exists (mwPutBuffer_finalize b). split.
      * intros w. unfold mwServiceAware_setAttributeBoolean. by erewrite bind_run by (apply lift_run, Eb).
      * unfold mwAwareAttribute_asBoolean, attribute. cbn [at_data]. rewrite Hl. change (zlen (MW16_PUT _)) with 2.
        change (4 <=? 2) with false. change (2 <=? 2) with true. cbn iota. rewrite Eg. by destruct v.
  - intros v Hv. destruct (put_value (guint32_put v) (MW32_PUT v) (guint32_get 0) v) as (b & Eb & Hl & g & Eg).
    + apply guint32_put_writes. + by rewrite MW32_PUT_len. + by apply guint32_get_parses.
    + exists (mwPutBuffer_finalize b). split.
      * intros w. unfold mwServiceAware_setAttributeInteger. by erewrite bind_run by (apply lift_run, Eb).
      * unfold mwAwareAttribute_asInteger, attribute. cbn [at_data]. rewrite Hl, MW32_PUT_len.
        change (4 <=? 4) with true. cbn iota. by rewrite Eg.
  - intros s Hs. destruct (put_value (mwString_put s) (mwString_enc s) mwString_get (mwString_norm s)) as (b & Eb & Hl & g & Eg).
    + apply mwString_put_writes.
    + destruct Hs as [_ Hs]. unfold mwString_enc. rewrite zlen_app. change (zlen (MW16_PUT _)) with 2. lia.
    + by apply mwString_get_parses.
    + exists (mwPutBuffer_finalize b). split.
      * intros w. unfold mwServiceAware_setAttributeString. by erewrite bind_run by (apply lift_run, Eb).
      * unfold mwAwareAttribute_asString, attribute. cbn [at_data]. by rewrite Eg.
Qed.
