(* ===== verification/AwareFaults.v ===== *)
(** * The awareness service: calls that fail

    A list whose entries were all removed cannot be used again; an array of
    attributes is never read past its first; the array of watched attributes
    is returned at its end. *)

From S2P Require Import Prelude Buffer Common Message Framing World Util Rc2 Cipher Service Session.
From S2P Require Import Channel Aware Dispatch Frame Owned Delivery Protocol ChannelSpec Secure Shelf AwareShelf AwareSpec AwareSync.
#[local] Open Scope Z_scope.
#[local] Open Scope mw_scope.

(** ** A table that was destroyed *)

Lemma gone_table_crash L l id ids acc w : w_heap w !! L = Some (ObjAwareList l) -> al_entries l = TableGone ->
  id_ok id -> is_Some (al_service l) -> add_each L (id :: ids) acc w = None.
Proof.
  intros HL Hg (x & u & Hu) [srvc Hs]. cbn [add_each]. unfold list_add. rewrite Hu. apply bind_none.
  erewrite bind_run by (unfold list_service; erewrite bind_run by (by apply (obj_get_run _ _ l)); rewrite Hs; reflexivity).
  assert (obj_set L make_entries w = Some (tt, set_w_heap (<[L := ObjAwareList (make_entries l)]> (w_heap w)) w)) as Em
    by exact (obj_set_run L make_entries l w HL).
  erewrite bind_run by exact Em. assert (make_entries l = l) as -> by (unfold make_entries; by rewrite Hg).
  apply bind_none. unfold list_aware_find. erewrite bind_run; [|apply (obj_get_run _ _ l); cbn; apply lookup_insert_eq]. by rewrite Hg.
Qed.

(** [mwAwareList_removeAllAware] leaves the list with a pointer to a table
    that is gone: it cannot be called again, and nothing can be added. *)
Theorem removeAllAware_once E L l t srvc r w w' ids id : lists_tables E -> writes_out E -> EnvFrame keeps_aware E ->
  aware_inv [] w -> w_heap w !! L = Some (ObjAwareList l) -> al_service l = Some srvc -> al_entries l = Table t -> id_ok id ->
  mwAwareList_removeAllAware E (Some L) w = Some (r, w') ->
  mwAwareList_removeAllAware E (Some L) w' = None /\ mwAwareList_addAware E (Some L) (id :: ids) w' = None.
Proof.
  intros HE HW EF I HL Hs Ht Hid E0. destruct (removeAll_inv E HE HW [] L r w w' I E0) as [_ Hl].
  destruct (Hl l HL) as (l' & HL' & _ & _ & Hg). rewrite (Hg srvc t Hs Ht) in HL'. clear Hg E0. split.
  - cbn [mwAwareList_removeAllAware nonnull]. erewrite bind_run by (by apply (obj_get_run _ _ (set_al_entries TableGone l))).
    cbn [al_service set_al_entries]. rewrite Hs. cbn [nonnull].
    erewrite bind_run by (by apply (obj_get_run _ _ (set_al_entries TableGone l))). done.
  - cbn [mwAwareList_addAware nonnull]. erewrite bind_run by (by apply (obj_get_run _ _ (set_al_entries TableGone l))).
    cbn [al_service set_al_entries]. rewrite Hs. cbn [nonnull]. apply bind_none.
    apply (gone_table_crash L (set_al_entries TableGone l)); [done..|]. cbn. by rewrite Hs.
Qed.

(** ** An array of attributes *)

Section arrays.
Context (E : Env) (srvc chan : Z).

Lemma watch_array_runs A S W w L X k n : holds srvc chan A S W w -> A !! L = Some X -> k <> 0 ->
  (exists w', for_each (watch_add L) (replicate n k) w = Some (tt, w')) /\ watch_array n L k w = None.
Proof.
  revert A W w X. induction n as [|n IH]; intros A W w X H HX Hk; cbn [watch_array replicate for_each];
    rewrite (proj2 (Z.eqb_neq k 0)) by done.
  - split; [by eexists|done].
  - destruct (watch_add_run srvc chan A S W w L X k H HX) as (w1 & E1 & _ & H1).
    destruct (IH _ _ w1 _ H1 (lookup_insert_eq _ _ _) Hk) as [[w' E2] E3].
    split; [exists w'|]; by erewrite bind_run by exact E1.
Qed.

(** [mwAwareList_watchAttributeArray] reads its first key for ever: each
    turn of its loop succeeds, and none is the last. *)
Theorem watch_array_never_ends A S W w L X k ks n : holds srvc chan A S W w -> A !! L = Some X -> k <> 0 ->
  (exists w', for_each (watch_add L) (replicate n k) w = Some (tt, w'))
  /\ mwAwareList_watchAttributeArray E n (Some L) (Some (k :: ks)) w = None.
Proof.
  intros H HX Hk. destruct (watch_array_runs A S W w L X k n H HX Hk) as [H1 H2]. split; [done|].
  cbn [mwAwareList_watchAttributeArray nonnull]. erewrite bind_run by (by eapply list_service_run). cbn [nonnull].
  erewrite bind_run by reflexivity. by apply bind_none.
Qed.

(** What [mwAwareList_getWatchedAttributes] returns has the keys of the
    list, and the pointer to it is after the last: its caller finds none. *)
Theorem watched_attributes_lost A S W w L X : lists_tables E -> holds srvc chan A S W w -> A !! L = Some X ->
  (exists l, w_heap w !! L = Some (ObjAwareList l) /\ al_attribs l = TableNull
    /\ mwAwareList_getWatchedAttributes E (Some L) w = Some (None, w))
  \/ exists keys off, mwAwareList_getWatchedAttributes E (Some L) w = Some (Some (keys ++ [0], off), w)
    /\ list_to_set keys = X.2 /\ until_zero (drop (Z.to_nat off) (keys ++ [0])) = [].
Proof.
  intros HE H HX. destruct (holds_list srvc chan _ _ _ _ _ _ H HX) as (l & Hl & Hls & _ & Hu & ->).
  unfold mwAwareList_getWatchedAttributes. cbn [nonnull].
  erewrite bind_run by (by apply (obj_get_run _ _ l)). destruct (al_attribs l) as [|t|] eqn:Ht; [|right|done].
  - left. by exists l.
  - exists (table_keys E t), (zlen (table_keys E t)). split; [done|]. cbn. split.
    + apply set_eq. intros k. rewrite elem_of_list_to_set, (table_keys_perm E HE t), list_elem_of_fmap, elem_of_dom. split.
      * intros ([k' p] & -> & Hk%elem_of_map_to_list). by exists p.
      * intros [p Hk]. exists (k, p). by rewrite elem_of_map_to_list.
    + rewrite drop_app_length'; [done|]. unfold zlen. lia.
Qed.
End arrays.
