(* ===== verification/AwareRuns.v ===== *)
(** * The awareness service: runs

    The theorems of the service at work on concrete lists, and the calls and
    messages that make it fail. *)

From S2P Require Import Prelude Buffer Common Message Framing World Util Rc2 Cipher Service Session.
From S2P Require Import Channel Aware Dispatch Frame Owned Delivery Protocol ChannelSpec Secure Shelf AwareShelf AwareSpec.
From S2P Require Import AwareSync AwareTell.
#[local] Open Scope Z_scope.
#[local] Open Scope mw_scope.

(** ** Services and lists with nothing on them *)

Definition bare (o : object) : Prop :=
  match o with
  | ObjAwareService s => aw_entries s = Some ∅ /\ aw_attribs s = Some ∅
  | ObjAwareList l => own (al_entries l) = ∅ /\ own (al_attribs l) = ∅
  | _ => False
  end.

Lemma bare_shelved {K N} `{SV : Shelved K N} h :
  (forall s, aw_entries s = Some ∅ -> aw_attribs s = Some ∅ -> table_of K N s = ∅) ->
  (forall l, own (al_entries l) = ∅ -> own (al_attribs l) = ∅ -> (list_of K N l).2 = ∅) ->
  (forall q o, h !! q = Some o -> bare o) -> shelved K N [] h.
Proof.
  intros Hs Hl Hb.
  assert (forall q T, view (table_of K N) h q = Some T -> T = ∅) as HT.
  { intros q T (s & Hq & ->)%view_inv. destruct (Hb _ _ Hq). by apply Hs. }
  split.
  - intros srvc T k p Vt Hk. by rewrite (HT _ _ Vt), lookup_empty in Hk.
  - intros s1 s2 T1 T2 k1 k2 p Vt Hk. by rewrite (HT _ _ Vt), lookup_empty in Hk.
  - intros L os t k p (l & Hq & El)%view_inv Hk. destruct (Hb _ _ Hq) as [H1 H2]. pose proof (Hl l H1 H2) as E0.
    rewrite <- El in E0. cbn in E0. by rewrite E0, lookup_empty in Hk.
  - constructor.
  - by intros p ?%not_elem_of_nil.
Qed.

Lemma bare_inv w : heap_below w -> (forall q o, w_heap w !! q = Some o -> bare o) -> aware_inv [] w.
Proof.
  intros B Hb. split; [done|..].
  - apply bare_shelved; [|done..]. intros s H1 H2. unfold table_of. cbn. by rewrite H1.
  - apply bare_shelved; [|done..]. intros s H1 H2. unfold table_of. cbn. by rewrite H2.
  - split.
    + intros p t k q (e & Hq & _)%view_inv. by destruct (Hb _ _ Hq).
    + intros p p' t t' k k' q (e & Hq & _)%view_inv. by destruct (Hb _ _ Hq).
  - intros p b (s & Hq & ->)%view_inv. destruct (Hb _ _ Hq) as [H1 H2]. unfold has_tables. by rewrite H1, H2.
Qed.

(** The service is at 4, its list at 12, its channel at 1. *)
Definition aware_world (st : mwServiceState) : world :=
  set_w_services {[4 := set_sv_state st service_4]}
    (set_w_next 13 (set_w_heap {[
      4 := ObjAwareService {| aw_entries := Some ∅; aw_attribs := Some ∅; aw_lists := [12]; aw_channel := Some 1 |};
      12 := ObjAwareList {| al_service := Some 4; al_entries := TableNull; al_attribs := TableNull; al_handler := 7;
        al_client_data := datum_zero |}]}
    (one_channel (set_ch_cipher None (chan_40 mwChannel_OPEN))))).

Lemma aware_world_inv st : aware_inv [] (aware_world st).
Proof.
  apply bare_inv.
  - intros q o Hq. apply (map_Forall_lookup_1 (fun q _ => q < 13) _ _ _) in Hq; [done|]. by apply (bool_decide_unpack _).
  - intros q o Hq. cbn in Hq. apply lookup_insert_Some in Hq as [[<- <-]|[_ Hq]]; [done|].
    by apply lookup_singleton_Some in Hq as [<- <-].
Qed.

Definition no_lists : AwareClient := {|
  ac_on_aware h := Some (fun L s => log (EvWrite (opt_list (ai_user (as_id s))) L));
  ac_on_attrib _ := None; ac_clear _ := None; ac_free_data _ _ := ret tt; ac_rounds := 10 |}.

Lemma no_lists_ok : acl_ok no_lists.
Proof.
  split; cbn; try done.
  - intros h f l s [= <-]. apply (ff_log (P := keeps_aware)).
  - intros f d. apply fr_ret.
Qed.

Lemma quiet_lists_tables : lists_tables (quiet_env 0).
Proof. intros A m. reflexivity. Qed.

Definition id_bob : mwAwareIdBlock := {| ai_type := mwAware_USER; ai_user := Some [98; 111; 98]; ai_community := None |}.
Definition ids_bob : gset mwAwareIdBlock := {[id_bob]}.
Definition keys_one : gset Z := {[1]}.

Definition aware_after : world :=
  match mwAwareList_addAware (aware_env 4 no_lists (quiet_env 0)) (Some 12) [id_bob] (aware_world mwServiceState_STARTED) with
  | Some (_, w) => w
  | None => new_world
  end.

Lemma aware_invariant_witness : rtc (aware_step 4 no_lists (quiet_env 0)) (aware_world mwServiceState_STARTED) aware_after
  /\ aware_inv [] aware_after.
Proof.
  assert (rtc (aware_step 4 no_lists (quiet_env 0)) (aware_world mwServiceState_STARTED) aware_after) as R.
  { apply rtc_once, (aws_add _ _ _ (Some 12) [id_bob] 0). vm_compute. reflexivity. }
  split; [exact R|].
  apply (aware_invariant 4 no_lists (quiet_env 0) (aware_world mwServiceState_STARTED)); [apply quiet_env_frame, _|..].
  - apply quiet_lists_tables.
  - intros b w a w' [= <- <-]. by split.
  - apply no_lists_ok.
  - apply aware_world_inv.
  - exact R.
Defined.

(** ** The server keeps step *)

Definition lists_empty : gmap Z (gset mwAwareIdBlock * gset Z) := {[12 := (∅, ∅)]}.

Lemma aware_world_linked st : MW_SERVICE_IS_LIVE st = true -> linked 4 1 1 (aware_world st).
Proof.
  intros Hst. split.
  - exists (set_sv_state st service_4). split; [apply lookup_singleton_eq|done].
  - eexists. split; [apply lookup_singleton_eq|]. by split_and!.
Qed.

Lemma aware_world_holds st : holds 4 1 lists_empty ∅ ∅ (aware_world st).
Proof.
  split; [apply aware_world_inv| |].
  - exists ∅, ∅. split_and!; [done|by rewrite dom_empty_L..].
  - intros L. unfold lists_empty, aware_world. cbn. rewrite view_insert. destruct (decide (L = 4)) as [->|Hne]; [done|].
    unfold view. destruct (decide (L = 12)) as [->|Hne2]; [done|].
    by rewrite !lookup_singleton_ne.
Qed.

Lemma aware_world_agrees st : MW_SERVICE_IS_LIVE st = true ->
  agrees 4 1 1 ids_bob keys_one lists_empty (subs ∅ ∅) (aware_world st).
Proof.
  intros Hst.
  assert (all_ids lists_empty = ∅) as Ei by by vm_compute. assert (all_keys lists_empty = ∅) as Ek by by vm_compute.
  split; rewrite ?Ei, ?Ek.
  - by apply aware_world_linked.
  - apply aware_world_holds.
  - done.
  - apply empty_subseteq.
  - apply empty_subseteq.
Qed.

Lemma ids_bob_ok id : id ∈ ids_bob -> id_ok id.
Proof. intros ->%elem_of_singleton. by exists 98, [111; 98]. Qed.

Lemma aware_server_agrees_witness :
  exists A' cmds w', list_call_run (quiet_env 0) 4 (CallAdd 12 [id_bob]) (aware_world mwServiceState_STARTED) = Some (tt, w')
    /\ list_change (CallAdd 12 [id_bob]) lists_empty A' /\ told 1 (aware_world mwServiceState_STARTED) w' cmds
    /\ agrees 4 1 1 ids_bob keys_one A' (obey_all (subs ∅ ∅) cmds) w'.
Proof.
  apply (aware_server_agrees (quiet_env 0)).
  - done.
  - apply quiet_lists_tables.
  - by vm_compute.
  - by vm_compute.
  - apply ids_bob_ok.
  - by apply aware_world_agrees.
  - split; [by eexists|]. intros id ->%list_elem_of_singleton. by apply elem_of_singleton.
Defined.

Lemma accept_tells_all_witness :
  exists cmds w1, recv_accept (quiet_env 0) 4 1 {| ca_service := 0; ca_proto_type := 0; ca_proto_ver := 0; ca_addtl := opaque_zero;
      ca_acceptor_flag := false; ca_acceptor := li_zero;
      ca_encrypt := {| ea_mode := 0; ea_item := None; ea_extra := 0; ea_flag := false |} |} (aware_world mwServiceState_STARTING)
      = Some (tt, set_w_services (<[4 := set_sv_state mwServiceState_STARTED (set_sv_state mwServiceState_STARTING service_4)]>
          (w_services (aware_world mwServiceState_STARTING))) w1)
    /\ told 1 (aware_world mwServiceState_STARTING) w1 cmds
    /\ agrees 4 1 1 ids_bob keys_one lists_empty (obey_all (subs ∅ ∅) cmds) w1.
Proof.
  destruct (aware_world_agrees mwServiceState_STARTING eq_refl) as [Hl H _ Hi Hk].
  apply (accept_tells_all (quiet_env 0)); try done. apply quiet_lists_tables.
Defined.

(** ** A status *)

Definition snap_bob : mwAwareSnapshot :=
  {| as_id := id_bob; as_group := None; as_online := true; as_alt_id := None; as_status := us_zero; as_name := None |}.
Definition note_user (a L : Z) (s : mwAwareSnapshot) : event := EvWrite (opt_list (ai_user (as_id s))) L.

Lemma no_lists_notes a f L s w : ac_on_aware no_lists a = Some f -> f L s w = Some (tt, with_log [note_user a L s] w).
Proof. by intros [= <-]. Qed.

(** The service and the entry of the world after [mwAwareList_addAware]. *)
Definition service_after : mwServiceAware :=
  match w_heap aware_after !! 4 with Some (ObjAwareService s) => s | _ =>
    {| aw_entries := None; aw_attribs := None; aw_lists := []; aw_channel := None |} end.
Definition table_after : gmap mwAwareIdBlock Z := default ∅ (aw_entries service_after).

(** The links of each entry are in order, and few. *)
Definition few_links (o : object) : bool :=
  match o with
  | ObjAwareEntry e => bool_decide (NoDup (ae_membership e).*1) && forallb (fun n => n <? ae_links e) (ae_membership e).*1
      && (length (ae_membership e) <=? 10)%nat
  | _ => true
  end.
Lemma few_links_all (h : gmap Z object) : forallb few_links (map_to_list h).*2 = true ->
  forall p e, h !! p = Some (ObjAwareEntry e) -> links_ok e /\ (length (ae_membership e) <= 10)%nat.
Proof.
  intros Ha p e Hp. rewrite forallb_forall in Ha. assert (few_links (ObjAwareEntry e) = true) as Hf.
  { apply Ha, list_elem_of_In, list_elem_of_fmap. exists (p, ObjAwareEntry e). split; [done|by apply elem_of_map_to_list]. }
  cbn in Hf. apply andb_true_iff in Hf as [[H1 H2]%andb_true_iff H3]. apply bool_decide_eq_true in H1. apply Nat.leb_le in H3.
  split; [|done]. split; [done|]. intros n Hn. rewrite forallb_forall in H2. apply list_elem_of_In in Hn. apply H2 in Hn. lia.
Qed.

Lemma table_after_in : aw_entries service_after = Some table_after.
Proof.
  assert (forall o : option (gmap mwAwareIdBlock Z), is_Some o -> o = Some (default ∅ o)) as H by by intros ? [? ->].
  apply H, (bool_decide_unpack _). by vm_compute.
Qed.

Lemma status_told_witness :
  match table_after !! id_bob with
  | None => status_recv no_lists 4 snap_bob aware_after = Some (tt, aware_after)
  | Some p => exists e, w_heap aware_after !! p = Some (ObjAwareEntry e)
      /\ NoDup (ae_membership e).*2 /\ (forall L, L ∈ (ae_membership e).*2 <-> list_has (w_heap aware_after) 4 L id_bob)
      /\ (links_ok e -> (length (ae_membership e) <= 10)%nat ->
        status_recv no_lists 4 snap_bob aware_after
          = Some (tt, with_log (mjoin (status_note no_lists note_user (w_heap aware_after) snap_bob <$> (ae_membership e).*2))
          (set_w_heap (<[p := ObjAwareEntry (set_ae_aware (mwAwareSnapshot_clone (mwAwareSnapshot_clear (ae_aware e)) snap_bob) e)]>
            (w_heap aware_after)) aware_after)))
  end.
Proof.
  apply (status_told no_lists note_user no_lists_notes 4 service_after table_after snap_bob aware_after).
  - apply aware_invariant_witness.
  - vm_compute. reflexivity.
  - apply table_after_in.
  - done.
Defined.

(** An update about nobody, and one that is cut short. *)
Lemma update_safe_iff_witness :
  recv (quiet_env 0) no_lists 4 1 msg_AWARE_UPDATE (opaque_of (replicate 13 0)) aware_after = None
  <-> mwGetBuffer_error (default (mwGetBuffer_wrap None)
      (snd <$> mwAwareSnapshot_get 0 as_zero (mwGetBuffer_wrap (Some (opaque_of (replicate 13 0)))))) = false
    /\ ai_user (as_id (default as_zero
      (fst <$> mwAwareSnapshot_get 0 as_zero (mwGetBuffer_wrap (Some (opaque_of (replicate 13 0))))))) = None.
Proof.
  apply (update_safe_iff no_lists note_user no_lists_notes (quiet_env 0) 4 1 service_after table_after).
  - apply aware_invariant_witness.
  - split_and!; [vm_compute; reflexivity..|vm_compute; by eexists|].
    exists (set_sv_state mwServiceState_STARTED service_4). split; [vm_compute; reflexivity|done].
  - apply table_after_in.
  - apply few_links_all. vm_compute. reflexivity.
  - vm_compute. reflexivity.
  - vm_compute. reflexivity.
Defined.
