(* ===== verification/DirSpec.v ===== *)
(** * The directory service: its invariant

    Whatever the client calls and the server sends: the books of the table are
    there with their names, a directory is new or waits for its opening, and
    one that waits under a request is found by it. *)

From S2P Require Import Prelude Buffer Common Message Framing World Util Rc2 Cipher Service Session.
From S2P Require Import Channel Dir Dispatch Frame Owned Delivery Protocol ChannelSpec.
#[local] Open Scope Z_scope.
#[local] Open Scope mw_scope.

(** ** What the blocks know of each other *)

(** What is said of a directory and of a book elsewhere. *)
Definition dir_look (o : object) : option ((Z * Z * mwDirectoryState) + (Z * bool * mwString)) :=
  match o with
  | ObjDirectory d => Some (inl (di_service d, di_search_id d, di_state d))
  | ObjAddressBook b => Some (inr (ab_service b, ab_freed b, ab_name b))
  | _ => None
  end.
Definition seen (h : gmap Z object) (p : Z) := h !! p ≫= dir_look.

(** The books of the table are those of the service, under their names, and
    none was freed. *)
Record books_ok (h : gmap Z object) (srvc : Z) (l : list book_slot) : Prop := {
  bo_keys : NoDup (bs_key <$> l);
  bo_books : NoDup (bs_book <$> l);
  bo_seen x : x ∈ l -> seen h (bs_book x) = Some (inr (srvc, false, Some (bs_key x)));
}.

Definition requests_ok (h : gmap Z object) (srvc : Z) (t : gmap Z Z) : Prop :=
  forall id dir, t !! id = Some dir -> seen h dir = Some (inl (srvc, id, mwDirectory_PENDING)).

Definition dir_block (h : gmap Z object) (p : Z) (o : object) : Prop :=
  match o with
  | ObjDirService s => (forall l, ds_books s = Some l -> books_ok h p l) /\ requests_ok h p (ds_requests s)
  | ObjAddressBook b => ab_dirs b = ∅
  | ObjDirectory d => di_id d = 0 /\ (di_state d = mwDirectory_NEW \/ di_state d = mwDirectory_PENDING)
  | _ => True
  end.

Record dir_inv (w : world) : Prop := {
  di_below : heap_below w;
  di_blocks p o : w_heap w !! p = Some o -> dir_block (w_heap w) p o;
}.

#[export] Instance dir_inv_heap : HeapOnly dir_inv.
Proof.
  intros w w' Eh En [H1 H2]. split; rewrite ?Eh; [|done]. intros q o Hq. rewrite Eh in Hq. apply H1 in Hq. lia.
Qed.

Lemma seen_insert h p o q : seen (<[p := o]> h) q = if decide (q = p) then dir_look o else seen h q.
Proof.
  unfold seen. destruct (decide (q = p)) as [->|Hne]; [by rewrite lookup_insert_eq|by rewrite lookup_insert_ne].
Qed.

(** The blocks that a block tells of, and no others. *)
Definition told_of (o : object) : gset Z :=
  match o with
  | ObjDirService s => list_to_set (bs_book <$> default [] (ds_books s)) ∪ list_to_set (map_to_list (ds_requests s)).*2
  | _ => ∅
  end.

Lemma told_book s x l : ds_books s = Some l -> x ∈ l -> bs_book x ∈ told_of (ObjDirService s).
Proof.
  intros Hl Hx. cbn. rewrite Hl. apply elem_of_union_l, elem_of_list_to_set, list_elem_of_fmap. by exists x.
Qed.
Lemma told_request s id dir : ds_requests s !! id = Some dir -> dir ∈ told_of (ObjDirService s).
Proof.
  intros Hd. apply elem_of_union_r, elem_of_list_to_set, list_elem_of_fmap. exists (id, dir). split; [done|].
  by apply elem_of_map_to_list.
Qed.

Lemma dir_block_ext h h' p o : (forall q, q ∈ told_of o -> seen h' q = seen h q) -> dir_block h p o -> dir_block h' p o.
Proof.
  intros Hs. destruct o as [| | | | | | | | | | | | | | | | |s| |]; cbn [dir_block]; try done. intros [Hb Hr]. split.
  - intros l Hl. destruct (Hb l Hl) as [H1 H2 H3]. split; [done..|]. intros x Hx.
    rewrite Hs; [by apply H3|by eapply told_book].
  - intros id dir Hd. rewrite Hs; [by apply Hr|by eapply told_request].
Qed.

(** A block changes: those that tell of it must still be right. *)
Lemma inv_set w p o o' : dir_inv w -> w_heap w !! p = Some o ->
  (dir_look o' = dir_look o \/ forall q b, q <> p -> w_heap w !! q = Some b -> p ∉ told_of b) ->
  dir_block (<[p := o']> (w_heap w)) p o' ->
  dir_inv (set_w_heap (<[p := o']> (w_heap w)) w).
Proof.
  intros [H1 H2] Hp Hl Ho. split; cbn.
  - apply (below_sub w); [done|]. intros q [b Hq]. destruct (decide (q = p)) as [->|Hne]; [by eexists|].
    cbn in Hq. rewrite lookup_insert_ne in Hq by done. by eexists.
  - intros q b Hq. destruct (decide (q = p)) as [->|Hne]; [rewrite lookup_insert_eq in Hq; by injection Hq as <-|].
    rewrite lookup_insert_ne in Hq by done. apply (dir_block_ext (w_heap w)); [|by apply H2]. intros r Hr. rewrite seen_insert.
    destruct (decide (r = p)) as [->|]; [|done]. unfold seen. rewrite Hp. cbn. destruct Hl as [->|Hl]; [done|].
    by destruct (Hl q b Hne Hq).
Qed.

Lemma inv_new w o : dir_inv w -> dir_block (<[w_next w := o]> (w_heap w)) (w_next w) o ->
  dir_inv (set_w_next (w_next w + 1) (set_w_heap (<[w_next w := o]> (w_heap w)) w)).
Proof.
  intros [H1 H2] Ho. pose proof (below_fresh w H1) as Hn. split; cbn; [by apply below_next|].
  intros q b Hq. destruct (decide (q = w_next w)) as [->|Hne]; [rewrite lookup_insert_eq in Hq; by injection Hq as <-|].
  rewrite lookup_insert_ne in Hq by done. pose proof (H2 q b Hq) as Hb. apply (dir_block_ext (w_heap w)); [|done].
  intros r Hr. rewrite seen_insert. destruct (decide (r = w_next w)) as [->|]; [|done]. exfalso.
  destruct b as [| | | | | | | | | | | | | | | | |s| |]; cbn in Hr; try by apply not_elem_of_empty in Hr.
  destruct Hb as [Hb Hq2]. apply elem_of_union in Hr as [Hr|Hr]; apply elem_of_list_to_set, list_elem_of_fmap in Hr.
  - destruct Hr as (x & Hx & Hr). destruct (ds_books s) as [l|] eqn:Hl; cbn in Hr; [|by apply not_elem_of_nil in Hr].
    pose proof (bo_seen _ _ _ (Hb l eq_refl) x Hr) as Hx2. rewrite <- Hx in Hx2. unfold seen in Hx2. by rewrite Hn in Hx2.
  - destruct Hr as ([id dir] & Hx & Hr%elem_of_map_to_list). cbn in Hx. subst dir. apply Hq2 in Hr. unfold seen in Hr. by rewrite Hn in Hr.
Qed.

(** ** Fields that nothing tells of *)

Lemma keeps_service_field p (f : mwServiceDirectory -> mwServiceDirectory) :
  (forall s, ds_requests (f s) = ds_requests s /\ (ds_books (f s) = ds_books s \/ ds_books (f s) = None)) ->
  has (kept dir_inv) (obj_set p f).
Proof.
  intros Hf w [] w' I (s & Hp & ->)%obj_set_inv. cbn in Hp. apply (inv_set w p (ObjDirService s)); [done|done|by left|].
  apply (dir_block_ext (w_heap w)).
  - intros q Hq. rewrite seen_insert. destruct (decide (q = p)) as [->|]; [|done]. unfold seen. by rewrite Hp.
  - destruct (di_blocks _ I p _ Hp) as [Hb Hr]. destruct (Hf s) as [Er Hl]. cbn. rewrite Er. split; [|done].
    intros l Hl'. destruct Hl as [Hl|Hl]; rewrite Hl in Hl'; [by apply Hb|done].
Qed.

Lemma keeps_dir_field p (f : mwDirectory -> mwDirectory) :
  (forall d, di_service (f d) = di_service d /\ di_search_id (f d) = di_search_id d /\ di_state (f d) = di_state d /\ di_id (f d) = di_id d) ->
  has (kept dir_inv) (obj_set p f).
Proof.
  intros Hf w [] w' I (d & Hp & ->)%obj_set_inv. cbn in Hp. destruct (Hf d) as (H1 & H2 & H3 & H4).
  apply (inv_set w p (ObjDirectory d)); [done|done|left; cbn; by rewrite H1, H2, H3|].
  cbn. rewrite H3, H4. by apply (di_blocks _ I p _ Hp).
Qed.

Lemma keeps_ds_channel p v : has (kept dir_inv) (obj_set p (set_ds_channel v)).
Proof. apply keeps_service_field. intros s. by split; [|left]. Qed.
Lemma keeps_ds_counter p v : has (kept dir_inv) (obj_set p (fun s => set_ds_counter (v s) s)).
Proof. apply keeps_service_field. intros s. by split; [|left]. Qed.
Lemma keeps_di_handler p v : has (kept dir_inv) (obj_set p (set_di_handler v)).
Proof. by apply keeps_dir_field. Qed.
Lemma keeps_di_client_data p v : has (kept dir_inv) (obj_set p (set_di_client_data v)).
Proof. by apply keeps_dir_field. Qed.
#[export] Hint Resolve keeps_ds_channel keeps_ds_counter keeps_di_handler keeps_di_client_data : mw_frame.

(** ** The table of the books *)

Section table.
Context (g_str_hash : list Z -> Z).

(** A name that is not there comes last; one that is keeps its entry, with the
    new book and a key that is gone. *)
Lemma slot_insert_inv name book l l' old : NoDup (bs_key <$> l) -> slot_insert g_str_hash name book l = Some (l', old) ->
  ((name ∉ bs_key <$> l) /\ l' = l ++ [{| bs_key := name; bs_freed := false; bs_book := book |}] /\ old = None)
  \/ exists l1 x l2, l = l1 ++ x :: l2 /\ bs_key x = name /\ bs_freed x = false
    /\ l' = l1 ++ {| bs_key := name; bs_freed := true; bs_book := book |} :: l2 /\ old = Some (bs_book x).
Proof.
  revert l' old. induction l as [|x l IH]; intros l' old Hnd E0; cbn [slot_insert] in E0.
  - injection E0 as <- <-. left. split_and!; [apply not_elem_of_nil|done..].
  - cbn in Hnd. apply NoDup_cons in Hnd as [Hx Hnd].
    assert (forall r, slot_insert g_str_hash name book l = Some r -> bs_key x <> name -> Some (x :: r.1, r.2) = Some (l', old) ->
      ((name ∉ bs_key <$> (x :: l)) /\ l' = (x :: l) ++ [{| bs_key := name; bs_freed := false; bs_book := book |}] /\ old = None)
      \/ exists l1 y l2, x :: l = l1 ++ y :: l2 /\ bs_key y = name /\ bs_freed y = false
        /\ l' = l1 ++ {| bs_key := name; bs_freed := true; bs_book := book |} :: l2 /\ old = Some (bs_book y)) as Hrec.
    { intros [r1 r2] Er Hne [= <- <-]. destruct (IH _ _ Hnd Er) as [(H1 & -> & ->)|(l1 & y & l2 & -> & H1 & H2 & -> & ->)].
      - left. split_and!; [|done..]. cbn. intros [?|?]%elem_of_cons; congruence.
      - right. by exists (x :: l1), y, l2. }
    destruct (Z.eqb_spec (g_str_hash (bs_key x)) (g_str_hash name)) as [Hh|Hh].
    + destruct (bs_freed x) eqn:Hf; [done|]. destruct (decide (bs_key x = name)) as [Hk|Hk].
      * injection E0 as <- <-. right. exists [], x, l. by rewrite Hk.
      * destruct (slot_insert g_str_hash name book l) as [r|] eqn:Er; [|done]. by eapply Hrec.
    + destruct (slot_insert g_str_hash name book l) as [r|] eqn:Er; [|done]. eapply Hrec; [done| |done]. congruence.
Qed.
End table.

Section functions.
Context (E : Env) {EF : EnvFrame (kept dir_inv) E} (HE : lists_tables E) (cl : DirClient) (g_str_hash : list Z -> Z).

Lemma no_values : e_values E Z ∅ = [].
Proof. apply Permutation_nil_r. exact (HE Z ∅). Qed.

(** A book that left the table. *)
Lemma book_free_run p b w : dir_inv w -> w_heap w !! p = Some (ObjAddressBook b) -> ab_freed b = false ->
  book_free E p w = Some (tt, set_w_heap (<[p := ObjAddressBook (set_ab_freed b)]> (w_heap w)) w).
Proof.
  intros I Hp Hf. pose proof (di_blocks _ I p _ Hp) as Hd. cbn in Hd. unfold book_free, book_dirs.
  erewrite bind_run by (erewrite bind_run by (by apply (obj_deref_run p b)); by rewrite Hf).
  assert (obj_set p (set_ab_dirs ∅) w = Some (tt, w)) as E1.
  { rewrite (obj_set_run p _ b) by done. assert (set_ab_dirs ∅ b = b) as -> by (destruct b; cbn in *; by subst).
    rewrite insert_id by done. by destruct w. }
  erewrite bind_run by exact E1. rewrite Hd, no_values. cbn [for_each]. erewrite bind_run by reflexivity.
  exact (obj_set_run p set_ab_freed b w Hp).
Qed.

Lemma book_free_inv p b w : dir_inv w -> w_heap w !! p = Some (ObjAddressBook b) ->
  (forall q o, w_heap w !! q = Some o -> p ∉ told_of o) ->
  dir_inv (set_w_heap (<[p := ObjAddressBook (set_ab_freed b)]> (w_heap w)) w).
Proof.
  intros I Hp Ht. apply (inv_set w p (ObjAddressBook b)); [done|done| |by apply (di_blocks _ I p _ Hp)].
  right. intros q o _. apply Ht.
Qed.

(** A book that its service does not have is told of nowhere. *)
Lemma not_told p b w : dir_inv w -> w_heap w !! p = Some (ObjAddressBook b) ->
  (forall s l, w_heap w !! ab_service b = Some (ObjDirService s) -> ds_books s = Some l -> p ∉ (bs_book <$> l)) ->
  forall q o, w_heap w !! q = Some o -> p ∉ told_of o.
Proof.
  intros I Hp Hn q o Hq Hin. pose proof (di_blocks _ I q o Hq) as Hb.
  destruct o as [| | | | | | | | | | | | | | | | |s| |]; cbn in Hin; try by apply not_elem_of_empty in Hin. destruct Hb as [Hb Hr].
  apply elem_of_union in Hin as [Hin|Hin]; apply elem_of_list_to_set in Hin.
  - destruct (ds_books s) as [l|] eqn:Hl; cbn in Hin; [|by apply not_elem_of_nil in Hin]. pose proof Hin as Hin'.
    apply list_elem_of_fmap in Hin as (x & Hx & Hin). pose proof (bo_seen _ _ _ (Hb l eq_refl) x Hin) as Hs. rewrite <- Hx in Hs.
    unfold seen in Hs. rewrite Hp in Hs. injection Hs as Hs _ _. rewrite Hs in Hn. by apply (Hn s l Hq Hl).
  - apply list_elem_of_fmap in Hin as ([id dir] & Hx & Hin%elem_of_map_to_list). cbn in Hx. subst dir. apply Hr in Hin.
    unfold seen in Hin. by rewrite Hp in Hin.
Qed.

Lemma books_append h srvc l name p : books_ok h srvc l -> name ∉ (bs_key <$> l) -> p ∉ (bs_book <$> l) ->
  seen h p = Some (inr (srvc, false, Some name)) ->
  books_ok h srvc (l ++ [{| bs_key := name; bs_freed := false; bs_book := p |}]).
Proof.
  intros [H1 H2 H3] Hk Hb Hs. split.
  - rewrite fmap_app. apply NoDup_app. split_and!; [done| |apply NoDup_singleton]. by intros x Hx ->%list_elem_of_singleton.
  - rewrite fmap_app. apply NoDup_app. split_and!; [done| |apply NoDup_singleton]. by intros x Hx ->%list_elem_of_singleton.
  - intros x [Hx| ->%list_elem_of_singleton]%elem_of_app; [by apply H3|done].
Qed.

Lemma books_replace h srvc l1 x l2 p : books_ok h srvc (l1 ++ x :: l2) -> p ∉ (bs_book <$> (l1 ++ x :: l2)) ->
  seen h p = Some (inr (srvc, false, Some (bs_key x))) ->
  books_ok h srvc (l1 ++ {| bs_key := bs_key x; bs_freed := true; bs_book := p |} :: l2)
  /\ bs_book x ∉ (bs_book <$> (l1 ++ {| bs_key := bs_key x; bs_freed := true; bs_book := p |} :: l2)).
Proof.
  intros [H1 H2 H3] Hp Hs. rewrite fmap_app in *. cbn in *. rewrite fmap_app in *. cbn in *.
  apply NoDup_app in H2 as (Hn1 & Hn2 & Hn3). apply NoDup_cons in Hn3 as [Hn3 Hn4].
  apply not_elem_of_app in Hp as [Hp1 [Hp2 Hp3]%not_elem_of_cons]. split; [split|].
  - rewrite fmap_app. cbn. done.
  - rewrite fmap_app. cbn. apply NoDup_app. split_and!; [done| |by apply NoDup_cons].
    intros y Hy [->|Hy2]%elem_of_cons; [done|]. apply (Hn2 y Hy). by right.
  - intros y [Hy|[->|Hy]%elem_of_cons]%elem_of_app; [apply H3|done|apply H3]; apply elem_of_app; [by left|right; by right].
  - apply not_elem_of_app. split; [intros Hx; apply (Hn2 _ Hx); left|]. apply not_elem_of_cons. split; [cbn; congruence|done].
Qed.

Lemma book_new_run srvc nm id w s l : dir_inv w -> w_heap w !! srvc = Some (ObjDirService s) -> ds_books s = Some l ->
  match slot_insert g_str_hash nm (w_next w) l with
  | None => book_new E g_str_hash srvc (Some nm) id w = None
  | Some (l', _) => exists w', book_new E g_str_hash srvc (Some nm) id w = Some (w_next w, w') /\ dir_inv w'
      /\ w_next w' = w_next w + 1 /\ w_heap w' !! srvc = Some (ObjDirService (set_ds_books (Some l') s))
      /\ w_channels w' = w_channels w /\ w_services w' = w_services w /\ w_log w' = w_log w
  end.
Proof.
  intros I Hs Hl. unfold book_new.
  set (b := {| ab_service := srvc; ab_id := id; ab_name := _; ab_dirs := ∅; ab_freed := false |}).
  pose proof (below_fresh w (di_below _ I)) as Hn. assert (srvc <> w_next w) as Hne by congruence.
  assert (dir_inv (set_w_next (w_next w + 1) (set_w_heap (<[w_next w := ObjAddressBook b]> (w_heap w)) w))) as I1 by by apply inv_new.
  erewrite bind_run by reflexivity. set (w1 := set_w_next (w_next w + 1) (set_w_heap (<[w_next w := obj_in b]> (w_heap w)) w)).
  change (dir_inv w1) in I1. assert (w_heap w1 !! srvc = Some (ObjDirService s)) as Hs1 by (cbn; by rewrite lookup_insert_ne).
  assert (obj_get srvc ds_books w1 = Some (Some l, w1)) as Eg by (rewrite <- Hl; exact (obj_get_run srvc ds_books s w1 Hs1)).
  rewrite (bind_run _ _ _ _ _ Eg). erewrite bind_run by reflexivity.
  destruct (slot_insert g_str_hash nm (w_next w) l) as [[l' old]|] eqn:Hins; [|by apply bind_none].
  erewrite bind_run by (by apply lift_run). cbn beta iota.
  assert (w_heap w1 !! w_next w = Some (ObjAddressBook b)) as Hb by apply lookup_insert_eq.
  assert (seen (w_heap w1) (w_next w) = Some (inr (srvc, false, Some nm))) as Hseen by (unfold seen; by rewrite Hb).
  pose proof (di_blocks _ I1 srvc _ Hs1) as [Hbk Hrq]. pose proof (Hbk l Hl) as Hok.
  assert (w_next w ∉ (bs_book <$> l)) as Hnew.
  { intros (x & Hx & Hin)%list_elem_of_fmap. destruct (di_blocks _ I srvc _ Hs) as [Hb0 _].
    pose proof (bo_seen _ _ _ (Hb0 l Hl) x Hin) as Hx2. rewrite <- Hx in Hx2. unfold seen in Hx2. by rewrite Hn in Hx2. }
  assert (obj_set srvc (set_ds_books (Some l')) w1
    = Some (tt, set_w_heap (<[srvc := ObjDirService (set_ds_books (Some l') s)]> (w_heap w1)) w1)) as Es
    by exact (obj_set_run srvc _ s w1 Hs1).
  rewrite (bind_run _ _ _ _ _ Es). set (w2 := set_w_heap (<[srvc := _]> _) w1) in *.
  assert (books_ok (w_heap w1) srvc l' -> dir_inv w2) as Hset.
  { intros Hl2. apply (inv_set w1 srvc (ObjDirService s)); [done|done|by left|]. apply (dir_block_ext (w_heap w1)).
    - intros q Hq. rewrite seen_insert. destruct (decide (q = srvc)) as [->|]; [|done]. unfold seen. by rewrite Hs1.
    - split; [by intros l3 [= <-]|done]. }
  assert (w_heap w2 !! srvc = Some (ObjDirService (set_ds_books (Some l') s))) as Hs2 by apply lookup_insert_eq.
  destruct (slot_insert_inv g_str_hash nm (w_next w) l l' old (bo_keys _ _ _ Hok) Hins)
    as [(Hk & -> & ->)|(l1 & x & l2 & -> & Hk & Hf & -> & ->)].
  - erewrite bind_run by reflexivity. exists w2. split_and!; try done. apply Hset. by apply books_append.
  - subst nm. destruct (books_replace _ _ _ _ _ _ Hok Hnew Hseen) as [Hok' Hx]. pose proof (Hset Hok') as I2. clear Hset.
    pose proof (bo_seen _ _ _ Hok x ltac:(apply elem_of_app; right; left)) as Hxs. unfold seen in Hxs.
    destruct (w_heap w1 !! bs_book x) as [[| | | | | | | | | | | | | | | | | |bx|]|] eqn:Hbx; try done. injection Hxs as Hsv Hfr Hnm.
    assert (srvc <> bs_book x) as Hne2 by congruence.
    assert (w_heap w2 !! bs_book x = Some (ObjAddressBook bx)) as Hbx2 by (cbn; rewrite lookup_insert_ne; done).
    pose proof (book_free_run _ _ _ I2 Hbx2 Hfr) as Er. rewrite (bind_run _ _ _ _ _ Er).
    eexists. split; [reflexivity|]. split_and!; try done; [|cbn; by rewrite lookup_insert_ne].
    apply book_free_inv; [done|done|]. apply (not_told _ bx); [done|done|]. rewrite Hsv. intros s0 l0 Hs0 Hl0.
    rewrite Hs2 in Hs0. injection Hs0 as <-. cbn in Hl0. by injection Hl0 as <-.
Qed.

Lemma keeps_book_new srvc name id : has (kept dir_inv) (book_new E g_str_hash srvc name id).
Proof.
  intros w p w' I E0. assert (exists s, w_heap w !! srvc = Some (ObjDirService s)) as [s Hs].
  { unfold book_new in E0. apply bind_inv in E0 as (q & w1 & Eq & E0). injection Eq as <- <-.
    apply bind_inv in E0 as (t & w2 & (-> & s & Hs & _)%obj_get_inv & _). cbn in Hs.
    destruct (decide (srvc = w_next w)) as [->|Hne]; [by rewrite lookup_insert_eq in Hs|]. rewrite lookup_insert_ne in Hs by done. by exists s. }
  destruct (ds_books s) as [l|] eqn:Hl; [destruct name as [nm|]|].
  - pose proof (book_new_run srvc nm id w s l I Hs Hl) as R. destruct (slot_insert _ _ _ _) as [[l' old]|]; [|congruence].
    destruct R as (w2 & E2 & I2 & _). rewrite E2 in E0. by injection E0 as _ <-.
  - exfalso. unfold book_new in E0. apply bind_inv in E0 as (q & w1 & Eq & E0). injection Eq as <- <-.
    apply bind_inv in E0 as (t & w2 & (-> & s' & Hs' & ->)%obj_get_inv & E0). pose proof (below_fresh w (di_below _ I)) as Hn.
    cbn in Hs'. rewrite lookup_insert_ne in Hs' by congruence. assert (s' = s) as -> by congruence. rewrite Hl in E0.
    by apply bind_inv in E0 as (nm & w2 & ? & _).
  - unfold book_new in E0. apply bind_inv in E0 as (q & w1 & Eq & E0). injection Eq as <- <-. pose proof (below_fresh w (di_below _ I)) as Hn.
    apply bind_inv in E0 as (t & w2 & (-> & s' & Hs' & ->)%obj_get_inv & E0). cbn in Hs'. rewrite lookup_insert_ne in Hs' by congruence.
    assert (s' = s) as -> by congruence. rewrite Hl in E0. injection E0 as _ <-. by apply inv_new.
Qed.
#[local] Hint Resolve keeps_book_new : mw_frame.

Lemma keeps_recv_books n srvc b : has (kept dir_inv) (recv_books E g_str_hash n srvc b).
Proof. revert b. induction n as [|n IH]; intros b; cbn [recv_books]; frame. Qed.
#[local] Hint Resolve keeps_recv_books : mw_frame.

Lemma keeps_next_request_id srvc : has (kept dir_inv) (next_request_id srvc).
Proof. unfold next_request_id. frame. Qed.
#[local] Hint Resolve keeps_next_request_id : mw_frame.

#[export] Instance dir_ops_frame srvc : OpsFrame (kept dir_inv) srvc (dir_ops E cl g_str_hash).
Proof.
  split; cbn.
  - intros f c m [= <-]. unfold recv_create. frame.
  - intros f c m [= <-]. unfold recv_accept. frame.
  - intros f c m [= <-]. unfold recv_destroy. frame.
  - intros f c t d [= <-]. unfold recv, recv_list. frame.
  - intros f [= <-]. unfold start, make_channel, mwChannel_setService, mwChannel_setProtoType, mwChannel_setProtoVer, set_if_init. frame.
  - intros f [= <-]. unfold stop. frame.
Qed.

(** ** What the client calls *)

Lemma keeps_dir_new book : has (kept dir_inv) (mwDirectory_new book).
Proof.
  unfold mwDirectory_new. destruct book as [book|]; cbn [nonnull]; [|apply fr_ret]. apply fr_bind; [frame|intros srvc].
  apply fr_bind; [|frame]. intros w p w' I [= <- <-]. apply inv_new; [done|]. by split; [|left].
Qed.

(** A new directory waits under its request. *)
Lemma open_request_inv dir srvc d id w : dir_inv w -> w_heap w !! dir = Some (ObjDirectory d) ->
  di_state d = mwDirectory_PENDING -> di_service d = srvc ->
  (forall q o, w_heap w !! q = Some o -> dir ∉ told_of o) ->
  forall w' w1, obj_set dir (set_di_search_id id) w = Some (tt, w1) ->
    obj_set srvc (fun s => set_ds_requests (<[id := dir]> (ds_requests s)) s) w1 = Some (tt, w') -> dir_inv w'.
Proof.
  intros I Hd Hst Hsrv Hn w' w1 (d' & Hd' & ->)%obj_set_inv (s & Hs & ->)%obj_set_inv. cbn in Hs, Hd'.
  assert (d' = d) as -> by congruence. assert (srvc <> dir) as Hne by (intros ->; rewrite lookup_insert_eq in Hs; done).
  pose proof (di_blocks _ I dir _ Hd) as [Hid _].
  assert (dir_inv (set_w_heap (<[dir := ObjDirectory (set_di_search_id id d)]> (w_heap w)) w)) as I1.
  { apply (inv_set w dir (ObjDirectory d)); [done|done|right; intros q o _; apply Hn|]. split; [done|by right]. }
  set (w1 := set_w_heap _ w) in *. apply (inv_set w1 srvc (ObjDirService s)); [done|done|by left|].
  change (w_heap w1 !! srvc = Some (ObjDirService s)) in Hs. destruct (di_blocks _ I1 srvc _ Hs) as [Hb Hr].
  apply (dir_block_ext (w_heap w1)).
  - intros q Hq. rewrite seen_insert. destruct (decide (q = srvc)) as [->|]; [|done]. unfold seen. by rewrite Hs.
  - split; [by apply Hb|]. intros i q. cbn. intros [[<- <-]|[_ Hq]]%lookup_insert_Some; [|by apply Hr].
    unfold seen. cbn. rewrite lookup_insert_eq. cbn. by rewrite Hst, Hsrv.
Qed.

(** A directory that is not pending waits under no request. *)
Lemma new_not_told dir d w : dir_inv w -> w_heap w !! dir = Some (ObjDirectory d) -> di_state d = mwDirectory_NEW ->
  forall q o, w_heap w !! q = Some o -> dir ∉ told_of o.
Proof.
  intros I Hd Hst q o Hq Hin. pose proof (di_blocks _ I q o Hq) as Hb.
  destruct o as [| | | | | | | | | | | | | | | | |s| |]; cbn in Hin; try by apply not_elem_of_empty in Hin. destruct Hb as [Hb Hr].
  apply elem_of_union in Hin as [Hin|Hin]; apply elem_of_list_to_set, list_elem_of_fmap in Hin.
  - destruct Hin as (x & Hx & Hin). destruct (ds_books s) as [l|] eqn:Hl; cbn in Hin; [|by apply not_elem_of_nil in Hin].
    pose proof (bo_seen _ _ _ (Hb l eq_refl) x Hin) as Hs. rewrite <- Hx in Hs. unfold seen in Hs. by rewrite Hd in Hs.
  - destruct Hin as ([id p] & Hx & Hin%elem_of_map_to_list). cbn in Hx. subst p. apply Hr in Hin.
    unfold seen in Hin. rewrite Hd in Hin. cbn in Hin. congruence.
Qed.

Lemma keeps_dir_open dir cb : has (kept dir_inv) (mwDirectory_open E dir cb).
Proof.
  unfold mwDirectory_open. destruct dir as [dir|]; cbn [nonnull]; [|apply fr_ret]. destruct (cb =? 0); [apply fr_ret|].
  intros w r w' I E0. apply bind_inv in E0 as (is_new & w1 & E1 & E0). unfold MW_DIRECTORY_IS_STATE, mwDirectory_getState, nonnull in E1.
  apply bind_inv in E1 as (st & w2 & (-> & d & Hd & ->)%obj_get_inv & [= <- <-]). cbn in Hd.
  destruct (bool_decide (di_state d = mwDirectory_NEW)) eqn:Hst; cbn [negb] in E0; [|by injection E0 as _ <-].
  apply bool_decide_eq_true in Hst. pose proof (new_not_told dir d w I Hd Hst) as Hn.
  apply bind_inv in E0 as ([] & w1 & (d' & Hd' & ->)%obj_set_inv & E0). assert (d' = d) as -> by (cbn in Hd'; congruence). clear Hd'.
  pose proof (di_blocks _ I dir _ Hd) as [Hid _]. set (d1 := set_di_state mwDirectory_PENDING d) in *.
  assert (dir_inv (set_w_heap (<[dir := ObjDirectory d1]> (w_heap w)) w)) as I1.
  { apply (inv_set w dir (ObjDirectory d)); [done|done|right; intros q o _; apply Hn|]. split; [done|by right]. }
  apply bind_inv in E0 as ([] & w2 & (d2 & Hd2 & ->)%obj_set_inv & E0). cbn in Hd2. rewrite lookup_insert_eq in Hd2.
  injection Hd2 as <-. cbn [w_heap set_w_heap] in E0. rewrite insert_insert_eq in E0. set (d2 := set_di_handler cb d1) in *.
  set (w2 := set_w_heap (<[dir := obj_in d2]> (w_heap w)) (set_w_heap (<[dir := obj_in d1]> (w_heap w)) w)) in *.
  assert (w_heap w2 !! dir = Some (ObjDirectory d2)) as Hd2 by apply lookup_insert_eq.
  assert (dir_inv w2) as I2.
  { pose proof (keeps_di_handler dir cb _ tt w2 I1) as K. apply K. rewrite (obj_set_run dir _ d1) by (cbn; apply lookup_insert_eq).
    cbn. by rewrite insert_insert_eq. }
  assert (forall q o, w_heap w2 !! q = Some o -> dir ∉ told_of o) as Hn2.
  { intros q o Hq. cbn in Hq. apply lookup_insert_Some in Hq as [[<- <-]|[_ Hq]]; [apply not_elem_of_empty|by apply (Hn q)]. }
  clearbody w2. unfold dir_open, dir_request in E0.
  apply bind_inv in E0 as (srvc & w3 & (-> & d3 & Hd3 & ->)%obj_get_inv & E0). assert (d3 = d2) as -> by (cbn in Hd3; congruence).
  apply bind_inv in E0 as (c & w3 & (-> & s & Hs & ->)%obj_get_inv & E0). cbn in Hs.
  destruct (ds_channel s) as [c|]; cbn [nonnull] in E0; [|by injection E0 as _ <-].
  apply bind_inv in E0 as (p & w3 & Ep & E0). unfold open_put in Ep. apply bind_inv in Ep as (id & w4 & Em & Ep).
  assert (dir_inv w4) as I4.
  { unfold map_request in Em. apply bind_inv in Em as (sv & w5 & (-> & d4 & Hd4 & ->)%obj_get_inv & Em).
    assert (d4 = d2) as -> by (cbn in Hd4; congruence). apply bind_inv in Em as (i & w5 & En & Em). unfold next_request_id in En.
    apply bind_inv in En as ([] & w6 & Ec & En). pose proof (keeps_ds_counter _ _ _ _ _ I2 Ec) as I6.
    apply obj_get_inv in En as (-> & s6 & Hs6 & ->). apply obj_set_inv in Ec as (s5 & Hs5 & ->).
    apply bind_inv in Em as ([] & w7 & E7 & Em). apply bind_inv in Em as ([] & w8 & E8 & [= _ <-]).
    assert (di_service d2 <> dir) as Hne by (intros Heq; rewrite Heq in Hs5; cbn in Hs5; congruence).
    eapply (open_request_inv dir _ d2 _ _ I6); [|done|reflexivity| |exact E7|exact E8].
    - cbn. by rewrite lookup_insert_ne.
    - intros q o Hq. cbn in Hq. apply lookup_insert_Some in Hq as [[<- <-]|[_ Hq]]; [|by apply (Hn2 q)].
      change (dir ∉ told_of (ObjDirService s5)). by apply (Hn2 (di_service d2)). }
  clear I I1 I2 Em. revert I4. assert (has (kept dir_inv) (let* b := lift (p mwPutBuffer_new) in
    mwChannel_send E c action_open (Some (mwPutBuffer_finalize b)))) as K by (unfold mwChannel_send; frame).
  intros I4. refine (K w3 r w' _ E0). clear K E0. revert I4 Ep.
  apply (fun K : has (kept dir_inv) _ => K w4 p w3). unfold book_name. frame.
Qed.

(** No directory is ever open. *)
Lemma never_open dir f w : dir_inv w -> (forall p, dir = Some p -> exists d, w_heap w !! p = Some (ObjDirectory d)) ->
  if_open dir f w = Some (-1, w).
Proof.
  intros I Hd. unfold if_open. destruct dir as [p|]; cbn [nonnull]; [|done]. destruct (Hd p eq_refl) as [d Hp].
  unfold MW_DIRECTORY_IS_STATE, mwDirectory_getState, nonnull.
  erewrite bind_run by (erewrite bind_run by (by apply (obj_get_run _ _ d)); reflexivity).
  destruct (di_blocks _ I p _ Hp) as [_ Hst]. rewrite bool_decide_false; [done|]. destruct Hst; congruence.
Qed.

Lemma keeps_if_open dir f : has (kept dir_inv) (if_open dir f).
Proof.
  intros w r w' I E0. destruct dir as [p|]; [|by injection E0 as _ <-].
  assert (exists d, w_heap w !! p = Some (ObjDirectory d)) as [d Hd].
  { unfold if_open, nonnull, MW_DIRECTORY_IS_STATE, mwDirectory_getState, nonnull in E0.
    apply bind_inv in E0 as (b & w1 & (st & w2 & (-> & d & Hd & _)%obj_get_inv & _)%bind_inv & _). by exists d. }
  rewrite (never_open (Some p) f w I) in E0; [by injection E0 as _ <-|]. intros q [= <-]. by exists d.
Qed.

Lemma keeps_dir_close dir : has (kept dir_inv) (dir_close E dir).
Proof.
  unfold dir_close, dir_request, close_put, nonnull, mwChannel_send. frame; apply keeps_next_request_id.
Qed.

Lemma keeps_dir_destroy dir : has (kept dir_inv) (mwDirectory_destroy E dir).
Proof.
  unfold mwDirectory_destroy, MW_DIRECTORY_IS_STATE, mwDirectory_getState, nonnull. pose proof (fun p => keeps_dir_close p).
  destruct dir as [p|]; [|apply fr_ret]. do 3 (apply fr_bind; [frame|intros ?]). apply fr_bind; [|frame].
  intros w [] w' I E0. unfold dir_remove in E0. apply bind_inv in E0 as (d & w1 & (-> & Hd)%obj_deref_inv & E0).
  apply bind_inv in E0 as (dirs & w1 & Eb & E0). unfold book_dirs in Eb.
  apply bind_inv in Eb as (b & w2 & (-> & Hb)%obj_deref_inv & Eb). cbn in Hb. pose proof (di_blocks _ I _ _ Hb) as Hb2. cbn in Hb2.
  destruct (ab_freed b); [done|]. injection Eb as <- <-. rewrite Hb2, lookup_empty in E0. by injection E0 as <-.
Qed.

Lemma keeps_refresh srvc : has (kept dir_inv) (mwServiceDirectory_refreshAddressBooks E srvc).
Proof.
  unfold mwServiceDirectory_refreshAddressBooks, nonnull, mwChannel_send. pose proof keeps_next_request_id. frame.
Qed.

Context (CL : forall f d, has (kept dir_inv) (dc_free_data cl f d)).

Lemma keeps_dir_setClientData dir d c : has (kept dir_inv) (mwDirectory_setClientData dir d c).
Proof. unfold mwDirectory_setClientData, nonnull. frame. Qed.
Lemma keeps_dir_removeClientData dir : has (kept dir_inv) (mwDirectory_removeClientData cl dir).
Proof. unfold mwDirectory_removeClientData, mw_datum_clear, nonnull. frame. Qed.
End functions.

(** ** The library with the service *)

Definition dir_env (srvc : Z) (cl : DirClient) (hash : list Z -> Z) (E : Env) : Env := with_service srvc (dir_ops E cl hash) E.

Lemma dir_env_frame srvc cl hash E : EnvFrame (kept dir_inv) E -> lists_tables E -> EnvFrame (kept dir_inv) (dir_env srvc cl hash E).
Proof. intros EF HE. apply with_service_frame; [done|]. by apply dir_ops_frame. Qed.

(** What may happen: a call of the session's interface, bytes from the server
    among them, and a call of the service's interface. *)
Inductive dir_step (srvc : Z) (cl : DirClient) (hash : list Z -> Z) (E : Env) : world -> world -> Prop :=
| drs_call c w w' : run_call (dir_env srvc cl hash E) c w = Some (tt, w') -> dir_step srvc cl hash E w w'
| drs_refresh r w w' : mwServiceDirectory_refreshAddressBooks (dir_env srvc cl hash E) (Some srvc) w = Some (r, w') ->
    dir_step srvc cl hash E w w'
| drs_new book r w w' : mwDirectory_new book w = Some (r, w') -> dir_step srvc cl hash E w w'
| drs_open dir cb r w w' : mwDirectory_open (dir_env srvc cl hash E) dir cb w = Some (r, w') -> dir_step srvc cl hash E w w'
| drs_next dir r w w' : mwDirectory_next (dir_env srvc cl hash E) dir w = Some (r, w') -> dir_step srvc cl hash E w w'
| drs_previous dir r w w' : mwDirectory_previous (dir_env srvc cl hash E) dir w = Some (r, w') -> dir_step srvc cl hash E w w'
| drs_search dir q r w w' : mwDirectory_search (dir_env srvc cl hash E) dir q w = Some (r, w') -> dir_step srvc cl hash E w w'
| drs_destroy dir r w w' : mwDirectory_destroy (dir_env srvc cl hash E) dir w = Some (r, w') -> dir_step srvc cl hash E w w'
| drs_set dir d c w w' : mwDirectory_setClientData dir d c w = Some (tt, w') -> dir_step srvc cl hash E w w'
| drs_unset dir w w' : mwDirectory_removeClientData cl dir w = Some (tt, w') -> dir_step srvc cl hash E w w'.

Lemma keeps_dir_step srvc cl hash E w w' : EnvFrame (kept dir_inv) E -> lists_tables E ->
  (forall f d, has (kept dir_inv) (dc_free_data cl f d)) -> dir_step srvc cl hash E w w' -> dir_inv w -> dir_inv w'.
Proof.
  intros EF HE CL S I. pose proof (dir_env_frame srvc cl hash E EF HE) as EF'.
  assert (lists_tables (dir_env srvc cl hash E)) as HE' by exact HE.
  destruct S as [c w w' H|r w w' H|book r w w' H|dir cb r w w' H|dir r w w' H|dir r w w' H|dir q r w w' H|dir r w w' H
    |dir d c w w' H|dir w w' H]; revert I H.
  - apply (full_call (kept dir_inv)); [apply _|done|]. intros b. apply (kept_recv dir_inv); [apply _|done|]. intros r s. by apply heap_only.
  - exact (keeps_refresh _ (Some srvc) w r w').
  - exact (keeps_dir_new book w r w').
  - exact (keeps_dir_open _ dir cb w r w').
  - exact (keeps_if_open dir _ w r w').
  - exact (keeps_if_open dir _ w r w').
  - exact (keeps_if_open dir _ w r w').
  - exact (keeps_dir_destroy _ dir w r w').
  - exact (keeps_dir_setClientData dir d c w tt w').
  - exact (keeps_dir_removeClientData cl CL dir w tt w').
Qed.

(** C16: whatever the client calls and whatever bytes the server sends, the
    table of the books has books that were not freed, each once and under its
    name, the directories are new or wait for the server, and each request
    leads to a directory that waits under it. *)
Theorem dir_invariant srvc cl hash E w0 w : EnvFrame (kept dir_inv) E -> lists_tables E ->
  (forall f d, has (kept dir_inv) (dc_free_data cl f d)) -> dir_inv w0 -> rtc (dir_step srvc cl hash E) w0 w -> dir_inv w.
Proof.
  intros EF HE CL I R. induction R as [w|w1 w2 w S R IH]; [done|]. apply IH. by eapply keeps_dir_step.
Qed.
