(* ===== verification/DirAnswers.v ===== *)
(** * The directory service: books, directories, the end

    What the list of the books does to the table; what a client asks for when
    it opens a directory; why nothing comes of it, and why the service does
    not come back. *)

From S2P Require Import Prelude Buffer Common Message Framing World Util Rc2 Cipher Service Session.
From S2P Require Import Channel Dir Dispatch Frame Owned Delivery Protocol ChannelSpec Secure Closing Freeing DirSpec.
#[local] Open Scope Z_scope.
#[local] Open Scope mw_scope.

(** ** The list of the books *)

Definition book_enc (x : Z * list Z) : list Z := MW32_PUT x.1 ++ mwString_enc (Some x.2).
Definition book_list_enc (request code count : Z) (books : list (Z * list Z)) : list Z :=
  MW32_PUT request ++ MW32_PUT code ++ MW32_PUT count ++ [0] ++ MW16_PUT 0 ++ mjoin (book_enc <$> books).

(** The table after books with these names, the first of them at [p]; [None] if
    a name is empty or is compared with one that was freed. *)
Fixpoint slots_after (hash : list Z -> Z) (p : Z) (books : list (Z * list Z)) (l : list book_slot) : option (list book_slot) :=
  match books with
  | [] => Some l
  | (_, []) :: _ => None
  | (_, name) :: books => x ← slot_insert hash name p l; slots_after hash (p + 1) books x.1
  end.

Section answers.
Context (E : Env) {EF : EnvFrame (kept dir_inv) E} (HE : lists_tables E) (cl : DirClient) (hash : list Z -> Z).

Lemma read_nothing b srvc w s l : dir_inv w -> gb_ready b [] -> w_heap w !! srvc = Some (ObjDirService s) -> ds_books s = Some l ->
  forall n, recv_books E hash (S n) srvc b w = None.
Proof.
  intros I Hb Hs Hl n. cbn [recv_books].
  assert (mwGetBuffer_error b = false) as -> by apply Hb.
  destruct (guint32_get_parses (u_junk (e_uninit E)) 0) as (_ & T & _); [done|].
  destruct (T b [] (MW32_PUT 0) Hb) as (a & b' & Eb & _ & He); [done|done|].
  erewrite bind_run by (by apply lift_run). cbn beta iota.
  erewrite bind_run by (apply lift_run; unfold mwString_get; by rewrite He). cbn beta iota. apply bind_none.
  unfold book_new. pose proof (below_fresh w (di_below _ I)) as Hn. erewrite bind_run by reflexivity.
  set (w1 := set_w_next _ _). assert (w_heap w1 !! srvc = Some (ObjDirService s)) as Hs1 by (cbn; rewrite lookup_insert_ne; [done|congruence]).
  assert (obj_get srvc ds_books w1 = Some (Some l, w1)) as Eg by (rewrite <- Hl; exact (obj_get_run srvc ds_books s w1 Hs1)).
  by rewrite (bind_run _ _ _ _ _ Eg).
Qed.

Definition name_ok (x : Z * list Z) : Prop := is_u32 x.1 /\ mwString_ok (Some x.2).

Lemma recv_books_run n books b srvc w s l : dir_inv w -> gb_ready b (mjoin (book_enc <$> books)) -> Forall name_ok books ->
  w_heap w !! srvc = Some (ObjDirService s) -> ds_books s = Some l ->
  match (if (n <=? length books)%nat then slots_after hash (w_next w) (take n books) l else None) with
  | None => recv_books E hash n srvc b w = None
  | Some l' => exists w', recv_books E hash n srvc b w = Some (tt, w') /\ dir_inv w'
      /\ w_heap w' !! srvc = Some (ObjDirService (set_ds_books (Some l') s))
      /\ w_channels w' = w_channels w /\ w_services w' = w_services w /\ w_log w' = w_log w
  end.
Proof.
  revert books b w s l. induction n as [|n IH]; intros books b w s l I Hb Hok Hs Hl.
  { cbn. exists w. split_and!; try done. rewrite Hs. do 2 f_equal. destruct s; cbn in *. by subst. }
  destruct books as [|[id name] books]; [cbn [length Nat.leb]; by eapply read_nothing|].
  apply Forall_cons in Hok as [[Hid Hname] Hok]. cbn [fst snd] in *. cbn [length take]. change (S n <=? S (length books))%nat with (n <=? length books)%nat.
  change (mjoin (book_enc <$> (id, name) :: books)) with ((MW32_PUT id ++ mwString_enc (Some name)) ++ mjoin (book_enc <$> books)) in Hb.
  rewrite <- app_assoc in Hb. destruct (guint32_get_parses (u_junk (e_uninit E)) id Hid) as (R1 & _).
  destruct (R1 b _ Hb) as (b1 & E1 & Hb1 & _). destruct (mwString_get_parses (Some name) Hname) as (R2 & _).
  destruct (R2 b1 _ Hb1) as (b2 & E2 & Hb2 & _).
  assert (recv_books E hash (S n) srvc b w = (book_new E hash srvc (mwString_norm (Some name)) id ;; recv_books E hash n srvc b2) w) as ->.
  { cbn [recv_books]. assert (mwGetBuffer_error b = false) as -> by apply Hb.
    erewrite bind_run by (by apply lift_run). cbn beta iota. by erewrite bind_run by (by apply lift_run). }
  destruct name as [|x name]; cbn [mwString_norm slots_after].
  - destruct (n <=? length books)%nat; cbn [slots_after]; apply bind_none; unfold book_new;
      (erewrite bind_run by reflexivity); pose proof (below_fresh w (di_below _ I)) as Hn; set (w1 := set_w_next _ _);
      (assert (w_heap w1 !! srvc = Some (ObjDirService s)) as Hs1 by (cbn; rewrite lookup_insert_ne; [done|congruence]));
      (assert (obj_get srvc ds_books w1 = Some (Some l, w1)) as Eg by (rewrite <- Hl; exact (obj_get_run srvc ds_books s w1 Hs1)));
      by rewrite (bind_run _ _ _ _ _ Eg).
  - pose proof (book_new_run E HE hash srvc (x :: name) id w s l I Hs Hl) as R.
    destruct (slot_insert hash (x :: name) (w_next w) l) as [[l' old]|] eqn:Hins; cbn [mbind option_bind fst].
    2:{ destruct (n <=? length books)%nat; by apply bind_none. }
    destruct R as (w1 & Er & I1 & Hnx & Hs1 & Hc & Hv & Hlog). rewrite (bind_run _ _ _ _ _ Er).
    pose proof (IH books b2 w1 (set_ds_books (Some l') s) l' I1 Hb2 Hok Hs1 eq_refl) as R. rewrite Hnx in R.
    destruct (if (n <=? length books)%nat then _ else _) as [l2|] eqn:El; [|done].
    destruct R as (w' & E' & I' & Hs' & Hc' & Hv' & Hlog'). exists w'. split_and!; try done; congruence.
Qed.

Lemma read_step {A B} (m : Get A) e v b rest (k : A * mwGetBuffer -> M B) w : parses m e v -> gb_ready b (e ++ rest) ->
  exists b', gb_ready b' rest /\ bind (lift (m b)) k w = k (v, b') w.
Proof.
  intros (R & _) Hb. destruct (R b rest Hb) as (b' & E1 & Hb' & _). exists b'. split; [done|].
  by erewrite bind_run by (by apply lift_run).
Qed.

Lemma recv_list_run request code count books d w srvc s l : dir_inv w -> gb_ready (mwGetBuffer_wrap (Some d)) (book_list_enc request code count books) ->
  is_u32 request -> is_u32 code -> is_u32 count -> Forall name_ok books ->
  w_heap w !! srvc = Some (ObjDirService s) -> ds_books s = Some l ->
  exists b, gb_ready b (mjoin (book_enc <$> books)) /\ recv_list E hash srvc d w = recv_books E hash (Z.to_nat count) srvc b w.
Proof.
  intros I Hb H1 H2 H3 Hok Hs Hl. unfold recv_list, book_list_enc in *.
  destruct (read_step (guint32_get (u_junk (e_uninit E))) _ request _ _ (fun _ => ret tt) w ltac:(by apply guint32_get_parses) Hb) as (b1 & Hb1 & _).
  destruct (guint32_get_parses (u_junk (e_uninit E)) request H1) as (R1 & _). destruct (R1 _ _ Hb) as (g1 & E1 & Hg1 & _).
  destruct (guint32_get_parses (u_junk (e_uninit E)) code H2) as (R2 & _). destruct (R2 _ _ Hg1) as (g2 & E2 & Hg2 & _).
  destruct (guint32_get_parses (u_count (e_uninit E)) count H3) as (R3 & _). destruct (R3 _ _ Hg2) as (g3 & E3 & Hg3 & _).
  destruct (gboolean_get_parses (negb (u_junk (e_uninit E) =? 0)) false) as (R4 & _). destruct (R4 _ _ Hg3) as (g4 & E4 & Hg4 & _).
  destruct (guint16_get_parses (u_junk (e_uninit E)) 0) as (R5 & _); [done|]. destruct (R5 _ _ Hg4) as (g5 & E5 & Hg5 & _).
  exists g5. split; [done|].
  erewrite bind_run by (by apply lift_run). cbn beta iota. erewrite bind_run by (by apply lift_run). cbn beta iota.
  erewrite bind_run by (by apply lift_run). cbn beta iota. erewrite bind_run by (by apply lift_run). cbn beta iota.
  by erewrite bind_run by (by apply lift_run).
Qed.

(** C17: a list of books is taken exactly if the message has as many books as
    it says, each with a name, and no name has to be compared with one that
    was freed; then the books are in the table as [slots_after] says.
    Otherwise the service reads from NULL or from a freed name. *)
Theorem book_list_decides srvc chan s l w request code count books d : dir_inv w ->
  w_heap w !! srvc = Some (ObjDirService s) -> ds_channel s = Some chan -> ds_books s = Some l ->
  is_u32 request -> is_u32 code -> is_u32 count -> Forall name_ok books ->
  opaque_ok d -> len d < 2 ^ 64 -> opaque_data d = book_list_enc request code count books ->
  match (if count <=? zlen books then slots_after hash (w_next w) (take (Z.to_nat count) books) l else None) with
  | None => recv E hash srvc chan action_list d w = None
  | Some l' => exists w', recv E hash srvc chan action_list d w = Some (tt, w') /\ dir_inv w'
      /\ w_heap w' !! srvc = Some (ObjDirService (set_ds_books (Some l') s)) /\ w_log w' = w_log w
  end.
Proof.
  intros I Hs Hc Hl H1 H2 H3 Hok Ho Hlen Hd. pose proof (mwGetBuffer_wrap_ready d Ho Hlen) as Hb. rewrite Hd in Hb.
  destruct (recv_list_run request code count books d w srvc s l I Hb H1 H2 H3 Hok Hs Hl) as (b & Hb' & Er).
  pose proof (recv_books_run (Z.to_nat count) books b srvc w s l I Hb' Hok Hs Hl) as R.
  assert (recv E hash srvc chan action_list d w = recv_list E hash srvc d w) as ->.
  { unfold recv. assert (obj_get srvc ds_channel w = Some (Some chan, w)) as Eg by (rewrite <- Hc; exact (obj_get_run srvc ds_channel s w Hs)).
    rewrite (bind_run _ _ _ _ _ Eg). by rewrite bool_decide_true. }
  rewrite Er. assert ((Z.to_nat count <=? length books)%nat = (count <=? zlen books)) as Hle.
  { unfold is_u32 in H3. unfold zlen. apply eq_true_iff_eq. rewrite Nat.leb_le, Z.leb_le. lia. }
  rewrite Hle in R. destruct (if count <=? zlen books then _ else _) as [l'|]; [|done].
  destruct R as (w' & E1 & I1 & Hs1 & _ & _ & Hlog). by exists w'.
Qed.

(** ** Opening a directory *)

Definition open_msg (request : Z) (b : mwAddressBook) (nm : list Z) : Put :=
  guint32_put request >>> gboolean_put false >>> guint16_put 0x0000 >>> guint32_put (ab_id b) >>> mwString_put (Some nm).
Definition open_enc (request : Z) (b : mwAddressBook) (nm : list Z) : list Z :=
  MW32_PUT request ++ [0] ++ MW16_PUT 0 ++ MW32_PUT (ab_id b) ++ mwString_enc (Some nm).

Lemma open_msg_writes request b nm : writes (open_msg request b nm) (open_enc request b nm).
Proof.
  apply writes_seq; [apply guint32_put_writes|]. apply writes_seq; [apply (gboolean_put_writes false)|].
  apply writes_seq; [apply guint16_put_writes|]. apply writes_seq; [apply guint32_put_writes|apply mwString_put_writes].
Qed.
Lemma open_enc_len request b nm : zlen nm < 2 ^ 16 -> zlen (open_enc request b nm) < 2 ^ 30.
Proof.
  intros Hl. unfold open_enc, mwString_enc. rewrite !zlen_app, !MW32_PUT_len. change (zlen (MW16_PUT _)) with 2. cbn [opt_list].
  change (zlen [0]) with 1. lia.
Qed.

Lemma map_request_run dir d s w : w_heap w !! dir = Some (ObjDirectory d) -> w_heap w !! di_service d = Some (ObjDirService s) ->
  let request := u32 (ds_counter s + 1) in
  map_request dir w = Some (request, set_w_heap (<[di_service d := ObjDirService
      (set_ds_requests (<[request := dir]> (ds_requests s)) (set_ds_counter request s))]>
    (<[dir := ObjDirectory (set_di_search_id request d)]> (w_heap w))) w).
Proof.
  intros Hd Hs request. set (srvc := di_service d) in *. assert (srvc <> dir) as Hne by congruence. set (s1 := set_ds_counter request s).
  unfold map_request. erewrite bind_run by (by apply (obj_get_run dir di_service d)). fold srvc.
  set (w1 := set_w_heap (<[srvc := ObjDirService s1]> (w_heap w)) w).
  assert (next_request_id srvc w = Some (request, w1)) as E1.
  { unfold next_request_id. assert (obj_set srvc (fun s => set_ds_counter (u32 (ds_counter s + 1)) s) w = Some (tt, w1)) as E0
      by exact (obj_set_run srvc _ s w Hs).
    rewrite (bind_run _ _ _ _ _ E0). assert (w_heap w1 !! srvc = Some (ObjDirService s1)) as Hs1 by apply lookup_insert_eq.
    exact (obj_get_run srvc ds_counter s1 w1 Hs1). }
  rewrite (bind_run _ _ _ _ _ E1). assert (w_heap w1 !! dir = Some (ObjDirectory d)) as Hd1 by (cbn; by rewrite lookup_insert_ne).
  pose proof (obj_set_run dir (set_di_search_id request) d w1 Hd1) as E2. rewrite (bind_run _ _ _ _ _ E2).
  set (w2 := set_w_heap _ w1). assert (w_heap w2 !! srvc = Some (ObjDirService s1)) as Hs2.
  { cbn. rewrite lookup_insert_ne by done. apply lookup_insert_eq. }
  pose proof (obj_set_run srvc (fun s => set_ds_requests (<[request := dir]> (ds_requests s)) s) s1 w2 Hs2) as E3.
  rewrite (bind_run _ _ _ _ _ E3). cbn. unfold ret. do 2 f_equal. rewrite (insert_insert_ne _ dir srvc) by done. by rewrite insert_insert_eq.
Qed.

Lemma open_put_run dir d s b nm w : w_heap w !! dir = Some (ObjDirectory d) -> w_heap w !! di_service d = Some (ObjDirService s) ->
  w_heap w !! di_book d = Some (ObjAddressBook b) -> ab_freed b = false -> ab_name b = Some nm ->
  let request := u32 (ds_counter s + 1) in
  open_put dir w = Some (open_msg request b nm, set_w_heap (<[di_service d := ObjDirService
      (set_ds_requests (<[request := dir]> (ds_requests s)) (set_ds_counter request s))]>
    (<[dir := ObjDirectory (set_di_search_id request d)]> (w_heap w))) w).
Proof.
  intros Hd Hs Hb Hf Hn request. unfold open_put. rewrite (bind_run _ _ _ _ _ (map_request_run dir d s w Hd Hs)). fold request.
  set (w1 := set_w_heap _ w). assert (di_service d <> dir) as Hne by congruence.
  assert (w_heap w1 !! dir = Some (ObjDirectory (set_di_search_id request d))) as Hd1.
  { cbn. rewrite lookup_insert_ne by done. apply lookup_insert_eq. }
  assert (w_heap w1 !! di_book d = Some (ObjAddressBook b)) as Hb1 by (cbn; rewrite !lookup_insert_ne; congruence).
  erewrite bind_run by (by apply (obj_get_run dir di_book (set_di_search_id request d))).
  erewrite bind_run by (by apply (obj_get_run _ ab_id b)).
  erewrite bind_run by (unfold book_name; erewrite bind_run by (by apply (obj_deref_run _ b)); rewrite Hf, Hn; reflexivity). done.
Qed.

(** C18: a new directory that is opened on a book of the table asks the server
    for the book, by its id and its name and under a new number; it waits
    under that number. *)
Theorem dir_open_asks srvc chan chid s d dir b nm cb w : dir_inv w -> pure_writes E (fun _ => 0) ->
  w_heap w !! dir = Some (ObjDirectory d) -> di_state d = mwDirectory_NEW -> di_service d = srvc ->
  w_heap w !! srvc = Some (ObjDirService s) -> ds_channel s = Some chan -> plain_chan chan chid w ->
  w_heap w !! di_book d = Some (ObjAddressBook b) -> ab_freed b = false -> ab_name b = Some nm -> zlen nm < 2 ^ 16 -> cb <> 0 ->
  let request := u32 (ds_counter s + 1) in
  exists ev w', plain_event chid action_open (open_enc request b nm) = Some ev
    /\ mwDirectory_open E (Some dir) cb w = Some (0, w') /\ w_log w' = w_log w ++ [ev] /\ dir_inv w'
    /\ w_heap w' !! dir = Some (ObjDirectory (set_di_search_id request (set_di_handler cb (set_di_state mwDirectory_PENDING d))))
    /\ w_heap w' !! srvc = Some (ObjDirService (set_ds_requests (<[request := dir]> (ds_requests s)) (set_ds_counter request s))).
Proof.
  intros I Hw Hd Hst Hsrv Hs Hc Hch Hb Hf Hn Hlen Hcb request. set (d1 := set_di_state mwDirectory_PENDING d).
  set (d2 := set_di_handler cb d1). set (d3 := set_di_search_id request d2). set (s1 := set_ds_counter request s).
  set (s2 := set_ds_requests (<[request := dir]> (ds_requests s)) s1).
  assert (srvc <> dir) as Hne by congruence. assert (di_book d <> dir) as Hnb by congruence. assert (di_book d <> srvc) as Hnb2 by congruence.
  set (h1 := <[dir := ObjDirectory d2]> (w_heap w)). set (h2 := <[srvc := ObjDirService s2]> (<[dir := ObjDirectory d3]> (w_heap w))).
  destruct (send_put_run E chan chid action_open _ _ (set_w_heap h2 w) Hw Hch ltac:(done) (open_msg_writes request b nm))
    as (ev & He & Es); [by apply open_enc_len|].
  assert (mwDirectory_open E (Some dir) cb w = Some (0, with_log [ev] (set_w_heap h2 w))) as Er.
  { cbn [mwDirectory_open nonnull]. rewrite (proj2 (Z.eqb_neq cb 0)) by done.
    assert (MW_DIRECTORY_IS_STATE dir mwDirectory_NEW w = Some (true, w)) as E1.
    { unfold MW_DIRECTORY_IS_STATE, mwDirectory_getState, nonnull. erewrite bind_run by (by apply (obj_get_run _ _ d)). by rewrite Hst. }
    rewrite (bind_run _ _ _ _ _ E1). cbn [negb].
    assert (obj_set dir (set_di_state mwDirectory_PENDING) w = Some (tt, set_w_heap (<[dir := ObjDirectory d1]> (w_heap w)) w)) as E2
      by exact (obj_set_run dir _ d w Hd).
    rewrite (bind_run _ _ _ _ _ E2).
    assert (obj_set dir (set_di_handler cb) (set_w_heap (<[dir := ObjDirectory d1]> (w_heap w)) w) = Some (tt, set_w_heap h1 w)) as E3.
    { rewrite (obj_set_run dir _ d1) by (cbn; apply lookup_insert_eq). cbn. by rewrite insert_insert_eq. }
    rewrite (bind_run _ _ _ _ _ E3). set (w1 := set_w_heap h1 w).
    assert (w_heap w1 !! dir = Some (ObjDirectory d2)) as Hd1 by apply lookup_insert_eq.
    assert (w_heap w1 !! srvc = Some (ObjDirService s)) as Hs1 by (cbn; unfold h1; by rewrite lookup_insert_ne).
    unfold dir_open, dir_request.
    assert (obj_get dir di_service w1 = Some (srvc, w1)) as E4 by (rewrite <- Hsrv; exact (obj_get_run dir di_service d2 w1 Hd1)).
    rewrite (bind_run _ _ _ _ _ E4).
    assert (obj_get srvc ds_channel w1 = Some (Some chan, w1)) as E5 by (rewrite <- Hc; exact (obj_get_run srvc ds_channel s w1 Hs1)).
    rewrite (bind_run _ _ _ _ _ E5). cbn [nonnull].
    assert (w_heap w1 !! di_book d2 = Some (ObjAddressBook b)) as Hb1 by (cbn; unfold h1; by rewrite lookup_insert_ne).
    assert (w_heap w1 !! di_service d2 = Some (ObjDirService s)) as Hs2 by (change (di_service d2) with (di_service d); by rewrite Hsrv).
    pose proof (open_put_run dir d2 s b nm w1 Hd1 Hs2 Hb1 Hf Hn) as E6.
    change (di_service d2) with (di_service d) in E6. rewrite Hsrv in E6. cbn [w_heap w1 set_w_heap] in E6. unfold h1 in E6.
    rewrite insert_insert_eq in E6. rewrite (bind_run _ _ _ _ _ E6). exact Es. }
  exists ev. eexists. split_and!; [exact He|exact Er|done| | |].
  - exact (keeps_dir_open E (Some dir) cb w 0 _ I Er).
  - cbn. unfold h2. rewrite lookup_insert_ne by done. apply lookup_insert_eq.
  - cbn. apply lookup_insert_eq.
Qed.
End answers.

(** ** What does not happen *)

(** No directory is ever open: asking for results of one that the client
    got, at any time, does nothing and returns -1. *)
Theorem directories_never_open srvc cl hash E w0 w dir d q : EnvFrame (kept dir_inv) E -> lists_tables E ->
  (forall f x, has (kept dir_inv) (dc_free_data cl f x)) -> dir_inv w0 -> rtc (dir_step srvc cl hash E) w0 w ->
  w_heap w !! dir = Some (ObjDirectory d) ->
  mwDirectory_next (dir_env srvc cl hash E) (Some dir) w = Some (-1, w)
  /\ mwDirectory_previous (dir_env srvc cl hash E) (Some dir) w = Some (-1, w)
  /\ mwDirectory_search (dir_env srvc cl hash E) (Some dir) q w = Some (-1, w).
Proof.
  intros EF HE CL I R Hd. assert (dir_inv w) as Iw.
  { clear Hd. induction R as [w|w1 w2 w S R IH]; [done|]. apply IH. by eapply keeps_dir_step. }
  split_and!; apply never_open; try done; intros p [= <-]; by exists d.
Qed.

(** The function that stops the service does not say that it has
    stopped: the service is STOPPING from then on, and cannot be started. *)
Theorem directory_stays_stopping srvc cl hash E w sv s : pure_writes E (fun _ => 0) ->
  w_services w !! srvc = Some sv -> MW_SERVICE_IS_DEAD (sv_state sv) = false -> w_heap w !! srvc = Some (ObjDirService s) ->
  (forall chan, ds_channel s = Some chan -> listed_channel w chan) ->
  exists w', mwService_stop (dir_env srvc cl hash E) srvc w = Some (tt, w')
    /\ w_services w' !! srvc = Some (set_sv_state mwServiceState_STOPPING sv)
    /\ (forall chan, ds_channel s = Some chan -> w_channels w' !! chan = None)
    /\ mwService_start (dir_env srvc cl hash E) srvc w' = Some (tt, w').
Proof.
  intros Hw Hsv Hdead Hs Hch. set (E' := dir_env srvc cl hash E). assert (e_service E' srvc = dir_ops E cl hash) as He by apply with_service_at.
  set (w1 := set_w_services (<[srvc := set_sv_state mwServiceState_STOPPING sv]> (w_services w)) w).
  assert (w_services w1 !! srvc = Some (set_sv_state mwServiceState_STOPPING sv)) as Hsv1 by apply lookup_insert_eq.
  assert (forall w2, w_services w2 = w_services w1 -> mwService_start E' srvc w2 = Some (tt, w2)) as Hstart.
  { intros w2 Ew. unfold mwService_start, mwService_getState, deref_service, bind, lift. by rewrite Ew, Hsv1. }
  assert (mwService_stop E' srvc w = Dir.stop E srvc w1) as ->.
  { unfold mwService_stop. erewrite bind_run by (unfold mwService_getState, deref_service, bind, lift; rewrite Hsv; reflexivity).
    rewrite Hdead. erewrite bind_run by (unfold service_set; rewrite Hsv; reflexivity). by rewrite He. }
  unfold Dir.stop. destruct (ds_channel s) as [chan|] eqn:Hc.
  - assert (obj_get srvc ds_channel w1 = Some (Some chan, w1)) as Eg by (rewrite <- Hc; exact (obj_get_run srvc ds_channel s w1 Hs)).
    rewrite (bind_run _ _ _ _ _ Eg). assert (listed_channel w1 chan) as Hl by exact (Hch chan eq_refl).
    destruct (destroy_listed E (fun _ => 0) chan w1 ERR_SUCCESS Hw Hl) as (n & w2 & Ed & Hh & Hcs & Hss & _); [done|].
    rewrite (bind_run _ _ _ _ _ Ed). assert (w_heap w2 !! srvc = Some (ObjDirService s)) as Hs2 by (by rewrite Hh).
    pose proof (obj_set_run srvc (set_ds_channel None) s w2 Hs2) as Eo. eexists. split; [exact Eo|]. cbn. split_and!.
    + by rewrite Hss.
    + intros c [= <-]. rewrite Hcs. apply lookup_delete_eq.
    + apply Hstart. done.
  - assert (obj_get srvc ds_channel w1 = Some (None, w1)) as Eg by (rewrite <- Hc; exact (obj_get_run srvc ds_channel s w1 Hs)).
    rewrite (bind_run _ _ _ _ _ Eg). exists w1. split_and!; [done|done|done|by apply Hstart].
Qed.
