(* ===== verification/DirRuns.v ===== *)
(** * The directory service: runs

    The theorems of the service at work on a service with one book and one
    directory on it. *)

From S2P Require Import Prelude Buffer Common Message Framing World Util Rc2 Cipher Service Session.
From S2P Require Import Channel Dir Dispatch Frame Owned Delivery Protocol ChannelSpec Secure Closing Freeing DirSpec DirAnswers.
#[local] Open Scope Z_scope.
#[local] Open Scope mw_scope.

(** The service is at 4, its book at 12, the directory at 13, the channel at 1. *)
Definition one_book : list book_slot := [{| bs_key := [97; 98]; bs_freed := false; bs_book := 12 |}].
Definition dir_service : mwServiceDirectory :=
  {| ds_handler := true; ds_channel := Some 1; ds_counter := 7; ds_requests := ∅; ds_books := Some one_book |}.
Definition book_12 : mwAddressBook :=
  {| ab_service := 4; ab_id := 5; ab_name := Some [97; 98]; ab_dirs := ∅; ab_freed := false |}.
Definition dir_13 : mwDirectory := {| di_service := 4; di_book := 12; di_state := mwDirectory_NEW; di_id := 0;
  di_search_id := 0; di_handler := 0; di_client_data := datum_zero |}.
Definition dir_world : world :=
  set_w_next 14 (set_w_heap {[4 := ObjDirService dir_service; 12 := ObjAddressBook book_12; 13 := ObjDirectory dir_13]}
    (one_channel (set_ch_cipher None (chan_40 mwChannel_OPEN)))).

Lemma dir_world_inv : dir_inv dir_world.
Proof.
  split.
  - intros q o Hq. apply (map_Forall_lookup_1 (fun q _ => q < 14) _ _ _) in Hq; [done|]. by apply (bool_decide_unpack _).
  - intros p o Hp. change (w_heap dir_world !! p) with
      (({[4 := ObjDirService dir_service; 12 := ObjAddressBook book_12; 13 := ObjDirectory dir_13]} : gmap Z object) !! p) in Hp.
    apply lookup_insert_Some in Hp as [[<- <-]|[_ Hp]]; [|apply lookup_insert_Some in Hp as [[<- <-]|[_ Hp]];
      [|apply lookup_singleton_Some in Hp as [<- <-]]].
    + split; [|by intros id dir ?]. intros l [= <-]. split; [apply NoDup_singleton..|]. by intros x ->%list_elem_of_singleton.
    + done.
    + split; [done|by left].
Qed.

Definition quiet_dir : DirClient := {| dc_clear := None; dc_free_data _ _ := ret tt |}.
Lemma quiet_dir_ok f d : has (kept dir_inv) (dc_free_data quiet_dir f d).
Proof. apply fr_ret. Qed.

Definition dir_opened : world :=
  match mwDirectory_open (dir_env 4 quiet_dir zlen (quiet_env 0)) (Some 13) 9 dir_world with Some (_, w) => w | None => new_world end.

Lemma dir_opened_steps : rtc (dir_step 4 quiet_dir zlen (quiet_env 0)) dir_world dir_opened.
Proof. apply rtc_once, (drs_open _ _ _ _ (Some 13) 9 0). vm_compute. reflexivity. Qed.

Lemma dir_invariant_witness : rtc (dir_step 4 quiet_dir zlen (quiet_env 0)) dir_world dir_opened /\ dir_inv dir_opened.
Proof.
  split; [apply dir_opened_steps|]. apply (dir_invariant 4 quiet_dir zlen (quiet_env 0) dir_world).
  - apply quiet_env_frame, _.
  - intros A m. reflexivity.
  - apply quiet_dir_ok.
  - apply dir_world_inv.
  - apply dir_opened_steps.
Defined.

(** A list with a second book. *)
Lemma book_list_decides_witness :
  exists w', recv (quiet_env 0) zlen 4 1 action_list (opaque_of (book_list_enc 8 0 1 [(6, [99])])) dir_world = Some (tt, w')
    /\ dir_inv w'
    /\ w_heap w' !! 4 = Some (ObjDirService
        (set_ds_books (Some (one_book ++ [{| bs_key := [99]; bs_freed := false; bs_book := 14 |}])) dir_service))
    /\ w_log w' = [].
Proof.
  assert (lists_tables (quiet_env 0)) as HE by (intros A m; reflexivity).
  apply (book_list_decides (quiet_env 0) HE zlen 4 1 dir_service one_book dir_world 8 0 1 [(6, [99])]
    (opaque_of (book_list_enc 8 0 1 [(6, [99])])) dir_world_inv); try done.
  - apply Forall_singleton. split; [done|]. split; [|done]. by apply Forall_singleton.
Defined.

Lemma dir_open_asks_witness :
  exists ev w', plain_event 1 action_open (open_enc 8 book_12 [97; 98]) = Some ev
    /\ mwDirectory_open (quiet_env 0) (Some 13) 9 dir_world = Some (0, w') /\ w_log w' = [] ++ [ev] /\ dir_inv w'
    /\ w_heap w' !! 13 = Some (ObjDirectory (set_di_search_id 8 (set_di_handler 9 (set_di_state mwDirectory_PENDING dir_13))))
    /\ w_heap w' !! 4 = Some (ObjDirService (set_ds_requests {[8 := 13]} (set_ds_counter 8 dir_service))).
Proof.
  pose proof (quiet_env_frame (kept dir_inv) 0 _) as EF.
  apply (dir_open_asks (quiet_env 0) 4 1 1 dir_service dir_13 13 book_12 [97; 98] 9 dir_world); try done; try apply dir_world_inv.
  by exists (set_ch_cipher None (chan_40 mwChannel_OPEN)).
Defined.

Lemma directories_never_open_witness :
  mwDirectory_next (dir_env 4 quiet_dir zlen (quiet_env 0)) (Some 13) dir_opened = Some (-1, dir_opened)
  /\ mwDirectory_previous (dir_env 4 quiet_dir zlen (quiet_env 0)) (Some 13) dir_opened = Some (-1, dir_opened)
  /\ mwDirectory_search (dir_env 4 quiet_dir zlen (quiet_env 0)) (Some 13) (Some [97]) dir_opened = Some (-1, dir_opened).
Proof.
  apply (directories_never_open 4 quiet_dir zlen (quiet_env 0) dir_world dir_opened 13
    (set_di_search_id 8 (set_di_handler 9 (set_di_state mwDirectory_PENDING dir_13))) (Some [97])).
  - apply quiet_env_frame, _.
  - intros A m. reflexivity.
  - apply quiet_dir_ok.
  - apply dir_world_inv.
  - apply dir_opened_steps.
  - vm_compute. reflexivity.
Defined.

Lemma directory_stays_stopping_witness :
  exists w', mwService_stop (dir_env 4 quiet_dir zlen (quiet_env 0)) 4 dir_world = Some (tt, w')
    /\ w_services w' !! 4 = Some (set_sv_state mwServiceState_STOPPING service_4)
    /\ (forall chan, ds_channel dir_service = Some chan -> w_channels w' !! chan = None)
    /\ mwService_start (dir_env 4 quiet_dir zlen (quiet_env 0)) 4 w' = Some (tt, w').
Proof.
  apply (directory_stays_stopping 4 quiet_dir zlen (quiet_env 0) dir_world service_4 dir_service); try done.
  intros chan [= <-]. by exists (set_ch_cipher None (chan_40 mwChannel_OPEN)).
Defined.

(** The list of a book that is there makes the key of its entry one that was
    freed; the next such list reads it. *)
Lemma same_list_unsafe :
  let again := recv (quiet_env 0) zlen 4 1 action_list (opaque_of (book_list_enc 8 0 1 [(5, [97; 98])])) in
  bool_decide (is_Some (again dir_world)) = true /\ (again ;; again) dir_world = None.
Proof. by vm_compute. Qed.
