(* ===== verification/Hazards.v ===== *)
(** * Channels: what a peer or a service can do to them

    The places where the code of the channels does not hold to what its
    comments say, or reads memory it does not own. *)

From S2P Require Import Prelude Buffer Common Message Framing World Rc2 Cipher Service Session.
From S2P Require Import Channel Dispatch Frame Delivery Protocol ChannelSpec Secure Closing.
#[local] Open Scope Z_scope.
#[local] Open Scope mw_scope.

#[local] Arguments render : simpl never.

(** ** Data that is not encrypted *)

(** Encrypted data whose length is not a positive multiple of eight, on
    an open channel with a cipher, makes the code read and write outside its
    buffers: nothing between the socket and the block cipher checks it. *)
Theorem missized_data_unsafe E p ch ci c head t d w :
  w_channels w !! p = Some ch -> ch_state ch = mwChannel_OPEN ->
  ch_cipher ch = Some ci -> w_ciphers w !! ci_cipher ci = Some c -> is_block (ci_incoming_iv ci) ->
  chan_map w !! mh_channel head = Some p ->
  MW_MESSAGE_HAS_OPTION (mh_options head) mwMessageOption_ENCRYPT = true ->
  opaque_ok d -> len d <= int_max -> ~ (len d mod 8 = 0 /\ 0 < len d) ->
  handle E {| msg_head := head; msg_body := CHANNEL_SEND {| cs_type := t; cs_data := d |} |} w = None.
Proof.
  intros Hp Hst Hci Hc Hiv Hm Hopt Hd Hl Hbad. unfold handle. cbn [msg_body msg_head].
  unfold CHANNEL_SEND_recv. erewrite bind_run by reflexivity. unfold chan_map in Hm. rewrite Hm.
  unfold mwChannel_recv. erewrite bind_run by by apply channel_get_run.
  rewrite Hst, bool_decide_true by done. unfold channel_recv.
  erewrite bind_run by by apply getService_run. erewrite bind_run by by apply incr_stat_run.
  rewrite Hopt. destruct (clone_same_bytes d Hd) as (d' & Hcl & Hs). cbn [cs_data]. rewrite Hcl.
  erewrite bind_run by reflexivity. erewrite bind_run by apply channel_get_run, with_channel_lookup.
  cbn [ch_cipher set_ch_stats]. rewrite Hci. apply bind_none. etrans; [by apply (decrypt_step c)|].
  destruct (mwDecryptExpanded (ci_key ci) (ci_incoming_iv ci) d') eqn:Edec; [|done].
  exfalso. apply Hbad. rewrite Hs in Edec. apply (decrypt_expanded_safe (ci_key ci) (ci_incoming_iv ci) d); [done..|].
  by eexists.
Qed.

(** ** Sending before the channel is accepted *)

Lemma select_run p ch ci c m w :
  w_channels w !! p = Some ch -> ch_supported ch = Some m -> w_ciphers w !! ci_cipher ci = Some c ->
  mwChannel_selectCipherInstance p (Some ci) w =
  Some (tt, with_channel p (set_ch_supported None (set_ch_policy (cipher_policy (ciph_type c))
    (set_ch_cipher (Some ci) ch))) w).
Proof.
  intros Hp Hsup Hc. unfold mwChannel_selectCipherInstance.
  erewrite bind_run by by apply channel_get_run. rewrite Hsup.
  erewrite bind_run by by apply channel_set_run. cbv beta.
  set (w1 := with_channel _ _ w). unfold mwCipher_getType.
  erewrite bind_run.
  2:{ erewrite bind_run.
      2:{ unfold deref_cipher, bind. change (w_ciphers w1) with (w_ciphers w). rewrite Hc. reflexivity. }
      apply channel_set_run, with_channel_lookup. }
  unfold w1. rewrite with_channel_twice.
  erewrite channel_set_run by apply with_channel_lookup. by rewrite with_channel_twice.
Qed.

(** What is sent before the channel is accepted goes out in the clear,
    although [mwChannel_send] is to encrypt it, and although the channel has a
    cipher by the time the message is written. *)
Theorem early_send_in_clear E r p ch ci c m t d w :
  pure_writes E r ->
  w_channels w !! p = Some ch -> ch_state ch <> mwChannel_OPEN -> ch_cipher ch = None ->
  ch_supported ch = Some m -> ch_incoming_queue ch = [] -> ch_outgoing_queue ch = [] ->
  w_ciphers w !! ci_cipher ci = Some c -> is_u32 (ch_id ch) -> is_u16 t ->
  opaque_ok d -> len d < 2 ^ 30 ->
  exists d' w', opaque_data d' = opaque_data d
    /\ let b := message_bytes (send_msg (ch_id ch) 0 t d') in
       (mwChannel_send E p t (Some d) ;; mwChannel_selectCipherInstance p (Some ci) ;; channel_open E p) w
       = Some (tt, w')
    /\ w_log w' = w_log w ++ [EvWrite b (r b)]
    /\ exists ch', w_channels w' !! p = Some ch' /\ ch_cipher ch' = Some ci.
Proof.
  intros Hr Hp Hst Hci Hsup Hin Hout Hc Hid Ht Hd Hl.
  destruct (clone_same_bytes d Hd) as (d' & Hcl & Hs). exists d'. eexists. split; [by rewrite Hs|].
  set (msg := send_msg (ch_id ch) 0 t d'). intros b.
  assert (sendable msg) as Hmsg.
  { apply send_msg_sendable; try done; [by rewrite Hs|by rewrite Hs]. }
  assert (mwChannel_send E p t (Some d) w =
    Some (0, with_channel p (set_ch_outgoing_queue [msg] (set_ch_cipher None ch)) w)) as Hsend.
  { unfold mwChannel_send. rewrite (sendEncrypted_run E p ch) by done. unfold prepared.
    rewrite Hcl, Hci. cbn [mbind option_bind]. fold msg. unfold channel_send, mwChannel_getState.
    erewrite bind_run by apply channel_get_run, with_channel_lookup.
    rewrite bool_decide_false by done. unfold queue_outgoing.
    erewrite bind_run by apply channel_set_run, with_channel_lookup. rewrite with_channel_twice.
    cbn [ch_outgoing_queue set_ch_cipher]. by rewrite Hout. }
  rewrite (bind_run _ _ _ _ _ Hsend). set (ch1 := set_ch_outgoing_queue _ _).
  erewrite bind_run by by (eapply select_run; [apply with_channel_lookup| |]).
  rewrite with_channel_twice. set (ch2 := set_ch_supported _ _).
  rewrite (channel_open_run E r Hr p ch2); [|apply with_channel_lookup|done|done|by constructor].
  cbn [ch_outgoing_queue ch2 set_ch_supported set_ch_policy set_ch_cipher ch1 set_ch_outgoing_queue].
  cbn [written_all]. unfold written at 1. rewrite render_spec by done. cbn [mbind option_bind].
  split; [reflexivity|]. split; [done|]. eexists. split; [apply with_channel_lookup|done].
Qed.

(** ** A service that closes the channel it is told of *)

Lemma select_none_run p ch m w :
  w_channels w !! p = Some ch -> ch_supported ch = Some m ->
  mwChannel_selectCipherInstance p None w =
  Some (tt, with_channel p (set_ch_supported None (set_ch_policy mwEncrypt_NONE (set_ch_cipher None ch))) w).
Proof.
  intros Hp Hsup. unfold mwChannel_selectCipherInstance.
  erewrite bind_run by by apply channel_get_run. rewrite Hsup.
  erewrite bind_run by by apply channel_set_run. cbv beta.
  erewrite bind_run by apply channel_set_run, with_channel_lookup. rewrite with_channel_twice.
  erewrite channel_set_run by apply with_channel_lookup. by rewrite with_channel_twice.
Qed.

(** A service may not destroy a channel when it is told of its
    acceptance: the code reads the state of the freed channel, in the very
    test that is there for a service that "just immediately close[s] it". *)
Theorem accept_then_close_unsafe E p ch srvc sv f m id msg w :
  chan_map w !! id = Some p -> w_channels w !! p = Some ch -> ch_id ch = id ->
  mwChannel_idIsIncoming id = false -> ch_state ch = mwChannel_WAIT ->
  ch_supported ch = Some m -> ea_item (ca_encrypt msg) = None ->
  s_services (w_session w) !! u32 (ch_service ch) = Some srvc ->
  w_services w !! srvc = Some sv -> sv_session sv = true ->
  op_recv_accept (e_service E srvc) = Some f -> channels_wf w ->
  (forall w1 a w2, channels_wf w1 -> f srvc p msg w1 = Some (a, w2) -> w_channels w2 !! p = None) ->
  handle E (message id (CHANNEL_ACCEPT msg)) w = None.
Proof.
  intros Hm Hp Hid Hout Hst Hsup Hitem Hsv Hs Hses Hf Hwf Hfree.
  unfold handle. cbn [msg_body msg_head message mh_channel]. unfold CHANNEL_ACCEPT_recv, mwChannel_find.
  erewrite bind_run by reflexivity. unfold chan_map in Hm. rewrite Hm. unfold mwChannel_recvAccept.
  erewrite bind_run by (unfold deref_channel; rewrite Hp; reflexivity).
  rewrite Hid, Z.eqb_refl, Hout, Hst, bool_decide_true by done. cbn [negb].
  erewrite bind_run by by apply channel_set_run. cbv beta.
  erewrite bind_run by reflexivity. cbn [w_session with_channel set_w_channels]. rewrite Hsv.
  erewrite bind_run by apply channel_set_run, with_channel_lookup. rewrite with_channel_twice.
  unfold accept_cipher. rewrite Hitem.
  erewrite bind_run.
  2:{ erewrite bind_run by by (eapply select_none_run; [apply with_channel_lookup|]). reflexivity. }
  rewrite with_channel_twice. cbn [negb].
  erewrite bind_run by apply state_set, with_channel_lookup. rewrite with_channel_twice.
  set (ch1 := set_ch_state mwChannel_OPEN _). unfold bind at 1.
  unfold mwService_recvAccept, service_guard, bind at 1, deref_service.
  cbn [w_services with_channel set_w_channels]. rewrite Hs. cbn [lift].
  unfold bind at 1, deref_channel. fold (with_channel p ch1 w). rewrite with_channel_lookup. cbn [lift].
  rewrite Hses. cbn [negb]. change (ch_id ch1) with (ch_id ch). rewrite Hid, Z.eqb_refl, Hf.
  destruct (f srvc p msg _) as [[a w2]|] eqn:Ef; [|done].
  apply Hfree in Ef; [|by apply (wf_with_channel p ch)].
  apply bind_none. unfold mwChannel_isState, channel_get. by rewrite Ef.
Qed.

(** ** A create message with an id of ours *)

(** A create message from the server with the id of an outgoing channel
    takes that channel away from the client: it is freed when the new one is
    put in the table, and the new one is destroyed as its id is not that of an
    incoming channel. The service is not told. *)
Theorem create_replaces_outgoing E r p id msg w :
  pure_writes E r -> channels_wf w -> chan_map w !! id = Some p ->
  cc_channel msg = id -> mwChannel_idIsOutgoing id = true -> is_u32 id ->
  exists w', handle E (message 0 (CHANNEL_CREATE msg)) w = Some (tt, w')
    /\ chan_map w' = delete id (chan_map w) /\ w_channels w' = delete p (w_channels w)
    /\ let b := message_bytes (destroy_message id ERR_REQUEST_INVALID) in
       w_log w' = w_log w ++ [EvWrite b (r b)].
Proof.
  intros Hr Hwf Hm Hid Hout Hu. unfold handle. cbn [msg_body message]. unfold CHANNEL_CREATE_recv. rewrite Hid.
  destruct (newIncoming_run id w Hwf) as (w1 & E1 & Hs1 & Hc1 & _ & Hl1 & _).
  rewrite (bind_run _ _ _ _ _ E1). rewrite Hm in Hc1. cbn [drop_old] in Hc1.
  set (ch := set_ch_state mwChannel_WAIT (channel_new id)) in *. set (n := w_next w) in *.
  assert (w_channels w1 !! n = Some ch) as Hn by (rewrite Hc1; apply lookup_insert_eq).
  assert (chan_map w1 = <[id := n]> (chan_map w)) as Ht by (unfold chan_map at 1; by rewrite Hs1).
  unfold mwChannel_recvCreate. erewrite bind_run by by apply channel_get_run.
  change (ch_id ch) with id. rewrite Hid, Z.eqb_refl, Hout. cbn [negb].
  erewrite bind_run.
  2:{ apply (destroy_run E r n ch); [done..| |done|done]. rewrite Ht. apply lookup_insert_eq. }
  eexists. split; [reflexivity|]. split_and!.
  - unfold chan_map at 1. cbn. rewrite Ht. change (ch_id ch) with id. by rewrite delete_insert_eq.
  - cbn. rewrite Hc1, delete_insert_id; [done|]. rewrite lookup_delete_ne.
    + destruct (w_channels w !! n) eqn:E'; [|done]. apply (wf_next w Hwf) in E'. unfold n in E'. lia.
    + intros ->. destruct (wf_table w Hwf id n Hm) as (c & E' & _). apply (wf_next w Hwf) in E'. unfold n in E'. lia.
  - cbn. by rewrite Hl1.
Qed.

(** ** Witnesses *)

Lemma missized_data_unsafe_witness :
  handle (quiet_env 0) {|
    msg_head := {| mh_type := 4; mh_options := mwMessageOption_ENCRYPT; mh_channel := 1;
                   mh_attribs := opaque_zero |};
    msg_body := CHANNEL_SEND {| cs_type := 7; cs_data := abc |} |} (one_channel (chan_40 mwChannel_OPEN))
  = None.
Proof.
  apply (missized_data_unsafe (quiet_env 0) 1 (chan_40 mwChannel_OPEN) (alloc_instance 2 1)
    (cipher_40 (replicate 64 0) true)); try done; by apply (bool_decide_unpack _).
Defined.

Definition waiting : mwChannel := set_ch_state mwChannel_WAIT (channel_new 1).

Lemma early_send_in_clear_witness :
  exists d' w', opaque_data d' = [97; 98; 99]
    /\ let b := message_bytes (send_msg 1 0 7 d') in
       (mwChannel_send (quiet_env 0) 1 7 (Some abc) ;;
        mwChannel_selectCipherInstance 1 (Some (alloc_instance 2 1)) ;;
        channel_open (quiet_env 0) 1) (one_channel waiting) = Some (tt, w')
    /\ w_log w' = [] ++ [EvWrite b 0]
    /\ exists ch', w_channels w' !! 1 = Some ch' /\ ch_cipher ch' = Some (alloc_instance 2 1).
Proof.
  apply (early_send_in_clear (quiet_env 0) (fun _ => 0) 1 waiting (alloc_instance 2 1)
    (cipher_40 (replicate 64 0) true) ∅ 7 abc (one_channel waiting)); done.
Defined.

(** A service that destroys a channel when it is told of its acceptance. *)
Definition closing_service (srvc chan : Z) (msg : mwMsgChannelAccept) : M unit :=
  mwChannel_destroy (quiet_env 0) chan ERR_SUCCESS None ;; ret tt.
Definition closing_env : Env := {|
  e_io_write := e_io_write (quiet_env 0);
  e_io_close := ret tt;
  e_clear := None;
  e_on_stateChange := None;
  e_on_setPrivacyInfo := None;
  e_on_setUserStatus := None;
  e_on_admin := None;
  e_on_announce := None;
  e_service _ := {|
    op_recv_create := None; op_recv_accept := Some closing_service; op_recv_destroy := None;
    op_recv := None; op_start := None; op_stop := None; op_clear := None |};
  e_values A m := (map_to_list m).*2;
  e_uninit := quiet_uninit;
  e_mpi := mpi_Z;
  e_rand := e_rand (quiet_env 0);
  e_time := 0;
|}.

Lemma closing_service_frees srvc p msg w a w' : channels_wf w ->
  closing_service srvc p msg w = Some (a, w') -> w_channels w' !! p = None.
Proof.
  intros Hwf. unfold closing_service, mwChannel_destroy. destruct (w_channels w !! p) as [ch|] eqn:Hp.
  - pose proof (wf_heap w Hwf p ch Hp) as Hm. unfold bind at 1.
    erewrite bind_run by by apply state_set. erewrite bind_run by apply channel_get_run, with_channel_lookup.
    erewrite bind_run by reflexivity. cbn [ch_id set_ch_state].
    erewrite bind_run by (apply chan_map_remove_run; [exact Hm|rewrite with_channel_lookup; by eexists]).
    rewrite without_with. unfold mwSession_send, bind, lift.
    destruct (render _) as [b|]; [|done]. cbn. intros [= _ <-]. apply lookup_delete_eq.
  - rewrite bind_none; [done|]. do 2 apply bind_none. unfold mwChannel_getState, channel_get. by rewrite Hp.
Qed.

Definition accept_msg : mwMsgChannelAccept := {|
  ca_service := 0; ca_proto_type := 0; ca_proto_ver := 0; ca_addtl := opaque_zero;
  ca_acceptor_flag := false; ca_acceptor := li_zero;
  ca_encrypt := {| ea_mode := 0; ea_item := None; ea_extra := 0; ea_flag := false |} |}.

Lemma accept_then_close_unsafe_witness :
  handle closing_env (message 1 (CHANNEL_ACCEPT accept_msg)) (one_channel waiting) = None.
Proof.
  apply (accept_then_close_unsafe closing_env 1 waiting 4 service_4 closing_service ∅ 1); try done.
  - by apply one_channel_wf.
  - intros w1 a w2. apply closing_service_frees.
Defined.

Definition create_msg (id : Z) : mwMsgChannelCreate := {|
  cc_reserved := 0; cc_channel := id; cc_target := id_zero; cc_service := 0; cc_proto_type := 0;
  cc_proto_ver := 0; cc_options := 0; cc_addtl := opaque_zero; cc_creator_flag := false;
  cc_creator := li_zero;
  cc_encrypt := {| eo_mode := 0; eo_items := []; eo_extra := 0; eo_flag := false |} |}.

Lemma create_replaces_outgoing_witness :
  exists w', handle (quiet_env 0) (message 0 (CHANNEL_CREATE (create_msg 1)))
      (one_channel (chan_40 mwChannel_OPEN)) = Some (tt, w')
    /\ chan_map w' = delete 1 {[1 := 1]} /\ w_channels w' = delete 1 {[1 := chan_40 mwChannel_OPEN]}
    /\ let b := message_bytes (destroy_message 1 ERR_REQUEST_INVALID) in w_log w' = [] ++ [EvWrite b 0].
Proof.
  apply (create_replaces_outgoing (quiet_env 0) (fun _ => 0) 1 1 (create_msg 1)); try done.
  by apply one_channel_wf.
Defined.
