(* ===== verification/Login.v ===== *)
(** * Logging in

    What the server obtains from the login message: the password, from the
    authentication data of either kind. *)

From S2P Require Import Prelude Buffer Common Message Framing World Rc2 Cipher Service Session.
From S2P Require Import Channel Dispatch Frame Delivery Protocol ChannelSpec Secure Closing.
#[local] Open Scope Z_scope.
#[local] Open Scope mw_scope.

#[local] Opaque mwKeyExpand rfc_block.

(** ** RC2/40 *)

(** The server: the key, the password encrypted with it. *)
Definition server_password_40 (auth : mwOpaque) : option (list Z) :=
  '(key, b) ← mwOpaque_get (mwGetBuffer_wrap (Some auth));
  '(c, _) ← mwOpaque_get b;
  k ← opaque_bytes key;
  '(pass, _) ← mwDecrypt ekey_stack (Some k) (len key) mwIV_init c;
  opaque_bytes pass.

(** A password as the functions take it: a C string of bytes. *)
Definition password_ok (pass : list Z) : Prop :=
  Forall is_u8 pass /\ Forall (fun x => x <> 0) pass /\ zlen pass < 2 ^ 16.
#[export] Instance password_ok_dec pass : Decision (password_ok pass).
Proof. unfold password_ok, is_u8. apply _. Defined.

Lemma mwIV_block : is_block mwIV_init.
Proof. split; [done|by apply (bool_decide_unpack _)]. Qed.

(** The NUL after a string is not part of the opaque made of it. *)
Lemma string_opaque pass : 
  let z := {| len := zlen pass; data := Some (pass ++ [0]) |} in opaque_ok z /\ opaque_data z = pass.
Proof. apply prefix_opaque. Qed.

(** Two opaques written and read back. *)
Lemma two_opaques a b o : mwOpaque_ok a -> mwOpaque_ok b -> opaque_ok o -> len o < 2 ^ 64 ->
  opaque_data o = mwOpaque_enc a ++ mwOpaque_enc b ->
  exists g g', mwOpaque_get (mwGetBuffer_wrap (Some o)) = Some (mwOpaque_norm a, g)
    /\ mwOpaque_get g = Some (mwOpaque_norm b, g').
Proof.
  intros Ha Hb Ho Hl Hd. pose proof (mwGetBuffer_wrap_ready o Ho Hl) as Hg. rewrite Hd in Hg.
  destruct (mwOpaque_get_ok a Ha) as (R & _ & _). destruct (R _ _ Hg) as (g & E & Hg1 & _).
  destruct (mwOpaque_get_ok b Hb) as (R' & _ & _). rewrite <- (app_nil_r (mwOpaque_enc b)) in Hg1.
  destruct (R' _ _ Hg1) as (g' & E' & _). by exists g, g'.
Qed.

(** From the authentication data of a login with RC2/40 the server
    recovers the password. *)
Theorem auth_rc2_40_recovered E pass :
  zlen (e_rand E 5) = 5 -> Forall is_u8 (e_rand E 5) -> password_ok pass ->
  exists auth, compose_auth_rc2_40 E (Some pass) = Some auth
    /\ server_password_40 auth = Some pass.
Proof.
  intros Hk Hk8 (Hb & _ & Hl). set (key := e_rand E 5) in *. pose proof (zlen_nonneg pass).
  destruct (mwKeyExpand_some ekey_stack key 5) as [K HK]; [lia|].
  destruct (string_opaque pass) as [Hzo Hzd].
  set (z := {| len := zlen pass; data := Some (pass ++ [0]) |}) in *.
  destruct (step_cipher K mwIV_init z mwIV_block) as (e & iv & d & He & Hdec & _ & Hok & Hle & Hd & Hdd).
  { split; [done|]. rewrite Hzd. split; [done|]. change (len z) with (zlen pass). unfold int_max. lia. }
  destruct (block_opaque key) as [Hao Had]. rewrite Hk in Hao, Had.
  set (a := {| len := 5; data := Some key |}) in *. change (len z) with (zlen pass) in Hle.
  assert (mwOpaque_ok a) as Ha by done. assert (mwOpaque_ok e) as Hex by (split; [done|unfold is_u32; lia]).
  assert (writes (mwOpaque_put (Some a) >>> mwOpaque_put (Some e)) (mwOpaque_enc a ++ mwOpaque_enc e)) as Hw
    by (apply writes_seq; by apply mwOpaque_put_ok).
  assert (zlen (mwOpaque_enc a ++ mwOpaque_enc e) = 13 + len e) as Hz.
  { unfold mwOpaque_enc. rewrite !zlen_app, !MW32_PUT_len, Had, Hk, opaque_ok_len by done. lia. }
  destruct (finalize_writes _ _ Hw) as (b & Eb & Hbo & Hbl & Hbd); [rewrite Hz; unfold pb_max; lia|].
  exists (mwPutBuffer_finalize b). split.
  - unfold compose_auth_rc2_40. cbn [mbind option_bind]. unfold mwKeyRandom. fold key a z.
    unfold mwEncrypt. rewrite HK. cbn [mbind option_bind]. rewrite He. cbn [mbind option_bind fst].
    by rewrite Eb.
  - destruct (two_opaques a e (mwPutBuffer_finalize b)) as (g & g' & E1 & E2); [done..|lia|done|].
    unfold server_password_40. rewrite E1. cbn [mbind option_bind]. rewrite E2. cbn [mbind option_bind].
    pose proof (same_bytes_norm a Hao) as Hna. rewrite (proj2 Hna), (opaque_ok_data a Hao), Had.
    cbn [mbind option_bind]. rewrite (proj1 Hna). change (len a) with 5. unfold mwDecrypt. rewrite HK.
    cbn [mbind option_bind]. rewrite (Hdec _ (same_bytes_norm e Hok)). cbn [mbind option_bind].
    by rewrite (opaque_ok_data d Hd), Hdd, Hzd.
Qed.

(** ** RC2/128 *)

(** The server, with its private key: the magic number and the password, from
    the client's public key and what is encrypted with the shared secret. *)
Definition server_password_128 (E : Env) (private_key : Z) (auth : mwOpaque) : option (Z * mwString) :=
  '(_, b) ← guint16_get 0 (mwGetBuffer_wrap (Some auth));
  '(pub, b) ← mwOpaque_get b;
  '(c, _) ← mwOpaque_get b;
  remote ← mwDHImportKey E pub;
  ekey ← expand_last16 ekey_stack (mwDHExportKey E (mwDHCalculateShared E remote private_key));
  '(a, _) ← mwDecryptExpanded ekey mwIV_init c;
  '(magic, b) ← guint32_get 0 (mwGetBuffer_wrap (Some a));
  '(pass, _) ← mwString_get b;
  Some (magic, pass).

#[export] Instance mwDHImportKey_proper E : Proper (same_bytes ==> eq) (mwDHImportKey E).
Proof. intros o o' [_ H]. unfold mwDHImportKey. by rewrite H. Qed.

Lemma expand_last16_some k E n :
  16 <= zlen (mp_write (e_mpi E) n) -> is_Some (expand_last16 k (mwDHExportKey E n)).
Proof.
  intros H. unfold expand_last16, mwDHExportKey. cbn [len data opt_list].
  destruct (Z.ltb_spec (zlen (mp_write (e_mpi E) n)) 16); [lia|]. unfold mem_read.
  rewrite decide_True by lia. cbn [mbind option_bind]. apply mwKeyExpand_some. zlen_lia.
Qed.

(** The magic number and the password, in an opaque. *)
Lemma secret_opaque magic pass : is_u32 magic -> password_ok pass ->
  exists b, (guint32_put magic >>> mwString_put (Some pass)) mwPutBuffer_new = Some b
    /\ plain_ok (mwPutBuffer_finalize b) /\ len (mwPutBuffer_finalize b) = 6 + zlen pass
    /\ forall o, opaque_ok o -> opaque_data o = opaque_data (mwPutBuffer_finalize b) ->
       exists g g', guint32_get 0 (mwGetBuffer_wrap (Some o)) = Some (magic, g)
         /\ mwString_get g = Some (mwString_norm (Some pass), g').
Proof.
  intros Hm (Hb & Hnz & Hl). pose proof (zlen_nonneg pass).
  assert (writes (guint32_put magic >>> mwString_put (Some pass))
    (MW32_PUT magic ++ mwString_enc (Some pass))) as Hw
    by (apply writes_seq; [apply guint32_put_writes|apply mwString_put_writes]).
  assert (zlen (MW32_PUT magic ++ mwString_enc (Some pass)) = 6 + zlen pass) as Hz.
  { unfold mwString_enc. cbn [opt_list]. rewrite !zlen_app, MW32_PUT_len, MW16_PUT_len. lia. }
  destruct (finalize_writes _ _ Hw) as (b & Eb & Hbo & Hbl & Hbd); [rewrite Hz; unfold pb_max; lia|].
  exists b. split_and!; [done| |by rewrite Hbl|].
  - split; [done|]. split; [|rewrite Hbl, Hz; unfold int_max; lia]. rewrite Hbd.
    unfold mwString_enc, MW32_PUT, MW16_PUT. cbn [opt_list app].
    repeat (constructor; [rewrite land_ff; by apply Z.mod_pos_bound|]). done.
  - intros o Ho Hd. rewrite Hbd in Hd.
    assert (len o < 2 ^ 64) by (rewrite <- (opaque_ok_len o Ho), Hd, Hz; lia).
    pose proof (mwGetBuffer_wrap_ready o Ho ltac:(done)) as Hg. rewrite Hd in Hg.
    destruct (guint32_get_parses 0 magic Hm) as (R & _ & _). destruct (R _ _ Hg) as (g & E & Hg1 & _).
    destruct (mwString_get_parses (Some pass)) as (R' & _ & _); [by split|].
    rewrite <- (app_nil_r (mwString_enc _)) in Hg1. destruct (R' _ _ Hg1) as (g' & E' & _).
    by exists g, g'.
Qed.

Section auth_128.
Context (EC ES : Env) {Hok : MpiOk (e_mpi EC)} (Hmpi : e_mpi ES = e_mpi EC)
  (Hprime : 1 < mwInitDHPrime EC)
  (Hsize : forall n, 0 <= n < mwInitDHPrime EC -> zlen (mp_write (e_mpi EC) n) < 2 ^ 20).

Lemma same_export n : mwDHExportKey ES n = mwDHExportKey EC n.
Proof. unfold mwDHExportKey. by rewrite Hmpi. Qed.
Lemma same_import o : mwDHImportKey ES o = mwDHImportKey EC o.
Proof. unfold mwDHImportKey. by rewrite Hmpi. Qed.
Lemma same_shared a b : mwDHCalculateShared ES a b = mwDHCalculateShared EC a b.
Proof. unfold mwDHCalculateShared, mwInitDHPrime. by rewrite Hmpi. Qed.

Lemma export_ok n : 0 <= n < mwInitDHPrime EC ->
  mwOpaque_ok (mwDHExportKey EC n) /\ mwDHImportKey EC (mwDHExportKey EC n) = Some n.
Proof.
  intros Hn. pose proof (export_block EC n) as Hb. split.
  - split; [split; [apply zlen_nonneg|by eexists]|]. pose proof (Hsize n Hn).
    unfold is_u32, mwDHExportKey. cbn [len]. pose proof (zlen_nonneg (mp_write (e_mpi EC) n)). lia.
  - unfold mwDHImportKey. rewrite Hb. cbn. by rewrite mp_read_write by lia.
Qed.

Lemma public_key_bound a : 0 <= a -> 0 <= mp_exptmod (e_mpi EC) DH_BASE a (mwInitDHPrime EC) < mwInitDHPrime EC.
Proof. intros Ha. rewrite mp_exptmod_spec by done. apply Z.mod_pos_bound. lia. Qed.

(** Both sides have the same secret. *)
Lemma shared_agree a b : 0 <= a -> 0 <= b ->
  mwDHCalculateShared EC (mp_exptmod (e_mpi EC) DH_BASE b (mwInitDHPrime EC)) a =
  mwDHCalculateShared EC (mp_exptmod (e_mpi EC) DH_BASE a (mwInitDHPrime EC)) b.
Proof.
  intros Ha Hb. pose proof (public_key_bound a Ha). pose proof (public_key_bound b Hb).
  unfold mwDHCalculateShared. rewrite !mp_exptmod_spec by (lia || done).
  apply shared_comm; lia.
Qed.

(** What the client writes after the key exchange, read back. *)
Lemma auth_128_read pub c o : mwOpaque_ok pub -> mwOpaque_ok c -> opaque_ok o -> len o < 2 ^ 64 ->
  opaque_data o = MW16_PUT 1 ++ mwOpaque_enc pub ++ mwOpaque_enc c ->
  exists g g' g'', guint16_get 0 (mwGetBuffer_wrap (Some o)) = Some (1, g)
    /\ mwOpaque_get g = Some (mwOpaque_norm pub, g') /\ mwOpaque_get g' = Some (mwOpaque_norm c, g'').
Proof.
  intros Hp Hc Ho Hl Hd. pose proof (mwGetBuffer_wrap_ready o Ho Hl) as Hg. rewrite Hd in Hg.
  destruct (guint16_get_parses 0 1) as (R & _ & _); [done|]. destruct (R _ _ Hg) as (g & E & Hg1 & _).
  destruct (mwOpaque_get_ok pub Hp) as (R' & _ & _). destruct (R' _ _ Hg1) as (g' & E' & Hg2 & _).
  rewrite <- (app_nil_r (mwOpaque_enc c)) in Hg2.
  destruct (mwOpaque_get_ok c Hc) as (R'' & _ & _). destruct (R'' _ _ Hg2) as (g'' & E'' & _).
  by exists g, g', g''.
Qed.

(** C34: from the authentication data of a login with RC2/128 the server
    recovers its magic number and the password, whatever the two private keys,
    unless the secret they share is shorter than the 16 bytes of the key. *)
Theorem auth_rc2_128_recovered b rkey magic pass :
  let a := mw_mp_set_rand EC 512 in
  let pb := mp_exptmod (e_mpi EC) DH_BASE b (mwInitDHPrime EC) in
  0 <= b -> same_bytes rkey (mwDHExportKey EC pb) -> is_u32 magic -> password_ok pass ->
  16 <= len (mwDHExportKey EC (mwDHCalculateShared EC pb a)) ->
  exists auth, compose_auth_rc2_128 EC (Some pass) magic rkey = Some auth
    /\ server_password_128 ES b auth = Some (magic, mwString_norm (Some pass)).
Proof.
  intros a pb Hb Hrk Hm Hpw H16. pose proof (zlen_nonneg pass).
  assert (0 <= a) as Ha by (by apply set_rand_nonneg).
  set (pa := mp_exptmod (e_mpi EC) DH_BASE a (mwInitDHPrime EC)).
  pose proof (public_key_bound a Ha) as Hpa. pose proof (public_key_bound b Hb) as Hpb. fold pa in Hpa. fold pb in Hpb.
  destruct (export_ok pa Hpa) as [Hpok Hpi]. destruct (export_ok pb Hpb) as [_ Hri].
  set (sh := mwDHCalculateShared EC pb a) in *.
  destruct (expand_last16_some ekey_stack EC sh) as [K HK]; [done|].
  destruct (secret_opaque magic pass Hm Hpw) as (q & Eq & Hq & Hql & Hread).
  destruct (step_cipher K mwIV_init _ mwIV_block Hq) as (e & iv & d & He & Hdec & _ & Heok & Hle & Hd & Hdd).
  assert (zlen pass < 2 ^ 16) by apply Hpw.
  assert (mwOpaque_ok e) as Hex by (split; [done|unfold is_u32; lia]).
  set (pub := mwDHExportKey EC pa) in *.
  assert (writes (guint16_put 1 >>> mwOpaque_put (Some pub) >>> mwOpaque_put (Some e))
    (MW16_PUT 1 ++ mwOpaque_enc pub ++ mwOpaque_enc e)) as Hw
    by (apply writes_seq; [apply guint16_put_writes|apply writes_seq; by apply mwOpaque_put_ok]).
  assert (zlen (MW16_PUT 1 ++ mwOpaque_enc pub ++ mwOpaque_enc e) = 10 + len pub + len e) as Hz.
  { unfold mwOpaque_enc. rewrite !zlen_app, !MW32_PUT_len, !opaque_ok_len by apply Hpok || done.
    rewrite MW16_PUT_len. lia. }
  assert (is_u32 (len pub)) as Hpl by apply Hpok. unfold is_u32 in Hpl.
  destruct (finalize_writes _ _ Hw) as (p & Ep & Hpo & Hpln & Hpd); [rewrite Hz; unfold pb_max; lia|].
  exists (mwPutBuffer_finalize p). split.
  - unfold compose_auth_rc2_128, mwDHRandKeypair. fold a. unfold mwInitDHBase. fold pa.
    rewrite Hrk, Hri. cbn [mbind option_bind]. fold sh. rewrite Eq. cbn [mbind option_bind].
    rewrite HK. cbn [mbind option_bind]. rewrite He. cbn [mbind option_bind fst]. fold pub. by rewrite Ep.
  - destruct (auth_128_read pub e (mwPutBuffer_finalize p)) as (g & g' & g'' & E1 & E2 & E3); [done..|lia|done|].
    unfold server_password_128. rewrite E1. cbn [mbind option_bind]. rewrite E2. cbn [mbind option_bind].
    rewrite E3. cbn [mbind option_bind]. rewrite same_import, (same_bytes_norm pub (proj1 Hpok)), Hpi.
    cbn [mbind option_bind]. rewrite same_export, same_shared. unfold pa. rewrite (shared_agree b a) by done.
    fold pb sh. rewrite HK. cbn [mbind option_bind]. rewrite (Hdec _ (same_bytes_norm e Heok)).
    cbn [mbind option_bind]. destruct (Hread d Hd Hdd) as (h & h' & F1 & F2).
    rewrite F1. cbn [mbind option_bind]. by rewrite F2.
Qed.
End auth_128.

(** ** Witnesses *)

Lemma auth_rc2_40_recovered_witness :
  exists auth, compose_auth_rc2_40 (quiet_env 7) (Some [112; 119]) = Some auth
    /\ server_password_40 auth = Some [112; 119].
Proof.
  apply (auth_rc2_40_recovered (quiet_env 7) [112; 119]); try reflexivity;
    by apply (bool_decide_unpack _).
Defined.

Lemma low_bytes_length fuel n : zlen (low_bytes fuel n) <= Z.of_nat fuel.
Proof.
  revert n. induction fuel as [|fuel IH]; intros n; cbn [low_bytes]; [done|].
  destruct (n <=? 0); [zlen_lia|]. rewrite zlen_cons. specialize (IH (n / 256)). lia.
Qed.

Lemma mpi_Z_size n : 0 <= n < mwInitDHPrime (quiet_env 0) -> zlen (mp_write mpi_Z n) < 2 ^ 20.
Proof.
  intros Hn. cbn [mp_write mpi_Z]. rewrite zlen_reverse.
  pose proof (low_bytes_length (Z.to_nat (Z.log2 n + 1)) n) as Hl.
  pose proof (Z.log2_nonneg n). rewrite Z2Nat.id in Hl by lia.
  assert (Z.log2 n <= Z.log2 (mwInitDHPrime (quiet_env 0))) by (apply Z.log2_le_mono; lia).
  assert (Z.log2 (mwInitDHPrime (quiet_env 0)) = 511) by (vm_compute; reflexivity). lia.
Qed.

Lemma auth_rc2_128_recovered_witness :
  exists auth, compose_auth_rc2_128 (quiet_env 10) (Some [112; 119]) 0x01020304
      (mwDHExportKey (quiet_env 10) (mwDHRandKeypair (quiet_env 12)).2) = Some auth
    /\ server_password_128 (quiet_env 12) 12 auth = Some (0x01020304, Some [112; 119]).
Proof.
  apply (auth_rc2_128_recovered (quiet_env 10) (quiet_env 12) (Hok := mpi_Z_ok) eq_refl).
  - vm_compute. reflexivity.
  - apply mpi_Z_size.
  - lia.
  - vm_compute. split; reflexivity.
  - done.
  - by apply (bool_decide_unpack _).
  - vm_compute. discriminate.
Defined.
