(* ===== verification/Startup.v ===== *)
(** * The exchange that starts a session

    What a session does in the calm case, the handler listening to nothing:
    the handshake, the login, and the start of the services. *)

From S2P Require Import Prelude Buffer Common Message Framing World Rc2 Cipher Service Session.
From S2P Require Import Channel Dispatch Frame Delivery Protocol ChannelSpec Secure Closing Login.
From S2P Require Import Ft FtSpec FtRuns.
#[local] Open Scope Z_scope.
#[local] Open Scope mw_scope.

#[local] Arguments render : simpl never.

(** The handler writes and does nothing else. *)
Record calm (E : Env) (r : list Z -> Z) : Prop := {
  calm_writes : pure_writes E r;
  calm_state : e_on_stateChange E = None;
  calm_close : e_io_close E = ret tt;
}.

(** The session in another state. *)
Definition entered (st : mwSessionState) (info : gpointer) (w : world) : world :=
  with_log [EvState st] (set_w_session (set_s_state_info info (set_s_state st (w_session w))) w).

Lemma session_state_run E r st info w : calm E r -> cur w <> st ->
  Session.state E st info w = Some (tt, entered st info w).
Proof.
  intros [_ Hc _] Hst. unfold Session.state, mwSession_isState. unfold cur in Hst.
  unfold bind at 1, session_get, gets. rewrite bool_decide_false by done.
  unfold bind, session_set, modify, log. by rewrite Hc.
Qed.

Lemma property_string_run k v s w : s_attributes (w_session w) !! k = Some v -> as_string v = Some s ->
  property_string k w = Some (s, w).
Proof.
  intros Hk Hs. unfold property_string, property_get, bind, session_get, gets, lift.
  rewrite Hk. cbn. by rewrite Hs.
Qed.

Lemma property_uint_run k v w : default (Word 0) (s_attributes (w_session w) !! k) = Word v ->
  property_uint k w = Some (u32 v, w).
Proof.
  intros Hk. unfold property_uint, property_get, bind, session_get, gets, lift. by rewrite Hk.
Qed.

(** ** The handshake *)

(** The properties of a session that its handshake is made of. *)
Record handshake_properties (w : world) (major minor login_type ip : Z) (host : list Z) : Prop := {
  hp_major : s_attributes (w_session w) !! mwSession_CLIENT_VER_MAJOR = Some (Word major);
  hp_minor : s_attributes (w_session w) !! mwSession_CLIENT_VER_MINOR = Some (Word minor);
  hp_type : s_attributes (w_session w) !! mwSession_CLIENT_TYPE_ID = Some (Word login_type);
  hp_ip : s_attributes (w_session w) !! mwSession_CLIENT_IP = Some (Word ip);
  hp_host : s_attributes (w_session w) !! mwSession_CLIENT_HOST = Some (Str host);
}.

Definition expected_handshake (major minor login_type ip : Z) (host : list Z) : mwMessage :=
  let long := (0x001e <=? major) && (0x001d <=? minor) in
  message 0 (HANDSHAKE {|
    hs_major := major; hs_minor := minor; hs_srvrcalc_addr := 0; hs_login_type := login_type;
    hs_loclcalc_addr := ip; hs_unknown_a := if long then 0x0100 else 0; hs_unknown_b := 0;
    hs_local_host := if long then Some host else None |}).

Lemma handshake_msg_run w major minor login_type ip host :
  handshake_properties w major minor login_type ip host ->
  is_u16 major -> is_u16 minor -> is_u16 login_type -> is_u32 ip ->
  handshake_msg w = Some (expected_handshake major minor login_type ip host, w).
Proof.
  intros [H1 H2 H3 H4 H5] Hma Hmi Ht Hip.
  assert (forall z, is_u16 z -> u32 z = z) as Hu by (intros z Hz; apply u32_id; unfold is_u16, is_u32 in *; lia).
  unfold handshake_msg.
  erewrite bind_run by (apply property_uint_run; by rewrite H1).
  erewrite bind_run by (apply property_uint_run; by rewrite H2).
  erewrite bind_run by (apply property_uint_run; by rewrite H3).
  erewrite bind_run by (apply property_uint_run; by rewrite H4).
  rewrite !Hu, !u16_id, (u32_id ip) by done. unfold expected_handshake.
  destruct ((0x001e <=? major) && (0x001d <=? minor)).
  - erewrite bind_run by (by eapply property_string_run). done.
  - erewrite bind_run by reflexivity. done.
Qed.

(** Starting a stopped session writes one handshake, made of the
    properties of the session, and waits for its answer in the state
    HANDSHAKE. *)
Theorem session_start_spec E r w major minor login_type ip host :
  calm E r -> cur w = mwSession_STOPPED ->
  handshake_properties w major minor login_type ip host ->
  is_u16 major -> is_u16 minor -> is_u16 login_type -> is_u32 ip ->
  let m := expected_handshake major minor login_type ip host in
  sendable m -> r (message_bytes m) = 0 ->
  exists w', mwSession_start E w = Some (tt, w')
    /\ cur w' = mwSession_HANDSHAKE
    /\ w_log w' = w_log w ++
         [EvState mwSession_STARTING; EvWrite (message_bytes m) 0; EvState mwSession_HANDSHAKE].
Proof.
  intros Hc Hw Hp Hma Hmi Ht Hip m Hm Hr. unfold mwSession_start, mwSession_isStopped.
  unfold bind at 1, mwSession_isState, session_get, gets. unfold cur in Hw. rewrite Hw. cbn [negb bool_decide].
  rewrite bool_decide_true by done. cbn [negb].
  erewrite bind_run by (eapply session_state_run; [done|unfold cur; by rewrite Hw]).
  set (w1 := entered _ _ w).
  erewrite bind_run by (apply (handshake_msg_run w1); [by destruct Hp|done..]). fold m.
  erewrite bind_run by (apply (session_send_sendable E r); [apply Hc|done|done]).
  rewrite Hr. cbn [Z.eqb negb]. erewrite session_state_run by done.
  eexists. split; [reflexivity|]. split; [done|]. unfold w1, entered, with_log. cbn.
  by rewrite <- !app_assoc.
Qed.

(** ** The login *)

Definition login_message (login_type : Z) (name : list Z) (auth_type : Z) (auth : mwOpaque) : mwMessage :=
  message 0 (LOGIN {| lg_login_type := login_type; lg_name := Some name; lg_auth_type := auth_type;
                      lg_auth_data := auth |}).

Record login_properties (w : world) (login_type : Z) (name pass : list Z) : Prop := {
  lp_type : s_attributes (w_session w) !! mwSession_CLIENT_TYPE_ID = Some (Word login_type);
  lp_name : s_attributes (w_session w) !! mwSession_AUTH_USER_ID = Some (Str name);
  lp_pass : s_attributes (w_session w) !! mwSession_AUTH_PASSWORD = Some (Str pass);
}.

(** The authentication data for an answer to the handshake. *)
Definition expected_auth (E : Env) (pass : list Z) (msg : mwMsgHandshakeAck) : option (Z * mwOpaque) :=
  if 64 <=? len (ha_data msg)
  then a ← compose_auth_rc2_128 E (Some pass) (ha_magic msg) (ha_data msg); Some (mwAuthType_RC2_128, a)
  else a ← compose_auth_rc2_40 E (Some pass); Some (mwAuthType_RC2_40, a).

Definition server_version (msg : mwMsgHandshakeAck) (w : world) : world :=
  set_w_session (set_s_attributes
    (<[mwSession_SERVER_VER_MINOR := GPOINTER (ha_minor msg)]>
       (<[mwSession_SERVER_VER_MAJOR := GPOINTER (ha_major msg)]> (s_attributes (w_session w))))
    (w_session w)) w.

(** The answer to the handshake makes the session log in: it keeps the
    version of the server, and writes one login message with the user's name
    and the password in the kind of encryption the server's key asks for; the
    state is LOGIN if the write succeeded and HANDSHAKE_ACK if it did not. *)
Theorem handshake_ack_spec E r w msg login_type name pass auth_type auth :
  calm E r -> cur w = mwSession_HANDSHAKE -> login_properties w login_type name pass ->
  is_u16 login_type -> expected_auth E pass msg = Some (auth_type, auth) ->
  let m := login_message login_type name auth_type auth in
  sendable m ->
  exists w', handle E (message 0 (HANDSHAKE_ACK msg)) w = Some (tt, w')
    /\ s_attributes (w_session w') = s_attributes (w_session (server_version msg w))
    /\ cur w' = (if r (message_bytes m) =? 0 then mwSession_LOGIN else mwSession_HANDSHAKE_ACK)
    /\ w_log w' = w_log w ++
         [EvState mwSession_HANDSHAKE_ACK; EvWrite (message_bytes m) (r (message_bytes m))] ++
         (if r (message_bytes m) =? 0 then [EvState mwSession_LOGIN] else []).
Proof.
  intros Hc Hw [Htype Hname Hpass] Ht Ha m Hm. unfold handle. cbn [msg_body message].
  unfold HANDSHAKE_ACK_recv. unfold cur in Hw. erewrite bind_run by reflexivity. rewrite Hw.
  rewrite (bool_decide_true (mwSession_HANDSHAKE = _)), (bool_decide_false (_ = mwSession_LOGIN_CONT)) by done.
  cbn [orb negb].
  erewrite bind_run by (eapply session_state_run; [done|unfold cur; by rewrite Hw]). set (w1 := entered _ _ w).
  erewrite bind_run by reflexivity. erewrite bind_run by reflexivity. set (w2 := set_w_session _ _).
  assert (s_attributes (w_session w2) = s_attributes (w_session (server_version msg w))) as Hat by done.
  assert (forall k, k <> mwSession_SERVER_VER_MAJOR -> k <> mwSession_SERVER_VER_MINOR ->
    s_attributes (w_session w2) !! k = s_attributes (w_session w) !! k) as Hk.
  { intros k Hk1 Hk2. rewrite Hat. cbn. by rewrite !lookup_insert_ne by congruence. }
  erewrite bind_run by (apply property_uint_run; rewrite Hk, Htype by done; reflexivity).
  erewrite bind_run by (eapply property_string_run; [rewrite Hk by done; exact Hname|done]).
  erewrite bind_run by (eapply property_string_run; [rewrite Hk by done; exact Hpass|done]).
  assert ((if 64 <=? len (ha_data msg)
     then let* auth := lift (compose_auth_rc2_128 E (Some pass) (ha_magic msg) (ha_data msg)) in
          ret (mwAuthType_RC2_128, auth)
     else let* auth := lift (compose_auth_rc2_40 E (Some pass)) in ret (mwAuthType_RC2_40, auth)) w2
    = Some ((auth_type, auth), w2)) as Hauth.
  { revert Ha. unfold expected_auth, bind, lift. destruct (64 <=? _).
    - destruct (compose_auth_rc2_128 _ _ _ _); cbn [mbind option_bind]; [by intros [= -> ->]|done].
    - destruct (compose_auth_rc2_40 _ _); cbn [mbind option_bind]; [by intros [= -> ->]|done]. }
  rewrite (bind_run _ _ _ _ _ Hauth). cbn [g_strdup].
  rewrite (u32_id login_type), (u16_id login_type) by (unfold is_u16, is_u32 in *; lia).
  change (message 0 (LOGIN _)) with m.
  erewrite bind_run by (apply (session_send_sendable E r); [apply Hc|done|done]).
  destruct (r (message_bytes m) =? 0).
  - erewrite session_state_run by done. eexists. split; [reflexivity|]. split; [done|]. split; [done|].
    unfold w2, w1, entered, with_log. cbn. by rewrite <- !app_assoc.
  - eexists. split; [reflexivity|]. split; [done|]. split; [done|].
    unfold w2, w1, entered, with_log. cbn. by rewrite <- !app_assoc.
Qed.

(** ** The services *)

(** What [g_hash_table_foreach] promises: every value of a table, no other. *)
Definition table_values (E : Env) : Prop :=
  forall (m : gmap Z Z) p, p ∈ e_values E Z m <-> exists k, m !! k = Some p.

(** No service has a function for stopping. *)
Definition plain_services (E : Env) : Prop := forall p, op_stop (e_service E p) = None.

Definition services_alive (w : world) : Prop :=
  forall k p, s_services (w_session w) !! k = Some p -> is_Some (w_services w !! p).

Definition with_services (m : gmap Z mwService) (w : world) : world := set_w_services m w.

Definition stop_sv (sv : mwService) : mwService :=
  if MW_SERVICE_IS_DEAD (sv_state sv) then sv else set_sv_state mwServiceState_STOPPED sv.

Lemma stop_sv_idem sv : stop_sv (stop_sv sv) = stop_sv sv.
Proof. unfold stop_sv at 2 3. by destruct (MW_SERVICE_IS_DEAD _) eqn:H; [unfold stop_sv; rewrite H|]. Qed.

(** A step that changes one service. *)
Definition alters (f : mwService -> mwService) (m : Z -> M unit) : Prop :=
  forall p w, is_Some (w_services w !! p) -> m p w = Some (tt, with_services (alter f p (w_services w)) w).

Lemma service_set_run p f w : is_Some (w_services w !! p) ->
  service_set p f w = Some (tt, with_services (alter f p (w_services w)) w).
Proof.
  intros [sv Hp]. unfold service_set. rewrite Hp. unfold with_services. do 3 f_equal.
  apply map_eq. intros q. destruct (decide (q = p)) as [->|].
  - by rewrite lookup_insert_eq, lookup_alter_eq, Hp.
  - by rewrite lookup_insert_ne, lookup_alter_ne.
Qed.

Lemma alter_same {A} (f : A -> A) (m : gmap Z A) p x : m !! p = Some x -> f x = x -> alter f p m = m.
Proof.
  intros Hp Hf. apply map_eq. intros q. destruct (decide (q = p)) as [->|].
  - rewrite lookup_alter_eq, Hp. cbn. by rewrite Hf.
  - by rewrite lookup_alter_ne.
Qed.

Lemma alter_twice (f g : mwService -> mwService) p w :
  with_services (alter g p (w_services (with_services (alter f p (w_services w)) w)))
    (with_services (alter f p (w_services w)) w) = with_services (alter (g ∘ f) p (w_services w)) w.
Proof. unfold with_services. cbn. by rewrite alter_alter_eq. Qed.

Lemma with_services_same w : with_services (w_services w) w = w.
Proof. by destruct w. Qed.

Lemma alter_agree (f g : mwService -> mwService) (m : gmap Z mwService) p x :
  m !! p = Some x -> f x = g x -> alter f p m = alter g p m.
Proof.
  intros Hp Hfg. apply map_eq. intros q. destruct (decide (q = p)) as [->|].
  - rewrite !lookup_alter_eq, Hp. cbn. by rewrite Hfg.
  - by rewrite !lookup_alter_ne.
Qed.

Lemma service_stop_alters E : plain_services E -> alters stop_sv (mwService_stop E).
Proof.
  intros HE p w [sv Hp]. unfold mwService_stop, mwService_getState.
  erewrite bind_run by (unfold bind, deref_service; rewrite Hp; reflexivity).
  destruct (MW_SERVICE_IS_DEAD (sv_state sv)) eqn:Hst.
  - rewrite (alter_same _ _ _ sv Hp), with_services_same; [done|]. unfold stop_sv. by rewrite Hst.
  - erewrite bind_run by by (apply service_set_run; eexists).
    rewrite (HE p). unfold mwService_stopped, mwService_getState.
    erewrite bind_run.
    2:{ unfold bind, deref_service. cbn. rewrite lookup_alter_eq, Hp. reflexivity. }
    cbn [sv_state set_sv_state]. rewrite bool_decide_false by done.
    rewrite service_set_run by (cbn; rewrite lookup_alter_eq, Hp; by eexists).
    rewrite alter_twice. f_equal. f_equal. unfold with_services. f_equal.
    apply (alter_agree _ _ _ _ sv Hp). unfold stop_sv. by rewrite Hst.
Qed.

(** The services of a list after the step. *)
Definition altered (f : mwService -> mwService) (l : list Z) (m : gmap Z mwService) : gmap Z mwService :=
  foldl (fun m p => alter f p m) m l.

Lemma altered_lookup f l m q : (forall sv, f (f sv) = f sv) ->
  altered f l m !! q = if decide (q ∈ l) then f <$> m !! q else m !! q.
Proof.
  intros Hf. revert m. induction l as [|p l IH]; intros m; [done|]. unfold altered. cbn [foldl].
  fold (altered f l (alter f p m)). rewrite IH. destruct (decide (q = p)) as [->|Hne].
  - rewrite lookup_alter_eq. rewrite (decide_True (P := p ∈ p :: l)) by by left.
    case_decide; [|done]. destruct (m !! p); cbn; [by rewrite Hf|done].
  - rewrite lookup_alter_ne by done. symmetry. apply decide_ext.
    split; [by intros [?|?]%elem_of_cons|by right].
Qed.

Lemma for_each_alters f m l w : alters f m -> (forall p, p ∈ l -> is_Some (w_services w !! p)) ->
  for_each m l w = Some (tt, with_services (altered f l (w_services w)) w).
Proof.
  intros Hm. revert w. induction l as [|p l IH]; intros w Hl.
  { cbn. by rewrite with_services_same. }
  cbn [for_each]. erewrite bind_run by (apply Hm, Hl; by left). rewrite IH; [done|].
  intros q Hq. cbn. destruct (decide (q = p)) as [->|].
  - rewrite lookup_alter_eq. apply fmap_is_Some. apply Hl. by left.
  - rewrite lookup_alter_ne by done. apply Hl. by right.
Qed.

(** The services of the session have taken the step, the others not. *)
Record services_step (f : mwService -> mwService) (w w' : world) : Prop := {
  ss_session k p sv : s_services (w_session w) !! k = Some p -> w_services w !! p = Some sv ->
    w_services w' !! p = Some (f sv);
  ss_other p : (forall k, s_services (w_session w) !! k <> Some p) ->
    w_services w' !! p = w_services w !! p;
}.

Lemma for_services E f m w : table_values E -> services_alive w -> alters f m ->
  (forall sv, f (f sv) = f sv) ->
  exists w', (forall k : unit -> M unit,
      (let* l := mwSession_getServices E in bind (for_each m l) k) w = k tt w')
    /\ services_step f w w' /\ w' = with_services (w_services w') w.
Proof.
  intros HE Hw Hm Hf. set (l := e_values E Z (s_services (w_session w))).
  assert (forall p, p ∈ l <-> exists k, s_services (w_session w) !! k = Some p) as Hl by (intros p; apply HE).
  eexists. split.
  { intros k. unfold mwSession_getServices. erewrite bind_run by reflexivity. fold l. apply bind_run.
    apply (for_each_alters f m l); [done|]. intros p [k' Hk]%Hl. by eapply Hw. }
  split; [|done]. split; cbn.
  - intros k p sv Hk Hp. rewrite altered_lookup by done. rewrite decide_True by (apply Hl; by exists k).
    by rewrite Hp.
  - intros p Hp. rewrite altered_lookup by done. rewrite decide_False; [done|].
    intros [k Hk]%Hl. by apply (Hp k).
Qed.

(** *** Services with a start function *)


(** What else happens while services start: the session keeps its state, its
    login information and its services. *)
Record beside (w w' : world) : Prop := {
  be_services : s_services (w_session w') = s_services (w_session w);
  be_login : s_login (w_session w') = s_login (w_session w);
  be_state : cur w' = cur w;
  be_log : exists tr, w_log w' = w_log w ++ tr /\ Forall (fun e => forall st, e <> EvState st) tr;
}.



#[export] Instance beside_preorder : PreOrder beside.
Proof.
  split.
  - intros w. split; [done..|]. exists []. by rewrite app_nil_r.
  - intros w w1 w2 [S1 L1 C1 (t1 & E1 & F1)] [S2 L2 C2 (t2 & E2 & F2)]. split; [congruence..|].
    exists (t1 ++ t2). rewrite E2, E1, <- app_assoc. split; [done|by apply Forall_app].
Qed.







(** Stopping a session that is not stopped stops its services, tells the
    server the reason on the master channel, drops the part of a message that
    was received, closes the connection, and reaches STOPPED, whether or not
    the write succeeds. *)
Theorem session_stop_spec E r w reason :
  calm E r -> table_values E -> plain_services E -> services_alive w -> is_u32 reason ->
  cur w <> mwSession_STOPPED -> cur w <> mwSession_STOPPING ->
  let b := message_bytes (destroy_message MW_MASTER_CHANNEL_ID reason) in
  exists w', mwSession_stop E reason w = Some (tt, w')
    /\ cur w' = mwSession_STOPPED /\ s_state_info (w_session w') = Word reason
    /\ s_buf (w_session w') = rb_empty /\ services_step stop_sv w w'
    /\ w_log w' = w_log w ++
         [EvState mwSession_STOPPING; EvWrite b (r b); EvClose; EvState mwSession_STOPPED].
Proof.
  intros Hc HE Hpl Hal Hr Hs1 Hs2 b. unfold mwSession_stop. unfold cur in Hs1, Hs2.
  erewrite bind_run by reflexivity. rewrite !bool_decide_false by done. cbn [orb].
  erewrite bind_run by by eapply session_state_run. set (w1 := entered _ _ w).
  destruct (for_services E stop_sv (mwService_stop E) w1) as (w2 & E2 & [S1 S2] & Hw2);
    [done|exact Hal|by apply service_stop_alters|exact stop_sv_idem|].
  rewrite E2.
  erewrite bind_run by (apply (session_send_sendable E r);
    [apply Hc|by apply (destroy_message_sendable MW_MASTER_CHANNEL_ID)|done]).
  fold (destroy_message MW_MASTER_CHANNEL_ID reason). fold b.
  erewrite bind_run by reflexivity. unfold io_close. rewrite (calm_close E r Hc).
  erewrite bind_run by reflexivity.
  erewrite session_state_run by (done || (cbn; by rewrite Hw2)).
  eexists. split; [reflexivity|]. split; [done|]. split; [done|]. split; [done|].
  split; [split; [exact S1|exact S2]|].
  rewrite Hw2. unfold w1, entered, with_log. cbn. by rewrite <- !app_assoc.
Qed.

(** ** Witnesses *)

Lemma quiet_calm seed : calm (quiet_env seed) (fun _ => 0).
Proof. by split. Qed.

Lemma quiet_table_values seed : table_values (quiet_env seed).
Proof.
  intros m p. cbn. split.
  - intros H. apply list_elem_of_fmap in H as ([k q] & -> & H). exists k. by apply elem_of_map_to_list.
  - intros [k Hk]. apply list_elem_of_fmap. exists (k, p). split; [done|]. by apply elem_of_map_to_list.
Qed.

(** The client, with its host and address. *)
Definition ready_client : world :=
  match (property_set mwSession_CLIENT_HOST (Str [104]) ;;
         property_set mwSession_CLIENT_IP (GPOINTER 0x7f000001)) client_world with
  | Some (_, w) => w
  | None => client_world
  end.
Definition calls_world (l : list call) : world :=
  match run_calls (quiet_env 0) l ready_client with Some (_, w) => w | None => ready_client end.

Lemma session_start_spec_witness :
  let m := expected_handshake 0x1e 0x1d 0x1700 0x7f000001 [104] in
  exists w', mwSession_start (quiet_env 0) ready_client = Some (tt, w')
    /\ cur w' = mwSession_HANDSHAKE
    /\ w_log w' = w_log ready_client ++
         [EvState mwSession_STARTING; EvWrite (message_bytes m) 0; EvState mwSession_HANDSHAKE].
Proof.
  cbv zeta. apply (session_start_spec (quiet_env 0) (fun _ => 0)); try done.
  repeat split; try by apply (bool_decide_unpack _). all: vm_compute; congruence.
Defined.

Definition ack_auth : mwOpaque := Eval vm_compute in
  match compose_auth_rc2_40 (quiet_env 0) (Some [112; 119]) with Some a => a | None => opaque_zero end.

Lemma handshake_ack_spec_witness :
  let m := login_message 0x1700 [98; 111; 98] mwAuthType_RC2_40 ack_auth in
  let w := calls_world [CallStart] in
  exists w', handle (quiet_env 0) (message 0 (HANDSHAKE_ACK ha_zero)) w = Some (tt, w')
    /\ s_attributes (w_session w') = s_attributes (w_session (server_version ha_zero w))
    /\ cur w' = mwSession_LOGIN
    /\ w_log w' = w_log w ++
         [EvState mwSession_HANDSHAKE_ACK; EvWrite (message_bytes m) 0] ++ [EvState mwSession_LOGIN].
Proof.
  cbv zeta. apply (handshake_ack_spec (quiet_env 0) (fun _ => 0) (calls_world [CallStart]) ha_zero 0x1700
    [98; 111; 98] [112; 119] mwAuthType_RC2_40 ack_auth (quiet_calm 0)).
  - vm_compute. reflexivity.
  - split; vm_compute; reflexivity.
  - done.
  - vm_compute. reflexivity.
  - repeat split; try by apply (bool_decide_unpack _). all: vm_compute; congruence.
Defined.


Definition logging_in : world := calls_world [CallStart; CallRecv ack_bytes].

Lemma logging_in_alive : services_alive logging_in.
Proof.
  assert (s_services (w_session logging_in) = {[0x1000 := 1]}) as Hs by (vm_compute; reflexivity).
  intros k p Hk. rewrite Hs in Hk. apply lookup_singleton_Some in Hk as [_ <-].
  vm_compute. by eexists.
Qed.



Lemma session_stop_spec_witness :
  let b := message_bytes (destroy_message MW_MASTER_CHANNEL_ID 7) in
  exists w', mwSession_stop (quiet_env 0) 7 logging_in = Some (tt, w')
    /\ cur w' = mwSession_STOPPED /\ s_state_info (w_session w') = Word 7
    /\ s_buf (w_session w') = rb_empty /\ services_step stop_sv logging_in w'
    /\ w_log w' = w_log logging_in ++
         [EvState mwSession_STOPPING; EvWrite b 0; EvClose; EvState mwSession_STOPPED].
Proof.
  cbv zeta. apply (session_stop_spec (quiet_env 0) (fun _ => 0)).
  - apply quiet_calm.
  - apply quiet_table_values.
  - done.
  - apply logging_in_alive.
  - done.
  - vm_compute. discriminate.
  - vm_compute. discriminate.
Defined.
